(* ===== verification/_CoqProject ===== *)
-Q . S2P
Prelude.v
Unicode.v
JsString.v
JsInt.v
Utf8.v
Url.v
JsRegExp.v
Diff.v
Zip.v
JsJson.v
JsStringify.v
I18nDict.v
I18n.v
JsNumber.v
MathText.v
Repair.v
Parsers.v
ParsersSpec.v
Thread.v
ThreadSpec.v
Api.v
Gate.v
SseProxy.v
Messages.v
PendingFollow.v
WebAuthn.v
Decisions.v
VoiceAudio.v
VoiceText.v
Export.v
Skills.v
Preferences.v
Attachments.v
Support.v
VoiceMode.v
VoiceModeSpec.v
ImagePage.v
VideoPage.v
Turn.v
TurnSpec.v
Playground.v
PlaygroundSpec.v
PlaygroundTabs.v
AskQuestion.v
ThreadMessage.v
Memory.v
Security.v
SecuritySpec.v
PageSeed.v
Home.v
Shared.v
DecisionsPage.v
Users.v
Admin.v
OcrText.v
OcrPage.v
Snippets.v
Keys.v
VoicePage.v
Search.v
Request.v
Login.v
Ranking.v
Heatmap.v
Config.v
Storage.v
Layout.v
Appearance.v
Settings.v
Packages.v
AdminTabs.v
SlashMenu.v
History.v
Panel.v
FileViews.v
PlaygroundSettings.v
Dictation.v
Composer.v
Thinking.v
Account.v
