(* ===== verification/Prelude.v ===== *)
(** * Verification of the portal frontend (dgx-portal-frontend)

    The portal is a Next.js application in TypeScript in front of a backend that
    runs models on one machine: a playground where a user talks to a model and
    gets files, pages that make images and videos, voice, decisions, the memory
    of the assistant, the security of the account, a support assistant that can
    act.  This development models the code of src/dgx-portal-frontend: the
    library (lib/), the request pipeline (proxy.ts) and the pages whose logic is
    their own.  The backend, the browser and the packages are on the other side
    of the model: what they answer is an argument or an event.

    ** How the program is modelled

    A string is its list of UTF-16 code units ([jstr]), so lengths and indices
    are those the source computes; [u] writes a literal.  A JSON value is
    [json], a number a binary64 ([num]) or an integer where the source only
    counts, a regular expression the source's own pattern, parsed by [rx] and
    run by the backtracking matcher of the specification.  A [Map] or an object
    used as one keeps its insertion order: it is an association list.  Code that
    throws is an [option] or a sum.

    A pure function of the source is a function of the same name.  A React
    component is a record of its state, one function per handler, and a type of
    events: what the user does, the answers of the requests, timers.  A handler
    that awaits is cut where it awaits: its request joins a list in the state
    ([awaited], [posts], [timers] ...) and the rest of the handler is the
    function of its answer, so that answers come in any order, late or never.
    [..._run] plays a list of events; what is asked, said or saved is in a trace
    ([asked], [log] ...).  A theorem on [..._run] holds for every interleaving.

    ** The files

    The runtime.  Prelude (tactics, lists), Unicode, JsString, JsInt, JsNumber,
    JsRegExp, JsJson, JsStringify, Utf8, Url: the parts of
    JavaScript the source uses, with their laws ([JSON.parse] reads back [JSON.stringify]; a UTF-8
    decoder fed by chunks; the matcher finds what a pattern says).

    The library.
    - I18nDict, I18n (lib/i18n.tsx): the dictionary, the translation of the
      sentences of the server with values in them.
    - MathText (lib/maths.tsx, lib/markdown.tsx): the formulas taken out of an
      answer and put back, the links that are let through.
    - Repair, Parsers, ParsersSpec (lib/playground-parsers.ts): the JSON a model
      writes, repaired; edits, questionnaires, continuations of a file.
    - Thread, ThreadSpec (lib/playground-thread.ts): the files of a conversation
      rebuilt from its messages, their versions, what looks cut.
    - Messages, PendingFollow (lib/playground-messages.ts, lib/conversations.ts):
      what is saved of a conversation and what comes back, the live turn, an
      answer followed after a reload.
    - Api (lib/api.ts), SseProxy (lib/sseProxy.ts), Gate (lib/backend.ts,
      lib/session-gate.ts, proxy.ts): requests and their verdicts, the stream
      reader, the relay and its timeout, who may see which page.
    - WebAuthn, Decisions, VoiceAudio, VoiceText, Export, Skills, Diff, Zip,
      Dictation (files of the same names in lib/; Export also lib/notices.ts,
      VoiceAudio also lib/audioRecorder.ts).
    - PageSeed (lib/seed.ts, lib/server-api.ts, app/(app)/page.tsx): the data a
      page is rendered with; Shared: the token, the identity of the deployment,
      the copy of a text, the scroll that follows its end.

    The pages.
    - Turn, TurnSpec, Playground, PlaygroundSpec, PlaygroundTabs, Preferences,
      Attachments (app/(app)/playground/PlaygroundPage.tsx): one turn of a model,
      the page around it (sending, queue, automatic resumes, checkpoints, tabs,
      history), what it keeps in the browser, the files joined to a message.
      Playground is built on Turn, Turn on Parsers, Thread, Api and Messages.
    - ThreadMessage, AskQuestion, VoiceMode, VoiceModeSpec (the components of the
      playground of these names); VoiceMode drives the player and the microphone
      of VoiceAudio and cuts the text with VoiceText.
    - Support (support/SupportPage.tsx); ImagePage, VideoPage (image/, video/);
      Memory (memory/); Security, SecuritySpec (_components/SecurityContent.tsx, SessionsList.tsx; a key is
      created with WebAuthn); Home (HomePage.tsx, on Messages);
      DecisionsPage (decisions/, lib/decision-examples.ts, on Decisions); Users
      (admin/_components/UsersSection.tsx and users/, on Api); Admin
      (admin/AdminPage.tsx, ModelsTab.tsx, ConfirmActionDialog.tsx);
      OcrText, OcrPage (ocr/OcrPage.tsx); Keys (keys/_components/KeysContent.tsx,
      on Snippets, lib/integrationSnippets.ts).
    - Around the thread of the playground: SlashMenu (SkillsMenu.tsx,
      SkillCreator.tsx and the slash of the page), History (HistoryDialog.tsx,
      PlaygroundActions.tsx, SummaryDialog.tsx and the titles of the page; on
      Playground), Panel (DocumentPanel.tsx and the panel of the page; on
      Thread), FileViews (FileCard.tsx, FileEdits.tsx, FilesDialog.tsx,
      ContextDialog.tsx; on Diff and Zip), PlaygroundSettings (SettingsPanel.tsx,
      SettingsOverlay.tsx; on Preferences), Composer (PlaygroundComposer.tsx,
      ContextRing.tsx, SnippetsDialog.tsx, ThreadTabs.tsx; on Playground and
      Attachments), Thinking (ReasoningBlock.tsx, ThinkingIndicator.tsx,
      DictateButton.tsx; on Dictation).
    - VoicePage (voice/), Search (search/), Request (request/), Login
      (app/login, app/setup; on WebAuthn), Ranking, Heatmap (ranking/), Config,
      Storage, AdminTabs (the other tabs of admin/), Layout (AppLayout.tsx and
      what it shows), Appearance (app/theme-provider.tsx, lib/themes.ts), Settings
      and Packages (_components/SettingsDialog.tsx and settings/), Account
      (AccountSection.tsx, UsageSection.tsx, the drawer of an account in admin/,
      the records of ranking/; on Heatmap and Users).

    ** What the theorems show

    - The playground as a whole: one turn at a time, a message that leaves the
      composer once, with its files; a queue that refines a list of messages to
      send, each event doing what this list allows and nothing else; a page that
      comes to rest (the automatic resumes are bounded) with nothing written nor
      queued, unless a turn ends in a questionnaire that cannot be read, which
      the code throws on; an answer of a page with a token saved in one place and
      never in another conversation, a stop after which nothing is sent; tabs
      that come back as they were, under names that never come back.
    - A turn: what is sent is the conversation with its texts, its last eight
      images and the files it holds, within the model's bound; what is left is
      the answer with its reasoning, never empty.
    - The files: a continuation never loses the files of a conversation, a
      splice removes little, an edit changes what it says, a message has one card
      for each of its files and at its place, a conversation within the bounds of
      the server comes back with the same files, the archive reads back as its
      files, the diff is one of least length.
    - What a model writes: balanced JSON after a repair, bounded questionnaires,
      formulas that come back in place, links that no browser reads as a script,
      the words of a scanned document (but loose text in lists, tables apart)
      kept.
    - Access and confirmation: what becomes of each request at the proxy (not
      found, another backend, /login, served) and the policy on scripts of what is
      served; no action on the keys leaves without the password, no
      sensitive action without a click, no account deleted by an administrator
      without the word typed in its dialog, nor twice; no model stopped or deleted
      outside its dialog and one action at a time, no key revoked without its
      confirmation or shown in clear unasked, a session for every page behind the
      sign-in, a setting put back as it was when it is refused.
    - What is kept and shown: the history changes titles only, the panel shows
      the version it says and the preview of the page it shows, an archive has
      the last version of each file, a search shows the answer of what is typed
      (when more is asked only of what is on screen); a decision that passes has
      the form the backend asks for but in three cases, which are named.
    - Streams, polls and time: the reader gives the same packets however the
      bytes are cut, the relay cuts only silence, the polls end, a job is
      followed to its end whatever the order of the answers, the voice says the
      sentences of an answer once and in order from where it starts or resumes;
      the microphones of the voice page are one for what it records, one for each
      file in the making and those of the files that could not be made.
    - What the program does not do as it means to is proved too, as lemmas and
      examples next to these theorems: a late answer that undoes a newer one, a
      warning that is never shown, a job that nothing stops.

    ** Bounds and fuel

    The repair loops and the replay of a thread are structural on the text or
    the messages.  A repetition of the matcher has the length of the text for
    fuel: each turn of it consumes a unit (an empty one is dropped, as the
    specification says), and more fuel does not change the result
    ([JsRegExp.rep_loop_fuel]).  [JSON.parse] is given more than the length of
    its text and each call consumes some; the round trip shows that it is enough
    for every printed value.  The walk of the diff has the lengths of both
    files, proved enough with its result.  The limits of the source (polls,
    resumes, questions, characters, cells of the diff) are the constants of the
    source.  The voice loop and the streams are step relations or runs over a
    list of events and need no fuel; that they end is stated where the code
    ends.

    ** What is not modelled

    Markup and styles, the wiring of React (a render after every event is taken
    for granted), the browser's own objects (audio graph, bitmaps, clipboard,
    credentials, media queries), KaTeX and the markdown parser, network and
    storage: arguments or events.  [Number::toString], [toLocaleString],
    [Date.parse], the clock and random identifiers are arguments.  Case mapping
    leaves out the final sigma and the supplementary planes.  The backend
    (src/portal-rs), the runner and the scripts are other programs in other
    languages; of the first, two functions that a claim on the pages rests on are
    modelled: what a save keeps of a conversation (in Messages) and the check of
    the shape of a decision (in Decisions).  Of the pages, the blocks that only lay out what they are given
    (placeholders, letters of the thinking indicator, curves of the charts) and
    scrolling are left out. *)

From Stdlib Require Export ZArith NArith Lia.
From Stdlib Require Import Sorted.
From stdpp Require Export prelude numbers list.

(** ** Notations and hints *)

(** [x |> f]: a state passed through the updates of a handler. *)
Declare Scope flow_scope.
Delimit Scope flow_scope with flow.
Notation "x |> f" := (f x) (at level 69, left associativity, only parsing) : flow_scope.
#[global] Open Scope flow_scope.

(** Facts on the files of a thread ([ThreadSpec]). *)
Create HintDb thread.

(** ** Tactics of the development *)

(** Split every boolean conjunction and turn boolean tests of the context into
    propositions. *)
Ltac bool_norm :=
  repeat match goal with
  | H : _ && _ = true |- _ => apply andb_true_iff in H; destruct H
  | H : _ || _ = false |- _ => apply orb_false_iff in H; destruct H
  | H : negb _ = true |- _ => apply negb_true_iff in H
  | H : negb _ = false |- _ => apply negb_false_iff in H
  | H : bool_decide _ = true |- _ => apply bool_decide_eq_true in H
  | H : bool_decide _ = false |- _ => apply bool_decide_eq_false in H
  | H : N.eqb _ _ = true |- _ => apply N.eqb_eq in H
  | H : N.eqb _ _ = false |- _ => apply N.eqb_neq in H
  | H : Nat.eqb _ _ = true |- _ => apply Nat.eqb_eq in H
  | H : Nat.eqb _ _ = false |- _ => apply Nat.eqb_neq in H
  | H : Nat.leb _ _ = true |- _ => apply Nat.leb_le in H
  | H : Nat.leb _ _ = false |- _ => apply Nat.leb_gt in H
  | H : Nat.ltb _ _ = true |- _ => apply Nat.ltb_lt in H
  | H : Nat.ltb _ _ = false |- _ => apply Nat.ltb_ge in H
  | H : N.leb _ _ = true |- _ => apply N.leb_le in H
  | H : N.leb _ _ = false |- _ => apply N.leb_gt in H
  | H : N.ltb _ _ = true |- _ => apply N.ltb_lt in H
  | H : N.ltb _ _ = false |- _ => apply N.ltb_ge in H
  | H : Z.leb _ _ = true |- _ => apply Z.leb_le in H
  | H : Z.leb _ _ = false |- _ => apply Z.leb_gt in H
  | H : Z.ltb _ _ = true |- _ => apply Z.ltb_lt in H
  | H : Z.ltb _ _ = false |- _ => apply Z.ltb_ge in H
  | H : Z.eqb _ _ = true |- _ => apply Z.eqb_eq in H
  | H : Z.eqb _ _ = false |- _ => apply Z.eqb_neq in H
  end.

(** Case analysis on the innermost conditional or match of the goal. *)
Ltac break_if :=
  match goal with
  | |- context [if ?b then _ else _] => destruct b eqn:?
  end.
Ltac break_inner_if :=
  match goal with
  | |- context [if ?b then _ else _] =>
      lazymatch b with
      | context [if _ then _ else _] => fail
      | _ => destruct b eqn:?
      end
  end.
Ltac break_match :=
  match goal with
  | |- context [match ?b with _ => _ end] => destruct b eqn:?
  end.

(** ** Lists *)

Section lists.
Context {A : Type}.
Implicit Types (l : list A) (p : A -> bool).

(** Index of the first element that satisfies [p]. *)
Fixpoint find_index p l : option nat :=
  match l with
  | [] => None
  | x :: l' => if p x then Some 0 else S <$> find_index p l'
  end.

Fixpoint drop_while p l : list A :=
  match l with
  | [] => []
  | x :: l' => if p x then drop_while p l' else l
  end.

Fixpoint take_while p l : list A :=
  match l with
  | [] => []
  | x :: l' => if p x then x :: take_while p l' else []
  end.

Definition drop_while_end p l : list A := rev (drop_while p (rev l)).

Lemma take_drop_while p l : take_while p l ++ drop_while p l = l.
Proof. induction l as [|x l IH]; simpl; [done|]. destruct (p x); simpl; congruence. Qed.

Lemma drop_while_suffix p l : exists k, k `suffix_of` l /\ drop_while p l = k.
Proof. exists (drop_while p l). split; [|done]. exists (take_while p l). by rewrite take_drop_while. Qed.

Lemma length_drop_while p l : length (drop_while p l) <= length l.
Proof. induction l as [|x l IH]; simpl; [lia|]. destruct (p x); simpl; lia. Qed.

Lemma drop_while_head p l x k : drop_while p l = x :: k -> p x = false.
Proof. induction l as [|y l IH]; simpl; [done|]. destruct (p y) eqn:E; [auto|]. by intros [= -> ->]. Qed.

Lemma drop_while_end_prefix p l : exists k, l = drop_while_end p l ++ k.
Proof.
  exists (rev (take_while p (rev l))). unfold drop_while_end.
  by rewrite <- rev_app_distr, take_drop_while, rev_involutive.
Qed.

Lemma length_drop_while_end p l : length (drop_while_end p l) <= length l.
Proof. unfold drop_while_end. rewrite length_rev. pose proof (length_drop_while p (rev l)).
  rewrite length_rev in H. done. Qed.

Lemma drop_while_app p a b :
  drop_while p (a ++ b) = if forallb p a then drop_while p b else drop_while p a ++ b.
Proof.
  induction a as [|x a IH]; cbn [app drop_while forallb]; [done|].
  destruct (p x); cbn [andb]; [exact IH|done].
Qed.
Lemma drop_while_all p l : forallb p l = true -> drop_while p l = [].
Proof. induction l as [|x l IH]; cbn [drop_while forallb]; [done|]. by destruct (p x). Qed.
Lemma forallb_rev p l : forallb p (rev l) = forallb p l.
Proof.
  induction l as [|x l IH]; cbn [rev forallb]; [done|]. rewrite forallb_app, IH. cbn [forallb].
  by rewrite andb_true_r, andb_comm.
Qed.
Lemma drop_while_end_cons p x l :
  drop_while_end p (x :: l) = if forallb p (x :: l) then [] else x :: drop_while_end p l.
Proof.
  unfold drop_while_end. cbn [rev forallb]. rewrite drop_while_app, forallb_rev. cbn [drop_while].
  destruct (p x); cbn [andb]; destruct (forallb p l) eqn:E; cbn [rev app]; try done.
  - by rewrite rev_app_distr.
  - rewrite drop_while_all; [done|]. by rewrite forallb_rev.
  - by rewrite rev_app_distr.
Qed.

Lemma find_index_Some p l i :
  find_index p l = Some i ->
  (exists x, l !! i = Some x /\ p x = true) /\ (forall j y, j < i -> l !! j = Some y -> p y = false).
Proof.
  revert i. induction l as [|x l IH]; simpl; intros i; [done|].
  destruct (p x) eqn:E.
  - intros [= <-]. split; [by eexists|]. intros; lia.
  - destruct (find_index p l) as [k|] eqn:F; [|done]. intros [= <-].
    destruct (IH k eq_refl) as [H1 H2]. split; [done|].
    intros [|j] y Hj; simpl; [by intros [= ->]|]. apply H2. lia.
Qed.

Lemma find_index_None p l : find_index p l = None -> forall x, x ∈ l -> p x = false.
Proof.
  induction l as [|x l IH]; simpl; intros H y Hy; [by apply elem_of_nil in Hy|].
  destruct (p x) eqn:E; [done|]. destruct (find_index p l) eqn:F; [done|].
  apply elem_of_cons in Hy as [->|Hy]; [done|auto].
Qed.

Lemma last_snoc_inv l x : last l = Some x -> exists k, l = k ++ [x].
Proof.
  induction l as [|y l IH] using rev_ind; [done|].
  rewrite last_snoc. intros [= ->]. by exists l.
Qed.
End lists.

Lemma existsb_false_iff {A} (p : A -> bool) l :
  existsb p l = false <-> Forall (fun x => p x = false) l.
Proof.
  induction l as [|x l IH]; simpl; [split; [constructor|done]|].
  rewrite orb_false_iff, IH, Forall_cons. done.
Qed.

(** Elements counted by a predicate, and the one that leaves the list. *)
Lemma count_app {A} (f : A -> bool) a b : length (List.filter f (a ++ b)) = length (List.filter f a) + length (List.filter f b).
Proof. by rewrite List.filter_app, length_app. Qed.
Lemma count_delete {A} (f : A -> bool) l i (x : A) : l !! i = Some x ->
  length (List.filter f l) = Nat.b2n (f x) + length (List.filter f (delete i l)).
Proof.
  intros H. rewrite <- (take_drop_middle l i x H) at 1. rewrite delete_take_drop, !count_app. cbn [List.filter].
  destruct (f x); cbn [length Nat.b2n]; lia.
Qed.

(** ** [sort] with a comparison: stable *)

Fixpoint put {A} (le : A -> A -> bool) (x : A) (l : list A) : list A :=
  match l with [] => [x] | y :: r => if le y x then y :: put le x r else x :: l end.
Definition sort_by {A} (le : A -> A -> bool) (l : list A) : list A := foldl (fun acc x => put le x acc) [] l.
Lemma put_perm {A} (le : A -> A -> bool) x l : Permutation (put le x l) (x :: l).
Proof. induction l as [|y l IH]; [done|]. cbn [put]. destruct (le y x); [|done]. rewrite IH. constructor. Qed.
Lemma sort_by_perm {A} (le : A -> A -> bool) l : Permutation (sort_by le l) l.
Proof.
  unfold sort_by. assert (G : forall acc, Permutation (foldl (fun acc x => put le x acc) acc l) (acc ++ l)); [|apply (G [])].
  induction l as [|x l IH]; intros acc; cbn [foldl]; [by rewrite app_nil_r|]. rewrite IH, put_perm. apply Permutation_middle.
Qed.

Section sort.
Context {A} (le : A -> A -> bool).
Context (le_total : forall x y, le x y = true \/ le y x = true) (le_trans : forall x y z, le x y = true -> le y z = true -> le x z = true).
Lemma put_sorted x l : StronglySorted (fun a b => le a b = true) l -> StronglySorted (fun a b => le a b = true) (put le x l).
Proof using le_total le_trans.
  induction 1 as [|y l S IH F]; cbn [put]; [repeat constructor|]. destruct (le y x) eqn:E.
  - constructor; [exact IH|]. rewrite put_perm. by constructor.
  - assert (X : le x y = true) by (destruct (le_total x y); congruence). constructor; [by constructor|]. constructor; [done|].
    rewrite Forall_forall in *. intros z Z. apply (le_trans _ y); [done|]. by apply F.
Qed.
Lemma sort_by_sorted l : StronglySorted (fun a b => le a b = true) (sort_by le l).
Proof using le_total le_trans.
  unfold sort_by. assert (G : forall acc, StronglySorted (fun a b => le a b = true) acc -> StronglySorted (fun a b => le a b = true) (foldl (fun acc x => put le x acc) acc l)); [|apply G; constructor].
  induction l as [|x l IH]; intros acc S; cbn [foldl]; [done|]. by apply IH, put_sorted.
Qed.
(** Elements that the comparison holds for equal keep their order. *)
Lemma put_stable (p : A -> bool) x l : StronglySorted (fun a b => le a b = true) l ->
  (forall y, p y = true -> p x = true -> le y x = true) -> List.filter p (put le x l) = List.filter p l ++ (if p x then [x] else []).
Proof using le_trans.
  intros S H. induction S as [|y l S IH F]; cbn [put]; [cbn; by destruct (p x)|]. destruct (le y x) eqn:E; cbn [List.filter].
  - rewrite IH. by destruct (p y).
  - destruct (p x) eqn:X; [|by rewrite app_nil_r]. assert (N : List.filter p (y :: l) = []).
    { assert (G : forall z, z = y \/ z ∈ l -> p z = false).
      { intros z Z. destruct (p z) eqn:P; [|done]. specialize (H z P eq_refl). exfalso. destruct Z as [->|Z]; [congruence|]. rewrite Forall_forall in F. rewrite (le_trans y z x) in E; [done|by apply F|done]. }
      cbn [List.filter]. rewrite (G y) by (by left). assert (K : forall z, z ∈ l -> p z = false) by (intros z Z; apply G; by right). clear -K. induction l as [|z l IH]; [done|]. cbn [List.filter]. rewrite K by (by left). apply IH. intros w W. apply K. by right. }
    cbn [List.filter] in N. rewrite N. done.
Qed.
Lemma sort_by_stable (p : A -> bool) l : (forall x y, p x = true -> p y = true -> le x y = true) -> List.filter p (sort_by le l) = List.filter p l.
Proof using le_total le_trans.
  intros H. unfold sort_by. assert (G : forall acc, StronglySorted (fun a b => le a b = true) acc -> List.filter p (foldl (fun acc x => put le x acc) acc l) = List.filter p acc ++ List.filter p l); [|apply (G []); constructor].
  induction l as [|x l IH]; intros acc S; cbn [foldl]; [by rewrite app_nil_r|]. rewrite IH by (by apply put_sorted). rewrite put_stable; [|done|by intros; apply H]. rewrite <- app_assoc. f_equal. cbn [List.filter]. by destruct (p x).
Qed.
End sort.
