(* ===== verification/Unicode.v ===== *)
(** * Unicode tables of the JavaScript runtime

    Lower-case mappings and canonical decompositions of the Basic Multilingual
    Plane, as [String.prototype.toLowerCase] and
    [String.prototype.normalize("NFD")] use them.  A lower-case row
    [(lo, hi, step, delta)] says that [lo], [lo+step], ..., [hi] map to
    themselves plus [delta]. *)

From S2P Require Import Prelude.

Definition lr (lo hi step : N) (delta : Z) : N * N * N * Z := (lo, hi, step, delta).

Definition lower_ranges : list (N * N * N * Z) :=
[lr 65 90 1 32; lr 192 214 1 32; lr 216 222 1 32; lr 256 302 2 1; lr 306 310 2 1; lr 313 327 2 1;
lr 330 374 2 1; lr 376 376 1 (-121); lr 377 381 2 1; lr 385 385 1 210; lr 386 388 2 1; lr 390 390 1 206;
lr 391 391 1 1; lr 393 394 1 205; lr 395 395 1 1; lr 398 398 1 79; lr 399 399 1 202; lr 400 400 1 203;
lr 401 401 1 1; lr 403 403 1 205; lr 404 404 1 207; lr 406 406 1 211; lr 407 407 1 209; lr 408 408 1 1;
lr 412 412 1 211; lr 413 413 1 213; lr 415 415 1 214; lr 416 420 2 1; lr 422 422 1 218; lr 423 423 1 1;
lr 425 425 1 218; lr 428 428 1 1; lr 430 430 1 218; lr 431 431 1 1; lr 433 434 1 217; lr 435 437 2 1;
lr 439 439 1 219; lr 440 440 1 1; lr 444 444 1 1; lr 452 452 1 2; lr 453 453 1 1; lr 455 455 1 2;
lr 456 456 1 1; lr 458 458 1 2; lr 459 475 2 1; lr 478 494 2 1; lr 497 497 1 2; lr 498 500 2 1;
lr 502 502 1 (-97); lr 503 503 1 (-56); lr 504 542 2 1; lr 544 544 1 (-130); lr 546 562 2 1; lr 570 570 1 10795;
lr 571 571 1 1; lr 573 573 1 (-163); lr 574 574 1 10792; lr 577 577 1 1; lr 579 579 1 (-195); lr 580 580 1 69;
lr 581 581 1 71; lr 582 590 2 1; lr 880 882 2 1; lr 886 886 1 1; lr 895 895 1 116; lr 902 902 1 38;
lr 904 906 1 37; lr 908 908 1 64; lr 910 911 1 63; lr 913 929 1 32; lr 931 939 1 32; lr 975 975 1 8;
lr 984 1006 2 1; lr 1012 1012 1 (-60); lr 1015 1015 1 1; lr 1017 1017 1 (-7); lr 1018 1018 1 1; lr 1021 1023 1 (-130);
lr 1024 1039 1 80; lr 1040 1071 1 32; lr 1120 1152 2 1; lr 1162 1214 2 1; lr 1216 1216 1 15; lr 1217 1229 2 1;
lr 1232 1326 2 1; lr 1329 1366 1 48; lr 4256 4293 1 7264; lr 4295 4295 1 7264; lr 4301 4301 1 7264; lr 5024 5103 1 38864;
lr 5104 5109 1 8; lr 7312 7354 1 (-3008); lr 7357 7359 1 (-3008); lr 7680 7828 2 1; lr 7838 7838 1 (-7615); lr 7840 7934 2 1;
lr 7944 7951 1 (-8); lr 7960 7965 1 (-8); lr 7976 7983 1 (-8); lr 7992 7999 1 (-8); lr 8008 8013 1 (-8); lr 8025 8031 2 (-8);
lr 8040 8047 1 (-8); lr 8072 8079 1 (-8); lr 8088 8095 1 (-8); lr 8104 8111 1 (-8); lr 8120 8121 1 (-8); lr 8122 8123 1 (-74);
lr 8124 8124 1 (-9); lr 8136 8139 1 (-86); lr 8140 8140 1 (-9); lr 8152 8153 1 (-8); lr 8154 8155 1 (-100); lr 8168 8169 1 (-8);
lr 8170 8171 1 (-112); lr 8172 8172 1 (-7); lr 8184 8185 1 (-128); lr 8186 8187 1 (-126); lr 8188 8188 1 (-9); lr 8486 8486 1 (-7517);
lr 8490 8490 1 (-8383); lr 8491 8491 1 (-8262); lr 8498 8498 1 28; lr 8544 8559 1 16; lr 8579 8579 1 1; lr 9398 9423 1 26;
lr 11264 11311 1 48; lr 11360 11360 1 1; lr 11362 11362 1 (-10743); lr 11363 11363 1 (-3814); lr 11364 11364 1 (-10727); lr 11367 11371 2 1;
lr 11373 11373 1 (-10780); lr 11374 11374 1 (-10749); lr 11375 11375 1 (-10783); lr 11376 11376 1 (-10782); lr 11378 11378 1 1; lr 11381 11381 1 1;
lr 11390 11391 1 (-10815); lr 11392 11490 2 1; lr 11499 11501 2 1; lr 11506 11506 1 1; lr 42560 42604 2 1; lr 42624 42650 2 1;
lr 42786 42798 2 1; lr 42802 42862 2 1; lr 42873 42875 2 1; lr 42877 42877 1 (-35332); lr 42878 42886 2 1; lr 42891 42891 1 1;
lr 42893 42893 1 (-42280); lr 42896 42898 2 1; lr 42902 42920 2 1; lr 42922 42922 1 (-42308); lr 42923 42923 1 (-42319); lr 42924 42924 1 (-42315);
lr 42925 42925 1 (-42305); lr 42926 42926 1 (-42308); lr 42928 42928 1 (-42258); lr 42929 42929 1 (-42282); lr 42930 42930 1 (-42261); lr 42931 42931 1 928;
lr 42932 42946 2 1; lr 42948 42948 1 (-48); lr 42949 42949 1 (-42307); lr 42950 42950 1 (-35384); lr 42951 42953 2 1; lr 42960 42960 1 1;
lr 42966 42968 2 1; lr 42997 42997 1 1; lr 65313 65338 1 32].

Definition nfd_table : list (N * list N) := (
[(192, [65; 768]); (193, [65; 769]); (194, [65; 770]); (195, [65; 771]); (196, [65; 776]);
(197, [65; 778]); (199, [67; 807]); (200, [69; 768]); (201, [69; 769]); (202, [69; 770]);
(203, [69; 776]); (204, [73; 768]); (205, [73; 769]); (206, [73; 770]); (207, [73; 776]);
(209, [78; 771]); (210, [79; 768]); (211, [79; 769]); (212, [79; 770]); (213, [79; 771]);
(214, [79; 776]); (217, [85; 768]); (218, [85; 769]); (219, [85; 770]); (220, [85; 776]);
(221, [89; 769]); (224, [97; 768]); (225, [97; 769]); (226, [97; 770]); (227, [97; 771]);
(228, [97; 776]); (229, [97; 778]); (231, [99; 807]); (232, [101; 768]); (233, [101; 769]);
(234, [101; 770]); (235, [101; 776]); (236, [105; 768]); (237, [105; 769]); (238, [105; 770]);
(239, [105; 776]); (241, [110; 771]); (242, [111; 768]); (243, [111; 769]); (244, [111; 770]);
(245, [111; 771]); (246, [111; 776]); (249, [117; 768]); (250, [117; 769]); (251, [117; 770]);
(252, [117; 776]); (253, [121; 769]); (255, [121; 776]); (256, [65; 772]); (257, [97; 772]);
(258, [65; 774]); (259, [97; 774]); (260, [65; 808]); (261, [97; 808]); (262, [67; 769]);
(263, [99; 769]); (264, [67; 770]); (265, [99; 770]); (266, [67; 775]); (267, [99; 775]);
(268, [67; 780]); (269, [99; 780]); (270, [68; 780]); (271, [100; 780]); (274, [69; 772]);
(275, [101; 772]); (276, [69; 774]); (277, [101; 774]); (278, [69; 775]); (279, [101; 775]);
(280, [69; 808]); (281, [101; 808]); (282, [69; 780]); (283, [101; 780]); (284, [71; 770]);
(285, [103; 770]); (286, [71; 774]); (287, [103; 774]); (288, [71; 775]); (289, [103; 775]);
(290, [71; 807]); (291, [103; 807]); (292, [72; 770]); (293, [104; 770]); (296, [73; 771]);
(297, [105; 771]); (298, [73; 772]); (299, [105; 772]); (300, [73; 774]); (301, [105; 774]);
(302, [73; 808]); (303, [105; 808]); (304, [73; 775]); (308, [74; 770]); (309, [106; 770]);
(310, [75; 807]); (311, [107; 807]); (313, [76; 769]); (314, [108; 769]); (315, [76; 807]);
(316, [108; 807]); (317, [76; 780]); (318, [108; 780]); (323, [78; 769]); (324, [110; 769]);
(325, [78; 807]); (326, [110; 807]); (327, [78; 780]); (328, [110; 780]); (332, [79; 772]);
(333, [111; 772]); (334, [79; 774]); (335, [111; 774]); (336, [79; 779]); (337, [111; 779]);
(340, [82; 769]); (341, [114; 769]); (342, [82; 807]); (343, [114; 807]); (344, [82; 780]);
(345, [114; 780]); (346, [83; 769]); (347, [115; 769]); (348, [83; 770]); (349, [115; 770]);
(350, [83; 807]); (351, [115; 807]); (352, [83; 780]); (353, [115; 780]); (354, [84; 807]);
(355, [116; 807]); (356, [84; 780]); (357, [116; 780]); (360, [85; 771]); (361, [117; 771]);
(362, [85; 772]); (363, [117; 772]); (364, [85; 774]); (365, [117; 774]); (366, [85; 778]);
(367, [117; 778]); (368, [85; 779]); (369, [117; 779]); (370, [85; 808]); (371, [117; 808]);
(372, [87; 770]); (373, [119; 770]); (374, [89; 770]); (375, [121; 770]); (376, [89; 776]);
(377, [90; 769]); (378, [122; 769]); (379, [90; 775]); (380, [122; 775]); (381, [90; 780]);
(382, [122; 780]); (416, [79; 795]); (417, [111; 795]); (431, [85; 795]); (432, [117; 795]);
(461, [65; 780]); (462, [97; 780]); (463, [73; 780]); (464, [105; 780]); (465, [79; 780]);
(466, [111; 780]); (467, [85; 780]); (468, [117; 780]); (469, [85; 776; 772]); (470, [117; 776; 772]);
(471, [85; 776; 769]); (472, [117; 776; 769]); (473, [85; 776; 780]); (474, [117; 776; 780]); (475, [85; 776; 768]);
(476, [117; 776; 768]); (478, [65; 776; 772]); (479, [97; 776; 772]); (480, [65; 775; 772]); (481, [97; 775; 772]);
(482, [198; 772]); (483, [230; 772]); (486, [71; 780]); (487, [103; 780]); (488, [75; 780]);
(489, [107; 780]); (490, [79; 808]); (491, [111; 808]); (492, [79; 808; 772]); (493, [111; 808; 772]);
(494, [439; 780]); (495, [658; 780]); (496, [106; 780]); (500, [71; 769]); (501, [103; 769]);
(504, [78; 768]); (505, [110; 768]); (506, [65; 778; 769]); (507, [97; 778; 769]); (508, [198; 769]);
(509, [230; 769]); (510, [216; 769]); (511, [248; 769]); (512, [65; 783]); (513, [97; 783]);
(514, [65; 785]); (515, [97; 785]); (516, [69; 783]); (517, [101; 783]); (518, [69; 785]);
(519, [101; 785]); (520, [73; 783]); (521, [105; 783]); (522, [73; 785]); (523, [105; 785]);
(524, [79; 783]); (525, [111; 783]); (526, [79; 785]); (527, [111; 785]); (528, [82; 783]);
(529, [114; 783]); (530, [82; 785]); (531, [114; 785]); (532, [85; 783]); (533, [117; 783]);
(534, [85; 785]); (535, [117; 785]); (536, [83; 806]); (537, [115; 806]); (538, [84; 806]);
(539, [116; 806]); (542, [72; 780]); (543, [104; 780]); (550, [65; 775]); (551, [97; 775]);
(552, [69; 807]); (553, [101; 807]); (554, [79; 776; 772]); (555, [111; 776; 772]); (556, [79; 771; 772]);
(557, [111; 771; 772]); (558, [79; 775]); (559, [111; 775]); (560, [79; 775; 772]); (561, [111; 775; 772]);
(562, [89; 772]); (563, [121; 772]); (832, [768]); (833, [769]); (835, [787]);
(836, [776; 769]); (884, [697]); (894, [59]); (901, [168; 769]); (902, [913; 769]);
(903, [183]); (904, [917; 769]); (905, [919; 769]); (906, [921; 769]); (908, [927; 769]);
(910, [933; 769]); (911, [937; 769]); (912, [953; 776; 769]); (938, [921; 776]); (939, [933; 776]);
(940, [945; 769]); (941, [949; 769]); (942, [951; 769]); (943, [953; 769]); (944, [965; 776; 769]);
(970, [953; 776]); (971, [965; 776]); (972, [959; 769]); (973, [965; 769]); (974, [969; 769]);
(979, [978; 769]); (980, [978; 776]); (1024, [1045; 768]); (1025, [1045; 776]); (1027, [1043; 769]);
(1031, [1030; 776]); (1036, [1050; 769]); (1037, [1048; 768]); (1038, [1059; 774]); (1049, [1048; 774]);
(1081, [1080; 774]); (1104, [1077; 768]); (1105, [1077; 776]); (1107, [1075; 769]); (1111, [1110; 776]);
(1116, [1082; 769]); (1117, [1080; 768]); (1118, [1091; 774]); (1142, [1140; 783]); (1143, [1141; 783]);
(1217, [1046; 774]); (1218, [1078; 774]); (1232, [1040; 774]); (1233, [1072; 774]); (1234, [1040; 776]);
(1235, [1072; 776]); (1238, [1045; 774]); (1239, [1077; 774]); (1242, [1240; 776]); (1243, [1241; 776]);
(1244, [1046; 776]); (1245, [1078; 776]); (1246, [1047; 776]); (1247, [1079; 776]); (1250, [1048; 772]);
(1251, [1080; 772]); (1252, [1048; 776]); (1253, [1080; 776]); (1254, [1054; 776]); (1255, [1086; 776]);
(1258, [1256; 776]); (1259, [1257; 776]); (1260, [1069; 776]); (1261, [1101; 776]); (1262, [1059; 772]);
(1263, [1091; 772]); (1264, [1059; 776]); (1265, [1091; 776]); (1266, [1059; 779]); (1267, [1091; 779]);
(1268, [1063; 776]); (1269, [1095; 776]); (1272, [1067; 776]); (1273, [1099; 776]); (1570, [1575; 1619]);
(1571, [1575; 1620]); (1572, [1608; 1620]); (1573, [1575; 1621]); (1574, [1610; 1620]); (1728, [1749; 1620]);
(1730, [1729; 1620]); (1747, [1746; 1620]); (2345, [2344; 2364]); (2353, [2352; 2364]); (2356, [2355; 2364]);
(2392, [2325; 2364]); (2393, [2326; 2364]); (2394, [2327; 2364]); (2395, [2332; 2364]); (2396, [2337; 2364]);
(2397, [2338; 2364]); (2398, [2347; 2364]); (2399, [2351; 2364]); (2507, [2503; 2494]); (2508, [2503; 2519]);
(2524, [2465; 2492]); (2525, [2466; 2492]); (2527, [2479; 2492]); (2611, [2610; 2620]); (2614, [2616; 2620]);
(2649, [2582; 2620]); (2650, [2583; 2620]); (2651, [2588; 2620]); (2654, [2603; 2620]); (2888, [2887; 2902]);
(2891, [2887; 2878]); (2892, [2887; 2903]); (2908, [2849; 2876]); (2909, [2850; 2876]); (2964, [2962; 3031]);
(3018, [3014; 3006]); (3019, [3015; 3006]); (3020, [3014; 3031]); (3144, [3142; 3158]); (3264, [3263; 3285]);
(3271, [3270; 3285]); (3272, [3270; 3286]); (3274, [3270; 3266]); (3275, [3270; 3266; 3285]); (3402, [3398; 3390]);
(3403, [3399; 3390]); (3404, [3398; 3415]); (3546, [3545; 3530]); (3548, [3545; 3535]); (3549, [3545; 3535; 3530]);
(3550, [3545; 3551]); (3907, [3906; 4023]); (3917, [3916; 4023]); (3922, [3921; 4023]); (3927, [3926; 4023]);
(3932, [3931; 4023]); (3945, [3904; 4021]); (3955, [3953; 3954]); (3957, [3953; 3956]); (3958, [4018; 3968]);
(3960, [4019; 3968]); (3969, [3953; 3968]); (3987, [3986; 4023]); (3997, [3996; 4023]); (4002, [4001; 4023]);
(4007, [4006; 4023]); (4012, [4011; 4023]); (4025, [3984; 4021]); (4134, [4133; 4142]); (6918, [6917; 6965]);
(6920, [6919; 6965]); (6922, [6921; 6965]); (6924, [6923; 6965]); (6926, [6925; 6965]); (6930, [6929; 6965]);
(6971, [6970; 6965]); (6973, [6972; 6965]); (6976, [6974; 6965]); (6977, [6975; 6965]); (6979, [6978; 6965]);
(7680, [65; 805]); (7681, [97; 805]); (7682, [66; 775]); (7683, [98; 775]); (7684, [66; 803]);
(7685, [98; 803]); (7686, [66; 817]); (7687, [98; 817]); (7688, [67; 807; 769]); (7689, [99; 807; 769]);
(7690, [68; 775]); (7691, [100; 775]); (7692, [68; 803]); (7693, [100; 803]); (7694, [68; 817]);
(7695, [100; 817]); (7696, [68; 807]); (7697, [100; 807]); (7698, [68; 813]); (7699, [100; 813]);
(7700, [69; 772; 768]); (7701, [101; 772; 768]); (7702, [69; 772; 769]); (7703, [101; 772; 769]); (7704, [69; 813]);
(7705, [101; 813]); (7706, [69; 816]); (7707, [101; 816]); (7708, [69; 807; 774]); (7709, [101; 807; 774]);
(7710, [70; 775]); (7711, [102; 775]); (7712, [71; 772]); (7713, [103; 772]); (7714, [72; 775]);
(7715, [104; 775]); (7716, [72; 803]); (7717, [104; 803]); (7718, [72; 776]); (7719, [104; 776]);
(7720, [72; 807]); (7721, [104; 807]); (7722, [72; 814]); (7723, [104; 814]); (7724, [73; 816]);
(7725, [105; 816]); (7726, [73; 776; 769]); (7727, [105; 776; 769]); (7728, [75; 769]); (7729, [107; 769]);
(7730, [75; 803]); (7731, [107; 803]); (7732, [75; 817]); (7733, [107; 817]); (7734, [76; 803]);
(7735, [108; 803]); (7736, [76; 803; 772]); (7737, [108; 803; 772]); (7738, [76; 817]); (7739, [108; 817]);
(7740, [76; 813]); (7741, [108; 813]); (7742, [77; 769]); (7743, [109; 769]); (7744, [77; 775]);
(7745, [109; 775]); (7746, [77; 803]); (7747, [109; 803]); (7748, [78; 775]); (7749, [110; 775]);
(7750, [78; 803]); (7751, [110; 803]); (7752, [78; 817]); (7753, [110; 817]); (7754, [78; 813]);
(7755, [110; 813]); (7756, [79; 771; 769]); (7757, [111; 771; 769]); (7758, [79; 771; 776]); (7759, [111; 771; 776]);
(7760, [79; 772; 768]); (7761, [111; 772; 768]); (7762, [79; 772; 769]); (7763, [111; 772; 769]); (7764, [80; 769]);
(7765, [112; 769]); (7766, [80; 775]); (7767, [112; 775]); (7768, [82; 775]); (7769, [114; 775]);
(7770, [82; 803]); (7771, [114; 803]); (7772, [82; 803; 772]); (7773, [114; 803; 772]); (7774, [82; 817]);
(7775, [114; 817]); (7776, [83; 775]); (7777, [115; 775]); (7778, [83; 803]); (7779, [115; 803]);
(7780, [83; 769; 775]); (7781, [115; 769; 775]); (7782, [83; 780; 775]); (7783, [115; 780; 775]); (7784, [83; 803; 775]);
(7785, [115; 803; 775]); (7786, [84; 775]); (7787, [116; 775]); (7788, [84; 803]); (7789, [116; 803]);
(7790, [84; 817]); (7791, [116; 817]); (7792, [84; 813]); (7793, [116; 813]); (7794, [85; 804]);
(7795, [117; 804]); (7796, [85; 816]); (7797, [117; 816]); (7798, [85; 813]); (7799, [117; 813]);
(7800, [85; 771; 769]); (7801, [117; 771; 769]); (7802, [85; 772; 776]); (7803, [117; 772; 776]); (7804, [86; 771]);
(7805, [118; 771]); (7806, [86; 803]); (7807, [118; 803]); (7808, [87; 768]); (7809, [119; 768]);
(7810, [87; 769]); (7811, [119; 769]); (7812, [87; 776]); (7813, [119; 776]); (7814, [87; 775]);
(7815, [119; 775]); (7816, [87; 803]); (7817, [119; 803]); (7818, [88; 775]); (7819, [120; 775]);
(7820, [88; 776]); (7821, [120; 776]); (7822, [89; 775]); (7823, [121; 775]); (7824, [90; 770]);
(7825, [122; 770]); (7826, [90; 803]); (7827, [122; 803]); (7828, [90; 817]); (7829, [122; 817]);
(7830, [104; 817]); (7831, [116; 776]); (7832, [119; 778]); (7833, [121; 778]); (7835, [383; 775]);
(7840, [65; 803]); (7841, [97; 803]); (7842, [65; 777]); (7843, [97; 777]); (7844, [65; 770; 769]);
(7845, [97; 770; 769]); (7846, [65; 770; 768]); (7847, [97; 770; 768]); (7848, [65; 770; 777]); (7849, [97; 770; 777]);
(7850, [65; 770; 771]); (7851, [97; 770; 771]); (7852, [65; 803; 770]); (7853, [97; 803; 770]); (7854, [65; 774; 769]);
(7855, [97; 774; 769]); (7856, [65; 774; 768]); (7857, [97; 774; 768]); (7858, [65; 774; 777]); (7859, [97; 774; 777]);
(7860, [65; 774; 771]); (7861, [97; 774; 771]); (7862, [65; 803; 774]); (7863, [97; 803; 774]); (7864, [69; 803]);
(7865, [101; 803]); (7866, [69; 777]); (7867, [101; 777]); (7868, [69; 771]); (7869, [101; 771]);
(7870, [69; 770; 769]); (7871, [101; 770; 769]); (7872, [69; 770; 768]); (7873, [101; 770; 768]); (7874, [69; 770; 777]);
(7875, [101; 770; 777]); (7876, [69; 770; 771]); (7877, [101; 770; 771]); (7878, [69; 803; 770]); (7879, [101; 803; 770]);
(7880, [73; 777]); (7881, [105; 777]); (7882, [73; 803]); (7883, [105; 803]); (7884, [79; 803]);
(7885, [111; 803]); (7886, [79; 777]); (7887, [111; 777]); (7888, [79; 770; 769]); (7889, [111; 770; 769]);
(7890, [79; 770; 768]); (7891, [111; 770; 768]); (7892, [79; 770; 777]); (7893, [111; 770; 777]); (7894, [79; 770; 771]);
(7895, [111; 770; 771]); (7896, [79; 803; 770]); (7897, [111; 803; 770]); (7898, [79; 795; 769]); (7899, [111; 795; 769]);
(7900, [79; 795; 768]); (7901, [111; 795; 768]); (7902, [79; 795; 777]); (7903, [111; 795; 777]); (7904, [79; 795; 771]);
(7905, [111; 795; 771]); (7906, [79; 795; 803]); (7907, [111; 795; 803]); (7908, [85; 803]); (7909, [117; 803]);
(7910, [85; 777]); (7911, [117; 777]); (7912, [85; 795; 769]); (7913, [117; 795; 769]); (7914, [85; 795; 768]);
(7915, [117; 795; 768]); (7916, [85; 795; 777]); (7917, [117; 795; 777]); (7918, [85; 795; 771]); (7919, [117; 795; 771]);
(7920, [85; 795; 803]); (7921, [117; 795; 803]); (7922, [89; 768]); (7923, [121; 768]); (7924, [89; 803]);
(7925, [121; 803]); (7926, [89; 777]); (7927, [121; 777]); (7928, [89; 771]); (7929, [121; 771]);
(7936, [945; 787]); (7937, [945; 788]); (7938, [945; 787; 768]); (7939, [945; 788; 768]); (7940, [945; 787; 769]);
(7941, [945; 788; 769]); (7942, [945; 787; 834]); (7943, [945; 788; 834]); (7944, [913; 787]); (7945, [913; 788]);
(7946, [913; 787; 768]); (7947, [913; 788; 768]); (7948, [913; 787; 769]); (7949, [913; 788; 769]); (7950, [913; 787; 834]);
(7951, [913; 788; 834]); (7952, [949; 787]); (7953, [949; 788]); (7954, [949; 787; 768]); (7955, [949; 788; 768]);
(7956, [949; 787; 769]); (7957, [949; 788; 769]); (7960, [917; 787]); (7961, [917; 788]); (7962, [917; 787; 768]);
(7963, [917; 788; 768]); (7964, [917; 787; 769]); (7965, [917; 788; 769]); (7968, [951; 787]); (7969, [951; 788]);
(7970, [951; 787; 768]); (7971, [951; 788; 768]); (7972, [951; 787; 769]); (7973, [951; 788; 769]); (7974, [951; 787; 834]);
(7975, [951; 788; 834]); (7976, [919; 787]); (7977, [919; 788]); (7978, [919; 787; 768]); (7979, [919; 788; 768]);
(7980, [919; 787; 769]); (7981, [919; 788; 769]); (7982, [919; 787; 834]); (7983, [919; 788; 834]); (7984, [953; 787]);
(7985, [953; 788]); (7986, [953; 787; 768]); (7987, [953; 788; 768]); (7988, [953; 787; 769]); (7989, [953; 788; 769]);
(7990, [953; 787; 834]); (7991, [953; 788; 834]); (7992, [921; 787]); (7993, [921; 788]); (7994, [921; 787; 768]);
(7995, [921; 788; 768]); (7996, [921; 787; 769]); (7997, [921; 788; 769]); (7998, [921; 787; 834]); (7999, [921; 788; 834]);
(8000, [959; 787]); (8001, [959; 788]); (8002, [959; 787; 768]); (8003, [959; 788; 768]); (8004, [959; 787; 769]);
(8005, [959; 788; 769]); (8008, [927; 787]); (8009, [927; 788]); (8010, [927; 787; 768]); (8011, [927; 788; 768]);
(8012, [927; 787; 769]); (8013, [927; 788; 769]); (8016, [965; 787]); (8017, [965; 788]); (8018, [965; 787; 768]);
(8019, [965; 788; 768]); (8020, [965; 787; 769]); (8021, [965; 788; 769]); (8022, [965; 787; 834]); (8023, [965; 788; 834]);
(8025, [933; 788]); (8027, [933; 788; 768]); (8029, [933; 788; 769]); (8031, [933; 788; 834]); (8032, [969; 787]);
(8033, [969; 788]); (8034, [969; 787; 768]); (8035, [969; 788; 768]); (8036, [969; 787; 769]); (8037, [969; 788; 769]);
(8038, [969; 787; 834]); (8039, [969; 788; 834]); (8040, [937; 787]); (8041, [937; 788]); (8042, [937; 787; 768]);
(8043, [937; 788; 768]); (8044, [937; 787; 769]); (8045, [937; 788; 769]); (8046, [937; 787; 834]); (8047, [937; 788; 834]);
(8048, [945; 768]); (8049, [945; 769]); (8050, [949; 768]); (8051, [949; 769]); (8052, [951; 768]);
(8053, [951; 769]); (8054, [953; 768]); (8055, [953; 769]); (8056, [959; 768]); (8057, [959; 769]);
(8058, [965; 768]); (8059, [965; 769]); (8060, [969; 768]); (8061, [969; 769]); (8064, [945; 787; 837]);
(8065, [945; 788; 837]); (8066, [945; 787; 768; 837]); (8067, [945; 788; 768; 837]); (8068, [945; 787; 769; 837]); (8069, [945; 788; 769; 837]);
(8070, [945; 787; 834; 837]); (8071, [945; 788; 834; 837]); (8072, [913; 787; 837]); (8073, [913; 788; 837]); (8074, [913; 787; 768; 837]);
(8075, [913; 788; 768; 837]); (8076, [913; 787; 769; 837]); (8077, [913; 788; 769; 837]); (8078, [913; 787; 834; 837]); (8079, [913; 788; 834; 837]);
(8080, [951; 787; 837]); (8081, [951; 788; 837]); (8082, [951; 787; 768; 837]); (8083, [951; 788; 768; 837]); (8084, [951; 787; 769; 837]);
(8085, [951; 788; 769; 837]); (8086, [951; 787; 834; 837]); (8087, [951; 788; 834; 837]); (8088, [919; 787; 837]); (8089, [919; 788; 837]);
(8090, [919; 787; 768; 837]); (8091, [919; 788; 768; 837]); (8092, [919; 787; 769; 837]); (8093, [919; 788; 769; 837]); (8094, [919; 787; 834; 837]);
(8095, [919; 788; 834; 837]); (8096, [969; 787; 837]); (8097, [969; 788; 837]); (8098, [969; 787; 768; 837]); (8099, [969; 788; 768; 837]);
(8100, [969; 787; 769; 837]); (8101, [969; 788; 769; 837]); (8102, [969; 787; 834; 837]); (8103, [969; 788; 834; 837]); (8104, [937; 787; 837]);
(8105, [937; 788; 837]); (8106, [937; 787; 768; 837]); (8107, [937; 788; 768; 837]); (8108, [937; 787; 769; 837]); (8109, [937; 788; 769; 837]);
(8110, [937; 787; 834; 837]); (8111, [937; 788; 834; 837]); (8112, [945; 774]); (8113, [945; 772]); (8114, [945; 768; 837]);
(8115, [945; 837]); (8116, [945; 769; 837]); (8118, [945; 834]); (8119, [945; 834; 837]); (8120, [913; 774]);
(8121, [913; 772]); (8122, [913; 768]); (8123, [913; 769]); (8124, [913; 837]); (8126, [953]);
(8129, [168; 834]); (8130, [951; 768; 837]); (8131, [951; 837]); (8132, [951; 769; 837]); (8134, [951; 834]);
(8135, [951; 834; 837]); (8136, [917; 768]); (8137, [917; 769]); (8138, [919; 768]); (8139, [919; 769]);
(8140, [919; 837]); (8141, [8127; 768]); (8142, [8127; 769]); (8143, [8127; 834]); (8144, [953; 774]);
(8145, [953; 772]); (8146, [953; 776; 768]); (8147, [953; 776; 769]); (8150, [953; 834]); (8151, [953; 776; 834]);
(8152, [921; 774]); (8153, [921; 772]); (8154, [921; 768]); (8155, [921; 769]); (8157, [8190; 768]);
(8158, [8190; 769]); (8159, [8190; 834]); (8160, [965; 774]); (8161, [965; 772]); (8162, [965; 776; 768]);
(8163, [965; 776; 769]); (8164, [961; 787]); (8165, [961; 788]); (8166, [965; 834]); (8167, [965; 776; 834]);
(8168, [933; 774]); (8169, [933; 772]); (8170, [933; 768]); (8171, [933; 769]); (8172, [929; 788]);
(8173, [168; 768]); (8174, [168; 769]); (8175, [96]); (8178, [969; 768; 837]); (8179, [969; 837]);
(8180, [969; 769; 837]); (8182, [969; 834]); (8183, [969; 834; 837]); (8184, [927; 768]); (8185, [927; 769]);
(8186, [937; 768]); (8187, [937; 769]); (8188, [937; 837]); (8189, [180]); (8192, [8194]);
(8193, [8195]); (8486, [937]); (8490, [75]); (8491, [65; 778]); (8602, [8592; 824]);
(8603, [8594; 824]); (8622, [8596; 824]); (8653, [8656; 824]); (8654, [8660; 824]); (8655, [8658; 824]);
(8708, [8707; 824]); (8713, [8712; 824]); (8716, [8715; 824]); (8740, [8739; 824]); (8742, [8741; 824]);
(8769, [8764; 824]); (8772, [8771; 824]); (8775, [8773; 824]); (8777, [8776; 824]); (8800, [61; 824]);
(8802, [8801; 824]); (8813, [8781; 824]); (8814, [60; 824]); (8815, [62; 824]); (8816, [8804; 824]);
(8817, [8805; 824]); (8820, [8818; 824]); (8821, [8819; 824]); (8824, [8822; 824]); (8825, [8823; 824]);
(8832, [8826; 824]); (8833, [8827; 824]); (8836, [8834; 824]); (8837, [8835; 824]); (8840, [8838; 824]);
(8841, [8839; 824]); (8876, [8866; 824]); (8877, [8872; 824]); (8878, [8873; 824]); (8879, [8875; 824]);
(8928, [8828; 824]); (8929, [8829; 824]); (8930, [8849; 824]); (8931, [8850; 824]); (8938, [8882; 824]);
(8939, [8883; 824]); (8940, [8884; 824]); (8941, [8885; 824]); (9001, [12296]); (9002, [12297]);
(10972, [10973; 824]); (12364, [12363; 12441]); (12366, [12365; 12441]); (12368, [12367; 12441]); (12370, [12369; 12441]);
(12372, [12371; 12441]); (12374, [12373; 12441]); (12376, [12375; 12441]); (12378, [12377; 12441]); (12380, [12379; 12441]);
(12382, [12381; 12441]); (12384, [12383; 12441]); (12386, [12385; 12441]); (12389, [12388; 12441]); (12391, [12390; 12441]);
(12393, [12392; 12441]); (12400, [12399; 12441]); (12401, [12399; 12442]); (12403, [12402; 12441]); (12404, [12402; 12442]);
(12406, [12405; 12441]); (12407, [12405; 12442]); (12409, [12408; 12441]); (12410, [12408; 12442]); (12412, [12411; 12441]);
(12413, [12411; 12442]); (12436, [12358; 12441]); (12446, [12445; 12441]); (12460, [12459; 12441]); (12462, [12461; 12441]);
(12464, [12463; 12441]); (12466, [12465; 12441]); (12468, [12467; 12441]); (12470, [12469; 12441]); (12472, [12471; 12441]);
(12474, [12473; 12441]); (12476, [12475; 12441]); (12478, [12477; 12441]); (12480, [12479; 12441]); (12482, [12481; 12441]);
(12485, [12484; 12441]); (12487, [12486; 12441]); (12489, [12488; 12441]); (12496, [12495; 12441]); (12497, [12495; 12442]);
(12499, [12498; 12441]); (12500, [12498; 12442]); (12502, [12501; 12441]); (12503, [12501; 12442]); (12505, [12504; 12441]);
(12506, [12504; 12442]); (12508, [12507; 12441]); (12509, [12507; 12442]); (12532, [12454; 12441]); (12535, [12527; 12441]);
(12536, [12528; 12441]); (12537, [12529; 12441]); (12538, [12530; 12441]); (12542, [12541; 12441]); (63744, [35912]);
(63745, [26356]); (63746, [36554]); (63747, [36040]); (63748, [28369]); (63749, [20018]);
(63750, [21477]); (63751, [40860]); (63752, [40860]); (63753, [22865]); (63754, [37329]);
(63755, [21895]); (63756, [22856]); (63757, [25078]); (63758, [30313]); (63759, [32645]);
(63760, [34367]); (63761, [34746]); (63762, [35064]); (63763, [37007]); (63764, [27138]);
(63765, [27931]); (63766, [28889]); (63767, [29662]); (63768, [33853]); (63769, [37226]);
(63770, [39409]); (63771, [20098]); (63772, [21365]); (63773, [27396]); (63774, [29211]);
(63775, [34349]); (63776, [40478]); (63777, [23888]); (63778, [28651]); (63779, [34253]);
(63780, [35172]); (63781, [25289]); (63782, [33240]); (63783, [34847]); (63784, [24266]);
(63785, [26391]); (63786, [28010]); (63787, [29436]); (63788, [37070]); (63789, [20358]);
(63790, [20919]); (63791, [21214]); (63792, [25796]); (63793, [27347]); (63794, [29200]);
(63795, [30439]); (63796, [32769]); (63797, [34310]); (63798, [34396]); (63799, [36335]);
(63800, [38706]); (63801, [39791]); (63802, [40442]); (63803, [30860]); (63804, [31103]);
(63805, [32160]); (63806, [33737]); (63807, [37636]); (63808, [40575]); (63809, [35542]);
(63810, [22751]); (63811, [24324]); (63812, [31840]); (63813, [32894]); (63814, [29282]);
(63815, [30922]); (63816, [36034]); (63817, [38647]); (63818, [22744]); (63819, [23650]);
(63820, [27155]); (63821, [28122]); (63822, [28431]); (63823, [32047]); (63824, [32311]);
(63825, [38475]); (63826, [21202]); (63827, [32907]); (63828, [20956]); (63829, [20940]);
(63830, [31260]); (63831, [32190]); (63832, [33777]); (63833, [38517]); (63834, [35712]);
(63835, [25295]); (63836, [27138]); (63837, [35582]); (63838, [20025]); (63839, [23527]);
(63840, [24594]); (63841, [29575]); (63842, [30064]); (63843, [21271]); (63844, [30971]);
(63845, [20415]); (63846, [24489]); (63847, [19981]); (63848, [27852]); (63849, [25976]);
(63850, [32034]); (63851, [21443]); (63852, [22622]); (63853, [30465]); (63854, [33865]);
(63855, [35498]); (63856, [27578]); (63857, [36784]); (63858, [27784]); (63859, [25342]);
(63860, [33509]); (63861, [25504]); (63862, [30053]); (63863, [20142]); (63864, [20841]);
(63865, [20937]); (63866, [26753]); (63867, [31975]); (63868, [33391]); (63869, [35538]);
(63870, [37327]); (63871, [21237]); (63872, [21570]); (63873, [22899]); (63874, [24300]);
(63875, [26053]); (63876, [28670]); (63877, [31018]); (63878, [38317]); (63879, [39530]);
(63880, [40599]); (63881, [40654]); (63882, [21147]); (63883, [26310]); (63884, [27511]);
(63885, [36706]); (63886, [24180]); (63887, [24976]); (63888, [25088]); (63889, [25754]);
(63890, [28451]); (63891, [29001]); (63892, [29833]); (63893, [31178]); (63894, [32244]);
(63895, [32879]); (63896, [36646]); (63897, [34030]); (63898, [36899]); (63899, [37706]);
(63900, [21015]); (63901, [21155]); (63902, [21693]); (63903, [28872]); (63904, [35010]);
(63905, [35498]); (63906, [24265]); (63907, [24565]); (63908, [25467]); (63909, [27566]);
(63910, [31806]); (63911, [29557]); (63912, [20196]); (63913, [22265]); (63914, [23527]);
(63915, [23994]); (63916, [24604]); (63917, [29618]); (63918, [29801]); (63919, [32666]);
(63920, [32838]); (63921, [37428]); (63922, [38646]); (63923, [38728]); (63924, [38936]);
(63925, [20363]); (63926, [31150]); (63927, [37300]); (63928, [38584]); (63929, [24801]);
(63930, [20102]); (63931, [20698]); (63932, [23534]); (63933, [23615]); (63934, [26009]);
(63935, [27138]); (63936, [29134]); (63937, [30274]); (63938, [34044]); (63939, [36988]);
(63940, [40845]); (63941, [26248]); (63942, [38446]); (63943, [21129]); (63944, [26491]);
(63945, [26611]); (63946, [27969]); (63947, [28316]); (63948, [29705]); (63949, [30041]);
(63950, [30827]); (63951, [32016]); (63952, [39006]); (63953, [20845]); (63954, [25134]);
(63955, [38520]); (63956, [20523]); (63957, [23833]); (63958, [28138]); (63959, [36650]);
(63960, [24459]); (63961, [24900]); (63962, [26647]); (63963, [29575]); (63964, [38534]);
(63965, [21033]); (63966, [21519]); (63967, [23653]); (63968, [26131]); (63969, [26446]);
(63970, [26792]); (63971, [27877]); (63972, [29702]); (63973, [30178]); (63974, [32633]);
(63975, [35023]); (63976, [35041]); (63977, [37324]); (63978, [38626]); (63979, [21311]);
(63980, [28346]); (63981, [21533]); (63982, [29136]); (63983, [29848]); (63984, [34298]);
(63985, [38563]); (63986, [40023]); (63987, [40607]); (63988, [26519]); (63989, [28107]);
(63990, [33256]); (63991, [31435]); (63992, [31520]); (63993, [31890]); (63994, [29376]);
(63995, [28825]); (63996, [35672]); (63997, [20160]); (63998, [33590]); (63999, [21050]);
(64000, [20999]); (64001, [24230]); (64002, [25299]); (64003, [31958]); (64004, [23429]);
(64005, [27934]); (64006, [26292]); (64007, [36667]); (64008, [34892]); (64009, [38477]);
(64010, [35211]); (64011, [24275]); (64012, [20800]); (64013, [21952]); (64016, [22618]);
(64018, [26228]); (64021, [20958]); (64022, [29482]); (64023, [30410]); (64024, [31036]);
(64025, [31070]); (64026, [31077]); (64027, [31119]); (64028, [38742]); (64029, [31934]);
(64030, [32701]); (64032, [34322]); (64034, [35576]); (64037, [36920]); (64038, [37117]);
(64042, [39151]); (64043, [39164]); (64044, [39208]); (64045, [40372]); (64046, [37086]);
(64047, [38583]); (64048, [20398]); (64049, [20711]); (64050, [20813]); (64051, [21193]);
(64052, [21220]); (64053, [21329]); (64054, [21917]); (64055, [22022]); (64056, [22120]);
(64057, [22592]); (64058, [22696]); (64059, [23652]); (64060, [23662]); (64061, [24724]);
(64062, [24936]); (64063, [24974]); (64064, [25074]); (64065, [25935]); (64066, [26082]);
(64067, [26257]); (64068, [26757]); (64069, [28023]); (64070, [28186]); (64071, [28450]);
(64072, [29038]); (64073, [29227]); (64074, [29730]); (64075, [30865]); (64076, [31038]);
(64077, [31049]); (64078, [31048]); (64079, [31056]); (64080, [31062]); (64081, [31069]);
(64082, [31117]); (64083, [31118]); (64084, [31296]); (64085, [31361]); (64086, [31680]);
(64087, [32244]); (64088, [32265]); (64089, [32321]); (64090, [32626]); (64091, [32773]);
(64092, [33261]); (64093, [33401]); (64094, [33401]); (64095, [33879]); (64096, [35088]);
(64097, [35222]); (64098, [35585]); (64099, [35641]); (64100, [36051]); (64101, [36104]);
(64102, [36790]); (64103, [36920]); (64104, [38627]); (64105, [38911]); (64106, [38971]);
(64107, [24693]); (64109, [33304]); (64112, [20006]); (64113, [20917]); (64114, [20840]);
(64115, [20352]); (64116, [20805]); (64117, [20864]); (64118, [21191]); (64119, [21242]);
(64120, [21917]); (64121, [21845]); (64122, [21913]); (64123, [21986]); (64124, [22618]);
(64125, [22707]); (64126, [22852]); (64127, [22868]); (64128, [23138]); (64129, [23336]);
(64130, [24274]); (64131, [24281]); (64132, [24425]); (64133, [24493]); (64134, [24792]);
(64135, [24910]); (64136, [24840]); (64137, [24974]); (64138, [24928]); (64139, [25074]);
(64140, [25140]); (64141, [25540]); (64142, [25628]); (64143, [25682]); (64144, [25942]);
(64145, [26228]); (64146, [26391]); (64147, [26395]); (64148, [26454]); (64149, [27513]);
(64150, [27578]); (64151, [27969]); (64152, [28379]); (64153, [28363]); (64154, [28450]);
(64155, [28702]); (64156, [29038]); (64157, [30631]); (64158, [29237]); (64159, [29359]);
(64160, [29482]); (64161, [29809]); (64162, [29958]); (64163, [30011]); (64164, [30237]);
(64165, [30239]); (64166, [30410]); (64167, [30427]); (64168, [30452]); (64169, [30538]);
(64170, [30528]); (64171, [30924]); (64172, [31409]); (64173, [31680]); (64174, [31867]);
(64175, [32091]); (64176, [32244]); (64177, [32574]); (64178, [32773]); (64179, [33618]);
(64180, [33775]); (64181, [34681]); (64182, [35137]); (64183, [35206]); (64184, [35222]);
(64185, [35519]); (64186, [35576]); (64187, [35531]); (64188, [35585]); (64189, [35582]);
(64190, [35565]); (64191, [35641]); (64192, [35722]); (64193, [36104]); (64194, [36664]);
(64195, [36978]); (64196, [37273]); (64197, [37494]); (64198, [38524]); (64199, [38627]);
(64200, [38742]); (64201, [38875]); (64202, [38911]); (64203, [38923]); (64204, [38971]);
(64205, [39698]); (64206, [40860]); (64210, [15261]); (64211, [16408]); (64212, [16441]);
(64216, [40771]); (64217, [40846]); (64285, [1497; 1460]); (64287, [1522; 1463]); (64298, [1513; 1473]);
(64299, [1513; 1474]); (64300, [1513; 1468; 1473]); (64301, [1513; 1468; 1474]); (64302, [1488; 1463]); (64303, [1488; 1464]);
(64304, [1488; 1468]); (64305, [1489; 1468]); (64306, [1490; 1468]); (64307, [1491; 1468]); (64308, [1492; 1468]);
(64309, [1493; 1468]); (64310, [1494; 1468]); (64312, [1496; 1468]); (64313, [1497; 1468]); (64314, [1498; 1468]);
(64315, [1499; 1468]); (64316, [1500; 1468]); (64318, [1502; 1468]); (64320, [1504; 1468]); (64321, [1505; 1468]);
(64323, [1507; 1468]); (64324, [1508; 1468]); (64326, [1510; 1468]); (64327, [1511; 1468]); (64328, [1512; 1468]);
(64329, [1513; 1468]); (64330, [1514; 1468]); (64331, [1493; 1465]); (64332, [1489; 1471]); (64333, [1499; 1471]);
(64334, [1508; 1471])]
)%N.
