(* ===== verification/JsString.v ===== *)
(** * JavaScript strings

    A JavaScript string is a sequence of UTF-16 code units, so lengths and
    indices below are those the source computes.  The file models the
    [String.prototype] operations the frontend calls. *)

From Stdlib Require Ascii String.
From S2P Require Export Prelude.
From S2P Require Import Unicode.
Export Stdlib.Strings.String.StringSyntax.

(** A code unit is a number below 65536; a string is a list of code units. *)
Abbreviation jstr := (list N).

(** ** Literals

    [u "..."] is the JavaScript string a UTF-8 source literal denotes. *)
Fixpoint utf8_to_utf16 (bs : list N) : jstr :=
  match bs with
  | [] => []
  | b0 :: r0 =>
      if (b0 <? 128)%N then b0 :: utf8_to_utf16 r0
      else match r0 with
      | [] => [b0]
      | b1 :: r1 =>
          if (b0 <? 224)%N then
            ((b0 mod 32) * 64 + b1 mod 64)%N :: utf8_to_utf16 r1
          else match r1 with
          | [] => [b0]
          | b2 :: r2 =>
              if (b0 <? 240)%N then
                ((b0 mod 16) * 4096 + (b1 mod 64) * 64 + b2 mod 64)%N :: utf8_to_utf16 r2
              else match r2 with
              | [] => [b0]
              | b3 :: r3 =>
                  let cp := ((b0 mod 8) * 262144 + (b1 mod 64) * 4096
                             + (b2 mod 64) * 64 + b3 mod 64 - 65536)%N in
                  (55296 + cp / 1024)%N :: (56320 + cp mod 1024)%N :: utf8_to_utf16 r3
              end
          end
      end
  end.

Definition u (s : String.string) : jstr :=
  utf8_to_utf16 (map Ascii.N_of_ascii (String.list_ascii_of_string s)).
Arguments u s%_string_scope.

(** A literal that writes its double quotes as apostrophes. *)
Definition uq (s : String.string) : jstr := map (fun c => if (c =? 39)%N then 34%N else c) (u s).
Arguments uq s%_string_scope.

(** Code units the source names. *)
Definition LF : N := 10.
Definition CR : N := 13.
Definition TAB : N := 9.
Definition DQ : N := 34.
Definition BACKSLASH : N := 92.
Definition BACKTICK : N := 96.

(** ** Comparison and search *)

Definition streq (a b : jstr) : bool := bool_decide (a = b).

Fixpoint is_prefix (p s : jstr) : bool :=
  match p, s with
  | [], _ => true
  | a :: p', b :: s' => (a =? b)%N && is_prefix p' s'
  | _ :: _, [] => false
  end.

Definition starts_with (s p : jstr) : bool := is_prefix p s.
Definition ends_with (s p : jstr) : bool := is_prefix (rev p) (rev s).

(** [s.indexOf(pat)] from the head of [s]. *)
Fixpoint index_from (pat s : jstr) : option nat :=
  if is_prefix pat s then Some 0
  else match s with
       | [] => None
       | _ :: s' => S <$> index_from pat s'
       end.

(** [s.indexOf(pat, from)]. *)
Definition index_of (pat s : jstr) (from : nat) : option nat :=
  (fun i => from + i) <$> index_from pat (drop from s).

Definition includes (s pat : jstr) : bool := bool_decide (is_Some (index_from pat s)).

(** [s.lastIndexOf(pat)]. *)
Fixpoint last_index_of (pat s : jstr) : option nat :=
  match s with
  | [] => if is_prefix pat [] then Some 0 else None
  | _ :: s' =>
      match last_index_of pat s' with
      | Some i => Some (S i)
      | None => if is_prefix pat s then Some 0 else None
      end
  end.

(** [s.slice(a, b)] and [s.slice(-n)] for natural [a], [b], [n]. *)
Definition slice (s : jstr) (a b : nat) : jstr := take (b - a) (drop a s).
Definition slice_end (s : jstr) (n : nat) : jstr := drop (length s - n) s.

(** ** White space *)

Definition is_ws (c : N) : bool :=
  (((9 <=? c) && (c <=? 13)) || (c =? 32) || (c =? 160) || (c =? 5760)
   || ((8192 <=? c) && (c <=? 8202)) || (c =? 8232) || (c =? 8233) || (c =? 8239)
   || (c =? 8287) || (c =? 12288) || (c =? 65279))%N.
Arguments is_ws c : simpl never.

Definition trim_start (s : jstr) : jstr := drop_while is_ws s.
Definition trim_end (s : jstr) : jstr := drop_while_end is_ws s.
Definition trim (s : jstr) : jstr := trim_end (trim_start s).

(** ** Splitting and joining *)

Definition cons_hd (c : N) (l : list jstr) : list jstr :=
  match l with [] => [[c]] | x :: r => (c :: x) :: r end.

(** [s.split(sep)] for a non-empty separator; [skip] counts the separator's
    units still to jump over. *)
Fixpoint split_skip (sep s : jstr) (skip : nat) : list jstr :=
  match s with
  | [] => [[]]
  | c :: s' =>
      match skip with
      | S k => split_skip sep s' k
      | O => if is_prefix sep s then [] :: split_skip sep s' (length sep - 1)
             else cons_hd c (split_skip sep s' 0)
      end
  end.
Definition split_on (sep s : jstr) : list jstr := split_skip sep s 0.
Definition split_lf (s : jstr) : list jstr := split_on [LF] s.

Fixpoint join (sep : jstr) (l : list jstr) : jstr :=
  match l with
  | [] => []
  | [x] => x
  | x :: r => x ++ sep ++ join sep r
  end.

(** ** [String.prototype.replace] with a string pattern

    The replacement text is a template: [$$], [$&], [$`] and [$'] are
    expanded (there is no capture group with a string pattern, so every other
    [$] is literal). *)
Fixpoint expand (before matched after tpl : jstr) : jstr :=
  match tpl with
  | [] => []
  | c :: t =>
      if (c =? 36)%N then
        match t with
        | [] => [c]
        | d :: t' =>
            if (d =? 36)%N then 36%N :: expand before matched after t'
            else if (d =? 38)%N then matched ++ expand before matched after t'
            else if (d =? 96)%N then before ++ expand before matched after t'
            else if (d =? 39)%N then after ++ expand before matched after t'
            else c :: expand before matched after t
        end
      else c :: expand before matched after t
  end.

Definition replace_str (s pat tpl : jstr) : jstr :=
  match index_from pat s with
  | None => s
  | Some i =>
      let before := take i s in
      let after := drop (i + length pat) s in
      before ++ expand before pat after tpl ++ after
  end.

(** ** Case and normalisation

    [toLowerCase] maps the cased letters of the Basic Multilingual Plane, and
    U+0130 to two units.  Two refinements of the standard are not modelled:
    the final-sigma rule and the cased letters of the supplementary planes. *)
Definition in_lower_range (c : N) (r : N * N * N * Z) : bool :=
  let '(lo, hi, step, _) := r in
  (lo <=? c)%N && (c <=? hi)%N && ((c - lo) mod step =? 0)%N.

Definition lower_unit (c : N) : jstr :=
  if (c =? 304)%N then [105; 775]%N
  else match find (in_lower_range c) lower_ranges with
       | Some (_, _, _, d) => [Z.to_N (Z.of_N c + d)]
       | None => [c]
       end.
Arguments lower_unit c : simpl never.

Definition to_lower (s : jstr) : jstr := flat_map lower_unit s.

(** Canonical decomposition, Hangul syllables included; marks keep the order
    in which the decomposition produces them. *)
Definition nfd_unit (c : N) : jstr :=
  if (44032 <=? c)%N && (c <=? 55203)%N then
    let i := (c - 44032)%N in
    [4352 + i / 588; 4449 + (i mod 588) / 28]%N
      ++ (if (i mod 28 =? 0)%N then [] else [(4519 + i mod 28)%N])
  else match find (fun e => (e.1 =? c)%N) nfd_table with
       | Some (_, d) => d
       | None => [c]
       end.
Definition nfd (s : jstr) : jstr := flat_map nfd_unit s.

(** ** Numbers as text: [String(n)] for a natural number. *)
Fixpoint uint_units (d : Decimal.uint) : jstr :=
  match d with
  | Decimal.Nil => []
  | Decimal.D0 r => 48%N :: uint_units r
  | Decimal.D1 r => 49%N :: uint_units r
  | Decimal.D2 r => 50%N :: uint_units r
  | Decimal.D3 r => 51%N :: uint_units r
  | Decimal.D4 r => 52%N :: uint_units r
  | Decimal.D5 r => 53%N :: uint_units r
  | Decimal.D6 r => 54%N :: uint_units r
  | Decimal.D7 r => 55%N :: uint_units r
  | Decimal.D8 r => 56%N :: uint_units r
  | Decimal.D9 r => 57%N :: uint_units r
  end.
Definition string_of_nat (n : nat) : jstr := uint_units (Nat.to_uint n).
Definition string_of_N (n : N) : jstr := uint_units (N.to_uint n).
Definition string_of_Z (z : Z) : jstr :=
  match z with
  | Zneg p => 45%N :: string_of_N (Npos p)
  | _ => string_of_N (Z.to_N z)
  end.

(** ** Laws *)

Lemma streq_true a b : streq a b = true <-> a = b.
Proof. apply bool_decide_eq_true. Qed.
Lemma streq_spec a b : reflect (a = b) (streq a b).
Proof. unfold streq. destruct (bool_decide_reflect (a = b)); by constructor. Qed.

Lemma is_prefix_spec p s : is_prefix p s = true <-> exists r, s = p ++ r.
Proof.
  revert s. induction p as [|a p IH]; intros s; simpl.
  - split; [by exists s|done].
  - destruct s as [|b s]; simpl; [split; [done|by intros [r [=]]]|].
    rewrite andb_true_iff, N.eqb_eq, IH. split.
    + intros [-> [r ->]]. by exists r.
    + intros [r [= -> ->]]. split; [done|by exists r].
Qed.

Lemma is_prefix_app p s : is_prefix p (p ++ s) = true.
Proof. apply is_prefix_spec. by exists s. Qed.

Lemma is_prefix_false_app p s r : is_prefix p (s ++ r) = false -> is_prefix p s = false.
Proof.
  intros H. destruct (is_prefix p s) eqn:E; [|done].
  apply is_prefix_spec in E as [k ->]. rewrite <- app_assoc, is_prefix_app in H. done.
Qed.

Lemma is_prefix_mono p s r : is_prefix p s = true -> is_prefix p (s ++ r) = true.
Proof. intros [k ->]%is_prefix_spec. rewrite <- app_assoc. apply is_prefix_app. Qed.

Lemma is_prefix_long p s r :
  length p <= length s -> is_prefix p (s ++ r) = is_prefix p s.
Proof.
  revert s. induction p as [|a p IH]; intros [|b s]; simpl; try done; try lia.
  intros H. rewrite IH; [done|lia].
Qed.

Lemma is_prefix_single c s : is_prefix [c] s = match s with d :: _ => (c =? d)%N | [] => false end.
Proof. destruct s as [|d s]; simpl; [done|]. by rewrite andb_true_r. Qed.

Lemma index_from_Some pat s i :
  index_from pat s = Some i ->
  s = take i s ++ pat ++ drop (i + length pat) s /\ (forall j, j < i -> is_prefix pat (drop j s) = false).
Proof.
  revert i. induction s as [|c s IH]; intros i; cbn [index_from].
  - destruct (is_prefix pat []) eqn:E; [|done]. intros [= <-].
    apply is_prefix_spec in E as [r Hr]. destruct pat; [|done]. split; [done|]. intros; lia.
  - destruct (is_prefix pat (c :: s)) eqn:E.
    + intros [= <-]. apply is_prefix_spec in E as [r Hr]. split; [|intros; lia].
      simpl. rewrite Hr, drop_app_length. done.
    + destruct (index_from pat s) as [k|] eqn:F; [|done]. intros [= <-].
      destruct (IH k eq_refl) as [H1 H2]. split.
      * simpl. f_equal. exact H1.
      * intros [|j] Hj; [done|]. simpl. apply H2. lia.
Qed.

Lemma index_from_None pat s :
  index_from pat s = None -> forall j, is_prefix pat (drop j s) = false.
Proof.
  induction s as [|c s IH]; cbn [index_from].
  - destruct (is_prefix pat []) eqn:E; [done|]. intros _ j. by rewrite drop_nil.
  - destruct (is_prefix pat (c :: s)) eqn:E; [done|].
    destruct (index_from pat s) eqn:F; [done|]. intros _ [|j]; [done|]. simpl. by apply IH.
Qed.

Lemma index_from_le pat s i : index_from pat s = Some i -> i + length pat <= length s.
Proof.
  revert i. induction s as [|c s IH]; intros i; cbn [index_from].
  - destruct (is_prefix pat []) eqn:E; [|done]. intros [= <-].
    apply is_prefix_spec in E as [r Hr]. apply (f_equal length) in Hr. rewrite length_app in Hr. simpl in *. lia.
  - destruct (is_prefix pat (c :: s)) eqn:E.
    + intros [= <-]. apply is_prefix_spec in E as [r Hr]. apply (f_equal length) in Hr.
      rewrite length_app in Hr. simpl in *. lia.
    + destruct (index_from pat s) eqn:F; [|done]. intros [= <-]. specialize (IH _ eq_refl). simpl. lia.
Qed.

Lemma includes_true s pat : includes s pat = true <-> exists a b, s = a ++ pat ++ b.
Proof.
  unfold includes. rewrite bool_decide_eq_true. split.
  - intros [i Hi]. apply index_from_Some in Hi as [H _]. eauto.
  - intros (a & b & ->). destruct (index_from pat (a ++ pat ++ b)) eqn:E; [by eexists|].
    pose proof (index_from_None _ _ E (length a)) as H.
    rewrite drop_app_length, is_prefix_app in H. done.
Qed.

Lemma last_index_of_Some pat s i :
  last_index_of pat s = Some i ->
  is_prefix pat (drop i s) = true /\ i <= length s /\ (forall j, i < j -> j <= length s -> is_prefix pat (drop j s) = false).
Proof.
  revert i. induction s as [|c s IH]; intros i; cbn [last_index_of].
  - destruct (is_prefix pat []) eqn:E; [|done]. intros [= <-]. simpl. repeat split; [done|lia|intros; lia].
  - destruct (last_index_of pat s) as [k|] eqn:F.
    + intros [= <-]. destruct (IH k eq_refl) as (H1 & H2 & H3). simpl. repeat split; [done|lia|].
      intros [|j] Hj Hl; [lia|]. simpl. apply H3; lia.
    + destruct (is_prefix pat (c :: s)) eqn:E; [|done]. intros [= <-]. repeat split; [done|simpl; lia|].
      intros [|j] Hj Hl; [lia|]. simpl in *. clear E.
      assert (N : forall j, j <= length s -> is_prefix pat (drop j s) = false); [|apply N; lia].
      clear -F. induction s as [|d s IH]; cbn [last_index_of] in F; intros j Hj.
      * destruct (is_prefix pat []) eqn:E; [done|]. by rewrite drop_nil.
      * destruct (last_index_of pat s) eqn:G; [done|].
        destruct (is_prefix pat (d :: s)) eqn:E; [done|].
        destruct j; [done|]. simpl in *. apply IH; [done|lia].
Qed.

Lemma last_index_of_None pat s : last_index_of pat s = None -> index_from pat s = None.
Proof.
  induction s as [|c s IH]; cbn [last_index_of index_from]; [by destruct (is_prefix pat [])|].
  destruct (last_index_of pat s); [done|]. destruct (is_prefix pat (c :: s)); [done|]. by rewrite IH.
Qed.

Lemma trim_start_suffix s : exists k, s = k ++ trim_start s.
Proof. exists (take_while is_ws s). symmetry. apply take_drop_while. Qed.
Lemma trim_end_prefix s : exists k, s = trim_end s ++ k.
Proof. apply drop_while_end_prefix. Qed.
Lemma length_trim s : length (trim s) <= length s.
Proof.
  unfold trim, trim_end, trim_start. etransitivity; [apply length_drop_while_end|apply length_drop_while].
Qed.

(** Splitting on one unit. *)
Lemma split_on_single_cons c d s :
  split_on [c] (d :: s) = if (c =? d)%N then [] :: split_on [c] s else cons_hd d (split_on [c] s).
Proof. unfold split_on. cbn [split_skip]. rewrite is_prefix_single. simpl. by destruct (c =? d)%N. Qed.

Lemma split_skip_nonnil sep s k : split_skip sep s k <> [].
Proof.
  revert k. induction s as [|c s IH]; intros [|k]; cbn [split_skip]; try done.
  destruct (is_prefix sep (c :: s)); [done|]. unfold cons_hd. by case_match.
Qed.
Lemma split_on_nonnil sep s : split_on sep s <> [].
Proof. apply split_skip_nonnil. Qed.

Lemma join_cons_hd sep c l : l <> [] -> join sep (cons_hd c l) = c :: join sep l.
Proof. destruct l as [|x [|y l]]; done. Qed.

Lemma join_cons2 sep x y l : join sep (x :: y :: l) = x ++ sep ++ join sep (y :: l).
Proof. done. Qed.

Lemma join_split_single c s : join [c] (split_on [c] s) = s.
Proof.
  induction s as [|d s IH]; [done|]. rewrite split_on_single_cons.
  destruct (c =? d)%N eqn:E.
  - apply N.eqb_eq in E as ->. pose proof (split_on_nonnil [d] s).
    destruct (split_on [d] s) eqn:F; [done|]. cbn [join]. simpl app. f_equal. exact IH.
  - rewrite join_cons_hd by apply split_on_nonnil. by rewrite IH.
Qed.

Lemma split_on_single_pieces c s : Forall (fun x => c ∉ x) (split_on [c] s).
Proof.
  induction s as [|d s IH]; [repeat constructor; apply not_elem_of_nil|].
  rewrite split_on_single_cons. destruct (c =? d)%N eqn:E.
  - constructor; [apply not_elem_of_nil|done].
  - apply N.eqb_neq in E. unfold cons_hd. destruct (split_on [c] s) as [|x l].
    + constructor; [|constructor]. rewrite not_elem_of_cons. split; [done|apply not_elem_of_nil].
    + apply Forall_cons in IH as [H1 H2]. constructor; [|done]. rewrite not_elem_of_cons. done.
Qed.

Lemma split_on_single_app c a s :
  c ∉ a -> split_on [c] (a ++ c :: s) = a :: split_on [c] s.
Proof.
  induction a as [|d a IH]; intros H; simpl.
  - rewrite split_on_single_cons, N.eqb_refl. done.
  - rewrite split_on_single_cons. rewrite not_elem_of_cons in H. destruct H as [H1 H2].
    apply N.eqb_neq in H1. rewrite H1, IH by done. done.
Qed.

Lemma split_on_single_none c a : c ∉ a -> split_on [c] a = [a].
Proof.
  induction a as [|d a IH]; intros H; [done|]. rewrite split_on_single_cons.
  rewrite not_elem_of_cons in H. destruct H as [H1 H2]. apply N.eqb_neq in H1.
  rewrite H1, IH by done. done.
Qed.

Lemma split_join_single c l :
  l <> [] -> Forall (fun x => c ∉ x) l -> split_on [c] (join [c] l) = l.
Proof.
  induction l as [|x l IH]; [done|]. intros _ H. apply Forall_cons in H as [H1 H2].
  destruct l as [|y l].
  - simpl. by apply split_on_single_none.
  - rewrite join_cons2. change ([c] ++ ?z) with (c :: z).
    rewrite split_on_single_app by done. by rewrite IH.
Qed.

(** A template without [$] is inserted as it stands. *)
Lemma expand_plain b m a tpl : 36%N ∉ tpl -> expand b m a tpl = tpl.
Proof.
  induction tpl as [|c t IH]; [done|]. rewrite not_elem_of_cons. intros [H1 H2].
  cbn [expand]. destruct (c =? 36)%N eqn:E; [apply N.eqb_eq in E; congruence|]. by rewrite IH.
Qed.

(** Splitting cuts at the first occurrence, then goes on after it. *)
Lemma split_skip_drop sep s k : k <= length s -> split_skip sep s k = split_skip sep (drop k s) 0.
Proof.
  revert k. induction s as [|c s IH]; intros [|k] H; simpl in *; try done; try lia. apply IH. lia.
Qed.

Lemma split_on_index sep s : sep <> [] ->
  split_on sep s = match index_from sep s with
                   | None => [s]
                   | Some i => take i s :: split_on sep (drop (i + length sep) s)
                   end.
Proof.
  intros Hs. unfold split_on. induction s as [|c s IH].
  - cbn [split_skip index_from]. by destruct sep.
  - cbn [split_skip index_from]. destruct (is_prefix sep (c :: s)) eqn:E.
    + simpl. f_equal. apply is_prefix_spec in E as [r Hr]. destruct sep as [|d sep]; [done|].
      injection Hr as -> ->. cbn [length]. rewrite Nat.sub_1_r. cbn [Nat.pred].
      rewrite split_skip_drop by (rewrite length_app; lia). simpl. done.
    + rewrite IH. destruct (index_from sep s); done.
Qed.

Lemma drop_while_id {A} (p : A -> bool) l : match l with [] => True | x :: _ => p x = false end -> drop_while p l = l.
Proof. destruct l as [|x l]; [done|]. simpl. by intros ->. Qed.

Lemma drop_while_idem {A} (p : A -> bool) l : drop_while p (drop_while p l) = drop_while p l.
Proof.
  apply drop_while_id. destruct (drop_while p l) eqn:E; [done|]. by eapply drop_while_head.
Qed.

Lemma trim_idem s : trim (trim s) = trim s.
Proof.
  unfold trim, trim_end, trim_start, drop_while_end. set (l := drop_while is_ws s).
  assert (H : drop_while is_ws (rev (drop_while is_ws (rev l))) = rev (drop_while is_ws (rev l))).
  { apply drop_while_id. destruct (drop_while_end_prefix is_ws l) as [k Hk]. unfold drop_while_end in Hk.
    destruct (rev (drop_while is_ws (rev l))) as [|x r]; [done|].
    apply (drop_while_head is_ws s x (r ++ k)). exact Hk. }
  rewrite H, rev_involutive, drop_while_idem. done.
Qed.

(** The texts with [f i], [f (i + 1)]... between them. *)
Fixpoint interleave (gs : list jstr) (i : nat) (f : nat -> jstr) : jstr :=
  match gs with
  | [] => []
  | [g] => g
  | g :: r => g ++ f i ++ interleave r (S i) f
  end.
Lemma interleave_cons g gs i f : gs <> [] -> interleave (g :: gs) i f = g ++ f i ++ interleave gs (S i) f.
Proof. by destruct gs. Qed.
Lemma interleave_ext f g gs i : (forall n, i <= n -> f n = g n) -> interleave gs i f = interleave gs i g.
Proof.
  revert i. induction gs as [|a [|b gs] IH]; intros i X; [done|done|].
  rewrite (interleave_cons a), (interleave_cons a), X by (done || lia). do 2 f_equal. apply IH. intros. apply X. lia.
Qed.
