(* ===== verification/JsInt.v ===== *)
(** * JavaScript 32-bit integers

    The bitwise operators of JavaScript convert their operands to signed
    32-bit integers ([>>>] to unsigned ones) and produce a value of that
    width.  Numbers are [Z]; the conversions are written out. *)

From S2P Require Export Prelude.
Local Open Scope Z_scope.

Definition to_u32 (z : Z) : Z := z mod 2 ^ 32.
Definition to_i32 (z : Z) : Z := let r := to_u32 z in if r <? 2 ^ 31 then r else r - 2 ^ 32.

Definition js_xor (a b : Z) : Z := to_i32 (Z.lxor (to_i32 a) (to_i32 b)).
Definition js_and (a b : Z) : Z := to_i32 (Z.land (to_i32 a) (to_i32 b)).
Definition js_or (a b : Z) : Z := to_i32 (Z.lor (to_i32 a) (to_i32 b)).
Definition js_shl (a n : Z) : Z := to_i32 (Z.shiftl (to_i32 a) (n mod 32)).
Definition js_sar (a n : Z) : Z := Z.shiftr (to_i32 a) (n mod 32).
Definition js_shr (a n : Z) : Z := Z.shiftr (to_u32 a) (n mod 32).

Arguments to_u32 : simpl never.
Arguments to_i32 : simpl never.

(** ** Laws *)

Lemma to_u32_range z : 0 <= to_u32 z < 2 ^ 32.
Proof. apply Z.mod_pos_bound. lia. Qed.

Lemma to_u32_id z : 0 <= z < 2 ^ 32 -> to_u32 z = z.
Proof. apply Z.mod_small. Qed.

Lemma to_u32_idemp z : to_u32 (to_u32 z) = to_u32 z.
Proof. apply to_u32_id, to_u32_range. Qed.

Lemma to_u32_i32 z : to_u32 (to_i32 z) = to_u32 z.
Proof.
  unfold to_i32. case_match; [apply to_u32_idemp|].
  unfold to_u32 at 1. rewrite <- (Z.mod_add _ 1 (2 ^ 32)) by lia.
  replace (to_u32 z - 2 ^ 32 + 1 * 2 ^ 32) with (to_u32 z) by lia. apply to_u32_idemp.
Qed.

Lemma to_u32_land z : to_u32 z = Z.land z (Z.ones 32).
Proof. symmetry. apply Z.land_ones. lia. Qed.

Lemma to_u32_lxor a b : to_u32 (Z.lxor a b) = Z.lxor (to_u32 a) (to_u32 b).
Proof. rewrite !to_u32_land. apply Z.bits_inj'. intros n Hn. rewrite !Z.lxor_spec, !Z.land_spec, Z.lxor_spec.
  by destruct (Z.testbit a n), (Z.testbit b n), (Z.testbit (Z.ones 32) n). Qed.
Lemma to_u32_and a b : to_u32 (Z.land a b) = Z.land (to_u32 a) (to_u32 b).
Proof. rewrite !to_u32_land. apply Z.bits_inj'. intros n Hn. rewrite !Z.land_spec.
  by destruct (Z.testbit a n), (Z.testbit b n), (Z.testbit (Z.ones 32) n). Qed.

Lemma u32_js_xor a b : to_u32 (js_xor a b) = Z.lxor (to_u32 a) (to_u32 b).
Proof. unfold js_xor. by rewrite to_u32_i32, to_u32_lxor, !to_u32_i32. Qed.

Lemma js_and_u32 a b : 0 <= b < 2 ^ 31 -> js_and a b = Z.land (to_u32 a) b.
Proof.
  intros Hb. assert (Bb : to_u32 b = b) by (apply to_u32_id; lia).
  assert (H : to_u32 (js_and a b) = Z.land (to_u32 a) b).
  { unfold js_and. by rewrite to_u32_i32, to_u32_and, !to_u32_i32, Bb. }
  assert (L : 0 <= Z.land (to_u32 a) b <= b).
  { pose proof (to_u32_range a). rewrite Z.land_comm. split; [apply Z.land_nonneg; lia|].
    apply Z.ldiff_le; [lia|]. apply Z.bits_inj'. intros n Hn. rewrite Z.ldiff_spec, Z.land_spec, Z.bits_0.
    by destruct (Z.testbit b n), (Z.testbit (to_u32 a) n). }
  rewrite <- H. unfold js_and in *. unfold to_i32 at 1. rewrite to_u32_i32 in H. rewrite H.
  replace (_ <? _) with true by (symmetry; apply Z.ltb_lt; lia). by rewrite to_u32_i32, H.
Qed.

Lemma lxor_range a b n : 0 <= n -> 0 <= a < 2 ^ n -> 0 <= b < 2 ^ n -> 0 <= Z.lxor a b < 2 ^ n.
Proof.
  intros Hn Ha Hb. split; [apply Z.lxor_nonneg; lia|].
  destruct (Z.eq_dec (Z.lxor a b) 0) as [->|N]; [lia|].
  assert (0 < Z.lxor a b) by (pose proof (proj2 (Z.lxor_nonneg a b)); lia).
  apply Z.log2_lt_pow2; [done|].
  eapply Z.le_lt_trans; [apply Z.log2_lxor; lia|].
  apply Z.max_lub_lt.
  - destruct (Z.eq_dec a 0) as [->|]; [|apply Z.log2_lt_pow2; lia].
    destruct (Z.eq_dec n 0) as [->|]; [|simpl; lia]. assert (b = 0) as -> by lia. done.
  - destruct (Z.eq_dec b 0) as [->|]; [|apply Z.log2_lt_pow2; lia].
    destruct (Z.eq_dec n 0) as [->|]; [|simpl; lia]. assert (a = 0) as -> by lia. done.
Qed.
