(* ===== verification/Utf8.v ===== *)
(** * UTF-8: [TextEncoder] and the streaming [TextDecoder]

    Bytes are numbers below 256.  The decoder is the WHATWG state machine, one
    byte at a time, so a chunk boundary inside a character needs no special
    case: [decode_stream] is a fold over bytes. *)

From S2P Require Import JsString.
Local Open Scope N_scope.

Definition is_high (c : N) : bool := (55296 <=? c) && (c <=? 56319).
Definition is_low (c : N) : bool := (56320 <=? c) && (c <=? 57343).

(** Scalar values of a string; an unpaired surrogate becomes U+FFFD. *)
Fixpoint code_points (s : jstr) : list N :=
  match s with
  | [] => []
  | c :: r =>
      if is_high c then
        match r with
        | d :: r' => if is_low d then (65536 + (c - 55296) * 1024 + (d - 56320)) :: code_points r'
                     else 65533 :: code_points r
        | [] => [65533]
        end
      else if is_low c then 65533 :: code_points r
      else c :: code_points r
  end.

Definition encode_cp (p : N) : list N :=
  if p <? 128 then [p]
  else if p <? 2048 then [192 + p / 64; 128 + p mod 64]
  else if p <? 65536 then [224 + p / 4096; 128 + p / 64 mod 64; 128 + p mod 64]
  else [240 + p / 262144; 128 + p / 4096 mod 64; 128 + p / 64 mod 64; 128 + p mod 64].

(** [new TextEncoder().encode(s)] *)
Definition utf8_encode (s : jstr) : list N := flat_map encode_cp (code_points s).

(** Code units of a scalar value. *)
Definition units_of_cp (p : N) : jstr :=
  if p <? 65536 then [p] else [55296 + (p - 65536) / 1024; 56320 + (p - 65536) mod 1024].

Record Decoder := mkDec {
  d_cp : N; d_needed : nat; d_lo : N; d_hi : N;
  d_bom : bool   (* a byte order mark may still come *)
}.
Definition dec0 (bom : bool) : Decoder := mkDec 0 0 128 191 bom.
Definition decoder_new : Decoder := dec0 true.

(** Emission: the first scalar value is dropped when it is U+FEFF. *)
Definition emit (bom : bool) (p : N) : Decoder * jstr :=
  (dec0 false, if bom && (p =? 65279) then [] else units_of_cp p).

Definition dec_lead (bom : bool) (b : N) : Decoder * jstr :=
  if b <=? 127 then emit bom b
  else if (194 <=? b) && (b <=? 223) then (mkDec (b mod 32) 1 128 191 bom, [])
  else if (224 <=? b) && (b <=? 239) then
    (mkDec (b mod 16) 2 (if b =? 224 then 160 else 128) (if b =? 237 then 159 else 191) bom, [])
  else if (240 <=? b) && (b <=? 244) then
    (mkDec (b mod 8) 3 (if b =? 240 then 144 else 128) (if b =? 244 then 143 else 191) bom, [])
  else emit bom 65533.

Definition dec_byte (d : Decoder) (b : N) : Decoder * jstr :=
  match d_needed d with
  | O => dec_lead (d_bom d) b
  | S n =>
      if (d_lo d <=? b) && (b <=? d_hi d) then
        let p := d_cp d * 64 + b mod 64 in
        match n with
        | O => emit (d_bom d) p
        | S _ => (mkDec p n 128 191 (d_bom d), [])
        end
      else
        let '(d1, o1) := emit (d_bom d) 65533 in
        let '(d2, o2) := dec_lead (d_bom d1) b in (d2, o1 ++ o2)
  end.

(** [decoder.decode(chunk, { stream: true })] *)
Fixpoint decode_stream (d : Decoder) (bs : list N) : Decoder * jstr :=
  match bs with
  | [] => (d, [])
  | b :: r =>
      let '(d1, o1) := dec_byte d b in
      let '(d2, o2) := decode_stream d1 r in (d2, o1 ++ o2)
  end.

Lemma decode_stream_app d b1 b2 :
  decode_stream d (b1 ++ b2) =
  let '(d1, o1) := decode_stream d b1 in
  let '(d2, o2) := decode_stream d1 b2 in (d2, o1 ++ o2).
Proof.
  revert d. induction b1 as [|b b1 IH]; intros d; cbn [decode_stream app].
  - by destruct (decode_stream d b2).
  - destruct (dec_byte d b) as [d1 o1]. rewrite IH.
    destruct (decode_stream d1 b1) as [d2 o2]. destruct (decode_stream d2 b2) as [d3 o3].
    by rewrite app_assoc.
Qed.

Lemma encode_cp_bytes p : p < 1114112 -> Forall (fun b => b < 256) (encode_cp p).
Proof.
  intros H. unfold encode_cp.
  assert (M : forall q, 128 + q mod 64 < 256) by (intros q; pose proof (N.mod_lt q 64); lia).
  repeat case_match; bool_norm; repeat constructor; try apply M; try lia.
  - assert (p / 64 < 32) by (apply N.Div0.div_lt_upper_bound; lia). lia.
  - assert (p / 4096 < 16) by (apply N.Div0.div_lt_upper_bound; lia). lia.
  - assert (p / 262144 < 5) by (apply N.Div0.div_lt_upper_bound; lia). lia.
Qed.

Lemma code_points_range s : Forall (fun c => c < 65536) s -> Forall (fun p => p < 1114112) (code_points s).
Proof.
  remember (length s) as n eqn:E. assert (L : (length s <= n)%nat) by lia. clear E. revert s L.
  induction n as [|n IH]; intros [|c r] L H; try constructor; simpl in L; [lia|].
  apply Forall_cons in H as [Hc Hr]. cbn [code_points].
  destruct (is_high c) eqn:Eh.
  - destruct r as [|d r]; [constructor; [lia|constructor]|].
    apply Forall_cons in Hr as [Hd Hr]. destruct (is_low d) eqn:El.
    + unfold is_high, is_low in *. bool_norm. constructor; [lia|]. apply IH; [simpl in L; lia|done].
    + constructor; [lia|]. apply IH; [lia|by constructor].
  - case_match; constructor; try lia; apply IH; (lia || done).
Qed.

Lemma utf8_encode_bytes s :
  Forall (fun c => c < 65536) s -> Forall (fun b => b < 256) (utf8_encode s).
Proof.
  intros H%code_points_range. unfold utf8_encode. induction H as [|p l Hp _ IH]; [constructor|].
  simpl. apply Forall_app. split; [by apply encode_cp_bytes|done].
Qed.

(** ** Round trip *)

Definition scalar (p : N) : Prop := p < 55296 \/ (57344 <= p /\ p < 1114112).
(** A string without unpaired surrogates. *)
Definition well_formed (s : jstr) : Prop := exists ps, Forall scalar ps /\ s = flat_map units_of_cp ps.

Lemma code_points_units p s : scalar p -> code_points (units_of_cp p ++ s) = p :: code_points s.
Proof.
  intros H. unfold units_of_cp. destruct (p <? 65536) eqn:E; bool_norm.
  - cbn [app code_points]. unfold is_high, is_low.
    destruct ((55296 <=? p) && (p <=? 56319)) eqn:E1; [bool_norm; unfold scalar in H; lia|].
    destruct ((56320 <=? p) && (p <=? 57343)) eqn:E2; [bool_norm; unfold scalar in H; lia|]. done.
  - cbn [app code_points]. assert (H1 : (p - 65536) / 1024 < 1024) by (apply N.Div0.div_lt_upper_bound; unfold scalar in H; lia).
    pose proof (N.mod_lt (p - 65536) 1024 ltac:(lia)) as H2.
    pose proof (N.div_mod (p - 65536) 1024 ltac:(lia)) as H3.
    unfold is_high, is_low.
    set (q := (p - 65536) / 1024) in *. set (r := (p - 65536) mod 1024) in *. clearbody q r.
    assert (A1 : (55296 <=? 55296 + q) && (55296 + q <=? 56319) = true) by (apply andb_true_iff; split; apply N.leb_le; lia).
    assert (A2 : (56320 <=? 56320 + r) && (56320 + r <=? 57343) = true) by (apply andb_true_iff; split; apply N.leb_le; lia).
    rewrite A1, A2. f_equal. lia.
Qed.

Lemma utf8_encode_units ps : Forall scalar ps -> utf8_encode (flat_map units_of_cp ps) = flat_map encode_cp ps.
Proof.
  intros H. unfold utf8_encode. f_equal. induction H as [|p ps Hp _ IH]; [done|].
  cbn [flat_map]. rewrite code_points_units by done. by rewrite IH.
Qed.

Ltac Zify.zify_post_hook ::= Z.to_euclidean_division_equations.

Lemma leb_true a b : a <= b -> (a <=? b) = true.
Proof. apply N.leb_le. Qed.
Lemma leb_false a b : b < a -> (a <=? b) = false.
Proof. apply N.leb_gt. Qed.

Lemma decode_encode_cp bom p : scalar p -> decode_stream (dec0 bom) (encode_cp p) = emit bom p.
Proof.
  intros H. unfold scalar in H. unfold encode_cp.
  assert (R : forall d bs o, (let '(d2, o2) := decode_stream d bs in (d2, [] ++ o2)) = o -> decode_stream d bs = o).
  { intros d bs o. by destruct (decode_stream d bs). }
  assert (LAST : forall x : Decoder * jstr, (let '(d1, o1) := x in let '(d2, o2) := decode_stream d1 [] in (d2, o1 ++ o2)) = x).
  { intros [d o]. cbn [decode_stream]. by rewrite app_nil_r. }
  destruct (p <? 128) eqn:E1; bool_norm.
  { cbn [decode_stream]. unfold dec_byte. cbn [d_needed dec0 d_bom]. unfold dec_lead. rewrite leb_true by lia. apply LAST. }
  destruct (p <? 2048) eqn:E2; bool_norm.
  { cbn [decode_stream]. unfold dec_byte at 1. cbn [d_needed dec0 d_bom]. unfold dec_lead.
    rewrite (leb_false (192 + p / 64) 127), (leb_true 194), (leb_true (192 + p / 64) 223) by lia. cbn [andb app].
    unfold dec_byte. cbn [d_needed d_lo d_hi d_cp d_bom].
    rewrite (leb_true 128), (leb_true (128 + p mod 64) 191) by lia. cbn [andb].
    replace ((192 + p / 64) mod 32 * 64 + (128 + p mod 64) mod 64) with p by lia.
    rewrite LAST. by destruct (emit bom p). }
  destruct (p <? 65536) eqn:E3; bool_norm.
  { cbn [decode_stream]. unfold dec_byte at 1. cbn [d_needed dec0 d_bom]. unfold dec_lead.
    rewrite (leb_false (224 + p / 4096) 127) by lia.
    rewrite (leb_false (224 + p / 4096) 223) by lia. rewrite andb_false_r.
    rewrite (leb_true 224), (leb_true (224 + p / 4096) 239) by lia. cbn [andb app].
    unfold dec_byte at 1. cbn [d_needed d_lo d_hi d_cp d_bom].
    assert (A : ((if 224 + p / 4096 =? 224 then 160 else 128) <=? 128 + p / 64 mod 64) = true).
    { apply leb_true. destruct (224 + p / 4096 =? 224) eqn:EA; bool_norm; lia. }
    assert (B : (128 + p / 64 mod 64 <=? (if 224 + p / 4096 =? 237 then 159 else 191)) = true).
    { apply leb_true. destruct (224 + p / 4096 =? 237) eqn:EA; bool_norm; lia. }
    rewrite A, B. cbn [andb app].
    unfold dec_byte. cbn [d_needed d_lo d_hi d_cp d_bom].
    rewrite (leb_true 128), (leb_true (128 + p mod 64) 191) by lia. cbn [andb].
    replace (((224 + p / 4096) mod 16 * 64 + (128 + p / 64 mod 64) mod 64) * 64 + (128 + p mod 64) mod 64) with p by lia.
    rewrite LAST. by destruct (emit bom p). }
  cbn [decode_stream]. unfold dec_byte at 1. cbn [d_needed dec0 d_bom]. unfold dec_lead.
  rewrite (leb_false (240 + p / 262144) 127) by lia.
  rewrite (leb_false (240 + p / 262144) 223) by lia. rewrite andb_false_r.
  rewrite (leb_false (240 + p / 262144) 239) by lia. rewrite andb_false_r.
  rewrite (leb_true 240), (leb_true (240 + p / 262144) 244) by lia. cbn [andb app].
  unfold dec_byte at 1. cbn [d_needed d_lo d_hi d_cp d_bom].
  assert (A : ((if 240 + p / 262144 =? 240 then 144 else 128) <=? 128 + p / 4096 mod 64) = true).
  { apply leb_true. destruct (240 + p / 262144 =? 240) eqn:EA; bool_norm; lia. }
  assert (B : (128 + p / 4096 mod 64 <=? (if 240 + p / 262144 =? 244 then 143 else 191)) = true).
  { apply leb_true. destruct (240 + p / 262144 =? 244) eqn:EA; bool_norm; lia. }
  rewrite A, B. cbn [andb app].
  unfold dec_byte at 1. cbn [d_needed d_lo d_hi d_cp d_bom].
  rewrite (leb_true 128), (leb_true (128 + p / 64 mod 64) 191) by lia. cbn [andb app].
  unfold dec_byte. cbn [d_needed d_lo d_hi d_cp d_bom].
  rewrite (leb_true 128), (leb_true (128 + p mod 64) 191) by lia. cbn [andb].
  replace ((((240 + p / 262144) mod 8 * 64 + (128 + p / 4096 mod 64) mod 64) * 64 + (128 + p / 64 mod 64) mod 64) * 64 + (128 + p mod 64) mod 64) with p by lia.
  rewrite LAST. by destruct (emit bom p).
Qed.

Ltac Zify.zify_post_hook ::= idtac.

(** Decoding what [TextEncoder] wrote gives the text back, except a byte order
    mark at the head of the stream. *)
Lemma decode_encode s bom : well_formed s -> (bom = true -> hd 0 s <> 65279) ->
  (decode_stream (dec0 bom) (utf8_encode s)).2 = s /\
  (s <> [] -> (decode_stream (dec0 bom) (utf8_encode s)).1 = dec0 false).
Proof.
  intros (ps & HP & ->) Hb. rewrite utf8_encode_units by done.
  assert (F : forall ps, Forall scalar ps -> decode_stream (dec0 false) (flat_map encode_cp ps) = (dec0 false, flat_map units_of_cp ps)).
  { clear. induction 1 as [|p ps Hp _ IH]; [done|]. cbn [flat_map].
    rewrite decode_stream_app, decode_encode_cp by done. unfold emit. cbn [andb]. by rewrite IH. }
  destruct HP as [|p ps Hp HP]; [done|]. cbn [flat_map].
  rewrite decode_stream_app, decode_encode_cp by done. unfold emit.
  assert (E : bom && (p =? 65279) = false).
  { destruct bom; [|done]. cbn [andb]. apply N.eqb_neq. intros ->. by apply Hb. }
  rewrite E, F by done. done.
Qed.
