(* ===== verification/Url.v ===== *)
(** * URLs: [encodeURIComponent] and [URLSearchParams]

    The percent encoding of a text and the query of a list of fields, as the
    language and the URL standard define them, with the reader of a query, and
    what a link keeps of the text it carries. *)

From S2P Require Import Prelude JsString Utf8.
Local Open Scope N_scope.

Definition hex_digit (n : N) : N := if n <? 10 then 48 + n else 55 + n.
Definition percent (b : N) : jstr := [37; hex_digit (b / 16); hex_digit (b mod 16)].
Definition alnum (b : N) : bool := ((48 <=? b) && (b <=? 57)) || ((65 <=? b) && (b <=? 90)) || ((97 <=? b) && (b <=? 122)).
(** - _ . ! ~ * ' ( ) *)
Definition unreserved (b : N) : bool := alnum b || existsb (N.eqb b) [45; 95; 46; 33; 126; 42; 39; 40; 41].
(** * - . _ *)
Definition form_plain (b : N) : bool := alnum b || existsb (N.eqb b) [42; 45; 46; 95].

(** No unpaired surrogate. *)
Definition is_well_formed (s : jstr) : bool := streq (flat_map units_of_cp (code_points s)) s.
Definition escape (plain : N -> bool) (b : N) : jstr := if plain b then [b] else percent b.
(** [encodeURIComponent(s)], that throws on an unpaired surrogate. *)
Definition encodeURIComponent (s : jstr) : option jstr :=
  if is_well_formed s then Some (flat_map (escape unreserved) (utf8_encode s)) else None.
Definition form_byte (b : N) : jstr := if b =? 32 then [43] else escape form_plain b.
Definition form_encode (s : jstr) : jstr := flat_map form_byte (utf8_encode s).
(** [new URLSearchParams(fields).toString()] *)
Definition search_params (fields : list (jstr * jstr)) : jstr :=
  join (u "&") (map (fun f => form_encode f.1 ++ u "=" ++ form_encode f.2) fields).

(** ** Reading a query *)

Definition hex_value (c : N) : option N :=
  if (48 <=? c) && (c <=? 57) then Some (c - 48)
  else if (65 <=? c) && (c <=? 70) then Some (c - 55)
  else if (97 <=? c) && (c <=? 102) then Some (c - 87)
  else None.
(** The bytes of a percent-encoded text (of ASCII), a plus sign being a space. *)
Fixpoint form_bytes (s : jstr) : list N :=
  match s with
  | 37 :: ((a :: b :: r) as k) =>
      match hex_value a, hex_value b with Some x, Some y => 16 * x + y :: form_bytes r | _, _ => 37 :: form_bytes k end
  | c :: r => (if c =? 43 then 32 else c) :: form_bytes r
  | [] => []
  end.
(** A field of [new URLSearchParams(query)]: UTF-8 without byte order mark. *)
Definition form_decode (s : jstr) : jstr := (decode_stream (dec0 false) (form_bytes s)).2.

(** The first value of a field in a query without its question mark. *)
Fixpoint get_param (name : jstr) (fields : list jstr) : option jstr :=
  match fields with
  | [] => None
  | f :: r =>
      let k := match index_of (u "=") f 0 with Some i => (take i f, drop (S i) f) | None => (f, []) end in
      match f with
      | [] => get_param name r
      | _ => if streq (form_decode k.1) name then Some (form_decode k.2) else get_param name r
      end
  end.
(** [new URLSearchParams(query).get(name)] *)
Definition search_get (query name : jstr) : option jstr := get_param name (split_on (u "&") query).

Lemma hex_value_digit n : n < 16 -> hex_value (hex_digit n) = Some n.
Proof.
  intros H. assert (F : forallb (fun k => match hex_value (hex_digit k) with Some m => m =? k | None => false end) (map N.of_nat (seq 0 16)) = true) by reflexivity.
  rewrite forallb_forall in F. specialize (F n). destruct (hex_value (hex_digit n)) as [m|].
  - f_equal. apply N.eqb_eq, F. apply in_map_iff. exists (N.to_nat n). split; [lia|apply in_seq; lia].
  - exfalso. enough (false = true) by done. apply F. apply in_map_iff. exists (N.to_nat n). split; [lia|apply in_seq; lia].
Qed.
Lemma form_bytes_percent b s : b < 256 -> form_bytes (percent b ++ s) = b :: form_bytes s.
Proof.
  intros H. cbn [percent app form_bytes]. rewrite !hex_value_digit; [|apply N.mod_upper_bound; lia|apply N.Div0.div_lt_upper_bound; lia].
  f_equal. symmetry. apply N.div_mod'.
Qed.
Lemma form_bytes_plain c s : c <> 37 -> form_bytes (c :: s) = (if c =? 43 then 32 else c) :: form_bytes s.
Proof. intros H. destruct c as [|p]; [done|]. do 6 (destruct p as [p|p|]; try done). Qed.
(** An encoding that leaves neither the percent nor the plus sign as they are is
    read back. *)
Lemma form_bytes_escape plain bs : plain 37 = false -> plain 43 = false -> Forall (fun b => b < 256) bs -> form_bytes (flat_map (escape plain) bs) = bs.
Proof.
  intros P Q. induction 1 as [|b bs Hb _ IH]; [done|]. cbn [flat_map]. unfold escape at 1. destruct (plain b) eqn:E.
  - assert (b <> 37 /\ b <> 43) as [N1 N2] by (split; intros ->; congruence). cbn [app]. rewrite form_bytes_plain, IH by done.
    destruct (N.eqb_spec b 43); done.
  - by rewrite form_bytes_percent, IH.
Qed.
Lemma form_bytes_form bs : Forall (fun b => b < 256) bs -> form_bytes (flat_map form_byte bs) = bs.
Proof.
  induction 1 as [|b bs Hb _ IH]; [done|]. cbn [flat_map]. unfold form_byte at 1. destruct (N.eqb_spec b 32) as [->|]; [by rewrite <- IH at 2|].
  unfold escape. destruct (form_plain b) eqn:E.
  - assert (b <> 37 /\ b <> 43) as [N1 N2] by (split; intros ->; vm_compute in E; congruence). cbn [app]. rewrite form_bytes_plain, IH by done.
    destruct (N.eqb_spec b 43); done.
  - by rewrite form_bytes_percent, IH.
Qed.

Definition units (s : jstr) : Prop := Forall (fun c => c < 65536) s.
Lemma units_test s : forallb (fun c => c <? 65536) s = true -> units s.
Proof. intros H. apply List.Forall_forall. rewrite forallb_forall in H. intros c Hc. by apply N.ltb_lt, H. Qed.
Lemma code_points_scalar s : units s -> Forall scalar (code_points s).
Proof.
  intros H. remember (length s) as n eqn:L. assert (L' : (length s <= n)%nat) by lia. clear L. revert s H L'.
  induction n as [|n IH]; intros s H L; [by destruct s; [constructor|cbn in L; lia]|].
  destruct H as [|c r Hc Hr]; [constructor|]. cbn [code_points length] in *. unfold is_high, is_low in *. unfold scalar in *.
  destruct ((55296 <=? c) && (c <=? 56319)) eqn:Ehi.
  - bool_norm. destruct Hr as [|d r' Hd Hr']; [by repeat constructor; lia|]. destruct ((56320 <=? d) && _) eqn:Elo; constructor; try (apply IH; cbn in *; [done|lia]).
    + bool_norm. right. lia.
    + right. lia.
    + apply IH; [by constructor|cbn in *; lia].
  - destruct ((56320 <=? c) && _) eqn:Elo; constructor; try (apply IH; [done|lia]); [right; lia|].
    rewrite andb_false_iff, !N.leb_gt in Ehi, Elo. lia.
Qed.
Lemma is_well_formed_spec s : units s -> is_well_formed s = true -> well_formed s.
Proof. intros U H. exists (code_points s). split; [by apply code_points_scalar|]. unfold is_well_formed in H. by destruct (streq_spec (flat_map units_of_cp (code_points s)) s). Qed.

(** A link made with [encodeURIComponent] gives its text back to the page that
    reads it. *)
Theorem link_read_back s e : units s -> encodeURIComponent s = Some e -> form_decode e = s.
Proof.
  intros U. unfold encodeURIComponent. destruct (is_well_formed s) eqn:W; [|done]. intros [= <-]. unfold form_decode.
  rewrite form_bytes_escape; [|done|done|by apply utf8_encode_bytes]. by apply decode_encode; [apply is_well_formed_spec|].
Qed.
(** A field of a form too, when it has no unpaired surrogate. *)
Theorem field_read_back s : units s -> is_well_formed s = true -> form_decode (form_encode s) = s.
Proof.
  intros U W. unfold form_decode, form_encode. rewrite form_bytes_form by (by apply utf8_encode_bytes). by apply decode_encode; [apply is_well_formed_spec|].
Qed.
Lemma percent_plain b : b < 256 -> Forall (fun c => c = 37 \/ alnum c = true) (percent b).
Proof.
  intros H. assert (F : forall n, n < 16 -> alnum (hex_digit n) = true).
  { intros n Hn. unfold hex_digit, alnum. destruct (N.ltb_spec n 10); [replace (48 <=? 48 + n) with true by (symmetry; apply N.leb_le; lia); replace (48 + n <=? 57) with true by (symmetry; apply N.leb_le; lia); done|].
    replace (65 <=? 55 + n) with true by (symmetry; apply N.leb_le; lia). replace (55 + n <=? 90) with true by (symmetry; apply N.leb_le; lia). by rewrite orb_true_r. }
  unfold percent. constructor; [by left|]. constructor; [right; apply F, N.Div0.div_lt_upper_bound; lia|]. constructor; [right; apply F, N.mod_upper_bound; lia|constructor].
Qed.
(** An encoded text has no ampersand. *)
Lemma encoded_no_amp s e : units s -> encodeURIComponent s = Some e -> 38 ∉ e.
Proof.
  intros U. unfold encodeURIComponent. destruct (is_well_formed s); [|done]. intros [= <-] H. apply list_elem_of_In, in_flat_map in H as (b & Hb & H).
  unfold escape in H. destruct (unreserved b) eqn:P.
  - destruct H as [->|[]]. by vm_compute in P.
  - assert (B : b < 256) by (assert (A := utf8_encode_bytes s U); rewrite List.Forall_forall in A; by apply A).
    assert (A := percent_plain b B). rewrite List.Forall_forall in A. destruct (A 38 H) as [X|X]; [done|by vm_compute in X].
Qed.
(** A query of one field gives its value back. *)
Theorem query_read_back s e : units s -> encodeURIComponent s = Some e -> search_get (u "model=" ++ e) (u "model") = Some s.
Proof.
  intros U E. assert (N := encoded_no_amp s e U E). unfold search_get.
  change (u "&") with [38]. rewrite (split_on_single_none 38 (u "model=" ++ e)).
  - cbn [get_param]. change (index_of (u "=") (u "model=" ++ e) 0) with (Some 5%nat). cbv zeta. cbn [fst snd]. change (take 5 (u "model=" ++ e)) with (u "model").
    change (drop 6 (u "model=" ++ e)) with e. change (u "model=" ++ e) with (109 :: u "odel=" ++ e). change (streq (form_decode (u "model")) (u "model")) with true.
    by rewrite (link_read_back s e U E).
  - rewrite elem_of_app. intros [H|H]; [|done]. apply list_elem_of_In in H. by vm_compute in H; intuition.
Qed.
Example encoded : encodeURIComponent (u "Qwen/Qwen3 é+") = Some (u "Qwen%2FQwen3%20%C3%A9%2B") /\ form_encode (u "a b&é*") = u "a+b%26%C3%A9*" /\ encodeURIComponent [55296%N] = None.
Proof. vm_compute. repeat split; reflexivity. Qed.
