(* ===== verification/JsRegExp.v ===== *)
(** * JavaScript regular expressions

    The backtracking matcher of the ECMAScript specification in
    continuation-passing style, on the constructs the frontend's patterns use,
    with a parser for pattern literals so that the patterns below read like
    the source's.  A pattern with a double quote writes it [\x22]. *)

From Stdlib Require Import ZifyBool.
From S2P Require Export JsString.

(** ** Syntax *)

Inductive re :=
| Eps
| Chars (neg : bool) (rs : list (N * N))
| Cat (a b : re)
| Alt (a b : re)
| Grp (n : nat) (a : re)
| Rep (a : re) (min : nat) (max : option nat) (greedy : bool)
| Bol | Eol
| WordB (neg : bool)
| Look (neg : bool) (a : re)
| LookBehind (neg : bool) (cneg : bool) (rs : list (N * N))  (* one unit *)
| Back (n : nat).

Fixpoint groups (r : re) : list nat :=
  match r with
  | Cat a b | Alt a b => groups a ++ groups b
  | Grp n a => n :: groups a
  | Rep a _ _ _ | Look _ a => groups a
  | _ => []
  end.

(** ** Character classes *)

Definition ws_ranges : list (N * N) :=
  [(9, 13); (32, 32); (160, 160); (5760, 5760); (8192, 8202); (8232, 8233);
   (8239, 8239); (8287, 8287); (12288, 12288); (65279, 65279)]%N.
Definition word_ranges : list (N * N) := [(48, 57); (65, 90); (95, 95); (97, 122)]%N.
Definition digit_ranges : list (N * N) := [(48, 57)]%N.
Definition line_ends : list (N * N) := [(10, 10); (13, 13); (8232, 8233)]%N.

(** Complement of sorted ranges. *)
Fixpoint compl (from : N) (rs : list (N * N)) : list (N * N) :=
  match rs with
  | [] => [(from, 65535%N)]
  | (lo, hi) :: r => (if (from <? lo)%N then [(from, lo - 1)%N] else []) ++ compl (hi + 1) r
  end.

Definition in_ranges (c : N) (rs : list (N * N)) : bool :=
  existsb (fun r => (r.1 <=? c)%N && (c <=? r.2)%N) rs.

(** [Canonicalize] without the [u] flag.  The patterns of the source hold no
    cased letter outside Latin-1, so the table stops there. *)
Definition canon (c : N) : N :=
  if ((97 <=? c) && (c <=? 122) || (224 <=? c) && (c <=? 254) && negb (c =? 247))%N
  then (c - 32)%N else c.
Definition uncanon (c : N) : N :=
  if ((65 <=? c) && (c <=? 90) || (192 <=? c) && (c <=? 222) && negb (c =? 215))%N
  then (c + 32)%N else c.

Record flags := mkFlags { ignoreCase : bool; multiline : bool }.

Definition char_in (fl : flags) (c : N) (neg : bool) (rs : list (N * N)) : bool :=
  let hit := if ignoreCase fl then in_ranges (canon c) rs || in_ranges (uncanon (canon c)) rs || in_ranges c rs
             else in_ranges c rs in
  xorb neg hit.

Definition is_word (c : option N) : bool :=
  match c with Some c => in_ranges c word_ranges | None => false end.
Definition is_line_end (c : N) : bool := in_ranges c line_ends.

(** ** Matching *)

(** A matcher state: position, unit before it, what follows, captures. *)
Record mst := mkM {
  ms_pos : nat; ms_prev : option N; ms_rest : jstr; ms_caps : list (nat * jstr)
}.
Definition cont := mst -> option mst.

Definition advance (x : mst) : option (N * mst) :=
  match ms_rest x with
  | [] => None
  | c :: r => Some (c, mkM (S (ms_pos x)) (Some c) r (ms_caps x))
  end.
Definition with_caps (x : mst) (cs : list (nat * jstr)) : mst :=
  mkM (ms_pos x) (ms_prev x) (ms_rest x) cs.
Definition clear_caps (gs : list nat) (x : mst) : mst :=
  with_caps x (List.filter (fun c => negb (existsb (Nat.eqb c.1) gs)) (ms_caps x)).
Definition get_cap (cs : list (nat * jstr)) (n : nat) : option jstr :=
  snd <$> find (fun c => Nat.eqb c.1 n) cs.

(** Consume a given text (a back reference). *)
Fixpoint eat (fl : flags) (t : jstr) (x : mst) : option mst :=
  match t with
  | [] => Some x
  | a :: t' =>
      match advance x with
      | Some (c, x') =>
          if (if ignoreCase fl then (canon a =? canon c)%N else (a =? c)%N) then eat fl t' x' else None
      | None => None
      end
  end.

(** RepeatMatcher: [fuel] bounds the iterations (each one lowers [min] or
    consumes a unit, see [rep_loop_fuel]). *)
Fixpoint rep_loop (body : mst -> cont -> option mst) (gs : list nat) (greedy : bool)
    (fuel min : nat) (max : option nat) (x : mst) (k : cont) : option mst :=
  match fuel with
  | O => None
  | S f =>
      match max with
      | Some O => k x
      | _ =>
          let again :=
            body (clear_caps gs x) (fun y =>
              if (min =? 0) && (ms_pos y =? ms_pos x) then None
              else rep_loop body gs greedy f (min - 1) (pred <$> max) y k) in
          if 0 <? min then again
          else if greedy then match again with Some r => Some r | None => k x end
          else match k x with Some r => Some r | None => again end
      end
  end.

Fixpoint mt (fl : flags) (r : re) (x : mst) (k : cont) : option mst :=
  match r with
  | Eps => k x
  | Chars neg rs =>
      match advance x with
      | Some (c, x') => if char_in fl c neg rs then k x' else None
      | None => None
      end
  | Cat a b => mt fl a x (fun y => mt fl b y k)
  | Alt a b => match mt fl a x k with Some y => Some y | None => mt fl b x k end
  | Grp n a =>
      mt fl a x (fun y =>
        let t := take (ms_pos y - ms_pos x) (ms_rest x) in
        k (with_caps y ((n, t) :: List.filter (fun c => negb (Nat.eqb c.1 n)) (ms_caps y))))
  | Rep a min max greedy =>
      rep_loop (mt fl a) (groups a) greedy (S (min + length (ms_rest x))) min max x k
  | Bol =>
      if match ms_prev x with None => true | Some c => multiline fl && is_line_end c end then k x else None
  | Eol =>
      if match ms_rest x with [] => true | c :: _ => multiline fl && is_line_end c end then k x else None
  | WordB neg =>
      if xorb neg (xorb (is_word (ms_prev x)) (is_word (head (ms_rest x)))) then k x else None
  | Look neg a =>
      match mt fl a x Some with
      | Some y => if neg then None else k (with_caps x (ms_caps y))
      | None => if neg then k x else None
      end
  | LookBehind neg cneg rs =>
      if xorb neg (match ms_prev x with Some c => char_in fl c cneg rs | None => false end) then k x else None
  | Back n =>
      match get_cap (ms_caps x) n with
      | None => k x
      | Some t => match eat fl t x with Some y => k y | None => None end
      end
  end.

(** ** [exec], [test], [matchAll], [search] *)

Record RegExp := mkRe { re_body : re; re_flags : flags }.
Record Match := mkMatch { m_index : nat; m_end : nat; m_text : jstr; m_caps : list (nat * jstr) }.
Definition cap (m : Match) (n : nat) : option jstr := get_cap (m_caps m) n.
(** [m[n] || ""] *)
Definition cap0 (m : Match) (n : nat) : jstr := default [] (cap m n).

Definition match_here (r : RegExp) (pos : nat) (prev : option N) (rest : jstr) : option Match :=
  match mt (re_flags r) (re_body r) (mkM pos prev rest []) Some with
  | Some y => Some (mkMatch pos (ms_pos y) (take (ms_pos y - pos) rest) (ms_caps y))
  | None => None
  end.

Fixpoint search_from (r : RegExp) (pos : nat) (prev : option N) (rest : jstr) : option Match :=
  match match_here r pos prev rest with
  | Some m => Some m
  | None => match rest with
            | [] => None
            | c :: rest' => search_from r (S pos) (Some c) rest'
            end
  end.

(** [re.exec(s)] with [lastIndex = from]. *)
Definition exec_from (r : RegExp) (s : jstr) (from : nat) : option Match :=
  if length s <? from then None
  else search_from r from (match from with O => None | S p => s !! p end) (drop from s).
Definition exec (r : RegExp) (s : jstr) : option Match := exec_from r s 0.
Definition test (r : RegExp) (s : jstr) : bool := bool_decide (is_Some (exec r s)).
Definition search (r : RegExp) (s : jstr) : option nat := m_index <$> exec r s.

Fixpoint match_all_fuel (fuel : nat) (r : RegExp) (s : jstr) (from : nat) : list Match :=
  match fuel with
  | O => []
  | S f =>
      match exec_from r s from with
      | None => []
      | Some m => m :: match_all_fuel f r s (if m_end m =? m_index m then S (m_end m) else m_end m)
      end
  end.
(** [s.matchAll(re)] for a global pattern: every match moves the index
    forward, so [length s + 2] rounds are enough. *)
Definition match_all (r : RegExp) (s : jstr) : list Match := match_all_fuel (length s + 2) r s 0.

(** ** [replace] and [split] *)

(** Template expansion ([$$], [$&], [$1] to [$9]). *)
Fixpoint expand_match (m : Match) (tpl : jstr) : jstr :=
  match tpl with
  | [] => []
  | c :: t =>
      if (c =? 36)%N then
        match t with
        | [] => [c]
        | d :: t' =>
            if (d =? 36)%N then 36%N :: expand_match m t'
            else if (d =? 38)%N then m_text m ++ expand_match m t'
            else if (49 <=? d)%N && (d <=? 57)%N then cap0 m (N.to_nat (d - 48)) ++ expand_match m t'
            else c :: expand_match m t
        end
      else c :: expand_match m t
  end.

Fixpoint splice (s : jstr) (at_ : nat) (ms : list Match) (f : Match -> jstr) : jstr :=
  match ms with
  | [] => drop at_ s
  | m :: r => slice s at_ (m_index m) ++ f m ++ splice s (m_end m) r f
  end.
Definition replace_all_fn (r : RegExp) (f : Match -> jstr) (s : jstr) : jstr := splice s 0 (match_all r s) f.
Definition replace_all (r : RegExp) (tpl s : jstr) : jstr := replace_all_fn r (fun m => expand_match m tpl) s.
Definition replace_first (r : RegExp) (tpl s : jstr) : jstr :=
  splice s 0 (option_list (exec r s)) (fun m => expand_match m tpl).

(** [s.split(re)] for a pattern without groups. *)
Fixpoint split_re_loop (fuel : nat) (r : RegExp) (s : jstr) (p q : nat) : list jstr :=
  match fuel with
  | O => [drop p s]
  | S f =>
      if q <? length s then
        match match_here r q (match q with O => None | S i => s !! i end) (drop q s) with
        | Some m => if m_end m =? p then split_re_loop f r s p (S q)
                    else slice s p q :: split_re_loop f r s (m_end m) (m_end m)
        | None => split_re_loop f r s p (S q)
        end
      else [drop p s]
  end.
Definition split_re (r : RegExp) (s : jstr) : list jstr :=
  match s with
  | [] => match match_here r 0 None [] with Some _ => [] | None => [[]] end
  | _ => split_re_loop (S (2 * length s)) r s 0 0
  end.

(** ** Pattern literals *)

Definition hex_val (c : N) : option N :=
  if ((48 <=? c) && (c <=? 57))%N then Some (c - 48)%N
  else if ((97 <=? c) && (c <=? 102))%N then Some (c - 87)%N
  else if ((65 <=? c) && (c <=? 70))%N then Some (c - 55)%N
  else None.
Fixpoint hex_num (cs : jstr) (acc : N) : option N :=
  match cs with
  | [] => Some acc
  | c :: r => d ← hex_val c; hex_num r (acc * 16 + d)%N
  end.

(** What a backslash introduces: a class or one unit. *)
Definition p_escape (s : jstr) : option ((bool * list (N * N)) * jstr) :=
  match s with
  | 115%N :: r => Some ((false, ws_ranges), r)                         (* \s *)
  | 83%N :: r => Some ((false, compl 0 ws_ranges), r)                  (* \S *)
  | 119%N :: r => Some ((false, word_ranges), r)                       (* \w *)
  | 87%N :: r => Some ((false, compl 0 word_ranges), r)                (* \W *)
  | 100%N :: r => Some ((false, digit_ranges), r)                      (* \d *)
  | 110%N :: r => Some ((true, [(10, 10)%N]), r)                       (* \n *)
  | 114%N :: r => Some ((true, [(13, 13)%N]), r)                       (* \r *)
  | 116%N :: r => Some ((true, [(9, 9)%N]), r)                         (* \t *)
  | 120%N :: a :: b :: r => n ← hex_num [a; b] 0; Some ((true, [(n, n)]), r)          (* \xHH *)
  | 117%N :: a :: b :: c :: d :: r => n ← hex_num [a; b; c; d] 0; Some ((true, [(n, n)]), r)
  | c :: r => Some ((true, [(c, c)]), r)
  | [] => None
  end.

(** A class member: (single unit?, ranges). *)
Definition p_class_atom (s : jstr) : option ((bool * list (N * N)) * jstr) :=
  match s with
  | 92%N :: r => p_escape r
  | c :: r => Some ((true, [(c, c)]), r)
  | [] => None
  end.

Fixpoint p_class (fuel : nat) (s : jstr) : option (list (N * N) * jstr) :=
  match fuel with
  | O => None
  | S f =>
      match s with
      | 93%N :: r => Some ([], r)
      | _ =>
          '((single, rs), r) ← p_class_atom s;
          match single, rs, r with
          | true, [(lo, _)], 45%N :: r1 =>
              match r1 with
              | 93%N :: _ => '(tl, r2) ← p_class f r; Some (rs ++ tl, r2)
              | _ =>
                  '((single2, rs2), r2) ← p_class_atom r1;
                  match single2, rs2 with
                  | true, [(hi, _)] => '(tl, r3) ← p_class f r2; Some ((lo, hi) :: tl, r3)
                  | _, _ => None
                  end
              end
          | _, _, _ => '(tl, r1) ← p_class f r; Some (rs ++ tl, r1)
          end
      end
  end.

Fixpoint p_num (s : jstr) (acc : option nat) : option nat * jstr :=
  match s with
  | c :: r => if ((48 <=? c) && (c <=? 57))%N
              then p_num r (Some (default 0 acc * 10 + N.to_nat (c - 48)))
              else (acc, s)
  | [] => (acc, [])
  end.

(** A quantifier, if there is one. *)
Definition p_quant (s : jstr) : option ((nat * option nat) * jstr) :=
  match s with
  | 42%N :: r => Some ((0, None), r)
  | 43%N :: r => Some ((1, None), r)
  | 63%N :: r => Some ((0, Some 1), r)
  | 123%N :: r =>
      match p_num r None with
      | (Some a, 125%N :: r1) => Some ((a, Some a), r1)
      | (Some a, 44%N :: 125%N :: r1) => Some ((a, None), r1)
      | (Some a, 44%N :: r1) =>
          match p_num r1 None with
          | (Some b, 125%N :: r2) => Some ((a, Some b), r2)
          | _ => None
          end
      | _ => None
      end
  | _ => None
  end.

Definition quantify (a : re) (s : jstr) : re * jstr :=
  match p_quant s with
  | Some ((mn, mx), 63%N :: r) => (Rep a mn mx false, r)
  | Some ((mn, mx), r) => (Rep a mn mx true, r)
  | None => (a, s)
  end.

Definition p_close (s : jstr) : option jstr :=
  match s with 41%N :: r => Some r | _ => None end.

(** [n] numbers the capture groups from left to right. *)
Fixpoint p_alt (fuel : nat) (s : jstr) (n : nat) : option (re * jstr * nat) :=
  match fuel with
  | O => None
  | S f =>
      '(a, r, n1) ← p_seq f s n;
      match r with
      | 124%N :: r1 => '(b, r2, n2) ← p_alt f r1 n1; Some (Alt a b, r2, n2)
      | _ => Some (a, r, n1)
      end
  end
with p_seq (fuel : nat) (s : jstr) (n : nat) : option (re * jstr * nat) :=
  match fuel with
  | O => None
  | S f =>
      match s with
      | [] | 124%N :: _ | 41%N :: _ => Some (Eps, s, n)
      | _ =>
          '(a, r, n1) ← p_atom f s n;
          let '(a', r') := quantify a r in
          '(b, r2, n2) ← p_seq f r' n1;
          Some (match b with Eps => a' | _ => Cat a' b end, r2, n2)
      end
  end
with p_atom (fuel : nat) (s : jstr) (n : nat) : option (re * jstr * nat) :=
  match fuel with
  | O => None
  | S f =>
      match s with
      | 94%N :: r => Some (Bol, r, n)
      | 36%N :: r => Some (Eol, r, n)
      | 46%N :: r => Some (Chars true line_ends, r, n)
      | 91%N :: 94%N :: r => '(rs, r1) ← p_class f r; Some (Chars true rs, r1, n)
      | 91%N :: r => '(rs, r1) ← p_class f r; Some (Chars false rs, r1, n)
      | 40%N :: 63%N :: 58%N :: r => '(a, r1, n1) ← p_alt f r n; r2 ← p_close r1; Some (a, r2, n1)
      | 40%N :: 63%N :: 61%N :: r => '(a, r1, n1) ← p_alt f r n; r2 ← p_close r1; Some (Look false a, r2, n1)
      | 40%N :: 63%N :: 33%N :: r => '(a, r1, n1) ← p_alt f r n; r2 ← p_close r1; Some (Look true a, r2, n1)
      | 40%N :: 63%N :: 60%N :: 33%N :: r =>
          '(a, r1, n1) ← p_alt f r n; r2 ← p_close r1;
          match a with Chars cn rs => Some (LookBehind true cn rs, r2, n1) | _ => None end
      | 40%N :: r => '(a, r1, n1) ← p_alt f r (S n); r2 ← p_close r1; Some (Grp (S n) a, r2, n1)
      | 92%N :: 98%N :: r => Some (WordB false, r, n)
      | 92%N :: 66%N :: r => Some (WordB true, r, n)
      | 92%N :: c :: r =>
          if ((49 <=? c) && (c <=? 57))%N then Some (Back (N.to_nat (c - 48)), r, n)
          else '((_, rs), r1) ← p_escape (c :: r); Some (Chars false rs, r1, n)
      | c :: r => Some (Chars false [(c, c)], r, n)
      | [] => None
      end
  end.

(** [rx "..." "flags"] is the pattern a literal denotes; [g] only selects the
    operation, so the flags that matter are [i] and [m]. *)
Definition parse_re (s : jstr) : option re :=
  match p_alt (3 * length s + 3) s 0 with
  | Some (a, [], _) => Some a
  | _ => None
  end.
Definition rx (p f : String.string) : RegExp :=
  mkRe (default (Chars false []) (parse_re (u p)))
    (mkFlags (existsb (N.eqb 105) (u f)) (existsb (N.eqb 109) (u f))).
Arguments rx p%_string_scope f%_string_scope.

(** ** What a match means

    [rm fl r x z]: from state [x] the pattern [r] can end in state [z].  The
    relation forgets the order in which the alternatives are tried. *)
Inductive rm (fl : flags) : re -> mst -> mst -> Prop :=
| rm_eps x : rm fl Eps x x
| rm_chars neg rs x c x' :
    advance x = Some (c, x') -> char_in fl c neg rs = true -> rm fl (Chars neg rs) x x'
| rm_cat a b x y z : rm fl a x y -> rm fl b y z -> rm fl (Cat a b) x z
| rm_alt_l a b x z : rm fl a x z -> rm fl (Alt a b) x z
| rm_alt_r a b x z : rm fl b x z -> rm fl (Alt a b) x z
| rm_grp n a x y :
    rm fl a x y ->
    rm fl (Grp n a) x
      (with_caps y ((n, take (ms_pos y - ms_pos x) (ms_rest x))
                      :: List.filter (fun c => negb (Nat.eqb c.1 n)) (ms_caps y)))
| rm_rep_stop a mn mx g x : mn = 0 \/ mx = Some 0 -> rm fl (Rep a mn mx g) x x
| rm_rep_more a mn mx g x y z :
    mx <> Some 0 ->
    rm fl a (clear_caps (groups a) x) y -> rm fl (Rep a (mn - 1) (pred <$> mx) g) y z ->
    rm fl (Rep a mn mx g) x z
| rm_bol x : (ms_prev x = None \/ multiline fl = true) -> rm fl Bol x x
| rm_eol x : (ms_rest x = [] \/ multiline fl = true) -> rm fl Eol x x
| rm_wordb neg x : rm fl (WordB neg) x x
| rm_look a x y : rm fl a x y -> rm fl (Look false a) x (with_caps x (ms_caps y))
| rm_look_neg a x : mt fl a x Some = None -> rm fl (Look true a) x x
| rm_behind neg cneg rs x :
    xorb neg (match ms_prev x with Some c => char_in fl c cneg rs | None => false end) = true ->
    rm fl (LookBehind neg cneg rs) x x
| rm_back_none n x : get_cap (ms_caps x) n = None -> rm fl (Back n) x x
| rm_back n t x y : get_cap (ms_caps x) n = Some t -> eat fl t x = Some y -> rm fl (Back n) x y.

(** The matcher only succeeds through its continuation. *)
Lemma rep_loop_sound fl a greedy fuel mn mx x k w :
  (forall x k w, mt fl a x k = Some w -> exists z, rm fl a x z /\ k z = Some w) ->
  rep_loop (mt fl a) (groups a) greedy fuel mn mx x k = Some w ->
  exists z, rm fl (Rep a mn mx greedy) x z /\ k z = Some w.
Proof.
  intros IH. revert mn mx x k w.
  induction fuel as [|f IHf]; intros mn mx x k w; cbn [rep_loop]; [done|].
  destruct (decide (mx = Some 0)) as [->|Hmx].
  { intros H. exists x. split; [constructor; by right|done]. }
  set (again := mt fl a _ _).
  assert (HA : forall w, again = Some w -> exists z, rm fl (Rep a mn mx greedy) x z /\ k z = Some w).
  { intros v H. apply IH in H as (y & Hy & H).
    destruct ((mn =? 0) && (ms_pos y =? ms_pos x)); [done|].
    apply IHf in H as (z & Hz & H). exists z. split; [by eapply rm_rep_more|done]. }
  clearbody again.
  assert (HB : mn = 0 -> k x = Some w -> exists z, rm fl (Rep a mn mx greedy) x z /\ k z = Some w).
  { intros -> H. exists x. split; [constructor; by left|done]. }
  assert (E : match mx with Some 0 => k x | _ =>
    if 0 <? mn then again else if greedy then match again with Some r => Some r | None => k x end
    else match k x with Some r => Some r | None => again end end = Some w ->
    exists z, rm fl (Rep a mn mx greedy) x z /\ k z = Some w).
  { intros H. assert (H' : (if 0 <? mn then again else if greedy then match again with Some r => Some r | None => k x end
      else match k x with Some r => Some r | None => again end) = Some w) by (destruct mx as [[|?]|]; done).
    clear H. destruct (0 <? mn) eqn:Em; [by apply HA|]. apply Nat.ltb_ge in Em.
    destruct greedy.
    - destruct again as [v|] eqn:Ea; [apply HA; congruence|]. apply HB; [lia|done].
    - destruct (k x) as [v|] eqn:Ek; [apply HB; [lia|congruence]|]. by apply HA. }
  exact E.
Qed.

Theorem mt_sound fl r x k w : mt fl r x k = Some w -> exists z, rm fl r x z /\ k z = Some w.
Proof.
  revert x k w. induction r as [|neg rs|a IHa b IHb|a IHa b IHb|n a IHa|a IHa mn mx g| | |neg|neg a IHa|neg cn rs|n];
    intros x k w; cbn [mt].
  - intros H. exists x. split; [constructor|done].
  - destruct (advance x) as [[c x']|] eqn:E; [|done]. destruct (char_in fl c neg rs) eqn:F; [|done].
    intros H. exists x'. split; [by econstructor|done].
  - intros H. apply IHa in H as (y & Hy & H). apply IHb in H as (z & Hz & H).
    exists z. split; [by econstructor|done].
  - destruct (mt fl a x k) as [v|] eqn:E.
    + intros [= <-]. apply IHa in E as (z & Hz & E). exists z. split; [by constructor|done].
    + intros H. apply IHb in H as (z & Hz & H). exists z. split; [by apply rm_alt_r|done].
  - intros H. apply IHa in H as (y & Hy & H). eexists. split; [by constructor|exact H].
  - intros H. by apply rep_loop_sound in H.
  - destruct (ms_prev x) eqn:E; [destruct (_ && _) eqn:F; [bool_norm|done]|];
      intros ?; exists x; (split; [constructor; auto|done]).
  - destruct (ms_rest x) eqn:E; [|destruct (_ && _) eqn:F; [bool_norm|done]];
      intros ?; exists x; (split; [constructor; auto|done]).
  - destruct (xorb _ _); [|done]. intros H. exists x. split; [constructor|done].
  - destruct (mt fl a x Some) as [y|] eqn:E.
    + destruct neg; [done|]. intros H. apply IHa in E as (z & Hz & [= ->]).
      eexists. split; [by constructor|done].
    + destruct neg; [|done]. intros H. exists x. split; [by constructor|done].
  - destruct (xorb _ _) eqn:E; [|done]. intros H. exists x. split; [by constructor|done].
  - destruct (get_cap (ms_caps x) n) as [t|] eqn:E.
    + destruct (eat fl t x) as [y|] eqn:F; [|done]. intros H. exists y. split; [by eapply rm_back|done].
    + intros H. exists x. split; [by constructor|done].
Qed.

(** A match consumes a stretch of the text. *)
Definition consumes (x : mst) (t : jstr) (z : mst) : Prop :=
  ms_rest x = t ++ ms_rest z /\ ms_pos z = ms_pos x + length t.

Lemma consumes_nil x cs : consumes x [] (with_caps x cs).
Proof. split; [done|simpl; lia]. Qed.
Lemma consumes_refl x : consumes x [] x.
Proof. split; [done|simpl; lia]. Qed.
Lemma consumes_app x y z t1 t2 : consumes x t1 y -> consumes y t2 z -> consumes x (t1 ++ t2) z.
Proof.
  intros [H1 H2] [H3 H4]. split; [by rewrite H1, H3, app_assoc|rewrite length_app; lia].
Qed.
Lemma consumes_advance x c x' : advance x = Some (c, x') -> consumes x [c] x'.
Proof.
  unfold advance. destruct (ms_rest x) eqn:E; [done|]. intros [= <- <-]. split; simpl; [done|lia].
Qed.
Lemma eat_consumes fl t x y : eat fl t x = Some y -> exists t', consumes x t' y.
Proof.
  revert x. induction t as [|a t IH]; intros x; cbn [eat].
  - intros [= <-]. eexists. apply consumes_refl.
  - destruct (advance x) as [[c x']|] eqn:E; [|done].
    destruct (if ignoreCase fl then _ else _); [|done]. intros H.
    apply IH in H as [t' H]. eexists. eapply consumes_app; [by apply consumes_advance|exact H].
Qed.

Lemma rm_consumes fl r x z : rm fl r x z -> exists t, consumes x t z.
Proof.
  induction 1 as [| | ? ? ? ? ? ? [t1 H1] ? [t2 H2]| | | ? ? ? ? ? [t [H1 H2]]| |? ? ? ? ? ? ? ? ? [t1 H1] ? [t2 H2]| | | | | | | | ];
    try (eexists; apply consumes_refl); try (eexists; apply consumes_nil); try done.
  - eexists. by apply consumes_advance.
  - eexists. by eapply consumes_app.
  - exists t. by split.
  - eexists. eapply consumes_app; [|exact H2]. exact H1.
  - by eapply eat_consumes.
Qed.

(** ** Where the matches are *)

(** The matcher state at position [i] of [s]. *)
Definition at_pos (s : jstr) (i : nat) : mst :=
  mkM i (match i with O => None | S p => s !! p end) (drop i s) [].

Lemma match_here_sound r s i m :
  i <= length s ->
  match_here r i (match i with O => None | S p => s !! p end) (drop i s) = Some m ->
  m_index m = i /\ i <= m_end m <= length s /\ m_text m = slice s i (m_end m) /\
  exists z, rm (re_flags r) (re_body r) (at_pos s i) z /\ m_caps m = ms_caps z /\
            consumes (at_pos s i) (m_text m) z.
Proof.
  intros Hi. unfold match_here. destruct (mt _ _ _ _) as [y|] eqn:E; [|done]. intros [= <-]. simpl.
  apply mt_sound in E as (z & Hz & [= ->]). fold (at_pos s i) in Hz.
  pose proof (rm_consumes _ _ _ _ Hz) as [t [Ht1 Ht2]]. simpl in *.
  assert (L : length t <= length s - i) by (rewrite <- length_drop, Ht1, length_app; lia).
  assert (T : take (ms_pos y - i) (drop i s) = t).
  { rewrite Ht1, Ht2. replace (i + length t - i) with (length t) by lia. apply take_app_length. }
  repeat split; try lia; try done.
  exists y. repeat split; try done; rewrite T; done.
Qed.

Lemma drop_S_cons (s : jstr) i c r : drop i s = c :: r -> drop (S i) s = r /\ s !! i = Some c /\ i < length s.
Proof.
  intros H. assert (Hl : i < length s).
  { assert (length (drop i s) = S (length r)) by (rewrite H; done). rewrite length_drop in *. lia. }
  split; [|split; [|done]].
  - replace (S i) with (i + 1) by lia. rewrite <- drop_drop, H. done.
  - rewrite <- (Nat.add_0_r i), <- lookup_drop, H. done.
Qed.

Lemma search_from_sound r s i m :
  i <= length s ->
  search_from r i (match i with O => None | S p => s !! p end) (drop i s) = Some m ->
  i <= m_index m <= m_end m /\ m_end m <= length s /\ m_text m = slice s (m_index m) (m_end m) /\
  (exists z, rm (re_flags r) (re_body r) (at_pos s (m_index m)) z /\ m_caps m = ms_caps z /\
            consumes (at_pos s (m_index m)) (m_text m) z) /\
  (forall j, i <= j < m_index m ->
     match_here r j (match j with O => None | S p => s !! p end) (drop j s) = None).
Proof.
  remember (drop i s) as rest eqn:R. revert i R.
  induction rest as [|c rest IH]; intros i R Hi; cbn [search_from]; rewrite R.
  - destruct (match_here r i _ (drop i s)) as [m'|] eqn:E; [|done]. intros [= ->].
    apply match_here_sound in E as (E1 & E2 & E3 & E4); [|done]. rewrite E1.
    repeat split; try (intros; lia); done.
  - destruct (match_here r i _ (drop i s)) as [m'|] eqn:E.
    + intros [= ->]. apply match_here_sound in E as (E1 & E2 & E3 & E4); [|done]. rewrite E1.
      repeat split; try (intros; lia); done.
    + symmetry in R. destruct (drop_S_cons _ _ _ _ R) as (H1 & H2 & H3). rewrite <- H2.
      intros H. destruct (IH (S i)) as (B1 & B2 & B3 & B4 & B5); [done|lia|exact H|].
      split; [lia|]. split; [done|]. split; [done|]. split; [done|].
      intros j Hj. destruct (decide (j = i)) as [->|]; [done|]. apply B5. lia.
Qed.

Lemma exec_from_sound r s from m :
  exec_from r s from = Some m ->
  from <= m_index m <= m_end m /\ m_end m <= length s /\ m_text m = slice s (m_index m) (m_end m) /\
  (exists z, rm (re_flags r) (re_body r) (at_pos s (m_index m)) z /\ m_caps m = ms_caps z /\
            consumes (at_pos s (m_index m)) (m_text m) z) /\
  (forall j, from <= j < m_index m ->
     match_here r j (match j with O => None | S p => s !! p end) (drop j s) = None).
Proof.
  unfold exec_from. destruct (length s <? from) eqn:E; [done|]. apply Nat.ltb_ge in E.
  by apply search_from_sound.
Qed.

(** Matches come in order and do not overlap. *)
Fixpoint ordered (from : nat) (ms : list Match) (n : nat) : Prop :=
  match ms with
  | [] => True
  | m :: r => from <= m_index m /\ m_index m <= m_end m /\ m_end m <= n /\ ordered (m_end m) r n
  end.

Lemma ordered_weaken a b ms n : a <= b -> ordered b ms n -> ordered a ms n.
Proof. destruct ms; simpl; [done|]. intros ? (? & ? & ? & ?). repeat split; try done; lia. Qed.

Lemma match_all_fuel_ordered fuel r s from : ordered from (match_all_fuel fuel r s from) (length s).
Proof.
  revert from. induction fuel as [|f IH]; intros from; cbn [match_all_fuel]; [done|].
  destruct (exec_from r s from) as [m|] eqn:E; [|done].
  apply exec_from_sound in E as (E1 & E2 & E3 & E4). simpl. repeat split; try lia.
  eapply ordered_weaken; [|apply IH]. destruct (_ =? _); lia.
Qed.
Lemma match_all_ordered r s : ordered 0 (match_all r s) (length s).
Proof. apply match_all_fuel_ordered. Qed.

(** Every match of [match_all] is a match. *)
Definition is_match (r : RegExp) (s : jstr) (m : Match) : Prop :=
  m_index m <= m_end m /\ m_end m <= length s /\ m_text m = slice s (m_index m) (m_end m) /\
  exists z, rm (re_flags r) (re_body r) (at_pos s (m_index m)) z /\ m_caps m = ms_caps z /\
            consumes (at_pos s (m_index m)) (m_text m) z.

Lemma match_all_sound r s m : In m (match_all r s) -> is_match r s m.
Proof.
  unfold match_all. generalize (length s + 2). intros fuel. generalize 0.
  induction fuel as [|f IH]; intros from; cbn [match_all_fuel]; [done|].
  destruct (exec_from r s from) as [m'|] eqn:E; [|done]. intros [<-|H]; [|by eapply IH].
  apply exec_from_sound in E as (E1 & E2 & E3 & E4 & _). split; [lia|done].
Qed.
Lemma exec_sound r s m : exec r s = Some m -> is_match r s m.
Proof.
  intros H. apply exec_from_sound in H as (E1 & E2 & E3 & E4 & _). split; [lia|done].
Qed.

(** Splicing rewrites the matches and keeps the rest, up to a property of the
    texts that holds of the pieces. *)
Lemma splice_ind (s : jstr) (f : Match -> jstr) (P : nat -> jstr -> Prop) ms from :
  ordered from ms (length s) -> from <= length s ->
  (forall i, i <= length s -> P i (drop i s)) ->
  (forall i m t, In m ms -> i <= m_index m -> m_index m <= m_end m -> m_end m <= length s ->
     P (m_end m) t -> P i (slice s i (m_index m) ++ f m ++ t)) ->
  P from (splice s from ms f).
Proof.
  intros HO HF HB HS. revert from HO HF. induction ms as [|m ms IH]; intros from HO HF; cbn [splice].
  - by apply HB.
  - destruct HO as (H1 & H2 & H3 & H4). apply HS; try done; [by left|].
    apply IH; try done. intros. apply HS; try done. by right.
Qed.

(** ** Fuel of the repetition

    Every round that may stop lowers nothing but consumes a unit, every forced
    round lowers [min]: one more than [min + length rest] rounds never runs out,
    so more fuel does not change the result. *)
Definition shrinks (body : mst -> cont -> option mst) : Prop :=
  forall x k k', (forall y, (exists t, consumes x t y) -> k y = k' y) -> body x k = body x k'.

Lemma consumes_len x t y : consumes x t y -> length (ms_rest y) <= length (ms_rest x)
  /\ (ms_pos y <> ms_pos x -> length (ms_rest y) < length (ms_rest x)).
Proof. intros [H1 H2]. rewrite H1, length_app. split; lia. Qed.

Lemma rep_loop_fuel body gs greedy : shrinks body -> forall f f' mn mx x k,
  mn + length (ms_rest x) < f -> mn + length (ms_rest x) < f' ->
  rep_loop body gs greedy f mn mx x k = rep_loop body gs greedy f' mn mx x k.
Proof.
  intros HB. induction f as [|f IH]; intros f' mn mx x k Hf Hf'; [lia|].
  destruct f' as [|f']; [lia|]. cbn [rep_loop].
  match goal with |- context [body ?a ?k1] => match goal with |- context [body a ?k2] =>
    lazymatch k1 with k2 => fail | _ => rewrite (HB a k1 k2); [done|] end end end.
  intros y [t Hy]. destruct (consumes_len _ _ _ Hy) as [L1 L2]. simpl in *.
  destruct ((mn =? 0) && (ms_pos y =? ms_pos x)) eqn:E; [done|].
  apply andb_false_iff in E. rewrite !Nat.eqb_neq in E.
  apply IH; destruct E; lia.
Qed.

Lemma rep_loop_shrinks body gs greedy fuel mn mx :
  shrinks body -> shrinks (fun x k => rep_loop body gs greedy fuel mn mx x k).
Proof.
  intros HB. revert mn mx. induction fuel as [|f IH]; intros mn mx x k k' Hk; cbn [rep_loop]; [done|].
  assert (K : k x = k' x) by (apply Hk; eexists; apply consumes_refl).
  match goal with |- context [body ?a ?k1] => match goal with |- context [body a ?k2] =>
    lazymatch k1 with k2 => fail | _ => rewrite (HB a k1 k2) end end end.
  - rewrite K. done.
  - intros y [t Hy]. destruct (_ && _); [done|]. apply IH. intros z [t' Hz].
    apply Hk. exists (t ++ t'). by eapply consumes_app.
Qed.

Lemma mt_shrinks fl r : shrinks (mt fl r).
Proof.
  induction r as [|neg rs|a IHa b IHb|a IHa b IHb|n a IHa|a IHa mn mx g| | |neg|neg a IHa|neg cn rs|n];
    intros x k k' Hk; cbn [mt];
    assert (K : forall cs, k (with_caps x cs) = k' (with_caps x cs)) by (intros; apply Hk; eexists; apply consumes_nil);
    assert (K0 : k x = k' x) by (apply Hk; eexists; apply consumes_refl).
  - done.
  - destruct (advance x) as [[c x']|] eqn:E; [|done]. destruct (char_in _ _ _ _); [|done].
    apply Hk. eexists. by apply consumes_advance.
  - apply IHa. intros y [t Hy]. apply IHb. intros z [t' Hz]. apply Hk. exists (t ++ t'). by eapply consumes_app.
  - by rewrite (IHa _ k k'), (IHb _ k k').
  - apply IHa. intros y [t Hy]. apply Hk. by exists t.
  - by apply (rep_loop_shrinks (mt fl a) (groups a) g).
  - by rewrite K0.
  - by rewrite K0.
  - by rewrite K0.
  - destruct (mt fl a x Some); [by rewrite K|by rewrite K0].
  - by rewrite K0.
  - destruct (get_cap _ _) as [t|]; [|done]. destruct (eat fl t x) as [y|] eqn:E; [|done].
    apply Hk. by eapply eat_consumes.
Qed.

(** The fuel [mt] gives a repetition is as good as any larger one. *)
Lemma mt_rep_fuel fl a mn mx g x k extra :
  mt fl (Rep a mn mx g) x k
  = rep_loop (mt fl a) (groups a) g (extra + S (mn + length (ms_rest x))) mn mx x k.
Proof. cbn [mt]. apply rep_loop_fuel; [apply mt_shrinks|lia|lia]. Qed.

(** ** Literal patterns *)

Fixpoint lit_re (p : jstr) : re :=
  match p with
  | [] => Eps
  | [c] => Chars false [(c, c)]
  | c :: r => Cat (Chars false [(c, c)]) (lit_re r)
  end.

Fixpoint skip (n : nat) (x : mst) : mst :=
  match n with
  | O => x
  | S n' => match advance x with Some (_, x') => skip n' x' | None => x end
  end.

Lemma skip_consumes p x : is_prefix p (ms_rest x) = true ->
  ms_pos (skip (length p) x) = ms_pos x + length p /\ ms_caps (skip (length p) x) = ms_caps x.
Proof.
  revert x. induction p as [|c p IH]; intros x H; simpl; [split; [lia|done]|].
  unfold advance. destruct (ms_rest x) as [|d r] eqn:E; [done|]. cbn [is_prefix] in H. bool_norm.
  set (x' := mkM _ _ _ _). destruct (IH x') as [H1 H2]; [done|]. rewrite H1, H2. simpl. split; [lia|done].
Qed.

Lemma char_in_single fl c d : ignoreCase fl = false -> char_in fl d false [(c, c)] = (c =? d)%N.
Proof.
  intros H. unfold char_in. rewrite H. simpl. rewrite orb_false_r.
  destruct (c =? d)%N eqn:E.
  - apply N.eqb_eq in E as ->. by rewrite N.leb_refl.
  - apply N.eqb_neq in E. destruct (c <=? d)%N eqn:E1, (d <=? c)%N eqn:E2; try done. bool_norm. lia.
Qed.

Lemma mt_lit fl p x k : ignoreCase fl = false ->
  mt fl (lit_re p) x k = if is_prefix p (ms_rest x) then k (skip (length p) x) else None.
Proof.
  intros Hfl. revert x. induction p as [|c p IH]; intros x; [done|].
  assert (S1 : forall k, mt fl (Chars false [(c, c)]) x k
               = match advance x with Some (d, x') => if (c =? d)%N then k x' else None | None => None end).
  { intros k0. cbn [mt]. destruct (advance x) as [[d x']|]; [|done]. by rewrite char_in_single. }
  destruct p as [|d p].
  - cbn [lit_re]. rewrite S1. unfold advance. cbn [skip length]. unfold advance.
    destruct (ms_rest x) as [|e r]; [done|]. cbn [is_prefix]. by rewrite andb_true_r.
  - change (lit_re (c :: d :: p)) with (Cat (Chars false [(c, c)]) (lit_re (d :: p))).
    change (mt fl (Cat ?a ?b) x k) with (mt fl a x (fun y => mt fl b y k)). rewrite S1.
    change (length (c :: d :: p)) with (S (length (d :: p))). cbn [skip]. unfold advance at 1. unfold advance.
    destruct (ms_rest x) as [|e r]; [done|]. cbn [is_prefix].
    destruct (c =? e)%N; [|done]. rewrite IH. done.
Qed.

Section literal.
Context (r : RegExp) (p : jstr).
Context (Hbody : re_body r = lit_re p) (Hcase : ignoreCase (re_flags r) = false) (Hp : p <> []).

Definition lit_match (i : nat) : Match := mkMatch i (i + length p) p [].

Lemma match_here_lit pos prev rest :
  match_here r pos prev rest = if is_prefix p rest then Some (lit_match pos) else None.
Proof using Hbody Hcase.
  unfold match_here. rewrite Hbody, mt_lit by done. cbn [ms_rest].
  destruct (is_prefix p rest) eqn:E; [|done].
  destruct (skip_consumes p (mkM pos prev rest []) E) as [H1 H2]. rewrite H1, H2. cbn [ms_pos ms_caps].
  apply is_prefix_spec in E as [t ->]. replace (pos + length p - pos) with (length p) by lia.
  by rewrite take_app_length.
Qed.

Lemma search_from_lit pos prev rest :
  search_from r pos prev rest = (fun i => lit_match (pos + i)) <$> index_from p rest.
Proof using Hbody Hcase.
  revert pos prev. induction rest as [|c rest IH]; intros pos prev; cbn [search_from index_from];
    rewrite match_here_lit; destruct (is_prefix p _); try (simpl; by rewrite Nat.add_0_r); [done|].
  rewrite IH. destruct (index_from p rest); simpl; [|done]. by rewrite Nat.add_succ_r.
Qed.

Lemma exec_from_lit s from : from <= length s ->
  exec_from r s from = (fun i => lit_match (from + i)) <$> index_from p (drop from s).
Proof using Hbody Hcase.
  intros H. unfold exec_from. destruct (length s <? from) eqn:E; [apply Nat.ltb_lt in E; lia|].
  apply search_from_lit.
Qed.

(** The matches of a literal are the cuts [split] makes. *)
Lemma match_all_lit_count_aux fuel s from :
  from <= length s -> length s - from + 1 <= fuel ->
  S (length (match_all_fuel fuel r s from)) = length (split_on p (drop from s)).
Proof using Hbody Hcase Hp.
  assert (P : 0 < length p) by (destruct p; simpl; [done|lia]).
  revert from. induction fuel as [|f IH]; intros from H1 H2; [lia|]. cbn [match_all_fuel].
  rewrite exec_from_lit by done. rewrite split_on_index by done.
  destruct (index_from p (drop from s)) as [i|] eqn:E; cbn [fmap option_fmap option_map]; [|done].
  apply index_from_le in E. rewrite length_drop in E. cbn [m_end m_index lit_match].
  destruct (_ =? _) eqn:Q; [apply Nat.eqb_eq in Q; lia|].
  cbn [length]. rewrite IH by lia. rewrite drop_drop. by replace (from + (i + length p)) with (from + i + length p) by lia.
Qed.

Lemma match_all_lit_count s : S (length (match_all r s)) = length (split_on p s).
Proof using Hbody Hcase Hp. unfold match_all. rewrite match_all_lit_count_aux; [by rewrite drop_0|lia|lia]. Qed.
End literal.

(** A pattern made of one class is found where its first unit is. *)
Lemma search_chars r neg rs s :
  re_body r = Chars neg rs -> search r s = find_index (fun c => char_in (re_flags r) c neg rs) s.
Proof.
  intros HB. unfold search, exec, exec_from. change (length s <? 0) with false. cbn iota. rewrite drop_0.
  assert (H : forall rest pos prev, m_index <$> search_from r pos prev rest
    = (fun i => pos + i) <$> find_index (fun c => char_in (re_flags r) c neg rs) rest).
  { induction rest as [|c rest IH]; intros pos prev; cbn [search_from find_index]; unfold match_here;
      rewrite HB; cbn [mt advance ms_rest ms_pos ms_caps].
    - done.
    - destruct (char_in (re_flags r) c neg rs); [simpl; by rewrite Nat.add_0_r|].
      rewrite IH. destruct (find_index _ rest); simpl; [|done]. by rewrite Nat.add_succ_r. }
  rewrite H. by destruct (find_index _ s).
Qed.

(** ** Captures are pieces of the text *)

Definition infix (t s : jstr) : Prop := exists a b, s = a ++ t ++ b.

Lemma infix_refl s : infix s s.
Proof. exists [], []. by rewrite app_nil_r. Qed.
Lemma infix_nil s : infix [] s.
Proof. by exists [], s. Qed.
Lemma infix_trans r t s : infix r t -> infix t s -> infix r s.
Proof. intros (a & b & ->) (c & d & ->). exists (c ++ a), (b ++ d). by rewrite !app_assoc. Qed.
Lemma infix_take n s : infix (take n s) s.
Proof. exists [], (drop n s). by rewrite app_nil_l, take_drop. Qed.
Lemma infix_drop n s : infix (drop n s) s.
Proof. exists (take n s), []. by rewrite app_nil_r, take_drop. Qed.
Lemma infix_slice s i j : infix (slice s i j) s.
Proof. unfold slice. eapply infix_trans; [apply infix_take|apply infix_drop]. Qed.

Lemma Forall_filter_keep {A} (P : A -> Prop) f l : Forall P l -> Forall P (List.filter f l).
Proof. induction 1; simpl; [constructor|]. case_match; [by constructor|done]. Qed.

Lemma eat_caps fl t x y : eat fl t x = Some y -> ms_caps y = ms_caps x.
Proof.
  revert x. induction t as [|a t IH]; intros x; cbn [eat]; [by intros [= <-]|].
  unfold advance. destruct (ms_rest x); [done|]. destruct (if ignoreCase fl then _ else _); [|done].
  intros H. by rewrite (IH _ H).
Qed.

Lemma rm_caps_infix fl r x z s :
  rm fl r x z -> (exists a, s = a ++ ms_rest x) ->
  Forall (fun c => infix c.2 s) (ms_caps x) -> Forall (fun c => infix c.2 s) (ms_caps z).
Proof.
  intros H. induction H as [|neg rs x c x' Ha| a b x y z H1 IH1 H2 IH2| | |n a x y H IH| |a mn mx g x y z Hm H1 IH1 H2 IH2| | | |a x y H IH| | | |n t x y Hc He];
    intros Hs HF; try done; try (by auto).
  - unfold advance in Ha. destruct (ms_rest x); [done|]. by injection Ha as <- <-.
  - apply IH2; [|by apply IH1]. destruct (rm_consumes _ _ _ _ H1) as [t [Ht _]]. destruct Hs as [k ->].
    exists (k ++ t). by rewrite Ht, app_assoc.
  - cbn [with_caps ms_caps]. constructor.
    + cbn [snd]. destruct Hs as [k ->]. eapply infix_trans; [apply infix_take|].
      exists k, []. by rewrite app_nil_r.
    + apply Forall_filter_keep. by apply IH.
  - apply IH2.
    + destruct (rm_consumes _ _ _ _ H1) as [t [Ht _]]. destruct Hs as [k ->]. cbn [clear_caps with_caps ms_rest] in Ht.
      exists (k ++ t). by rewrite Ht, app_assoc.
    + apply IH1; [done|]. cbn [clear_caps with_caps ms_caps]. by apply Forall_filter_keep.
  - by rewrite (eat_caps _ _ _ _ He).
Qed.

Lemma get_cap_infix cs n t s : Forall (fun c : nat * jstr => infix c.2 s) cs -> get_cap cs n = Some t -> infix t s.
Proof.
  unfold get_cap. intros HF. destruct (find _ cs) as [c|] eqn:E; [|done]. intros [= <-].
  apply find_some in E as [E _]. rewrite List.Forall_forall in HF. by apply HF.
Qed.

Lemma cap0_infix r s m n : is_match r s m -> infix (cap0 m n) s.
Proof.
  intros (_ & _ & _ & z & Hz & Hc & _). unfold cap0, cap. rewrite Hc.
  destruct (get_cap (ms_caps z) n) as [t|] eqn:E; [|apply infix_nil].
  eapply get_cap_infix; [|exact E].
  eapply rm_caps_infix; [exact Hz| |constructor].
  exists (take (m_index m) s). cbn [at_pos ms_rest]. by rewrite take_drop.
Qed.

(** Removing the first match. *)
Lemma replace_first_nil r s :
  (exec r s = None /\ replace_first r [] s = s) \/
  (exists m, is_match r s m /\ replace_first r [] s = take (m_index m) s ++ drop (m_end m) s).
Proof.
  unfold replace_first. destruct (exec r s) as [m|] eqn:E; [right|by left].
  exists m. split; [by apply exec_sound|]. change (option_list (Some m)) with [m]. cbn [splice].
  unfold slice. by rewrite Nat.sub_0_r, drop_0.
Qed.

(** ** Anchors *)

Lemma match_bol fl b s m : multiline fl = false -> is_match (mkRe (Cat Bol b) fl) s m -> m_index m = 0.
Proof.
  intros Hm (H1 & H2 & _ & z & Hz & _). cbn [re_flags re_body] in Hz.
  inversion Hz as [| |? ? ? y ? H3 _| | | | | | | | | | | | |]; subst.
  inversion H3 as [| | | | | | | |? H4| | | | | | |]; subst.
  destruct H4 as [H4|H4]; [|congruence]. cbn [at_pos ms_prev] in H4.
  destruct (m_index m) as [|i]; [done|]. exfalso.
  destruct (lookup_lt_is_Some_2 s i) as [c Hc]; [lia|]. congruence.
Qed.

Lemma match_eol fl a s m : multiline fl = false -> is_match (mkRe (Cat a Eol) fl) s m -> m_end m = length s.
Proof.
  intros Hm (H1 & H2 & H3 & z & Hz & _ & Hc). cbn [re_flags re_body] in Hz.
  inversion Hz as [| |? ? ? y ? _ H4| | | | | | | | | | | | |]; subst.
  inversion H4 as [| | | | | | | | |? H5| | | | | |]; subst.
  destruct H5 as [H5|H5]; [|congruence]. destruct Hc as [Hc _]. rewrite H5, app_nil_r in Hc.
  cbn [at_pos ms_rest] in Hc. apply (f_equal length) in Hc. rewrite H3 in Hc. unfold slice in Hc.
  rewrite length_take, !length_drop in Hc. lia.
Qed.

(** ** Case-insensitive literals *)

Lemma canon_uncanon c : canon (uncanon (canon c)) = canon c.
Proof.
  unfold canon, uncanon. repeat break_inner_if; lia.
Qed.
Lemma canon_idem c : canon (canon c) = canon c.
Proof. unfold canon. repeat break_inner_if; lia. Qed.

Lemma chars_ci fl p x z : rm fl (Chars false [(p, p)]) x z -> exists c, consumes x [c] z /\ canon c = canon p.
Proof.
  intros H. inversion H as [|? ? ? c ? Ha Hc| | | | | | | | | | | | | |]; subst.
  exists c. split; [by apply consumes_advance|].
  assert (R : forall d, in_ranges d [(p, p)] = true -> d = p).
  { intros d. unfold in_ranges. simpl. rewrite orb_false_r. intros G. bool_norm. lia. }
  unfold char_in in Hc. rewrite xorb_false_l in Hc. destruct (ignoreCase fl); [|by apply R in Hc as ->].
  apply orb_true_iff in Hc as [[Hc|Hc]%orb_true_iff|Hc]; apply R in Hc.
  - by rewrite <- Hc, canon_idem.
  - by rewrite <- Hc, canon_uncanon.
  - by rewrite Hc.
Qed.

Lemma lit_ci fl p x z : rm fl (lit_re p) x z -> exists t, consumes x t z /\ map canon t = map canon p.
Proof.
  revert x. induction p as [|c p IH]; intros x H.
  - inversion H; subst. exists []. split; [apply consumes_refl|done].
  - destruct p as [|d p].
    + apply chars_ci in H as (e & H & He). exists [e]. split; [done|]. simpl. by rewrite He.
    + change (lit_re (c :: d :: p)) with (Cat (Chars false [(c, c)]) (lit_re (d :: p))) in H.
      inversion H as [| |? ? ? y ? H1 H2| | | | | | | | | | | | |]; subst.
      apply chars_ci in H1 as (e & H1 & He). apply IH in H2 as (t & H2 & Ht).
      exists (e :: t). split; [exact (consumes_app _ _ _ _ _ H1 H2)|].
      change (map canon (e :: t)) with (canon e :: map canon t). rewrite He, Ht. done.
Qed.

(** ** Greedy classes *)

Lemma rep_chars_greedy fl neg rs mn x : mn <= length (take_while (fun c => char_in fl c neg rs) (ms_rest x)) ->
  mt fl (Rep (Chars neg rs) mn None true) x Some
  = Some (skip (length (take_while (fun c => char_in fl c neg rs) (ms_rest x))) x).
Proof.
  change (mt fl (Rep (Chars neg rs) mn None true) x Some)
    with (rep_loop (mt fl (Chars neg rs)) [] true (S (mn + length (ms_rest x))) mn None x Some).
  assert (HF : mn + length (ms_rest x) < S (mn + length (ms_rest x))) by lia. revert HF.
  generalize (S (mn + length (ms_rest x))). intros f. revert mn x.
  induction f as [|f IH]; intros mn x Hf Hmn; [lia|]. cbn [rep_loop].
  change (clear_caps [] x) with (with_caps x (List.filter (fun c => negb (existsb (Nat.eqb c.1) [])) (ms_caps x))).
  assert (HC : with_caps x (List.filter (fun c => negb (existsb (Nat.eqb c.1) [])) (ms_caps x)) = x).
  { clear. destruct x as [p pv rt cs]. unfold with_caps. cbn [ms_pos ms_prev ms_rest ms_caps]. f_equal.
    induction cs; simpl; [done|by f_equal]. }
  rewrite HC.
  assert (ST : forall k, mt fl (Chars neg rs) x k
    = match advance x with Some (c, x') => if char_in fl c neg rs then k x' else None | None => None end) by done.
  rewrite ST. unfold advance. destruct (ms_rest x) as [|c r] eqn:E; cbn [take_while] in *.
  - assert (mn = 0) as -> by (cbn [length] in Hmn; lia). done.
  - destruct (char_in fl c neg rs) eqn:EC.
    + cbn [length skip]. unfold advance. rewrite E. cbn [ms_pos ms_rest ms_caps ms_prev].
      replace ((mn =? 0) && (S (ms_pos x) =? ms_pos x)) with false
        by (symmetry; apply andb_false_iff; right; apply Nat.eqb_neq; lia).
      cbn [length] in Hmn, Hf.
      change (pred <$> None) with (@None nat).
      pose proof (IH (mn - 1) (mkM (S (ms_pos x)) (Some c) r (ms_caps x))) as IH'. cbn [ms_rest] in IH'.
      rewrite IH' by lia. destruct (0 <? mn); done.
    + assert (mn = 0) as -> by (cbn [length] in Hmn; lia). done.
Qed.


(** ** Replacing the units of a class *)

Lemma expand_match_plain m tpl : 36%N ∉ tpl -> expand_match m tpl = tpl.
Proof.
  induction tpl as [|c t IH]; [done|]. intros [H1 H2]%not_elem_of_cons. cbn [expand_match].
  destruct (N.eqb_spec c 36); [congruence|]. by rewrite IH.
Qed.

Section replace_class.
Context (r : RegExp) (neg : bool) (rs : list (N * N)) (HB : re_body r = Chars neg rs).
Notation inside c := (char_in (re_flags r) c neg rs).

Lemma search_from_chars rest pos prev :
  match search_from r pos prev rest, find_index (fun c => inside c) rest with
  | Some m, Some i => m_index m = pos + i /\ m_end m = pos + i + 1 /\ exists c, rest !! i = Some c /\ m_text m = [c]
  | None, None => True
  | _, _ => False
  end.
Proof using HB.
  revert pos prev. induction rest as [|c rest IH]; intros pos prev; cbn [search_from find_index];
    unfold match_here; rewrite HB; cbn [mt advance ms_rest ms_pos ms_caps]; [done|].
  destruct (inside c).
  { cbn [m_index m_end m_text ms_pos]. split; [lia|]. split; [lia|]. exists c. split; [done|]. by replace (S pos - pos) with 1 by lia. }
  specialize (IH (S pos) (Some c)).
  destruct (search_from r (S pos) (Some c) rest), (find_index _ rest); cbn; try done.
  destruct IH as (? & ? & ?). split; [lia|]. split; [lia|done].
Qed.

(** [f] gives [h c] for the match of the unit [c]. *)
Lemma replace_class_aux (f : Match -> jstr) (h : N -> jstr) s fuel from : (forall m c, m_text m = [c] -> f m = h c) ->
  length s - from + 1 <= fuel -> from <= length s ->
  splice s from (match_all_fuel fuel r s from) f
  = flat_map (fun c => if inside c then h c else [c]) (drop from s).
Proof using HB.
  intros Ht. revert from. induction fuel as [|fuel IH]; intros from Hf Hl; [lia|]. cbn [match_all_fuel].
  unfold exec_from. destruct (Nat.ltb_spec (length s) from); [lia|].
  pose proof (search_from_chars (drop from s) from (match from with O => None | S p => s !! p end)) as H1.
  assert (K : forall l, Forall (fun c => inside c = false) l -> flat_map (fun c => if inside c then h c else [c]) l = l).
  { induction 1 as [|c l Hc _ IHl]; [done|]. cbn [flat_map]. by rewrite Hc, IHl. }
  destruct (search_from r from _ (drop from s)) as [m|], (find_index _ (drop from s)) as [i|] eqn:Ei; try done.
  - destruct H1 as (H1 & H2 & c & Ec & Tc). apply find_index_Some in Ei as ((x & Ex & Px) & Hpre).
    rewrite Ec in Ex. injection Ex as <-.
    assert (Hlt : i < length (drop from s)) by (by eapply lookup_lt_Some).
    rewrite length_drop in Hlt. cbn [splice]. rewrite H2, H1.
    replace (from + i + 1 =? from + i) with false by (symmetry; apply Nat.eqb_neq; lia).
    rewrite IH by lia. rewrite (Ht m c) by done. unfold slice. replace (from + i - from) with i by lia.
    rewrite <- (take_drop i (drop from s)) at 2. rewrite (drop_S _ _ _ Ec), flat_map_app. cbn [flat_map]. rewrite Px, (K (take i (drop from s))).
    + rewrite drop_drop. by replace (from + S i) with (from + i + 1) by lia.
    + apply Forall_lookup. intros j y Hj. apply lookup_take_Some in Hj as [Hj ?]. by apply (Hpre j).
  - rewrite K; [done|]. apply Forall_forall. intros x Hx. by apply (find_index_None _ _ Ei x).
Qed.

Lemma replace_class_fn (f : Match -> jstr) (h : N -> jstr) s : (forall m c, m_text m = [c] -> f m = h c) ->
  replace_all_fn r f s = flat_map (fun c => if inside c then h c else [c]) s.
Proof using HB.
  intros Ht. unfold replace_all_fn, match_all. rewrite (replace_class_aux _ h) by (done || lia). by rewrite drop_0.
Qed.
Lemma replace_class tpl s : 36%N ∉ tpl ->
  replace_all r tpl s = flat_map (fun c => if inside c then tpl else [c]) s.
Proof using HB. intros Ht. apply (replace_class_fn _ (fun _ => tpl)). intros. by apply expand_match_plain. Qed.
End replace_class.

(** ** A class repeated up to the end of the text *)

Section class_to_end.
Context (fl : flags) (neg : bool) (rs : list (N * N)) (Hm : multiline fl = false).
Notation inside c := (char_in fl c neg rs).

Lemma rep_chars_eol mn x :
  mt fl (Cat (Rep (Chars neg rs) mn None true) Eol) x Some
  = if forallb (fun c => inside c) (ms_rest x) && (mn <=? length (ms_rest x)) then Some (skip (length (ms_rest x)) x) else None.
Proof using Hm.
  cbn [mt groups]. set (k := fun y => if match ms_rest y with [] => true | _ => _ end then Some y else None).
  assert (Hk : forall y, k y = match ms_rest y with [] => Some y | _ => None end).
  { intros y. unfold k. rewrite Hm. by destruct (ms_rest y). }
  clearbody k. change (fun x0 k0 => match advance x0 with Some (c, x') => if inside c then k0 x' else None | None => None end)
    with (mt fl (Chars neg rs)).
  assert (HF : mn + length (ms_rest x) < S (mn + length (ms_rest x))) by lia. revert HF.
  generalize (S (mn + length (ms_rest x))). intros f. revert mn x.
  induction f as [|f IH]; intros mn x Hf; [lia|]. cbn [rep_loop].
  assert (HC : clear_caps [] x = x).
  { clear. destruct x as [p pv rt cs]. unfold clear_caps, with_caps. cbn [ms_pos ms_prev ms_rest ms_caps]. f_equal.
    induction cs; simpl; [done|by f_equal]. }
  rewrite HC.
  assert (ST : forall k, mt fl (Chars neg rs) x k
    = match advance x with Some (c, x') => if inside c then k x' else None | None => None end) by done.
  rewrite ST. unfold advance. destruct (ms_rest x) as [|c r] eqn:E; cbn [forallb andb length].
  - rewrite Hk, E. destruct mn; done.
  - destruct (inside c) eqn:EC; cbn [andb].
    + cbn [ms_pos]. replace ((mn =? 0) && (S (ms_pos x) =? ms_pos x)) with false
        by (symmetry; apply andb_false_iff; right; apply Nat.eqb_neq; lia).
      cbn [length] in Hf. change (pred <$> None) with (@None nat).
      pose proof (IH (mn - 1) (mkM (S (ms_pos x)) (Some c) r (ms_caps x))) as IH'. cbn [ms_rest] in IH'.
      rewrite IH' by lia. cbn [skip]. unfold advance. rewrite E.
      replace (mn <=? S (length r)) with (mn - 1 <=? length r) by (apply Bool.eq_true_iff_eq; rewrite !Nat.leb_le; lia).
      rewrite Hk, E. destruct (_ && _); destruct (0 <? mn); done.
    + rewrite Hk, E. destruct (0 <? mn); done.
Qed.

(** Removing the trailing units of a class. *)
Lemma replace_class_end r s : r = mkRe (Cat (Rep (Chars neg rs) 1 None true) Eol) fl ->
  replace_first r [] s = drop_while_end (fun c => inside c) s.
Proof using Hm.
  intros ->. set (r := mkRe _ _).
  assert (H : forall rest pos prev, match search_from r pos prev rest with
    | Some m => exists i, m_index m = pos + i /\ m_end m = pos + length rest /\ take i rest = drop_while_end (fun c => inside c) rest /\ i <= length rest
    | None => drop_while_end (fun c => inside c) rest = rest
    end).
  { induction rest as [|c rest IH]; intros pos prev; cbn [search_from]; unfold match_here;
      change (mt (re_flags r) (re_body r)) with (mt fl (Cat (Rep (Chars neg rs) 1 None true) Eol)); rewrite rep_chars_eol; cbn [ms_rest]; [done|].
    change (1 <=? length (c :: rest)) with true. rewrite andb_true_r.
    destruct (forallb _ (c :: rest)) eqn:Ea.
    - destruct (skip_consumes (c :: rest) (mkM pos prev (c :: rest) [])) as [S1 _].
      { cbn [ms_rest]. rewrite <- (app_nil_r (c :: rest)) at 2. apply is_prefix_app. }
      exists 0. cbn [m_index m_end]. rewrite S1, drop_while_end_cons, Ea. repeat split; cbn [ms_pos take length]; lia.
    - specialize (IH (S pos) (Some c)). rewrite drop_while_end_cons, Ea.
      destruct (search_from r (S pos) (Some c) rest) as [m|]; [|by rewrite IH].
      destruct IH as (i & H1 & H2 & H3 & H4). exists (S i). cbn [take length]. rewrite H3. repeat split; lia. }
  specialize (H s 0 None). unfold replace_first, exec, exec_from. change (length s <? 0) with false. cbn iota. rewrite drop_0.
  destruct (search_from r 0 None s) as [m|]; [|by rewrite H]. destruct H as (i & H1 & H2 & H3 & _).
  change (option_list (Some m)) with [m]. cbn [splice expand_match app]. rewrite H1, H2, <- H3. unfold slice.
  cbn [Nat.add]. by rewrite Nat.sub_0_r, drop_0, drop_all, app_nil_r.
Qed.
End class_to_end.

(** ** The least a pattern takes *)

Fixpoint min_len (r : re) : nat :=
  match r with
  | Chars _ _ => 1
  | Cat a b => min_len a + min_len b
  | Alt a b => Nat.min (min_len a) (min_len b)
  | Grp _ a => min_len a
  | Rep a mn mx _ => (match mx with Some k => Nat.min mn k | None => mn end) * min_len a
  | _ => 0
  end.
Lemma rm_min_len fl r x z : rm fl r x z -> ms_pos x + min_len r <= ms_pos z.
Proof.
  induction 1 as [|neg rs x c x' Ha _| | | | |a mn mx g x Hs|a mn mx g x y z Hm _ IH1 _ IH2| | | | | | | |n t x y _ He]; cbn [min_len ms_pos with_caps clear_caps] in *; try lia.
  - apply consumes_advance in Ha as [_ Ha]. cbn in Ha. lia.
  - destruct Hs as [->| ->]; [destruct mx; lia|lia].
  - destruct mx as [[|k]|]; [done|..]; cbn [fmap option_fmap option_map pred] in IH2.
    + assert (Nat.min mn (S k) <= S (Nat.min (mn - 1) k)) by lia. nia.
    + assert (mn <= S (mn - 1)) by lia. nia.
  - apply eat_consumes in He as [t' [_ He]]. lia.
Qed.
Lemma exec_from_min_len r s from m : exec_from r s from = Some m -> m_index m + min_len (re_body r) <= m_end m.
Proof.
  intros H. apply exec_from_sound in H as (H1 & H2 & H3 & (z & Hz & _ & Hc) & _).
  apply rm_min_len in Hz. cbn [at_pos ms_pos] in Hz. destruct Hc as [_ Hc]. cbn [at_pos ms_pos] in Hc.
  rewrite H3 in Hc. unfold slice in Hc. rewrite length_take, length_drop in Hc. lia.
Qed.

(** ** Taking a match apart *)

Lemma consumes_det x z t1 t2 : consumes x t1 z -> consumes x t2 z -> t1 = t2.
Proof. intros [H1 _] [H2 _]. rewrite H1 in H2. by apply app_inv_tail in H2. Qed.
Lemma rm_cat_inv fl a b x z : rm fl (Cat a b) x z -> exists y, rm fl a x y /\ rm fl b y z.
Proof. inversion 1; subst. eauto. Qed.
Lemma rm_alt_inv fl a b x z : rm fl (Alt a b) x z -> rm fl a x z \/ rm fl b x z.
Proof. inversion 1; subst; auto. Qed.
Lemma rm_unit_inv fl c x z : ignoreCase fl = false -> rm fl (Chars false [(c, c)]) x z -> consumes x [c] z /\ ms_caps z = ms_caps x.
Proof.
  intros Hi. inversion 1 as [|neg rs x0 d x' A C| | | | | | | | | | | | | |]; subst. rewrite char_in_single in C by done.
  apply N.eqb_eq in C as <-. split; [by apply consumes_advance|]. unfold advance in A. destruct (ms_rest x); [done|]. by injection A as _ <-.
Qed.
Lemma rm_behind_inv fl neg cneg rs x z : rm fl (LookBehind neg cneg rs) x z -> z = x.
Proof. by inversion 1. Qed.
(** A pattern without groups leaves the captures. *)
Lemma rm_no_groups fl a x z : rm fl a x z -> groups a = [] -> ms_caps z = ms_caps x.
Proof.
  induction 1 as [|neg rs x c x' Ha| a b x y z H1 IH1 H2 IH2|a b x z H IH|a b x z H IH|n a x y H IH| |a mn mx g x y z Hm H1 IH1 H2 IH2| | | |a x y H IH| | | |n t x y Hc He];
    cbn [groups]; intros G; try done; try (apply app_nil in G as [G1 G2]).
  - unfold advance in Ha. destruct (ms_rest x); [done|]. by injection Ha as <- <-.
  - by rewrite IH2, IH1.
  - by apply IH.
  - by apply IH.
  - cbn [groups] in IH2. rewrite IH2, IH1 by done. unfold clear_caps. cbn [with_caps ms_caps]. rewrite G.
    cbn [existsb negb]. induction (ms_caps x); cbn; congruence.
  - cbn [with_caps ms_caps]. by apply IH.
  - by rewrite (eat_caps _ _ _ _ He).
Qed.
Lemma rm_grp_inv fl n a x z : groups a = [] -> rm fl (Grp n a) x z ->
  exists t, consumes x t z /\ ms_caps z = (n, t) :: List.filter (fun c => negb (Nat.eqb c.1 n)) (ms_caps x).
Proof.
  intros G. inversion 1 as [| | | | |n0 a0 x0 y R| | | | | | | | | |]; subst. destruct (rm_consumes _ _ _ _ R) as [t [T1 T2]].
  exists t. split; [by split|]. cbn [with_caps ms_caps]. rewrite (rm_no_groups _ _ _ _ R G).
  replace (ms_pos y - ms_pos x) with (length t) by lia. by rewrite T1, take_app_length.
Qed.
(** A group of any content captures something. *)
Lemma rm_grp_captures fl n a x z : rm fl (Grp n a) x z -> exists t, get_cap (ms_caps z) n = Some t.
Proof. inversion 1; subst. unfold get_cap. cbn [with_caps ms_caps find fst]. rewrite Nat.eqb_refl. eauto. Qed.

Lemma skip_rest n x : ms_rest (skip n x) = drop n (ms_rest x).
Proof.
  revert x. induction n as [|n IH]; intros x; [done|]. cbn [skip]. unfold advance.
  destruct (ms_rest x) as [|c r] eqn:E; [by rewrite E|]. by rewrite IH.
Qed.
Lemma skip_pos n x : n <= length (ms_rest x) -> ms_pos (skip n x) = ms_pos x + n /\ ms_caps (skip n x) = ms_caps x.
Proof.
  revert x. induction n as [|n IH]; intros x H; cbn [skip]; [split; [lia|done]|]. unfold advance.
  destruct (ms_rest x) as [|c r] eqn:E; [cbn in H; lia|]. cbn [length] in H.
  destruct (IH (mkM (S (ms_pos x)) (Some c) r (ms_caps x))) as [-> ->]; [cbn; lia|]. cbn. split; [lia|done].
Qed.

Lemma clear_caps_nil x : clear_caps [] x = x.
Proof.
  destruct x as [p v r cs]. unfold clear_caps, with_caps. cbn. f_equal. clear. induction cs as [|c cs IH]; [done|]. cbn. by f_equal.
Qed.

(** A repeated class takes all it can when what follows accepts it. *)
Lemma rep_chars_greedy_then fl neg rs mn x k w :
  let n := length (take_while (fun c => char_in fl c neg rs) (ms_rest x)) in
  mn <= n -> k (skip n x) = Some w -> mt fl (Rep (Chars neg rs) mn None true) x k = Some w.
Proof.
  cbv zeta. change (mt fl (Rep (Chars neg rs) mn None true) x k)
    with (rep_loop (mt fl (Chars neg rs)) [] true (S (mn + length (ms_rest x))) mn None x k).
  assert (HF : mn + length (ms_rest x) < S (mn + length (ms_rest x))) by lia. revert HF.
  generalize (S (mn + length (ms_rest x))). intros f. revert mn x.
  induction f as [|f IH]; intros mn x Hf Hmn Hk; [lia|]. cbn [rep_loop].
  rewrite clear_caps_nil. assert (ST : forall k, mt fl (Chars neg rs) x k
    = match advance x with Some (c, x') => if char_in fl c neg rs then k x' else None | None => None end) by done.
  rewrite ST. unfold advance. destruct (ms_rest x) as [|c r] eqn:E; cbn [take_while] in *.
  - assert (mn = 0) as -> by (cbn [length] in Hmn; lia). exact Hk.
  - destruct (char_in fl c neg rs) eqn:EC; cbn [length skip] in Hk, Hmn.
    + replace ((mn =? 0) && (S (ms_pos x) =? ms_pos x)) with false
        by (symmetry; apply andb_false_iff; right; apply Nat.eqb_neq; lia).
      cbn [ms_pos]. replace ((mn =? 0) && (S (ms_pos x) =? ms_pos x)) with false
        by (symmetry; apply andb_false_iff; right; apply Nat.eqb_neq; lia).
      change (pred <$> None) with (@None nat). cbn [length] in Hf. unfold advance in Hk. rewrite E in Hk.
      rewrite IH; [by destruct (0 <? mn)|cbn [ms_rest]; lia|cbn [ms_rest]; lia|exact Hk].
    + assert (mn = 0) as -> by lia. exact Hk.
Qed.

(** ** What a replacement removes *)

Lemma mt_rep_stop fl a mx x k : is_Some (k x) -> is_Some (mt fl (Rep a 0 mx true) x k).
Proof.
  intros H. change (is_Some (rep_loop (mt fl a) (groups a) true (S (0 + length (ms_rest x))) 0 mx x k)). cbn [rep_loop].
  destruct mx as [[|n]|]; [done|..]; change (0 <? 0) with false; cbn iota; by destruct (mt fl a _ _).
Qed.

(** A repeated class consumes units of the class. *)
Lemma rm_rep_inside fl neg rs mn mx g x z : rm fl (Rep (Chars neg rs) mn mx g) x z ->
  exists t, consumes x t z /\ Forall (fun c => char_in fl c neg rs = true) t.
Proof.
  remember (Rep (Chars neg rs) mn mx g) as r eqn:R. intros H. revert mn mx R.
  induction H as [| | | | | |a mn0 mx0 g0 x Hs|a mn0 mx0 g0 x y z Hm Ha _ _ IH| | | | | | | |]; intros mn mx R; try discriminate R.
  - exists []. split; [apply consumes_refl|constructor].
  - injection R as -> -> -> ->. destruct (IH _ _ eq_refl) as (t & Ht & Hi). cbn [groups] in Ha. rewrite clear_caps_nil in Ha.
    inversion Ha as [|? ? ? c x' Hc Hin| | | | | | | | | | | | | |]; subst. exists (c :: t). split.
    + change (c :: t) with ([c] ++ t). eapply consumes_app; [by apply consumes_advance|done].
    + by constructor.
Qed.

Lemma search_from_none r s i : i <= length s ->
  search_from r i (match i with O => None | S p => s !! p end) (drop i s) = None ->
  forall j, i <= j <= length s -> match_here r j (match j with O => None | S p => s !! p end) (drop j s) = None.
Proof.
  remember (drop i s) as rest eqn:R. revert i R. induction rest as [|c rest IH]; intros i R Hi; cbn [search_from]; rewrite R.
  - destruct (match_here r i _ (drop i s)) eqn:E; [done|]. intros _ j Hj. apply (f_equal length) in R. rewrite length_drop in R. cbn in R.
    by replace j with i by lia.
  - destruct (match_here r i _ (drop i s)) eqn:E; [done|]. symmetry in R. destruct (drop_S_cons _ _ _ _ R) as (H1 & H2 & H3). rewrite <- H2.
    intros H j Hj. destruct (decide (j = i)) as [->|]; [done|]. apply (IH (S i)); [done|lia|done|lia].
Qed.

(** A pattern that matches wherever a unit stands, never on nothing, leaves none
    of these units behind. *)
Lemma replace_all_avoids r tpl s c : 0 < min_len (re_body r) -> 36%N ∉ tpl -> c ∉ tpl ->
  (forall j, s !! j = Some c -> is_Some (match_here r j (match j with O => None | S p => s !! p end) (drop j s))) ->
  c ∉ replace_all r tpl s.
Proof.
  intros Hm Ht Hc HM. unfold replace_all, replace_all_fn, match_all.
  assert (G : forall fuel from, length s - from + 1 <= fuel -> from <= length s ->
    c ∉ splice s from (match_all_fuel fuel r s from) (fun m => expand_match m tpl)); [|apply G; lia].
  induction fuel as [|fuel IH]; intros from Hf Hl; [lia|]. cbn [match_all_fuel].
  destruct (exec_from r s from) as [m|] eqn:E.
  - cbn [splice]. pose proof (exec_from_min_len _ _ _ _ E) as HL. apply exec_from_sound in E as (E1 & E2 & _ & _ & E5).
    replace (m_end m =? m_index m) with false by (symmetry; apply Nat.eqb_neq; lia).
    rewrite !elem_of_app. intros [X|[X|X]].
    + unfold slice in X. apply list_elem_of_lookup in X as [k Hk]. apply lookup_take_Some in Hk as [Hk Hlt]. rewrite lookup_drop in Hk.
      destruct (HM _ Hk) as [m' Hm']. rewrite (E5 (from + k)) in Hm'; [done|lia].
    + by rewrite expand_match_plain in X.
    + revert X. apply IH; lia.
  - cbn [splice]. unfold exec_from in E. destruct (Nat.ltb_spec (length s) from); [lia|]. intros X. apply list_elem_of_lookup in X as [k Hk].
    rewrite lookup_drop in Hk. destruct (HM _ Hk) as [m' Hm']. assert (L := lookup_lt_Some _ _ _ Hk).
    rewrite (search_from_none _ _ _ Hl E (from + k)) in Hm'; [done|lia].
Qed.

(** ** White space *)

Lemma in_ws_ranges c : in_ranges c ws_ranges = is_ws c.
Proof. unfold in_ranges, ws_ranges, is_ws. cbn [existsb fst snd]. lia. Qed.
Lemma ws_class fl c : ignoreCase fl = false -> char_in fl c false ws_ranges = is_ws c.
Proof. intros H. unfold char_in. by rewrite H, xorb_false_l, in_ws_ranges. Qed.
