(* ===== verification/Diff.v ===== *)
(** * Line diff of the playground (lib/diff.ts)

    [diffLines] trims the common prefix and suffix, aligns the middle with an
    LCS table (or falls back to « all removed, all added » past [MAX_CELLS]),
    and [hunks] keeps the changed lines with some context.  The theorems say
    that a diff is a faithful account of both files, that the alignment is the
    best possible one, and that [hunks] keeps exactly the lines near a change. *)

From S2P Require Import JsString.

Inductive Kind := Same | Add | Del.
#[export] Instance Kind_eq_dec : EqDecision Kind.
Proof. solve_decision. Defined.

Record DiffLine := mkLine {
  kind : Kind;
  text : jstr;
  oldNo : option nat;
  newNo : option nat;
}.

Definition MAX_CELLS : N := 4000000.

(** ** The alignment *)

(** [while (start < a.length && start < b.length && a[start] === b[start])] *)
Fixpoint common_prefix (a b : list jstr) : nat :=
  match a, b with
  | x :: a', y :: b' => if streq x y then S (common_prefix a' b') else 0
  | _, _ => 0
  end.

(** [while (endA > start && endB > start && a[endA-1] === b[endB-1])] *)
Fixpoint trim_suffix (a b : list jstr) (start endA endB : nat) : nat * nat :=
  match endA, endB with
  | S ea, S eb =>
      if (start <? endA) && (start <? endB) && streq (a !!! ea) (b !!! eb)
      then trim_suffix a b start ea eb else (endA, endB)
  | _, _ => (endA, endB)
  end.

(** Row [i] of the table, from row [i+1]: [lcs[i][j]] is [lcs[i+1][j+1] + 1]
    when the lines agree, the maximum of the two neighbours otherwise. *)
Fixpoint fill_row (x : jstr) (mb : list jstr) (next : list nat) : list nat :=
  match mb with
  | [] => [0]
  | y :: mb' =>
      let r := fill_row x mb' (tail next) in
      (if streq x y then hd 0 (tail next) + 1 else Nat.max (hd 0 next) (hd 0 r)) :: r
  end.

Fixpoint lcs_table (ma mb : list jstr) : list (list nat) :=
  match ma with
  | [] => [replicate (S (length mb)) 0]
  | x :: ma' => let t := lcs_table ma' mb in fill_row x mb (hd [] t) :: t
  end.

Definition cell (t : list (list nat)) (i j : nat) : nat := (t !!! i) !!! j.

(** The walk through the table, [fuel] bounding the steps (each step moves
    [i] or [j] forward). *)
Fixpoint walk (fuel : nat) (ma mb : list jstr) (t : list (list nat)) (start i j : nat) : list DiffLine :=
  match fuel with
  | O => []
  | S f =>
      if (i <? length ma) || (j <? length mb) then
        if (i <? length ma) && (j <? length mb) && streq (ma !!! i) (mb !!! j) then
          mkLine Same (ma !!! i) (Some (start + i + 1)) (Some (start + j + 1))
            :: walk f ma mb t start (S i) (S j)
        else if (j <? length mb) && ((length ma <=? i) || (cell t (S i) j <=? cell t i (S j))) then
          mkLine Add (mb !!! j) None (Some (start + j + 1)) :: walk f ma mb t start i (S j)
        else
          mkLine Del (ma !!! i) (Some (start + i + 1)) None :: walk f ma mb t start (S i) j
      else []
  end.

Definition diff_middle (ma mb : list jstr) (start : nat) : list DiffLine :=
  if (MAX_CELLS <? N.of_nat (length ma) * N.of_nat (length mb))%N then
    imap (fun i t => mkLine Del t (Some (start + i + 1)) None) ma
      ++ imap (fun j t => mkLine Add t None (Some (start + j + 1))) mb
  else walk (length ma + length mb) ma mb (lcs_table ma mb) start 0 0.

Definition diff_lists (a b : list jstr) : list DiffLine :=
  let start := common_prefix a b in
  let '(endA, endB) := trim_suffix a b start (length a) (length b) in
  imap (fun i t => mkLine Same t (Some (i + 1)) (Some (i + 1))) (take start a)
    ++ diff_middle (take (endA - start) (drop start a)) (take (endB - start) (drop start b)) start
    ++ imap (fun k t => mkLine Same t (Some (endA + k + 1)) (Some (endA + k - endA + endB + 1)))
         (drop endA a).

Definition diffLines (before after : jstr) : list DiffLine :=
  diff_lists (split_lf before) (split_lf after).

(** ** Hunks and statistics *)

Definition changed (l : DiffLine) : bool := negb (bool_decide (kind l = Same)).

(** [for (k = max(0, i-context); k <= min(len-1, i+context); k++) keep[k] = true] *)
Definition mark (len context i : nat) (keep : list bool) : list bool :=
  let lo := i - context in
  let hi := Nat.min (len - 1) (i + context) in
  foldl (fun ks k => <[k := true]> ks) keep (seq lo (S hi - lo)).

Definition keep_flags (lines : list DiffLine) (context : nat) : list bool :=
  foldl (fun ks il => if changed il.2 then mark (length lines) context il.1 ks else ks)
    (replicate (length lines) false) (imap pair lines).

Fixpoint elide (lines : list DiffLine) (keep : list bool) (skipped : bool) : list (option DiffLine) :=
  match lines, keep with
  | l :: ls, k :: ks =>
      if k then Some l :: elide ls ks false
      else if skipped then elide ls ks true
      else None :: elide ls ks true
  | _, _ => []
  end.

Definition hunks (lines : list DiffLine) (context : nat) : list (option DiffLine) :=
  elide lines (keep_flags lines context) false.

Definition diffStats (lines : list DiffLine) : nat * nat :=
  foldl (fun '(added, removed) l =>
    match kind l with
    | Add => (added + 1, removed)
    | Del => (added, removed + 1)
    | Same => (added, removed)
    end) (0, 0) lines.

(** ** A diff accounts for both files *)

(** [number k l]: the lines of [l] with their numbers from [k] on. *)
Definition number (k : nat) (l : list jstr) : list (nat * jstr) := imap (fun i t => (k + i, t)) l.

Definition old_side (l : DiffLine) : option (nat * jstr) := (fun n => (n, text l)) <$> oldNo l.
Definition new_side (l : DiffLine) : option (nat * jstr) := (fun n => (n, text l)) <$> newNo l.

Lemma number_cons k x l : number k (x :: l) = (k, x) :: number (S k) l.
Proof.
  unfold number. rewrite imap_cons. f_equal; [f_equal; lia|].
  apply imap_ext. intros i y _. simpl. f_equal. lia.
Qed.
Lemma number_app k l1 l2 : number k (l1 ++ l2) = number k l1 ++ number (k + length l1) l2.
Proof.
  unfold number. rewrite imap_app. f_equal. apply imap_ext. intros i y _. simpl. f_equal. lia.
Qed.

Lemma streq_refl a : streq a a = true.
Proof. by apply streq_true. Qed.

Lemma drop_total (l : list jstr) i : i < length l -> drop i l = l !!! i :: drop (S i) l.
Proof. intros H. apply drop_S. by apply list_lookup_lookup_total_lt. Qed.

Lemma trim_suffix_spec a b start ea eb ea' eb' :
  start <= ea -> start <= eb -> trim_suffix a b start ea eb = (ea', eb') ->
  ea <= length a -> eb <= length b ->
  start <= ea' <= ea /\ start <= eb' <= eb /\ ea - ea' = eb - eb' /\
  drop ea' (take ea a) = drop eb' (take eb b).
Proof.
  revert eb. induction ea as [|ea IH]; intros [|eb] Ha Hb; cbn [trim_suffix];
    try (intros [= <- <-] ? ?; repeat split; try lia; rewrite !drop_ge by (rewrite length_take; lia); done).
  destruct ((start <? S ea) && (start <? S eb) && streq (a !!! ea) (b !!! eb)) eqn:E.
  - bool_norm. apply streq_true in H0. intros Ht La Lb.
    destruct (IH eb ltac:(lia) ltac:(lia) Ht ltac:(lia) ltac:(lia)) as (H2 & H3 & H4 & H5).
    repeat split; try lia.
    rewrite (take_S_r a ea (a !!! ea)) by (apply list_lookup_lookup_total_lt; lia).
    rewrite (take_S_r b eb (b !!! eb)) by (apply list_lookup_lookup_total_lt; lia).
    rewrite !drop_app_le by (rewrite length_take; lia). congruence.
  - intros [= <- <-] ? ?. repeat split; try lia. rewrite !drop_ge by (rewrite length_take; lia). done.
Qed.

Lemma common_prefix_spec a b :
  common_prefix a b <= length a /\ common_prefix a b <= length b /\
  take (common_prefix a b) a = take (common_prefix a b) b.
Proof.
  revert b. induction a as [|x a IH]; intros [|y b]; simpl; try (repeat split; lia).
  destruct (streq x y) eqn:E; [|repeat split; simpl; lia]. apply streq_true in E as ->.
  destruct (IH b) as (H1 & H2 & H3). repeat split; try lia. simpl. by f_equal.
Qed.

(** The decomposition [a = prefix ++ middle ++ suffix] that [diffLines] uses. *)
Lemma diff_split a b endA endB :
  let start := common_prefix a b in
  trim_suffix a b start (length a) (length b) = (endA, endB) ->
  let p := take start a in
  let ma := take (endA - start) (drop start a) in
  let mb := take (endB - start) (drop start b) in
  let s := drop endA a in
  a = p ++ ma ++ s /\ b = p ++ mb ++ s /\
  length p = start /\ start + length ma = endA /\ start + length mb = endB.
Proof.
  intros start Ht. destruct (common_prefix_spec a b) as (H1 & H2 & H3). fold start in H1, H2, H3.
  apply trim_suffix_spec in Ht as (H4 & H5 & H6 & H7); try done.
  rewrite (firstn_all2 (n := length a)) in H7 by lia. rewrite (firstn_all2 (n := length b)) in H7 by lia.
  assert (A : forall (l : list jstr) e, start <= e -> e <= length l ->
            l = take start l ++ take (e - start) (drop start l) ++ drop e l).
  { intros l e L1 L2. rewrite app_assoc. rewrite take_take_drop. replace (start + (e - start)) with e by lia.
    by rewrite take_drop. }
  simpl. repeat split.
  - apply A; lia.
  - rewrite H3, H7. apply A; lia.
  - rewrite length_take. lia.
  - rewrite length_take, length_drop. lia.
  - rewrite length_take, length_drop. lia.
Qed.

Lemma walk_sides fuel ma mb t start i j :
  length ma - i + (length mb - j) <= fuel -> i <= length ma -> j <= length mb ->
  omap old_side (walk fuel ma mb t start i j) = number (start + i + 1) (drop i ma) /\
  omap new_side (walk fuel ma mb t start i j) = number (start + j + 1) (drop j mb).
Proof.
  revert i j. induction fuel as [|f IH]; intros i j Hf Hi Hj; cbn [walk].
  - rewrite !drop_ge by lia. done.
  - destruct ((i <? length ma) || (j <? length mb)) eqn:Hor; cycle 1.
    { bool_norm. rewrite !drop_ge by lia. done. }
    apply orb_true_iff in Hor.
    destruct ((i <? length ma) && (j <? length mb) && streq (ma !!! i) (mb !!! j)) eqn:E1.
    { bool_norm. apply streq_true in H0. destruct (IH (S i) (S j)) as [A B]; try lia.
      cbn [omap list_omap]. unfold old_side at 1, new_side at 1. simpl.
      rewrite (drop_total ma i), (drop_total mb j), !number_cons by lia.
      rewrite A, B, H0. split; repeat f_equal; lia. }
    destruct ((j <? length mb) && _) eqn:E2.
    { bool_norm. destruct (IH i (S j)) as [A B]; try lia.
      cbn [omap list_omap]. unfold old_side at 1, new_side at 1. simpl.
      rewrite (drop_total mb j), number_cons by lia. rewrite A, B. split; repeat f_equal; lia. }
    assert (Hi' : i < length ma).
    { destruct Hor as [H|H]; bool_norm; [done|]. destruct (length ma <=? i) eqn:F; bool_norm; [|done].
      apply Nat.ltb_lt in H. rewrite H in E2. done. }
    destruct (IH (S i) j) as [A B]; try lia.
    cbn [omap list_omap]. unfold old_side at 1, new_side at 1. simpl.
    rewrite (drop_total ma i), number_cons by lia. rewrite A, B. split; repeat f_equal; lia.
Qed.

(** Pointwise equality of numbered lines. *)
Ltac side_eq := intros; unfold old_side, new_side; simpl;
  try apply (f_equal Some); apply (f_equal2 pair); [lia|done].

(** Sides of the [imap]s that build the unaligned stretches. *)
Lemma omap_imap_some {B} (f : DiffLine -> option B) (g : nat -> jstr -> DiffLine) (h : nat -> jstr -> B) l :
  (forall i t, f (g i t) = Some (h i t)) -> omap f (imap g l) = imap h l.
Proof.
  revert g h. induction l as [|x l IH]; intros g h H; [done|].
  rewrite !imap_cons. cbn [omap list_omap]. rewrite H. f_equal. apply IH. intros. apply H.
Qed.
Lemma omap_imap_none {B} (f : DiffLine -> option B) (g : nat -> jstr -> DiffLine) l :
  (forall i t, f (g i t) = None) -> omap f (imap g l) = [].
Proof.
  revert g. induction l as [|x l IH]; intros g H; [done|].
  rewrite imap_cons. cbn [omap list_omap]. rewrite H. apply IH. intros. apply H.
Qed.

Lemma diff_middle_sides ma mb start :
  omap old_side (diff_middle ma mb start) = number (start + 1) ma /\
  omap new_side (diff_middle ma mb start) = number (start + 1) mb.
Proof.
  unfold diff_middle. case_match.
  - rewrite !omap_app. split.
    + rewrite (omap_imap_some _ _ (fun i t => (start + 1 + i, t))).
      2: side_eq.
      rewrite omap_imap_none by done. by rewrite app_nil_r.
    + rewrite omap_imap_none by done.
      rewrite (omap_imap_some _ _ (fun i t => (start + 1 + i, t))); [done|]. side_eq.
  - destruct (walk_sides (length ma + length mb) ma mb (lcs_table ma mb) start 0 0) as [A B]; try lia.
    rewrite A, B, !drop_0. split; f_equal; lia.
Qed.

(** The numbers a line carries agree with its kind. *)
Definition line_ok (l : DiffLine) : Prop :=
  match kind l with
  | Same => is_Some (oldNo l) /\ is_Some (newNo l)
  | Add => oldNo l = None /\ is_Some (newNo l)
  | Del => is_Some (oldNo l) /\ newNo l = None
  end.

Lemma walk_ok fuel ma mb t start i j : Forall line_ok (walk fuel ma mb t start i j).
Proof.
  revert i j. induction fuel as [|f IH]; intros i j; cbn [walk]; [constructor|].
  repeat case_match; repeat constructor; try eexists; done.
Qed.

Lemma imap_ok (g : nat -> jstr -> DiffLine) l :
  (forall i t, line_ok (g i t)) -> Forall line_ok (imap g l).
Proof.
  revert g. induction l as [|x l IH]; intros g H; [constructor|].
  rewrite imap_cons. constructor; [apply H|]. apply IH. intros. apply H.
Qed.

Lemma diff_lists_ok a b : Forall line_ok (diff_lists a b).
Proof.
  unfold diff_lists. case_match. rewrite !Forall_app. repeat split.
  - apply imap_ok. repeat econstructor.
  - unfold diff_middle. case_match; [|apply walk_ok]. apply Forall_app. split; apply imap_ok; repeat econstructor.
  - apply imap_ok. repeat econstructor.
Qed.

Lemma diff_lists_sides a b :
  omap old_side (diff_lists a b) = number 1 a /\ omap new_side (diff_lists a b) = number 1 b.
Proof.
  unfold diff_lists.
  destruct (trim_suffix a b (common_prefix a b) (length a) (length b)) as [endA endB] eqn:Ht.
  pose proof (diff_split a b endA endB Ht) as (Ha & Hb & Lp & La & Lb).
  set (p := take (common_prefix a b) a) in *. set (s := drop endA a) in *.
  set (ma := take (endA - common_prefix a b) _) in *. set (mb := take (endB - common_prefix a b) _) in *.
  destruct (diff_middle_sides ma mb (common_prefix a b)) as [M1 M2].
  rewrite !omap_app, M1, M2. split.
  - transitivity (number 1 (p ++ ma ++ s)); [|by rewrite <- Ha]. rewrite !number_app.
    rewrite (omap_imap_some _ _ (fun i t => (1 + i, t))) by side_eq.
    rewrite (omap_imap_some _ _ (fun i t => (endA + 1 + i, t))) by side_eq.
    unfold number. f_equal. f_equal.
    + apply imap_ext. side_eq.
    + apply imap_ext. side_eq.
  - transitivity (number 1 (p ++ mb ++ s)); [|by rewrite <- Hb]. rewrite !number_app.
    rewrite (omap_imap_some _ _ (fun i t => (1 + i, t))) by side_eq.
    rewrite (omap_imap_some _ _ (fun i t => (endB + 1 + i, t))) by side_eq.
    unfold number. f_equal. f_equal.
    + apply imap_ext. side_eq.
    + apply imap_ext. side_eq.
Qed.

(** The two sides of a diff are the two files: reading the lines that
    carry an old number gives every line of [before], numbered from 1 in
    order, the lines that carry a new number give [after], and an added
    (removed, unchanged) line carries a new (old, both) number. *)
Theorem diffLines_sides before after :
  omap old_side (diffLines before after) = number 1 (split_lf before) /\
  omap new_side (diffLines before after) = number 1 (split_lf after) /\
  Forall line_ok (diffLines before after).
Proof.
  destruct (diff_lists_sides (split_lf before) (split_lf after)) as [H1 H2].
  split; [exact H1|]. split; [exact H2|]. apply diff_lists_ok.
Qed.

(** ** The alignment is optimal *)

(** [is_lcs n a b]: [n] is the length of the longest common subsequence. *)
Definition is_lcs (n : nat) (a b : list jstr) : Prop :=
  (exists l, l `sublist_of` a /\ l `sublist_of` b /\ length l = n) /\
  (forall l, l `sublist_of` a -> l `sublist_of` b -> length l <= n).

Lemma is_lcs_nil_l b : is_lcs 0 [] b.
Proof.
  split; [exists []; repeat split; apply sublist_nil_l|].
  intros l ->%sublist_nil_r _. done.
Qed.
Lemma is_lcs_nil_r a : is_lcs 0 a [].
Proof.
  split; [exists []; repeat split; apply sublist_nil_l|].
  intros l _ ->%sublist_nil_r. done.
Qed.

(** Dropping the first (last) line of a subsequence of [x :: a] ([a ++ [x]])
    leaves a subsequence of [a]. *)
Lemma sublist_tail (l a : list jstr) x : l `sublist_of` x :: a -> tail l `sublist_of` a.
Proof.
  intros [H|(l' & -> & H)]%sublist_cons_r; [|done].
  destruct l as [|y l]; [done|]. etransitivity; [apply sublist_cons; reflexivity|exact H].
Qed.
Lemma sublist_init (l a : list jstr) x y : l ++ [y] `sublist_of` a ++ [x] -> l `sublist_of` a.
Proof.
  intros (k1 & k2 & Hk & H1 & H2)%sublist_app_r.
  apply sublist_cons_r in H2 as [-> %sublist_nil_r|(k & -> & -> %sublist_nil_r)].
  - rewrite app_nil_r in Hk. subst k1. etransitivity; [apply sublist_inserts_r; reflexivity|exact H1].
  - apply app_inj_2 in Hk as [-> _]; done.
Qed.

Lemma is_lcs_eq n x a b : is_lcs n a b -> is_lcs (S n) (x :: a) (x :: b).
Proof.
  intros [(l & H1 & H2 & H3) M]. split.
  - exists (x :: l). repeat split; [by constructor|by constructor|simpl; lia].
  - intros k Ha%sublist_tail Hb%sublist_tail. pose proof (M _ Ha Hb). destruct k; simpl in *; lia.
Qed.

Lemma is_lcs_snoc n x a b : is_lcs n a b -> is_lcs (S n) (a ++ [x]) (b ++ [x]).
Proof.
  intros [(l & H1 & H2 & H3) M]. split.
  - exists (l ++ [x]). rewrite length_app. repeat split; [by apply sublist_app..|simpl; lia].
  - intros k. destruct k as [|y k _] using rev_ind; [simpl; lia|].
    intros Ha%sublist_init Hb%sublist_init. rewrite length_app. simpl. pose proof (M _ Ha Hb). lia.
Qed.

Lemma is_lcs_ne n1 n2 x y a b :
  x <> y -> is_lcs n1 a (y :: b) -> is_lcs n2 (x :: a) b -> is_lcs (Nat.max n1 n2) (x :: a) (y :: b).
Proof.
  intros Hne [(l1 & A1 & B1 & <-) M1] [(l2 & A2 & B2 & <-) M2]. split.
  - destruct (decide (length l2 <= length l1)).
    + exists l1. repeat split; [by constructor|done|lia].
    + exists l2. repeat split; [done|by constructor|lia].
  - intros k Ha Hb. pose proof Ha as [Ha'|(ka & -> & _)]%sublist_cons_r; [pose proof (M1 _ Ha' Hb); lia|].
    apply sublist_cons_r in Hb as [Hb|(kb & [= <-] & _)]; [|done]. pose proof (M2 _ Ha Hb). lia.
Qed.

Lemma is_lcs_prefix n p a b : is_lcs n a b -> is_lcs (length p + n) (p ++ a) (p ++ b).
Proof. intros H. induction p as [|x p IH]; [done|]. simpl. by apply is_lcs_eq. Qed.
Lemma is_lcs_suffix n s a b : is_lcs n a b -> is_lcs (n + length s) (a ++ s) (b ++ s).
Proof.
  revert n a b. induction s as [|x s IH]; intros n a b H; simpl.
  - by rewrite !app_nil_r, Nat.add_0_r.
  - replace (n + S (length s)) with (S n + length s) by lia.
    rewrite (cons_middle x a), (cons_middle x b), !app_assoc. by apply IH, is_lcs_snoc.
Qed.

(** The table holds the LCS lengths of the suffixes. *)
Lemma fill_row_length x mb next : length (fill_row x mb next) = S (length mb).
Proof. revert next. induction mb as [|y mb IH]; intros next; simpl; [done|]. by rewrite IH. Qed.

Lemma total_tail (l : list nat) j : tail l !!! j = l !!! S j.
Proof. by destruct l. Qed.
Lemma total_hd (l : list nat) : hd 0 l = l !!! 0.
Proof. by destruct l. Qed.

Lemma fill_row_lcs x a mb next :
  (forall j, j <= length mb -> is_lcs (next !!! j) a (drop j mb)) ->
  forall j, j <= length mb -> is_lcs (fill_row x mb next !!! j) (x :: a) (drop j mb).
Proof.
  revert next. induction mb as [|y mb IH]; intros next Hn j Hj; simpl in Hj.
  - assert (j = 0) as -> by lia. apply is_lcs_nil_r.
  - assert (IH' : forall j, j <= length mb -> is_lcs (fill_row x mb (tail next) !!! j) (x :: a) (drop j mb)).
    { apply IH. intros k Hk. rewrite total_tail. apply (Hn (S k)). simpl. lia. }
    destruct j as [|j]; [|apply IH'; lia].
    pose proof (Hn 0 ltac:(lia)) as H0. pose proof (Hn 1 ltac:(simpl; lia)) as H1.
    pose proof (IH' 0 ltac:(lia)) as H2. simpl drop in *.
    cbn [fill_row]. change ((?v :: ?r) !!! 0) with v.
    rewrite !total_hd, total_tail. destruct (streq x y) eqn:E.
    + apply streq_true in E as ->. rewrite Nat.add_1_r. by apply is_lcs_eq.
    + apply is_lcs_ne; [|done|done]. intros ->. by rewrite streq_refl in E.
Qed.

Lemma lcs_table_spec ma mb i j :
  i <= length ma -> j <= length mb -> is_lcs (cell (lcs_table ma mb) i j) (drop i ma) (drop j mb).
Proof.
  revert i j. induction ma as [|x ma IH]; intros i j Hi Hj; simpl in Hi.
  - assert (i = 0) as -> by lia. unfold cell. cbn [lcs_table]. change ((?v :: ?r) !!! 0) with v.
    rewrite lookup_total_replicate_2 by lia. apply is_lcs_nil_l.
  - destruct i as [|i]; [|apply IH; lia]. unfold cell. cbn [lcs_table].
    change ((?v :: ?r) !!! 0) with v. simpl drop at 1. apply fill_row_lcs; [|done].
    intros k Hk. replace (hd [] (lcs_table ma mb)) with (lcs_table ma mb !!! 0) by (by destruct (lcs_table ma mb)).
    apply (IH 0 k); lia.
Qed.

Lemma is_lcs_unique n1 n2 a b : is_lcs n1 a b -> is_lcs n2 a b -> n1 = n2.
Proof.
  intros [(l1 & A1 & B1 & <-) M1] [(l2 & A2 & B2 & <-) M2].
  pose proof (M1 _ A2 B2). pose proof (M2 _ A1 B1). lia.
Qed.

(** Number of lines a diff reports as unchanged. *)
Definition same_count (l : list DiffLine) : nat := length (filter (fun x => kind x = Same) l).

Lemma same_count_app l1 l2 : same_count (l1 ++ l2) = same_count l1 + same_count l2.
Proof. unfold same_count. by rewrite filter_app, length_app. Qed.
Lemma same_count_imap g (l : list jstr) :
  (forall i t, kind (g i t) = Same) -> same_count (imap g l) = length l.
Proof.
  revert g. induction l as [|x l IH]; intros g H; [done|].
  rewrite imap_cons. unfold same_count. rewrite filter_cons_True by apply H. simpl. f_equal.
  apply IH. intros. apply H.
Qed.

(** The walk follows a best path: it reports as many unchanged lines as the
    table promises from its position. *)
Lemma walk_same fuel ma mb start i j :
  let t := lcs_table ma mb in
  length ma - i + (length mb - j) <= fuel -> i <= length ma -> j <= length mb ->
  same_count (walk fuel ma mb t start i j) = cell t i j.
Proof.
  intros t. revert i j.
  assert (Z : forall i j, i <= length ma -> j <= length mb -> i = length ma \/ j = length mb -> cell t i j = 0).
  { intros i j Hi Hj He. pose proof (lcs_table_spec ma mb i j Hi Hj) as H.
    eapply is_lcs_unique; [exact H|]. destruct He as [-> | ->]; rewrite drop_all; [apply is_lcs_nil_l|apply is_lcs_nil_r]. }
  assert (R : forall i j, i < length ma -> j < length mb ->
      cell t i j = if streq (ma !!! i) (mb !!! j) then S (cell t (S i) (S j))
                   else Nat.max (cell t (S i) j) (cell t i (S j))).
  { intros i j Hi Hj. eapply is_lcs_unique; [apply lcs_table_spec; lia|].
    rewrite (drop_total ma i), (drop_total mb j) by done. destruct (streq _ _) eqn:E.
    - apply streq_true in E. rewrite E. apply is_lcs_eq, lcs_table_spec; lia.
    - apply is_lcs_ne; [by intros F; rewrite F, streq_refl in E|..].
      + rewrite <- drop_total by done. apply lcs_table_spec; lia.
      + rewrite <- drop_total by done. apply lcs_table_spec; lia. }
  induction fuel as [|f IH]; intros i j Hf Hi Hj; cbn [walk].
  - rewrite Z by lia. done.
  - destruct ((i <? length ma) || (j <? length mb)) eqn:Hor; cycle 1.
    { bool_norm. rewrite Z by lia. done. }
    destruct (decide (i < length ma /\ j < length mb)) as [[Li Lj]|L].
    + rewrite (proj2 (Nat.ltb_lt _ _) Li), (proj2 (Nat.ltb_lt _ _) Lj), (R i j Li Lj). cbn [andb].
      destruct (streq (ma !!! i) (mb !!! j)) eqn:E.
      * rewrite <- (IH (S i) (S j)) by lia. done.
      * replace (length ma <=? i) with false by (symmetry; apply Nat.leb_gt; done). cbn [orb].
        destruct (cell t (S i) j <=? cell t i (S j)) eqn:F; bool_norm.
        -- rewrite Nat.max_r by done. rewrite <- (IH i (S j)) by lia. done.
        -- rewrite Nat.max_l by lia. rewrite <- (IH (S i) j) by lia. done.
    + rewrite (Z i j) by lia. apply orb_true_iff in Hor.
      replace ((i <? length ma) && (j <? length mb)) with false
        by (symmetry; apply andb_false_iff; rewrite !Nat.ltb_ge; lia). cbn [andb].
      destruct (j <? length mb) eqn:F; bool_norm.
      * replace (length ma <=? i) with true by (symmetry; apply Nat.leb_le; lia). cbn [andb orb].
        rewrite <- (Z i (S j)) by lia. rewrite <- (IH i (S j)) by lia. done.
      * destruct Hor as [Hor|Hor]; [|done]. bool_norm. cbn [andb].
        rewrite <- (Z (S i) j) by lia. rewrite <- (IH (S i) j) by lia. done.
Qed.

(** C39: below the cell bound, the diff is a best one: the number of lines it
    shows as unchanged is the length of the longest common subsequence of the
    two files' lines. *)
Theorem diffLines_optimal before after :
  (N.of_nat (length (split_lf before)) * N.of_nat (length (split_lf after)) <= MAX_CELLS)%N ->
  is_lcs (same_count (diffLines before after)) (split_lf before) (split_lf after).
Proof.
  unfold diffLines, diff_lists. generalize (split_lf before) (split_lf after). intros a b Hc.
  destruct (trim_suffix a b (common_prefix a b) (length a) (length b)) as [endA endB] eqn:Ht.
  pose proof (diff_split a b endA endB Ht) as (Ha & Hb & Lp & La & Lb).
  set (p := take (common_prefix a b) a) in *. set (s := drop endA a) in *.
  set (ma := take (endA - common_prefix a b) _) in *. set (mb := take (endB - common_prefix a b) _) in *.
  rewrite !same_count_app, !same_count_imap by done.
  assert (Hm : is_lcs (same_count (diff_middle ma mb (common_prefix a b))) ma mb).
  { unfold diff_middle. replace (_ <? _)%N with false.
    - rewrite walk_same by lia. apply (lcs_table_spec ma mb 0 0); lia.
    - symmetry. apply N.ltb_ge. etransitivity; [|exact Hc]. apply N.mul_le_mono.
      + rewrite Ha, !length_app. lia.
      + rewrite Hb, !length_app. lia. }
  rewrite <- Lp at 1. rewrite Nat.add_assoc.
  apply (is_lcs_prefix _ p), (is_lcs_suffix _ s) in Hm. rewrite <- !app_assoc in Hm.
  rewrite <- Ha, <- Hb, Lp in Hm. rewrite Lp. exact Hm.
Qed.

Theorem diffLines_optimal_witness :
  is_lcs (same_count (diffLines (u "a,b") (u "b,a"))) (split_lf (u "a,b")) (split_lf (u "b,a")).
Proof. apply diffLines_optimal. vm_compute. discriminate. Defined.

Lemma diffStats_spec l a r :
  foldl (fun '(added, removed) x =>
    match kind x with
    | Add => (added + 1, removed)
    | Del => (added, removed + 1)
    | Same => (added, removed)
    end) (a, r) l
  = (a + length (filter (fun x => kind x = Add) l), r + length (filter (fun x => kind x = Del) l)).
Proof.
  revert a r. induction l as [|x l IH]; intros a r; simpl; [f_equal; lia|].
  rewrite !filter_cons. destruct (kind x) eqn:E; rewrite IH; repeat case_decide; try congruence;
    simpl; f_equal; lia.
Qed.

Lemma side_counts l :
  Forall line_ok l ->
  length (omap old_side l) + length (filter (fun x => kind x = Add) l) = length l /\
  length (omap new_side l) + length (filter (fun x => kind x = Del) l) = length l.
Proof.
  induction 1 as [|x l Hx _ [IH1 IH2]]; [done|]. rewrite !filter_cons. cbn [omap list_omap].
  unfold line_ok in Hx. unfold old_side at 1, new_side at 1.
  destruct (kind x); repeat case_decide; try congruence; destruct Hx as [H1 H2];
    destruct (oldNo x), (newNo x); try discriminate;
    try (by apply is_Some_None in H1); try (by apply is_Some_None in H2); simpl; split; lia.
Qed.

(** The counters shown beside a diff balance the two files: the lines of
    [before] plus the added ones are the lines of [after] plus the removed
    ones, and no line is counted on both sides. *)
Theorem diffStats_balance before after :
  let '(added, removed) := diffStats (diffLines before after) in
  length (split_lf before) + added = length (split_lf after) + removed /\
  added + removed + same_count (diffLines before after) = length (diffLines before after).
Proof.
  unfold diffStats. rewrite diffStats_spec. simpl.
  destruct (side_counts (diffLines before after)) as [H1 H2]; [apply diff_lists_ok|].
  destruct (diff_lists_sides (split_lf before) (split_lf after)) as [E1 E2].
  fold (diffLines before after) in E1, E2. rewrite E1 in H1. rewrite E2 in H2.
  unfold number in H1, H2. rewrite length_imap in H1, H2. split; [lia|].
  clear. unfold same_count. induction (diffLines before after) as [|x l IH]; [done|].
  rewrite !filter_cons. destruct (kind x) eqn:E; repeat case_decide; try congruence; simpl; lia.
Qed.

(** ** Hunks keep the surroundings of the changes *)

(** Line [i] is within [context] lines of a changed one. *)
Definition near (lines : list DiffLine) (context i : nat) : Prop :=
  Exists (fun jl => changed jl.2 = true /\ i <= jl.1 + context /\ jl.1 <= i + context) (imap pair lines).
#[export] Instance near_dec lines context i : Decision (near lines context i).
Proof. apply Exists_dec. intros x. apply _. Defined.

Lemma set_flags_lookup (ks : list nat) (keep : list bool) i :
  foldl (fun a k => <[k := true]> a) keep ks !! i = Some true <->
  keep !! i = Some true \/ (i ∈ ks /\ i < length keep).
Proof.
  revert keep. induction ks as [|k ks IH]; intros keep; simpl; [set_solver|].
  rewrite IH, length_insert, list_lookup_insert_Some, elem_of_cons.
  split.
  - intros [[(-> & _ & H)|[_ H]]|[H1 H2]]; auto.
  - intros [H|[[->|H1] H2]]; auto.
    destruct (decide (k = i)) as [->|]; [|auto].
    left. left. repeat split. by apply lookup_lt_Some in H.
Qed.
Lemma set_flags_length (ks : list nat) (keep : list bool) :
  length (foldl (fun a k => <[k := true]> a) keep ks) = length keep.
Proof. revert keep. induction ks as [|k ks IH]; intros keep; simpl; [done|]. by rewrite IH, length_insert. Qed.

Lemma mark_lookup context j keep i :
  j < length keep ->
  mark (length keep) context j keep !! i = Some true <->
  keep !! i = Some true \/ (i < length keep /\ i <= j + context /\ j <= i + context).
Proof. intros Hj. unfold mark. rewrite set_flags_lookup, elem_of_seq.
  split; (intros [H|[H1 H2]]; [by left|right; lia]). Qed.

Lemma keep_fold_lookup n context (ils : list (nat * DiffLine)) keep i :
  length keep = n -> Forall (fun il => il.1 < n) ils -> i < n ->
  foldl (fun ks il => if changed il.2 then mark n context il.1 ks else ks) keep ils !! i = Some true <->
  keep !! i = Some true \/
  Exists (fun jl => changed jl.2 = true /\ i <= jl.1 + context /\ jl.1 <= i + context) ils.
Proof.
  revert keep. induction ils as [|[j l] ils IH]; intros keep Hn Hf Hi; simpl.
  - rewrite Exists_nil. naive_solver.
  - apply Forall_cons in Hf as [Hj Hf]. simpl in Hj. rewrite Exists_cons. simpl.
    destruct (changed l) eqn:E.
    + rewrite IH; [|unfold mark; by rewrite set_flags_length|done|done].
      rewrite <- Hn at 1. rewrite mark_lookup by lia. naive_solver lia.
    + rewrite IH by done. naive_solver.
Qed.

Lemma keep_flags_length lines context : length (keep_flags lines context) = length lines.
Proof.
  unfold keep_flags. generalize (imap pair lines) as ils.
  assert (H : length (replicate (length lines) false) = length lines) by apply length_replicate.
  revert H. generalize (replicate (length lines) false) as keep. intros keep H ils. revert keep H.
  induction ils as [|[j l] ils IH]; intros keep H; simpl; [done|].
  apply IH. case_match; [|done]. unfold mark. by rewrite set_flags_length.
Qed.

Lemma keep_flags_lookup lines context i :
  i < length lines -> keep_flags lines context !! i = Some (bool_decide (near lines context i)).
Proof.
  intros Hi.
  assert (K : keep_flags lines context !! i = Some true <-> near lines context i).
  { unfold keep_flags. rewrite keep_fold_lookup; [|apply length_replicate| |done].
    - rewrite lookup_replicate. naive_solver.
    - rewrite Forall_forall. intros x (k & y & -> & Hk)%elem_of_lookup_imap. simpl.
      by eapply lookup_lt_Some. }
  destruct (keep_flags lines context !! i) as [b|] eqn:E.
  - f_equal. destruct b.
    + symmetry. apply bool_decide_eq_true. by apply K.
    + symmetry. apply bool_decide_eq_false. intros N. apply K in N. done.
  - apply lookup_ge_None in E. rewrite keep_flags_length in E. lia.
Qed.

Lemma elide_somes lines keep sk :
  length keep = length lines ->
  omap id (elide lines keep sk) = (filter (fun lk : DiffLine * bool => lk.2 = true) (zip lines keep)).*1.
Proof.
  revert keep sk. induction lines as [|l lines IH]; intros [|k keep] sk H; try done. simpl in H.
  cbn [elide zip zip_with]. destruct k.
  - rewrite filter_cons_True by done. cbn. f_equal. apply IH. lia.
  - rewrite filter_cons_False by done. destruct sk; cbn; apply IH; lia.
Qed.

Lemma elide_no_double lines keep sk k :
  (elide lines keep sk !! k = Some None -> elide lines keep sk !! S k <> Some None) /\
  (sk = true -> elide lines keep sk !! 0 <> Some None).
Proof.
  revert keep sk k. induction lines as [|l lines IH]; intros [|b keep] sk k; try (split; intros; done).
  cbn [elide]. destruct b; [|destruct sk].
  - split; [|done]. destruct k as [|k]; [done|]. apply (IH keep false k).
  - split; [apply IH|]. intros _. by apply (IH keep true 0).
  - split; [|done]. destruct k as [|k]; [|apply (IH keep true k)].
    intros _. by apply (IH keep true 0).
Qed.

Lemma zip_flags_filter lines (f : nat -> bool) keep n :
  (forall i, i < length lines -> keep !! i = Some (f (n + i))) -> length keep = length lines ->
  (filter (fun lk : DiffLine * bool => lk.2 = true) (zip lines keep)).*1
  = (filter (fun il : nat * DiffLine => f il.1 = true) (imap (fun i l => (n + i, l)) lines)).*2.
Proof.
  revert keep n. induction lines as [|l lines IH]; intros [|k keep] n H HL; try done. simpl in HL.
  cbn [zip zip_with]. rewrite imap_cons.
  pose proof (H 0 ltac:(simpl; lia)) as H0. simpl in H0. injection H0 as ->.
  assert (IH' : (filter (fun lk : DiffLine * bool => lk.2 = true) (zip lines keep)).*1
    = (filter (fun il : nat * DiffLine => f il.1 = true) (imap ((fun i l0 => (n + i, l0)) ∘ S) lines)).*2).
  { rewrite (IH keep (S n)); [|intros i Hi; rewrite Nat.add_succ_comm; apply (H (S i)); simpl; lia|lia].
    do 2 f_equal. apply imap_ext. intros i x _. simpl. f_equal. lia. }
  destruct (f (n + 0)) eqn:E.
  - rewrite !filter_cons_True by done. rewrite !fmap_cons, IH'. done.
  - rewrite !filter_cons_False by (simpl; congruence). done.
Qed.

(** [hunks] shows exactly the lines at most [context] away from a changed
    one, in order, and never two elision marks in a row. *)
Theorem hunks_near lines context :
  omap id (hunks lines context) = (filter (fun il : nat * DiffLine => near lines context il.1) (imap pair lines)).*2 /\
  forall k, hunks lines context !! k = Some None -> hunks lines context !! S k <> Some None.
Proof.
  split; [|intros k; apply elide_no_double].
  unfold hunks. rewrite elide_somes by apply keep_flags_length.
  rewrite (zip_flags_filter _ (fun i => bool_decide (near lines context i)) _ 0).
  - f_equal. apply list_filter_iff. intros [i l]. by rewrite bool_decide_eq_true.
  - intros i Hi. by apply keep_flags_lookup.
  - apply keep_flags_length.
Qed.
