(* ===== verification/Zip.v ===== *)
(** * The ZIP writer of « Tout télécharger » (lib/zip.ts)

    [zipFiles] lays out one stored entry per file, the central directory and
    the end record.  [crc32] is the source's table-driven loop on signed 32-bit
    integers.  The theorems: the table loop computes the CRC-32 of the bytes
    (bit-at-a-time reference), and an archive reads back as the files it was
    given, through a reader written from the PKWARE layout. *)

From S2P Require Import JsString JsInt Utf8.
Local Open Scope Z_scope.

(** ** CRC-32 *)

(** [for (k = 0; k < 8; k++) c = c & 1 ? 0xedb88320 ^ (c >>> 1) : c >>> 1] *)
Definition table_step (c : Z) : Z :=
  if js_and c 1 =? 0 then js_shr c 1 else js_xor 0xedb88320 (js_shr c 1).
Definition table_entry (n : Z) : Z := js_shr (Nat.iter 8 table_step n) 0.
Definition CRC_TABLE : list Z := map (fun n => table_entry (Z.of_nat n)) (seq 0 256).

(** [c = CRC_TABLE[(c ^ data[i]) & 0xff] ^ (c >>> 8)] *)
Definition crc_step (c b : Z) : Z :=
  js_xor (CRC_TABLE !!! Z.to_nat (js_and (js_xor c b) 0xff)) (js_shr c 8).
Definition crc32 (data : list Z) : Z :=
  js_shr (js_xor (foldl crc_step 0xffffffff data) 0xffffffff) 0.

(** ** Buffers: [Uint8Array] and [DataView] *)

(** [n] bytes of [v], least significant first. *)
Fixpoint le_bytes (n : nat) (v : Z) : list Z :=
  match n with
  | O => []
  | S k => v mod 256 :: le_bytes k (v / 256)
  end.

Definition new_buffer (n : nat) : list Z := replicate n 0.
(** [buf.set(bytes, off)]; every call of the source stays inside the buffer. *)
Definition set_bytes (buf : list Z) (off : nat) (bytes : list Z) : list Z :=
  take off buf ++ bytes ++ drop (off + length bytes) buf.
Definition setUint16 (buf : list Z) (off : nat) (v : Z) : list Z := set_bytes buf off (le_bytes 2 (v mod 2 ^ 16)).
Definition setUint32 (buf : list Z) (off : nat) (v : Z) : list Z := set_bytes buf off (le_bytes 4 (to_u32 v)).

(** ** The archive *)

Record File := mkFile { f_name : jstr; f_content : jstr }.

(** The local-time fields of a [Date]. *)
Record Date := mkDate { year : Z; month : Z; day : Z; hours : Z; minutes : Z; seconds : Z }.
Definition dosTime (d : Date) : Z :=
  js_or (js_or (js_shl (hours d) 11) (js_shl (minutes d) 5)) (js_sar (seconds d) 1).
Definition dosDate (d : Date) : Z :=
  js_or (js_or (js_shl (year d - 1980) 9) (js_shl (month d + 1) 5)) (day d).

Definition encode (s : jstr) : list Z := map Z.of_N (utf8_encode s).

Definition local_header (time date crc : Z) (name data : list Z) : list Z :=
  let v := new_buffer (30 + length name + length data) in
  let v := setUint32 v 0 0x04034b50 in
  let v := setUint16 v 4 20 in
  let v := setUint16 v 6 0x0800 in
  let v := setUint16 v 8 0 in
  let v := setUint16 v 10 time in
  let v := setUint16 v 12 date in
  let v := setUint32 v 14 crc in
  let v := setUint32 v 18 (Z.of_nat (length data)) in
  let v := setUint32 v 22 (Z.of_nat (length data)) in
  let v := setUint16 v 26 (Z.of_nat (length name)) in
  let v := set_bytes v 30 name in
  set_bytes v (30 + length name) data.

Definition central_header (time date crc : Z) (name data : list Z) (offset : Z) : list Z :=
  let v := new_buffer (46 + length name) in
  let v := setUint32 v 0 0x02014b50 in
  let v := setUint16 v 4 20 in
  let v := setUint16 v 6 20 in
  let v := setUint16 v 8 0x0800 in
  let v := setUint16 v 10 0 in
  let v := setUint16 v 12 time in
  let v := setUint16 v 14 date in
  let v := setUint32 v 16 crc in
  let v := setUint32 v 20 (Z.of_nat (length data)) in
  let v := setUint32 v 24 (Z.of_nat (length data)) in
  let v := setUint16 v 28 (Z.of_nat (length name)) in
  let v := setUint32 v 42 offset in
  set_bytes v 46 name.

Definition end_record (n centralSize offset : Z) : list Z :=
  let v := new_buffer 22 in
  let v := setUint32 v 0 0x06054b50 in
  let v := setUint16 v 8 n in
  let v := setUint16 v 10 n in
  let v := setUint32 v 12 centralSize in
  setUint32 v 16 offset.

(** The loop over the files: local parts, central parts, running offset. *)
Definition zip_entry (d : Date) (acc : list (list Z) * list (list Z) * Z) (f : File) :=
  let '(locals, centrals, offset) := acc in
  let name := encode (f_name f) in
  let data := encode (f_content f) in
  let crc := crc32 data in
  let local := local_header (dosTime d) (dosDate d) crc name data in
  let central := central_header (dosTime d) (dosDate d) crc name data offset in
  (locals ++ [local], centrals ++ [central], offset + Z.of_nat (length local)).

Definition zipFiles (files : list File) (d : Date) : list Z :=
  let '(locals, centrals, offset) := foldl (zip_entry d) ([], [], 0) files in
  let centralSize := foldl (fun n c => n + Z.of_nat (length c)) 0 centrals in
  let end_ := end_record (Z.of_nat (length files)) centralSize offset in
  let out := new_buffer (Z.to_nat (offset + centralSize + 22)) in
  (foldl (fun '(out, at_) part => (set_bytes out at_ part, at_ + length part)%nat)
     (out, 0%nat) (locals ++ centrals ++ [end_])).1.

(** ** CRC: the table loop is the bit-at-a-time definition *)

Definition POLY : Z := 0xedb88320.
Definition crc_bit (c : Z) : Z := if Z.odd c then Z.lxor POLY (Z.shiftr c 1) else Z.shiftr c 1.
Definition crc_byte (c b : Z) : Z := Nat.iter 8 crc_bit (Z.lxor c b).
(** CRC-32 of a byte string, one bit at a time, reflected. *)
Definition crc32_ref (data : list Z) : Z := Z.lxor (foldl crc_byte 0xffffffff data) 0xffffffff.

Lemma land_1_odd z : Z.land z 1 = if Z.odd z then 1 else 0.
Proof. change 1 with (Z.ones 1) at 1. rewrite Z.land_ones, Z.pow_1_r, Zmod_odd by lia. done. Qed.

Lemma shiftr_range z k : 0 <= k -> 0 <= z < 2 ^ 32 -> 0 <= Z.shiftr z k < 2 ^ 32.
Proof.
  intros Hk Hz. rewrite Z.shiftr_div_pow2 by done. assert (0 < 2 ^ k) by lia. split.
  - apply Z.div_pos; lia.
  - apply Z.div_lt_upper_bound; nia.
Qed.

Lemma crc_bit_range c : 0 <= c < 2 ^ 32 -> 0 <= crc_bit c < 2 ^ 32.
Proof.
  intros H. unfold crc_bit. pose proof (shiftr_range c 1 ltac:(lia) H).
  case_match; [apply (lxor_range _ _ 32); unfold POLY; lia|done].
Qed.

Lemma table_step_bit c : to_u32 (table_step c) = crc_bit (to_u32 c).
Proof.
  unfold table_step, crc_bit. rewrite js_and_u32 by lia. rewrite land_1_odd.
  unfold js_shr. change (1 mod 32) with 1.
  pose proof (shiftr_range (to_u32 c) 1 ltac:(lia) (to_u32_range c)).
  destruct (Z.odd (to_u32 c)); cbn [Z.eqb].
  - rewrite u32_js_xor. f_equal. by apply to_u32_id.
  - by apply to_u32_id.
Qed.

Lemma crc_bit_iter_range n c : 0 <= c < 2 ^ 32 -> 0 <= Nat.iter n crc_bit c < 2 ^ 32.
Proof. intros H. induction n as [|n IH]; [done|]. simpl. by apply crc_bit_range. Qed.

Lemma table_entry_spec n : table_entry n = Nat.iter 8 crc_bit (to_u32 n).
Proof.
  unfold table_entry, js_shr. change (0 mod 32) with 0. rewrite Z.shiftr_0_r.
  assert (H : forall k, to_u32 (Nat.iter k table_step n) = Nat.iter k crc_bit (to_u32 n)).
  { intros k. induction k as [|k IH]; [done|]. simpl. by rewrite table_step_bit, IH. }
  apply H.
Qed.

(** Equations between exclusive ors, bit by bit. *)
Ltac xor_bits :=
  apply Z.bits_inj'; intros ? _; rewrite ?Z.lxor_spec;
  repeat match goal with |- context [Z.testbit ?a ?n] => destruct (Z.testbit a n) end; reflexivity.

(** [crc_bit] is linear over exclusive or. *)
Lemma crc_bit_lxor a b : crc_bit (Z.lxor a b) = Z.lxor (crc_bit a) (crc_bit b).
Proof.
  unfold crc_bit. rewrite <- !Z.bit0_odd, Z.lxor_spec, Z.shiftr_lxor.
  destruct (Z.testbit a 0), (Z.testbit b 0); simpl; xor_bits.
Qed.
Lemma crc_bit_iter_lxor n a b :
  Nat.iter n crc_bit (Z.lxor a b) = Z.lxor (Nat.iter n crc_bit a) (Nat.iter n crc_bit b).
Proof. induction n as [|n IH]; [done|]. simpl. by rewrite IH, crc_bit_lxor. Qed.

Lemma crc_bit_shift n y : Nat.iter n crc_bit (Z.shiftl y (Z.of_nat n)) = y.
Proof.
  induction n as [|n IH]; [apply Z.shiftl_0_r|].
  rewrite Nat.iter_succ_r. replace (crc_bit (Z.shiftl y (Z.of_nat (S n)))) with (Z.shiftl y (Z.of_nat n)); [done|].
  unfold crc_bit. rewrite <- Z.bit0_odd, Z.shiftl_spec_low by lia.
  rewrite Z.shiftr_shiftl_r by lia. by replace (1 - Z.of_nat (S n)) with (- Z.of_nat n) by lia; rewrite Z.shiftr_opp_r.
Qed.

Lemma split_low_byte x : x = Z.lxor (Z.land x 255) (Z.shiftl (Z.shiftr x 8) 8).
Proof.
  apply Z.bits_inj'. intros n Hn. rewrite Z.lxor_spec, Z.land_spec.
  change 255 with (Z.ones 8). destruct (Z.lt_ge_cases n 8).
  - rewrite Z.ones_spec_low, Z.shiftl_spec_low by lia. by destruct (Z.testbit x n).
  - rewrite Z.ones_spec_high, Z.shiftl_spec_high, Z.shiftr_spec by lia.
    replace (n - 8 + 8) with n by lia. by destruct (Z.testbit x n).
Qed.

Lemma crc_iter8_split x :
  Nat.iter 8 crc_bit x = Z.lxor (Nat.iter 8 crc_bit (Z.land x 255)) (Z.shiftr x 8).
Proof. rewrite (split_low_byte x) at 1. rewrite crc_bit_iter_lxor. f_equal. apply (crc_bit_shift 8). Qed.

Lemma CRC_TABLE_lookup n : 0 <= n < 256 -> CRC_TABLE !!! Z.to_nat n = Nat.iter 8 crc_bit n.
Proof.
  intros Hn. unfold CRC_TABLE. apply list_lookup_total_correct.
  rewrite list_lookup_fmap, lookup_seq_lt by lia. simpl fmap. f_equal.
  rewrite table_entry_spec, to_u32_id by lia. do 2 f_equal. lia.
Qed.

Lemma crc_step_byte c b :
  0 <= b < 256 -> to_u32 (crc_step c b) = crc_byte (to_u32 c) b.
Proof.
  intros Hb. unfold crc_step, crc_byte. rewrite u32_js_xor, js_and_u32, u32_js_xor by lia.
  rewrite (to_u32_id b) by lia. set (x := Z.lxor (to_u32 c) b).
  assert (L : 0 <= Z.land x 255 < 256).
  { change 255 with (Z.ones 8). rewrite Z.land_ones by lia. apply Z.mod_pos_bound. lia. }
  rewrite CRC_TABLE_lookup by done. rewrite (crc_iter8_split x). f_equal.
  - apply to_u32_id. apply crc_bit_iter_range. lia.
  - unfold js_shr. change (8 mod 32) with 8. rewrite to_u32_id by (apply shiftr_range; [lia|apply to_u32_range]).
    unfold x. rewrite Z.shiftr_lxor. rewrite (Z.shiftr_div_pow2 b) by lia.
    rewrite (Z.div_small b) by lia. by rewrite Z.lxor_0_r.
Qed.

Lemma crc32_fold data c :
  Forall (fun b => 0 <= b < 256) data ->
  to_u32 (foldl crc_step c data) = foldl crc_byte (to_u32 c) data.
Proof.
  intros H. revert c. induction H as [|b data Hb _ IH]; intros c; [done|].
  simpl. by rewrite IH, crc_step_byte.
Qed.

Lemma crc32_is_ref data : Forall (fun b => 0 <= b < 256) data -> crc32 data = crc32_ref data.
Proof.
  intros H. unfold crc32, crc32_ref, js_shr. change (0 mod 32) with 0. rewrite Z.shiftr_0_r.
  rewrite u32_js_xor, crc32_fold by done. done.
Qed.

(** ** Reading an archive back

    A reader that follows the PKWARE layout: the end record gives the central
    directory, each central entry gives a local header, whose data must be
    stored and match its CRC. *)

Fixpoint le_value (bs : list Z) : Z :=
  match bs with [] => 0 | b :: r => b + 256 * le_value r end.
Definition get (n : nat) (bs : list Z) (off : nat) : Z := le_value (take n (drop off bs)).
Definition sub (bs : list Z) (off n : nat) : list Z := take n (drop off bs).

Definition read_local (bs : list Z) (off : nat) (size : nat) : option (list Z * list Z) :=
  if get 4 bs off =? 0x04034b50 then
    let nlen := Z.to_nat (get 2 bs (off + 26)) in
    let elen := Z.to_nat (get 2 bs (off + 28)) in
    Some (sub bs (off + 30) nlen, sub bs (off + 30 + nlen + elen) size)
  else None.

Definition read_central (bs : list Z) (off : nat) : option ((list Z * list Z) * nat) :=
  if (get 4 bs off =? 0x02014b50) && (get 2 bs (off + 10) =? 0)
     && (get 4 bs (off + 20) =? get 4 bs (off + 24)) then
    let nlen := Z.to_nat (get 2 bs (off + 28)) in
    let next := (off + 46 + nlen + Z.to_nat (get 2 bs (off + 30)) + Z.to_nat (get 2 bs (off + 32)))%nat in
    match read_local bs (Z.to_nat (get 4 bs (off + 42))) (Z.to_nat (get 4 bs (off + 24))) with
    | Some (name, data) =>
        if bool_decide (name = sub bs (off + 46) nlen) && (crc32_ref data =? get 4 bs (off + 16))
        then Some ((name, data), next) else None
    | None => None
    end
  else None.

Fixpoint read_entries (n : nat) (bs : list Z) (off : nat) : option (list (list Z * list Z)) :=
  match n with
  | O => Some []
  | S k =>
      '(e, next) ← read_central bs off; es ← read_entries k bs next; Some (e :: es)
  end.

Definition unzip (bs : list Z) : option (list (list Z * list Z)) :=
  if (length bs <? 22)%nat then None
  else
    let eo := (length bs - 22)%nat in
    if get 4 bs eo =? 0x06054b50
    then read_entries (Z.to_nat (get 2 bs (eo + 10))) bs (Z.to_nat (get 4 bs (eo + 16)))
    else None.

(** *** Little-endian fields *)

Lemma length_le_bytes n v : length (le_bytes n v) = n.
Proof. revert v. induction n as [|n IH]; intros v; simpl; [done|]. by rewrite IH. Qed.

Lemma le_value_bytes n v : le_value (le_bytes n v) = v mod 256 ^ Z.of_nat n.
Proof.
  revert v. induction n as [|n IH]; intros v; cbn [le_bytes le_value].
  - by rewrite Z.pow_0_r, Z.mod_1_r.
  - rewrite IH, Nat2Z.inj_succ, Z.pow_succ_r by lia. rewrite Z.rem_mul_r by lia. lia.
Qed.

Lemma le16 v : 0 <= v < 2 ^ 16 -> le_value (le_bytes 2 v) = v.
Proof. intros H. rewrite le_value_bytes. apply Z.mod_small. lia. Qed.
Lemma le32 v : 0 <= v < 2 ^ 32 -> le_value (le_bytes 4 v) = v.
Proof. intros H. rewrite le_value_bytes. apply Z.mod_small. lia. Qed.

(** *** The bytes of each part *)

Definition w16 (v : Z) : list Z := le_bytes 2 (v mod 2 ^ 16).
Definition w32 (v : Z) : list Z := le_bytes 4 (to_u32 v).

Lemma new_buffer_split a b : new_buffer (a + b) = new_buffer a ++ new_buffer b.
Proof. apply replicate_add. Qed.

Lemma set_bytes_app_r pre buf off bytes :
  (length pre <= off)%nat -> set_bytes (pre ++ buf) off bytes = pre ++ set_bytes buf (off - length pre) bytes.
Proof.
  intros H. unfold set_bytes. rewrite take_app_ge, drop_app_ge by lia. rewrite <- app_assoc. do 4 f_equal. lia.
Qed.

Lemma local_header_bytes time date crc name data :
  local_header time date crc name data =
  w32 0x04034b50 ++ w16 20 ++ w16 0x0800 ++ w16 0 ++ w16 time ++ w16 date ++ w32 crc
  ++ w32 (Z.of_nat (length data)) ++ w32 (Z.of_nat (length data)) ++ w16 (Z.of_nat (length name))
  ++ [0; 0] ++ name ++ data.
Proof.
  unfold local_header. rewrite <- Nat.add_assoc, new_buffer_split.
  set (rest := new_buffer (length name + length data)).
  set (ln := Z.of_nat (length name)). set (ld := Z.of_nat (length data)).
  match goal with |- set_bytes (set_bytes ?h 30 name) _ data = _ =>
    assert (Hh : h = (w32 0x04034b50 ++ w16 20 ++ w16 0x0800 ++ w16 0 ++ w16 time ++ w16 date ++ w32 crc
      ++ w32 ld ++ w32 ld ++ w16 ln ++ [0; 0]) ++ rest) by reflexivity
  end.
  rewrite Hh. clear Hh. match goal with |- context [set_bytes (?h ++ rest)] => set (hd30 := h) end.
  assert (L : length hd30 = 30%nat) by reflexivity.
  rewrite (set_bytes_app_r hd30) by lia. rewrite (set_bytes_app_r hd30) by lia. rewrite L, Nat.sub_diag.
  replace (30 + length name - 30)%nat with (length name) by lia.
  unfold rest. rewrite new_buffer_split. unfold set_bytes at 2. rewrite take_0. cbn [app Nat.add].
  rewrite drop_app_length' by (unfold new_buffer; by rewrite length_replicate).
  unfold set_bytes. rewrite take_app_length, drop_ge
    by (rewrite length_app; unfold new_buffer; rewrite length_replicate; lia).
  rewrite app_nil_r. unfold hd30. by rewrite <- !app_assoc.
Qed.

Lemma central_header_bytes time date crc name data offset :
  central_header time date crc name data offset =
  w32 0x02014b50 ++ w16 20 ++ w16 20 ++ w16 0x0800 ++ w16 0 ++ w16 time ++ w16 date ++ w32 crc
  ++ w32 (Z.of_nat (length data)) ++ w32 (Z.of_nat (length data)) ++ w16 (Z.of_nat (length name))
  ++ [0; 0; 0; 0; 0; 0; 0; 0; 0; 0; 0; 0] ++ w32 offset ++ name.
Proof.
  unfold central_header. rewrite new_buffer_split.
  set (rest := new_buffer (length name)).
  set (ln := Z.of_nat (length name)). set (ld := Z.of_nat (length data)).
  match goal with |- set_bytes ?h 46 name = _ =>
    assert (Hh : h = (w32 0x02014b50 ++ w16 20 ++ w16 20 ++ w16 0x0800 ++ w16 0 ++ w16 time ++ w16 date ++ w32 crc
      ++ w32 ld ++ w32 ld ++ w16 ln ++ [0; 0; 0; 0; 0; 0; 0; 0; 0; 0; 0; 0] ++ w32 offset) ++ rest) by reflexivity
  end.
  rewrite Hh. clear Hh. match goal with |- context [set_bytes (?h ++ rest)] => set (hd46 := h) end.
  assert (L : length hd46 = 46%nat) by reflexivity.
  rewrite (set_bytes_app_r hd46) by lia. rewrite L, Nat.sub_diag.
  unfold set_bytes. rewrite take_0. cbn [app Nat.add].
  rewrite drop_ge by (unfold rest, new_buffer; rewrite length_replicate; lia).
  rewrite app_nil_r. unfold hd46. by rewrite <- !app_assoc.
Qed.

Lemma end_record_bytes n cs off :
  end_record n cs off = w32 0x06054b50 ++ [0; 0; 0; 0] ++ w16 n ++ w16 n ++ w32 cs ++ w32 off ++ [0; 0].
Proof. reflexivity. Qed.

(** *** The archive is the concatenation of its parts *)

Section archive.
Context (d : Date).

Definition local_of (f : File) : list Z :=
  local_header (dosTime d) (dosDate d) (crc32 (encode (f_content f))) (encode (f_name f)) (encode (f_content f)).
Definition central_of (f : File) (off : Z) : list Z :=
  central_header (dosTime d) (dosDate d) (crc32 (encode (f_content f))) (encode (f_name f)) (encode (f_content f)) off.
Fixpoint centrals_of (files : list File) (off : Z) : list (list Z) :=
  match files with
  | [] => []
  | f :: r => central_of f off :: centrals_of r (off + Z.of_nat (length (local_of f)))
  end.
Definition total (parts : list (list Z)) : nat := length (concat parts).

Lemma zip_entry_fold files ls cs off :
  foldl (zip_entry d) (ls, cs, off) files =
  (ls ++ map local_of files, cs ++ centrals_of files off, off + Z.of_nat (total (map local_of files))).
Proof.
  revert ls cs off. induction files as [|f files IH]; intros ls cs off.
  - simpl. rewrite !app_nil_r. f_equal. unfold total. simpl. lia.
  - cbn [foldl]. unfold zip_entry at 2. fold (local_of f) (central_of f off).
    rewrite IH, <- !app_assoc. cbn [map centrals_of app]. f_equal.
    unfold total. cbn [concat]. rewrite length_app. lia.
Qed.

Lemma total_fold parts n : foldl (fun n c => n + Z.of_nat (length c)) n parts = n + Z.of_nat (total parts).
Proof.
  revert n. induction parts as [|c parts IH]; intros n; cbn [foldl]; [unfold total; simpl; lia|].
  rewrite IH. unfold total. cbn [concat]. rewrite length_app. lia.
Qed.

Lemma assemble parts pre rest :
  (foldl (fun '(out, at_) part => (set_bytes out at_ part, at_ + length part)%nat)
     (pre ++ new_buffer (total parts + rest), length pre) parts).1 = pre ++ concat parts ++ new_buffer rest.
Proof.
  revert pre. induction parts as [|p parts IH]; intros pre; [done|]. cbn [foldl concat].
  rewrite set_bytes_app_r, Nat.sub_diag by lia.
  replace (set_bytes _ 0 p) with (p ++ new_buffer (total parts + rest)).
  - rewrite app_assoc, <- length_app, IH. by rewrite <- !app_assoc.
  - unfold set_bytes. rewrite take_0. cbn [app Nat.add]. f_equal.
    replace (total (p :: parts) + rest)%nat with (length p + (total parts + rest))%nat
      by (unfold total; cbn [concat]; rewrite length_app; lia).
    rewrite (new_buffer_split (length p)). symmetry. apply drop_app_length'.
    unfold new_buffer. by rewrite length_replicate.
Qed.

Lemma zipFiles_parts files :
  zipFiles files d =
  concat (map local_of files) ++ concat (centrals_of files 0)
  ++ end_record (Z.of_nat (length files)) (Z.of_nat (total (centrals_of files 0)))
       (Z.of_nat (total (map local_of files))).
Proof.
  unfold zipFiles. rewrite zip_entry_fold. rewrite !app_nil_l, !Z.add_0_l, total_fold, Z.add_0_l.
  set (er := end_record _ _ _).
  pose proof (assemble (map local_of files ++ centrals_of files 0 ++ [er]) [] 0) as H.
  rewrite !app_nil_l, Nat.add_0_r in H. change (length (@nil Z)) with 0%nat in H.
  replace (Z.to_nat _) with (total (map local_of files ++ centrals_of files 0 ++ [er])).
  - rewrite H. simpl. by rewrite app_nil_r, !concat_app, concat_cons, concat_nil, app_nil_r.
  - unfold total. rewrite !concat_app, !length_app, concat_cons, concat_nil, app_nil_r.
    unfold er. rewrite end_record_bytes. simpl length. lia.
Qed.

(** *** Reading the parts *)

Lemma get_app n pre x k : get n (pre ++ x) (length pre + k) = get n x k.
Proof. unfold get. by rewrite drop_app_add. Qed.
Lemma sub_app pre x k n : sub (pre ++ x) (length pre + k) n = sub x k n.
Proof. unfold sub. by rewrite drop_app_add. Qed.

(** The sizes the 16- and 32-bit fields can hold (and a content made of
    code units). *)
Definition file_fits (f : File) : Prop :=
  Forall (fun c => (c < 65536)%N) (f_content f) /\
  Z.of_nat (length (encode (f_name f))) < 2 ^ 16 /\ Z.of_nat (length (encode (f_content f))) < 2 ^ 32.

Lemma w16_value v : 0 <= v < 2 ^ 16 -> le_value (w16 v) = v.
Proof. intros H. unfold w16. rewrite Z.mod_small by done. by apply le16. Qed.
Lemma w32_value v : 0 <= v < 2 ^ 32 -> le_value (w32 v) = v.
Proof. intros H. unfold w32. rewrite to_u32_id by done. by apply le32. Qed.

Lemma read_local_part f pre post :
  file_fits f ->
  read_local (pre ++ local_of f ++ post) (length pre) (length (encode (f_content f)))
  = Some (encode (f_name f), encode (f_content f)).
Proof.
  intros (_ & Hn & Hd). unfold read_local, local_of. rewrite local_header_bytes.
  set (name := encode (f_name f)) in *. set (data := encode (f_content f)) in *.
  set (crc := crc32 data).
  pose proof (get_app 4 pre) as G4. pose proof (get_app 2 pre) as G2.
  rewrite <- (Nat.add_0_r (length pre)) at 1. rewrite G4, !G2.
  match goal with |- context [get 4 ?x 0] => set (X := x) end.
  change (get 4 X 0) with (le_value (w32 0x04034b50)). rewrite w32_value by lia. rewrite Z.eqb_refl.
  change (get 2 X 26) with (le_value (w16 (Z.of_nat (length name)))). rewrite w16_value by lia.
  change (get 2 X 28) with 0. rewrite Nat2Z.id. simpl Z.to_nat.
  rewrite sub_app. rewrite Nat.add_0_r, <- Nat.add_assoc, sub_app. f_equal. f_equal.
  - change (sub X 30 (length name)) with (take (length name) ((name ++ data) ++ post)).
    rewrite <- app_assoc. by rewrite take_app_length.
  - unfold sub. rewrite <- drop_drop. change (drop 30 X) with ((name ++ data) ++ post).
    rewrite <- app_assoc, drop_app_length. by rewrite take_app_length.
Qed.

Lemma crc32_range data : 0 <= crc32 data < 2 ^ 32.
Proof. unfold crc32, js_shr. change (0 mod 32) with 0. rewrite Z.shiftr_0_r. apply to_u32_range. Qed.

Lemma encode_bytes s : Forall (fun c => (c < 65536)%N) s -> Forall (fun b => 0 <= b < 256) (encode s).
Proof.
  intros H%utf8_encode_bytes. unfold encode. rewrite Forall_map. eapply Forall_impl; [exact H|].
  intros b Hb. simpl in *. lia.
Qed.

Lemma length_central_of f off : length (central_of f off) = (46 + length (encode (f_name f)))%nat.
Proof. unfold central_of. by rewrite central_header_bytes. Qed.

Lemma read_central_part f bs preL postL preC postC :
  bs = preL ++ local_of f ++ postL ->
  bs = preC ++ central_of f (Z.of_nat (length preL)) ++ postC ->
  file_fits f -> Z.of_nat (length preL) < 2 ^ 32 ->
  read_central bs (length preC)
  = Some ((encode (f_name f), encode (f_content f)), (length preC + length (central_of f (Z.of_nat (length preL))))%nat).
Proof.
  intros HL HC Hf HpL. pose proof Hf as (Hu & Hn & Hd).
  assert (RL : read_local bs (length preL) (length (encode (f_content f)))
               = Some (encode (f_name f), encode (f_content f))) by (rewrite HL; by apply read_local_part).
  rewrite length_central_of. unfold read_central. rewrite HC.
  unfold central_of. rewrite central_header_bytes. rewrite <- !app_assoc.
  set (name := encode (f_name f)) in *. set (data := encode (f_content f)) in *.
  pose proof (get_app 4 preC) as G4. pose proof (get_app 2 preC) as G2. pose proof (sub_app preC) as S.
  rewrite <- (Nat.add_0_r (length preC)) at 1. rewrite !G4, !G2, !S.
  match goal with |- context [get 4 ?x 0] => set (X := x) in * end.
  change (get 4 X 0) with (le_value (w32 0x02014b50)). rewrite w32_value by lia.
  change (get 2 X 10) with (le_value (w16 0)). rewrite w16_value by lia.
  change (get 4 X 20) with (le_value (w32 (Z.of_nat (length data)))).
  change (get 4 X 24) with (le_value (w32 (Z.of_nat (length data)))).
  rewrite !w32_value by lia. rewrite !Z.eqb_refl. cbn [andb].
  change (get 2 X 28) with (le_value (w16 (Z.of_nat (length name)))). rewrite w16_value by lia.
  change (get 2 X 30) with 0. change (get 2 X 32) with 0.
  change (get 4 X 42) with (le_value (w32 (Z.of_nat (length preL)))). rewrite w32_value by lia.
  change (get 4 X 16) with (le_value (w32 (crc32 data))). rewrite w32_value by apply crc32_range.
  rewrite !Nat2Z.id.
  assert (HX : preC ++ X = bs).
  { rewrite HC. unfold central_of. rewrite central_header_bytes, <- !app_assoc. done. }
  rewrite HX, RL.
  change (sub X 46 (length name)) with (take (length name) (name ++ postC)). rewrite take_app_length.
  rewrite bool_decide_eq_true_2 by done. rewrite crc32_is_ref by (by apply encode_bytes).
  rewrite Z.eqb_refl. cbn [andb]. do 2 f_equal. simpl. lia.
Qed.

Lemma read_entries_parts fs bs preL postL preC postC :
  bs = preL ++ concat (map local_of fs) ++ postL ->
  bs = preC ++ concat (centrals_of fs (Z.of_nat (length preL))) ++ postC ->
  Forall file_fits fs -> Z.of_nat (length preL + total (map local_of fs)) < 2 ^ 32 ->
  read_entries (length fs) bs (length preC)
  = Some (map (fun f => (encode (f_name f), encode (f_content f))) fs).
Proof.
  revert preL preC. induction fs as [|f fs IH]; intros preL preC HL HC HF HT; [done|].
  apply Forall_cons in HF as [Hf HF]. cbn [map concat centrals_of] in *.
  unfold total in HT. cbn [concat] in HT. rewrite length_app in HT.
  rewrite <- !app_assoc in HL, HC. cbn [length read_entries].
  rewrite (read_central_part f bs preL (concat (map local_of fs) ++ postL) preC
             (concat (centrals_of fs (Z.of_nat (length preL) + Z.of_nat (length (local_of f)))) ++ postC));
    [|done|done|done|lia].
  cbn [mbind option_bind]. rewrite <- length_app.
  rewrite (IH (preL ++ local_of f) (preC ++ central_of f (Z.of_nat (length preL)))); [done|..].
  - by rewrite <- !app_assoc.
  - rewrite length_app, Nat2Z.inj_add, <- !app_assoc. done.
  - done.
  - rewrite length_app. unfold total. lia.
Qed.
End archive.

(** C40: the archive of « Tout télécharger » reads back, through its central
    directory, as exactly the names and contents it was given (as UTF-8, in
    order, with matching CRCs), as long as the ZIP fields can hold the sizes. *)
Theorem unzip_zipFiles files d :
  Forall file_fits files ->
  Z.of_nat (length files) < 2 ^ 16 ->
  Z.of_nat (total (map (local_of d) files)) < 2 ^ 32 ->
  unzip (zipFiles files d) = Some (map (fun f => (encode (f_name f), encode (f_content f))) files).
Proof.
  intros HF Hn HT. rewrite zipFiles_parts.
  set (A := concat (map (local_of d) files)). set (B := concat (centrals_of d files 0)).
  set (n := Z.of_nat (length files)) in *.
  set (er := end_record n _ _).
  assert (LE : length er = 22%nat) by reflexivity.
  unfold unzip. rewrite !app_assoc. set (P := A ++ B).
  rewrite length_app, LE. replace (length P + 22 <? 22)%nat with false by (symmetry; apply Nat.ltb_ge; lia).
  replace (length P + 22 - 22)%nat with (length P + 0)%nat by lia.
  rewrite <- Nat.add_assoc, !get_app. cbn [Nat.add].
  change (get 4 er 0) with (le_value (w32 0x06054b50)). rewrite w32_value by lia. rewrite Z.eqb_refl.
  change (get 2 er 10) with (le_value (w16 n)). rewrite w16_value by lia.
  rewrite <- Nat.add_assoc, get_app. cbn [Nat.add].
  change (get 4 er 16) with (le_value (w32 (Z.of_nat (total (map (local_of d) files))))).
  rewrite w32_value by lia. unfold n. rewrite !Nat2Z.id.
  apply (read_entries_parts d files (P ++ er) [] (B ++ er) A er).
  - unfold P, A. by rewrite <- !app_assoc.
  - unfold P. simpl. by rewrite <- app_assoc.
  - done.
  - simpl. lia.
Qed.

Theorem unzip_zipFiles_witness :
  let files := [mkFile (u "é.txt") (u "bonjour"); mkFile (u "b") []] in
  unzip (zipFiles files (mkDate 2026 9 13 12 30 8))
  = Some (map (fun f => (encode (f_name f), encode (f_content f))) files).
Proof.
  apply unzip_zipFiles.
  - repeat constructor.
  - reflexivity.
  - vm_compute. reflexivity.
Defined.

(** The source's table-driven loop on signed 32-bit integers computes the
    CRC-32 of the bytes, as defined one bit at a time. *)
Theorem crc32_bitwise data : Forall (fun b => 0 <= b < 256) data -> crc32 data = crc32_ref data.
Proof. apply crc32_is_ref. Qed.

Theorem crc32_bitwise_witness : crc32 (encode (u "123456789")) = 0xcbf43926 /\
  crc32 (encode (u "123456789")) = crc32_ref (encode (u "123456789")).
Proof. split; [vm_compute; reflexivity|]. apply crc32_bitwise. vm_compute. repeat constructor; discriminate. Defined.
