(* ===== verification/JsJson.v ===== *)
(** * JSON values and [JSON.parse]

    The grammar of ECMA-404 on UTF-16 code units.  A number is kept as the
    exact decimal [m * 10^e] of its literal: the source only tests the type,
    the truth value and small integer values of the numbers it parses.  An
    object keeps its members in insertion order; a repeated key keeps its first
    place and its last value. *)

From Stdlib Require Import DecimalNat.
From S2P Require Export JsString.

Inductive json :=
| JNull
| JBool (b : bool)
| JNum (m e : Z)
| JStr (s : jstr)
| JArr (l : list json)
| JObj (kv : list (jstr * json)).

(** ** Property access *)

Fixpoint assoc_get {A} (k : jstr) (kv : list (jstr * A)) : option A :=
  match kv with
  | [] => None
  | (k', v) :: r => if streq k k' then Some v else assoc_get k r
  end.
Fixpoint assoc_set {A} (k : jstr) (v : A) (kv : list (jstr * A)) : list (jstr * A) :=
  match kv with
  | [] => [(k, v)]
  | (k', v') :: r => if streq k k' then (k', v) :: r else (k', v') :: assoc_set k v r
  end.

(** [o.k] for a value that is neither [null] nor [undefined]; [None] is
    [undefined].  The keys the source reads name no method of the primitive
    prototypes, except where a use says so. *)
Definition prop (k : jstr) (o : json) : option json :=
  match o with JObj kv => assoc_get k kv | _ => None end.

Definition truthy (v : json) : bool :=
  match v with
  | JNull => false
  | JBool b => b
  | JNum m _ => negb (m =? 0)%Z
  | JStr s => negb (streq s [])
  | JArr _ | JObj _ => true
  end.
Definition truthy_opt (v : option json) : bool := match v with Some j => truthy j | None => false end.

(** [typeof v === "string" ? v : ""] *)
Definition string_or_empty (v : option json) : jstr :=
  match v with Some (JStr s) => s | _ => [] end.

(** ** Parsing *)

Definition json_ws (c : N) : bool := ((c =? 9) || (c =? 10) || (c =? 13) || (c =? 32))%N.
Definition skip_ws (s : jstr) : jstr := drop_while json_ws s.

Definition json_hex (c : N) : option N :=
  (if (48 <=? c) && (c <=? 57) then Some (c - 48)
   else if (97 <=? c) && (c <=? 102) then Some (c - 87)
   else if (65 <=? c) && (c <=? 70) then Some (c - 55)
   else None)%N.

(** The unit a one-letter escape denotes. *)
Definition json_escape (c : N) : option N :=
  (if c =? 34 then Some 34 else if c =? 92 then Some 92 else if c =? 47 then Some 47
   else if c =? 98 then Some 8 else if c =? 102 then Some 12 else if c =? 110 then Some 10
   else if c =? 114 then Some 13 else if c =? 116 then Some 9 else None)%N.

(** The rest of a string literal, after its opening quote. *)
Fixpoint json_string (s : jstr) : option (jstr * jstr) :=
  match s with
  | [] => None
  | c :: r =>
      if (c =? DQ)%N then Some ([], r)
      else if (c =? BACKSLASH)%N then
        match r with
        | [] => None
        | d :: r1 =>
            if (d =? 117)%N then
              match r1 with
              | a :: b :: c' :: d' :: r2 =>
                  a ← json_hex a; b ← json_hex b; c' ← json_hex c'; d' ← json_hex d';
                  '(t, rest) ← json_string r2;
                  Some ((a * 4096 + b * 256 + c' * 16 + d')%N :: t, rest)
              | _ => None
              end
            else
              e ← json_escape d;
              '(t, rest) ← json_string r1;
              Some (e :: t, rest)
        end
      else if (c <? 32)%N then None
      else '(t, rest) ← json_string r; Some (c :: t, rest)
  end.

Definition is_digit (c : N) : bool := ((48 <=? c) && (c <=? 57))%N.
Definition digits_value (ds : jstr) : Z := foldl (fun a d => a * 10 + Z.of_N d - 48)%Z 0%Z ds.

Definition json_number (s : jstr) : option (json * jstr) :=
  let '(neg, s1) := match s with 45%N :: r => (true, r) | _ => (false, s) end in
  let ip := take_while is_digit s1 in
  let s2 := drop_while is_digit s1 in
  let ok := match ip with [] => false | [_] => true | d :: _ => negb (d =? 48)%N end in
  if negb ok then None
  else
    '(fp, s3) ← match s2 with
                | 46%N :: r => match take_while is_digit r with
                               | [] => None
                               | f => Some (f, drop_while is_digit r)
                               end
                | _ => Some ([], s2)
                end;
    '(ex, s4) ← match s3 with
                | c :: r =>
                    if ((c =? 101) || (c =? 69))%N then
                      let '(eneg, r1) := match r with
                                         | 45%N :: r1 => (true, r1)
                                         | 43%N :: r1 => (false, r1)
                                         | _ => (false, r)
                                         end in
                      match take_while is_digit r1 with
                      | [] => None
                      | ds => Some ((if eneg : bool then - digits_value ds else digits_value ds)%Z,
                                    drop_while is_digit r1)
                      end
                    else Some (0%Z, s3)
                | [] => Some (0%Z, s3)
                end;
    let m := digits_value (ip ++ fp) in
    Some (JNum (if neg : bool then - m else m)%Z (ex - Z.of_nat (length fp))%Z, s4).

Definition json_word (w : jstr) (v : json) (s : jstr) : option (json * jstr) :=
  if is_prefix w s then Some (v, drop (length w) s) else None.

(** [fuel] bounds the nesting and the number of elements; every call consumes
    a unit, so the length of the text is enough. *)
Fixpoint json_value (fuel : nat) (s : jstr) : option (json * jstr) :=
  match fuel with
  | O => None
  | S f =>
      match skip_ws s with
      | [] => None
      | c :: r =>
          if (c =? 123)%N then
            match skip_ws r with
            | 125%N :: r1 => Some (JObj [], r1)
            | _ => '(kv, r1) ← json_members f r []; Some (JObj kv, r1)
            end
          else if (c =? 91)%N then
            match skip_ws r with
            | 93%N :: r1 => Some (JArr [], r1)
            | _ => '(l, r1) ← json_elements f r; Some (JArr l, r1)
            end
          else if (c =? DQ)%N then '(t, r1) ← json_string r; Some (JStr t, r1)
          else if (c =? 116)%N then json_word (u "true") (JBool true) (c :: r)
          else if (c =? 102)%N then json_word (u "false") (JBool false) (c :: r)
          else if (c =? 110)%N then json_word (u "null") JNull (c :: r)
          else json_number (c :: r)
      end
  end
with json_elements (fuel : nat) (s : jstr) : option (list json * jstr) :=
  match fuel with
  | O => None
  | S f =>
      '(v, r) ← json_value f s;
      match skip_ws r with
      | 44%N :: r1 => '(l, r2) ← json_elements f r1; Some (v :: l, r2)
      | 93%N :: r1 => Some ([v], r1)
      | _ => None
      end
  end
with json_members (fuel : nat) (s : jstr) (acc : list (jstr * json)) : option (list (jstr * json) * jstr) :=
  match fuel with
  | O => None
  | S f =>
      match skip_ws s with
      | 34%N :: r =>
          '(k, r1) ← json_string r;
          match skip_ws r1 with
          | 58%N :: r2 =>
              '(v, r3) ← json_value f r2;
              let acc' := assoc_set k v acc in
              match skip_ws r3 with
              | 44%N :: r4 => json_members f r4 acc'
              | 125%N :: r4 => Some (acc', r4)
              | _ => None
              end
          | _ => None
          end
      | _ => None
      end
  end.

(** [JSON.parse(s)]; [None] is the exception it throws. *)
Definition json_parse (s : jstr) : option json :=
  '(v, r) ← json_value (2 * length s + 2) s;
  match skip_ws r with [] => Some v | _ => None end.

(** ** [JSON.stringify] of a string *)

Definition hex_digit (n : N) : N := (if n <? 10 then 48 + n else 87 + n)%N.
Definition quote_unit (c : N) : jstr :=
  if (c =? 34)%N then [92; 34]%N else if (c =? 92)%N then [92; 92]%N
  else if (c =? 8)%N then [92; 98]%N else if (c =? 12)%N then [92; 102]%N
  else if (c =? 10)%N then [92; 110]%N else if (c =? 13)%N then [92; 114]%N
  else if (c =? 9)%N then [92; 116]%N
  else if (c <? 32)%N then [92; 117; 48; 48; hex_digit (c / 16); hex_digit (c mod 16)]%N
  else [c].
(** A lone surrogate would be escaped too; the texts quoted here are whole. *)
Definition quote_string (s : jstr) : jstr := DQ :: flat_map quote_unit s ++ [DQ].

(** ** Laws *)

Lemma assoc_set_same {A} k (v : A) kv : assoc_get k (assoc_set k v kv) = Some v.
Proof.
  induction kv as [|[k' v'] r IH]; cbn [assoc_set assoc_get].
  - unfold streq. by rewrite bool_decide_true.
  - destruct (streq k k') eqn:E; cbn [assoc_get]; rewrite E; [done|exact IH].
Qed.

Lemma assoc_set_other {A} k k' (v : A) kv : k <> k' -> assoc_get k (assoc_set k' v kv) = assoc_get k kv.
Proof.
  intros Hn. induction kv as [|[k2 v2] r IH]; cbn [assoc_set assoc_get].
  - unfold streq. by rewrite bool_decide_false.
  - destruct (streq k' k2) eqn:E; cbn [assoc_get].
    + unfold streq in *. bool_norm. subst. by rewrite !bool_decide_false.
    + destruct (streq k k2); [done|exact IH].
Qed.

Lemma assoc_get_Forall {A} (P : jstr -> A -> Prop) k v kv :
  Forall (fun e => P e.1 e.2) kv -> assoc_get k kv = Some v -> P k v.
Proof.
  induction 1 as [|[k' v'] r H _ IH]; cbn [assoc_get]; [done|].
  destruct (streq_spec k k') as [->|]; [by intros [= <-]|done].
Qed.

Lemma assoc_set_Forall {A} (P : jstr -> A -> Prop) k v kv :
  P k v -> Forall (fun e => P e.1 e.2) kv -> Forall (fun e => P e.1 e.2) (assoc_set k v kv).
Proof.
  intros Hv. induction 1 as [|[k' v'] r H Hr IH]; cbn [assoc_set]; [by repeat constructor|].
  destruct (streq_spec k k') as [->|]; by constructor.
Qed.

Lemma length_assoc_set {A} k (v : A) kv : length (assoc_set k v kv) <= S (length kv).
Proof. induction kv as [|[k' v'] r IH]; simpl; [lia|]. destruct (streq k k'); simpl; lia. Qed.

Lemma assoc_set_keys {A} k (v : A) kv :
  map fst (assoc_set k v kv) = if existsb (streq k) (map fst kv) then map fst kv else map fst kv ++ [k].
Proof.
  induction kv as [|[k' v'] r IH]; [done|]. cbn [assoc_set map fst existsb].
  destruct (streq k k'); cbn [orb]; [done|]. cbn [map fst]. rewrite IH. by destruct (existsb _ _).
Qed.

Lemma assoc_get_keys {A} k (kv : list (jstr * A)) : is_Some (assoc_get k kv) <-> k ∈ map fst kv.
Proof.
  induction kv as [|[k' v'] r IH]; cbn [assoc_get map fst].
  - split; [by intros [? ?]|by intros ?%elem_of_nil].
  - rewrite elem_of_cons. destruct (streq_spec k k') as [->|Hn].
    + split; [by left|by eexists].
    + rewrite IH. split; [by right|by intros [?|?]].
Qed.

Lemma assoc_set_nodup {A} k (v : A) kv : NoDup (map fst kv) -> NoDup (map fst (assoc_set k v kv)).
Proof.
  intros H. rewrite assoc_set_keys. destruct (existsb _ _) eqn:E; [done|].
  apply NoDup_app. split; [done|]. split; [|apply NoDup_singleton].
  intros x Hx ->%list_elem_of_singleton. apply existsb_false_iff in E. rewrite Forall_forall in E.
  specialize (E _ Hx). by destruct (streq_spec k k).
Qed.

Lemma assoc_get_elem {A} k (v : A) kv : NoDup (map fst kv) -> assoc_get k kv = Some v <-> (k, v) ∈ kv.
Proof.
  induction kv as [|[k' v'] kv IH]; cbn [assoc_get map fst].
  { intros _. split; [done|]. intros H. by apply elem_of_nil in H. }
  intros [Hn Hd]%NoDup_cons. rewrite elem_of_cons. destruct (streq_spec k k') as [->|E].
  - split; [intros [= ->]; by left|]. intros [[= ->]|H]; [done|].
    exfalso. apply Hn. apply list_elem_of_In. apply (in_map fst _ (k', v)). by apply list_elem_of_In.
  - rewrite IH by done. split; [by right|]. by intros [[= ? ?]|H].
Qed.

Lemma json_string_quoted s r : json_string (flat_map quote_unit s ++ DQ :: r) = Some (s, r).
Proof.
  induction s as [|c s IH]; [done|]. cbn [flat_map]. rewrite <- app_assoc.
  set (t := flat_map quote_unit s ++ DQ :: r) in *.
  unfold quote_unit.
  destruct (c =? 34)%N eqn:E1; [apply N.eqb_eq in E1 as ->; cbn; by rewrite IH|].
  destruct (c =? 92)%N eqn:E2; [apply N.eqb_eq in E2 as ->; cbn; by rewrite IH|].
  destruct (c =? 8)%N eqn:E3; [apply N.eqb_eq in E3 as ->; cbn; by rewrite IH|].
  destruct (c =? 12)%N eqn:E4; [apply N.eqb_eq in E4 as ->; cbn; by rewrite IH|].
  destruct (c =? 10)%N eqn:E5; [apply N.eqb_eq in E5 as ->; cbn; by rewrite IH|].
  destruct (c =? 13)%N eqn:E6; [apply N.eqb_eq in E6 as ->; cbn; by rewrite IH|].
  destruct (c =? 9)%N eqn:E7; [apply N.eqb_eq in E7 as ->; cbn; by rewrite IH|].
  destruct (c <? 32)%N eqn:E8.
  - assert (H : In c (map N.of_nat (seq 0 32))).
    { apply in_map_iff. exists (N.to_nat c). apply N.ltb_lt in E8. split; [lia|]. apply in_seq. lia. }
    cbn in H. repeat (destruct H as [<- | H]; [cbn; try done; by rewrite IH|]). done.
  - cbn [app json_string]. unfold DQ, BACKSLASH. by rewrite E1, E2, E8, IH.
Qed.

(** A quoted string parses back to itself. *)
Lemma json_parse_quoted s : json_parse (quote_string s) = Some (JStr s).
Proof.
  unfold json_parse, quote_string. cbn [json_value Nat.add Nat.mul length].
  replace (2 * S (length (flat_map quote_unit s ++ [DQ])) + 2) with
    (S (S (2 * length (flat_map quote_unit s ++ [DQ]) + 2))) by lia.
  cbn [json_value]. change (skip_ws (DQ :: ?x)) with (DQ :: x).
  change (DQ =? 123)%N with false. change (DQ =? 91)%N with false. change (DQ =? DQ)%N with true. cbn iota.
  rewrite json_string_quoted. done.
Qed.

(** Parsing what is built from quoted keys. *)
Lemma quote_string_app s r : quote_string s ++ r = DQ :: flat_map quote_unit s ++ DQ :: r.
Proof. unfold quote_string. cbn [app]. by rewrite <- app_assoc. Qed.

Lemma json_value_string f s r : json_value (S f) (quote_string s ++ r) = Some (JStr s, r).
Proof.
  rewrite quote_string_app. cbn [json_value]. change (skip_ws (DQ :: ?x)) with (DQ :: x). cbv iota.
  change (DQ =? 123)%N with false. change (DQ =? 91)%N with false. change (DQ =? DQ)%N with true. cbv iota.
  by rewrite json_string_quoted.
Qed.

Lemma json_value_object f k r :
  json_value (S f) (123%N :: quote_string k ++ r) = '(kv, r1) ← json_members f (quote_string k ++ r) []; Some (JObj kv, r1).
Proof. rewrite quote_string_app. reflexivity. Qed.

Lemma json_value_array f r : 
  json_value (S f) (91%N :: 123%N :: r) = '(l, r1) ← json_elements f (123%N :: r); Some (JArr l, r1).
Proof. reflexivity. Qed.

Lemma json_members_last f k v r acc r1 :
  json_value f r = Some (v, 125%N :: r1) ->
  json_members (S f) (quote_string k ++ 58%N :: r) acc = Some (assoc_set k v acc, r1).
Proof.
  intros H. rewrite quote_string_app. cbn [json_members]. change (skip_ws (DQ :: ?x)) with (DQ :: x).
  unfold DQ at 1. cbv iota. fold DQ. rewrite json_string_quoted. cbn [mbind option_bind].
  change (skip_ws (58%N :: ?x)) with (58%N :: x). cbv iota. rewrite H. reflexivity.
Qed.

Lemma json_elements_last f v r r1 :
  json_value f r = Some (v, 93%N :: r1) -> json_elements (S f) r = Some ([v], r1).
Proof. intros H. cbn [json_elements]. rewrite H. reflexivity. Qed.

(** ** The text of a natural number is its digits *)

Lemma string_of_nat_digits n : Forall (fun c => is_digit c = true) (string_of_nat n).
Proof. unfold string_of_nat. induction (Nat.to_uint n); cbn [uint_units]; by constructor. Qed.
Lemma string_of_nat_long n : 1 <= length (string_of_nat n).
Proof.
  pose proof (Unsigned.of_to n) as H. unfold string_of_nat. destruct (Nat.to_uint n) eqn:E; cbn [uint_units length]; try lia.
  exfalso. cbn in H. subst n. discriminate E.
Qed.
Lemma string_of_nat_value n : digits_value (string_of_nat n) = Z.of_nat n.
Proof.
  rewrite <- (Unsigned.of_to n) at 2. unfold string_of_nat, digits_value, Nat.of_uint. change 0%Z with (Z.of_nat 0).
  generalize (Nat.to_uint n), 0. intros d. induction d; intros acc; cbn [uint_units foldl Nat.of_uint_acc]; [done|..];
    rewrite ?Nat.tail_mul_spec, <- IHd; apply (f_equal (fun a => foldl _ a _)); lia.
Qed.
Lemma string_of_nat_inj a b : string_of_nat a = string_of_nat b -> a = b.
Proof. intros H. apply (f_equal digits_value) in H. rewrite !string_of_nat_value in H. lia. Qed.
