(* ===== verification/JsStringify.v ===== *)
(** * [JSON.stringify]

    The text of a JSON value, and the round trip with [JSON.parse].  The text
    of a number is an argument: it is the engine's [Number::toString]. *)

From S2P Require Import JsJson.

(** ** The text *)

Definition high_surrogate (c : N) : bool := ((55296 <=? c) && (c <=? 56319))%N.
Definition low_surrogate (c : N) : bool := ((56320 <=? c) && (c <=? 57343))%N.
Definition escape_unit (c : N) : jstr :=
  [92; 117; hex_digit (c / 4096); hex_digit (c / 256 mod 16); hex_digit (c / 16 mod 16); hex_digit (c mod 16)]%N.
(** A lone surrogate is escaped; [high] is one still waiting for its pair. *)
Fixpoint quote_units (high : option N) (s : jstr) : jstr :=
  let flush := match high with Some h => escape_unit h | None => [] end in
  match s with
  | [] => flush
  | c :: r =>
      if high_surrogate c then flush ++ quote_units (Some c) r
      else if low_surrogate c
           then match high with
                | Some h => h :: c :: quote_units None r
                | None => escape_unit c ++ quote_units None r
                end
           else flush ++ quote_unit c ++ quote_units None r
  end.
Definition quote_text (s : jstr) : jstr := DQ :: quote_units None s ++ [DQ].

(** The keys that are array indices come first, in ascending order. *)
Definition array_index (k : jstr) : option N :=
  match k with
  | [] => None
  | c :: r =>
      if forallb is_digit k && negb ((c =? 48)%N && negb (bool_decide (r = [])))
      then let n := Z.to_N (digits_value k) in if (n <? 4294967295)%N then Some n else None
      else None
  end.
Fixpoint insert_index {A} (n : N) (e : jstr * A) (l : list (N * (jstr * A))) : list (N * (jstr * A)) :=
  match l with
  | [] => [(n, e)]
  | (n', e') :: r => if (n <? n')%N then (n, e) :: l else (n', e') :: insert_index n e r
  end.
Definition entries {A} (kv : list (jstr * A)) : list (jstr * A) :=
  map snd (foldl (fun l e => match array_index e.1 with Some n => insert_index n e l | None => l end) [] kv)
  ++ filter (fun e => array_index e.1 = None) kv.

Section stringify.
Context (num_text : Z -> Z -> jstr).

Fixpoint stringify (v : json) : jstr :=
  match v with
  | JNull => u "null"
  | JBool b => u (if b then "true" else "false")
  | JNum m e => num_text m e
  | JStr s => quote_text s
  | JArr l => 91%N :: join (u ",") (map stringify l) ++ [93%N]
  | JObj kv => 123%N :: join (u ",") (map (fun e => quote_text e.1 ++ 58%N :: e.2)
                                       (entries (map (fun e => (e.1, stringify e.2)) kv))) ++ [125%N]
  end.
(** With an indentation of two spaces; [pad] is the current one. *)
Fixpoint pretty (pad : jstr) (v : json) : jstr :=
  let deeper := pad ++ u "  " in
  let block (o c : N) (items : list jstr) :=
    match items with
    | [] => [o; c]
    | _ => o :: LF :: deeper ++ join (44%N :: LF :: deeper) items ++ LF :: pad ++ [c]
    end in
  match v with
  | JArr l => block 91%N 93%N (map (pretty deeper) l)
  | JObj kv => block 123%N 125%N (map (fun e => quote_text e.1 ++ u ": " ++ e.2)
                                   (entries (map (fun e => (e.1, pretty deeper e.2)) kv)))
  | _ => stringify v
  end.
End stringify.

(** ** Strings parse back *)

Definition unit16 (c : N) : Prop := (c < 65536)%N.

Lemma hex_digit_back n : (n < 16)%N -> json_hex (hex_digit n) = Some n.
Proof.
  intros H. assert (HI : In n (map N.of_nat (seq 0 16))).
  { apply in_map_iff. exists (N.to_nat n). split; [lia|]. apply in_seq. lia. }
  cbn in HI. repeat (destruct HI as [<-|HI]; [reflexivity|]). done.
Qed.

Lemma escape_unit_back c t : unit16 c ->
  json_string (escape_unit c ++ t) = '(x, r) ← json_string t; Some (c :: x, r).
Proof.
  intros H. unfold escape_unit, unit16 in *. cbn [app json_string].
  change (92 =? DQ)%N with false. change (92 =? BACKSLASH)%N with true. change (117 =? 117)%N with true. cbv iota.
  rewrite !hex_digit_back by first [apply N.mod_lt; lia | apply N.Div0.div_lt_upper_bound; lia].
  cbn [mbind option_bind]. destruct (json_string t) as [[x r]|]; [|done]. cbn [mbind option_bind]. do 3 f_equal.
  pose proof (N.div_mod c 16 ltac:(lia)). pose proof (N.div_mod (c / 16) 16 ltac:(lia)).
  pose proof (N.div_mod (c / 256) 16 ltac:(lia)).
  rewrite N.Div0.div_div in * by lia. change (16 * 16)%N with 256%N in *. change (256 * 16)%N with 4096%N in *. lia.
Qed.

Lemma quote_unit_back c t : json_string (quote_unit c ++ t) = '(x, r) ← json_string t; Some (c :: x, r).
Proof.
  unfold quote_unit.
  repeat match goal with
  | |- context [if (c =? ?n)%N then _ else _] =>
      destruct (c =? n)%N eqn:?; [bool_norm; subst c; cbn; by destruct (json_string t) as [[? ?]|]|]
  end.
  destruct (c <? 32)%N eqn:E8.
  - assert (H : In c (map N.of_nat (seq 0 32))).
    { apply in_map_iff. exists (N.to_nat c). apply N.ltb_lt in E8. split; [lia|]. apply in_seq. lia. }
    cbn in H. repeat (destruct H as [<- | H]; [cbn; by destruct (json_string t) as [[? ?]|]|]). done.
  - cbn [app json_string]. unfold DQ, BACKSLASH. by rewrite Heqb, Heqb0, E8.
Qed.

Lemma surrogate_unit c t : (55296 <= c)%N -> json_string (c :: t) = '(x, r) ← json_string t; Some (c :: x, r).
Proof.
  intros H. cbn [json_string]. unfold DQ, BACKSLASH.
  destruct (N.eqb_spec c 34); [lia|]. destruct (N.eqb_spec c 92); [lia|]. destruct (N.ltb_spec c 32); [lia|done].
Qed.

Lemma quote_units_back high s r : Forall unit16 s -> match high with Some h => high_surrogate h = true | None => True end ->
  json_string (quote_units high s ++ DQ :: r) = Some (match high with Some h => h :: s | None => s end, r).
Proof.
  intros Hs. revert high. induction Hs as [|c s Hc Hs IH]; intros high Hh; cbn [quote_units].
  - destruct high as [h|]; [|done]. unfold high_surrogate in Hh. bool_norm.
    rewrite escape_unit_back by (unfold unit16; lia). done.
  - assert (Hhigh : forall X, json_string ((match high with Some h => escape_unit h | None => [] end) ++ X)
                     = '(x, r) ← json_string X; Some (match high with Some h => h :: x | None => x end, r)).
    { intros X. destruct high as [h|]; [|cbn [app]; by destruct (json_string X) as [[? ?]|]].
      unfold high_surrogate in Hh. bool_norm. by rewrite escape_unit_back by (unfold unit16; lia). }
    destruct (high_surrogate c) eqn:Eh; [rewrite <- app_assoc, Hhigh, (IH (Some c)) by done; by destruct high|].
    destruct (low_surrogate c) eqn:El.
    + destruct high as [h|].
      * unfold high_surrogate, low_surrogate in *. bool_norm. cbn [app].
        rewrite surrogate_unit, surrogate_unit, (IH None) by (done || lia). done.
      * rewrite <- app_assoc, escape_unit_back, (IH None) by done. done.
    + rewrite <- !app_assoc, Hhigh, quote_unit_back, (IH None) by done. by destruct high.
Qed.

Lemma quote_text_back s r : Forall unit16 s -> json_string (quote_units None s ++ DQ :: r) = Some (s, r).
Proof. intros H. by rewrite quote_units_back. Qed.

(** ** Values parse back *)

(** What may follow a value in a text [stringify] makes. *)
Definition stops (rest : jstr) : Prop :=
  match rest with [] => True | c :: _ => c = 44%N \/ c = 93%N \/ c = 125%N end.

Section roundtrip.
Context (num_text : Z -> Z -> jstr).

(** The text of the number reads back as the same decimal. *)
Definition plain_num (m e : Z) : Prop :=
  forall rest, stops rest -> json_number (num_text m e ++ rest) = Some (JNum m e, rest).

(** Units of 16 bits, distinct keys none of which is an array index, and
    numbers that read back. *)
Fixpoint plain (v : json) : Prop :=
  match v with
  | JNull | JBool _ => True
  | JNum m e => plain_num m e
  | JStr s => Forall unit16 s
  | JArr l => foldr (fun x P => plain x /\ P) True l
  | JObj kv => NoDup (map fst kv) /\
      foldr (fun e P => (array_index e.1 = None /\ Forall unit16 e.1 /\ plain e.2) /\ P) True kv
  end.

Lemma foldr_Forall {A} (P : A -> Prop) l : foldr (fun x Q => P x /\ Q) True l <-> Forall P l.
Proof. induction l; cbn; [split; [constructor|done]|]. rewrite Forall_cons, IHl. done. Qed.

(** Induction through arrays and objects. *)
Lemma json_rect_nested (P : json -> Prop) :
  P JNull -> (forall b, P (JBool b)) -> (forall m e, P (JNum m e)) -> (forall s, P (JStr s)) ->
  (forall l, Forall P l -> P (JArr l)) -> (forall kv, Forall (fun e => P e.2) kv -> P (JObj kv)) ->
  forall v, P v.
Proof.
  intros H1 H2 H3 H4 H5 H6. fix IH 1. intros [| | | |l|kv]; [done..| |].
  - apply H5. induction l as [|x l IHl]; constructor; [apply IH|exact IHl].
  - apply H6. induction kv as [|[k x] kv IHkv]; constructor; [apply IH|exact IHkv].
Qed.

Lemma json_number_head s v r : json_number s = Some (v, r) ->
  exists c t, s = c :: t /\ (is_digit c = true \/ c = 45%N).
Proof.
  unfold json_number. destruct s as [|c t]; [done|]. intros H. exists c, t. split; [done|].
  destruct (decide (c = 45%N)) as [->|Hc]; [by right|left].
  assert (E : (match c :: t with 45%N :: r => (true, r) | _ => (false, c :: t) end) = (false, c :: t)).
  { destruct c as [|p]; [done|]. by do 6 (destruct p as [p|p|]; try done). }
  rewrite E in H. cbn [take_while] in H. by destruct (is_digit c).
Qed.

(** No text of a value starts with white space or a closing bracket. *)
Definition starts_value (s : jstr) : Prop :=
  exists c t, s = c :: t /\ json_ws c = false /\ c <> 93%N /\ c <> 125%N.

Lemma stringify_starts v : plain v -> starts_value (stringify num_text v).
Proof.
  destruct v as [|[]|m e|s|l|kv]; cbn [stringify plain]; intros Hp; try (by eexists _, _; repeat split).
  specialize (Hp [] I). rewrite app_nil_r in Hp. destruct (json_number_head _ _ _ Hp) as (c & t & -> & Hd).
  exists c, t. split; [done|]. unfold is_digit, json_ws in *. destruct Hd as [Hd| ->]; [|done]. bool_norm.
  destruct (N.eqb_spec c 9), (N.eqb_spec c 10), (N.eqb_spec c 13), (N.eqb_spec c 32); subst; try done; cbn; repeat split; lia.
Qed.

Lemma skip_value s r : starts_value s -> skip_ws (s ++ r) = s ++ r.
Proof. intros (c & t & -> & H & _). unfold skip_ws. cbn [app drop_while]. by rewrite H. Qed.

(** The fuel a value takes. *)
Fixpoint need (v : json) : nat :=
  match v with
  | JArr l => S (foldr (fun x n => S (Nat.max (need x) n)) 0 l)
  | JObj kv => S (foldr (fun e n => S (Nat.max (need e.2) n)) 0 kv)
  | _ => 1
  end.

Definition reads (v : json) : Prop := plain v -> forall f rest, need v <= f -> stops rest ->
  json_value f (stringify num_text v ++ rest) = Some (v, rest).

Lemma elements_back l rest f : l <> [] -> Forall reads l -> Forall plain l ->
  foldr (fun x n => S (Nat.max (need x) n)) 0 l <= f ->
  json_elements f (join (u ",") (map (stringify num_text) l) ++ 93%N :: rest) = Some (l, rest).
Proof.
  intros Hne Hr. revert f Hne. induction Hr as [|v l Hv Hl IH]; intros f Hne Hp Hf; [done|].
  apply Forall_cons in Hp as [Hpv Hpl]. cbn [foldr] in Hf. destruct f as [|f]; [lia|]. cbn [json_elements].
  destruct l as [|w l].
  - cbn [map join]. rewrite Hv by (done || lia || (right; by left)). reflexivity.
  - change (join (u ",") (map (stringify num_text) (v :: w :: l)))
      with (stringify num_text v ++ u "," ++ join (u ",") (map (stringify num_text) (w :: l))).
    rewrite <- !app_assoc. rewrite Hv by (done || lia || by left). cbn [mbind option_bind].
    change (skip_ws (u "," ++ ?x)) with (44%N :: x). cbv iota. rewrite IH by (done || lia). done.
Qed.

Definition member (e : jstr * json) : jstr := quote_text e.1 ++ 58%N :: stringify num_text e.2.

Lemma quote_text_app s r : quote_text s ++ r = DQ :: quote_units None s ++ DQ :: r.
Proof. unfold quote_text. cbn [app]. by rewrite <- app_assoc. Qed.

Lemma assoc_set_fresh {A} k (v : A) kv : k ∉ map fst kv -> assoc_set k v kv = kv ++ [(k, v)].
Proof.
  induction kv as [|[k' v'] r IH]; [done|]. cbn [map fst assoc_set app]. intros [Hn Hr]%not_elem_of_cons.
  destruct (streq_spec k k') as [->|]; [done|]. by rewrite IH.
Qed.

Lemma members_back kv rest f done_ : kv <> [] -> Forall (fun e => reads e.2) kv ->
  Forall (fun e => array_index e.1 = None /\ Forall unit16 e.1 /\ plain e.2) kv ->
  NoDup (map fst (done_ ++ kv)) ->
  foldr (fun e n => S (Nat.max (need e.2) n)) 0 kv <= f ->
  json_members f (join (u ",") (map member kv) ++ 125%N :: rest) done_ = Some (done_ ++ kv, rest).
Proof.
  intros Hne Hr. revert f done_ Hne. induction Hr as [|[k v] kv Hv Hl IH]; intros f d Hne Hp Hd Hf; [done|].
  apply Forall_cons in Hp as [(Hk1 & Hk & Hpv) Hpl]. cbn [foldr fst snd] in *. destruct f as [|f]; [lia|].
  assert (Hfresh : k ∉ map fst d).
  { rewrite map_app in Hd. apply NoDup_app in Hd as (_ & Hd & _). intros H. apply (Hd k H). left. }
  assert (STEP : forall tail, stops tail ->
     json_members (S f) (member (k, v) ++ tail) d =
     match tail with
     | 44%N :: r4 => json_members f r4 (d ++ [(k, v)])
     | 125%N :: r4 => Some (d ++ [(k, v)], r4)
     | _ => None
     end).
  { intros tail Ht. unfold member. cbn [fst snd]. rewrite <- app_assoc, quote_text_app. cbn [json_members].
    change (skip_ws (DQ :: ?x)) with (DQ :: x). unfold DQ at 1. cbv iota. fold DQ. rewrite quote_text_back by done.
    cbn [mbind option_bind app]. change (skip_ws (58%N :: ?x)) with (58%N :: x). cbv iota.
    rewrite Hv by (done || lia). cbn [mbind option_bind]. rewrite assoc_set_fresh by done.
    destruct tail as [|c t]; [done|]. by destruct Ht as [->|[->| ->]]. }
  destruct kv as [|e kv].
  - cbn [map join]. rewrite STEP by (right; by right). done.
  - change (join (u ",") (map member ((k, v) :: e :: kv)))
      with (member (k, v) ++ u "," ++ join (u ",") (map member (e :: kv))).
    rewrite <- !app_assoc. rewrite STEP by (by left). change (u "," ++ ?x) with (44%N :: x). cbv iota.
    rewrite IH; [by rewrite <- app_assoc|done|done|by rewrite <- app_assoc|cbn [foldr fst snd] in *; lia].
Qed.

Lemma filter_all {A} (P : A -> Prop) `{forall x, Decision (P x)} l : Forall P l -> filter P l = l.
Proof. induction 1 as [|x l Hx _ IH]; [done|]. by rewrite filter_cons_True, IH. Qed.
Lemma entries_plain {A} (kv : list (jstr * A)) : Forall (fun e => array_index e.1 = None) kv -> entries kv = kv.
Proof.
  intros H. unfold entries. rewrite filter_all by done.
  assert (E : forall l, foldl (fun l e => match array_index e.1 with Some n => insert_index n e l | None => l end) l kv = l).
  { induction H as [|e kv He _ IH]; intros l; cbn [foldl]; [done|]. by rewrite He. }
  by rewrite E.
Qed.

Lemma object_text kv : Forall (fun e => array_index e.1 = None) kv ->
  stringify num_text (JObj kv) = 123%N :: join (u ",") (map member kv) ++ [125%N].
Proof.
  intros H. cbn [stringify]. rewrite entries_plain.
  - f_equal. f_equal. f_equal. rewrite map_map. by apply map_ext.
  - apply Forall_fmap. eapply Forall_impl; [exact H|]. done.
Qed.

(** A value that does not start a container opens no empty one. *)
Lemma join_starts {A} (g : A -> jstr) x l r : starts_value (g x) -> starts_value (join (u ",") (map g (x :: l)) ++ r).
Proof.
  intros (c & t & E & H). destruct l as [|y l].
  - cbn [map join]. rewrite E. by eexists _, _.
  - change (join (u ",") (map g (x :: y :: l))) with (g x ++ u "," ++ join (u ",") (map g (y :: l))). rewrite E. by eexists _, _.
Qed.

Lemma value_back v : reads v.
Proof.
  induction v using json_rect_nested; intros Hp f rest Hf Hst; cbn [need] in Hf; (destruct f as [|f]; [lia|]).
  - reflexivity.
  - by destruct b.
  - cbn [plain stringify] in *. destruct (json_number_head _ _ _ (Hp rest Hst)) as (c & t' & E & Hd).
    cbn [json_value]. rewrite skip_value by (by apply (stringify_starts (JNum m e))).
    rewrite E. rewrite <- E, (Hp rest Hst).
    assert (Hc : (c =? 123)%N = false /\ (c =? 91)%N = false /\ (c =? DQ)%N = false /\ (c =? 116)%N = false
                 /\ (c =? 102)%N = false /\ (c =? 110)%N = false).
    { unfold is_digit, DQ in *. destruct Hd as [Hd| ->]; [|done]. bool_norm. repeat split; apply N.eqb_neq; lia. }
    destruct Hc as (-> & -> & -> & -> & -> & ->). done.
  - cbn [plain stringify] in *. rewrite quote_text_app. cbn [json_value].
    change (skip_ws (DQ :: ?x)) with (DQ :: x). cbv iota.
    change (DQ =? 123)%N with false. change (DQ =? 91)%N with false. change (DQ =? DQ)%N with true. cbv iota.
    by rewrite quote_text_back.
  - cbn [plain] in Hp. apply foldr_Forall in Hp. cbn [stringify]. rewrite <- app_comm_cons, <- app_assoc. cbn [json_value].
    change (skip_ws (91%N :: ?x)) with (91%N :: x). cbv iota. change (91 =? 123)%N with false. change (91 =? 91)%N with true. cbv iota.
    destruct l as [|x l]; [done|]. pose proof Hp as [Hx _]%Forall_cons.
    destruct (join_starts (stringify num_text) x l (93%N :: rest) (stringify_starts x Hx)) as (c & t & E & Hw & H93 & _).
    cbn [app]. pose proof (elements_back (x :: l) rest f ltac:(done) H Hp ltac:(lia)) as R. rewrite E in R |- *.
    unfold skip_ws. cbn [drop_while]. rewrite Hw, R. destruct c as [|p]; [done|]. by do 7 (destruct p as [p|p|]; try done).
  - cbn [plain] in Hp. destruct Hp as [Hnd Hp]. apply foldr_Forall in Hp.
    rewrite object_text by (eapply Forall_impl; [exact Hp|]; naive_solver).
    rewrite <- app_comm_cons, <- app_assoc. cbn [json_value].
    change (skip_ws (123%N :: ?x)) with (123%N :: x). cbv iota. change (123 =? 123)%N with true. cbv iota.
    destruct kv as [|e kv]; [done|].
    assert (Hs : starts_value (member e)) by (unfold member; rewrite quote_text_app; by eexists _, _).
    destruct (join_starts member e kv (125%N :: rest) Hs) as (c & t & E & Hw & _ & H125).
    cbn [app]. pose proof (members_back (e :: kv) rest f [] ltac:(done) H Hp Hnd ltac:(lia)) as R. rewrite E in R |- *.
    unfold skip_ws. cbn [drop_while]. rewrite Hw, R. destruct c as [|p]; [done|]. by do 7 (destruct p as [p|p|]; try done).
Qed.

Lemma length_join_ge {A} (g : A -> jstr) (n : A -> nat) l :
  Forall (fun x => n x <= length (g x)) l ->
  foldr (fun x k => S (Nat.max (n x) k)) 0 l <= S (length (join (u ",") (map g l))).
Proof.
  induction 1 as [|x l Hx Hl IH]; cbn [foldr]; [lia|]. destruct l as [|y l].
  - cbn [foldr map join] in *. lia.
  - change (join (u ",") (map g (x :: y :: l))) with (g x ++ u "," ++ join (u ",") (map g (y :: l))).
    rewrite !length_app. change (length (u ",")) with 1. lia.
Qed.

Lemma need_length v : plain v -> need v <= length (stringify num_text v).
Proof.
  induction v using json_rect_nested; intros Hp; cbn [need].
  - by apply Nat.leb_le.
  - by destruct b; apply Nat.leb_le.
  - destruct (stringify_starts (JNum m e) Hp) as (c & t & -> & _). cbn [length]. lia.
  - unfold stringify, quote_text. cbn [length]. lia.
  - cbn [plain] in Hp. apply foldr_Forall in Hp. cbn [stringify length]. rewrite length_app. cbn [length].
    pose proof (length_join_ge (stringify num_text) need l) as L. apply le_n_S. rewrite Nat.add_1_r. apply L.
    apply Forall_forall. intros x Hx. rewrite Forall_forall in H, Hp. auto.
  - cbn [plain] in Hp. destruct Hp as [_ Hp]. apply foldr_Forall in Hp.
    rewrite object_text by (eapply Forall_impl; [exact Hp|]; naive_solver).
    cbn [length]. rewrite length_app. cbn [length].
    pose proof (length_join_ge member (fun e => need e.2) kv) as L. apply le_n_S. rewrite Nat.add_1_r. apply L.
    apply Forall_forall. intros x Hx. rewrite Forall_forall in H, Hp.
    unfold member. rewrite length_app. cbn [length]. specialize (H x Hx). specialize (Hp x Hx). naive_solver lia.
Qed.

(** [JSON.parse] reads back what [JSON.stringify] wrote. *)
Lemma parse_stringify v : plain v -> json_parse (stringify num_text v) = Some v.
Proof.
  intros H. unfold json_parse. pose proof (need_length v H) as L.
  rewrite <- (app_nil_r (stringify num_text v)) at 2. rewrite value_back by (done || lia). done.
Qed.
End roundtrip.
