(* ===== verification/I18nDict.v ===== *)
(** * The English dictionary (lib/i18n.tsx, the constant EN)

    One entry per entry of the source, in its order; the key is the French
    text.  A double quote inside a text is written [DQ] and a line end [LF].
    The constant is cut in pieces of at most 150 lines of the source. *)

From S2P Require Import JsString.

#[local] Notation "k ~> v" := (u k, u v) (at level 60).

Definition EN_1 : list (jstr * jstr) := [
  "Décisions" ~> "Decisions";
  "Ce JSON ne se lit pas : rien à formater." ~> "This JSON does not parse: nothing to format.";
  "Confiance : {p}" ~> "Confidence: {p}";
  "Ctrl + ↵" ~> "Ctrl + ↵";
  "Exemple" ~> "Example";
  "Formater" ~> "Format";
  "Go libres" ~> "GB free";
  "Lance une requête pour voir la sortie" ~> "Run a request to see the output";
  "Lancer la requête" ~> "Run request";
  "Le texte ou le JSON à évaluer." ~> "The text or JSON to evaluate.";
  "Les décisions, leurs probabilités et leur confiance s'afficheront ici, une ligne par question."
    ~> "The decisions, their probabilities and their confidence appear here, one line per question.";
  "Réponses" ~> "Responses";
  "Le service de décision n'est pas démarré" ~> "The decision service is not running";
  "Un administrateur le démarre dans Admin ▸ Modèles, carte Décisions."
    ~> "An administrator starts it in Admin ▸ Models, the Decisions card.";
  "Images jointes" ~> "Attached images";
  "Ajouter une image" ~> "Add an image";
  "{n} image(s) lue(s) par le modèle" ~> "{n} image(s) read by the model";
  "Ces images sont lues : nomme-les dans les questions (« image 1 », « image 2 »…)."
    ~> "These images are read: name them in the questions (« image 1 », « image 2 »…).";
  "Une réponse oui / non, avec sa probabilité." ~> "A yes / no answer, with its probability.";
  "Une option parmi une liste fermée." ~> "One option out of a closed list.";
  "Une position sur une échelle ordonnée." ~> "A position on an ordered scale.";
  "Le client demande-t-il un remboursement ?" ~> "Is the customer asking for a refund?";
  "Quelle équipe doit traiter ce message ?" ~> "Which team should handle this message?";
  "À quel point est-ce urgent ?" ~> "How urgent is this?";
  "Apprendre au modèle à décider" ~> "Teaching the model to decide";
  "CE QUE LE MODÈLE SAIT FAIRE" ~> "WHAT THE MODEL CAN DO";
  "Ce modèle-ci lit du texte seulement : un exemple avec image est envoyé comme du texte."
    ~> "This model reads text only: an example with an image is sent as text.";
  "Charger l'exemple" ~> "Load the example";
  "Choisis un point de départ : l'état et les questions sont chargés dans les deux éditeurs, à toi de les adapter."
    ~> "Pick a starting point: the state and the questions load into the two editors, then adapt them.";
  "Des exemples" ~> "Examples";
  "EXEMPLES" ~> "EXAMPLES";
  "Le modèle ne rédige pas de réponse : il rend une probabilité par option, et sa confiance dans ce choix."
    ~> "The model writes no answer: it returns a probability per option, and its confidence in that choice.";
  "Les images, pas encore" ~> "Images, not yet";
  "MODÈLE DE DÉCISION · CLEF Q4_K_M" ~> "DECISION MODEL · CLEF Q4_K_M";
  "Oui/non, un choix parmi une liste, ou une note sur une échelle."
    ~> "Yes/no, one option out of a list, or a score on a scale.";
  "Trois formes de question" ~> "Three shapes of question";
  "Une décision, pas une rédaction" ~> "A decision, not prose";
  "Voir des exemples de requêtes" ~> "View example requests";
  "Réclamation client" ~> "Customer complaint";
  "Facturé deux fois : remboursement, équipe, urgence." ~> "Charged twice: refund, team, urgency.";
  "Ticket de support" ~> "Support ticket";
  "Trier un incident : gravité, catégorie, blocage." ~> "Triage an incident: severity, category, blocker.";
  "Photo de produit" ~> "Product photo";
  "Contrôle qualité sur une photo — image, non lue par ce modèle."
    ~> "Quality check on a photo — an image, not read by this model.";
  "{n} options" ~> "{n} options";
  "Trois types : noul (oui/non), choice (un choix parmi une liste), score (une échelle ordonnée)."
    ~> "Three types: noul (yes/no), choice (one of a list), score (an ordered scale).";
  "Un modèle de décision lit un état et répond à des questions typées. Il ne rédige pas de texte : il renvoie des probabilités."
    ~> "A decision model reads a state and answers typed questions. It writes no text: it returns probabilities.";
  "État" ~> "State";
  "Arguments définis par DECISIONS_ARGS" ~> "Arguments set by DECISIONS_ARGS";
  "Téléchargement de {r}" ~> "Downloading {r}";
  "Téléchargement terminé : {r}" ~> "Download finished: {r}";
  "en cours" ~> "in progress";
  "Dépôt Hugging Face" ~> "Hugging Face repository";
  "propriétaire/dépôt (ex. Qwen/Qwen3-8B-GGUF)" ~> "owner/repo (e.g. Qwen/Qwen3-8B-GGUF)";
  "Définir DECISIONS_MODEL dans .env" ~> "Set DECISIONS_MODEL in .env";
  "Service non déployé" ~> "Service not deployed";
  "Mettre à jour le runner pour l'activer" ~> "Update the runner to activate it";
  "Ouvrir les décisions" ~> "Open decisions";
  "Pose des questions fermées à un modèle de décision : oui/non, choix parmi une liste, note sur une échelle. Il ne rédige pas de texte — il renvoie des probabilités."
    ~> "Ask a decision model closed questions: yes/no, a pick from a list, a score on a scale. It writes no text — it returns probabilities.";
  "port" ~> "port";
  "mémoire libre" ~> "free memory";
  "En service" ~> "Running";
  "Erreur au dernier lancement" ~> "Last launch failed";
  "Runner injoignable" ~> "Runner unreachable";
  "Service de décision non déployé sur le runner" ~> "Decision service not deployed on the runner";
  "État inconnu" ~> "Unknown state";
  "Modèle de décision non installé" ~> "Decision model not installed";
  "Un administrateur doit télécharger le GGUF puis démarrer le service (DECISIONS_MODEL dans .env). La page reste utilisable dès qu'il tourne."
    ~> "An administrator must download the GGUF then start the service (DECISIONS_MODEL in .env). The page works as soon as it runs.";
  "État à évaluer" ~> "State to evaluate";
  "Format de l'état" ~> "State format";
  "Un objet ou un tableau JSON : il est envoyé tel quel au modèle."
    ~> "A JSON object or array: it is sent to the model as it is.";
  "Le message, le document ou l'extrait à évaluer." ~> "The message, document or excerpt to evaluate.";
  "Colle ici le message, le ticket ou le document à évaluer…"
    ~> "Paste the message, ticket or document to evaluate here…";
  "Questions" ~> "Questions";
  "Chaque réponse revient sous l'identifiant de sa question. Les options d'une note vont du plus bas au plus haut."
    ~> "Each answer comes back under its question's identifier. A score's options go from lowest to highest.";
  "Identifiant de la question" ~> "Question identifier";
  "Type" ~> "Type";
  "Oui / non" ~> "Yes / no";
  "Choix" ~> "Choice";
  "Note" ~> "Score";
  "Question posée" ~> "Question";
  "Choix possibles" ~> "Possible choices";
  "Niveaux, du plus bas au plus haut" ~> "Levels, lowest first";
  "Une valeur par ligne (ou séparées par des virgules)." ~> "One value per line (or comma-separated).";
  "Ajouter une question" ~> "Add a question";
  "{n} / {max}" ~> "{n} / {max}";
  "Obtenir les décisions" ~> "Get the decisions";
  "Le service de décision n'est pas démarré : la requête sera refusée."
    ~> "The decision service is not running: the request will be refused.";
  "Aucune décision pour le moment" ~> "No decision yet";
  "Renseigne un état et lance les questions : les réponses et leurs probabilités s'afficheront ici."
    ~> "Fill in a state and run the questions: the answers and their probabilities appear here.";
  "Résultats" ~> "Results";
  "confiance {p}" ~> "confidence {p}";
  "La décision a échoué." ~> "The decision failed.";
  "Service de décision démarré." ~> "Decision service started.";
  "Service de décision arrêté." ~> "Decision service stopped.";
  "Le service de décision n'a pas répondu." ~> "The decision service did not answer.";
  "Le champ « state » est vide." ~> "The « state » field is empty.";
  "Le JSON du « state » est invalide." ~> "The « state » JSON is invalid.";
  "Le « state » dépasse {n} octets." ~> "The « state » exceeds {n} bytes.";
  "Ajoute au moins une question." ~> "Add at least one question.";
  "{n} questions au maximum." ~> "At most {n} questions.";
  "Chaque question a besoin d'un identifiant." ~> "Every question needs an identifier.";
  "Identifiant trop long : « {id} » (64 caractères au maximum)."
    ~> "Identifier too long: « {id} » (64 characters at most).";
  "Identifiant « {id} » en double." ~> "Duplicate identifier « {id} ».";
  "La question « {id} » n'a pas d'énoncé." ~> "Question « {id} » has no wording.";
  "La question « {id} » doit offrir 2 à {n} choix." ~> "Question « {id} » must offer 2 to {n} choices.";
  "La question « {id} » doit avoir 2 à {n} niveaux." ~> "Question « {id} » must have 2 to {n} levels.";
  "Aucune clé API — crée une clé dans Réglages ▸ Clés API."
    ~> "No API key — create one in Settings ▸ API keys.";
  "La passerelle n'a pas répondu." ~> "The gateway did not answer.";
  "Budget épuisé pour ta clé, ou trop de requêtes." ~> "Your key's budget is spent, or too many requests.";
  "Requête refusée par la passerelle." ~> "Request refused by the gateway.";
  "Le service de décision n'est pas démarré." ~> "The decision service is not running.";
  "Réponse sans résultat : le modèle n'a renvoyé aucune réponse."
    ~> "Empty answer: the model returned no result.";
  "Réservé aux administrateurs." ~> "Administrators only.";
  "SMTP non configuré" ~> "SMTP not configured";
  "Envoi depuis {adresse} via {serveur} ; les notifications admin partent vers l'adresse ci-dessous."
    ~> "Sent from {adresse} via {serveur}; admin notifications go to the address below.";
  "le portail" ~> "the portal";
  "Échec de l'envoi." ~> "Send failed.";
  "Déjà signalé — la demande se débloquera automatiquement."
    ~> "Already requested — it will unlock automatically.";
  "Réessaie dans" ~> "Try again in";
  "min" ~> "min";
  "Demande enregistrée mais l'email à l'admin n'a pas pu partir."
    ~> "Request recorded, but the admin email could not be sent.";
  "Progression de la génération" ~> "Generation progress"
].

Definition EN_2 : list (jstr * jstr) := [
  "Réessayer" ~> "Retry";
  "Quota consommé" ~> "Budget used";
  "Restant :" ~> "Remaining:";
  "Utilisé :" ~> "Used:";
  "Usage des quotas" ~> "Quota usage";
  "Ta consommation de tokens sur la fenêtre de budget « {duration} »."
    ~> "Your token consumption over the « {duration} » budget window.";
  "Nouveau total :" ~> "New total:";
  "Quota dépassé" ~> "Quota exceeded";
  "Presque épuisé" ~> "Nearly exhausted";
  "Nouveau quota le {date} (UTC)." ~> "New quota on {date} (UTC).";
  "Demande en cours d'examen" ~> "Request under review";
  "Demande envoyée à l'admin." ~> "Request sent to the admin.";
  "Demande depuis la page d'accueil (quota bientôt épuisé)"
    ~> "Request from the home page (quota nearly exhausted)";
  "Quota dépassé : tu as épuisé ton budget de tokens pour la période en cours."
    ~> "Quota exceeded: you have used up your token budget for the current period.";
  (u "Tu peux demander plus à l'admin (accueil → « Demander plus de budget »).",
   u "You can request more from the admin (home → " ++ [DQ] ++ u "Request more budget" ++ [DQ] ++ u ").");
  "Crée d'abord une clé API (page Mes clés API) : cet assistant consomme le budget de ton compte."
    ~> "Create an API key first (My API keys page) — this assistant runs on your account budget.";
  "La génération d'image est indisponible pour l'instant : le service est arrêté. Un admin peut le démarrer depuis l'espace Admin ; le modèle répondra sans image."
    ~> "Image generation is currently unavailable: the service is stopped. An admin can start it from the Admin area; the model will answer without an image.";
  "La génération vidéo est indisponible pour l'instant : le service est arrêté. Un admin peut le démarrer depuis l'espace Admin ; le modèle répondra sans vidéo."
    ~> "Video generation is currently unavailable: the service is stopped. An admin can start it from the Admin area; the model will answer without a video.";
  "La lecture de document est indisponible pour l'instant : le service OCR est arrêté. Un admin peut le démarrer depuis l'espace Admin ; le modèle répondra sans le document."
    ~> "Document reading is currently unavailable: the OCR service is stopped. An admin can start it from the Admin area; the model will answer without the document.";
  "Mémoire disponible : {n} Gio." ~> "Free memory: {n} GiB.";
  "Aucun message à envoyer." ~> "No message to send.";
  "Trop de messages d'affilée — réessaie dans {wait} s."
    ~> "Too many messages in a row — try again in {wait} s.";
  "Aucun modèle n'est actif sur le serveur." ~> "No model is currently running on the server.";
  "Le service de modèle est momentanément injoignable. Réessaie dans un instant."
    ~> "The model service is temporarily unreachable. Try again in a moment.";
  "Le modèle a renvoyé une erreur ({status}). Réessaie."
    ~> "The model returned an error ({status}). Try again.";
  "(réponse vide)" ~> "(empty reply)";
  "Le modèle est occupé, réessaie dans un instant." ~> "The model is busy, try again in a moment.";
  "Peux-tu reformuler ta demande ?" ~> "Could you rephrase your request?";
  "Le modèle n'a pas répondu à temps. Réessaie dans un instant."
    ~> "The model did not answer in time. Try again in a moment.";
  "Boost temporaire — {user} : {total} tokens jusqu'au {date} UTC (retour à {base})."
    ~> "Temporary boost — {user}: {total} tokens until {date} UTC (back to {base}).";
  "Accorder des tokens" ~> "Grant tokens";
  "Montant à ajouter" ~> "Amount to add";
  "Montant (tokens)" ~> "Amount (tokens)";
  "Autre montant..." ~> "Other amount...";
  "Durée du supplément" ~> "Boost duration";
  "Permanente" ~> "Permanent";
  "1 j" ~> "1 d";
  "3 j" ~> "3 d";
  "7 j" ~> "7 d";
  "30 j" ~> "30 d";
  "Nouveau total : {total} — retour à {base} le {date} UTC."
    ~> "New total: {total} — back to {base} on {date} UTC.";
  "Lien de partage copié (lecture seule, réservé aux connectés)."
    ~> "Share link copied (read-only, signed-in users only).";
  "Copiez le lien de partage :" ~> "Copy the share link:";
  "Partage impossible : le serveur n'a pas répondu." ~> "Sharing failed: the server did not respond.";
  "Redéfinir le plafond d'un compte" ~> "Reset an account's cap";
  "Montant exact (pas un ajout) — sert aussi à baisser un quota. La fenêtre de reset reste celle du portail."
    ~> "Exact amount (not an addition) — also lowers a quota. The reset window stays the portal's global one.";
  "Choisir un compte" ~> "Pick an account";
  "Plafond actuel :" ~> "Current cap:";
  "illimité" ~> "unlimited";
  "Rechercher..." ~> "Search...";
  "Actuel :" ~> "Current:";
  "Nouveau plafond (tokens)" ~> "New cap (tokens)";
  "Redéfinir" ~> "Set";
  "Budget redéfini." ~> "Budget updated.";
  "jours" ~> "days";
  "Continuer" ~> "Continue";
  "Conversation" ~> "Conversation";
  "à l'instant" ~> "just now";
  "j" ~> "d";
  "Document" ~> "Document";
  "OCR" ~> "OCR";
  "Section" ~> "Section";
  "admin" ~> "admin";
  "Échec." ~> "Failed.";
  "Demander plus de budget" ~> "Request more budget";
  "Annulé" ~> "Cancelled";
  "Génération annulée." ~> "Generation cancelled.";
  "Impossible d'annuler." ~> "Could not cancel.";
  "Journal d'audit" ~> "Audit log";
  "Acteur" ~> "Actor";
  "Détail" ~> "Detail";
  "Aucune entrée" ~> "No entries";
  "Les actions sensibles apparaîtront ici." ~> "Sensitive actions will appear here.";
  "Exporter" ~> "Export";
  "Partager" ~> "Share";
  "Lien copié" ~> "Link copied";
  "Exporter JSON" ~> "Export JSON";
  "Recherche rapide" ~> "Quick search";
  "Commence à taper pour chercher" ~> "Start typing to search";
  "Aucun résultat" ~> "No results";
  "Navigation" ~> "Navigation";
  "Renommer" ~> "Rename";
  "Valider" ~> "Confirm";
  "Usage par modèle" ~> "Usage by model";
  "Tokens consommés ces dernières 24 h, par modèle (tous comptes)."
    ~> "Tokens used over the last 24 h, by model (all accounts).";
  "Voir" ~> "View";
  "Image supprimée." ~> "Image deleted.";
  "Image agrandie" ~> "Enlarged image";
  "Supprimer cette image" ~> "Delete this image";
  "Notifications" ~> "Notifications";
  "Aucune notification" ~> "No notifications";
  "Demande" ~> "Request";
  "Rechercher une conversation" ~> "Search conversations";
  "Épingler" ~> "Pin";
  "Désépingler" ~> "Unpin";
  "contexte" ~> "context";
  "Personas" ~> "Personas";
  "Code" ~> "Code";
  "Rédacteur" ~> "Writer";
  "Traducteur" ~> "Translator";
  "Analyste" ~> "Analyst";
  "Socratique" ~> "Socratic";
  "Snippets" ~> "Snippets";
  "Prompts réutilisables" ~> "Reusable prompts";
  "Enregistrer le prompt courant en snippet" ~> "Save current prompt as a snippet";
  "Aucun snippet" ~> "No snippets";
  "Titrer automatiquement" ~> "Auto-title";
  "Résumé de la conversation" ~> "Conversation summary";
  "Impossible de générer le résumé." ~> "Unable to generate the summary.";
  "Contexte" ~> "Context";
  "Exporter en Markdown" ~> "Export as Markdown";
  "Copier le lien de partage" ~> "Copy share link";
  "Plus d'actions" ~> "More actions";
  "A réfléchi {n} s" ~> "Thought for {n} s";
  "Créé" ~> "Created";
  "Modifié" ~> "Modified";
  "Copié" ~> "Copied";
  "Voir les changements" ~> "Show changes";
  "Masquer les changements" ~> "Hide changes";
  "{n} ligne" ~> "{n} line";
  "{n} lignes" ~> "{n} lines";
  "{n} versions" ~> "{n} versions";
  "Fichiers" ~> "Files";
  "{n} fichier dans cette conversation" ~> "{n} file in this conversation";
  "{n} fichiers dans cette conversation" ~> "{n} files in this conversation";
  "Aucun fichier pour l'instant : ceux que le modèle écrit apparaîtront ici."
    ~> "No files yet: the ones the model writes will show up here.";
  "Tout télécharger (.zip)" ~> "Download all (.zip)";
  "v{n} (dernière)" ~> "v{n} (latest)";
  "Affichage de la version" ~> "Version view";
  "Changements" ~> "Changes";
  "Toutes les sessions du modèle sont occupées ({busy}/{total}) : ta demande attend une place…"
    ~> "All the model's sessions are busy ({busy}/{total}): your request is waiting for a slot…";
  "Le modèle répond aussi à d'autres conversations ({busy}/{total} sessions) : la réponse peut tarder…"
    ~> "The model is also answering other conversations ({busy}/{total} sessions): the reply may take a while…";
  "Répondre maintenant" ~> "Answer now";
  "Par défaut (moyenne)" ~> "Default (medium)";
  "⚠️ Ces images n'ont pas été générées : le modèle a cité {n} image(s) qui n'existent pas. Demande « génère les images » pour les créer vraiment."
    ~> "⚠️ These images were not generated: the model cited {n} image(s) that do not exist. Ask « generate the images » to really create them."
].

Definition EN_3 : list (jstr * jstr) := [
  "Mode vocal" ~> "Voice mode";
  "Quitter le mode vocal" ~> "Leave voice mode";
  "Je t'écoute…" ~> "Listening…";
  "Préparation…" ~> "Getting ready…";
  "Parle pour l'interrompre" ~> "Speak to interrupt";
  "Micro coupé" ~> "Mic off";
  "Couper le micro" ~> "Mute the mic";
  "Réactiver le micro" ~> "Unmute the mic";
  "Couper la voix" ~> "Mute the voice";
  "Réactiver la voix" ~> "Unmute the voice";
  "Démarrage de la transcription…" ~> "Starting transcription…";
  "La voix ne répond pas : la suite s'affiche en texte."
    ~> "The voice is not responding: the rest is shown as text.";
  "La voix n'est pas disponible : le moteur vocal chargé n'est pas Kyutai TTS. Un admin peut le lancer depuis Admin → Modèles. Les réponses s'affichent en texte."
    ~> "The voice is unavailable: the loaded voice engine is not Kyutai TTS. An admin can launch it from Admin → Models. Answers are shown as text.";
  "La voix n'est pas disponible pour l'instant ({reason}). Les réponses s'affichent en texte."
    ~> "The voice is unavailable right now ({reason}). Answers are shown as text.";
  "service arrêté" ~> "service stopped";
  "Le micro est inaccessible : autorise-le dans le navigateur."
    ~> "The microphone is unavailable: allow it in your browser.";
  "Kyutai TTS 1.6B (FR/EN, mode vocal)" ~> "Kyutai TTS 1.6B (FR/EN, voice mode)";
  "System prompt" ~> "System prompt";
  "Ce que le modèle voit pour ce tour" ~> "What the model sees for this turn";
  "Aucun system prompt." ~> "No system prompt.";
  "Aucun fichier." ~> "No files.";
  "La fenêtre de contexte = entrée (system prompt + messages + fichiers) + sortie (réponse générée). Le % indique la part utilisée."
    ~> "The context window = input (system prompt + messages + files) + output (the generated reply). The % shows how much is used.";
  "Nouvel onglet" ~> "New tab";
  "Nouveau nom du fichier" ~> "New file name";
  "Renommer ce fichier" ~> "Rename this file";
  "Accueil" ~> "Home";
  "Playground" ~> "Playground";
  "Vidéo" ~> "Video";
  "Voix" ~> "Voice";
  "Dictée" ~> "Dictation";
  "Image" ~> "Image";
  "Modèle image" ~> "Image model";
  "Nombre d'images" ~> "Number of images";
  "Format" ~> "Format";
  "Résolution" ~> "Resolution";
  "Générer {n} images" ~> "Generate {n} images";
  "images" ~> "images";
  "Service de génération injoignable." ~> "Generation service unreachable.";
  "diffusers · text-to-image" ~> "diffusers · text-to-image";
  "Ajouter un modèle image" ~> "Add an image model";
  "Les poids image (gated, ~35 Go) se téléchargent côté hôte puis s'ajoutent à la liste blanche — même principe que l'OCR/voix. Lance ensuite le modèle ci-contre."
    ~> "Image weights (gated, ~35 GB) are downloaded host-side then added to the allowlist — same principle as OCR/voice. Then launch the model on the left.";
  "Chercher un modèle" ~> "Find a model";
  "Demander un modèle" ~> "Request a model";
  "Classement" ~> "Leaderboard";
  "Support" ~> "Support";
  "Admin" ~> "Admin";
  "Réglages" ~> "Settings";
  "Basculer le thème" ~> "Toggle theme";
  "Déconnexion" ~> "Log out";
  "Fermer" ~> "Close";
  "Retour" ~> "Back";
  "Annuler" ~> "Cancel";
  "Supprimer" ~> "Delete";
  "Modifier" ~> "Edit";
  "Ajouter" ~> "Add";
  "Envoyer" ~> "Send";
  "Enregistrer" ~> "Save";
  "Copier" ~> "Copy";
  "Régénérer" ~> "Regenerate";
  "Éditer" ~> "Edit";
  "Réglages du compte" ~> "Account settings";
  "Réglages de l'app" ~> "App settings";
  "Mon compte" ~> "My account";
  "Usage" ~> "Usage";
  "Clés API" ~> "API keys";
  "Personnalisation" ~> "Personalisation";
  "Apparence" ~> "Appearance";
  "MCP" ~> "MCP";
  "Compétences" ~> "Skills";
  "Tokens totaux" ~> "Total tokens";
  "Pic journalier" ~> "Daily peak";
  "Jours actifs" ~> "Active days";
  "Moyenne / jour" ~> "Average / day";
  "ACTIVITÉ TOKENS" ~> "TOKEN ACTIVITY";
  "Désactivé dans l'annuaire" ~> "Disabled in the directory";
  "Absent de l'annuaire" ~> "Not in the directory";
  "Modifier le groupe" ~> "Edit group";
  "Propriétaire" ~> "Owner";
  "Première installation" ~> "First installation";
  "Crée le compte propriétaire de l'instance. LDAP, SSO et e-mail se configurent ensuite depuis Admin → Config."
    ~> "Create the instance's owner account. LDAP, SSO and e-mail are then set from Admin → Config.";
  "Le jeton de configuration est dans le journal du portail :" ~> "The setup token is in the portal's log:";
  "Jeton de configuration" ~> "Setup token";
  "Nom affiché (optionnel)" ~> "Display name (optional)";
  "Confirmer le mot de passe" ~> "Confirm password";
  "Les mots de passe ne correspondent pas." ~> "The passwords do not match.";
  "Créer le compte propriétaire" ~> "Create the owner account";
  "Création impossible." ~> "Could not create it.";
  "(inchangé)" ~> "(unchanged)";
  "Effacer" ~> "Clear";
  "Le modèle rejoint le catalogue ; il se lance ensuite depuis sa carte."
    ~> "The model joins the catalog; launch it from its card afterwards.";
  "Nom affiché, et nom du modèle dans l'API." ~> "Display name, and the model's name in the API.";
  "Identifiant du modèle" ~> "Model identifier";
  "Args du moteur (optionnels)" ~> "Engine args (optional)";
  "Le runner les vérifie au lancement : une option non autorisée y est refusée."
    ~> "The runner checks them at launch: an option not allowed is refused there.";
  "Dépôt Hugging Face (organisation/modèle)." ~> "Hugging Face repository (organization/model).";
  "Dépôt Hugging Face, ou local:<dossier> pour un GGUF déjà téléchargé."
    ~> "Hugging Face repository, or local:<folder> for an already downloaded GGUF.";
  "{v} Gio disponibles" ~> "{v} GiB available";
  "sous {s} Gio : les services à la demande et les vérifications lourdes ne démarrent pas"
    ~> "under {s} GiB: on-demand services and heavy checks cannot start";
  "actifs" ~> "active";
  "désactivés" ~> "disabled";
  "absents de l'annuaire" ~> "not in the directory";
  "Mémoire faible" ~> "Low memory";
  "Mémoire suffisante" ~> "Enough memory";
  "Annuaire" ~> "Directory";
  "annuaire non lu" ~> "directory not read";
  "Comptes à vérifier" ~> "Accounts to check";
  "Tous les comptes actifs" ~> "All accounts active";
  "annuaire non lu (pas encore, ou injoignable)" ~> "directory not read (not yet, or unreachable)";
  "Comptes, groupes et droits" ~> "Accounts, groups and rights";
  "La liste des comptes, leurs groupes, leurs rôles, leur activité et leur blocage se gèrent dans la page Utilisateurs."
    ~> "The account list, their groups, roles, activity and blocking are managed on the Users page.";
  "Ouvrir la page Utilisateurs" ~> "Open the Users page";
  "Médias" ~> "Media";
  "Demandes de modèle" ~> "Model requests";
  "Acceptée" ~> "Accepted";
  "Refusée" ~> "Refused";
  "Images" ~> "Images";
  "Quota" ~> "Quota";
  "/ jour" ~> "/ day";
  "/ semaine" ~> "/ week";
  "/ {n} jours" ~> "/ {n} days";
  "/ période" ~> "/ period";
  "Quota en tokens par période (optionnel)" ~> "Token quota per period (optional)";
  "personnes connectées" ~> "people signed in";
  "Aucune URI LDAP renseignée." ~> "No LDAP URI set.";
  "Le compte de service (DN et mot de passe) est requis."
    ~> "The service account (DN and password) is required.";
  "Connexion ou authentification refusée : {erreur}" ~> "Connection or authentication refused: {erreur}";
  "Connecté, mais la recherche des comptes échoue : {erreur}"
    ~> "Connected, but the account search fails: {erreur}";
  "Connecté, mais aucun compte sous {branche} avec l'attribut {attribut}."
    ~> "Connected, but no account under {branche} with the attribute {attribut}.";
  "Connexion réussie : {n} compte(s) trouvé(s)." ~> "Connection succeeded: {n} account(s) found.";
  "Aucune URL de métadonnées renseignée." ~> "No metadata URL set.";
  "Métadonnées illisibles ou incomplètes ({champs} absent) : vérifie l'URL."
    ~> "Metadata unreadable or incomplete ({champs} missing): check the URL.";
  "Fournisseur joignable ({issuer}), mais client ID et secret sont requis."
    ~> "Provider reachable ({issuer}), but the client ID and secret are required.";
  "Fournisseur joignable : {issuer}." ~> "Provider reachable: {issuer}.";
  "Hôte, utilisateur et mot de passe SMTP sont requis." ~> "SMTP host, user and password are required.";
  "Renseigne le destinataire des alertes : le test lui est envoyé."
    ~> "Set the alert recipient: the test is sent to it.";
  "E-mail de test envoyé à {adresse}." ~> "Test e-mail sent to {adresse}.";
  "L'envoi a échoué : vérifie l'hôte, le port et les identifiants."
    ~> "Sending failed: check the host, port and credentials.";
  "Aucun webhook renseigné." ~> "No webhook set.";
  "Message de test publié sur le webhook." ~> "Test message posted on the webhook.";
  "Le webhook a refusé le message : vérifie son URL." ~> "The webhook refused the message: check its URL.";
  "Section inconnue." ~> "Unknown section.";
  "{s} : enregistré." ~> "{s}: saved.";
  "Le test n'a pas pu être lancé." ~> "The test could not be started.";
  "(sera effacé à l'enregistrement)" ~> "(will be cleared on save)"
].

Definition EN_4 : list (jstr * jstr) := [
  "•••••• (laisse vide pour garder)" ~> "•••••• (leave empty to keep)";
  "ex. {v}" ~> "e.g. {v}";
  "À déclarer chez le fournisseur :" ~> "To declare at the provider:";
  "Tout se règle ici, sans redémarrage. Un secret n'est jamais réaffiché : laisse son champ vide pour le garder."
    ~> "Everything is set here, no restart needed. A secret is never shown again: leave its field empty to keep it.";
  "Tester" ~> "Test";
  "Lun" ~> "Mon";
  "Mar" ~> "Tue";
  "Mer" ~> "Wed";
  "Jeu" ~> "Thu";
  "Ven" ~> "Fri";
  "Sam" ~> "Sat";
  "Dim" ~> "Sun";
  "{n} requêtes · {k} tokens" ~> "{n} requests · {k} tokens";
  "Requêtes par heure, sur chacun des 7 derniers jours" ~> "Requests per hour, on each of the last 7 days";
  "Requêtes par jour, en calendrier" ~> "Requests per day, as a calendar";
  "Jour le plus chargé : {d} ({n} requêtes)." ~> "Busiest day: {d} ({n} requests).";
  "Requêtes réussies, heure par heure sur chacun des 7 derniers jours (heure locale)."
    ~> "Successful requests, hour by hour on each of the last 7 days (local time).";
  "Requêtes réussies, jour par jour." ~> "Successful requests, day by day.";
  "Sans groupe" ~> "No group";
  "12 mois" ~> "12 months";
  "Apparaître anonymement aux autres" ~> "Appear anonymously to others";
  "Aucune requête sur cette période." ~> "No request over this period.";
  "Ce que ça aurait coûté" ~> "What it would have cost";
  "Classer" ~> "Rank";
  "Compte anonyme" ~> "Anonymous account";
  "Comptes" ~> "Accounts";
  "Groupe masqué" ~> "Hidden group";
  "{n} membres" ~> "{n} members";
  "{n} membre" ~> "{n} member";
  "Coût de référence : ce que la consommation aurait coûté sur une API commerciale à {i} (entrée) et {o} (sortie) par million de tokens. Une indication, pas une facture."
    ~> "Reference cost: what the consumption would have cost on a commercial API at {i} (input) and {o} (output) per million tokens. An indication, not a bill.";
  "Coût de référence" ~> "Reference cost";
  "Créneau le plus chargé : {d} {h} h ({n} requêtes)." ~> "Busiest slot: {d} {h}:00 ({n} requests).";
  "Depuis le début, requêtes réussies uniquement." ~> "Since the start, successful requests only.";
  "en moyenne" ~> "on average";
  "Exporter en CSV" ~> "Export as CSV";
  "Moi" ~> "Me";
  "moins" ~> "less";
  "plus" ~> "more";
  "{n} jours actifs" ~> "{n} active days";
  "{n} requêtes" ~> "{n} requests";
  "{n} tokens" ~> "{n} tokens";
  "Période de la carte" ~> "Map period";
  "Plateforme" ~> "Platform";
  "Portée" ~> "Scope";
  "Plus gros jours" ~> "Biggest days";
  "Plus longues séries" ~> "Longest streaks";
  "Séries en cours" ~> "Current streaks";
  "Premiers sur un modèle" ~> "First on a model";
  "Premier sur : {m}" ~> "First on: {m}";
  "Quand la plateforme travaille" ~> "When the platform works";
  "Quota utilisé" ~> "Quota used";
  "Records et séries" ~> "Records and streaks";
  "Requêtes" ~> "Requests";
  "requêtes au total" ~> "requests in total";
  "Série en cours : {s} · record : {r}" ~> "Current streak: {s} · record: {r}";
  "{n} jours" ~> "{n} days";
  "{n} jour" ~> "{n} day";
  "Tokens par jour" ~> "Tokens per day";
  "Tokens / requête" ~> "Tokens / request";
  "tokens par requête sur la plateforme" ~> "tokens per request on the platform";
  "Ton nom est de nouveau visible." ~> "Your name is visible again.";
  "Ton nom et ton avatar sont masqués dans le classement et les records ; tu gardes ta position."
    ~> "Your name and avatar are hidden in the leaderboard and the records; you keep your position.";
  "Ton plus gros jour : {d} ({n} tokens)" ~> "Your biggest day: {d} ({n} tokens)";
  "Tous les modèles" ~> "All models";
  "Tu apparais désormais anonymement aux autres." ~> "You now appear anonymously to others.";
  "≈ {v} au tarif de référence" ~> "≈ {v} at the reference price";
  "groupes actifs" ~> "active groups";
  "groupe actif" ~> "active group";
  "Prix en entrée" ~> "Input price";
  "Prix en sortie" ~> "Output price";
  "Devise" ~> "Currency";
  "Par million de tokens, au tarif d'une API commerciale de référence."
    ~> "Per million tokens, at a reference commercial API's price.";
  "Par million de tokens générés." ~> "Per million generated tokens.";
  "Code ISO : USD, EUR…" ~> "ISO code: USD, EUR…";
  "Le tarif de référence du « ce que ça aurait coûté » de la page Classement."
    ~> "The reference price of the leaderboard's “what it would have cost”.";
  "Stockage S3" ~> "S3 storage";
  "Optionnel : sauvegardes et fichiers générés sur un stockage S3 (réglés plus bas)."
    ~> "Optional: backups and generated files on S3 storage (set further down).";
  "Endpoint" ~> "Endpoint";
  "Adresse du service S3 (Garage, MinIO, AWS…)." ~> "Address of the S3 service (Garage, MinIO, AWS…).";
  "Région" ~> "Region";
  "Garage : « garage » ; MinIO : souvent « us-east-1 »." ~> "Garage: “garage”; MinIO: usually “us-east-1”.";
  "Bucket" ~> "Bucket";
  "Doit exister et rester privé : il reçoit les sauvegardes (avec .env)."
    ~> "Must exist and stay private: it receives the backups (.env included).";
  "Préfixe" ~> "Prefix";
  "Optionnel : dossier du bucket où tout est rangé."
    ~> "Optional: folder of the bucket where everything is stored.";
  "Clé d'accès" ~> "Access key";
  "Clé secrète" ~> "Secret key";
  "Stockage : enregistré." ~> "Storage: saved.";
  "La migration n'a pas pu démarrer." ~> "The migration could not start.";
  "Sur le volume" ~> "On the volume";
  "Sur S3" ~> "On S3";
  "Vidéos" ~> "Videos";
  "Scans OCR" ~> "OCR scans";
  "Audio (voix)" ~> "Audio (voice)";
  "Configure d'abord le stockage S3 ci-dessus." ~> "Configure the S3 storage above first.";
  "Stockage et sauvegardes" ~> "Storage and backups";
  "Où vont les fichiers générés et les sauvegardes. Les conversations restent dans la base du portail, incluse dans chaque sauvegarde."
    ~> "Where generated files and backups go. Conversations stay in the portal database, which every backup includes.";
  "Fichiers générés (images, vidéos, OCR, audio)" ~> "Generated files (images, videos, OCR, audio)";
  "Emplacement des fichiers" ~> "File location";
  "Volume local" ~> "Local volume";
  "S3" ~> "S3";
  "Change l'emplacement des NOUVEAUX fichiers. Les existants restent lisibles là où ils sont ; « Migrer » les déplace."
    ~> "Changes where NEW files go. Existing ones stay readable where they are; “Migrate” moves them.";
  "Migration vers {t}" ~> "Migration to {t}";
  "le volume local" ~> "the local volume";
  "{n} échec(s)" ~> "{n} failure(s)";
  "Migration terminée : {d} fichier(s) déplacé(s), {f} en échec — relance-la pour réessayer."
    ~> "Migration finished: {d} file(s) moved, {f} failed — run it again to retry.";
  "Migration terminée : {d} fichier(s) déplacé(s)." ~> "Migration finished: {d} file(s) moved.";
  "{n} fichier(s) ne sont pas encore à l'emplacement choisi."
    ~> "{n} file(s) are not at the chosen location yet.";
  "Migrer vers S3" ~> "Migrate to S3";
  "Rapatrier sur le volume" ~> "Bring back to the volume";
  "Sauvegardes (chaque nuit à 3 h)" ~> "Backups (every night at 3 a.m.)";
  "Destination des sauvegardes" ~> "Backup destination";
  "Les deux" ~> "Both";
  "Rétention locale" ~> "Local retention";
  "Nombre de sauvegardes gardées sur la machine (une par nuit)."
    ~> "Number of backups kept on the machine (one per night).";
  "Les sauvegardes ne sont pas gardées en local." ~> "Backups are not kept locally.";
  "Rétention S3" ~> "S3 retention";
  "Nombre de sauvegardes gardées dans le bucket." ~> "Number of backups kept in the bucket.";
  "Les sauvegardes ne partent pas sur S3." ~> "Backups do not go to S3.";
  "Échec" ~> "Failed";
  "OK" ~> "OK";
  "Dernière tentative en échec ({e}). Dernière sauvegarde réussie : {d}."
    ~> "Last attempt failed ({e}). Last successful backup: {d}.";
  "Dernière sauvegarde : {d} — {f} ({s})." ~> "Last backup: {d} — {f} ({s}).";
  "Aucune sauvegarde enregistrée pour l'instant." ~> "No backup recorded yet.";
  "Endpoint, bucket et clés S3 sont requis." ~> "S3 endpoint, bucket and keys are required.";
  "Le bucket refuse l'accès : {e}" ~> "The bucket refuses access: {e}";
  "Objet écrit mais introuvable à la relecture : vérifie le bucket."
    ~> "Object written but not found when read back: check the bucket.";
  "Bucket « {b} » accessible en lecture et en écriture." ~> "Bucket “{b}” is readable and writable.";
  "Configure d'abord le stockage S3 (Admin → Config)." ~> "Configure the S3 storage first (Admin → Config).";
  "Emplacement inconnu." ~> "Unknown location.";
  "Destination inconnue." ~> "Unknown destination.";
  "La rétention doit être un nombre de sauvegardes." ~> "The retention must be a number of backups.";
  "La rétention va de 1 à {n} sauvegardes." ~> "The retention goes from 1 to {n} backups.";
  "Une migration est déjà en cours." ~> "A migration is already running.";
  "Enregistre d'abord : le test porte sur les valeurs enregistrées."
    ~> "Save first: the test uses the saved values.";
  "Annuaire LDAP" ~> "LDAP directory";
  "SSO (OpenID Connect)" ~> "SSO (OpenID Connect)";
  "E-mail" ~> "E-mail";
  "Incomplet" ~> "Incomplete";
  "Connexion avec les comptes de l'annuaire, état des comptes et groupes."
    ~> "Sign-in with directory accounts, account states and groups.";
  "Bouton « Se connecter avec le SSO » sur la page de connexion."
    ~> "« Sign in with SSO » button on the sign-in page.";
  "Alertes aux administrateurs et messages aux utilisateurs."
    ~> "Alerts to administrators and messages to users.";
  "Optionnel : alertes sur un salon, annonces en message privé."
    ~> "Optional: alerts on a channel, announcements by private message.";
  "Contact publié pour signaler une faille." ~> "Published contact for reporting a vulnerability.";
  "URI après déconnexion" ~> "Post-logout URI";
  "Serveur" ~> "Server";
  "ldaps:// pour une connexion chiffrée." ~> "ldaps:// for an encrypted connection.";
  "Base DN" ~> "Base DN";
  "Branche des comptes" ~> "Accounts branch";
  "Relative à la base DN." ~> "Relative to the base DN."
].

Definition EN_5 : list (jstr * jstr) := [
  "Attribut d'identifiant" ~> "Login attribute";
  "cn (Authentik), uid (OpenLDAP, lldap), sAMAccountName (Active Directory)."
    ~> "cn (Authentik), uid (OpenLDAP, lldap), sAMAccountName (Active Directory).";
  "Compte de service (DN)" ~> "Service account (DN)";
  "Lit les comptes, leur état et leurs groupes." ~> "Reads the accounts, their state and their groups.";
  "Mot de passe du compte de service" ~> "Service account password";
  "URL de métadonnées" ~> "Metadata URL";
  "Client ID" ~> "Client ID";
  "Client secret" ~> "Client secret";
  "Groupe administrateur" ~> "Admin group";
  "Ses membres (LDAP ou SSO) sont administrateurs du portail."
    ~> "Its members (LDAP or SSO) are portal administrators.";
  "URI de retour" ~> "Redirect URI";
  "Vide : l'adresse suggérée ci-dessous." ~> "Empty: the address suggested below.";
  "Déconnexion du fournisseur" ~> "Provider logout";
  "Optionnelle : ferme aussi la session SSO à la déconnexion."
    ~> "Optional: also ends the SSO session on sign-out.";
  "Port" ~> "Port";
  "587 avec STARTTLS." ~> "587 with STARTTLS.";
  "Expéditeur" ~> "Sender";
  "Vide : l'utilisateur SMTP." ~> "Empty: the SMTP user.";
  "Destinataire des alertes" ~> "Alert recipient";
  "Demandes, maintenance, pannes — et le test d'envoi."
    ~> "Requests, maintenance, outages — and the test e-mail.";
  "Webhook des alertes admin" ~> "Admin alerts webhook";
  "Demandes de modèle et de budget, publiées sur un salon."
    ~> "Model and budget requests, posted on a channel.";
  "Jeton du bot" ~> "Bot token";
  "Envoie les annonces en message privé aux comptes liés."
    ~> "Sends announcements by private message to linked accounts.";
  "Application OAuth2 qui lie un compte Discord." ~> "OAuth2 app that links a Discord account.";
  "Contact sécurité" ~> "Security contact";
  "Publié dans /.well-known/security.txt. Vide : le destinataire des alertes."
    ~> "Published in /.well-known/security.txt. Empty: the alert recipient.";
  "LDAP — compte de service (DN)" ~> "LDAP — service account (DN)";
  "LDAP — mot de passe du compte de service" ~> "LDAP — service account password";
  "SMTP — destinataire des alertes" ~> "SMTP — alert recipient";
  "Cette instance a déjà un administrateur." ~> "This instance already has an administrator.";
  "Jeton de configuration invalide." ~> "Invalid setup token.";
  "Ce compte est le propriétaire de l'instance : seul lui-même peut le modifier."
    ~> "This account is the instance's owner: only the owner can change it.";
  "{n} membre(s)" ~> "{n} member(s)";
  "Supprimer ce groupe ? Il vient de l'annuaire : il reviendra à la prochaine connexion d'un membre, sans quota ni droit."
    ~> "Delete this group? It comes from the directory: it will come back at a member's next login, without quota or right.";
  "6 derniers mois" ~> "Last 6 months";
  "Insights d'activité" ~> "Activity insights";
  "Répartition tokens" ~> "Token breakdown";
  "Total période" ~> "Period total";
  "Entrée / sortie" ~> "Input / output";
  "Entrée (prompt)" ~> "Input (prompt)";
  "Sortie (généré)" ~> "Output (generated)";
  "Clés API actives" ~> "Active API keys";
  "Budget" ~> "Budget";
  "Budget illimité (admin)" ~> "Unlimited budget (admin)";
  "Activité de tokens par jour" ~> "Daily token activity";
  "Vos limites d'utilisation" ~> "Your usage limits";
  "Suivez la consommation de votre compte sur chaque quota disponible."
    ~> "Track your account's consumption against each available quota.";
  "Rafraîchir" ~> "Refresh";
  "Illimité" ~> "Unlimited";
  "utilisé" ~> "used";
  "Budget de tokens" ~> "Token budget";
  "Quota quotidien partagé par toutes tes clés API." ~> "Daily quota shared across all your API keys.";
  "Messages Support" ~> "Support messages";
  "Messages Playground" ~> "Playground messages";
  "Conversations enregistrées" ~> "Saved conversations";
  "Au-delà, les plus anciennes sont supprimées automatiquement."
    ~> "Beyond this, the oldest ones are deleted automatically.";
  "Serveurs MCP connectés" ~> "Connected MCP servers";
  "Serveurs distants dont l'assistant peut utiliser les outils."
    ~> "Remote servers whose tools the assistant can use.";
  "Compétences définies" ~> "Defined skills";
  "Instructions réutilisables chargées à la demande." ~> "Reusable instructions loaded on demand.";
  "Fenêtre de contexte du modèle" ~> "Model context window";
  "Aucun modèle actif." ~> "No active model.";
  "Besoin d'augmenter tes limites ? Demande plus de tokens depuis l'onglet « Clés API », ou passe par l'assistant Support."
    ~> "Need higher limits? Request more tokens from the “API keys” tab, or ask the Support assistant.";
  "THÈME" ~> "THEME";
  "Ajuste l'apparence de l'interface." ~> "Adjust the appearance of the interface.";
  "Clair" ~> "Light";
  "Sombre" ~> "Dark";
  "Système" ~> "System";
  "COULEUR D'ACCENT" ~> "ACCENT COLOUR";
  "Change la couleur principale de l'interface." ~> "Change the interface's primary colour.";
  "LANGUE" ~> "LANGUAGE";
  "Choisis la langue de l'interface." ~> "Choose the interface language.";
  "Français" ~> "French";
  "Anglais" ~> "English";
  "Neutre" ~> "Neutral";
  "Indigo" ~> "Indigo";
  "Violet" ~> "Violet";
  "Rose" ~> "Rose";
  "Ambre" ~> "Amber";
  "Émeraude" ~> "Emerald";
  "Cyan" ~> "Cyan";
  "Ardoise" ~> "Slate";
  "Brique" ~> "Brick";
  "Prune" ~> "Plum";
  "Par défaut, ton avatar est créé à partir de ton pseudo. Tu peux aussi choisir un logo de marque d'IA — pas d'import d'image personnelle."
    ~> "Your avatar is generated from your username by default. You can also pick an AI brand logo — no personal image upload.";
  "Généré depuis mon pseudo" ~> "Generated from my username";
  "Connecte un serveur MCP distant en HTTPS : ses outils deviennent utilisables par l'assistant Support."
    ~> "Connect a remote MCP server over HTTPS: its tools become usable by the Support assistant.";
  "Connecter un MCP" ~> "Connect an MCP";
  "Connecter un MCP personnalisé" ~> "Connect a custom MCP";
  "Modifier le serveur MCP" ~> "Edit MCP server";
  "Configurez la connexion et la façon dont ses outils peuvent être utilisés."
    ~> "Configure the connection and how its tools may be used.";
  "Aucun serveur MCP connecté." ~> "No MCP server connected.";
  "Connecte un serveur pour étendre les capacités de l'assistant."
    ~> "Connect a server to extend the assistant's capabilities.";
  "Nom" ~> "Name";
  "URL du serveur" ~> "Server URL";
  "Lettres, chiffres, underscores et tirets uniquement." ~> "Letters, digits, underscores and hyphens only.";
  "Description (optionnel)" ~> "Description (optional)";
  "Ce que fournit ce serveur" ~> "What this server provides";
  "Outils autorisés (optionnel)" ~> "Allowed tools (optional)";
  "Séparez par des virgules. Vide = tous les outils." ~> "Comma-separated. Empty = all tools.";
  "Autorisation (optionnel)" ~> "Authorization (optional)";
  "Bearer token ou secret" ~> "Bearer token or secret";
  "Envoyé en en-tête Authorization." ~> "Sent as the Authorization header.";
  "Laisser vide pour conserver le secret actuel ; « - » pour le retirer."
    ~> "Leave empty to keep the current secret; “-” to remove it.";
  "Enregistrer le serveur" ~> "Save server";
  "Mettre à jour le serveur" ~> "Update server";
  "Serveur MCP supprimé." ~> "MCP server deleted.";
  "Outils autorisés :" ~> "Allowed tools:";
  "Auth" ~> "Auth";
  "Des instructions réutilisables que tu écris toi-même ; l'assistant les charge quand elles sont utiles à ta demande."
    ~> "Reusable instructions you write yourself; the assistant loads them when relevant to your request.";
  "Nouvelle compétence" ~> "New skill";
  "Créer une compétence" ~> "Create a skill";
  "Modifier la compétence" ~> "Edit skill";
  "L'assistant chargera ces instructions en contexte quand la compétence s'applique."
    ~> "The assistant will load these instructions into context when the skill applies.";
  "Aucune compétence pour l'instant." ~> "No skills yet.";
  "Crée une compétence pour guider l'assistant sur une tâche récurrente."
    ~> "Create a skill to guide the assistant on a recurring task.";
  "Description" ~> "Description";
  "Quand l'utiliser, en une phrase" ~> "When to use it, in one sentence";
  "Instructions" ~> "Instructions";
  "Instructions détaillées que l'assistant chargera en contexte…"
    ~> "Detailed instructions the assistant will load into context…";
  "Enregistrer la compétence" ~> "Save skill"
].

Definition EN_6 : list (jstr * jstr) := [
  "Mettre à jour la compétence" ~> "Update skill";
  "Compétence enregistrée." ~> "Skill saved.";
  "Compétence mise à jour." ~> "Skill updated.";
  "Compétence supprimée." ~> "Skill deleted.";
  "Échec de l'enregistrement." ~> "Failed to save.";
  "Échec de la connexion au serveur MCP." ~> "Failed to connect to the MCP server.";
  "Bonjour" ~> "Hello";
  "Bonjour, comment allez-vous ?" ~> "Hello, how are you?";
  "Bonsoir, comment allez-vous ?" ~> "Good evening, how are you?";
  "Écris ton message ci-dessous pour commencer." ~> "Write your message below to get started.";
  "Ton accès self-service à l'inférence LLM sur DGX Spark."
    ~> "Your self-service access to LLM inference on the DGX Spark.";
  "Mes clés API" ~> "My API keys";
  "Modèles disponibles maintenant" ~> "Models available now";
  "Aucun modèle actif" ~> "No active model";
  "En ligne" ~> "Online";
  "Créer une clé API" ~> "Create an API key";
  "Ouvrir l'OCR" ~> "Open OCR";
  "Ouvrir la génération vidéo" ~> "Open video generation";
  "État du serveur" ~> "Server status";
  "Modèle actif" ~> "Active model";
  "aucun" ~> "none";
  "en ligne" ~> "online";
  "arrêté" ~> "stopped";
  "Débit" ~> "Throughput";
  "Sessions" ~> "Sessions";
  "Requêtes servies" ~> "Requests served";
  "Personne n'utilise le modèle en ce moment." ~> "No one is using the model right now.";
  "Mon utilisation — aujourd'hui" ~> "My usage — today";
  "Tokens · 24 h" ~> "Tokens · 24h";
  "Clés actives" ~> "Active keys";
  "Limite :" ~> "Limit:";
  "Illimitée (admin)" ~> "Unlimited (admin)";
  "Catalogue HuggingFace" ~> "HuggingFace catalog";
  "Parcours les modèles disponibles et demande le lancement de celui qui t'intéresse."
    ~> "Browse available models and request the one you're interested in.";
  "Explorer les modèles" ~> "Explore models";
  "Mes dernières demandes" ~> "My recent requests";
  "Modèle" ~> "Model";
  "Raison" ~> "Reason";
  "Statut" ~> "Status";
  "Date" ~> "Date";
  "En attente" ~> "Pending";
  "Retirer" ~> "Remove";
  "Mémoire" ~> "Memory";
  "Désactivée par défaut. Une fois activée, l'assistant peut retenir des informations durables te concernant pour les réutiliser plus tard."
    ~> "Off by default. Once enabled, the assistant can keep durable information about you and reuse it later.";
  "Ajouter une information" ~> "Add an entry";
  "Sujet" ~> "Subject";
  "Information" ~> "Entry";
  "ex : vLLM" ~> "e.g. vLLM";
  "ex : Je sers mes modèles avec vLLM 0.27." ~> "e.g. I serve my models with vLLM 0.27.";
  "Ce qui est mémorisé" ~> "What is remembered";
  "Capacité utilisée" ~> "Capacity used";
  "informations" ~> "entries";
  "Tout effacer" ~> "Erase everything";
  "Rien de mémorisé pour l'instant" ~> "Nothing remembered yet";
  "Les informations apparaîtront ici au fil des conversations." ~> "Entries will appear here as you chat.";
  "Active la mémoire ci-dessus, ou ajoute une information à la main."
    ~> "Turn memory on above, or add an entry by hand.";
  "Oublier" ~> "Forget";
  "ajouté par toi" ~> "added by you";
  "appris en conversation" ~> "learned in conversation";
  "Mémoire activée." ~> "Memory enabled.";
  "Mémoire désactivée. Ce qui est déjà mémorisé est conservé."
    ~> "Memory disabled. What is already remembered is kept.";
  "Mémoire effacée" ~> "Memory erased";
  "Ajout impossible." ~> "Could not add.";
  "Chargement impossible." ~> "Could not load.";
  "Chargement…" ~> "Loading…";
  "Personne d'autre ne peut lire ta mémoire, administrateurs compris. Désactiver la collecte n'efface rien : utilise « Tout effacer » pour ça."
    ~> "Nobody else can read your memory, administrators included. Turning collection off erases nothing — use “Erase everything” for that.";
  "Exporter / importer" ~> "Export / import";
  "Garde une copie de ce que l'assistant sait de toi (JSON pour réimporter ailleurs, Markdown pour le lire), ou restaure une mémoire exportée — JSON ou Markdown."
    ~> "Keep a copy of what the assistant knows about you (JSON to re-import elsewhere, Markdown to read), or restore an exported memory — JSON or Markdown.";
  "Exporter (JSON)" ~> "Export (JSON)";
  "Exporter (Markdown)" ~> "Export (Markdown)";
  "Importer" ~> "Import";
  "Export impossible." ~> "Could not export.";
  "Import terminé" ~> "Import complete";
  "Import impossible." ~> "Could not import.";
  "Fichier invalide." ~> "Invalid file.";
  "Modification impossible." ~> "Could not update.";
  "Le bouton copier donne toujours la vraie clé, même affichée masquée."
    ~> "The copy button always gives the real key, even when it is shown masked.";
  "Aucune clé API" ~> "No API key";
  "Le playground consomme le budget de ton compte via ta clé API. Crée-en une pour pouvoir discuter avec le modèle."
    ~> "The playground spends your account budget through your API key. Create one to be able to chat with the model.";
  "Plusieurs réponses possibles." ~> "You can pick several answers.";
  "Bienvenue" ~> "Welcome";
  "Trois minutes pour savoir quoi faire de cette plateforme."
    ~> "Three minutes to know what this platform can do for you.";
  "Étape" ~> "Step";
  "Passer" ~> "Skip";
  "C'est parti" ~> "Let's go";
  "1. Crée ta clé API" ~> "1. Create your API key";
  "Tout passe par elle : le Playground comme tes outils externes. Elle porte ton budget en tokens, elle est personnelle, et tu peux en créer plusieurs (une par machine, par exemple) pour en révoquer une sans casser les autres."
    ~> "Everything goes through it: the Playground and your own tools alike. It carries your token budget, it is personal, and you can create several (one per machine, say) so revoking one does not break the others.";
  "Ouvrir mes clés API" ~> "Open my API keys";
  "2. Discute dans le Playground" ~> "2. Chat in the Playground";
  "Le moyen le plus direct d'utiliser un modèle : rien à installer. Tu peux joindre des fichiers texte, suivre le débit en tokens/seconde, et le modèle te posera des questions s'il a besoin de précisions. Les fichiers qu'il écrit s'ouvrent dans un volet à côté."
    ~> "The most direct way to use a model — nothing to install. You can attach text files, watch the tokens per second, and the model will ask you questions when it needs details. Files it writes open in a panel beside the chat.";
  "Aller au Playground" ~> "Go to the Playground";
  "3. Branche tes propres outils" ~> "3. Plug in your own tools";
  "L'API est compatible OpenAI et Anthropic. Dans Réglages → Clés API, choisis ton outil (Claude Code, OpenCode, Cursor, Aider, cURL…) : la configuration est générée avec ta clé, prête à copier. Vise le modèle « auto-model » et tu n'auras rien à changer quand l'admin changera de modèle."
    ~> "The API speaks both OpenAI and Anthropic. In Settings → API keys, pick your tool (Claude Code, OpenCode, Cursor, Aider, cURL…): the configuration is generated with your key, ready to copy. Target the “auto-model” model and nothing needs changing when the admin switches models.";
  "Voir les intégrations" ~> "See the integrations";
  "4. Besoin d'autre chose ?" ~> "4. Need something else?";
  "Image, voix, OCR et vidéo ont chacun leur page. Si le modèle qu'il te faut n'est pas là, demande-le : un administrateur reçoit la demande et peut l'ajouter. Et le Support répond à tes questions sur la plateforme."
    ~> "Image, voice, OCR and video each have their own page. If the model you need is missing, request it: an admin gets the request and can add it. And Support answers your questions about the platform.";
  "Aperçu" ~> "Preview";
  "Code source" ~> "Source code";
  "Affichage" ~> "Display";
  "Réponse coupée" ~> "Reply cut short";
  "Le plafond de tokens a été atteint. Reprends la suite, ou augmente « Max tokens » dans les réglages."
    ~> "The token ceiling was reached. Pick up where it stopped, or raise “Max tokens” in the settings.";
  "Reprise automatique" ~> "Auto-resume";
  "Le fichier s'arrête avant sa fin et les reprises automatiques n'ont pas suffi. Relance la suite, ou demande-lui de l'écrire en plusieurs fichiers."
    ~> "The file stops before its end and the automatic retries were not enough. Resume it again, or ask for it split across several files.";
  "La connexion s'est interrompue pendant la génération. Reprends la suite — ce qui est déjà écrit est conservé."
    ~> "The connection dropped mid-generation. Pick up where it stopped — what was already written is kept.";
  "Fichier inutilisable" ~> "File will not run";
  "Le fichier se termine bien, mais son JavaScript ne compile pas — un bloc n'est jamais refermé, donc la page reste vide."
    ~> "The file ends properly, but its JavaScript does not compile — a block is never closed, so the page stays blank.";
  "Refaire le fichier" ~> "Rebuild the file";
  "La page ne s'exécute pas" ~> "The page does not run";
  "Corriger" ~> "Fix it";
  "recherche « {q} »" ~> "searching for “{q}”";
  "recherche impossible : {e}" ~> "search failed: {e}";
  "{n} résultat(s) pour « {q} »" ~> "{n} result(s) for “{q}”";
  "lecture de {n} page(s)" ~> "reading {n} page(s)";
  "lecture impossible : {e}" ~> "reading failed: {e}";
  "{n} page(s) lue(s)" ~> "{n} page(s) read";
  ", {n} inaccessible(s)" ~> ", {n} unreachable";
  "génération de l'image « {q} »" ~> "generating the image “{q}”";
  "génération impossible : {e}" ~> "image generation failed: {e}";
  "{n} image(s) générée(s)" ~> "{n} image(s) generated";
  "génération de la vidéo « {q} »" ~> "generating the video “{q}”";
  "génération vidéo impossible : {e}" ~> "video generation failed: {e}";
  "{n} vidéo(s) générée(s)" ~> "{n} video(s) generated";
  "lecture du document" ~> "reading the document";
  "{n} caractère(s) extraits" ~> "{n} character(s) extracted";
  "Plein écran" ~> "Fullscreen";
  "Modification non appliquée" ~> "Edit not applied";
  "Le texte à remplacer n'a pas été retrouvé dans le fichier. Demande la correction en précisant l'endroit, ou demande le fichier complet."
    ~> "The text to replace was not found in the file. Ask again pointing at the spot, or ask for the whole file."
].

Definition EN_7 : list (jstr * jstr) := [
  "Modification proposée." ~> "Edit proposed.";
  "La modification proposée n'a pas pu être lue. Redemande la correction, ou demande le fichier complet."
    ~> "The proposed edit could not be read. Ask for the fix again, or ask for the whole file.";
  "Seul un extrait a été renvoyé" ~> "Only an excerpt was returned";
  "Le modèle a donné la partie corrigée, pas le fichier complet. La version précédente reste ouverte dans le volet."
    ~> "The model gave the corrected part, not the whole file. The previous version stays open in the panel.";
  "Demander le fichier complet" ~> "Ask for the whole file";
  "Ouvrir" ~> "Open";
  "conversations" ~> "conversations";
  "Messages en attente" ~> "Queued messages";
  "Envoi imminent…" ~> "Sending now…";
  "Envoi automatique dès la fin de la réponse. « Envoyer » interrompt et passe à ce message."
    ~> "Sent automatically when the reply finishes. “Send” interrupts it and moves to this message.";
  "Lancé" ~> "Launched";
  "Refusé" ~> "Rejected";
  "CPU" ~> "CPU";
  "RAM" ~> "RAM";
  "GPU" ~> "GPU";
  "TTFT" ~> "TTFT";
  "Go" ~> "GB";
  "API :" ~> "API:";
  "Des clés personnelles pour appeler les modèles via l'API compatible OpenAI."
    ~> "Personal keys to call the models through the OpenAI-compatible API.";
  "Nouvelle clé" ~> "New key";
  "Nom (ex: mon-laptop)" ~> "Name (e.g. my-laptop)";
  "Endpoint :" ~> "Endpoint:";
  "— compatible OpenAI." ~> "— OpenAI-compatible.";
  "Budget du compte — partagé par toutes tes clés /" ~> "Account budget — shared across all your keys /";
  "tokens restants" ~> "tokens remaining";
  "Demande en attente" ~> "Request pending";
  "Demander plus de tokens" ~> "Request more tokens";
  "Raison (optionnel)" ~> "Reason (optional)";
  "Aucune clé pour l'instant." ~> "No keys yet.";
  "Utilise « Nouvelle clé » en haut à droite pour en générer une."
    ~> "Use “New key” at the top right to generate one.";
  "Alias" ~> "Alias";
  "Clé" ~> "Key";
  "Afficher" ~> "Show";
  "Masquer" ~> "Hide";
  "Dépensé" ~> "Spent";
  "tokens" ~> "tokens";
  "token" ~> "token";
  "Révoquer" ~> "Revoke";
  "Intégrations" ~> "Integrations";
  "Contexte du modèle : {context} tokens (sortie max {output})."
    ~> "Model context: {context} tokens (max output {output}).";
  (u "Le proxy expose l'API Anthropic sur /v1/messages : Claude Code s'y branche" ++ [LF] ++ u "# directement, sans passerelle ni adaptateur.",
   u "The proxy serves the Anthropic API on /v1/messages: Claude Code plugs into it" ++ [LF] ++ u "# directly, with no gateway or adapter.");
  (u "Indispensable : sans ces deux lignes Claude Code réclame ses modèles" ++ [LF] ++ u "# « claude-… », que le proxy ne connaît pas — il répond 400 « Invalid model name ».",
   u "Required: without these two lines Claude Code asks for its own" ++ [LF] ++ u "# " ++ [DQ] ++ u "claude-…" ++ [DQ] ++ u " models, which the proxy does not know — it answers 400 " ++ [DQ] ++ u "Invalid model name" ++ [DQ] ++ u ".");
  (u "À savoir : le modèle est un modèle ouvert auto-hébergé, pas un modèle Anthropic." ++ [LF] ++ u "# Le fonctionnement est le même (outils, édition de fichiers, commandes), mais la" ++ [LF] ++ u "# qualité sur les tâches longues et l'enchaînement d'outils reste en deçà.",
   u "Good to know: the model is a self-hosted open model, not an Anthropic model." ++ [LF] ++ u "# It works the same way (tools, file edits, commands), but quality on long" ++ [LF] ++ u "# tasks and tool chaining stays below.");
  "Option A — assistant interactif" ~> "Option A — interactive wizard";
  (u "choisir « Custom endpoint (self-hosted / vLLM / etc.) »",
   u "pick " ++ [DQ] ++ u "Custom endpoint (self-hosted / vLLM / etc.)" ++ [DQ]);
  "Option B — éditer ~/.hermes/config.yaml" ~> "Option B — edit ~/.hermes/config.yaml";
  (u "ajouter dans « models »",
   u "add to " ++ [DQ] ++ u "models" ++ [DQ]);
  "Bonjour !" ~> "Hello!";
  "Variables d'env." ~> "Env vars";
  "Masquer la clé" ~> "Hide key";
  "Révéler la clé" ~> "Reveal key";
  "Clé créée !" ~> "Key created!";
  "Clé révoquée." ~> "Key revoked.";
  "Demande de tokens envoyée !" ~> "Token request sent!";
  "Modèle :" ~> "Model:";
  "Vous :" ~> "You:";
  "Assistant :" ~> "Assistant:";
  "fichier-{n}.txt" ~> "file-{n}.txt";
  "fichier-{n}.{ext}" ~> "file-{n}.{ext}";
  "« {name} » dépasse 96 Ko — trop gros pour le contexte."
    ~> "« {name} » exceeds 96 KB — too large for the context.";
  "Erreur réseau." ~> "Network error.";
  "Le modèle n'a renvoyé aucune réponse." ~> "The model returned no response.";
  "⚠ Réponse arrêtée : le modèle répétait les mêmes lignes en boucle."
    ~> "⚠ Answer stopped: the model was repeating the same lines in a loop.";
  "Utilisation du contexte" ~> "Context usage";
  "System prompt (optionnel)" ~> "System prompt (optional)";
  "Ex : Tu es un assistant concis et technique." ~> "E.g. You are a concise, technical assistant.";
  "Température" ~> "Temperature";
  "Max tokens" ~> "Max tokens";
  "Top-p" ~> "Top-p";
  "Cette conversation n'a pas pu être chargée." ~> "This conversation could not be loaded.";
  "Conversation non enregistrée — elle disparaîtra au rechargement."
    ~> "Conversation not saved — it will be gone after a reload.";
  "L'action a échoué." ~> "The action failed.";
  "Le serveur n'a pas répondu — réessaie." ~> "The server did not respond — try again.";
  "Le déliage a échoué." ~> "Unlinking failed.";
  "Impossible de charger tes clés :" ~> "Could not load your keys:";
  "Révoquer la clé « {alias} » ? Les programmes qui l'utilisent cesseront de fonctionner."
    ~> "Revoke the key « {alias} »? Programs using it will stop working.";
  "Champs requis manquants :" ~> "Missing required fields:";
  "le nom" ~> "the name";
  "l'URL" ~> "the URL";
  "la description" ~> "the description";
  "les instructions" ~> "the instructions";
  "Supprimer le serveur MCP « {nom} » ? Son secret sera perdu."
    ~> "Delete the MCP server « {nom} »? Its secret will be lost.";
  "Supprimer la compétence « {nom} » ?" ~> "Delete the skill « {nom} »?";
  "Copie impossible depuis ce navigateur." ~> "Copying is not available in this browser.";
  "« {name} » : seuls les fichiers texte sont acceptés." ~> "« {name} »: only text files are accepted.";
  "« {name} » n'a pas pu être lu." ~> "« {name} » could not be read.";
  "Effort de raisonnement" ~> "Reasoning effort";
  "Par défaut" ~> "Default";
  "Basse" ~> "Low";
  "Moyenne" ~> "Medium";
  "Maximale" ~> "Max";
  "Réglages du playground" ~> "Playground settings";
  "Prompt système" ~> "System prompt";
  "Persona" ~> "Persona";
  "Aucun — conversation à nu" ~> "None — plain conversation";
  "Personnalisé" ~> "Custom";
  "Génération" ~> "Generation";
  "Génère une fonction, un script ou un test" ~> "Generate a function, a script or a test";
  "Expliquer" ~> "Explain";
  "Décompose un sujet technique simplement" ~> "Break down a technical topic simply";
  "Analyser des logs" ~> "Analyse logs";
  "Analyse ces logs et trouve la cause de l'erreur : "
    ~> "Analyse these logs and find the cause of the error: ";
  "Résumer" ~> "Summarise";
  "{n} demande(s) en attente de décision" ~> "{n} request(s) awaiting a decision";
  "Des modèles ou des budgets attendent ton approbation."
    ~> "Models or budgets are waiting for your approval.";
  "Ouvrir les demandes" ~> "Open requests";
  "Réponse API : médiane {a} ms · p95 {b} ms sur {n} appels"
    ~> "API response: median {a} ms · p95 {b} ms over {n} calls";
  "Configuration" ~> "Configuration";
  "LDAP" ~> "LDAP";
  "Configuration de l'instance" ~> "Instance configuration";
  "Absent" ~> "Missing";
  "(non défini)" ~> "(not set)";
  "Vérification complète" ~> "Full verification";
  "Code, service, parcours utilisateur, santé — comme avant un push."
    ~> "Code, running service, user journeys, health — what you run before a push.";
  "Tout est vert" ~> "Everything green";
  "Un contrôle échoue" ~> "A check is failing";
  "En cours depuis {n} s" ~> "Running for {n} s";
  "En cours…" ~> "Running…"
].

Definition EN_8 : list (jstr * jstr) := [
  "Lancer la vérification" ~> "Run the verification";
  "Échec du lancement" ~> "Could not start";
  "Identité de la plateforme" ~> "Platform identity";
  "Le nom et le logo affichés en haut à gauche — à l'image de celui qui déploie l'instance."
    ~> "The name and logo shown top left — the identity of whoever deploys the instance.";
  "Nom de l'instance" ~> "Instance name";
  "Ex : Acme AI" ~> "e.g. Acme AI";
  "Choisir un logo" ~> "Choose a logo";
  "Retirer le logo" ~> "Remove the logo";
  "Aucun logo : la favicon par défaut est utilisée." ~> "No logo: the default favicon is used.";
  "Échec de l'enregistrement" ~> "Could not save.";
  "Identité enregistrée." ~> "Identity saved.";
  "Logo trop lourd (2 Mo maximum)." ~> "Logo too large (2 MB max).";
  "Enregistrement…" ~> "Saving…";
  (u "Compétences du playground (menu « / »)",
   u "Playground skills (the " ++ [DQ] ++ u "/" ++ [DQ] ++ u " menu)");
  (u "Appelées depuis le composeur en tapant « / ». Les intégrées sont livrées avec la plateforme ; les tiennes sont modifiables depuis le playground.",
   u "Called from the composer by typing " ++ [DQ] ++ u "/" ++ [DQ] ++ u ". The built-in ones ship with the platform; yours are editable from the playground.");
  "Anti-IA — détection et correction" ~> "Anti-AI — detection and rewriting";
  "Repère et corrige les tournures typiques d'un texte généré par IA"
    ~> "Spot and fix the tells of AI-generated writing";
  "Repère et corrige les tournures d'IA dans ce texte : " ~> "Spot and fix the AI tells in this text: ";
  "Rédiger un mail" ~> "Write an email";
  "Un mail pro : objet net, corps utile, ton juste"
    ~> "A professional email: a sharp subject, useful body, the right tone";
  "Écris un mail pour : " ~> "Write an email to ";
  "Concevoir une page web" ~> "Design a web page";
  "Une page au design soigné : HTML/CSS complet, accessible, responsive"
    ~> "A well-designed page: complete HTML/CSS, accessible, responsive";
  "Conçois une page web pour : " ~> "Design a web page for ";
  "Préparer une présentation" ~> "Prepare a presentation";
  "Plan de diapositives : un message par slide, un récit qui tient"
    ~> "A slide deck: one message per slide, a story that holds";
  "Prépare une présentation sur : " ~> "Prepare a presentation about ";
  "Compte rendu de réunion" ~> "Meeting notes";
  "Décisions, actions, responsables — à partir de notes brutes"
    ~> "Decisions, actions, owners — from raw notes";
  "Fais le compte rendu de ces notes de réunion : " ~> "Turn these meeting notes into minutes: ";
  "Condense un texte en points clés" ~> "Condense a text into key points";
  "Rédiger" ~> "Write";
  "Traduire" ~> "Translate";
  "Imaginer" ~> "Brainstorm";
  "Relire" ~> "Proofread";
  "Comment puis-je vous aider aujourd'hui ?" ~> "How can I help you today?";
  "Tapez / pour appeler une compétence" ~> "Type / to call a skill";
  "Résumez un document, générez une image, écrivez du code…"
    ~> "Summarize a document, generate an image, write code…";
  "Créer un skill" ~> "Create a skill";
  "Aucune compétence ne correspond" ~> "No matching skill";
  "Commande (optionnel)" ~> "Command (optional)";
  "Prompt à envoyer" ~> "Prompt to send";
  "Créer le skill" ~> "Create the skill";
  "Mes compétences" ~> "My skills";
  "Ajoute tes propres compétences" ~> "Add your own skills";
  "Trouve la cause d'une erreur dans des logs" ~> "Find the cause of an error in logs";
  "Rédige un texte, un email ou un document" ~> "Write a text, email or document";
  "Traduis un texte vers une autre langue" ~> "Translate a text to another language";
  "Propose des idées et des alternatives" ~> "Propose ideas and alternatives";
  "Relis, corrige et améliore un texte" ~> "Review, correct and improve a text";
  "Résume ce texte en 3 points clairs et concis : " ~> "Summarize this text in 3 clear, concise points: ";
  "Explique-moi ce sujet simplement, comme à un débutant : "
    ~> "Explain this topic simply, as if to a beginner: ";
  "Écris le code suivant, complet et exécutable : " ~> "Write the following code, complete and runnable: ";
  "Rédige le texte suivant : " ~> "Write the following text: ";
  "Traduis le texte suivant : " ~> "Translate the following text: ";
  "Propose-moi des idées à partir de ce sujet : " ~> "Give me ideas about this topic: ";
  "Relis le texte suivant, corrige les fautes et améliore le style : "
    ~> "Proofread the following text, fix errors and improve the style: ";
  "Sys" ~> "Sys";
  "Certaines compétences remplacent le prompt système" ~> "Some skills replace the system prompt";
  "Le prompt système provient d'une compétence. Choisir un persona le remplacera."
    ~> "The system prompt comes from a skill. Choosing a persona will replace it.";
  "Chargement des utilisateurs" ~> "Loading users";
  "Mis à jour" ~> "Updated";
  "Impossible de charger le tableau de bord" ~> "Unable to load the dashboard";
  "Aucune demande de modèle pour l'instant." ~> "No model request yet.";
  "à la demande" ~> "on demand";
  "Disponibilité par capacité" ~> "Availability by capability";
  "Lancer une conversation" ~> "Start a conversation";
  "Reprendre une conversation" ~> "Resume a conversation";
  "Tout voir" ~> "See all";
  "Fenêtre de contexte" ~> "Context window";
  "Répartition" ~> "Breakdown";
  "Messages" ~> "Messages";
  "Message en cours de modification" ~> "Editing a message";
  "Le prochain envoi remplacera ce message et la suite de la conversation."
    ~> "The next send will replace this message and the rest of the conversation.";
  "En modification" ~> "Editing";
  "Ex : Résumer des PDF" ~> "E.g. Summarize PDFs";
  "Ex : resumer" ~> "E.g. summarize";
  "Ce que fait cette compétence" ~> "What this skill does";
  "Ex : Résume ce document…" ~> "E.g. Summarize this document…";
  "Ex : Tu es un assistant spécialisé…" ~> "E.g. You are a specialised assistant…";
  "Une compétence = un prompt à envoyer + une commande / pour l'appeler"
    ~> "A skill = a prompt to send + a / command to call it";
  "Un assistant IA connecté à la plateforme : il voit tes clés (masquées), ton budget et l'état du serveur pour t'aider en cas de pépin."
    ~> "An AI assistant wired into the platform: it sees your keys (masked), your budget and the server status to help when something goes wrong.";
  "aucun modèle actif" ~> "no active model";
  "Pas de réponse." ~> "No response.";
  "Erreur réseau — réessaie." ~> "Network error — try again.";
  "Écris ton message…  (Entrée pour envoyer, Maj+Entrée pour un saut de ligne)"
    ~> "Write your message…  (Enter to send, Shift+Enter for a new line)";
  "L'assistant ne voit que tes données (clés masquées). Ne colle jamais une clé complète ici."
    ~> "The assistant only sees your data (masked keys). Never paste a full key here.";
  "Créer une clé" ~> "Create a key";
  "Génère une nouvelle clé API pour tes intégrations" ~> "Generate a new API key for your integrations";
  "Crée-moi une clé API pour mon laptop" ~> "Create an API key for my laptop";
  "Demander du budget" ~> "Request budget";
  "Augmente ton quota de tokens mensuel" ~> "Raise your monthly token quota";
  "Demande plus de budget pour mon compte" ~> "Request more budget for my account";
  "Modèles disponibles" ~> "Available models";
  "Liste les modèles actifs et leur fenêtre de contexte" ~> "List active models and their context window";
  "Quels modèles je peux utiliser et quel est leur contexte ?"
    ~> "Which models can I use and what is their context?";
  "Erreur 401" ~> "401 error";
  "Diagnostique un problème d'authentification" ~> "Diagnose an authentication problem";
  "Ma clé API renvoie une erreur 401, pourquoi ?" ~> "My API key returns a 401 error, why?";
  "Recherche en direct dans tout Hugging Face. Demande ensuite le lancement du modèle sur le DGX."
    ~> "Live search across all of Hugging Face. Then request the model be launched on the DGX.";
  "Recherche" ~> "Search";
  "Nom de modèle, ex: Qwen, Ornith, Mistral..." ~> "Model name, e.g. Qwen, Ornith, Mistral...";
  "Tâche" ~> "Task";
  "Toutes les tâches" ~> "All tasks";
  "Chercher" ~> "Search";
  "Charger plus" ~> "Load more";
  "Seulement testés sur DGX Spark (GB10)" ~> "Only tested on DGX Spark (GB10)";
  "Filtre actif : seuls les modèles portant le tag GB10 — testés sur DGX Spark — sont affichés."
    ~> "Filter on: only models tagged GB10 — tested on DGX Spark — are shown.";
  "Toutes les tâches, tout le catalogue. Le tag GB10 est signalé par un badge quand le modèle le porte."
    ~> "All tasks, the whole catalog. A GB10 badge marks the models that carry the tag.";
  "Sans jeton Hugging Face, les dépôts à accès restreint n'apparaissent pas dans les résultats."
    ~> "Without a Hugging Face token, gated repositories do not show up in the results.";
  "La recherche porte sur le nom du dépôt, pas sur sa description : vérifie l'orthographe."
    ~> "The search matches the repository name, not its description: check the spelling.";
  "Chercher sur Hugging Face" ~> "Search on Hugging Face";
  "modèles affichés" ~> "models shown";
  "résultats pour" ~> "results for";
  "les plus téléchargés de Hugging Face" ~> "the most downloaded on Hugging Face";
  "Tape un nom de modèle pour explorer Hugging Face." ~> "Type a model name to explore Hugging Face.";
  "Demander" ~> "Request";
  "Identifiant HuggingFace *" ~> "HuggingFace identifier *";
  "Format : organisation/nom-du-modèle" ~> "Format: organisation/model-name";
  "Pourquoi ce modèle ? (optionnel)" ~> "Why this model? (optional)";
  "Ex : tester les capacités de raisonnement, comparer avec Ornith..."
    ~> "E.g. test reasoning capabilities, compare with Ornith...";
  "Envoyer la demande" ~> "Send request";
  "Demande envoyée !" ~> "Request sent!";
  "L'admin est notifié par Discord et email. Le statut apparaît sur ta page d'accueil."
    ~> "The admin is notified by Discord and email. The status appears on your home page.";
  "Tu ne connais pas l'ID exact ? " ~> "Don't know the exact ID? ";
  "Cherche sur HuggingFace →" ~> "Search on HuggingFace →"
].

Definition EN_9 : list (jstr * jstr) := [
  "Période" ~> "Period";
  "Aucune consommation sur cette période." ~> "No consumption over this period.";
  "Tokens réellement consommés sur la période, par compte."
    ~> "Real tokens used over the period, per account.";
  "Rang" ~> "Rank";
  "Compte" ~> "Account";
  "Part du total" ~> "Share of total";
  "Tendance" ~> "Trend";
  "Activité sur la période" ~> "Activity over the period";
  "Évolution" ~> "Change";
  "Évolution vs {p}" ~> "Change vs {p}";
  "Total" ~> "Total";
  "Généré" ~> "Generated";
  "Entrée" ~> "Input";
  "Métrique" ~> "Metric";
  "dont {n} générés" ~> "{n} of it generated";
  "Votre position" ~> "Your rank";
  "sur {n} comptes actifs" ~> "across {n} active accounts";
  "Vous n'avez rien consommé sur cette période." ~> "You have not used anything over this period.";
  "tokens au total" ~> "tokens in total";
  "Classement indisponible." ~> "Leaderboard unavailable.";
  "La consommation n'a pas pu être lue. Réessaie dans un instant."
    ~> "Consumption could not be read. Try again in a moment.";
  "Total = entrée + généré." ~> "Total = input + generated.";
  (u "« Depuis le début » n'a pas de période précédente : aucune évolution à afficher.",
   [DQ] ++ u "Since the beginning" ++ [DQ] ++ u " has no previous period: no change to show.");
  "Les lignes non attribuées ne correspondent à aucun compte (clés supprimées ou de test) : elles consomment sans être classées."
    ~> "Unattributed rows match no account (deleted or test keys): they consume without being ranked.";
  "Clés non attribuées" ~> "Unattributed keys";
  "Administration" ~> "Administration";
  "Pilotage des modèles, quotas de tokens et demandes des utilisateurs."
    ~> "Model control, token quotas and user requests.";
  "Vue d'ensemble" ~> "Overview";
  "Modèles" ~> "Models";
  "Demandes" ~> "Requests";
  "Activité en direct" ~> "Live activity";
  "Filtrer le catalogue" ~> "Filter the catalog";
  "Nom ou identifiant (ex : llama-3-8b, Qwen)" ~> "Name or identifier (e.g. llama-3-8b, Qwen)";
  "Aucun modèle ne correspond." ~> "No model matches.";
  "Tout replier" ~> "Collapse all";
  "Tout déplier" ~> "Expand all";
  "Accès réservé aux administrateurs" ~> "Administrators only";
  "Ton compte n'a pas les droits nécessaires pour voir cette page."
    ~> "Your account does not have the rights to view this page.";
  "Retour à l'accueil" ~> "Back to home";
  "Action effectuée." ~> "Action completed.";
  "Démarrage…" ~> "Starting…";
  "Échec du chargement" ~> "Loading failed";
  "Le modèle de dictée n'a pas pu se charger :" ~> "The dictation model could not be loaded:";
  "La mémoire est partagée avec le modèle de chat : libère de la mémoire, puis relance la dictée."
    ~> "Memory is shared with the chat model: free some memory, then start dictation again.";
  "Erreur" ~> "Error";
  "Runner inaccessible" ~> "Runner unreachable";
  "Arrêté" ~> "Stopped";
  "Arrêter" ~> "Stop";
  "Démarrer" ~> "Start";
  "JSON" ~> "JSON";
  "Actualiser l'état" ~> "Refresh state";
  "Injoignable" ~> "Unreachable";
  "Ajouter un modèle OCR" ~> "Add an OCR model";
  "Nom (ex: unlimited-ocr)" ~> "Name (e.g. unlimited-ocr)";
  "Lancer" ~> "Launch";
  "Ajouter un modèle" ~> "Add a model";
  "HF ID" ~> "HF ID";
  "Moteur" ~> "Engine";
  "Args" ~> "Args";
  "Args du moteur" ~> "Engine args";
  "Publier une annonce" ~> "Publish an announcement";
  "Titre" ~> "Title";
  "Détails" ~> "Details";
  "Détails (optionnel)" ~> "Details (optional)";
  "Publier" ~> "Publish";
  "Logs —" ~> "Logs —";
  "Logs — {v}" ~> "Logs — {v}";
  "aucun modèle" ~> "no model";
  "Demandes en attente" ~> "Pending requests";
  "Lancées" ~> "Launched";
  "Refusées" ~> "Rejected";
  "Limite de tokens par défaut (nouvelles clés)" ~> "Default token limit (new keys)";
  "Tokens générés" ~> "Generated tokens";
  "Prefill" ~> "Prefill";
  "{n} tokens d'entrée" ~> "{n} input tokens";
  "Qui utilise le modèle · 30 dernières minutes · visible admin uniquement"
    ~> "Who is using the model · last 30 minutes · admin only";
  "{n} session(s) en cours sur le moteur" ~> "{n} session(s) running on the engine";
  "la plus ancienne depuis {d}" ~> "oldest started {d}";
  "ingestion du prompt {a} / {b} tokens" ~> "reading the prompt {a} / {b} tokens";
  "Ces requêtes sont anonymes jusqu'à leur fin : LiteLLM n'écrit la ligne qu'une fois la requête terminée."
    ~> "These requests stay anonymous until they finish: LiteLLM only writes its row once a request is over.";
  "en cours depuis {d}" ~> "running for {d}";
  "Aucun de ces comptes n'a émis à l'instant : les sessions en cours ne sont pas encore attribuées."
    ~> "None of these accounts has just sent anything: the running sessions are not attributed yet.";
  "débit global {n} tok/s" ~> "overall {n} tok/s";
  "activité inconnue" ~> "activity unknown";
  "il y a {n} s" ~> "{n} s ago";
  "il y a {n} min" ~> "{n} min ago";
  "il y a {n} h" ~> "{n} h ago";
  "req" ~> "req";
  "tok" ~> "tok";
  "moyenne {n} tok/s" ~> "{n} tok/s average";
  "Durée (ex: 1d, 7d, 12h)" ~> "Duration (e.g. 1d, 7d, 12h)";
  "Appliquer" ~> "Apply";
  "Demandes de tokens" ~> "Token requests";
  "Dernière utilisation" ~> "Last used";
  "Services média" ~> "Media services";
  "en direct" ~> "live";
  "Erreur lors de l'envoi de la demande." ~> "Error while sending the request.";
  "La génération a échoué." ~> "Generation failed.";
  "Nouvel utilisateur" ~> "New user";
  "Nouveau groupe" ~> "New group";
  "Comptes connus" ~> "Known accounts";
  "Comptes locaux" ~> "Local accounts";
  "Administrateurs" ~> "Administrators";
  "Rechercher" ~> "Search";
  "Identifiant ou nom…" ~> "Username or name…";
  "Toutes les sources" ~> "All sources";
  "Rôle" ~> "Role";
  "Aucun utilisateur" ~> "No users";
  "Aucun compte ne correspond à la recherche." ~> "No account matches your search.";
  "Aucun groupe pour l'instant." ~> "No groups yet.";
  "Réinitialiser le mot de passe" ~> "Reset password";
  "Nouveau mot de passe (8 caractères min.)" ~> "New password (8 characters min.)";
  "Ouvrir le fichier" ~> "Open file";
  "Ouvrir le document" ~> "Open document";
  "Voici le document — ouvre-le pour le lire ou le copier."
    ~> "Here's the document — open it to read or copy it.";
  "Voici le fichier — ouvre-le pour le copier." ~> "Here's the file — open it to copy it.";
  "Rédaction en cours…" ~> "Writing…";
  "Écriture en cours…" ~> "Writing the file…";
  "Ouvrir le document en cours de rédaction" ~> "Open the document being written";
  "Télécharger" ~> "Download";
  "Descendre" ~> "Scroll to bottom";
  "Autre…" ~> "Other…";
  "Ta réponse" ~> "Your answer";
  "Ta réponse…" ~> "Your answer…";
  "Envoyer les réponses" ~> "Send answers";
  "Question" ~> "Question";
  "Suivant" ~> "Next";
  "Précédent" ~> "Previous";
  "Réponses envoyées" ~> "Answers sent";
  "Aucun modèle vidéo chargé" ~> "No video model loaded";
  "La génération est indisponible pour l'instant, mais tu peux revoir tes vidéos précédentes ci-dessous."
    ~> "Generation is unavailable for now, but you can review your previous videos below.";
  "Aucun modèle OCR chargé" ~> "No OCR model loaded";
  "Génération d'image" ~> "Image generation";
  "Une description → une image générée localement sur le GPU."
    ~> "A description → an image generated locally on the GPU.";
  "Aucun modèle image n'est disponible" ~> "No image model is available";
  "Demande à un admin d'ajouter un modèle image pour utiliser cette page."
    ~> "Ask an admin to add an image model to use this page.";
  "Aucun modèle image chargé" ~> "No image model loaded";
  "La génération est indisponible pour l'instant, mais tu peux revoir tes images précédentes ci-dessous."
    ~> "Generation is unavailable for now, but you can review your previous images below.";
  "Logs à afficher" ~> "Logs to show";
  "Version" ~> "Version"
].

Definition EN_10 : list (jstr * jstr) := [
  "versions" ~> "versions";
  "Composer" ~> "Compose";
  "Année" ~> "Year";
  "Tout" ~> "All time";
  "12 derniers mois" ~> "Last 12 months";
  "Depuis le début" ~> "All time";
  "les 12 mois précédents" ~> "the previous 12 months";
  "Aucun log — ce modèle n'est pas démarré." ~> "No logs — this model isn't running.";
  "Aucun modèle vocal chargé" ~> "No voice model loaded";
  "La génération est indisponible pour l'instant, mais tu peux réécouter et copier tes créations précédentes ci-dessous."
    ~> "Generation is unavailable for now, but you can replay and copy your previous creations below.";
  "Décris l'image" ~> "Describe the image";
  "Ex : un renard roux dans la neige, style photo réaliste, lumière douce."
    ~> "E.g. a red fox in the snow, photorealistic style, soft light.";
  "Image prête." ~> "Image ready.";
  "Aucun modèle image configuré." ~> "No image model configured.";
  "L'extraction est indisponible pour l'instant, mais tu peux revoir tes extractions précédentes."
    ~> "Extraction is unavailable for now, but you can review your previous extractions.";
  "Notifications Discord" ~> "Discord notifications";
  "Lié" ~> "Linked";
  "Compte Discord lié :" ~> "Discord account linked:";
  "Lie ton compte Discord pour recevoir les annonces (changement de modèle, maintenance…) en message privé."
    ~> "Link your Discord account to get announcements (model changes, maintenance…) as a private message.";
  "Lier mon compte Discord" ~> "Link my Discord account";
  "Délier" ~> "Unlink";
  "Compte Discord délié." ~> "Discord account unlinked.";
  "Compte Discord lié — tu recevras les annonces en message privé."
    ~> "Discord account linked — you'll get announcements as a private message.";
  "Discord : échec de la liaison. Réessaie." ~> "Discord: linking failed. Try again.";
  "La liaison Discord n'est pas configurée." ~> "Discord linking isn't configured.";
  "Fichier" ~> "File";
  "Redimensionner le panneau" ~> "Resize the panel";
  "recommandé" ~> "recommended";
  "Modèle virtuel : route toujours vers le modèle chat actuellement chargé — ton code n'a rien à changer quand l'admin bascule de modèle. Choisis un modèle nommé pour t'épingler à celui-là."
    ~> "Virtual model: always routes to the chat model currently loaded — your code needs no change when the admin switches models. Pick a named model to pin to that one.";
  "Contexte entrée" ~> "Input context";
  "Contexte sortie" ~> "Output context";
  "Cherche un utilisateur pour voir ses quotas et son utilisation (LiteLLM, OCR, vidéo, voix). Réservé aux admins."
    ~> "Search a user to see their quota and usage (LiteLLM, OCR, video, voice). Admins only.";
  "clé(s)" ~> "key(s)";
  "extractions" ~> "extractions";
  "générations" ~> "generations";
  "Aucune" ~> "None";
  "Mode maintenance actif" ~> "Maintenance mode active";
  "Mode maintenance" ~> "Maintenance mode";
  "Bloque l'accès à l'API et au chat/OCR/vidéo pour les non-admins, sans arrêter les modèles. Les admins gardent l'accès."
    ~> "Blocks API and chat/OCR/video access for non-admins, without stopping the models. Admins keep access.";
  "Désactiver" ~> "Disable";
  "Activer" ~> "Enable";
  "Mode maintenance en cours" ~> "Maintenance mode in progress";
  "L'accès à l'API et aux fonctionnalités du site est temporairement suspendu. Réessaie plus tard."
    ~> "Access to the API and site features is temporarily suspended. Try again later.";
  "Demandes de modèles" ~> "Model requests";
  "Utilisateur" ~> "User";
  "Budget actuel" ~> "Current budget";
  "Clés" ~> "Keys";
  "Action" ~> "Action";
  "Approuver" ~> "Approve";
  "Refuser" ~> "Reject";
  "Lancé ✓" ~> "Launched ✓";
  "en attente" ~> "pending";
  "Aucun résultat pour" ~> "No results for";
  "Plateforme IA privée · NVIDIA DGX Spark" ~> "Private AI platform · NVIDIA DGX Spark";
  "Mot de passe" ~> "Password";
  "Se connecter" ~> "Sign in";
  "Ou" ~> "Or";
  "Se connecter avec le SSO {name}" ~> "Sign in with {name} SSO";
  "Reprendre la conversation précédente" ~> "Resume the previous conversation";
  "Elle n'est pas chargée : le Support démarre toujours à zéro."
    ~> "It is not loaded: Support always starts from scratch.";
  "Réflexion" ~> "Thinking";
  "Réflexion en cours…" ~> "Thinking…";
  "Réflexion du modèle (plus lente, plus coûteuse)" ~> "Model thinking (slower, costlier)";
  "Auto (selon la demande)" ~> "Auto (based on the request)";
  "Toujours" ~> "Always";
  "Jamais" ~> "Never";
  "Lecture du fichier…" ~> "Reading the file…";
  "Nouvelle conversation" ~> "New conversation";
  "Historique" ~> "History";
  "Aucune conversation" ~> "No conversations";
  "Joindre un fichier" ~> "Attach a file";
  "Joindre un fichier ou une image" ~> "Attach a file or an image";
  (u "« {name} » : ce modèle ne lit pas les images.",
   [DQ] ++ u "{name}" ++ [DQ] ++ u ": this model can't read images.");
  "4 images au plus par message." ~> "At most 4 images per message.";
  (u "« {name} » dépasse 25 Mo.",
   [DQ] ++ u "{name}" ++ [DQ] ++ u " is larger than 25 MB.");
  "Ce modèle ne lit pas les images : elles n'ont pas été envoyées."
    ~> "This model can't read images: they were not sent.";
  "Image jointe {n}" ~> "Attached image {n}";
  (u "« {name} » est trop grande (plus de 2 Mo) et ce navigateur bloque sa réduction : réduis-la avant de la joindre.",
   [DQ] ++ u "{name}" ++ [DQ] ++ u " is too large (over 2 MB) and this browser blocks resizing it: shrink it before attaching.");
  "image" ~> "image";
  "Fichiers joints" ~> "Attached files";
  "Fichiers texte uniquement. Les tokens comptent sur ton budget."
    ~> "Text files only. Tokens count against your budget.";
  "Raisonnement" ~> "Reasoning";
  "Dicter" ~> "Dictate";
  "Arrêter la dictée" ~> "Stop dictation";
  "Transcription…" ~> "Transcribing…";
  "Aucune parole détectée." ~> "No speech detected.";
  "Échec de la transcription." ~> "Transcription failed.";
  "OCR injoignable." ~> "OCR unreachable.";
  "Copié." ~> "Copied.";
  "Aucun modèle OCR n'est disponible" ~> "No OCR model is available";
  "Demande à un admin de démarrer un modèle OCR pour utiliser cette page."
    ~> "Ask an admin to start an OCR model to use this page.";
  "Extrait le texte d'une image ou d'un document scanné."
    ~> "Extracts text from an image or a scanned document.";
  "Aperçu du document" ~> "Document preview";
  "Changer d'image" ~> "Change image";
  "Image ou scan" ~> "Image or scan";
  "PNG, JPEG ou WebP — 15 Mo max." ~> "PNG, JPEG or WebP — 15 MB max.";
  "Instruction (optionnel)" ~> "Instruction (optional)";
  "Extraire le texte" ~> "Extract text";
  "dernier" ~> "recent";
  "derniers" ~> "recent";
  "(vide)" ~> "(empty)";
  "Extraction en cours…" ~> "Extracting…";
  "Terminé" ~> "Done";
  "Vue du résultat" ~> "Result view";
  "Texte" ~> "Text";
  "Zones détectées" ~> "Detected zones";
  "Élément détecté" ~> "Element detected";
  "Le résultat s'affichera ici" ~> "The result will appear here";
  "Choisis une image à gauche puis lance l'extraction."
    ~> "Pick an image on the left, then start the extraction.";
  "Aucun modèle vidéo n'est disponible" ~> "No video model is available";
  "Demande à un admin de démarrer un modèle vidéo pour utiliser cette page."
    ~> "Ask an admin to start a video model to use this page.";
  "Génération vidéo" ~> "Video generation";
  "Une description, avec ou sans image de référence, → une courte vidéo avec audio synchronisé. Génère localement sur le GPU, compte 5 à 10 minutes selon la charge."
    ~> "A description, with or without a reference image, → a short video with synced audio. Generates locally on the GPU, allow 5 to 10 minutes depending on load.";
  "Image de référence (optionnel)" ~> "Reference image (optional)";
  "PNG, JPEG ou WebP — 15 Mo max. Sans image, génère depuis le texte seul."
    ~> "PNG, JPEG or WebP — 15 MB max. Without an image, generates from text alone.";
  "Décris la scène" ~> "Describe the scene";
  "Ex : un ballon rouge qui rebondit sur un sol blanc, caméra fixe."
    ~> "E.g. a red ball bouncing on a white floor, static camera.";
  "Durée" ~> "Duration";
  "Générer" ~> "Generate";
  "En file d'attente…" ~> "Queued…";
  "Génération en cours…" ~> "Generating…";
  "Vidéo prête." ~> "Video ready.";
  "Échec de la génération." ~> "Generation failed.";
  "Progression" ~> "Progress";
  "En cours" ~> "In progress";
  "ComfyUI injoignable." ~> "ComfyUI unreachable.";
  "Aucun modèle vocal n'est disponible" ~> "No voice model is available"
].

Definition EN_11 : list (jstr * jstr) := [
  "Demande à un admin de démarrer un modèle vocal pour utiliser cette page."
    ~> "Ask an admin to start a voice model to use this page.";
  "Clonage de voix" ~> "Voice cloning";
  "Un échantillon de ta voix, un texte, → le texte lu avec cette voix. Génère localement sur le GPU, quelques secondes suffisent."
    ~> "A sample of your voice, some text, → that text read in that voice. Generates locally on the GPU, a few seconds is enough.";
  "WAV ou MP3 — 15 Mo max, au moins quelques secondes de voix claire."
    ~> "WAV or MP3 — 15 MB max, at least a few seconds of clear speech.";
  "Trop court : enregistre au moins 6 secondes de voix." ~> "Too short: record at least 6 seconds of speech.";
  "Échantillon vocal de référence" ~> "Reference voice sample";
  "Texte à lire" ~> "Text to read";
  "Ex : Bonjour, ceci est un test de clonage vocal." ~> "E.g. Hello, this is a voice cloning test.";
  "Générer la voix" ~> "Generate voice";
  "Voix prête." ~> "Voice ready.";
  "Service voix injoignable." ~> "Voice service unreachable.";
  "Ouvrir le clonage de voix" ~> "Open voice cloning";
  "Backends" ~> "Backends";
  "Catalogue" ~> "Catalog";
  "Type de modèle" ~> "Model type";
  "LLM" ~> "LLM";
  "Nom (ex: qwen3-tts)" ~> "Name (e.g. qwen3-tts)";
  "La vidéo n'a pas de catalogue : un seul workflow ComfyUI figé, démarré et arrêté depuis la ligne « Backends » ci-dessus."
    ~> "Video has no catalog: a single fixed ComfyUI workflow, started and stopped from the “Backends” row above.";
  "Ajouter un modèle voix" ~> "Add a voice model";
  "Qwen3-TTS 1.7B (10 langues)" ~> "Qwen3-TTS 1.7B (10 languages)";
  "Qwen3-TTS 0.6B (10 langues)" ~> "Qwen3-TTS 0.6B (10 languages)";
  "Variante" ~> "Variant";
  "Langue du texte" ~> "Text language";
  "Transcription de l'échantillon (optionnel)" ~> "Sample transcript (optional)";
  "Recopie ici exactement ce que tu as dit dans l'enregistrement."
    ~> "Type here exactly what you said in the recording.";
  "Améliore nettement la ressemblance. Sans elle, seule l'empreinte vocale est utilisée."
    ~> "Noticeably improves likeness. Without it, only the voice fingerprint is used.";
  "Source de la voix" ~> "Voice source";
  "Enregistrer au micro" ~> "Record from mic";
  "Importer un fichier" ~> "Upload a file";
  "Parle pendant 10 à 30 secondes pour un bon résultat — 1 minute maximum, l'enregistrement s'arrête tout seul."
    ~> "Speak for 10 to 30 seconds for a good result — 1 minute maximum, recording stops on its own.";
  "Démarrer l'enregistrement" ~> "Start recording";
  "Arrêter l'enregistrement" ~> "Stop recording";
  "Enregistrement en cours" ~> "Recording";
  "Enregistrement" ~> "Recording";
  "Réenregistrer" ~> "Record again";
  "Micro inaccessible — autorise l'accès au microphone dans ton navigateur."
    ~> "Microphone unavailable — allow microphone access in your browser.";
  "Impossible de convertir l'enregistrement." ~> "Could not convert the recording.";
  "Échec de la génération — l'échantillon doit contenir plus de 5 secondes de voix."
    ~> "Generation failed — the sample must contain more than 5 seconds of speech.";
  "Échantillon audio refusé par le service voix." ~> "Audio sample rejected by the voice service.";
  "Échec de l'envoi de l'échantillon audio." ~> "Failed to upload the audio sample.";
  "Le service voix a mis trop de temps à répondre." ~> "The voice service took too long to respond.";
  "Un texte est requis." ~> "Some text is required.";
  "Aucun échantillon audio fourni." ~> "No audio sample provided.";
  "Format audio non supporté (WAV/MP3 uniquement)." ~> "Unsupported audio format (WAV/MP3 only).";
  "Échantillon audio trop volumineux (15 Mo max)." ~> "Audio sample too large (15 MB max).";
  "Session expirée — recharge la page et réessaie." ~> "Session expired — reload the page and try again.";
  "Identifiants incorrects." ~> "Incorrect credentials.";
  "Appareil inconnu" ~> "Unknown device";
  "Origine non enregistrée : session ouverte avant que le portail ne note l'IP et le navigateur."
    ~> "Origin not recorded: this session was opened before the portal started recording the IP and browser.";
  "Accès révoqué pour ce compte. Contacte un administrateur."
    ~> "Access revoked for this account. Contact an administrator.";
  "Serveur MCP mis à jour" ~> "MCP server updated";
  "Serveur MCP connecté" ~> "MCP server connected";
  "outil(s) trouvé(s)" ~> "tool(s) found";
  "Serveur activé" ~> "Server enabled";
  "Exemple : notion_workspace" ~> "Example: notion_workspace";
  "Exemple : analyse-de-logs" ~> "Example: log-analysis";
  "Vous" ~> "You";
  "toi" ~> "you";
  "% utilisé" ~> "% used";
  "Bonjour 👋 Je suis **{name}**, l'assistant de la plateforme. Je peux te dépanner (clé, quota, modèle, intégration OpenCode/Hermes…) mais aussi **agir pour toi** : créer une clé, demander du budget, demander un modèle. Dis-moi ce qu'il te faut."
    ~> "Hi 👋 I'm **{name}**, the platform's assistant. I can help you troubleshoot (keys, quota, models, OpenCode/Hermes integration…) but I can also **act on your behalf**: create a key, request budget, request a model. Tell me what you need.";
  "Révoquer une clé API" ~> "Revoke an API key";
  "Lancer un modèle" ~> "Launch a model";
  "Arrêter le modèle" ~> "Stop the model";
  "Action bloquée après lecture d'un contenu externe." ~> "Action blocked after reading external content.";
  "Jour" ~> "Day";
  "Semaine" ~> "Week";
  "Mois" ~> "Month";
  "compte actif" ~> "active account";
  "comptes actifs" ~> "active accounts";
  "Aujourd'hui" ~> "Today";
  "Source" ~> "Source";
  "Externe" ~> "External";
  "SSO" ~> "SSO";
  "Local" ~> "Local";
  "Géré" ~> "Managed";
  "Ici" ~> "Here";
  "via" ~> "via";
  "Crée et gère les comptes locaux, les groupes, les quotas et les droits."
    ~> "Create and manage local accounts, groups, quotas and rights.";
  "Identifiant" ~> "Username";
  "Créer" ~> "Create";
  "Non" ~> "No";
  "Oui" ~> "Yes";
  "Utilisateurs" ~> "Users";
  "Comptes locaux gérés ici (mots de passe hachés). Le quota vient de la surcharge de l'utilisateur, sinon du groupe, sinon du défaut global."
    ~> "Local accounts managed here (hashed passwords). Quota comes from the user's override, else the group, else the global default.";
  "Nom complet" ~> "Full name";
  "Quota (vide = groupe/défaut)" ~> "Quota (empty = group/default)";
  "Aucun groupe" ~> "No group";
  "Groupe" ~> "Group";
  "/ j" ~> "/ d";
  "Actif" ~> "Active";
  "Désactivé" ~> "Disabled";
  "Actions" ~> "Actions";
  "Retirer admin" ~> "Remove admin";
  "Rendre admin" ~> "Make admin";
  "Nouveau mot de passe" ~> "New password";
  "Groupes" ~> "Groups";
  "quota par défaut" ~> "default quota";
  "Supprimer ce groupe ?" ~> "Delete this group?";
  "Nom du groupe" ~> "Group name";
  "Admin par défaut" ~> "Default admin";
  "Ajouter le groupe" ~> "Add group";
  "Échec de l'action." ~> "Action failed.";
  "Génération moy." ~> "Avg. generation";
  "Extraction moy." ~> "Avg. extraction";
  "Dernière" ~> "Last";
  "Caractères/doc" ~> "Chars/doc";
  "Facteur temps réel" ~> "Real-time factor";
  "Vitesse de synthèse" ~> "Synthesis speed";
  "Taux de réussite" ~> "Success rate";
  "Vidéo générée auj." ~> "Video made today";
  "Calcul / s de vidéo" ~> "Compute / s of video"
].

Definition EN_12 : list (jstr * jstr) := [
  "7 derniers jours" ~> "Last 7 days";
  "30 derniers jours" ~> "Last 30 days";
  "hier" ~> "yesterday";
  "la semaine précédente" ~> "the previous week";
  "les 30 jours précédents" ~> "the previous 30 days";
  "Cogitation" ~> "Cogitating";
  "Rumination" ~> "Ruminating";
  "Gamberge" ~> "Pondering";
  "Mijotage" ~> "Simmering";
  "Élucubration" ~> "Musing";
  "Ébullition" ~> "Percolating";
  "Méditation" ~> "Meditating";
  "Tergiversation" ~> "Waffling";
  "Concoction" ~> "Concocting";
  "Nom et URL requis." ~> "Name and URL required.";
  "Connexion au serveur MCP impossible." ~> "Could not connect to the MCP server.";
  "Tu as déjà un serveur MCP avec ce nom." ~> "You already have an MCP server with this name.";
  "Serveur introuvable." ~> "Server not found.";
  "URL invalide." ~> "Invalid URL.";
  "L'URL doit être en https://." ~> "The URL must use https://.";
  "URL invalide (pas d'hôte)." ~> "Invalid URL (no host).";
  "Cet hôte n'est pas autorisé." ~> "This host is not allowed.";
  "Nom d'hôte introuvable." ~> "Hostname not found.";
  "Cette adresse pointe vers un réseau interne/privé, refusée."
    ~> "This address points to an internal/private network and is refused.";
  "Nom, description et instructions requis." ~> "Name, description and instructions required.";
  "Tu as déjà une compétence avec ce nom." ~> "You already have a skill with this name.";
  "Compétence introuvable." ~> "Skill not found.";
  "Thème inconnu." ~> "Unknown theme.";
  "Langue inconnue." ~> "Unknown language.";
  "Modèle OCR introuvable." ~> "OCR model not found.";
  "Identifiant invalide (a-z, 0-9, . _ - , max 64)." ~> "Invalid username (a-z, 0-9, . _ - , max 64).";
  "Cet utilisateur existe déjà." ~> "This user already exists.";
  "Groupe inconnu." ~> "Unknown group.";
  "Utilisateur introuvable." ~> "User not found.";
  "Quota invalide." ~> "Invalid quota.";
  "Un prompt texte est requis." ~> "A text prompt is required.";
  "ComfyUI inaccessible ou requête refusée." ~> "ComfyUI unreachable or request refused.";
  "Aucune image fournie." ~> "No image provided.";
  "Format d'image non supporté (PNG/JPEG/WebP uniquement)."
    ~> "Unsupported image format (PNG/JPEG/WebP only).";
  "Image trop volumineuse (15 Mo max)." ~> "Image too large (15 MB max).";
  "Aucun audio fourni." ~> "No audio provided.";
  "Enregistrement trop volumineux (15 Mo max)." ~> "Recording too large (15 MB max).";
  "La transcription a mis trop de temps." ~> "Transcription took too long.";
  "Service de transcription injoignable." ~> "Transcription service unreachable.";
  "Mode maintenance en cours — réessaie plus tard." ~> "Maintenance in progress — try again later.";
  "Sécurité" ~> "Security";
  "Exiger une clé de sécurité au login" ~> "Require a security key at login";
  "Ta clé sera demandée après le mot de passe (local ou LDAP)."
    ~> "Your key will be requested after the password (local or LDAP).";
  "Une fois activée, la clé est exigée à chaque connexion."
    ~> "Once enabled, the key is required on every sign-in.";
  "Clés de sécurité" ~> "Security keys";
  "Ajouter une clé" ~> "Add a key";
  "Clé de sécurité" ~> "Security key";
  "Clé de sécurité ajoutée." ~> "Security key added.";
  "Échec de l'enregistrement de la clé." ~> "Failed to register the key.";
  "Ajout de clé annulé." ~> "Key addition cancelled.";
  "Ce navigateur ne supporte pas les clés de sécurité." ~> "This browser does not support security keys.";
  "Aucune clé de sécurité" ~> "No security key";
  "Ajoute une passkey, une YubiKey ou une clé 1Password pour sécuriser ton compte."
    ~> "Add a passkey, a YubiKey, or a 1Password key to secure your account.";
  "Confirme avec ton mot de passe pour supprimer la clé." ~> "Confirm with your password to delete the key.";
  "Confirme avec ton mot de passe pour changer la double authentification."
    ~> "Confirm with your password to change two-factor authentication.";
  "Confirme avec ton mot de passe pour ajouter une clé." ~> "Confirm with your password to add a key.";
  "Confirmer" ~> "Confirm";
  "Clé supprimée." ~> "Key deleted.";
  "Double authentification mise à jour." ~> "Two-factor authentication updated.";
  "Double authentification annulée." ~> "Two-factor authentication cancelled.";
  "Vérification de la clé échouée." ~> "Key verification failed.";
  "Envie de ce modèle ? Préviens le responsable, il pourra le lancer."
    ~> "Want this model? Let the admin know, they can launch it.";
  "Demander ce modèle" ~> "Request this model";
  "Demande envoyée" ~> "Request sent";
  "Demande envoyée au responsable." ~> "Request sent to the admin.";
  "La demande a échoué." ~> "The request failed.";
  "Ouvrir le chat" ~> "Open chat";
  "Ouvrir la génération d'image" ~> "Open image generation";
  "Pourquoi le modèle est-il arrêté ?" ~> "Why is the model stopped?";
  "Diagnostique l'arrêt et propose de le relancer" ~> "Diagnoses the outage and offers to relaunch it";
  "Pourquoi le modèle est-il arrêté ? Peux-tu le relancer ?"
    ~> "Why is the model stopped? Can you relaunch it?";
  "Comment créer ma clé API ?" ~> "How do I create my API key?";
  "L'assistant te la crée et t'explique comment l'utiliser"
    ~> "The assistant creates it for you and explains how to use it";
  "Comment créer ma clé API ? Peux-tu le faire pour moi ?"
    ~> "How do I create my API key? Can you do it for me?";
  "Cette action sensible n'a pas encore été exécutée : elle attend ta confirmation."
    ~> "This sensitive action has not run yet — it is waiting for your confirmation.";
  "Réponse interrompue." ~> "Response interrupted.";
  "Réponse utile" ~> "Helpful answer";
  "Réponse pas utile" ~> "Unhelpful answer";
  "Un commentaire ? (facultatif)" ~> "A comment? (optional)";
  "Merci, c'est noté." ~> "Thanks, noted.";
  "Double authentification, sessions actives et mot de passe de ton compte."
    ~> "Two-factor authentication, active sessions, and your account password.";
  "Sessions actives" ~> "Active sessions";
  "Les appareils connectés à ton compte — révoque ceux que tu ne reconnais pas."
    ~> "Devices signed in to your account — revoke the ones you don't recognise.";
  "Révoquer les autres sessions" ~> "Revoke other sessions";
  "Session révoquée." ~> "Session revoked.";
  "Sessions révoquées." ~> "Sessions revoked.";
  "Cet appareil" ~> "This device";
  "Aucune session active" ~> "No active sessions";
  "Les sessions apparaîtront ici." ~> "Sessions will appear here.";
  "Expire" ~> "Expires";
  "Le mot de passe sert au login et à confirmer les actions sensibles."
    ~> "The password is used to sign in and to confirm sensitive actions.";
  "Mot de passe actuel" ~> "Current password";
  "Confirmer le nouveau mot de passe" ~> "Confirm new password";
  "Changer le mot de passe" ~> "Change password";
  "Mot de passe modifié." ~> "Password changed.";
  "Les deux nouveaux mots de passe ne correspondent pas." ~> "The two new passwords don't match.";
  "Bloquer…" ~> "Block…";
  "Bloquer" ~> "Block";
  "Débloquer" ~> "Unblock";
  "Bloqué" ~> "Blocked";
  "Bloquer ce compte" ~> "Block this account";
  "Le compte sera refusé au login, quelle que soit la source d'authentification, et ses sessions actives seront révoquées."
    ~> "The account will be refused at sign-in whatever its authentication source, and its active sessions will be revoked.";
  "Compte bloqué." ~> "Account blocked.";
  "Compte bloqué — {n} session(s) révoquée(s)." ~> "Account blocked — {n} session(s) revoked.";
  "Compte débloqué." ~> "Account unblocked.";
  "verrouillé après trop d'échecs, {n} min" ~> "locked after too many failures, {n} min";
  "Dernières actions de ce compte" ~> "Recent actions by this account";
  "Détails du compte" ~> "Account details";
  "Dernière source" ~> "Last source";
  "Dernière activité" ~> "Last activity";
  "par" ~> "by";
  "Surcharge utilisateur" ~> "User override";
  "Quota effectif" ~> "Effective quota";
  "Dépensé (LiteLLM)" ~> "Spent (LiteLLM)";
  "Aucun profil LiteLLM" ~> "No LiteLLM profile";
  "Fenêtre de budget" ~> "Budget window";
  "Sans nom" ~> "Unnamed";
  "Conversations" ~> "Conversations"
].

Definition EN_13 : list (jstr * jstr) := [
  "Révoquer toutes ses sessions" ~> "Revoke all sessions";
  "Supprimer ce compte" ~> "Delete this account";
  "Cette action est définitive : elle révoque les clés API et les sessions du compte, supprime son enveloppe LiteLLM ET ses données personnelles (mémoires, conversations, préférences, passkeys)."
    ~> "This action is permanent: it revokes the account's API keys and sessions, deletes its LiteLLM envelope AND its personal data (memories, conversations, preferences, passkeys).";
  "Tapez DELETE pour confirmer" ~> "Type DELETE to confirm";
  "Supprimer définitivement" ~> "Delete permanently";
  "Compte supprimé." ~> "Account deleted.";
  "Purger les données…" ~> "Purge data…";
  "Purger les données" ~> "Purge data";
  "Purger" ~> "Purge";
  "Données du compte purgées." ~> "Account data purged.";
  "Cette action efface DÉFINITIVEMENT les données du compte : mémoires, conversations, liens de partage, préférences et clés API."
    ~> "This action PERMANENTLY erases the account's data: memories, conversations, share links, preferences and API keys.";
  "Elle ne retire pas l'accès : un compte LDAP/SSO peut se reconnecter et repartira d'un compte vide. Pour retirer l'accès, utilise Bloquer."
    ~> "It does not remove access: an LDAP/SSO account can sign in again and will start from an empty account. To remove access instead, use Block.";
  "Accès refusé." ~> "Access denied.";
  "Arrêter le modèle servi ?" ~> "Stop the served model?";
  "Le modèle va être coupé : toutes les générations en cours, pour tous les utilisateurs, seront interrompues."
    ~> "The model will be shut down: every in-flight generation, for every user, will be interrupted.";
  "Lancer {name} ?" ~> "Launch {name}?";
  "Le modèle sera chargé en mémoire unifiée — le lancement peut prendre plusieurs minutes."
    ~> "The model will be loaded into unified memory — launching can take several minutes.";
  "Supprimer {name} ?" ~> "Delete {name}?";
  "Le modèle sera retiré du catalogue et du routage LiteLLM, et ses fichiers seront effacés du disque (sauf s'ils servent à un autre modèle). Pour le retélécharger, il faudra le réinstaller. Un modèle en cours doit d'abord être arrêté."
    ~> "The model will be removed from the catalogue and from LiteLLM routing, and its files will be erased from disk (unless another model uses them). To use it again it must be reinstalled. A running model must be stopped first.";
  "Activer le mode maintenance ?" ~> "Enable maintenance mode?";
  "Désactiver le mode maintenance ?" ~> "Disable maintenance mode?";
  "Le trafic non-admin vers les routes de génération sera refusé ; les admins gardent l'accès."
    ~> "Non-admin traffic to the generation routes will be refused; admins keep access.";
  "Le trafic non-admin vers les routes de génération sera de nouveau accepté."
    ~> "Non-admin traffic to the generation routes will be accepted again.";
  "Modifier les args du moteur" ~> "Edit engine args";
  "Seuls les args du moteur changent ; l'entrée reste identifiée par son nom et son HF ID."
    ~> "Only the engine args change; the entry keeps its name and HF ID.";
  "État de la plateforme" ~> "Platform status";
  "Relevé indisponible — impossible de lire l'état de la plateforme."
    ~> "Status unavailable — could not read the platform state.";
  "Vérifié à {time}" ~> "Checked at {time}";
  "Maintenance" ~> "Maintenance";
  "Disque" ~> "Disk";
  "Espace disque faible" ~> "Low disk space";
  "Espace disque suffisant" ~> "Disk space OK";
  "{v} Go libre" ~> "{v} GB free";
  "{v} Go sur {w} Go libres" ~> "{v} GB of {w} GB free";
  "Sauvegarde" ~> "Backup";
  "sauvegarde illisible" ~> "backup unreadable";
  "Sauvegarde en retard" ~> "Backup overdue";
  "Sauvegarde récente" ~> "Recent backup";
  "il y a {h} h" ~> "{h} h ago";
  "âge inconnu" ~> "unknown age";
  "archives" ~> "archives";
  "Moniteur" ~> "Monitor";
  "état non lisible" ~> "state not readable";
  "incident(s) actif(s)" ~> "active incident(s)";
  "aucun incident" ~> "no incidents";
  "Modèle servi" ~> "Served model";
  "en service depuis {u}" ~> "up for {u}";
  "état inconnu" ~> "unknown state";
  "Portail" ~> "Portal";
  "base {v} Mo" ~> "DB {v} MB";
  "sessions actives" ~> "active sessions";
  "comptes locaux" ~> "local users";
  "clés actives" ~> "active keys";
  "Génération de texte" ~> "Text generation";
  "Texte vers texte" ~> "Text to text";
  "Plongements (embeddings)" ~> "Embeddings";
  "Texte vers image" ~> "Text to image";
  "Texte vers vidéo" ~> "Text to video";
  "Image vers texte" ~> "Image to text";
  "Accès restreint" ~> "Gated access";
  "Recherche impossible." ~> "Search failed.";
  "Résultats indisponibles." ~> "Results unavailable.";
  "Hugging Face ne répond pas. Réessaie dans un instant."
    ~> "Hugging Face is not responding. Try again in a moment.";
  "Aucun modèle GB10 ne correspond, mais il y en a sur tout Hugging Face : décoche le filtre ci-dessus."
    ~> "No GB10-tagged model matches, but Hugging Face does have some — clear the filter above.";
  "Hugging Face ne connaît aucun modèle pour cette recherche."
    ~> "Hugging Face knows no model for this search.";
  "Tu as déjà une demande en attente pour ce modèle." ~> "You already have a pending request for this model.";
  "L'identifiant du modèle est requis." ~> "The model id is required.";
  "Partage impossible :" ~> "Sharing failed:";
  "Copier la clé" ~> "Copy key";
  "Clé « {alias} » copiée." ~> "Key “{alias}” copied.";
  "Créée le" ~> "Created";
  "Jamais utilisée" ~> "Never used";
  "Nouveau nom pour la clé « {alias} » :" ~> "New name for key “{alias}”:";
  "Clé renommée." ~> "Key renamed.";
  "Consommé sur la période" ~> "Used this period";
  "Remis à zéro le {date}." ~> "Resets on {date}.";
  "Supprimer mon compte" ~> "Delete my account";
  "Supprimer définitivement mon compte" ~> "Permanently delete my account";
  "Effacer mes données" ~> "Erase my data";
  "Ton mot de passe" ~> "Your password";
  "La suppression a échoué." ~> "Deletion failed.";
  "Ton compte est supprimé. Tu vas être déconnecté…" ~> "Your account is deleted. You are being signed out…";
  "Cela supprime ton compte, tes clés API, tes conversations et ta mémoire. C'est définitif."
    ~> "This deletes your account, your API keys, your conversations, and your memory. It cannot be undone.";
  "Cela efface tes données du portail (clés, conversations, mémoire, préférences). Ton compte, lui, appartient à l'annuaire : il continue d'exister."
    ~> "This erases your portal data (keys, conversations, memory, preferences). The account itself belongs to the directory and keeps existing.";
  "Tes données du portail sont effacées. Ton compte, lui, existe toujours dans l'annuaire : demande à un administrateur de le bloquer si tu pars."
    ~> "Your portal data has been erased. The account itself still exists in the directory — ask an administrator to block it if you are leaving.";
  "Compte SSO : la double authentification se règle chez ton fournisseur d'identité, pas ici."
    ~> "SSO account: two-factor authentication is managed by your identity provider, not here.";
  "Compte LDAP : ton mot de passe est celui de l'annuaire. Le portail ne le stocke pas, il le vérifie auprès de l'annuaire — change-le depuis ton administrateur."
    ~> "LDAP account: your password is the directory's. The portal does not store it, it verifies it against the directory — change it through your administrator.";
  "Compte SSO : ton mot de passe appartient au fournisseur d'identité, qui seul peut le changer. Le portail n'en connaît aucun."
    ~> "SSO account: your password belongs to the identity provider, which alone can change it. The portal knows none.";
  "Le portail n'a pas de mot de passe pour ce compte : il se connecte par l'annuaire (LDAP ou SSO), où le mot de passe se change."
    ~> "The portal has no password for this account: it signs in through the directory (LDAP or SSO), where the password is changed.";
  "Suppression impossible — la conversation est conservée." ~> "Could not delete — the conversation is kept.";
  "Suppression impossible." ~> "Could not delete.";
  "Image trop lourde : 15 Mo maximum." ~> "Image too large: 15 MB maximum.";
  "Session incomplète — recharge la page." ~> "Incomplete session — reload the page."
].

Definition EN_14 : list (jstr * jstr) := [
  "Trop de tentatives. Réessaie dans {wait} min." ~> "Too many attempts. Try again in {wait} min.";
  "Trop de tentatives, réessaie dans {wait} s." ~> "Too many attempts — try again in {wait} s.";
  "Trop de requêtes. Réessaie dans {wait} s." ~> "Too many requests. Try again in {wait} s.";
  "Accès réservé aux administrateurs." ~> "Administrators only.";
  "CSRF token manquant ou invalide." ~> "Missing or invalid CSRF token.";
  "Accès révoqué pour ce compte." ~> "Access revoked for this account.";
  "Mot de passe incorrect." ~> "Incorrect password.";
  "Mot de passe requis." ~> "Password required.";
  "Mot de passe requis pour supprimer ton compte." ~> "Password required to delete your account.";
  "Mot de passe requis pour ajouter une clé." ~> "Password required to add a key.";
  "Demande de connexion expirée ou invalide." ~> "Sign-in request expired or invalid.";
  "Demande d'enregistrement expirée ou invalide." ~> "Registration request expired or invalid.";
  "Compte incohérent." ~> "Inconsistent account.";
  "Session introuvable (déjà fermée ?)." ~> "Session not found (already closed?).";
  "Identifiant de session invalide." ~> "Invalid session identifier.";
  "Identifiant de session ambigu, réessaie." ~> "Ambiguous session identifier — try again.";
  "Clé refusée : la vérification a échoué." ~> "Key refused: verification failed.";
  "Clé invalide." ~> "Invalid key.";
  "Réponse de clé manquante." ~> "Missing key response.";
  "Clé inconnue pour ce compte." ~> "Unknown key for this account.";
  "Enregistre d'abord une clé de sécurité." ~> "Register a security key first.";
  "Compte SSO : aucun mot de passe n'est géré par le portail, la vérification est impossible."
    ~> "SSO account: the portal manages no password, verification is impossible.";
  "Compte géré par l'annuaire (LDAP/SSO) : le mot de passe se change là-bas."
    ~> "Directory-managed account (LDAP/SSO): the password is changed there.";
  "Le nouveau mot de passe est identique à l'actuel." ~> "The new password is the same as the current one.";
  "Confirmation requise : cette suppression est définitive."
    ~> "Confirmation required: this deletion is permanent.";
  "Clé introuvable sur ce compte." ~> "Key not found on this account.";
  "Tu as déjà une clé nommée ainsi." ~> "You already have a key with that name.";
  "La clé n'a pas pu être créée : le service de clés (LiteLLM) n'a pas répondu. Réessaie dans un instant."
    ~> "The key could not be created: the key service (LiteLLM) did not respond. Try again in a moment.";
  "La clé n'a PAS pu être révoquée : LiteLLM n'a pas répondu. Elle est encore valide, réessaie."
    ~> "The key could NOT be revoked: LiteLLM did not respond. It is still valid — try again.";
  "Le nom n'a PAS pu être changé : LiteLLM n'a pas répondu. La clé est intacte, réessaie."
    ~> "The name could NOT be changed: LiteLLM did not respond. The key is intact — try again.";
  "Le nom doit contenir au moins un caractère (lettres, chiffres, - ou _)."
    ~> "The name must contain at least one character (letters, digits, - or _).";
  "Modèle introuvable." ~> "Model not found.";
  "Modèle arrêté." ~> "Model stopped.";
  "Échec de l'arrêt du modèle." ~> "Failed to stop the model.";
  "Lancement refusé par le runner." ~> "Launch refused by the runner.";
  "Nom et HF model ID requis." ~> "Name and HF model ID required.";
  "Un modèle avec ce nom existe déjà." ~> "A model with this name already exists.";
  "Durée invalide (ex: 1d, 7d, 30d, 12h)." ~> "Invalid duration (e.g. 1d, 7d, 30d, 12h).";
  "Lancement de {name} accepté — chargement en cours." ~> "Launch of {name} accepted — loading in progress.";
  "Modèle introuvable dans le catalogue." ~> "Model not found in the catalogue.";
  "Modèle voix introuvable." ~> "Voice model not found.";
  "Un modèle OCR avec ce nom existe déjà." ~> "An OCR model with this name already exists.";
  "Un modèle voix avec ce nom existe déjà." ~> "A voice model with this name already exists.";
  "Nom et variante requis (variante hors liste autorisée)."
    ~> "Name and variant required (variant outside the allowed list).";
  "Modèle OCR supprimé du catalogue." ~> "OCR model removed from the catalogue.";
  "Modèle voix supprimé du catalogue." ~> "Voice model removed from the catalogue.";
  "Args du modèle mis à jour." ~> "Model args updated.";
  "Args du modèle mis à jour (routage LiteLLM rafraîchi)."
    ~> "Model args updated (LiteLLM routing refreshed).";
  "Montant irréaliste (> 1e12 tokens) — vérifie la saisie."
    ~> "Unrealistic amount (> 1e12 tokens) — check what you typed.";
  "Budget : nombre strictement positif attendu (tokens). Pour couper l'accès d'un compte, utilise le blocage du compte — réversible et tracé ; un budget de 0 le plafonne réellement à zéro token."
    ~> "Budget: a strictly positive number is expected (tokens). To cut an account's access, use account blocking — reversible and logged; a budget of 0 really caps it at zero tokens.";
  "Demande introuvable ou déjà traitée." ~> "Request not found or already handled.";
  "Demande introuvable." ~> "Request not found.";
  "Demande mise à jour." ~> "Request updated.";
  "Demande rejetée." ~> "Request rejected.";
  "Statut invalide." ~> "Invalid status.";
  "Tu as déjà une demande en attente." ~> "You already have a pending request.";
  "Demande envoyée pour « {name} » !" ~> "Request sent for “{name}”!";
  "Le montant à ajouter doit être un nombre positif." ~> "The amount to add must be a positive number.";
  "Erreur lors de la mise à jour du budget sur LiteLLM." ~> "Failed to update the budget on LiteLLM.";
  "Durée de la subvention : nombre de jours entre 1 et 365 (vide = permanent)."
    ~> "Grant duration: number of days between 1 and 365 (empty = permanent).";
  "Action inconnue : {action}" ~> "Unknown action: {action}";
  "Action inconnue." ~> "Unknown action.";
  "id manquant" ~> "missing id";
  "messages invalides" ~> "invalid messages";
  "conversation introuvable" ~> "conversation not found";
  "conversation illisible" ~> "unreadable conversation";
  "Tu ne peux pas supprimer ton propre compte." ~> "You cannot delete your own account.";
  "Tu ne peux pas purger ton propre compte." ~> "You cannot purge your own account.";
  "Tu ne peux pas bloquer ton propre compte." ~> "You cannot block your own account.";
  "Dernier administrateur local : nomme un autre administrateur avant de supprimer celui-ci."
    ~> "Last local administrator: appoint another administrator before deleting this one.";
  "Tu es le dernier administrateur local : nomme un autre administrateur avant de supprimer ton compte."
    ~> "You are the last local administrator: appoint another administrator before deleting your account.";
  "Ce compte est local : utilise la suppression, qui retire aussi l'accès."
    ~> "This account is local: use deletion, which also removes access.";
  "Confirmation requise : cette suppression emporte les accès ET les données du compte."
    ~> "Confirmation required: this deletion takes the account's access AND data.";
  "Confirmation requise : cette opération efface définitivement les données du compte."
    ~> "Confirmation required: this operation permanently erases the account's data.";
  "Compte créé, mais son quota n'a PAS pu être appliqué sur LiteLLM : le compte est sans plafond tant que le budget n'est pas redéfini."
    ~> "Account created, but its quota could NOT be applied on LiteLLM: the account has no cap until the budget is set again.";
  "Mode maintenance activé." ~> "Maintenance mode enabled.";
  "Mode maintenance désactivé." ~> "Maintenance mode disabled.";
  "Nom d'utilisateur invalide." ~> "Invalid username.";
  "Avatar inconnu." ~> "Unknown avatar.";
  "Modèle non chargé." ~> "Model not loaded.";
  "Modèle de transcription non chargé." ~> "Transcription model not loaded.";
  "Fichier audio trop volumineux." ~> "Audio file too large.";
  "Audio illisible." ~> "Unreadable audio.";
  "Format audio non supporté." ~> "Unsupported audio format.";
  "Enregistrement trop court." ~> "Recording too short.";
  "Enregistrement trop long ({dur}s, maximum {max}s)." ~> "Recording too long ({dur}s, maximum {max}s).";
  "Enregistrement refusé." ~> "Recording refused.";
  "Trop de générations en cours. Attends la fin des précédentes."
    ~> "Too many generations in progress. Wait for the previous ones to finish.";
  "Trop de générations d'images en cours. Attends la fin des précédentes."
    ~> "Too many image generations in progress. Wait for the previous ones to finish.";
  "Ce job n'est plus actif." ~> "This job is no longer active.";
  "Trop de générations d'images en cours pour ce compte — attends la fin des précédentes."
    ~> "Too many image generations in progress for this account — wait for the previous ones to finish.";
  "La génération d'image a échoué (sidecar indisponible ou surchargé). Dis-le tel quel à l'utilisateur."
    ~> "Image generation failed (sidecar unavailable or overloaded). Say it to the user as-is.";
  "Fait introuvable." ~> "Fact not found.";
  "Fichier trop volumineux." ~> "File too large.";
  "Aucun fait reconnu dans ce fichier." ~> "No fact recognised in this file.";
  "JSON invalide." ~> "Invalid JSON.";
  "Encodage invalide (UTF-8 attendu)." ~> "Invalid encoding (UTF-8 expected).";
  "Modèle image inconnu." ~> "Unknown image model.";
  "Demande inconnue." ~> "Unknown request.";
  "Cette demande a expiré (ou a déjà été traitée)." ~> "This request expired (or has already been handled).";
  "Cette demande a déjà été traitée." ~> "This request has already been handled.";
  "Vote invalide." ~> "Invalid vote.";
  "Annonce publiée — elle s'affichera à l'ouverture du site."
    ~> "Announcement published — it will show up when the site opens.";
  "Titre requis pour l'annonce." ~> "A title is required for the announcement.";
  "Dernier administrateur local : nomme un autre administrateur avant de bloquer celui-ci."
    ~> "Last local administrator: appoint another administrator before blocking this one.";
  "Mode maintenance en cours — l'API est temporairement indisponible, réessaie plus tard."
    ~> "Maintenance in progress — the API is temporarily unavailable, try again later.";
  "SMTP non configuré (renseigne-le dans Admin → Config, ou SMTP_HOST / SMTP_USER / SMTP_PASSWORD / ADMIN_EMAIL)."
    ~> "SMTP not configured (set it in Admin → Config, or SMTP_HOST / SMTP_USER / SMTP_PASSWORD / ADMIN_EMAIL).";
  "Catégorie inconnue." ~> "Unknown category.";
  "Champs manquants." ~> "Missing fields.";
  "lecture de {f}" ~> "reading {f}";
  "modification de {f}" ~> "editing {f}";
  "modification de {f} non appliquée : {e}" ~> "edit of {f} not applied: {e}";
  "texte introuvable" ~> "text not found"
].

Definition EN_15 : list (jstr * jstr) := [
  "texte présent plusieurs fois" ~> "text found several times";
  "fichier inconnu" ~> "unknown file";
  "arguments invalides" ~> "invalid arguments";
  "fichier trop volumineux" ~> "file too large";
  "Aucune différence." ~> "No difference.";
  "création" ~> "create";
  "modification" ~> "edit";
  "Compétence « {name} » jointe au prochain message" ~> "Skill “{name}” attached to the next message";
  "Compétence synchronisée." ~> "Skill synchronized.";
  "La synchronisation a échoué." ~> "Synchronization failed.";
  "fichier(s)" ~> "file(s)";
  "Contenu" ~> "Content";
  "synchronisée le" ~> "synchronized on";
  "Synchroniser" ~> "Synchronize";
  "Télécharger (.zip)" ~> "Download (.zip)";
  "Importer une compétence (.zip)" ~> "Import a skill (.zip)";
  "Importer depuis un dépôt Git" ~> "Import from a Git repository";
  "Un dossier contenant un SKILL.md, ou un plugin / dépôt qui en contient plusieurs."
    ~> "A folder holding a SKILL.md, or a plugin / repository holding several.";
  "GitHub, GitLab, Gitea/Codeberg ou une adresse .zip. Dépôts publics uniquement."
    ~> "GitHub, GitLab, Gitea/Codeberg or a .zip address. Public repositories only.";
  "Archive .zip" ~> ".zip archive";
  "Adresse du dépôt ou du dossier" ~> "Repository or folder address";
  "Branche" ~> "Branch";
  "Dossier" ~> "Folder";
  "Remplacer les compétences du même nom" ~> "Replace skills with the same name";
  "L'import a échoué." ~> "The import failed.";
  "{n} compétence(s) importée(s) : {names}" ~> "{n} skill(s) imported: {names}";
  "Ignorées :" ~> "Skipped:";
  "Des compétences au format Claude Code (SKILL.md + fichiers). L'assistant et le playground les chargent quand elles correspondent à ta demande ; tape « / » pour en appeler une."
    ~> "Skills in the Claude Code format (SKILL.md + files). The assistant and the playground load them when they match your request; type “/” to call one.";
  "Importer (.zip)" ~> "Import (.zip)";
  "Depuis Git" ~> "From Git";
  "Crée une compétence, importe un .zip ou un dépôt Git (par exemple github.com/anthropics/skills)."
    ~> "Create a skill, import a .zip or a Git repository (for example github.com/anthropics/skills).";
  "Activée" ~> "Enabled";
  "compétence introuvable : {s}" ~> "skill not found: {s}";
  "compétence chargée : {s}" ~> "skill loaded: {s}";
  "Écrite ici" ~> "Written here";
  "Importée (.zip)" ~> "Imported (.zip)";
  "Dépôt Git" ~> "Git repository";
  "Le réglage n'a pas été enregistré." ~> "The setting was not saved.";
  "Rechercher et consulter les conversations" ~> "Search and reference chats";
  "Autoriser l'assistant à rechercher des détails pertinents dans tes conversations précédentes."
    ~> "Allow the assistant to search for relevant details in your past conversations.";
  "Générer la mémoire à partir des conversations" ~> "Generate memory from chat history";
  "Autoriser l'assistant à retenir des informations durables tirées de tes conversations, pour les réutiliser plus tard."
    ~> "Allow the assistant to remember lasting information from your conversations, to reuse it later.";
  "Inclure les sujets sensibles dans la mémoire" ~> "Include sensitive topics in memory";
  "Autoriser l'assistant à enregistrer des détails sur des sujets sensibles, comme la santé ou les croyances religieuses."
    ~> "Allow the assistant to store details about sensitive topics, such as health or religious beliefs.";
  "Importer la mémoire depuis d'autres fournisseurs d'IA" ~> "Import memory from other AI providers";
  "Récupère le contexte qu'un autre assistant (ChatGPT, Claude, Gemini…) a retenu sur toi : tu lui envoies une invite, tu colles sa réponse ici."
    ~> "Bring over the context another assistant (ChatGPT, Claude, Gemini…) has kept about you: send it a prompt, paste its answer here.";
  "Démarrer l'importation" ~> "Start import";
  "Importer la mémoire d'un autre assistant" ~> "Import memory from another assistant";
  "1. Copie cette invite dans ton autre assistant" ~> "1. Copy this prompt into your other assistant";
  "2. Colle sa réponse ici" ~> "2. Paste its answer here";
  "Réponse de l'autre assistant" ~> "The other assistant's answer";
  "Les informations sont fusionnées avec ta mémoire actuelle ; les doublons sont ignorés."
    ~> "The information is merged with your current memory; duplicates are skipped.";
  "recherche dans tes conversations : {q}" ~> "searching your conversations: {q}"
].

(** The object literal; its keys are distinct ([I18n.EN_keys_distinct]). *)
Definition EN : list (jstr * jstr) :=
  EN_1 ++ EN_2 ++ EN_3 ++ EN_4 ++ EN_5 ++ EN_6 ++ EN_7 ++ EN_8 ++ EN_9 ++ EN_10 ++ EN_11 ++ EN_12 ++ EN_13 ++ EN_14 ++ EN_15.
