(* ===== verification/I18n.v ===== *)
(** * Languages (lib/i18n.tsx)

    The French text is the key of its translation.  [translate] is the function
    [useT] hands to the components; [tServer] translates a sentence of the
    server whose values are already in it, by matching it against the keys that
    hold placeholders.  The table of these keys is computed once in the source
    and is a constant here.  The React context that carries the language is left
    out; a key of [Object.prototype] is not a text of the program. *)

From Stdlib Require Import ZifyBool.
From S2P Require Export I18nDict.
From S2P Require Import JsJson JsRegExp JsStringify.

Inductive Lang := Fr | En.
#[export] Instance Lang_eq_dec : EqDecision Lang := ltac:(solve_decision).

(** ** The language *)

(** [lang === "en" ? EN[fr] ?? fr : fr] *)
Definition translate (lang : Lang) (fr : jstr) : jstr :=
  match lang with En => default fr (assoc_get fr EN) | Fr => fr end.
Definition useLocale (lang : Lang) : jstr :=
  match lang with Fr => u "fr-FR" | En => u "en-US" end.

(** ** Sentences of the server *)

Definition re_hole : RegExp := rx "\{[^}]+\}" "g".
Definition re_hole_group : RegExp := rx "(\{[^}]+\})" "".
Definition re_only_hole : RegExp := rx "^\{[^}]+\}$" "".
Definition re_special : RegExp := rx "[.*+?^${}()|[\]\\]" "g".

(** [s.split(re)] for a pattern with groups: the captures are members too. *)
Fixpoint split_groups_loop (fuel : nat) (r : RegExp) (s : jstr) (p q : nat) : list jstr :=
  match fuel with
  | O => [drop p s]
  | S f =>
      if q <? length s then
        match match_here r q (match q with O => None | S i => s !! i end) (drop q s) with
        | Some m => if m_end m =? p then split_groups_loop f r s p (S q)
                    else slice s p q :: map (cap0 m) (groups (re_body r))
                         ++ split_groups_loop f r s (m_end m) (m_end m)
        | None => split_groups_loop f r s p (S q)
        end
      else [drop p s]
  end.
Definition split_groups (r : RegExp) (s : jstr) : list jstr := split_groups_loop (S (2 * length s)) r s 0 0.

(** The text of the pattern of a template. *)
Definition pattern (msgid : jstr) : jstr :=
  flat_map (fun m => if test re_only_hole m then u "([\s\S]*?)" else replace_all re_special (u "\$&") m)
    (List.filter (fun m => negb (streq m [])) (split_groups re_hole_group msgid)).
Definition server_re (msgid : jstr) : RegExp :=
  mkRe (default (Chars false []) (parse_re (u "^" ++ pattern msgid ++ u "$"))) (mkFlags false false).

(** [sort((a, b) => b.length - a.length)], which is stable. *)
Fixpoint insert_longest (x : jstr) (l : list jstr) : list jstr :=
  match l with
  | [] => [x]
  | y :: r => if length y <=? length x then x :: l else y :: insert_longest x r
  end.
Definition serverTemplates : list jstr :=
  foldr insert_longest [] (List.filter (test re_hole) (map fst EN)).
Definition serverModelsTable : list (RegExp * jstr) := map (fun k => (server_re k, k)) serverTemplates.

(** [s.replace(re, () => f(i))] where [i] counts the calls. *)
Fixpoint splice_count (s : jstr) (from : nat) (ms : list Match) (i : nat) (f : nat -> jstr) : jstr :=
  match ms with
  | [] => drop from s
  | m :: r => slice s from (m_index m) ++ f i ++ splice_count s (m_end m) r (S i) f
  end.
Definition replace_count (r : RegExp) (f : nat -> jstr) (s : jstr) : jstr := splice_count s 0 (match_all r s) 0 f.

Fixpoint first_model (models : list (RegExp * jstr)) (message : jstr) : option (jstr * Match) :=
  match models with
  | [] => None
  | (r, msgid) :: rest => match exec r message with
                          | Some m => Some (msgid, m)
                          | None => first_model rest message
                          end
  end.
Definition tServer (message : jstr) (t : jstr -> jstr) : jstr :=
  let direct := t message in
  if negb (streq direct message) then direct
  else match first_model serverModelsTable message with
       | Some (msgid, m) => replace_count re_hole (fun i => cap0 m (S i)) (t msgid)
       | None => direct
       end.

(** ** Templates *)

(** The texts around the placeholders of a template, and the placeholders. *)
Fixpoint gaps_from (s : jstr) (from : nat) (ms : list Match) : list jstr :=
  match ms with
  | [] => [drop from s]
  | m :: r => slice s from (m_index m) :: gaps_from s (m_end m) r
  end.
Definition gaps (s : jstr) : list jstr := gaps_from s 0 (match_all re_hole s).
Definition holes (s : jstr) : list jstr := map m_text (match_all re_hole s).

(** A template whose placeholders are replaced, from left to right, by [f 0],
    [f 1]... *)
Definition instance (s : jstr) (f : nat -> jstr) : jstr := interleave (gaps s) 0 f.

Lemma splice_count_fill s from ms i f : splice_count s from ms i f = interleave (gaps_from s from ms) i f.
Proof.
  revert from i. induction ms as [|m r IH]; intros from i; [done|].
  cbn [splice_count gaps_from]. rewrite IH. by destruct r.
Qed.
Lemma replace_count_instance f s : replace_count re_hole f s = instance s f.
Proof. apply splice_count_fill. Qed.

(** The pattern of a template: its texts, a lazy group for each placeholder. *)
Definition any_unit : re := Chars false (ws_ranges ++ compl 0 ws_ranges).
Definition spelled (g : jstr) (r : re) : re := foldr (fun c r => Cat (Chars false [(c, c)]) r) r g.
Fixpoint template_re (n : nat) (gs : list jstr) : re :=
  match gs with
  | [] => Eol
  | [g] => spelled g Eol
  | g :: r => spelled g (Cat (Grp (S n) (Rep any_unit 0 None false)) (template_re (S n) r))
  end.

#[export] Instance re_eq_dec : EqDecision re.
Proof. solve_decision. Defined.

(** The table holds, for each key with a placeholder, exactly this pattern. *)
Lemma table_patterns : Forall (fun k => server_re k = mkRe (Cat Bol (template_re 0 (gaps k))) (mkFlags false false)) serverTemplates.
Proof.
  cut (Forall (fun k => re_body (server_re k) = Cat Bol (template_re 0 (gaps k))) serverTemplates).
  { intros H. eapply Forall_impl; [exact H|]. intros k E. unfold server_re in *. cbn [re_body] in E. by rewrite E. }
  apply (bool_decide_unpack _). vm_compute. exact I.
Qed.

(** ** What the patterns match *)

Section matching.
Notation fl := (mkFlags false false).

Lemma mt_spelled g r x k : mt fl (spelled g r) x k = if is_prefix g (ms_rest x) then mt fl r (skip (length g) x) k else None.
Proof.
  revert x. induction g as [|c g IH]; intros x; [done|]. cbn [spelled foldr length skip].
  change (foldr _ r g) with (spelled g r). cbn [mt]. unfold advance. destruct (ms_rest x) as [|d y] eqn:E; [done|].
  rewrite char_in_single by done. cbn [is_prefix]. destruct (c =? d)%N; [|done]. by rewrite IH.
Qed.

(** One turn of the lazy loop: first what follows, then one unit more. *)
Lemma lazy_step rs fuel x k : rep_loop (mt fl (Chars false rs)) [] false (S fuel) 0 None x k =
  match k x with
  | Some r => Some r
  | None => match advance x with
            | Some (c, x') => if char_in fl c false rs then rep_loop (mt fl (Chars false rs)) [] false fuel 0 None x' k else None
            | None => None
            end
  end.
Proof.
  cbn [rep_loop Nat.ltb Nat.leb mt]. rewrite clear_caps_nil. destruct (k x); [done|].
  destruct (advance x) as [[c x']|] eqn:A; [|done]. destruct (char_in _ _ _ _); [|done].
  assert (P : ms_pos x' <> ms_pos x).
  { unfold advance in A. destruct (ms_rest x); [done|]. injection A as _ <-. cbn. lia. }
  apply Nat.eqb_neq in P. by rewrite P.
Qed.

Lemma lazy_sound rs fuel x k w : rep_loop (mt fl (Chars false rs)) [] false fuel 0 None x k = Some w ->
  exists j, j <= length (ms_rest x) /\ k (skip j x) = Some w.
Proof.
  revert x. induction fuel as [|fuel IH]; intros x; [done|]. rewrite lazy_step.
  destruct (k x) as [r|] eqn:E; [intros [= ->]; exists 0; split; [lia|done]|]. unfold advance.
  destruct (ms_rest x) as [|c y] eqn:R; [done|]. destruct (char_in _ _ _ _); [|done].
  intros (j & Hj & Hk)%IH. exists (S j). cbn [length ms_rest] in *. split; [lia|]. cbn [skip]. unfold advance. by rewrite R.
Qed.

Lemma any_in c : unit16 c -> char_in fl c false (ws_ranges ++ compl 0 ws_ranges) = true.
Proof.
  intros H. unfold unit16 in H. unfold char_in. cbn [ignoreCase xorb]. unfold in_ranges. apply existsb_exists.
  destruct (existsb (fun r => (r.1 <=? c)%N && (c <=? r.2)%N) (ws_ranges ++ compl 0 ws_ranges)) eqn:E.
  { by apply existsb_exists in E. }
  exfalso. revert E. let r := eval vm_compute in (ws_ranges ++ compl 0 ws_ranges) in change (ws_ranges ++ compl 0 ws_ranges) with r.
  cbn -[N.leb]. lia.
Qed.

Lemma lazy_complete fuel x k j : Forall unit16 (ms_rest x) -> j <= length (ms_rest x) -> length (ms_rest x) < fuel ->
  is_Some (k (skip j x)) -> is_Some (rep_loop (mt fl any_unit) [] false fuel 0 None x k).
Proof.
  revert x j. induction fuel as [|fuel IH]; intros x j U Hj Hf Hk; [lia|]. unfold any_unit. rewrite lazy_step.
  destruct (k x) as [r|] eqn:E; [done|]. destruct j as [|j]; [cbn [skip] in Hk; rewrite E in Hk; by apply is_Some_None in Hk|].
  cbn [skip] in Hk. unfold advance in *. destruct (ms_rest x) as [|c y] eqn:R; [cbn in Hj; lia|].
  apply Forall_cons in U as [U1 U2]. rewrite any_in by done. cbn [length] in *.
  by apply (IH _ j); cbn; [|lia|lia|].
Qed.

Lemma get_cap_cons n t cs j : get_cap ((n, t) :: cs) j = if n =? j then Some t else get_cap cs j.
Proof. unfold get_cap. cbn [find fst]. by destruct (n =? j). Qed.
Lemma get_cap_filter n cs j : j <> n -> get_cap (List.filter (fun c : nat * jstr => negb (c.1 =? n)) cs) j = get_cap cs j.
Proof.
  intros H. induction cs as [|[i t] cs IH]; [done|]. cbn [List.filter fst]. rewrite get_cap_cons.
  destruct (Nat.eqb_spec i n) as [->|]; cbn [negb]; [|by rewrite get_cap_cons, IH].
  rewrite IH. destruct (Nat.eqb_spec n j); [lia|done].
Qed.

(** What a match of a template's pattern says: the text is the template, each
    placeholder standing for what its group captured. *)
Lemma template_sound gs : gs <> [] -> forall n x w, mt fl (template_re n gs) x Some = Some w ->
  ms_rest x = interleave gs n (fun i => default [] (get_cap (ms_caps w) (S i))) /\
  forall j, j <= n -> get_cap (ms_caps w) j = get_cap (ms_caps x) j.
Proof.
  induction gs as [|g r IH]; [done|]. intros _ n x w. destruct r as [|g' r].
  - cbn [template_re interleave]. rewrite mt_spelled. destruct (is_prefix g (ms_rest x)) eqn:E; [|done].
    pose proof (skip_consumes _ _ E) as [_ C]. apply is_prefix_spec in E as [y Hy]. cbn [mt].
    rewrite skip_rest, Hy, drop_app_length. destruct y as [|c y]; [|done]. intros [= <-]. rewrite app_nil_r. by rewrite C.
  - change (template_re n (g :: g' :: r)) with (spelled g (Cat (Grp (S n) (Rep any_unit 0 None false)) (template_re (S n) (g' :: r)))).
    change (interleave (g :: g' :: r) n ?f) with (g ++ f n ++ interleave (g' :: r) (S n) f).
    rewrite mt_spelled. destruct (is_prefix g (ms_rest x)) eqn:E; [|done].
    pose proof (skip_consumes _ _ E) as [_ C]. apply is_prefix_spec in E as [y Hy].
    set (z := skip (length g) x) in *. assert (Z : ms_rest z = y) by (unfold z; by rewrite skip_rest, Hy, drop_app_length).
    cbn [mt groups]. intros (j & Hj & Hk)%lazy_sound.
    destruct (skip_pos j z Hj) as [Hp Hc]. rewrite Hp in Hk.
    replace (ms_pos z + j - ms_pos z) with j in Hk by lia. apply IH in Hk as [H1 H2]; [|done].
    cbn [with_caps ms_rest ms_caps] in H1, H2. rewrite skip_rest, Z in H1. split.
    + rewrite Hy. f_equal. rewrite (H2 (S n)) by lia. rewrite get_cap_cons, Nat.eqb_refl. cbn [default].
      rewrite <- H1, Z. symmetry. apply take_drop.
    + intros i Hi. rewrite H2, get_cap_cons by lia. replace (S n =? i) with false by (symmetry; apply Nat.eqb_neq; lia).
      rewrite get_cap_filter, Hc, C by lia. done.
Qed.

(** Every text made from the template is matched. *)
Lemma template_complete gs f : gs <> [] -> forall n x, ms_rest x = interleave gs n f -> Forall unit16 (ms_rest x) ->
  is_Some (mt fl (template_re n gs) x Some).
Proof.
  induction gs as [|g r IH]; [done|]. intros _ n x Hx U. destruct r as [|g' r].
  - cbn [template_re interleave] in *. rewrite mt_spelled, Hx. replace (is_prefix g g) with true by (symmetry; apply is_prefix_spec; exists []; by rewrite app_nil_r).
    cbn [mt]. rewrite skip_rest, Hx, drop_all. by eexists.
  - change (template_re n (g :: g' :: r)) with (spelled g (Cat (Grp (S n) (Rep any_unit 0 None false)) (template_re (S n) (g' :: r)))).
    change (interleave (g :: g' :: r) n f) with (g ++ f n ++ interleave (g' :: r) (S n) f) in Hx.
    rewrite mt_spelled. replace (is_prefix g (ms_rest x)) with true by (symmetry; apply is_prefix_spec; by eexists).
    set (z := skip (length g) x). assert (Z : ms_rest z = f n ++ interleave (g' :: r) (S n) f) by (unfold z; by rewrite skip_rest, Hx, drop_app_length).
    assert (UZ : Forall unit16 (ms_rest z)) by (unfold z; rewrite skip_rest; by apply Forall_drop).
    cbn [mt groups]. apply (lazy_complete _ _ _ (length (f n))); [done|rewrite Z, length_app; lia|lia|].
    apply IH; cbn [with_caps ms_rest]; [done| |]; rewrite skip_rest, ?Z, ?drop_app_length; [done|].
    rewrite Z in UZ. by apply Forall_app in UZ as [_ ?].
Qed.

Lemma search_late b pos c rest : search_from (mkRe (Cat Bol b) fl) pos (Some c) rest = None.
Proof. revert pos c. induction rest as [|d rest IH]; intros pos c; cbn; [done|]. apply IH. Qed.

Lemma exec_bol b s : exec (mkRe (Cat Bol b) fl) s = match_here (mkRe (Cat Bol b) fl) 0 None s.
Proof.
  unfold exec, exec_from. cbn [Nat.ltb]. replace (length s <? 0) with false by (symmetry; apply Nat.ltb_ge; lia).
  rewrite drop_0. destruct s as [|c r]; cbn [search_from]; destruct (match_here _ _ _ _); try done. apply search_late.
Qed.
End matching.

Lemma gaps_some k : gaps k <> [].
Proof. unfold gaps. by destruct (match_all re_hole k). Qed.

Lemma server_re_sound k message m : k ∈ serverTemplates -> exec (server_re k) message = Some m ->
  message = instance k (fun i => cap0 m (S i)).
Proof.
  intros Hk. rewrite (proj1 (Forall_forall _ _) table_patterns k Hk), exec_bol. unfold match_here.
  destruct (mt _ _ _ _) as [w|] eqn:E; [|done]. intros [= <-]. cbn [re_flags re_body] in E.
  change (mt _ (Cat Bol ?b) ?x ?k) with (mt (mkFlags false false) b x k) in E.
  apply template_sound in E as [E _]; [|apply gaps_some]. exact E.
Qed.
Lemma server_re_complete k message f : k ∈ serverTemplates -> message = instance k f -> Forall unit16 message ->
  is_Some (exec (server_re k) message).
Proof.
  intros Hk Hm U. rewrite (proj1 (Forall_forall _ _) table_patterns k Hk), exec_bol. unfold match_here. cbn [re_flags re_body].
  change (mt _ (Cat Bol ?b) ?x ?k) with (mt (mkFlags false false) b x k).
  destruct (template_complete (gaps k) f (gaps_some k) 0 (mkM 0 None message [])) as [w ->]; [done|done|]. by eexists.
Qed.

(** ** The table *)

Lemma test_holes k : test re_hole k = true <-> holes k <> [].
Proof.
  unfold test, holes, match_all. rewrite bool_decide_eq_true. replace (length k + 2) with (S (S (length k))) by lia.
  cbn [match_all_fuel]. change (exec_from re_hole k 0) with (exec re_hole k). destruct (exec re_hole k) as [m|].
  - split; [done|]. intros _. by eexists.
  - split; [intros []%is_Some_None|]. by intros [].
Qed.

Lemma insert_longest_in x l y : y ∈ insert_longest x l <-> y = x \/ y ∈ l.
Proof.
  induction l as [|z r IH]; cbn [insert_longest]; [by rewrite list_elem_of_singleton, elem_of_nil; naive_solver|].
  destruct (length z <=? length x); rewrite !elem_of_cons, ?IH; naive_solver.
Qed.
Lemma templates_in k : k ∈ serverTemplates <-> k ∈ map fst EN /\ holes k <> [].
Proof.
  rewrite <- test_holes. unfold serverTemplates. generalize (map fst EN). intros l.
  induction l as [|x l IH]; [by cbn; rewrite elem_of_nil; naive_solver|]. cbn [List.filter].
  destruct (test re_hole x) eqn:T; cbn [foldr]; rewrite ?insert_longest_in, IH, elem_of_cons; clear IH.
  - naive_solver.
  - split; [naive_solver|]. intros [[->|H] T']; [by rewrite T in T'|done].
Qed.

(** The longest first. *)
Definition longest_first (l : list jstr) : Prop :=
  forall l1 x l2, l = l1 ++ x :: l2 -> Forall (fun y => length y <= length x) l2.
Lemma longest_first_nil : longest_first [].
Proof. by intros [|] ? ?. Qed.
Lemma longest_first_cons x l : longest_first (x :: l) <-> Forall (fun y => length y <= length x) l /\ longest_first l.
Proof.
  split.
  - intros H. split; [by apply (H [])|]. intros l1 y l2 ->. by apply (H (x :: l1)).
  - intros [H1 H2] [|z l1] y l2 E; injection E as -> ->; [done|]. by apply (H2 l1).
Qed.
Lemma insert_longest_sorted x l : longest_first l -> longest_first (insert_longest x l).
Proof.
  induction l as [|y r IH]; cbn [insert_longest]; [intros _; apply longest_first_cons; split; [done|apply longest_first_nil]|]. intros [H1 H2]%longest_first_cons.
  destruct (Nat.leb_spec (length y) (length x)) as [L|L]; apply longest_first_cons.
  - split; [|by apply longest_first_cons]. constructor; [done|]. eapply Forall_impl; [exact H1|]. cbn. intros; lia.
  - split; [|by apply IH]. apply Forall_forall. intros z [->|Hz]%insert_longest_in; [lia|].
    by apply (proj1 (Forall_forall _ _) H1).
Qed.
Lemma templates_sorted : longest_first serverTemplates.
Proof.
  unfold serverTemplates. induction (List.filter _ _) as [|x l IH]; [apply longest_first_nil|]. by apply insert_longest_sorted.
Qed.

Lemma first_model_spec ks message : longest_first ks ->
  match first_model (map (fun k => (server_re k, k)) ks) message with
  | Some (k, m) => k ∈ ks /\ exec (server_re k) message = Some m /\
      forall k', k' ∈ ks -> is_Some (exec (server_re k') message) -> length k' <= length k
  | None => forall k, k ∈ ks -> exec (server_re k) message = None
  end.
Proof.
  induction ks as [|x ks IH]; cbn [map first_model]; [by intros _ k []%elem_of_nil|]. intros [H1 H2]%longest_first_cons.
  destruct (exec (server_re x) message) as [m|] eqn:E.
  - split; [apply elem_of_cons; by left|]. split; [done|]. intros k' [->|Hk]%elem_of_cons _; [done|].
    by apply (proj1 (Forall_forall _ _) H1).
  - specialize (IH H2). destruct (first_model _ _) as [[k m]|].
    + destruct IH as (A & B & C). split; [apply elem_of_cons; by right|]. split; [done|].
      intros k' [->|Hk]%elem_of_cons S; [rewrite E in S; by apply is_Some_None in S|]. by apply C.
    + intros k [->|Hk]%elem_of_cons; [done|]. by apply IH.
Qed.

Lemma table_spec message :
  match first_model serverModelsTable message with
  | Some (k, m) => k ∈ serverTemplates /\ exec (server_re k) message = Some m /\
      forall k', k' ∈ serverTemplates -> is_Some (exec (server_re k') message) -> length k' <= length k
  | None => forall k, k ∈ serverTemplates -> exec (server_re k) message = None
  end.
Proof. unfold serverModelsTable. apply first_model_spec, templates_sorted. Qed.

(** ** Properties *)

Definition entry_ok (e : jstr * jstr) : Prop := e.2 <> [] /\ holes e.2 = holes e.1.
#[export] Instance entry_ok_dec e : Decision (entry_ok e).
Proof. unfold entry_ok. apply _. Defined.

Lemma EN_entries : Forall entry_ok EN.
Proof. apply (bool_decide_unpack _). vm_compute. exact I. Qed.
Fixpoint distinct (l : list jstr) : bool :=
  match l with [] => true | x :: r => negb (existsb (streq x) r) && distinct r end.
Lemma distinct_nodup l : distinct l = true -> NoDup l.
Proof.
  induction l as [|x r IH]; [constructor|]. cbn [distinct]. intros [H1 H2]%andb_prop. constructor; [|by apply IH].
  intros Hx. rewrite (proj2 (existsb_exists _ _)) in H1; [done|]. exists x.
  split; [by apply list_elem_of_In|]. by destruct (streq_spec x x).
Qed.
Lemma assoc_get_in {A} k (v : A) kv : assoc_get k kv = Some v -> (k, v) ∈ kv.
Proof.
  induction kv as [|[k' v'] r IH]; cbn [assoc_get]; [done|]. destruct (streq_spec k k') as [->|].
  - intros [= ->]. apply elem_of_cons. by left.
  - intros H. apply elem_of_cons. right. by apply IH.
Qed.
Lemma translate_holes lang k : holes (translate lang k) = holes k.
Proof.
  destruct lang; [done|]. unfold translate. destruct (assoc_get k EN) as [v|] eqn:E; [|done].
  apply assoc_get_in in E. by apply (proj1 (Forall_forall _ _) EN_entries) in E as [_ ?].
Qed.
Lemma tServer_direct t message : t message <> message -> tServer message t = t message.
Proof. intros H. unfold tServer. generalize serverModelsTable. intros models. by destruct (streq_spec (t message) message). Qed.
Lemma tServer_cases t message : t message = message ->
  match first_model serverModelsTable message with
  | Some (k, m) => tServer message t = instance (t k) (fun i => cap0 m (S i))
  | None => tServer message t = message
  end.
Proof.
  intros H. unfold tServer. generalize serverModelsTable. intros models. rewrite H.
  destruct (streq_spec message message) as [_|]; [|done]. cbn [negb].
  destruct (first_model _ _) as [[k m]|]; [|done]. apply replace_count_instance.
Qed.

(** The keys of the dictionary are distinct, no translation is empty, and a
    translation holds the placeholders of its key, the same ones in the same
    order: what [tServer], which puts the values back by their position, and
    every [t(key).replace("{name}", value)] of the program rely on. *)
Theorem dictionary_wellformed :
  NoDup (map fst EN) /\ Forall (fun e => e.2 <> [] /\ holes e.2 = holes e.1) EN.
Proof. split; [|exact EN_entries]. apply distinct_nodup. vm_compute. reflexivity. Qed.

(** What [tServer] does of a sentence, in either language: an exact entry gives
    its translation; otherwise, when keys with placeholders describe the
    sentence, it takes a longest one, and the translation of that key with the
    very values of the sentence, each at the placeholder of the same name; and
    a sentence no key describes is left as it is. *)
Theorem tServer_refills lang message : Forall unit16 message ->
  let r := tServer message (translate lang) in
  (translate lang message <> message /\ r = translate lang message)
  \/ (exists k f, k ∈ map fst EN /\ holes k <> [] /\ message = instance k f /\
        r = instance (translate lang k) f /\ holes (translate lang k) = holes k /\
        forall k' g, k' ∈ map fst EN -> holes k' <> [] -> message = instance k' g -> length k' <= length k)
  \/ (r = message /\ forall k f, k ∈ map fst EN -> holes k <> [] -> message <> instance k f).
Proof.
  intros U. cbv zeta. destruct (decide (translate lang message = message)) as [D|D].
  2: { left. split; [exact D|]. by apply tServer_direct. }
  right. pose proof (tServer_cases (translate lang) message D) as T.
  pose proof (table_spec message) as F.
  destruct (first_model serverModelsTable message) as [[k m]|].
  - left. destruct F as (Hk & Hm & L). exists k, (fun i => cap0 m (S i)). pose proof (proj1 (templates_in k) Hk) as [K1 K2].
    repeat split; [done|done|by apply server_re_sound|done|apply translate_holes|].
    intros k' g K3 K4 K5. apply L; [by apply templates_in|]. eapply server_re_complete; [by apply templates_in|done|done].
  - right. split; [done|]. intros k f K1 K2 ->. assert (K : k ∈ serverTemplates) by by apply templates_in.
    destruct (server_re_complete k _ f K eq_refl U) as [m E]. by rewrite F in E.
Qed.

(** In French nothing is ever changed: the identity, whatever the sentence. *)
Theorem tServer_french message : tServer message (translate Fr) = message.
Proof.
  pose proof (tServer_cases (translate Fr) message eq_refl) as T.
  pose proof (table_spec message) as F.
  destruct (first_model serverModelsTable message) as [[k m]|]; [|done]. destruct F as (Hk & Hm & _).
  rewrite T. symmetry. by apply server_re_sound.
Qed.

Theorem tServer_refills_witness :
  let message := u "Trop de tentatives. Réessaie dans 2 min." in
  Forall unit16 message /\ tServer message (translate En) = u "Too many attempts. Try again in 2 min."
  /\ exists k f, message = instance k f /\ tServer message (translate En) = instance (translate En k) f.
Proof.
  cbv zeta. set (message := u "Trop de tentatives. Réessaie dans 2 min.").
  assert (U : Forall unit16 message) by (apply (bool_decide_unpack _); vm_compute; exact I).
  split; [exact U|]. split; [vm_compute; reflexivity|].
  destruct (tServer_refills En message U) as [[H _]|[(k & f & _ & _ & H1 & H2 & _)|[H _]]].
  - exfalso. apply H. vm_compute. reflexivity.
  - exists k, f. split; [exact H1|exact H2].
  - exfalso. revert H. vm_compute. discriminate.
Defined.

(** A sentence without an entry is not always displayed as it is: a short key
    describes it, and its last word only is translated. *)
Lemma missing_translation_mangled :
  assoc_get (u "Compte mis à jour") EN = None /\
  tServer (u "Compte mis à jour") (translate En) = u "Compte mis à day".
Proof. split; vm_compute; reflexivity. Qed.
