(* ===== verification/JsNumber.v ===== *)
(** * Numbers

    A JavaScript number is an IEEE binary64: the Standard Library's executable
    [spec_float] at precision 53, with its correctly rounded operations. *)

From Stdlib Require Export SpecFloat.
From S2P Require Import JsString.

Definition prec : Z := 53.
Definition emax : Z := 1024.
Notation num := spec_float.

(** The double nearest to [m * 10^e]: the value of a decimal literal. *)
Definition num_of_decimal (m e : Z) : num :=
  match m with
  | Z0 => S754_zero false
  | Zpos p | Zneg p =>
      let s := (m <? 0)%Z in
      if (0 <=? e)%Z then binary_normalize prec emax (m * 10 ^ e) 0 s
      else let '(q, e', l) := SFdiv_core_binary prec emax (Zpos p) 0 (10 ^ (- e)) 0 in binary_round_aux prec emax s q e' l
  end.
Definition num_of_Z (z : Z) : num := num_of_decimal z 0.

Definition nadd : num -> num -> num := SFadd prec emax.
Definition nsub : num -> num -> num := SFsub prec emax.
Definition nmul : num -> num -> num := SFmul prec emax.
Definition ndiv : num -> num -> num := SFdiv prec emax.
Definition nsqrt : num -> num := SFsqrt prec emax.
Definition nlt : num -> num -> bool := SFltb.
Definition nle : num -> num -> bool := SFleb.
Definition is_nan (x : num) : bool := match x with S754_nan => true | _ => false end.

(** [Math.max(a, b)] and [Math.min(a, b)]; the sign of a zero aside. *)
Definition nmax (a b : num) : num :=
  if is_nan a || is_nan b then S754_nan else if nlt a b then b else a.
Definition nmin (a b : num) : num :=
  if is_nan a || is_nan b then S754_nan else if nlt b a then b else a.

(** [floor((n/d) * x)] of a finite number. *)
Definition floor_scaled (n d : Z) (x : num) : option Z :=
  match x with
  | S754_zero _ => Some 0%Z
  | S754_finite s m e =>
      let z := (n * (if s then Zneg m else Zpos m))%Z in
      Some (if (0 <=? e)%Z then (z * 2 ^ e / d)%Z else (z / (d * 2 ^ (- e)))%Z)
  | _ => None
  end.
Definition math_floor (x : num) : option Z := floor_scaled 1 1 x.
(** [Math.round(x)]: the floor of [x + 1/2], computed exactly. *)
Definition math_round (x : num) : option Z :=
  (fun h => (h + 1) / 2)%Z <$> floor_scaled 2 1 x.
(** Truncation, the conversion to an integer type before its wrap-around;
    what is not finite is 0. *)
Definition math_trunc (x : num) : Z :=
  match x with
  | S754_finite true m e => - default 0 (math_floor (S754_finite false m e))
  | _ => default 0 (math_floor x)
  end%Z.

(** The text of a number that is the result of [Math.round]. *)
Definition int_text (o : option Z) (x : num) : jstr :=
  match o, x with
  | Some z, _ => string_of_Z z
  | None, S754_infinity s => u (if s then "-Infinity" else "Infinity")
  | None, _ => u "NaN"
  end.

Definition two_digits (n : Z) : jstr := if (n <? 10)%Z then 48%N :: string_of_Z n else string_of_Z n.
(** [x.toFixed(2)] for [|x| < 10^21]: the nearest hundredth of the exact value,
    the larger one of two. *)
Definition to_fixed2 (x : num) : jstr :=
  let text (h : Z) := string_of_Z (h / 100) ++ u "." ++ two_digits (h mod 100) in
  let hundredths (y : num) := (fun h => (h + 1) / 2)%Z <$> floor_scaled 200 1 y in
  match x with
  | S754_zero _ => u "0.00"
  | S754_finite s m e =>
      (if s then u "-" else []) ++ text (default 0%Z (hundredths (S754_finite false m e)))
  | S754_infinity s => u (if s then "-Infinity" else "Infinity")
  | S754_nan => u "NaN"
  end.

(** [x.toFixed(1)] for [0 <= x < 10^21]. *)
Definition to_fixed1 (x : num) : jstr :=
  match floor_scaled 20 1 x with
  | Some h => let d := ((h + 1) / 2)%Z in string_of_Z (d / 10) ++ u "." ++ string_of_Z (d mod 10)
  | None => int_text None x
  end.

Example round_half : (math_round (num_of_decimal (-25) (-1)), math_round (num_of_decimal 5 (-1)), math_round (num_of_decimal 7342 (-2)))
  = (Some (-2), Some 1, Some 73)%Z.
Proof. vm_compute. reflexivity. Qed.
Example fixed_half : to_fixed2 (num_of_decimal 1005 (-3)) = u "1.00" /\ to_fixed2 (num_of_decimal 12 (-1)) = u "1.20".
Proof. vm_compute. split; reflexivity. Qed.

(** ** The order of numbers *)

Lemma nlt_asym x y : nlt x y = true -> nlt y x = false.
Proof.
  unfold nlt, SFltb, SFcompare. destruct x as [s|s| |s m e], y as [s'|s'| |s' m' e']; try done; try (by destruct s); try (by destruct s'); try (by destruct s, s').
  destruct s, s'; try done; rewrite (Z.compare_antisym e e'); destruct (e ?= e')%Z; try done; cbn [CompOpp];
    change (Pos.compare_cont Eq) with Pos.compare; rewrite (Pos.compare_antisym m m'); by destruct (m ?= m')%positive.
Qed.
