(* ===== verification/MathText.v ===== *)
(** * The formulas and the links of an answer (lib/maths.tsx, lib/markdown.tsx)

    The formulas are taken out of the text before the markdown parser, numbered
    markers in their place, and rendered from the kept source.  KaTeX is the
    argument [katex]: the HTML, or [None] when it throws.  A link is judged on its
    address without control characters; [url_scheme] is what the browser takes for
    its scheme. *)

From S2P Require Import Prelude JsString JsJson JsRegExp.
Local Open Scope flow_scope.

Record Formula := mkFormula { latex : jstr; display : bool }.

Definition START : N := 57344.   (* \uE000 *)
Definition END_ : N := 57345.    (* \uE001 *)
Definition BRAND_PATTERN : RegExp := rx "\uE000(\d+)\uE001" "g".
Definition re_private : RegExp := rx "[\uE000\uE001]" "g".
Definition PATTERN : RegExp :=
  rx "(```[\s\S]*?(?:```|$)|~~~[\s\S]*?(?:~~~|$)|`[^`\n]*`)|(?<!\\)\$\$([\s\S]+?)\$\$|(?<!\\)\$([^$\n]+?)(?<!\s)\$|\\\(([\s\S]+?)\\\)" "g".

(** The callback of the replacement, for one unit. *)
Definition escape_unit (c : N) : jstr :=
  match c with
  | 38%N => u "&amp;"
  | 60%N => u "&lt;"
  | 62%N => u "&gt;"
  | 34%N => u "&quot;"
  | 39%N => u "&#39;"
  | _ => [c]
  end.
Definition re_html : RegExp := rx "[&<>\x22']" "g".
Definition escapeHtml (s : jstr) : jstr := replace_all_fn re_html (fun m => flat_map escape_unit (m_text m)) s.

Definition marker (n : nat) : jstr := START :: string_of_nat n ++ [END_].

(** The callback of [replace], [formulas] being the variable it pushes on. *)
Definition protect_one (m : Match) (formulas : list Formula) : jstr * list Formula :=
  match cap m 1 with
  | Some _ => (m_text m, formulas)
  | None =>
      let latex := match cap m 2, cap m 3, cap m 4 with
                   | Some l, _, _ | None, Some l, _ | None, None, Some l => l
                   | None, None, None => []
                   end in
      (marker (length formulas), formulas ++ [mkFormula latex (match cap m 2 with Some _ => true | None => false end)])
  end.
Fixpoint protect_matches (s : jstr) (from : nat) (ms : list Match) (formulas : list Formula) : jstr * list Formula :=
  match ms with
  | [] => (drop from s, formulas)
  | m :: r =>
      let '(piece, formulas) := protect_one m formulas in
      let '(rest, formulas) := protect_matches s (m_end m) r formulas in
      (slice s from (m_index m) ++ piece ++ rest, formulas)
  end.
Definition without_private (src : jstr) : jstr := replace_all re_private [] src.
Definition protectMath (src : jstr) : jstr * list Formula :=
  let s := without_private src in protect_matches s 0 (match_all PATTERN s) [].

Section render.
Context (katex : jstr -> bool -> option jstr).

Definition renderMath (formula : option Formula) : jstr :=
  let l := match formula with Some f => latex f | None => [] end in
  match katex l (match formula with Some f => display f | None => false end) with
  | Some html => html
  | None => escapeHtml l
  end.

(** What the plugin makes of a match: a text as it is, or HTML. *)
Inductive Rendered := AsText (s : jstr) | AsHtml (html : jstr).
(** [formulas[n]]: the indices that are too large for an exact number are out
    of bounds too. *)
Definition formula_at (formulas : list Formula) (n : Z) : option Formula :=
  if (n <? Z.of_nat (length formulas))%Z then formulas !! Z.to_nat n else None.
Definition mathPlugin_render (formulas : list Formula) (m : Match) : Rendered :=
  match formula_at formulas (digits_value (cap0 m 1)) with
  | Some f => AsHtml (renderMath (Some f))
  | None => AsText (m_text m)
  end.
Definition shown (r : Rendered) : jstr := match r with AsText s | AsHtml s => s end.
(** The pattern of the plugin over a whole text. *)
Definition mathPlugin (formulas : list Formula) (text : jstr) : jstr :=
  replace_all_fn BRAND_PATTERN (fun m => shown (mathPlugin_render formulas m)) text.
End render.

Example protect_ex : protectMath (u "a $\frac{x}$ b `$y$` $$z$$ \(w\) $5 and $10")
  = (u "a " ++ marker 0 ++ u " b `$y$` " ++ marker 1 ++ u " " ++ marker 2 ++ u " $5 and $10",
     [mkFormula (u "\frac{x}") false; mkFormula (u "z") true; mkFormula (u "w") false]).
Proof. vm_compute. reflexivity. Qed.

(** A space after the opening [$] does not prevent a formula. *)
Lemma space_after_dollar : protectMath (u "costs $ 5 or$") = (u "costs " ++ marker 0, [mkFormula (u " 5 or") false]).
Proof. vm_compute. reflexivity. Qed.
(** The code of a span delimited by two backticks is not left as it is. *)
Lemma double_backticks_math : protectMath (u "``a $x$ b``") = (u "``a " ++ marker 0 ++ u " b``", [mkFormula (u "x") false]).
Proof. vm_compute. reflexivity. Qed.

(** ** The places of the formulas *)

(** The texts between the formulas (the code in them), and the formulas as the
    text writes them. *)
Fixpoint around (pre s : jstr) (from : nat) (ms : list Match) : list jstr :=
  match ms with
  | [] => [pre ++ drop from s]
  | m :: r =>
      match cap m 1 with
      | Some _ => around (pre ++ slice s from (m_index m) ++ m_text m) s (m_end m) r
      | None => (pre ++ slice s from (m_index m)) :: around [] s (m_end m) r
      end
  end.
Definition is_formula (m : Match) : bool := match cap m 1 with Some _ => false | None => true end.
Definition written (ms : list Match) : list jstr := map m_text (List.filter is_formula ms).

Lemma around_cons pre s from ms : exists g r, around pre s from ms = g :: r.
Proof.
  revert pre from. induction ms as [|m ms IH]; intros pre from; cbn [around]; [by eauto|].
  destruct (cap m 1); [apply IH|by eauto].
Qed.
Lemma around_nonnil pre s from ms : around pre s from ms <> [].
Proof. destruct (around_cons pre s from ms) as (g & r & ->). done. Qed.

(** The text with the [i]-th formula, [i + 1]-th... written [f i], [f (i + 1)]... *)
Fixpoint rewritten (f : nat -> jstr) (s : jstr) (from i : nat) (ms : list Match) : jstr :=
  match ms with
  | [] => drop from s
  | m :: r => slice s from (m_index m)
              ++ (if is_formula m then f i ++ rewritten f s (m_end m) (S i) r else m_text m ++ rewritten f s (m_end m) i r)
  end.
Lemma around_interleave f s ms : forall pre from i, interleave (around pre s from ms) i f = pre ++ rewritten f s from i ms.
Proof.
  induction ms as [|m ms IH]; intros pre from i; cbn [around rewritten]; [done|]. unfold is_formula.
  destruct (cap m 1) as [c|].
  - by rewrite IH, <- !app_assoc.
  - by rewrite interleave_cons, IH, <- !app_assoc by apply around_nonnil.
Qed.

Lemma rewritten_ext f g s ms from k : (forall i, k <= i -> f i = g i) -> rewritten f s from k ms = rewritten g s from k ms.
Proof.
  revert from k. induction ms as [|m ms IH]; intros from k H; cbn [rewritten]; [done|].
  destruct (is_formula m); [rewrite H by lia; do 2 f_equal; apply IH; intros; apply H; lia|]. do 2 f_equal. by apply IH.
Qed.

(** Written as they were, the formulas give the text back. *)
Lemma rewritten_same s ms : forall from k, ordered from ms (length s) -> from <= length s ->
  Forall (fun m => m_text m = slice s (m_index m) (m_end m)) ms ->
  rewritten (fun i => default [] (written ms !! (i - k))) s from k ms = drop from s.
Proof.
  assert (J : forall from a b, from <= a -> a <= b -> b <= length s -> slice s from a ++ slice s a b ++ drop b s = drop from s).
  { intros from a b H1 H2 H3. unfold slice. rewrite <- (take_drop (a - from) (drop from s)) at 2. f_equal. rewrite drop_drop.
    replace (from + (a - from)) with a by lia. rewrite <- (take_drop (b - a) (drop a s)) at 2. f_equal. rewrite drop_drop. f_equal. lia. }
  induction ms as [|m ms IH]; intros from k HO HF HT; cbn [rewritten]; [done|]. destruct HO as (H1 & H2 & H3 & H4).
  apply Forall_cons in HT as [Ht HT]. specialize (IH (m_end m)). destruct (is_formula m) eqn:F.
  - rewrite Nat.sub_diag. unfold written at 1. cbn [List.filter]. rewrite F. cbn [map lookup list_lookup default].
    rewrite (rewritten_ext _ (fun i => default [] (written ms !! (i - S k)))).
    + rewrite IH by done. rewrite Ht. by apply J.
    + intros i Hi. unfold written. cbn [List.filter]. rewrite F. cbn [map]. by replace (i - k) with (S (i - S k)) by lia.
  - rewrite (rewritten_ext _ (fun i => default [] (written ms !! (i - k)))).
    + rewrite IH by done. rewrite Ht. by apply J.
    + intros i Hi. unfold written. cbn [List.filter]. by rewrite F.
Qed.

(** What the callback leaves. *)
Definition kept (m : Match) : Formula :=
  mkFormula (match cap m 2, cap m 3, cap m 4 with
             | Some l, _, _ | None, Some l, _ | None, None, Some l => l
             | None, None, None => []
             end) (match cap m 2 with Some _ => true | None => false end).
Lemma protect_matches_spec s ms : forall from fs,
  protect_matches s from ms fs = (rewritten marker s from (length fs) ms, fs ++ map kept (List.filter is_formula ms)).
Proof.
  induction ms as [|m ms IH]; intros from fs; cbn [protect_matches rewritten List.filter map]; [by rewrite app_nil_r|].
  unfold protect_one, is_formula. destruct (cap m 1) as [c|]; rewrite IH; [done|].
  rewrite length_app, Nat.add_1_r. cbn [map]. by rewrite <- app_assoc.
Qed.

(** ** What the pattern takes *)

(** A formula is written [$$..$$], [$..$] or [\(..\)]. *)
Definition writes (f : Formula) (t : jstr) : Prop :=
  if display f then t = u "$$" ++ latex f ++ u "$$" else t = u "$" ++ latex f ++ u "$" \/ t = u "\(" ++ latex f ++ u "\)".

(** Taking a sequence of units and groups apart. *)
Ltac rm_seq :=
  repeat match goal with
  | H : rm _ (Cat _ _) _ _ |- _ => apply rm_cat_inv in H as (? & ? & H)
  | H : rm _ (Chars false [(_, _)]) _ _ |- _ => apply rm_unit_inv in H as [? ?]; [|done]
  | H : rm _ (Grp _ _) _ _ |- _ => apply rm_grp_inv in H as (? & ? & ?); [|done]
  | H : rm _ (LookBehind _ _ _) _ ?y |- _ => apply rm_behind_inv in H; subst y
  end.
(** Putting the texts consumed together. *)
Ltac consume_seq :=
  repeat match goal with
  | H1 : consumes ?x ?a ?y, H2 : consumes ?y ?b ?z |- _ => pose proof (consumes_app _ _ _ _ _ H1 H2); clear H1 H2
  end.

Lemma pattern_formula s m : is_match PATTERN s m -> is_formula m = true -> writes (kept m) (m_text m).
Proof.
  intros (_ & _ & _ & z & R & C & T) F. unfold is_formula, kept, writes, cap in *. rewrite C in *. clear C.
  assert (X : ms_caps (at_pos s (m_index m)) = []) by done. revert R T X. generalize (at_pos s (m_index m)). intros x R T X.
  let r := eval vm_compute in (re_body PATTERN) in change (re_body PATTERN) with r in R.
  apply rm_alt_inv in R as [R|R].
  { apply rm_grp_captures in R as [t R]. by rewrite R in F. }
  repeat (apply rm_alt_inv in R as [R|R]); rm_seq; consume_seq.
  all: repeat match goal with H : ms_caps _ = _ |- _ => rewrite H in *; clear H end.
  all: unfold get_cap; cbn [find fst Nat.eqb latex display].
  all: match goal with
       | T : consumes ?x (m_text _) ?z, H : consumes ?x (_ ++ _) ?z |- _ => rewrite (consumes_det _ _ _ _ T H)
       end; cbn [app]; rewrite <- ?app_assoc; cbn [app].
  all: try (left; reflexivity); try (right; reflexivity); reflexivity.
Qed.

(** ** The markers *)

Definition public (c : N) : Prop := c <> START /\ c <> END_.

Lemma without_private_public src : Forall public (without_private src).
Proof.
  unfold without_private. rewrite (replace_class re_private false [(57344, 57344); (57345, 57345)]%N) by (done || by apply not_elem_of_nil).
  induction src as [|c src IH]; cbn [flat_map]; [constructor|].
  destruct (char_in (re_flags re_private) c false [(57344, 57344)%N; (57345, 57345)%N]) eqn:E; [done|].
  constructor; [|done]. unfold public, START, END_. split; intros ->; by vm_compute in E.
Qed.

Lemma around_public s ms : Forall public s -> Forall (fun m => m_text m = slice s (m_index m) (m_end m)) ms ->
  forall pre from, Forall public pre -> Forall (Forall public) (around pre s from ms).
Proof.
  intros Hs HT. assert (P : forall i j, Forall public (slice s i j)) by (intros; unfold slice; by apply Forall_take, Forall_drop).
  induction HT as [|m ms Ht HT IH]; intros pre from Hp; cbn [around].
  - constructor; [|done]. apply Forall_app. split; [done|by apply Forall_drop].
  - destruct (cap m 1).
    + apply IH. rewrite Ht, !Forall_app. by repeat split.
    + constructor; [rewrite Forall_app; by split|by apply IH].
Qed.

Lemma digit_in c : char_in (re_flags BRAND_PATTERN) c false [(48, 57)%N] = is_digit c.
Proof. change (is_digit c || false = is_digit c). apply orb_false_r. Qed.

(** The pattern takes a whole marker, and no other unit. *)
Definition brand_match (pos n : nat) : Match := mkMatch pos (pos + length (marker n)) (marker n) [(1, string_of_nat n)].
Lemma brand_here pos prev n rest : match_here BRAND_PATTERN pos prev (marker n ++ rest) = Some (brand_match pos n).
Proof.
  unfold match_here. set (fl := re_flags BRAND_PATTERN).
  let r := eval vm_compute in (re_body BRAND_PATTERN) in change (re_body BRAND_PATTERN) with r.
  set (ds := string_of_nat n). set (x := mkM (S pos) (Some START) (ds ++ END_ :: rest) []).
  assert (TW : take_while (fun c => char_in fl c false [(48, 57)%N]) (ms_rest x) = ds).
  { cbn [x ms_rest]. pose proof (string_of_nat_digits n) as D. fold ds in D. clearbody ds. clear x.
    induction D as [|c ds Hc D IH]; [done|]. cbn [app take_while]. unfold fl. rewrite digit_in, Hc. f_equal. exact IH. }
  assert (SK : is_prefix ds (ms_rest x) = true) by (apply is_prefix_app). apply skip_consumes in SK as [SP SC].
  set (y := skip (length ds) x) in *. assert (SR : ms_rest y = END_ :: rest) by (unfold y; rewrite skip_rest; apply drop_app_length).
  set (k := fun w => mt fl (Chars false [(57345, 57345)%N])
    (with_caps w ((1, take (ms_pos w - S pos) (ds ++ END_ :: rest)) :: List.filter (fun c => negb (Nat.eqb c.1 1)) (ms_caps w))) Some).
  assert (R : mt fl (Rep (Chars false [(48, 57)%N]) 1 None true) x k = Some (mkM (S (S pos + length ds)) (Some END_) rest [(1, ds)])).
  { apply rep_chars_greedy_then; rewrite TW; [apply string_of_nat_long|]. fold y. unfold k. cbn [mt]. unfold advance.
    cbn [with_caps ms_rest ms_pos ms_caps]. rewrite SR, SP, SC. cbn [x ms_pos ms_caps ms_rest List.filter].
    replace (S pos + length ds - S pos) with (length ds) by lia. rewrite take_app_length. done. }
  assert (M : marker n ++ rest = START :: ds ++ END_ :: rest) by (unfold marker; cbn [app]; by rewrite <- app_assoc).
  rewrite M. change (mt fl _ (mkM pos prev (START :: ds ++ END_ :: rest) []) Some)
    with (mt fl (Rep (Chars false [(48, 57)%N]) 1 None true) x k).
  rewrite R. cbn [ms_pos ms_caps]. unfold brand_match. rewrite <- M.
  assert (L : length (marker n) = S (length ds + 1)) by (unfold marker; cbn [length]; by rewrite length_app).
  replace (S (S pos + length ds)) with (pos + length (marker n)) by lia.
  replace (pos + length (marker n) - pos) with (length (marker n)) by lia. by rewrite take_app_length.
Qed.
Lemma brand_not_here pos prev c rest : c <> START -> match_here BRAND_PATTERN pos prev (c :: rest) = None.
Proof.
  intros H. unfold match_here. set (fl := re_flags BRAND_PATTERN).
  let r := eval vm_compute in (re_body BRAND_PATTERN) in change (re_body BRAND_PATTERN) with r.
  cbn [mt advance ms_rest]. rewrite char_in_single by done. destruct (N.eqb_spec 57344 c); [by subst|done].
Qed.

Lemma brand_search g pos prev n rest : Forall public g ->
  search_from BRAND_PATTERN pos prev (g ++ marker n ++ rest) = Some (brand_match (pos + length g) n).
Proof.
  intros H. revert pos prev. induction H as [|c g [Hc _] H IH]; intros pos prev.
  - cbn [app length]. rewrite Nat.add_0_r. pose proof (brand_here pos prev n rest) as B.
    destruct (marker n ++ rest); cbn [search_from]; by rewrite B.
  - cbn [app search_from]. rewrite brand_not_here by done. rewrite IH. cbn [length]. by replace (S pos + length g) with (pos + S (length g)) by lia.
Qed.
Lemma brand_search_none g pos prev : Forall public g -> search_from BRAND_PATTERN pos prev g = None.
Proof.
  intros H. revert pos prev. induction H as [|c g [Hc _] H IH]; intros pos prev; [vm_compute; by destruct prev|].
  cbn [search_from]. rewrite brand_not_here by done. apply IH.
Qed.

(** A function over the markers of a text whose own units are public. *)
Lemma brand_splice (f : Match -> jstr) (g : jstr -> jstr -> jstr) s gs : (forall m, f m = g (m_text m) (cap0 m 1)) ->
  gs <> [] -> Forall (Forall public) gs -> forall from i fuel,
  drop from s = interleave gs i marker -> length s - from + 1 <= fuel -> from <= length s ->
  splice s from (match_all_fuel fuel BRAND_PATTERN s from) f = interleave gs i (fun n => g (marker n) (string_of_nat n)).
Proof.
  intros Hf Hn H. induction H as [|a gs Ha H IH]; [done|]. intros from i fuel E Hfuel HL.
  destruct fuel as [|fuel]; [lia|]. cbn [match_all_fuel]. unfold exec_from. destruct (Nat.ltb_spec (length s) from); [lia|].
  destruct gs as [|b gs].
  - cbn [interleave] in *. rewrite E, brand_search_none by done. cbn [splice]. exact E.
  - rewrite !interleave_cons in * by done. rewrite E, brand_search by done. cbn [brand_match m_end m_index].
    assert (L : length (drop from s) = length a + length (marker i) + length (interleave (b :: gs) (S i) marker)).
    { rewrite E, !length_app. lia. }
    rewrite length_drop in L. assert (ML : 2 <= length (marker i)) by (unfold marker; cbn [length]; rewrite length_app; cbn; lia).
    destruct (Nat.eqb_spec (from + length a + length (marker i)) (from + length a)); [lia|]. cbn [splice brand_match m_index m_end].
    rewrite Hf. cbn [m_text]. change (cap0 _ 1) with (string_of_nat i). unfold slice.
    replace (from + length a - from) with (length a) by lia. rewrite E, take_app_length. do 2 f_equal.
    apply IH; [done| |lia|lia]. rewrite <- !drop_drop, E, drop_app_length. apply drop_app_length.
Qed.
Lemma brand_shown katex fs gs : gs <> [] -> Forall (Forall public) gs ->
  mathPlugin katex fs (interleave gs 0 marker)
  = interleave gs 0 (fun n => match fs !! n with Some f => renderMath katex (Some f) | None => marker n end).
Proof.
  intros Hn H. unfold mathPlugin, replace_all_fn, match_all.
  rewrite (brand_splice _ (fun t ds => shown match formula_at fs (digits_value ds) with Some f => AsHtml (renderMath katex (Some f)) | None => AsText t end)
    _ gs) with (i := 0); [|by intros m; unfold mathPlugin_render; destruct (formula_at fs _)|done|done|by rewrite drop_0|lia|lia].
  apply interleave_ext. intros n _. rewrite string_of_nat_value. unfold formula_at. rewrite Nat2Z.id.
  destruct (Z.ltb_spec (Z.of_nat n) (Z.of_nat (length fs))); [by destruct (fs !! n)|].
  assert (fs !! n = None) as -> by (apply lookup_ge_None; lia). done.
Qed.

Lemma math_escape_units s : escapeHtml s = flat_map escape_unit s.
Proof.
  unfold escapeHtml. rewrite (replace_class_fn re_html false [(38, 38); (60, 60); (62, 62); (34, 34); (39, 39)]%N eq_refl _ escape_unit).
  - apply flat_map_ext. intros c. destruct (char_in _ _ _ _) eqn:E; [done|]. unfold escape_unit.
    repeat case_match; subst; first [done|by vm_compute in E].
  - intros m c ->. apply app_nil_r.
Qed.

(** The units that cannot open a tag or leave an attribute. *)
Definition harmless (c : N) : Prop := c <> 60%N /\ c <> 62%N /\ c <> 34%N /\ c <> 39%N.
Lemma escape_unit_harmless c : Forall harmless (escape_unit c).
Proof.
  destruct (decide (c = 38 \/ c = 60 \/ c = 62 \/ c = 34 \/ c = 39)%N) as [H|H].
  - destruct_or! H; subst; cbn [escape_unit]; apply Forall_forall; intros x Hx;
      vm_compute in Hx; set_unfold; destruct_or! Hx; subst; unfold harmless; done.
  - assert (escape_unit c = [c]) as ->.
    { unfold escape_unit. repeat case_match; subst; first [done|exfalso; apply H; tauto]. }
    constructor; [unfold harmless; tauto|done].
Qed.

(** ** Theorems *)

(** C21: Every formula is shown, rendered from its own source, at the place where
    the text writes it, and the rest of the text is left: for some texts
    [gs] without private characters and some written formulas [ws], the source
    (without private characters) is the [gs] with the [ws] between them, each
    [w] is one of the three notations of the LaTeX kept, the text given to the
    parser is the [gs] with the markers between them, and the plugin applied to
    it gives the [gs] with the rendered formulas between them. *)
Theorem formulas_in_place katex src :
  let '(text, formulas) := protectMath src in
  exists gs ws, length gs = S (length formulas) /\ Forall (Forall public) gs /\ Forall2 writes formulas ws /\
    without_private src = interleave gs 0 (fun i => default [] (ws !! i)) /\
    text = interleave gs 0 marker /\
    mathPlugin katex formulas text
    = interleave gs 0 (fun i => match formulas !! i with Some f => renderMath katex (Some f) | None => marker i end).
Proof.
  unfold protectMath. set (s := without_private src). rewrite protect_matches_spec. cbn [app length].
  set (ms := match_all PATTERN s). pose proof (without_private_public src) as P. fold s in P.
  assert (M : Forall (is_match PATTERN s) ms) by (apply List.Forall_forall; intros m; apply match_all_sound).
  assert (T : Forall (fun m => m_text m = slice s (m_index m) (m_end m)) ms) by (eapply Forall_impl; [exact M|]; by intros m (_ & _ & ? & _)).
  pose proof (match_all_ordered PATTERN s) as O. fold ms in O. clearbody s ms.
  exists (around [] s 0 ms), (written ms). split; [|split; [|split; [|split; [|split]]]].
  - rewrite length_map. generalize (@nil N), 0. clear. induction ms as [|m ms IH]; intros pre from; cbn [around List.filter length]; [done|].
    unfold is_formula at 1. destruct (cap m 1); [apply IH|]. cbn [length]. by rewrite IH.
  - by apply around_public.
  - unfold written. clear -M. induction M as [|m ms Hm M IH]; cbn [List.filter]; [constructor|].
    destruct (is_formula m) eqn:F; [|done]. cbn [map]. constructor; [by eapply pattern_formula|done].
  - rewrite around_interleave. pose proof (rewritten_same s ms 0 0 O ltac:(lia) T) as R. rewrite drop_0 in R.
    etransitivity; [symmetry; exact R|]. apply rewritten_ext. intros i _. by rewrite Nat.sub_0_r.
  - by rewrite around_interleave.
  - rewrite <- (app_nil_l (rewritten _ _ _ _ _)), <- around_interleave. apply brand_shown; [apply around_nonnil|by apply around_public].
Qed.

(** What KaTeX does not render is shown escaped: no unit of the formula can
    open a tag or an attribute. *)
Theorem failed_formula_escaped katex formula :
  let l := match formula with Some f => latex f | None => [] end in
  katex l (match formula with Some f => display f | None => false end) = None ->
  renderMath katex formula = flat_map escape_unit l /\ Forall harmless (renderMath katex formula).
Proof.
  cbv zeta. intros H. unfold renderMath. rewrite H. generalize (match formula with Some f => latex f | None => [] end). intros l.
  rewrite math_escape_units. split; [done|]. clear H. induction l as [|c l IH]; cbn [flat_map]; [constructor|].
  apply Forall_app. split; [apply escape_unit_harmless|done].
Qed.
Theorem failed_formula_escaped_witness :
  let f := Some (mkFormula (u "<b onclick='x'>") true) in
  renderMath (fun _ _ => None) f = flat_map escape_unit (u "<b onclick='x'>") /\ Forall harmless (renderMath (fun _ _ => None) f).
Proof. exact (failed_formula_escaped (fun _ _ => None) (Some (mkFormula (u "<b onclick='x'>") true)) eq_refl). Defined.

(** ** The links *)

Definition DANGEROUS_SCHEME : RegExp := rx "^(?:javascript|data|vbscript|file):" "i".
Definition re_control : RegExp := rx "[\u0000-\u001f\u007f]" "g".
Definition re_http : RegExp := rx "^https?:\/\/" "i".
Definition safeHref (raw : jstr) : option jstr :=
  match trim (replace_all re_control [] raw) with
  | [] => None
  | url => if test DANGEROUS_SCHEME url then None else Some url
  end.
(** A link, or its text alone. *)
Inductive LinkView := TextOnly | LinkTo (url : jstr) (isExternalLink : bool).
Definition SafeLink (href : jstr) : LinkView :=
  match safeHref href with None => TextOnly | Some url => LinkTo url (test re_http url) end.
(** The text given to the parser, and what is made of each text it gives back. *)
Definition SafeMarkdown (katex : jstr -> bool -> option jstr) (children : jstr) : jstr * (jstr -> jstr) :=
  let '(text, formulas) := protectMath children in
  (text, match formulas with [] => fun x => x | _ => mathPlugin katex formulas end).

(** The scheme of an address for a browser (the URL standard): the controls and
    spaces at both ends and every tab and line end are dropped, then a letter and
    letters, digits, signs up to a colon are read, in lower case. *)
Definition edge (c : N) : bool := (c <=? 32)%N.
Definition tab_or_line (c : N) : bool := ((c =? 9) || (c =? 10) || (c =? 13))%N.
Definition alpha (c : N) : bool := (((65 <=? c) && (c <=? 90)) || ((97 <=? c) && (c <=? 122)))%N.
Definition scheme_char (c : N) : bool := alpha c || (((48 <=? c) && (c <=? 57)) || (c =? 43) || (c =? 45) || (c =? 46))%N.
Definition ascii_lower (c : N) : N := if ((65 <=? c) && (c <=? 90))%N then (c + 32)%N else c.
Fixpoint scheme_state (s : jstr) : option jstr :=
  match s with
  | [] => None
  | c :: r => if (c =? 58)%N then Some [] else if scheme_char c then cons (ascii_lower c) <$> scheme_state r else None
  end.
Definition url_scheme (s : jstr) : option jstr :=
  match List.filter (fun c => negb (tab_or_line c)) (drop_while_end edge (drop_while edge s)) with
  | [] => None
  | c :: r => if alpha c then scheme_state (c :: r) else None
  end.
Definition SCHEMES : list jstr := [u "javascript"; u "data"; u "vbscript"; u "file"].
Definition dangerous (o : option jstr) : bool := match o with Some sc => existsb (streq sc) SCHEMES | None => false end.

Definition without_control (s : jstr) : jstr := List.filter (fun c => negb (in_ranges c [(0, 31); (127, 127)]%N)) s.
Lemma control_removed s : replace_all re_control [] s = without_control s.
Proof.
  rewrite (replace_class re_control false [(0, 31); (127, 127)]%N) by (first [vm_compute; reflexivity | apply not_elem_of_nil]).
  unfold without_control. induction s as [|c s IH]; [done|]. cbn [flat_map List.filter]. rewrite IH.
  change (char_in (re_flags re_control) c false [(0, 31); (127, 127)]%N) with (in_ranges c [(0, 31); (127, 127)]%N). by destruct (in_ranges c _).
Qed.
Lemma in_trim c s : c ∈ trim s -> c ∈ s.
Proof.
  intros I. destruct (trim_start_suffix s) as [a A], (trim_end_prefix (trim_start s)) as [b B]. rewrite A, B. unfold trim in I.
  apply elem_of_app. right. apply elem_of_app. by left.
Qed.
Lemma trimmed_edges url : trim url = url -> drop_while is_ws url = url /\ drop_while_end is_ws url = url.
Proof.
  intros T. destruct (trim_start_suffix url) as [a A]. assert (E : trim_start url = url).
  { destruct a as [|x a]; [by rewrite A at 2|]. exfalso. assert (L := f_equal length A). rewrite length_app in L. cbn [length] in L.
    assert (M : length (trim url) <= length (trim_start url)) by (unfold trim; destruct (trim_end_prefix (trim_start url)) as [b B]; rewrite B at 2; rewrite length_app; lia).
    rewrite T in M. lia. }
  split; [exact E|]. unfold trim in T. rewrite E in T. exact T.
Qed.
Lemma no_edge l : (forall c, c ∈ l -> in_ranges c [(0, 31); (127, 127)]%N = false) -> drop_while is_ws l = l -> drop_while edge l = l.
Proof.
  intros N W. apply drop_while_id. destruct l as [|c l]; [done|]. assert (H := N c (list_elem_of_here _ _)). unfold in_ranges in H. cbn in H.
  assert (is_ws c = false) by (destruct (is_ws c) eqn:E; [|done]; simpl in W; rewrite E in W; assert (L := f_equal length W); pose proof (length_drop_while is_ws l); cbn [length] in L; lia).
  unfold edge. unfold is_ws in *. destruct (N.leb_spec c 32); [|done]. bool_norm. lia.
Qed.
Lemma rev_no_edge l : (forall c, c ∈ l -> in_ranges c [(0, 31); (127, 127)]%N = false) -> drop_while_end is_ws l = l -> drop_while_end edge l = l.
Proof.
  unfold drop_while_end. intros N W. rewrite no_edge; [apply rev_involutive| |].
  - intros c I. apply N. apply list_elem_of_In, in_rev, list_elem_of_In. exact I.
  - rewrite <- (rev_involutive (drop_while is_ws (rev l))), W. reflexivity.
Qed.
Lemma above_controls c : in_ranges c [(0, 31); (127, 127)]%N = false -> (31 < c)%N.
Proof.
  unfold in_ranges. cbn [existsb fst snd]. intros H. apply orb_false_iff in H as [H _]. destruct (N.leb_spec c 31); [|done].
  replace (0 <=? c)%N with true in H by (symmetry; apply N.leb_le; lia). done.
Qed.
(** On an address without controls, trimmed, the browser reads the scheme at once. *)
Lemma scheme_of_trimmed raw : let url := trim (without_control raw) in
  url_scheme url = match url with [] => None | c :: r => if alpha c then scheme_state url else None end.
Proof.
  intros url. assert (N : forall c, c ∈ url -> in_ranges c [(0, 31); (127, 127)]%N = false).
  { intros c I. apply in_trim, list_elem_of_In, filter_In in I as [_ I]. by apply negb_true_iff. }
  destruct (trimmed_edges url (trim_idem _)) as [W1 W2]. unfold url_scheme. rewrite no_edge, rev_no_edge by done.
  assert (F : List.filter (fun c => negb (tab_or_line c)) url = url); [|rewrite F; by destruct url].
  clearbody url. clear W1 W2. induction url as [|c l IH]; [done|]. cbn [List.filter].
  assert (H := above_controls c (N c (list_elem_of_here _ _))).
  replace (tab_or_line c) with false by (unfold tab_or_line; symmetry; repeat (apply orb_false_iff; split); apply N.eqb_neq; lia).
  cbn [negb]. f_equal. apply IH. intros d I. apply N. by apply list_elem_of_further.
Qed.

(** ** A literal, whatever the case *)

Lemma mt_lit_ci fl p t r x k : Forall2 (fun c d => char_in fl c false [(d, d)] = true) t p -> ms_rest x = t ++ r ->
  exists y, mt fl (lit_re p) x k = k y /\ ms_rest y = r.
Proof.
  intros F. revert x. induction F as [|c d t p C F IH]; intros x E; [by exists x|].
  destruct x as [pos prev rest caps]. cbn [ms_rest app] in E. subst rest. destruct p as [|e p].
  - inversion F; subst. cbn [lit_re mt]. unfold advance. cbn [ms_rest]. rewrite C. eexists. split; [reflexivity|done].
  - change (lit_re (d :: e :: p)) with (Cat (Chars false [(d, d)]) (lit_re (e :: p))). cbn [mt]. unfold advance. cbn [ms_rest]. rewrite C. by apply IH.
Qed.
Lemma letter_ci fl c d : ignoreCase fl = true -> (97 <= d <= 122)%N -> ascii_lower c = d -> char_in fl c false [(d, d)] = true.
Proof.
  intros I D L. unfold char_in. rewrite I. assert (E : uncanon (canon c) = d).
  { revert L. unfold ascii_lower, canon, uncanon. repeat break_inner_if; intros; lia. }
  rewrite E. unfold in_ranges at 2. cbn [existsb fst snd]. rewrite N.leb_refl. cbn. by rewrite orb_true_r.
Qed.
Definition schemes_re : re := Alt (lit_re (u "javascript")) (Alt (lit_re (u "data")) (Alt (lit_re (u "vbscript")) (lit_re (u "file")))).
Lemma dangerous_pattern : DANGEROUS_SCHEME = mkRe (Cat Bol (Cat schemes_re (Chars false [(58, 58)]%N))) (mkFlags true false).
Proof. vm_compute. reflexivity. Qed.
Lemma test_here r s : is_Some (match_here r 0 None s) -> test r s = true.
Proof.
  intros [m E]. apply bool_decide_eq_true. exists m. unfold exec, exec_from. destruct s as [|c s]; cbn; by rewrite E.
Qed.
Lemma scheme_split s sc : scheme_state s = Some sc -> exists w r, s = w ++ 58%N :: r /\ map ascii_lower w = sc /\ Forall (fun c => scheme_char c = true) w.
Proof.
  revert sc. induction s as [|c s IH]; intros sc; [done|]. cbn [scheme_state]. destruct (N.eqb_spec c 58) as [->|_]; [intros [= <-]; by exists [], s|].
  destruct (scheme_char c) eqn:C; [|done]. intros H. apply fmap_Some in H as (sc' & H & ->). destruct (IH sc' H) as (w & r & -> & <- & F).
  exists (c :: w), r. by repeat constructor.
Qed.
Lemma lit_then_colon fl p w r x : ignoreCase fl = true -> Forall (fun d => (97 <= d <= 122)%N) p -> map ascii_lower w = p -> ms_rest x = w ++ 58%N :: r ->
  is_Some (mt fl (lit_re p) x (fun y => mt fl (Chars false [(58, 58)]%N) y Some)).
Proof.
  intros I P M E. destruct (mt_lit_ci fl p w (58%N :: r) x (fun y => mt fl (Chars false [(58, 58)]%N) y Some)) as (y & -> & R); [|exact E|].
  - subst p. clear E. induction w as [|c w IH]; [constructor|]. cbn [map] in P. apply Forall_cons in P as [P1 P2]. constructor; [by apply letter_ci|by apply IH].
  - destruct y as [pos prev rest caps]. cbn [ms_rest] in R. subst rest. cbn [mt]. unfold advance. cbn [ms_rest]. unfold char_in. rewrite I. by eexists.
Qed.
Lemma alt_l fl a b x k : is_Some (mt fl a x k) -> is_Some (mt fl (Alt a b) x k).
Proof. intros [y E]. cbn [mt]. rewrite E. by eexists. Qed.
Lemma alt_r fl a b x k : is_Some (mt fl b x k) -> is_Some (mt fl (Alt a b) x k).
Proof. intros H. cbn [mt]. destruct (mt fl a x k); [by eexists|done]. Qed.
Lemma dangerous_found s sc : scheme_state s = Some sc -> sc ∈ SCHEMES -> test DANGEROUS_SCHEME s = true.
Proof.
  intros S I. destruct (scheme_split s sc S) as (w & r & E & M & _). apply test_here. unfold match_here. rewrite dangerous_pattern. cbn [re_flags re_body].
  set (x := mkM 0 None s []). change (mt ?f (Cat Bol ?b) x ?k) with (mt f b x k). change (mt ?f (Cat ?a ?b) x ?k) with (mt f a x (fun y => mt f b y k)).
  assert (H : is_Some (mt (mkFlags true false) schemes_re x (fun y => mt (mkFlags true false) (Chars false [(58, 58)]%N) y Some))); [|destruct H as [y ->]; by eexists].
  assert (R : ms_rest x = w ++ 58%N :: r) by exact E. unfold SCHEMES in I. rewrite !elem_of_cons in I.
  destruct I as [->|[->|[->|[->|I]]]]; [apply alt_l|apply alt_r, alt_l|apply alt_r, alt_r, alt_l|apply alt_r, alt_r, alt_r|by apply elem_of_nil in I];
    (apply (lit_then_colon _ _ w r); [reflexivity|repeat constructor; done|exact M|exact R]).
Qed.

(** Conversely the pattern finds only these. *)
Lemma canon_lower c d : (97 <= d <= 122)%N -> canon c = canon d -> ascii_lower c = d /\ scheme_char c = true.
Proof.
  intros D. unfold canon, ascii_lower, scheme_char, alpha. repeat break_inner_if; intros; split; try lia; repeat (apply orb_true_iff; left); rewrite orb_true_iff, !andb_true_iff, !N.leb_le; lia.
Qed.
Lemma letters_lower w p : Forall (fun d => (97 <= d <= 122)%N) p -> map canon w = map canon p -> map ascii_lower w = p /\ Forall (fun c => scheme_char c = true) w.
Proof.
  intros P. revert w. induction P as [|d p D P IH]; intros [|c w]; try done. cbn [map]. intros [= E1 E2]. destruct (canon_lower c d D E1) as [A B]. destruct (IH w E2) as [C F].
  split; [by rewrite A, C|by constructor].
Qed.
Lemma scheme_read w r : Forall (fun c => scheme_char c = true) w -> scheme_state (w ++ 58%N :: r) = Some (map ascii_lower w).
Proof.
  induction 1 as [|c w C F IH]; [done|]. cbn [app scheme_state map]. destruct (N.eqb_spec c 58) as [->|_]; [done|]. by rewrite C, IH.
Qed.
Lemma rm_bol_inv fl x z : rm fl Bol x z -> z = x.
Proof. intros H. by inversion H. Qed.
Lemma found_dangerous s : test DANGEROUS_SCHEME s = true -> exists sc, scheme_state s = Some sc /\ sc ∈ SCHEMES.
Proof.
  intros T. apply bool_decide_eq_true in T as [m T]. apply exec_sound in T. rewrite dangerous_pattern in T.
  assert (B : m_index m = 0) by (by eapply match_bol; [|exact T]). destruct T as (_ & _ & _ & z & R & _). rewrite B in R. cbn [re_flags re_body] in R.
  apply rm_cat_inv in R as (x & R1 & R2). apply rm_bol_inv in R1 as ->. apply rm_cat_inv in R2 as (y & R3 & R4).
  assert (W : exists p, p ∈ SCHEMES /\ Forall (fun d => (97 <= d <= 122)%N) p /\ rm (mkFlags true false) (lit_re p) (at_pos s 0) y).
  { unfold schemes_re in R3. unfold SCHEMES. repeat (apply rm_alt_inv in R3 as [R3|R3]); (eexists; split; [|split; [|exact R3]]);
      [set_solver|repeat constructor; done|set_solver|repeat constructor; done|set_solver|repeat constructor; done|set_solver|repeat constructor; done]. }
  destruct W as (p & P1 & P2 & R). apply lit_ci in R as (w & [Cw _] & E). apply chars_ci in R4 as (c & [Cc _] & D). change (s = w ++ ms_rest y) in Cw.
  assert (c = 58%N) as -> by (revert D; unfold canon; repeat break_inner_if; lia). destruct (letters_lower w p P2 E) as [L F].
  exists p. split; [|done]. rewrite Cw, Cc. cbn [app]. by rewrite scheme_read, L.
Qed.

Lemma scheme_starts c r sc : scheme_state (c :: r) = Some sc -> sc ∈ SCHEMES -> alpha c = true.
Proof.
  intros S I. destruct (scheme_split _ _ S) as (w & q & E & M & _). assert (P : Forall (fun d => (97 <= d <= 122)%N) sc /\ sc <> []).
  { unfold SCHEMES in I. rewrite !elem_of_cons in I. destruct I as [->|[->|[->|[->|I]]]]; [..|by apply elem_of_nil in I]; (split; [repeat constructor; done|done]). }
  destruct P as [P N], w as [|d w]; [by subst sc|]. injection E as <- _. subst sc. cbn [map] in P. apply Forall_cons in P as [P _].
  revert P. unfold ascii_lower, alpha. break_if; intros P; bool_norm; apply orb_true_iff; rewrite !andb_true_iff, !N.leb_le; lia.
Qed.
Lemma clean_again s : let v := trim (without_control s) in v = trim (without_control v).
Proof.
  intros v. assert (F : without_control v = v); [|by rewrite F; unfold v; rewrite trim_idem].
  assert (N : forall c, c ∈ v -> in_ranges c [(0, 31); (127, 127)]%N = false).
  { intros c I. apply in_trim, list_elem_of_In, filter_In in I as [_ I]. by apply negb_true_iff. }
  clearbody v. induction v as [|c v IH]; [done|]. unfold without_control in *. cbn [List.filter]. rewrite (N c (list_elem_of_here _ _)). cbn [negb]. f_equal.
  apply IH. intros d I. apply N. by apply list_elem_of_further.
Qed.
(** C8: A link is clickable exactly when its address, without controls and trimmed, is
    something that no browser reads as a script, data or file address; what is kept
    is that address, and judging it again keeps it. *)
Theorem links_safe raw : let url := trim (without_control raw) in
  safeHref raw = match url with [] => None | _ => if dangerous (url_scheme url) then None else Some url end /\
  forall kept, safeHref raw = Some kept -> dangerous (url_scheme kept) = false /\ safeHref kept = Some kept.
Proof.
  intros url. assert (J : forall v, v = trim (without_control v) -> test DANGEROUS_SCHEME v = dangerous (url_scheme v)).
  { intros v E. rewrite E, scheme_of_trimmed, <- E. destruct v as [|c r]; [vm_compute; reflexivity|]. destruct (test DANGEROUS_SCHEME (c :: r)) eqn:T.
    - destruct (found_dangerous _ T) as (sc & S & I). assert (A : alpha c = true) by (apply (scheme_starts c r sc); [exact S|exact I]). rewrite A, S. symmetry. unfold dangerous.
      apply existsb_exists. exists sc. split; [apply list_elem_of_In; exact I|]. destruct (streq_spec sc sc) as [_|N]; [reflexivity|destruct N; reflexivity].
    - symmetry. destruct (alpha c); [|done]. destruct (scheme_state (c :: r)) as [sc|] eqn:S; [|done]. destruct (dangerous (Some sc)) eqn:D; [|done].
      apply existsb_exists in D as (x & I & X). destruct (streq_spec sc x) as [<-|]; [|discriminate X]. apply list_elem_of_In in I. rewrite (dangerous_found _ _ S I) in T. discriminate T. }
  assert (V : url = trim (without_control url)) by apply clean_again.
  assert (Q : safeHref raw = match url with [] => None | _ => if dangerous (url_scheme url) then None else Some url end).
  { unfold safeHref. rewrite control_removed. fold url. rewrite <- (J url V). by destruct url. }
  split; [exact Q|]. intros kept K. rewrite Q in K. destruct url as [|c r] eqn:U; [done|]. destruct (dangerous _) eqn:D; [done|]. injection K as <-. split; [done|].
  unfold safeHref. rewrite control_removed, <- V, (J _ V). by rewrite D.
Qed.
(** The test on the trimmed text alone lets through a line end in the scheme, which
    the browser drops. *)
Lemma line_end_in_scheme : let raw := u "java" ++ [10%N] ++ u "script:alert(1)" in
  test DANGEROUS_SCHEME (trim raw) = false /\ url_scheme raw = Some (u "javascript") /\ SafeLink raw = TextOnly.
Proof. vm_compute. repeat split. Qed.
Example links : map SafeLink [u " https://a.b/c "; u "/local?x=1"; u "DATA:text/html,x"; u "mailto:a@b"; []] =
  [LinkTo (u "https://a.b/c") true; LinkTo (u "/local?x=1") false; TextOnly; LinkTo (u "mailto:a@b") false; TextOnly].
Proof. vm_compute. reflexivity. Qed.
Theorem links_safe_witness : dangerous (url_scheme (u "https://a.b")) = false.
Proof. exact (proj1 (proj2 (links_safe (u " https://a.b")) (u "https://a.b") ltac:(vm_compute; reflexivity))). Defined.
