(* ===== verification/Repair.v ===== *)
(** * JSON repair (lib/playground-parsers.ts)

    The routines that make the JSON of a model readable: closing what is left
    open, repairing mismatched closers, escaping raw control characters and
    cutting at the first complete value.  A [for (const ch of src)] loop of the
    source visits code points; every test in these loops is on an ASCII
    character, so the loops below visit code units. *)

From S2P Require Import JsJson JsRegExp.

(** ** JSON repair *)

Definition is_open (c : N) : bool := ((c =? 123) || (c =? 91))%N.
Definition is_close (c : N) : bool := ((c =? 125) || (c =? 93))%N.
Definition closer_of (c : N) : N := if (c =? 123)%N then 125%N else 93%N.

(** The loop of [repairClosings]: what it still emits from here. The head of
    [stack] is its top. *)
Fixpoint repair_scan (src : jstr) (stack : list N) (inString escaped : bool) : jstr :=
  match src with
  | [] => (if inString then [DQ] else []) ++ stack
  | ch :: r =>
      if inString then
        ch :: (if escaped then repair_scan r stack true false
               else if (ch =? BACKSLASH)%N then repair_scan r stack true true
               else if (ch =? DQ)%N then repair_scan r stack false false
               else repair_scan r stack true false)
      else if (ch =? DQ)%N then ch :: repair_scan r stack true false
      else if is_open ch then ch :: repair_scan r (closer_of ch :: stack) false false
      else if is_close ch then
        if existsb (N.eqb ch) stack then
          take_while (fun t => negb (t =? ch)%N) stack ++ ch ::
            repair_scan r (tail (drop_while (fun t => negb (t =? ch)%N) stack)) false false
        else repair_scan r stack false false
      else ch :: repair_scan r stack false false
  end.

Definition re_dangling : RegExp := rx ",\s*([}\]])" "g".
Definition repairClosings (src : jstr) : jstr :=
  replace_all re_dangling (u "$1") (repair_scan src [] false false).

(** The loop of [balanceJson]: the openers left and whether a string is open. *)
Fixpoint balance_scan (src : jstr) (stack : list N) (inString escaped : bool) : list N * bool :=
  match src with
  | [] => (stack, inString)
  | ch :: r =>
      if inString then
        if escaped then balance_scan r stack true false
        else if (ch =? BACKSLASH)%N then balance_scan r stack true true
        else if (ch =? DQ)%N then balance_scan r stack false false
        else balance_scan r stack true false
      else if (ch =? DQ)%N then balance_scan r stack true false
      else if is_open ch then balance_scan r (ch :: stack) false false
      else if is_close ch then balance_scan r (tail stack) false false
      else balance_scan r stack false false
  end.

Definition re_trailing_comma : RegExp := rx ",\s*$" "".
Definition balanceJson (src : jstr) : jstr :=
  let '(stack, inString) := balance_scan src [] false false in
  replace_first re_trailing_comma [] src
    ++ (if inString : bool then [DQ] else []) ++ map closer_of stack.

(** [escapeRawControlChars]. *)
Fixpoint escape_scan (src : jstr) (inString escaped : bool) : jstr :=
  match src with
  | [] => []
  | ch :: r =>
      if inString then
        if escaped then ch :: escape_scan r true false
        else if (ch =? BACKSLASH)%N then ch :: escape_scan r true true
        else if (ch =? DQ)%N then ch :: escape_scan r false false
        else if (ch =? LF)%N then BACKSLASH :: 110%N :: escape_scan r true false
        else if (ch =? CR)%N then BACKSLASH :: 114%N :: escape_scan r true false
        else if (ch =? TAB)%N then BACKSLASH :: 116%N :: escape_scan r true false
        else ch :: escape_scan r true false
      else ch :: escape_scan r (ch =? DQ)%N escaped
  end.
Definition escapeRawControlChars (src : jstr) : jstr := escape_scan src false false.

(** The scan of [firstJsonValue] and [objectEnd]: the number of units up to
    the closer that brings the depth back to zero. *)
Fixpoint value_end (opens closes : N -> bool) (s : jstr) (depth : Z) (inString escaped : bool) : option nat :=
  match s with
  | [] => None
  | ch :: r =>
      S <$>
      (if inString then
         if escaped then value_end opens closes r depth true false
         else if (ch =? BACKSLASH)%N then value_end opens closes r depth true true
         else if (ch =? DQ)%N then value_end opens closes r depth false false
         else value_end opens closes r depth true false
       else if (ch =? DQ)%N then value_end opens closes r depth true false
       else if opens ch then value_end opens closes r (depth + 1) false false
       else if closes ch then
         if (depth - 1 =? 0)%Z then Some 0 else value_end opens closes r (depth - 1) false false
       else value_end opens closes r depth false false)
  end.

Definition firstJsonValue (src : jstr) : option jstr :=
  start ← search (rx "[{[]" "") src;
  n ← value_end is_open is_close (drop start src) 0 false false;
  Some (slice src start (start + n)).

(** The parse with its fallbacks, in the source's order: as it is, with the
    raw control characters escaped, cut or rebalanced, with its closers
    repaired. *)
Definition parse_repaired (body : jstr) : option json :=
  match json_parse body with
  | Some v => Some v
  | None =>
      let repaired := escapeRawControlChars body in
      match json_parse repaired with
      | Some v => Some v
      | None =>
          match json_parse (default (balanceJson repaired) (firstJsonValue repaired)) with
          | Some v => Some v
          | None => json_parse (repairClosings repaired)
          end
      end
  end.


(** ** Nesting

    [nest s st] reads [s] from a state made of the closers expected, innermost
    first, and of the string flags; it is [None] on a closer that is not the
    expected one. *)
Definition nest_step (st : list N * bool * bool) (ch : N) : option (list N * bool * bool) :=
  let '(exp, inString, escaped) := st in
  if inString then
    if escaped then Some (exp, true, false)
    else if (ch =? BACKSLASH)%N then Some (exp, true, true)
    else Some (exp, negb (ch =? DQ)%N, false)
  else if (ch =? DQ)%N then Some (exp, true, false)
  else if is_open ch then Some (closer_of ch :: exp, false, false)
  else if is_close ch then
    match exp with
    | e :: exp' => if (e =? ch)%N then Some (exp', false, false) else None
    | [] => None
    end
  else Some (exp, false, false).
Fixpoint nest (s : jstr) (st : list N * bool * bool) : option (list N * bool * bool) :=
  match s with
  | [] => Some st
  | ch :: r => st' ← nest_step st ch; nest r st'
  end.

(** A text whose brackets and quotes are closed, in the right order. *)
Definition balanced (s : jstr) : Prop := nest s ([], false, false) = Some ([], false, false).

(** The string flags after [s]. *)
Definition lex_step (st : bool * bool) (ch : N) : bool * bool :=
  let '(inString, escaped) := st in
  if inString then
    if escaped then (true, false)
    else if (ch =? BACKSLASH)%N then (true, true)
    else (negb (ch =? DQ)%N, false)
  else ((ch =? DQ)%N, false).
Definition lex (s : jstr) : bool * bool := foldl lex_step (false, false) s.
(** The text stops right after a backslash inside a string. *)
Definition cut_in_escape (s : jstr) : bool := snd (lex s).

Lemma nest_app s t st : nest (s ++ t) st = nest s st ≫= nest t.
Proof.
  revert st. induction s as [|c s IH]; intros st; [done|]. cbn [app nest].
  destruct (nest_step st c); [apply IH|done].
Qed.

Lemma nest_lex s exp i e st : nest s (exp, i, e) = Some st -> foldl lex_step (i, i && e) s = (st.1.2, st.1.2 && st.2).
Proof.
  revert exp i e. induction s as [|c s IH]; intros exp i e; [by intros [= <-]|]. cbn [nest foldl].
  destruct (nest_step (exp, i, e) c) as [[[exp' i'] e']|] eqn:E; [|done]. cbn [mbind option_bind].
  intros H. apply IH in H. rewrite <- H. f_equal.
  unfold nest_step, lex_step in *. destruct i; simpl.
  - destruct e; simpl; [by injection E as <- <- <-|].
    destruct (c =? BACKSLASH)%N; [by injection E as <- <- <-|]. injection E as <- <- <-. by rewrite andb_false_r.
  - destruct (c =? DQ)%N; [by injection E as <- <- <-|].
    destruct (is_open c); [by injection E as <- <- <-|].
    destruct (is_close c); [|by injection E as <- <- <-].
    destruct exp as [|x exp0]; [done|]. destruct (x =? c)%N; [by injection E as <- <- <-|done].
Qed.

Lemma close_cases c : is_close c = true -> c = 125%N \/ c = 93%N.
Proof. unfold is_close. intros [H|H]%orb_true_iff; apply N.eqb_eq in H; auto. Qed.

Lemma nest_closers l : Forall (fun c => is_close c = true) l -> nest l (l, false, false) = Some ([], false, false).
Proof.
  induction 1 as [|c l Hc Hl IH]; [done|]. cbn [nest nest_step].
  destruct (close_cases c Hc) as [-> | ->]; exact IH.
Qed.

Lemma nest_closers_in_string l exp : Forall (fun c => is_close c = true) l ->
  nest l (exp, true, false) = Some (exp, true, false).
Proof.
  induction 1 as [|c l Hc Hl IH]; [done|]. cbn [nest nest_step].
  destruct (close_cases c Hc) as [-> | ->]; exact IH.
Qed.

Lemma closer_of_close c : is_close (closer_of c) = true.
Proof. unfold closer_of. by destruct (c =? 123)%N. Qed.

(** ** Mismatched closers *)

Lemma nest_pop_to ch stack r :
  is_close ch = true -> Forall (fun c => is_close c = true) stack -> existsb (N.eqb ch) stack = true ->
  nest (take_while (fun t => negb (t =? ch)%N) stack ++ ch :: r) (stack, false, false)
  = nest r (tail (drop_while (fun t => negb (t =? ch)%N) stack), false, false).
Proof.
  intros Hc HF. induction HF as [|c l Hcl Hl IH]; cbn [existsb]; [done|].
  cbn [take_while drop_while]. destruct (c =? ch)%N eqn:E; cbn [negb].
  - intros _. apply N.eqb_eq in E as ->. cbn [app nest nest_step].
    destruct (close_cases ch Hc) as [-> | ->]; done.
  - rewrite (N.eqb_sym ch c), E. cbn [orb]. intros H. rewrite <- IH by done.
    cbn [app nest nest_step].
    destruct (close_cases c Hcl) as [-> | ->]; done.
Qed.

Lemma Forall_drop_while {A} (P : A -> Prop) f l : Forall P l -> Forall P (drop_while f l).
Proof. induction 1; simpl; [constructor|]. case_match; [done|by constructor]. Qed.

Lemma repair_scan_nest src stack i e :
  (i = false -> e = false) -> Forall (fun c => is_close c = true) stack ->
  exists exp b, nest (repair_scan src stack i e) (stack, i, e) = Some (exp, b, false) /\
    b = snd (foldl lex_step (i, e) src) /\ (b = false -> exp = []).
Proof.
  revert stack i e. induction src as [|c r IH]; intros stack i e He HF; cbn [repair_scan].
  - simpl. destruct i.
    + cbn [app nest nest_step]. destruct e; simpl.
      * rewrite nest_closers_in_string by done. by exists stack, true.
      * rewrite nest_closers by done. by exists [], false.
    + rewrite He by done. simpl. rewrite nest_closers by done. by exists [], false.
  - cbn [foldl]. destruct i.
    + cbn [nest nest_step lex_step]. destruct e; simpl; [by apply IH|].
      destruct (c =? BACKSLASH)%N; [by apply IH|]. destruct (c =? DQ)%N; by apply IH.
    + rewrite He by done. unfold lex_step at 2.
      destruct (c =? DQ)%N eqn:E1; [cbn [nest nest_step]; rewrite E1; simpl; by apply IH|].
      destruct (is_open c) eqn:E2.
      { cbn [nest nest_step]. rewrite E1, E2. simpl. apply IH; [done|]. constructor; [apply closer_of_close|done]. }
      destruct (is_close c) eqn:E3; [|cbn [nest nest_step]; rewrite E1, E2, E3; simpl; by apply IH].
      destruct (existsb (N.eqb c) stack) eqn:E4; [|by apply IH].
      rewrite nest_pop_to by done. apply IH; [done|].
      assert (HT := Forall_drop_while _ (fun t => negb (t =? c)%N) _ HF). destruct HT; [constructor|done].
Qed.

(** What a match of the dangling-comma pattern looks like. *)
Lemma chars_inv fl rs x z : ignoreCase fl = false ->
  rm fl (Chars false rs) x z -> exists c, consumes x [c] z /\ in_ranges c rs = true /\ ms_caps z = ms_caps x.
Proof.
  intros Hf H. inversion H as [|? ? ? c ? Ha Hc| | | | | | | | | | | | | |]; subst. exists c. split; [by apply consumes_advance|].
  unfold char_in in Hc. rewrite Hf in Hc. split; [by destruct (in_ranges c rs)|].
  unfold advance in Ha. destruct (ms_rest x); [done|]. by injection Ha as <- <-.
Qed.

Lemma rep_chars_inv fl r x z : ignoreCase fl = false ->
  rm fl r x z -> forall rs mn mx g, r = Rep (Chars false rs) mn mx g ->
  exists t, consumes x t z /\ Forall (fun c => in_ranges c rs = true) t.
Proof.
  intros Hf. induction 1; intros rs' mn' mx' g' [= -> -> -> ->].
  - exists []. split; [apply consumes_refl|constructor].
  - destruct (IHrm2 rs' (mn' - 1) (pred <$> mx') g' eq_refl) as (t & Ht & HF).
    destruct (chars_inv fl rs' _ _ Hf H0) as (c & Hc & Hr & _).
    exists (c :: t). split; [|by constructor]. exact (consumes_app _ _ _ [c] t Hc Ht).
Qed.

Lemma re_dangling_body :
  re_body re_dangling = Cat (Chars false [(44, 44)%N])
    (Cat (Rep (Chars false ws_ranges) 0 None true) (Grp 1 (Chars false [(125, 125); (93, 93)]%N)))
  /\ ignoreCase (re_flags re_dangling) = false.
Proof. split; reflexivity. Qed.

Lemma in_ranges_single c a : in_ranges c [(a, a)] = true -> c = a.
Proof. unfold in_ranges. simpl. rewrite orb_false_r. intros H. bool_norm. lia. Qed.

Lemma dangling_match s m : is_match re_dangling s m ->
  exists w c, m_text m = 44%N :: w ++ [c] /\ Forall (fun c => in_ranges c ws_ranges = true) w
              /\ is_close c = true /\ cap0 m 1 = [c].
Proof.
  intros (_ & _ & _ & z & Hz & Hcaps & Hcon). destruct re_dangling_body as [HB HI]. rewrite HB in Hz.
  inversion Hz as [| |? ? ? y1 ? H1 H2| | | | | | | | | | | | |]; subst.
  inversion H2 as [| |? ? ? y2 ? H3 H4| | | | | | | | | | | | |]; subst.
  inversion H4 as [| | | | |? ? ? y H5| | | | | | | | | |]; subst.
  apply chars_inv in H1 as (c1 & C1 & R1 & _); [|done]. apply in_ranges_single in R1 as ->.
  apply (fun H => rep_chars_inv _ _ _ _ HI H _ _ _ _ eq_refl) in H3 as (w & C2 & HW).
  apply chars_inv in H5 as (c & C3 & R3 & _); [|done].
  assert (HT : m_text m = [44%N] ++ w ++ [c]).
  { pose proof (consumes_app _ _ _ _ _ C1 (consumes_app _ _ _ _ _ C2 C3)) as [E1 _].
    destruct Hcon as [E2 _]. cbn [with_caps ms_rest] in *. rewrite E1 in E2.
    by apply app_inv_tail in E2. }
  exists w, c. split; [exact HT|]. split; [done|]. split.
  - unfold in_ranges in R3. simpl in R3. unfold is_close. rewrite orb_false_r in R3.
    apply orb_true_iff in R3 as [R3|R3]; bool_norm; apply orb_true_iff; [left|right]; apply N.eqb_eq; lia.
  - unfold cap0, cap. rewrite Hcaps. simpl. destruct C3 as [C3 C4]. rewrite C4, C3.
    simpl. replace (_ - _) with 1 by lia. done.
Qed.

(** White space and a comma are neutral for the nesting. *)
Lemma nest_ws w st : Forall (fun c => in_ranges c ws_ranges = true) w ->
  nest w st = match w with [] => Some st | _ => Some (st.1.1, st.1.2, if st.1.2 : bool then false else false) end.
Proof.
  assert (W : forall c, in_ranges c ws_ranges = true ->
    (c =? BACKSLASH)%N = false /\ (c =? DQ)%N = false /\ is_open c = false /\ is_close c = false).
  { intros c Hc. unfold BACKSLASH, DQ, is_open, is_close. rewrite !orb_false_iff, !N.eqb_neq.
    repeat split; intros ->; discriminate Hc. }
  intros HF. revert st. induction HF as [|c w Hc Hw IH]; intros st; [done|].
  destruct (W c Hc) as (W1 & W2 & W3 & W4). destruct st as [[exp i] e]. cbn [nest nest_step].
  rewrite W1, W2, W3, W4. destruct i; [destruct e|]; cbn [mbind option_bind negb]; rewrite IH; by destruct w.
Qed.

Lemma nest_dangling w c t st : Forall (fun c => in_ranges c ws_ranges = true) w -> is_close c = true ->
  (st.1.2 = false -> st.2 = false) ->
  nest (44%N :: w ++ c :: t) st = nest (c :: t) st.
Proof.
  intros HW Hc Hst. destruct st as [[exp i] e]. simpl in Hst.
  pose proof (close_cases c Hc) as D.
  assert (H1 : nest (44%N :: w ++ c :: t) (exp, i, e) = nest (w ++ c :: t) (exp, i, false)).
  { destruct i; [by destruct e|]. by rewrite Hst. }
  rewrite H1, nest_app, nest_ws by done.
  destruct i.
  - destruct w; destruct e, D as [-> | ->]; reflexivity.
  - rewrite Hst by done. by destruct w.
Qed.

(** A reachable state has no escape outside a string. *)
Lemma nest_state_ok s st st' : (st.1.2 = false -> st.2 = false) -> nest s st = Some st' -> st'.1.2 = false -> st'.2 = false.
Proof.
  revert st. induction s as [|c s IH]; intros st H; cbn [nest]; [by intros [= <-]|].
  destruct (nest_step st c) as [st1|] eqn:E; [|done]. apply IH.
  destruct st as [[exp i] e]. unfold nest_step in E. destruct i.
  - destruct e; [by injection E as <-|]. destruct (c =? BACKSLASH)%N; [by injection E as <-|]. by injection E as <-.
  - repeat case_match; by simplify_eq.
Qed.

Lemma slice_cut (s : jstr) i j : i <= j -> drop i s = slice s i j ++ drop j s.
Proof. intros H. unfold slice. rewrite <- (take_drop (j - i) (drop i s)) at 1. rewrite drop_drop. do 2 f_equal. lia. Qed.

Lemma strip_commas_nest s st : (st.1.2 = false -> st.2 = false) -> nest (replace_all re_dangling (u "$1") s) st = nest s st.
Proof.
  intros Hst. unfold replace_all, replace_all_fn.
  pose proof (match_all_ordered re_dangling s) as HO.
  cut (forall st, (st.1.2 = false -> st.2 = false) ->
       nest (splice s 0 (match_all re_dangling s) (fun m => expand_match m (u "$1"))) st = nest (drop 0 s) st).
  { intros H. by rewrite H. }
  apply (splice_ind s _ (fun i t => forall st, (st.1.2 = false -> st.2 = false) -> nest t st = nest (drop i s) st));
    [done|lia|done|].
  intros i m t Hm Hi1 Hi2 Hi3 IH st0 Hst0. apply match_all_sound in Hm.
  destruct (dangling_match _ _ Hm) as (w & c & HT & HW & HC & HCap).
  destruct Hm as (_ & _ & HS & _).
  rewrite (slice_cut s i (m_index m)) by done. rewrite (slice_cut s (m_index m) (m_end m)) by done.
  rewrite <- HS, HT. rewrite !nest_app. destruct (nest (slice s i (m_index m)) st0) as [st1|] eqn:E; [|done].
  cbn [mbind option_bind]. pose proof (nest_state_ok _ _ _ Hst0 E) as Hst1.
  change (expand_match m (u "$1")) with (cap0 m 1 ++ []). rewrite app_nil_r, HCap. cbn [app].
  rewrite <- app_assoc. cbn [app]. rewrite nest_dangling by done.
  cbn [nest]. destruct (nest_step st1 c) as [st2|] eqn:E2; [|done]. cbn [mbind option_bind].
  apply IH. apply (nest_state_ok [c] st1); [done|]. cbn [nest]. by rewrite E2.
Qed.

(** C30: [repairClosings] always returns a text whose brackets and quotes are
    closed in the right order, except when the input stops right after a
    backslash inside a string: the quote it adds is then escaped and the
    string stays open. *)
Theorem repairClosings_balanced src :
  (balanced (repairClosings src) <-> cut_in_escape src = false).
Proof.
  unfold balanced, repairClosings, cut_in_escape, lex. rewrite strip_commas_nest by done.
  destruct (repair_scan_nest src [] false false) as (exp & b & H1 & H2 & H3); [done|constructor|].
  rewrite H1, <- H2. split; [by intros [=]|]. intros ->. by rewrite H3.
Qed.

(** ** Truncated text *)

Lemma balance_scan_nest src stack i e st :
  (i = false -> e = false) ->
  nest src (map closer_of stack, i, e) = Some st ->
  map closer_of (balance_scan src stack i e).1 = st.1.1 /\ (balance_scan src stack i e).2 = st.1.2.
Proof.
  revert stack i e. induction src as [|c r IH]; intros stack i e He; cbn [nest balance_scan]; [by intros [= <-]|].
  destruct i.
  - unfold nest_step. destruct e; [by apply IH|].
    destruct (c =? BACKSLASH)%N; [by apply IH|]. destruct (c =? DQ)%N; by apply IH.
  - rewrite He by done. unfold nest_step. destruct (c =? DQ)%N; [by apply IH|].
    destruct (is_open c) eqn:E2; [by apply (IH (c :: stack))|].
    destruct (is_close c); [|by apply IH].
    destruct stack as [|x stack]; [done|]. cbn [map]. destruct (closer_of x =? c)%N; [|done]. by apply IH.
Qed.

Lemma re_trailing_comma_body :
  re_body re_trailing_comma = Cat (Chars false [(44, 44)%N]) (Cat (Rep (Chars false ws_ranges) 0 None true) Eol)
  /\ re_flags re_trailing_comma = mkFlags false false.
Proof. split; reflexivity. Qed.

Lemma length_slice (s : jstr) i j : i <= j -> j <= length s -> length (slice s i j) = j - i.
Proof. intros H1 H2. unfold slice. rewrite length_take, length_drop. lia. Qed.

Lemma re_trailing_comma_match s m : is_match re_trailing_comma s m ->
  exists w, s = take (m_index m) s ++ 44%N :: w /\ m_end m = length s /\
            Forall (fun c => in_ranges c ws_ranges = true) w.
Proof.
  intros (HM1 & HM2 & HM3 & z & Hz & _ & Hcon).
  destruct re_trailing_comma_body as [HB HI]. rewrite HB, HI in Hz.
  inversion Hz as [| |? ? ? y1 ? H1 H2| | | | | | | | | | | | |]; subst.
  inversion H2 as [| |? ? ? y2 ? H3 H4| | | | | | | | | | | | |]; subst.
  inversion H4 as [| | | | | | | | |? H5| | | | | |]; subst.
  apply chars_inv in H1 as (c1 & C1 & R1 & _); [|done]. apply in_ranges_single in R1 as ->.
  apply (fun H => rep_chars_inv (mkFlags false false) _ _ _ eq_refl H _ _ _ _ eq_refl) in H3 as (w & C2 & HW).
  destruct (consumes_app _ _ _ _ _ C1 C2) as [E3 E4]. destruct Hcon as [E1 E2].
  assert (HT : m_text m = 44%N :: w) by (rewrite E3 in E1; by apply app_inv_tail in E1).
  destruct H5 as [H5|H5]; [|done]. rewrite H5, app_nil_r in E1. cbn [at_pos ms_rest] in E1.
  exists w. rewrite <- HT, <- E1, take_drop. split; [done|]. split; [|done].
  apply (f_equal length) in E1. rewrite HM3, length_slice, length_drop in E1 by done. lia.
Qed.

Lemma strip_trailing_comma s :
  (exec re_trailing_comma s = None /\ replace_first re_trailing_comma [] s = s) \/
  exists a w, s = a ++ 44%N :: w /\ replace_first re_trailing_comma [] s = a /\
              Forall (fun c => in_ranges c ws_ranges = true) w.
Proof.
  unfold replace_first. destruct (exec re_trailing_comma s) as [m|] eqn:E; [right|by left].
  apply exec_sound in E. destruct (re_trailing_comma_match _ _ E) as (w & H1 & H2 & H3).
  exists (take (m_index m) s), w. split; [done|]. split; [|done].
  change (option_list (Some m)) with [m]. cbn [splice]. unfold slice. rewrite H2, drop_all, Nat.sub_0_r, drop_0. simpl. by rewrite app_nil_r.
Qed.

(** A text cut in the middle, all of whose closers matched so far, is
    closed by [balanceJson]: the result has its brackets and quotes closed in
    the right order, unless the cut (once the trailing comma is removed) falls
    right after a backslash inside a string. *)
Theorem balanceJson_balanced src st :
  nest src ([], false, false) = Some st ->
  cut_in_escape (replace_first re_trailing_comma [] src) = false ->
  balanced (balanceJson src).
Proof.
  intros Hn Hc. unfold balanced, balanceJson.
  destruct (balance_scan_nest src [] false false st) as [B1 B2]; [done|done|].
  destruct (balance_scan src [] false false) as [stack i] eqn:EB. cbn [fst snd] in B1, B2.
  assert (H : nest (replace_first re_trailing_comma [] src) ([], false, false) = Some (st.1.1, st.1.2, false)).
  { set (t := replace_first re_trailing_comma [] src) in *.
    assert (HK : exists e, nest t ([], false, false) = Some (st.1.1, st.1.2, e)).
    { destruct (strip_trailing_comma src) as [[_ H]|(a & w & H1 & H2 & HW)]; subst t.
      - rewrite H. exists st.2. by destruct st as [[? ?] ?].
      - rewrite H2. rewrite H1, nest_app in Hn. destruct (nest a _) as [[[exp j] e]|] eqn:EA; [|done].
        exists e. cbn [mbind option_bind] in Hn. change (44%N :: w) with ([44%N] ++ w) in Hn. rewrite nest_app in Hn.
        destruct j; cbn [nest nest_step mbind option_bind] in Hn.
        + destruct e; cbn [mbind option_bind] in Hn;
            change (negb (44 =? DQ)%N) with true in Hn; change (44 =? BACKSLASH)%N with false in Hn; cbn iota in Hn;
            cbn [mbind option_bind] in Hn; rewrite nest_ws in Hn by done; destruct w; injection Hn as <-; done.
        + change (is_open 44) with false in Hn. change (is_close 44) with false in Hn.
          change (44 =? DQ)%N with false in Hn. cbn [mbind option_bind] in Hn.
          rewrite nest_ws in Hn by done. destruct w; injection Hn as <-; done. }
    destruct HK as [e HK]. rewrite HK. pose proof (nest_lex _ _ _ _ _ HK) as HL. simpl in HL.
    unfold cut_in_escape, lex in Hc. rewrite HL in Hc. cbn [snd] in Hc.
    pose proof (nest_state_ok t ([], false, false) _ (fun _ => eq_refl) HK) as HO. cbn [fst snd] in HO.
    do 2 f_equal. destruct st.1.2; [exact Hc|by apply HO]. }
  rewrite nest_app, H. cbn [mbind option_bind]. rewrite nest_app, B1, B2.
  assert (HF : Forall (fun c => is_close c = true) st.1.1).
  { rewrite <- B1. apply List.Forall_forall. intros x [y [<- _]]%in_map_iff. apply closer_of_close. }
  destruct st.1.2; cbn [nest nest_step mbind option_bind];
    change (DQ =? BACKSLASH)%N with false; change (negb (DQ =? DQ)%N) with false; cbn iota; cbn [mbind option_bind];
    by rewrite nest_closers.
Qed.
Theorem balanceJson_balanced_witness :
  let src := uq "{'a': [1, 'b'], 'c': {'d': 'e\n, " in
  is_Some (nest src ([], false, false)) /\ balanced (balanceJson src).
Proof.
  split; [vm_compute; by eexists|].
  eapply balanceJson_balanced; vm_compute; reflexivity.
Defined.

(** ** Raw control characters *)

Definition raw_control (c : N) : bool := ((c =? LF) || (c =? CR) || (c =? TAB))%N.

(** No raw control character inside a string, except right after a backslash. *)
Fixpoint raw_free (s : jstr) (st : bool * bool) : bool :=
  match s with
  | [] => true
  | c :: r => negb (st.1 && negb st.2 && raw_control c) && raw_free r (lex_step st c)
  end.

Lemma escape_scan_spec s i e : (i = false -> e = false) ->
  raw_free (escape_scan s i e) (i, e) = true /\
  foldl lex_step (i, e) (escape_scan s i e) = foldl lex_step (i, e) s.
Proof.
  revert i e. induction s as [|c r IH]; intros i e He; [done|]. cbn [escape_scan].
  destruct i.
  - destruct e; [cbn [raw_free foldl lex_step fst snd]; by apply IH|].
    destruct (c =? BACKSLASH)%N eqn:E1.
    { apply N.eqb_eq in E1 as ->. cbn [raw_free foldl lex_step fst snd]. by apply IH. }
    destruct (c =? DQ)%N eqn:E2.
    { apply N.eqb_eq in E2 as ->. cbn [raw_free foldl lex_step fst snd]. by apply IH. }
    destruct (IH true false ltac:(done)) as [IH1 IH2].
    destruct (c =? LF)%N eqn:E3; [apply N.eqb_eq in E3 as ->; split; [exact IH1|exact IH2]|].
    destruct (c =? CR)%N eqn:E4; [apply N.eqb_eq in E4 as ->; split; [exact IH1|exact IH2]|].
    destruct (c =? TAB)%N eqn:E5; [apply N.eqb_eq in E5 as ->; split; [exact IH1|exact IH2]|].
    cbn [raw_free foldl lex_step fst snd]. unfold raw_control. rewrite E1, E2, E3, E4, E5. by split.
  - rewrite He by done. cbn [raw_free foldl lex_step fst snd]. by apply IH.
Qed.

Lemma escape_scan_id s i e : (i = false -> e = false) ->
  (escape_scan s i e = s <-> raw_free s (i, e) = true).
Proof.
  revert i e. induction s as [|c r IH]; intros i e He; [done|]. cbn [escape_scan raw_free fst snd].
  assert (C : forall (x y : jstr), c :: x = c :: y <-> x = y) by (intros; split; [by intros [=]|by intros ->]).
  destruct i; simpl.
  - destruct e; [rewrite C; by apply IH|].
    unfold raw_control, BACKSLASH, DQ, LF, CR, TAB in *.
    destruct (c =? 92)%N eqn:E1; [apply N.eqb_eq in E1 as ->; simpl; rewrite C; by apply IH|].
    destruct (c =? 34)%N eqn:E2; [apply N.eqb_eq in E2 as ->; simpl; rewrite C; by apply IH|].
    destruct (c =? 10)%N eqn:E3; [apply N.eqb_eq in E3 as ->; simpl; split; [intros [=]|done]|].
    destruct (c =? 13)%N eqn:E4; [apply N.eqb_eq in E4 as ->; simpl; split; [intros [=]|done]|].
    destruct (c =? 9)%N eqn:E5; [apply N.eqb_eq in E5 as ->; simpl; split; [intros [=]|done]|].
    simpl. rewrite C. by apply IH.
  - rewrite He, C by done. by apply IH.
Qed.

(** After [escapeRawControlChars] no string of the text holds a raw line
    feed, carriage return or tab (outside an escape); the quotes and escapes
    are read the same way as before; and exactly the texts that were already
    clean are left unchanged, so the function is idempotent. *)
Theorem escapeRawControlChars_clean src :
  raw_free (escapeRawControlChars src) (false, false) = true
  /\ lex (escapeRawControlChars src) = lex src
  /\ (escapeRawControlChars src = src <-> raw_free src (false, false) = true)
  /\ escapeRawControlChars (escapeRawControlChars src) = escapeRawControlChars src.
Proof.
  unfold escapeRawControlChars, lex. destruct (escape_scan_spec src false false) as [H1 H2]; [done|].
  repeat split; try done; try (by apply escape_scan_id).
Qed.

(** ** The first complete value *)

(** Nesting depth (brackets of either kind) with the string flags. *)
Definition depth_step (opens closes : N -> bool) (st : Z * (bool * bool)) (c : N) : Z * (bool * bool) :=
  (if st.2.1 : bool then st.1
   else if (c =? DQ)%N then st.1
   else if opens c then (st.1 + 1)%Z
   else if closes c then (st.1 - 1)%Z
   else st.1, lex_step st.2 c).
Definition depth (opens closes : N -> bool) (s : jstr) : Z * (bool * bool) :=
  foldl (depth_step opens closes) (0%Z, (false, false)) s.

Lemma value_end_spec o c s d i e : (0 < d)%Z -> (i = false -> e = false) ->
  match value_end o c s d i e with
  | Some n => 0 < n <= length s
      /\ foldl (depth_step o c) (d, (i, e)) (take n s) = (0%Z, (false, false))
      /\ (forall k, k < n -> (0 < (foldl (depth_step o c) (d, (i, e)) (take k s)).1)%Z)
  | None => forall k, k <= length s -> (0 < (foldl (depth_step o c) (d, (i, e)) (take k s)).1)%Z
  end.
Proof.
  revert d i e. induction s as [|ch r IH]; intros d i e Hd He; cbn [value_end].
  { intros k Hk. destruct k; simpl in *; lia. }
  assert (K : forall v d' i' e', v = value_end o c r d' i' e' -> (0 < d')%Z -> (i' = false -> e' = false) ->
     depth_step o c (d, (i, e)) ch = (d', (i', e')) ->
     match S <$> v with
     | Some n => 0 < n <= length (ch :: r)
         /\ foldl (depth_step o c) (d, (i, e)) (take n (ch :: r)) = (0%Z, (false, false))
         /\ (forall k, k < n -> (0 < (foldl (depth_step o c) (d, (i, e)) (take k (ch :: r))).1)%Z)
     | None => forall k, k <= length (ch :: r) -> (0 < (foldl (depth_step o c) (d, (i, e)) (take k (ch :: r))).1)%Z
     end).
  { intros v d' i' e' -> Hd' He' HS. specialize (IH d' i' e' Hd' He').
    destruct (value_end o c r d' i' e') as [n|]; cbn [fmap option_fmap option_map].
    - destruct IH as (I1 & I2 & I3). cbn [take foldl length]. rewrite HS. split; [lia|]. split; [done|].
      intros [|k] Hk; [done|]. cbn [take foldl]. rewrite HS. apply I3. lia.
    - intros [|k] Hk; [done|]. cbn [take foldl length] in *. rewrite HS. apply IH. lia. }
  unfold depth_step in K at 1. cbn [fst snd] in K.
  destruct i.
  - destruct e; [by eapply K|]. unfold lex_step in K. destruct (ch =? BACKSLASH)%N; [by eapply K|].
    destruct (ch =? DQ)%N; by eapply K.
  - rewrite He in * by done. unfold lex_step in K. destruct (ch =? DQ)%N eqn:EQ; [by eapply K|].
    destruct (o ch) eqn:EO; [eapply K; [done|lia|done|done]|].
    destruct (c ch) eqn:EC; [|by eapply K].
    destruct (d - 1 =? 0)%Z eqn:E0; [|apply Z.eqb_neq in E0; eapply K; [done|lia|done|done]].
    cbn [fmap option_fmap option_map]. split; [simpl; lia|]. split.
    + cbn [take foldl]. rewrite take_0. cbn [foldl]. unfold depth_step. cbn [fst snd lex_step]. rewrite EQ, EO, EC. apply Z.eqb_eq in E0. by rewrite E0.
    + intros k Hk. assert (k = 0) as -> by lia. done.
Qed.

(** From an opener. *)
Lemma value_end_open o c x r :
  o x = true -> (x =? DQ)%N = false ->
  match value_end o c (x :: r) 0 false false with
  | Some n => 0 < n <= length (x :: r) /\ depth o c (take n (x :: r)) = (0%Z, (false, false))
      /\ (forall k, 0 < k < n -> (0 < (depth o c (take k (x :: r))).1)%Z)
  | None => forall k, 0 < k <= length (x :: r) -> (0 < (depth o c (take k (x :: r))).1)%Z
  end.
Proof.
  intros Hx HQ. cbn [value_end]. rewrite HQ, Hx. pose proof (value_end_spec o c r (0 + 1) false false) as H.
  specialize (H ltac:(lia) ltac:(done)).
  assert (HS : depth_step o c (0%Z, (false, false)) x = ((0 + 1)%Z, (false, false))).
  { unfold depth_step. cbn [fst snd lex_step]. by rewrite HQ, Hx. }
  unfold depth.
  destruct (value_end o c r (0 + 1) false false) as [n|]; cbn [fmap option_fmap option_map].
  - destruct H as (I1 & I2 & I3). cbn [take foldl length]. rewrite HS. split; [lia|]. split; [done|].
    intros [|k] Hk; [lia|]. cbn [take foldl]. rewrite HS. apply I3. lia.
  - intros [|k] Hk; [lia|]. cbn [take foldl length] in *. rewrite HS. apply H. lia.
Qed.

Lemma search_open s : search (rx "[{[]" "") s = find_index is_open s.
Proof.
  rewrite (search_chars _ false [(123, 123); (91, 91)]%N) by reflexivity.
  induction s as [|c s IH]; [done|]. cbn [find_index]. rewrite IH.
  replace (char_in _ c false _) with (is_open c); [done|].
  unfold is_open, char_in. cbn [ignoreCase]. change (ignoreCase (re_flags (rx "[{[]" ""))) with false. cbn iota.
  unfold in_ranges. cbn [existsb fst snd]. rewrite orb_false_r.
  destruct (c =? 123)%N eqn:E1, (c =? 91)%N eqn:E2; bool_norm; subst; try done.
  destruct (123 <=? c)%N eqn:E3, (c <=? 123)%N eqn:E4, (91 <=? c)%N eqn:E5, (c <=? 91)%N eqn:E6; try done; bool_norm; lia.
Qed.

(** [v] opens with a bracket, and its depth comes back to zero at its end and
    not before. *)
Definition one_value (v : jstr) : Prop :=
  (exists x r, v = x :: r /\ is_open x = true)
  /\ depth is_open is_close v = (0%Z, (false, false))
  /\ forall k, 0 < k < length v -> (0 < (depth is_open is_close (take k v)).1)%Z.

(** [firstJsonValue] cuts the text at the first value that opens with a
    brace or bracket: the result starts at the first opener of the text and
    ends where the depth, strings skipped, first comes back to zero; it is
    [null] exactly when the text has no opener or never closes the first. *)
Theorem firstJsonValue_first src :
  match firstJsonValue src with
  | Some v => exists pre post, src = pre ++ v ++ post /\ Forall (fun c => is_open c = false) pre /\ one_value v
  | None =>
      Forall (fun c => is_open c = false) src \/
      exists pre x r, src = pre ++ x :: r /\ Forall (fun c => is_open c = false) pre /\ is_open x = true /\
        forall k, 0 < k <= length (x :: r) -> (0 < (depth is_open is_close (take k (x :: r))).1)%Z
  end.
Proof.
  unfold firstJsonValue. rewrite search_open. destruct (find_index is_open src) as [i|] eqn:EI; cbn [mbind option_bind].
  - apply find_index_Some in EI as [(x & Hx & Ho) Hpre].
    assert (HS : src = take i src ++ x :: drop (S i) src).
    { rewrite <- (take_drop i src) at 1. f_equal. by apply drop_S. }
    assert (HP : Forall (fun c => is_open c = false) (take i src)).
    { apply Forall_lookup. intros j y Hj. apply lookup_take_Some in Hj as [H1 H2]. by eapply Hpre. }
    assert (HD : drop i src = x :: drop (S i) src) by (by apply drop_S).
    assert (HQ : (x =? DQ)%N = false) by (destruct (x =? DQ)%N eqn:E; [apply N.eqb_eq in E as ->; done|done]).
    pose proof (value_end_open is_open is_close x (drop (S i) src) Ho HQ) as HV. rewrite <- HD in HV.
    destruct (value_end is_open is_close (drop i src) 0 false false) as [n|]; cbn [mbind option_bind].
    + destruct HV as (V1 & V2 & V3). exists (take i src), (drop (i + n) src).
      unfold slice. replace (i + n - i) with n by lia. split; [|split; [done|]].
      * rewrite <- drop_drop, take_drop, take_drop. done.
      * split; [|split; [done|]].
        -- rewrite HD. destruct n; [lia|]. simpl. eauto.
        -- intros k Hk. rewrite length_take in Hk. rewrite take_take, Nat.min_l by lia. apply V3. lia.
    + right. exists (take i src), x, (drop (S i) src). rewrite HD in HV. done.
  - left. apply Forall_forall. intros x Hx. by eapply find_index_None.
Qed.
