(* ===== verification/Parsers.v ===== *)
(** * Model-output parsers (lib/playground-parsers.ts)

    What the playground reads out of a model's answer: edit blocks,
    questionnaires, unfinished files and their continuations, file names and
    inline reasoning. *)

From S2P Require Import JsJson JsRegExp Repair.

Definition MAX_ASK_QUESTIONS : nat := 20.
Definition MAX_ASK_OPTIONS : nat := 8.

Definition FENCE : jstr := u "```".
Definition re_fence : RegExp := rx "```" "g".

Definition RE_QUESTIONS_BODY : RegExp := rx "^\s*\{\s*\x22questions\x22\s*:\s*\[" "".
Definition isQuestionsBlock (lang body : jstr) : bool :=
  let l := to_lower lang in
  streq l (u "ask") || ((streq l (u "json") || streq l []) && test RE_QUESTIONS_BODY body).

Record AskQ := mkAskQ { question : jstr; options : list jstr }.
Record AskBlock := mkAskBlock { questions : list AskQ; prose : jstr }.
Record FileEdit := mkFileEdit { e_file : jstr; e_find : jstr; e_replace : jstr }.

(** ** Old edit blocks *)

Definition re_edit : RegExp := rx "```edit\s*\n([\s\S]*?)(?:```|$)" "".

(** Reading a member of [null] throws. *)
Definition edit_of (e : json) : option FileEdit :=
  match e with
  | JNull => None
  | _ => Some (mkFileEdit (trim (string_or_empty (prop (u "file") e)))
                 (string_or_empty (prop (u "find") e)) (string_or_empty (prop (u "replace") e)))
  end.

(** An array as the top value has a method [find]; the edit made of it has an
    empty text to find and is filtered out, as [[]] is here. *)
Definition parseEdits (content : jstr) : list FileEdit :=
  match exec re_edit content with
  | None => []
  | Some m =>
      match parse_repaired (trim (cap0 m 1)) with
      | None | Some JNull => []
      | Some obj =>
          let raw := match prop (u "edits") obj with
                     | Some (JArr l) => l
                     | _ => if truthy_opt (prop (u "find") obj) then [obj] else []
                     end in
          match mapM edit_of raw with
          | Some es => filter (fun e => e_find e <> []) es
          | None => []
          end
      end
  end.

(** ** Fences and continuations *)

Definition fences (content : jstr) : nat := length (match_all re_fence content).

Definition closedContent (content : jstr) : jstr :=
  if Nat.odd (fences content) then content ++ u "
```" else content.

Record OpenFence := mkOpen { of_lang : jstr; of_body : jstr; of_start : nat }.

Definition openCodeFence (content : jstr) : option OpenFence :=
  if negb (Nat.odd (fences content)) then None
  else
    start ← last_index_of FENCE content;
    let rest := drop (start + 3) content in
    nl ← index_from [LF] rest;
    let info := trim (take nl rest) in
    let first := hd [] (split_re (rx "\s+" "") info) in
    let body := drop (nl + 1) rest in
    if isQuestionsBlock first body then None
    else Some (mkOpen (if streq first [] then u "text" else first) body start).

Definition strip_last_lf (s : jstr) : jstr := replace_first (rx "\n$" "") [] s.

Definition continuationBody (content : jstr) : jstr :=
  match exec (rx "```[^\n`]*\n([\s\S]*?)```" "") content with
  | Some m => strip_last_lf (cap0 m 1)
  | None =>
      match index_from FENCE content with
      | None => content
      | Some first =>
          if test (rx "^\s*```[^\n`]*\n" "") content
          then match openCodeFence content with Some o => of_body o | None => content end
          else strip_last_lf (take first content)
      end
  end.

Definition REJOIN_TAIL : nat := 6000.
Definition REJOIN_HEAD : nat := 6000.
Definition REJOIN_MIN_LINES : nat := 3.
Definition REJOIN_MIN_CHARS : nat := 60.
Definition REJOIN_MAX_REMOVED : nat := 2000.

Fixpoint lines_from (ls : list jstr) (pos : nat) : list (jstr * nat) :=
  match ls with
  | [] => []
  | l :: r => (trim_end l, pos) :: lines_from r (pos + length l + 1)
  end.
Definition splitLines (text : jstr) (startPos : nat) : list (jstr * nat) :=
  lines_from (split_lf text) startPos.

(** The common run of two line lists: its length, its characters, its useful
    lines. *)
Fixpoint common_run (lb ls : list (jstr * nat)) : nat * nat * nat :=
  match lb, ls with
  | (a, _) :: lb', (b, _) :: ls' =>
      if streq a b then
        let t := length (trim a) in
        let '(k, charCount, useful) := common_run lb' ls' in
        (S k, t + charCount, (if 10 <=? t then 1 else 0) + useful)
      else (0, 0, 0)
  | _, _ => (0, 0, 0)
  end.

Record Splice := mkSplice { s_base : nat; s_continuation : nat; s_charCount : nat }.

(** One round of the two loops. *)
Definition better (best : option Splice) (lb ls : list (jstr * nat)) : option Splice :=
  match lb, ls with
  | (_, pb) :: _, (_, ps) :: _ =>
      let '(k, charCount, useful) := common_run lb ls in
      if (REJOIN_MIN_LINES <=? k) && (1 <=? useful) && (REJOIN_MIN_CHARS <=? charCount)
         && match best with None => true | Some b => s_charCount b <? charCount end
      then Some (mkSplice pb ps charCount) else best
  | _, _ => best
  end.
Fixpoint tails {A} (l : list A) : list (list A) :=
  match l with [] => [] | _ :: r => l :: tails r end.
Definition best_splice (lb ls : list (jstr * nat)) : option Splice :=
  foldl (fun best lbi => foldl (fun best lsj => better best lbi lsj) best (tails ls)) None (tails lb).

(** The longest start of [head], at most [k] long, that ends [end_]. *)
Fixpoint repeated (end_ head : jstr) (k : nat) : option nat :=
  match k with
  | O => None
  | S k' => if k <? 3 then None
            else if ends_with end_ (take k head) then Some k else repeated end_ head k'
  end.

Definition joinLine (base continuation : jstr) : jstr :=
  let end_ := match last_index_of [LF] base with Some i => drop (S i) base | None => base end in
  if streq (trim end_) [] then base ++ continuation
  else
    let head := hd [] (split_lf continuation) in
    match repeated end_ head (Nat.min (length end_) (length head)) with
    | Some k => base ++ drop k continuation
    | None => base ++ continuation
    end.

(** A continuation that rewrites the whole document. *)
Definition rewrites (base continuation : jstr) : bool :=
  test (rx "^\s*(<!DOCTYPE|<html[\s>])" "i") continuation
  && test (rx "<!DOCTYPE|<html[\s>]" "i") base
  && test (rx "<\/html\s*>" "i") continuation
  && (length base <=? 2 * length continuation).

Definition rejoin (base continuation : jstr) : jstr :=
  if rewrites base continuation then continuation
  else
    let queue := slice_end base REJOIN_TAIL in
    let lb := splitLines queue (length base - length queue) in
    let ls := splitLines (take REJOIN_HEAD continuation) 0 in
    match best_splice lb ls with
    | Some best =>
        if length base - s_base best <=? REJOIN_MAX_REMOVED
        then take (s_base best) base ++ drop (s_continuation best) continuation
        else joinLine base continuation
    | None => joinLine base continuation
    end.

(** ** Questionnaires *)

Definition is_lbrace (c : N) : bool := (c =? 123)%N.
Definition is_rbrace (c : N) : bool := (c =? 125)%N.
Definition objectEnd (src : jstr) (start : nat) : option nat :=
  (fun n => start + n) <$> value_end is_lbrace is_rbrace (drop start src) 0 false false.

Record Candidate := mkCand { c_text : jstr; c_start : nat; c_end : nat }.

Definition re_candidate : RegExp := rx "\{\s*\x22(?:question|questions)\x22\s*:" "gi".

(** Every round starts one unit after the previous match, so [length src + 1]
    rounds are enough. *)
Fixpoint candidates_from (fuel : nat) (src : jstr) (lastIndex : nat) : list Candidate :=
  match fuel with
  | O => []
  | S f =>
      match exec_from re_candidate src lastIndex with
      | None => []
      | Some m =>
          let start := m_index m in
          let end_ := default (length src) (objectEnd src start) in
          mkCand (slice src start end_) start end_ :: candidates_from f src (start + 1)
      end
  end.
Definition questionCandidates (src : jstr) : list Candidate :=
  candidates_from (S (length src)) src 0.

(** [None] is the exception thrown on a [null] entry. *)
Definition question_of (q : json) : option AskQ :=
  match q with
  | JNull => None
  | _ =>
      Some (mkAskQ (trim (string_or_empty (prop (u "question") q)))
        (match prop (u "options") q with
         | Some (JArr os) =>
             take MAX_ASK_OPTIONS
               (map trim (filter (fun o => trim o <> []) (omap (fun o => match o with JStr s => Some s | _ => None end) os)))
         | _ => []
         end))
  end.

Definition usable (q : AskQ) : bool := negb (streq (question q) []) && (1 <=? length (options q)).

Definition questionsOf (body : jstr) : option (list AskQ) :=
  match parse_repaired body with
  | None => Some []
  | Some raw =>
      let list_ := match prop (u "questions") raw with
                   | Some (JArr l) => l
                   | _ => if truthy_opt (prop (u "question") raw) then [raw] else []
                   end in
      List.filter usable <$> mapM question_of list_
  end.

Definition re_block : RegExp := rx "```([\w+-]*)[ \t]*\n([\s\S]*?)(?:```|$)" "g".

Definition fileBounds (content : jstr) : list (nat * nat) :=
  omap (fun m =>
    if isQuestionsBlock (cap0 m 1) (cap0 m 2) then None
    else if streq (cap0 m 1) [] && negb (ends_with (m_text m) FENCE) then None
    else Some (m_index m, m_index m + length (m_text m)))
  (match_all re_block content).

Definition inside (files : list (nat * nat)) (start end_ : nat) : bool :=
  existsb (fun df => (df.1 <=? start) && (end_ <=? df.2)) files.

Definition containsQuestions (content : jstr) : bool :=
  let files := fileBounds content in
  existsb (fun c => negb (inside files (c_start c) (c_end c))) (questionCandidates content).

Definition incompleteResponse (content : jstr) : bool :=
  if containsQuestions content then false
  else match openCodeFence content with
       | Some open => negb (test (rx "<\/html\s*>\s*$" "i") (trim_end (of_body open)))
       | None => test (rx "<!DOCTYPE html|<html[\s>]" "i") content
                 && negb (test (rx "<\/html\s*>" "i") content)
       end.

(** The mutable variables of [parseAsk]. *)
Record AskState := mkAsk { a_questions : list AskQ; a_seen : list jstr; a_first : nat }.

Definition add_question (st : AskState) (q : AskQ) : AskState :=
  let key := to_lower (question q) in
  if existsb (streq key) (a_seen st) || (MAX_ASK_QUESTIONS <=? length (a_questions st)) then st
  else mkAsk (a_questions st ++ [q]) (key :: a_seen st) (a_first st).

Definition collect_one (files : list (nat * nat)) (offset : nat) (st : option AskState) (c : Candidate) : option AskState :=
  st ← st;
  let start := offset + c_start c in
  if inside files start (offset + c_end c) then Some st
  else
    let st1 := mkAsk (a_questions st) (a_seen st) (Nat.min (a_first st) start) in
    qs ← questionsOf (c_text c);
    Some (foldl add_question st1 qs).
Definition collected (files : list (nat * nat)) (st : option AskState) (body : jstr) (offset : nat) : option AskState :=
  foldl (collect_one files offset) st (questionCandidates body).

Definition collect_match (files : list (nat * nat)) (st : option AskState) (m : Match) : option AskState :=
  st ← st;
  collected files (Some (mkAsk (a_questions st) (a_seen st) (Nat.min (a_first st) (m_index m))))
    (cap0 m 1) (m_index m + length (m_text m) - length (cap0 m 1)).

Definition re_ask : RegExp := rx "```ask[ \t]*\n([\s\S]*?)(?:```|$)" "gi".
Definition re_ask_json : RegExp :=
  rx "```(?:json)?[ \t]*\n(\s*\{\s*\x22questions\x22\s*:\s*\[[\s\S]*?)(?:```|$)" "g".
Definition re_ask_bare : RegExp :=
  rx "(?:^|\n)[ \t]*`?ask`?[ \t]*\n(\s*\{\s*\x22questions\x22\s*:\s*\[[\s\S]*?)(?:```|$)" "gi".

(** The outer option is the exception, the inner one the function's result. *)
Definition parseAsk (content : jstr) : option (option AskBlock) :=
  let files := fileBounds content in
  let st0 := Some (mkAsk [] [] (length content)) in
  let st1 := foldl (collect_match files) st0 (match_all re_ask content) in
  let st2 := foldl (collect_match files) st1 (match_all re_ask_json content) in
  let st3 := foldl (collect_match files) st2 (match_all re_ask_bare content) in
  st ← collected files st3 content 0;
  if negb (1 <=? length (a_questions st)) then Some None
  else
    let prose := take (a_first st) content in
    let prose := match search (rx "(?:[[{]\s*\x22|```)" "") prose with
                 | Some debris => take debris prose
                 | None => prose
                 end in
    Some (Some (mkAskBlock (a_questions st) (trim prose))).

(** ** File names *)

Definition FILE_EXT : RegExp :=
  rx "\.(ya?ml|json|jsonc|toml|ini|cfg|conf|env|py|js|mjs|cjs|ts|tsx|jsx|sh|bash|zsh|go|rs|rb|php|java|kt|c|h|cpp|sql|html|css|scss|md|txt|log|xml|service|tf|gradle)$" "i".
Definition BARE_FILES : RegExp := rx "^(Dockerfile|Makefile|Vagrantfile|Jenkinsfile|Procfile)$" "i".

Definition is_file_name (c : jstr) : bool := test FILE_EXT c || test BARE_FILES c.

Definition re_asked : RegExp :=
  rx "(?:^|[\s(`\x22'«])([\w.-]+(?:\/[\w.-]+)*)(?=[\s:,;)`\x22'».!?]|$)" "g".
Definition clean_name (s : jstr) : jstr :=
  replace_first (rx "\.$" "") [] (replace_first (rx "^[.\/]+" "") [] s).

Definition add_name (names : list jstr) (m : Match) : list jstr :=
  let c := clean_name (cap0 m 1) in
  if is_file_name c && negb (existsb (streq c) names) then names ++ [c] else names.
Definition askedFileNames (request : jstr) : list jstr :=
  foldl add_name [] (match_all re_asked request).

(** [new RegExp(...)] on the escaped title, for a title whose cased letters
    are Latin-1. *)
Definition where_re (title : jstr) : RegExp :=
  let name := replace_all (rx "[.*+?^${}()|[\]\\]" "g") (u "\$&") title in
  mkRe (default (Chars false []) (parse_re
    (u "(?:^|[\s(])(?:dans|à|au|sous|in|into|under)\s+(?:(?:le|la|ton|ta|votre|the|your)\s+)?"
      ++ u "(?:fichier\s+|file\s+)?[`*\x22']*" ++ name ++ u "[`*\x22']*")))
    (mkFlags true false).

Definition isExcerptOf (title body lead : jstr) (existing : nat) : bool :=
  if (existing <=? 0) || (15 <? length (split_lf body)) then false
  else if length body * 3 <? existing then true
  else test (where_re title) (slice_end lead 200).

(** ** Inline reasoning *)

Definition re_think_open : RegExp := rx "^<think>" "i".
Definition re_think_cut : RegExp := rx "^<t(?:h(?:i(?:n(?:k)?)?)?)?$" "i".
Definition re_think_close : RegExp := rx "<\/think>" "i".

(** The pair is ([thought], [answer]). *)
Definition splitInlineThink (raw : jstr) : jstr * jstr :=
  let head := trim_start raw in
  if negb (test re_think_open head) then
    if test re_think_cut head then ([], []) else ([], raw)
  else
    let body := drop (length (u "<think>")) head in
    match search re_think_close body with
    | None => (trim body, [])
    | Some close =>
        (trim (take close body),
         replace_first (rx "^\s+" "") [] (drop (close + length (u "</think>")) body))
    end.
