(* ===== verification/ParsersSpec.v ===== *)
(** * What the model-output parsers guarantee

    Fences, continuations, inline reasoning, file names and questionnaires. *)

From Stdlib Require Import ZifyBool.
From S2P Require Import JsJson JsRegExp Repair Parsers.

(** ** Fences *)

Lemma fences_split c : S (fences c) = length (split_on FENCE c).
Proof. apply match_all_lit_count; done. Qed.

Lemma split_skip_close c k : k <= length c ->
  length (split_skip FENCE (c ++ LF :: FENCE) k) = S (length (split_skip FENCE c k)).
Proof.
  revert k. induction c as [|d c IH]; intros k Hk.
  - assert (k = 0) as -> by (simpl in Hk; lia). reflexivity.
  - change ((d :: c) ++ LF :: FENCE) with (d :: (c ++ LF :: FENCE)). cbn [split_skip].
    destruct k as [|k]; [|apply IH; simpl in Hk; lia].
    assert (HP : is_prefix FENCE (d :: c ++ LF :: FENCE) = is_prefix FENCE (d :: c)).
    { unfold FENCE. change (u "```") with [96; 96; 96]%N. destruct c as [|e [|f c]]; cbn [is_prefix app].
      - change (96 =? LF)%N with false. by rewrite !andb_false_r.
      - change (96 =? LF)%N with false. by rewrite !andb_false_r.
      - done. }
    rewrite HP. destruct (is_prefix FENCE (d :: c)) eqn:E.
    + cbn [length]. rewrite IH; [done|]. apply is_prefix_spec in E as [r Hr].
      apply (f_equal length) in Hr. rewrite length_app in Hr. simpl in Hr |- *. lia.
    + assert (HL : forall l, l <> [] -> length (cons_hd d l) = length l) by (intros [|? ?] ?; [congruence|done]).
      rewrite !HL by apply split_skip_nonnil. apply IH. lia.
Qed.

Lemma fences_close c : fences (c ++ u "
```") = S (fences c).
Proof.
  apply Nat.succ_inj. rewrite !fences_split. unfold split_on.
  change (c ++ u "
```") with (c ++ LF :: FENCE). by rewrite split_skip_close by lia.
Qed.

Lemma fences_even_none c : Nat.odd (fences c) = false -> openCodeFence c = None.
Proof. unfold openCodeFence. by intros ->. Qed.

(** [closedContent] only ever appends a closing fence: the result has an
    even number of fences, holds no unfinished block for [openCodeFence], and
    closing it again changes nothing. *)
Theorem closedContent_closes content :
  (closedContent content = content \/ closedContent content = content ++ u "
```")
  /\ Nat.even (fences (closedContent content)) = true
  /\ openCodeFence (closedContent content) = None
  /\ closedContent (closedContent content) = closedContent content.
Proof.
  assert (HO : Nat.odd (fences (closedContent content)) = false).
  { unfold closedContent. destruct (Nat.odd (fences content)) eqn:E; [|done].
    rewrite fences_close, Nat.odd_succ, <- Nat.negb_odd, E. done. }
  split; [unfold closedContent; destruct (Nat.odd (fences content)); [by right|by left]|].
  split; [rewrite <- Nat.negb_odd, HO; done|]. split; [by apply fences_even_none|].
  unfold closedContent at 1. by rewrite HO.
Qed.

(** The first word of a fence's info string. *)
Definition info_word (info : jstr) : jstr := hd [] (split_re (rx "\s+" "") (trim info)).

Lemma cut_at s i n : is_prefix n (drop i s) = true -> s = take i s ++ n ++ drop (i + length n) s.
Proof.
  intros [r H]%is_prefix_spec. rewrite <- (take_drop i s) at 1. f_equal.
  rewrite <- drop_drop, H, drop_app_length. done.
Qed.

Lemma infix_includes t s : infix t s <-> includes s t = true.
Proof. unfold infix. by rewrite includes_true. Qed.

Lemma index_from_lf s i : index_from [LF] s = Some i -> s = take i s ++ LF :: drop (i + 1) s /\ LF ∉ take i s.
Proof.
  intros H. apply index_from_Some in H as [H1 H2]. split; [done|].
  intros [j Hj]%list_elem_of_lookup. apply lookup_take_Some in Hj as [Hj Hl].
  specialize (H2 j Hl). apply drop_S in Hj. by rewrite Hj in H2.
Qed.
Lemma index_from_lf_none s : index_from [LF] s = None -> LF ∉ s.
Proof.
  intros H [j Hj]%list_elem_of_lookup. pose proof (index_from_None _ _ H j) as HN.
  apply drop_S in Hj. by rewrite Hj in HN.
Qed.

(** [openCodeFence] finds the block the text leaves open: the text is
    what precedes the last fence, that fence, its info string up to the line
    break, and a body that holds no fence. There is none exactly when the
    fences are paired, when the info string has no line break yet, or when the
    block is a questionnaire. *)
Theorem openCodeFence_last content :
  match openCodeFence content with
  | Some o =>
      Nat.odd (fences content) = true /\
      exists info, content = take (of_start o) content ++ FENCE ++ info ++ LF :: of_body o
        /\ LF ∉ info /\ ~ infix FENCE (of_body o)
        /\ isQuestionsBlock (info_word info) (of_body o) = false
        /\ of_lang o = (if streq (info_word info) [] then u "text" else info_word info)
  | None =>
      Nat.odd (fences content) = false \/
      (exists pre info, content = pre ++ FENCE ++ info /\ LF ∉ info) \/
      (exists pre info body, content = pre ++ FENCE ++ info ++ LF :: body
         /\ isQuestionsBlock (info_word info) body = true)
  end.
Proof.
  unfold openCodeFence. destruct (Nat.odd (fences content)) eqn:EO; cbn [negb]; [|by left].
  destruct (last_index_of FENCE content) as [start|] eqn:EL; cbn [mbind option_bind].
  - apply last_index_of_Some in EL as (L1 & L2 & L3).
    pose proof (cut_at _ _ _ L1) as HC. change (length FENCE) with 3 in HC.
    destruct (index_from [LF] (drop (start + 3) content)) as [nl|] eqn:EN; cbn [mbind option_bind].
    + apply index_from_lf in EN as [N1 N2]. set (rest := drop (start + 3) content) in *.
      fold (info_word (take nl rest)). destruct (isQuestionsBlock _ _) eqn:EQ.
      * right. right. exists (take start content), (take nl rest), (drop (nl + 1) rest). by rewrite <- N1.
      * split; [done|]. exists (take nl rest). cbn [of_start of_body of_lang]. rewrite <- N1. split; [done|].
        split; [done|]. split; [|done]. intros (a & b & HB).
        assert (HP : is_prefix FENCE (drop (start + 3 + (nl + 1) + length a) content) = true).
        { rewrite <- (drop_drop content (length a)), <- (drop_drop content (nl + 1)). fold rest.
          rewrite HB, drop_app_length. apply is_prefix_app. }
        rewrite L3 in HP; [done|lia|].
        apply (f_equal length) in HB. rewrite !length_app, length_drop in HB. subst rest.
        rewrite length_drop in HB. change (length FENCE) with 3 in HB. lia.
    + right. left. exists (take start content), (drop (start + 3) content). split; [done|]. by apply index_from_lf_none.
  - exfalso. assert (HF : fences content = 0); [|by rewrite HF in EO].
    apply Nat.succ_inj. rewrite fences_split, split_on_index by done.
    by rewrite last_index_of_None.
Qed.

(** ** Pieces *)

Lemma strip_last_lf_prefix s : exists n, strip_last_lf s = take n s.
Proof.
  unfold strip_last_lf. destruct (replace_first_nil (rx "\n$" "") s) as [[_ H]|(m & Hm & H)].
  - exists (length s). by rewrite H, firstn_all.
  - exists (m_index m). rewrite H. change (rx "\n$" "") with (mkRe (Cat (Chars false [(10, 10)%N]) Eol) (mkFlags false false)) in Hm.
    apply match_eol in Hm; [|done]. by rewrite Hm, drop_all, app_nil_r.
Qed.

Lemma openCodeFence_piece content :
  match openCodeFence content with Some o => infix (of_body o) content | None => True end.
Proof.
  unfold openCodeFence. destruct (negb _); [done|].
  destruct (last_index_of FENCE content); cbn [mbind option_bind]; [|done].
  destruct (index_from [LF] _); cbn [mbind option_bind]; [|done]. destruct (isQuestionsBlock _ _); [done|].
  cbn [of_body]. eapply infix_trans; apply infix_drop.
Qed.

(** [continuationBody] invents nothing: what it glues back is one
    contiguous piece of the message. *)
Theorem continuationBody_piece content : infix (continuationBody content) content.
Proof.
  unfold continuationBody. destruct (exec _ content) as [m|] eqn:E.
  - apply exec_sound in E. destruct (strip_last_lf_prefix (cap0 m 1)) as [n ->].
    eapply infix_trans; [apply infix_take|by eapply cap0_infix].
  - destruct (index_from FENCE content) as [i|]; [|apply infix_refl]. destruct (test _ content).
    + pose proof (openCodeFence_piece content) as H. destruct (openCodeFence content) as [o|]; [|apply infix_refl].
      exact H.
    + destruct (strip_last_lf_prefix (take i content)) as [n ->]. rewrite take_take. apply infix_take.
Qed.

(** ** White space *)

Lemma take_while_all {A} (p : A -> bool) l : Forall (fun x => p x = true) (take_while p l).
Proof. induction l as [|x l IH]; simpl; [constructor|]. destruct (p x) eqn:E; [by constructor|constructor]. Qed.

Lemma skip_while_length x p : 
  ms_pos (skip (length (take_while p (ms_rest x))) x) = ms_pos x + length (take_while p (ms_rest x)).
Proof.
  apply (skip_consumes (take_while p (ms_rest x))). apply is_prefix_spec.
  exists (drop_while p (ms_rest x)). by rewrite take_drop_while.
Qed.

Definition re_leading_ws : RegExp := mkRe (Cat Bol (Rep (Chars false ws_ranges) 1 None true)) (mkFlags false false).

Lemma take_length_take_while {A} (p : A -> bool) l : take (length (take_while p l)) l = take_while p l.
Proof. induction l as [|x l IH]; simpl; [done|]. destruct (p x); [simpl; by rewrite IH|done]. Qed.

Lemma drop_length_take_while {A} (p : A -> bool) l : drop (length (take_while p l)) l = drop_while p l.
Proof. induction l as [|x l IH]; simpl; [done|]. destruct (p x); [exact IH|done]. Qed.

Lemma take_while_ext {A} (p q : A -> bool) l : (forall x, p x = q x) -> take_while p l = take_while q l.
Proof. intros H. induction l as [|x l IH]; simpl; [done|]. rewrite H, IH. done. Qed.

(** [s.replace(/^\s+/, "")] is [s.trimStart()]. *)
Lemma strip_leading_ws s : replace_first (rx "^\s+" "") [] s = trim_start s.
Proof.
  change (rx "^\s+" "") with re_leading_ws. set (p := fun c => char_in (mkFlags false false) c false ws_ranges).
  assert (HP : forall c, p c = is_ws c) by (intros c; subst p; unfold char_in; cbn [ignoreCase]; by rewrite xorb_false_l, in_ws_ranges).
  assert (HM : match_here re_leading_ws 0 None s =
    match take_while p s with [] => None | w => Some (mkMatch 0 (length w) w []) end).
  { unfold match_here. cbn [re_flags re_body re_leading_ws].
    change (mt (mkFlags false false) (Cat Bol (Rep (Chars false ws_ranges) 1 None true)) (mkM 0 None s []) Some)
      with (mt (mkFlags false false) (Rep (Chars false ws_ranges) 1 None true) (mkM 0 None s []) Some).
    destruct (take_while p s) as [|c w] eqn:EW.
    - destruct (mt _ _ _ _) as [y|] eqn:E; [|done]. exfalso. apply mt_sound in E as (z & Hz & _).
      inversion Hz as [| | | | | |? ? ? ? ? Hs|? ? ? ? ? y1 ? _ H1 _| | | | | | | |]; subst; [by destruct Hs|].
      apply chars_inv in H1 as (c & [C1 _] & R & _); [|done]. cbn [clear_caps with_caps ms_rest app] in C1. subst s.
      rewrite in_ws_ranges, <- HP in R. simpl in EW. by rewrite R in EW.
    - rewrite rep_chars_greedy; fold p; cbn [ms_rest]; rewrite EW; [|simpl; lia].
      pose proof (skip_while_length (mkM 0 None s []) p) as HL. cbn [ms_rest ms_pos] in HL. rewrite EW in HL.
      rewrite HL, Nat.add_0_l, Nat.sub_0_r. f_equal. f_equal.
      + rewrite <- EW. apply take_length_take_while.
      + destruct (skip_consumes (c :: w) (mkM 0 None s [])) as [_ H].
        { apply is_prefix_spec. exists (drop_while p s). cbn [ms_rest]. by rewrite <- EW, take_drop_while. }
        exact H. }
  unfold trim_start. rewrite <- (drop_length_take_while is_ws s), <- (take_while_ext p is_ws s) by done.
  destruct (take_while p s) as [|c w] eqn:EW.
  - simpl. rewrite drop_0. destruct (replace_first_nil re_leading_ws s) as [[_ H]|(m & Hm & H)]; [done|].
    exfalso. pose proof Hm as Hi. apply match_bol in Hi; [|done].
    destruct Hm as (_ & _ & _ & z & Hz & _). rewrite Hi in Hz. cbn [re_flags re_body re_leading_ws] in Hz.
    inversion Hz as [| |? ? ? y ? H3 H4| | | | | | | | | | | | |]; subst.
    inversion H3; subst.
    inversion H4 as [| | | | | |? ? ? ? ? Hs|? ? ? ? ? y1 ? _ H1 _| | | | | | | |]; subst; [by destruct Hs|].
    apply chars_inv in H1 as (c & [C1 _] & R & _); [|done].
    cbn [clear_caps with_caps ms_rest app at_pos] in C1. rewrite drop_0 in C1.
    rewrite in_ws_ranges, <- HP in R. rewrite C1 in EW. simpl in EW. by rewrite R in EW.
  - unfold replace_first, exec, exec_from. change (length s <? 0) with false. cbn iota. rewrite drop_0.
    assert (HS : search_from re_leading_ws 0 None s = Some (mkMatch 0 (length (c :: w)) (c :: w) [])).
    { destruct s; cbn [search_from]; rewrite HM; done. }
    rewrite HS. change (option_list (Some ?m)) with [m]. cbn [splice m_index m_end]. done.
Qed.

(** ** Inline reasoning *)

(** Two texts with the same letters, case aside. *)
Definition same_letters (a b : jstr) : Prop := map canon a = map canon b.

Lemma re_think_open_spec head : test re_think_open head = true ->
  exists tag, head = tag ++ drop 7 head /\ same_letters tag (u "<think>") /\ length tag = 7.
Proof.
  unfold test. rewrite bool_decide_eq_true. intros [m Hm]. apply exec_sound in Hm.
  change re_think_open with (mkRe (Cat Bol (lit_re (u "<think>"))) (mkFlags true false)) in Hm.
  pose proof Hm as Hi. apply match_bol in Hi; [|done].
  destruct Hm as (_ & _ & _ & z & Hz & _). rewrite Hi in Hz. cbn [re_flags re_body] in Hz.
  assert (HT : length (u "<think>") = 7) by done. remember (u "<think>") as tk eqn:Htk. clear Htk.
  inversion Hz as [| |? ? ? y ? H3 H4| | | | | | | | | | | | |]; subst.
  assert (y = at_pos head 0) as -> by (by inversion H3).
  apply lit_ci in H4 as (t & [H4 _] & Ht). cbn [at_pos ms_rest] in H4. rewrite drop_0 in H4.
  assert (HL : length t = 7) by (apply (f_equal length) in Ht; rewrite !length_map in Ht; congruence).
  exists t. split; [|split; [done|done]].
  rewrite H4 at 1. f_equal. rewrite H4, <- HL. by rewrite drop_app_length.
Qed.

Lemma re_think_close_spec body i : search re_think_close body = Some i ->
  exists tag, body = take i body ++ tag ++ drop (i + 8) body /\ same_letters tag (u "</think>").
Proof.
  unfold search. destruct (exec re_think_close body) as [m|] eqn:E; [|done]. intros [= <-].
  apply exec_sound in E as (_ & _ & _ & z & Hz & _ & _).
  change (re_body re_think_close) with (lit_re (u "</think>")) in Hz.
  apply lit_ci in Hz as (t & [H _] & Ht). cbn [at_pos ms_rest] in H.
  assert (HL : length t = 8) by (apply (f_equal length) in Ht; by rewrite !length_map in Ht).
  exists t. split; [|done]. rewrite <- (take_drop (m_index m) body) at 1. f_equal.
  rewrite <- drop_drop, H. rewrite <- HL. by rewrite drop_app_length.
Qed.

(** [splitInlineThink] cuts an answer that opens with a [<think>] tag
    (any letter case, white space before) at the first closing tag: the
    thought is the trimmed text between the tags, the answer is what follows
    without its leading white space, and is empty while the block is open or
    the tag itself is still arriving.  Any other text is the answer as it
    is. *)
Theorem splitInlineThink_parts raw :
  let '(thought, answer) := splitInlineThink raw in
  (thought = [] /\ answer = raw /\ test re_think_open (trim_start raw) = false) \/
  (thought = [] /\ answer = [] /\ test re_think_cut (trim_start raw) = true) \/
  (exists ws tag body, raw = ws ++ tag ++ body /\ Forall (fun c => is_ws c = true) ws
     /\ same_letters tag (u "<think>") /\
     ((search re_think_close body = None /\ thought = trim body /\ answer = []) \/
      (exists inner close gap, body = inner ++ close ++ gap ++ answer
         /\ same_letters close (u "</think>") /\ Forall (fun c => is_ws c = true) gap
         /\ match answer with [] => True | c :: _ => is_ws c = false end
         /\ search re_think_close body = Some (length inner) /\ thought = trim inner))).
Proof.
  unfold splitInlineThink. destruct (test re_think_open (trim_start raw)) eqn:EO; cbn [negb].
  - destruct (re_think_open_spec _ EO) as (tag & H1 & H2 & H3).
    change (length (u "<think>")) with 7. set (body := drop 7 (trim_start raw)) in *.
    assert (HW : raw = take_while is_ws raw ++ tag ++ body) by (rewrite <- H1; symmetry; apply take_drop_while).
    change (length (u "</think>")) with 8.
    destruct (search re_think_close body) as [i|] eqn:EC.
    + right. right. exists (take_while is_ws raw), tag, body. split; [done|]. split; [apply take_while_all|].
      split; [done|]. right. destruct (re_think_close_spec _ _ EC) as (close & C1 & C2).
      rewrite strip_leading_ws. exists (take i body), close, (take_while is_ws (drop (i + 8) body)).
      unfold trim_start. rewrite take_drop_while. split; [done|]. split; [done|]. split; [apply take_while_all|].
      split; [destruct (drop_while _ _) eqn:ED; [done|by eapply drop_while_head]|].
      split; [|done]. assert (i <= length body).
      { unfold search in EC. destruct (exec _ body) eqn:EE; [|done]. injection EC as <-.
        apply exec_sound in EE as (? & ? & _). lia. }
      rewrite EC, length_take. f_equal. lia.
    + right. right. exists (take_while is_ws raw), tag, body. split; [done|]. split; [apply take_while_all|].
      split; [done|]. by left.
  - destruct (test re_think_cut (trim_start raw)) eqn:ET; auto.
Qed.

(** ** File names *)

Lemma clean_name_infix s : infix (clean_name s) s.
Proof.
  unfold clean_name. set (t := replace_first (rx "^[.\/]+" "") [] s).
  assert (H1 : infix t s).
  { subst t. destruct (replace_first_nil (rx "^[.\/]+" "") s) as [[_ H]|(m & Hm & H)]; rewrite H; [apply infix_refl|].
    change (rx "^[.\/]+" "") with (mkRe (Cat Bol (Rep (Chars false [(46, 46); (47, 47)]%N) 1 None true)) (mkFlags false false)) in Hm.
    apply match_bol in Hm; [|done]. rewrite Hm. apply infix_drop. }
  destruct (replace_first_nil (rx "\.$" "") t) as [[_ H]|(m & Hm & H)]; rewrite H; [done|].
  change (rx "\.$" "") with (mkRe (Cat (Chars false [(46, 46)]%N) Eol) (mkFlags false false)) in Hm.
  apply match_eol in Hm; [|done]. rewrite Hm, drop_all, app_nil_r. eapply infix_trans; [apply infix_take|done].
Qed.

(** Every name [askedFileNames] reports is spelled out in the request, is
    a file name (a known extension or a known bare name), and is reported
    once. *)
Theorem askedFileNames_spelled request :
  NoDup (askedFileNames request)
  /\ Forall (fun c => infix c request /\ is_file_name c = true) (askedFileNames request).
Proof.
  unfold askedFileNames.
  assert (HM : Forall (is_match re_asked request) (match_all re_asked request))
    by (apply List.Forall_forall; intros m; apply match_all_sound).
  assert (H0 : NoDup (@nil jstr) /\ Forall (fun c => infix c request /\ is_file_name c = true) []) by (split; constructor).
  revert H0. generalize (@nil jstr). induction HM as [|m ms Hm _ IH]; intros names [H1 H2]; [done|].
  cbn [foldl]. apply IH. unfold add_name. destruct (is_file_name (clean_name (cap0 m 1))) eqn:EF; cbn [andb]; [|done].
  destruct (existsb _ names) eqn:EE; cbn [negb]; [done|]. apply existsb_false_iff in EE. split.
  - apply NoDup_app. split; [done|]. split; [|apply NoDup_singleton].
    intros x Hx Hy%list_elem_of_singleton. subst. rewrite Forall_forall in EE. specialize (EE _ Hx).
    unfold streq in EE. by bool_norm.
  - apply Forall_app. split; [done|]. repeat constructor; [|done].
    eapply infix_trans; [apply clean_name_infix|by eapply cap0_infix].
Qed.

(** ** Questionnaires *)

(** A question the interface can show. *)
Definition good_question (q : AskQ) : Prop :=
  question q <> [] /\ trim (question q) = question q
  /\ 1 <= length (options q) <= MAX_ASK_OPTIONS
  /\ Forall (fun o => o <> [] /\ trim o = o) (options q).

Lemma questionsOf_good body qs : questionsOf body = Some qs -> Forall good_question qs.
Proof.
  unfold questionsOf. destruct (parse_repaired body) as [raw|]; [|by intros [= <-]; constructor].
  generalize (match prop (u "questions") raw with Some (JArr l) => l
              | _ => if truthy_opt (prop (u "question") raw) then [raw] else [] end). intros l.
  destruct (mapM question_of l) as [ps|] eqn:E; cbn [fmap option_fmap option_map]; [|done].
  intros [= <-]. apply List.Forall_forall. intros q [Hq Hu]%List.filter_In.
  apply mapM_Some in E. apply list_elem_of_In in Hq.
  apply list_elem_of_lookup in Hq as [i Hq].
  destruct (Forall2_lookup_r _ _ _ _ _ E Hq) as (j & _ & Hj).
  unfold usable in Hu. bool_norm.
  assert (HQ : trim (question q) = question q /\ length (options q) <= MAX_ASK_OPTIONS
     /\ Forall (fun o => o <> [] /\ trim o = o) (options q)).
  { assert (HO : forall os, length (take MAX_ASK_OPTIONS (map trim (filter (fun o => trim o <> []) os))) <= MAX_ASK_OPTIONS
      /\ Forall (fun o => o <> [] /\ trim o = o) (take MAX_ASK_OPTIONS (map trim (filter (fun o => trim o <> []) os)))).
    { intros os. split; [rewrite length_take; lia|]. apply Forall_take, Forall_forall.
      intros x (y & -> & Hy)%list_elem_of_fmap. apply list_elem_of_filter in Hy as [Hy _].
      split; [done|apply trim_idem]. }
    unfold question_of in Hj.
    destruct j; try done; injection Hj as <-; cbn [question options];
      (split; [apply trim_idem|]); repeat case_match; try (by (split; [apply Nat.le_0_l|constructor])); apply HO. }
  destruct HQ as (Q1 & Q2 & Q3). split; [|split; [done|split; [lia|done]]].
  unfold streq in *. by bool_norm.
Qed.

(** The loops of [parseAsk] keep this of their variables. *)
Definition ask_ok (n : nat) (st : AskState) : Prop :=
  length (a_questions st) <= MAX_ASK_QUESTIONS /\ Forall good_question (a_questions st)
  /\ NoDup (map (fun q => to_lower (question q)) (a_questions st))
  /\ (forall k, k ∈ a_seen st <-> k ∈ map (fun q => to_lower (question q)) (a_questions st))
  /\ a_first st <= n.
Definition ask_ok_opt (n : nat) (st : option AskState) : Prop := match st with Some st => ask_ok n st | None => True end.

Lemma add_question_ok n st q : good_question q -> ask_ok n st -> ask_ok n (add_question st q).
Proof.
  intros Hq (H1 & H2 & H3 & H4 & H5). unfold add_question.
  destruct (existsb (streq (to_lower (question q))) (a_seen st)) eqn:ES; cbn [orb]; [done|].
  destruct (MAX_ASK_QUESTIONS <=? length (a_questions st)) eqn:EL; [done|]. apply Nat.leb_gt in EL.
  assert (HN : to_lower (question q) ∉ a_seen st).
  { intros Hin. apply existsb_false_iff in ES. rewrite Forall_forall in ES. specialize (ES _ Hin).
    unfold streq in ES. by bool_norm. }
  repeat split; cbn [a_questions a_seen a_first].
  - rewrite length_app. simpl. lia.
  - apply Forall_app. split; [done|]. constructor; [done|constructor].
  - rewrite map_app. apply NoDup_app. split; [done|]. split; [|apply NoDup_singleton].
    intros k Hk Hs%list_elem_of_singleton. subst. by rewrite <- H4 in Hk.
  - rewrite map_app, elem_of_app, elem_of_cons, H4. simpl. rewrite list_elem_of_singleton. tauto.
  - rewrite map_app, elem_of_app, elem_of_cons, H4. simpl. rewrite list_elem_of_singleton. tauto.
  - done.
Qed.

Lemma collected_ok n files st body off : ask_ok_opt n st -> ask_ok_opt n (collected files st body off).
Proof.
  unfold collected. revert st. induction (questionCandidates body) as [|c cs IH]; intros st H; [done|].
  cbn [foldl]. apply IH. destruct st as [st|]; [|done]. cbn [collect_one mbind option_bind].
  destruct (inside _ _ _); [done|]. destruct (questionsOf (c_text c)) as [qs|] eqn:EQ; [|done].
  cbn [mbind option_bind]. apply questionsOf_good in EQ.
  assert (H1 : ask_ok n (mkAsk (a_questions st) (a_seen st) (a_first st `min` (off + c_start c)))).
  { destruct H as (A1 & A2 & A3 & A4 & A5). split_and!; cbn [a_questions a_seen a_first]; (done || lia). }
  revert H1. generalize (mkAsk (a_questions st) (a_seen st) (a_first st `min` (off + c_start c))).
  induction EQ as [|q qs Hq _ IHq]; intros st1 H1; [done|]. cbn [foldl]. apply IHq. by apply add_question_ok.
Qed.

Lemma collect_matches_ok n files ms st : ask_ok_opt n st -> ask_ok_opt n (foldl (collect_match files) st ms).
Proof.
  revert st. induction ms as [|m ms IH]; intros st H; [done|]. cbn [foldl]. apply IH.
  destruct st as [st|]; [|done]. unfold collect_match. cbn [mbind option_bind]. apply collected_ok.
  destruct H as (A1 & A2 & A3 & A4 & A5). split_and!; cbn [a_questions a_seen a_first]; (done || lia).
Qed.

(** A questionnaire read by [parseAsk] has 1 to 20 questions; each has a
    trimmed non-empty text and 1 to 8 trimmed non-empty options; no two
    questions differ only by letter case; and its prose is a trimmed piece of
    the message. *)
Theorem parseAsk_shape content :
  match parseAsk content with
  | Some (Some b) =>
      1 <= length (questions b) <= MAX_ASK_QUESTIONS
      /\ Forall good_question (questions b)
      /\ NoDup (map (fun q => to_lower (question q)) (questions b))
      /\ exists n, prose b = trim (take n content)
  | _ => True
  end.
Proof.
  unfold parseAsk.
  match goal with |- context [collected ?f ?s content 0] =>
    assert (H : ask_ok_opt (length content) (collected f s content 0)) end.
  { apply collected_ok. do 3 apply collect_matches_ok. repeat split; simpl; try lia; try constructor; try done;
      by intros ?%elem_of_nil. }
  destruct (collected _ _ content 0) as [st|]; [|done]. cbn [mbind option_bind].
  destruct H as (H1 & H2 & H3 & H4 & H5).
  destruct (1 <=? length (a_questions st)) eqn:E; cbn [negb]; [|done]. apply Nat.leb_le in E.
  cbn [questions prose]. split; [lia|]. split; [done|]. split; [done|].
  destruct (search _ _) as [k|]; [|eauto]. exists (k `min` a_first st). by rewrite take_take.
Qed.

(** One [null] entry makes the whole parse throw: reading [question] of
    [null] is not guarded, although the function promises that what cannot be
    repaired yields no question. *)
Theorem parseAsk_null_entry :
  parseAsk (uq "Voici :
{'questions': [null, {'question': 'Q1 ?', 'options': ['A', 'B']}]}") = None.
Proof. vm_compute. reflexivity. Qed.

(** ** Gluing a continuation *)

Lemma map_fst_lines ls pos : map fst (lines_from ls pos) = map trim_end ls.
Proof. revert pos. induction ls as [|l ls IH]; intros pos; [done|]. cbn [lines_from map]. by rewrite IH. Qed.

(** From the position of a line, the text reads as that line and the next
    ones. *)
Lemma lines_from_tail ls pos i l p r :
  drop i (lines_from ls pos) = (l, p) :: r ->
  Forall (fun x => LF ∉ x) ls ->
  pos <= p /\ p <= pos + length (join [LF] ls) /\
  split_lf (drop (p - pos) (join [LF] ls)) = drop i ls.
Proof.
  revert pos i. induction ls as [|x ls IH]; intros pos i; [cbn [lines_from]; by rewrite drop_nil|].
  intros H HF. destruct i as [|i].
  - cbn [lines_from] in H. injection H as _ <- _. rewrite Nat.sub_diag, !drop_0. split; [lia|]. split; [lia|].
    apply split_join_single; done.
  - cbn [lines_from] in H. rewrite !skipn_cons in *. apply Forall_cons in HF as [HF1 HF2].
    destruct ls as [|y ls]; [cbn [lines_from] in H; by rewrite drop_nil in H|].
    destruct (IH _ _ H HF2) as (H1 & H2 & H3). rewrite join_cons2, !length_app.
    change (length [LF]) with 1. split; [lia|]. split; [lia|]. rewrite <- H3. f_equal.
    rewrite !app_assoc, drop_app_ge; rewrite length_app; change (length [LF]) with 1; [|lia].
    f_equal. lia.
Qed.

Lemma splitLines_tail text start i l p r :
  drop i (splitLines text start) = (l, p) :: r ->
  start <= p /\ p <= start + length text /\ map trim_end (split_lf (drop (p - start) text)) = l :: map fst r.
Proof.
  intros H. unfold splitLines in H.
  destruct (lines_from_tail _ _ _ _ _ _ H (split_on_single_pieces _ _)) as (H1 & H2 & H3).
  unfold split_lf in *. rewrite join_split_single in *. split; [done|]. split; [done|].
  rewrite H3. apply (f_equal (map fst)) in H. rewrite <- skipn_map, map_fst_lines, skipn_map in H. exact H.
Qed.

Lemma common_run_lines lb ls k c us :
  common_run lb ls = (k, c, us) ->
  take k (map fst lb) = take k (map fst ls) /\ k <= length lb /\ k <= length ls
  /\ c = length (concat (map trim (take k (map fst lb)))).
Proof.
  revert ls k c us. induction lb as [|[a pa] lb IH]; intros ls k c us; cbn [common_run].
  { intros [= <- <- <-]. cbn. repeat split; lia. }
  destruct ls as [|[b pb] ls]; [intros [= <- <- <-]; cbn; repeat split; lia|].
  destruct (streq a b) eqn:E; [|intros [= <- <- <-]; cbn; repeat split; lia].
  destruct (common_run lb ls) as [[k' c'] us'] eqn:ER. intros [= <- <- <-].
  destruct (IH _ _ _ _ ER) as (H1 & H2 & H3 & H4). unfold streq in E. bool_norm. subst.
  cbn [map take fst length concat]. rewrite H1, length_app. repeat split; try lia.
Qed.

(** A splice the loops may choose: two line positions from which at least
    [REJOIN_MIN_LINES] lines and [REJOIN_MIN_CHARS] characters agree. *)
Definition splice_ok (lb ls : list (jstr * nat)) (b : Splice) : Prop :=
  exists i j ab lb' as_ ls' k us,
    drop i lb = (ab, s_base b) :: lb' /\ drop j ls = (as_, s_continuation b) :: ls'
    /\ common_run (drop i lb) (drop j ls) = (k, s_charCount b, us)
    /\ REJOIN_MIN_LINES <= k /\ REJOIN_MIN_CHARS <= s_charCount b.

Lemma in_tails {A} (l t : list A) : In t (tails l) -> exists i, t = drop i l.
Proof.
  induction l as [|x l IH]; cbn [tails]; [done|]. intros [<-|H]; [by exists 0|].
  destruct (IH H) as [i ->]. by exists (S i).
Qed.

Lemma foldl_inv {A B} (P : A -> Prop) (f : A -> B -> A) l a :
  P a -> (forall a x, In x l -> P a -> P (f a x)) -> P (foldl f a l).
Proof.
  revert a. induction l as [|x l IH]; intros a Ha Hs; [done|]. cbn [foldl]. apply IH.
  - apply Hs; [by left|done].
  - intros. apply Hs; [by right|done].
Qed.

Lemma best_splice_ok lb ls : match best_splice lb ls with Some b => splice_ok lb ls b | None => True end.
Proof.
  unfold best_splice.
  apply (foldl_inv (fun o => match o with Some b => splice_ok lb ls b | None => True end)); [done|].
  intros o tb Htb Ho. apply foldl_inv; [done|]. clear o Ho. intros o ts Hts Ho.
  destruct (in_tails _ _ Htb) as [i ->]. destruct (in_tails _ _ Hts) as [j ->].
  unfold better. destruct (drop i lb) as [|[ab pb] lb'] eqn:EB; [done|].
  destruct (drop j ls) as [|[as_ ps] ls'] eqn:ES; [done|].
  destruct (common_run _ _) as [[k c] us] eqn:ER.
  destruct (_ && _) eqn:EC; [|done]. bool_norm.
  exists i, j, ab, lb', as_, ls', k, us. rewrite EB, ES. cbn [s_base s_continuation s_charCount]. done.
Qed.

Lemma repeated_spec end_ head k0 k : repeated end_ head k0 = Some k ->
  3 <= k <= k0 /\ ends_with end_ (take k head) = true.
Proof.
  induction k0 as [|k0 IH]; cbn [repeated]; [done|]. destruct (S k0 <? 3) eqn:E; [done|]. apply Nat.ltb_ge in E.
  destruct (ends_with end_ (take (S k0) head)) eqn:EE.
  - intros [= <-]. split; [lia|done].
  - intros H. destruct (IH H). split; [lia|done].
Qed.

Lemma ends_with_spec s p : ends_with s p = true -> exists a, s = a ++ p.
Proof.
  unfold ends_with. intros [r H]%is_prefix_spec. exists (rev r).
  apply (f_equal (@rev N)) in H. by rewrite rev_app_distr, !rev_involutive in H.
Qed.

Lemma joinLine_spec base continuation :
  joinLine base continuation = base ++ continuation \/
  exists k a, 3 <= k /\ base = a ++ take k continuation /\ LF ∉ take k continuation
    /\ joinLine base continuation = base ++ drop k continuation.
Proof.
  unfold joinLine.
  set (end_ := match last_index_of [LF] base with Some i => drop (S i) base | None => base end).
  destruct (streq (trim end_) []); [by left|].
  destruct (repeated _ _ _) as [k|] eqn:E; [|by left]. right.
  apply repeated_spec in E as (H1 & H2). apply ends_with_spec in H2 as [a H2].
  assert (HE : exists b, base = b ++ end_).
  { subst end_. destruct (last_index_of _ _); [|by exists []]. eexists. symmetry. apply take_drop. }
  destruct HE as [b HE].
  assert (HH : exists r, continuation = hd [] (split_lf continuation) ++ r /\ LF ∉ hd [] (split_lf continuation)).
  { pose proof (join_split_single LF continuation) as HJ. pose proof (split_on_single_pieces LF continuation) as HP.
    unfold split_lf. destruct (split_on [LF] continuation) as [|x [|y l]]; cbn [hd].
    - exists continuation. split; [done|apply not_elem_of_nil].
    - exists []. apply Forall_cons in HP as [HP _]. split; [|done]. simpl in HJ. by rewrite app_nil_r.
    - exists ([LF] ++ join [LF] (y :: l)). apply Forall_cons in HP as [HP _]. split; [|done]. by rewrite <- join_cons2. }
  destruct HH as (r & HC & HL). set (h := hd [] (split_lf continuation)) in *.
  assert (HT : take k continuation = take k h) by (rewrite HC; apply take_app_le; lia).
  exists k, (b ++ a). split; [lia|]. rewrite HT. split; [|split; [|done]].
  - rewrite HE, H2. by rewrite <- app_assoc.
  - intros Hin. apply HL. by apply elem_of_take in Hin as (? & ?%list_elem_of_lookup_2 & ?).
Qed.

(** C25: gluing a continuation never loses more than the promised 2000 units of
    the file, unless the continuation is a complete rewrite at least half as
    long.  Otherwise the result is either the whole file followed by the
    continuation, from which at most a run of units that already ends the file
    (at least three, on one line) is removed; or a splice at a line of the
    file's tail and a line of the continuation from which at least three lines
    and sixty characters agree. *)
Theorem rejoin_keeps base continuation :
  (rewrites base continuation = true /\ length base <= 2 * length continuation
     /\ rejoin base continuation = continuation) \/
  rejoin base continuation = base ++ continuation \/
  (exists k a, 3 <= k /\ base = a ++ take k continuation /\ LF ∉ take k continuation
     /\ rejoin base continuation = base ++ drop k continuation) \/
  (exists p q n, length base <= p + REJOIN_MAX_REMOVED
     /\ rejoin base continuation = take p base ++ drop q continuation
     /\ REJOIN_MIN_LINES <= n
     /\ take n (map trim_end (split_lf (drop p base)))
        = take n (map trim_end (split_lf (drop q (take REJOIN_HEAD continuation))))
     /\ n <= length (split_lf (drop p base))
     /\ REJOIN_MIN_CHARS <= length (concat (map trim (take n (map trim_end (split_lf (drop p base))))))).
Proof.
  unfold rejoin. destruct (rewrites base continuation) eqn:ER.
  { left. split; [done|]. split; [|done]. unfold rewrites in ER. bool_norm. done. }
  right. pose proof (joinLine_spec base continuation) as HJ.
  set (queue := slice_end base REJOIN_TAIL) in *.
  pose proof (best_splice_ok (splitLines queue (length base - length queue)) (splitLines (take REJOIN_HEAD continuation) 0)) as HB.
  destruct (best_splice _ _) as [b|]; [|destruct HJ; auto].
  destruct (length base - s_base b <=? REJOIN_MAX_REMOVED) eqn:EM; [|destruct HJ; auto].
  apply Nat.leb_le in EM. right. right.
  destruct HB as (i & j & ab & lb' & as_ & ls' & k & us & B1 & B2 & B3 & B4 & B5).
  destruct (splitLines_tail _ _ _ _ _ _ B1) as (P1 & P2 & P3).
  destruct (splitLines_tail _ _ _ _ _ _ B2) as (Q1 & Q2 & Q3). rewrite Nat.sub_0_r in Q3.
  destruct (common_run_lines _ _ _ _ _ B3) as (R1 & R2 & R3 & R4).
  rewrite B1, B2 in *. cbn [map fst] in R1, R4.
  assert (HQ : drop (s_base b - (length base - length queue)) queue = drop (s_base b) base).
  { subst queue. unfold slice_end in *. rewrite length_drop in *. rewrite drop_drop. f_equal. lia. }
  rewrite HQ in P3. exists (s_base b), (s_continuation b), k. split; [lia|]. split; [done|]. split; [done|].
  rewrite P3, Q3. split; [exact R1|]. split.
  - apply (f_equal length) in P3. rewrite length_map in P3. rewrite P3. cbn [length]. rewrite length_map.
    cbn [length] in R2. lia.
  - rewrite <- R4. done.
Qed.
