(* ===== verification/Thread.v ===== *)
(** * The conversation's files (lib/playground-thread.ts)

    Artifact extraction, file-state reconstruction from the thread, truncation
    heuristics.  A JavaScript [Map] keeps insertion order and an update keeps
    the place: it is an association list with [assoc_set].  The translation
    function [t] is an argument, as in the source. *)

From S2P Require Import JsJson JsRegExp Repair Parsers.

(** ** Data (lib/types.ts) *)

Inductive Role := User | Assistant.
#[export] Instance role_eq_dec : EqDecision Role.
Proof. solve_decision. Defined.

(** The display counters of a message ([reasoningMs], [tokens], [tokensPerSec],
    [ttft], [attachmentCount]) reach no function of the model and are left out;
    an absent flag is [false], an absent list is empty. *)
Record EditedFile := mkEdited { ef_name : jstr; ef_content : jstr }.
Record ChatMsg := mkMsg {
  role : Role;
  content : jstr;
  hidden : bool;
  isError : bool;
  truncated : bool;
  pending : bool;
  reasoning : option jstr;
  images : list jstr;
  fileEdits : list EditedFile;
  ts : option Z
}.
(** A message with only a role and a text. *)
Definition plain_msg (r : Role) (c : jstr) : ChatMsg := mkMsg r c false false false false None [] [] None.

Inductive Artifact :=
| Code (title lang content : jstr)
| Doc (title content : jstr).
Definition a_title (a : Artifact) : jstr := match a with Code t _ _ | Doc t _ => t end.
Definition a_content (a : Artifact) : jstr := match a with Code _ _ c | Doc _ c => c end.
Inductive Segment := SText (t : jstr) | SFile (n : nat).

Definition DOC_MIN_CHARS : nat := 400.

(** ** Script closure *)

Definition at_ (code : jstr) (i : nat) : N := default 0%N (code !! i).
Definition is_at (code : jstr) (i : nat) (c : N) : bool :=
  match code !! i with Some d => (d =? c)%N | None => false end.

Definition SLASH : N := 47.
Definition STAR : N := 42.
Definition SQ : N := 39.
Definition DOLLAR : N := 36.
Definition LBRACE : N := 123.

(** Units a line comment, the body of a block comment, a string body and a
    regular expression literal take, from the given suffix. *)
Fixpoint line_len (s : jstr) : nat :=
  match s with [] => 0 | c :: r => if (c =? LF)%N then 0 else S (line_len r) end.
Fixpoint comment_len (s : jstr) : nat :=
  match s with
  | [] => 0
  | c :: r => if (c =? STAR)%N && match r with d :: _ => (d =? SLASH)%N | [] => false end then 0
              else S (comment_len r)
  end.
Fixpoint string_len (q : N) (s : jstr) : nat :=
  match s with
  | [] => 0
  | c :: r =>
      if (c =? q)%N then 0
      else if (c =? BACKSLASH)%N then match r with [] => 2 | _ :: r' => 2 + string_len q r' end
      else S (string_len q r)
  end.
Fixpoint regex_len (inClass : bool) (s : jstr) : nat :=
  match s with
  | [] => 0
  | c :: r =>
      if (c =? BACKSLASH)%N then match r with [] => 2 | _ :: r' => 2 + regex_len inClass r' end
      else if (c =? 91)%N then S (regex_len true r)
      else if (c =? 93)%N then S (regex_len false r)
      else if (c =? SLASH)%N && negb inClass then 1
      else if (c =? LF)%N then 0
      else S (regex_len inClass r)
  end.

(** The rest of a template literal: closed, interrupted by an interpolation,
    or never closed. *)
Inductive tpl := TClosed (n : nat) | TOpen (n : nat) | TEnd.
Definition tpl_add (k : nat) (t : tpl) : tpl :=
  match t with TClosed n => TClosed (k + n) | TOpen n => TOpen (k + n) | TEnd => TEnd end.
Fixpoint template_rest (s : jstr) : tpl :=
  match s with
  | [] => TEnd
  | c :: r =>
      if (c =? BACKSLASH)%N then match r with [] => TEnd | _ :: r' => tpl_add 2 (template_rest r') end
      else if (c =? BACKTICK)%N then TClosed 1
      else if (c =? DOLLAR)%N && match r with d :: _ => (d =? LBRACE)%N | [] => false end then TOpen 2
      else tpl_add 1 (template_rest r)
  end.

Definition beforeRegex : RegExp := rx "[(,=:[!&|?{};+\-*%~^<>]" "".
Definition wordsBeforeRegex : RegExp :=
  rx "(?:^|[^\w$])(?:return|typeof|instanceof|in|of|new|delete|void|do|else|case|yield|await)$" "".

Definition opens (c : N) : bool := ((c =? 123) || (c =? 40) || (c =? 91))%N.
Definition closes (c : N) : bool := ((c =? 125) || (c =? 41) || (c =? 93))%N.

Record DepthState := mkDepth { d_i : nat; d_depth : Z; d_templates : list Z; d_previous : jstr }.
Inductive depth_res := Continue (st : DepthState) | Return (d : Z).

(** After a backtick or the brace that ends an interpolation. *)
Definition enter_template (code : jstr) (i : nat) (depth : Z) (templates : list Z) : depth_res :=
  match template_rest (drop i code) with
  | TEnd => Return 1
  | TClosed n => Continue (mkDepth (i + n) depth templates [120%N])
  | TOpen n => Continue (mkDepth (i + n) (depth + 1) (depth :: templates) [120%N])
  end.

(** One round of the loop, at a position inside the text. *)
Definition depth_step (code : jstr) (st : DepthState) : depth_res :=
  let '(mkDepth i depth templates previous) := st in
  let c := at_ code i in
  if (c =? SLASH)%N && is_at code (i + 1) SLASH then
    Continue (mkDepth (i + line_len (drop i code)) depth templates previous)
  else if (c =? SLASH)%N && is_at code (i + 1) STAR then
    Continue (mkDepth (i + 2 + comment_len (drop (i + 2) code) + 2) depth templates previous)
  else if (c =? SQ)%N || (c =? DQ)%N then
    Continue (mkDepth (i + 1 + string_len c (drop (i + 1) code) + 1) depth templates [120%N])
  else if (c =? BACKTICK)%N then enter_template code (i + 1) depth templates
  else if (c =? SLASH)%N && (streq previous [] || test beforeRegex previous
                             || test wordsBeforeRegex (slice code (i - 12) i)) then
    Continue (mkDepth (i + 1 + regex_len false (drop (i + 1) code)) depth templates [120%N])
  else
    let previous' := if is_ws c then previous else [c] in
    if opens c then Continue (mkDepth (i + 1) (depth + 1) templates previous')
    else if closes c then
      match templates with
      | t :: ts =>
          if (depth - 1 =? t)%Z then enter_template code (i + 1) (depth - 1) ts
          else Continue (mkDepth (i + 1) (depth - 1) templates previous')
      | [] => Continue (mkDepth (i + 1) (depth - 1) templates previous')
      end
    else Continue (mkDepth (i + 1) depth templates previous').

(** [None] is a loop that would not have ended within [fuel] rounds. *)
Fixpoint depth_loop (fuel : nat) (code : jstr) (st : DepthState) : option Z :=
  if d_i st <? length code then
    match fuel with
    | O => None
    | S f => match depth_step code st with
             | Return d => Some d
             | Continue st' => depth_loop f code st'
             end
    end
  else Some (d_depth st).
Definition finalDepth (code : jstr) : option Z :=
  depth_loop (length code) code (mkDepth 0 0 [] []).

Definition re_script : RegExp := rx "<script\b([^>]*)>([\s\S]*?)<\/script>" "gi".
Definition re_src : RegExp := rx "\bsrc\s*=" "i".
Definition re_other_type : RegExp :=
  rx "type\s*=\s*[\x22']?(?!text\/javascript|application\/javascript)[^\x22'\s>]+" "i".

(** The scripts of a page whose depth counts. *)
Definition open_script (m : Match) : bool :=
  let attrs := cap0 m 1 in
  if test re_src attrs then false
  else if test re_other_type attrs then false
  else let code := cap0 m 2 in
    if streq (trim code) [] then false
    else match finalDepth code with Some d => (0 <? d)%Z | None => false end.
Definition broken (content : jstr) : bool := existsb open_script (match_all re_script content).

(** [brokenScript] with its module-level cache [memoScript]. *)
Definition brokenScript (content : jstr) (memo : list (jstr * bool)) : bool * list (jstr * bool) :=
  match assoc_get content memo with
  | Some b => (b, memo)
  | None =>
      let b := broken content in
      let memo' := if 40 <? length memo then [] else memo in
      (b, assoc_set content b memo')
  end.

(** ** Web steps *)

Inductive Step :=
| search_ | search_done | reading | reading_done | file_view | file_edit | skill | history
| generation | generation_done | generation_video | generation_video_done | ocr | ocr_done | unknown.
(** An absent field and an empty list are read the same way; [error] is [[]]
    for [null], [undefined] and the empty string. *)
Record WebStep := mkStep {
  step : option Step; tool : jstr; w_question : jstr; w_urls : nat; w_count : N; w_read : N;
  w_error : jstr; w_failures : nat; w_images : nat; w_videos : nat; w_chars : N
}.

Definition FILE_EDIT_ERRORS : list (jstr * jstr) :=
  [(u "text not found", u "texte introuvable");
   (u "ambiguous text", u "texte présent plusieurs fois");
   (u "unknown file", u "fichier inconnu");
   (u "invalid arguments", u "arguments invalides");
   (u "file too large", u "fichier trop volumineux")].

Section labels.
Context (t : jstr -> jstr).

Definition fill (msg : jstr) (hole value : jstr) : jstr := replace_str (t msg) hole value.

(** The pair is ([text], [finished]).  An error code that is a member of
    [Object.prototype] is left aside: the server's codes are those above. *)
Definition webStepLabel (e : WebStep) : jstr * bool :=
  let pre := tool e ++ u " · " in
  let err := negb (streq (w_error e) []) in
  match step e with
  | Some search_ => (pre ++ fill (u "recherche « {q} »") (u "{q}") (w_question e), false)
  | Some search_done =>
      (pre ++ (if err then fill (u "recherche impossible : {e}") (u "{e}") (w_error e)
               else replace_str (fill (u "{n} résultat(s) pour « {q} »") (u "{n}") (string_of_N (w_count e)))
                      (u "{q}") (w_question e)), true)
  | Some reading => (pre ++ fill (u "lecture de {n} page(s)") (u "{n}") (string_of_nat (w_urls e)), false)
  | Some reading_done =>
      (pre ++ (if err then fill (u "lecture impossible : {e}") (u "{e}") (w_error e)
               else fill (u "{n} page(s) lue(s)") (u "{n}") (string_of_N (w_read e))
                    ++ (if 0 <? w_failures e
                        then fill (u ", {n} inaccessible(s)") (u "{n}") (string_of_nat (w_failures e)) else [])), true)
  | Some generation => (pre ++ fill (u "génération de l'image « {q} »") (u "{q}") (w_question e), false)
  | Some generation_done =>
      (pre ++ (if err then fill (u "génération impossible : {e}") (u "{e}") (w_error e)
               else fill (u "{n} image(s) générée(s)") (u "{n}") (string_of_nat (w_images e))), true)
  | Some generation_video => (pre ++ fill (u "génération de la vidéo « {q} »") (u "{q}") (w_question e), false)
  | Some generation_video_done =>
      (pre ++ (if err then fill (u "génération vidéo impossible : {e}") (u "{e}") (w_error e)
               else fill (u "{n} vidéo(s) générée(s)") (u "{n}") (string_of_nat (w_videos e))), true)
  | Some ocr => (pre ++ t (u "lecture du document")
                 ++ (if streq (w_question e) [] then [] else u " « " ++ w_question e ++ u " »"), false)
  | Some history => (fill (u "recherche dans tes conversations : {q}") (u "{q}") (w_question e), true)
  | Some skill =>
      (if err then fill (u "compétence introuvable : {s}") (u "{s}") (w_question e)
       else fill (u "compétence chargée : {s}") (u "{s}") (w_question e), true)
  | Some file_view => (fill (u "lecture de {f}") (u "{f}") (w_question e), true)
  | Some file_edit =>
      (if err then replace_str (fill (u "modification de {f} non appliquée : {e}") (u "{f}") (w_question e))
                     (u "{e}") (t (default (w_error e) (assoc_get (w_error e) FILE_EDIT_ERRORS)))
       else fill (u "modification de {f}") (u "{f}") (w_question e), true)
  | Some ocr_done =>
      (pre ++ (if err then fill (u "lecture impossible : {e}") (u "{e}") (w_error e)
               else fill (u "{n} caractère(s) extraits") (u "{n}") (string_of_N (w_chars e))), true)
  | Some unknown | None => (tool e, true)
  end.
End labels.

(** ** Turn heuristics *)

Definition abortedTurn (m : option ChatMsg) : bool :=
  match m with
  | Some m =>
      if negb (bool_decide (role m = Assistant)) then false
      else
        let t := trim (content m) in
        if streq t [] || (400 <? length t) || includes t FENCE then false
        else if test (rx "[:：]$" "") t then true
        else
          let lastOne := trim (default [] (last (split_lf t))) in
          let nu := replace_first (rx "^`(.*)`$" "") (u "$1") lastOne in
          let path := test (rx "^[\w.\/-]*[\w-]\.[A-Za-z][A-Za-z0-9]{0,7}$" "") nu || test BARE_FILES nu in
          path && (negb (streq nu lastOne) || includes nu [SLASH])
  | None => false
  end.

Definition RESUME_PROMPT : jstr := u "Continue exactement là où tu t'es arrêté".
Definition FULL_RESUME_PROMPT : jstr :=
  RESUME_PROMPT ++ u ", sans rien répéter et sans réintroduire ta réponse. "
  ++ u "Reprends au caractère suivant, et va jusqu'au bout du fichier.".
Definition MAX_AUTO_RESUMES : nat := 10.

Definition isResume (m : option ChatMsg) : bool :=
  match m with
  | Some m => bool_decide (role m = User) && hidden m && starts_with (content m) RESUME_PROMPT
  | None => false
  end.

Definition trimAfterAsk (content : jstr) : jstr :=
  match index_of (u "```ask") content 0 with
  | None => content
  | Some i => match index_of FENCE content (i + 6) with
              | None => content
              | Some close => take (close + 3) content
              end
  end.

Definition strip_accents (s : jstr) : jstr := replace_all (rx "[\u0300-\u036f]" "g") [] (nfd s).

Definition isDocTask (prompt : jstr) : bool :=
  let p := to_lower (strip_accents prompt) in
  test (rx "(corrig|reformul|reecri|reecrire|redig|remet(s)? en forme|met(s)? en forme|mise en forme|orthograph|\brelis\b|relire|proofread|rewrite|re-?format|rephrase|\bcorrect\b|clean ?up|\bedit this\b|\bfix the\b)" "") p
  || test (rx "(fais|fait|faire|cree|creer|genere|generer|ecri|redig|prepar|make|create|write|draft|produce|compose|generate|prepare)[\s\S]{0,30}(document|rapport|report|\bnote\b|compte[- ]?rendu|fiche|guide|essai|essay|lettre|letter|courriel|e-?mail|\bmail\b|article|synthese|memo|dossier|cahier|resume)" "") p.

Definition docTitleFromContent (content : jstr) : jstr :=
  let text := trim content in
  if streq text [] then u "Document"
  else
    let raw := match exec (rx "^\s{0,3}#{1,6}\s+(.+?)\s*#*\s*$" "m") text with
               | Some heading => cap0 heading 1
               | None => default [] (find (fun l => 0 <? length (trim l)) (split_lf text))
               end in
    let raw := replace_all (rx "[*_`~#>]" "g") [] raw in
    let raw := replace_first (rx "^\s*[-•]+\s+" "") [] raw in
    let raw := replace_first (rx "^\s*\d+[.)]\s+" "") [] raw in
    let raw := trim (replace_all (rx "\s+" "g") [32%N] raw) in
    if streq raw [] then u "Document"
    else if 60 <? length raw then trim_end (take 57 raw) ++ u "…" else raw.

Definition slugify (s : jstr) : jstr :=
  let base := take 60 (replace_all (rx "^-+|-+$" "g") []
                (replace_all (rx "[^a-z0-9]+" "g") [45%N] (to_lower (strip_accents s)))) in
  if streq base [] then u "document" else base.

Definition titleFromContext (before : jstr) : jstr :=
  let zone := match last_index_of FENCE before with Some i => drop (i + 3) before | None => before end in
  let tail := slice_end zone 300 in
  let candidates :=
    map (fun m => trim (cap0 m 1)) (match_all (rx "`([^`\n]{1,80})`" "g") tail)
    ++ map (fun m => trim (cap0 m 1))
         (match_all (rx "(?:^|[\s(*_\x22'>])([\w.-]+(?:\/[\w.-]+)*)(?=[\s:,)*_\x22'.]|$)" "gm") tail) in
  let cleaned := map (replace_first (rx "^[.\/]+" "") []) (rev candidates) in
  default [] (find (fun c => negb (streq c [] || (80 <? length c)) && is_file_name c) cleaned).

Definition withoutCaption (text title : jstr) : jstr :=
  let lines := split_lf (trim_end text) in
  let last_ := default [] (last lines) in
  let last_ := replace_all (rx "^[#>\s*_-]+|[\s*_:]+$" "g") [] last_ in
  let last_ := replace_first (rx "^(?:fichier|file)\s*:?\s*" "i") [] last_ in
  let last_ := trim (replace_all (rx "^`|`$" "g") [] last_) in
  if negb (streq last_ []) && streq last_ title then join [LF] (take (length lines - 1) lines) else text.

(** ** Languages *)

(** [None] as the extension is [undefined]: the labels [constructor] and
    [__proto__] find a member of [Object.prototype], which has neither field. *)
Record LangInfo := mkLang { ext : option jstr; mime : option jstr }.
Definition lang_row (l e m : String.string) : jstr * LangInfo := (u l, mkLang (Some (u e)) (Some (u m))).
Arguments lang_row l%_string_scope e%_string_scope m%_string_scope.
Definition LANG_INFO : list (jstr * LangInfo) :=
  [lang_row "html" "html" "text/html"; lang_row "htm" "html" "text/html";
   lang_row "css" "css" "text/css";
   lang_row "javascript" "js" "text/javascript"; lang_row "js" "js" "text/javascript";
   lang_row "typescript" "ts" "text/plain"; lang_row "ts" "ts" "text/plain";
   lang_row "tsx" "tsx" "text/plain"; lang_row "jsx" "jsx" "text/plain";
   lang_row "json" "json" "application/json";
   lang_row "yaml" "yml" "text/yaml"; lang_row "yml" "yml" "text/yaml";
   lang_row "toml" "toml" "text/plain";
   lang_row "python" "py" "text/x-python"; lang_row "py" "py" "text/x-python";
   lang_row "bash" "sh" "text/x-shellscript"; lang_row "sh" "sh" "text/x-shellscript";
   lang_row "shell" "sh" "text/x-shellscript";
   lang_row "sql" "sql" "text/plain"; lang_row "xml" "xml" "text/xml";
   lang_row "markdown" "md" "text/markdown"; lang_row "md" "md" "text/markdown";
   lang_row "go" "go" "text/plain"; lang_row "rust" "rs" "text/plain"; lang_row "rs" "rs" "text/plain";
   lang_row "java" "java" "text/plain"; lang_row "c" "c" "text/plain"; lang_row "cpp" "cpp" "text/plain";
   lang_row "php" "php" "text/plain"; lang_row "ruby" "rb" "text/plain"].

Definition lang_info (lang : jstr) : option LangInfo :=
  let l := to_lower lang in
  match assoc_get l LANG_INFO with
  | Some i => Some i
  | None => if streq l (u "constructor") || streq l (u "__proto__") then Some (mkLang None None) else None
  end.
(** How [undefined] reads inside a text. *)
Definition text_of (o : option jstr) : jstr := default (u "undefined") o.

Definition downloadName (title lang : jstr) : jstr :=
  if test (rx "\.[a-z0-9]{1,6}$" "i") title then title
  else
    let base := to_lower (replace_all (rx "^-+|-+$" "g") [] (replace_all (rx "[^\w.-]+" "g") [45%N] title)) in
    let base := if streq base [] then u "fichier" else base in
    match lang_info lang with
    | Some info => base ++ u "." ++ text_of (ext info)
    | None => base ++ u ".txt"
    end.

Definition mimeForLanguage (lang : jstr) : jstr :=
  match lang_info lang with Some info => default (u "text/plain") (mime info) | None => u "text/plain" end.

Definition EXT_LANG : list (jstr * jstr) :=
  [(u "py", u "python"); (u "js", u "javascript"); (u "ts", u "typescript"); (u "tsx", u "tsx");
   (u "jsx", u "jsx"); (u "html", u "html"); (u "css", u "css"); (u "json", u "json");
   (u "md", u "markdown"); (u "sh", u "bash"); (u "yml", u "yaml"); (u "yaml", u "yaml");
   (u "go", u "go"); (u "rs", u "rust"); (u "java", u "java"); (u "c", u "c"); (u "cpp", u "cpp");
   (u "rb", u "ruby"); (u "php", u "php"); (u "sql", u "sql")].

(** For an extension that is no member of [Object.prototype]. *)
Definition langFromName (name : jstr) : jstr :=
  let e := to_lower (default [] (last (split_on [46%N] name))) in
  default (u "text") (assoc_get e EXT_LANG).

(** The [Map] from a file's name to its state. *)
Record FileState := mkFileState { fs_content : jstr; fs_lang : jstr }.
Abbreviation Files := (list (jstr * FileState)).

(** ** Artifacts of one message *)

Record PState := mkP {
  p_artifacts : list Artifact;
  p_prose : jstr;
  p_segments : list Segment;
  p_lastIndex : nat;
  p_n : nat;
  p_asked : list jstr
}.

Definition re_fence_block : RegExp := rx "```([^\n`]*)\n([\s\S]*?)```" "g".
Definition re_has_code : RegExp := rx "```[^\n`]*\n[\s\S]{120,}?```" "".
Definition re_has_html : RegExp := rx "<!DOCTYPE html|<html[\s>]" "i".
Definition re_whole_html : RegExp := rx "<!DOCTYPE html[\s\S]*?<\/html\s*>|<html[\s\S]*?<\/html\s*>" "i".

Definition first_word (info : jstr) : jstr := hd [] (split_re (rx "\s+" "") info).

Section artifacts.
Context (t : jstr -> jstr).

(** The name of a block the model left unnamed, and the state with the asked
    name it may use up. *)
Definition asked_name (lang : jstr) (asked : list jstr) : jstr * list jstr :=
  match lang_info lang with
  | Some (mkLang (Some e) _) =>
      match find_index (fun name => ends_with (to_lower name) (u "." ++ e)) asked with
      | Some k => (default [] (asked !! k), take k asked ++ drop (S k) asked)
      | None => ([], asked)
      end
  | _ => ([], asked)
  end.

Definition fallback_title (lang : jstr) (n : nat) : jstr :=
  match lang_info lang with
  | Some info =>
      if bool_decide (ext info = Some (u "html")) && (n =? 1) then u "index.html"
      else replace_str (replace_str (t (u "fichier-{n}.{ext}")) (u "{n}") (string_of_nat (n + 1)))
             (u "{ext}") (text_of (ext info))
  | None => replace_str (t (u "fichier-{n}.txt")) (u "{n}") (string_of_nat (n + 1))
  end.

(** One match of the fence pattern. *)
Definition artifact_step (content : jstr) (known : jstr -> option jstr) (st : PState) (m : Match) : PState :=
  let body := strip_last_lf (cap0 m 2) in
  let info := trim (cap0 m 1) in
  let first := first_word info in
  if streq first (u "edit") || isQuestionsBlock first body then st
  else
    let dotted := includes first [46%N] in
    let lang := if dotted then default [] (last (split_on [46%N] first)) else first in
    let title := if dotted then first else [] in
    let title := match exec (rx "(?:title|file|filename)=(\S+)" "i") info with
                 | Some named => cap0 named 1
                 | None => title
                 end in
    let unnamed := streq title [] in
    let title := if unnamed then titleFromContext (take (m_index m) content) else title in
    let fromProse := unnamed && negb (streq title []) in
    let earlier := match find (fun a => streq (a_title a) title) (rev (p_artifacts st)) with
                   | Some a => Some (a_content a)
                   | None => known title
                   end in
    if fromProse && isExcerptOf title body (slice content (p_lastIndex st) (m_index m))
                      (match earlier with Some e => length e | None => 0 end)
    then st
    else
      let '(title, asked) := if streq title [] then asked_name lang (p_asked st) else (title, p_asked st) in
      if negb (negb (streq title []) || (200 <=? length body) || (6 <=? length (split_lf body)))
      then mkP (p_artifacts st) (p_prose st) (p_segments st) (p_lastIndex st) (p_n st) asked
      else
        let n := p_n st + 1 in
        let title := if streq title [] then fallback_title lang n else title in
        let before := slice content (p_lastIndex st) (m_index m) in
        mkP (p_artifacts st ++ [Code title (if streq lang [] then u "text" else lang) body])
            (p_prose st ++ before)
            (p_segments st ++ [SText (withoutCaption before title); SFile (length (p_artifacts st))])
            (m_end m) n asked.

Record Parsed := mkParsed { r_prose : jstr; r_artifacts : list Artifact; r_segments : list Segment }.

Definition parseArtifacts (content : jstr) (allowDoc : bool) (request : jstr)
    (known : jstr -> option jstr) : Parsed :=
  let text := trim content in
  let hasCode := test re_has_code text || test re_has_html text in
  if allowDoc && negb hasCode && (DOC_MIN_CHARS <=? length text) then
    mkParsed [] [Doc (docTitleFromContent text) text] [SFile 0]
  else
    let st := foldl (artifact_step content known)
                (mkP [] [] [] 0 0 (askedFileNames request)) (match_all re_fence_block content) in
    let rest := drop (p_lastIndex st) content in
    let normal := mkParsed (trim (p_prose st ++ rest)) (p_artifacts st) (p_segments st ++ [SText rest]) in
    match p_artifacts st with
    | [] =>
        match exec re_whole_html content with
        | Some html =>
            if 200 <=? length (m_text html) then
              let before := take (m_index html) content in
              let title := match titleFromContext before with [] => u "page.html" | n => n end in
              let after := drop (m_index html + length (m_text html)) content in
              mkParsed (trim (before ++ after))
                [Code (if test (rx "\.html?$" "i") title then title else u "page.html") (u "html") (m_text html)]
                [SText before; SFile 0; SText after]
            else normal
        | None => normal
        end
    | _ => normal
    end.

(** ** Files of the conversation *)

(** Less than two thirds of a file of more than 800 units; [0.66 * length] is
    exact enough in doubles for the comparison to be the one on integers. *)
Definition isFragment (legacy : option FileState) (current : jstr) : bool :=
  match legacy with
  | None => false
  | Some l => (800 <? length (fs_content l)) && (100 * length current <? 66 * length (fs_content l))
  end.

Definition GENERIC_TITLE : RegExp := rx "^(?:fichier|file)-\d+\.[a-z0-9]{1,6}$" "i".
Definition re_protocol : RegExp := rx "```(?:edit|ask)\b" "".

Record ThreadState := mkT { t_files : Files; t_unfinished : option jstr }.

(** The key an edit's file name designates. *)
Definition edit_key (files : Files) (file : jstr) : option jstr :=
  if bool_decide (is_Some (assoc_get file files)) && negb (streq file []) then Some file
  else match find (fun k => streq k file || ends_with k (SLASH :: file) || ends_with file (SLASH :: k)) (map fst files) with
       | Some [] => None
       | r => r
       end.

Definition apply_edit (files : Files) (e : FileEdit) : Files :=
  match edit_key files (e_file e) with
  | None => files
  | Some key =>
      match assoc_get key files with
      | Some target =>
          if includes (fs_content target) (e_find e)
          then assoc_set key (mkFileState (replace_str (fs_content target) (e_find e) (e_replace e)) (fs_lang target)) files
          else files
      | None => files
      end
  end.

(** A version written by the server's tools. *)
Definition apply_tool_edit (files : Files) (f : EditedFile) : Files :=
  assoc_set (ef_name f)
    (mkFileState (ef_content f)
       (match assoc_get (ef_name f) files with Some o => fs_lang o | None => langFromName (ef_name f) end)) files.

(** One artifact of a message; [open_last] says it is the block the message
    leaves open. *)
Definition store_artifact (files : Files) (open_last : bool) (a : Artifact) : Files :=
  match a with
  | Doc _ _ => files
  | Code title lang c =>
      let previous := assoc_get title files in
      if open_last && match previous with None => true | Some p => length (fs_content p) <=? 4 * length c end
      then assoc_set title (mkFileState c lang) files
      else if isFragment previous c then files
      else assoc_set title (mkFileState c lang) files
  end.

Fixpoint store_artifacts (files : Files) (unfinished : option jstr) (arts : list Artifact) : Files :=
  match arts with
  | [] => files
  | a :: r =>
      store_artifacts
        (store_artifact files (bool_decide (r = []) && bool_decide (Some (a_title a) = unfinished)) a)
        unfinished r
  end.

(** A message that is not glued onto an unfinished file. *)
Definition plain_turn (st : ThreadState) (request : jstr) (m : ChatMsg) : ThreadState :=
  let files := t_files st in
  let arts := r_artifacts (parseArtifacts (closedContent (content m)) false request
                (fun name => fs_content <$> assoc_get name files)) in
  let unfinished :=
    if Nat.odd (fences (content m)) then
      match last arts with Some (Code title _ _) => Some title | _ => None end
    else None in
  let files1 := store_artifacts files unfinished arts in
  let files2 := foldl apply_edit files1 (parseEdits (content m)) in
  mkT (foldl apply_tool_edit files2 (fileEdits m)) unfinished.

(** One message; [prev] is the message before it. *)
Definition turn (prev : option ChatMsg) (st : ThreadState) (m : ChatMsg) : ThreadState :=
  if negb (bool_decide (role m = Assistant)) then st
  else
    let target := match t_unfinished st with
                  | Some ((_ :: _) as n) => (fun f => (n, f)) <$> assoc_get n (t_files st)
                  | _ => None
                  end in
    let protocol := test re_protocol (content m) in
    let resume := isResume prev in
    match target with
    | None =>
        if resume && negb protocol then mkT (t_files st) None
        else plain_turn st (match prev with Some p => content p | None => [] end) m
    | Some (name, f) =>
        if negb protocol && resume then
          let fusion := rejoin (fs_content f) (continuationBody (content m)) in
          mkT (assoc_set name (mkFileState fusion (fs_lang f)) (t_files st))
              (if truncated m || incompleteResponse fusion then t_unfinished st else None)
        else plain_turn st (match prev with Some p => content p | None => [] end) m
    end.

(** The states after each message: what [observe] is called with. *)
Fixpoint states (prev : option ChatMsg) (st : ThreadState) (ms : list ChatMsg) : list ThreadState :=
  match ms with
  | [] => []
  | m :: r => let st' := turn prev st m in st' :: states (Some m) st' r
  end.
Definition states_until (messages : list ChatMsg) (index : Z) : list ThreadState :=
  states None (mkT [] None) (take (Z.to_nat (index + 1)) messages).
Definition filesUntil (messages : list ChatMsg) (index : Z) : Files :=
  match last (states_until messages index) with Some st => t_files st | None => [] end.

Definition msg_at (messages : list ChatMsg) (i : Z) : option ChatMsg :=
  if (i <? 0)%Z then None else messages !! Z.to_nat i.
Definition text_at (messages : list ChatMsg) (i : Z) : jstr :=
  match msg_at messages i with Some m => content m | None => [] end.

Definition messageFragments (messages : list ChatMsg) (index : Z) : list jstr :=
  match msg_at messages index with
  | Some m =>
      if negb (bool_decide (role m = Assistant)) then []
      else
        let before := filesUntil messages (index - 1) in
        let names := omap (fun a =>
            match a with
            | Doc _ _ => None
            | Code title lang c =>
                if isFragment (assoc_get title before) c then Some title
                else if negb (test GENERIC_TITLE title) then None
                else fst <$> find (fun kf => streq (fs_lang kf.2) lang && isFragment (Some kf.2) c) before
            end)
          (r_artifacts (parseArtifacts (closedContent (content m)) false (text_at messages (index - 1)) (fun _ => None))) in
        match names with
        | _ :: _ => names
        | [] =>
            match before with
            | [] => []
            | _ =>
                default []
                  (head (omap (fun f =>
                     let lang := to_lower (first_word (trim (cap0 f 1))) in
                     let body := cap0 f 2 in
                     if streq lang (u "edit") || isQuestionsBlock lang body then None
                     else (fun kf => [kf.1]) <$>
                            find (fun kf => (streq lang [] || streq (to_lower (fs_lang kf.2)) lang)
                                            && isFragment (Some kf.2) body) before)
                   (match_all re_fence_block (content m))))
            end
        end
  | None => []
  end.

(** ** Versions *)

Record FileVersion := mkVersion { v_index : nat; v_content : jstr; v_lang : jstr }.

Definition add_version (index : nat) (out : list (jstr * list FileVersion)) (kf : jstr * FileState) :=
  let list_ := default [] (assoc_get kf.1 out) in
  if bool_decide (v_content <$> last list_ = Some (fs_content kf.2)) then out
  else assoc_set kf.1 (list_ ++ [mkVersion index (fs_content kf.2) (fs_lang kf.2)]) out.
Definition observe (out : list (jstr * list FileVersion)) (s : nat * ThreadState) :=
  foldl (add_version s.1) out (t_files s.2).
Definition fileVersions (messages : list ChatMsg) : list (jstr * list FileVersion) :=
  let sts := states_until messages (Z.of_nat (length messages) - 1) in
  foldl observe [] (zip (seq 0 (length sts)) sts).

(** ** Resumes *)

Definition messageMerge (messages : list ChatMsg) (index : Z) : list Artifact :=
  match msg_at messages index with
  | Some m =>
      if negb (bool_decide (role m = Assistant)) || negb (isResume (msg_at messages (index - 1))) then []
      else
        let before := filesUntil messages (index - 1) in
        let after := filesUntil messages index in
        omap (fun kf =>
          match assoc_get kf.1 before with
          | Some a => if streq (fs_content a) (fs_content kf.2) then None
                      else Some (Code kf.1 (fs_lang kf.2) (fs_content kf.2))
          | None => None
          end) after
  | None => []
  end.

Definition fileLeftOpen (messages : list ChatMsg) (index : Z) : bool :=
  match msg_at messages index with
  | Some m =>
      if negb (bool_decide (role m = Assistant)) then false
      else if isResume (msg_at messages (index - 1)) then
        existsb (fun f => incompleteResponse (a_content f)) (messageMerge messages index)
      else incompleteResponse (content m)
  | None => false
  end.

Definition ABANDON_DECLARE : list RegExp :=
  [rx "trop\s+(?:long|volumineux|gros)[^.\n]{0,80}?(?:affich|ici\b|ce\s+message)" "i";
   rx "too\s+(?:long|large)[^.\n]{0,80}?(?:display|show\b|here\b|message)" "i";
   rx "je\s+ne\s+peux\s+pas\s+(?:l['’]?)?(?:affich|[ée]crire)[^.\n]{0,60}?(?:int[ée]gralit|en\s+entier)" "i";
   rx "(?:reste|suite)\s+du\s+(?:code|fichier)\s+(?:inchang|identique|omis)" "i";
   rx "rest\s+of\s+the\s+(?:code|file)[^.\n]{0,30}?unchanged" "i";
   rx "\.\.\.\s*\(\s*(?:suite|reste)" "i"].

Definition abandonDeclare (content : jstr) : bool :=
  includes content FENCE && existsb (fun r => test r content) ABANDON_DECLARE.

Definition incompleteMessage (messages : list ChatMsg) (index : Z) : bool :=
  match msg_at messages index with
  | Some m => if negb (bool_decide (role m = Assistant)) then false
              else fileLeftOpen messages index || abandonDeclare (content m)
  | None => false
  end.

(** The outcome of one edit: [None] stands for the [TypeError] of reading a
    file the state does not have. *)
Definition edit_outcome (before after : Files) (st : option (list (jstr * Artifact) * list jstr)) (e : FileEdit)
  : option (list (jstr * Artifact) * list jstr) :=
  '(touches, failures) ← st;
  match edit_key before (e_file e) with
  | None => Some (touches, failures ++ [match e_file e with [] => u "?" | f => f end])
  | Some key =>
      b ← assoc_get key before;
      if negb (includes (fs_content b) (e_find e)) then Some (touches, failures ++ [key])
      else f ← assoc_get key after;
           Some (assoc_set key (Code key (fs_lang f) (fs_content f)) touches, failures)
  end.

Definition applyEdits (messages : list ChatMsg) (index : Z) : option (list Artifact * list jstr) :=
  match parseEdits (text_at messages index) with
  | [] => Some ([], [])
  | edits =>
      let before := filesUntil messages (index - 1) in
      let after := filesUntil messages index in
      '(touches, failures) ← foldl (edit_outcome before after) (Some ([], [])) edits;
      Some (map snd touches, failures)
  end.
End artifacts.
