(* ===== verification/ThreadSpec.v ===== *)
(** * What the file reconstruction guarantees *)

From S2P Require Import JsJson JsRegExp Repair Parsers ParsersSpec Thread.

(** ** Script depth *)

Lemma at_is code i c : is_at code i c = true -> at_ code i = c /\ i < length code.
Proof.
  unfold is_at, at_. destruct (code !! i) as [d|] eqn:E; [|done]. intros H. bool_norm. subst. split; [done|].
  by eapply lookup_lt_Some.
Qed.

Lemma drop_at code i : i < length code -> drop i code = at_ code i :: drop (S i) code.
Proof.
  intros H. destruct (lookup_lt_is_Some_2 code i H) as [c Hc]. unfold at_. rewrite Hc. by apply drop_S.
Qed.

Lemma template_rest_pos s : match template_rest s with TClosed n | TOpen n => 0 < n | TEnd => True end.
Proof.
  destruct s as [|c s]; cbn [template_rest]; [done|].
  destruct (c =? BACKSLASH)%N; [destruct s as [|d s]; [done|]; destruct (template_rest s); simpl; lia|].
  destruct (c =? BACKTICK)%N; [lia|]. destruct (_ && _); [lia|]. destruct (template_rest s); simpl; lia.
Qed.

(** Every round moves forward. *)
Lemma depth_step_forward code st : d_i st < length code ->
  match depth_step code st with Continue st' => d_i st < d_i st' | Return _ => True end.
Proof.
  destruct st as [i depth templates previous]. cbn [d_i]. intros Hi. unfold depth_step. cbv zeta.
  assert (HT : forall d ts, match enter_template code (i + 1) d ts with Continue st' => i < d_i st' | Return _ => True end).
  { intros d ts. unfold enter_template. pose proof (template_rest_pos (drop (i + 1) code)) as H.
    destruct (template_rest _); cbn [d_i]; lia. }
  destruct ((at_ code i =? SLASH)%N && is_at code (i + 1) SLASH) eqn:E1.
  { cbn [d_i]. bool_norm. rewrite drop_at by done. rewrite H. cbn [line_len]. change (SLASH =? LF)%N with false. cbn iota. lia. }
  clear E1. destruct ((at_ code i =? SLASH)%N && is_at code (i + 1) STAR); [cbn [d_i]; lia|].
  destruct ((at_ code i =? SQ)%N || (at_ code i =? DQ)%N); [cbn [d_i]; lia|].
  destruct (at_ code i =? BACKTICK)%N; [apply HT|].
  destruct ((at_ code i =? SLASH)%N && _); [cbn [d_i]; lia|].
  destruct (opens (at_ code i)); [cbn [d_i]; lia|].
  destruct (closes (at_ code i)); [|cbn [d_i]; lia].
  destruct templates as [|t ts]; [cbn [d_i]; lia|]. destruct (_ =? _)%Z; [apply HT|cbn [d_i]; lia].
Qed.

Lemma depth_loop_total fuel code st : length code - d_i st <= fuel -> is_Some (depth_loop fuel code st).
Proof.
  revert st. induction fuel as [|f IH]; intros st Hf; cbn [depth_loop];
    destruct (d_i st <? length code) eqn:E; try (by eexists); apply Nat.ltb_lt in E; [lia|].
  pose proof (depth_step_forward code st E) as HF. destruct (depth_step code st) as [st'|d]; [|by eexists].
  apply IH. lia.
Qed.

(** Code as a sequence of pieces: ordinary units, quoted strings, comments. *)
Inductive piece :=
| PUnit (c : N)
| PStr (q : N) (body : jstr)
| PLine (body : jstr)
| PBlock (body : jstr).
Definition piece_text (p : piece) : jstr :=
  match p with
  | PUnit c => [c]
  | PStr q body => q :: body ++ [q]
  | PLine body => SLASH :: SLASH :: body ++ [LF]
  | PBlock body => SLASH :: STAR :: body ++ [STAR; SLASH]
  end.
Definition special (c : N) : bool := ((c =? SLASH) || (c =? SQ) || (c =? DQ) || (c =? BACKTICK))%N.
(** In a string, a backslash takes the next unit with it. *)
Fixpoint string_body (q : N) (s : jstr) : bool :=
  match s with
  | [] => true
  | c :: r =>
      if (c =? q)%N then false
      else if (c =? BACKSLASH)%N then match r with [] => false | _ :: r' => string_body q r' end
      else string_body q r
  end.
Definition piece_ok (p : piece) : bool :=
  match p with
  | PUnit c => negb (special c)
  | PStr q body => ((q =? SQ)%N || (q =? DQ)%N) && string_body q body
  | PLine body => negb (existsb (N.eqb LF) body)
  | PBlock body => negb (includes (body ++ [STAR]) [STAR; SLASH])
  end.
Definition code_text (ps : list piece) : jstr := concat (map piece_text ps).
Definition piece_depth (p : piece) : Z :=
  match p with PUnit c => if opens c then 1 else if closes c then -1 else 0 | _ => 0 end.
Definition code_depth (ps : list piece) : Z := foldr (fun p d => (piece_depth p + d)%Z) 0%Z ps.

Lemma string_len_body q body r : string_body q body = true -> string_len q (body ++ q :: r) = length body.
Proof.
  remember (length body) as n eqn:Hn. revert body Hn. induction n as [n IH] using lt_wf_ind. intros body Hn.
  destruct body as [|c body]; cbn [string_body string_len app]; [by rewrite N.eqb_refl|].
  simpl in Hn. destruct (c =? q)%N; [done|]. destruct (c =? BACKSLASH)%N.
  - destruct body as [|d body]; [done|]. cbn [app]. intros H. simpl in Hn. rewrite (IH (length body)); [lia|lia|done|done].
  - intros H. rewrite (IH (length body)); [lia|lia|done|done].
Qed.

Lemma line_len_body body r : existsb (N.eqb LF) body = false -> line_len (body ++ LF :: r) = length body.
Proof.
  induction body as [|c body IH]; [done|]. cbn [existsb app line_len length]. intros H. bool_norm.
  destruct (c =? LF)%N eqn:E; [apply N.eqb_eq in E; congruence|]. by rewrite IH.
Qed.

Lemma comment_len_body body r : includes (body ++ [STAR]) [STAR; SLASH] = false ->
  comment_len (body ++ STAR :: SLASH :: r) = length body.
Proof.
  induction body as [|c body IH]; [done|]. intros H. cbn [app comment_len length].
  assert (H1 : includes (body ++ [STAR]) [STAR; SLASH] = false).
  { destruct (includes (body ++ [STAR]) _) eqn:E; [|done]. apply includes_true in E as (a & b & E).
    assert (HI : includes ((c :: body) ++ [STAR]) [STAR; SLASH] = true).
    { apply includes_true. exists (c :: a), b. cbn [app]. by rewrite E. } congruence. }
  destruct ((c =? STAR)%N && _) eqn:E; [|by rewrite IH].
  exfalso. apply andb_true_iff in E as [E1 E2]. apply N.eqb_eq in E1 as ->.
  destruct body as [|d body]; cbn [app] in E2; [done|]. apply N.eqb_eq in E2 as ->.
  assert (HI : includes ((STAR :: SLASH :: body) ++ [STAR]) [STAR; SLASH] = true).
  { apply includes_true. by exists [], (body ++ [STAR]). } congruence.
Qed.

Lemma drop_at_cons code i c r : drop i code = c :: r ->
  at_ code i = c /\ i < length code /\ drop (i + 1) code = r.
Proof.
  intros H. destruct (drop_S_cons _ _ _ _ H) as (H1 & H2 & H3). unfold at_. rewrite H2, Nat.add_1_r. done.
Qed.

Lemma is_at_cons code i c r d : drop i code = c :: r -> is_at code i d = (c =? d)%N.
Proof. intros H. unfold is_at. by destruct (drop_S_cons _ _ _ _ H) as (_ & -> & _). Qed.

(** Skipping one piece. *)
Lemma depth_step_piece code i d prev p rest :
  piece_ok p = true -> drop i code = piece_text p ++ rest ->
  exists prev' k, depth_step code (mkDepth i d [] prev) = Continue (mkDepth (i + k) (d + piece_depth p)%Z [] prev')
    /\ drop (i + k) code = match p with PLine _ => LF :: rest | _ => rest end /\ 0 < k.
Proof.
  intros Hok HD. destruct p as [c|q body|body|body]; cbn [piece_text piece_ok piece_depth app] in *.
  - destruct (drop_at_cons _ _ _ _ HD) as (Ha & Hl & Hr). unfold special in Hok. bool_norm.
    unfold depth_step. rewrite Ha. apply N.eqb_neq in H, H0, H1, H2. rewrite H, H0, H1, H2. cbn [andb orb].
    eexists _, 1. split; [|split; [exact Hr|lia]].
    destruct (opens c); [done|]. destruct (closes c); [done|]. by rewrite Z.add_0_r.
  - destruct (drop_at_cons _ _ _ _ HD) as (Ha & Hl & Hr). bool_norm.
    unfold depth_step. rewrite Ha. rewrite <- app_assoc in Hr. cbn [app] in Hr.
    assert (HS : (q =? SLASH)%N = false) by (apply orb_true_iff in H as [H|H]; apply N.eqb_eq in H as ->; done).
    rewrite HS, H. cbn [andb]. rewrite Hr, string_len_body by done.
    exists [120%N], (1 + length body + 1). rewrite Z.add_0_r, !Nat.add_assoc. split; [done|]. split; [|lia].
    rewrite <- (drop_drop code 1), <- (drop_drop code (length body)), Hr, drop_app_length. done.
  - destruct (drop_at_cons _ _ _ _ HD) as (Ha & Hl & Hr). unfold depth_step.
    rewrite Ha, (is_at_cons _ _ _ _ _ Hr), N.eqb_refl. change (SLASH =? SLASH)%N with true. cbn [andb].
    bool_norm. rewrite <- app_assoc in HD. cbn [app] in HD. rewrite HD. cbn [line_len].
    change (SLASH =? LF)%N with false. cbn iota. rewrite line_len_body by done.
    exists prev, (S (S (length body))). rewrite Z.add_0_r. split; [done|]. split; [|lia].
    rewrite <- drop_drop, HD. cbn [drop]. by rewrite drop_app_length.
  - destruct (drop_at_cons _ _ _ _ HD) as (Ha & Hl & Hr). unfold depth_step.
    rewrite Ha, !(is_at_cons _ _ _ _ _ Hr), N.eqb_refl. change (STAR =? SLASH)%N with false. cbn [andb].
    rewrite N.eqb_refl. bool_norm. rewrite <- app_assoc in HD. cbn [app] in HD.
    assert (HR : drop (i + 2) code = body ++ STAR :: SLASH :: rest) by (by rewrite <- drop_drop, HD).
    rewrite HR, comment_len_body by done.
    exists prev, (2 + length body + 2). rewrite Z.add_0_r, !Nat.add_assoc. split; [done|]. split; [|lia].
    rewrite <- (drop_drop code 2), <- (drop_drop code (length body)), HR, drop_app_length. done.
Qed.

Lemma depth_loop_pieces ps : forall fuel code i d prev,
  forallb piece_ok ps = true -> drop i code = code_text ps -> length code - i <= fuel ->
  depth_loop fuel code (mkDepth i d [] prev) = Some (d + code_depth ps)%Z.
Proof.
  assert (HLF : forall ps, forall fuel code i d prev, (forall fuel code i d prev,
      forallb piece_ok ps = true -> drop i code = code_text ps -> length code - i <= fuel ->
      depth_loop fuel code (mkDepth i d [] prev) = Some (d + code_depth ps)%Z) ->
    forallb piece_ok ps = true -> drop i code = LF :: code_text ps -> length code - i <= fuel ->
    depth_loop fuel code (mkDepth i d [] prev) = Some (d + code_depth ps)%Z).
  { intros ps' fuel code i d prev IH Hok HD Hf. destruct fuel as [|f].
    { destruct (drop_at_cons _ _ _ _ HD) as (_ & ? & _). lia. }
    destruct (depth_step_piece code i d prev (PUnit LF) (code_text ps') eq_refl HD) as (prev' & k & HS & HR & Hk).
    destruct (drop_at_cons _ _ _ _ HD) as (_ & Hl & _). cbn [depth_loop d_i].
    apply Nat.ltb_lt in Hl as Hl'. rewrite Hl', HS. rewrite IH; [|done|done|lia]. cbn [piece_depth].
    change (opens LF) with false. change (closes LF) with false. cbn iota. by rewrite Z.add_0_r. }
  induction ps as [|p ps IH]; intros fuel code i d prev Hok HD Hf.
  - assert (HL : length code <= i) by (apply (f_equal length) in HD; rewrite length_drop in HD; simpl in HD; lia).
    destruct fuel; cbn [depth_loop d_i d_depth]; (destruct (i <? length code) eqn:E; [apply Nat.ltb_lt in E; lia|]); by rewrite Z.add_0_r.
  - cbn [forallb] in Hok. bool_norm. unfold code_text in HD. cbn [map concat] in HD. fold (code_text ps) in HD.
    destruct (depth_step_piece code i d prev p (code_text ps) H HD) as (prev' & k & HS & HR & Hk).
    assert (Hl : i < length code).
    { apply (f_equal length) in HD. rewrite length_drop, length_app in HD.
      assert (0 < length (piece_text p)) by (destruct p; simpl; lia). lia. }
    destruct fuel as [|f]; [lia|]. cbn [depth_loop d_i]. apply Nat.ltb_lt in Hl as Hl'. rewrite Hl', HS.
    cbn [code_depth foldr]. fold (code_depth ps). rewrite Z.add_assoc.
    destruct p; [apply IH; [done|done|lia]|apply IH; [done|done|lia]|apply HLF; [exact IH|done|done|lia]|apply IH; [done|done|lia]].
Qed.

(** [finalDepth] always ends: every round of its loop moves forward,
    whatever the script contains. *)
Theorem finalDepth_total code : exists d, finalDepth code = Some d.
Proof. unfold finalDepth. apply depth_loop_total. simpl. lia. Qed.

(** On code made of ordinary units, quoted strings (escapes included) and
    comments, [finalDepth] is the number of openers minus the number of
    closers outside the strings and the comments. *)
Theorem finalDepth_pieces ps : forallb piece_ok ps = true -> finalDepth (code_text ps) = Some (code_depth ps).
Proof. intros H. unfold finalDepth. rewrite (depth_loop_pieces ps); [done|done|done|simpl; lia]. Qed.
Theorem finalDepth_pieces_witness :
  finalDepth (u "if(x){ // }
 /* ) */ f('}\'}')") = Some 1%Z.
Proof.
  apply (finalDepth_pieces (map PUnit (u "if(x){ ") ++ [PLine (u " }"); PUnit 32; PBlock (u " ) "); PUnit 32]
    ++ map PUnit (u "f(") ++ [PStr SQ (u "}\'}"); PUnit 41])).
  vm_compute. reflexivity.
Defined.

(** A regular expression after the word [return] and a space is not
    recognised (the word test looks at the text up to the slash, space
    included), so a bracket in it is counted: a finished function is reported
    as left open. *)
Theorem finalDepth_return_regex :
  finalDepth (u "function f(s) { return /[{]/.test(s) }") = Some 1%Z
  /\ finalDepth (u "function f(s) { return(/[{]/).test(s) }") = Some 0%Z
  /\ broken (u "<script>function f(s) { return /[{]/.test(s) }</script>") = true.
Proof. vm_compute. done. Qed.

(** ** The cache of [brokenScript] *)

(** Every cached answer is the answer, and the cache stays small. *)
Definition memo_ok (memo : list (jstr * bool)) : Prop :=
  Forall (fun cb => cb.2 = broken cb.1) memo /\ length memo <= 41.

(** The cache of [brokenScript] never changes an answer: from a cache
    whose entries are right, the answer is the one computed without it, the
    cache stays right, and it never holds more than 41 entries. *)
Theorem brokenScript_cached content memo : memo_ok memo ->
  fst (brokenScript content memo) = broken content /\ memo_ok (snd (brokenScript content memo)).
Proof.
  intros [H1 H2]. unfold brokenScript. destruct (assoc_get content memo) as [b|] eqn:E.
  - split; [|by split]. cbn [fst]. by apply (assoc_get_Forall (fun k v => v = broken k) _ _ _ H1 E).
  - split; [done|]. cbn [snd]. destruct (40 <? length memo) eqn:EL.
    + split; [by repeat constructor|simpl; lia].
    + apply Nat.ltb_ge in EL. split; [by apply (assoc_set_Forall (fun k v => v = broken k))|].
      pose proof (length_assoc_set content (broken content) memo). lia.
Qed.
Theorem brokenScript_cached_witness :
  let page := u "<script>if (x) {</script>" in
  let memo := [(page, true)] in
  memo_ok memo /\ fst (brokenScript page memo) = true.
Proof.
  assert (H : memo_ok [(u "<script>if (x) {</script>", true)])
    by (split; [repeat constructor; vm_compute; reflexivity|simpl; lia]).
  split; [exact H|].
  rewrite (proj1 (brokenScript_cached (u "<script>if (x) {</script>") _ H)). vm_compute. reflexivity.
Defined.

(** ** Keys of the file map *)

(** The files a map knows never leave it: its keys only grow, at the end, and
    stay distinct. *)
Definition grows (a b : Files) : Prop := map fst a `prefix_of` map fst b /\ (NoDup (map fst a) -> NoDup (map fst b)).

Lemma grows_refl a : grows a a.
Proof. by split. Qed.
Lemma grows_trans a b c : grows a b -> grows b c -> grows a c.
Proof. intros [H1 H2] [H3 H4]. split; [by etransitivity|auto]. Qed.
Lemma grows_set k v a : grows a (assoc_set k v a).
Proof.
  split; [|apply assoc_set_nodup]. rewrite assoc_set_keys. destruct (existsb _ _); [done|]. by eexists.
Qed.
Lemma grows_foldl {B} (f : Files -> B -> Files) l a : (forall a x, grows a (f a x)) -> grows a (foldl f a l).
Proof.
  intros H. revert a. induction l as [|x l IH]; intros a; [apply grows_refl|]. cbn [foldl].
  eapply grows_trans; [apply H|apply IH].
Qed.

#[export] Hint Resolve grows_refl grows_set : thread.

Lemma apply_edit_grows files e : grows files (apply_edit files e).
Proof. unfold apply_edit. repeat case_match; auto with thread. Qed.
Lemma apply_tool_edit_grows files f : grows files (apply_tool_edit files f).
Proof. apply grows_set. Qed.
Lemma store_artifact_grows files o a : grows files (store_artifact files o a).
Proof. unfold store_artifact. repeat case_match; auto with thread. Qed.
Lemma store_artifacts_grows files un arts : grows files (store_artifacts files un arts).
Proof.
  revert files. induction arts as [|a arts IH]; intros files; [apply grows_refl|]. cbn [store_artifacts].
  eapply grows_trans; [apply store_artifact_grows|apply IH].
Qed.

Section thread.
Context (t : jstr -> jstr).

Lemma plain_turn_grows st r m : grows (t_files st) (t_files (plain_turn t st r m)).
Proof.
  unfold plain_turn. cbn [t_files].
  eapply grows_trans; [|apply grows_foldl, apply_tool_edit_grows].
  eapply grows_trans; [|apply grows_foldl, apply_edit_grows]. apply store_artifacts_grows.
Qed.
Lemma turn_grows prev st m : grows (t_files st) (t_files (turn t prev st m)).
Proof.
  unfold turn. destruct (negb _); [apply grows_refl|].
  destruct (match t_unfinished st with Some (_ :: _ as n) => _ | _ => None end) as [[name f]|].
  - destruct (_ && _); [apply grows_set|apply plain_turn_grows].
  - destruct (_ && _); [apply grows_refl|apply plain_turn_grows].
Qed.

Lemma states_length prev st ms : length (states t prev st ms) = length ms.
Proof. revert prev st. induction ms as [|m ms IH]; intros; simpl; [done|by rewrite IH]. Qed.

Lemma states_snoc prev st ms m : exists prev' st',
  states t prev st (ms ++ [m]) = states t prev st ms ++ [turn t prev' st' m]
  /\ st' = default st (last (states t prev st ms)).
Proof.
  revert prev st. induction ms as [|x ms IH]; intros prev st.
  - exists prev, st. done.
  - cbn [app states]. destruct (IH (Some x) (turn t prev st x)) as (p & s & H1 & H2).
    exists p, s. rewrite H1. split; [done|]. rewrite H2, last_cons.
    by destruct (last (states t (Some x) (turn t prev st x) ms)).
Qed.

Lemma states_nodup prev st ms : NoDup (map fst (t_files st)) ->
  Forall (fun s => NoDup (map fst (t_files s))) (states t prev st ms).
Proof.
  revert prev st. induction ms as [|m ms IH]; intros prev st H; [constructor|]. cbn [states].
  assert (H' : NoDup (map fst (t_files (turn t prev st m)))) by (by apply turn_grows).
  constructor; [done|by apply IH].
Qed.

Lemma states_until_succ messages index : (0 <= index)%Z -> (index < Z.of_nat (length messages))%Z ->
  exists s, states_until t messages index = states_until t messages (index - 1) ++ [s]
    /\ grows (filesUntil t messages (index - 1)) (t_files s).
Proof.
  intros H1 H2. unfold filesUntil, states_until.
  replace (Z.to_nat (index + 1)) with (S (Z.to_nat index)) by lia.
  replace (Z.to_nat (index - 1 + 1)) with (Z.to_nat index) by lia.
  destruct (lookup_lt_is_Some_2 messages (Z.to_nat index)) as [m Hm]; [lia|].
  rewrite (take_S_r _ _ _ Hm).
  destruct (states_snoc None (mkT [] None) (take (Z.to_nat index) messages) m) as (p & s & HS & Hs).
  rewrite HS. eexists. split; [done|]. eapply grows_trans; [|apply turn_grows]. rewrite Hs.
  destruct (last _); apply grows_refl.
Qed.

Lemma filesUntil_step messages index : (0 <= index)%Z ->
  grows (filesUntil t messages (index - 1)) (filesUntil t messages index).
Proof.
  intros H. destruct (decide (index < Z.of_nat (length messages))%Z) as [Hl|Hl].
  - destruct (states_until_succ messages index H Hl) as (s & HS & Hg).
    unfold filesUntil at 2. by rewrite HS, last_snoc.
  - unfold filesUntil, states_until. rewrite !take_ge by lia. apply grows_refl.
Qed.

Lemma filesUntil_neg messages index : (index < 0)%Z -> filesUntil t messages index = [].
Proof. intros H. unfold filesUntil, states_until. by replace (Z.to_nat (index + 1)) with 0 by lia. Qed.

Lemma filesUntil_grows messages i j : (i <= j)%Z -> grows (filesUntil t messages i) (filesUntil t messages j).
Proof.
  intros H. replace j with (i + Z.of_nat (Z.to_nat (j - i)))%Z by lia. generalize (Z.to_nat (j - i)). intros n.
  induction n as [|n IH]; [rewrite Z.add_0_r; apply grows_refl|].
  eapply grows_trans; [exact IH|].
  destruct (decide (0 <= i + Z.of_nat (S n))%Z) as [Hp|Hp].
  - replace (i + Z.of_nat n)%Z with (i + Z.of_nat (S n) - 1)%Z by lia. by apply filesUntil_step.
  - rewrite !filesUntil_neg by lia. apply grows_refl.
Qed.

Lemma filesUntil_nodup messages index : NoDup (map fst (filesUntil t messages index)).
Proof.
  destruct (decide (-1 <= index)%Z).
  - apply (filesUntil_grows messages (-1) index); [done|]. rewrite filesUntil_neg by lia. constructor.
  - rewrite filesUntil_neg by lia. constructor.
Qed.
End thread.

(** C26: replaying a conversation never loses a file: the names known after a
    later message start with the names known after an earlier one, in the same
    order, each name once; so a card that was shown keeps its place. *)
Theorem filesUntil_keeps_files t messages i j : (i <= j)%Z ->
  map fst (filesUntil t messages i) `prefix_of` map fst (filesUntil t messages j)
  /\ NoDup (map fst (filesUntil t messages j)).
Proof. intros H. split; [by apply filesUntil_grows|apply filesUntil_nodup]. Qed.
Theorem filesUntil_keeps_files_witness :
  let m1 := plain_msg Assistant (u "`a.py` :
```python
x
```") in
  let m2 := plain_msg Assistant (u "`b.py` :
```python
y
```") in
  map fst (filesUntil (fun s => s) [m1; m2] 0) `prefix_of` map fst (filesUntil (fun s => s) [m1; m2] 1)
  /\ map fst (filesUntil (fun s => s) [m1; m2] 1) = [u "a.py"; u "b.py"].
Proof.
  split; [apply filesUntil_keeps_files; lia|vm_compute; reflexivity].
Defined.

(** ** Edits *)

Lemma edit_key_known files file key : edit_key files file = Some key -> is_Some (assoc_get key files).
Proof.
  unfold edit_key. destruct (bool_decide (is_Some (assoc_get file files)) && _) eqn:E.
  - intros [= <-]. bool_norm. done.
  - destruct (find _ (map fst files)) as [k|] eqn:F; [|done]. apply find_some in F as [F _].
    apply list_elem_of_In, assoc_get_keys in F. by destruct k; [|intros [= <-]].
Qed.

Lemma grows_known a b k : grows a b -> is_Some (assoc_get k a) -> is_Some (assoc_get k b).
Proof. intros [[r H] _]. rewrite !assoc_get_keys, H, elem_of_app. auto. Qed.

Definition outcome_ok (after : Files) (o : option (list (jstr * Artifact) * list jstr)) : Prop :=
  exists touches failures, o = Some (touches, failures) /\
    Forall (fun e => exists f, assoc_get e.1 after = Some f /\ e.2 = Code e.1 (fs_lang f) (fs_content f)) touches.

Lemma edit_outcome_ok before after st e : grows before after -> outcome_ok after st -> outcome_ok after (edit_outcome before after st e).
Proof.
  intros Hg (touches & failures & -> & H). unfold edit_outcome. cbn [mbind option_bind].
  destruct (edit_key before (e_file e)) as [key|] eqn:EK; [|by exists touches; eexists].
  apply edit_key_known in EK as HK. destruct HK as [b Hb]. rewrite Hb. cbn [mbind option_bind].
  destruct (negb _); [by exists touches; eexists|].
  destruct (grows_known _ _ key Hg) as [f Hf]; [by eexists|]. rewrite Hf. cbn [mbind option_bind].
  eexists _, _. split; [done|].
  apply (assoc_set_Forall (fun k a => exists f, assoc_get k after = Some f /\ a = Code k (fs_lang f) (fs_content f))); [by eexists|done].
Qed.

(** [applyEdits] never reads a file that is not there (the non-null
    assertions of the source hold on every thread), and the files it returns
    are the files as they are after the message. *)
Theorem applyEdits_defined t messages index :
  exists files failures, applyEdits t messages index = Some (files, failures)
    /\ Forall (fun a => exists f, assoc_get (a_title a) (filesUntil t messages index) = Some f
                          /\ a = Code (a_title a) (fs_lang f) (fs_content f)) files.
Proof.
  unfold applyEdits. destruct (parseEdits (text_at messages index)) as [|e es]; [by exists [], []|].
  assert (H : outcome_ok (filesUntil t messages index)
    (foldl (edit_outcome (filesUntil t messages (index - 1)) (filesUntil t messages index)) (Some ([], [])) (e :: es))).
  { apply (foldl_inv (outcome_ok _)); [exists [], []; by split|].
    intros. apply edit_outcome_ok; [apply filesUntil_grows; lia|done]. }
  destruct H as (touches & failures & -> & H). cbn [mbind option_bind].
  exists (map snd touches), failures. split; [done|]. apply Forall_map. eapply Forall_impl; [exact H|].
  intros [k a] (f & Hf & Ha). cbn [fst snd] in *. subst a. exists f. done.
Qed.

(** A replacement text is a template of [String.prototype.replace]: the
    old edit blocks put it into the file as it is only when it holds no
    dollar sign.  Here [$&] in the replacement inserts the replaced text
    again. *)
Theorem edit_replacement_is_template :
  let files := [(u "a.sh", mkFileState (u "cost=1") (u "bash"))] in
  fs_content <$> assoc_get (u "a.sh") (apply_edit files (mkFileEdit (u "a.sh") (u "cost=1") (u "cost='$&'")))
  = Some (u "cost='cost=1'").
Proof. vm_compute. reflexivity. Qed.

(** C37: an edit without a dollar sign in its replacement changes one file:
    the first occurrence of its anchor becomes the replacement, everything
    around it and every other file stays. *)
Theorem apply_edit_exact files e key f :
  edit_key files (e_file e) = Some key -> assoc_get key files = Some f ->
  includes (fs_content f) (e_find e) = true -> 36%N ∉ e_replace e ->
  exists i, index_from (e_find e) (fs_content f) = Some i
    /\ fs_content f = take i (fs_content f) ++ e_find e ++ drop (i + length (e_find e)) (fs_content f)
    /\ assoc_get key (apply_edit files e)
       = Some (mkFileState (take i (fs_content f) ++ e_replace e ++ drop (i + length (e_find e)) (fs_content f)) (fs_lang f))
    /\ (forall k, k <> key -> assoc_get k (apply_edit files e) = assoc_get k files).
Proof.
  intros HK HF HI HD. unfold apply_edit. rewrite HK, HF, HI. unfold replace_str.
  unfold includes in HI. apply bool_decide_eq_true in HI as [i Hi]. exists i. rewrite Hi.
  split; [done|]. split; [by apply index_from_Some in Hi as [H1 _]|].
  rewrite expand_plain by done. split; [apply assoc_set_same|]. intros k Hk. by apply assoc_set_other.
Qed.
Theorem apply_edit_exact_witness :
  let files := [(u "x/a.js", mkFileState (u "a=1; b=1") (u "js"))] in
  let e := mkFileEdit (u "a.js") (u "=1") (u "=2") in
  exists i, index_from (u "=1") (u "a=1; b=1") = Some i /\
  assoc_get (u "x/a.js") (apply_edit files e)
    = Some (mkFileState (take i (u "a=1; b=1") ++ u "=2" ++ drop (i + 2) (u "a=1; b=1")) (u "js")).
Proof.
  destruct (apply_edit_exact [(u "x/a.js", mkFileState (u "a=1; b=1") (u "js"))]
              (mkFileEdit (u "a.js") (u "=1") (u "=2")) (u "x/a.js") (mkFileState (u "a=1; b=1") (u "js")))
    as (i & H1 & _ & H2 & _).
  - vm_compute. reflexivity.
  - vm_compute. reflexivity.
  - vm_compute. reflexivity.
  - apply (bool_decide_unpack _). vm_compute. exact I.
  - exists i. split; [exact H1|exact H2].
Defined.

(** ** Versions *)

Lemma add_version_lookup i out kf name :
  assoc_get name (add_version i out kf) =
  if streq name kf.1 then
    if bool_decide (v_content <$> last (default [] (assoc_get kf.1 out)) = Some (fs_content kf.2)) then assoc_get name out
    else Some (default [] (assoc_get kf.1 out) ++ [mkVersion i (fs_content kf.2) (fs_lang kf.2)])
  else assoc_get name out.
Proof.
  unfold add_version. destruct (streq_spec name kf.1) as [->|Hn].
  - destruct (bool_decide _); [done|]. apply assoc_set_same.
  - destruct (bool_decide _); [done|]. by apply assoc_set_other.
Qed.

Lemma observe_fold_lookup i (files : Files) out name : NoDup (map fst files) ->
  assoc_get name (foldl (add_version i) out files) =
  match assoc_get name files with
  | None => assoc_get name out
  | Some f =>
      if bool_decide (v_content <$> last (default [] (assoc_get name out)) = Some (fs_content f)) then assoc_get name out
      else Some (default [] (assoc_get name out) ++ [mkVersion i (fs_content f) (fs_lang f)])
  end.
Proof.
  revert out. induction files as [|[k f] r IH]; intros out H; [done|]. cbn [map fst] in H.
  apply NoDup_cons in H as [H1 H2]. cbn [foldl assoc_get]. rewrite IH by done.
  rewrite !add_version_lookup. cbn [fst snd]. destruct (streq_spec name k) as [->|Hn]; [|done].
  destruct (assoc_get k r) as [g|] eqn:E; [|done]. exfalso. apply H1, assoc_get_keys. by eexists.
Qed.

Definition last_files (sts : list ThreadState) : Files :=
  match last sts with Some s => t_files s | None => [] end.
Definition history (sts : list ThreadState) : list (jstr * list FileVersion) :=
  foldl observe [] (zip (seq 0 (length sts)) sts).

Lemma history_snoc sts s : history (sts ++ [s]) = observe (history sts) (length sts, s).
Proof.
  unfold history. rewrite length_app, Nat.add_1_r, seq_S. rewrite zip_with_app by (by rewrite length_seq).
  rewrite foldl_app. done.
Qed.

(** States that follow one another. *)
Definition chained (sts : list ThreadState) : Prop :=
  forall a s b, sts = a ++ s :: b -> NoDup (map fst (t_files s)) /\ grows (last_files a) (t_files s).

(** The versions of one file: the last one is the present content; indices
    grow and contents change from one to the next; each was the file's content
    after the message it names. *)
Definition versions_of (sts : list ThreadState) (name : jstr) (f : FileState) (vs : list FileVersion) : Prop :=
  v_content <$> last vs = Some (fs_content f)
  /\ (forall j v w, vs !! j = Some v -> vs !! S j = Some w -> v_index v < v_index w /\ v_content v <> v_content w)
  /\ Forall (fun v => exists s g, sts !! v_index v = Some s /\ assoc_get name (t_files s) = Some g
                        /\ v_content v = fs_content g /\ v_lang v = fs_lang g) vs.

Lemma versions_of_snoc sts s name f vs :
  versions_of sts name f vs -> versions_of (sts ++ [s]) name f vs.
Proof.
  intros (H1 & H2 & H3). split; [done|]. split; [done|]. eapply Forall_impl; [exact H3|].
  intros v (s' & g & Hs & Hg). exists s', g. split; [|done]. rewrite lookup_app_l; [done|]. by eapply lookup_lt_Some.
Qed.

Lemma versions_add sts s name f vs g :
  versions_of sts name f vs -> assoc_get name (t_files s) = Some g -> fs_content f <> fs_content g ->
  versions_of (sts ++ [s]) name g (vs ++ [mkVersion (length sts) (fs_content g) (fs_lang g)]).
Proof.
  intros HV Hg Hne. apply (versions_of_snoc _ s) in HV as HV'. destruct HV as (H1 & H2 & H3), HV' as (_ & _ & H3').
  split; [by rewrite last_snoc|]. split.
  - intros j v w Hv Hw. destruct (decide (S j < length vs)) as [Hl|Hl].
    + rewrite lookup_app_l in Hv by lia. rewrite lookup_app_l in Hw by lia. by eapply H2.
    + apply lookup_lt_Some in Hw as Hw'. rewrite length_app in Hw'. simpl in Hw'. assert (Hj : S j = length vs) by lia.
      rewrite Hj in Hw. rewrite lookup_app_r in Hw by lia. rewrite Nat.sub_diag in Hw. injection Hw as <-.
      rewrite lookup_app_l in Hv by lia. cbn [v_index v_content].
      assert (HL : last vs = Some v) by (rewrite last_lookup, <- Hj; exact Hv).
      rewrite HL in H1. cbn in H1. injection H1 as H1. split; [|congruence].
      rewrite Forall_lookup in H3. destruct (H3 _ _ Hv) as (s' & ? & Hs & _). by eapply lookup_lt_Some.
  - apply Forall_app. split; [done|]. constructor; [|constructor]. exists s, g. cbn [v_index v_content v_lang].
    rewrite lookup_app_r, Nat.sub_diag by lia. done.
Qed.

Lemma history_spec sts name : chained sts ->
  match assoc_get name (last_files sts) with
  | None => assoc_get name (history sts) = None
  | Some f => exists vs, assoc_get name (history sts) = Some vs /\ versions_of sts name f vs
  end.
Proof.
  induction sts as [|s sts IH] using rev_ind; intros HC; [done|].
  assert (HC' : chained sts).
  { intros a x b ->. apply (HC a x (b ++ [s])). by rewrite <- app_assoc. }
  specialize (IH HC'). destruct (HC sts s []) as [HN HG]; [done|].
  unfold last_files at 1. rewrite last_snoc, history_snoc. unfold observe. cbn [fst snd].
  rewrite observe_fold_lookup by done.
  destruct (assoc_get name (last_files sts)) as [f|] eqn:EF.
  - destruct (grows_known _ _ name HG) as [g Hg]; [by eexists|]. rewrite Hg.
    destruct IH as (vs & Hvs & HV). rewrite Hvs.
    destruct HV as (H1 & H2 & H3). change (default [] (Some vs)) with vs. rewrite H1.
    destruct (bool_decide _) eqn:EB.
    + bool_norm. injection EB as EB. exists vs. split; [done|].
      assert (HV : versions_of sts name g vs) by (split; [by rewrite H1, EB|done]).
      exact (versions_of_snoc _ _ _ _ _ HV).
    + bool_norm. eexists. split; [done|]. eapply versions_add; [by split|done|]. intros E. apply EB. by rewrite E.
  - rewrite IH. destruct (assoc_get name (t_files s)) as [g|] eqn:EG; [|done].
    cbn. eexists. split; [done|]. split; [done|]. split.
    + intros [|j] v w Hv Hw; done.
    + constructor; [|constructor]. exists s, g. cbn [v_index v_content v_lang].
      rewrite lookup_app_r, Nat.sub_diag by lia. done.
Qed.

Lemma states_chained t prev st ms : NoDup (map fst (t_files st)) ->
  forall a s b, states t prev st ms = a ++ s :: b ->
    NoDup (map fst (t_files s)) /\ grows (match last a with Some x => t_files x | None => t_files st end) (t_files s).
Proof.
  revert prev st. induction ms as [|m ms IH]; intros prev st HN a s b; [by destruct a|].
  cbn [states]. assert (HN' : NoDup (map fst (t_files (turn t prev st m)))) by (by apply turn_grows).
  destruct a as [|x a]; cbn [app].
  - intros [= <- <-]. split; [done|]. apply turn_grows.
  - intros [= <- H]. destruct (IH _ _ HN' _ _ _ H) as [H1 H2]. split; [done|].
    rewrite last_cons. by destruct (last a).
Qed.

(** [fileVersions] is the history of each file: a file has versions
    exactly when the conversation knows it; the last version is its present
    content; the message indices grow and two versions in a row differ; and
    each version was the file's content after the message it names. *)
Theorem fileVersions_history t messages name :
  let last_index := (Z.of_nat (length messages) - 1)%Z in
  match assoc_get name (filesUntil t messages last_index) with
  | None => assoc_get name (fileVersions t messages) = None
  | Some f => exists vs, assoc_get name (fileVersions t messages) = Some vs
                /\ versions_of (states_until t messages last_index) name f vs
  end.
Proof.
  intros last_index. unfold fileVersions. fold last_index. cbv zeta.
  apply (history_spec (states_until t messages last_index) name).
  intros a s b H. apply (states_chained t None (mkT [] None) (take (Z.to_nat (last_index + 1)) messages)) with (b := b); [constructor|exact H].
Qed.

(** ** The server's versions *)

Lemma tool_edits_get files fs name :
  (forall f, f ∈ fs -> ef_name f <> name) ->
  assoc_get name (foldl apply_tool_edit files fs) = assoc_get name files.
Proof.
  revert files. induction fs as [|f fs IH]; intros files H; [done|]. cbn [foldl].
  rewrite IH by (intros g Hg; apply H; by right). unfold apply_tool_edit. apply assoc_set_other.
  intros E. apply (H f); [by left|done].
Qed.

(** The versions written by the platform's edit tools win: after a message
    that is not glued onto an unfinished file, each file its tools edited has
    the content of its last tool edit, whatever blocks and edits the text
    holds. *)
Theorem tool_edits_win t st request m pre f post :
  fileEdits m = pre ++ f :: post -> (forall g, g ∈ post -> ef_name g <> ef_name f) ->
  fs_content <$> assoc_get (ef_name f) (t_files (plain_turn t st request m)) = Some (ef_content f).
Proof.
  intros H1 H2. unfold plain_turn. cbn [t_files]. rewrite H1, foldl_app. cbn [foldl].
  rewrite tool_edits_get by done. unfold apply_tool_edit. by rewrite assoc_set_same.
Qed.
Theorem tool_edits_win_witness :
  let m := mkMsg Assistant (u "`a.py` :
```python
old
```") false false false false None [] [mkEdited (u "a.py") (u "v1"); mkEdited (u "a.py") (u "v2")] None in
  fs_content <$> assoc_get (u "a.py") (t_files (plain_turn (fun s => s) (mkT [] None) [] m)) = Some (u "v2").
Proof.
  apply (tool_edits_win (fun s => s) (mkT [] None) []
    (mkMsg Assistant (u "`a.py` :
```python
old
```") false false false false None [] [mkEdited (u "a.py") (u "v1"); mkEdited (u "a.py") (u "v2")] None)
    [mkEdited (u "a.py") (u "v1")] (mkEdited (u "a.py") (u "v2")) []); [reflexivity|].
  intros g Hg. by apply elem_of_nil in Hg.
Defined.

(** ** Layout of a message *)

Definition seg_file (s : Segment) : option nat := match s with SFile n => Some n | SText _ => None end.

Definition layout_ok (content : jstr) (arts : list Artifact) (segs : list Segment) : Prop :=
  omap seg_file segs = seq 0 (length arts) /\ Forall (fun a => infix (a_content a) content) arts.

Lemma artifact_step_layout t content known st m :
  is_match re_fence_block content m -> layout_ok content (p_artifacts st) (p_segments st) ->
  layout_ok content (p_artifacts (artifact_step t content known st m)) (p_segments (artifact_step t content known st m)).
Proof.
  intros Hm [H1 H2]. unfold artifact_step. cbv zeta.
  destruct (_ || isQuestionsBlock _ _); [by split|].
  destruct (_ && isExcerptOf _ _ _ _); [by split|].
  match goal with |- context [let '(title, asked) := ?x in _] => destruct x as [title asked] end.
  destruct (negb _); [by split|]. cbn [p_artifacts p_segments]. split.
  - rewrite omap_app, H1, length_app. cbn [omap list_omap seg_file length]. rewrite Nat.add_1_r, seq_S. done.
  - apply Forall_app. split; [done|]. constructor; [|constructor]. cbn [a_content].
    destruct (strip_last_lf_prefix (cap0 m 2)) as [n ->].
    eapply infix_trans; [apply infix_take|by eapply cap0_infix].
Qed.

Lemma trim_infix s : infix (trim s) s.
Proof.
  destruct (trim_start_suffix s) as [k H]. destruct (trim_end_prefix (trim_start s)) as [k' H'].
  exists k, k'. unfold trim. rewrite <- H'. exact H.
Qed.

(** [parseArtifacts] lays a message out faithfully: the cards of its
    segments are the artifacts, each once and in order, and the content of
    every artifact is a piece of the message. *)
Theorem parseArtifacts_layout t content allowDoc request known :
  let r := parseArtifacts t content allowDoc request known in
  omap seg_file (r_segments r) = seq 0 (length (r_artifacts r))
  /\ Forall (fun a => infix (a_content a) content) (r_artifacts r).
Proof.
  cbv zeta. unfold parseArtifacts. cbv zeta. destruct (_ && _ && _).
  { split; [done|]. constructor; [apply trim_infix|constructor]. }
  set (st := foldl _ _ _).
  assert (HL : layout_ok content (p_artifacts st) (p_segments st)).
  { subst st. apply (foldl_inv (fun s => layout_ok content (p_artifacts s) (p_segments s))); [by split; [|constructor]|].
    intros s m Hm HS. apply artifact_step_layout; [by apply match_all_sound|done]. }
  destruct HL as [H1 H2].
  assert (HN : omap seg_file (p_segments st ++ [SText (drop (p_lastIndex st) content)]) = seq 0 (length (p_artifacts st)))
    by (rewrite omap_app, H1; apply app_nil_r).
  destruct (p_artifacts st) as [|a arts] eqn:EA; [|by split].
  destruct (exec re_whole_html content) as [html|] eqn:EH; [|by split].
  destruct (200 <=? length (m_text html)); [|by split]. split; [done|].
  constructor; [|constructor]. cbn [a_content]. apply exec_sound in EH as (_ & _ & -> & _). apply infix_slice.
Qed.
