(* ===== verification/Api.v ===== *)
(** * The API client (lib/api.ts)

    The network is an argument: what [fetch] and the body reads return.  The
    callbacks of the streams are modelled by the list of their calls, in
    order; a callback is taken not to throw. *)

From S2P Require Import JsJson Utf8.

(** ** Responses and errors *)

(** A body being read: the chunks, then its end or a failed read. *)
Record Stream := mkStream { chunks : list (list N); fails : bool }.
Record Response := mkResponse {
  status : Z;
  r_body : option Stream;
  r_json : option json   (* what [res.json()] gives; [None] when it rejects *)
}.
Definition res_ok (r : Response) : bool := ((200 <=? status r) && (status r <=? 299))%Z.

Inductive Err :=
| NotAuthenticated                               (* and the browser goes to /login *)
| ForbiddenError (url : jstr)
| HttpError (status : Z)                         (* « Erreur … » *)
| Failure (message : json) (code : option json)
| TypeError
| NetworkError.

(** What [fetch] settles to. *)
Inductive Fetched := Rejected | Got (r : Response).

Definition authFetch (f : Fetched) : Err + Response :=
  match f with
  | Rejected => inl NetworkError
  | Got res => if (status res =? 401)%Z then inl NotAuthenticated else inr res
  end.

(** [o?.k] *)
Definition opt_prop (k : jstr) (o : option json) : option json :=
  match o with Some v => prop k v | None => None end.

(** A member that is a text and not empty. *)
Definition text_of (k : jstr) (r : json) : option jstr :=
  match prop k r with Some (JStr ((_ :: _) as s)) => Some s | _ => None end.

(** [res.json()] *)
Definition json_of (res : Response) : Err + json :=
  match r_json res with Some v => inr v | None => inl TypeError end.

Definition getJSON (url : jstr) (f : Fetched) : Err + json :=
  match authFetch f with
  | inl e => inl e
  | inr res =>
      if (status res =? 403)%Z then inl (ForbiddenError url)
      else if negb (res_ok res) then
        let body := r_json res in
        let message := match opt_prop (u "error") body with
                       | Some v => if truthy v then v else JStr (u "Échec du chargement (" ++ url ++ u ").")
                       | None => JStr (u "Échec du chargement (" ++ url ++ u ").")
                       end in
        inl (Failure message (match opt_prop (u "code") body with
                              | Some c => if truthy c then Some c else None
                              | None => None
                              end))
      else json_of res
  end.

Definition sendJSON (url : jstr) (f : Fetched) : Err + json :=
  match authFetch f with
  | inl e => inl e
  | inr res => if (status res =? 403)%Z then inl (ForbiddenError url)
               else inr (default (JObj []) (r_json res))
  end.

Record Verdict := mkVerdict { v_ok : bool; v_error : option json; v_code : option json }.

(** [postForm] returns the response of [authFetch]; its exceptions, the
    redirection to /login included, end in the [catch]. *)
Definition postFormChecked (f : Fetched) : Verdict :=
  match authFetch f with
  | inl _ => mkVerdict false (Some (JStr (u "Le serveur n'a pas répondu — réessaie."))) None
  | inr res =>
      let body := r_json res in
      let refused := mkVerdict false (opt_prop (u "error") body) (opt_prop (u "code") body) in
      if negb (res_ok res) then refused
      else match opt_prop (u "ok") body with
           | Some (JBool false) => refused
           | _ => mkVerdict true None None
           end
  end.

Definition postFormJSON (f : Fetched) : Err + json :=
  match authFetch f with inl e => inl e | inr res => json_of res end.
(** The same of a form with files. *)
Definition postFormData (f : Fetched) : Err + json :=
  match authFetch f with inl e => inl e | inr res => json_of res end.
(** The confirmation of a sensitive action and the vote on an answer: what is sent,
    and what is made of the answer. *)
Definition confirm_body (token : jstr) (cancel : bool) : json := JObj [(u "token", JStr token); (u "cancel", JBool cancel)].
Definition confirmSupportAction (f : Fetched) : Err + json := sendJSON (u "/support/confirm") f.
Definition optional (k : jstr) (o : option jstr) : list (jstr * json) := match o with Some s => [(k, JStr s)] | None => [] end.
Definition feedback_body (up : bool) (comment question answer model : option jstr) : json :=
  JObj ([(u "vote", if up then JNum 1 0 else JNum (-1) 0)] ++ optional (u "comment") comment ++ optional (u "question") question
        ++ optional (u "answer") answer ++ optional (u "model") model).
Definition sendSupportFeedback (f : Fetched) : Err + json := sendJSON (u "/support/feedback") f.

Definition fetchCsrfToken (f : Fetched) : Err + option json :=
  match authFetch f with
  | inl e => inl e
  | inr res =>
      if negb (res_ok res) then inl (Failure (JStr (u "Impossible de récupérer le jeton CSRF.")) None)
      else match json_of res with
           | inl e => inl e
           | inr JNull => inl TypeError
           | inr data => inr (prop (u "token") data)
           end
  end.

Definition fetchPlaygroundData (f : Fetched) : Err + json :=
  match authFetch f with
  | inl e => inl e
  | inr res => if negb (res_ok res)
               then inl (Failure (JStr (u "Impossible de charger les modèles disponibles.")) None)
               else json_of res
  end.

(** ** Server-sent events *)

Definition BLANK : jstr := [LF; LF].
Definition DATA : jstr := u "data:".
Definition DONE : jstr := u "[DONE]".

(** The packet between two blank lines: its first [data:] line, parsed. *)
Definition packet (part : jstr) : option json :=
  match find (fun l => starts_with l DATA) (split_lf part) with
  | None => None
  | Some line =>
      let payload := trim (drop 5 line) in
      if streq payload DONE then None else json_parse payload
  end.

Record Sse := mkSse { buffer : jstr; decoder : Decoder }.
Definition sse_start : Sse := mkSse [] decoder_new.

(** One round of the loop: the packets of a chunk. *)
Definition feed (st : Sse) (chunk : list N) : Sse * list json :=
  let '(dec, text) := decode_stream (decoder st) chunk in
  let parts := split_on BLANK (buffer st ++ text) in
  (mkSse (default [] (last parts)) dec, omap packet (removelast parts)).

Fixpoint feed_all (st : Sse) (cs : list (list N)) : Sse * list json :=
  match cs with
  | [] => (st, [])
  | c :: r =>
      let '(st1, e1) := feed st c in
      let '(st2, e2) := feed_all st1 r in (st2, e1 ++ e2)
  end.

(** The packets handed to [onEvent], and how the function ends. *)
Definition readSSE (res : Response) : list json * option Err :=
  if negb (res_ok res) then ([], Some (HttpError (status res)))
  else match r_body res with
       | None => ([], None)
       | Some s => ((feed_all sse_start (chunks s)).2, if fails s then Some NetworkError else None)
       end.

(** ** What each screen receives *)

Inductive Delta :=
| Usage (v : json) | Truncated | WebStepD (v : json) | NoticeD (v : json) | FileEditD (v : json)
| QueueD (v : json) | ReasoningChunk (v : json) | ContentChunk (v : json).

(** [o?.[0]] *)
Definition first_item (o : option json) : option json :=
  match o with
  | Some (JArr l) => head l
  | Some (JObj kv) => assoc_get (u "0") kv
  | Some (JStr (c :: _)) => Some (JStr [c])
  | _ => None
  end.
(** [if (v) call(v)] *)
Definition when {A} (v : option json) (call : json -> A) : list A :=
  match v with Some j => if truthy j then [call j] else [] | None => [] end.

(** The callback of [streamChat]; reading a property of [null] throws, and the
    exception is swallowed with the packet. *)
Definition on_chat (j : json) : list Delta :=
  match j with
  | JNull => []
  | _ =>
      let choice := first_item (prop (u "choices") j) in
      let delta := opt_prop (u "delta") choice in
      when (prop (u "usage") j) Usage
      ++ match opt_prop (u "finish_reason") choice with
         | Some (JStr r) => if streq r (u "length") then [Truncated] else []
         | _ => []
         end
      ++ when (prop (u "dgx_web") j) WebStepD
      ++ when (prop (u "dgx_notice") j) NoticeD
      ++ when (prop (u "dgx_file") j) FileEditD
      ++ when (prop (u "dgx_queue") j) QueueD
      ++ when (opt_prop (u "reasoning_content") delta) ReasoningChunk
      ++ when (opt_prop (u "content") delta) ContentChunk
  end.

Definition on_ocr (j : json) : list json :=
  when (opt_prop (u "content") (opt_prop (u "delta") (first_item (prop (u "choices") j)))) id.

Inductive SupportEvent :=
| SReasoning (v : json) | SChunk (v : json) | SToolCall (v : json) | SNotice (v : json) | SConfirm (v : json).

(** With every optional callback present. *)
Definition on_support (j : json) : list SupportEvent :=
  let delta := opt_prop (u "delta") (first_item (prop (u "choices") j)) in
  when (opt_prop (u "reasoning_content") delta) SReasoning
  ++ when (opt_prop (u "content") delta) SChunk
  ++ when (prop (u "tool_call") j) SToolCall
  ++ when (prop (u "dgx_notice") j) SNotice
  ++ when (prop (u "dgx_confirm") j) SConfirm.

Definition stream {A} (on : json -> list A) (f : Fetched) : list A * option Err :=
  match authFetch f with
  | inl e => ([], Some e)
  | inr res => let '(events, err) := readSSE res in (flat_map on events, err)
  end.
Definition streamChat (f : Fetched) : list Delta * option Err := stream on_chat f.
Definition streamOcr (f : Fetched) : list json * option Err := stream on_ocr f.
Definition streamSupportChat (f : Fetched) : list SupportEvent * option Err := stream on_support f.

(** The request of [streamChat]; a member that is [undefined] is left out by
    [JSON.stringify]. *)
Inductive Reasoning := RTrue | RFalse | RAuto.
Record Settings := mkSettings {
  system : jstr; temperature : json; maxTokens : json; topP : json;
  reasoning_ : Reasoning; reasoningEffort : jstr
}.
Definition chat_body (model : jstr) (messages : json) (s : Settings) (files : list json) (skill : jstr)
  : list (jstr * json) :=
  [(u "model", JStr model); (u "messages", messages); (u "system", JStr (system s));
   (u "temperature", temperature s); (u "max_tokens", maxTokens s); (u "top_p", topP s);
   (u "reasoning", match reasoning_ s with RTrue => JBool true | RFalse => JBool false | RAuto => JStr (u "auto") end)]
  ++ match reasoningEffort s with [] => [] | e => [(u "reasoning_effort", JStr e)] end
  ++ match files with [] => [] | _ => [(u "files", JArr files)] end
  ++ match skill with [] => [] | k => [(u "skill", JStr k)] end.

(** ** Chunks do not matter *)

Lemma index_from_app pat s t i : index_from pat s = Some i -> index_from pat (s ++ t) = Some i.
Proof.
  revert i. induction s as [|c s IH]; intros i; cbn [index_from app].
  - destruct (is_prefix pat []) eqn:E; [|done]. intros [= <-].
    destruct pat; [|done]. destruct t; done.
  - change (c :: s ++ t) with ((c :: s) ++ t). destruct (is_prefix pat (c :: s)) eqn:E.
    + intros [= <-]. by rewrite is_prefix_mono.
    + destruct (index_from pat s) as [k|] eqn:F; [|done]. intros [= <-].
      assert (HL : length pat <= length (c :: s)) by (apply index_from_le in F; simpl; lia).
      rewrite is_prefix_long, E by done. by rewrite (IH _ eq_refl).
Qed.

(** Cutting a text in two places does not change its pieces: the last piece of
    the first part is carried over. *)
Lemma split_on_carry sep x y : sep <> [] ->
  split_on sep (x ++ y) = removelast (split_on sep x) ++ split_on sep (default [] (last (split_on sep x)) ++ y).
Proof.
  intros Hs. remember (length x) as n eqn:Hn. revert x Hn. induction n as [n IH] using lt_wf_ind. intros x Hn.
  rewrite (split_on_index sep x) by done. destruct (index_from sep x) as [i|] eqn:E; [|done].
  rewrite (split_on_index sep (x ++ y)) by done. rewrite (index_from_app _ _ _ _ E).
  pose proof (index_from_le _ _ _ E) as HL.
  assert (HP : 0 < length sep) by (destruct sep; simpl; [done|lia]).
  rewrite take_app_le by lia. rewrite drop_app_le by lia.
  rewrite (IH (length (drop (i + length sep) x))); [|rewrite length_drop; lia|done].
  pose proof (split_on_nonnil sep (drop (i + length sep) x)).
  destruct (split_on sep (drop (i + length sep) x)) as [|a l] eqn:ES; [done|].
  cbn [removelast app]. f_equal.
Qed.

(** Splitting a piece again gives that piece. *)
Lemma last_piece_whole sep x : sep <> [] ->
  split_on sep (default [] (last (split_on sep x))) = [default [] (last (split_on sep x))].
Proof.
  intros Hs. remember (length x) as n eqn:Hn. revert x Hn. induction n as [n IH] using lt_wf_ind. intros x Hn.
  rewrite (split_on_index sep x) by done. destruct (index_from sep x) as [i|] eqn:E.
  - pose proof (index_from_le _ _ _ E) as HL.
    assert (HP : 0 < length sep) by (destruct sep; simpl; [done|lia]).
    assert (HT : forall l, l <> [] -> default [] (last (take i x :: l)) = default [] (last l))
      by (intros [|a l] Hl; [done|]; by rewrite last_cons, last_cons; destruct (last l)).
    rewrite HT by apply split_on_nonnil. apply (IH (length (drop (i + length sep) x))); [rewrite length_drop; lia|done].
  - change (default [] (last [x])) with x. rewrite (split_on_index sep x) by done. by rewrite E.
Qed.

Lemma removelast_app_nonnil {A} (a b : list A) : b <> [] -> removelast (a ++ b) = a ++ removelast b.
Proof. intros H. by apply removelast_app. Qed.
Lemma last_app_nonnil {A} (a b : list A) : b <> [] -> last (a ++ b) = last b.
Proof.
  intros H. destruct b as [|x b] using rev_ind; [done|]. by rewrite app_assoc, !last_snoc.
Qed.

(** One chunk in two halves. *)
Lemma feed_split st c1 c2 :
  feed st (c1 ++ c2) = let '(st1, e1) := feed st c1 in let '(st2, e2) := feed st1 c2 in (st2, e1 ++ e2).
Proof.
  unfold feed. rewrite decode_stream_app. destruct (decode_stream (decoder st) c1) as [d1 t1]. cbn [decoder buffer].
  destruct (decode_stream d1 c2) as [d2 t2].
  rewrite app_assoc, (split_on_carry BLANK (buffer st ++ t1) t2) by done.
  rewrite last_app_nonnil by apply split_on_nonnil. rewrite removelast_app_nonnil by apply split_on_nonnil.
  by rewrite omap_app.
Qed.

(** The buffer never holds a blank line. *)
Definition clean (st : Sse) : Prop := split_on BLANK (buffer st) = [buffer st].
Lemma feed_clean st c : clean (feed st c).1.
Proof.
  unfold feed, clean. destruct (decode_stream (decoder st) c) as [d t]. cbn [fst buffer]. by apply last_piece_whole.
Qed.
Lemma feed_nil st : clean st -> feed st [] = (st, []).
Proof.
  intros H. unfold feed. cbn [decode_stream]. rewrite app_nil_r, H. cbn. by destruct st.
Qed.

Lemma feed_all_concat st cs : clean st -> feed_all st cs = feed st (concat cs).
Proof.
  revert st. induction cs as [|c cs IH]; intros st H; cbn [feed_all concat]; [by rewrite feed_nil|].
  rewrite feed_split. pose proof (feed_clean st c) as HC. destruct (feed st c) as [st1 e1].
  by rewrite IH.
Qed.
Lemma start_clean : clean sse_start.
Proof. reflexivity. Qed.

(** C27: how the network cuts a stream does not matter: two responses with the
    same status and the same bytes, cut into any chunks (inside a character, a
    line or the blank line that ends a packet), give [readSSE] the same packets
    in the same order. *)
Theorem readSSE_any_chunks s cs1 cs2 fails1 fails2 :
  concat cs1 = concat cs2 ->
  fst (readSSE (mkResponse s (Some (mkStream cs1 fails1)) None)) = fst (readSSE (mkResponse s (Some (mkStream cs2 fails2)) None)).
Proof.
  intros H. unfold readSSE. cbn [r_body chunks]. unfold res_ok. cbn [status].
  destruct (negb _); [done|]. cbn [fst]. by rewrite !feed_all_concat, H by apply start_clean.
Qed.
Theorem readSSE_any_chunks_witness :
  let bytes := utf8_encode (uq "data: {'é':1}

data: [DONE]

") in
  concat [take 9 bytes; drop 9 bytes] = concat [bytes]
  /\ fst (readSSE (mkResponse 200 (Some (mkStream [take 9 bytes; drop 9 bytes] false)) None))
     = fst (readSSE (mkResponse 200 (Some (mkStream [bytes] false)) None)).
Proof.
  split; [vm_compute; reflexivity|].
  apply (readSSE_any_chunks 200 _ _ false false). vm_compute. reflexivity.
Defined.

(** ** What the server writes is what is read *)

(** The frames a server sends. *)
Inductive Frame :=
| FData (payload : jstr)
| FDone
| FComment (text : jstr).
Definition frame_text (f : Frame) : jstr :=
  match f with
  | FData p => u "data: " ++ p
  | FDone => u "data: [DONE]"
  | FComment c => [58%N] ++ c
  end ++ BLANK.
Definition frame_packet (f : Frame) : option json :=
  match f with FData p => json_parse p | _ => None end.
(** One line; a payload neither starts nor ends with white space. *)
Definition frame_ok (f : Frame) : Prop :=
  match f with
  | FData p => LF ∉ p /\ trim p = p /\ p <> DONE
  | FDone => True
  | FComment c => LF ∉ c
  end.

Lemma split_blank_app l rest : LF ∉ l -> split_on BLANK (l ++ BLANK ++ rest) = l :: split_on BLANK rest.
Proof.
  intros H. rewrite split_on_index by done.
  assert (HI : index_from BLANK (l ++ BLANK ++ rest) = Some (length l)).
  { induction l as [|c l IH]; [done|]. rewrite not_elem_of_cons in H. destruct H as [H1 H2].
    cbn [app index_from]. unfold BLANK at 1. cbn [is_prefix].
    destruct (LF =? c)%N eqn:E; [apply N.eqb_eq in E; congruence|]. cbn [andb]. by rewrite IH. }
  rewrite HI, take_app_length. change (length BLANK) with 2. f_equal. f_equal.
  rewrite <- drop_drop, drop_app_length. done.
Qed.

Lemma frame_line f : frame_ok f -> exists l, frame_text f = l ++ BLANK /\ LF ∉ l /\ packet l = frame_packet f.
Proof.
  destruct f as [p| |c]; cbn [frame_text frame_ok frame_packet].
  - intros (H1 & H2 & H3). exists (u "data: " ++ p). split; [done|].
    assert (HL : LF ∉ u "data: " ++ p).
    { intros [H|H]%elem_of_app; [|done]. revert H. apply (bool_decide_unpack (_ ∉ _)). vm_compute. exact I. }
    split; [done|]. unfold packet, split_lf. rewrite split_on_single_none by done. cbn [find].
    change (starts_with (u "data: " ++ p) DATA) with true. cbn iota.
    change (drop 5 (u "data: " ++ p)) with (32%N :: p).
    assert (HT : trim (32%N :: p) = p) by exact H2.
    rewrite HT. unfold streq. by rewrite bool_decide_false.
  - intros _. exists (u "data: [DONE]"). split; [done|]. split; [|done].
    apply (bool_decide_unpack (_ ∉ _)). vm_compute. exact I.
  - intros H. exists (58%N :: c). split; [done|]. split; [by rewrite not_elem_of_cons|].
    unfold packet, split_lf. rewrite split_on_single_none by (by rewrite not_elem_of_cons). done.
Qed.

Lemma frames_packets fs : Forall frame_ok fs ->
  omap packet (removelast (split_on BLANK (concat (map frame_text fs)))) = omap frame_packet fs
  /\ default [] (last (split_on BLANK (concat (map frame_text fs)))) = [].
Proof.
  induction 1 as [|f fs Hf _ [IH1 IH2]]; [done|]. cbn [map concat].
  destruct (frame_line f Hf) as (l & H1 & H2 & H3). rewrite H1, <- app_assoc, split_blank_app by done.
  pose proof (split_on_nonnil BLANK (concat (map frame_text fs))) as HN.
  set (parts := split_on BLANK (concat (map frame_text fs))) in *.
  assert (HR : removelast (l :: parts) = l :: removelast parts) by (destruct parts; done).
  assert (HT : last (l :: parts) = last parts) by (destruct parts; done).
  rewrite HR, HT. split; [|done]. cbn [omap list_omap]. rewrite H3. destruct (frame_packet f); by rewrite <- IH1.
Qed.

(** What a server writes as frames is what the page reads: sent as UTF-8
    in any chunks, the JSON of the [data:] frames comes out in order, the
    comments (keep-alives) and [\[DONE\]] are skipped, and nothing is left in
    the buffer. *)
Theorem readSSE_frames fs cs :
  Forall frame_ok fs -> well_formed (concat (map frame_text fs)) ->
  hd 0%N (concat (map frame_text fs)) <> 65279%N ->
  concat cs = utf8_encode (concat (map frame_text fs)) ->
  fst (readSSE (mkResponse 200 (Some (mkStream cs false)) None)) = omap frame_packet fs
  /\ buffer (fst (feed_all sse_start cs)) = [].
Proof.
  intros HF HW HB HC. unfold readSSE. cbn [r_body chunks]. change (negb (res_ok _)) with false. cbn iota. cbn [fst].
  rewrite feed_all_concat by apply start_clean. rewrite HC. unfold feed. cbn [decoder buffer sse_start].
  destruct (decode_encode _ true HW (fun _ => HB)) as [HD _]. unfold decoder_new.
  destruct (decode_stream (dec0 true) _) as [d text]. cbn [snd] in HD. subst text. cbn [app fst snd buffer].
  apply frames_packets. done.
Qed.
Theorem readSSE_frames_witness :
  let fs := [FComment (u " ping"); FData (uq "{'a':1}"); FDone] in
  fst (readSSE (mkResponse 200 (Some (mkStream [utf8_encode (concat (map frame_text fs))] false)) None))
  = [JObj [(u "a", JNum 1 0)]].
Proof.
  assert (HN : forall s : jstr, bool_decide (LF ∉ s) = true -> LF ∉ s)
    by (intros s H; by apply bool_decide_eq_true in H).
  destruct (readSSE_frames [FComment (u " ping"); FData (uq "{'a':1}"); FDone]
    [utf8_encode (concat (map frame_text [FComment (u " ping"); FData (uq "{'a':1}"); FDone]))]) as [H _].
  - repeat constructor; cbn [frame_ok]; try (apply HN; vm_compute; reflexivity); try done; vm_compute; congruence.
  - exists (concat (map frame_text [FComment (u " ping"); FData (uq "{'a':1}"); FDone])). split.
    + apply Forall_forall. intros x Hx. left. revert x Hx. apply Forall_forall.
      apply (bool_decide_unpack _). vm_compute. exact I.
    + vm_compute. reflexivity.
  - vm_compute. discriminate.
  - cbn [concat]. by rewrite app_nil_r.
  - cbn zeta. rewrite H. vm_compute. reflexivity.
Defined.

(** ** Verdicts *)

(** [postFormChecked] reports a success only for a 2xx answer, and never
    one whose JSON says [ok: false]; it never throws. A refusal keeps the
    server's [error] and [code]. But a 2xx answer that is no JSON at all counts
    as a success, although the function announces the contrary. *)
Theorem postFormChecked_verdict f :
  let v := postFormChecked f in
  (v_ok v = true <->
   exists res, f = Got res /\ res_ok res = true /\ opt_prop (u "ok") (r_json res) <> Some (JBool false))
  /\ (forall res, f = Got res -> status res <> 401%Z -> v_ok v = false ->
        v_error v = opt_prop (u "error") (r_json res) /\ v_code v = opt_prop (u "code") (r_json res)).
Proof.
  cbv zeta. unfold postFormChecked, authFetch. destruct f as [|res].
  { split; [|done]. split; [done|by intros (? & [=] & _)]. }
  destruct (status res =? 401)%Z eqn:E4.
  { apply Z.eqb_eq in E4. split.
    - cbn [v_ok]. split; [done|]. intros (r & [= <-] & Hr & _). unfold res_ok in Hr. rewrite E4 in Hr. done.
    - intros r [= <-] Hn. done. }
  destruct (res_ok res) eqn:EO; cbn [negb].
  - split.
    + split; intros H.
      * exists res. split; [done|]. split; [done|]. intros E. rewrite E in H. done.
      * destruct H as (r & [= <-] & _ & Hn). destruct (opt_prop (u "ok") (r_json res)) as [[| [|] | | | |]|]; try done.
    + intros r [= <-] _. destruct (opt_prop (u "ok") (r_json res)) as [[| [|] | | | |]|]; try done.
  - split; [|by intros r [= <-]]. split; [done|]. intros (r & [= <-] & Hr & _). congruence.
Qed.

(** The page of a proxy or of a login redirection answered with 200 is
    reported as a success. *)
Theorem postFormChecked_html_is_ok :
  postFormChecked (Got (mkResponse 200 None None)) = mkVerdict true None None.
Proof. reflexivity. Qed.
