(* ===== verification/Gate.v ===== *)
(** * Routing and the session gate (lib/backend.ts, lib/session-gate.ts, proxy.ts)

    Which backend serves a path, whether a page is served, and the headers it
    is served with.  The environment variables, the prefix file, the session
    check and the random nonce are arguments. *)

From S2P Require Import JsRegExp.

Definition SEGMENT : jstr := u "/".

(** ** lib/backend.ts *)

Definition parsePrefixes (text : jstr) : list jstr :=
  List.filter (fun l => negb (streq l []) && negb (starts_with l (u "#"))) (map trim (split_lf text)).

(** [toUpperCase] on the ASCII letters: methods are HTTP tokens. *)
Definition upper_unit (c : N) : N := if ((97 <=? c) && (c <=? 122))%N then (c - 32)%N else c.
Definition to_upper (s : jstr) : jstr := map upper_unit s.

(** [want.every((seg, i) => seg === got[i] || (seg === "*" && got[i] !== ""))]
    for [got] at least as long as [want]. *)
Fixpoint segments_match (want got : list jstr) : bool :=
  match want, got with
  | [], _ => true
  | w :: want', g :: got' =>
      (streq w g || (streq w (u "*") && negb (streq g []))) && segments_match want' got'
  | _ :: _, [] => false
  end.

Definition strip_slash (p : jstr) : jstr := replace_first (rx "\/$" "") [] p.

Definition entry_covers (entry pathname method : jstr) : bool :=
  let '(only, p) :=
    if includes entry (u " ")
    then match split_re (rx "\s+" "") entry with a :: b :: _ => (a, b) | [a] => (a, []) | [] => ([], []) end
    else ([], entry) in
  if negb (streq only []) && negb (streq (to_upper only) (to_upper method)) then false
  else
    let exact := ends_with p (u "$") in
    let want := split_on SEGMENT (strip_slash (if exact then take (length p - 1) p else p)) in
    let got := split_on SEGMENT pathname in
    if (if exact then negb (length got =? length want) else length got <? length want) then false
    else segments_match want got.

Definition routeBackend (pathname rustUrl : jstr) (prefixes : list jstr) (flaskUrl method : jstr) : jstr :=
  if streq rustUrl [] then flaskUrl
  else if existsb (fun entry => entry_covers entry pathname method) prefixes then rustUrl else flaskUrl.

(** The module's constants, read once at start: the prefix file is [None] when
    it cannot be read. *)
Record Config := mkConfig { flask_url : jstr; rust_url : jstr; prefix_file : option jstr }.
Definition config_of (backend_url port dgx_rust_url : option jstr) (file : option jstr) : Config :=
  let nonempty (o : option jstr) := match o with Some [] => None | r => r end in
  mkConfig (default (u "http://portal-rs:" ++ default (u "5100") (nonempty port)) (nonempty backend_url))
    (default [] dgx_rust_url) file.
Definition loadPrefixes (c : Config) : list jstr :=
  match prefix_file c with Some t => parsePrefixes t | None => [] end.
Definition backendFor (c : Config) (pathname method : jstr) : jstr :=
  routeBackend pathname (rust_url c) (loadPrefixes c) (flask_url c) method.
Definition onRust (c : Config) (pathname method : jstr) : bool :=
  negb (streq (backendFor c pathname method) (flask_url c)).

(** ** lib/session-gate.ts *)

Definition PROTECTED_PAGES : list jstr :=
  [u "/"; u "/admin"; u "/decisions"; u "/image"; u "/memory"; u "/ocr"; u "/playground"; u "/ranking";
   u "/request"; u "/search"; u "/support"; u "/users"; u "/video"; u "/voice"].
Definition SESSION_COOKIE : jstr := u "session".

Record GateInput := mkGate { g_method : jstr; g_pathname : jstr; hasSessionCookie : bool; isRscRequest : bool }.
Inductive Decision := Redirect | Ask | Pass.

Definition is_get (method : jstr) : bool := streq method (u "GET") || streq method (u "HEAD").
Definition page_path (pathname : jstr) : jstr :=
  if 1 <? length pathname then replace_first (rx "\/+$" "") [] pathname else pathname.
Definition protected (pathname : jstr) : bool := existsb (streq (page_path pathname)) PROTECTED_PAGES.

Definition gateDecision (i : GateInput) : Decision :=
  if negb (is_get (g_method i)) then Pass
  else if isRscRequest i then Pass
  else if negb (protected (g_pathname i)) then Pass
  else if hasSessionCookie i then Ask else Redirect.

Definition checkRedirects (status : option Z) : bool := bool_decide (status = Some 401%Z).

(** ** proxy.ts *)

Definition OWN_ROUTE_HANDLERS : list jstr :=
  [u "/playground/chat"; u "/support/chat"; u "/admin/runner/stream"; u "/api/ocr/extract"].

Record Request := mkReq {
  method : jstr; pathname : jstr; search_ : jstr; scheme : jstr;
  session_cookie : bool; rsc : bool; forwarded_proto : option jstr
}.
(** What /api/session answered: its status and cookie, or nothing. *)
Record SessionCheck := mkCheck { check_status : option Z; check_cookie : option jstr }.

Inductive Outcome :=
| NotFound
| Rewrite (target base : jstr)                                   (* [new URL(target, base)] *)
| ToLogin (scheme : jstr) (setCookie : option jstr)              (* 307 to /login *)
| Next (request_headers response_headers : list (jstr * jstr)).

Definition toLogin (r : Request) (setCookie : option jstr) : Outcome :=
  ToLogin (match forwarded_proto r with
           | Some p => if streq p (u "https") || streq p (u "http") then p else scheme r
           | None => scheme r
           end)
    (match setCookie with Some [] => None | c => c end).

Definition csp_of (nonce : jstr) : jstr :=
  join (u "; ")
    [u "default-src 'self'";
     u "script-src 'self' 'nonce-" ++ nonce ++ u "' 'strict-dynamic'";
     u "style-src 'self' 'unsafe-inline'";
     u "font-src 'self'";
     u "img-src 'self' data: blob:";
     u "media-src 'self' blob:";
     u "connect-src 'self'";
     u "frame-ancestors 'none'";
     u "base-uri 'self'";
     u "form-action 'self'"].

Definition serve (nonce : jstr) : Outcome :=
  let csp := csp_of nonce in
  Next [(u "x-nonce", nonce); (u "Content-Security-Policy", csp)]
    [(u "Content-Security-Policy", csp);
     (u "Strict-Transport-Security", u "max-age=63072000; includeSubDomains");
     (u "X-Content-Type-Options", u "nosniff");
     (u "X-Frame-Options", u "DENY");
     (u "Referrer-Policy", u "same-origin");
     (u "Permissions-Policy", u "geolocation=(), payment=(), usb=(), camera=(self), microphone=(self)")].

(** The outcome, and whether /api/session was asked.  [check] is what the
    question would give: [None] as its status is a timeout or a failure. *)
Definition proxy (c : Config) (check : SessionCheck) (nonce : jstr) (r : Request) : Outcome * bool :=
  let own := existsb (streq (pathname r)) OWN_ROUTE_HANDLERS in
  let rewrite := Rewrite (pathname r ++ search_ r) (backendFor c (pathname r) (method r)) in
  if streq (pathname r) (u "/internal") || starts_with (pathname r) (u "/internal/") then (NotFound, false)
  else if negb (is_get (method r)) && negb own then (rewrite, false)
  else if onRust c (pathname r) (method r) && negb own then (rewrite, false)
  else
    match gateDecision (mkGate (method r) (pathname r) (session_cookie r) (rsc r)) with
    | Redirect => (toLogin r None, false)
    | Ask => if checkRedirects (check_status check)
             then (toLogin r (check_cookie check), true)
             else (serve nonce, true)
    | Pass => (serve nonce, false)
    end.

(** ** Segments *)

Lemma split_single_cat c a b : split_on [c] (a ++ c :: b) = split_on [c] a ++ split_on [c] b.
Proof.
  induction a as [|d a IH]; cbn [app]; rewrite split_on_single_cons.
  - by rewrite N.eqb_refl.
  - rewrite split_on_single_cons. destruct (c =? d)%N; [by rewrite IH|].
    rewrite IH. pose proof (split_on_nonnil [c] a). by destruct (split_on [c] a).
Qed.

(** The text of a plain prefix: no method, no wildcard, no [$]. *)
Definition plain_prefix (p : jstr) : Prop :=
  32%N ∉ p /\ 42%N ∉ p /\ ends_with p (u "$") = false.

Lemma infix_elem (t s : jstr) x : infix t s -> x ∈ t -> x ∈ s.
Proof. intros (a & b & ->) H. rewrite !elem_of_app. auto. Qed.

Lemma split_single_in c s x : x ∈ split_on [c] s -> infix x s.
Proof.
  revert x. induction s as [|d s IH]; intros x.
  - intros ->%list_elem_of_singleton. apply infix_refl.
  - rewrite split_on_single_cons. destruct (c =? d)%N.
    + intros [->|H]%elem_of_cons; [apply infix_nil|]. destruct (IH x H) as (a & b & ->). by exists (d :: a), b.
    + pose proof (split_on_nonnil [c] s). destruct (split_on [c] s) as [|y l] eqn:E; [done|]. cbn [cons_hd].
      intros [->|H1]%elem_of_cons.
      * assert (HJ : join [c] (y :: l) = s) by (rewrite <- E; apply join_split_single).
        destruct l as [|z l]; [exists [], []; simpl in HJ; by rewrite HJ, app_nil_r|].
        exists [], ([c] ++ join [c] (z :: l)). cbn [app]. f_equal. by rewrite <- HJ.
      * destruct (IH x) as (a & b & ->); [by right|]. by exists (d :: a), b.
Qed.

Lemma segments_match_plain want got : Forall (fun w => streq w (u "*") = false) want ->
  segments_match want got = true <-> want `prefix_of` got.
Proof.
  intros HF. revert got. induction HF as [|w want Hw _ IH]; intros got; cbn [segments_match].
  - split; [intros _; apply prefix_nil|done].
  - destruct got as [|g got]; [split; [done|intros H; by apply prefix_nil_not in H]|].
    rewrite Hw. cbn [andb]. rewrite orb_false_r, andb_true_iff, IH. unfold streq. rewrite bool_decide_eq_true. split.
    + intros [-> H]. by apply prefix_cons.
    + intros H. split; [by eapply prefix_cons_inv_1|by eapply prefix_cons_inv_2].
Qed.

Lemma split_prefix c p s : split_on [c] p `prefix_of` split_on [c] s <-> s = p \/ exists r, s = p ++ c :: r.
Proof.
  split.
  - intros [k Hk]. destruct k as [|x k].
    + left. rewrite app_nil_r in Hk. apply (f_equal (join [c])) in Hk. by rewrite !join_split_single in Hk.
    + right. exists (join [c] (x :: k)). apply (f_equal (join [c])) in Hk. rewrite join_split_single in Hk. rewrite Hk.
      clear Hk s. rewrite <- (join_split_single c p) at 2. pose proof (split_on_nonnil [c] p) as HN.
      induction (split_on [c] p) as [|y l IH]; [done|]. destruct l as [|z l]; [done|].
      cbn [app] in *. rewrite !join_cons2, <- app_assoc. f_equal. rewrite <- app_assoc. f_equal. by apply IH.
  - intros [->|[r ->]]; [done|]. rewrite split_single_cat. by eexists.
Qed.

(** A plain prefix of the migration list covers its own path and the paths
    below it, and nothing else (never [/api/rankings] for [/api/ranking]),
    for every method. *)
Theorem entry_covers_plain entry pathname method :
  plain_prefix entry ->
  entry_covers entry pathname method = true <->
  pathname = strip_slash entry \/ exists rest, pathname = strip_slash entry ++ u "/" ++ rest.
Proof.
  intros (H1 & H2 & H3). unfold entry_covers.
  assert (HI : includes entry (u " ") = false).
  { destruct (includes entry (u " ")) eqn:E; [|done]. apply includes_true in E as (a & b & ->).
    exfalso. apply H1. apply elem_of_app. right. by left. }
  rewrite HI. cbn [andb negb streq]. change (streq [] []) with true. cbn [negb andb]. rewrite H3.
  set (p := strip_slash entry).
  assert (HP : 42%N ∉ p).
  { intros Hin. apply H2. subst p. unfold strip_slash in Hin.
    destruct (replace_first_nil (rx "\/$" "") entry) as [[_ E]|(m & Hm & E)]; rewrite E in Hin; [done|].
    apply elem_of_app in Hin as [Hin|Hin]; eapply infix_elem; try exact Hin; [apply infix_take|apply infix_drop]. }
  assert (HF : Forall (fun w => streq w (u "*") = false) (split_on SEGMENT p)).
  { apply Forall_forall. intros x Hx. apply bool_decide_eq_false. intros ->.
    apply split_single_in in Hx as (a & b & Hx). apply HP. rewrite Hx, elem_of_app. right. by left. }
  change (pathname = p \/ (exists rest, pathname = p ++ u "/" ++ rest))
    with (pathname = p \/ (exists rest, pathname = p ++ 47%N :: rest)).
  rewrite <- split_prefix. change [47%N] with SEGMENT. rewrite <- segments_match_plain by done.
  destruct (length (split_on SEGMENT pathname) <? length (split_on SEGMENT p)) eqn:EL; [|done].
  apply Nat.ltb_lt in EL. split; [done|]. intros H. apply segments_match_plain in H as [k Hk]; [|done].
  rewrite Hk, length_app in EL. lia.
Qed.
Theorem entry_covers_plain_witness :
  entry_covers (u "/api/ranking/") (u "/api/ranking/me") (u "POST") = true
  /\ entry_covers (u "/api/ranking/") (u "/api/rankings") (u "GET") = false.
Proof.
  assert (H : plain_prefix (u "/api/ranking/")).
  { split; [|split; [|reflexivity]]; apply (bool_decide_unpack _); vm_compute; exact I. }
  split.
  - apply (entry_covers_plain _ (u "/api/ranking/me") (u "POST") H). right. by exists (u "me").
  - destruct (entry_covers _ _ _) eqn:E; [|done]. exfalso.
    apply (entry_covers_plain _ (u "/api/rankings") (u "GET") H) in E as [E|[r E]].
    + vm_compute in E. discriminate.
    + vm_compute in E. discriminate.
Defined.

(** ** The gate *)

(** The public frontend never serves [/internal] or anything below it,
    whatever the method, the headers, the session and the migration list. *)
Theorem proxy_internal_hidden c check nonce r :
  pathname r = u "/internal" \/ (exists rest, pathname r = u "/internal/" ++ rest) ->
  proxy c check nonce r = (NotFound, false).
Proof.
  intros H. unfold proxy.
  assert (E : streq (pathname r) (u "/internal") || starts_with (pathname r) (u "/internal/") = true).
  { apply orb_true_iff. destruct H as [->|[rest ->]]; [by left|right; apply is_prefix_app]. }
  by rewrite E.
Qed.
Theorem proxy_internal_hidden_witness :
  proxy (mkConfig (u "http://portal-rs:5100") (u "http://rust") (Some (u "/internal")))
    (mkCheck (Some 200%Z) None) (u "n")
    (mkReq (u "POST") (u "/internal/authcheck") [] (u "http") true false None) = (NotFound, false).
Proof. apply proxy_internal_hidden. right. by exists (u "authcheck"). Defined.

Lemma own_handler_spec p :
  if existsb (streq p) OWN_ROUTE_HANDLERS then In p OWN_ROUTE_HANDLERS else ~ In p OWN_ROUTE_HANDLERS.
Proof.
  destruct (existsb (streq p) OWN_ROUTE_HANDLERS) eqn:E.
  - apply existsb_exists in E as (x & Hx & E). unfold streq in E. apply bool_decide_eq_true in E as ->. done.
  - intros Hin. apply existsb_false_iff in E. rewrite List.Forall_forall in E. specialize (E _ Hin).
    unfold streq in E. by apply bool_decide_eq_false in E.
Qed.

(** How a browser reads a policy: directives between semicolons, each a name
    and its sources between spaces; the first directive of a name holds. *)
Definition csp_words (d : jstr) : list jstr := List.filter (fun w => negb (streq w [])) (split_on (u " ") d).
Definition csp_sources (name csp : jstr) : option (list jstr) :=
  match find (fun d => match d with n :: _ => streq n name | [] => false end) (map csp_words (split_on (u ";") csp)) with
  | Some (_ :: sources) => Some sources
  | _ => None
  end.
(** A nonce cannot end a source or a directive (it is base64). *)
Definition plain_nonce (nonce : jstr) : Prop := 32%N ∉ nonce /\ 59%N ∉ nonce.

Lemma csp_words_cat a b : csp_words (a ++ 32%N :: b) = csp_words a ++ csp_words b.
Proof. unfold csp_words. change (u " ") with [32%N]. by rewrite split_single_cat, List.filter_app. Qed.
Lemma csp_words_one s : 32%N ∉ s -> s <> [] -> csp_words s = [s].
Proof.
  intros H Hs. unfold csp_words. change (u " ") with [32%N]. rewrite split_on_single_none by done. cbn [List.filter].
  destruct (streq_spec s []); done.
Qed.

Definition script_directive (nonce : jstr) : jstr :=
  u " script-src 'self'" ++ 32%N :: (u "'nonce-" ++ nonce ++ u "'") ++ 32%N :: u "'strict-dynamic'".
Lemma csp_of_directives nonce : csp_of nonce =
  u "default-src 'self'" ++ 59%N :: script_directive nonce ++ 59%N ::
  u " style-src 'self' 'unsafe-inline'; font-src 'self'; img-src 'self' data: blob:; media-src 'self' blob:; connect-src 'self'; frame-ancestors 'none'; base-uri 'self'; form-action 'self'".
Proof. unfold csp_of, script_directive. cbn [join]. repeat first [rewrite <- app_assoc|rewrite <- app_comm_cons]. vm_compute. reflexivity. Qed.

Lemma not_elem_lit (x : N) (l : jstr) : bool_decide (x ∈ l) = false -> x ∉ l.
Proof. apply bool_decide_eq_false_1. Qed.

(** The scripts a page of the frontend may run: its own files, those that carry
    the nonce, and what they load. *)
Lemma script_sources nonce : plain_nonce nonce ->
  csp_sources (u "script-src") (csp_of nonce) = Some [u "'self'"; u "'nonce-" ++ nonce ++ u "'"; u "'strict-dynamic'"].
Proof.
  intros [H1 H2]. unfold csp_sources. rewrite csp_of_directives. change (u ";") with [59%N]. rewrite !split_single_cat.
  rewrite (split_on_single_none 59 (script_directive nonce)).
  2:{ unfold script_directive. rewrite not_elem_of_app, not_elem_of_cons, not_elem_of_app, not_elem_of_cons, !not_elem_of_app.
      repeat split; first [exact H2|discriminate|apply not_elem_lit; vm_compute; reflexivity]. }
  rewrite !map_app. cbn [map].
  assert (D : map csp_words (split_on [59%N] (u "default-src 'self'")) = [[u "default-src"; u "'self'"]]) by (vm_compute; reflexivity).
  rewrite D. unfold script_directive. rewrite !csp_words_cat.
  assert (W : csp_words (u " script-src 'self'") = [u "script-src"; u "'self'"]) by (vm_compute; reflexivity).
  rewrite W, (csp_words_one (u "'nonce-" ++ nonce ++ u "'")), (csp_words_one (u "'strict-dynamic'")).
  - cbn [app find streq]. reflexivity.
  - apply not_elem_lit. vm_compute. reflexivity.
  - discriminate.
  - rewrite !not_elem_of_app. repeat split; first [exact H1|apply not_elem_lit; vm_compute; reflexivity].
  - discriminate.
Qed.

Lemma serve_policy nonce : plain_nonce nonce ->
  match serve nonce with
  | Next req resp => In (u "x-nonce", nonce) req /\
      exists csp, In (u "Content-Security-Policy", csp) req /\ In (u "Content-Security-Policy", csp) resp /\
        csp_sources (u "script-src") csp = Some [u "'self'"; u "'nonce-" ++ nonce ++ u "'"; u "'strict-dynamic'"]
  | _ => False
  end.
Proof.
  intros H. unfold serve. cbv zeta. split; [by left|]. exists (csp_of nonce). split; [by right; left|]. split; [by left|].
  by apply script_sources.
Qed.

Definition internal (p : jstr) : bool := streq p (u "/internal") || starts_with p (u "/internal/").
(** What the frontend answers itself. *)
Definition served_here (c : Config) (r : Request) : bool :=
  negb (internal (pathname r)) &&
  (existsb (streq (pathname r)) OWN_ROUTE_HANDLERS || is_get (method r) && negb (onRust c (pathname r) (method r))).

(** C36: What becomes of a request.  /internal and what is below it is not found.
    Another request that is not the frontend's (a method other than GET or HEAD,
    or a path given to another backend, the four streaming routes apart) goes to
    the backend of its path.  Of the rest, a page of the application loaded as a
    document is sent to /login when the session cookie is missing, without
    asking anything, and when the session check answers 401; whatever else is
    served, and served with a policy, handed both to the renderer and to the
    browser, under which only the frontend's own scripts, those that carry this
    request's nonce and what they load may run: no inline script without it. *)
Theorem proxy_serves_gated c check nonce r : plain_nonce nonce ->
  let document := is_get (method r) && negb (rsc r) && protected (pathname r) in
  match fst (proxy c check nonce r) with
  | NotFound => internal (pathname r) = true
  | Rewrite target base =>
      served_here c r = false /\ internal (pathname r) = false /\
      target = pathname r ++ search_ r /\ base = backendFor c (pathname r) (method r)
  | ToLogin _ cookie =>
      served_here c r = true /\ document = true /\
      (if session_cookie r then check_status check = Some 401%Z /\ snd (proxy c check nonce r) = true
       else cookie = None /\ snd (proxy c check nonce r) = false)
  | Next req resp =>
      served_here c r = true /\
      (document = true -> session_cookie r = true /\ check_status check <> Some 401%Z /\ snd (proxy c check nonce r) = true) /\
      In (u "x-nonce", nonce) req /\
      exists csp, In (u "Content-Security-Policy", csp) req /\ In (u "Content-Security-Policy", csp) resp /\
        csp_sources (u "script-src") csp = Some [u "'self'"; u "'nonce-" ++ nonce ++ u "'"; u "'strict-dynamic'"]
  end.
Proof.
  intros Hnonce. cbv zeta. pose proof (serve_policy nonce Hnonce) as HS.
  unfold served_here, proxy. fold (internal (pathname r)). destruct (internal (pathname r)) eqn:Ei; [done|]. cbn [negb andb].
  set (own := existsb (streq (pathname r)) OWN_ROUTE_HANDLERS). set (rust := onRust c (pathname r) (method r)).
  unfold gateDecision. cbn [g_method isRscRequest g_pathname hasSessionCookie].
  destruct (serve nonce) as [| | |req resp]; [done..|]. destruct HS as [S1 S2].
  destruct (is_get (method r)), own, rust; cbn [negb andb orb fst snd]; try done;
    destruct (rsc r); cbn [negb andb fst snd]; try done;
    (destruct (protected (pathname r)); cbn [negb andb fst snd]; [|done]);
    (destruct (session_cookie r); cbn [fst snd toLogin]; [|done]);
    unfold checkRedirects; destruct (bool_decide (check_status check = Some 401%Z)) eqn:Ec; bool_norm; cbn [fst snd toLogin];
    done.
Qed.
Definition gate_config : Config := mkConfig (u "http://portal-rs:5100") [] None.
Definition open_page (cookie : bool) : Request := mkReq (u "GET") (u "/playground") [] (u "http") cookie false None.
Definition session_answers (status : Z) : SessionCheck := mkCheck (Some status) None.

Example proxy_sends_to_login :
  fst (proxy gate_config (session_answers 200) (u "bm9uY2U=") (open_page false)) = ToLogin (u "http") None /\
  fst (proxy gate_config (session_answers 401) (u "bm9uY2U=") (open_page true)) = ToLogin (u "http") None.
Proof. vm_compute. split; reflexivity. Qed.
Example proxy_serves_gated_witness :
  match fst (proxy gate_config (session_answers 200) (u "bm9uY2U=") (open_page true)) with
  | Next req resp => exists csp, In (u "Content-Security-Policy", csp) resp /\
      csp_sources (u "script-src") csp = Some [u "'self'"; u "'nonce-" ++ u "bm9uY2U=" ++ u "'"; u "'strict-dynamic'"]
  | _ => False
  end.
Proof.
  assert (Hn : plain_nonce (u "bm9uY2U=")) by (split; by apply not_elem_lit).
  pose proof (proxy_serves_gated gate_config (session_answers 200) (u "bm9uY2U=") (open_page true) Hn) as H.
  cbv zeta in H. destruct (fst (proxy gate_config (session_answers 200) (u "bm9uY2U=") (open_page true))) as [| | |req resp] eqn:E.
  - vm_compute in E. discriminate E.
  - vm_compute in E. discriminate E.
  - vm_compute in E. discriminate E.
  - destruct H as (_ & _ & _ & csp & _ & H). exists csp. exact H.
Defined.
