(* ===== verification/SseProxy.v ===== *)
(** * The streaming relay (lib/sseProxy.ts)

    What the Next route handlers do between the browser and the backend: the
    guards before anything is read, the relayed request, and the stream cut
    after sixty seconds of silence.  What the network answers is an argument;
    the requests made are the list of effects. *)

From S2P Require Import JsJson JsRegExp Utf8 Api Gate.

Definition CONNECT_TIMEOUT_MS : N := 45000.
Definition IDLE_TIMEOUT_MS : N := 60000.
Definition MAX_BODY_BYTES : N := 20 * 1024 * 1024.

(** [JSON.stringify({ choices: [{ delta: { content: text } }] })] *)
Definition content_json (text : jstr) : jstr :=
  [123%N] ++ quote_string (u "choices") ++ u ":[{" ++ quote_string (u "delta") ++ u ":{"
    ++ quote_string (u "content") ++ u ":" ++ quote_string text ++ u "}}]}".
Definition sseErrorFrame (text : jstr) : jstr :=
  u "data: " ++ content_json text ++ BLANK ++ u "data: [DONE]" ++ BLANK.

(** ** The idle timeout *)

Inductive Phase :=
| Waiting                  (* no pull in progress *)
| Reading (deadline : N)   (* [reader.read()] is pending, the timer is armed *)
| TimedOut | Closed | Failed | Cancelled.
Record Relay := mkRelay { now : N; phase : Phase; enqueued : list (list N); upstream_cancelled : bool }.
Definition relay_start : Relay := mkRelay 0 Waiting [] false.

Inductive Event :=
| Elapse (ms : N)
| Pull
| GotChunk (value : list N) | GotEnd | GotError
| TimerFires
| ConsumerCancels.

(** One event; [None] when it cannot happen.  Once the stream has errored, a
    read that settles late changes nothing: [enqueue] and [close] throw, and
    [error] is ignored.  Nothing is followed after the consumer cancels: what a
    read still pending then brings is written nowhere. *)
Definition relay_step (st : Relay) (e : Event) : option Relay :=
  match e, phase st with
  | Elapse d, _ => Some (mkRelay (now st + d) (phase st) (enqueued st) (upstream_cancelled st))
  | Pull, Waiting => Some (mkRelay (now st) (Reading (now st + IDLE_TIMEOUT_MS)) (enqueued st) (upstream_cancelled st))
  | GotChunk v, Reading _ => Some (mkRelay (now st) Waiting (enqueued st ++ [v]) (upstream_cancelled st))
  | GotEnd, Reading _ => Some (mkRelay (now st) Closed (enqueued st) (upstream_cancelled st))
  | GotError, Reading _ => Some (mkRelay (now st) Failed (enqueued st) (upstream_cancelled st))
  | (GotChunk _ | GotEnd | GotError), TimedOut => Some st
  | TimerFires, Reading deadline =>
      if (deadline <=? now st)%N then Some (mkRelay (now st) TimedOut (enqueued st) true) else None
  | ConsumerCancels, (Waiting | Reading _) => Some (mkRelay (now st) Cancelled (enqueued st) true)
  | _, _ => None
  end.
Fixpoint relay_run (st : Relay) (es : list Event) : option Relay :=
  match es with
  | [] => Some st
  | e :: r => st' ← relay_step st e; relay_run st' r
  end.

(** ** The relayed requests *)

Record Incoming := mkIncoming {
  content_length : option N;   (* [None]: absent or not a number *)
  in_type : option jstr; in_csrf : option jstr; in_cookie : option jstr;
  in_body : list N
}.
Record Upstream := mkUpstream { up_status : Z; up_type : option jstr; up_body : option Stream }.

Inductive Effect :=
| Whoami (url cookie : jstr)
| ReadBody
| Forward (verb url : jstr) (type_ csrf : option jstr) (cookie : jstr) (body : list N).

Inductive ReplyBody := Frame (text : jstr) | RelayOf (s : Stream) | NoBody.
Record Reply := mkReply { p_status : Z; p_type : jstr; p_body : ReplyBody }.

(** [header || fallback] *)
Definition or_else (o : option jstr) (d : jstr) : jstr := match o with Some [] | None => d | Some s => s end.

Definition refuse (status : Z) (text : jstr) : Reply := mkReply status (u "text/event-stream") (Frame text).
Definition too_big : Reply := refuse 413 (u "Requête trop volumineuse (20 Mo maximum).").
Definition expired : Reply := refuse 401 (u "Session expirée — reconnecte-toi.").
Definition unreachable : Reply := refuse 503 (u "Le serveur ne répond pas — réessaie dans un instant.").
Definition relay_of (up : Upstream) : Reply :=
  mkReply (up_status up) (or_else (up_type up) (u "text/event-stream"))
    (match up_body up with Some s => RelayOf s | None => NoBody end).

(** [whoami] is the status of the session check ([None]: it failed or timed
    out); [upstream] the backend's answer ([None]: refused, or no headers
    within [CONNECT_TIMEOUT_MS]). *)
Definition proxySSE (c : Config) (r : Incoming) (path : jstr) (whoami : option Z) (upstream : option Upstream)
  : list Effect * Reply :=
  if (MAX_BODY_BYTES <? default 0 (content_length r))%N then ([], too_big)
  else
    let cookie := or_else (in_cookie r) [] in
    let check := Whoami (backendFor c (u "/api/whoami") (u "GET") ++ u "/api/whoami") cookie in
    if bool_decide (whoami = Some 401%Z) || bool_decide (whoami = Some 403%Z) then ([check], expired)
    else if (MAX_BODY_BYTES <? N.of_nat (length (in_body r)))%N then ([check; ReadBody], too_big)
    else
      ([check; ReadBody;
        Forward (u "POST") (backendFor c path (u "POST") ++ path) (Some (or_else (in_type r) (u "application/json")))
          (Some (or_else (in_csrf r) [])) cookie (in_body r)],
       match upstream with Some up => relay_of up | None => unreachable end).

Definition proxySSEGet (c : Config) (r : Incoming) (path : jstr) (upstream : option Upstream) : list Effect * Reply :=
  ([Forward (u "GET") (backendFor c path (u "GET") ++ path) None None (or_else (in_cookie r) []) []],
   match upstream with Some up => relay_of up | None => unreachable end).

(** ** Guards *)

Definition is_forward (e : Effect) : bool := match e with Forward _ _ _ _ _ _ => true | _ => false end.
Definition is_read (e : Effect) : bool := match e with ReadBody => true | _ => false end.

(** [proxySSE] reads the body only after the announced size was within
    the limit and the session check did not answer 401 or 403; it calls the
    backend at most once, as its last action, only with a body of at most
    20 MiB, and with exactly the bytes, the cookie and the CSRF token it
    received. Without that call the answer is 413 or 401. *)
Theorem proxySSE_guarded c r path whoami upstream :
  let '(effects, reply) := proxySSE c r path whoami upstream in
  (In ReadBody effects ->
     (default 0 (content_length r) <= MAX_BODY_BYTES)%N /\ whoami <> Some 401%Z /\ whoami <> Some 403%Z)
  /\ (filter (fun e => is_forward e) effects = [] /\ (p_status reply = 413%Z \/ p_status reply = 401%Z)
      \/ exists before type_, effects = before ++
           [Forward (u "POST") (backendFor c path (u "POST") ++ path) (Some type_)
              (Some (or_else (in_csrf r) [])) (or_else (in_cookie r) []) (in_body r)]
         /\ filter (fun e => is_forward e) before = [] /\ In ReadBody before
         /\ (N.of_nat (length (in_body r)) <= MAX_BODY_BYTES)%N).
Proof.
  unfold proxySSE. destruct (MAX_BODY_BYTES <? default 0 (content_length r))%N eqn:E1.
  { split; [by intros []|]. left. split; [done|by left]. }
  apply N.ltb_ge in E1.
  destruct (bool_decide (whoami = Some 401%Z) || bool_decide (whoami = Some 403%Z)) eqn:E2.
  { split; [by intros [H|[]]|]. left. split; [done|by right]. }
  apply orb_false_iff in E2 as [E2 E3]. apply bool_decide_eq_false in E2, E3.
  destruct (MAX_BODY_BYTES <? N.of_nat (length (in_body r)))%N eqn:E4.
  { split; [by intros _|]. left. split; [done|by left]. }
  apply N.ltb_ge in E4. split; [by intros _|]. right.
  eexists [_; ReadBody], _. split; [reflexivity|]. split; [reflexivity|]. split; [by right; left|done].
Qed.

(** ** What the browser makes of it *)

(** The response the browser gets. *)
Definition received (p : Reply) (cs : list (list N)) (failed : bool) : Api.Response :=
  mkResponse (p_status p) (match p_body p with NoBody => None | _ => Some (mkStream cs failed) end) None.

Lemma content_json_parse text :
  json_parse (content_json text)
  = Some (JObj [(u "choices", JArr [JObj [(u "delta", JObj [(u "content", JStr text)])]])]).
Proof.
  unfold json_parse. assert (HL : exists n, 2 * length (content_json text) + 2 = 9 + n).
  { exists (2 * length (content_json text) - 7). unfold content_json. rewrite !length_app.
    change (length [123%N]) with 1. change (length (u ":[{")) with 3. change (length (u "}}]}")) with 4. lia. }
  destruct HL as [n ->]. unfold content_json.
  change (u ":[{") with [58; 91; 123]%N. change (u ":{") with [58; 123]%N. change (u ":") with [58]%N.
  change (u "}}]}") with [125; 125; 93; 125]%N. cbn [app].
  change (9 + n) with (S (S (S (S (S (S (3 + n))))))).
  rewrite json_value_object. erewrite json_members_last; [|rewrite json_value_array; erewrite json_elements_last;
    [|rewrite json_value_object; erewrite json_members_last; [reflexivity|change (3 + n) with (S (S (S n)));
      rewrite json_value_object; erewrite json_members_last; [reflexivity|apply json_value_string]]]; reflexivity].
  reflexivity.
Qed.

(** ** Error frames *)

Lemma well_formed_app s t : well_formed s -> well_formed t -> well_formed (s ++ t).
Proof.
  intros (ps & H1 & ->) (qs & H2 & ->). exists (ps ++ qs). split; [by apply Forall_app|]. by rewrite flat_map_app.
Qed.
Lemma well_formed_ascii s : Forall (fun c => (c < 128)%N) s -> well_formed s.
Proof.
  intros H. exists s. split; [eapply Forall_impl; [exact H|]; intros x Hx; left; simpl in Hx; lia|].
  induction H as [|c s Hc _ IH]; [done|]. cbn [flat_map]. rewrite <- IH. unfold units_of_cp.
  destruct (c <? 65536)%N eqn:E; [done|]. apply N.ltb_ge in E. lia.
Qed.
Lemma ascii_check s : forallb (fun c => (c <? 128)%N) s = true -> Forall (fun c => (c < 128)%N) s.
Proof.
  intros H. apply List.Forall_forall. intros x Hx. apply N.ltb_lt. revert x Hx. by apply List.forallb_forall.
Qed.

Lemma quote_unit_ascii c : (c < 128)%N -> Forall (fun c => (c < 128)%N) (quote_unit c).
Proof.
  intros H. unfold quote_unit. repeat case_match; try (apply ascii_check; reflexivity); [|by repeat constructor].
  assert (HD : forall n, (n < 16 -> hex_digit n < 128)%N) by (intros n Hn; unfold hex_digit; case_match; lia).
  assert ((c / 16 < 16)%N) by (apply N.Div0.div_lt_upper_bound; lia).
  pose proof (N.mod_lt c 16 ltac:(lia)).
  repeat constructor; try lia; apply HD; done.
Qed.
Lemma quote_unit_big c : (128 <= c)%N -> quote_unit c = [c].
Proof.
  intros H. unfold quote_unit.
  repeat match goal with |- context [(c =? ?k)%N] => destruct (N.eqb_spec c k); [lia|] end.
  destruct (c <? 32)%N eqn:E; [apply N.ltb_lt in E; lia|done].
Qed.

Lemma well_formed_quote s : well_formed s -> well_formed (quote_string s).
Proof.
  intros (ps & HP & ->). unfold quote_string. change (DQ :: ?x) with ([DQ] ++ x).
  apply well_formed_app; [by apply well_formed_ascii, ascii_check|].
  apply well_formed_app; [|by apply well_formed_ascii, ascii_check].
  induction HP as [|p ps Hp _ IH]; [exists []; split; [constructor|done]|].
  cbn [flat_map]. rewrite flat_map_app. apply well_formed_app; [|done].
  destruct (N.lt_ge_cases p 128) as [Hl|Hl].
  - unfold units_of_cp. destruct (p <? 65536)%N eqn:E; [|apply N.ltb_ge in E; lia]. cbn [flat_map]. rewrite app_nil_r.
    by apply well_formed_ascii, quote_unit_ascii.
  - assert (HQ : flat_map quote_unit (units_of_cp p) = units_of_cp p).
    { unfold units_of_cp. destruct (p <? 65536)%N eqn:E; cbn [flat_map app].
      - by rewrite quote_unit_big.
      - assert (A1 : forall q, (128 <= 55296 + q)%N) by (intros; lia).
        assert (A2 : forall q, (128 <= 56320 + q)%N) by (intros; lia).
        rewrite (quote_unit_big _ (A1 _)), (quote_unit_big _ (A2 _)). done. }
    rewrite HQ. exists [p]. split; [constructor; [done|constructor]|]. cbn [flat_map]. by rewrite app_nil_r.
Qed.

Lemma quote_unit_no_lf c : LF ∉ quote_unit c.
Proof.
  unfold quote_unit. repeat case_match; bool_norm; subst; try (by apply (bool_decide_unpack (_ ∉ _)); vm_compute; exact I).
  - assert (HD : forall n, (n < 16)%N -> LF <> hex_digit n) by (intros n Hn; unfold hex_digit, LF; case_match; lia).
    assert ((c / 16 < 16)%N) by (apply N.Div0.div_lt_upper_bound; lia).
    pose proof (N.mod_lt c 16 ltac:(lia)).
    rewrite !not_elem_of_cons. repeat split; try done; try (by apply HD). apply not_elem_of_nil.
  - intros H'%list_elem_of_singleton. unfold LF in H'. congruence.
Qed.
Lemma quote_string_no_lf s : LF ∉ quote_string s.
Proof.
  unfold quote_string. rewrite not_elem_of_cons, not_elem_of_app. split; [done|]. split.
  - induction s as [|c s IH]; [apply not_elem_of_nil|]. cbn [flat_map]. rewrite not_elem_of_app. split; [apply quote_unit_no_lf|done].
  - by apply (bool_decide_unpack (_ ∉ _)); vm_compute.
Qed.

Lemma content_json_ok text : well_formed text -> frame_ok (FData (content_json text)) /\ well_formed (content_json text).
Proof.
  intros HW. split.
  - split; [|split].
    + unfold content_json. rewrite !not_elem_of_app. repeat split; try apply quote_string_no_lf;
        by apply (bool_decide_unpack (_ ∉ _)); vm_compute.
    + unfold trim, trim_start, trim_end, content_json. cbn [app]. unfold drop_while_end.
      set (k := quote_string (u "choices") ++ _).
      assert (HK : exists k', k = k' ++ [125%N]).
      { subst k. exists (quote_string (u "choices") ++ u ":[{" ++ quote_string (u "delta") ++ u ":{"
          ++ quote_string (u "content") ++ u ":" ++ quote_string text ++ u "}}]"). rewrite <- !app_assoc. reflexivity. }
      destruct HK as [k' ->]. cbn [drop_while]. change (is_ws 123) with false. cbv iota.
      change (123%N :: k' ++ [125%N]) with ((123%N :: k') ++ [125%N]). rewrite rev_app_distr. cbn [rev app drop_while].
      change (is_ws 125) with false. cbv iota. cbn [rev]. rewrite rev_app_distr, rev_involutive. done.
    + unfold content_json. cbn [app]. unfold DONE. intros [=].
  - unfold content_json. repeat apply well_formed_app; try apply well_formed_quote; try done;
      by apply well_formed_ascii, ascii_check.
Qed.

Lemma sseErrorFrame_frames text : sseErrorFrame text = concat (map frame_text [FData (content_json text); FDone]).
Proof. unfold sseErrorFrame. cbn [map concat]. unfold frame_text. rewrite app_nil_r, <- !app_assoc. reflexivity. Qed.

Lemma one_data_frame p :
  omap frame_packet [FData p; FDone] = match json_parse p with Some v => [v] | None => [] end.
Proof. reflexivity. Qed.

Lemma on_chat_content text : text <> [] ->
  on_chat (JObj [(u "choices", JArr [JObj [(u "delta", JObj [(u "content", JStr text)])]])]) = [ContentChunk (JStr text)].
Proof. intros H. destruct text as [|c text]; [done|]. reflexivity. Qed.

(** The error frame carries its text: read by [streamChat] from a 200
    answer, in any chunks, it gives one content delta with exactly that text.
    But none of the relay's refusals is a 200 answer: [readSSE] throws on their
    status before reading (and a 401 goes to /login), so the three sentences
    are never shown. *)
Theorem sseErrorFrame_read text cs :
  well_formed text -> text <> [] -> concat cs = utf8_encode (sseErrorFrame text) ->
  streamChat (Got (mkResponse 200 (Some (mkStream cs false)) None)) = ([ContentChunk (JStr text)], None)
  /\ forall refusal cs' failed, In refusal [too_big; expired; unreachable] ->
       streamChat (Got (received refusal cs' failed))
       = ([], Some (if (p_status refusal =? 401)%Z then NotAuthenticated else HttpError (p_status refusal))).
Proof.
  intros HW HN HC. split.
  - destruct (content_json_ok text HW) as [H1 H2]. rewrite sseErrorFrame_frames in HC.
    unfold streamChat, stream. cbn [authFetch status]. change (200 =? 401)%Z with false. cbv iota.
    assert (HR : fst (readSSE (mkResponse 200 (Some (mkStream cs false)) None))
                 = omap frame_packet [FData (content_json text); FDone]).
    { unfold readSSE. cbn [r_body chunks fails]. change (negb (res_ok _)) with false. cbn [fst].
      rewrite feed_all_concat, HC by apply start_clean. unfold feed. cbn [decoder buffer sse_start].
      assert (HW' : well_formed (concat (map frame_text [FData (content_json text); FDone]))).
      { cbn [map concat]. unfold frame_text. repeat apply well_formed_app; try done; try (by apply well_formed_ascii, ascii_check).
        by apply well_formed_quote. }
      destruct (decode_encode _ true HW') as [HD _]; [intros _; cbn; discriminate|]. unfold decoder_new.
      destruct (decode_stream (dec0 true) _) as [d t]. cbn [snd] in HD. subst t. cbn [app fst snd].
      apply frames_packets. constructor; [done|]. constructor; [done|constructor]. }
    unfold readSSE in *. cbn [r_body chunks fails] in *. change (negb (res_ok _)) with false in *. cbn [fst] in *.
    rewrite HR, one_data_frame, content_json_parse. cbn [flat_map]. by rewrite app_nil_r, on_chat_content.
  - intros refusal cs' failed [<-|[<-|[<-|[]]]]; reflexivity.
Qed.
Theorem sseErrorFrame_read_witness :
  streamChat (Got (mkResponse 200 (Some (mkStream [utf8_encode (sseErrorFrame (u "Requête trop volumineuse (20 Mo maximum)."))] false)) None))
  = ([ContentChunk (JStr (u "Requête trop volumineuse (20 Mo maximum)."))], None).
Proof.
  apply (sseErrorFrame_read (u "Requête trop volumineuse (20 Mo maximum).")).
  - exists (u "Requête trop volumineuse (20 Mo maximum)."). split; [|vm_compute; reflexivity].
    apply Forall_forall. intros x Hx. left. revert x Hx. apply Forall_forall.
    apply (bool_decide_unpack _). vm_compute. exact I.
  - vm_compute. discriminate.
  - cbn [concat]. by rewrite app_nil_r.
Defined.

(** ** Idle timeout *)

(** The chunks read before the timer fires. *)
Fixpoint delivered (es : list Event) : list (list N) :=
  match es with
  | [] => []
  | GotChunk v :: r => v :: delivered r
  | TimerFires :: _ => []
  | _ :: r => delivered r
  end.
Fixpoint waited (es : list Event) : option N :=
  match es with
  | [] => Some 0%N
  | Elapse d :: r => (fun w => (d + w)%N) <$> waited r
  | _ :: _ => None
  end.

Lemma relay_run_ended st es st' : (phase st = TimedOut \/ phase st = Closed \/ phase st = Failed \/ phase st = Cancelled) ->
  relay_run st es = Some st' -> phase st' = phase st /\ enqueued st' = enqueued st.
Proof.
  revert st. induction es as [|e es IH]; intros st Hp; cbn [relay_run]; [by intros [= <-]|].
  destruct (relay_step st e) as [s|] eqn:E; [|done]. cbn [mbind option_bind]. intros H.
  assert (HS : phase s = phase st /\ enqueued s = enqueued st).
  { unfold relay_step in E. destruct Hp as [Hp|[Hp|[Hp|Hp]]]; rewrite Hp in *; destruct e; simplify_eq; done. }
  destruct HS as [H1 H2]. destruct (IH s) as [H3 H4]; [by rewrite H1|done|]. rewrite <- H1, <- H2. done.
Qed.

Lemma relay_enqueued st es st' : (phase st = Waiting \/ exists d, phase st = Reading d) ->
  relay_run st es = Some st' -> enqueued st' = enqueued st ++ delivered es.
Proof.
  revert st. induction es as [|e es IH]; intros st Hp; cbn [relay_run]; [intros [= <-]; by rewrite app_nil_r|].
  destruct (relay_step st e) as [s|] eqn:E; [|done]. cbn [mbind option_bind]. intros H.
  assert (D : forall s, (phase s = Closed \/ phase s = Failed \/ phase s = Cancelled) -> relay_run s es = Some st' -> delivered es = []).
  { clear. revert st'. induction es as [|e es IH]; intros st' s Hp; cbn [relay_run delivered]; [done|].
    destruct (relay_step s e) as [s1|] eqn:E; [|done]. cbn [mbind option_bind]. intros H.
    assert (HE : exists d, e = Elapse d /\ phase s1 = phase s).
    { unfold relay_step in E. destruct Hp as [Hp|[Hp|Hp]]; rewrite Hp in *; destruct e; try discriminate E;
        injection E as <-; cbn [phase]; eauto. }
    destruct HE as (d & -> & HE). apply (IH st' s1); [by rewrite HE|done]. }
  assert (D' : forall s, (phase s = Closed \/ phase s = Failed \/ phase s = Cancelled) -> enqueued s = enqueued st ->
    relay_run s es = Some st' -> enqueued st' = enqueued st ++ delivered es).
  { intros s' Hp' Hq H'. rewrite (D s' Hp' H'), app_nil_r, <- Hq. by apply (relay_run_ended s' es); [tauto|]. }
  unfold relay_step in E. destruct Hp as [Hp|[d Hp]]; rewrite Hp in E; destruct e; simplify_eq; cbn [delivered].
  all: try solve [refine (D' _ _ _ H); cbn [phase]; auto].
  all: try solve [eapply IH in H; [exact H|cbn [phase]; first [left; reflexivity|right; eexists; reflexivity|right; exists d; exact Hp]]].
  - apply (IH (mkRelay _ Waiting _ _) (or_introl eq_refl)) in H. cbn [enqueued] in H. by rewrite H, <- app_assoc.
  - case_match; simplify_eq. apply relay_run_ended in H as [_ ->]; [|cbn [phase]; auto]. by rewrite app_nil_r.
Qed.

(** A run that ends in a timeout went through one silent pull. *)
Definition silent_pull (es : list Event) : Prop :=
  exists pre mid post w, es = pre ++ Pull :: mid ++ TimerFires :: post /\ waited mid = Some w /\ (IDLE_TIMEOUT_MS <= w)%N.

Lemma relay_timeout st es st' : relay_run st es = Some st' -> phase st' = TimedOut ->
  match phase st with
  | Waiting => silent_pull es
  | Reading d => silent_pull es \/ exists mid post w, es = mid ++ TimerFires :: post /\ waited mid = Some w /\ (d <= now st + w)%N
  | _ => True
  end.
Proof.
  revert st. induction es as [|e es IH]; intros st; cbn [relay_run].
  { intros [= <-] Hp. by rewrite Hp. }
  destruct (relay_step st e) as [s|] eqn:E; [|done]. cbn [mbind option_bind]. intros H Ht.
  specialize (IH s H Ht).
  assert (W : silent_pull es -> silent_pull (e :: es)).
  { intros (pre & mid & post & w & -> & ?). by exists (e :: pre), mid, post, w. }
  assert (X : forall p, phase s = p -> (p = Closed \/ p = Failed \/ p = Cancelled) -> False).
  { intros p Hp Hc. apply relay_run_ended in H as [H _]; [|rewrite Hp; tauto]. rewrite Ht, Hp in H.
    destruct Hc as [->|[->| ->]]; done. }
  unfold relay_step in E. destruct (phase st) as [|d| | | |] eqn:EP; try done; destruct e; simplify_eq; cbn [phase now] in *.
  - by apply W.
  - destruct IH as [IH|(mid & post & w & -> & Hw & Hd)]; [by apply W|].
    exists [], mid, post, w. split; [done|]. split; [done|]. lia.
  - exfalso. eapply X; eauto.
  - destruct IH as [IH|(mid & post & w & -> & Hw & Hd)]; [left; by apply W|].
    right. exists (Elapse ms :: mid), post, (ms + w)%N. split; [done|]. cbn [waited]. rewrite Hw. split; [done|]. lia.
  - left. by apply W.
  - exfalso. eapply X; eauto.
  - exfalso. eapply X; eauto.
  - case_match; simplify_eq. right. exists [], es, 0%N. split; [done|]. split; [done|].
    match goal with H : (_ <=? _)%N = true |- _ => apply N.leb_le in H end. lia.
  - exfalso. eapply X; eauto.
Qed.

(** C35: the relay hands over every chunk it reads, unchanged and in order; and
    it cuts the stream only after a pull that stayed without any byte for sixty
    seconds or more: an active stream, however long, is never cut. *)
Theorem relay_cuts_only_silence es st :
  relay_run relay_start es = Some st ->
  enqueued st = delivered es /\ (phase st = TimedOut -> silent_pull es).
Proof.
  intros H. split.
  - apply (relay_enqueued relay_start) in H; [exact H|by left].
  - intros Ht. apply (relay_timeout relay_start es st H Ht).
Qed.
Theorem relay_cuts_only_silence_witness :
  let es := [Pull; Elapse 59000; GotChunk [1%N]; Pull; Elapse 60000; TimerFires; GotEnd] in
  exists st, relay_run relay_start es = Some st /\ enqueued st = [[1%N]] /\ silent_pull es.
Proof.
  eexists. split; [reflexivity|]. split; [reflexivity|].
  apply (relay_cuts_only_silence [Pull; Elapse 59000; GotChunk [1%N]; Pull; Elapse 60000; TimerFires; GotEnd] _ eq_refl).
  reflexivity.
Defined.
