(* ===== verification/Messages.v ===== *)
(** * Messages kept and brought back (lib/playground-messages.ts, lib/conversations.ts)

    What is saved of a conversation, what the server keeps of it
    (portal-rs/src/conversations.rs) and what comes back, the loop detector, the
    turn that lives outside the page, and the conversation API.
    The display counters of a message (tokens, durations) are never saved and
    are not part of the model. *)

From S2P Require Import Utf8 JsJson Api Thread.

(** ** The live turn: module state *)

(** A turn is an object: [t_id] is its identity. *)
Record LiveTurn := mkTurn {
  t_id : nat; convId : option jstr; start : option Z; chars : nat;
  charsPerToken : Z; t_text : jstr; t_reasoning : jstr
}.
Record LiveState := mkLive { liveTurn : option LiveTurn; next_id : nat }.

Definition beginLiveTurn (conv : option jstr) (ratio : Z) (s : LiveState) : LiveTurn * LiveState :=
  let turn := mkTurn (next_id s) conv None 0 ratio [] [] in (turn, mkLive (Some turn) (S (next_id s))).
Definition getLiveTurn (s : LiveState) : option LiveTurn := liveTurn s.
Definition endLiveTurn (turn : LiveTurn) (s : LiveState) : LiveState :=
  match liveTurn s with
  | Some l => if t_id l =? t_id turn then mkLive None (next_id s) else s
  | None => s
  end.

(** ** An answer stuck on one line *)

Definition looping_lines (text : jstr) : list jstr :=
  let lines := filter (fun l => l <> []) (map trim (split_lf text)) in
  drop (length lines - 20) lines.
Definition count_line (counts : list (jstr * nat)) (l : jstr) : list (jstr * nat) :=
  assoc_set l (default 0 (assoc_get l counts) + 1) counts.
Definition isLooping (text : jstr) : bool :=
  let lines := looping_lines text in
  if length lines <? 20 then false
  else 8 <=? foldr Nat.max 0 (map snd (foldl count_line [] lines)).

(** ** Images within a budget *)

Definition IMAGES_SAVE_BUDGET : N := 1500000.

Record Room := mkRoom { remaining : option N; weight : N }.   (* [None]: Infinity *)
Definition spent (r : Room) : bool := bool_decide (remaining r = Some 0%N).
Definition use_room (w : N) (r : Room) : Room := mkRoom ((fun n => n - 1)%N <$> remaining r) (weight r + w).
Definition over (budget : option N) (w : N) : bool :=
  match budget with Some b => (b <? w)%N | None => false end.
Definition size (s : jstr) : N := N.of_nat (length s).

(** The inner loop, on the images of one message from the last one. *)
Fixpoint keep_images (budget : option N) (imgs : list jstr) (r : Room) (guard : list jstr) : list jstr * Room :=
  match imgs with
  | [] => (guard, r)
  | img :: rest =>
      if spent r then (guard, r)
      else if over budget (weight r + size img) then (guard, mkRoom (Some 0%N) (weight r))
      else keep_images budget rest (use_room (size img) r) (img :: guard)
  end.

Definition with_images (m : ChatMsg) (imgs : list jstr) : ChatMsg :=
  mkMsg (role m) (content m) (hidden m) (isError m) (truncated m) (pending m) (reasoning m) imgs (fileEdits m) (ts m).

(** The messages from the last one. *)
Fixpoint recent_loop (budget : option N) (msgs : list ChatMsg) (r : Room) : list ChatMsg :=
  match msgs with
  | [] => []
  | m :: rest =>
      match images m with
      | [] => m :: recent_loop budget rest r
      | imgs => let '(guard, r') := keep_images budget (rev imgs) r [] in
                with_images m guard :: recent_loop budget rest r'
      end
  end.
Definition recentImages (msgs : list ChatMsg) (max budget : option N) : list ChatMsg :=
  rev (recent_loop budget (rev msgs) (mkRoom max 0)).

(** ** To and from the server *)

Definition fromSaved (m : ChatMsg) : ChatMsg :=
  mkMsg (role m) (content m) (hidden m) (isError m) (truncated m) (pending m)
    (match reasoning m with Some [] => None | r => r end) (images m) (fileEdits m) None.

Definition withoutImages (msgs : list ChatMsg) : list ChatMsg :=
  map (fun m => mkMsg (role m) (content m) (hidden m) false false false None [] [] None) msgs.

(** The fields the save names: neither [ts] nor [fileEdits]. *)
Definition saved_fields (m : ChatMsg) : ChatMsg :=
  mkMsg (role m) (content m) (hidden m) (isError m) (truncated m) (pending m) (reasoning m) (images m) [] None.
Definition forSave (msgs : list ChatMsg) : list ChatMsg :=
  recentImages (map saved_fields msgs) None (Some IMAGES_SAVE_BUDGET).

(** ** What the server keeps (portal-rs/src/conversations.rs)

    The contents are cut, the last messages are kept, then the oldest of them are
    given up until the text the server writes of them fits its budget.  A save
    never sends the versions of the edit tools ([saved_fields]): what the server
    would make of them is not modelled, nor are the conversations it drops beyond
    the thirty last saved. *)

Definition MSG_MAX_CHARS : N := 400000.
Definition CONV_MAX_CHARS : N := 2000000.
Definition IMAGES_PER_MESSAGE : nat := 4.
Definition IMAGE_MAX_CHARS : N := 3000000.

(** The server counts characters: a surrogate pair is one. *)
Definition char_count (s : jstr) : N := N.of_nat (length (code_points s)).
Fixpoint take_chars (n : N) (s : jstr) : jstr :=
  match s with
  | [] => []
  | c :: r =>
      if (n =? 0)%N then []
      else match r with
           | d :: r' => if is_high c && is_low d then c :: d :: take_chars (N.pred n) r' else c :: take_chars (N.pred n) r
           | [] => [c]
           end
  end.

Definition base64_unit (c : N) : bool :=
  ((48 <=? c) && (c <=? 57) || (65 <=? c) && (c <=? 90) || (97 <=? c) && (c <=? 122) || (c =? 43) || (c =? 47))%N.
Definition is_image_data_url (s : jstr) : bool :=
  existsb (fun kind =>
    let head := u "data:image/" ++ kind ++ u ";base64," in
    is_prefix head s &&
    let rest := drop (length head) s in
    let body := rev (drop_while (fun c => (c =? 61)%N) (rev rest)) in
    negb (streq body []) && (length rest - length body <=? 2) && forallb base64_unit body) [u "png"; u "jpeg"; u "webp"; u "gif"].
Definition valid_images (imgs : list jstr) : list jstr :=
  List.filter (fun s => (char_count s <=? IMAGE_MAX_CHARS)%N && is_image_data_url s) (take IMAGES_PER_MESSAGE imgs).

Definition stored_message (m : ChatMsg) : ChatMsg :=
  mkMsg (role m) (take_chars MSG_MAX_CHARS (content m)) (hidden m) (isError m) (truncated m) (pending m)
    (if bool_decide (role m = Assistant) then match take_chars MSG_MAX_CHARS (default [] (reasoning m)) with [] => None | r => Some r end else None)
    (if bool_decide (role m = User) then valid_images (images m) else []) [] None.
Definition stored_messages (msgs : list ChatMsg) : list ChatMsg :=
  let out := map stored_message msgs in drop (length out - 60) out.

(** The length of the text of [py_dumps]. *)
Definition char_width (c : N) : N :=
  if existsb (N.eqb c) [34; 92; 10; 13; 9; 8; 12]%N then 2 else if (c <? 32)%N then 6 else 1.
Definition sum_sizes (l : list N) : N := foldr N.add 0%N l.
Definition text_size (s : jstr) : N := 2 + sum_sizes (map char_width (code_points s)).
Definition list_size (l : list N) : N := 2 + sum_sizes l + 2 * N.of_nat (pred (length l)).
Definition field_size (key : jstr) (v : N) : N := text_size key + 2 + v.
Definition message_size (m : ChatMsg) : N :=
  let flag key (b : bool) := if b then [field_size key 4] else [] in
  list_size (
    [field_size (u "role") (text_size (if bool_decide (role m = User) then u "user" else u "assistant")); field_size (u "content") (text_size (content m))]
    ++ flag (u "hidden") (hidden m) ++ flag (u "isError") (isError m) ++ flag (u "truncated") (truncated m) ++ flag (u "pending") (pending m)
    ++ match reasoning m with Some r => [field_size (u "reasoning") (text_size r)] | None => [] end
    ++ match images m with [] => [] | l => [field_size (u "images") (list_size (map text_size l))] end).
Definition conversation_size (msgs : list ChatMsg) : N := list_size (map message_size msgs).

(** The two loops of [trim_to_budget]: by subtraction, then measured again. *)
Fixpoint trim_counting (total : N) (msgs : list ChatMsg) : list ChatMsg :=
  match msgs with
  | m :: ((_ :: _) as rest) => if (CONV_MAX_CHARS <? total)%N then trim_counting (total - (message_size m + 2)) rest else msgs
  | _ => msgs
  end.
Fixpoint trim_measuring (msgs : list ChatMsg) : list ChatMsg :=
  match msgs with
  | _ :: ((_ :: _) as rest) => if (CONV_MAX_CHARS <? conversation_size msgs)%N then trim_measuring rest else msgs
  | _ => msgs
  end.
Definition trim_to_budget (msgs : list ChatMsg) : list ChatMsg := trim_measuring (trim_counting (conversation_size msgs) msgs).
Definition server_keeps (msgs : list ChatMsg) : list ChatMsg := trim_to_budget (stored_messages msgs).

(** ** lib/conversations.ts *)

Record ApiConversation := mkApi {
  a_id : jstr; a_conv_title : jstr; a_model : jstr; a_ts : jstr; a_messages : list ChatMsg;
  omitted_messages : option bool
}.
Record Conversation := mkConv {
  c_id : jstr; c_title : jstr; c_ts : Z; c_model : jstr; c_messages : list ChatMsg; omittedMessages : option bool
}.

Section conversations.
(** [Date.parse] ([None] for [NaN]) and [Date.now()]. *)
Context (date_parse : jstr -> option Z) (now : Z).

(** [Date.parse(ts) || Date.now()] *)
Definition when_saved (ts : jstr) : Z :=
  match date_parse ts with Some 0%Z | None => now | Some d => d end.

Definition conversationsFromApi (data : list ApiConversation) : list Conversation :=
  map (fun c => mkConv (a_id c) (a_conv_title c) (when_saved (a_ts c)) (a_model c) (a_messages c)
                  (Some (bool_decide (omitted_messages c = Some true)))) data.

(** The reply of [getJSON]; [None] for a body without a conversation. *)
Definition fetchConversations (reply : Err + list ApiConversation) : list Conversation :=
  match reply with inl _ => [] | inr data => conversationsFromApi data end.
Definition fetchConversation (reply : Err + option ApiConversation) : option Conversation :=
  match reply with
  | inl _ | inr None => None
  | inr (Some c) => Some (mkConv (a_id c) (a_conv_title c) (when_saved (a_ts c)) (a_model c) (a_messages c) None)
  end.

(** The form a save posts, and the verdict drawn from the reply. *)
Record SaveForm := mkForm { f_action : jstr; f_id : jstr; f_title : jstr; f_model : jstr; f_messages : list ChatMsg }.
Definition save_form (c : Conversation) : SaveForm :=
  mkForm (u "save") (c_id c) (c_title c) (c_model c) (c_messages c).
Definition saved (f : Fetched) : bool :=
  match authFetch f with
  | inl _ => false
  | inr res =>
      if negb (res_ok res) then false
      else let body := default (JObj [(u "ok", JBool true)]) (r_json res) in
           match prop (u "ok") body with Some (JBool false) => false | _ => true end
  end.
Definition persistConversation (net : SaveForm -> Fetched) (c : Conversation) : bool := saved (net (save_form c)).

Definition removeConversation (f : Fetched) : bool := v_ok (postFormChecked f).

(** The old history: what was posted, in order, and the local key after. *)
Definition legacy_conversations (storage : option jstr) : list json :=
  match json_parse (match storage with Some (c :: r) => c :: r | _ => u "[]" end) with
  | Some (JArr l) => l
  | _ => []
  end.
Definition has_messages (conv : json) : bool :=
  match prop (u "messages") conv with Some (JArr (_ :: _)) => true | _ => false end.
Definition migrateLegacyConversations (persist : json -> bool) (storage : option jstr)
    : bool * list (json * bool) * option jstr :=
  match legacy_conversations storage with
  | [] => (false, [], storage)
  | legacy => (true, map (fun c => (c, persist c)) (filter (fun c => has_messages c = true) legacy), None)
  end.

(** [now] and [ts] in milliseconds. *)
Definition relativeTime (t : jstr -> jstr) (ts : Z) : jstr :=
  let ms := (now - ts)%Z in
  if (ms <? 60 * 1000)%Z then t (u "à l'instant")
  else if (ms <? 3600 * 1000)%Z then string_of_Z (ms / (60 * 1000)) ++ u " min"
  else if (ms <? 86400 * 1000)%Z then string_of_Z (ms / (3600 * 1000)) ++ u " h"
  else string_of_Z (ms / (86400 * 1000)) ++ u " " ++ t (u "j").
End conversations.

(** ** The images kept *)

Definition total (l : list jstr) : N := foldr (fun s n => size s + n)%N 0%N l.
(** [l] fits in what is left of the room. *)
Definition fits (budget : option N) (r : Room) (l : list jstr) : Prop :=
  match remaining r with Some n => (N.of_nat (length l) <= n)%N | None => True end /\
  match budget with Some b => (weight r + total l <= b)%N | None => True end.

Lemma keep_images_guard budget l r g :
  keep_images budget l r g = ((keep_images budget l r []).1 ++ g, (keep_images budget l r []).2).
Proof.
  revert r g. induction l as [|x l IH]; intros r g; cbn [keep_images]; [done|].
  destruct (spent r); [done|]. destruct (over _ _); [done|].
  rewrite (IH _ (x :: g)), (IH _ [x]). cbn [fst snd]. by rewrite <- app_assoc.
Qed.
Lemma keep_images_spent budget l r g : spent r = true -> keep_images budget l r g = (g, r).
Proof. intros H. destruct l; cbn [keep_images]; [done|]. by rewrite H. Qed.
Lemma keep_images_app budget l1 l2 r g :
  keep_images budget (l1 ++ l2) r g = let '(g1, r1) := keep_images budget l1 r g in keep_images budget l2 r1 g1.
Proof.
  revert r g. induction l1 as [|x l1 IH]; intros r g; cbn [keep_images app]; [done|].
  destruct (spent r) eqn:E; [by rewrite keep_images_spent|].
  destruct (over _ _); [by rewrite keep_images_spent|apply IH].
Qed.

Lemma fits_cons budget r x l : spent r = false -> over budget (weight r + size x) = false ->
  fits budget (use_room (size x) r) l <-> fits budget r (x :: l).
Proof.
  unfold fits, spent, over. intros Hs Ho. apply bool_decide_eq_false in Hs. cbn [remaining weight use_room].
  destruct (remaining r) as [n|]; cbn [fmap option_fmap option_map]; destruct budget as [b|];
    cbn [total foldr length]; try apply N.ltb_ge in Ho; fold (total l);
    try (assert (n <> 0%N) by (intros ->; done)); split; intros [? ?]; split; try done; lia.
Qed.
(** The greedy choice is the longest prefix that fits. *)
Lemma keep_images_longest budget l r : fits budget r [] -> exists j, j <= length l /\
  (keep_images budget l r []).1 = rev (take j l) /\ fits budget r (take j l) /\
  (j < length l -> ~ fits budget r (take (S j) l)).
Proof.
  revert r. induction l as [|x l IH]; intros r H0; cbn [keep_images].
  { exists 0. split; [done|]. split; [done|]. split; [done|]. cbn [length]. lia. }
  destruct (spent r) eqn:Es.
  { exists 0. split; [lia|]. split; [done|]. split; [done|]. intros _ [H _].
    apply bool_decide_eq_true in Es. rewrite Es in H. cbn [length take] in H. lia. }
  destruct (over _ _) eqn:Eo.
  { exists 0. split; [lia|]. split; [done|]. split; [done|]. intros _ [_ H].
    unfold over in Eo. destruct budget; [|done]. apply N.ltb_lt in Eo. cbn [take total foldr] in H. lia. }
  destruct (IH (use_room (size x) r)) as (j & Hj & Hk & Hf & Hm).
  { apply fits_cons; [done..|]. unfold fits, over, spent in *. apply bool_decide_eq_false in Es.
    destruct (remaining r) as [n|]; destruct budget; cbn [length total foldr]; try apply N.ltb_ge in Eo;
      try (assert (n <> 0%N) by (intros ->; done)); split; try done; lia. }
  exists (S j). cbn [length]. split; [lia|]. split; [|split].
  - rewrite keep_images_guard, Hk. done.
  - by apply fits_cons.
  - intros Hl H. apply Hm; [lia|]. by apply fits_cons.
Qed.

Lemma recent_loop_flat budget msgs r :
  flat_map (fun m => rev (images m)) (recent_loop budget msgs r)
  = rev (keep_images budget (flat_map (fun m => rev (images m)) msgs) r []).1.
Proof.
  revert r. induction msgs as [|m msgs IH]; intros r; cbn [recent_loop flat_map]; [done|].
  destruct (images m) as [|i imgs] eqn:E; [cbn [flat_map rev app]; by rewrite E, IH|].
  rewrite keep_images_app. destruct (keep_images budget (rev (i :: imgs)) r []) as [g r'].
  cbn [flat_map images with_images]. rewrite IH, (keep_images_guard _ _ _ g). cbn [fst]. by rewrite rev_app_distr.
Qed.
Lemma flat_map_rev_rev (l : list ChatMsg) : flat_map images (rev l) = rev (flat_map (fun m => rev (images m)) l).
Proof.
  induction l as [|m l IH]; cbn [rev flat_map]; [done|].
  rewrite flat_map_app, IH, rev_app_distr, rev_involutive. cbn [flat_map]. by rewrite app_nil_r.
Qed.
Lemma recent_loop_rest budget msgs r :
  map (fun m => with_images m []) (recent_loop budget msgs r) = map (fun m => with_images m []) msgs.
Proof.
  revert r. induction msgs as [|m msgs IH]; intros r; cbn [recent_loop map]; [done|].
  destruct (images m); [cbn [map]; by rewrite IH|].
  destruct (keep_images _ _ _ _). cbn [map]. by rewrite IH.
Qed.
Lemma total_app l1 l2 : total (l1 ++ l2) = (total l1 + total l2)%N.
Proof. induction l1 as [|x l IH]; cbn [app total foldr]; [done|]. fold (total (l ++ l2)) (total l). rewrite IH. lia. Qed.
Lemma total_rev l : total (rev l) = total l.
Proof. induction l as [|x l IH]; cbn [rev]; [done|]. rewrite total_app, IH. cbn [total foldr]. fold (total l). lia. Qed.
Lemma fits_rev budget r l : fits budget r (rev l) <-> fits budget r l.
Proof. unfold fits. by rewrite length_rev, total_rev. Qed.
Lemma rev_take_rev {A} (l : list A) j : rev (take j (rev l)) = drop (length l - j) l.
Proof. rewrite firstn_rev, rev_involutive. done. Qed.

(** [recentImages] touches nothing but the images, and keeps the longest
    run of the newest ones that fits: a suffix of all the images of the thread,
    within [max] images and [budget] characters, to which the next older image
    cannot be added. *)
Theorem recentImages_newest msgs max budget :
  let all := flat_map images msgs in
  let room := mkRoom max 0 in
  map (fun m => with_images m []) (recentImages msgs max budget) = map (fun m => with_images m []) msgs /\
  exists k, flat_map images (recentImages msgs max budget) = drop k all /\
    fits budget room (drop k all) /\ (0 < k -> ~ fits budget room (drop (k - 1) all)).
Proof.
  intros all room. unfold recentImages. split.
  { rewrite !map_rev, recent_loop_rest, map_rev, rev_involutive. done. }
  rewrite flat_map_rev_rev, recent_loop_flat. change (mkRoom max 0) with room.
  replace (flat_map (fun m => rev (images m)) (rev msgs)) with (rev all)
    by (unfold all; rewrite <- (rev_involutive msgs) at 1; rewrite flat_map_rev_rev, rev_involutive; done).
  destruct (keep_images_longest budget (rev all) room) as (j & Hj & Hk & Hf & Hm).
  { split; cbn [remaining weight room length total foldr]; [destruct max|destruct budget]; try done; lia. }
  rewrite length_rev in *. exists (length all - j).
  rewrite rev_involutive, Hk, rev_take_rev. split; [done|]. split.
  - rewrite <- rev_take_rev. by apply fits_rev.
  - intros Hlt H. apply Hm; [lia|]. apply fits_rev. rewrite rev_take_rev. by replace (length all - S j) with (length all - j - 1) by lia.
Qed.

(** ** The loop detector *)

Definition occurrences (l : jstr) (ls : list jstr) : nat := length (filter (fun x => x = l) ls).

Lemma count_lines l ls kv :
  default 0 (assoc_get l (foldl count_line kv ls)) = default 0 (assoc_get l kv) + occurrences l ls.
Proof.
  revert kv. induction ls as [|x ls IH]; intros kv; cbn [foldl]; [cbn; lia|].
  rewrite IH. unfold count_line, occurrences. rewrite filter_cons. case_decide as E.
  - subst. rewrite assoc_set_same. cbn [from_option id length]. lia.
  - rewrite assoc_set_other by done. lia.
Qed.
Lemma count_lines_nodup ls kv : NoDup (map fst kv) -> NoDup (map fst (foldl count_line kv ls)).
Proof. revert kv. induction ls as [|x ls IH]; intros kv H; [done|]. cbn [foldl]. by apply IH, assoc_set_nodup. Qed.
Lemma max_ge n l : n <> 0 -> n <= foldr Nat.max 0 l <-> exists v, v ∈ l /\ n <= v.
Proof.
  intros Hn. induction l as [|x l IH]; cbn [foldr].
  { split; [lia|]. intros (v & H & _). by apply elem_of_nil in H. }
  rewrite Nat.max_le_iff, IH. split.
  - intros [H|(v & H & Hv)]; [exists x; split; [by left|done]|exists v; split; [by right|done]].
  - intros (v & [->|H]%elem_of_cons & Hv); [by left|right; eauto].
Qed.

(** The loop detector stops an answer exactly when it has twenty non-empty
    lines or more and one line fills at least eight of the last twenty. *)
Theorem isLooping_repeats text :
  isLooping text = true <->
  20 <= length (looping_lines text) /\ exists l, 8 <= occurrences l (looping_lines text).
Proof.
  unfold isLooping. set (ls := looping_lines text). destruct (Nat.ltb_spec (length ls) 20) as [H|H].
  { split; [done|]. intros [? _]. lia. }
  rewrite Nat.leb_le, max_ge by done.
  assert (D : NoDup (map fst (foldl count_line [] ls))) by (apply count_lines_nodup, NoDup_nil; done).
  split.
  - intros (v & [[k w] [-> Hv]]%list_elem_of_fmap & Hle). split; [done|]. exists k.
    apply assoc_get_elem in Hv; [|done]. pose proof (count_lines k ls []) as E. rewrite Hv in E. cbn [from_option id assoc_get snd] in *. lia.
  - intros [_ [l Hl]]. pose proof (count_lines l ls []) as E. cbn [from_option id assoc_get] in E.
    destruct (assoc_get l (foldl count_line [] ls)) as [v|] eqn:G; cbn [from_option id] in E; [|lia].
    exists v. split; [|lia]. apply assoc_get_elem in G; [|done]. apply list_elem_of_fmap. by exists (l, v).
Qed.

(** ** Saving and reading back *)

(** A conversation read back as it was sent keeps, message by message, its role,
    its text and its flags, its thinking, and of its images the newest that fit
    the budget of the save. *)
Theorem saved_comes_back msgs :
  let back := map fromSaved (forSave msgs) in
  map (fun m => (role m, content m, (hidden m, isError m, truncated m, pending m), default [] (reasoning m))) back
  = map (fun m => (role m, content m, (hidden m, isError m, truncated m, pending m), default [] (reasoning m))) msgs /\
  exists k, flat_map images back = drop k (flat_map images msgs) /\ (total (flat_map images back) <= IMAGES_SAVE_BUDGET)%N.
Proof.
  intros back. set (f := fun m => _).
  assert (F : forall a, f (fromSaved a) = f (with_images a [])).
  { intros a. unfold f, fromSaved, with_images. cbn. by destruct (reasoning a) as [[|]|]. }
  assert (I : forall l, flat_map images (map fromSaved l) = flat_map images l).
  { induction l as [|m l IH]; cbn [map flat_map]; [done|]. by rewrite IH. }
  assert (S' : forall l, flat_map images (map saved_fields l) = flat_map images l).
  { induction l as [|m l IH]; cbn [map flat_map]; [done|]. by rewrite IH. }
  destruct (keep_images_longest (Some IMAGES_SAVE_BUDGET) (rev (flat_map images msgs)) (mkRoom None 0)) as (j & Hj & Hk & [_ Hf] & _); [done|].
  assert (E : flat_map images back = rev (take j (rev (flat_map images msgs)))).
  { unfold back, forSave, recentImages. rewrite I, flat_map_rev_rev, recent_loop_flat, <- Hk.
    f_equal. rewrite rev_involutive. do 2 f_equal.
    rewrite <- (S' msgs). rewrite <- (rev_involutive (map saved_fields msgs)) at 2. by rewrite flat_map_rev_rev, rev_involutive. }
  split.
  - unfold back, forSave, recentImages. rewrite map_map, (map_ext _ _ F), <- (map_map (fun m => with_images m []) f).
    rewrite map_rev, recent_loop_rest, <- map_rev, rev_involutive, !map_map. by apply map_ext.
  - rewrite E, rev_take_rev. eexists. split; [done|]. rewrite <- rev_take_rev, total_rev. exact Hf.
Qed.

(** What the files of a conversation depend on. *)
Definition replay_key (m : ChatMsg) := (role m, content m, hidden m, truncated m, fileEdits m).

Lemma turn_ext t prev prev' st m m' : replay_key <$> prev = replay_key <$> prev' -> replay_key m = replay_key m' ->
  turn t prev st m = turn t prev' st m'.
Proof.
  intros Hp Hm. unfold replay_key in Hm. injection Hm as H1 H2 H3 H4 H5.
  assert (HR : isResume prev = isResume prev').
  { destruct prev as [p|], prev' as [p'|]; cbn in Hp; try done. injection Hp as G1 G2 G3 G4 G5.
    unfold isResume. by rewrite G1, G2, G3. }
  assert (HC : match prev with Some p => content p | None => [] end = match prev' with Some p => content p | None => [] end).
  { destruct prev as [p|], prev' as [p'|]; cbn in Hp; try done. by injection Hp. }
  unfold turn, plain_turn. by rewrite H1, H2, H4, H5, HR, HC.
Qed.
Lemma states_ext t ms ms' prev prev' st : replay_key <$> prev = replay_key <$> prev' ->
  map replay_key ms = map replay_key ms' -> states t prev st ms = states t prev' st ms'.
Proof.
  revert ms' prev prev' st. induction ms as [|m ms IH]; intros [|m' ms'] prev prev' st Hp Hm; try done.
  injection Hm as Hh Ht. cbn [states]. rewrite (turn_ext t prev prev' st m m') by (done || (unfold replay_key; congruence)).
  f_equal. apply IH; [cbn; f_equal; unfold replay_key; congruence|done].
Qed.
Lemma filesUntil_ext t ms ms' i : map replay_key ms = map replay_key ms' -> filesUntil t ms i = filesUntil t ms' i.
Proof.
  intros H. unfold filesUntil, states_until. erewrite states_ext; [done|done|].
  rewrite <- !firstn_map, H. done.
Qed.

Lemma reload_keys msgs : map replay_key (map fromSaved (forSave msgs)) = map (fun m => replay_key (saved_fields m)) msgs.
Proof.
  unfold forSave, recentImages. rewrite map_map.
  rewrite (map_ext _ (fun m => replay_key (with_images m []))) by done.
  rewrite <- (map_map (fun m => with_images m []) replay_key), map_rev, recent_loop_rest, <- map_rev, rev_involutive, !map_map.
  by apply map_ext.
Qed.

Lemma char_count_pair c d r : char_count (c :: d :: r) = if is_high c && is_low d then N.succ (char_count r) else N.succ (char_count (d :: r)).
Proof.
  unfold char_count. assert (E : code_points (c :: d :: r) = if is_high c && is_low d then (65536 + (c - 55296) * 1024 + (d - 56320))%N :: code_points r
    else (if is_high c || is_low c then 65533%N else c) :: code_points (d :: r)).
  { change (code_points (c :: d :: r)) with (if is_high c then if is_low d then (65536 + (c - 55296) * 1024 + (d - 56320))%N :: code_points r else 65533%N :: code_points (d :: r)
      else if is_low c then 65533%N :: code_points (d :: r) else c :: code_points (d :: r)). by destruct (is_high c), (is_low d), (is_low c). }
  rewrite E. destruct (_ && _); cbn [length]; by rewrite Nat2N.inj_succ.
Qed.
Lemma char_count_one c : char_count [c] = 1%N.
Proof. unfold char_count. cbn [code_points]. by repeat case_match. Qed.
Lemma take_chars_pair n c d r : take_chars n (c :: d :: r) =
  if (n =? 0)%N then [] else if is_high c && is_low d then c :: d :: take_chars (N.pred n) r else c :: take_chars (N.pred n) (d :: r).
Proof. reflexivity. Qed.
Lemma take_chars_all n s : (char_count s <= n)%N -> take_chars n s = s.
Proof.
  remember (length s) as k eqn:K. revert n s K. induction k as [k IH] using lt_wf_ind. intros n [|c [|d r]] K H; [done| |].
  - rewrite char_count_one in H. cbn [take_chars]. by destruct (N.eqb_spec n 0); [lia|].
  - rewrite char_count_pair in H. rewrite take_chars_pair. cbn [length] in K. destruct (N.eqb_spec n 0) as [->|N]; [destruct (_ && _); lia|].
    destruct (_ && _).
    + do 2 f_equal. apply (IH (length r)); [lia|done|lia].
    + f_equal. apply (IH (length (d :: r))); [cbn [length]; lia|done|lia].
Qed.
Lemma trim_counting_end total msgs : exists k, trim_counting total msgs = drop k msgs.
Proof.
  revert total. induction msgs as [|m msgs IH]; intros total; [by exists 0|]. cbn [trim_counting].
  destruct msgs as [|m' rest]; [by exists 0|]. destruct (_ <? _)%N; [|by exists 0]. destruct (IH (total - (message_size m + 2))%N) as [k ->]. by exists (S k).
Qed.
Lemma trim_measuring_end msgs : exists k, trim_measuring msgs = drop k msgs.
Proof.
  induction msgs as [|m msgs IH]; [by exists 0|]. cbn [trim_measuring].
  destruct msgs as [|m' rest]; [by exists 0|]. destruct (_ <? _)%N; [|by exists 0]. destruct IH as [k ->]. by exists (S k).
Qed.
Lemma trim_shorter msgs : exists k, trim_to_budget msgs = drop k msgs.
Proof.
  unfold trim_to_budget. destruct (trim_counting_end (conversation_size msgs) msgs) as [a ->]. destruct (trim_measuring_end (drop a msgs)) as [b ->].
  rewrite drop_drop. by eexists.
Qed.
Lemma server_keeps_end msgs : exists k, server_keeps msgs = map stored_message (drop k msgs).
Proof.
  unfold server_keeps. destruct (trim_shorter (stored_messages msgs)) as [k ->]. unfold stored_messages. rewrite drop_drop. eexists. apply skipn_map.
Qed.
Lemma trim_to_budget_small msgs : (conversation_size msgs <= CONV_MAX_CHARS)%N -> trim_to_budget msgs = msgs.
Proof.
  intros H. apply N.ltb_ge in H. unfold trim_to_budget. assert (E : trim_counting (conversation_size msgs) msgs = msgs).
  { destruct msgs as [|m [|m' rest]]; [done|done|]. cbn [trim_counting]. by rewrite H. }
  rewrite E. destruct msgs as [|m [|m' rest]]; [done|done|]. cbn [trim_measuring]. by rewrite H.
Qed.
(** What the replay of the files reads of the messages sent. *)
Lemma sent_keys msgs : map replay_key (forSave msgs) = map (fun m => replay_key (saved_fields m)) msgs.
Proof. rewrite <- reload_keys, map_map. by apply map_ext. Qed.

Lemma sent_flags msgs : map (fun m => (role m, content m, hidden m, isError m, truncated m, pending m)) (forSave msgs) =
  map (fun m => (role m, content m, hidden m, isError m, truncated m, pending m)) msgs.
Proof.
  set (f := fun m => _). unfold forSave, recentImages. rewrite (map_ext f (fun m => f (with_images m []))) by done.
  rewrite <- (map_map (fun m => with_images m []) f), map_rev, recent_loop_rest, <- map_rev, rev_involutive, !map_map. by apply map_ext.
Qed.
(** C29: A conversation saved then reopened comes back, through what the server keeps
    of it (contents and number of messages bounded, then the whole): it is an end
    of the conversation, each message with its role, its flags and its text cut at
    the limit. When nothing exceeds these bounds and no message carries a version
    written by the platform's edit tools, it gives the same files, at every
    message and in every display language. *)
Theorem reload_same_files t msgs : let back := map fromSaved (server_keeps (forSave msgs)) in
  (exists k, Forall2 (fun b m => (role b, hidden b, isError b, truncated b, pending b) = (role m, hidden m, isError m, truncated m, pending m) /\
     content b = take_chars MSG_MAX_CHARS (content m)) back (drop k msgs)) /\ length back <= 60 /\
  (length msgs <= 60 -> Forall (fun m => (char_count (content m) <= MSG_MAX_CHARS)%N /\ fileEdits m = []) msgs ->
   (conversation_size (stored_messages (forSave msgs)) <= CONV_MAX_CHARS)%N -> forall i, filesUntil t back i = filesUntil t msgs i).
Proof.
  assert (L : length (forSave msgs) = length msgs) by (by rewrite <- (length_map replay_key), sent_keys, length_map).
  cbv zeta. split; [|split].
  - destruct (server_keeps_end (forSave msgs)) as [k ->]. exists k. rewrite map_map. assert (E := sent_flags msgs).
    apply (f_equal (drop k)) in E. rewrite !skipn_map in E. revert E. generalize (drop k msgs) as l, (drop k (forSave msgs)) as l'. intros l l'.
    revert l. induction l' as [|b l' IH]; intros [|m l] E; try done; constructor; injection E as E1 E2 E3 E4 E5 E6 E; [|by apply IH].
    unfold fromSaved, stored_message. cbn [role hidden isError truncated pending content]. split; congruence.
  - destruct (trim_shorter (stored_messages (forSave msgs))) as [k E]. unfold server_keeps. rewrite E, length_map, length_drop. unfold stored_messages.
    rewrite length_drop. lia.
  - intros N F B i. unfold server_keeps. rewrite trim_to_budget_small by done. apply filesUntil_ext. unfold stored_messages. rewrite length_map, L.
    replace (length msgs - 60) with 0 by lia. rewrite drop_0, map_map. assert (E := sent_keys msgs). clear L N B.
    revert E. generalize (forSave msgs) as l. intros l. revert l. induction F as [|m msgs [Fm Fe] F IH]; intros [|b l] E; try done.
    injection E as E1 E2 E3 E4 E5 E. cbn [map]. f_equal; [|by apply IH].
    unfold replay_key, fromSaved, stored_message. cbn [role content hidden truncated fileEdits]. rewrite E2, Fe, take_chars_all by done. cbn [saved_fields role content hidden truncated] in *. congruence.
Qed.
Definition one_page : jstr := u "`a.py` :
```python
print(1)
```".
Theorem reload_same_files_witness :
  filesUntil id (map fromSaved (server_keeps (forSave [plain_msg User (u "a"); plain_msg Assistant one_page]))) 1
  = [(u "a.py", mkFileState (u "print(1)") (u "python"))].
Proof.
  destruct (reload_same_files id [plain_msg User (u "a"); plain_msg Assistant one_page]) as (_ & _ & H).
  rewrite H; [vm_compute; reflexivity|cbn; lia| |vm_compute; discriminate].
  constructor; [split; [vm_compute; discriminate|reflexivity]|constructor; [split; [vm_compute; discriminate|reflexivity]|constructor]].
Defined.
(** A file given more than sixty messages before is lost once the conversation is
    reopened. *)
Lemma old_file_lost :
  let msgs := plain_msg Assistant one_page :: concat (repeat [plain_msg User (u "a"); plain_msg Assistant (u "b")] 30) in
  filesUntil id msgs 60 = [(u "a.py", mkFileState (u "print(1)") (u "python"))] /\
  length (server_keeps (forSave msgs)) = 60 /\ filesUntil id (map fromSaved (server_keeps (forSave msgs))) 59 = [].
Proof. vm_compute. repeat split; reflexivity. Qed.

(** The save leaves the versions of the edit tools out: a reopened conversation
    shows the file as it was before the edit. *)
Lemma save_forgets_edits :
  let edited := mkMsg Assistant (u "C'est fait.") false false false false None [] [mkEdited (u "a.py") (u "print(2)")] None in
  let thread := [plain_msg User (u "a"); plain_msg Assistant (u "`a.py` :
```python
print(1)
```"); plain_msg User (u "b"); edited] in
  fs_content <$> assoc_get (u "a.py") (filesUntil id thread 3) = Some (u "print(2)") /\
  fs_content <$> assoc_get (u "a.py") (filesUntil id (map fromSaved (forSave thread)) 3) = Some (u "print(1)").
Proof. vm_compute. split; reflexivity. Qed.

(** ** The server's verdicts *)

(** A save is reported as done exactly when the server answered with a 2xx
    status and its body, if it is JSON, does not say [ok: false]. *)
Theorem persistConversation_verdict net c :
  persistConversation net c = true <->
  exists res, net (save_form c) = Got res /\ res_ok res = true /\
    forall body, r_json res = Some body -> prop (u "ok") body <> Some (JBool false).
Proof.
  unfold persistConversation, saved, authFetch. destruct (net (save_form c)) as [|res]; [split; [done|by intros (? & ? & _)]|].
  destruct (status res =? 401)%Z eqn:E.
  { split; [done|]. intros (r & [= <-] & Hok & _). apply Z.eqb_eq in E. unfold res_ok in Hok. rewrite E in Hok. done. }
  destruct (res_ok res) eqn:Hok; cbn [negb].
  - destruct (r_json res) as [body|] eqn:Hj; cbn [from_option].
    + split.
      * intros H. exists res. split; [done|]. split; [done|]. intros b Hb. rewrite Hj in Hb. injection Hb as <-. intros Hp. unfold id in H. by rewrite Hp in H.
      * intros (r & [= <-] & _ & H). specialize (H _ Hj). unfold id. destruct (prop (u "ok") body) as [[|[]| | | |]|]; done.
    + split; [|done]. intros _. exists res. split; [done|]. split; [done|]. intros b Hb. by rewrite Hj in Hb.
  - split; [done|]. intros (r & [= <-] & Ho & _). by rewrite Ho in Hok.
Qed.

(** The old history is posted conversation by conversation, in order, the
    empty ones left out; and the local copy is gone afterwards whatever the
    server answered. *)
Theorem migrate_posts_all persist storage convs c r : 
  storage = Some convs -> json_parse convs = Some (JArr (c :: r)) ->
  migrateLegacyConversations persist storage
  = (true, map (fun v => (v, persist v)) (filter (fun v => has_messages v = true) (c :: r)), None).
Proof.
  intros -> H. unfold migrateLegacyConversations, legacy_conversations.
  destruct convs as [|x convs]; [by vm_compute in H|]. by rewrite H.
Qed.
Theorem migrate_posts_all_witness :
  exists v, migrateLegacyConversations (fun _ => false) (Some (uq "[{'messages':[1]},{'messages':[]}]"))
  = (true, [(v, false)], None).
Proof.
  eexists. rewrite (migrate_posts_all (fun _ => false) (Some (uq "[{'messages':[1]},{'messages':[]}]"))
    (uq "[{'messages':[1]},{'messages':[]}]") (JObj [(u "messages", JArr [JNum 1 0])]) [JObj [(u "messages", JArr [])]] eq_refl); [|vm_compute; reflexivity].
  vm_compute. reflexivity.
Defined.
