(* ===== verification/PendingFollow.v ===== *)
(** * Following an answer still being written (usePendingFollow of
      lib/playground-messages.ts)

    The hook's two effects as functions of the page's state, its interval and
    its timer as events.  React's contract: after a render in which one of an
    effect's dependencies changed, the cleanup of its previous run runs, then
    the effect; a state set by an effect renders again.  An array is the same
    dependency only when it is the same object: [version] is its identity. *)

From S2P Require Import JsJson Thread Messages.

Definition PENDING_MAX_POLLS : nat := 300.

Record Page := mkPage {
  msgs : list ChatMsg; version : nat;
  streaming : bool;
  currentId : option jstr; currentIdRef : option jstr;
  abortRef : option nat;                      (* the turn whose controller it is *)
  pollsLeft : nat;
  live : LiveState;                           (* module state *)
  follow : option (nat * jstr);               (* the interval: its turn and its conversation *)
  timer : option jstr;                        (* the timeout: the conversation to re-read *)
  reads : list jstr                           (* re-reads in flight *)
}.

Definition set_messages (f : list ChatMsg -> list ChatMsg) (p : Page) : Page :=
  mkPage (f (msgs p)) (S (version p)) (streaming p) (currentId p) (currentIdRef p) (abortRef p) (pollsLeft p)
    (live p) (follow p) (timer p) (reads p).
Definition set_streaming (b : bool) (p : Page) : Page :=
  mkPage (msgs p) (version p) b (currentId p) (currentIdRef p) (abortRef p) (pollsLeft p) (live p) (follow p) (timer p) (reads p).
Definition set_follow (abort : option nat) (b : bool) (f : option (nat * jstr)) (p : Page) : Page :=
  mkPage (msgs p) (version p) b (currentId p) (currentIdRef p) abort (pollsLeft p) (live p) f (timer p) (reads p).
Definition set_poll (left : nat) (tm : option jstr) (p : Page) : Page :=
  mkPage (msgs p) (version p) (streaming p) (currentId p) (currentIdRef p) (abortRef p) left (live p) (follow p) tm (reads p).
Definition set_reads (l : list jstr) (p : Page) : Page :=
  mkPage (msgs p) (version p) (streaming p) (currentId p) (currentIdRef p) (abortRef p) (pollsLeft p) (live p) (follow p) (timer p) l.
Definition set_current (id : option jstr) (p : Page) : Page :=
  mkPage (msgs p) (version p) (streaming p) id (currentIdRef p) (abortRef p) (pollsLeft p) (live p) (follow p) (timer p) (reads p).
Definition set_ref (id : option jstr) (p : Page) : Page :=
  mkPage (msgs p) (version p) (streaming p) (currentId p) id (abortRef p) (pollsLeft p) (live p) (follow p) (timer p) (reads p).
Definition set_live (l : LiveState) (p : Page) : Page :=
  mkPage (msgs p) (version p) (streaming p) (currentId p) (currentIdRef p) (abortRef p) (pollsLeft p) l (follow p) (timer p) (reads p).

(** ** The adoption effect *)

(** The conversation shown; an empty identifier counts as none. *)
Definition shown (p : Page) : option jstr := match currentId p with Some [] => None | id => id end.

Definition adopt_effect (p : Page) : Page :=
  match getLiveTurn (live p), shown p with
  | Some turn, Some id =>
      if streaming p || negb (bool_decide (convId turn = Some id)) then p
      else set_follow (Some (t_id turn)) true (Some (t_id turn, id)) p
  | _, _ => p
  end.
Definition adopt_cleanup (p : Page) : Page := set_follow (abortRef p) (streaming p) None p.

(** The streamed text put in the last message. *)
Definition or_undefined (s : jstr) : option jstr := match s with [] => None | _ => Some s end.
Definition streamed (l : LiveTurn) (prev : list ChatMsg) : option (list ChatMsg) :=
  match last prev with
  | Some m =>
      if negb (bool_decide (role m = Assistant)) then None
      else if bool_decide (content m = t_text l) && bool_decide (reasoning m = or_undefined (t_reasoning l)) then None
      else Some (take (length prev - 1) prev
                 ++ [mkMsg (role m) (t_text l) (hidden m) (isError m) (truncated m) false
                       (or_undefined (t_reasoning l)) (images m) (fileEdits m) (ts m)])
  | None => None
  end.
(** The interval's callback. *)
Definition adopt_tick (p : Page) : Page :=
  match follow p with
  | None => p
  | Some (turn, id) =>
      match getLiveTurn (live p) with
      | Some l =>
          if t_id l =? turn
          then match streamed l (msgs p) with Some ms => set_messages (fun _ => ms) p | None => p end
          else set_reads (reads p ++ [id]) (set_follow None false None p)
      | None => set_reads (reads p ++ [id]) (set_follow None false None p)
      end
  end.

(** ** The polling effect *)

Definition last_pending (ms : list ChatMsg) : bool := match last ms with Some m => pending m | None => false end.
Definition live_here (p : Page) (id : jstr) : bool :=
  match getLiveTurn (live p) with Some l => bool_decide (convId l = Some id) | None => false end.

Definition poll_effect (p : Page) : Page :=
  match shown p with
  | Some id =>
      if negb (last_pending (msgs p)) then set_poll PENDING_MAX_POLLS (timer p) p
      else if live_here p id then p
      else match pollsLeft p with
           | 0 => p
           | S n => set_poll n (Some id) p
           end
  | None => set_poll PENDING_MAX_POLLS (timer p) p
  end.
Definition poll_cleanup (p : Page) : Page := set_poll (pollsLeft p) None p.

Definition poll_timeout (p : Page) : Page :=
  match timer p with
  | None => p
  | Some id => set_reads (reads p ++ [id]) (set_poll (pollsLeft p) None p)
  end.

(** [fetchConversation(id).then(...)], for both effects. *)
Fixpoint remove_one (id : jstr) (l : list jstr) : list jstr :=
  match l with [] => [] | x :: r => if streq id x then r else x :: remove_one id r end.
Definition read_done (id : jstr) (conv : option (list ChatMsg)) (p : Page) : Page :=
  let p1 := set_reads (remove_one id (reads p)) p in
  match conv with
  | Some ms => if bool_decide (currentIdRef p = Some id) then set_messages (fun _ => map fromSaved ms) p1 else p1
  | None => p1
  end.

(** ** Renders *)

Definition adopt_changed (a b : Page) : bool :=
  negb (bool_decide (streaming a = streaming b) && bool_decide (currentId a = currentId b)).
Definition poll_changed (a b : Page) : bool :=
  negb (bool_decide (version a = version b) && bool_decide (currentId a = currentId b)).

(** The effects of the render that follows the change from [a] to [b]; the
    page's own effect mirrors [currentId] first. *)
Definition commit (a b : Page) : Page :=
  let p0 := if bool_decide (currentId a = currentId b) then b else set_ref (currentId b) b in
  let p1 := if adopt_changed a b then adopt_effect (adopt_cleanup p0) else p0 in
  if poll_changed a b then poll_effect (poll_cleanup p1) else p1.
(** The state an effect set renders once more. *)
Definition settle (a b : Page) : Page := let p := commit a b in commit b p.

Inductive Event :=
| Open (id : option jstr) (ms : list ChatMsg)       (* the page shows a conversation *)
| SetMessages (ms : list ChatMsg)                   (* the page's own changes *)
| SetStreaming (b : bool)
| Begin (conv : option jstr) (ratio : Z)            (* the stream, outside the page *)
| Grow (text thinking : jstr)
| End
| Tick | Timeout
| ReadDone (id : jstr) (conv : option (list ChatMsg)).

Definition grow (text thinking : jstr) (s : LiveState) : LiveState :=
  match liveTurn s with
  | Some l => mkLive (Some (mkTurn (t_id l) (convId l) (start l) (length text + length thinking) (charsPerToken l) text thinking)) (next_id s)
  | None => s
  end.
Definition handle (p : Page) (e : Event) : Page :=
  match e with
  | Open id ms => set_current id (set_messages (fun _ => ms) p)
  | SetMessages ms => set_messages (fun _ => ms) p
  | SetStreaming b => set_streaming b p
  | Begin conv ratio => set_live (beginLiveTurn conv ratio (live p)).2 p
  | Grow x y => set_live (grow x y (live p)) p
  | End => match liveTurn (live p) with Some l => set_live (endLiveTurn l (live p)) p | None => p end
  | Tick => adopt_tick p
  | Timeout => poll_timeout p
  | ReadDone id conv => if existsb (streq id) (reads p) then read_done id conv p else p
  end.
Definition step (p : Page) (e : Event) : Page := settle p (handle p e).
Definition run (p : Page) (es : list Event) : Page := foldl step p es.

(** The page after its first render. *)
Definition page_start : Page := mkPage [] 0 false None None None PENDING_MAX_POLLS (mkLive None 0) None None [].

(** ** Invariants of the page *)

Ltac page_cases :=
  repeat (first [case_match | case_bool_decide]; simplify_eq; cbn [follow streaming currentId currentIdRef msgs version reads timer live pollsLeft
    set_messages set_streaming set_follow set_poll set_reads set_current set_ref set_live adopt_cleanup poll_cleanup] in *).

Lemma handle_follow p e : follow p = None -> follow (handle p e) = None.
Proof.
  intros H. destruct e; cbn [handle follow set_messages set_streaming set_current set_live]; try done.
  - by case_match.
  - unfold adopt_tick. by rewrite H.
  - unfold poll_timeout. by case_match.
  - case_match; [|done]. unfold read_done. by repeat case_match.
Qed.

Lemma poll_effect_keeps p : follow (poll_effect p) = follow p /\ streaming (poll_effect p) = streaming p /\
  currentId (poll_effect p) = currentId p /\ msgs (poll_effect p) = msgs p /\ reads (poll_effect p) = reads p /\
  version (poll_effect p) = version p /\ live (poll_effect p) = live p /\ currentIdRef (poll_effect p) = currentIdRef p.
Proof. unfold poll_effect. repeat case_match; done. Qed.
Lemma adopt_effect_keeps p : currentId (adopt_effect p) = currentId p /\ msgs (adopt_effect p) = msgs p /\
  reads (adopt_effect p) = reads p /\ version (adopt_effect p) = version p /\ live (adopt_effect p) = live p /\
  currentIdRef (adopt_effect p) = currentIdRef p /\ timer (adopt_effect p) = timer p /\ pollsLeft (adopt_effect p) = pollsLeft p.
Proof. unfold adopt_effect. repeat case_match; done. Qed.
(** The effect does nothing, or it turns streaming on. *)
Lemma adopt_effect_cases p : adopt_effect p = p \/
  (streaming p = false /\ exists turn id, getLiveTurn (live p) = Some turn /\ shown p = Some id /\ convId turn = Some id /\
   adopt_effect p = set_follow (Some (t_id turn)) true (Some (t_id turn, id)) p).
Proof.
  unfold adopt_effect. destruct (getLiveTurn (live p)) as [turn|] eqn:E; [|by left].
  destruct (shown p) as [id|] eqn:Es; [|by left]. destruct (streaming p); [by left|].
  cbn [orb]. case_bool_decide as Hc; cbn [negb]; [|by left]. right. split; [done|]. by exists turn, id.
Qed.

(** What a render keeps, and what the interval becomes. *)
Lemma commit_keeps a b : currentId (commit a b) = currentId b /\ msgs (commit a b) = msgs b /\
  reads (commit a b) = reads b /\ version (commit a b) = version b /\ live (commit a b) = live b /\
  currentIdRef (commit a b) = (if bool_decide (currentId a = currentId b) then currentIdRef b else currentId b).
Proof.
  unfold commit. set (p0 := if bool_decide _ then b else _).
  assert (H0 : currentId p0 = currentId b /\ msgs p0 = msgs b /\ reads p0 = reads b /\ version p0 = version b /\ live p0 = live b /\
    currentIdRef p0 = (if bool_decide (currentId a = currentId b) then currentIdRef b else currentId b)).
  { unfold p0. case_bool_decide; done. }
  set (p1 := if adopt_changed a b then _ else _).
  assert (H1 : currentId p1 = currentId p0 /\ msgs p1 = msgs p0 /\ reads p1 = reads p0 /\ version p1 = version p0 /\
    live p1 = live p0 /\ currentIdRef p1 = currentIdRef p0).
  { unfold p1. destruct (adopt_changed a b); [|done]. destruct (adopt_effect_keeps (adopt_cleanup p0)) as (? & ? & ? & ? & ? & ? & _). done. }
  destruct H0 as (? & ? & ? & ? & ? & ?), H1 as (? & ? & ? & ? & ? & ?).
  destruct (poll_changed a b).
  - destruct (poll_effect_keeps (poll_cleanup p1)) as (_ & _ & ? & ? & ? & ? & ? & ?). cbn in *. repeat split; congruence.
  - repeat split; congruence.
Qed.
(** A render adopts only when streaming or the conversation changed, and one
    that finds streaming on drops the interval. *)
Lemma commit_adopt a b : 
  match adopt_changed a b, streaming b with
  | false, s => follow (commit a b) = follow b /\ streaming (commit a b) = s
  | true, true => follow (commit a b) = None /\ streaming (commit a b) = true
  | true, false => follow (commit a b) = None /\ streaming (commit a b) = false \/ streaming (commit a b) = true
  end.
Proof.
  unfold commit. set (p0 := if bool_decide _ then b else set_ref _ b).
  assert (H0 : follow p0 = follow b /\ streaming p0 = streaming b) by (unfold p0; case_bool_decide; done).
  set (p1 := if adopt_changed a b then adopt_effect (adopt_cleanup p0) else p0).
  set (p2 := if poll_changed a b then poll_effect (poll_cleanup p1) else p1).
  assert (H2 : follow p2 = follow p1 /\ streaming p2 = streaming p1).
  { unfold p2. destruct (poll_changed a b); [|done]. destruct (poll_effect_keeps (poll_cleanup p1)) as (-> & -> & _). done. }
  destruct H0 as [F0 S0], H2 as [-> ->]. unfold p1. destruct (adopt_changed a b); [|by rewrite F0, S0].
  destruct (adopt_effect_cases (adopt_cleanup p0)) as [->|(Hs & turn & id & _ & _ & _ & ->)]; cbn [follow streaming adopt_cleanup set_follow] in *.
  - rewrite S0. destruct (streaming b); [done|by left].
  - rewrite <- S0, Hs. by right.
Qed.
Lemma adopt_changed_streaming a b : currentId a = currentId b -> adopt_changed a b = negb (bool_decide (streaming a = streaming b)).
Proof. intros H. unfold adopt_changed. by rewrite (bool_decide_eq_true_2 _ H), andb_true_r. Qed.

Lemma step_follow p e : follow p = None -> follow (step p e) = None.
Proof.
  intros H. apply (handle_follow p e) in H. unfold step, settle. set (b := handle p e) in *.
  pose proof (commit_adopt p b) as C1. pose proof (commit_adopt b (commit p b)) as C2.
  destruct (commit_keeps p b) as (Hc & _). rewrite (adopt_changed_streaming b) in C2 by done.
  destruct (streaming b) eqn:Sb, (streaming (commit p b)) eqn:Sq; cbn in C2; destruct (adopt_changed p b); naive_solver congruence.
Qed.

(** No page ever follows a live stream: the adoption effect turns streaming
    on, its own dependency, so the render that follows clears the interval it
    has just set and does not set it again. *)
Theorem adoption_never_follows es : follow (run page_start es) = None.
Proof.
  assert (H : forall p, follow p = None -> follow (run p es) = None).
  { induction es as [|e es IH]; intros p Hp; [done|]. cbn [run foldl]. apply IH. by apply step_follow. }
  by apply H.
Qed.

(** ** The stuck page *)

(** What happens outside the page, its timers and its re-reads. *)
Definition outside (e : Event) : bool :=
  match e with Grow _ _ | End | Tick | Timeout | ReadDone _ _ => true | _ => false end.
(** Nothing left that could wake the page up. *)
Definition asleep (p : Page) : Prop := follow p = None /\ timer p = None /\ reads p = [].

Lemma settle_same p b : streaming p = streaming b -> currentId p = currentId b -> version p = version b -> settle p b = b.
Proof.
  intros H1 H2 H3. assert (E : forall a, streaming a = streaming b -> currentId a = currentId b -> version a = version b -> commit a b = b).
  { intros a G1 G2 G3. unfold commit, poll_changed. rewrite adopt_changed_streaming by done.
    rewrite (bool_decide_eq_true_2 _ G1), (bool_decide_eq_true_2 _ G2), (bool_decide_eq_true_2 _ G3). done. }
  unfold settle. rewrite (E p) by done. by apply E.
Qed.
Lemma step_asleep p e : asleep p -> outside e = true ->
  asleep (step p e) /\ streaming (step p e) = streaming p /\ msgs (step p e) = msgs p.
Proof.
  intros (H1 & H2 & H3) He.
  assert (E : asleep (handle p e) /\ streaming (handle p e) = streaming p /\ msgs (handle p e) = msgs p /\
    currentId (handle p e) = currentId p /\ version (handle p e) = version p).
  { unfold asleep. destruct e; try done; cbn [handle]; unfold adopt_tick, poll_timeout; rewrite ?H1, ?H2, ?H3; try done.
    by case_match. }
  destruct E as (? & ? & ? & ? & ?). unfold step. rewrite settle_same by congruence. done.
Qed.
Lemma run_asleep es p : asleep p -> forallb outside es = true ->
  streaming (run p es) = streaming p /\ msgs (run p es) = msgs p.
Proof.
  revert p. induction es as [|e es IH]; intros p Hp; [done|]. cbn [forallb]. intros [He Hes]%andb_true_iff.
  destruct (step_asleep p e Hp He) as (H1 & H2 & H3). destruct (IH _ H1 Hes) as [H4 H5]. cbn [run foldl].
  fold (run (step p e) es). by rewrite H4, H5.
Qed.

(** Opening a conversation whose stream lives. *)
Lemma open_live p turn id ms : asleep p -> streaming p = false -> currentId p <> Some id -> id <> [] ->
  getLiveTurn (live p) = Some turn -> convId turn = Some id ->
  let q := step p (Open (Some id) ms) in asleep q /\ streaming q = true /\ msgs q = ms.
Proof.
  destruct p as [m v s cur ref ab left l f tm rs]. unfold asleep. cbn. intros (-> & -> & ->) -> Hc Hid Hl Ht.
  destruct id as [|c id]; [done|]. unfold step, handle, settle. set (b := set_current _ _).
  assert (Q : exists left', commit (mkPage m v false cur ref ab left l None None []) b
    = mkPage ms (S v) true (Some (c :: id)) (Some (c :: id)) (Some (t_id turn)) left' l (Some (t_id turn, c :: id)) None []).
  { unfold b, commit, adopt_changed, poll_changed. cbn. rewrite (bool_decide_eq_false_2 (cur = _)) by done.
    rewrite (bool_decide_eq_false_2 (v = S v)) by lia. cbn. unfold adopt_effect. cbn. rewrite Hl, Ht.
    rewrite !bool_decide_eq_true_2 by done. cbn. unfold poll_effect. cbn. destruct (last_pending ms); cbn; [|by eexists].
    unfold live_here. cbn. rewrite Hl, Ht. rewrite !bool_decide_eq_true_2 by done. by eexists. }
  destruct Q as [left' ->]. unfold b, commit, adopt_changed, poll_changed. cbn.
  rewrite (bool_decide_eq_false_2 (false = true)) by done. rewrite !bool_decide_eq_true_2 by done. cbn.
  unfold adopt_effect. cbn. rewrite Hl. done.
Qed.

(** A page opened on a conversation whose answer is still being written
    elsewhere shows that it is streaming and stays so: whatever the stream
    writes, and after it ended, the page keeps the checkpoint it opened on and
    never stops streaming by itself. *)
Theorem adopted_page_is_stuck p turn id ms es :
  asleep p -> streaming p = false -> currentId p <> Some id -> id <> [] ->
  getLiveTurn (live p) = Some turn -> convId turn = Some id -> forallb outside es = true ->
  let q := run (step p (Open (Some id) ms)) es in streaming q = true /\ msgs q = ms.
Proof.
  intros Ha Hs Hc Hid Hl Ht He q. destruct (open_live p turn id ms) as (H1 & H2 & H3); try done.
  destruct (run_asleep es _ H1 He) as [H4 H5]. unfold q. by rewrite H4, H5.
Qed.
Theorem adopted_page_is_stuck_witness :
  let p := step page_start (Begin (Some (u "42")) 4) in
  let q := run (step p (Open (Some (u "42")) [plain_msg User (u "a")])) [Tick; Grow (u "b") []; Tick; End; Tick; Timeout] in
  streaming q = true.
Proof.
  apply (adopted_page_is_stuck (step page_start (Begin (Some (u "42")) 4)) (mkTurn 0 (Some (u "42")) None 0 4 [] [])
    (u "42") [plain_msg User (u "a")] [Tick; Grow (u "b") []; Tick; End; Tick; Timeout]);
    try reflexivity; try discriminate. repeat split; reflexivity.
Defined.

(** ** Polling ends *)

Definition armed (p : Page) : nat := if timer p then 1 else 0.
(** The re-reads the timer starts along a run. *)
Fixpoint fired (p : Page) (es : list Event) : nat :=
  match es with
  | [] => 0
  | e :: r => (match e with Timeout => armed p | _ => 0 end) + fired (step p e) r
  end.
(** The server still has nothing but the checkpoint. *)
Definition still_pending (e : Event) : bool :=
  match e with ReadDone _ (Some ms) => last_pending ms | _ => outside e end.
(** The re-reads a page may still start. *)
Definition budget (p : Page) : nat := (if shown p then pollsLeft p else 0) + armed p.

Lemma commit_poll a b : exists p1, timer p1 = timer b /\ pollsLeft p1 = pollsLeft b /\ currentId p1 = currentId b /\ msgs p1 = msgs b /\
  commit a b = if poll_changed a b then poll_effect (poll_cleanup p1) else p1.
Proof.
  unfold commit. set (p0 := if bool_decide _ then b else set_ref _ b).
  exists (if adopt_changed a b then adopt_effect (adopt_cleanup p0) else p0).
  assert (H0 : timer p0 = timer b /\ pollsLeft p0 = pollsLeft b /\ currentId p0 = currentId b /\ msgs p0 = msgs b)
    by (unfold p0; case_bool_decide; done).
  destruct H0 as (? & ? & ? & ?). destruct (adopt_changed a b); [|done].
  destruct (adopt_effect_keeps (adopt_cleanup p0)) as (? & ? & ? & ? & ? & ? & ? & ?). cbn in *. repeat split; congruence.
Qed.
Lemma second_commit a b : timer (settle a b) = timer (commit a b) /\ pollsLeft (settle a b) = pollsLeft (commit a b) /\
  currentId (settle a b) = currentId b.
Proof.
  unfold settle. destruct (commit_poll b (commit a b)) as (p1 & H1 & H2 & H3 & _ & ->).
  destruct (commit_keeps a b) as (Hc & _ & _ & Hv & _).
  unfold poll_changed. rewrite Hc, Hv. rewrite !bool_decide_eq_true_2 by done. cbn. by rewrite H1, H2, H3, Hc.
Qed.
Lemma poll_effect_budget p : timer p = None ->
  pollsLeft (poll_effect p) + armed (poll_effect p) <= Nat.max PENDING_MAX_POLLS (pollsLeft p) /\
  (last_pending (msgs p) = true \/ shown p = None -> budget (poll_effect p) <= if shown p then pollsLeft p else 0).
Proof.
  intros Ht. assert (E : shown (poll_effect p) = shown p) by (unfold shown; by rewrite (proj1 (proj2 (proj2 (poll_effect_keeps p))))).
  unfold budget, armed. rewrite E. unfold poll_effect. destruct (shown p) as [id|]; cbn -[Nat.max PENDING_MAX_POLLS]; [|rewrite Ht; split; [lia|intros _; lia]].
  destruct (last_pending (msgs p)); cbn -[Nat.max PENDING_MAX_POLLS]; [|rewrite Ht; split; [lia|]; by intros [?|?]].
  destruct (live_here p id); [rewrite Ht; split; [lia|intros _; lia]|].
  destruct (pollsLeft p) as [|n] eqn:Ep; cbn -[Nat.max PENDING_MAX_POLLS]; rewrite ?Ht, ?Ep; (split; [lia|intros _; lia]).
Qed.

Lemma step_max p e : pollsLeft p + armed p <= PENDING_MAX_POLLS -> pollsLeft (step p e) + armed (step p e) <= PENDING_MAX_POLLS.
Proof.
  intros H. assert (Hh : pollsLeft (handle p e) + armed (handle p e) <= PENDING_MAX_POLLS).
  { unfold armed in *. destruct e; cbn [handle]; unfold adopt_tick, poll_timeout, read_done; repeat case_match; cbn in *; simplify_eq; cbn in *; lia. }
  unfold step. set (b := handle p e) in *. destruct (second_commit p b) as (H1 & H2 & _).
  unfold armed in *. rewrite H1, H2. destruct (commit_poll p b) as (p1 & G1 & G2 & _ & _ & ->).
  destruct (poll_changed p b); [|rewrite G1, G2; exact Hh].
  destruct (poll_effect_budget (poll_cleanup p1) eq_refl) as [Hb _]. unfold armed in Hb. cbn in Hb. rewrite G2 in Hb.
  destruct (timer b); lia.
Qed.

Lemma step_budget p e : follow p = None -> still_pending e = true ->
  budget (step p e) + (match e with Timeout => armed p | _ => 0 end) <= budget p.
Proof.
  intros Hf He.
  unfold step. destruct e as [| | | |x y| | | |id [ms|]]; try discriminate He; cbn [handle].
  - rewrite settle_same by done. unfold budget, armed, shown. cbn. lia.
  - case_match; rewrite settle_same by done; unfold budget, armed, shown; cbn; lia.
  - unfold adopt_tick. rewrite Hf, settle_same by done. lia.
  - unfold poll_timeout. destruct (timer p) as [id|] eqn:Et; rewrite settle_same by done; unfold budget, armed, shown; cbn; rewrite Et; lia.
  - cbn in He. destruct (existsb _ _); [|rewrite settle_same by done; lia].
    unfold read_done. case_bool_decide; [|rewrite settle_same by done; unfold budget, armed, shown; cbn; lia].
    set (b := set_messages _ _). destruct (second_commit p b) as (H1 & H2 & H3).
    destruct (commit_poll p b) as (p1 & G1 & G2 & G3 & G4 & E).
    assert (Ec : poll_changed p b = true).
    { unfold poll_changed, b. cbn. by rewrite bool_decide_eq_false_2 by lia. }
    rewrite Ec in E. destruct (poll_effect_budget (poll_cleanup p1) eq_refl) as [_ Hb].
    unfold budget, armed in *. rewrite H1, H2. unfold shown in *. rewrite H3.
    destruct (poll_effect_keeps (poll_cleanup p1)) as (_ & _ & K & _). rewrite K in Hb. cbn [currentId poll_cleanup set_poll pollsLeft msgs] in Hb.
    rewrite E. rewrite G2, G3, G4 in Hb. unfold b in Hb. cbn [currentId set_messages set_reads pollsLeft msgs] in *.
    assert (Hl : last_pending (map fromSaved ms) = last_pending ms).
    { unfold last_pending. change (map fromSaved ms) with (fromSaved <$> ms). rewrite fmap_last. by destruct (last ms). }
    rewrite Hl in Hb. specialize (Hb (or_introl He)). change (currentId b) with (currentId p). lia.
  - destruct (existsb _ _); rewrite settle_same by done; unfold budget, armed, shown; cbn; lia.
Qed.

(** C28: a checkpoint left behind by a dead stream is given up: from any state
    of the page, as long as the server keeps answering with the checkpoint (or
    not at all) the page re-reads the conversation three hundred times at
    most. *)
Theorem polling_gives_up es0 es :
  forallb still_pending es = true -> fired (run page_start es0) es <= PENDING_MAX_POLLS.
Proof.
  assert (H : forall l p, follow p = None -> pollsLeft p + armed p <= PENDING_MAX_POLLS ->
    follow (run p l) = None /\ pollsLeft (run p l) + armed (run p l) <= PENDING_MAX_POLLS).
  { induction l as [|e l IH]; intros p H1 H2; [done|]. cbn [run foldl]. apply IH; [by apply step_follow|by apply step_max]. }
  destruct (H es0 page_start eq_refl) as [Hf Hm]; [vm_compute; lia|]. clear H.
  set (p := run page_start es0) in *. clearbody p. intros He.
  assert (HB : budget p <= PENDING_MAX_POLLS) by (unfold budget; destruct (shown p); lia). clear Hm.
  revert p Hf HB. enough (G : forall p, follow p = None -> fired p es <= budget p) by (intros p Hf HB; specialize (G p Hf); lia).
  induction es as [|e es IH]; intros p Hf; cbn [fired]; [lia|].
  apply andb_true_iff in He as [He1 He2]. specialize (IH He2 (step p e) (step_follow p e Hf)).
  pose proof (step_budget p e Hf He1). lia.
Qed.
Theorem polling_gives_up_witness :
  let checkpoint := [mkMsg Assistant (u "a") false false false true None [] [] None] in
  fired (run page_start [Open (Some (u "42")) checkpoint]) [Timeout; ReadDone (u "42") (Some checkpoint); Timeout] = 2 /\
  fired (run page_start [Open (Some (u "42")) checkpoint]) [Timeout; ReadDone (u "42") (Some checkpoint); Timeout] <= PENDING_MAX_POLLS.
Proof.
  split; [vm_compute; reflexivity|].
  apply (polling_gives_up [Open (Some (u "42")) [mkMsg Assistant (u "a") false false false true None [] [] None]]).
  reflexivity.
Defined.

(** ** Late re-reads *)

Lemma step_ref p e : currentIdRef p = currentId p -> currentIdRef (step p e) = currentId (step p e).
Proof.
  intros H. unfold step, settle. set (b := handle p e).
  destruct (commit_keeps b (commit p b)) as (-> & _ & _ & _ & _ & ->).
  destruct (commit_keeps p b) as (-> & _ & _ & _ & _ & ->). rewrite bool_decide_eq_true_2 by done.
  assert (E : currentIdRef b = currentIdRef p).
  { unfold b. destruct e; cbn [handle]; unfold adopt_tick, poll_timeout, read_done; repeat case_match; done. }
  rewrite E. case_bool_decide; congruence.
Qed.

(** A re-read that comes back late never writes into another conversation:
    what [fetchConversation] returns for [id] is shown only while the page is
    on [id]. *)
Theorem late_read_ignored es id conv :
  let p := run page_start es in
  currentId p <> Some id -> msgs (step p (ReadDone id conv)) = msgs p.
Proof.
  intros p Hc. assert (H : currentIdRef p = currentId p).
  { unfold p. assert (G : forall l q, currentIdRef q = currentId q -> currentIdRef (run q l) = currentId (run q l)).
    { induction l as [|e l IH]; intros q Hq; [done|]. cbn [run foldl]. apply IH. by apply step_ref. }
    by apply G. }
  unfold step, settle. set (b := handle p _). destruct (commit_keeps b (commit p b)) as (_ & -> & _).
  destruct (commit_keeps p b) as (_ & -> & _). unfold b. cbn [handle]. destruct (existsb _ _); [|done].
  unfold read_done. destruct conv; [|done]. rewrite bool_decide_eq_false_2; [done|congruence].
Qed.
Theorem late_read_ignored_witness :
  let checkpoint := [mkMsg Assistant (u "a") false false false true None [] [] None] in
  let p := run page_start [Open (Some (u "42")) checkpoint; Timeout; Open (Some (u "7")) []] in
  reads p = [u "42"] /\ msgs (step p (ReadDone (u "42") (Some checkpoint))) = [].
Proof.
  split; [vm_compute; reflexivity|].
  apply (late_read_ignored [Open (Some (u "42")) [mkMsg Assistant (u "a") false false false true None [] [] None]; Timeout; Open (Some (u "7")) []]).
  vm_compute. discriminate.
Defined.
