(* ===== verification/WebAuthn.v ===== *)
(** * Passkeys (lib/webauthn.ts)

    base64url on both sides, the options handed to the browser and the
    credential sent back.  [atob] and [btoa] are the platform's (WHATWG
    forgiving base64).  The options are typed as the server sends them: an
    object whose [challenge] and identifiers are strings. *)

From S2P Require Import JsJson JsRegExp.

(** ** [btoa] and [atob] *)

Definition b64_char (n : N) : N :=
  (if n <? 26 then n + 65 else if n <? 52 then n + 71 else if n <? 62 then n - 4
   else if n =? 62 then 43 else 47)%N.
Definition b64_val (c : N) : option N :=
  (if (65 <=? c) && (c <=? 90) then Some (c - 65)
   else if (97 <=? c) && (c <=? 122) then Some (c - 71)
   else if (48 <=? c) && (c <=? 57) then Some (c + 4)
   else if c =? 43 then Some 62 else if c =? 47 then Some 63 else None)%N.
Definition EQUALS : N := 61.

(** A string of units below 256. *)
Fixpoint btoa (s : list N) : jstr :=
  (match s with
   | [] => []
   | [a] => [b64_char (a / 4); b64_char (a mod 4 * 16); EQUALS; EQUALS]
   | [a; b] => [b64_char (a / 4); b64_char (a mod 4 * 16 + b / 16); b64_char (b mod 16 * 4); EQUALS]
   | a :: b :: c :: r =>
       b64_char (a / 4) :: b64_char (a mod 4 * 16 + b / 16) :: b64_char (b mod 16 * 4 + c / 64) :: b64_char (c mod 64) :: btoa r
   end)%N.

(** The 6-bit values, without padding; a leftover of one is refused and the
    leftover bits are dropped. *)
Fixpoint b64_bytes (vs : list N) : option (list N) :=
  (match vs with
   | [] => Some []
   | [_] => None
   | [x; y] => Some [x * 4 + y / 16]
   | [x; y; z] => Some [x * 4 + y / 16; y mod 16 * 16 + z / 4]
   | x :: y :: z :: w :: r =>
       (fun t => x * 4 + y / 16 :: y mod 16 * 16 + z / 4 :: z mod 4 * 64 + w :: t) <$> b64_bytes r
   end)%N.
Definition ascii_ws (c : N) : bool := ((c =? 9) || (c =? 10) || (c =? 12) || (c =? 13) || (c =? 32))%N.
(** At most two padding signs, on a length that is a multiple of four. *)
Definition unpad (s : jstr) : jstr :=
  if length s mod 4 =? 0 then
    if ends_with s [EQUALS; EQUALS] then take (length s - 2) s
    else if ends_with s [EQUALS] then take (length s - 1) s else s
  else s.
Definition atob (s : jstr) : option (list N) :=
  vs ← mapM b64_val (unpad (List.filter (fun c => negb (ascii_ws c)) s)); b64_bytes vs.

(** ** base64url *)

Definition MINUS : N := 45.
Definition PLUS : N := 43.
Definition SLASH : N := 47.
Definition UNDERSCORE : N := 95.

Definition padding (s : jstr) : jstr := repeat EQUALS ((4 - length s mod 4) mod 4).
(** [None] when [atob] throws. *)
Definition bytesFromBase64url (s : jstr) : option (list N) :=
  atob (replace_all (rx "_" "g") [SLASH] (replace_all (rx "-" "g") [PLUS] (s ++ padding s))).
Definition bytesToBase64url (b : list N) : jstr :=
  replace_first (rx "=+$" "") [] (replace_all (rx "\/" "g") [UNDERSCORE] (replace_all (rx "\+" "g") [MINUS] (btoa b))).

(** ** Options for the browser *)

(** A value for the DOM: JSON with buffers in it. *)
Inductive Dom :=
| Plain (v : json)
| Buffer (b : list N)
| Object (kv : list (jstr * Dom))
| Items (l : list Dom).

Definition spread (v : json) : list (jstr * Dom) :=
  match v with JObj kv => map (fun p => (p.1, Plain p.2)) kv | _ => [] end.
(** [bytesFromBase64url(o.k as string)]; anything but a string throws. *)
Definition buffer_of (k : jstr) (o : json) : option Dom :=
  match prop k o with Some (JStr s) => Buffer <$> bytesFromBase64url s | _ => None end.
Definition with_id (o : json) : option Dom :=
  b ← buffer_of (u "id") o; Some (Object (assoc_set (u "id") b (spread o))).
(** [((pk.k as …[]) ?? []).map((c) => ({ ...c, id: … }))] *)
Definition credentials (k : jstr) (pk : json) : option Dom :=
  match prop k pk with
  | None | Some JNull => Some (Items [])
  | Some (JArr l) => Items <$> mapM with_id l
  | Some _ => None
  end.

Definition prepareCreationOptions (pk : json) : option Dom :=
  challenge ← buffer_of (u "challenge") pk;
  user ← with_id (match prop (u "user") pk with None | Some JNull => JObj [] | Some v => v end);
  exclude ← credentials (u "excludeCredentials") pk;
  Some (Object (assoc_set (u "excludeCredentials") exclude
                 (assoc_set (u "user") user (assoc_set (u "challenge") challenge (spread pk))))).
Definition prepareRequestOptions (pk : json) : option Dom :=
  challenge ← buffer_of (u "challenge") pk;
  allow ← credentials (u "allowCredentials") pk;
  Some (Object (assoc_set (u "allowCredentials") allow (assoc_set (u "challenge") challenge (spread pk)))).

(** ** The credential sent back *)

(** What the browser made: an attestation (with its transports, if the method
    exists) or an assertion, or both interfaces. *)
Record Attestation := mkAttestation { attestationObject : list N; transports : option (list jstr) }.
Record Assertion := mkAssertion { authenticatorData : list N; signature : list N; userHandle : option (list N) }.
Record Credential := mkCredential {
  cred_id : jstr; rawId : list N; cred_type : jstr;
  extensions : option json;                       (* [getClientExtensionResults?.()] *)
  clientDataJSON : list N;
  attestation : option Attestation; assertion : option Assertion
}.

Definition b64 (b : list N) : json := JStr (bytesToBase64url b).
Definition credentialToJSON (c : Credential) : json :=
  let r := [(u "clientDataJSON", b64 (clientDataJSON c))]
    ++ match attestation c with
       | Some a => (u "attestationObject", b64 (attestationObject a))
                   :: match transports a with Some (t :: l) => [(u "transports", JArr (map JStr (t :: l)))] | _ => [] end
       | None => []
       end
    ++ match assertion c with
       | Some a => [(u "authenticatorData", b64 (authenticatorData a)); (u "signature", b64 (signature a));
                    (u "userHandle", match userHandle a with Some h => b64 h | None => JNull end)]
       | None => []
       end in
  JObj [(u "id", JStr (cred_id c)); (u "rawId", b64 (rawId c)); (u "type", JStr (cred_type c));
        (u "response", JObj r);
        (u "clientExtensionResults", match extensions c with None | Some JNull => JObj [] | Some v => v end)].

(** Both ceremonies; [create] is the browser, which may give nothing. *)
Inductive Ceremony := Done (v : json) | Cancelled | BadOptions.
Definition ceremony (options : option Dom) (browser : Dom -> option Credential) : Ceremony :=
  match options with
  | None => BadOptions
  | Some o => match browser o with Some c => Done (credentialToJSON c) | None => Cancelled end
  end.
Definition createPasskey (pk : json) (create : Dom -> option Credential) : Ceremony :=
  ceremony (prepareCreationOptions pk) create.
Definition getPasskeyAssertion (pk : json) (get : Dom -> option Credential) : Ceremony :=
  ceremony (prepareRequestOptions pk) get.

(** ** Round trip *)

Definition byte (b : N) : Prop := (b < 256)%N.

Lemma b64_char_val n : (n < 64)%N -> b64_val (b64_char n) = Some n.
Proof.
  intros H. assert (G : forallb (fun n => bool_decide (b64_val (b64_char n) = Some n)) (map N.of_nat (seq 0 64)) = true) by (vm_compute; reflexivity).
  rewrite forallb_forall in G. apply (bool_decide_eq_true_1 (b64_val (b64_char n) = Some n)), G. apply in_map_iff. exists (N.to_nat n). split; [lia|].
  apply in_seq. lia.
Qed.
Lemma b64_char_range n : (n < 64)%N -> b64_char n <> EQUALS /\ ascii_ws (b64_char n) = false /\ b64_char n <> MINUS /\ b64_char n <> UNDERSCORE.
Proof.
  intros H. assert (G : forallb (fun n => negb (b64_char n =? EQUALS)%N && negb (ascii_ws (b64_char n)) && negb (b64_char n =? MINUS)%N
      && negb (b64_char n =? UNDERSCORE)%N) (map N.of_nat (seq 0 64)) = true) by (vm_compute; reflexivity).
  rewrite forallb_forall in G. specialize (G n). assert (Hin : In n (map N.of_nat (seq 0 64))).
  { apply in_map_iff. exists (N.to_nat n). split; [lia|]. apply in_seq. lia. }
  apply G in Hin. bool_norm. split; [done|]. split; [|done]. by destruct (ascii_ws _).
Qed.

(** The 6-bit values of a byte string. *)
Fixpoint sextets (s : list N) : list N :=
  (match s with
   | [] => []
   | [a] => [a / 4; a mod 4 * 16]
   | [a; b] => [a / 4; a mod 4 * 16 + b / 16; b mod 16 * 4]
   | a :: b :: c :: r => a / 4 :: a mod 4 * 16 + b / 16 :: b mod 16 * 4 + c / 64 :: c mod 64 :: sextets r
   end)%N.

Lemma bytes_ind3 (P : list N -> Prop) : P [] -> (forall a, P [a]) -> (forall a b, P [a; b]) ->
  (forall a b c r, P r -> P (a :: b :: c :: r)) -> forall s, P s.
Proof.
  intros H0 H1 H2 H3. fix IH 1. intros [|a [|b [|c r]]]; [exact H0|apply H1|apply H2|apply H3, IH].
Qed.

Ltac bytes := 
  repeat match goal with H : Forall _ (_ :: _) |- _ => apply Forall_cons in H as [? H] end; unfold byte in *;
  zify; Z.to_euclidean_division_equations; lia.

Lemma sextets_small s : Forall byte s -> Forall (fun v => v < 64)%N (sextets s).
Proof.
  induction s as [|a|a b|a b c r IH] using bytes_ind3; intros H; cbn [sextets].
  - constructor.
  - repeat apply Forall_cons_2; [bytes..|constructor].
  - repeat apply Forall_cons_2; [bytes..|constructor].
  - repeat apply Forall_cons_2; [bytes..|]. apply IH. by do 3 apply Forall_cons in H as [_ H].
Qed.
Lemma sextets_bytes s : Forall byte s -> b64_bytes (sextets s) = Some s.
Proof.
  induction s as [|a|a b|a b c r IH] using bytes_ind3; intros H; cbn [sextets b64_bytes]; [done| | |].
  - f_equal. f_equal. bytes.
  - f_equal. f_equal; [bytes|f_equal; bytes].
  - rewrite IH by (by do 3 apply Forall_cons in H as [_ H]). cbn [fmap option_fmap option_map].
    f_equal. f_equal; [bytes|f_equal; [bytes|f_equal; bytes]].
Qed.
Lemma btoa_sextets s : btoa s = map b64_char (sextets s) ++ repeat EQUALS ((4 - length (sextets s) mod 4) mod 4).
Proof.
  induction s as [|a|a b|a b c r IH] using bytes_ind3; cbn [btoa sextets]; [done..|].
  rewrite IH. cbn [map app length]. do 4 f_equal.
  replace (S (S (S (S (length (sextets r))))) mod 4) with (length (sextets r) mod 4); [done|].
  replace (S (S (S (S (length (sextets r)))))) with (length (sextets r) + 1 * 4) by lia. by rewrite Nat.Div0.mod_add.
Qed.

Lemma flat_map_single {A} (f : A -> A) l : flat_map (fun x => [f x]) l = map f l.
Proof. induction l as [|x l IH]; [done|]. cbn [flat_map map app]. by rewrite IH. Qed.
(** Replacing one unit by another, on a text where the result is [f]. *)
Lemma replace_unit r c d s : r = mkRe (Chars false [(c, c)]) (mkFlags false false) -> d <> 36%N ->
  replace_all r [d] s = map (fun x => if (c =? x)%N then d else x) s.
Proof.
  intros -> Hd. rewrite (replace_class (mkRe (Chars false [(c, c)]) (mkFlags false false)) false [(c, c)] eq_refl).
  - rewrite <- flat_map_single. induction s as [|x s IH]; [done|]. cbn [flat_map]. rewrite IH, char_in_single by done.
    by destruct (c =? x)%N.
  - intros H. apply list_elem_of_singleton in H. congruence.
Qed.

(** The alphabet of URLs. *)
Definition url_char (c : N) : N := if (c =? PLUS)%N then MINUS else if (c =? SLASH)%N then UNDERSCORE else c.
Definition std_char (c : N) : N := if (c =? MINUS)%N then PLUS else if (c =? UNDERSCORE)%N then SLASH else c.
Lemma bytesToBase64url_chars b : Forall byte b -> bytesToBase64url b = map (fun v => url_char (b64_char v)) (sextets b).
Proof.
  intros H. unfold bytesToBase64url.
  rewrite (replace_unit (rx "\+" "g") PLUS MINUS) by done. rewrite (replace_unit (rx "\/" "g") SLASH UNDERSCORE) by done.
  rewrite (replace_class_end (mkFlags false false) false [(EQUALS, EQUALS)]) by done.
  rewrite map_map, (map_ext _ url_char).
  2: { intros c. unfold url_char, PLUS, MINUS, SLASH, UNDERSCORE. rewrite !(N.eqb_sym _ c).
       destruct (N.eqb_spec c 43) as [->|]; [done|]. rewrite (N.eqb_sym _ c). done. }
  rewrite btoa_sextets, map_app, map_map.
  assert (E : map url_char (repeat EQUALS ((4 - length (sextets b) mod 4) mod 4)) = repeat EQUALS ((4 - length (sextets b) mod 4) mod 4)).
  { rewrite map_repeat. done. }
  rewrite E. unfold drop_while_end. rewrite rev_app_distr, rev_repeat, drop_while_app.
  replace (forallb _ (repeat EQUALS _)) with true.
  2: { symmetry. apply forallb_forall. intros x Hx. apply repeat_spec in Hx as ->. rewrite char_in_single by done. done. }
  rewrite drop_while_id, rev_involutive; [done|].
  pose proof (sextets_small b H) as Hs. apply Forall_rev in Hs.
  rewrite <- map_rev. destruct (rev (sextets b)) as [|v l]; [done|]. cbn [map]. apply Forall_cons in Hs as [Hv _].
  rewrite char_in_single by done. destruct (b64_char_range v Hv) as (H1 & _ & _ & _).
  apply N.eqb_neq. unfold url_char, EQUALS in *. repeat case_match; unfold MINUS, UNDERSCORE; congruence.
Qed.

Lemma unpad_repeat s : EQUALS ∉ s -> length s mod 4 <> 1 -> unpad (s ++ repeat EQUALS ((4 - length s mod 4) mod 4)) = s.
Proof.
  intros Hn H1. assert (Hlt : length s mod 4 < 4) by (apply Nat.mod_upper_bound; lia).
  assert (Hd : length s = 4 * (length s / 4) + length s mod 4) by (apply Nat.div_mod; lia).
  assert (Hend : forall t, ends_with s (EQUALS :: t) = false).
  { intros t. unfold ends_with. apply not_true_iff_false. intros [k Hk]%is_prefix_spec. cbn [rev] in Hk.
    apply Hn. apply (f_equal (@rev N)) in Hk. rewrite rev_involutive in Hk. rewrite Hk, rev_app_distr, rev_app_distr. cbn.
    apply list_elem_of_In. apply in_app_iff. right. left. done. }
  unfold unpad. rewrite length_app, repeat_length.
  assert (length s mod 4 = 0 \/ length s mod 4 = 2 \/ length s mod 4 = 3) as [E|[E|E]] by lia; rewrite E.
  - change ((4 - 0) mod 4) with 0. cbn [repeat]. rewrite app_nil_r, Nat.add_0_r, E.
    change (0 =? 0) with true. cbn iota. by rewrite !Hend.
  - change ((4 - 2) mod 4) with 2. cbn [repeat].
    replace ((length s + 2) mod 4 =? 0) with true.
    2: { symmetry. apply Nat.eqb_eq. rewrite Hd, E. replace (4 * (length s / 4) + 2 + 2) with (0 + (length s / 4 + 1) * 4) by lia. by rewrite Nat.Div0.mod_add. }
    unfold ends_with. rewrite rev_app_distr. cbn [rev app]. replace (is_prefix _ _) with true by (symmetry; apply (is_prefix_app [EQUALS; EQUALS] (rev s))).
    rewrite take_app_le by lia. by rewrite take_ge by lia.
  - change ((4 - 3) mod 4) with 1. cbn [repeat].
    replace ((length s + 1) mod 4 =? 0) with true.
    2: { symmetry. apply Nat.eqb_eq. rewrite Hd, E. replace (4 * (length s / 4) + 3 + 1) with (0 + (length s / 4 + 1) * 4) by lia. by rewrite Nat.Div0.mod_add. }
    replace (ends_with (s ++ [EQUALS]) [EQUALS; EQUALS]) with false.
    2: { symmetry. specialize (Hend []). unfold ends_with in *. rewrite rev_app_distr. cbn [rev app is_prefix] in *.
         rewrite N.eqb_refl || idtac. by destruct (rev s) as [|x l]; [|cbn in *; destruct (EQUALS =? x)%N]. }
    unfold ends_with. rewrite rev_app_distr. cbn [rev app]. replace (is_prefix _ _) with true by (symmetry; apply (is_prefix_app [EQUALS] (rev s))).
    rewrite take_app_le by lia. by rewrite take_ge by lia.
Qed.

Lemma sextets_length b : length (sextets b) mod 4 <> 1.
Proof.
  induction b as [|a|a b|a b c r IH] using bytes_ind3; cbn [sextets length]; try done.
  replace (S (S (S (S (length (sextets r)))))) with (length (sextets r) + 1 * 4) by lia. by rewrite Nat.Div0.mod_add.
Qed.

Lemma base64url_bytes b : Forall byte b -> bytesFromBase64url (bytesToBase64url b) = Some b.
Proof.
  intros H. rewrite bytesToBase64url_chars by done. unfold bytesFromBase64url.
  rewrite (replace_unit (rx "-" "g") MINUS PLUS), (replace_unit (rx "_" "g") UNDERSCORE SLASH) by done.
  rewrite map_map, (map_ext _ std_char).
  2: { intros c. unfold std_char, PLUS, MINUS, SLASH, UNDERSCORE. rewrite !(N.eqb_sym _ c).
       destruct (N.eqb_spec c 45) as [->|]; [done|]. rewrite (N.eqb_sym _ c). done. }
  unfold padding. rewrite length_map, map_app, map_map, map_repeat.
  pose proof (sextets_small b H) as Hs.
  assert (E : map (fun v => std_char (url_char (b64_char v))) (sextets b) = map b64_char (sextets b)).
  { apply map_ext_Forall. eapply Forall_impl; [exact Hs|]. intros v Hv. cbn beta in *.
    destruct (b64_char_range v Hv) as (_ & _ & H1 & H2). unfold std_char, url_char.
    destruct (N.eqb_spec (b64_char v) PLUS) as [->|]; [done|]. destruct (N.eqb_spec (b64_char v) SLASH) as [->|]; [done|].
    apply N.eqb_neq in H1, H2. by rewrite H1, H2. }
  rewrite E. change (std_char EQUALS) with EQUALS. unfold atob.
  assert (F : List.filter (fun c => negb (ascii_ws c)) (map b64_char (sextets b) ++ repeat EQUALS ((4 - length (sextets b) mod 4) mod 4))
    = map b64_char (sextets b) ++ repeat EQUALS ((4 - length (sextets b) mod 4) mod 4)).
  { rewrite List.filter_app. f_equal.
    - clear E. induction Hs as [|v l Hv _ IH]; [done|]. cbn [map List.filter]. destruct (b64_char_range v Hv) as (_ & -> & _). cbn [negb]. f_equal. exact IH.
    - generalize ((4 - length (sextets b) mod 4) mod 4). intros n. induction n as [|n IH]; [done|]. cbn [repeat List.filter]. change (ascii_ws EQUALS) with false. cbn [negb]. by rewrite IH. }
  rewrite F, <- (length_map b64_char (sextets b)), unpad_repeat; [|..].
  - assert (G : mapM b64_val (map b64_char (sextets b)) = Some (sextets b)).
    { change (map b64_char (sextets b)) with (b64_char <$> sextets b). apply mapM_fmap_Forall_Some.
      eapply Forall_impl; [exact Hs|]. intros v. apply b64_char_val. }
    rewrite G. cbn [mbind option_bind]. by apply sextets_bytes.
  - intros Hin. apply list_elem_of_fmap in Hin as (v & Hv & Hin). rewrite Forall_forall in Hs.
    destruct (b64_char_range v (Hs v Hin)) as [H1 _]. congruence.
  - rewrite length_map. apply sextets_length.
Qed.
(** What [bytesToBase64url] writes is unpadded and in the alphabet of URLs,
    and [bytesFromBase64url] reads the same bytes back. *)
Theorem base64url_roundtrip b : Forall byte b ->
  bytesFromBase64url (bytesToBase64url b) = Some b /\ PLUS ∉ bytesToBase64url b /\ SLASH ∉ bytesToBase64url b /\ EQUALS ∉ bytesToBase64url b.
Proof.
  intros H. split; [by apply base64url_bytes|].
  assert (G : Forall (fun c => c <> PLUS /\ c <> SLASH /\ c <> EQUALS) (bytesToBase64url b)).
  { rewrite bytesToBase64url_chars by done. apply Forall_map. eapply Forall_impl; [by apply sextets_small|].
    intros v Hv. cbn beta in *. destruct (b64_char_range v Hv) as (H1 & _ & _ & _). unfold url_char.
    destruct (N.eqb_spec (b64_char v) PLUS), (N.eqb_spec (b64_char v) SLASH); done. }
  rewrite Forall_forall in G. repeat split; intros Hin; destruct (G _ Hin) as (? & ? & ?); done.
Qed.
Theorem base64url_roundtrip_witness :
  bytesToBase64url [251; 255; 254; 0]%N = u "-__-AA" /\ bytesFromBase64url (bytesToBase64url [251; 255; 254; 0]%N) = Some [251; 255; 254; 0]%N.
Proof.
  split; [vm_compute; reflexivity|]. apply base64url_roundtrip. repeat constructor; vm_compute; reflexivity.
Defined.

(** ** What travels *)

Definition sends (k : jstr) (b : list N) (o : json) : Prop :=
  exists s, prop k o = Some (JStr s) /\ bytesFromBase64url s = Some b.
Lemma sends_b64 k b kv : Forall byte b -> assoc_get k kv = Some (b64 b) -> sends k b (JObj kv).
Proof. intros H E. exists (bytesToBase64url b). split; [exact E|]. by apply base64url_bytes. Qed.

(** The bytes of a credential. *)
Definition cred_bytes (c : Credential) : list N :=
  rawId c ++ clientDataJSON c ++ match attestation c with Some a => attestationObject a | None => [] end
  ++ match assertion c with
     | Some a => authenticatorData a ++ signature a ++ default [] (userHandle a)
     | None => []
     end.

(** The server reads in the JSON of a credential the bytes the authenticator
    made, field by field; a missing user handle is [null]. *)
Theorem credential_read_back c : Forall byte (cred_bytes c) ->
  sends (u "rawId") (rawId c) (credentialToJSON c) /\
  exists r, prop (u "response") (credentialToJSON c) = Some r /\
    sends (u "clientDataJSON") (clientDataJSON c) r /\
    (forall a, attestation c = Some a -> sends (u "attestationObject") (attestationObject a) r) /\
    (forall a, assertion c = Some a ->
      sends (u "authenticatorData") (authenticatorData a) r /\ sends (u "signature") (signature a) r /\
      match userHandle a with
      | Some h => sends (u "userHandle") h r
      | None => prop (u "userHandle") r = Some JNull
      end).
Proof.
  intros H. unfold cred_bytes in H. apply Forall_app in H as [H1 H]. apply Forall_app in H as [H2 H]. apply Forall_app in H as [H3 H4].
  split; [by apply sends_b64|]. eexists. split; [reflexivity|]. split; [by apply sends_b64|]. split.
  - intros a Ha. rewrite Ha in *. by apply sends_b64.
  - intros a Ha. rewrite Ha in *. apply Forall_app in H4 as [H5 H4]. apply Forall_app in H4 as [H6 H7].
    split; [|split].
    + apply sends_b64; [done|]. by destruct (attestation c) as [[o [[|t l]|]]|].
    + apply sends_b64; [done|]. by destruct (attestation c) as [[o [[|t l]|]]|].
    + destruct (userHandle a) as [h|]; [apply sends_b64; [done|]|]; by destruct (attestation c) as [[o [[|t l]|]]|].
Qed.
Theorem credential_read_back_witness :
  let c := mkCredential (u "k") [1; 2]%N (u "public-key") None [255]%N None (Some (mkAssertion [0]%N [7; 7]%N None)) in
  sends (u "rawId") [1; 2]%N (credentialToJSON c).
Proof.
  apply (credential_read_back (mkCredential (u "k") [1; 2]%N (u "public-key") None [255]%N None (Some (mkAssertion [0]%N [7; 7]%N None)))).
  repeat constructor; vm_compute; reflexivity.
Defined.
