(* ===== verification/Decisions.v ===== *)
(** * The « Décisions » workbench (lib/decisions.ts)

    The request built from the two editors, the backend's check of its shape
    (portal-rs/src/decisions.rs) and the rendering of an answer.
    The text of a number inside a JSON value is an argument: it is the
    engine's [Number::toString]. *)

From S2P Require Import JsJson JsNumber JsRegExp Utf8.
From S2P Require Export JsStringify.

Definition MAX_QUESTIONS : nat := 32.
Definition MAX_STATE_BYTES : N := 65536.
Definition MAX_CHOICES : nat := 255.
Definition MAX_LEVELS : nat := 10.

Section decisions.
Context (num_text : Z -> Z -> jstr).

(** ** The two editors *)

Definition parseState (text : jstr) : jstr + json :=
  let trimmed := trim text in
  if streq trimmed [] then inl (u "Le champ « state » est vide.")
  else match json_parse trimmed with Some v => inr v | None => inr (JStr text) end.

Definition prettyJson (text : jstr) : option jstr := pretty num_text [] <$> json_parse text.

(** A built question: what goes into the request. *)
Definition named (id rest : jstr) : jstr := u "La question « " ++ id ++ u " »" ++ rest.
Definition oneQuestion (id : jstr) (raw : json) : jstr + json :=
  match raw with
  | JObj q =>
      let type := string_or_empty (assoc_get (u "type") q) in
      if negb (existsb (streq type) [u "noul"; u "choice"; u "score"])
      then inl (named id (u " : type « " ++ (if streq type [] then u "?" else type) ++ u " » inconnu (noul, choice, score)."))
      else
        match assoc_get (u "instructions") q with
        | Some (JStr instructions) =>
            if streq (trim instructions) [] then inl (named id (u " n'a pas d'énoncé."))
            else
              let question := [(u "type", JStr type); (u "instructions", JStr instructions)] in
              if streq type (u "noul") then inr (JObj question)
              else if streq type (u "choice") then
                match assoc_get (u "criteria") q with
                | Some (JObj criteria) =>
                    let n := length criteria in
                    if (n <? 2) || (MAX_CHOICES <? n)
                    then inl (named id (u " doit offrir 2 à 255 choix."))
                    else inr (JObj (question ++ [(u "criteria", JObj criteria)]))
                | _ => inl (named id (uq " (choice) exige « criteria » : {'valeur': description|null}."))
                end
              else
                match assoc_get (u "criteria") q with
                | Some (JArr criteria) =>
                    if (length criteria <? 2) || (MAX_LEVELS <? length criteria)
                    then inl (named id (u " doit avoir 2 à 10 niveaux."))
                    else if negb (forallb (fun c => match c with JStr _ => true | _ => false end) criteria)
                         then inl (named id (u " : chaque niveau doit être un texte."))
                         else inr (JObj (question ++ [(u "criteria", JArr criteria)]))
                | _ => inl (named id (u " doit avoir 2 à 10 niveaux."))
                end
        | _ => inl (named id (u " n'a pas d'énoncé."))
        end
  | _ => inl (named id (u " doit être un objet."))
  end.

(** [questions[id] = question] on a plain object: the key [__proto__] is its
    prototype and adds no member. *)
Definition put (id : jstr) (q : json) (questions : list (jstr * json)) : list (jstr * json) :=
  if streq id (u "__proto__") then questions else assoc_set id q questions.
Fixpoint build (es : list (jstr * json)) (questions : list (jstr * json)) : jstr + list (jstr * json) :=
  match es with
  | [] => inr questions
  | (id, raw) :: r =>
      if streq id [] || (64 <? length id) then inl (u "Identifiant de question invalide (1 à 64 caractères).")
      else match oneQuestion id raw with
           | inl e => inl e
           | inr q => build r (put id q questions)
           end
  end.

Record Body := mkBody { b_state : json; b_questions : list (jstr * json); b_files : option (list jstr) }.
Definition validatePayload (stateText questionsText : jstr) (files : list jstr) : jstr + Body :=
  match parseState stateText with
  | inl e => inl e
  | inr state =>
      let size := N.of_nat (length (utf8_encode (stringify num_text state))) in
      if (MAX_STATE_BYTES <? size)%N then inl (u "Le « state » dépasse 65536 octets.")
      else
        let text := trim questionsText in
        match json_parse (if streq text [] then u "{}" else text) with
        | None => inl (u "Le JSON des questions est invalide.")
        | Some (JObj kv) =>
            let es := entries kv in
            if length es =? 0 then inl (u "Ajoute au moins une question.")
            else if MAX_QUESTIONS <? length es then inl (u "32 questions au maximum.")
            else match build es [] with
                 | inl e => inl e
                 | inr questions => inr (mkBody state questions (match files with [] => None | _ => Some files end))
                 end
        | Some _ => inl (u "Les questions doivent être un objet (id → question).")
        end
  end.

(** ** The same body at the backend (portal-rs/src/decisions.rs, [validate])

    Its check of the shape; it also measures the state it received, in its own
    text of it. *)

Definition texty (v : json) : bool := match v with JNull | JStr _ => true | _ => false end.
Definition check_noul (criteria : json) : bool :=
  match criteria with
  | JObj kv => forallb (fun e => (streq e.1 (u "true") || streq e.1 (u "false")) && texty e.2) kv
  | _ => false
  end.
Definition backend_question (id : jstr) (q : json) : bool :=
  negb (streq id []) && (length (code_points id) <=? 64) &&
  match q with
  | JObj o =>
      let kind := string_or_empty (assoc_get (u "type") o) in
      match assoc_get (u "instructions") o with
      | Some (JStr _ | JObj _ | JArr _) =>
          if streq kind (u "noul") then match assoc_get (u "criteria") o with Some c => check_noul c | None => true end
          else if streq kind (u "choice") then
            match assoc_get (u "criteria") o with
            | Some (JObj c) => (2 <=? length c) && (length c <=? MAX_CHOICES) && forallb (fun e => texty e.2) c
            | _ => false
            end
          else if streq kind (u "score") then
            match assoc_get (u "criteria") o with
            | Some (JArr c) => (2 <=? length c) && (length c <=? MAX_LEVELS) && forallb (fun v => match v with JStr _ => true | _ => false end) c
            | _ => false
            end
          else false
      | _ => false
      end
  | _ => false
  end.
Definition backend_accepts (b : Body) : bool :=
  negb (match b_state b with JNull => true | _ => false end)
  && negb (length (b_questions b) =? 0) && (length (b_questions b) <=? MAX_QUESTIONS)
  && forallb (fun e => backend_question e.1 e.2) (b_questions b).

(** ** The answer *)

Inductive Choice := ChText (s : jstr) | ChBool (b : bool) | ChNum (m e : Z).
Record DecisionAnswer := mkAnswer {
  a_type : option jstr; a_noul : option num; a_choice : option Choice; a_score : option num;
  a_legend : option (list (jstr * jstr));
  a_probabilities : option (list (Choice * num) + list (jstr * num))
}.
Definition choice_text (c : Choice) : jstr :=
  match c with ChText s => s | ChBool b => u (if b then "true" else "false") | ChNum m e => num_text m e end.

Definition formatProbability (value : option num) : jstr :=
  match value with
  | None | Some S754_nan => u "—"
  | Some v => let p := nmul v (num_of_Z 100) in int_text (math_round p) p ++ u " %"
  end.

Definition answerHeadline (a : DecisionAnswer) : jstr :=
  match a_noul a with
  | Some n => formatProbability (Some n)
  | None =>
      match a_choice a with
      | Some c => choice_text c
      | None =>
          match a_score a with
          | Some s =>
              match assoc_get (int_text (math_round s) s) (default [] (a_legend a)) with
              | Some (c :: r) => to_fixed2 s ++ u " — " ++ c :: r
              | _ => to_fixed2 s
              end
          | None => u "—"
          end
      end
  end.

(** [rows.sort((a, b) => b[1] - a[1])]: stable, by insertion. *)
Fixpoint insert_row (x : jstr * num) (l : list (jstr * num)) : list (jstr * num) :=
  match l with
  | [] => [x]
  | y :: r => if nlt y.2 x.2 then x :: l else y :: insert_row x r
  end.
Definition sort_rows (l : list (jstr * num)) : list (jstr * num) := foldl (fun acc x => insert_row x acc) [] l.
Definition option_rows (a : DecisionAnswer) : list (jstr * num) :=
  match a_probabilities a with
  | None => []
  | Some (inl probs) => map (fun p => (choice_text p.1, p.2)) probs
  | Some (inr probs) =>
      map (fun p => (default p.1 (assoc_get p.1 (default [] (a_legend a))), p.2)) (entries probs)
  end.
Definition answerOptions (a : DecisionAnswer) : list (jstr * num) := sort_rows (option_rows a).

Definition answerTypeLabel (a : DecisionAnswer) : jstr :=
  match a_type a with
  | Some t => if streq t (u "noul") then u "Noul" else if streq t (u "choice") then u "Choice"
              else if streq t (u "score") then u "Score" else t
  | None => u "—"
  end.
Definition answerScale (a : DecisionAnswer) : option jstr :=
  if bool_decide (a_type a = Some (u "score")) then
    match length (answerOptions a) with
    | 0 => None
    | levels => Some (string_of_nat levels ++ u " " ++ u (if 1 <? levels then "niveaux" else "niveau")
                      ++ u " · 0~" ++ string_of_nat (levels - 1))
    end
  else None.
End decisions.

(** The repository's own tests. *)
Definition plain_number (m e : Z) : jstr := string_of_Z m.
Example formatted : prettyJson plain_number (uq "{'a':1,'b':[],'c':[true,{'x':null}]}") = Some (uq "{
  'a': 1,
  'b': [],
  'c': [
    true,
    {
      'x': null
    }
  ]
}").
Proof. vm_compute. reflexivity. Qed.
Example headline : answerHeadline plain_number (mkAnswer (Some (u "score")) None None (Some (num_of_decimal 12 (-1))) (Some [(u "1", u "cette semaine")]) None)
  = u "1.20 — cette semaine" /\ formatProbability (Some (num_of_decimal 7342 (-4))) = u "73 %".
Proof. vm_compute. split; reflexivity. Qed.
Example refused_choice :
  validatePayload plain_number (u "s") (uq "{'c':{'type':'choice','instructions':'?','criteria':{'a':null}}}") []
  = inl (u "La question « c » doit offrir 2 à 255 choix.").
Proof. vm_compute. reflexivity. Qed.
Example numeric_ids_first : map fst (entries [(u "b", 1); (u "10", 2); (u "a", 3); (u "9", 4); (u "01", 5)]) = [u "9"; u "10"; u "b"; u "a"; u "01"].
Proof. vm_compute. reflexivity. Qed.

(** ** What a request holds *)

(** A question as it is sent. *)
Definition good_question (id : jstr) (q : json) : Prop :=
  1 <= length id <= 64 /\
  exists type instructions, prop (u "type") q = Some (JStr type) /\
    prop (u "instructions") q = Some (JStr instructions) /\ trim instructions <> [] /\
    (type = u "noul" /\ prop (u "criteria") q = None \/
     type = u "choice" /\ (exists kv, prop (u "criteria") q = Some (JObj kv) /\ 2 <= length kv <= MAX_CHOICES) \/
     type = u "score" /\ (exists l, prop (u "criteria") q = Some (JArr (map JStr l)) /\ 2 <= length l <= MAX_LEVELS)).

Lemma oneQuestion_good id raw q : 1 <= length id <= 64 -> oneQuestion id raw = inr q -> good_question id q.
Proof.
  intros Hid. unfold oneQuestion. destruct raw as [| | | | |kv]; try done.
  set (type := string_or_empty _). destruct (existsb (streq type) _) eqn:Et; cbn [negb]; [|done].
  destruct (assoc_get (u "instructions") kv) as [[| | |ins| |]|]; try done.
  destruct (streq_spec (trim ins) []) as [|Hi]; [done|].
  destruct (streq_spec type (u "noul")) as [Hn|Hn].
  { intros [= <-]. split; [done|]. exists type, ins. rewrite Hn. split; [done|]. split; [done|]. split; [done|]. by left. }
  destruct (streq_spec type (u "choice")) as [Hc|Hc].
  { destruct (assoc_get (u "criteria") kv) as [[| | | | |criteria]|]; try done.
    destruct (_ || _) eqn:Eb; [done|]. apply orb_false_iff in Eb as [E1 E2]. apply Nat.ltb_ge in E1, E2.
    intros [= <-]. split; [done|]. exists type, ins. rewrite Hc. split; [done|]. split; [done|]. split; [done|].
    right. left. split; [done|]. exists criteria. done. }
  destruct (assoc_get (u "criteria") kv) as [[| | | |criteria|]|]; try done.
  destruct (_ || _) eqn:Eb; [done|]. apply orb_false_iff in Eb as [E1 E2]. apply Nat.ltb_ge in E1, E2.
  destruct (forallb _ criteria) eqn:Ef; cbn [negb]; [|done].
  intros [= <-]. split; [done|]. exists type, ins.
  assert (Hs : type = u "score").
  { cbn [existsb] in Et. destruct (streq_spec type (u "noul")); [done|]. destruct (streq_spec type (u "choice")); [done|].
    by destruct (streq_spec type (u "score")). }
  rewrite Hs. split; [done|]. split; [done|]. split; [done|]. right. right. split; [done|].
  exists (map (fun c => match c with JStr s => s | _ => [] end) criteria). rewrite length_map. split; [|done].
  cbn. do 2 f_equal. rewrite map_map. clear -Ef. induction criteria as [|c l IH]; [done|]. cbn [forallb] in Ef.
  apply andb_true_iff in Ef as [Hc Hl]. cbn [map]. f_equal; [by destruct c|by apply IH].
Qed.

(** What [build] answers, from the questions already built. *)
Lemma build_spec es qs out : build es qs = inr out ->
  (forall id, id <> u "__proto__" -> ((exists raw, (id, raw) ∈ es) \/ is_Some (assoc_get id qs)) -> is_Some (assoc_get id out)) /\
  (Forall (fun e => good_question e.1 e.2) qs -> Forall (fun e => good_question e.1 e.2) out) /\
  length out <= length qs + length es.
Proof.
  revert qs. induction es as [|[id raw] es IH]; intros qs; cbn [build].
  { intros [= <-]. split; [|split; [done|cbn; lia]]. intros id _ [[raw H]|H]; [by apply elem_of_nil in H|done]. }
  destruct (streq_spec id []) as [|Hid]; cbn [orb]; [done|].
  destruct (Nat.ltb_spec 64 (length id)) as [|Hl]; [done|]. destruct (oneQuestion id raw) as [|q] eqn:Eq; [done|]. intros H.
  destruct (IH _ H) as (H1 & H2 & H3). clear IH H.
  assert (G : 1 <= length id <= 64) by (destruct id; [done|cbn in *; lia]).
  split; [|split].
  - intros id' Hp [[raw' [[= -> ->]|Hin]%elem_of_cons]|Hs].
    + apply H1; [done|]. right. unfold put. destruct (streq_spec id (u "__proto__")); [done|]. by rewrite assoc_set_same.
    + apply H1; [done|]. left. by exists raw'.
    + apply H1; [done|]. right. unfold put. destruct (streq_spec id (u "__proto__")); [done|].
      destruct (streq_spec id' id) as [->|]; [by rewrite assoc_set_same|by rewrite assoc_set_other].
  - intros Hq. apply H2. unfold put. destruct (streq id _); [done|].
    apply (assoc_set_Forall (fun k v => good_question k v)); [by eapply oneQuestion_good|done].
  - cbn [length]. assert (length (put id q qs) <= S (length qs)) by (unfold put; destruct (streq id _); [lia|apply length_assoc_set]). lia.
Qed.

Lemma code_points_length s : length (code_points s) <= length s.
Proof.
  induction s as [s IH] using (induction_ltof1 _ (@length N)). unfold ltof in IH.
  destruct s as [|c [|d r]]; [done|cbn [code_points length]; repeat case_match; cbn [length]; lia|].
  assert (H1 := IH (d :: r) ltac:(cbn; lia)). assert (H2 := IH r ltac:(cbn; lia)). revert H1 H2.
  assert (E : exists x, code_points (c :: d :: r) = x :: code_points r \/ code_points (c :: d :: r) = x :: code_points (d :: r))
    by (cbn [code_points]; destruct (is_high c), (is_low d), (is_low c); eauto).
  destruct E as [x [-> | ->]]; generalize (code_points (d :: r)); intros; cbn [length] in *; lia.
Qed.

(** The descriptions of the choices of a question are texts or nothing. *)
Definition choices_texty (q : json) : Prop :=
  forall kv, prop (u "type") q = Some (JStr (u "choice")) -> prop (u "criteria") q = Some (JObj kv) -> forallb (fun e => texty e.2) kv = true.

Lemma good_accepted id q : good_question id q -> (backend_question id q = true <-> choices_texty q).
Proof.
  intros (Hid & type & ins & Ht & Hi & _ & Hc). unfold backend_question, choices_texty.
  assert (I : negb (streq id []) && (length (code_points id) <=? 64) = true).
  { pose proof (code_points_length id). apply andb_true_iff. split; [by destruct id; [cbn in Hid; lia|]|apply Nat.leb_le; lia]. }
  rewrite I. cbn [andb]. destruct q as [| | | | |o]; try done. cbn [prop] in *. rewrite Ht, Hi. cbn [string_or_empty].
  destruct Hc as [[-> Hc]|[[-> (kv & Hc & Hn)]|[-> (l & Hc & Hn)]]]; rewrite Hc.
  - split; [|done]. intros _ kv H. injection H as H. discriminate H.
  - change (streq (u "choice") (u "noul")) with false. change (streq (u "choice") (u "choice")) with true. cbn [andb].
    rewrite (proj2 (Nat.leb_le _ _) (proj1 Hn)), (proj2 (Nat.leb_le _ _) (proj2 Hn)). cbn [andb]. split; [intros H k _ E; injection E as <-; exact H|]. intros H. by apply H.
  - change (streq (u "score") (u "noul")) with false. change (streq (u "score") (u "choice")) with false.
    change (streq (u "score") (u "score")) with true. rewrite length_map.
    rewrite (proj2 (Nat.leb_le _ _) (proj1 Hn)), (proj2 (Nat.leb_le _ _) (proj2 Hn)). cbn [andb].
    assert (F : forallb (fun v => match v with JStr _ => true | _ => false end) (map JStr l) = true) by (clear; by induction l).
    rewrite F. split; [|done]. intros _ kv H. injection H as H. discriminate H.
Qed.

(** C38: A request that passes holds the state of the editor, of at most 64 KiB
    once encoded, one entry per question of the editor (32 at most, the key
    [__proto__] aside), each with a known type, a statement that is not blank,
    and 2 to 255 choices or 2 to 10 levels that are texts.  The backend's own
    check of the shape of this body accepts it unless the state is null, no question is left,
    or a choice is described by something else than a text or null: those
    three pass here and are refused there. *)
Theorem validatePayload_sound num_text st qs files b : validatePayload num_text st qs files = inr b ->
  parseState st = inr (b_state b) /\
  (N.of_nat (length (utf8_encode (stringify num_text (b_state b)))) <= MAX_STATE_BYTES)%N /\
  Forall (fun e => good_question e.1 e.2) (b_questions b) /\ length (b_questions b) <= MAX_QUESTIONS /\
  default [] (b_files b) = files /\
  (exists kv, json_parse (if streq (trim qs) [] then u "{}" else trim qs) = Some (JObj kv) /\ entries kv <> [] /\
    forall id raw, (id, raw) ∈ entries kv -> id <> u "__proto__" -> is_Some (assoc_get id (b_questions b))) /\
  (backend_accepts b = true <-> b_state b <> JNull /\ b_questions b <> [] /\ Forall (fun e => choices_texty e.2) (b_questions b)).
Proof.
  unfold validatePayload. destruct (parseState st) as [|state]; [done|].
  destruct (N.ltb_spec MAX_STATE_BYTES (N.of_nat (length (utf8_encode (stringify num_text state))))) as [|Hs]; [done|].
  destruct (json_parse _) as [[| | | | |kv]|] eqn:Ej; try done.
  destruct (Nat.eqb_spec (length (entries kv)) 0) as [|H0]; [done|].
  destruct (Nat.ltb_spec MAX_QUESTIONS (length (entries kv))) as [|Hm]; [done|].
  destruct (build (entries kv) []) as [|questions] eqn:Eb; [done|]. intros [= <-]. unfold backend_accepts. cbn [b_state b_questions b_files].
  destruct (build_spec _ _ _ Eb) as (H1 & H2 & H3). cbn [length] in H3.
  assert (H2' : Forall (fun e => good_question e.1 e.2) questions) by (by apply H2).
  split; [done|]. split; [done|]. split; [done|]. split; [lia|]. split; [by destruct files|]. split.
  { exists kv. split; [done|]. split; [by intros E; rewrite E in H0|]. intros id raw Hin Hp. apply H1; [done|]. left. by exists raw. }
  assert (Q : forallb (fun e => backend_question e.1 e.2) questions = true <-> Forall (fun e => choices_texty e.2) questions).
  { clear -H2'. induction H2' as [|[id q] l G _ IH]; cbn [forallb]; [by split|].
    rewrite andb_true_iff, IH, Forall_cons. by rewrite (good_accepted id q G). }
  assert (M : length questions <=? MAX_QUESTIONS = true) by (apply Nat.leb_le; lia). rewrite M.
  rewrite andb_true_r, !andb_true_iff, Q. assert (L : negb (length questions =? 0) = true <-> questions <> []) by (by destruct questions).
  rewrite L. destruct state; cbn [negb]; naive_solver.
Qed.
Theorem validatePayload_sound_witness :
  exists b, validatePayload plain_number (u "texte libre") (uq "{'q':{'type':'choice','instructions':'?','criteria':{'a':null,'b':3}}}") [] = inr b /\
    length (b_questions b) <= MAX_QUESTIONS /\ backend_accepts b = false /\ ~ Forall (fun e => choices_texty e.2) (b_questions b).
Proof.
  eexists. split; [vm_compute; reflexivity|].
  destruct (validatePayload_sound plain_number (u "texte libre") (uq "{'q':{'type':'choice','instructions':'?','criteria':{'a':null,'b':3}}}") []
    (mkBody (JStr (u "texte libre")) [(u "q", JObj [(u "type", JStr (u "choice")); (u "instructions", JStr (u "?"));
       (u "criteria", JObj [(u "a", JNull); (u "b", JNum 3 0)])])] None)) as (_ & _ & _ & H & _ & _ & K).
  - vm_compute. reflexivity.
  - split; [exact H|]. split; [vm_compute; reflexivity|]. intros F.
    assert (A : true = false); [|discriminate A]. rewrite <- (proj2 K).
    + vm_compute. reflexivity.
    + split; [discriminate|]. split; [discriminate|exact F].
Defined.

(** The three that the backend refuses. *)
Example null_state_refused :
  (fun b => backend_accepts b) <$> (match validatePayload plain_number (u "null") (uq "{'q':{'type':'noul','instructions':'?'}}") [] with inr b => Some b | inl _ => None end)
  = Some false.
Proof. vm_compute. reflexivity. Qed.
Example plain_request_accepted :
  (fun b => backend_accepts b) <$> (match validatePayload plain_number (u "s") (uq "{'q':{'type':'score','instructions':'?','criteria':['a','b']}}") [] with inr b => Some b | inl _ => None end)
  = Some true.
Proof. vm_compute. reflexivity. Qed.

(** A question called [__proto__] passes the validation and is not sent: the
    request has no question at all. *)
Lemma proto_question_lost :
  validatePayload plain_number (u "s") (uq "{'__proto__':{'type':'noul','instructions':'?'}}") []
  = inr (mkBody (JStr (u "s")) [] None).
Proof. vm_compute. reflexivity. Qed.

(** ** The options of an answer *)

Fixpoint descending (l : list (jstr * num)) : Prop :=
  match l with
  | x :: ((y :: _) as r) => nlt x.2 y.2 = false /\ descending r
  | _ => True
  end.
Lemma insert_row_perm x l : insert_row x l ≡ₚ x :: l.
Proof.
  induction l as [|y l IH]; cbn [insert_row]; [done|]. destruct (nlt y.2 x.2); [done|]. rewrite IH. apply perm_swap.
Qed.
Lemma insert_row_descending x l : descending l -> descending (insert_row x l).
Proof.
  induction l as [|y l IH]; cbn [insert_row]; intros H; [done|].
  destruct (nlt y.2 x.2) eqn:E.
  - split; [by apply nlt_asym|done].
  - destruct l as [|z l]; [by split|]. destruct H as [H1 H2]. specialize (IH H2). cbn [insert_row] in *.
    destruct (nlt z.2 x.2); by split.
Qed.

(** The options are those of the answer, none lost and none added, and no
    option is followed by one with a greater probability. *)
Theorem answerOptions_sorted num_text a :
  answerOptions num_text a ≡ₚ option_rows num_text a /\ descending (answerOptions num_text a).
Proof.
  unfold answerOptions, sort_rows. generalize (option_rows num_text a). intros l.
  assert (G : forall acc, descending acc ->
    foldl (fun acc x => insert_row x acc) acc l ≡ₚ acc ++ l /\ descending (foldl (fun acc x => insert_row x acc) acc l)).
  { induction l as [|x l IH]; intros acc H; cbn [foldl]; [by rewrite app_nil_r|].
    destruct (IH (insert_row x acc)) as [H1 H2]; [by apply insert_row_descending|]. split; [|done].
    rewrite H1, insert_row_perm. cbn [app]. apply Permutation_middle. }
  destruct (G []) as [H1 H2]; [done|]. done.
Qed.
