(* ===== verification/VoiceAudio.v ===== *)
(** * Voice mode, the audio side (lib/voiceAudio.ts, lib/audioRecorder.ts)

    The WAV files sent to the transcription, the microphone's voice detection,
    and the player that schedules the voice as it streams in.  Samples and
    times are doubles ([num]); the audio graph, the microphone and the clock
    are the browser's: a frame, a chunk and the current time are arguments. *)

From S2P Require Import JsString JsNumber.

Definition PREROLL_MS : num := num_of_Z 350.
Definition START_MS : num := num_of_Z 120.
Definition START_MS_GUARDED : num := num_of_Z 300.
Definition END_SILENCE_MS : num := num_of_Z 800.
Definition CONFIRM_MS : num := num_of_Z 700.
Definition MIN_UTTERANCE_MS : num := num_of_Z 350.
Definition MAX_UTTERANCE_MS : num := num_of_Z 30000.
Definition WAV_RATE : Z := 16000.
Definition VOICE_TARGET_SAMPLE_RATE : Z := 24000.

(** [a >= b] *)
Definition nge (a b : num) : bool := nle b a.
Definition len_num {A} (l : list A) : num := num_of_Z (Z.of_nat (length l)).

(** ** WAV files *)

(** A DataView's little-endian writes, with their wrap-around. *)
Definition le16 (n : Z) : list Z := [n mod 256; n / 256 mod 256]%Z.
Definition le32 (n : Z) : list Z := [n mod 256; n / 256 mod 256; n / 65536 mod 256; n / 16777216 mod 256]%Z.
Definition ascii (s : String.string) : list Z := map Z.of_N (u s).
Arguments ascii s%_string_scope.

(** The 44 bytes both writers put first; [len] is the byte length of the data. *)
Definition wav_header (rate len : Z) : list Z :=
  (ascii "RIFF" ++ le32 (36 + len) ++ ascii "WAVE"
   ++ ascii "fmt " ++ le32 16 ++ le16 1 ++ le16 1
   ++ le32 rate ++ le32 (rate * 2) ++ le16 2 ++ le16 16
   ++ ascii "data" ++ le32 len)%Z.
Definition wav_file (rate : Z) (samples : list Z) : list Z :=
  wav_header rate (2 * Z.of_nat (length samples)) ++ flat_map le16 samples.

Definition clamp (v : num) : num := nmax (num_of_Z (-1)) (nmin (num_of_Z 1) v).
(** [out[k] = v * 0x7fff] *)
Definition pcm16 (v : num) : Z := math_trunc (nmul (clamp v) (num_of_Z 32767)).

(** The averaging decimation: the running sum of the samples since the last
    one written, and where the next one falls. *)
Record Decim := mkDecim { d_k : nat; d_acc : num; d_cnt : Z; d_pos : Z; d_next : num; d_out : list Z }.
Definition decim_step (ratio : num) (n : nat) (d : Decim) (c : num) : Decim :=
  let acc := nadd (d_acc d) c in
  let cnt := (d_cnt d + 1)%Z in
  if nge (num_of_Z (d_pos d + 1)) (d_next d) && (d_k d <? n)
  then mkDecim (S (d_k d)) (num_of_Z 0) 0 (d_pos d + 1) (nadd (d_next d) ratio) (d_out d ++ [pcm16 (ndiv acc (num_of_Z cnt))])
  else mkDecim (d_k d) acc cnt (d_pos d + 1) (d_next d) (d_out d).
Definition decimate (chunks : list (list num)) (rate : num) : list Z :=
  let total := concat chunks in
  let ratio := ndiv rate (num_of_Z WAV_RATE) in
  let n := Z.to_nat (default 0%Z (math_floor (ndiv (len_num total) ratio))) in
  let out := d_out (foldl (decim_step ratio n) (mkDecim 0 (num_of_Z 0) 0 0 ratio []) total) in
  out ++ repeat 0%Z (n - length out).
Definition toWav (chunks : list (list num)) (rate : num) : list Z := wav_file WAV_RATE (decimate chunks rate).

(** lib/audioRecorder.ts: the negative half has its own factor. *)
Definition pcm16_signed (v : num) : Z :=
  let c := clamp v in
  math_trunc (if nlt c (num_of_Z 0) then nmul c (num_of_Z 32768) else nmul c (num_of_Z 32767)).
Definition encodeWav (samples : list num) (sampleRate : Z) : list Z := wav_file sampleRate (map pcm16_signed samples).
(** The frames to ask of the browser's resampler. *)
Definition resample_frames (len : nat) (sourceRate targetRate : num) : Z :=
  Z.max 1 (default 0%Z (math_round (nmul (ndiv (num_of_Z (Z.of_nat len)) sourceRate) targetRate))).

(** The recorder: what it captured and whether it let go of the microphone. *)
Record RecorderState := mkRec { r_chunks : list (list num); r_released : bool; r_tracks_stopped : nat }.
Section recorder.
(** [resampleMonoTo]'s offline rendering and the context's rate. *)
Context (resample : list num -> Z -> list num) (same_rate : bool).
Definition audio_process (input : list num) (s : RecorderState) : RecorderState :=
  mkRec (r_chunks s ++ [input]) (r_released s) (r_tracks_stopped s).
Definition release (s : RecorderState) : RecorderState :=
  if r_released s then s else mkRec (r_chunks s) true (S (r_tracks_stopped s)).
Definition buildWav (s : RecorderState) : option (list Z) :=
  let pcm := concat (r_chunks s) in
  if length pcm =? 0 then None
  else Some (encodeWav (if same_rate then pcm else resample pcm VOICE_TARGET_SAMPLE_RATE) VOICE_TARGET_SAMPLE_RATE).
Definition stop_recording (s : RecorderState) : list Z * RecorderState :=
  (default (encodeWav [num_of_Z 0] VOICE_TARGET_SAMPLE_RATE) (buildWav s), release s).
End recorder.

(** ** The microphone *)

Notation frame := (list num).
Record Mic := mkMic {
  level : num; muted : bool; guard : bool;
  pre : list frame; utt : option (list frame);
  noise : num; loudMs : num; quietMs : num; uttMs : num; confirmed : bool
}.
Definition mic_open : Mic :=
  mkMic (num_of_Z 0) false false [] None (num_of_decimal 4 (-3)) (num_of_Z 0) (num_of_Z 0) (num_of_Z 0) false.

Inductive MicEvent := SpeechStart | SpeechConfirmed | SpeechEnd (wav : option (list Z)) (conf : bool).

Definition dec (m e : Z) : num := num_of_decimal m e.
Definition rms_of (f : frame) : num :=
  nsqrt (ndiv (foldl (fun s x => nadd s (nmul x x)) (num_of_Z 0) f) (len_num f)).
(** The preroll: frames dropped from the front while more than 350 ms and more
    than one frame are kept. *)
Fixpoint trim_pre (rate : num) (l : list frame) (kept : Z) : list frame :=
  match l with
  | [] => []
  | f :: rest =>
      match rest with
      | [] => l
      | _ => if nlt PREROLL_MS (nmul (ndiv (num_of_Z kept) rate) (num_of_Z 1000))
             then trim_pre rate rest (kept - Z.of_nat (length f)) else l
      end
  end.
Definition samples (l : list frame) : Z := Z.of_nat (length (concat l)).

Definition process (rate : num) (f : frame) (m : Mic) : Mic * list MicEvent :=
  let ms := nmul (ndiv (len_num f) rate) (num_of_Z 1000) in
  let rms := rms_of f in
  let lv := nadd (nmul (level m) (dec 7 (-1))) (nmul (nmin (num_of_Z 1) (nmul rms (num_of_Z 12))) (dec 3 (-1))) in
  if muted m then (mkMic lv true (guard m) (pre m) None (noise m) (num_of_Z 0) (quietMs m) (uttMs m) (confirmed m), [])
  else
    let threshold := nmul (nmax (dec 12 (-3)) (nmul (noise m) (num_of_Z 3))) (if guard m then dec 22 (-1) else num_of_Z 1) in
    let loud := nlt threshold rms in
    match utt m with
    | None =>
        let noise' := if loud then noise m else nadd (nmul (noise m) (dec 97 (-2))) (nmul rms (dec 3 (-2))) in
        let pre' := trim_pre rate (pre m ++ [f]) (samples (pre m ++ [f])) in
        let loudMs' := if loud then nadd (loudMs m) ms else num_of_Z 0 in
        if nge loudMs' (if guard m then START_MS_GUARDED else START_MS)
        then (mkMic lv false (guard m) [] (Some pre') noise' loudMs' (num_of_Z 0) (nadd loudMs' PREROLL_MS) false, [SpeechStart])
        else (mkMic lv false (guard m) pre' None noise' loudMs' (quietMs m) (uttMs m) (confirmed m), [])
    | Some us =>
        let us' := us ++ [f] in
        let uttMs' := nadd (uttMs m) ms in
        let quietMs' := if loud then num_of_Z 0 else nadd (quietMs m) ms in
        let now_confirmed := negb (confirmed m) && nge (nsub uttMs' quietMs') CONFIRM_MS in
        let conf := confirmed m || now_confirmed in
        let e := if now_confirmed then [SpeechConfirmed] else [] in
        if nge quietMs' END_SILENCE_MS || nge uttMs' MAX_UTTERANCE_MS
        then let spoken := nsub uttMs' quietMs' in
             (mkMic lv false (guard m) (pre m) None (noise m) (num_of_Z 0) quietMs' uttMs' conf,
              e ++ [SpeechEnd (if nge spoken MIN_UTTERANCE_MS then Some (toWav us' rate) else None) conf])
        else (mkMic lv false (guard m) (pre m) (Some us') (noise m) (loudMs m) quietMs' uttMs' conf, e)
    end.

Definition snapshot (rate : num) (m : Mic) : option (list Z) :=
  match utt m with Some (x :: l) => Some (toWav (x :: l) rate) | _ => None end.
Definition speaking (m : Mic) : bool := bool_decide (is_Some (utt m)).

(** What happens to an open microphone. *)
Inductive MicInput := Frame (f : frame) | SetMuted (b : bool) | SetGuard (b : bool).
Definition mic_step (rate : num) (m : Mic) (i : MicInput) : Mic * list MicEvent :=
  match i with
  | Frame f => process rate f m
  | SetMuted b => (mkMic (level m) b (guard m) (pre m) (utt m) (noise m) (loudMs m) (quietMs m) (uttMs m) (confirmed m), [])
  | SetGuard b => (mkMic (level m) (muted m) b (pre m) (utt m) (noise m) (loudMs m) (quietMs m) (uttMs m) (confirmed m), [])
  end.
Fixpoint mic_run (rate : num) (m : Mic) (ins : list MicInput) : Mic * list MicEvent :=
  match ins with
  | [] => (m, [])
  | i :: r => let '(m1, e1) := mic_step rate m i in let '(m2, e2) := mic_run rate m1 r in (m2, e1 ++ e2)
  end.

(** ** WAV files read back *)

(** A reader of the canonical header: rate and samples, if every field agrees
    with the length of the file. *)
Definition rd16 (l : list Z) (o : nat) : Z := (nth o l 0 + 256 * nth (o + 1) l 0)%Z.
Definition rd32 (l : list Z) (o : nat) : Z := (rd16 l o + 65536 * rd16 l (o + 2))%Z.
Definition signed16 (n : Z) : Z := if (n <? 32768)%Z then n else (n - 65536)%Z.
Fixpoint read_samples (l : list Z) : list Z :=
  match l with a :: b :: r => signed16 (a + 256 * b) :: read_samples r | _ => [] end.
Definition read_wav (f : list Z) : option (Z * list Z) :=
  if bool_decide (take 4 f = ascii "RIFF") && bool_decide (take 8 (drop 8 f) = ascii "WAVEfmt ")
     && (rd32 f 16 =? 16)%Z && (rd16 f 20 =? 1)%Z && (rd16 f 22 =? 1)%Z && (rd16 f 34 =? 16)%Z
     && (rd32 f 28 =? rd32 f 24 * 2)%Z && (rd16 f 32 =? 2)%Z && bool_decide (take 4 (drop 36 f) = ascii "data")
     && (rd32 f 4 =? Z.of_nat (length f) - 8)%Z && (rd32 f 40 =? Z.of_nat (length f) - 44)%Z
  then Some (rd32 f 24, read_samples (drop 44 f)) else None.

Lemma rd32_le32 n : (0 <= n < 4294967296)%Z -> (n mod 256 + 256 * (n / 256 mod 256) + 65536 * (n / 65536 mod 256 + 256 * (n / 16777216 mod 256)) = n)%Z.
Proof.
  intros H. replace (n / 65536)%Z with (n / 256 / 256)%Z by (rewrite Z.div_div by lia; done).
  replace (n / 16777216)%Z with (n / 256 / 256 / 256)%Z by (rewrite !Z.div_div by lia; done).
  Z.to_euclidean_division_equations. lia.
Qed.
Lemma read_samples_le16 l : Forall (fun s => -32768 <= s < 32768)%Z l -> read_samples (flat_map le16 l) = l.
Proof.
  induction 1 as [|s l Hs _ IH]; [done|]. cbn [flat_map le16 app read_samples]. rewrite IH. f_equal.
  unfold signed16. destruct (Z.ltb_spec (s mod 256 + 256 * (s / 256 mod 256)) 32768); Z.to_euclidean_division_equations; lia.
Qed.
Lemma length_le16 l : length (flat_map le16 l) = 2 * length l.
Proof. induction l as [|s l IH]; [done|]. cbn [flat_map le16 app length]. rewrite IH. lia. Qed.

Lemma read_wav_file rate samples : (0 <= rate < 2147483648)%Z -> (Z.of_nat (length samples) < 2147483000)%Z ->
  Forall (fun s => -32768 <= s < 32768)%Z samples ->
  read_wav (wav_file rate samples) = Some (rate, samples).
Proof.
  intros Hr Hl Hs. unfold wav_file, wav_header. set (len := (2 * Z.of_nat (length samples))%Z).
  set (body := flat_map le16 samples).
  assert (HL : Z.of_nat (length body) = len) by (unfold body; rewrite length_le16; lia).
  assert (HB : read_samples body = samples) by (by apply read_samples_le16). clearbody body.
  change (ascii "RIFF") with [82; 73; 70; 70]%Z. change (ascii "WAVE") with [87; 65; 86; 69]%Z.
  change (ascii "fmt ") with [102; 109; 116; 32]%Z. change (ascii "data") with [100; 97; 116; 97]%Z.
  cbn [app le16 le32]. set (file := (82 :: _)%Z).
  assert (HF : Z.of_nat (length file) = (44 + len)%Z) by (unfold file; cbn [length]; lia).
  unfold read_wav. rewrite HF. unfold rd32, rd16, file. cbn [nth Nat.add take drop].
  rewrite !rd32_le32 by lia.
  rewrite !bool_decide_eq_true_2 by (vm_compute; reflexivity). cbn [andb].
  replace (36 + len =? 44 + len - 8)%Z with true by (symmetry; apply Z.eqb_eq; lia).
  replace (len =? 44 + len - 44)%Z with true by (symmetry; apply Z.eqb_eq; lia).
  rewrite (Z.eqb_refl (rate * 2)), drop_0, HB. reflexivity.
Qed.

Lemma pcm_range s : (-32768 <= signed16 (s mod 65536) < 32768)%Z.
Proof. unfold signed16. destruct (Z.ltb_spec (s mod 65536) 32768); Z.to_euclidean_division_equations; lia. Qed.

(** The samples a reader gets: the values written, wrapped to 16 bits. *)
Lemma le16_wrap s : le16 s = le16 (signed16 (s mod 65536)).
Proof.
  unfold signed16, le16. destruct (Z.ltb_spec (s mod 65536) 32768);
    (f_equal; [|f_equal]); Z.to_euclidean_division_equations; lia.
Qed.
Lemma wav_file_wrap rate l : wav_file rate l = wav_file rate (map (fun s => signed16 (s mod 65536)) l).
Proof.
  unfold wav_file. rewrite length_map. f_equal. induction l as [|s l IH]; [done|]. cbn [flat_map map].
  by rewrite (le16_wrap s), IH.
Qed.

Lemma decim_length ratio n total d : d_k d = length (d_out d) -> d_k d <= n ->
  length (d_out (foldl (decim_step ratio n) d total)) <= n.
Proof.
  revert d. induction total as [|c l IH]; intros d H1 H2; cbn [foldl]; [lia|].
  apply IH; unfold decim_step; destruct (nge _ _); cbn [andb d_k d_out]; try lia;
    destruct (Nat.ltb_spec (d_k d) n); cbn [d_k d_out]; rewrite ?length_app; cbn [length]; lia.
Qed.
(** The number of samples [toWav] writes. *)
Lemma decimate_length chunks rate : length (decimate chunks rate)
  = Z.to_nat (default 0%Z (math_floor (ndiv (len_num (concat chunks)) (ndiv rate (num_of_Z WAV_RATE))))).
Proof.
  unfold decimate. cbv zeta. set (n := Z.to_nat _). rewrite length_app, repeat_length.
  pose proof (decim_length (ndiv rate (num_of_Z WAV_RATE)) n (concat chunks) (mkDecim 0 (num_of_Z 0) 0 0 (ndiv rate (num_of_Z WAV_RATE)) []) eq_refl) as H.
  cbn [d_k] in H. specialize (H (Nat.le_0_l n)). lia.
Qed.

(** The transcription receives a well-formed WAV whatever the microphone
    gave: every size of the header agrees with the length of the file, the rate
    is 16 kHz, mono, 16 bits, and there are exactly as many samples as the
    header says, [floor(total / ratio)]. *)
Theorem toWav_readable chunks rate : 
  let n := Z.to_nat (default 0%Z (math_floor (ndiv (len_num (concat chunks)) (ndiv rate (num_of_Z WAV_RATE))))) in
  (Z.of_nat n < 2147483000)%Z ->
  exists samples, read_wav (toWav chunks rate) = Some (WAV_RATE, samples) /\ length samples = n.
Proof.
  intros n Hn. unfold toWav. rewrite wav_file_wrap. eexists. split.
  - apply read_wav_file; [unfold WAV_RATE; lia|rewrite length_map, decimate_length; exact Hn|].
    apply Forall_map, Forall_true. intros s. apply pcm_range.
  - by rewrite length_map, decimate_length.
Qed.
Theorem toWav_readable_witness :
  exists samples, read_wav (toWav [[dec 5 (-1); dec 5 (-1)]; [num_of_Z 2; num_of_Z 2; num_of_Z 0; num_of_Z 0; num_of_Z 7]] (num_of_Z 32000)) = Some (16000%Z, samples)
    /\ length samples = 3.
Proof.
  apply (toWav_readable [[dec 5 (-1); dec 5 (-1)]; [num_of_Z 2; num_of_Z 2; num_of_Z 0; num_of_Z 0; num_of_Z 7]] (num_of_Z 32000)).
  vm_compute. reflexivity.
Defined.
Example toWav_values : read_wav (toWav [[dec 5 (-1); dec 5 (-1)]; [num_of_Z 2; num_of_Z 2; num_of_Z (-1); num_of_Z 0; num_of_Z 7]] (num_of_Z 32000))
  = Some (16000, [16383; 32767; -16383])%Z.
Proof. vm_compute. reflexivity. Qed.

(** ** What the microphone reports *)

(** The reports as its listener may see them: each sentence is a start, at
    most one confirmation, then its end with the matching flag; a start may
    also follow a start whose sentence a mute dropped. *)
Inductive Heard := Quiet | Started | Confirmed.
Definition hear (s : Heard) (e : MicEvent) : option Heard :=
  match e, s with
  | SpeechStart, Quiet => Some Started
  | SpeechConfirmed, Started => Some Confirmed
  | SpeechEnd _ false, Started => Some Quiet
  | SpeechEnd _ true, Confirmed => Some Quiet
  | _, _ => None
  end.
Fixpoint hear_all (s : Heard) (es : list MicEvent) : option Heard :=
  match es with [] => Some s | e :: r => s' ← hear s e; hear_all s' r end.
Definition heard (m : Mic) : Heard :=
  match utt m with None => Quiet | Some _ => if confirmed m then Confirmed else Started end.
Definition never_muted (i : MicInput) : bool := match i with SetMuted b => negb b | _ => true end.

Lemma hear_all_app s es es' : hear_all s (es ++ es') = s' ← hear_all s es; hear_all s' es'.
Proof. revert s. induction es as [|e es IH]; intros s; cbn [app hear_all]; [done|]. destruct (hear s e); [apply IH|done]. Qed.
Lemma process_heard rate f m : muted m = false -> let '(m', es) := process rate f m in hear_all (heard m) es = Some (heard m') /\ muted m' = false.
Proof.
  intros Hm. unfold process, heard. rewrite Hm. destruct (utt m) as [us|].
  - destruct (confirmed m); cbn [negb andb orb].
    + destruct (_ || _); cbn; done.
    + destruct (nge (nsub _ _) CONFIRM_MS); cbn [app]; destruct (_ || _); cbn; done.
  - destruct (nge _ _); done.
Qed.

(** While the microphone is not muted, what it reports is a sequence of
    whole sentences: a start, at most one confirmation, then the end, which
    says whether the sentence had been confirmed. *)
Theorem mic_reports_sentences rate ins : forallb never_muted ins = true ->
  hear_all Quiet (mic_run rate mic_open ins).2 = Some (heard (mic_run rate mic_open ins).1).
Proof.
  intros H. change Quiet with (heard mic_open). assert (Hm : muted mic_open = false) by done. revert H Hm.
  generalize mic_open. induction ins as [|i ins IH]; intros m H Hm; [done|].
  cbn [forallb] in H. apply andb_true_iff in H as [Hi H]. cbn [mic_run].
  destruct (mic_step rate m i) as [m1 e1] eqn:E1. destruct (mic_run rate m1 ins) as [m2 e2] eqn:E2.
  assert (G : hear_all (heard m) e1 = Some (heard m1) /\ muted m1 = false).
  { destruct i as [f|b|b]; cbn [mic_step] in E1.
    - pose proof (process_heard rate f m Hm) as P. by rewrite E1 in P.
    - injection E1 as <- <-. destruct b; done.
    - injection E1 as <- <-. done. }
  destruct G as [G1 G2]. specialize (IH m1 H G2). rewrite E2 in IH. cbn [fst snd] in *.
  by rewrite hear_all_app, G1.
Qed.

(** A frame of 200 ms at 100 Hz. *)
Definition test_frame (v : num) : frame := repeat v 20.
Theorem mic_reports_sentences_witness :
  let loud := Frame (test_frame (dec 5 (-1))) in
  let quiet := Frame (test_frame (num_of_Z 0)) in
  let ins := [loud; loud; SetGuard true; loud; quiet; quiet; quiet; quiet] in
  hear_all Quiet (mic_run (num_of_Z 100) mic_open ins).2 = Some Quiet.
Proof.
  cbv zeta. rewrite (mic_reports_sentences (num_of_Z 100) [Frame (test_frame (dec 5 (-1))); Frame (test_frame (dec 5 (-1))); SetGuard true;
    Frame (test_frame (dec 5 (-1))); Frame (test_frame (num_of_Z 0)); Frame (test_frame (num_of_Z 0));
    Frame (test_frame (num_of_Z 0)); Frame (test_frame (num_of_Z 0))] eq_refl).
  vm_compute. reflexivity.
Defined.

(** Muting drops the sentence under way without any report: the listener that
    lowered the voice at the start is never told to restore it. *)
Lemma mute_drops_the_end :
  let loud := Frame (test_frame (dec 5 (-1))) in
  let quiet := Frame (test_frame (num_of_Z 0)) in
  (mic_run (num_of_Z 100) mic_open [loud; SetMuted true; quiet; SetMuted false; quiet; quiet; quiet; quiet; quiet]).2 = [SpeechStart].
Proof. vm_compute. reflexivity. Qed.

(** ** The player *)

Record Seg := mkSeg { charStart : Z; charEnd : Z; seg_start : option num; seg_end : num; seg_done : bool }.
(** [started] is what was handed to the audio graph: when, and the samples. *)
Record Player := mkPlayer {
  p_muted : bool; ducked : bool; gain : num;
  segments : list Seg; nextTime : num; started : list (num * list num)
}.
Definition player_new : Player := mkPlayer false false (num_of_Z 1) [] (num_of_Z 0) [].

Definition START_BUFFER_S : num := dec 5 (-1).
Definition REBUFFER_S : num := dec 35 (-2).
Definition CHARS_PER_S : num := num_of_Z 14.

Definition voice_gain (muted ducked : bool) : num :=
  if muted then num_of_Z 0 else if ducked then dec 25 (-2) else num_of_Z 1.
Definition set_muted (b : bool) (p : Player) : Player :=
  mkPlayer b (ducked p) (voice_gain b (ducked p)) (segments p) (nextTime p) (started p).
(** The gain reaches its target within a few time constants. *)
Definition duck (b : bool) (p : Player) : Player :=
  mkPlayer (p_muted p) b (voice_gain (p_muted p) b) (segments p) (nextTime p) (started p).

Section player.
Context (rate : num).   (* [X-Sample-Rate], or 24000 *)

Definition duration (b : list num) : num := ndiv (len_num b) rate.

(** [schedule(buffer, seg)] at the current time. *)
Definition schedule (now : num) (b : list num) (s : Player * Seg) : Player * Seg :=
  let '(p, seg) := s in
  let at_ := nmax (nadd now (dec 3 (-2))) (nextTime p) in
  let next := nadd at_ (duration b) in
  (mkPlayer (p_muted p) (ducked p) (gain p) (segments p) next (started p ++ [(at_, b)]),
   mkSeg (charStart seg) (charEnd seg) (match seg_start seg with None => Some at_ | x => x end) next (seg_done seg)).

(** The loop of [speak]: what it carries from one chunk to the next. *)
Record Arrival := mkArrival { carry : list N; pending : list (list num); pendingS : num }.
Definition arrival_start : Arrival := mkArrival [] [] (num_of_Z 0).

(** A byte pair as a little-endian 16-bit sample over 0x8000. *)
Definition sample_of (lo hi : N) : num :=
  let n := (Z.of_N lo + 256 * Z.of_N hi)%Z in
  ndiv (num_of_Z (signed16 n)) (num_of_Z 32768).
Fixpoint pcm (bytes : list N) : list num :=
  match bytes with a :: b :: r => sample_of a b :: pcm r | _ => [] end.

Definition flush (now : num) (a : Arrival) (s : Player * Seg) : Arrival * (Player * Seg) :=
  (mkArrival (carry a) [] (num_of_Z 0), foldl (fun s b => schedule now b s) s (pending a)).
Definition chunk (now : num) (value : list N) (st : Arrival * (Player * Seg)) : Arrival * (Player * Seg) :=
  let '(a, (p, seg)) := st in
  let joined := carry a ++ value in
  let cut := length joined - length joined mod 2 in
  let bytes := take cut joined in
  let a1 := mkArrival (drop cut joined) (pending a) (pendingS a) in
  match bytes with
  | [] => (a1, (p, seg))
  | _ =>
      let b := pcm bytes in
      let starving := nlt (nextTime p) (nadd now (dec 5 (-2))) in
      if starving || match pending a1 with [] => false | _ => true end then
        let a2 := mkArrival (carry a1) (pending a1 ++ [b]) (nadd (pendingS a1) (duration b)) in
        if nge (pendingS a2) (match seg_start seg with None => START_BUFFER_S | Some _ => REBUFFER_S end)
        then flush now a2 (p, seg) else (a2, (p, seg))
      else (a1, schedule now b (p, seg))
  end.

(** A reply that is not a voice: the segment is closed at once. *)
Definition speak_refused (now : num) (cs ce : Z) (p : Player) : Player :=
  mkPlayer (p_muted p) (ducked p) (gain p) (segments p ++ [mkSeg cs ce (Some now) now true]) (nextTime p) (started p).
(** The whole arrival of a sentence: the chunks with their times, then the end. *)
Definition speak (arrivals : list (num * list N)) (end_time : num) (cs ce : Z) (p : Player) : Player :=
  let st := foldl (fun st c => chunk c.1 c.2 st) (arrival_start, (p, mkSeg cs ce None (num_of_Z 0) false)) arrivals in
  let '(_, (p', seg)) := flush end_time st.1 st.2 in
  mkPlayer (p_muted p') (ducked p') (gain p')
    (segments p' ++ [mkSeg (charStart seg) (charEnd seg) (seg_start seg) (seg_end seg) true]) (nextTime p') (started p').
End player.

(** How many characters have been said. *)
Fixpoint spoken_loop (now : num) (segs : list Seg) (said : Z) : Z :=
  match segs with
  | [] => said
  | s :: r =>
      match seg_start s with
      | None => Z.max said (charStart s)
      | Some st =>
          if nlt now st then Z.max said (charStart s)
          else
            let chars := num_of_Z (charEnd s - charStart s) in
            let span := if seg_done s then nsub (seg_end s) st
                        else nmax (nsub (seg_end s) st) (ndiv chars CHARS_PER_S) in
            let frac := if nlt (num_of_Z 0) span then nmin (num_of_Z 1) (ndiv (nsub now st) span) else num_of_Z 1 in
            let said' := (charStart s + default 0 (math_round (nmul frac chars)))%Z in
            if nlt frac (num_of_Z 1) then said' else spoken_loop now r said'
      end
  end.
Definition spokenChars (now : num) (p : Player) : Z := spoken_loop now (segments p) 0.
Definition idle (now : num) (p : Player) : bool := nge now (nextTime p) && forallb seg_done (segments p).
Definition stop (p : Player) : Player :=
  mkPlayer (p_muted p) false (voice_gain (p_muted p) false) [] (num_of_Z 0) [].

(** ** Nothing of the voice is lost *)

Definition played (p : Player) : list num := concat (map snd (started p)).

Lemma pcm_app a b : length a mod 2 = 0 -> pcm (a ++ b) = pcm a ++ pcm b.
Proof.
  intros H. assert (E : exists k, length a = 2 * k) by (exists (length a / 2); rewrite (Nat.div_mod (length a) 2) at 1 by lia; lia).
  destruct E as [k E]. revert a E H. induction k as [|k IH]; intros a E H.
  - assert (a = []) as -> by (destruct a; [done|cbn in E; lia]). done.
  - destruct a as [|x [|y a]]; [done|cbn in E; lia|]. cbn [app pcm]. rewrite IH; [done|cbn in E; lia|].
    assert (length a = 2 * k) as -> by (cbn in E; lia). rewrite Nat.mul_comm. apply Nat.Div0.mod_mul.
Qed.
Lemma schedule_played rate now b p seg : played (schedule rate now b (p, seg)).1 = played p ++ b.
Proof. unfold played. cbn. rewrite map_app, concat_app. cbn. by rewrite app_nil_r. Qed.
Lemma flush_played rate now a s : let '(a', s') := flush rate now a s in
  played s'.1 = played s.1 ++ concat (pending a) /\ pending a' = [] /\ carry a' = carry a.
Proof.
  unfold flush. split; [|done]. generalize (pending a). intros l. revert s. induction l as [|b l IH]; intros [p seg]; cbn [foldl concat fst].
  { by rewrite app_nil_r. }
  rewrite IH. rewrite schedule_played. by rewrite <- app_assoc.
Qed.
Lemma chunk_played rate now v a p seg : length (carry a) < 2 ->
  let '(a', s') := chunk rate now v (a, (p, seg)) in
  (exists bytes, carry a ++ v = bytes ++ carry a' /\ length bytes mod 2 = 0 /\
    played s'.1 ++ concat (pending a') = (played p ++ concat (pending a)) ++ pcm bytes) /\ length (carry a') < 2.
Proof.
  intros Hc. unfold chunk. set (joined := carry a ++ v). set (cut := length joined - length joined mod 2).
  assert (Hm : length joined mod 2 < 2) by (apply Nat.mod_upper_bound; lia).
  assert (HB : length (take cut joined) mod 2 = 0).
  { rewrite length_take. pose proof (Nat.div_mod (length joined) 2 ltac:(lia)) as E.
    replace (_ `min` _) with (length joined / 2 * 2) by (unfold cut; lia). apply Nat.Div0.mod_mul. }
  assert (HD : length (drop cut joined) < 2) by (rewrite length_drop; unfold cut; lia).
  pose proof (take_drop cut joined) as HJ.
  destruct (take cut joined) as [|x bytes] eqn:Eb.
  { split; [|exact HD]. exists []. split; [exact (eq_sym HJ)|]. split; [done|]. cbn. by rewrite app_nil_r. }
  set (b := pcm (x :: bytes)).
  destruct (_ || _) eqn:Eo.
  - destruct (nge _ _).
    + pose proof (flush_played rate now (mkArrival (drop cut joined) (pending a ++ [b]) (nadd (pendingS a) (duration rate b))) (p, seg)) as F.
      cbn [carry pending pendingS] in *. destruct (flush _ _ _ _) as [a' s']. destruct F as (F1 & F2 & F3). rewrite F3. split; [|exact HD].
      exists (x :: bytes). split; [exact (eq_sym HJ)|]. split; [done|]. rewrite F1, F2, concat_app. cbn. by rewrite !app_nil_r, app_assoc.
    + split; [|exact HD]. exists (x :: bytes). split; [exact (eq_sym HJ)|]. split; [done|]. cbn. rewrite concat_app. cbn. by rewrite app_nil_r, app_assoc.
  - split; [|exact HD]. exists (x :: bytes). split; [exact (eq_sym HJ)|]. split; [done|].
    apply orb_false_iff in Eo as [_ Ep]. cbn [pending] in *. destruct (pending a); [|done].
    cbn [concat]. rewrite !app_nil_r. apply schedule_played.
Qed.

(** Whatever the chunks the voice arrives in, and however it is buffered,
    all of it is handed to the audio graph, in order: the samples of the bytes
    received, decoded two by two (a last odd byte aside). *)
Theorem speak_plays_all rate arrivals end_time cs ce p :
  played (speak rate arrivals end_time cs ce p) = played p ++ pcm (concat (map snd arrivals)).
Proof.
  unfold speak. set (seg := mkSeg cs ce None _ false).
  assert (G : forall l a p seg, length (carry a) < 2 ->
    let '(a', s') := foldl (fun st c => chunk rate c.1 c.2 st) (a, (p, seg)) l in
    played s'.1 ++ concat (pending a') = (played p ++ concat (pending a)) ++ pcm (carry a ++ concat (map snd l))).
  { induction l as [|[now v] l IH]; intros a q sg Hc; cbn [foldl map concat fst snd].
    - destruct (carry a) as [|x [|y r]]; [by rewrite !app_nil_r..|cbn in Hc; lia].
    - pose proof (chunk_played rate now v a q sg Hc) as H. destruct (chunk rate now v (a, (q, sg))) as [a1 [q1 sg1]].
      destruct H as [(bytes & H1 & H2 & H3) H4]. specialize (IH a1 q1 sg1 H4).
      destruct (foldl _ (a1, (q1, sg1)) l) as [a' s']. rewrite IH. cbn [fst] in H3. rewrite H3, <- app_assoc.
      f_equal. by rewrite (app_assoc (carry a) v), H1, <- app_assoc, (pcm_app bytes). }
  specialize (G arrivals arrival_start p seg ltac:(cbn; lia)). destruct (foldl _ _ arrivals) as [a s]. cbn [fst snd].
  pose proof (flush_played rate end_time a s) as F. destruct (flush rate end_time a s) as [a' [p' sg']].
  destruct F as (F1 & _ & _). cbn [fst] in F1. cbn [carry arrival_start pending app] in G. rewrite app_nil_r in G.
  unfold played at 1. cbn [started]. fold (played p'). by rewrite F1, G.
Qed.

(** ** The voice never overlaps itself *)

(** Each buffer starts no earlier than the end of the one before. *)
Fixpoint in_turn (rate : num) (free : num) (l : list (num * list num)) : Prop :=
  match l with
  | [] => True
  | (at_, b) :: r => nlt at_ free = false /\ in_turn rate (nadd at_ (duration rate b)) r
  end.
(** When the last of them ends. *)
Fixpoint free_at (rate free : num) (l : list (num * list num)) : num :=
  match l with [] => free | (at_, b) :: r => free_at rate (nadd at_ (duration rate b)) r end.

Lemma nmax_ge a b : nlt (nmax a b) b = false.
Proof.
  unfold nmax. destruct (is_nan a || is_nan b); [done|]. destruct (nlt a b) eqn:E; [|done].
  destruct (nlt b b) eqn:F; [|done]. by rewrite (nlt_asym _ _ F) in F.
Qed.
Lemma in_turn_app rate free l1 l2 : in_turn rate free (l1 ++ l2) <-> in_turn rate free l1 /\ in_turn rate (free_at rate free l1) l2.
Proof. revert free. induction l1 as [|[at_ b] l1 IH]; intros free; cbn [app in_turn free_at]; [tauto|]. rewrite IH. tauto. Qed.
Lemma free_at_app rate free l1 l2 : free_at rate free (l1 ++ l2) = free_at rate (free_at rate free l1) l2.
Proof. revert free. induction l1 as [|[at_ b] l1 IH]; intros free; cbn [app free_at]; [done|apply IH]. Qed.

(** The player [q] comes after [p] by buffers played in turn. *)
Definition after (rate : num) (p q : Player) : Prop :=
  exists new, started q = started p ++ new /\ in_turn rate (nextTime p) new /\ nextTime q = free_at rate (nextTime p) new.
Lemma after_refl rate p : after rate p p.
Proof. exists []. by rewrite app_nil_r. Qed.
Lemma after_trans rate p q r : after rate p q -> after rate q r -> after rate p r.
Proof.
  intros (l1 & H1 & H2 & H3) (l2 & G1 & G2 & G3). exists (l1 ++ l2).
  rewrite G1, H1, app_assoc, in_turn_app, free_at_app, <- H3. done.
Qed.
Lemma after_schedule rate now b s : after rate s.1 (schedule rate now b s).1.
Proof.
  destruct s as [p seg]. exists [(nmax (nadd now (dec 3 (-2))) (nextTime p), b)]. cbn. split; [done|]. split; [|done].
  split; [apply nmax_ge|done].
Qed.
Lemma after_flush rate now a s : after rate s.1 (flush rate now a s).2.1.
Proof.
  unfold flush. cbn [snd]. generalize (pending a). intros l. revert s. induction l as [|b l IH]; intros s; [apply after_refl|].
  cbn [foldl]. eapply after_trans; [apply after_schedule|apply IH].
Qed.
Lemma after_chunk rate now v st : after rate st.2.1 (chunk rate now v st).2.1.
Proof.
  destruct st as [a [p seg]]. unfold chunk. destruct (take _ _); [apply after_refl|].
  destruct (_ || _); [destruct (nge _ _)|]; [apply after_flush|apply after_refl|apply (after_schedule _ _ _ (p, seg))].
Qed.

(** The voice never overlaps itself: a sentence's buffers start one after
    the other, none before the end of the previous one, and the first not
    before the end of what was queued already. *)
Theorem speak_in_turn rate arrivals end_time cs ce p :
  exists new, started (speak rate arrivals end_time cs ce p) = started p ++ new /\ in_turn rate (nextTime p) new /\
    nextTime (speak rate arrivals end_time cs ce p) = free_at rate (nextTime p) new.
Proof.
  unfold speak. set (st0 := (arrival_start, (p, mkSeg cs ce None (num_of_Z 0) false))).
  assert (G : forall l st, after rate st.2.1 (foldl (fun st c => chunk rate c.1 c.2 st) st l).2.1).
  { induction l as [|c l IH]; intros st; [apply after_refl|]. cbn [foldl]. eapply after_trans; [apply after_chunk|apply IH]. }
  specialize (G arrivals st0). set (st := foldl _ _ arrivals) in *. pose proof (after_flush rate end_time st.1 st.2) as F.
  destruct (flush rate end_time st.1 st.2) as [a [p' sg]]. exact (after_trans _ _ _ _ G F).
Qed.

(** The segments of a sentence are done once it has arrived; then the player is
    idle exactly when the play head has passed the last buffer. *)
Lemma speak_idle rate arrivals end_time cs ce p now : forallb seg_done (segments p) = true ->
  idle now (speak rate arrivals end_time cs ce p) = nge now (nextTime (speak rate arrivals end_time cs ce p)).
Proof.
  intros H. unfold idle. assert (forallb seg_done (segments (speak rate arrivals end_time cs ce p)) = true) as ->; [|by rewrite andb_true_r].
  assert (K : forall now b s, segments (schedule rate now b s).1 = segments s.1) by (by intros ? ? [? ?]).
  assert (KF : forall now a s, segments (flush rate now a s).2.1 = segments s.1).
  { intros n a s. unfold flush. cbn [snd]. generalize (pending a). intros l. revert s. induction l as [|b l IH]; intros s; [done|]. cbn [foldl]. by rewrite IH, K. }
  assert (KC : forall l st, segments (foldl (fun st c => chunk rate c.1 c.2 st) st l).2.1 = segments st.2.1).
  { induction l as [|c l IH]; intros st; [done|]. cbn [foldl]. rewrite IH. destruct st as [a [q sg]]. unfold chunk.
    destruct (take _ _); [done|]. destruct (_ || _); [destruct (nge _ _); [by rewrite KF|done]|]. apply (K c.1 (pcm _) (q, sg)). }
  unfold speak. set (st0 := (arrival_start, (p, mkSeg cs ce None (num_of_Z 0) false))). specialize (KC arrivals st0).
  set (st := foldl _ _ arrivals) in *. specialize (KF end_time st.1 st.2). rewrite KC in KF. cbn [snd fst st0] in KF.
  destruct (flush rate end_time st.1 st.2) as [a [p' sg]]. cbn [segments snd fst] in *. rewrite forallb_app, KF, H. done.
Qed.
