(* ===== verification/VoiceText.v ===== *)
(** * Voice mode, the text side (lib/voice-text.ts)

    What is said of an answer, how it is cut into sentences while it is being
    written, and the transcripts that are inventions.  The Unicode categories
    of letters and of numbers are arguments. *)

From S2P Require Import JsJson JsRegExp Utf8 JsNumber.

(** ** The spoken text *)

Definition speakable (md : jstr) : jstr :=
  let s := replace_first (rx "^\s*<think>[\s\S]*?(?:<\/think>|$)" "i") (u " ") md in
  let s := replace_all (rx "```[\s\S]*?(?:```|$)" "g") (u " ") s in
  let s := replace_all (rx "!\[[^\]]*\]\([^)]*\)" "g") (u " ") s in
  let s := replace_all (rx "\[([^\]]+)\]\([^)]*\)" "g") (u "$1") s in
  let s := replace_all (rx "https?:\/\/\S+" "g") (u " ") s in
  let s := replace_all (rx "`([^`]*)`" "g") (u "$1") s in
  let s := replace_all (rx "^\s{0,3}#{1,6}\s+" "gm") [] s in
  let s := replace_all (rx "^\s{0,3}>\s?" "gm") [] s in
  let s := replace_all (rx "^\s*(?:[-*+]|\d+[.)])\s+" "gm") [] s in
  let s := replace_all (rx "(\*\*|__|\*|_|~~)(?=\S)([^*_~\n]+?)\1" "g") (u "$2") s in
  let s := replace_all (rx "\|" "g") (u " ") s in
  let s := replace_all (rx "[ \t]+" "g") (u " ") s in
  let s := replace_all (rx "\n{2,}" "g") [LF] s in
  trim s.

(** ** Sentences *)

Record Sentence := mkSentence { s_text : jstr; s_start : nat; s_end : nat }.
Definition MIN_CHARS : nat := 14.
Definition re_boundary : RegExp := rx "[.!?…]+[\x22»”')\]]*(?=\s|$)|\n" "g".

(** The loop; [last] is the pattern's [lastIndex]. *)
Fixpoint cut_loop (fuel : nat) (text : jstr) (final : bool) (last start : nat) : list Sentence * nat :=
  match fuel with
  | O => ([], start)
  | S f =>
      match exec_from re_boundary text last with
      | None => ([], start)
      | Some m =>
          let stop := m_end m in
          if negb final && (length text <=? stop) then ([], start)
          else
            let piece := slice text start stop in
            if (length (trim piece) <? MIN_CHARS) && negb final then cut_loop f text final stop start
            else
              let '(r, e) := cut_loop f text final stop stop in
              ((if streq (trim piece) [] then [] else [mkSentence (trim piece) start stop]) ++ r, e)
      end
  end.
(** Every match takes at least one unit. *)
Definition nextSentences (text : jstr) (from : nat) (final : bool) : list Sentence * nat :=
  let '(sentences, start) := cut_loop (S (length text)) text final from from in
  let tail := trim (drop start text) in
  if final && negb (streq tail []) then (sentences ++ [mkSentence tail start (length text)], length text)
  else (sentences, start).

(** ** Invented transcripts *)

Section transcripts.
Context (is_letter is_number : N -> bool).

(** The non-empty parts between runs of anything but letters, numbers and
    apostrophes, by code points. *)
Definition word_cp (c : N) : bool := is_letter c || is_number c || (c =? 39)%N.
Fixpoint word_runs (cps : list N) : list (list N) :=
  match cps with
  | [] => []
  | c :: r =>
      if word_cp c then
        match r with
        | d :: _ => if word_cp d then match word_runs r with w :: ws => (c :: w) :: ws | [] => [[c]] end else [c] :: word_runs r
        | [] => [[c]]
        end
      else word_runs r
  end.
Definition looping (t : jstr) : bool :=
  let words := word_runs (code_points t) in
  if length words <? 8 then false
  else if nlt (ndiv (num_of_Z (Z.of_nat (length (remove_dups words)))) (num_of_Z (Z.of_nat (length words)))) (num_of_decimal 3 (-1)) then true
  else test (rx "(.{3,40}?)(?:[\s.,!?…]+\1){3,}" "") t.
Definition isPhantomTranscript (text : jstr) : bool :=
  let t := to_lower (trim text) in
  if streq t [] then true
  else test (rx "amara\.org|sous-titr|subtitles? by|merci d'avoir regardé|thanks? for watching" "") t
    || test (rx "^(?:thank you|thanks|you|bye)[\s.!…]*$" "") t
    || test (rx "^[\s.,!?…-]*$" "") t
    || looping t.
End transcripts.

Definition latin (c : N) : bool := (((97 <=? c) && (c <=? 122)) || ((65 <=? c) && (c <=? 90)) || ((192 <=? c) && (c <=? 255)))%N.
Definition digit (c : N) : bool := ((48 <=? c) && (c <=? 57))%N.

(** The repository's own tests. *)
Example spoken_markdown : speakable (u "## Garage

Ajoute **le réseau** `npm` :

```yaml
networks:
  - npm
```

- voir [la doc](https://garagehq.deuxfleurs.fr)
- puis relance") = u "Garage
Ajoute le réseau npm :
voir la doc
puis relance".
Proof. vm_compute. reflexivity. Qed.
Example spoken_thought : speakable (u "<think>
The user is playful") = [] /\ speakable (u "<think>court</think>

Ha, non !") = u "Ha, non !".
Proof. vm_compute. split; reflexivity. Qed.
Example first_sentences : map s_text (nextSentences (u "Salut Alex ! Ça va bien, merci. Et toi, quoi de") 0 false).1 = [u "Salut Alex ! Ça va bien, merci."].
Proof. vm_compute. reflexivity. Qed.
Example decimal_point : (nextSentences (u "La version 3.") 0 false).1 = [] /\
  map s_text (nextSentences (u "La version 3.5 est sortie hier soir.") 0 true).1 = [u "La version 3.5 est sortie hier soir."].
Proof. vm_compute. split; reflexivity. Qed.
Example phantoms : map (isPhantomTranscript latin digit)
    [u "Sous-titres réalisés par la communauté d'Amara.org"; u " … "; u "Thank you."; u "Salut, comment tu vas ?";
     concat (repeat (u "Thank you. ") 30)] = [true; true; true; false; true].
Proof. vm_compute. reflexivity. Qed.

(** ** Sentences tile the text *)

Definition blank (s : jstr) : bool := forallb is_ws s.
Lemma trim_blank s : trim s = [] <-> blank s = true.
Proof.
  unfold trim, trim_end, trim_start, blank. split.
  - destruct (drop_while is_ws s) as [|c r] eqn:E.
    + intros _. pose proof (take_drop_while is_ws s) as H. rewrite E, app_nil_r in H. rewrite <- H.
      clear. induction s as [|c s IH]; [done|]. cbn [take_while]. destruct (is_ws c) eqn:Ec; [|done]. cbn. by rewrite Ec.
    + apply drop_while_head in E. rewrite drop_while_end_cons. cbn [forallb]. by rewrite E.
  - intros H. by rewrite drop_while_all.
Qed.
Lemma blank_app a b : blank (a ++ b) = blank a && blank b.
Proof. apply forallb_app. Qed.
Lemma slice_app s a b c : a <= b <= c -> slice s a c = slice s a b ++ slice s b c.
Proof.
  intros H. unfold slice. rewrite <- (take_drop (b - a) (take (c - a) (drop a s))). f_equal.
  - rewrite take_take. f_equal. lia.
  - rewrite skipn_firstn_comm, drop_drop. f_equal; [lia|f_equal; lia].
Qed.

(** From [pos] on, the sentences follow one another up to [e], with nothing but
    white space between them. *)
Fixpoint tiles (text : jstr) (pos : nat) (ss : list Sentence) (e : nat) : Prop :=
  match ss with
  | [] => pos <= e <= length text /\ blank (slice text pos e) = true
  | s :: r =>
      pos <= s_start s < s_end s /\ blank (slice text pos (s_start s)) = true /\
      s_text s = trim (slice text (s_start s) (s_end s)) /\ s_text s <> [] /\ tiles text (s_end s) r e
  end.
Lemma tiles_gap text a b ss e : a <= b -> blank (slice text a b) = true -> tiles text b ss e -> tiles text a ss e.
Proof.
  intros Hab Hb. destruct ss as [|s r]; cbn [tiles].
  - intros (H1 & H2). split; [lia|]. rewrite (slice_app _ a b) by lia. by rewrite blank_app, Hb, H2.
  - intros (H1 & H2 & H3). split; [lia|]. split; [|done]. rewrite (slice_app _ a b) by lia. by rewrite blank_app, Hb, H2.
Qed.
Lemma slice_prefix s x i j : j <= length s -> slice (s ++ x) i j = slice s i j.
Proof.
  intros H. unfold slice. destruct (decide (i <= length s)) as [Hi|Hi].
  - rewrite drop_app_le by done. rewrite take_app_le by (rewrite length_drop; lia). done.
  - by replace (j - i) with 0 by lia.
Qed.
(** The text may grow at its end. *)
Lemma tiles_grow text x pos ss e : tiles text pos ss e -> tiles (text ++ x) pos ss e.
Proof.
  assert (E : forall pos ss e, tiles text pos ss e -> pos <= e <= length text).
  { clear. intros pos ss. revert pos. induction ss as [|s ss IH]; intros pos e; cbn [tiles]; [tauto|]. intros (H1 & _ & _ & _ & H). apply IH in H. lia. }
  revert pos. induction ss as [|s ss IH]; intros pos; cbn [tiles].
  - intros [H1 H2]. rewrite length_app, slice_prefix by lia. split; [lia|done].
  - intros (H1 & H2 & H3 & H4 & H5). pose proof (E _ _ _ H5). rewrite !slice_prefix by lia. repeat split; try done; [lia..|]. by apply IH.
Qed.
Lemma tiles_app text pos ss e ss' e' : tiles text pos ss e -> tiles text e ss' e' -> tiles text pos (ss ++ ss') e'.
Proof.
  intros H H'. revert pos H. induction ss as [|s ss IH]; intros pos H; cbn [app tiles] in *.
  - destruct H as [H1 H2]. by apply (tiles_gap _ _ e); [lia| |].
  - destruct H as (H1 & H2 & H3 & H4 & H5). repeat split; try done; [lia..|]. by apply IH.
Qed.
Lemma tiles_end text pos ss e : tiles text pos ss e -> pos <= e <= length text.
Proof. revert pos. induction ss as [|s ss IH]; intros pos; cbn [tiles]; [tauto|]. intros (H1 & _ & _ & _ & H). apply IH in H. lia. Qed.
Lemma tiles_snoc text pos ss e s : tiles text pos ss e -> s_start s = e -> e < s_end s <= length text ->
  s_text s = trim (slice text e (s_end s)) -> s_text s <> [] -> tiles text pos (ss ++ [s]) (s_end s).
Proof.
  intros H <- He Ht Hn. revert pos H. induction ss as [|x ss IH]; intros pos H; cbn [app tiles] in *.
  - destruct H as [H1 H2]. split; [lia|]. split; [done|]. split; [done|]. split; [done|]. split; [lia|].
    unfold slice. by rewrite Nat.sub_diag.
  - destruct H as (H1 & H2 & H3 & H4 & H5). repeat split; try done; [lia..|]. by apply IH.
Qed.

Lemma cut_loop_tiles fuel text final last start : start <= last -> start <= length text ->
  let '(ss, e) := cut_loop fuel text final last start in
  tiles text start ss e /\ (final = false -> Forall (fun s => MIN_CHARS <= length (s_text s)) ss).
Proof.
  assert (B : forall pos, pos <= length text -> tiles text pos [] pos).
  { intros pos H. split; [lia|]. unfold slice. by rewrite Nat.sub_diag. }
  revert last start. induction fuel as [|f IH]; intros last start Hl Hs; cbn [cut_loop]; [by split; [apply B|constructor]|].
  destruct (exec_from re_boundary text last) as [m|] eqn:E; [|by split; [apply B|constructor]].
  pose proof (exec_from_min_len _ _ _ _ E) as Hmin. change (min_len (re_body re_boundary)) with 1 in Hmin.
  apply exec_from_sound in E as (E1 & E2 & _).
  destruct (negb final && _); [by split; [apply B|constructor]|].
  destruct ((length (trim (slice text start (m_end m))) <? MIN_CHARS) && negb final) eqn:Es.
  - apply IH; lia.
  - specialize (IH (m_end m) (m_end m) ltac:(lia) ltac:(lia)). destruct (cut_loop f text final (m_end m) (m_end m)) as [r e].
    destruct IH as [IH1 IH2]. destruct (streq_spec (trim (slice text start (m_end m))) []) as [Hb|Hb]; cbn [app].
    + split; [|done]. apply (tiles_gap _ _ (m_end m)); [lia|by apply trim_blank|done].
    + split.
      * cbn [tiles s_start s_end s_text]. split; [lia|]. split; [unfold slice; by rewrite Nat.sub_diag|done].
      * intros Hf. constructor; [|by apply IH2]. cbn [s_text]. rewrite Hf in Es. cbn [negb] in Es. rewrite andb_true_r in Es. by apply Nat.ltb_ge in Es.
Qed.

Lemma next_sentences_tile text from final : from <= length text ->
  tiles text from (nextSentences text from final).1 (nextSentences text from final).2 /\
  (final = false -> Forall (fun s => MIN_CHARS <= length (s_text s)) (nextSentences text from final).1) /\
  (final = true -> blank (drop (nextSentences text from final).2 text) = true).
Proof.
  intros Hf. unfold nextSentences.
  pose proof (cut_loop_tiles (S (length text)) text final from from (Nat.le_refl _) Hf) as H.
  destruct (cut_loop _ _ _ _ _) as [ss e]. destruct H as [H1 H2]. pose proof (tiles_end _ _ _ _ H1) as He.
  destruct final; cbn [andb]; [|by split; [|split]].
  destruct (streq_spec (trim (drop e text)) []) as [Hb|Hb]; cbn [negb fst snd].
  - split; [done|]. split; [done|]. intros _. by apply trim_blank.
  - assert (Hlt : e < length text).
    { destruct (decide (e < length text)); [done|]. exfalso. apply Hb. by rewrite drop_ge by lia. }
    split; [|split; [done|intros _; by rewrite drop_all]].
    apply (tiles_snoc _ _ _ e (mkSentence (trim (drop e text)) e (length text)) H1 eq_refl); cbn [s_end s_text]; [lia| |done].
    unfold slice. by rewrite take_ge by (rewrite length_drop; lia).
Qed.

(** What is sent to the voice is the answer itself: the sentences follow one
    another from the place asked for, nothing but white space between them and
    up to the place where the next call starts; each is the text between its
    bounds, not empty, and of fourteen characters at least while the answer is
    being written; and once the answer has ended nothing of it is left unsaid. *)
Theorem nextSentences_tiles text from final : from <= length text ->
  let '(ss, e) := nextSentences text from final in
  tiles text from ss e /\
  (final = false -> Forall (fun s => MIN_CHARS <= length (s_text s)) ss) /\
  (final = true -> blank (drop e text) = true).
Proof.
  intros Hf. pose proof (next_sentences_tile text from final Hf) as H. by destruct (nextSentences text from final).
Qed.
Theorem nextSentences_tiles_witness :
  tiles (u "Salut. Ça va bien, merci ! Et toi") 0 [mkSentence (u "Salut. Ça va bien, merci !") 0 26] 26.
Proof.
  pose proof (nextSentences_tiles (u "Salut. Ça va bien, merci ! Et toi") 0 false (Nat.le_0_l _)) as H.
  assert (E : nextSentences (u "Salut. Ça va bien, merci ! Et toi") 0 false = ([mkSentence (u "Salut. Ça va bien, merci !") 0 26], 26)) by (vm_compute; reflexivity).
  rewrite E in H. exact (proj1 H).
Defined.
