(* ===== verification/Export.v ===== *)
(** * Export of a conversation (lib/export.ts) and system notices (lib/notices.ts)

    The Markdown and JSON files of a conversation, and the sentences of the
    server's notices.  The translation [t] is an argument, as in the source. *)

From S2P Require Import JsJson JsRegExp Decisions.

(** ** lib/export.ts *)

Record ExportMsg := mkExport {
  e_user : bool; e_content : jstr; e_hidden : bool; e_reasoning : jstr; e_reasoningMs : Z
}.   (* an absent reasoning or duration is empty or 0 *)

Definition convTitleFallback (msgs : list ExportMsg) (fallback : jstr) : jstr :=
  let first := match find e_user msgs with Some m => e_content m | None => [] end in
  match trim (take 80 first) with [] => fallback | s => s end.

Definition escapeHtml (v : jstr) : jstr :=
  replace_all (rx "\x22" "g") (u "&quot;")
    (replace_all (rx ">" "g") (u "&gt;")
      (replace_all (rx "<" "g") (u "&lt;")
        (replace_all (rx "&" "g") (u "&amp;") v))).

Section export.
Context (t : jstr -> jstr).

Definition message_lines (m : ExportMsg) : list jstr :=
  if e_hidden m then []
  else
    [if e_user m then u "**" ++ t (u "Vous :") ++ u "**" else u "**" ++ t (u "Assistant :") ++ u "**"; []]
    ++ (if streq (e_reasoning m) [] then []
        else
          let duration := if (e_reasoningMs m =? 0)%Z then []
                          else u " (" ++ string_of_Z ((e_reasoningMs m + 500) / 1000) ++ u " s)" in
          [u "<details><summary>" ++ t (u "Réflexion") ++ duration ++ u "</summary>"; []; escapeHtml (e_reasoning m); [];
           u "</details>"; []])
    ++ [escapeHtml (e_content m); []].
Definition convAsMarkdown (title model : jstr) (messages : list ExportMsg) : jstr :=
  join [LF] ([u "# " ++ escapeHtml title; [];
              u "_" ++ t (u "Modèle :") ++ u " " ++ escapeHtml (match model with [] => u "—" | _ => model end) ++ u "_"; []; u "---"; []]
             ++ flat_map message_lines messages).
End export.

(** The messages as they are; [now] is the text of the current date. *)
Definition convAsJson (num_text : Z -> Z -> jstr) (title model now : jstr) (messages : list json) : jstr :=
  pretty num_text [] (JObj [(u "title", JStr title); (u "model", JStr model); (u "exported_at", JStr now); (u "messages", JArr messages)]).

(** ** lib/notices.ts *)

(** The numbers of a notice, with their text. *)
Record DgxNotice := mkNotice {
  n_id : jstr; n_reset : jstr; n_status : option jstr; n_wait : option jstr; n_free_gib : option jstr; n_count : option jstr
}.
Section notices.
Context (t : jstr -> jstr).

Definition withMemory (text : jstr) (n : DgxNotice) : jstr :=
  match n_free_gib n with
  | Some g => text ++ u " " ++ replace_str (t (u "Mémoire disponible : {n} Gio.")) (u "{n}") g
  | None => text
  end.
Definition with_status (n : DgxNotice) : jstr :=
  replace_str (t (u "Le modèle a renvoyé une erreur ({status}). Réessaie.")) (u "{status}") (default [] (n_status n)).
Definition noticeText (n : DgxNotice) : jstr :=
  let is_id (k : jstr) := streq (n_id n) k in
  if is_id (u "quota_exceeded") then
    t (u "Quota dépassé : tu as épuisé ton budget de tokens pour la période en cours.")
    ++ (if streq (n_reset n) [] then [] else u " " ++ replace_str (t (u "Nouveau quota le {date} (UTC).")) (u "{date}") (n_reset n))
    ++ u " " ++ t (u "Tu peux demander plus à l'admin (accueil → « Demander plus de budget »).")
  else if is_id (u "no_api_key") then t (u "Crée d'abord une clé API (page Mes clés API) : cet assistant consomme le budget de ton compte.")
  else if is_id (u "model_error") then with_status n
  else if is_id (u "empty_message") then t (u "Aucun message à envoyer.")
  else if is_id (u "chat_rate_limited") then
    replace_str (t (u "Trop de messages d'affilée — réessaie dans {wait} s.")) (u "{wait}") (default (u "?") (n_wait n))
  else if is_id (u "no_model_running") then t (u "Aucun modèle n'est actif sur le serveur.")
  else if is_id (u "model_unreachable") then t (u "Le service de modèle est momentanément injoignable. Réessaie dans un instant.")
  else if is_id (u "model_replied_error") then with_status n
  else if is_id (u "empty_reply") then t (u "(réponse vide)")
  else if is_id (u "model_busy") then t (u "Le modèle est occupé, réessaie dans un instant.")
  else if is_id (u "reformulate") then t (u "Peux-tu reformuler ta demande ?")
  else if is_id (u "model_timeout") then t (u "Le modèle n'a pas répondu à temps. Réessaie dans un instant.")
  else if is_id (u "image_invented") then
    replace_str (t (u "⚠️ Ces images n'ont pas été générées : le modèle a cité {n} image(s) qui n'existent pas. Demande « génère les images » pour les créer vraiment."))
      (u "{n}") (default [] (n_count n))
  else if is_id (u "image_service_off") then
    withMemory (t (u "La génération d'image est indisponible pour l'instant : le service est arrêté. Un admin peut le démarrer depuis l'espace Admin ; le modèle répondra sans image.")) n
  else if is_id (u "video_service_off") then
    withMemory (t (u "La génération vidéo est indisponible pour l'instant : le service est arrêté. Un admin peut le démarrer depuis l'espace Admin ; le modèle répondra sans vidéo.")) n
  else if is_id (u "document_service_off") then
    withMemory (t (u "La lecture de document est indisponible pour l'instant : le service OCR est arrêté. Un admin peut le démarrer depuis l'espace Admin ; le modèle répondra sans le document.")) n
  else n_id n.
End notices.

Example notice_memory : noticeText id (mkNotice (u "chat_rate_limited") [] None (Some (u "12")) None None) = u "Trop de messages d'affilée — réessaie dans 12 s."
  /\ noticeText id (mkNotice (u "autre") [] None None None None) = u "autre".
Proof. vm_compute. split; reflexivity. Qed.

(** ** Exported text is text *)

Definition LT : N := 60.
Definition escape_unit_html (c : N) : jstr :=
  if (c =? 38)%N then u "&amp;" else if (c =? LT)%N then u "&lt;" else if (c =? 62)%N then u "&gt;"
  else if (c =? 34)%N then u "&quot;" else [c].

Lemma replace_one r c tpl s : r = mkRe (Chars false [(c, c)]) (mkFlags false false) -> 36%N ∉ tpl ->
  replace_all r tpl s = flat_map (fun x => if (c =? x)%N then tpl else [x]) s.
Proof.
  intros -> Hd. rewrite (replace_class (mkRe (Chars false [(c, c)]) (mkFlags false false)) false [(c, c)] eq_refl) by done.
  induction s as [|x s IH]; [done|]. cbn [flat_map]. rewrite IH. by rewrite char_in_single.
Qed.
(** The four replacements, unit by unit. *)
Lemma escapeHtml_units v : escapeHtml v = flat_map escape_unit_html v.
Proof.
  unfold escapeHtml.
  rewrite (replace_one (rx "&" "g") 38%N) by (try reflexivity; apply (bool_decide_unpack _); vm_compute; exact I).
  rewrite (replace_one (rx "<" "g") 60%N) by (try reflexivity; apply (bool_decide_unpack _); vm_compute; exact I).
  rewrite (replace_one (rx ">" "g") 62%N) by (try reflexivity; apply (bool_decide_unpack _); vm_compute; exact I).
  rewrite (replace_one (rx "\x22" "g") 34%N) by (try reflexivity; apply (bool_decide_unpack _); vm_compute; exact I).
  induction v as [|c v IH]; [done|]. cbn [flat_map]. rewrite !flat_map_app, IH. f_equal.
  unfold escape_unit_html, LT. rewrite !(N.eqb_sym _ c).
  destruct (N.eqb_spec 38 c) as [<-|]; [vm_compute; reflexivity|]. rewrite (N.eqb_sym c 38). destruct (N.eqb_spec 38 c); [done|].
  cbn [flat_map app]. rewrite (N.eqb_sym c 60). destruct (N.eqb_spec 60 c) as [<-|]; [vm_compute; reflexivity|].
  cbn [flat_map app]. rewrite (N.eqb_sym c 62). destruct (N.eqb_spec 62 c) as [<-|]; [vm_compute; reflexivity|].
  cbn [flat_map app]. rewrite (N.eqb_sym c 34). destruct (N.eqb_spec 34 c) as [<-|]; [vm_compute; reflexivity|]. done.
Qed.

(** The reader of the four entities. *)
Fixpoint unescape (fuel : nat) (s : jstr) : jstr :=
  match fuel with
  | O => []
  | S f =>
      match s with
      | [] => []
      | c :: r =>
          if (c =? 38)%N then
            if starts_with r (u "amp;") then 38%N :: unescape f (drop 4 r)
            else if starts_with r (u "lt;") then 60%N :: unescape f (drop 3 r)
            else if starts_with r (u "gt;") then 62%N :: unescape f (drop 3 r)
            else if starts_with r (u "quot;") then 34%N :: unescape f (drop 5 r)
            else c :: unescape f r
          else c :: unescape f r
      end
  end.
Lemma unescape_units v f : length v <= f -> unescape (S f) (flat_map escape_unit_html v) = v.
Proof.
  revert f. induction v as [|c v IH]; intros f Hf; [done|]. destruct f as [|f]; [cbn in Hf; lia|]. cbn [length] in Hf.
  specialize (IH f ltac:(lia)). cbn [flat_map]. unfold escape_unit_html at 1, LT.
  destruct (N.eqb_spec c 38) as [->|]; [change (unescape (S (S f)) (u "&amp;" ++ ?x)) with (38%N :: unescape (S f) x); by rewrite IH|].
  destruct (N.eqb_spec c 60) as [->|]; [change (unescape (S (S f)) (u "&lt;" ++ ?x)) with (60%N :: unescape (S f) x); by rewrite IH|].
  destruct (N.eqb_spec c 62) as [->|]; [change (unescape (S (S f)) (u "&gt;" ++ ?x)) with (62%N :: unescape (S f) x); by rewrite IH|].
  destruct (N.eqb_spec c 34) as [->|]; [change (unescape (S (S f)) (u "&quot;" ++ ?x)) with (34%N :: unescape (S f) x); by rewrite IH|].
  cbn [app unescape]. destruct (N.eqb_spec c 38); [done|]. f_equal. exact IH.
Qed.

Definition count_lt (s : jstr) : nat := length (filter (fun c => c = LT) s).
Lemma count_lt_app a b : count_lt (a ++ b) = count_lt a + count_lt b.
Proof. unfold count_lt. by rewrite filter_app, length_app. Qed.
Lemma count_lt_escape v : count_lt (escapeHtml v) = 0.
Proof.
  rewrite escapeHtml_units. induction v as [|c v IH]; [done|]. cbn [flat_map]. rewrite count_lt_app, IH.
  unfold escape_unit_html. destruct (N.eqb_spec c 38); [done|]. destruct (N.eqb_spec c LT); [done|].
  destruct (N.eqb_spec c 62); [done|]. destruct (N.eqb_spec c 34); [done|].
  unfold count_lt. rewrite filter_cons_False by done. done.
Qed.
Lemma count_lt_join ls : count_lt (join [LF] ls) = list_sum (map count_lt ls).
Proof.
  induction ls as [|x [|y ls] IH]; [done|cbn; by rewrite Nat.add_0_r|].
  rewrite join_cons2, !count_lt_app, IH. cbn [map list_sum foldr]. change (count_lt [LF]) with 0. done.
Qed.
Lemma count_lt_digits z : count_lt (string_of_Z z) = 0.
Proof.
  assert (D : forall d, count_lt (uint_units d) = 0) by (induction d as [|d IH|d IH|d IH|d IH|d IH|d IH|d IH|d IH|d IH|d IH]; cbn [uint_units]; [done|exact IH..]).
  unfold string_of_Z, string_of_N. destruct z; [apply D|apply D|].
  match goal with |- count_lt (?c :: ?x) = 0 => change (c :: x) with ([c] ++ x) end. rewrite count_lt_app, D. done.
Qed.

(** Escaping is harmless and loses nothing: the escaped text opens no tag
    and a reader of the entities gives back the original. *)
Theorem escapeHtml_inert v :
  LT ∉ escapeHtml v /\ 34%N ∉ escapeHtml v /\ unescape (S (length v)) (escapeHtml v) = v.
Proof.
  assert (G : Forall (fun c => c <> LT /\ c <> 34%N) (escapeHtml v)).
  { rewrite escapeHtml_units. induction v as [|c v IH]; [constructor|]. cbn [flat_map]. apply Forall_app. split; [|exact IH].
    unfold escape_unit_html. destruct (N.eqb_spec c 38); [apply (bool_decide_unpack _); vm_compute; exact I|].
    destruct (N.eqb_spec c LT); [apply (bool_decide_unpack _); vm_compute; exact I|].
    destruct (N.eqb_spec c 62); [apply (bool_decide_unpack _); vm_compute; exact I|].
    destruct (N.eqb_spec c 34); [apply (bool_decide_unpack _); vm_compute; exact I|]. repeat constructor; done. }
  rewrite Forall_forall in G. split; [by intros H%G; destruct H|]. split; [by intros H%G; destruct H|].
  rewrite escapeHtml_units. by apply unescape_units.
Qed.

(** The only markup of an exported conversation is the export's own: with
    translations that open no tag, the document opens exactly four per visible
    message with a thinking, whatever the title, the model and the messages
    contain. *)
Theorem export_markup t title model messages : (forall s, count_lt (t s) = 0) ->
  count_lt (convAsMarkdown t title model messages)
  = 4 * length (filter (fun m => e_hidden m = false /\ e_reasoning m <> []) messages).
Proof.
  intros Ht. unfold convAsMarkdown. rewrite count_lt_join, map_app, list_sum_app.
  assert (H1 : forall l, list_sum (map count_lt (flat_map (message_lines t) l)) = 4 * length (filter (fun m => e_hidden m = false /\ e_reasoning m <> []) l)).
  { induction l as [|m l IH]; [done|]. cbn [flat_map]. rewrite map_app, list_sum_app, IH, filter_cons.
    unfold message_lines. destruct (e_hidden m); [case_decide as Hd; [by destruct Hd|done]|].
    destruct (streq_spec (e_reasoning m) []) as [Hr|Hr]; case_decide as Hd; try (exfalso; naive_solver).
    - cbn [app map list_sum foldr length]. rewrite count_lt_escape. destruct (e_user m); rewrite !count_lt_app, Ht; change (count_lt (u "**")) with 0; change (count_lt []) with 0; cbn [list_sum foldr]; lia.
    - cbn [app map list_sum foldr length]. rewrite !count_lt_escape.
      assert (Hdur : count_lt (if (e_reasoningMs m =? 0)%Z then [] else u " (" ++ string_of_Z ((e_reasoningMs m + 500) / 1000) ++ u " s)") = 0).
      { destruct (_ =? _)%Z; [done|]. rewrite !count_lt_app, count_lt_digits. done. }
      rewrite (count_lt_app (u "<details><summary>")), (count_lt_app (t _)), (count_lt_app _ (u "</summary>")), Hdur, Ht.
      change (count_lt (u "<details><summary>")) with 2. change (count_lt (u "</summary>")) with 1. change (count_lt (u "</details>")) with 1.
      change (count_lt []) with 0. destruct (e_user m); rewrite !count_lt_app, Ht; change (count_lt (u "**")) with 0; change (count_lt []) with 0; cbn [list_sum foldr]; lia. }
  rewrite H1. cbn [map list_sum foldr]. rewrite !count_lt_app, !count_lt_escape, Ht. reflexivity.
Qed.
Theorem export_markup_witness :
  count_lt (convAsMarkdown (fun _ => u "texte") (u "<b>") [] [mkExport false (u "</details><img src=x>") false (u "<script>") 1500]) = 4.
Proof.
  rewrite (export_markup (fun _ => u "texte") (u "<b>") [] [mkExport false (u "</details><img src=x>") false (u "<script>") 1500]); [|reflexivity].
  vm_compute. reflexivity.
Defined.
