(* ===== verification/Skills.v ===== *)
(** * Skills of the playground (lib/skills.ts)

    The built-in skills, the user's own ones kept in the browser, and the
    filter of the « / » menu.  What the browser stored is JSON of unknown
    shape: the reader keeps the values it was given. *)

From S2P Require Import JsJson JsStringify.

(** A literal whose double quotes are written [#]. *)
Definition hash (s : jstr) : jstr := map (fun c => if (c =? 35)%N then DQ else c) s.

Record Skill := mkSkill {
  s_id : jstr; s_name : jstr; s_alias : jstr; s_description : jstr; s_prompt : jstr;
  s_systemPrompt : option jstr; s_builtin : bool; s_pkg : bool   (* absent flags are [false] *)
}.

Definition skill_summarize : Skill :=
  mkSkill (u "resumer") (u "Résumer") (u "summarize")
    (u "Condense un texte en points clés") (u "Résume ce texte en 3 points clairs et concis : ")
    (Some (u "Tu es un synthétiseur précis. Ne garde que les points clés, dans la langue du texte, et reste concis.")) true false.
Definition skill_explain : Skill :=
  mkSkill (u "expliquer") (u "Expliquer") (u "explain")
    (u "Décompose un sujet technique simplement") (u "Explique-moi ce sujet simplement, comme à un débutant : ")
    (Some (u "Tu expliques clairement, avec des analogies simples et sans jargon. Considère que le lecteur est intelligent mais nouveau sur le sujet.")) true false.
Definition skill_code : Skill :=
  mkSkill (u "coder") (u "Code") (u "code")
    (u "Génère une fonction, un script ou un test") (u "Écris le code suivant, complet et exécutable : ")
    (Some (u "Tu es un ingénieur logiciel senior. Produis du code complet, exécutable et idiomatique. Privilégie des fichiers entiers plutôt que des extraits et n'élide jamais une partie d'un fichier.")) true false.
Definition skill_logs : Skill :=
  mkSkill (u "logs") (u "Analyser des logs") (u "logs")
    (u "Trouve la cause d'une erreur dans des logs") (u "Analyse ces logs et trouve la cause de l'erreur : ")
    (Some (u "Tu es un ingénieur d'exploitation. Lis les logs avec attention, explique la cause racine et suggère un correctif, dans la langue de l'utilisateur.")) true false.
Definition skill_write : Skill :=
  mkSkill (u "rediger") (u "Rédiger") (u "write")
    (u "Rédige un texte, un email ou un document") (u "Rédige le texte suivant : ")
    (Some (u "Tu es un rédacteur soigneux. Sois clair, structuré et concis. Privilégie les paragraphes courts et les titres utiles.")) true false.
Definition skill_translate : Skill :=
  mkSkill (u "traduire") (u "Traduire") (u "translate")
    (u "Traduis un texte vers une autre langue") (u "Traduis le texte suivant : ")
    (Some (u "Tu es un traducteur professionnel. Préserve le sens, le ton et la mise en forme ; n'affiche que la langue cible.")) true false.
Definition skill_brainstorm : Skill :=
  mkSkill (u "idees") (u "Imaginer") (u "brainstorm")
    (u "Propose des idées et des alternatives") (u "Propose-moi des idées à partir de ce sujet : ")
    (Some (u "Tu proposes des idées de façon large : liste des options variées et créatives, puis une brève recommandation.")) true false.
Definition skill_proofread : Skill :=
  mkSkill (u "relecture") (u "Relire") (u "proofread")
    (u "Relis, corrige et améliore un texte") (u "Relis le texte suivant, corrige les fautes et améliore le style : ")
    (Some (u "Tu fais une relecture attentive : corrige les erreurs, améliore la clarté et le style, puis explique brièvement les principaux changements.")) true false.
Definition skill_anti_ia : Skill :=
  mkSkill (u "anti-ia-detection") (u "Anti-IA — détection et correction") (u "anti-ia")
    (u "Repère et corrige les tournures typiques d'un texte généré par IA") (u "Repère et corrige les tournures d'IA dans ce texte : ")
    (Some (hash (u "Anti-IA — détection et correction générique

Ce skill repère et corrige les tournures typiques d'un texte généré par IA, en français, pour n'importe quel type de contenu (email, article, rapport, post, réponse à un client, etc.). Il n'est lié à aucun document ou projet spécifique.

Basé sur Wikipedia:Signs of AI writing (WikiProject AI Cleanup) : un catalogue de tournures observées sur des milliers de textes IA détectés sur Wikipedia depuis 2023, ici adapté au français. La page précise elle-même qu'aucun de ces signes pris isolément ne prouve qu'un texte a été généré par IA — ce sont des indices à combiner, pas des règles absolues.

Processus
1. Lire le texte fourni
2. Repérer les patterns ci-dessous (contenu, vocabulaire, grammaire, style, artefacts de chat)
3. Réécrire en gardant le sens, mais en :
   - remplaçant les généralités par des détails concrets et vérifiables
   - variant le rythme des phrases (courtes / longues, pas toutes calibrées pareil)
   - ajoutant une vraie voix (opinion, nuance, #je# quand pertinent) — un texte sans aucune personnalité est aussi suspect qu'un texte plein de tics
4. Faire une passe finale : #Qu'est-ce qui, dans ce texte, sonne encore IA ?# puis corriger

A. Contenu

1. Emphase artificielle sur l'importance / la portée
À surveiller : constitue un véritable tournant, s'inscrit pleinement dans une démarche de, témoigne de l'importance, joue un rôle clé/crucial/pivot, marque un tournant décisif, reflète une évolution plus large, symbolise, incarne, participe à une dynamique de transformation.
Avant : #La création de cet institut marque un tournant décisif dans l'évolution des statistiques régionales, s'inscrivant dans une démarche plus large de décentralisation.#
Après : #L'institut a été créé en 1989 pour publier des statistiques régionales indépendamment de l'organisme national.#

2. Emphase sur la notoriété / la couverture médiatique
À surveiller : a été cité par de nombreux médias, dispose d'une présence active sur les réseaux sociaux, reconnu par des experts du secteur — souvent une liste de sources sans contexte.
Avant : #Ses propos ont été relayés par Le Monde, la BBC et Les Échos. Elle est suivie par plus de 500 000 abonnés.#
Après : #Dans un entretien au Monde en 2024, elle expliquait que la régulation de l'IA devrait porter sur les résultats plutôt que sur les méthodes.#

3. Analyses superficielles en #-ant# (participe présent gonflé)
À surveiller : en garantissant, en favorisant, en renforçant, contribuant ainsi à, soulignant, illustrant, témoignant de, reflétant.
Avant : #Le bâtiment utilise du bois local, renforçant son ancrage territorial et témoignant d'un engagement environnemental fort.#
Après : #Le bâtiment utilise du bois provenant d'une scierie à 20 km, moins cher à transporter que le béton importé.#

4. Langage promotionnel / publicitaire
À surveiller : dispose d'un(e), dynamique, riche (au sens figuré), profond, nichée au cœur de, incontournable, à couper le souffle, un must, remarquable, exceptionnel.
Avant : #Nichée au cœur d'une région à la beauté à couper le souffle, la ville séduit par son patrimoine riche et sa dynamique culturelle exceptionnelle.#
Après : #La ville a un marché hebdomadaire et une église du XVIIIe siècle.#

5. Attributions vagues / arguments d'autorité flous
À surveiller : les experts s'accordent à dire, des études montrent, on observe généralement, il a été constaté que, plusieurs sources indiquent — sans préciser qui, quand, sur quelle base.
Avant : #Les experts estiment que ce cours d'eau joue un rôle crucial dans l'écosystème régional.#
Après : #Une étude de 2019 du CNRS recense douze espèces de poissons endémiques dans ce cours d'eau.#

6. Sections figées #Défis et perspectives#
À surveiller : Malgré les défis..., continue de se développer et de répondre aux besoins futurs.
Avant : #Malgré les défis inhérents à toute zone urbaine en croissance, la ville continue de prospérer et de s'adapter aux enjeux de demain.#
Après : #Le trafic a augmenté après 2015, quand trois nouvelles zones d'activité ont ouvert. La municipalité a lancé un projet de gestion des eaux pluviales en 2022.#

B. Langue et grammaire

7. Vocabulaire #IA# surreprésenté
Mots à surveiller : de plus, en effet, il convient de noter que, il est essentiel/crucial de, au cœur de, dans un contexte de, au sein de, véritable, riche, dynamique, levier, synergie, écosystème (hors sens technique), enjeu, in fine, de surcroît, à travers, en somme, façonner, paysage (au sens figuré), fondamental, incontournable, subtil, nuancé, complexe (utilisé comme filler).

8. Évitement de la copule (#est# / #sont#)
À surveiller : se présente comme, se positionne en tant que, se distingue par, se caractérise par, fait figure de (là où un simple #est# suffirait).
Avant : #La galerie se positionne comme l'espace d'exposition de référence, se distinguant par sa superficie de plus de 300 m².#
Après : #La galerie est l'espace d'exposition principal. Elle fait 300 m² répartis en quatre salles.#

9. Parallélismes négatifs (#il ne s'agit pas seulement de X, mais de Y#)
Avant : #Il ne s'agit pas seulement d'un beat qui accompagne la voix, c'est une part de l'agressivité et de l'atmosphère du morceau.#
Après : #Le beat lourd renforce le ton agressif du morceau.#

10. Rule of three (groupes de trois systématiques)
Avant : #L'événement propose des conférences, des ateliers et des rencontres. Les participants repartiront avec innovation, inspiration et nouvelles idées.#
Après : #L'événement propose des conférences et des ateliers, avec un temps informel de réseautage entre les sessions.#

11. Variation élégante (cyclage de synonymes)
Avant : #Le protagoniste affronte de nombreuses épreuves. Le héros doit surmonter des obstacles. Le personnage principal finit par triompher.#
Après : #Le protagoniste affronte de nombreuses épreuves mais finit par triompher.#

12. Fausses étendues (#de X à Y# sans échelle réelle)
Avant : #Notre parcours nous mène du Big Bang à la formation des galaxies, de la naissance des étoiles à la danse énigmatique de la matière noire.#
Après : #Le livre couvre le Big Bang, la formation des étoiles, et les théories actuelles sur la matière noire.#

C. Style

13. Tirets cadratins (—) en excès : à l'écrit courant français, préférer virgule, parenthèse ou point-virgule.
14. Gras mécanique : éviter de mettre en gras chaque terme-clé d'une liste par réflexe (**OKR** : ..., **KPI** : ...) — n'utiliser le gras que si le document en a vraiment besoin pour la navigation.
15. Listes à puces #en-tête gras + deux-points# répétées mécaniquement.
Avant : #**Expérience utilisateur** : l'expérience a été nettement améliorée. / **Performance** : la performance a été renforcée par des algorithmes optimisés. / **Sécurité** : la sécurité a été renforcée par un chiffrement de bout en bout.#
Après : #La mise à jour améliore l'interface, accélère le chargement grâce à des algorithmes optimisés, et ajoute un chiffrement de bout en bout.#
16. Majuscules à chaque mot dans les titres (calque anglais) : en français, seule la première lettre du titre prend une majuscule.
17. Émojis dans les titres ou puces : hors de propos dans un texte professionnel ou académique français.
18. Guillemets anglais courbes (#...#) au lieu des guillemets français (« ... »).
19. Tiret simple à la place d'un tiret demi-cadratin dans une plage : #2022-2024# au lieu de #2022–2024# — signe mineur, mais qui s'ajoute aux autres.

D. Communication / artefacts de chatbot

20. Résidus de dialogue avec l'assistant
À surveiller : Bien sûr !, Voici un texte sur..., J'espère que cela vous aide, N'hésitez pas à me dire si..., Vous avez raison de souligner que. Correctif : supprimer entièrement — ce sont des résidus de conversation, jamais du contenu.

21. Disclaimers de connaissance limitée
À surveiller : à ce jour, dans la mesure des informations disponibles, il semblerait que, sur la base des données disponibles.
Avant : #Bien que les informations disponibles restent limitées, l'entreprise semble avoir été fondée dans les années 1990.#
Après : #L'entreprise a été fondée en 1994, selon son extrait Kbis.#

22. Ton complaisant / servile
Avant : #Excellente question ! Vous avez tout à fait raison, c'est un sujet complexe.#
Après : supprimer — aller directement au fond.

23. Filler / remplissage
#afin d'atteindre cet objectif# → #pour atteindre cet objectif# ; #en raison du fait qu'il pleuvait# → #parce qu'il pleuvait# ; #à l'heure actuelle# → #aujourd'hui# / #maintenant# ; #dans l'hypothèse où vous auriez besoin d'aide# → #si vous avez besoin d'aide# ; #il est important de noter que les données montrent# → #les données montrent#.

24. Hedging excessif
Avant : #On pourrait potentiellement avancer que la politique aurait éventuellement un certain effet sur les résultats.#
Après : #La politique pourrait affecter les résultats.#

25. Conclusions génériques et positives
Avant : #L'avenir s'annonce radieux pour l'entreprise. De belles perspectives se dessinent alors qu'elle poursuit son chemin vers l'excellence.#
Après : #L'entreprise prévoit d'ouvrir deux nouveaux sites l'an prochain.#

E. Ajouter de la voix (aussi important que retirer les tics)

Un texte sans aucun tic d'IA peut quand même sonner faux s'il n'a aucune personnalité. Signes d'un texte #propre mais sans âme# :
- Toutes les phrases ont la même longueur et la même structure
- Aucune opinion, seulement un exposé neutre
- Aucune incertitude ou sentiment mitigé exprimé
- Aucun #je# alors que le contexte s'y prête
- Ça se lit comme une brochure institutionnelle

Comment ajouter de la voix :
- Avoir un avis, pas seulement lister des faits
- Varier le rythme : phrases courtes, punchy. Puis d'autres plus longues, qui prennent leur temps.
- Assumer la complexité (#c'est impressionnant, mais un peu déstabilisant aussi#)
- Utiliser #je# quand ça a du sens
- Laisser un peu de désordre : une aparté, une idée pas totalement bouclée — une structure trop parfaite sonne algorithmique

Format de sortie
1. Repérage des patterns trouvés (liste courte, avec le numéro de section ci-dessus)
2. Réécriture proposée
3. Question finale : #Qu'est-ce qui sonne encore IA dans ce texte ?# — répondre brièvement, puis corriger une dernière fois
4. Vérifier que le texte final a une vraie voix (section E), pas seulement l'absence de tics"))) true false.
Definition skill_email : Skill :=
  mkSkill (u "email") (u "Rédiger un mail") (u "email")
    (u "Un mail pro : objet net, corps utile, ton juste") (u "Écris un mail pour : ")
    (Some (u "Tu rédiges des mails professionnels en français. Un objet précis en quelques mots, un premier paragraphe qui va droit au but (la personne lit sur son téléphone), puis les détails utiles — contexte, chiffres, échéances. Tu proposes toujours les deux versions, courte et complète. Pas de formules creuses (« Je me permets de revenir vers vous »), pas de « Bien cordialement » à chaque fois : choisis la formule selon le destinataire et dis laquelle. Si une information manque (destinataire, échéance), demande-la plutôt que de l'inventer.")) true false.
Definition skill_webdesign : Skill :=
  mkSkill (u "web-design") (u "Concevoir une page web") (u "webdesign")
    (u "Une page au design soigné : HTML/CSS complet, accessible, responsive") (u "Conçois une page web pour : ")
    (Some (u "Tu conçois des pages web au design soigné, en un SEUL fichier HTML complet (CSS et JS inclus, aucune dépendance externe). Typographie lisible, hiérarchie visuelle claire, palette courte et assumée, espaces généreux. Responsive mobile d'abord, états de focus visibles, contrastes conformes WCAG AA. Tu livres le fichier entier — jamais d'extrait, jamais de « le reste du code est inchangé ».")) true false.
Definition skill_slides : Skill :=
  mkSkill (u "slides") (u "Préparer une présentation") (u "slides")
    (u "Plan de diapositives : un message par slide, un récit qui tient") (u "Prépare une présentation sur : ")
    (Some (u "Tu prépares des présentations qui se tiennent à l'oral. Une idée par diapositive, un titre qui AFFIRME quelque chose (pas « Introduction »), et pour chaque slide : le message en une phrase, ce qui est montré (visuel, chiffre, schéma), et ce qui est dit. Commence par le récit en 5 points, puis les slides. Le public a besoin de savoir quoi penser, pas tout ce que tu sais.")) true false.
Definition skill_meeting : Skill :=
  mkSkill (u "meeting") (u "Compte rendu de réunion") (u "meeting")
    (u "Décisions, actions, responsables — à partir de notes brutes") (u "Fais le compte rendu de ces notes de réunion : ")
    (Some (u "Tu transformes des notes brutes en compte rendu utile, en français. Dans l'ordre : ce qui a été DÉCIDÉ (pas les discussions), les points ouverts, puis un tableau d'actions — quoi, qui, pour quand. Tu ne remplis jamais un blanc par une hypothèse : une information manquante devient « à préciser ». Le compte rendu se lit en 30 secondes.")) true false.
Definition BASE_SKILLS : list Skill :=
  [skill_summarize;
   skill_explain;
   skill_code;
   skill_logs;
   skill_write;
   skill_translate;
   skill_brainstorm;
   skill_proofread;
   skill_anti_ia;
   skill_email;
   skill_webdesign;
   skill_slides;
   skill_meeting].


(** ** Storage *)

(** [Array.isArray(raw) ? raw.filter((s) => s && s.id && s.name) : []]; [storage]
    is the stored text. *)
Definition kept_skill (s : json) : bool := truthy_opt (prop (u "id") s) && truthy_opt (prop (u "name") s).
Definition loadCustomSkills (storage : option jstr) : list json :=
  match json_parse (default (u "[]") storage) with
  | Some (JArr raw) => List.filter kept_skill raw
  | _ => []
  end.

(** The members of a skill, those that are [undefined] left out. *)
Definition skill_json (s : Skill) : json :=
  JObj ([(u "id", JStr (s_id s)); (u "name", JStr (s_name s)); (u "alias", JStr (s_alias s));
         (u "description", JStr (s_description s)); (u "prompt", JStr (s_prompt s))]
        ++ match s_systemPrompt s with Some p => [(u "systemPrompt", JStr p)] | None => [] end
        ++ (if s_builtin s then [(u "builtin", JBool true)] else [])
        ++ (if s_pkg s then [(u "pkg", JBool true)] else [])).
Definition saveCustomSkills (num_text : Z -> Z -> jstr) (list_ : list Skill) : jstr :=
  stringify num_text (JArr (map skill_json list_)).

(** ** The menu *)

Definition skillMatches (s : Skill) (query : jstr) : bool :=
  match query with
  | [] => true
  | _ => let q := to_lower query in
         includes (to_lower (s_name s)) q || includes (to_lower (s_alias s)) q || includes (to_lower (s_description s)) q
  end.

(** ** What the storage gives back *)

Definition skill_units (s : Skill) : Prop :=
  Forall unit16 (s_id s) /\ Forall unit16 (s_name s) /\ Forall unit16 (s_alias s) /\
  Forall unit16 (s_description s) /\ Forall unit16 (s_prompt s) /\
  match s_systemPrompt s with Some p => Forall unit16 p | None => True end.

Ltac key_nodup := apply (bool_decide_unpack _); vm_compute; exact I.
Lemma skill_json_plain num_text s : skill_units s -> plain num_text (skill_json s).
Proof.
  intros (H1 & H2 & H3 & H4 & H5 & H6). unfold skill_json. split.
  - destruct (s_systemPrompt s), (s_builtin s), (s_pkg s); key_nodup.
  - assert (K : forall k, array_index k = None -> forallb (fun c => c <? 65536)%N k = true ->
       array_index k = None /\ Forall unit16 k).
    { intros k Hk Hu. split; [done|]. apply Forall_forall. intros c Hc. rewrite forallb_forall in Hu.
      apply list_elem_of_In, Hu in Hc. by apply N.ltb_lt. }
    assert (KU : forall k P, array_index k = None -> forallb (fun c => c <? 65536)%N k = true -> P ->
       array_index k = None /\ Forall unit16 k /\ P) by (intros k P Hk Hu HP; destruct (K k Hk Hu); done).
    destruct (s_systemPrompt s), (s_builtin s), (s_pkg s); cbn [app foldr fst snd plain];
      repeat (split; [by apply KU; [reflexivity|reflexivity|]|]); exact I.
Qed.

(** A skill with an identifier and a name comes back from the storage as it
    was saved; the order is kept. *)
Theorem skills_roundtrip num_text l : Forall skill_units l ->
  Forall (fun s => s_id s <> [] /\ s_name s <> []) l ->
  loadCustomSkills (Some (saveCustomSkills num_text l)) = map skill_json l.
Proof.
  intros Hu Hn. unfold loadCustomSkills, saveCustomSkills. change (default ?d (Some ?x)) with x. rewrite parse_stringify.
  - induction Hn as [|s l [H1 H2] _ IH]; [done|]. apply Forall_cons in Hu as [_ Hu]. cbn [map List.filter].
    assert (E : kept_skill (skill_json s) = true).
    { unfold kept_skill, skill_json. cbn [prop app]. 
      change (assoc_get (u "id") ((u "id", ?v) :: ?r)) with (Some v).
      change (assoc_get (u "name") ((u "id", ?w) :: (u "name", ?v) :: ?r)) with (Some v).
      cbn [truthy_opt truthy]. destruct (streq_spec (s_id s) []); [done|]. by destruct (streq_spec (s_name s) []). }
    by rewrite E, IH.
  - cbn [plain]. apply foldr_Forall. apply Forall_fmap. eapply Forall_impl; [exact Hu|].
    intros s Hs. by apply skill_json_plain.
Qed.

(** The built-in skills: distinct identifiers, distinct commands, and each
    found by its command. *)
Lemma base_skills_distinct :
  NoDup (map s_id BASE_SKILLS) /\ NoDup (map s_alias BASE_SKILLS) /\
  Forall (fun s => s_builtin s = true /\ skillMatches s (s_alias s) = true) BASE_SKILLS.
Proof. repeat split; try key_nodup. Qed.
