(* ===== verification/Preferences.v ===== *)
(** * What the playground keeps in the browser (app/(app)/playground/PlaygroundPage.tsx)

    The panel's settings, the pinned conversations, the snippets and the names
    given to generated files: each is a text of [localStorage], read back at
    the next visit.  [None] is an absent key. *)

From S2P Require Import JsJson JsStringify JsRegExp Parsers Thread Api.

(** [localStorage.getItem(key) || empty] *)
Definition stored (storage : option jstr) (empty : jstr) : jstr :=
  match storage with Some ((_ :: _) as s) => s | _ => empty end.

(** ** Settings *)

Definition DEFAULT_SETTINGS : Settings := mkSettings [] (JNum 7 (-1)) (JNum 131072 0) (JNum 1 0) RAuto [].

Inductive Provenance := FromPersona | FromSkill | Manual.
#[export] Instance Provenance_eq_dec : EqDecision Provenance.
Proof. solve_decision. Defined.

Definition is_object (v : json) : bool := match v with JObj _ | JArr _ => true | _ => false end.
(** [typeof v === "number" ? v : d] and [typeof v === "string" ? v : d] *)
Definition number_or (d : json) (v : option json) : json := match v with Some (JNum m e) => JNum m e | _ => d end.
Definition string_or (d : jstr) (v : option json) : jstr := match v with Some (JStr s) => s | _ => d end.
Definition reasoning_or (d : Reasoning) (v : option json) : Reasoning :=
  match v with
  | Some (JBool true) => RTrue
  | Some (JBool false) => RFalse
  | Some (JStr s) => if streq s (u "auto") then RAuto else d
  | _ => d
  end.

Definition loadSettings (storage : option jstr) : Settings * Provenance :=
  let base := (DEFAULT_SETTINGS, Manual) in
  match json_parse (stored storage (u "null")) with
  | None => base
  | Some raw =>
      if negb (is_object raw) then base
      else
        let get (k : jstr) := prop k raw in
        (mkSettings (string_or (system DEFAULT_SETTINGS) (get (u "system")))
           (number_or (temperature DEFAULT_SETTINGS) (get (u "temperature")))
           (number_or (maxTokens DEFAULT_SETTINGS) (get (u "maxTokens")))
           (number_or (topP DEFAULT_SETTINGS) (get (u "topP")))
           (reasoning_or (reasoning_ DEFAULT_SETTINGS) (get (u "reasoning")))
           (string_or (reasoningEffort DEFAULT_SETTINGS) (get (u "reasoningEffort"))),
         match get (u "provenance") with
         | Some (JStr s) => if streq s (u "persona") then FromPersona else Manual
         | _ => Manual
         end)
  end.

Definition reasoning_json (r : Reasoning) : json :=
  match r with RTrue => JBool true | RFalse => JBool false | RAuto => JStr (u "auto") end.
Definition provenance_text (p : Provenance) : jstr :=
  match p with FromPersona => u "persona" | FromSkill => u "skill" | Manual => u "manual" end.

(** [{ ...settings, ...persona }] *)
Definition settings_json (s : Settings) (system_ : jstr) (p : Provenance) : json :=
  JObj [(u "system", JStr system_); (u "temperature", temperature s); (u "maxTokens", maxTokens s);
        (u "topP", topP s); (u "reasoning", reasoning_json (reasoning_ s));
        (u "reasoningEffort", JStr (reasoningEffort s)); (u "provenance", JStr (provenance_text p))].

Section storage.
Context (num_text : Z -> Z -> jstr).

(** The text the key holds afterwards. *)
Definition saveSettings (s : Settings) (provenance : Provenance) (storage : option jstr) : jstr :=
  let legacy := loadSettings storage in
  stringify num_text
    (match provenance with
     | FromSkill => settings_json s (system legacy.1) legacy.2
     | _ => settings_json s (system s) provenance
     end).

(** ** Pinned conversations *)

(** What is stored is handed over as it is. *)
Definition loadPinnedIds (storage : option jstr) : json :=
  default (JArr []) (json_parse (stored storage (u "[]"))).
Definition savePinnedIds (ids : list jstr) : jstr := stringify num_text (JArr (map JStr ids)).
Definition togglePinned (id : jstr) (prev : list jstr) : list jstr :=
  if existsb (streq id) prev then List.filter (fun p => negb (streq p id)) prev else prev ++ [id].

(** ** Snippets *)

Record Snippet := mkSnippet { sn_id : jstr; sn_label : jstr; sn_content : jstr }.
Definition snippet_json (s : Snippet) : json :=
  JObj [(u "id", JStr (sn_id s)); (u "label", JStr (sn_label s)); (u "content", JStr (sn_content s))].
Definition loadSnippets (storage : option jstr) : json :=
  default (JArr []) (json_parse (stored storage (u "[]"))).
Definition saveSnippets (l : list Snippet) : jstr := stringify num_text (JArr (map snippet_json l)).
Definition saveSnippet (now : Z) (input : jstr) (prev : list Snippet) : list Snippet :=
  match trim input with
  | [] => prev
  | content => prev ++ [mkSnippet (string_of_Z now) (take 60 content) content]
  end.
Definition deleteSnippet (id : jstr) (prev : list Snippet) : list Snippet :=
  List.filter (fun s => negb (streq (sn_id s) id)) prev.

(** ** Names of generated files *)

Definition artifactRenameKey (convId : option jstr) (a : Artifact) : jstr :=
  default (u "anon") convId ++ u "::" ++ (match a with Code _ _ _ => u "code" | Doc _ _ => u "doc" end) ++ u "::" ++ a_title a.
Definition loadArtifactRenames (storage : option jstr) : json :=
  default (JObj []) (json_parse (stored storage (u "{}"))).
Definition saveArtifactRenames (m : list (jstr * jstr)) : jstr :=
  stringify num_text (JObj (map (fun e => (e.1, JStr e.2)) m)).
Definition renamedTitle (renames : list (jstr * jstr)) (convId : option jstr) (a : Artifact) : jstr :=
  default (a_title a) (assoc_get (artifactRenameKey convId a) renames).
Definition commitArtifactRename (convId : option jstr) (a : Artifact) (title : jstr) (prev : list (jstr * jstr))
  : list (jstr * jstr) :=
  match trim title with
  | [] => prev
  | clean => assoc_set (artifactRenameKey convId a) clean prev
  end.

(** ** What comes back *)

Definition is_number (v : json) : Prop := exists m e, v = JNum m e.

Lemma loaded_not_skill storage : (loadSettings storage).2 <> FromSkill.
Proof.
  unfold loadSettings. destruct (json_parse _) as [raw|]; [|done]. destruct (is_object raw); [|done]. cbn [negb snd].
  destruct (prop (u "provenance") raw) as [[]|]; try done. by destruct (streq _ _).
Qed.

(** C34: Whatever the browser stored (nothing, a text that is not JSON, another
    version's object), the settings read have the types the panel and the
    request expect, and their system prompt never passes for a skill's. *)
Theorem loadSettings_typed storage :
  is_number (temperature (loadSettings storage).1) /\ is_number (maxTokens (loadSettings storage).1) /\
  is_number (topP (loadSettings storage).1) /\ (loadSettings storage).2 <> FromSkill.
Proof.
  assert (N : forall m e v, is_number (number_or (JNum m e) v)) by (intros m e [[]|]; by eexists _, _).
  assert (B : is_number (JNum 7 (-1)) /\ is_number (JNum 131072 0) /\ is_number (JNum 1 0)) by (repeat split; by eexists _, _).
  enough (is_number (temperature (loadSettings storage).1) /\ is_number (maxTokens (loadSettings storage).1) /\ is_number (topP (loadSettings storage).1))
    as (H1 & H2 & H3) by (repeat split; [done..|apply loaded_not_skill]).
  unfold loadSettings. destruct (json_parse _) as [raw|]; [destruct (is_object raw)|]; cbn [negb fst temperature maxTokens topP DEFAULT_SETTINGS]; [|exact B..].
  repeat split; apply N.
Qed.

(** Settings the storage can hold: numbers that read back, 16-bit texts. *)
Definition storable (s : Settings) : Prop :=
  (exists m e, temperature s = JNum m e /\ plain_num num_text m e) /\
  (exists m e, maxTokens s = JNum m e /\ plain_num num_text m e) /\
  (exists m e, topP s = JNum m e /\ plain_num num_text m e) /\
  Forall unit16 (system s) /\ Forall unit16 (reasoningEffort s).

Lemma settings_back s sys p : storable s -> Forall unit16 sys -> p <> FromSkill ->
  loadSettings (Some (stringify num_text (settings_json s sys p))) =
  (mkSettings sys (temperature s) (maxTokens s) (topP s) (reasoning_ s) (reasoningEffort s), p).
Proof.
  intros ((m1 & e1 & E1 & P1) & (m2 & e2 & E2 & P2) & (m3 & e3 & E3 & P3) & Hs & He) Hsys Hp.
  assert (HP : plain num_text (settings_json s sys p)).
  { unfold settings_json. rewrite E1, E2, E3. split; [apply (bool_decide_unpack _); vm_compute; exact I|].
    assert (U : forall k, forallb (fun c => c <? 65536)%N k = true -> Forall unit16 k).
    { intros k Hk. apply Forall_forall. intros c Hc. rewrite forallb_forall in Hk. apply N.ltb_lt, Hk. by apply list_elem_of_In. }
    cbn [foldr fst snd plain]. repeat split; try done; try (by apply U).
    - destruct (reasoning_ s); [done..|]. by apply U.
    - destruct p; by apply U. }
  unfold loadSettings.
  assert (ES : stored (Some (stringify num_text (settings_json s sys p))) (u "null") = stringify num_text (settings_json s sys p)).
  { destruct (stringify_starts num_text _ HP) as (c & t & E & _). rewrite E. reflexivity. }
  rewrite ES, parse_stringify by done. cbn [is_object settings_json negb].
  unfold settings_json. rewrite E1, E2, E3.
  by destruct (reasoning_ s); destruct p.
Qed.

(** Saving then loading gives the settings back with their origin. *)
Theorem settings_roundtrip s p storage : storable s -> p <> FromSkill ->
  loadSettings (Some (saveSettings s p storage)) = (s, p).
Proof.
  intros H Hp. unfold saveSettings. destruct p; [|done|]; rewrite settings_back by (done || apply H); by destruct s.
Qed.

(** The system prompt a skill put in the panel is not saved: the stored one
    stays, with its origin, next to the new values of the other settings. *)
Theorem skill_prompt_not_saved s storage : storable s -> Forall unit16 (system (loadSettings storage).1) ->
  let '(s', p') := loadSettings (Some (saveSettings s FromSkill storage)) in
  (system s', p') = (system (loadSettings storage).1, (loadSettings storage).2) /\
  temperature s' = temperature s /\ maxTokens s' = maxTokens s /\ topP s' = topP s /\
  reasoning_ s' = reasoning_ s /\ reasoningEffort s' = reasoningEffort s.
Proof.
  intros H Hl. unfold saveSettings. rewrite settings_back; [done|done|done|].
  apply loaded_not_skill.
Qed.

(** Pinning is an involution on a list without repetition, up to the order. *)
Theorem togglePinned_twice id l : NoDup l ->
  NoDup (togglePinned id l) /\ (id ∈ togglePinned id l <-> id ∉ l) /\
  (forall x, x ∈ togglePinned id (togglePinned id l) <-> x ∈ l).
Proof.
  intros Hn. unfold togglePinned at 1 2.
  assert (F : forall l, existsb (streq id) l = true <-> id ∈ l).
  { intros k. rewrite existsb_exists. split.
    - intros (x & Hx & E). destruct (streq_spec id x) as [->|]; [by apply list_elem_of_In|done].
    - intros Hi. exists id. split; [by apply list_elem_of_In|]. by destruct (streq_spec id id). }
  assert (G : forall x l, x ∈ List.filter (fun p => negb (streq p id)) l <-> x ∈ l /\ x <> id).
  { intros x k. rewrite !list_elem_of_In, filter_In. destruct (streq_spec x id); naive_solver. }
  destruct (existsb (streq id) l) eqn:E.
  - assert (Hi : id ∈ l) by (by apply F). split; [|split].
    + by apply NoDup_ListNoDup, List.NoDup_filter, NoDup_ListNoDup.
    + rewrite G. naive_solver.
    + intros x. unfold togglePinned. rewrite E. destruct (existsb (streq id) (List.filter _ l)) eqn:E2.
      * apply F, G in E2 as [_ ?]. done.
      * rewrite elem_of_app, G, list_elem_of_singleton. destruct (decide (x = id)) as [->|]; naive_solver.
  - assert (Hi : id ∉ l) by (rewrite <- F, E; done). split; [|split].
    + apply NoDup_app. split; [done|]. split; [|apply NoDup_singleton]. intros x Hx ->%list_elem_of_singleton. done.
    + rewrite elem_of_app, list_elem_of_singleton. naive_solver.
    + intros x. unfold togglePinned. rewrite E.
      assert (E2 : existsb (streq id) (l ++ [id]) = true) by (apply F; rewrite elem_of_app, list_elem_of_singleton; by right).
      rewrite E2, G, elem_of_app, list_elem_of_singleton. split; [naive_solver|]. intros Hx. split; [by left|]. by intros ->.
Qed.

(** A renamed file shows its new name, the others keep theirs; an empty name
    changes nothing. *)
Theorem commitArtifactRename_shown convId a title renames :
  renamedTitle (commitArtifactRename convId a title renames) convId a =
    (if streq (trim title) [] then renamedTitle renames convId a else trim title) /\
  (forall convId' b, artifactRenameKey convId' b <> artifactRenameKey convId a ->
     renamedTitle (commitArtifactRename convId a title renames) convId' b = renamedTitle renames convId' b).
Proof.
  unfold commitArtifactRename, renamedTitle. destruct (trim title) as [|c r] eqn:E; [split; [done|done]|]. split.
  - by rewrite assoc_set_same.
  - intros convId' b Hn. by rewrite assoc_set_other.
Qed.
End storage.
