(* ===== verification/Attachments.v ===== *)
(** * Files joined to a message (handleFiles and prepareImage of
      app/(app)/playground/PlaygroundPage.tsx)

    Which files are read, as what, and which are refused with which message;
    how an image is made ready.  The browser's bitmap and canvas are
    arguments. *)

From S2P Require Import JsJson JsNumber JsRegExp Parsers.

Definition ATTACH_ACCEPT : jstr :=
  u ".md,.markdown,.txt,.text,.log,.logs,.err,.error,.out,.json,.jsonl,.csv,.tsv,.yaml,.yml,.toml,.ini,.conf,.cfg,.env,.py,.js,.ts,.jsx,.tsx,.java,.c,.cpp,.h,.go,.rs,.rb,.php,.sh,.bash,.sql,.html,.css,.xml,.diff,.patch".
Definition MAX_ATTACHMENT_BYTES : N := 96 * 1024.
Definition ATTACH_EXTENSIONS : list jstr := map (fun e => to_lower (trim e)) (split_on (u ",") ATTACH_ACCEPT).
Definition IMAGE_EXTENSIONS : list jstr := split_on (u ",") (u ".png,.jpg,.jpeg,.webp,.gif").
Definition IMAGE_SIDE_MAX : Z := 1568.
Definition IMAGE_SOURCE_MAX_BYTES : N := 25 * 1024 * 1024.
Definition IMAGES_PER_MESSAGE : nat := 4.
Definition ORIGINAL_IMAGE_MAX_BYTES : N := 2 * 1024 * 1024.

(** An absent image is the empty string. *)
Record Attachment := mkAttachment { at_name : jstr; at_content : jstr; at_image : jstr }.

Record File := mkFile { f_name : jstr; f_type : jstr; f_size : N }.

(** [name.slice(name.lastIndexOf("."))]: without a dot, the last unit. *)
Definition extension (name : jstr) : jstr :=
  to_lower (match last_index_of (u ".") name with Some i => drop i name | None => slice_end name 1 end).

Inductive Plan :=
| ReadText                  (* FileReader.readAsText *)
| ReadImage                 (* prepareImage *)
| Refused (msg : jstr).     (* a toast *)

Section attachments.
Context (t : jstr -> jstr).

Definition refusal (msg name : jstr) : Plan := Refused (replace_str (t msg) (u "{name}") name).

(** One turn of the loop; [nb] counts the images. *)
Definition plan_file (vision : bool) (nb : nat) (f : File) : Plan * nat :=
  let ext := extension (f_name f) in
  if existsb (streq ext) IMAGE_EXTENSIONS || starts_with (f_type f) (u "image/") then
    if negb vision then (refusal (u "« {name} » : ce modèle ne lit pas les images.") (f_name f), nb)
    else if IMAGES_PER_MESSAGE <=? nb then (Refused (t (u "4 images au plus par message.")), nb)
    else if (IMAGE_SOURCE_MAX_BYTES <? f_size f)%N then (refusal (u "« {name} » dépasse 25 Mo.") (f_name f), nb)
    else (ReadImage, S nb)
  else if negb (existsb (streq ext) ATTACH_EXTENSIONS)
  then (refusal (u "« {name} » : seuls les fichiers texte sont acceptés.") (f_name f), nb)
  else if (MAX_ATTACHMENT_BYTES <? f_size f)%N
  then (refusal (u "« {name} » dépasse 96 Ko — trop gros pour le contexte.") (f_name f), nb)
  else (ReadText, nb).

Fixpoint plan_files (vision : bool) (nb : nat) (files : list File) : list Plan :=
  match files with
  | [] => []
  | f :: r => let '(p, nb') := plan_file vision nb f in p :: plan_files vision nb' r
  end.
Definition handleFiles (vision : bool) (attachments : list Attachment) (files : list File) : list Plan :=
  plan_files vision (length (List.filter (fun a => negb (streq (at_image a) [])) attachments)) files.
End attachments.

(** ** Images *)

(** A decoded image, and whether the canvas gives back what is drawn on it. *)
Record Bitmap := mkBitmap { b_width : Z; b_height : Z }.
Inductive Prepared :=
| AsIs                                 (* the file, as a data URL *)
| Redrawn (width height : option Z)    (* drawn on a canvas of that size, as JPEG *)
| Unreliable.                          (* the error "canevas" *)

Definition re_image_type : RegExp := rx "^image\/(png|jpeg|webp|gif)$" "".

Definition prepareImage (reliableCanvas : bool) (f : File) (bmp : Bitmap) : Prepared :=
  let side := Z.max (b_width bmp) (b_height bmp) in
  if test re_image_type (f_type f) && (f_size f <=? ORIGINAL_IMAGE_MAX_BYTES)%N && (side <=? IMAGE_SIDE_MAX * 2)%Z
  then AsIs
  else if negb reliableCanvas then Unreliable
  else
    let scale := nmin (num_of_Z 1) (ndiv (num_of_Z IMAGE_SIDE_MAX) (num_of_Z side)) in
    let dim (x : Z) := Z.max 1 <$> math_round (nmul (num_of_Z x) scale) in
    Redrawn (dim (b_width bmp)) (dim (b_height bmp)).

(** ** What is let in *)

Definition is_image (p : Plan) : bool := match p with ReadImage => true | _ => false end.

Lemma plan_files_images t vision nb files :
  nb + length (List.filter is_image (plan_files t vision nb files)) <= Nat.max nb IMAGES_PER_MESSAGE.
Proof.
  revert nb. induction files as [|f r IH]; intros nb; cbn [plan_files List.filter length]; [lia|].
  unfold plan_file.
  repeat match goal with |- context [if ?b then _ else _] => destruct b eqn:? end;
    cbn [List.filter is_image length refusal]; try apply IH.
  specialize (IH (S nb)). bool_norm. lia.
Qed.

(** However many files are dropped at once, the message holds four images at most, none
    unless the model reads them; every file let in has a known extension (or an
    image type) and a size within the bound of its kind. *)
Theorem handleFiles_bounded t vision attachments files :
  let plans := handleFiles t vision attachments files in
  let before := length (List.filter (fun a => negb (streq (at_image a) [])) attachments) in
  length plans = length files /\
  (before <= IMAGES_PER_MESSAGE -> before + length (List.filter is_image plans) <= IMAGES_PER_MESSAGE) /\
  Forall2 (fun p f =>
    match p with
    | ReadImage => vision = true /\ (f_size f <= IMAGE_SOURCE_MAX_BYTES)%N /\
        (extension (f_name f) ∈ IMAGE_EXTENSIONS \/ starts_with (f_type f) (u "image/") = true)
    | ReadText => (f_size f <= MAX_ATTACHMENT_BYTES)%N /\ extension (f_name f) ∈ ATTACH_EXTENSIONS
    | Refused _ => True
    end) plans files.
Proof.
  cbv zeta. unfold handleFiles. generalize (length (List.filter (fun a => negb (streq (at_image a) [])) attachments)) as nb. intros nb.
  assert (M : forall e l, existsb (streq e) l = true -> e ∈ l).
  { intros e l (x & Hx & E)%existsb_exists. destruct (streq_spec e x) as [->|]; [by apply list_elem_of_In|done]. }
  split; [|split].
  - revert nb. induction files as [|f r IH]; intros nb; cbn [plan_files length]; [done|].
    destruct (plan_file t vision nb f). cbn [length]. by rewrite IH.
  - intros H. pose proof (plan_files_images t vision nb files). lia.
  - revert nb. induction files as [|f r IH]; intros nb; cbn [plan_files]; [constructor|].
    destruct (plan_file t vision nb f) as [p nb'] eqn:E. constructor; [|apply IH]. unfold plan_file in E.
    repeat match type of E with context [if ?b then _ else _] => destruct b eqn:? end; injection E as <- <-; try done.
    + bool_norm. split; [by destruct vision|]. split; [done|].
      match goal with H : _ || _ = true |- _ => apply orb_true_iff in H as [H|H]; [left; by apply M|by right] end.
    + bool_norm. split; [done|]. by apply M.
Qed.

(** A photograph of 4000 by 3000 pixels is brought to 1568 by 1176; a small
    picture goes as it is; with a canvas that lies, a large one is refused. *)
Example prepareImage_cases :
  prepareImage true (mkFile (u "a.jpg") (u "image/jpeg") 5000000) (mkBitmap 4000 3000) = Redrawn (Some 1568%Z) (Some 1176%Z)
  /\ prepareImage false (mkFile (u "a.jpg") (u "image/jpeg") 5000000) (mkBitmap 4000 3000) = Unreliable
  /\ prepareImage false (mkFile (u "a.png") (u "image/png") 2000) (mkBitmap 400 300) = AsIs.
Proof. vm_compute. repeat split; reflexivity. Qed.
(** The images are counted on the attachments of the render: a second drop made
    while the first images are being read does not count them. *)
Example two_drops_pass_the_limit :
  let four := repeat (mkFile (u "a.png") (u "image/png") 1000) 4 in
  length (List.filter is_image (handleFiles id true [] four ++ handleFiles id true [] four)) = 8.
Proof. reflexivity. Qed.

(** A file without an extension is judged on its last letter, and refused. *)
Example no_extension : extension (u "Makefile") = u "e" /\ extension (u ".ENV") = u ".env" /\
  handleFiles id true [] [mkFile (u "Makefile") [] 10; mkFile (u ".ENV") [] 10]
  = [Refused (u "« Makefile » : seuls les fichiers texte sont acceptés."); ReadText].
Proof. vm_compute. repeat split; reflexivity. Qed.
