(* ===== verification/Support.v ===== *)
(** * The support page (app/(app)/support/SupportPage.tsx)

    The assistant that can act on the account: a thread, one stream at a time,
    the cards that ask for the confirmation of a sensitive action, the votes.
    [SPage] is the state of the page; its handlers are functions on it, and the
    promises they wait for (the stream, a confirmation, a vote) are events of
    their own.  The clock is read in whole milliseconds.  The scrolling, the
    dictation and the reading of the attached files are left out.

    What a turn leaves in the thread, the confirmation of sensitive actions, the
    votes, and where the page loses something. *)

From stdpp Require Import gmap.
From S2P Require Import JsJson JsNumber JsRegExp I18n Decisions Parsers Export Attachments.
Local Open Scope flow_scope.

(** ** Data *)

(** [ChatToolCallItem]; absent texts are [None]. *)
Record ToolItem := mkTool {
  k_key : jstr; k_name : jstr; k_target : option jstr; k_status : jstr; k_duration : option jstr; k_error : option jstr
}.
(** [ToolCallEvent] of lib/api.ts *)
Record ToolCallEvent := mkToolCall {
  v_id : jstr; v_name : jstr; v_status : jstr; v_target : option jstr; v_duration_ms : option Z; v_error : option jstr
}.
Record ConfirmRequest := mkConfirm { q_token : jstr; q_tool : jstr; q_label : jstr; q_target : option jstr }.

(** An absent flag is [false], an absent list of calls is empty. *)
Record SMsg := mkS {
  s_user : bool; s_text : jstr; s_ts : option Z; s_error : bool; s_interrupted : bool; s_tools : list ToolItem;
  s_reasoning : option jstr; s_ms : option Z; s_model : option jstr; s_pending : option ConfirmRequest
}.
Definition said (text : jstr) (now : Z) : SMsg := mkS true text (Some now) false false [] None None None None.

Record FeedbackUi := mkFeedback { f_open : bool; f_comment : jstr; f_busy : bool; f_sent : bool }.
Definition no_feedback : FeedbackUi := mkFeedback false [] false false.

(** The variables of [runStream]'s closure. *)
Record STurn := mkTurn {
  u_next : list SMsg; u_acc : jstr; u_reason : jstr; u_start : option Z; u_end : option Z;
  u_tools : list ToolItem; u_notice : jstr; u_abort : bool
}.

Record Vote := mkVote { w_up : bool; w_comment : option jstr; w_question : jstr; w_answer : jstr; w_model : jstr }.
(** What the page asks of the server, in order. *)
Inductive SEffect :=
| Streamed (msgs : list SMsg)                   (* POST /support/chat *)
| Confirmed (token : jstr) (cancel : bool)      (* POST /support/confirm *)
| Voted (v : Vote)                              (* POST /support/feedback *)
| Cleared                                       (* POST /support/thread/clear *)
| Downloaded (name text : jstr).

Record SPage := mkSPage {
  thread : list SMsg; s_input : jstr; s_files : list Attachment; sending : bool; turn : option STurn;
  confirming : option jstr; under_way : list (jstr * bool);   (* the confirmations awaited *)
  feedback : gmap nat FeedbackUi; uiError : option jstr; previous : option (list SMsg); asked : list SEffect
}.

Definition set_thread v p := mkSPage v (s_input p) (s_files p) (sending p) (turn p) (confirming p) (under_way p) (feedback p) (uiError p) (previous p) (asked p).
Definition set_s_input v p := mkSPage (thread p) v (s_files p) (sending p) (turn p) (confirming p) (under_way p) (feedback p) (uiError p) (previous p) (asked p).
Definition set_s_files v p := mkSPage (thread p) (s_input p) v (sending p) (turn p) (confirming p) (under_way p) (feedback p) (uiError p) (previous p) (asked p).
Definition set_sending v p := mkSPage (thread p) (s_input p) (s_files p) v (turn p) (confirming p) (under_way p) (feedback p) (uiError p) (previous p) (asked p).
Definition set_turn v p := mkSPage (thread p) (s_input p) (s_files p) (sending p) v (confirming p) (under_way p) (feedback p) (uiError p) (previous p) (asked p).
Definition set_confirming v p := mkSPage (thread p) (s_input p) (s_files p) (sending p) (turn p) v (under_way p) (feedback p) (uiError p) (previous p) (asked p).
Definition set_under_way v p := mkSPage (thread p) (s_input p) (s_files p) (sending p) (turn p) (confirming p) v (feedback p) (uiError p) (previous p) (asked p).
Definition set_feedback v p := mkSPage (thread p) (s_input p) (s_files p) (sending p) (turn p) (confirming p) (under_way p) v (uiError p) (previous p) (asked p).
Definition set_uiError v p := mkSPage (thread p) (s_input p) (s_files p) (sending p) (turn p) (confirming p) (under_way p) (feedback p) v (previous p) (asked p).
Definition set_previous v p := mkSPage (thread p) (s_input p) (s_files p) (sending p) (turn p) (confirming p) (under_way p) (feedback p) (uiError p) v (asked p).
Definition ask (e : SEffect) p := mkSPage (thread p) (s_input p) (s_files p) (sending p) (turn p) (confirming p) (under_way p) (feedback p) (uiError p) (previous p) (asked p ++ [e]).

(** ** The thread of the previous visit *)

Record ThreadEntry := mkEntry { e_role : jstr; e_text : jstr; e_model : option jstr; e_reason : option jstr; e_ms : option Z }.
(** [d.messages ?? []] *)
Definition threadFrom (d : option (list ThreadEntry)) : list SMsg :=
  map (fun m => mkS (streq (e_role m) (u "user")) (e_text m) None false false [] (e_reason m) (e_ms m) (e_model m) None)
    (List.filter (fun m => streq (e_role m) (u "user") || streq (e_role m) (u "assistant")) (default [] d)).

(** ** The welcome cards *)

Record Suggestion := mkSuggestion { g_heading : jstr; g_body : jstr; g_prompt : jstr }.   (* the icon is left out *)
Definition SUGGESTIONS : list Suggestion := [
  mkSuggestion (u "Créer une clé") (u "Génère une nouvelle clé API pour tes intégrations") (u "Crée-moi une clé API pour mon laptop");
  mkSuggestion (u "Demander du budget") (u "Augmente ton quota de tokens mensuel") (u "Demande plus de budget pour mon compte");
  mkSuggestion (u "Modèles disponibles") (u "Liste les modèles actifs et leur fenêtre de contexte")
    (u "Quels modèles je peux utiliser et quel est leur contexte ?");
  mkSuggestion (u "Erreur 401") (u "Diagnostique un problème d'authentification") (u "Ma clé API renvoie une erreur 401, pourquoi ?")
].
Definition MODEL_STOPPED_SUGGESTION : Suggestion :=
  mkSuggestion (u "Pourquoi le modèle est-il arrêté ?") (u "Diagnostique l'arrêt et propose de le relancer")
    (u "Pourquoi le modèle est-il arrêté ? Peux-tu le relancer ?").
Definition API_KEY_SUGGESTION : Suggestion :=
  mkSuggestion (u "Comment créer ma clé API ?") (u "L'assistant te la crée et t'explique comment l'utiliser")
    (u "Comment créer ma clé API ? Peux-tu le faire pour moi ?").
Definition suggestions (runningModel : option jstr) (hasApiKey : bool) : list Suggestion :=
  (match runningModel with Some (_ :: _) => [] | _ => [MODEL_STOPPED_SUGGESTION] end)
  ++ (if hasApiKey then [] else [API_KEY_SUGGESTION]) ++ SUGGESTIONS.

Section support.
Context (t : jstr -> jstr) (csrf : jstr) (runningModel : option jstr) (brand : jstr).

Definition WELCOME_MESSAGE_FR : jstr :=
  u "Bonjour 👋 Je suis **{name}**, l'assistant de la plateforme. Je peux te dépanner (clé, quota, modèle, intégration OpenCode/Hermes…) mais aussi **agir pour toi** : créer une clé, demander du budget, demander un modèle. Dis-moi ce qu'il te faut.".
Definition welcome : SMsg :=
  mkS false (replace_str (t WELCOME_MESSAGE_FR) (u "{name}") brand) None false false [] None None None None.
Definition displayMessages (p : SPage) : list SMsg := match thread p with [] => [welcome] | m => m end.

Definition support_start (seed : option (list ThreadEntry)) : SPage :=
  let t0 := threadFrom seed in
  mkSPage [] [] [] false None None [] ∅ None (match t0 with [] => None | _ => Some t0 end) [].
(** The thread fetched by the mount effect, whose [messages] are those of the
    first render: empty. *)
Definition thread_fetched (d : option (list ThreadEntry)) (p : SPage) : SPage :=
  match threadFrom d with [] => p | restored => set_previous (Some restored) p end.
(** The button « Reprendre », shown with an empty thread only. *)
Definition resume_previous (p : SPage) : SPage :=
  match thread p, previous p with
  | [], Some m => p |> set_thread m |> set_previous None
  | _, _ => p
  end.

(** ** A turn *)

Definition no_session (p : SPage) : SPage := set_uiError (Some (t (u "Session incomplète — recharge la page."))) p.

Definition runStream (now : Z) (nextMessages : list SMsg) (p : SPage) : SPage :=
  match csrf with
  | [] => no_session p
  | _ =>
      p |> set_feedback (<[length nextMessages := no_feedback]> (feedback p))
        |> set_thread (nextMessages ++ [mkS false [] (Some now) false false [] None None runningModel None])
        |> set_sending true
        |> set_turn (Some (mkTurn nextMessages [] [] None None [] [] false))
        |> ask (Streamed nextMessages)
  end.

(** The members [updateLast] is given; a flag given is [true]. *)
Record Patch := mkPatch { h_text : jstr; h_error : bool; h_reasoning : option jstr; h_ms : option (option Z); h_interrupted : bool }.
Definition text_only (c : jstr) : Patch := mkPatch c false None None false.

(** [{ ...last, toolCalls, ...patch }] *)
Definition patched (tools : list ToolItem) (h : Patch) (m : SMsg) : SMsg :=
  mkS (s_user m) (h_text h) (s_ts m) (s_error m || h_error h) (s_interrupted m || h_interrupted h) tools
    (match h_reasoning h with Some r => Some r | None => s_reasoning m end)
    (match h_ms h with Some ms => ms | None => s_ms m end) (s_model m) (s_pending m).
Definition on_last (f : SMsg -> SMsg) (msgs : list SMsg) : list SMsg :=
  match last msgs with Some m => removelast msgs ++ [f m] | None => msgs end.
Definition updateLast (tools : list ToolItem) (h : Patch) (p : SPage) : SPage :=
  set_thread (on_last (patched tools h) (thread p)) p.

Definition tool_item (e : ToolCallEvent) : ToolItem :=
  mkTool (v_id e) (t (v_name e)) (v_target e) (v_status e)
    ((fun ms => to_fixed1 (ndiv (num_of_Z ms) (num_of_Z 1000)) ++ u "s") <$> v_duration_ms e) (t <$> v_error e).
(** [findIndex] by key, then replaced or pushed. *)
Fixpoint put_tool (k : ToolItem) (l : list ToolItem) : list ToolItem :=
  match l with
  | [] => [k]
  | c :: r => if streq (k_key c) (k_key k) then k :: r else c :: put_tool k r
  end.

(** The callbacks [streamSupportChat] is given. *)
Inductive SDelta :=
| Chunk (c : jstr) | Reasoning (c : jstr) | ToolCall (e : ToolCallEvent) | Notice (n : DgxNotice) | ConfirmAsked (r : ConfirmRequest).

Definition turn_delta (now : Z) (d : SDelta) (a : STurn) : STurn :=
  match d with
  | Chunk c => mkTurn (u_next a) (u_acc a ++ c) (u_reason a) (u_start a) (Some (default now (u_end a))) (u_tools a) (u_notice a) (u_abort a)
  | Reasoning c => mkTurn (u_next a) (u_acc a) (u_reason a ++ c) (Some (default now (u_start a))) (u_end a) (u_tools a) (u_notice a) (u_abort a)
  | ToolCall e => mkTurn (u_next a) (u_acc a) (u_reason a) (u_start a) (u_end a) (put_tool (tool_item e) (u_tools a)) (u_notice a) (u_abort a)
  | Notice n => mkTurn (u_next a) (u_acc a) (u_reason a) (u_start a) (u_end a) (u_tools a) (noticeText t n) (u_abort a)
  | ConfirmAsked _ => a
  end.
(** What the callback paints, [a] being the closure after it. *)
Definition paint (d : SDelta) (a : STurn) (p : SPage) : SPage :=
  match d with
  | Chunk _ | ToolCall _ => updateLast (u_tools a) (text_only (u_acc a)) p
  | Reasoning _ => updateLast (u_tools a) (mkPatch (u_acc a) false (Some (u_reason a)) None false) p
  | Notice _ => updateLast (u_tools a) (mkPatch (u_notice a) true None None false) p
  | ConfirmAsked r =>
      set_thread (on_last (fun m => if s_user m then m
        else mkS (s_user m) (s_text m) (s_ts m) (s_error m) (s_interrupted m) (s_tools m) (s_reasoning m) (s_ms m) (s_model m) (Some r))
        (thread p)) p
  end.
Definition onDelta (now : Z) (d : SDelta) (p : SPage) : SPage :=
  match turn p with
  | Some a => let a' := turn_delta now d a in p |> set_turn (Some a') |> paint d a'
  | None => p
  end.

(** How [streamSupportChat] settles. *)
Inductive SOutcome := SDone | SAborted | SFailed.

(** What follows the [await], the [finally] included. *)
Definition stream_over (now : Z) (out : SOutcome) (p : SPage) : SPage :=
  match turn p with
  | None => p
  | Some a =>
      let p :=
        match out with
        | SDone =>
            let p := match u_reason a with
                     | [] => p
                     | r =>
                         let ms := match u_start a with
                                   | Some s => if (s =? 0)%Z then None else Some (default now (u_end a) - s)%Z
                                   | None => None
                                   end in
                         updateLast (u_tools a) (mkPatch (u_acc a) false (Some r) (Some ms) false) p
                     end in
            match u_acc a, u_notice a with
            | [], [] => updateLast (u_tools a) (mkPatch (t (u "Pas de réponse.")) true None None false) p
            | _, _ => p
            end
        | SAborted =>
            match u_acc a with
            | [] => set_thread (removelast (thread p)) p
            | c => updateLast (u_tools a) (mkPatch c false None None true) p
            end
        | SFailed => updateLast (u_tools a) (mkPatch (t (u "Erreur réseau — réessaie.")) true None None false) p
        end in
      p |> set_sending false |> set_turn None
  end.

Definition abort_stream (p : SPage) : SPage :=
  match turn p with
  | Some a => set_turn (Some (mkTurn (u_next a) (u_acc a) (u_reason a) (u_start a) (u_end a) (u_tools a) (u_notice a) true)) p
  | None => p
  end.
Definition support_stop (p : SPage) : SPage := abort_stream p.

Definition attached_text (fs : list Attachment) : jstr :=
  join [LF; LF] (map (fun f => FENCE ++ at_name f ++ [LF] ++ at_content f ++ [LF] ++ FENCE) fs).
Definition support_send (now : Z) (text : jstr) (p : SPage) : SPage :=
  let trimmed := trim text in
  if streq trimmed [] || sending p then p
  else
    let attached := attached_text (s_files p) in
    let content := match attached with [] => trimmed | _ => trimmed ++ [LF; LF] ++ attached end in
    let nextMessages := displayMessages p ++ [said content now] in
    p |> set_s_files [] |> set_s_input [] |> runStream now nextMessages.

Definition support_regenerate (now : Z) (p : SPage) : SPage :=
  if sending p then p
  else match last (thread p) with
       | None => p
       | Some m =>
           let base := if s_user m then thread p else removelast (thread p) in
           match last base with
           | Some b => if s_user b then runStream now base p else p
           | None => p
           end
       end.

(** ** Sensitive actions *)

(** The body of the answer of POST /support/confirm; an absent text is empty. *)
Record ConfirmResult := mkResult { r_ok : bool; r_message : jstr; r_error : jstr }.

Definition card_removed (token : jstr) (m : SMsg) : SMsg :=
  match s_pending m with
  | Some r => if streq (q_token r) token
              then mkS (s_user m) (s_text m) (s_ts m) (s_error m) (s_interrupted m) (s_tools m) (s_reasoning m) (s_ms m) (s_model m) None
              else m
  | None => m
  end.
Definition result_text (r : ConfirmResult) : jstr :=
  match r_message r, r_error r with
  | _ :: _, _ => tServer (r_message r) t
  | [], _ :: _ => tServer (r_error r) t
  | [], [] => t (u "Erreur réseau — réessaie.")
  end.
Definition appendConfirmResult (now : Z) (r : ConfirmResult) (token : jstr) (keepCard : bool) (p : SPage) : SPage :=
  set_thread (map (fun m => if keepCard then m else card_removed token m) (thread p)
              ++ [mkS false (result_text r) (Some now) (negb (r_ok r)) false [] None None None None]) p.

(** The click, then the answer of the server to the [i]-th request awaited
    ([None]: it did not answer). *)
Definition handleConfirm (token : jstr) (cancel : bool) (p : SPage) : SPage :=
  match csrf, confirming p with
  | _ :: _, None =>
      p |> set_confirming (Some token) |> set_under_way (under_way p ++ [(token, cancel)]) |> ask (Confirmed token cancel)
  | _, _ => p
  end.
Definition confirm_answered (now : Z) (i : nat) (result : option ConfirmResult) (p : SPage) : SPage :=
  match under_way p !! i with
  | None => p
  | Some (token, _) =>
      let p := match result with
               | Some r => appendConfirmResult now r token false p
               | None => appendConfirmResult now (mkResult false (t (u "Erreur réseau — réessaie.")) []) token true p
               end in
      p |> set_under_way (delete i (under_way p)) |> set_confirming None
  end.

Definition newConversation (p : SPage) : SPage :=
  match csrf with
  | [] => no_session p
  | _ => abort_stream p |> set_thread [] |> set_feedback ∅ |> set_confirming None |> ask Cleared
  end.

(** ** Votes *)

Definition feedback_at (i : nat) (p : SPage) : FeedbackUi := default no_feedback (feedback p !! i).
Definition setFeedbackUi (i : nat) (f : FeedbackUi -> FeedbackUi) (p : SPage) : SPage :=
  set_feedback (<[i := f (feedback_at i p)]> (feedback p)) p.

Definition vote_question (i : nat) (msgs : list SMsg) : jstr :=
  match find s_user (rev (take i msgs)) with Some m => s_text m | None => [] end.
Definition sendFeedback (i : nat) (up : bool) (comment : option jstr) (p : SPage) : SPage :=
  match csrf with
  | [] => no_session p
  | _ =>
      match thread p !! i with
      | Some m =>
          if s_user m then p
          else p |> setFeedbackUi i (fun f => mkFeedback (f_open f) (f_comment f) true (f_sent f))
                 |> ask (Voted (mkVote up
                      (match trim <$> comment with Some [] | None => None | c => c end)
                      (vote_question i (thread p)) (s_text m) (default [] runningModel)))
      | None => p
      end
  end.
Definition vote_answered (i : nat) (ok : bool) (p : SPage) : SPage :=
  if ok then setFeedbackUi i (fun f => mkFeedback false (f_comment f) false true) p
  else setFeedbackUi i (fun f => mkFeedback (f_open f) (f_comment f) false (f_sent f)) p.

(** ** Files and export *)

(** [Refused] is the message of the banner; the last one stays. *)
Definition support_file (f : File) : Plan :=
  if negb (existsb (streq (extension (f_name f))) ATTACH_EXTENSIONS)
  then refusal t (u "« {name} » : seuls les fichiers texte sont acceptés.") (f_name f)
  else if (MAX_ATTACHMENT_BYTES <? f_size f)%N
  then refusal t (u "« {name} » dépasse 96 Ko — trop gros pour le contexte.") (f_name f)
  else ReadText.
Definition support_files (files : list File) (p : SPage) : SPage * list Plan :=
  let plans := map support_file files in
  (foldl (fun p x => match x with Refused m => set_uiError (Some m) p | _ => p end) p plans, plans).

Definition export_msg (m : SMsg) : ExportMsg :=
  mkExport (s_user m) (s_text m) false (default [] (s_reasoning m)) (default 0%Z (s_ms m)).
Definition re_slug : RegExp := rx "[^\\w.-]+" "g".
Definition re_slug_ends : RegExp := rx "^-+|-+$" "g".
Definition thread_slug (title : jstr) : jstr :=
  match replace_all re_slug_ends [] (replace_all re_slug (u "-") (to_lower title)) with
  | [] => u "support"
  | s => s
  end.
Definition exportThread (p : SPage) : SPage :=
  let msgs := map export_msg (thread p) in
  let title := convTitleFallback msgs (t (u "Conversation")) in
  ask (Downloaded (thread_slug title ++ u ".md") (convAsMarkdown t title (default [] runningModel) msgs)) p.

(** ** The page as a transition system *)

Inductive SEvent :=
| SDelta_ (now : Z) (d : SDelta) | SOver (now : Z) (out : SOutcome)
| SSend (now : Z) (text : jstr) | SRegenerate (now : Z) | SStop
| SConfirm (token : jstr) (cancel : bool) | SAnswered (now : Z) (i : nat) (r : option ConfirmResult)
| SNew | SResume | SFetched (d : option (list ThreadEntry))
| SVote (i : nat) (up : bool) (comment : option jstr) | SVoted (i : nat) (ok : bool) | SExport.

Definition support_handle (e : SEvent) (p : SPage) : SPage :=
  match e with
  | SDelta_ now d => onDelta now d p
  | SOver now out => stream_over now out p
  | SSend now text => support_send now text p
  | SRegenerate now => support_regenerate now p
  | SStop => support_stop p
  | SConfirm token cancel => handleConfirm token cancel p
  | SAnswered now i r => confirm_answered now i r p
  | SNew => newConversation p
  | SResume => resume_previous p
  | SFetched d => thread_fetched d p
  | SVote i up c => sendFeedback i up c p
  | SVoted i ok => vote_answered i ok p
  | SExport => exportThread p
  end.
Definition support_run (es : list SEvent) (p : SPage) : SPage := foldl (fun p e => support_handle e p) p es.
End support.

(** Reading a field through the updates. *)
Ltac support_fields :=
  cbn [thread s_input s_files sending turn confirming under_way feedback uiError previous asked
       set_thread set_s_input set_s_files set_sending set_turn set_confirming set_under_way set_feedback
       set_uiError set_previous ask updateLast] in *.

(** * Properties *)

(** ** What a stream said *)

Definition chunks_of (ds : list (Z * SDelta)) : jstr := flat_map (fun d => match d.2 with Chunk c => c | _ => [] end) ds.
Definition thoughts_of (ds : list (Z * SDelta)) : option jstr :=
  foldl (fun o d => match d.2 with Reasoning c => Some (default [] o ++ c) | _ => o end) None ds.
Definition card_of (ds : list (Z * SDelta)) : option ConfirmRequest :=
  foldl (fun o d => match d.2 with ConfirmAsked r => Some r | _ => o end) None ds.
(** The last event of each call, in the order in which the calls began. *)
Definition tools_of (t : jstr -> jstr) (ds : list (Z * SDelta)) : list ToolItem :=
  foldl (fun l d => match d.2 with ToolCall e => put_tool (tool_item t e) l | _ => l end) [] ds.
Definition is_notice (d : SDelta) : bool := match d with Notice _ => true | _ => false end.

Lemma streq_nil : streq [] [] = true.
Proof. done. Qed.
Lemma streq_cons c r : streq (c :: r) [] = false.
Proof. done. Qed.
Ltac msg_fields :=
  unfold patched, text_only;
  cbn [s_user s_text s_ts s_error s_interrupted s_tools s_reasoning s_ms s_model s_pending
       h_text h_error h_reasoning h_ms h_interrupted orb].

Section turns.
Context (t : jstr -> jstr) (csrf : jstr) (model : option jstr).

Definition streamed (ds : list (Z * SDelta)) (p : SPage) : SPage := foldl (fun p d => onDelta t d.1 d.2 p) p ds.

Lemma on_last_snoc f l m : on_last f (l ++ [m]) = l ++ [f m].
Proof. unfold on_last. by rewrite last_snoc, removelast_last. Qed.

(** The message while it is being written, and the closure beside it. *)
Definition writing (now : Z) (ds : list (Z * SDelta)) (m : SMsg) : Prop :=
  m = mkS false (chunks_of ds) (Some now) false false (tools_of t ds) (thoughts_of ds) None model (card_of ds).
Definition turn_of (next : list SMsg) (ds : list (Z * SDelta)) (a : STurn) : Prop :=
  u_next a = next /\ u_acc a = chunks_of ds /\ u_reason a = default [] (thoughts_of ds) /\ u_tools a = tools_of t ds /\ u_notice a = [].

Lemma chunks_snoc ds n d : chunks_of (ds ++ [(n, d)]) = chunks_of ds ++ match d with Chunk c => c | _ => [] end.
Proof. unfold chunks_of. rewrite flat_map_app. cbn. by rewrite app_nil_r. Qed.
Lemma thoughts_snoc ds n d :
  thoughts_of (ds ++ [(n, d)]) = match d with Reasoning c => Some (default [] (thoughts_of ds) ++ c) | _ => thoughts_of ds end.
Proof. unfold thoughts_of. rewrite foldl_app. by destruct d. Qed.
Lemma card_snoc ds n d : card_of (ds ++ [(n, d)]) = match d with ConfirmAsked r => Some r | _ => card_of ds end.
Proof. unfold card_of. rewrite foldl_app. by destruct d. Qed.
Lemma tools_snoc ds n d :
  tools_of t (ds ++ [(n, d)]) = match d with ToolCall e => put_tool (tool_item t e) (tools_of t ds) | _ => tools_of t ds end.
Proof. unfold tools_of. rewrite foldl_app. by destruct d. Qed.

Lemma streamed_state now next p ds : csrf <> [] -> forallb (fun d => negb (is_notice d.2)) ds = true ->
  let q := streamed ds (runStream t csrf model now next p) in
  sending q = true /\ exists a m, turn q = Some a /\ turn_of next ds a /\ thread q = next ++ [m] /\ writing now ds m.
Proof.
  intros Hc. cbv zeta. induction ds as [|[n d] ds IH] using rev_ind; intros Hn.
  - unfold streamed, runStream. destruct csrf; [done|]. cbn [foldl]. support_fields. split; [done|].
    eexists _, _. split; [reflexivity|]. split; [done|]. by split.
  - rewrite forallb_app in Hn. apply andb_prop in Hn as [Hn1 Hn2]. cbn [forallb snd] in Hn2. rewrite andb_true_r in Hn2.
    destruct (IH Hn1) as (HS & a & m & Ha & (A1 & A2 & A3 & A4 & A5) & Hm & W). unfold streamed. rewrite foldl_app. cbn [foldl].
    fold (streamed ds (runStream t csrf model now next p)). set (q := streamed ds _) in *. cbn [fst snd].
    unfold onDelta. rewrite Ha. unfold writing in W. subst m. unfold turn_of, writing.
    rewrite chunks_snoc, thoughts_snoc, card_snoc, tools_snoc, <- A2, <- A3, <- A4.
    destruct d as [c|c|e|nt|r]; cbn [is_notice] in Hn2; try done; cbn [turn_delta paint]; support_fields; rewrite Hm, on_last_snoc;
      (split; [done|]; eexists _, _; split; [reflexivity|]; split; [by rewrite ?app_nil_r|]; split; [reflexivity|]);
      unfold patched, text_only; cbn; by rewrite ?app_nil_r, ?A2, ?A3, ?A4.
Qed.

(** What a turn of the support leaves, when the server sent no notice: the
    messages it started from, then the answer with everything that was
    streamed (its text, its thinking, each tool call in its last state, the
    card that asks for a confirmation). An empty answer is an error; a stopped
    one keeps its text, marked, and disappears when it has none; a network
    failure replaces the text.  The page may send again. *)
Theorem support_turn_leaves now next p ds now' out :
  csrf <> [] -> forallb (fun d => negb (is_notice d.2)) ds = true ->
  let q := stream_over t now' out (streamed ds (runStream t csrf model now next p)) in
  let answer text err cut m :=
    s_user m = false /\ s_text m = text /\ s_error m = err /\ s_interrupted m = cut /\ s_ts m = Some now /\
    s_tools m = tools_of t ds /\ s_reasoning m = thoughts_of ds /\ s_model m = model /\ s_pending m = card_of ds in
  sending q = false /\ turn q = None /\
  match out with
  | SDone => exists m, thread q = next ++ [m] /\
      if streq (chunks_of ds) [] then answer (t (u "Pas de réponse.")) true false m else answer (chunks_of ds) false false m
  | SAborted => if streq (chunks_of ds) [] then thread q = next
                else exists m, thread q = next ++ [m] /\ answer (chunks_of ds) false true m
  | SFailed => exists m, thread q = next ++ [m] /\ answer (t (u "Erreur réseau — réessaie.")) true false m
  end.
Proof.
  intros Hc Hn. cbv zeta. destruct (streamed_state now next p ds Hc Hn) as (HS & a & m & Ha & (A1 & A2 & A3 & A4 & A5) & Hm & W).
  set (q := streamed ds _) in *. unfold stream_over. rewrite Ha. unfold writing in W. rewrite A2, A3, A4, A5. destruct out; support_fields.
  - assert (N : chunks_of ds = [] \/ exists c' r', chunks_of ds = c' :: r') by (destruct (chunks_of ds); [by left|right; by eexists _, _]).
    destruct (thoughts_of ds) as [[|c r]|] eqn:E; cbn [from_option id]; destruct N as [K|(c' & r' & K)]; rewrite K; support_fields;
      (split; [done|]); (split; [done|]); rewrite Hm, ?on_last_snoc; eexists; (split; [reflexivity|]); subst m;
      rewrite ?streq_nil, ?streq_cons; msg_fields; rewrite ?E, ?K; repeat split.
  - destruct (chunks_of ds) as [|c' r'] eqn:K; support_fields; (split; [done|]); (split; [done|]); rewrite Hm, ?removelast_last; [done|].
    rewrite on_last_snoc, streq_cons. eexists. split; [reflexivity|]. subst m. msg_fields. repeat split.
  - split; [done|]. split; [done|]. rewrite Hm, on_last_snoc. eexists. split; [reflexivity|]. subst m. msg_fields. repeat split.
Qed.
End turns.

(** ** Sensitive actions *)

Section confirmations.
Context (t : jstr -> jstr) (csrf : jstr) (model : option jstr) (brand : jstr).
Notation handle := (support_handle t csrf model brand).
Notation run := (support_run t csrf model brand).

Definition confirmations (p : SPage) : list (jstr * bool) :=
  omap (fun e => match e with Confirmed k c => Some (k, c) | _ => None end) (asked p).
Definition clicks (es : list SEvent) : list (jstr * bool) :=
  omap (fun e => match e with SConfirm k c => Some (k, c) | _ => None end) es.
Definition is_new (e : SEvent) : bool := match e with SNew => true | _ => false end.

(** What the confirmations depend on. *)
Definition confirm_view (p : SPage) : option jstr * list (jstr * bool) * list (jstr * bool) :=
  (confirming p, under_way p, confirmations p).

Lemma confirmations_ask e p : confirmations (ask e p) = confirmations p ++ match e with Confirmed k c => [(k, c)] | _ => [] end.
Proof. unfold confirmations. cbn [ask asked]. rewrite omap_app. by destruct e. Qed.

Lemma runStream_confirm now next p : confirm_view (runStream t csrf model now next p) = confirm_view p.
Proof.
  unfold runStream, no_session. destruct csrf; [done|]. unfold confirm_view. rewrite confirmations_ask, app_nil_r. done.
Qed.
Lemma onDelta_confirm now d p : confirm_view (onDelta t now d p) = confirm_view p.
Proof. unfold onDelta. destruct (turn p); [|done]. by destruct d. Qed.
Lemma stream_over_confirm now out p : confirm_view (stream_over t now out p) = confirm_view p.
Proof.
  unfold stream_over. destruct (turn p) as [a|]; [|done].
  destruct out; repeat match goal with |- context [match ?x with [] => _ | _ :: _ => _ end] => destruct x end; done.
Qed.

(** Only the click, the answer and a new conversation touch them. *)
Lemma handle_confirm_view e p :
  match e with SConfirm _ _ | SAnswered _ _ _ | SNew => True | _ => confirm_view (handle e p) = confirm_view p end.
Proof.
  destruct e; cbn [support_handle]; try exact I.
  - apply onDelta_confirm.
  - apply stream_over_confirm.
  - unfold support_send. destruct (_ || _); [done|]. by rewrite runStream_confirm.
  - unfold support_regenerate. destruct (sending p); [done|]. destruct (last (thread p)); [|done].
    destruct (last _) as [b|]; [|done]. destruct (s_user b); [apply runStream_confirm|done].
  - unfold support_stop, abort_stream. by destruct (turn p).
  - unfold resume_previous. destruct (thread p), (previous p); done.
  - unfold thread_fetched. by destruct (threadFrom d).
  - unfold sendFeedback, no_session. destruct csrf; [done|]. destruct (thread p !! i) as [m|]; [|done]. destruct (s_user m); [done|].
    unfold confirm_view. rewrite confirmations_ask, app_nil_r. done.
  - unfold vote_answered. by destruct ok.
  - unfold exportThread, confirm_view. rewrite confirmations_ask, app_nil_r. done.
Qed.

(** One confirmation at most is awaited, the one [confirmingToken] names. *)
Definition one_awaited (p : SPage) : Prop :=
  match confirming p with
  | None => under_way p = []
  | Some k => exists c, under_way p = [(k, c)]
  end.
Lemma answered_view now i r p : confirm_view (confirm_answered t now i r p) =
  match under_way p !! i with Some _ => (None, delete i (under_way p), confirmations p) | None => confirm_view p end.
Proof. unfold confirm_answered. destruct (under_way p !! i) as [[k c]|]; [|done]. by destruct r. Qed.

Lemma one_awaited_view p q : confirm_view q = confirm_view p -> one_awaited p -> one_awaited q.
Proof. unfold confirm_view, one_awaited. by intros [= -> -> _]. Qed.
Lemma one_awaited_step e p : is_new e = false -> one_awaited p -> one_awaited (handle e p).
Proof.
  intros Hn H. pose proof (handle_confirm_view e p) as V. destruct e; try done; try (by eapply one_awaited_view).
  - clear V. cbn [support_handle]. unfold handleConfirm, one_awaited in *. destruct csrf; [done|].
    destruct (confirming p) eqn:C; [by rewrite C|]. support_fields. rewrite H. by eexists.
  - clear V. pose proof (answered_view now i r p) as V. cbn [support_handle]. unfold one_awaited, confirm_view in *.
    destruct (under_way p !! i) as [x|] eqn:L; injection V as -> -> _; [|done].
    destruct (confirming p); [destruct H as [c' H]|]; rewrite H in *; [|done]. by destruct i.
Qed.

(** Nothing sensitive is executed without a click. Whatever the server streams
    and whatever else happens, the confirmations the page sends are, in order,
    clicks on the buttons of a card; and, as long as the conversation is not
    emptied, a click made while an answer is awaited sends nothing: one
    confirmation at most is under way. *)
Theorem confirmations_are_clicks es p :
  (exists sent, confirmations (run es p) = confirmations p ++ sent /\ sent `sublist_of` clicks es) /\
  (one_awaited p -> forallb (fun e => negb (is_new e)) es = true ->
   one_awaited (run es p) /\ length (under_way (run es p)) <= 1).
Proof.
  split.
  - revert p. induction es as [|e es IH]; intros p; [exists []; by rewrite app_nil_r|]. cbn [support_run foldl].
    change (foldl _ (handle e p) es) with (run es (handle e p)). destruct (IH (handle e p)) as (l & -> & Hl).
    pose proof (handle_confirm_view e p) as V.
    assert (S : clicks (e :: es) = match e with SConfirm k c => [(k, c)] | _ => [] end ++ clicks es) by by destruct e.
    rewrite S. destruct e; try (apply (f_equal snd) in V; cbn [confirm_view snd] in V; rewrite V; by exists l); clear V; cbn [support_handle].
    + unfold handleConfirm. destruct csrf; [exists l; split; [done|by apply sublist_cons]|].
      destruct (confirming p); [exists l; split; [done|by apply sublist_cons]|].
      exists ((token, cancel) :: l). rewrite confirmations_ask, <- app_assoc. split; [done|by apply sublist_skip].
    + exists l. split; [|done]. pose proof (answered_view now i r p) as V. unfold confirm_view in V.
      destruct (under_way p !! i); by injection V as _ _ ->.
    + exists l. split; [|done]. unfold newConversation, no_session, abort_stream. destruct csrf; [done|].
      rewrite confirmations_ask, app_nil_r. by destruct (turn p).
  - intros H Hn. cut (one_awaited (run es p)).
    { intros K. split; [done|]. unfold one_awaited in K. destruct (confirming (run es p)); [destruct K as [c ->]; cbn; lia|rewrite K; cbn; lia]. }
    revert p H. induction es as [|e es IH]; intros p H; [done|]. cbn [forallb] in Hn. apply andb_prop in Hn as [H1 H2].
    cbn [support_run foldl]. apply IH; [done|]. apply one_awaited_step; [by destruct (is_new e)|done].
Qed.
End confirmations.

Definition carries (token : jstr) (m : SMsg) : bool :=
  match s_pending m with Some r => streq (q_token r) token | None => false end.

(** The answer to a confirmation is said at the end of the thread, as an error
    unless the server says [ok]; the card of its token is removed, since the
    token serves once, and nothing else of the thread changes.  When the server
    did not answer, the thread is as before: the card stays for another try. *)
Theorem confirmation_answered t now i r p token cancel : under_way p !! i = Some (token, cancel) ->
  let q := confirm_answered t now i r p in
  exists body m, thread q = body ++ [m] /\ s_user m = false /\ s_pending m = None /\
    s_error m = negb (match r with Some x => r_ok x | None => false end) /\ confirming q = None /\
    match r with
    | Some _ => Forall (fun x => carries token x = false) body /\
        Forall2 (fun x y => if carries token x then y = card_removed token x else y = x) (thread p) body
    | None => body = thread p
    end.
Proof.
  intros H. cbv zeta. unfold confirm_answered. rewrite H. destruct r as [r|]; unfold appendConfirmResult; support_fields.
  - eexists _, _. split; [reflexivity|]. split; [done|]. split; [done|]. split; [done|]. split; [done|]. cbv beta iota.
    assert (C : forall x, carries token (card_removed token x) = false).
    { intros x. unfold card_removed. destruct (s_pending x) as [y|] eqn:E; [|by unfold carries; rewrite E].
      destruct (streq (q_token y) token) eqn:K; [done|]. unfold carries. by rewrite E. }
    split; [apply Forall_fmap, Forall_forall; intros x _; apply C|].
    induction (thread p) as [|x l IH]; [constructor|]. constructor; [|exact IH]. unfold carries, card_removed.
    destruct (s_pending x) as [y|]; [|done]. by destruct (streq (q_token y) token).
  - exists (thread p). eexists. split; [rewrite map_id; reflexivity|]. repeat split.
Qed.

Lemma find_rev_last {A} (f : A -> bool) l :
  match find f (rev l) with
  | Some x => exists j, l !! j = Some x /\ f x = true /\ forall k y, j < k -> l !! k = Some y -> f y = false
  | None => forall y, y ∈ l -> f y = false
  end.
Proof.
  induction l as [|x l IH] using rev_ind; [by intros y []%elem_of_nil|]. rewrite rev_unit. cbn [find]. destruct (f x) eqn:E.
  - exists (length l). rewrite list_lookup_middle by done. repeat split; [done|].
    intros k y Hk Hy. apply lookup_lt_Some in Hy. rewrite length_app in Hy. cbn in Hy. lia.
  - destruct (find f (rev l)) as [z|].
    + destruct IH as (j & H1 & H2 & H3). exists j. split; [by apply lookup_app_l_Some|]. split; [done|]. intros k y Hk Hy.
      apply lookup_app_Some in Hy as [Hy|[_ Hy]]; [by apply (H3 k)|]. by apply list_lookup_singleton_Some in Hy as [_ <-].
    + intros y [Hy|Hy%list_elem_of_singleton]%elem_of_app; [by apply IH|by subst].
Qed.

(** A vote is about the message shown, with the question it answers: the last
    one of the user before it. *)
Theorem vote_payload t csrf model i up comment p m : csrf <> [] -> thread p !! i = Some m -> s_user m = false ->
  exists v, asked (sendFeedback t csrf model i up comment p) = asked p ++ [Voted v] /\ w_answer v = s_text m /\
    ((w_question v = [] /\ forall k x, k < i -> thread p !! k = Some x -> s_user x = false) \/
     exists j q, j < i /\ thread p !! j = Some q /\ s_user q = true /\ w_question v = s_text q /\
       forall k x, j < k < i -> thread p !! k = Some x -> s_user x = false).
Proof.
  intros Hc Hm Hu. unfold sendFeedback. destruct csrf; [done|]. rewrite Hm, Hu. eexists. split; [reflexivity|]. split; [done|].
  cbn [w_question]. unfold vote_question. pose proof (find_rev_last s_user (take i (thread p))) as F.
  assert (T : forall k x, k < i -> thread p !! k = Some x -> take i (thread p) !! k = Some x) by (intros; by rewrite lookup_take_lt).
  destruct (find _ _) as [q|].
  - right. destruct F as (j & H1 & H2 & H3). apply lookup_take_Some in H1 as [H1 Hj]. exists j, q. repeat split; [done..|].
    intros k x Hk Hx. apply (H3 k); [lia|]. apply T; [lia|done].
  - left. split; [done|]. intros k x Hk Hx. apply F. eapply list_elem_of_lookup_2, T; done.
Qed.

(** ** Witnesses *)

Definition chat (model : jstr) : Z -> list SMsg -> SPage -> SPage := runStream id (u "csrf") (Some model).
Definition at_start : SPage := support_start None.
Definition go (es : list SEvent) : SPage := support_run id (u "csrf") (Some (u "qwen")) (u "Clef") es at_start.
Definition revoke : ConfirmRequest := mkConfirm (u "jeton") (u "revoke_key") (u "Révoquer") None.

Lemma support_turn_leaves_witness :
  let q := stream_over id 9 SAborted (streamed id [(3%Z, Chunk (u "Bon")); (4%Z, Chunk (u "jour"))]
             (runStream id (u "csrf") (Some (u "qwen")) 2 [said (u "salut") 1] at_start)) in
  thread q = [said (u "salut") 1; mkS false (u "Bonjour") (Some 2%Z) false true [] None None (Some (u "qwen")) None]
  /\ sending q = false.
Proof.
  cbv zeta. split; [vm_compute; reflexivity|].
  refine (proj1 (support_turn_leaves id (u "csrf") (Some (u "qwen")) 2 [said (u "salut") 1] at_start
            [(3, Chunk (u "Bon")); (4, Chunk (u "jour"))]%Z 9 SAborted _ _)); [discriminate|reflexivity].
Defined.
Lemma confirmation_answered_witness :
  let p := go [SSend 1 (u "révoque"); SDelta_ 2 (ConfirmAsked revoke); SOver 3 SDone; SConfirm (u "jeton") false] in
  exists body m, thread (confirm_answered id 4 0 (Some (mkResult true (u "Clé révoquée") [])) p) = body ++ [m]
    /\ existsb (carries (u "jeton")) (thread p) = true /\ Forall (fun x => carries (u "jeton") x = false) body.
Proof.
  cbv zeta.
  destruct (confirmation_answered id 4 0 (Some (mkResult true (u "Clé révoquée") []))
    (go [SSend 1 (u "révoque"); SDelta_ 2 (ConfirmAsked revoke); SOver 3 SDone; SConfirm (u "jeton") false]) (u "jeton") false)
    as (body & m & H & _ & _ & _ & _ & C & _); [vm_compute; reflexivity|].
  exists body, m. split; [exact H|]. split; [vm_compute; reflexivity|exact C].
Defined.
Lemma vote_payload_witness :
  let p := go [SSend 1 (u "aide"); SDelta_ 2 (Chunk (u "oui")); SOver 3 SDone] in
  exists v, asked (sendFeedback id (u "csrf") (Some (u "qwen")) 2 true None p) = asked p ++ [Voted v] /\ w_answer v = u "oui".
Proof.
  cbv zeta.
  destruct (vote_payload id (u "csrf") (Some (u "qwen")) 2 true None
    (go [SSend 1 (u "aide"); SDelta_ 2 (Chunk (u "oui")); SOver 3 SDone])
    (mkS false (u "oui") (Some 1%Z) false false [] None None (Some (u "qwen")) None)) as (v & H & A & _);
    [discriminate|vm_compute; reflexivity|reflexivity|].
  exists v. split; [exact H|exact A].
Defined.

Lemma confirmations_are_clicks_witness :
  let es := [SSend 1 (u "révoque"); SDelta_ 2 (ConfirmAsked revoke); SConfirm (u "jeton") false; SConfirm (u "jeton") false] in
  clicks es = [(u "jeton", false); (u "jeton", false)] /\ confirmations (go es) = [(u "jeton", false)] /\
  length (under_way (support_run id (u "csrf") (Some (u "qwen")) (u "Clef") es at_start)) <= 1.
Proof.
  cbv zeta. split; [reflexivity|]. split; [vm_compute; reflexivity|].
  refine (proj2 (proj2 (confirmations_are_clicks id (u "csrf") (Some (u "qwen")) (u "Clef") _ at_start) _ _)); reflexivity.
Defined.

(** Every text of the welcome cards has its translation. *)
Definition translated (x : jstr) : bool := match assoc_get x I18nDict.EN with Some _ => true | None => false end.
Lemma suggestions_translated model key :
  forallb (fun g => translated (g_heading g) && translated (g_body g) && translated (g_prompt g)) (suggestions model key) = true.
Proof. destruct model as [[|c r]|], key; vm_compute; reflexivity. Qed.

(** ** What the page loses *)

(** The buttons of a card work while the answer is still being written: the
    result of the action is then the last message, and the next fragment of the
    answer replaces it. *)
Lemma confirm_result_overwritten :
  let before := go [SSend 1 (u "révoque"); SDelta_ 2 (ConfirmAsked revoke); SConfirm (u "jeton") false;
                    SAnswered 4 0 (Some (mkResult true (u "Clé révoquée") []))] in
  let after := support_handle id (u "csrf") (Some (u "qwen")) (u "Clef") (SDelta_ 5 (Chunk (u "Voilà"))) before in
  map s_text (thread before) = [s_text (welcome id (u "Clef")); u "révoque"; []; u "Clé révoquée"] /\
  map s_text (thread after) = [s_text (welcome id (u "Clef")); u "révoque"; []; u "Voilà"].
Proof. vm_compute. split; reflexivity. Qed.

(** A notice that ends an answer which was only thought about is erased by the
    last repainting: the message is an empty error. *)
Lemma notice_erased n :
  noticeText id n <> [] ->
  (fun m => (s_text m, s_error m)) <$> last (thread (go [SSend 1 (u "aide"); SDelta_ 2 (Reasoning (u "hmm")); SDelta_ 3 (Notice n); SOver 4 SDone]))
  = Some ([], true).
Proof.
  intros H. unfold go, support_run. cbn [foldl support_handle]. set (p := support_send _ _ _ _ _ _ _). vm_compute in p. subst p.
  unfold onDelta at 2. cbn [turn]. unfold onDelta. cbn [turn_delta paint turn set_turn set_thread]. unfold stream_over.
  support_fields. cbn [u_notice u_acc u_reason app]. destruct (noticeText id n); [done|]. reflexivity.
Qed.
(** Emptying the conversation forgets the confirmation under way: its result
    comes into the new conversation, and a second one may start. *)
Lemma new_conversation_forgets_confirmation :
  let p := go [SSend 1 (u "révoque"); SDelta_ 2 (ConfirmAsked revoke); SOver 3 SDone; SConfirm (u "jeton") false; SNew;
               SAnswered 4 0 (Some (mkResult true (u "Clé révoquée") []))] in
  map s_text (thread p) = [u "Clé révoquée"].
Proof. vm_compute. reflexivity. Qed.
(** Without a session token, sending empties the field and the attachments, and
    the message is nowhere. *)
Lemma send_without_session_loses_text p now text : trim text <> [] -> sending p = false ->
  let q := support_send id [] None (u "Clef") now text p in
  thread q = thread p /\ asked q = asked p /\ s_input q = [] /\ s_files q = [].
Proof. intros H1 H2. unfold support_send. rewrite H2. by destruct (streq_spec (trim text) []). Qed.
(** The pattern of the file's name is written with a doubled backslash: it keeps
    the letter w, the dot, the hyphen and the backslash only. *)
Lemma slug_keeps_w_only :
  thread_slug (u "Erreur 401") = u "support" /\ thread_slug (u "Windows et Wi-Fi") = u "w-w-w".
Proof. vm_compute. split; reflexivity. Qed.
