(* ===== verification/VoiceMode.v ===== *)
(** * The voice mode of the playground (app/(app)/playground/_components/VoiceMode.tsx)

    The hands-free conversation as a transition system: the answer cut into
    sentences and handed to the voice one after another ([pump]), the sounds the
    microphone reports, their transcription, the pause and the interruption of
    the answer.  The microphone and the player are those of VoiceAudio.v: their
    callbacks and readings ([spokenChars], [idle]) come with the events, and
    what the voice mode asks of them is the list [done].  The promises awaited
    (a sentence being spoken, a transcription, the end of a stream) are events of
    their own.  The drawing, the scrolling, the keep-alive request and the
    cleanup at closing are left out. *)

From S2P Require Import JsJson JsRegExp Prelude Thread VoiceText.
Local Open Scope flow_scope.

Inductive Phase := Preparing | Listening | Hearing | Thinking | Speaking.
#[export] Instance Phase_eq_dec : EqDecision Phase := ltac:(solve_decision).

(** What the voice mode does to the player, the microphone and the page. *)
Inductive VEffect :=
| Spoke (s : Sentence) (voice : jstr)   (* player.speak(...) *)
| PlayerStop | PlayerReset | Duck (b : bool) | PlayerMuted (b : bool) | MicMuted (b : bool)
| Sent (text : jstr)                    (* onSend *)
| Interrupted.                          (* onInterrupt *)

Record Voice := mkVoice {
  phase : Phase; notice : option jstr; liveText : jstr; micMuted : bool; speakerOn : bool;
  voices : list jstr; voice : jstr;
  said : option nat;      (* [None]: Number.MAX_SAFE_INTEGER *)
  voiced : option nat;
  awaitFrom : option nat; index : option nat; cut : nat; queue : list Sentence; given : list Sentence;
  pumping : bool; paused : bool; resumeAt : nat;   (* [turn.current] *)
  voiceOk : bool;         (* [voiceAvailable] is set with it *)
  failures : nat; barge : bool; guard : bool;
  messages : list ChatMsg; streaming : bool;       (* the props, read through [live] *)
  transcribing : nat;     (* the transcriptions awaited *)
  winding : list jstr;    (* the turns that wait for the stream to wind down *)
  done_ : list VEffect
}.

Definition set_phase v p := mkVoice v (notice p) (liveText p) (micMuted p) (speakerOn p) (voices p) (voice p) (said p) (voiced p) (awaitFrom p) (index p) (cut p) (queue p) (given p) (pumping p) (paused p) (resumeAt p) (voiceOk p) (failures p) (barge p) (guard p) (messages p) (streaming p) (transcribing p) (winding p) (done_ p).
Definition set_notice v p := mkVoice (phase p) v (liveText p) (micMuted p) (speakerOn p) (voices p) (voice p) (said p) (voiced p) (awaitFrom p) (index p) (cut p) (queue p) (given p) (pumping p) (paused p) (resumeAt p) (voiceOk p) (failures p) (barge p) (guard p) (messages p) (streaming p) (transcribing p) (winding p) (done_ p).
Definition set_liveText v p := mkVoice (phase p) (notice p) v (micMuted p) (speakerOn p) (voices p) (voice p) (said p) (voiced p) (awaitFrom p) (index p) (cut p) (queue p) (given p) (pumping p) (paused p) (resumeAt p) (voiceOk p) (failures p) (barge p) (guard p) (messages p) (streaming p) (transcribing p) (winding p) (done_ p).
Definition set_micMuted v p := mkVoice (phase p) (notice p) (liveText p) v (speakerOn p) (voices p) (voice p) (said p) (voiced p) (awaitFrom p) (index p) (cut p) (queue p) (given p) (pumping p) (paused p) (resumeAt p) (voiceOk p) (failures p) (barge p) (guard p) (messages p) (streaming p) (transcribing p) (winding p) (done_ p).
Definition set_speakerOn v p := mkVoice (phase p) (notice p) (liveText p) (micMuted p) v (voices p) (voice p) (said p) (voiced p) (awaitFrom p) (index p) (cut p) (queue p) (given p) (pumping p) (paused p) (resumeAt p) (voiceOk p) (failures p) (barge p) (guard p) (messages p) (streaming p) (transcribing p) (winding p) (done_ p).
Definition set_voices v p := mkVoice (phase p) (notice p) (liveText p) (micMuted p) (speakerOn p) v (voice p) (said p) (voiced p) (awaitFrom p) (index p) (cut p) (queue p) (given p) (pumping p) (paused p) (resumeAt p) (voiceOk p) (failures p) (barge p) (guard p) (messages p) (streaming p) (transcribing p) (winding p) (done_ p).
Definition set_voice v p := mkVoice (phase p) (notice p) (liveText p) (micMuted p) (speakerOn p) (voices p) v (said p) (voiced p) (awaitFrom p) (index p) (cut p) (queue p) (given p) (pumping p) (paused p) (resumeAt p) (voiceOk p) (failures p) (barge p) (guard p) (messages p) (streaming p) (transcribing p) (winding p) (done_ p).
Definition set_said v p := mkVoice (phase p) (notice p) (liveText p) (micMuted p) (speakerOn p) (voices p) (voice p) v (voiced p) (awaitFrom p) (index p) (cut p) (queue p) (given p) (pumping p) (paused p) (resumeAt p) (voiceOk p) (failures p) (barge p) (guard p) (messages p) (streaming p) (transcribing p) (winding p) (done_ p).
Definition set_voiced v p := mkVoice (phase p) (notice p) (liveText p) (micMuted p) (speakerOn p) (voices p) (voice p) (said p) v (awaitFrom p) (index p) (cut p) (queue p) (given p) (pumping p) (paused p) (resumeAt p) (voiceOk p) (failures p) (barge p) (guard p) (messages p) (streaming p) (transcribing p) (winding p) (done_ p).
Definition set_awaitFrom v p := mkVoice (phase p) (notice p) (liveText p) (micMuted p) (speakerOn p) (voices p) (voice p) (said p) (voiced p) v (index p) (cut p) (queue p) (given p) (pumping p) (paused p) (resumeAt p) (voiceOk p) (failures p) (barge p) (guard p) (messages p) (streaming p) (transcribing p) (winding p) (done_ p).
Definition set_index v p := mkVoice (phase p) (notice p) (liveText p) (micMuted p) (speakerOn p) (voices p) (voice p) (said p) (voiced p) (awaitFrom p) v (cut p) (queue p) (given p) (pumping p) (paused p) (resumeAt p) (voiceOk p) (failures p) (barge p) (guard p) (messages p) (streaming p) (transcribing p) (winding p) (done_ p).
Definition set_cut v p := mkVoice (phase p) (notice p) (liveText p) (micMuted p) (speakerOn p) (voices p) (voice p) (said p) (voiced p) (awaitFrom p) (index p) v (queue p) (given p) (pumping p) (paused p) (resumeAt p) (voiceOk p) (failures p) (barge p) (guard p) (messages p) (streaming p) (transcribing p) (winding p) (done_ p).
Definition set_queue v p := mkVoice (phase p) (notice p) (liveText p) (micMuted p) (speakerOn p) (voices p) (voice p) (said p) (voiced p) (awaitFrom p) (index p) (cut p) v (given p) (pumping p) (paused p) (resumeAt p) (voiceOk p) (failures p) (barge p) (guard p) (messages p) (streaming p) (transcribing p) (winding p) (done_ p).
Definition set_given v p := mkVoice (phase p) (notice p) (liveText p) (micMuted p) (speakerOn p) (voices p) (voice p) (said p) (voiced p) (awaitFrom p) (index p) (cut p) (queue p) v (pumping p) (paused p) (resumeAt p) (voiceOk p) (failures p) (barge p) (guard p) (messages p) (streaming p) (transcribing p) (winding p) (done_ p).
Definition set_pumping v p := mkVoice (phase p) (notice p) (liveText p) (micMuted p) (speakerOn p) (voices p) (voice p) (said p) (voiced p) (awaitFrom p) (index p) (cut p) (queue p) (given p) v (paused p) (resumeAt p) (voiceOk p) (failures p) (barge p) (guard p) (messages p) (streaming p) (transcribing p) (winding p) (done_ p).
Definition set_paused v p := mkVoice (phase p) (notice p) (liveText p) (micMuted p) (speakerOn p) (voices p) (voice p) (said p) (voiced p) (awaitFrom p) (index p) (cut p) (queue p) (given p) (pumping p) v (resumeAt p) (voiceOk p) (failures p) (barge p) (guard p) (messages p) (streaming p) (transcribing p) (winding p) (done_ p).
Definition set_resumeAt v p := mkVoice (phase p) (notice p) (liveText p) (micMuted p) (speakerOn p) (voices p) (voice p) (said p) (voiced p) (awaitFrom p) (index p) (cut p) (queue p) (given p) (pumping p) (paused p) v (voiceOk p) (failures p) (barge p) (guard p) (messages p) (streaming p) (transcribing p) (winding p) (done_ p).
Definition set_voiceOk v p := mkVoice (phase p) (notice p) (liveText p) (micMuted p) (speakerOn p) (voices p) (voice p) (said p) (voiced p) (awaitFrom p) (index p) (cut p) (queue p) (given p) (pumping p) (paused p) (resumeAt p) v (failures p) (barge p) (guard p) (messages p) (streaming p) (transcribing p) (winding p) (done_ p).
Definition set_failures v p := mkVoice (phase p) (notice p) (liveText p) (micMuted p) (speakerOn p) (voices p) (voice p) (said p) (voiced p) (awaitFrom p) (index p) (cut p) (queue p) (given p) (pumping p) (paused p) (resumeAt p) (voiceOk p) v (barge p) (guard p) (messages p) (streaming p) (transcribing p) (winding p) (done_ p).
Definition set_barge v p := mkVoice (phase p) (notice p) (liveText p) (micMuted p) (speakerOn p) (voices p) (voice p) (said p) (voiced p) (awaitFrom p) (index p) (cut p) (queue p) (given p) (pumping p) (paused p) (resumeAt p) (voiceOk p) (failures p) v (guard p) (messages p) (streaming p) (transcribing p) (winding p) (done_ p).
Definition set_guard v p := mkVoice (phase p) (notice p) (liveText p) (micMuted p) (speakerOn p) (voices p) (voice p) (said p) (voiced p) (awaitFrom p) (index p) (cut p) (queue p) (given p) (pumping p) (paused p) (resumeAt p) (voiceOk p) (failures p) (barge p) v (messages p) (streaming p) (transcribing p) (winding p) (done_ p).
Definition set_messages v p := mkVoice (phase p) (notice p) (liveText p) (micMuted p) (speakerOn p) (voices p) (voice p) (said p) (voiced p) (awaitFrom p) (index p) (cut p) (queue p) (given p) (pumping p) (paused p) (resumeAt p) (voiceOk p) (failures p) (barge p) (guard p) v (streaming p) (transcribing p) (winding p) (done_ p).
Definition set_streaming v p := mkVoice (phase p) (notice p) (liveText p) (micMuted p) (speakerOn p) (voices p) (voice p) (said p) (voiced p) (awaitFrom p) (index p) (cut p) (queue p) (given p) (pumping p) (paused p) (resumeAt p) (voiceOk p) (failures p) (barge p) (guard p) (messages p) v (transcribing p) (winding p) (done_ p).
Definition set_transcribing v p := mkVoice (phase p) (notice p) (liveText p) (micMuted p) (speakerOn p) (voices p) (voice p) (said p) (voiced p) (awaitFrom p) (index p) (cut p) (queue p) (given p) (pumping p) (paused p) (resumeAt p) (voiceOk p) (failures p) (barge p) (guard p) (messages p) (streaming p) v (winding p) (done_ p).
Definition set_winding v p := mkVoice (phase p) (notice p) (liveText p) (micMuted p) (speakerOn p) (voices p) (voice p) (said p) (voiced p) (awaitFrom p) (index p) (cut p) (queue p) (given p) (pumping p) (paused p) (resumeAt p) (voiceOk p) (failures p) (barge p) (guard p) (messages p) (streaming p) (transcribing p) v (done_ p).
Definition set_done v p := mkVoice (phase p) (notice p) (liveText p) (micMuted p) (speakerOn p) (voices p) (voice p) (said p) (voiced p) (awaitFrom p) (index p) (cut p) (queue p) (given p) (pumping p) (paused p) (resumeAt p) (voiceOk p) (failures p) (barge p) (guard p) (messages p) (streaming p) (transcribing p) (winding p) v.
Definition act (e : VEffect) (p : Voice) : Voice := set_done (done_ p ++ [e]) p.

(** Reading a field through the updates. *)
Ltac voice_fields :=
  cbn [phase notice liveText micMuted speakerOn voices voice said voiced awaitFrom index cut queue given pumping paused resumeAt voiceOk failures barge guard messages streaming transcribing winding done_
       set_phase set_notice set_liveText set_micMuted set_speakerOn set_voices set_voice set_said set_voiced set_awaitFrom set_index set_cut set_queue set_given set_pumping set_paused set_resumeAt set_voiceOk set_failures set_barge set_guard set_messages set_streaming set_transcribing set_winding set_done act] in *.

(** ** The answer of the transcription service *)

Record Transcript := mkTranscript { x_text : jstr; x_starting : bool; x_error : option jstr }.
(** [data] is what [res.json()] gives, the empty object when it fails. *)
Definition transcribed (ok : bool) (status : Z) (data : json) : Transcript :=
  if ok then
    mkTranscript (match prop (u "text") data with Some (JStr s) => s | _ => [] end) (truthy_opt (prop (u "starting") data)) None
  else
    mkTranscript [] false (Some (match prop (u "error") data with
                                 | Some (JStr ((_ :: _) as s)) => s
                                 | _ => u "HTTP " ++ string_of_Z status
                                 end)).

Section voice.
Context (t : jstr -> jstr) (is_letter is_number : N -> bool).
Notation phantom := (isPhantomTranscript is_letter is_number).

Definition voice_start (stored : option jstr) (msgs : list ChatMsg) (busy : bool) : Voice :=
  mkVoice Preparing None [] false true []
    (match stored with Some ((_ :: _) as v) => v | _ => u "fr-a" end)
    (Some 0) None None None 0 [] [] false false 0 true 0 false false msgs busy 0 [] [].

(** ** The voice *)

(** The loop of [pump] up to its next [await]: the sentences of a silent voice
    are passed over. *)
Fixpoint pump_loop (q : list Sentence) (p : Voice) : Voice :=
  match q with
  | [] => p |> set_queue [] |> set_pumping false
  | s :: r =>
      let p := p |> set_queue r |> set_given (given p ++ [s]) in
      if speakerOn p && voiceOk p then p |> act (Spoke s (voice p)) else pump_loop r p
  end.
Definition pump (p : Voice) : Voice :=
  if pumping p then p else p |> set_pumping true |> pump_loop (queue p).

(** The sentence being spoken has arrived, was aborted, or failed. *)
Inductive SpeakEnd := Arrived | SpeakAborted | SpeakFailed.
Definition spoken_over (e : SpeakEnd) (p : Voice) : Voice :=
  match e with
  | Arrived => let p := set_failures 0 p in pump_loop (queue p) p
  | SpeakAborted => set_pumping false p
  | SpeakFailed =>
      let p := set_failures (S (failures p)) p in
      let p := if 3 <=? failures p
               then p |> set_voiceOk false |> set_notice (Some (t (u "La voix ne répond pas : la suite s'affiche en texte.")))
               else p in
      pump_loop (queue p) p
  end.

(** ** The text *)

Definition is_answer (m : ChatMsg) : bool := bool_decide (role m = Assistant).

(** The new answer begins to be voiced. *)
Definition adopt_answer (p : Voice) : Voice :=
  match awaitFrom p with
  | Some from =>
      match messages p !! S from with
      | Some m =>
          if is_answer m
          then p |> set_index (Some (S from)) |> set_voiced (Some (S from)) |> set_awaitFrom None |> set_cut 0
                 |> set_queue [] |> set_given [] |> set_paused false |> act PlayerReset |> set_said (Some 0)
          else p
      | None => p
      end
  | None => p
  end.
(** [!streaming || index !== messages.length - 1] *)
Definition is_final (i : nat) (p : Voice) : bool := negb (streaming p) || negb (S i =? length (messages p)).
(** The sentences completed since the last call join the queue. *)
Definition cut_sentences (i : nat) (text : jstr) (p : Voice) : Voice :=
  let '(sentences, stop) := nextSentences text (cut p) (is_final i p) in
  p |> set_cut stop |> set_queue (queue p ++ sentences).
Definition read_answer (p : Voice) : Voice :=
  match index p with
  | Some i =>
      if paused p then p
      else match messages p !! i with
           | Some m =>
               if negb (is_answer m) || isError m then p
               else
                 let text := speakable (content m) in
                 let p := if length text <? cut p
                          then p |> set_cut 0 |> set_queue [] |> set_given [] |> act PlayerReset |> set_said (Some 0)
                          else p in
                 let p' := cut_sentences i text p in
                 if length (queue p') =? length (queue p) then p' else pump p'
           | None => p
           end
  | None => p
  end.
(** The effect of [messages] and [streaming]. *)
Definition props_changed (msgs : list ChatMsg) (busy : bool) (p : Voice) : Voice :=
  p |> set_messages msgs |> set_streaming busy |> adopt_answer |> read_answer.

(** ** Interruptions *)

Definition interrupt (p : Voice) : Voice :=
  let p := p |> act PlayerStop |> set_queue [] |> set_paused false in
  let p := if streaming p then act Interrupted p else p in
  let p := match index p with Some _ => set_said None p | None => p end in
  p |> set_index None |> set_voiced None.

(** [spoken] is [player.spokenChars()]. *)
Definition pauseVoice (spoken : nat) (p : Voice) : Voice :=
  match index p with
  | Some _ =>
      if paused p then p
      else
        let current := last (List.filter (fun s => s_start s <=? spoken) (given p)) in
        p |> set_resumeAt (match current with Some s => s_start s | None => 0 end)
          |> set_paused true |> set_queue [] |> act PlayerStop
  | None => p
  end.

(** Also whether there was a paused answer. *)
Definition resumeVoice (p : Voice) : Voice * bool :=
  if negb (paused p) then (p, false)
  else
    let p := set_paused false p in
    match index p with
    | None => (p, false)
    | Some i =>
        let p := p |> set_cut (resumeAt p) |> set_given [] in
        (match messages p !! i with
         | Some m => if is_answer m && negb (isError m) then pump (cut_sentences i (speakable (content m)) p) else p
         | None => p
         end, true)
    end.

(** ** The microphone *)

Definition onSpeechStart (p : Voice) : Voice :=
  if bool_decide (phase p = Thinking) || bool_decide (phase p = Speaking)
  then p |> set_barge true |> act (Duck true)
  else p |> set_liveText [] |> set_phase Hearing.
Definition onSpeechConfirmed (spoken : nat) (p : Voice) : Voice :=
  if negb (barge p) then p
  else p |> set_barge false |> pauseVoice spoken |> set_liveText [] |> set_phase Hearing.

(** [if (!resumeVoice()) setPhase("listening")] *)
Definition resume_or_listen (p : Voice) : Voice :=
  let '(p, resumed) := resumeVoice p in if resumed then p else set_phase Listening p.
(** [wav]: whether there is a recording, which is then transcribed. *)
Definition onSpeechEnd (wav confirmed : bool) (p : Voice) : Voice :=
  if barge p && negb confirmed then p |> set_barge false |> act (Duck false)
  else if negb wav then
    let '(q, resumed) := resumeVoice p in
    if resumed then set_phase Thinking q
    else if bool_decide (phase q = Hearing) then set_phase Listening q else q
  else p |> set_phase Thinking |> set_transcribing (S (transcribing p)).

Definition STARTING : jstr := u "Démarrage de la transcription…".
(** The service is loading: it is asked again. *)
Definition transcription_starting (p : Voice) : Voice := set_notice (Some (t STARTING)) p.
Definition clear_starting (p : Voice) : Voice :=
  match notice p with Some n => if streq n (t STARTING) then set_notice None p else p | None => p end.

(** The turn goes out, unless an answer is still being written. *)
Definition send_turn (text : jstr) (p : Voice) : Voice :=
  if streaming p then set_phase Listening p
  else p |> set_awaitFrom (Some (length (messages p))) |> act (Sent (trim text)).
(** Real words over a paused answer: it is stopped, and the turn waits for the
    stream to wind down. *)
Definition cut_in (text : jstr) (p : Voice) : Voice :=
  let p := interrupt p in
  if streaming p then set_winding (winding p ++ [text]) p else send_turn text p.
Definition transcription_over (r : Transcript) (p : Voice) : Voice :=
  match transcribing p with
  | O => p
  | S n =>
      let p := p |> set_transcribing n |> clear_starting |> set_liveText [] in
      match x_error r with
      | Some e => resume_or_listen (set_notice (Some e) p)
      | None =>
          if phantom (x_text r) then resume_or_listen p
          else if paused p then cut_in (x_text r) p else send_turn (x_text r) p
      end
  end.
(** The wait of three seconds at most is over for the [i]-th turn. *)
Definition wound_down (i : nat) (p : Voice) : Voice :=
  match winding p !! i with
  | Some text => p |> set_winding (delete i (winding p)) |> send_turn text
  | None => p
  end.
(** The live transcription, while the user speaks. *)
Definition live_transcribed (r : Transcript) (p : Voice) : Voice :=
  if bool_decide (phase p = Hearing) && negb (streq (x_text r) []) && negb (phantom (x_text r))
  then set_liveText (trim (x_text r)) p else p.

(** ** Opening, animation, buttons *)

Inductive Opened :=
| VoiceReady (vs : list jstr)            (* res.ok && data.ready *)
| VoiceAbsent (code error : jstr).       (* anything else; absent texts are empty *)
Definition voice_opened (o : Opened) (p : Voice) : Voice :=
  match o with
  | VoiceReady vs => set_voices vs p
  | VoiceAbsent code error =>
      p |> set_voiceOk false |> set_speakerOn false |> set_notice (Some
        (if streq code (u "voice_engine")
         then t (u "La voix n'est pas disponible : le moteur vocal chargé n'est pas Kyutai TTS. Un admin peut le lancer depuis Admin → Modèles. Les réponses s'affichent en texte.")
         else replace_str (t (u "La voix n'est pas disponible pour l'instant ({reason}). Les réponses s'affichent en texte.")) (u "{reason}")
                (match error with [] => t (u "service arrêté") | e => e end)))
  end.
Definition mic_opened (ok : bool) (p : Voice) : Voice :=
  if ok then set_phase Listening p
  else set_notice (Some (t (u "Le micro est inaccessible : autorise-le dans le navigateur."))) p.

(** One frame; [spoken] and [playing] are the readings of the player. *)
Definition tick (spoken : nat) (playing : bool) (p : Voice) : Voice :=
  let p := set_guard playing p in
  match index p with
  | Some _ =>
      if paused p then p
      else
        let before := phase p in     (* [live.current.phase], the last render's *)
        let p := set_said (Some spoken) p in
        let p := if playing && bool_decide (before = Thinking) then set_phase Speaking p else p in
        let over := negb (streaming p) && (length (queue p) =? 0) && negb (pumping p) && negb playing in
        if over && (bool_decide (before = Speaking) || bool_decide (before = Thinking))
        then p |> set_index None |> set_voiced None |> set_said None |> set_phase Listening
        else p
  | None => p
  end.

Definition toggleMic (p : Voice) : Voice :=
  let next := negb (micMuted p) in
  let p := p |> set_micMuted next |> act (MicMuted next) in
  if next && bool_decide (phase p = Hearing) then set_phase Listening p else p.
Definition toggleSpeaker (p : Voice) : Voice :=
  let next := negb (speakerOn p) in p |> set_speakerOn next |> act (PlayerMuted (negb next)).
(** The choice is also what the browser stores. *)
Definition pickVoice (v : jstr) (p : Voice) : Voice := match v with [] => p | _ => set_voice v p end.

(** ** What is shown *)

Definition SHOWN_MESSAGES : nat := 16.
Definition shown (p : Voice) : list (nat * ChatMsg) :=
  let l := List.filter (fun x => negb (hidden x.2) && negb (streq (trim (content x.2)) [])) (imap pair (messages p)) in
  drop (length l - SHOWN_MESSAGES) l.
(** The part of an answer already said, and the rest. *)
Definition said_split (m : ChatMsg) (p : Voice) : jstr * jstr :=
  let text := speakable (content m) in
  match said p with Some n => (take n text, drop n text) | None => (text, []) end.
Definition status_text (p : Voice) : jstr :=
  if micMuted p then t (u "Micro coupé")
  else match phase p with
       | Preparing => t (u "Préparation…")
       | Listening | Hearing => t (u "Je t'écoute…")
       | Speaking => t (u "Parle pour l'interrompre")
       | Thinking => []
       end.

(** ** The transition system *)

Inductive VEvent :=
| Props_ (msgs : list ChatMsg) (busy : bool) | SpokenOver (e : SpeakEnd) | SpeechStart_ | SpeechConfirmed_ (spoken : nat)
| SpeechEnd_ (wav confirmed : bool) | Starting | Transcribed_ (r : Transcript) | WoundDown (i : nat) | LiveTranscribed (r : Transcript)
| VoiceOpened (o : Opened) | MicOpened (ok : bool) | Tick (spoken : nat) (playing : bool)
| ToggleMic | ToggleSpeaker | PickVoice (v : jstr).
Definition voice_handle (e : VEvent) (p : Voice) : Voice :=
  match e with
  | Props_ msgs busy => props_changed msgs busy p
  | SpokenOver e => spoken_over e p
  | SpeechStart_ => onSpeechStart p
  | SpeechConfirmed_ n => onSpeechConfirmed n p
  | SpeechEnd_ w c => onSpeechEnd w c p
  | Starting => transcription_starting p
  | Transcribed_ r => transcription_over r p
  | WoundDown i => wound_down i p
  | LiveTranscribed r => live_transcribed r p
  | VoiceOpened o => voice_opened o p
  | MicOpened ok => mic_opened ok p
  | Tick n b => tick n b p
  | ToggleMic => toggleMic p
  | ToggleSpeaker => toggleSpeaker p
  | PickVoice v => pickVoice v p
  end.
(** A sentence is awaited exactly while [pump] runs. *)
Inductive voice_step : Voice -> VEvent -> Voice -> Prop :=
| voice_spoken p e : pumping p = true -> voice_step p (SpokenOver e) (spoken_over e p)
| voice_other p e : (forall x, e <> SpokenOver x) -> voice_step p e (voice_handle e p).
Inductive voice_run : Voice -> list VEvent -> Voice -> Prop :=
| voice_nil p : voice_run p [] p
| voice_cons p e p1 es p2 : voice_step p e p1 -> voice_run p1 es p2 -> voice_run p (e :: es) p2.
End voice.
