(* ===== verification/VoiceModeSpec.v ===== *)
(** * Properties of the voice mode (see VoiceMode.v)

    The answer is read once and in order, a paused answer is silent, a spoken
    turn goes out when the page can take it; and the case where the text that is
    read shifts under the voice. *)

From S2P Require Import JsJson JsRegExp Prelude Thread VoiceText VoiceMode.
Local Open Scope flow_scope.

Definition spoken (p : Voice) : list Sentence := omap (fun e => match e with Spoke s _ => Some s | _ => None end) (done_ p).
Definition sents (p : Voice) : list jstr := omap (fun e => match e with Sent x => Some x | _ => None end) (done_ p).

Lemma spoken_act e p : spoken (act e p) = spoken p ++ match e with Spoke s _ => [s] | _ => [] end.
Proof. unfold spoken. cbn [act set_done done_]. rewrite omap_app. by destruct e. Qed.
Lemma sents_act e p : sents (act e p) = sents p ++ match e with Sent x => [x] | _ => [] end.
Proof. unfold sents. cbn [act set_done done_]. rewrite omap_app. by destruct e. Qed.

(** What the reading of the answer depends on. *)
Definition reading (p : Voice) :=
  (index p, paused p, cut p, resumeAt p, given p ++ queue p, messages p, streaming p).
(** What the sending of the turns depends on. *)
Definition sending (p : Voice) := (sents p, winding p, messages p, streaming p, awaitFrom p).

Section spec.
Context (t : jstr -> jstr) (is_letter is_number : N -> bool).
Notation phantom := (isPhantomTranscript is_letter is_number).
Notation handle := (voice_handle t is_letter is_number).
Notation step := (voice_step t is_letter is_number).
Notation run := (voice_run t is_letter is_number).

(** ** The loop of the voice *)

Lemma pump_loop_reading q p : q = queue p -> reading (pump_loop q p) = reading p /\ sending (pump_loop q p) = sending p.
Proof.
  revert p. induction q as [|s r IH]; intros p E; cbn [pump_loop].
  - unfold reading. voice_fields. by rewrite <- E.
  - set (p' := p |> set_queue r |> set_given (given p ++ [s])).
    assert (R : reading p' = reading p) by (unfold reading, p'; voice_fields; by rewrite <- E, <- app_assoc).
    assert (S : sending p' = sending p) by done.
    destruct (speakerOn p' && voiceOk p'); [|destruct (IH p' eq_refl) as [-> ->]; by split].
    split; [exact R|]. unfold sending in *. by rewrite sents_act, app_nil_r.
Qed.
Lemma pump_reading p : reading (pump p) = reading p /\ sending (pump p) = sending p.
Proof.
  unfold pump. destruct (pumping p); [by split|]. destruct (pump_loop_reading (queue p) (set_pumping true p)) as [-> ->]; [done|]. by split.
Qed.
Lemma spoken_over_reading e p : reading (spoken_over t e p) = reading p /\ sending (spoken_over t e p) = sending p.
Proof.
  destruct e; cbn [spoken_over]; [by apply (pump_loop_reading _ (set_failures 0 p))|by split|].
  set (q := if 3 <=? _ then _ else _). assert (Q : reading q = reading p /\ sending q = sending p) by (unfold q; by destruct (3 <=? _)).
  destruct (pump_loop_reading (queue q) q eq_refl) as [-> ->]. exact Q.
Qed.

(** With an empty queue nothing is handed to the voice. *)
Lemma spoken_over_silent e p : queue p = [] -> spoken (spoken_over t e p) = spoken p /\ queue (spoken_over t e p) = [].
Proof.
  intros H. destruct e; cbn [spoken_over].
  - voice_fields. rewrite H. by split.
  - by split.
  - set (q := if 3 <=? _ then _ else _). assert (Q : spoken q = spoken p /\ queue q = queue p) by (unfold q; by destruct (3 <=? _)).
    destruct Q as [Q1 Q2]. rewrite Q2, H. cbn [pump_loop]. voice_fields. split; [|done]. by rewrite <- Q1.
Qed.

(** ** The answer being read *)

(** The message [i] is an answer whose spoken text is [text]. *)
Definition answers (msgs : list ChatMsg) (i : nat) (text : jstr) : Prop :=
  exists m, msgs !! i = Some m /\ is_answer m = true /\ isError m = false /\ text = speakable (content m).
(** [base] is where the reading began, or where it will go on once paused. *)
Definition read_ok (base : nat) (p : Voice) : Prop :=
  match index p with
  | None => paused p = false
  | Some i =>
      exists text, answers (messages p) i text /\
      if paused p then queue p = [] /\ base <= length text /\ resumeAt p = base
      else tiles text base (given p ++ queue p) (cut p) /\
           (is_final i p = true -> blank (drop (cut p) text) = true)
  end.

(** The sentence that was being said, from what the player has said. *)
Definition pause_point (spoken : nat) (p : Voice) : nat :=
  match last (List.filter (fun s => s_start s <=? spoken) (given p)) with Some s => s_start s | None => 0 end.
Definition has_index (p : Voice) : bool := match index p with Some _ => true | None => false end.
(** The answer awaited is there. *)
Definition adopts (p : Voice) (msgs : list ChatMsg) : bool :=
  match awaitFrom p with
  | Some from => match msgs !! S from with Some m => is_answer m | None => false end
  | None => false
  end.
(** Where the reading begins: at the start of a new answer, and after a pause at
    the sentence that was being said. *)
Definition begins (p : Voice) (e : VEvent) (base : nat) : nat :=
  match e with
  | Props_ msgs _ => if adopts p msgs then 0 else base
  | SpeechConfirmed_ n => if barge p && has_index p && negb (paused p) then pause_point n p else base
  | _ => base
  end.

Lemma read_ok_view base p q : reading q = reading p -> (paused p = true -> queue q = queue p) -> read_ok base p -> read_ok base q.
Proof.
  unfold reading, read_ok, is_final. intros [= -> Hp -> -> Hg -> ->] Hq H. rewrite Hp. destruct (index p) as [i|]; [|done].
  destruct H as (text & A & H). exists text. split; [done|]. destruct (paused p); [|by rewrite Hg]. by rewrite Hq.
Qed.

(** What a new state of the conversation must be for the text to be read in
    one piece: the answer being read, if there is one, goes on from what it was. *)
Definition goes_on (p : Voice) (msgs : list ChatMsg) : Prop :=
  match awaitFrom p, index p with
  | Some from, _ => forall m, msgs !! S from = Some m -> is_answer m = true -> isError m = false
  | None, _ => True
  end /\
  match index p with
  | Some i => forall text, answers (messages p) i text -> exists x, answers msgs i (text ++ x)
  | None => True
  end.
Definition goes_on_event (p : Voice) (e : VEvent) : Prop :=
  match e with Props_ msgs _ => goes_on p msgs | _ => True end.

(** The queue after the sentences completed are added. *)
Lemma cut_sentences_ok base i text p : tiles text base (given p ++ queue p) (cut p) ->
  let q := cut_sentences i text p in
  tiles text base (given q ++ queue q) (cut q) /\ (is_final i q = true -> blank (drop (cut q) text) = true) /\
  index q = index p /\ paused q = paused p /\ messages q = messages p /\ streaming q = streaming p.
Proof.
  intros H. cbv zeta. unfold cut_sentences.
  pose proof (next_sentences_tile text (cut p) (is_final i p) ltac:(apply tiles_end in H; lia)) as (T & _ & F).
  destruct (nextSentences text (cut p) (is_final i p)) as [ss e]. cbn [fst snd] in *. unfold is_final in *. voice_fields.
  split; [|by split]. rewrite app_assoc. by eapply tiles_app.
Qed.

Lemma pump_ok base p : paused p = false -> read_ok base p -> read_ok base (pump p).
Proof. intros Hp. apply read_ok_view; [apply pump_reading|]. by rewrite Hp. Qed.

Lemma read_answer_ok base i text p : index p = Some i -> paused p = false -> answers (messages p) i text ->
  tiles text base (given p ++ queue p) (cut p) -> read_ok base (read_answer p).
Proof.
  intros Hi Hp (m & Hm & Ha & He & ->) T. unfold read_answer. rewrite Hi, Hp, Hm, Ha, He. cbn [negb orb].
  assert (L : length (speakable (content m)) <? cut p = false).
  { apply tiles_end in T. apply Nat.ltb_ge. lia. }
  rewrite L. destruct (cut_sentences_ok base i _ p T) as (Q1 & Q2 & Q3 & Q4 & Q5 & Q6). set (q := cut_sentences _ _ p) in *.
  assert (R : read_ok base q).
  { unfold read_ok. rewrite Q3, Hi, Q4, Hp, Q5. exists (speakable (content m)). split; [|by split]. by exists m. }
  destruct (_ =? _); [done|]. apply pump_ok; [by rewrite Q4|done].
Qed.

Lemma tiles_in text pos ss e s : tiles text pos ss e -> s ∈ ss -> s_start s <= length text.
Proof.
  intros T. assert (E : e <= length text) by (apply tiles_end in T; lia). revert pos T.
  induction ss as [|x ss IH]; intros pos T H; [by apply elem_of_nil in H|]. cbn [tiles] in T.
  destruct T as (T1 & _ & _ & _ & T). apply elem_of_cons in H as [->|H]; [apply tiles_end in T; lia|by apply (IH (s_end x))].
Qed.
Lemma tiles_nil text n : n <= length text -> tiles text n [] n.
Proof. intros H. split; [lia|]. unfold slice. by rewrite Nat.sub_diag. Qed.

Lemma props_ok base msgs busy p : goes_on p msgs -> read_ok base p ->
  read_ok (if adopts p msgs then 0 else base) (props_changed msgs busy p).
Proof.
  intros [G1 G2] H. unfold props_changed, adopts. set (p1 := p |> set_messages msgs |> set_streaming busy).
  assert (Q : forall m, awaitFrom p = None \/ adopt_answer p1 = p1 -> m = base -> read_ok m (read_answer (adopt_answer p1))).
  { intros b Hq ->. assert (E : adopt_answer p1 = p1) by (destruct Hq as [E|E]; [unfold adopt_answer; change (awaitFrom p1) with (awaitFrom p); by rewrite E|done]).
    rewrite E. unfold read_ok in H. unfold p1. destruct (index p) as [i|] eqn:Hi; voice_fields.
    - destruct H as (text & A & H). destruct (G2 text A) as [x A']. destruct (paused p) eqn:Hp.
      + unfold read_answer. voice_fields. rewrite Hi, Hp. unfold read_ok. voice_fields. rewrite Hi, Hp. exists (text ++ x).
        split; [done|]. destruct H as (H1 & H2 & H3). split; [done|]. split; [|done]. rewrite length_app. lia.
      + destruct H as [T _]. apply (read_answer_ok base i (text ++ x)); [done..|]. by apply tiles_grow.
    - unfold read_answer. voice_fields. rewrite Hi. unfold read_ok. voice_fields. by rewrite Hi. }
  destruct (awaitFrom p) as [from|] eqn:Ea; [|by apply Q; [left|]].
  destruct (msgs !! S from) as [m|] eqn:Em.
  2:{ apply Q; [right|done]. unfold adopt_answer. change (awaitFrom p1) with (awaitFrom p). change (messages p1) with msgs. by rewrite Ea, Em. }
  destruct (is_answer m) eqn:Eb.
  2:{ apply Q; [right|done]. unfold adopt_answer. change (awaitFrom p1) with (awaitFrom p). change (messages p1) with msgs. by rewrite Ea, Em, Eb. }
  assert (E : adopt_answer p1 = p1 |> set_index (Some (S from)) |> set_voiced (Some (S from)) |> set_awaitFrom None |> set_cut 0
                 |> set_queue [] |> set_given [] |> set_paused false |> act PlayerReset |> set_said (Some 0)).
  { unfold adopt_answer. change (awaitFrom p1) with (awaitFrom p). change (messages p1) with msgs. by rewrite Ea, Em, Eb. }
  rewrite E. apply (read_answer_ok 0 (S from) (speakable (content m))); [done..| |].
  - exists m. split; [exact Em|]. split; [exact Eb|]. split; [|done]. by apply G1.
  - exact (tiles_nil _ 0 (Nat.le_0_l _)).
Qed.

Lemma resume_ok base p : read_ok base p -> read_ok base (resumeVoice p).1.
Proof.
  intros H. unfold resumeVoice. destruct (paused p) eqn:Hp; cbn [negb]; [|exact H]. unfold read_ok in H. rewrite Hp in H.
  destruct (index p) as [i|] eqn:Hi; [|done]. voice_fields. rewrite Hi.
  destruct H as (text & (m & M1 & M2 & M3 & ->) & Hq & Hr & Hb).
  voice_fields. rewrite M1, M2, M3. cbn [negb andb fst].
  set (q := p |> set_paused false |> set_cut (resumeAt p) |> set_given []).
  destruct (cut_sentences_ok base i (speakable (content m)) q) as (Q1 & Q2 & Q3 & Q4 & Q5 & Q6).
  { unfold q. voice_fields. rewrite Hq, Hb. by apply tiles_nil. }
  apply pump_ok; [by rewrite Q4|]. unfold read_ok. rewrite Q3, Q4, Q5. unfold q at 1 2 3. voice_fields. rewrite Hi.
  exists (speakable (content m)). split; [by exists m|]. by split.
Qed.
Lemma pause_ok base n p : read_ok base p ->
  read_ok (if has_index p && negb (paused p) then pause_point n p else base) (pauseVoice n p).
Proof.
  intros H. unfold pauseVoice, has_index. unfold read_ok in H. destruct (index p) as [i|] eqn:Hi; [|by unfold read_ok; rewrite Hi].
  destruct (paused p) eqn:Hp; cbn [andb negb]; [by unfold read_ok; rewrite Hi, Hp|]. unfold read_ok. voice_fields. rewrite Hi.
  destruct H as (text & A & T & _). exists text. split; [done|]. split; [done|]. split; [|done]. unfold pause_point.
  destruct (last _) as [s|] eqn:L; [|lia]. apply (tiles_in text base (given p ++ queue p) (cut p)); [done|].
  apply elem_of_app. left. apply last_Some in L as [l E]. apply list_elem_of_In.
  eapply proj1, filter_In. rewrite E. apply in_or_app. right. by left.
Qed.
Lemma interrupt_ok base p : read_ok base (interrupt p).
Proof. unfold interrupt. cbv zeta. voice_fields. destruct (streaming p); voice_fields; destruct (index p) eqn:E; unfold read_ok; voice_fields; done. Qed.
Lemma resume_or_listen_ok base p : read_ok base p -> read_ok base (resume_or_listen p).
Proof.
  intros H. unfold resume_or_listen. pose proof (resume_ok base p H) as R. destruct (resumeVoice p) as [q r]. cbn [fst] in R. by destruct r.
Qed.
Lemma send_turn_ok base x p : read_ok base p -> read_ok base (send_turn x p).
Proof. intros H. unfold send_turn. by destruct (streaming p). Qed.

Lemma cut_in_ok base x p : read_ok base (cut_in x p).
Proof.
  unfold cut_in. generalize (interrupt_ok base p). generalize (interrupt p). intros q H. cbv zeta.
  destruct (streaming q); [exact H|]. by apply send_turn_ok.
Qed.

Lemma read_ok_step base p e p' : goes_on_event p e -> step p e p' -> read_ok base p -> read_ok (begins p e base) p'.
Proof.
  intros G S H. destruct S as [p e Hpump|p e Hne].
  - eapply read_ok_view; [apply spoken_over_reading| |exact H]. intros Hp. unfold read_ok in H. rewrite Hp in H.
    destruct (index p); [|done]. destruct H as (text & _ & Hq & _). rewrite Hq. by apply spoken_over_silent.
  - destruct e; cbn [voice_handle begins].
    + by apply props_ok.
    + by exfalso; eapply Hne.
    + unfold onSpeechStart. by destruct (_ || _).
    + unfold onSpeechConfirmed. destruct (barge p); cbn [negb andb]; [|done].
      pose proof (pause_ok base spoken0 (set_barge false p) H) as R. exact R.
    + unfold onSpeechEnd. destruct (barge p && negb confirmed); [done|]. destruct wav; cbn [negb]; [done|].
      pose proof (resume_ok base p H) as R. destruct (resumeVoice p) as [q r]. cbn [fst] in R. destruct r; [done|]. by destruct (bool_decide _).
    + done.
    + unfold transcription_over. destruct (transcribing p) as [|n]; [done|].
      set (q := p |> set_transcribing n |> clear_starting t |> set_liveText []).
      assert (Q : read_ok base q) by (unfold q, clear_starting; voice_fields; destruct (notice p) as [x|]; [by destruct (streq x _)|done]).
      destruct (x_error r); [by apply resume_or_listen_ok|]. destruct (phantom _); [by apply resume_or_listen_ok|].
      destruct (paused q); [apply cut_in_ok|by apply send_turn_ok].
    + unfold wound_down. destruct (winding p !! i); [|done]. by apply send_turn_ok.
    + unfold live_transcribed. by destruct (_ && _).
    + by destruct o.
    + by destruct ok.
    + unfold tick. set (q := set_guard playing p). change (index q) with (index p). change (paused q) with (paused p).
      destruct (index p) eqn:Hi; [|done]. destruct (paused p) eqn:Hp; [done|]. set (q' := if playing && _ then _ else _).
      assert (Q : reading q' = reading p) by (unfold q'; by destruct (_ && _)).
      assert (Q' : read_ok base q') by (apply (read_ok_view base p); [done|congruence|done]).
      cbv zeta. match goal with |- read_ok _ (if ?b then _ else _) => destruct b end; [|done]. unfold read_ok. voice_fields. apply (f_equal (fun r => r.1.1.1.1.1.2)) in Q. cbn in Q. by rewrite Q, Hp.
    + unfold toggleMic. by destruct (_ && _).
    + done.
    + unfold pickVoice. by destruct v.
Qed.

(** ** Reachable states *)

(** The voice is on and works, and the end of a sentence that was stopped
    arrives before there is another to say. *)
Definition audible (p : Voice) (e : VEvent) : Prop :=
  match e with
  | ToggleSpeaker | VoiceOpened (VoiceAbsent _ _) | SpokenOver SpeakFailed => False
  | SpokenOver SpeakAborted => queue p = []
  | _ => True
  end.
(** The states of a conversation that is read aloud, and where the reading of
    the current answer began. *)
Inductive reads : Voice -> nat -> Prop :=
| reads_start stored msgs busy : reads (voice_start stored msgs busy) 0
| reads_step p e p' base : reads p base -> goes_on_event p e -> audible p e -> step p e p' -> reads p' (begins p e base).
Lemma reads_ok p base : reads p base -> read_ok base p.
Proof. induction 1 as [|p e p' base _ IH G A S]; [done|]. by eapply read_ok_step. Qed.

(** ** What is said *)

(** The sentences handed to the player since it was last stopped or reset. *)
Definition hear (l : list Sentence) (e : VEffect) : list Sentence :=
  match e with Spoke s _ => l ++ [s] | PlayerStop | PlayerReset => [] | _ => l end.
Definition aloud (p : Voice) : list Sentence := foldl hear [] (done_ p).
Lemma aloud_act e p : aloud (act e p) = hear (aloud p) e.
Proof. unfold aloud. cbn [act set_done done_]. by rewrite foldl_app. Qed.

Definition heard (p : Voice) : Prop :=
  speakerOn p && voiceOk p = true /\ (queue p <> [] -> pumping p = true) /\
  (has_index p = true -> aloud p = if paused p then [] else given p).
Definition voicing (p : Voice) :=
  (speakerOn p && voiceOk p, queue p, pumping p, has_index p, aloud p, paused p, given p).
Lemma heard_view p q : voicing q = voicing p -> heard p -> heard q.
Proof. unfold voicing, heard. by intros [= -> -> -> -> -> -> ->]. Qed.

(** The loop takes the first sentence and hands it to the player. *)
Lemma loop_heard p : speakerOn p && voiceOk p = true -> pumping p = true -> paused p = false ->
  (has_index p = true -> aloud p = given p) -> heard (pump_loop (queue p) p).
Proof.
  intros H1 H2 H3 H4. destruct (queue p) as [|s r] eqn:E; cbn [pump_loop].
  - unfold heard. voice_fields. split; [done|]. split; [done|]. change (has_index p = true -> aloud p = if paused p then [] else given p).
    by rewrite H3.
  - voice_fields. rewrite H1. unfold heard. rewrite aloud_act. voice_fields. split; [done|]. split; [done|].
    change (has_index p = true -> aloud p ++ [s] = if paused p then [] else given p ++ [s]). rewrite H3. intros Hi. by rewrite H4.
Qed.
Lemma pump_heard p : speakerOn p && voiceOk p = true -> paused p = false -> (has_index p = true -> aloud p = given p) -> heard (pump p).
Proof.
  intros H1 H3 H4. unfold pump. destruct (pumping p) eqn:E.
  - split; [done|]. split; [done|]. by rewrite H3.
  - by apply (loop_heard (set_pumping true p)).
Qed.

Lemma cut_sentences_view i text p : let q := cut_sentences i text p in
  speakerOn q && voiceOk q = speakerOn p && voiceOk p /\ paused q = paused p /\ has_index q = has_index p /\
  aloud q = aloud p /\ given q = given p /\ pumping q = pumping p.
Proof. cbv zeta. unfold cut_sentences. by destruct (nextSentences _ _ _). Qed.

Lemma read_answer_heard p : heard p -> heard (read_answer p).
Proof.
  intros H. unfold read_answer. destruct (index p) as [i|] eqn:Hi; [|done]. destruct (paused p) eqn:Hp; [done|].
  destruct (messages p !! i) as [m|]; [|done]. destruct (_ || _); [done|]. cbv zeta.
  set (q := if length _ <? cut p then _ else p).
  assert (Q : heard q /\ paused q = false).
  { unfold q. destruct (_ <? _); [|done]. split; [|done]. destruct H as (H1 & _ & _). split; [done|]. split; [done|].
    intros _. unfold aloud. voice_fields. rewrite foldl_app. cbn. by destruct (paused p). }
  clearbody q. destruct Q as [(Q1 & Q2 & Q3) Q4]. rewrite Q4 in Q3.
  set (text := speakable (content m)). destruct (cut_sentences_view i text q) as (C1 & C2 & C3 & C4 & C5 & C6).
  set (q' := cut_sentences i text q) in *. case_match eqn:E.
  - apply Nat.eqb_eq in E. split; [by rewrite C1|]. split; [|by rewrite C2, Q4, C3, C4, C5].
    rewrite C6. intros Hne. apply Q2. intros Hq. rewrite Hq in E. by destruct (queue q').
  - apply pump_heard; [by rewrite C1|by rewrite C2|by rewrite C3, C4, C5].
Qed.

Lemma resume_heard p : heard p -> heard (resumeVoice p).1.
Proof.
  intros (H1 & H2 & H3). unfold resumeVoice. destruct (paused p) eqn:Hp; cbn [negb fst]; [|by split; [|split; [|rewrite Hp]]].
  voice_fields. destruct (index p) as [i|] eqn:Hi; cbn [fst].
  - assert (Ha : aloud p = []) by (apply H3; unfold has_index; by rewrite Hi).
    set (q := p |> set_paused false |> set_cut (resumeAt p) |> set_given []).
    assert (Q : heard q) by (split; [done|split; [done|intros _; exact Ha]]).
    voice_fields. change (messages q) with (messages p). destruct (messages p !! i) as [m|]; [|exact Q]. destruct (is_answer m && _); [|exact Q].
    destruct (cut_sentences_view i (speakable (content m)) q) as (C1 & C2 & C3 & C4 & C5 & _).
    apply pump_heard; [by rewrite C1|by rewrite C2|]. rewrite C4, C5. by intros _.
  - split; [done|]. split; [done|]. unfold has_index. voice_fields. by rewrite Hi.
Qed.
Lemma resume_or_listen_heard p : heard p -> heard (resume_or_listen p).
Proof. intros H. unfold resume_or_listen. pose proof (resume_heard p H) as R. destruct (resumeVoice p) as [q r]. by destruct r. Qed.

Lemma send_turn_heard x p : heard p -> heard (send_turn x p).
Proof.
  intros H. unfold send_turn. destruct (streaming p); [done|]. revert H. apply heard_view. unfold voicing. by rewrite aloud_act.
Qed.
Lemma cut_in_heard x p : heard p -> heard (cut_in x p).
Proof.
  intros (H1 & _). unfold cut_in. assert (I : heard (interrupt p)).
  { unfold interrupt. cbv zeta. voice_fields. destruct (streaming p); voice_fields; destruct (index p) eqn:E;
      (split; [done|]; split; [done|]; by unfold has_index; voice_fields). }
  revert I. generalize (interrupt p). intros q I. cbv zeta. destruct (streaming q); [exact I|]. by apply send_turn_heard.
Qed.

Definition quiet (p : Voice) : Prop := paused p = true -> queue p = [].

Lemma pump_paused p : paused (pump p) = paused p.
Proof. pose proof (proj1 (pump_reading p)) as R. by inversion R. Qed.
Lemma cut_paused i x p : paused (cut_sentences i x p) = paused p.
Proof. unfold cut_sentences. by destruct (nextSentences _ _ _). Qed.
Lemma read_answer_paused p : paused p = true -> read_answer p = p.
Proof. intros H. unfold read_answer. rewrite H. by destruct (index p). Qed.
Lemma read_answer_unpaused p : paused p = false -> paused (read_answer p) = false.
Proof.
  intros H. unfold read_answer. destruct (index p); [|done]. rewrite H. destruct (messages p !! n) as [m|]; [|done].
  destruct (_ || _); [done|]. cbv zeta. set (q := if length _ <? cut p then _ else p).
  assert (Q : paused q = false) by (unfold q; by destruct (_ <? _)).
  destruct (_ =? _); rewrite ?pump_paused, cut_paused; exact Q.
Qed.
Lemma adopt_cases p : adopt_answer p = p \/ paused (adopt_answer p) = false.
Proof.
  unfold adopt_answer. destruct (awaitFrom p); [|by left]. destruct (messages p !! S n) as [m|]; [|by left].
  destruct (is_answer m); [by right|by left].
Qed.
Lemma resume_unpaused p : paused (resumeVoice p).1 = false.
Proof.
  unfold resumeVoice. destruct (paused p) eqn:E; [|done]. cbn [negb]. voice_fields. destruct (index p); [|done]. cbn [fst].
  voice_fields. destruct (messages p !! n) as [m|]; [|done]. destruct (_ && _); [|done]. by rewrite pump_paused, cut_paused.
Qed.
Lemma resume_or_listen_unpaused p : paused (resume_or_listen p) = false.
Proof. unfold resume_or_listen. pose proof (resume_unpaused p) as R. destruct (resumeVoice p) as [q r]. by destruct r. Qed.
Lemma interrupt_unpaused p : paused (interrupt p) = false.
Proof. unfold interrupt. cbv zeta. voice_fields. destruct (streaming p); voice_fields; by destruct (index p). Qed.
Lemma send_turn_paused x p : paused (send_turn x p) = paused p /\ queue (send_turn x p) = queue p /\ spoken (send_turn x p) = spoken p.
Proof. unfold send_turn. destruct (streaming p); [done|]. rewrite spoken_act, app_nil_r. by split. Qed.

Lemma cut_in_unpaused x p : paused (cut_in x p) = false.
Proof.
  unfold cut_in. generalize (interrupt_unpaused p). generalize (interrupt p). intros q H. cbv zeta.
  destruct (streaming q); [exact H|]. by rewrite (proj1 (send_turn_paused _ _)).
Qed.
Lemma clear_starting_same p :
  paused (clear_starting t p) = paused p /\ queue (clear_starting t p) = queue p /\ spoken (clear_starting t p) = spoken p.
Proof. unfold clear_starting. generalize (t STARTING). intros x. destruct (notice p) as [y|]; [by destruct (streq y x)|done]. Qed.

(** What a step does to a paused voice, and how one comes to be. *)
Definition hushed (p p' : Voice) : Prop := quiet p' /\ (paused p = true -> paused p' = true -> spoken p' = spoken p).
Lemma hushed_unpaused p p' : paused p' = false -> hushed p p'.
Proof. intros H. split; intros; congruence. Qed.
Lemma hushed_same p p' : quiet p -> paused p' = paused p -> queue p' = queue p -> spoken p' = spoken p -> hushed p p'.
Proof. intros Hq Hp Hu Hs. split; [|done]. unfold quiet. by rewrite Hp, Hu. Qed.

Lemma hushed_step p e p' : step p e p' -> quiet p -> hushed p p'.
Proof.
  intros S Hq. destruct S as [p e Hpump|p e Hne].
  - destruct (paused p) eqn:Hp.
    + destruct (spoken_over_silent e p (Hq Hp)) as [E1 E2]. split; [by intros _|done].
    + apply hushed_unpaused. pose proof (proj1 (spoken_over_reading e p)) as R. inversion R. congruence.
  - destruct e; cbn [voice_handle]; try (by apply hushed_same).
    + unfold props_changed. set (p1 := p |> set_messages msgs |> set_streaming busy). destruct (adopt_cases p1) as [E|E].
      * rewrite E. destruct (paused p) eqn:Hp; [rewrite read_answer_paused by done; by apply hushed_same|].
        apply hushed_unpaused. by apply read_answer_unpaused.
      * apply hushed_unpaused. by apply read_answer_unpaused.
    + by exfalso; eapply Hne.
    + unfold onSpeechStart. destruct (_ || _); apply hushed_same; try done. by rewrite spoken_act, app_nil_r.
    + unfold onSpeechConfirmed. destruct (barge p); cbn [negb]; [|by apply hushed_same]. unfold pauseVoice. voice_fields.
      destruct (index p); [|by apply hushed_same]. destruct (paused p) eqn:Hp; [by apply hushed_same|]. split; [done|]. intros; congruence.
    + unfold onSpeechEnd. destruct (barge p && negb confirmed).
      { apply hushed_same; try done. by rewrite spoken_act, app_nil_r. }
      destruct wav; cbn [negb]; [by apply hushed_same|]. apply hushed_unpaused. pose proof (resume_unpaused p) as R.
      destruct (resumeVoice p) as [q r]. cbn [fst] in R. destruct r; [done|]. by destruct (bool_decide _).
    + unfold transcription_over. destruct (transcribing p) as [|n]; [by apply hushed_same|]. cbv zeta.
      set (q := p |> set_transcribing n |> clear_starting t |> set_liveText []).
      assert (Q : paused q = paused p /\ queue q = queue p /\ spoken q = spoken p)
        by (unfold q; apply (clear_starting_same (set_transcribing n p))).
      clearbody q. destruct (x_error r); [apply hushed_unpaused, resume_or_listen_unpaused|].
      destruct (phantom _); [apply hushed_unpaused, resume_or_listen_unpaused|].
      destruct (paused q) eqn:Hp.
      * apply hushed_unpaused, cut_in_unpaused.
      * apply hushed_unpaused. by rewrite (proj1 (send_turn_paused _ _)).
    + unfold wound_down. destruct (winding p !! i) as [j|]; [|by apply hushed_same].
      destruct (send_turn_paused j (set_winding (delete i (winding p)) p)) as (E1 & E2 & E3). by apply hushed_same.
    + unfold live_transcribed. destruct (_ && _); by apply hushed_same.
    + destruct o; by apply hushed_same.
    + destruct ok; by apply hushed_same.
    + unfold tick. set (q := set_guard playing p). change (index q) with (index p). change (paused q) with (paused p).
      destruct (index p); [|by apply hushed_same]. destruct (paused p) eqn:Hp; [by apply hushed_same|]. apply hushed_unpaused. cbv zeta.
      destruct (playing && _); match goal with |- paused (if ?b then _ else _) = _ => destruct b end; done.
    + unfold toggleMic. destruct (_ && _); apply hushed_same; try done; change (spoken (act (MicMuted (negb (micMuted p))) (set_micMuted (negb (micMuted p)) p)) = spoken p); by rewrite spoken_act, app_nil_r.
    + apply hushed_same; try done. unfold toggleSpeaker. cbv zeta. by rewrite spoken_act, app_nil_r.
    + unfold pickVoice. destruct v; by apply hushed_same.
Qed.
Lemma quiet_run p es p' : run p es p' -> quiet p -> quiet p'.
Proof. induction 1 as [|p e p1 es p2 S _ IH]; [done|]. intros Q. apply IH. by apply (hushed_step p e p1). Qed.

(** ** Turns sent *)

Definition turns (p : Voice) : list jstr * list jstr := (sents p, winding p).
Lemma turns_of_sending p q : sending q = sending p -> turns q = turns p.
Proof. unfold turns. by intros [= -> -> _ _ _]. Qed.
Lemma pump_turns p : turns (pump p) = turns p.
Proof. apply turns_of_sending, pump_reading. Qed.
Ltac same_turns := unfold turns, sents; voice_fields; rewrite ?omap_app; cbn [omap list_omap]; rewrite ?app_nil_r; reflexivity.
Lemma cut_turns i x p : turns (cut_sentences i x p) = turns p.
Proof. unfold cut_sentences. by destruct (nextSentences _ _ _). Qed.
Lemma props_turns msgs busy p : turns (props_changed msgs busy p) = turns p.
Proof.
  unfold props_changed. set (p1 := p |> set_messages msgs |> set_streaming busy).
  assert (A : turns (adopt_answer p1) = turns p).
  { unfold adopt_answer. destruct (awaitFrom p1); [|done]. destruct (messages p1 !! S n) as [m|]; [|done].
    destruct (is_answer m); [|done]. same_turns. }
  rewrite <- A. generalize (adopt_answer p1). clear. intros p. unfold read_answer. destruct (index p); [|done].
  destruct (paused p); [done|]. destruct (messages p !! n) as [m|]; [|done]. destruct (_ || _); [done|]. cbv zeta.
  set (q := if length _ <? cut p then _ else p).
  assert (Q : turns q = turns p) by (unfold q; destruct (_ <? _); [same_turns|done]).
  destruct (_ =? _); rewrite ?pump_turns, cut_turns; exact Q.
Qed.
Lemma resume_turns p : turns (resumeVoice p).1 = turns p.
Proof.
  unfold resumeVoice. destruct (negb (paused p)); [done|]. voice_fields. destruct (index p); [|done]. cbn [fst].
  voice_fields. destruct (messages p !! n) as [m|]; [|done]. destruct (_ && _); [|done]. by rewrite pump_turns, cut_turns.
Qed.
Lemma resume_or_listen_turns p : turns (resume_or_listen p) = turns p.
Proof. unfold resume_or_listen. pose proof (resume_turns p) as R. destruct (resumeVoice p) as [q r]. by destruct r. Qed.
Lemma interrupt_turns p : turns (interrupt p) = turns p /\ streaming (interrupt p) = streaming p /\ messages (interrupt p) = messages p.
Proof.
  unfold interrupt. cbv zeta. voice_fields. destruct (streaming p) eqn:E; voice_fields; destruct (index p);
    (split; [same_turns|by rewrite ?E]).
Qed.
Lemma clear_starting_turns p : turns (clear_starting t p) = turns p /\ streaming (clear_starting t p) = streaming p.
Proof. unfold clear_starting. generalize (t STARTING). intros x. destruct (notice p) as [y|]; [by destruct (streq y x)|done]. Qed.

Definition sends (raw : jstr) (p p' : Voice) : Prop :=
  sents p' = sents p ++ [trim raw] /\ phantom raw = false /\ streaming p = false /\ awaitFrom p' = Some (length (messages p')).
Definition clean (p : Voice) : Prop := Forall (fun x => phantom x = false) (winding p).

Lemma send_turn_sends raw p : phantom raw = false ->
  winding (send_turn raw p) = winding p /\ (sents (send_turn raw p) = sents p \/ sends raw p (send_turn raw p)).
Proof.
  intros H. unfold send_turn. destruct (streaming p) eqn:E; [split; [done|by left]|]. split; [done|]. right.
  unfold sends. by rewrite sents_act.
Qed.

Lemma step_turns p e p' : step p e p' -> clean p -> clean p' /\ (sents p' = sents p \/ exists raw, sends raw p p').
Proof.
  intros S Hc.
  assert (Same : forall q, turns q = turns p -> clean q /\ (sents q = sents p \/ exists raw, sends raw p q)).
  { intros q [= E1 E2]. split; [unfold clean; by rewrite E2|by left]. }
  destruct S as [p e Hpump|p e Hne]; [by apply Same, turns_of_sending, spoken_over_reading|].
  destruct e; cbn [voice_handle]; try (by apply Same).
  - apply Same, props_turns.
  - by exfalso; eapply Hne.
  - apply Same. unfold onSpeechStart. destruct (_ || _); [same_turns|done].
  - apply Same. unfold onSpeechConfirmed. destruct (barge p); cbn [negb]; [|done]. unfold pauseVoice. voice_fields.
    destruct (index p); [|done]. destruct (paused p); [done|]. same_turns.
  - apply Same. unfold onSpeechEnd. destruct (_ && _); [same_turns|]. destruct wav; cbn [negb]; [done|].
    pose proof (resume_turns p) as R. destruct (resumeVoice p) as [q r]. cbn [fst] in R. destruct r; [done|]. by destruct (bool_decide _).
  - unfold transcription_over. destruct (transcribing p) as [|n]; [by apply Same|]. cbv zeta.
    set (q := p |> set_transcribing n |> clear_starting t |> set_liveText []).
    assert (Q : turns q = turns p /\ streaming q = streaming p) by (unfold q; apply (clear_starting_turns (set_transcribing n p))).
    clearbody q. destruct Q as [Q1 Q2]. assert (C : clean q) by (unfold clean; by injection Q1 as _ ->).
    destruct (x_error r); [apply Same; by rewrite resume_or_listen_turns|].
    destruct (phantom (x_text r)) eqn:F; [apply Same; by rewrite resume_or_listen_turns|].
    assert (Send : forall q', turns q' = turns p -> streaming q' = streaming p ->
       clean (send_turn (x_text r) q') /\ (sents (send_turn (x_text r) q') = sents p \/ exists raw, sends raw p (send_turn (x_text r) q'))).
    { intros q' [= T1 T2] E. destruct (send_turn_sends (x_text r) q' F) as [W [K|(K1 & K2 & K3 & K4)]].
      - split; [unfold clean; by rewrite W, T2|]. left. by rewrite K.
      - split; [unfold clean; by rewrite W, T2|]. right. exists (x_text r). unfold sends. by rewrite K1, T1, <- E. }
    destruct (paused q); [|by apply Send]. unfold cut_in. destruct (interrupt_turns q) as (I1 & I2 & _). generalize dependent (interrupt q). intros qi I1 I2. cbv zeta. destruct (streaming qi) eqn:Ei.
    + injection I1 as I1 I3. injection Q1 as Q1 Q3. split; [|left; by rewrite <- Q1, <- I1].
      unfold clean. voice_fields. rewrite I3. apply Forall_app. split; [exact C|by constructor].
    + apply Send; [by rewrite I1|congruence].
  - unfold wound_down. destruct (winding p !! i) as [x|] eqn:E; [|by apply Same].
    assert (F : phantom x = false) by by apply (Forall_lookup_1 _ _ _ _ Hc E).
    destruct (send_turn_sends x (set_winding (delete i (winding p)) p) F) as [W K]. split.
    + unfold clean. rewrite W. voice_fields. by apply Forall_delete.
    + destruct K as [K|K]; [by left|right; by exists x].
  - apply Same. unfold live_transcribed. by destruct (_ && _).
  - apply Same. by destruct o.
  - apply Same. by destruct ok.
  - apply Same. unfold tick. cbv zeta. voice_fields. destruct (index p); [|done]. destruct (paused p); [done|].
    destruct (playing && _); match goal with |- turns (if ?b then _ else _) = _ => destruct b end; done.
  - apply Same. unfold toggleMic. cbv zeta. destruct (_ && _); same_turns.
  - apply Same. unfold toggleSpeaker. cbv zeta. same_turns.
  - apply Same. unfold pickVoice. by destruct v.
Qed.

(** ** Properties *)

Lemma adopt_heard p : heard p -> heard (adopt_answer p).
Proof.
  intros H. unfold adopt_answer. destruct (awaitFrom p); [|done]. destruct (messages p !! S n) as [m|]; [|done].
  destruct (is_answer m); [|done]. split; [apply H|]. split; [done|]. intros _. unfold aloud. voice_fields. by rewrite foldl_app.
Qed.
Lemma heard_act e p : (forall l, hear l e = l) -> heard p -> heard (act e p).
Proof. intros He. apply heard_view. unfold voicing. by rewrite aloud_act, He. Qed.

Lemma heard_step p e p' : audible p e -> step p e p' -> quiet p -> heard p -> heard p'.
Proof.
  intros A S Q H. destruct S as [p e Hpump|p e Hne].
  - pose proof H as (H1 & H2 & H3). destruct e; cbn [spoken_over audible] in *; [| |done].
    + destruct (paused p) eqn:Hp; [|by apply (loop_heard (set_failures 0 p)); voice_fields; rewrite ?Hp; auto].
      cbv zeta. change (queue (set_failures 0 p)) with (queue p). rewrite (Q Hp). cbn [pump_loop].
      split; [done|]. split; [done|]. voice_fields. rewrite Hp. exact H3.
    + split; [done|]. split; [by voice_fields; rewrite A|]. exact H3.
  - destruct e; cbn [voice_handle audible] in *; try done.
    + unfold props_changed. by apply read_answer_heard, adopt_heard.
    + by exfalso; eapply Hne.
    + unfold onSpeechStart. destruct (_ || _); [|done]. by apply (heard_act (Duck true)).
    + unfold onSpeechConfirmed. destruct (barge p); cbn [negb]; [|done]. unfold pauseVoice. voice_fields.
      destruct (index p) eqn:Hi; [|done]. destruct (paused p) eqn:Hp; [done|].
      split; [apply H|]. split; [done|]. intros _. unfold aloud. voice_fields. by rewrite foldl_app.
    + unfold onSpeechEnd. destruct (_ && _); [by apply (heard_act (Duck false))|]. destruct wav; cbn [negb]; [done|].
      pose proof (resume_heard p H) as R. destruct (resumeVoice p) as [q r]. cbn [fst] in R. destruct r; [done|].
      by destruct (bool_decide _).
    + unfold transcription_over. destruct (transcribing p) as [|n]; [done|]. cbv zeta.
      set (q := p |> set_transcribing n |> clear_starting t |> set_liveText []).
      assert (K : heard q).
      { unfold q, clear_starting. generalize (t STARTING). intros z. voice_fields. destruct (notice p) as [y|]; [by destruct (streq y z)|done]. }
      clearbody q. destruct (x_error r); [by apply (resume_or_listen_heard (set_notice _ q))|].
      destruct (phantom _); [by apply resume_or_listen_heard|].
      destruct (paused q); [by apply cut_in_heard|by apply send_turn_heard].
    + unfold wound_down. destruct (winding p !! i) as [x|]; [|done]. by apply (send_turn_heard x (set_winding _ p)).
    + unfold live_transcribed. by destruct (_ && _).
    + by destruct o.
    + by destruct ok.
    + unfold tick. cbv zeta. voice_fields. destruct (index p) eqn:Hi; [|done]. destruct (paused p) eqn:Hp; [done|].
      destruct H as (H1 & H2 & H3).
      destruct (playing && _); match goal with |- heard (if ?b then _ else _) => destruct b end;
        (split; [exact H1|]; split; [exact H2|]; try done; exact H3).
    + unfold toggleMic. cbv zeta. assert (K : heard (act (MicMuted (negb (micMuted p))) (set_micMuted (negb (micMuted p)) p)))
        by (by apply (heard_act (MicMuted (negb (micMuted p))) (set_micMuted _ p))).
      by destruct (_ && _).
    + unfold pickVoice. by destruct v.
Qed.

Lemma reads_heard p base : reads p base -> quiet p /\ heard p.
Proof.
  induction 1 as [|p e p' base _ [Q H] G A S].
  - split; [done|]. split; [done|]. by split.
  - split; [by apply (hushed_step p e p')|by apply (heard_step p e p')].
Qed.

(** C24: The voice says the answer, all of it and in order, from where the reading
    began: the start of the answer, or, after the user's voice paused it for
    nothing, the sentence that was being said.  Take a conversation in which the
    spoken text of the answer only grows at its end, the voice is on and answers,
    and the end of a stopped sentence arrives before there is another to say.
    Then the sentences handed to the player since, followed by those that wait,
    tile the spoken text from that point to where the next call will cut, with
    nothing but white space between them; sentences wait only while another is
    being said; and once the answer is complete nothing of it is left to cut. *)
Theorem answer_read_in_order p base i : reads p base -> index p = Some i -> paused p = false ->
  exists m, messages p !! i = Some m /\ is_answer m = true /\ isError m = false /\
    tiles (speakable (content m)) base (aloud p ++ queue p) (cut p) /\
    (queue p <> [] -> pumping p = true) /\
    (is_final i p = true -> blank (drop (cut p) (speakable (content m))) = true).
Proof.
  intros H Hi Hp. destruct (reads_heard p base H) as (_ & _ & H2 & H3). apply reads_ok in H. unfold read_ok in H. rewrite Hi, Hp in H.
  destruct H as (text & (m & M1 & M2 & M3 & ->) & T & F). exists m. rewrite H3, Hp by (unfold has_index; by rewrite Hi). done.
Qed.

(** While the user speaks over the answer, the voice is silent: from the moment
    the sound is confirmed and as long as the answer stays paused, no sentence
    is handed to the voice, whatever the model goes on writing. *)
Theorem paused_voice_is_silent stored msgs busy es p e p' : run (voice_start stored msgs busy) es p ->
  step p e p' -> paused p = true -> paused p' = true -> queue p = [] /\ queue p' = [] /\ spoken p' = spoken p.
Proof.
  intros R S H H'. assert (Q : quiet p) by by eapply quiet_run.
  destruct (hushed_step p e p' S Q) as [Q' K]. split; [by apply Q|]. split; [by apply Q'|by apply K].
Qed.

(** A spoken turn is sent only when it can be taken: the page writes no answer
    at that moment, the transcript is not an invention of the recogniser, what
    goes out is the transcript without the white space around it, and the next
    message awaited is the answer to it. *)
Theorem spoken_turns_sent stored msgs busy es p e p' : run (voice_start stored msgs busy) es p -> step p e p' ->
  sents p' = sents p \/
  exists raw, sents p' = sents p ++ [trim raw] /\ phantom raw = false /\ streaming p = false /\
    awaitFrom p' = Some (length (messages p')).
Proof.
  intros R S. assert (C : clean p).
  { assert (C0 : clean (voice_start stored msgs busy)) by constructor. revert C0. clear S. induction R as [|q d q1 ds q2 S R IH]; [done|].
    intros C0. apply IH. by apply (step_turns q d q1). }
  destruct (step_turns p e p' S C) as [_ [K|[raw K]]]; [by left|]. right. by exists raw.
Qed.
End spec.

(** ** Witnesses *)

Definition says (text : jstr) : ChatMsg := mkMsg Assistant text false false false false None [] [] None.
Definition asks (text : jstr) : ChatMsg := mkMsg User text false false false false None [] [] None.
Definition play (es : list VEvent) (p : Voice) : Voice := foldl (fun p e => voice_handle id latin digit e p) p es.
Definition at_open : Voice := voice_start None [] false.
Definition is_spoken_over (e : VEvent) : bool := match e with SpokenOver _ => true | _ => false end.
Fixpoint possible (es : list VEvent) (p : Voice) : bool :=
  match es with
  | [] => true
  | e :: r => (negb (is_spoken_over e) || pumping p) && possible r (voice_handle id latin digit e p)
  end.
Lemma possible_step e p : negb (is_spoken_over e) || pumping p = true -> voice_step id latin digit p e (voice_handle id latin digit e p).
Proof.
  destruct e; cbn [is_spoken_over negb orb]; intros H; try (by apply voice_other; intros x). by apply voice_spoken.
Qed.
Lemma possible_run es p : possible es p = true -> voice_run id latin digit p es (play es p).
Proof.
  revert p. induction es as [|e r IH]; intros p H; [constructor|]. cbn [possible] in H. apply andb_prop in H as [H1 H2].
  econstructor; [by apply possible_step|]. by apply IH.
Qed.

Lemma play_app es es' p : play (es ++ es') p = play es' (play es p).
Proof. apply foldl_app. Qed.

(** The user asks, the answer comes in two pieces, the first sentence is read. *)
Definition asked : list VEvent := [MicOpened true; SpeechStart_; SpeechEnd_ true true; Transcribed_ (mkTranscript (u " raconte ") false None)].

Lemma reads_play es p base : reads id latin digit p base -> possible es p = true ->
  forallb (fun e => match e with
                    | Props_ _ _ | SpeechConfirmed_ _ | ToggleSpeaker | VoiceOpened _ | SpokenOver SpeakAborted | SpokenOver SpeakFailed => false
                    | _ => true end) es = true ->
  reads id latin digit (play es p) base.
Proof.
  revert p. induction es as [|e r IH]; intros p R H N; [done|]. cbn [possible forallb] in *. apply andb_prop in H as [H1 H2], N as [N1 N2].
  apply IH; [|done..].
  assert (B : begins p e base = base) by (by destruct e). rewrite <- B.
  apply (reads_step id latin digit p e); [exact R|by destruct e| |by apply possible_step]. by destruct e as [|[]| | | | | | | | | | | | |].
Qed.
(** The player is in the second sentence when a sound is heard; nothing is made
    of it, and the answer goes on from that sentence. *)
Definition resumed : list VEvent := [SpeechEnd_ true true; Transcribed_ (mkTranscript [] false None)].
Definition part1 : list ChatMsg := [asks (u "raconte"); says (u "Il était une fois un roi. Il vivait seul dans un grand château. Un")].
Definition part2 : list ChatMsg := [asks (u "raconte"); says (u "Il était une fois un roi. Il vivait seul dans un grand château. Un jour il partit.")].
Definition told : list VEvent := asked ++ [Props_ part1 true; SpokenOver Arrived; Props_ part2 true].
Definition telling : list VEvent := asked ++ [Props_ part1 true; SpokenOver Arrived; Tick 30 true; SpeechStart_; SpeechConfirmed_ 30; SpokenOver SpeakAborted].

Lemma reads_told : reads id latin digit (play (telling ++ [Props_ part2 false] ++ resumed) at_open) 25.
Proof.
  set (p1 := play asked at_open).
  assert (R1 : reads id latin digit p1 0) by (apply reads_play; [apply reads_start|vm_compute; reflexivity..]).
  set (p2 := voice_handle id latin digit (Props_ part1 true) p1).
  assert (R2 : reads id latin digit p2 0).
  { apply (reads_step id latin digit p1 (Props_ part1 true) p2 0); [exact R1| |exact I|by apply possible_step]. split.
    - vm_compute. by intros m [= <-].
    - vm_compute. exact I. }
  set (p3 := play [SpokenOver Arrived; Tick 30 true; SpeechStart_] p2).
  assert (R3 : reads id latin digit p3 0) by (apply reads_play; [exact R2|vm_compute; reflexivity..]).
  set (p4 := voice_handle id latin digit (SpeechConfirmed_ 30) p3).
  assert (R4 : reads id latin digit p4 25).
  { assert (B : begins p3 (SpeechConfirmed_ 30) 0 = 25) by (vm_compute; reflexivity). rewrite <- B.
    apply (reads_step id latin digit p3); [exact R3|exact I|exact I|by apply possible_step]. }
  set (p5 := voice_handle id latin digit (SpokenOver SpeakAborted) p4).
  assert (R5 : reads id latin digit p5 25).
  { apply (reads_step id latin digit p4 (SpokenOver SpeakAborted) p5 25); [exact R4|exact I|vm_compute; reflexivity|].
    apply (possible_step (SpokenOver SpeakAborted) p4). vm_compute. reflexivity. }
  set (p6 := voice_handle id latin digit (Props_ part2 false) p5).
  assert (R6 : reads id latin digit p6 25).
  { apply (reads_step id latin digit p5 (Props_ part2 false) p6 25); [exact R5| |exact I|by apply possible_step]. split; [vm_compute; exact I|].
    change (index p5) with (Some 1). intros text (m & M & _ & _ & ->).
    assert (E : messages p5 !! 1 = Some (says (u "Il était une fois un roi. Il vivait seul dans un grand château. Un"))) by (vm_compute; reflexivity).
    rewrite E in M. injection M as <-. exists (u " jour il partit."). eexists. split; [reflexivity|].
    vm_compute. repeat split; reflexivity. }
  assert (R7 : reads id latin digit (play resumed p6) 25) by (apply reads_play; [exact R6|vm_compute; reflexivity..]).
  assert (E : play (telling ++ [Props_ part2 false] ++ resumed) at_open = play resumed p6) by (vm_compute; reflexivity).
  rewrite E. exact R7.
Qed.

Lemma answer_read_in_order_witness :
  let p := play (telling ++ [Props_ part2 false] ++ resumed) at_open in
  map s_text (aloud p ++ queue p) = [u "Il vivait seul dans un grand château."; u "Un jour il partit."] /\
  exists m, messages p !! 1 = Some m /\ tiles (speakable (content m)) 25 (aloud p ++ queue p) (cut p) /\
    (queue p <> [] -> pumping p = true).
Proof.
  cbv zeta. split; [vm_compute; reflexivity|].
  destruct (answer_read_in_order id latin digit (play (telling ++ [Props_ part2 false] ++ resumed) at_open) 25 1 reads_told)
    as (m & M & _ & _ & T & W & _); [vm_compute; reflexivity..|]. exists m. split; [exact M|]. by split.
Defined.

(** The user speaks over it: the answer is paused, and what is written next is
    not read. *)
Definition cut_off : list VEvent := told ++ [SpeechStart_; SpeechConfirmed_ 3].
Lemma paused_voice_is_silent_witness :
  paused (play cut_off at_open) = true /\
  spoken (play (cut_off ++ [Props_ (part2 ++ [says (u "Fin. ")]) true]) at_open) = spoken (play cut_off at_open).
Proof.
  split; [vm_compute; reflexivity|].
  refine (proj2 (proj2 (paused_voice_is_silent id latin digit None [] false cut_off (play cut_off at_open)
    (Props_ (part2 ++ [says (u "Fin. ")]) true) _ _ _ _ _))).
  - apply possible_run. vm_compute. reflexivity.
  - rewrite play_app. apply (possible_step (Props_ (part2 ++ [says (u "Fin. ")]) true) (play cut_off at_open)). reflexivity.
  - vm_compute. reflexivity.
  - vm_compute. reflexivity.
Defined.
Lemma spoken_turns_sent_witness :
  sents (play asked at_open) = [u "raconte"] /\
  (sents (play asked at_open) = sents (play (take 3 asked) at_open) \/
   exists raw, sents (play asked at_open) = sents (play (take 3 asked) at_open) ++ [trim raw] /\
     isPhantomTranscript latin digit raw = false /\ streaming (play (take 3 asked) at_open) = false /\
     awaitFrom (play asked at_open) = Some (length (messages (play asked at_open)))).
Proof.
  split; [vm_compute; reflexivity|].
  refine (spoken_turns_sent id latin digit None [] false (take 3 asked) (play (take 3 asked) at_open)
    (Transcribed_ (mkTranscript (u " raconte ") false None)) (play asked at_open) _ _).
  - apply possible_run. vm_compute. reflexivity.
  - apply (possible_step (Transcribed_ (mkTranscript (u " raconte ") false None)) (play (take 3 asked) at_open)). reflexivity.
Defined.

(** ** Where the text shifts *)

(** The spoken text is not always extended by what the model writes: the mark of
    a bold passage that closes disappears, the text read so far moves to the
    left, and the beginning of the next sentence is never said. *)
Definition bold1 : list ChatMsg := [asks (u "raconte"); says (u "Écoute **bien ce conseil. Il")].
Definition bold2 : list ChatMsg := [asks (u "raconte"); says (u "Écoute **bien ce conseil. Il faut** partir maintenant, vite.")].
Lemma bold_loses_words :
  map s_text (spoken (play (asked ++ [Props_ bold1 true; SpokenOver Arrived; Props_ bold2 false]) at_open))
  = [u "Écoute **bien ce conseil."; u "l faut partir maintenant, vite."].
Proof. vm_compute. reflexivity. Qed.
