(* ===== verification/ImagePage.v ===== *)
(** * The image page (app/(app)/image/ImagePage.tsx)

    A generation is asked for, then its status is polled by an interval until it
    ends; the history, the cancellation, the gallery.  The live intervals are
    part of the state ([timers], with the job each one asks about), and so are
    the answers awaited: of the generations ([posts], with the number of images
    asked), of the status ([checks]), of the cancellations and deletions.  The
    counts are whole numbers; the dictation is left out.

    One interval polls at a time as long as the generations do not overlap, a
    job is followed to its end, an image disappears only when the server has
    confirmed; and the cases the page does not handle. *)

From S2P Require Import Prelude JsString JsJson.
Local Open Scope flow_scope.

Inductive ImageFormat := Png | Jpeg | Webp.
#[export] Instance ImageFormat_eq_dec : EqDecision ImageFormat := ltac:(solve_decision).
Inductive ImageSize := Square | Landscape | Portrait | Uhd.
#[export] Instance ImageSize_eq_dec : EqDecision ImageSize := ltac:(solve_decision).

Record HistoryItem := mkItem {
  h_prompt_id : jstr; h_prompt : jstr; h_status : jstr; h_created_at : jstr;
  h_count : option Z; h_done_count : option Z; h_format : option jstr
}.

Record RunningModel := mkModel { m_name : jstr; m_kind : jstr; m_exposed : bool }.

Definition BATCH_CHOICES : list Z := [1; 2; 3; 4]%Z.
Definition format_value (f : ImageFormat) : jstr := match f with Png => u "png" | Jpeg => u "jpeg" | Webp => u "webp" end.
Definition FORMATS : list (ImageFormat * jstr) := [(Png, u "PNG"); (Jpeg, u "JPEG"); (Webp, u "WebP")].
Definition FORMAT_EXT (f : ImageFormat) : jstr := match f with Png => u "png" | Jpeg => u "jpg" | Webp => u "webp" end.

Record SizeSpec := mkSize { z_value : ImageSize; z_label : jstr; z_width : Z; z_height : Z; z_outWidth : Z; z_outHeight : Z }.
Definition SIZES : list SizeSpec := [
  mkSize Square (u "1024×1024") 1024 1024 0 0;
  mkSize Landscape (u "1920×1080") 1536 864 1920 1080;
  mkSize Portrait (u "1080×1920") 864 1536 1080 1920;
  mkSize Uhd (u "3840×2160") 1536 864 3840 2160
].
Definition size_spec (s : ImageSize) : SizeSpec :=
  match find (fun z => bool_decide (z_value z = s)) SIZES with
  | Some z => z
  | None => mkSize Square (u "1024×1024") 1024 1024 0 0
  end.

Definition STATUS_LABEL (s : jstr) : option jstr :=
  if streq s (u "pending") then Some (u "En file d'attente…")
  else if streq s (u "running") then Some (u "Génération en cours…")
  else if streq s (u "done") then Some (u "Image prête.")
  else if streq s (u "error") then Some (u "Échec de la génération.")
  else if streq s (u "cancelled") then Some (u "Génération annulée.")
  else None.
Definition STATUS_SHORT (s : jstr) : option jstr :=
  if streq s (u "pending") then Some (u "En attente")
  else if streq s (u "running") then Some (u "En cours")
  else if streq s (u "done") then Some (u "Terminé")
  else if streq s (u "error") then Some (u "Erreur")
  else if streq s (u "cancelled") then Some (u "Annulé")
  else None.

(** The body of POST /api/image/generate. *)
Record ImageRequest := mkRequest {
  r_prompt : jstr; r_count : Z; r_format : ImageFormat; r_width : Z; r_height : Z; r_out_width : Z; r_out_height : Z
}.
Definition payload (r : ImageRequest) : list (jstr * jstr) := [
  (u "prompt", r_prompt r); (u "count", string_of_Z (r_count r)); (u "format", format_value (r_format r));
  (u "width", string_of_Z (r_width r)); (u "height", string_of_Z (r_height r));
  (u "out_width", string_of_Z (r_out_width r)); (u "out_height", string_of_Z (r_out_height r))
].

(** What the page asks and shows, in order. *)
Inductive IEffect :=
| Generated (r : ImageRequest) | AskedStatus (id : jstr) | AskedHistory
| AskedCancel (id : jstr) | AskedDelete (id : jstr) (idx : nat)
| Toast (body : jstr) (error : bool) | Download (href name : jstr).

Record IPage := mkIPage {
  prompt : jstr; status : jstr; promptId : option jstr; batch : Z; format : ImageFormat; size : ImageSize;
  jobCount : Z; doneCount : Z; viewer : option (jstr * nat); deletedImgs : list jstr;
  history : list HistoryItem; available : option bool; cancelling : bool; pollRef : option nat;
  timers : list (nat * jstr); next_timer : nat; posts : list Z; checks : list jstr; cancels : nat;
  deletes : list (jstr * nat); asked : list IEffect
}.

Definition set_prompt v p := mkIPage v (status p) (promptId p) (batch p) (format p) (size p) (jobCount p) (doneCount p) (viewer p) (deletedImgs p) (history p) (available p) (cancelling p) (pollRef p) (timers p) (next_timer p) (posts p) (checks p) (cancels p) (deletes p) (asked p).
Definition set_status v p := mkIPage (prompt p) v (promptId p) (batch p) (format p) (size p) (jobCount p) (doneCount p) (viewer p) (deletedImgs p) (history p) (available p) (cancelling p) (pollRef p) (timers p) (next_timer p) (posts p) (checks p) (cancels p) (deletes p) (asked p).
Definition set_promptId v p := mkIPage (prompt p) (status p) v (batch p) (format p) (size p) (jobCount p) (doneCount p) (viewer p) (deletedImgs p) (history p) (available p) (cancelling p) (pollRef p) (timers p) (next_timer p) (posts p) (checks p) (cancels p) (deletes p) (asked p).
Definition set_batch v p := mkIPage (prompt p) (status p) (promptId p) v (format p) (size p) (jobCount p) (doneCount p) (viewer p) (deletedImgs p) (history p) (available p) (cancelling p) (pollRef p) (timers p) (next_timer p) (posts p) (checks p) (cancels p) (deletes p) (asked p).
Definition set_format v p := mkIPage (prompt p) (status p) (promptId p) (batch p) v (size p) (jobCount p) (doneCount p) (viewer p) (deletedImgs p) (history p) (available p) (cancelling p) (pollRef p) (timers p) (next_timer p) (posts p) (checks p) (cancels p) (deletes p) (asked p).
Definition set_size v p := mkIPage (prompt p) (status p) (promptId p) (batch p) (format p) v (jobCount p) (doneCount p) (viewer p) (deletedImgs p) (history p) (available p) (cancelling p) (pollRef p) (timers p) (next_timer p) (posts p) (checks p) (cancels p) (deletes p) (asked p).
Definition set_jobCount v p := mkIPage (prompt p) (status p) (promptId p) (batch p) (format p) (size p) v (doneCount p) (viewer p) (deletedImgs p) (history p) (available p) (cancelling p) (pollRef p) (timers p) (next_timer p) (posts p) (checks p) (cancels p) (deletes p) (asked p).
Definition set_doneCount v p := mkIPage (prompt p) (status p) (promptId p) (batch p) (format p) (size p) (jobCount p) v (viewer p) (deletedImgs p) (history p) (available p) (cancelling p) (pollRef p) (timers p) (next_timer p) (posts p) (checks p) (cancels p) (deletes p) (asked p).
Definition set_viewer v p := mkIPage (prompt p) (status p) (promptId p) (batch p) (format p) (size p) (jobCount p) (doneCount p) v (deletedImgs p) (history p) (available p) (cancelling p) (pollRef p) (timers p) (next_timer p) (posts p) (checks p) (cancels p) (deletes p) (asked p).
Definition set_deletedImgs v p := mkIPage (prompt p) (status p) (promptId p) (batch p) (format p) (size p) (jobCount p) (doneCount p) (viewer p) v (history p) (available p) (cancelling p) (pollRef p) (timers p) (next_timer p) (posts p) (checks p) (cancels p) (deletes p) (asked p).
Definition set_history v p := mkIPage (prompt p) (status p) (promptId p) (batch p) (format p) (size p) (jobCount p) (doneCount p) (viewer p) (deletedImgs p) v (available p) (cancelling p) (pollRef p) (timers p) (next_timer p) (posts p) (checks p) (cancels p) (deletes p) (asked p).
Definition set_available v p := mkIPage (prompt p) (status p) (promptId p) (batch p) (format p) (size p) (jobCount p) (doneCount p) (viewer p) (deletedImgs p) (history p) v (cancelling p) (pollRef p) (timers p) (next_timer p) (posts p) (checks p) (cancels p) (deletes p) (asked p).
Definition set_cancelling v p := mkIPage (prompt p) (status p) (promptId p) (batch p) (format p) (size p) (jobCount p) (doneCount p) (viewer p) (deletedImgs p) (history p) (available p) v (pollRef p) (timers p) (next_timer p) (posts p) (checks p) (cancels p) (deletes p) (asked p).
Definition set_pollRef v p := mkIPage (prompt p) (status p) (promptId p) (batch p) (format p) (size p) (jobCount p) (doneCount p) (viewer p) (deletedImgs p) (history p) (available p) (cancelling p) v (timers p) (next_timer p) (posts p) (checks p) (cancels p) (deletes p) (asked p).
Definition set_timers v p := mkIPage (prompt p) (status p) (promptId p) (batch p) (format p) (size p) (jobCount p) (doneCount p) (viewer p) (deletedImgs p) (history p) (available p) (cancelling p) (pollRef p) v (next_timer p) (posts p) (checks p) (cancels p) (deletes p) (asked p).
Definition set_next_timer v p := mkIPage (prompt p) (status p) (promptId p) (batch p) (format p) (size p) (jobCount p) (doneCount p) (viewer p) (deletedImgs p) (history p) (available p) (cancelling p) (pollRef p) (timers p) v (posts p) (checks p) (cancels p) (deletes p) (asked p).
Definition set_posts v p := mkIPage (prompt p) (status p) (promptId p) (batch p) (format p) (size p) (jobCount p) (doneCount p) (viewer p) (deletedImgs p) (history p) (available p) (cancelling p) (pollRef p) (timers p) (next_timer p) v (checks p) (cancels p) (deletes p) (asked p).
Definition set_checks v p := mkIPage (prompt p) (status p) (promptId p) (batch p) (format p) (size p) (jobCount p) (doneCount p) (viewer p) (deletedImgs p) (history p) (available p) (cancelling p) (pollRef p) (timers p) (next_timer p) (posts p) v (cancels p) (deletes p) (asked p).
Definition set_cancels v p := mkIPage (prompt p) (status p) (promptId p) (batch p) (format p) (size p) (jobCount p) (doneCount p) (viewer p) (deletedImgs p) (history p) (available p) (cancelling p) (pollRef p) (timers p) (next_timer p) (posts p) (checks p) v (deletes p) (asked p).
Definition set_deletes v p := mkIPage (prompt p) (status p) (promptId p) (batch p) (format p) (size p) (jobCount p) (doneCount p) (viewer p) (deletedImgs p) (history p) (available p) (cancelling p) (pollRef p) (timers p) (next_timer p) (posts p) (checks p) (cancels p) v (asked p).
Definition ask (e : IEffect) p := mkIPage (prompt p) (status p) (promptId p) (batch p) (format p) (size p) (jobCount p) (doneCount p) (viewer p) (deletedImgs p) (history p) (available p) (cancelling p) (pollRef p) (timers p) (next_timer p) (posts p) (checks p) (cancels p) (deletes p) (asked p ++ [e]).

(** Reading a field through the updates. *)
Ltac image_fields :=
  cbn [prompt status promptId batch format size jobCount doneCount viewer deletedImgs history available cancelling pollRef timers next_timer posts checks cancels deletes asked
       set_prompt set_status set_promptId set_batch set_format set_size set_jobCount set_doneCount set_viewer set_deletedImgs set_history set_available set_cancelling set_pollRef set_timers set_next_timer set_posts set_checks set_cancels set_deletes ask] in *.

Section image.
Context (t : jstr -> jstr).

Definition has_image_model (models : list RunningModel) : bool := existsb (fun m => streq (m_kind m) (u "image")) models.
Definition image_start (items : option (list HistoryItem)) (running : option (list RunningModel)) : IPage :=
  mkIPage [] (u "idle") None 1 Png Square 1 0 None [] (default [] items) (has_image_model <$> running) false None [] 0 [] [] 0 [] [].

(** The answer of /api/running-models; a refused one ([None]) has no model. *)
Definition running_fetched (models : option (list RunningModel)) (p : IPage) : IPage :=
  set_available (Some (has_image_model (default [] models))) p.
Definition running_failed (p : IPage) : IPage := set_available None p.
(** The answer of /api/image/history, empty when it is refused ([None]). *)
Definition history_fetched (items : option (list HistoryItem)) (p : IPage) : IPage := set_history (default [] items) p.

Definition stopPolling (p : IPage) : IPage :=
  match pollRef p with
  | Some n => p |> set_timers (List.filter (fun x => negb (x.1 =? n)) (timers p)) |> set_pollRef None
  | None => p
  end.
Definition loadHistory (p : IPage) : IPage := ask AskedHistory p.
Definition toast (body : jstr) (error : bool) (p : IPage) : IPage := ask (Toast body error) p.

(** ** A generation *)

Record GenOpts := mkOpts { o_prompt : option jstr; o_batch : option Z; o_format : option ImageFormat; o_size : option ImageSize }.
Definition no_opts : GenOpts := mkOpts None None None None.
Definition set_if {A} (o : option A) (f : A -> IPage -> IPage) (p : IPage) : IPage := match o with Some v => f v p | None => p end.

Definition generate (o : GenOpts) (p : IPage) : IPage :=
  let prompt_ := trim (default (prompt p) (o_prompt o)) in
  let b := Z.max 1 (default (batch p) (o_batch o)) in
  let f := default (format p) (o_format o) in
  let sz := size_spec (default (size p) (o_size o)) in
  match prompt_ with
  | [] => p
  | _ =>
      p |> set_if (o_prompt o) set_prompt |> set_if (o_batch o) (fun _ => set_batch b)
        |> set_if (o_format o) (fun _ => set_format f) |> set_if (o_size o) (fun _ => set_size (z_value sz))
        |> stopPolling |> set_status (u "pending") |> set_promptId None |> set_jobCount b |> set_doneCount 0
        |> set_posts (posts p ++ [b])
        |> ask (Generated (mkRequest prompt_ b f (z_width sz) (z_height sz) (z_outWidth sz) (z_outHeight sz)))
  end.

(** The answer to the [i]-th generation awaited; [None] when the request or the
    reading of its body fails. *)
Record GenAnswer := mkGenAnswer { a_prompt_id : option jstr; a_count : option Z; a_error : option jstr }.
Definition generate_answered (i : nat) (res : option GenAnswer) (p : IPage) : IPage :=
  match posts p !! i with
  | None => p
  | Some b =>
      let p := set_posts (delete i (posts p)) p in
      match res with
      | None => p |> set_status (u "error") |> toast (t (u "Service de génération injoignable.")) true
      | Some a =>
          match a_prompt_id a with
          | Some ((_ :: _) as id) =>
              p |> set_promptId (Some id) |> set_jobCount (default b (a_count a)) |> loadHistory
                |> set_pollRef (Some (next_timer p)) |> set_timers (timers p ++ [(next_timer p, id)])
                |> set_next_timer (S (next_timer p))
          | _ =>
              p |> toast (match a_error a with Some ((_ :: _) as e) => t e | _ => t (u "Échec de la génération.") end) true
                |> set_status (u "error")
          end
      end
  end.

(** An interval fires; then the status it asked for arrives ([None]: refused,
    or it failed). *)
Definition tick (n : nat) (p : IPage) : IPage :=
  match find (fun x => x.1 =? n) (timers p) with
  | Some (_, id) => p |> set_checks (checks p ++ [id]) |> ask (AskedStatus id)
  | None => p
  end.
Record StatusAnswer := mkStatus { s_status : jstr; s_count : option Z; s_done_count : option Z }.
Definition ended (s : jstr) : bool := streq s (u "done") || streq s (u "error").
Definition status_answered (i : nat) (res : option StatusAnswer) (p : IPage) : IPage :=
  match checks p !! i with
  | None => p
  | Some _ =>
      let p := set_checks (delete i (checks p)) p in
      match res with
      | None => p
      | Some st =>
          let p := p |> set_if (s_count st) set_jobCount |> set_if (s_done_count st) set_doneCount in
          if ended (s_status st) then
            let p := p |> stopPolling |> set_status (s_status st) |> loadHistory in
            if streq (s_status st) (u "error") then toast (t (u "La génération a échoué.")) true p else p
          else set_status (s_status st) p
      end
  end.

Definition downloadImage (idx : nat) (p : IPage) : IPage :=
  match promptId p with
  | Some ((_ :: _) as id) =>
      ask (Download (u "/image/file/" ++ id ++ u "/" ++ string_of_nat idx)
             (u "image-" ++ id ++ u "-" ++ string_of_nat (idx + 1) ++ u "." ++ FORMAT_EXT (format p))) p
  | _ => p
  end.

Definition viewHistoryItem (item : HistoryItem) (p : IPage) : IPage :=
  let p := p |> stopPolling |> set_promptId (Some (h_prompt_id item)) |> set_status (h_status item)
             |> set_jobCount (default 1%Z (h_count item))
             |> set_doneCount (match h_done_count item with
                               | Some n => n
                               | None => if streq (h_status item) (u "done") then default 1%Z (h_count item) else 0%Z
                               end) in
  match h_format item with
  | Some f => if streq f (u "png") then set_format Png p
              else if streq f (u "jpeg") then set_format Jpeg p
              else if streq f (u "webp") then set_format Webp p else p
  | None => p
  end.

Definition retryItem (item : HistoryItem) (p : IPage) : IPage :=
  let f := match h_format item with
           | Some f => if streq f (u "jpeg") then Jpeg else if streq f (u "webp") then Webp else Png
           | None => Png
           end in
  generate (mkOpts (Some (h_prompt item)) (Some (default 1%Z (h_count item))) (Some f) None) p.

(** ** Cancellation and gallery *)

Definition cancel (p : IPage) : IPage :=
  match promptId p with
  | Some ((_ :: _) as id) => p |> set_cancelling true |> set_cancels (S (cancels p)) |> ask (AskedCancel id)
  | _ => p
  end.
(** How a request ends: [Some] of [r.ok], or [None] when it rejects. *)
Definition cancel_answered (ok : option bool) (p : IPage) : IPage :=
  match cancels p with
  | O => p
  | S n =>
      let p := set_cancels n p in
      let p := match ok with
               | Some true =>
                   p |> set_status (u "cancelled") |> stopPolling |> loadHistory |> toast (t (u "Génération annulée.")) false
               | _ => toast (t (u "Impossible d'annuler.")) true p
               end in
      set_cancelling false p
  end.

Definition img_key (id : jstr) (idx : nat) : jstr := id ++ u ":" ++ string_of_nat idx.
Definition viewImage (id : jstr) (idx : nat) (p : IPage) : IPage := set_viewer (Some (id, idx)) p.
Definition deleteImage (id : jstr) (idx : nat) (p : IPage) : IPage :=
  p |> set_deletes (deletes p ++ [(id, idx)]) |> ask (AskedDelete id idx).
Definition delete_answered (i : nat) (ok : option bool) (p : IPage) : IPage :=
  match deletes p !! i with
  | None => p
  | Some (id, idx) =>
      let p := set_deletes (delete i (deletes p)) p in
      match ok with
      | Some true =>
          p |> set_deletedImgs (deletedImgs p ++ [img_key id idx]) |> set_viewer None |> toast (t (u "Image supprimée.")) false
      | _ => toast (t (u "Suppression impossible.")) true p
      end
  end.
Definition is_deleted (id : jstr) (idx : nat) (p : IPage) : bool := existsb (streq (img_key id idx)) (deletedImgs p).

(** ** What is shown *)

Definition isBusy (p : IPage) : bool := streq (status p) (u "pending") || streq (status p) (u "running").

(** The page is its skeleton, the empty state, or its content with the form or
    the notice that no model is loaded. *)
Inductive Screen := Skeletons | NoModel | NoModelButHistory | Form.
Definition screen (p : IPage) : Screen :=
  match available p with
  | None => Skeletons
  | Some false => match history p with [] => NoModel | _ => NoModelButHistory end
  | Some true => Form
  end.
Definition can_generate (p : IPage) : bool := negb (streq (trim (prompt p)) []) && negb (isBusy p).
Definition generate_label (p : IPage) : jstr :=
  if (1 <? batch p)%Z then replace_str (t (u "Générer {n} images")) (u "{n}") (string_of_Z (batch p)) else t (u "Générer").
Definition status_label (p : IPage) : jstr :=
  if isBusy p && (1 <? jobCount p)%Z then t (u "En cours") else t (default (status p) (STATUS_LABEL (status p))).

Inductive Tile := Thumb (idx : nat) | Waiting.
(** The grid of a job of several images or under way, the only image, or a
    placeholder. *)
Inductive Gallery := Tiles (l : list Tile) | Single | Placeholder.
Definition gallery (p : IPage) : Gallery :=
  match promptId p with
  | Some ((_ :: _) as id) =>
      if (1 <? jobCount p)%Z || isBusy p then
        Tiles (map (fun idx => if (Z.of_nat idx <? doneCount p)%Z && negb (is_deleted id idx p) then Thumb idx else Waiting)
                 (seq 0 (Z.to_nat (jobCount p))))
      else if streq (status p) (u "done") then Single else Placeholder
  | _ => Placeholder
  end.

(** ** The page as a transition system *)

Inductive IEvent :=
| IPrompt (s : jstr) | IBatch (n : Z) | IFormat (f : ImageFormat) | ISize (s : ImageSize)
| IGenerate | IRetry (item : HistoryItem) | IView (item : HistoryItem)
| IAnswered (i : nat) (res : option GenAnswer) | ITick (n : nat) | IStatus (i : nat) (res : option StatusAnswer)
| ICancel | ICancelled (ok : option bool)
| IViewImage (id : jstr) (idx : nat) | ICloseViewer | IDelete (id : jstr) (idx : nat) | IDeleted (i : nat) (ok : option bool)
| IDownload (idx : nat) | IHistory (items : option (list HistoryItem)) | IRunning (models : option (list RunningModel)) | IRunningFailed | ILeave.

Definition image_handle (e : IEvent) (p : IPage) : IPage :=
  match e with
  | IPrompt s => set_prompt s p
  | IBatch n => set_batch n p
  | IFormat f => set_format f p
  | ISize s => set_size s p
  | IGenerate => generate no_opts p
  | IRetry item => retryItem item p
  | IView item => viewHistoryItem item p
  | IAnswered i res => generate_answered i res p
  | ITick n => tick n p
  | IStatus i res => status_answered i res p
  | ICancel => cancel p
  | ICancelled ok => cancel_answered ok p
  | IViewImage id idx => viewImage id idx p
  | ICloseViewer => set_viewer None p
  | IDelete id idx => deleteImage id idx p
  | IDeleted i ok => delete_answered i ok p
  | IDownload idx => downloadImage idx p
  | IHistory items => history_fetched items p
  | IRunning models => running_fetched models p
  | IRunningFailed => running_failed p
  | ILeave => stopPolling p
  end.
Definition image_run (es : list IEvent) (p : IPage) : IPage := foldl (fun p e => image_handle e p) p es.
End image.

(** * Properties *)

Section spec.
Context (t : jstr -> jstr).
Notation handle := (image_handle t).
Notation run := (image_run t).

Lemma image_run_app a b p : run (a ++ b) p = run b (run a p).
Proof. apply foldl_app. Qed.

(** ** The requests *)

Definition request_ok (r : ImageRequest) : Prop :=
  r_prompt r <> [] /\ r_prompt r = trim (r_prompt r) /\ (1 <= r_count r)%Z /\
  (r_width r mod 8 = 0 /\ r_height r mod 8 = 0 /\ 0 < r_width r <= 1536 /\ 0 < r_height r <= 1536)%Z /\
  (r_out_width r * r_height r = r_out_height r * r_width r)%Z.
Definition effect_ok (e : IEffect) : Prop := match e with Generated r => request_ok r | _ => True end.

Lemma generate_ok o p : Forall effect_ok (asked p) -> Forall effect_ok (asked (generate o p)).
Proof.
  intros H. unfold generate. destruct (trim _) as [|c s] eqn:E; [done|]. cbn [asked ask]. apply Forall_app. split.
  - assert (S : forall q, asked (stopPolling q) = asked q) by (intros q; unfold stopPolling; by destruct (pollRef q)).
    image_fields. rewrite S. destruct o as [[?|] [?|] [?|] [?|]]; exact H.
  - constructor; [|done]. unfold effect_ok, request_ok. cbn [r_prompt r_count r_width r_height r_out_width r_out_height].
    rewrite <- E, trim_idem. split; [by rewrite E|]. split; [done|]. split; [lia|].
    destruct (default (size p) (o_size o)); vm_compute; repeat split; congruence.
Qed.

Lemma stopPolling_asked p : asked (stopPolling p) = asked p.
Proof. unfold stopPolling. by destruct (pollRef p). Qed.
Lemma asked_ask e p : effect_ok e -> Forall effect_ok (asked p) -> Forall effect_ok (asked (ask e p)).
Proof. intros He H. cbn [ask asked]. apply Forall_app. by repeat constructor. Qed.
Hint Resolve asked_ask : core.

Lemma requests_step e p : Forall effect_ok (asked p) -> Forall effect_ok (asked (handle e p)).
Proof.
  intros H. assert (S : forall q, asked q = asked p -> Forall effect_ok (asked (stopPolling q))) by (intros q E; by rewrite stopPolling_asked, E).
  destruct e; cbn [image_handle]; try exact H.
  - by apply generate_ok.
  - by apply generate_ok.
  - unfold viewHistoryItem. assert (V := S p eq_refl). destruct (h_format item); [|exact V]. repeat case_match; exact V.
  - unfold generate_answered, toast, loadHistory. destruct (posts p !! i) as [b|]; [|done]. destruct res as [a|]; [|by apply asked_ask].
    destruct (a_prompt_id a) as [[|c id]|]; [| |]; image_fields; apply Forall_app; by repeat constructor.
  - unfold tick. destruct (find _ _) as [[]|]; [by apply asked_ask|done].
  - unfold status_answered, toast, loadHistory. destruct (checks p !! i); [|done]. destruct res as [st|]; [|exact H].
    set (q := set_if _ _ _). assert (Q : asked q = asked p) by (unfold q; by destruct (s_count st), (s_done_count st)).
    destruct (ended _); [|cbn [set_status asked]; by rewrite Q].
    destruct (streq _ _); repeat apply asked_ask; try done; cbn [set_status asked]; by apply S.
  - unfold cancel. destruct (promptId p) as [[|]|]; try done. by apply asked_ask.
  - unfold cancel_answered, toast, loadHistory. destruct (cancels p) as [|n]; [done|]. destruct ok as [[]|]; cbn [set_cancelling asked];
      repeat apply asked_ask; try done. by apply S.
  - by apply asked_ask.
  - unfold delete_answered, toast. destruct (deletes p !! i) as [[id idx]|]; [|done]. destruct ok as [[]|]; by apply asked_ask.
  - unfold downloadImage. destruct (promptId p) as [[|]|]; try done. by apply asked_ask.
  - by apply S.
Qed.
Lemma requests_run es p : Forall effect_ok (asked p) -> Forall effect_ok (asked (run es p)).
Proof. revert p. induction es as [|e es IH]; intros p H; [done|]. apply IH. by apply requests_step. Qed.

(** ** The intervals *)

(** The live intervals are the one the page can stop. *)
Definition one_timer (p : IPage) : Prop :=
  match pollRef p with
  | Some n => exists id, timers p = [(n, id)] /\ n < next_timer p
  | None => timers p = []
  end.
Definition timers_ok (p : IPage) : Prop := one_timer p /\ length (posts p) <= 1 /\ (posts p <> [] -> pollRef p = None).
(** No generation is asked for while another is awaited. *)
Fixpoint calm (es : list IEvent) (p : IPage) : Prop :=
  match es with
  | [] => True
  | e :: r => (match e with IGenerate | IRetry _ => posts p = [] | _ => True end) /\ calm r (handle e p)
  end.

Lemma stopPolling_stops p : one_timer p -> timers (stopPolling p) = [] /\ pollRef (stopPolling p) = None /\ posts (stopPolling p) = posts p.
Proof.
  unfold one_timer, stopPolling. destruct (pollRef p) as [n|] eqn:E; [|by rewrite E].
  intros (id & H & _). image_fields. rewrite H. cbn [List.filter fst]. by rewrite Nat.eqb_refl.
Qed.
Lemma timers_ok_view p q : timers q = timers p -> pollRef q = pollRef p -> next_timer q = next_timer p -> posts q = posts p -> timers_ok p -> timers_ok q.
Proof. unfold timers_ok, one_timer. by intros -> -> -> ->. Qed.
(** A stopped page, whatever else is changed. *)
Lemma timers_ok_stopped q : timers q = [] -> pollRef q = None -> length (posts q) <= 1 -> timers_ok q.
Proof. unfold timers_ok, one_timer. by intros -> ->. Qed.

Lemma generate_timers o p : posts p = [] -> timers_ok p -> timers_ok (generate o p).
Proof.
  intros Hp HT. pose proof HT as [H _]. unfold generate. destruct (trim _) as [|c s]; [done|].
  set (q := set_if (o_size o) _ _). assert (Q : one_timer q) by (unfold q; destruct o as [[?|] [?|] [?|] [?|]]; exact H).
  destruct (stopPolling_stops q Q) as (S1 & S2 & _). apply timers_ok_stopped; image_fields; rewrite ?Hp; [done|done|cbn; lia].
Qed.

Lemma timers_step e p : (match e with IGenerate | IRetry _ => posts p = [] | _ => True end) -> timers_ok p -> timers_ok (handle e p).
Proof.
  intros C H. pose proof H as (H1 & H2 & H3). destruct (stopPolling_stops p H1) as (S1 & S2 & S3).
  assert (SP : forall q, timers q = [] -> pollRef q = None -> posts q = posts p -> timers_ok q).
  { intros q T P E. apply timers_ok_stopped; [done|done|by rewrite E]. }
  destruct e; cbn [image_handle]; try (by apply (timers_ok_view p)).
  - by apply generate_timers.
  - by apply generate_timers.
  - apply SP; unfold viewHistoryItem; destruct (h_format item); repeat case_match; done.
  - unfold generate_answered. destruct (posts p !! i) as [b|] eqn:E; [|done].
    destruct (posts p) as [|b' [|]] eqn:EP; [done| |cbn in H2; lia]. destruct i as [|i]; [|done]. cbn [delete list_delete].
    assert (T : timers p = []) by (unfold one_timer in H1; by rewrite H3 in H1).
    assert (Q : forall q, timers q = timers p -> pollRef q = pollRef p -> posts q = [] -> timers_ok q).
    { intros q A B D. apply timers_ok_stopped; [by rewrite A|by rewrite B, H3|by rewrite D; cbn; lia]. }
    destruct res as [a|]; [|by apply Q]. destruct (a_prompt_id a) as [[|c id]|]; [by apply Q| |by apply Q].
    unfold timers_ok, one_timer, loadHistory. image_fields. rewrite T. split; [eexists; split; [done|lia]|]. split; [cbn; lia|done].
  - unfold tick. destruct (find _ _) as [[]|]; [by apply (timers_ok_view p)|done].
  - unfold status_answered. destruct (checks p !! i); [|done]. destruct res as [st|]; [|by apply (timers_ok_view p)].
    set (q := set_if _ _ _). assert (Q : timers q = timers p /\ pollRef q = pollRef p /\ next_timer q = next_timer p /\ posts q = posts p)
      by (unfold q; by destruct (s_count st), (s_done_count st)).
    destruct Q as (Q1 & Q2 & Q3 & Q4). destruct (ended _); [|by apply (timers_ok_view p)].
    destruct (stopPolling_stops q) as (R1 & R2 & R3); [unfold one_timer; by rewrite Q1, Q2, Q3|]. rewrite Q4 in R3.
    destruct (streq _ _); by apply SP.
  - unfold cancel. destruct (promptId p) as [[|]|]; try done; by apply (timers_ok_view p).
  - unfold cancel_answered. destruct (cancels p) as [|n]; [done|]. set (q := set_status (u "cancelled") (set_cancels n p)).
    destruct (stopPolling_stops q) as (R1 & R2 & R3); [exact H1|].
    destruct ok as [[]|]; [by apply SP|..]; by apply (timers_ok_view p).
  - unfold delete_answered. destruct (deletes p !! i) as [[id idx]|]; [|done]. destruct ok as [[]|]; by apply (timers_ok_view p).
  - unfold downloadImage. destruct (promptId p) as [[|]|]; try done; by apply (timers_ok_view p).
  - by apply SP.
Qed.
Lemma timers_run es p : calm es p -> timers_ok p -> timers_ok (run es p).
Proof. revert p. induction es as [|e es IH]; intros p [C1 C2] H || intros p _ H; [done|]. apply IH; [done|]. by apply timers_step. Qed.
Lemma ticks_silent_image ns p : timers p = [] -> run (map ITick ns) p = p.
Proof. intros H. induction ns as [|n ns IH]; [done|]. cbn [map image_run foldl image_handle]. unfold tick. by rewrite H. Qed.

(** ** Following a job *)

Definition is_status_of (e : IEffect) : bool := match e with AskedStatus _ => true | _ => false end.
Definition statuses (p : IPage) : list IEffect := List.filter is_status_of (asked p).
Lemma statuses_ask e p : statuses (ask e p) = statuses p ++ (if is_status_of e then [e] else []).
Proof. unfold statuses. cbn [ask asked]. rewrite List.filter_app. cbn [List.filter]. by destruct (is_status_of e). Qed.

(** What may happen meanwhile: all but another generation or job viewed, a
    cancellation that succeeds, and the page left. *)
Definition keeps_job (e : IEvent) : bool :=
  match e with IGenerate | IRetry _ | IView _ | ICancelled (Some true) | ILeave => false | _ => true end.
(** The answers of the status read along a run, and the ticks of an interval. *)
Definition told_by (e : IEvent) (p : IPage) : list StatusAnswer :=
  match e with IStatus i (Some st) => match checks p !! i with Some _ => [st] | None => [] end | _ => [] end.
Fixpoint told (es : list IEvent) (p : IPage) : list StatusAnswer :=
  match es with [] => [] | e :: es => told_by e p ++ told es (handle e p) end.
Definition ticks_of (n : nat) (es : list IEvent) : nat := length (List.filter (fun e => match e with ITick m => m =? n | _ => false end) es).
Definition over (l : list StatusAnswer) : bool := existsb (fun st => ended (s_status st)) l.
Definition counted (l : list StatusAnswer) : Z := foldl (fun d st => default d (s_done_count st)) 0%Z l.

(** The interval [n] follows the job [id] until an answer of [l] ends it. *)
Record tracks (n : nat) (id : jstr) (base : list IEffect) (l : list StatusAnswer) (k : nat) (p : IPage) : Prop := mkTracks {
  tr_timers : timers p = if over l then [] else [(n, id)];
  tr_poll : pollRef p = if over l then None else Some n;
  tr_posts : posts p = [];
  tr_id : promptId p = Some id;
  tr_status : status p = from_option s_status (u "pending") (last l);
  tr_done : doneCount p = counted l;
  tr_asked : over l = false -> statuses p = base ++ repeat (AskedStatus id) k
}.
Definition same_job (p q : IPage) : Prop :=
  (timers q, pollRef q, posts q, promptId q, status q, doneCount q, statuses q) = (timers p, pollRef p, posts p, promptId p, status p, doneCount p, statuses p).
Lemma same_tracks n id base l k p q : same_job p q -> tracks n id base l k p -> tracks n id base l k q.
Proof. intros [= E1 E2 E3 E4 E5 E6 E7] []. split; by rewrite ?E1, ?E2, ?E3, ?E4, ?E5, ?E6, ?E7. Qed.
Lemma same_asked e p q : is_status_of e = false -> same_job p q -> same_job p (ask e q).
Proof. intros H. unfold same_job. rewrite statuses_ask, H, app_nil_r. done. Qed.
Lemma same_job_trans p q r : same_job p q -> same_job q r -> same_job p r.
Proof. unfold same_job. congruence. Qed.
(** Everything but the ticks and the answers of the status leaves the job alone. *)
Lemma other_same e p : keeps_job e = true -> posts p = [] -> match e with ITick _ | IStatus _ _ => True | _ => same_job p (handle e p) end.
Proof.
  intros K P. destruct e; try done; cbn [image_handle].
  - unfold generate_answered. by rewrite P.
  - unfold cancel. destruct (promptId p) as [[|]|]; try done. by apply same_asked.
  - unfold cancel_answered, toast. destruct (cancels p) as [|c]; [done|].
    destruct ok as [[]|]; [done|..]; exact (same_asked (Toast (t (u "Impossible d'annuler.")) true) p (set_cancelling false (set_cancels c p)) eq_refl eq_refl).
  - by apply same_asked.
  - unfold delete_answered, toast. destruct (deletes p !! i) as [[id idx]|]; [|done]. destruct ok as [[]|]; by apply same_asked.
  - unfold downloadImage. destruct (promptId p) as [[|]|]; try done. by apply same_asked.
Qed.
Lemma over_app l r : over (l ++ r) = over l || over r.
Proof. apply existsb_app. Qed.
Lemma tick_tracks n id base l k m p : tracks n id base l k p -> tracks n id base l (k + (if m =? n then 1 else 0)) (tick m p).
Proof.
  intros H. pose proof H as [T P O I S D A]. unfold tick. rewrite T. destruct (over l) eqn:E; cbn [find fst].
  { apply mkTracks; rewrite ?E; try done. }
  rewrite (Nat.eqb_sym n m). destruct (m =? n); [|by rewrite Nat.add_0_r].
  apply mkTracks; rewrite ?E; image_fields; try done. intros _. rewrite statuses_ask. cbn [is_status_of].
  change (statuses (set_checks _ p)) with (statuses p). by rewrite A, repeat_app, app_assoc.
Qed.
Lemma status_ended st p : match pollRef p with Some n => exists id, timers p = [(n, id)] | None => timers p = [] end ->
  let q := p |> stopPolling |> set_status (s_status st) |> loadHistory in
  let q := if streq (s_status st) (u "error") then toast (t (u "La génération a échoué.")) true q else q in
  timers q = [] /\ pollRef q = None /\ posts q = posts p /\ promptId q = promptId p /\ status q = s_status st /\ doneCount q = doneCount p.
Proof.
  intros H. assert (timers (stopPolling p) = [] /\ pollRef (stopPolling p) = None) as [S1 S2].
  { unfold stopPolling. destruct (pollRef p) as [n|] eqn:E; [|done]. destruct H as [id H]. image_fields. rewrite H. cbn [List.filter fst]. by rewrite Nat.eqb_refl. }
  assert (posts (stopPolling p) = posts p /\ promptId (stopPolling p) = promptId p /\ doneCount (stopPolling p) = doneCount p) as (S3 & S4 & S5)
    by (unfold stopPolling; by destruct (pollRef p)).
  cbv zeta. unfold toast, loadHistory. destruct (streq _ _); image_fields; by rewrite S1, S2, S3, S4, S5.
Qed.
Lemma status_tracks n id base l k i res p : tracks n id base l k p -> tracks n id base (l ++ told_by (IStatus i res) p) k (status_answered t i res p).
Proof.
  intros H. unfold status_answered, told_by. destruct (checks p !! i); [|by destruct res; rewrite app_nil_r]. cbv zeta.
  destruct res as [st|]; [|rewrite app_nil_r; by apply (same_tracks _ _ _ _ _ p)].
  destruct H as [T P O I S D A]. set (q := set_if (s_done_count st) set_doneCount _).
  assert (Q : timers q = timers p /\ pollRef q = pollRef p /\ posts q = posts p /\ promptId q = promptId p /\ doneCount q = default (doneCount p) (s_done_count st) /\ statuses q = statuses p)
    by (unfold q; by destruct (s_count st), (s_done_count st)).
  destruct Q as (Q1 & Q2 & Q3 & Q4 & Q5 & Q6).
  assert (OV : over (l ++ [st]) = over l || ended (s_status st)) by (rewrite over_app; unfold over at 2; cbn [existsb]; by rewrite orb_false_r).
  assert (CN : counted (l ++ [st]) = default (counted l) (s_done_count st)) by (unfold counted; by rewrite foldl_app).
  assert (LS : from_option s_status (u "pending") (last (l ++ [st])) = s_status st) by (by rewrite last_snoc).
  destruct (ended (s_status st)) eqn:E.
  - destruct (status_ended st q) as (R1 & R2 & R3 & R4 & R5 & R6). { rewrite Q1, Q2, T, P. destruct (over l); [done|by exists id]. }
    apply mkTracks; rewrite ?OV, ?CN, ?LS, ?orb_true_r; [exact R1|exact R2|congruence|congruence|exact R5|rewrite R6, Q5; by rewrite D|done].
  - rewrite orb_false_r in OV. apply mkTracks; rewrite ?OV, ?CN, ?LS; image_fields; rewrite ?Q1, ?Q2, ?Q3, ?Q4, ?Q5; try done; [by rewrite D|].
    intros X. change (statuses (set_status (s_status st) q)) with (statuses q). by rewrite Q6, A.
Qed.
Lemma handle_tracks n id base l k e p : keeps_job e = true -> tracks n id base l k p ->
  tracks n id base (l ++ told_by e p) (k + ticks_of n [e]) (handle e p).
Proof.
  intros K H. assert (S := other_same e p K (tr_posts _ _ _ _ _ _ H)).
  destruct e; try (cbn [told_by]; rewrite app_nil_r; unfold ticks_of; cbn [List.filter length]; rewrite ?Nat.add_0_r; by apply (same_tracks _ _ _ _ _ p)).
  - cbn [told_by]. rewrite app_nil_r. assert (X := tick_tracks n id base l k n0 p H). unfold ticks_of. cbn [List.filter]. by destruct (n0 =? n).
  - unfold ticks_of. cbn [List.filter length]. rewrite Nat.add_0_r. by apply status_tracks.
Qed.
Lemma run_tracks n id base es l k p : forallb keeps_job es = true -> tracks n id base l k p ->
  tracks n id base (l ++ told es p) (k + ticks_of n es) (run es p).
Proof.
  revert l k p. induction es as [|e es IH]; intros l k p K H; cbn [told]; [by rewrite app_nil_r, Nat.add_0_r|]. cbn [forallb] in K. bool_norm.
  rewrite app_assoc. replace (k + ticks_of n (e :: es)) with (k + ticks_of n [e] + ticks_of n es).
  2:{ unfold ticks_of. cbn [List.filter]. destruct (match e with ITick m => m =? n | _ => false end); cbn [length]; lia. }
  apply IH; [done|]. by apply handle_tracks.
Qed.
(** Once it is over and nothing is awaited, the job is left as it is. *)
Lemma rested e p : keeps_job e = true -> posts p = [] -> timers p = [] -> checks p = [] -> same_job p (handle e p) /\ checks (handle e p) = [].
Proof.
  intros K P T C. assert (S := other_same e p K P). destruct e; try done; split; try exact S; cbn [image_handle]; try done.
  - unfold generate_answered. by rewrite P.
  - unfold tick. by rewrite T.
  - unfold tick. by rewrite T.
  - unfold status_answered. by rewrite C.
  - unfold status_answered. by rewrite C.
  - unfold cancel. by destruct (promptId p) as [[|]|].
  - unfold cancel_answered. destruct (cancels p); [done|]. by destruct ok as [[]|].
  - unfold delete_answered. destruct (deletes p !! i) as [[]|]; [|done]. by destruct ok as [[]|].
  - unfold downloadImage. by destruct (promptId p) as [[|]|].
Qed.
Lemma rests es p : forallb keeps_job es = true -> posts p = [] -> timers p = [] -> checks p = [] -> same_job p (run es p).
Proof.
  revert p. induction es as [|e es IH]; intros p K P T C; [done|]. cbn [forallb] in K. bool_norm.
  destruct (rested e p) as [S C']; try done. apply (same_job_trans _ (handle e p) _ S). injection S as S1 S2 S3 S4 S5 S6 S7. apply IH; congruence.
Qed.

(** ** The images deleted *)

Lemma last_sep_inj (c : N) a b d e : c ∉ d -> c ∉ e -> a ++ c :: d = b ++ c :: e -> a = b /\ d = e.
Proof.
  revert b. induction a as [|x a IH]; intros [|y b] Hd He H; cbn [app] in H.
  - by injection H as ->.
  - exfalso. injection H as -> ->. apply Hd. apply elem_of_app. right. by left.
  - exfalso. injection H as -> <-. apply He. apply elem_of_app. right. by left.
  - injection H as -> H. destruct (IH b Hd He H) as [-> ->]. done.
Qed.
Lemma img_key_inj id idx id' idx' : img_key id idx = img_key id' idx' -> id = id' /\ idx = idx'.
Proof.
  unfold img_key. change (u ":" ++ string_of_nat idx) with (58%N :: string_of_nat idx). change (u ":" ++ string_of_nat idx') with (58%N :: string_of_nat idx').
  assert (D : forall n, 58%N ∉ string_of_nat n).
  { intros n H. pose proof (string_of_nat_digits n) as F. rewrite Forall_forall in F. specialize (F _ H). by vm_compute in F. }
  intros H. apply last_sep_inj in H as [-> H]; try apply D. split; [done|by apply string_of_nat_inj].
Qed.

Lemma is_deleted_app id idx l p : is_deleted id idx (set_deletedImgs (deletedImgs p ++ l) p) = is_deleted id idx p || existsb (streq (img_key id idx)) l.
Proof. unfold is_deleted. image_fields. apply existsb_app. Qed.
Lemma is_deleted_view id idx p q : deletedImgs q = deletedImgs p -> is_deleted id idx q = is_deleted id idx p.
Proof. unfold is_deleted. by intros ->. Qed.

(** A step hides an image only as the confirmed answer to its deletion. *)
Lemma deleted_step id idx e p : is_deleted id idx (handle e p) = true -> is_deleted id idx p = true \/
  exists i, e = IDeleted i (Some true) /\ deletes p !! i = Some (id, idx).
Proof.
  assert (S : forall q, deletedImgs (stopPolling q) = deletedImgs q) by (intros q; unfold stopPolling; by destruct (pollRef q)).
  assert (V : deletedImgs (handle e p) = deletedImgs p -> is_deleted id idx (handle e p) = true -> is_deleted id idx p = true \/
    exists i, e = IDeleted i (Some true) /\ deletes p !! i = Some (id, idx)).
  { intros E H. left. by rewrite <- (is_deleted_view id idx p (handle e p) E). }
  destruct e; cbn [image_handle] in *; try (by apply V); try (apply V; by rewrite S).
  - apply V. unfold generate. destruct (trim _); [done|]. image_fields. rewrite S. done.
  - apply V. unfold retryItem, generate. destruct (trim _); [done|]. image_fields. rewrite S. done.
  - apply V. unfold viewHistoryItem. destruct (h_format item); repeat case_match; image_fields; by rewrite S.
  - apply V. unfold generate_answered. destruct (posts p !! i); [|done]. destruct res as [a|]; [|done]. by destruct (a_prompt_id a) as [[|]|].
  - apply V. unfold tick. by destruct (find _ _) as [[]|].
  - apply V. unfold status_answered. destruct (checks p !! i); [|done]. destruct res as [st|]; [|done]. set (q := set_if _ _ _).
    assert (Q : deletedImgs q = deletedImgs p) by (unfold q; by destruct (s_count st), (s_done_count st)).
    destruct (ended _); [|exact Q]. destruct (streq _ _); unfold toast, loadHistory; image_fields; by rewrite S, Q.
  - apply V. unfold cancel. by destruct (promptId p) as [[|]|].
  - apply V. unfold cancel_answered, toast, loadHistory. destruct (cancels p) as [|n]; [done|]. destruct ok as [[]|]; image_fields; try done. by rewrite S.
  - unfold delete_answered. destruct (deletes p !! i) as [[id' idx']|] eqn:E; [|by left]. destruct ok as [[]|]; [|by left|by left].
    intros H. set (q := set_deletes _ p) in H.
    assert (H' : is_deleted id idx (set_deletedImgs (deletedImgs q ++ [img_key id' idx']) q) = true) by exact H.
    rewrite is_deleted_app in H'. apply orb_true_iff in H' as [H'|H']; [by left|]. right. exists i. split; [done|].
    cbn [existsb] in H'. rewrite orb_false_r in H'. destruct (streq_spec (img_key id idx) (img_key id' idx')) as [K|]; [|done].
    apply img_key_inj in K as [-> ->]. exact E.
  - apply V. unfold downloadImage. by destruct (promptId p) as [[|]|].
Qed.

(** ** Theorems *)

(** Whatever the user does, a request for a generation carries a trimmed
    description that is not empty, at least one image, a native size within the
    model's limits (multiples of 8, at most 1536), and an output size of the
    same proportions. *)
Theorem generation_requests_valid items running es :
  Forall (fun e => match e with
    | Generated r =>
        r_prompt r <> [] /\ r_prompt r = trim (r_prompt r) /\ (1 <= r_count r)%Z /\
        (r_width r mod 8 = 0 /\ r_height r mod 8 = 0 /\ 0 < r_width r <= 1536 /\ 0 < r_height r <= 1536)%Z /\
        (r_out_width r * r_height r = r_out_height r * r_width r)%Z
    | _ => True
    end) (asked (run es (image_start items running))).
Proof. apply (requests_run es). constructor. Qed.

(** When no generation is asked for while another is awaited, at most one
    interval polls, the one the page can stop; and the page left then, with no
    generation awaited, asks for no status any more. *)
Theorem image_polls_once items running es : calm es (image_start items running) ->
  let p := run es (image_start items running) in
  match pollRef p with Some n => exists id, timers p = [(n, id)] | None => timers p = [] end /\
  forall ns, run (map ITick ns) (handle ILeave p) = handle ILeave p.
Proof.
  cbv zeta. intros C. set (p := run es _). assert (H : timers_ok p) by (apply timers_run; [done|]; by repeat split; cbn; lia).
  destruct H as [H _]. split.
  - unfold one_timer in H. destruct (pollRef p); [|done]. destruct H as (id & H & _). by exists id.
  - intros ns. apply ticks_silent_image. by apply stopPolling_stops.
Qed.

(** C23: A generation that is accepted is followed to its end. Whatever happens
    meanwhile (several requests awaited and answered in any order, failures,
    typing, downloads, deletions), as long as no other generation or job is opened,
    none is cancelled and the page is not left, and no answer about a job before is
    awaited: each tick of its interval asks for the status of this job until an
    answer says done or error, which stops the interval; the state and the
    count shown are the last told. Once it is over and nothing else is awaited,
    the state stays as it is. *)
Theorem job_followed_to_end p a id es es' :
  one_timer p -> posts p = [] -> checks p = [] -> trim (prompt p) <> [] -> a_prompt_id a = Some id -> id <> [] ->
  forallb keeps_job es = true -> forallb keeps_job es' = true ->
  let n := next_timer p in let p1 := run [IGenerate; IAnswered 0 (Some a)] p in let q := run es p1 in let l := told es p1 in
  timers q = (if over l then [] else [(n, id)]) /\ promptId q = Some id /\
  status q = from_option s_status (u "pending") (last l) /\ doneCount q = counted l /\
  (over l = false -> statuses q = statuses p ++ repeat (AskedStatus id) (ticks_of n es)) /\
  (over l = true -> checks q = [] -> status (run es' q) = status q /\ statuses (run es' q) = statuses q).
Proof.
  intros T P C HP HA HI K K'. cbv zeta. set (n := next_timer p). set (p1 := run [IGenerate; IAnswered 0 (Some a)] p).
  assert (H1 : tracks n id (statuses p) [] 0 p1).
  { unfold p1, image_run. cbn [foldl image_handle]. unfold generate, no_opts. cbn [o_prompt o_batch o_format o_size set_if].
    change (default (prompt p) None) with (prompt p). destruct (trim (prompt p)) as [|c s]; [done|].
    destruct (stopPolling_stops p T) as (S1 & S2 & S3). assert (next_timer (stopPolling p) = n /\ statuses (stopPolling p) = statuses p) as [S4 S5]
      by (unfold stopPolling, n; by destruct (pollRef p)).
    revert S1 S2 S3 S4 S5. generalize (stopPolling p) as r. intros r S1 S2 S3 S4 S5.
    unfold generate_answered. image_fields. rewrite P. cbn [app lookup list_lookup delete list_delete]. rewrite HA. destruct id as [|c' id']; [done|].
    apply mkTracks; unfold loadHistory; image_fields; rewrite ?S1, ?S4; try done.
    intros _. rewrite app_nil_r, <- S5. unfold statuses. image_fields. rewrite !List.filter_app. cbn [List.filter is_status_of]. by rewrite !app_nil_r. }
  assert (H := run_tracks n id (statuses p) es [] 0 p1 K H1). cbn [app Nat.add] in H. destruct H as [T2 P2 O2 I2 S2 D2 A2].
  do 4 (split; [done|]). split; [exact A2|]. intros OV CK. rewrite OV in T2.
  assert (S := rests es' (run es p1) K' O2 T2 CK). injection S as _ _ _ _ S1 _ S3. done.
Qed.

(** An image is hidden only after the server has confirmed its deletion. *)
Theorem hidden_images_confirmed items running es id idx :
  is_deleted id idx (run es (image_start items running)) = true ->
  exists es1 i es2, es = es1 ++ IDeleted i (Some true) :: es2 /\ deletes (run es1 (image_start items running)) !! i = Some (id, idx).
Proof.
  induction es as [|e es IH] using rev_ind; [done|]. rewrite image_run_app. intros H.
  apply deleted_step in H as [H|(i & -> & H)].
  - destruct (IH H) as (es1 & i & es2 & -> & E). exists es1, i, (es2 ++ [e]). split; [by rewrite <- app_assoc|done].
  - by exists es, i, [].
Qed.
End spec.

#[local] Abbreviation fr := (fun x : jstr => x) (only parsing).
Definition accepted (id : jstr) : option GenAnswer := Some (mkGenAnswer (Some id) None None).
Definition failed_item (prompt : jstr) : HistoryItem := mkItem (u "j0") prompt (u "error") [] None None None.

Theorem image_polls_once_witness :
  let es := [IPrompt (u "a"); IGenerate; IAnswered 0 (accepted (u "j1")); IRetry (failed_item (u "b")); IAnswered 0 (accepted (u "j2"))] in
  calm fr es (image_start None None) /\
  exists id, timers (image_run fr es (image_start None None)) = [(1, id)].
Proof.
  assert (C : calm fr [IPrompt (u "a"); IGenerate; IAnswered 0 (accepted (u "j1")); IRetry (failed_item (u "b")); IAnswered 0 (accepted (u "j2"))]
    (image_start None None)) by (vm_compute; tauto).
  split; [exact C|]. destruct (image_polls_once fr None None _ C) as [H _]. exact H.
Defined.

Theorem job_followed_to_end_witness :
  let p := set_prompt (u "a fox") (image_start None None) in
  let es := [ITick 0; IPrompt (u "b"); ITick 0; IStatus 1 (Some (mkStatus (u "running") (Some 2%Z) (Some 1%Z))); IStatus 0 None; ITick 0;
    IStatus 0 (Some (mkStatus (u "done") None (Some 2%Z)))] in
  let p1 := image_run fr [IGenerate; IAnswered 0 (accepted (u "j1"))] p in
  let q := image_run fr es p1 in
  told fr es p1 = [mkStatus (u "running") (Some 2%Z) (Some 1%Z); mkStatus (u "done") None (Some 2%Z)] /\
  timers q = [] /\ status q = u "done" /\ doneCount q = 2%Z /\ checks q = [] /\ status (image_run fr [ITick 0; IPrompt (u "c")] q) = u "done".
Proof.
  cbv zeta.
  destruct (job_followed_to_end fr (set_prompt (u "a fox") (image_start None None)) (mkGenAnswer (Some (u "j1")) None None) (u "j1")
    [ITick 0; IPrompt (u "b"); ITick 0; IStatus 1 (Some (mkStatus (u "running") (Some 2%Z) (Some 1%Z))); IStatus 0 None; ITick 0;
     IStatus 0 (Some (mkStatus (u "done") None (Some 2%Z)))] [ITick 0; IPrompt (u "c")]) as (H1 & _ & H2 & H3 & _ & H4);
    [reflexivity|reflexivity|reflexivity|vm_compute; discriminate|reflexivity|vm_compute; discriminate|reflexivity|reflexivity|].
  split; [vm_compute; reflexivity|]. split; [exact H1|]. split; [exact H2|].
  split; [exact H3|]. split; [vm_compute; reflexivity|].
  destruct H4 as [H4 _]; [vm_compute; reflexivity|vm_compute; reflexivity|]. exact (eq_trans H4 H2).
Defined.

Theorem hidden_images_confirmed_witness :
  let es := [IDelete (u "j1") 0; IDeleted 0 (Some true)] in
  is_deleted (u "j1") 0 (image_run fr es (image_start None None)) = true /\
  exists es1 i es2, es = es1 ++ IDeleted i (Some true) :: es2 /\ deletes (image_run fr es1 (image_start None None)) !! i = Some (u "j1", 0).
Proof.
  cbv zeta. assert (H : is_deleted (u "j1") 0 (image_run fr [IDelete (u "j1") 0; IDeleted 0 (Some true)] (image_start None None)) = true)
    by (vm_compute; reflexivity).
  split; [exact H|]. exact (hidden_images_confirmed fr None None _ (u "j1") 0 H).
Defined.

(** ** What the page does not handle *)

(** Two generations awaited together (a retry of the history is possible while
    the first is sent) leave an interval nobody stops: it polls the first job
    after its end, and after the page is left. *)
Lemma overlapping_generations_orphan :
  let p := image_run fr [IPrompt (u "a"); IGenerate; IRetry (failed_item (u "b")); IAnswered 0 (accepted (u "j1")); IAnswered 0 (accepted (u "j2"));
    ITick 0; IStatus 0 (Some (mkStatus (u "done") None None)); ILeave] (image_start None None) in
  timers p = [(0, u "j1")] /\ statuses (image_run fr [ITick 0] p) = [AskedStatus (u "j1"); AskedStatus (u "j1")].
Proof. vm_compute. split; reflexivity. Qed.

(** An answer asked before the end and read after it puts a finished job back to
    work, with nothing that asks any more. *)
Lemma late_status_reopens :
  let p := image_run fr [IPrompt (u "a"); IGenerate; IAnswered 0 (accepted (u "j1")); ITick 0; ITick 0;
    IStatus 1 (Some (mkStatus (u "done") None (Some 1%Z))); IStatus 0 (Some (mkStatus (u "running") None (Some 0%Z)))] (image_start None None) in
  timers p = [] /\ checks p = [] /\ status p = u "running" /\ isBusy p = true /\ can_generate p = false.
Proof. vm_compute. repeat split. Qed.

(** The end of the previous job, when it arrives late, stops the polling of the
    new one, which is shown as done. *)
Lemma late_image_status_taken_for_new_job :
  let p := image_run fr [IPrompt (u "a"); IGenerate; IAnswered 0 (accepted (u "j1")); ITick 0; IRetry (failed_item (u "b"));
    IAnswered 0 (accepted (u "j2")); IStatus 0 (Some (mkStatus (u "done") (Some 1%Z) (Some 1%Z)))] (image_start None None) in
  timers p = [] /\ promptId p = Some (u "j2") /\ gallery p = Single.
Proof. vm_compute. repeat split. Qed.

(** The only image of a job is still displayed once deleted. *)
Lemma only_image_stays_after_deletion :
  let p := image_run fr [IView (mkItem (u "j1") (u "a") (u "done") [] (Some 1%Z) None None); IDelete (u "j1") 0; IDeleted 0 (Some true)] (image_start None None) in
  is_deleted (u "j1") 0 p = true /\ gallery p = Single.
Proof. vm_compute. split; reflexivity. Qed.

(** A download takes the extension of the format chosen for the next
    generation. *)
Lemma extension_of_next_format :
  asked (image_run fr [IPrompt (u "a"); IGenerate; IAnswered 0 (accepted (u "j1")); IFormat Jpeg; IDownload 0] (image_start None None))
  = [Generated (mkRequest (u "a") 1 Png 1024 1024 0 0); AskedHistory; Download (u "/image/file/j1/0") (u "image-j1-1.jpg")].
Proof. vm_compute. reflexivity. Qed.
