(* ===== verification/VideoPage.v ===== *)
(** * The video page (app/(app)/video/VideoPage.tsx)

    The sibling of the image page (ImagePage.v): a generation, the interval that
    polls its status, the history, the cancellation.  Here the previous interval
    is stopped when the new one is armed.  The reference image is known by its
    name; [posts] counts the generations awaited, [checks] holds the jobs whose
    status is awaited.  The dictation is left out. *)

From S2P Require Import Prelude JsString.
Local Open Scope flow_scope.

Record HistoryItem := mkItem { h_prompt_id : jstr; h_prompt : jstr; h_status : jstr; h_created_at : jstr }.
Record RunningModel := mkModel { m_name : jstr; m_kind : jstr; m_exposed : bool }.
Definition DURATIONS : list jstr := [u "3"; u "5"; u "8"; u "10"; u "15"].

Definition STATUS_LABEL (s : jstr) : option jstr :=
  if streq s (u "pending") then Some (u "En file d'attente…")
  else if streq s (u "running") then Some (u "Génération en cours…")
  else if streq s (u "done") then Some (u "Vidéo prête.")
  else if streq s (u "error") then Some (u "Échec de la génération.")
  else if streq s (u "cancelled") then Some (u "Génération annulée.")
  else None.
Definition STATUS_SHORT (s : jstr) : option jstr :=
  if streq s (u "pending") then Some (u "En attente")
  else if streq s (u "running") then Some (u "En cours")
  else if streq s (u "done") then Some (u "Terminé")
  else if streq s (u "error") then Some (u "Erreur")
  else if streq s (u "cancelled") then Some (u "Annulé")
  else None.

(** What the page asks and shows, in order. *)
Inductive VEffect :=
| Generated (prompt duration : jstr) (image : option jstr) | AskedStatus (id : jstr) | AskedHistory
| AskedCancel (id : jstr) | Toast (body : jstr) (error : bool).

Record VPage := mkVPage {
  image : option jstr; prompt : jstr; duration : jstr; status : jstr; promptId : option jstr;
  history : list HistoryItem; available : option bool; videoName : option jstr; cancelling : bool;
  pollRef : option nat; timers : list (nat * jstr); next_timer : nat; posts : nat; checks : list jstr;
  cancels : nat; asked : list VEffect
}.

Definition set_image v p := mkVPage v (prompt p) (duration p) (status p) (promptId p) (history p) (available p) (videoName p) (cancelling p) (pollRef p) (timers p) (next_timer p) (posts p) (checks p) (cancels p) (asked p).
Definition set_prompt v p := mkVPage (image p) v (duration p) (status p) (promptId p) (history p) (available p) (videoName p) (cancelling p) (pollRef p) (timers p) (next_timer p) (posts p) (checks p) (cancels p) (asked p).
Definition set_duration v p := mkVPage (image p) (prompt p) v (status p) (promptId p) (history p) (available p) (videoName p) (cancelling p) (pollRef p) (timers p) (next_timer p) (posts p) (checks p) (cancels p) (asked p).
Definition set_status v p := mkVPage (image p) (prompt p) (duration p) v (promptId p) (history p) (available p) (videoName p) (cancelling p) (pollRef p) (timers p) (next_timer p) (posts p) (checks p) (cancels p) (asked p).
Definition set_promptId v p := mkVPage (image p) (prompt p) (duration p) (status p) v (history p) (available p) (videoName p) (cancelling p) (pollRef p) (timers p) (next_timer p) (posts p) (checks p) (cancels p) (asked p).
Definition set_history v p := mkVPage (image p) (prompt p) (duration p) (status p) (promptId p) v (available p) (videoName p) (cancelling p) (pollRef p) (timers p) (next_timer p) (posts p) (checks p) (cancels p) (asked p).
Definition set_available v p := mkVPage (image p) (prompt p) (duration p) (status p) (promptId p) (history p) v (videoName p) (cancelling p) (pollRef p) (timers p) (next_timer p) (posts p) (checks p) (cancels p) (asked p).
Definition set_videoName v p := mkVPage (image p) (prompt p) (duration p) (status p) (promptId p) (history p) (available p) v (cancelling p) (pollRef p) (timers p) (next_timer p) (posts p) (checks p) (cancels p) (asked p).
Definition set_cancelling v p := mkVPage (image p) (prompt p) (duration p) (status p) (promptId p) (history p) (available p) (videoName p) v (pollRef p) (timers p) (next_timer p) (posts p) (checks p) (cancels p) (asked p).
Definition set_pollRef v p := mkVPage (image p) (prompt p) (duration p) (status p) (promptId p) (history p) (available p) (videoName p) (cancelling p) v (timers p) (next_timer p) (posts p) (checks p) (cancels p) (asked p).
Definition set_timers v p := mkVPage (image p) (prompt p) (duration p) (status p) (promptId p) (history p) (available p) (videoName p) (cancelling p) (pollRef p) v (next_timer p) (posts p) (checks p) (cancels p) (asked p).
Definition set_next_timer v p := mkVPage (image p) (prompt p) (duration p) (status p) (promptId p) (history p) (available p) (videoName p) (cancelling p) (pollRef p) (timers p) v (posts p) (checks p) (cancels p) (asked p).
Definition set_posts v p := mkVPage (image p) (prompt p) (duration p) (status p) (promptId p) (history p) (available p) (videoName p) (cancelling p) (pollRef p) (timers p) (next_timer p) v (checks p) (cancels p) (asked p).
Definition set_checks v p := mkVPage (image p) (prompt p) (duration p) (status p) (promptId p) (history p) (available p) (videoName p) (cancelling p) (pollRef p) (timers p) (next_timer p) (posts p) v (cancels p) (asked p).
Definition set_cancels v p := mkVPage (image p) (prompt p) (duration p) (status p) (promptId p) (history p) (available p) (videoName p) (cancelling p) (pollRef p) (timers p) (next_timer p) (posts p) (checks p) v (asked p).
Definition ask (e : VEffect) p := mkVPage (image p) (prompt p) (duration p) (status p) (promptId p) (history p) (available p) (videoName p) (cancelling p) (pollRef p) (timers p) (next_timer p) (posts p) (checks p) (cancels p) (asked p ++ [e]).

(** Reading a field through the updates. *)
Ltac video_fields :=
  cbn [image prompt duration status promptId history available videoName cancelling pollRef timers next_timer posts checks cancels asked
       set_image set_prompt set_duration set_status set_promptId set_history set_available set_videoName set_cancelling set_pollRef set_timers set_next_timer set_posts set_checks set_cancels ask] in *.

Section video.
Context (t : jstr -> jstr).

Definition video_model (models : list RunningModel) : option RunningModel := find (fun m => streq (m_kind m) (u "video")) models.
Definition video_start (items : option (list HistoryItem)) (running : option (list RunningModel)) : VPage :=
  let videoInitial := running ≫= video_model in
  mkVPage None [] (u "5") (u "idle") None (default [] items)
    (match running with Some _ => Some (match videoInitial with Some _ => true | None => false end) | None => None end)
    (m_name <$> videoInitial) false None [] 0 0 [] 0 [].
(** The answer of /api/running-models; a refused one ([None]) has no model. *)
Definition running_fetched (models : option (list RunningModel)) (p : VPage) : VPage :=
  let model := models ≫= video_model in
  p |> set_available (Some (match model with Some _ => true | None => false end)) |> set_videoName (m_name <$> model).
Definition running_failed (p : VPage) : VPage := set_available None p.

Definition stopPolling (p : VPage) : VPage :=
  match pollRef p with
  | Some n => p |> set_timers (List.filter (fun x => negb (x.1 =? n)) (timers p)) |> set_pollRef None
  | None => p
  end.
Definition loadHistory (p : VPage) : VPage := ask AskedHistory p.
Definition toast (body : jstr) (error : bool) (p : VPage) : VPage := ask (Toast body error) p.

(** [o] is the prompt of an item tried again. *)
Definition generate (o : option jstr) (p : VPage) : VPage :=
  match trim (default (prompt p) o) with
  | [] => p
  | prompt_ =>
      let p := match o with Some s => set_prompt s p | None => p end in
      p |> set_status (u "pending") |> set_promptId None |> set_posts (S (posts p))
        |> ask (Generated prompt_ (duration p) (image p))
  end.

Record GenAnswer := mkGenAnswer { a_prompt_id : option jstr; a_error : option jstr }.
(** One of the generations awaited is answered; [None] when the request or the
    reading of its body fails. *)
Definition generate_answered (res : option GenAnswer) (p : VPage) : VPage :=
  match posts p with
  | O => p
  | S n =>
      let p := set_posts n p in
      match res with
      | None => p |> set_status (u "error") |> toast (t (u "ComfyUI injoignable.")) true
      | Some a =>
          match a_prompt_id a with
          | Some ((_ :: _) as id) =>
              let p := p |> set_promptId (Some id) |> loadHistory |> stopPolling in
              p |> set_pollRef (Some (next_timer p)) |> set_timers (timers p ++ [(next_timer p, id)])
                |> set_next_timer (S (next_timer p))
          | _ =>
              p |> toast (match a_error a with Some ((_ :: _) as e) => t e | _ => t (u "Échec de la génération.") end) true
                |> set_status (u "error")
          end
      end
  end.

Definition tick (n : nat) (p : VPage) : VPage :=
  match find (fun x => x.1 =? n) (timers p) with
  | Some (_, id) => p |> set_checks (checks p ++ [id]) |> ask (AskedStatus id)
  | None => p
  end.
Definition ended (s : jstr) : bool := streq s (u "done") || streq s (u "error").
(** The [i]-th status awaited arrives; [None] when it is refused or fails. *)
Definition status_answered (i : nat) (res : option jstr) (p : VPage) : VPage :=
  match checks p !! i with
  | None => p
  | Some _ =>
      let p := set_checks (delete i (checks p)) p in
      match res with
      | None => p
      | Some st =>
          if ended st then
            let p := p |> stopPolling |> set_status st |> loadHistory in
            if streq st (u "error") then toast (t (u "La génération a échoué.")) true p else p
          else set_status st p
      end
  end.

Definition viewHistoryItem (item : HistoryItem) (p : VPage) : VPage :=
  p |> stopPolling |> set_promptId (Some (h_prompt_id item)) |> set_status (h_status item).
Definition retryItem (item : HistoryItem) (p : VPage) : VPage := generate (Some (h_prompt item)) p.

Definition cancel (p : VPage) : VPage :=
  match promptId p with
  | Some ((_ :: _) as id) => p |> set_cancelling true |> set_cancels (S (cancels p)) |> ask (AskedCancel id)
  | _ => p
  end.
Definition cancel_answered (ok : option bool) (p : VPage) : VPage :=
  match cancels p with
  | O => p
  | S n =>
      let p := set_cancels n p in
      let p := match ok with
               | Some true =>
                   p |> set_status (u "cancelled") |> stopPolling |> loadHistory |> toast (t (u "Génération annulée.")) false
               | _ => toast (t (u "Impossible d'annuler.")) true p
               end in
      set_cancelling false p
  end.

(** ** What is shown *)

Definition isBusy (p : VPage) : bool := streq (status p) (u "pending") || streq (status p) (u "running").
Inductive Screen := Skeletons | NoModel | NoModelButHistory | Form.
Definition screen (p : VPage) : Screen :=
  match available p with
  | None => Skeletons
  | Some false => match history p with [] => NoModel | _ => NoModelButHistory end
  | Some true => Form
  end.
Definition video_title (p : VPage) : jstr :=
  match videoName p with
  | Some ((_ :: _) as n) => t (u "Génération vidéo") ++ u " — " ++ n
  | _ => t (u "Génération vidéo")
  end.
Definition can_generate (p : VPage) : bool := negb (streq (trim (prompt p)) []) && negb (isBusy p).
Definition status_label (p : VPage) : jstr := t (default (status p) (STATUS_LABEL (status p))).
(** The placeholder while busy, then the video. *)
Inductive Result := NoResult | Waiting | Video (src : jstr).
Definition result (p : VPage) : Result :=
  if isBusy p then Waiting
  else match promptId p with
       | Some ((_ :: _) as id) => if streq (status p) (u "done") then Video (u "/video/file/" ++ id) else NoResult
       | _ => NoResult
       end.

(** ** The page as a transition system *)

Inductive VEvent :=
| VPrompt (s : jstr) | VDuration (d : jstr) | VImage (f : option jstr)
| VGenerate | VRetry (item : HistoryItem) | VView (item : HistoryItem)
| VAnswered (res : option GenAnswer) | VTick (n : nat) | VStatus (i : nat) (res : option jstr)
| VCancel | VCancelled (ok : option bool)
| VHistory (items : list HistoryItem) | VRunning (models : option (list RunningModel)) | VRunningFailed | VLeave.

Definition video_handle (e : VEvent) (p : VPage) : VPage :=
  match e with
  | VPrompt s => set_prompt s p
  | VDuration d => set_duration d p
  | VImage f => set_image f p
  | VGenerate => generate None p
  | VRetry item => retryItem item p
  | VView item => viewHistoryItem item p
  | VAnswered res => generate_answered res p
  | VTick n => tick n p
  | VStatus i res => status_answered i res p
  | VCancel => cancel p
  | VCancelled ok => cancel_answered ok p
  | VHistory items => set_history items p
  | VRunning models => running_fetched models p
  | VRunningFailed => running_failed p
  | VLeave => stopPolling p
  end.
Definition video_run (es : list VEvent) (p : VPage) : VPage := foldl (fun p e => video_handle e p) p es.

(** ** Properties *)

(** At most one interval lives, the one [pollRef] names; it asks about a job
    the server gave. *)
Definition one_interval (p : VPage) : Prop :=
  match pollRef p with
  | Some n => exists id, timers p = [(n, id)] /\ n < next_timer p
  | None => timers p = []
  end.

Lemma stopPolling_ok p : one_interval p -> one_interval (stopPolling p) /\ timers (stopPolling p) = [] /\ pollRef (stopPolling p) = None.
Proof.
  unfold one_interval, stopPolling. destruct (pollRef p) as [n|] eqn:E; [|rewrite E; auto].
  intros (id & H & _). video_fields. rewrite H. cbn [List.filter fst]. by rewrite Nat.eqb_refl.
Qed.
Lemma one_interval_view p q : timers q = timers p -> pollRef q = pollRef p -> next_timer q = next_timer p -> one_interval p -> one_interval q.
Proof. unfold one_interval. by intros -> -> ->. Qed.

Lemma one_interval_step e p : one_interval p -> one_interval (video_handle e p).
Proof.
  intros H. destruct (stopPolling_ok p H) as (S1 & S2 & S3).
  destruct e; cbn [video_handle]; try (by apply (one_interval_view p)); try (exact S1).
  - unfold generate. destruct (trim _); [done|by apply (one_interval_view p)].
  - unfold retryItem, generate. destruct (trim _); [done|by apply (one_interval_view p)].
  - unfold generate_answered. destruct (posts p) as [|n]; [done|]. destruct res as [a|]; [|by apply (one_interval_view p)].
    destruct (a_prompt_id a) as [[|c id]|]; [by apply (one_interval_view p)| |by apply (one_interval_view p)].
    set (q := stopPolling _). assert (Q : timers q = []) by (apply stopPolling_ok; by apply (one_interval_view p)).
    unfold one_interval. video_fields. rewrite Q. eexists. split; [done|lia].
  - unfold tick. destruct (find _ _) as [[]|]; [by apply (one_interval_view p)|done].
  - unfold status_answered. destruct (checks p !! i); [|done]. destruct res as [st|]; [|by apply (one_interval_view p)].
    set (q := set_checks _ p). assert (Q : one_interval q) by (by apply (one_interval_view p)).
    apply stopPolling_ok in Q as [Q _]. destruct (ended st); [|by apply (one_interval_view p)].
    destruct (streq st _); by apply (one_interval_view (stopPolling q)).
  - unfold cancel. destruct (promptId p) as [[|]|]; try done; by apply (one_interval_view p).
  - unfold cancel_answered. destruct (cancels p) as [|n]; [done|]. set (q := set_status (u "cancelled") (set_cancels n p)).
    assert (Q : one_interval q) by (by apply (one_interval_view p)). apply stopPolling_ok in Q as [Q _].
    destruct ok as [[]|]; [by apply (one_interval_view (stopPolling q))|..]; by apply (one_interval_view p).
Qed.

Lemma one_interval_run es p : one_interval p -> one_interval (video_run es p).
Proof. revert p. induction es as [|e es IH]; intros p H; [done|]. apply IH. by apply one_interval_step. Qed.
Lemma one_interval_start items running : one_interval (video_start items running).
Proof. done. Qed.

Lemma video_run_app a b p : video_run (a ++ b) p = video_run b (video_run a p).
Proof. apply foldl_app. Qed.
Lemma ticks_silent ns p : timers p = [] -> video_run (map VTick ns) p = p.
Proof. intros H. induction ns as [|n ns IH]; [done|]. cbn [map video_run foldl video_handle]. unfold tick. by rewrite H. Qed.

(** Whatever the user and the server do, at most one interval polls, the one
    the page can stop; once the page is left, no status is asked any more,
    unless a generation was still awaited. *)
Theorem video_polls_once items running es :
  let p := video_run es (video_start items running) in
  match pollRef p with Some n => exists id, timers p = [(n, id)] | None => timers p = [] end /\
  (posts p = 0 -> forall ns res, asked (video_run (map VTick ns ++ [VAnswered res]) (video_handle VLeave p)) = asked p).
Proof.
  cbv zeta. set (p := video_run es _). assert (H : one_interval p) by apply one_interval_run, one_interval_start. split.
  - unfold one_interval in H. destruct (pollRef p); [|done]. destruct H as (id & H & _). by exists id.
  - intros Hp ns res. destruct (stopPolling_ok p H) as (_ & S & _). rewrite video_run_app.
    cbn [video_handle]. rewrite ticks_silent by done. cbn [video_run foldl video_handle]. unfold generate_answered.
    unfold stopPolling in *. destruct (pollRef p); video_fields; by rewrite Hp.
Qed.
End video.

#[local] Abbreviation fr := (fun x : jstr => x) (only parsing).

(** The answer of a generation arms an interval even after the page is left. *)
Lemma armed_after_leaving :
  timers (video_run fr [VPrompt (u "a"); VGenerate; VLeave; VAnswered (Some (mkGenAnswer (Some (u "j1")) None))] (video_start None None))
  = [(0, u "j1")].
Proof. vm_compute. reflexivity. Qed.

(** The end of the previous job, when it arrives late, ends the polling of the
    new one and shows its video before it exists. *)
Lemma late_status_taken_for_new_job :
  let p := video_run fr
    [VPrompt (u "a"); VGenerate; VAnswered (Some (mkGenAnswer (Some (u "j1")) None)); VTick 0;
     VRetry (mkItem (u "j0") (u "b") (u "error") []); VAnswered (Some (mkGenAnswer (Some (u "j2")) None));
     VStatus 0 (Some (u "done"))] (video_start None None) in
  timers p = [] /\ result p = Video (u "/video/file/j2").
Proof. vm_compute. split; reflexivity. Qed.
