(* ===== verification/Turn.v ===== *)
(** * One turn of the playground (runStream of app/(app)/playground/PlaygroundPage.tsx)

    What a turn asks of the model, what it makes of the deltas that come back,
    and the message it leaves.  The page around it is in [Playground]. *)

From S2P Require Import JsJson JsRegExp Parsers Thread Api Messages Export Skills.

(** ** Instructions of the system prompt *)

Definition ASK_INSTRUCTION : jstr := hash (u "When you need the user to clarify things before you can answer well, ask your questions as a single fenced block. Output it exactly like this:
```ask
{#questions#: [{#question#: #<question 1>#, #options#: [#<option>#, #<option>#]}, {#question#: #<question 2>#, #options#: [#<option>#, #<option>#, #<option>#]}]}
```
Strict rules:
- Before the block you MAY write ONE short introductory sentence (e.g. #Bien sûr ! Quelques précisions pour bien t'aider :#). Do NOT write the questions or their options as normal text anywhere — they go INSIDE the block ONLY.
- Ask as many questions as are genuinely useful — two if two are enough, more if the request really needs it. Do not pad to reach a number, and do not drop a question that matters. Each question gets 2 to 6 short options in the user's language. Ask everything you need in this one block (the user answers them all at once).
- Do NOT add an #Other# option (the interface adds one).
- The user can pick SEVERAL options for the same question, so write options that can be combined rather than mutually exclusive ones whenever that makes sense. Their answer may come back as #A + B#.
- Ask AT MOST ONCE. As soon as the user has answered, you MUST give your real, complete answer using their choices — NEVER reply with another ask block once they have answered.
- The fence language MUST be `ask` — never `json` or anything else, or the user will not see clickable questions.
- Only ask when it genuinely helps; otherwise just answer normally.").
Definition NAME_INSTRUCTION : jstr := hash (u "Name every file you output: put its path in backticks on the line just before the code block (`index.html`, `roles/web/tasks/main.yml`), chosen from what the user asked. Reuse the exact same name for a file you already produced.").
Definition REWRITE_INSTRUCTION : jstr := hash (u "When the user asks you to fix or change a file you already produced: if file-editing tools (str_replace, view_file) are available, use them and do not print the file again. Otherwise, output that file COMPLETE, from its first line to its last, under the exact same name — never a partial file, an excerpt, a diff, or a #rest unchanged# placeholder.").
Definition COMPLETENESS_INSTRUCTION : jstr := hash (u "Never abridge a file you were asked to produce. Never write that a file is #too long to show here#, never say you are giving a #shortened#, #simplified# or #essential# version, and never replace any part of a file with an ellipsis, a placeholder, or a comment such as #rest of the code unchanged#. There is no display limit: write the file in full, from its first line to its last. If you run out of room before the end, stop mid-file rather than closing it early — you will be asked to continue, and you will resume at the exact character where you stopped. A truncated file presented as complete is the worst possible answer.").
Definition VOICE_INSTRUCTION : jstr := hash (u "Your reply will be read by a text-to-speech engine, and the user's messages come from speech recognition. In conversation, answer in one to three short sentences. When the user asks for something long — a story, a guide, an explanation, a plan, chapters — do it now, in this reply. Never announce what you are about to do, never say you will write it in a later message (there is none unless the user speaks), and never ask permission to start when the request is clear. Speak long content in parts of about 150 words: give the first part, then ask in a few words whether to go on; when the user agrees, continue exactly where you stopped. Write as people speak: plain sentences, with no markdown, lists, headings, tables, emoji, code or URLs; say a list as sentences (#first…, then…#). You cannot create files such as a PDF here: say so in a few words and speak the content instead. Speech recognition makes mistakes: a message that looks garbled or comes out in another language is a recognition error — answer what the user most likely meant, and always in the language the conversation is held in.").
Definition VOICE_NUDGE : jstr := [LF; LF] ++ u "[Reply to this message out loud: at least one short sentence.]".
Definition RESUME_INSTRUCTION : jstr := hash (u "Your previous reply was cut off in the middle of a file. Output ONLY the missing remainder of that file, starting at the exact character where you stopped. Do not repeat anything already written, do not re-introduce, do not summarise, and do not use an edit block — just continue the raw content until the file is complete.").
Definition FULL_PROMPT : jstr :=
  u "Tu viens d'abreger ce fichier alors que je l'ai demande complet. "
  ++ u "Reecris-le en ENTIER, de la premiere a la derniere ligne, sans aucune coupure, "
  ++ u "sans resume et sans « reste inchange ». Il n'y a aucune limite d'affichage.".

Definition MAX_IMAGES_PER_REQUEST : N := 8.

(** ** What is asked *)

Record Override := mkOverride { o_reasoning : option bool; o_voice : bool; o_retried : bool }.
Definition no_override : Override := mkOverride None false false.

Record Request := mkRequest {
  q_model : jstr; q_messages : list ChatMsg; q_settings : Settings; q_files : list EditedFile; q_skill : option jstr
}.

(** [Math.min] on the exact decimals of two numbers. *)
Definition js_min (a b : json) : json :=
  match a, b with
  | JNum m e, JNum m' e' =>
      if (m * 10 ^ Z.max 0 (e - e') <=? m' * 10 ^ Z.max 0 (e' - e))%Z then a else b
  | _, _ => a
  end.

Definition BLANK_LINE : jstr := [LF; LF].
Definition nonempty (s : jstr) : bool := negb (streq s []).

Section turn.
Context (t : jstr -> jstr).

(** [filesUntil(nextMessages, nextMessages.length - 1, t)] *)
Definition thread_files (msgs : list ChatMsg) : Files := filesUntil t msgs (Z.of_nat (length msgs) - 1).

Definition system_prompt (base : jstr) (nextMessages : list ChatMsg) (voice : bool) : jstr :=
  let last := last nextMessages in
  let alreadyAsked := match last with Some m => hidden m | None => false end in
  join BLANK_LINE (List.filter nonempty
    (if voice then [trim base; VOICE_INSTRUCTION]
     else if isResume last then [trim base; RESUME_INSTRUCTION]
     else [trim base;
           if alreadyAsked then [] else ASK_INSTRUCTION;
           NAME_INSTRUCTION;
           match thread_files nextMessages with [] => [] | _ => REWRITE_INSTRUCTION end;
           COMPLETENESS_INSTRUCTION])).

Definition ask_settings (s : Settings) (ceiling : option json) (nextMessages : list ChatMsg) (o : Override) : Settings :=
  mkSettings (system_prompt (system s) nextMessages (o_voice o)) (temperature s)
    (match ceiling with Some c => if truthy c then js_min (maxTokens s) c else maxTokens s | None => maxTokens s end)
    (topP s)
    (match o_reasoning o with Some true => RTrue | Some false => RFalse | None => reasoning_ s end)
    (reasoningEffort s).

(** The role, the text and the images of each message; the retry of a spoken
    turn adds a nudge to the last message. *)
Fixpoint sent_messages (retried : bool) (msgs : list ChatMsg) : list ChatMsg :=
  match msgs with
  | [] => []
  | m :: r =>
      let text := if retried && bool_decide (r = []) && bool_decide (role m = User)
                  then content m ++ VOICE_NUDGE else content m in
      mkMsg (role m) text false false false false None (images m) [] None :: sent_messages retried r
  end.

Definition request (model : jstr) (s : Settings) (ceiling : option json) (skill : option jstr)
    (nextMessages : list ChatMsg) (o : Override) : Request :=
  mkRequest model
    (sent_messages (o_retried o) (recentImages nextMessages (Some MAX_IMAGES_PER_REQUEST) None))
    (ask_settings s ceiling nextMessages o)
    (if o_voice o then [] else map (fun kf => mkEdited kf.1 (fs_content kf.2)) (thread_files nextMessages))
    skill.

(** ** What comes back *)

(** The type [StreamDelta] of lib/api.ts, one field at a time as [streamChat]
    sends it. *)
Inductive StreamDelta :=
| DUsage (v : json)
| DTruncated
| DNotice (n : DgxNotice)
| DQueue (v : json)
| DFile (f : EditedFile)
| DWebStep (e : WebStep)
| DReasoning (c : jstr)
| DContent (c : jstr).

(** The variables of the turn's closure that the deltas change. *)
Record Acc := mkAcc {
  acc : jstr; reason : jstr; rawContent : jstr; inlineThought : jstr; beforeContent : option jstr;
  usage : option json; cut : bool; edits : list EditedFile; loopHit : bool; received : nat
}.
Definition acc_start : Acc := mkAcc [] [] [] [] None None false [] false 0.

Definition allReasoning (a : Acc) : jstr := join BLANK_LINE (List.filter nonempty [reason a; inlineThought a]).

Definition is_done (s : option Step) : bool :=
  match s with
  | Some (search_done | reading_done | generation_done | generation_video_done) => true
  | _ => false
  end.
(** The finished step takes the place of its announcement; six are shown. *)
Definition add_step (steps : list WebStep) (e : WebStep) : list WebStep :=
  let base := if is_done (step e) then removelast steps else steps in
  let all := base ++ [e] in drop (length all - 6) all.

Fixpoint put_edit (f : EditedFile) (l : list EditedFile) : list EditedFile :=
  match l with
  | [] => [f]
  | g :: r => if streq (ef_name g) (ef_name f) then f :: r else g :: put_edit f r
  end.

Definition notice_delta (n : DgxNotice) (a : Acc) : Acc :=
  mkAcc (acc a ++ (if nonempty (acc a) then BLANK_LINE else []) ++ noticeText t n)
    (reason a) (rawContent a) (inlineThought a) (beforeContent a) (usage a) (cut a) (edits a) (loopHit a) (received a).
Definition reasoning_delta (c : jstr) (a : Acc) : Acc :=
  mkAcc (acc a) (reason a ++ c) (rawContent a) (inlineThought a) (beforeContent a) (usage a) (cut a) (edits a)
    (loopHit a) (received a + length c).
Definition content_delta (c : jstr) (a : Acc) : Acc :=
  let before := default (acc a) (beforeContent a) in
  let raw := rawContent a ++ c in
  let '(thought, answer) := splitInlineThink raw in
  mkAcc (before ++ answer) (reason a) raw thought (Some before) (usage a) (cut a) (edits a)
    (loopHit a || isLooping (before ++ answer)) (received a + length c).

(** The turn's part of [onDelta]; an empty chunk is not looked at. *)
Definition on_delta (a : Acc) (d : StreamDelta) : Acc :=
  match d with
  | DUsage v => mkAcc (acc a) (reason a) (rawContent a) (inlineThought a) (beforeContent a) (Some v) (cut a) (edits a) (loopHit a) (received a)
  | DTruncated => mkAcc (acc a) (reason a) (rawContent a) (inlineThought a) (beforeContent a) (usage a) true (edits a) (loopHit a) (received a)
  | DNotice n => notice_delta n a
  | DFile f => mkAcc (acc a) (reason a) (rawContent a) (inlineThought a) (beforeContent a) (usage a) (cut a) (put_edit f (edits a)) (loopHit a) (received a)
  | DReasoning [] | DContent [] | DQueue _ | DWebStep _ => a
  | DReasoning c => reasoning_delta c a
  | DContent c => content_delta c a
  end.
(** Whether [updateLast] is called. *)
Definition repaints (d : StreamDelta) : bool :=
  match d with
  | DNotice _ | DFile _ | DReasoning (_ :: _) | DContent (_ :: _) => true
  | _ => false
  end.

(** The message [updateLast] paints, and the one the checkpoint saves. *)
Definition live_msg (a : Acc) (started : option Z) : ChatMsg :=
  mkMsg Assistant (acc a) false false false false (Some (allReasoning a)) [] (edits a) started.
Definition pending_msg (a : Acc) (started : Z) : ChatMsg :=
  mkMsg Assistant (acc a) false false false true
    (if nonempty (allReasoning a) then Some (allReasoning a) else None) [] [] (Some started).

(** ** How it ends *)

(** How [await streamChat(...)] ended. *)
Inductive Outcome := Finished | Aborted | Broken.
#[export] Instance Outcome_eq_dec : EqDecision Outcome.
Proof. solve_decision. Defined.

Definition LOOP_NOTE : jstr := u "⚠ Réponse arrêtée : le modèle répétait les mêmes lignes en boucle.".

(** The text and the error flag once the stream is over. *)
Definition settle (a : Acc) (o : Outcome) : jstr * bool :=
  let '(text, isError) :=
    match o with
    | Broken => (if nonempty (acc a) then acc a else t (u "Erreur réseau."), true)
    | _ => (acc a, false)
    end in
  let '(text, isError) :=
    if negb isError && negb (bool_decide (o = Aborted)) && negb (nonempty text) && negb (nonempty (allReasoning a))
    then (t (u "Le modèle n'a renvoyé aucune réponse."), true) else (text, isError) in
  (if loopHit a then text ++ BLANK_LINE ++ t LOOP_NOTE else text, isError).

Definition final_msg (a : Acc) (text : jstr) (isError : bool) (started : Z) : ChatMsg :=
  mkMsg Assistant (trimAfterAsk text) false isError (cut a) false (Some (allReasoning a)) [] (edits a) (Some started).

Definition finalMessages (nextMessages : list ChatMsg) (a : Acc) (text : jstr) (isError : bool) (started : Z)
  : list ChatMsg :=
  nextMessages ++ (if nonempty text || nonempty (reason a) then [final_msg a text isError started] else []).

(** What the panel shows by itself at the end of the turn.  The outer option is
    the exception of [parseAsk], which nothing catches here. *)
Definition surfaced (nextMessages : list ChatMsg) (text : jstr) (watching : bool) (a : Acc)
  : option (option Artifact) :=
  let asked := match find (fun m => bool_decide (role m = User)) (rev nextMessages) with Some m => content m | None => [] end in
  ask ← parseAsk text;
  let produced :=
    match ask with
    | Some _ => []
    | None => r_artifacts (parseArtifacts t (closedContent text) (isDocTask asked) asked
                (fun name => fs_content <$> assoc_get name (thread_files nextMessages)))
    end in
  Some (match last produced with
        | Some (Code n l c) => Some (Code n l c)
        | Some (Doc n c) => if watching then Some (Doc n c) else None
        | None => match last (edits a) with
                  | Some f => Some (Code (ef_name f) (langFromName (ef_name f)) (ef_content f))
                  | None => None
                  end
        end).
End turn.
