(* ===== verification/TurnSpec.v ===== *)
(** * What a turn of the playground guarantees

    What the deltas accumulate to, the edited files, the answer left at the
    end, the bounds of the request. *)

From S2P Require Import JsJson JsRegExp Parsers Thread Api Messages Export Skills Turn.

Section turn.
Context (t : jstr -> jstr).

(** ** The deltas of a turn, by kind *)

Definition contents (ds : list StreamDelta) : jstr := flat_map (fun d => match d with DContent c => c | _ => [] end) ds.
Definition reasonings (ds : list StreamDelta) : jstr := flat_map (fun d => match d with DReasoning c => c | _ => [] end) ds.
Definition files (ds : list StreamDelta) : list EditedFile := omap (fun d => match d with DFile f => Some f | _ => None end) ds.
Definition add_notice (s : jstr) (d : StreamDelta) : jstr :=
  match d with DNotice n => s ++ (if nonempty s then BLANK_LINE else []) ++ noticeText t n | _ => s end.
Definition notices (ds : list StreamDelta) : jstr := foldl add_notice [] ds.
Definition is_notice (d : StreamDelta) : bool := match d with DNotice _ => true | _ => false end.

(** Every notice comes before the first piece of the answer. *)
Fixpoint notices_first (ds : list StreamDelta) : bool :=
  match ds with
  | [] => true
  | DContent (_ :: _) :: r => negb (existsb is_notice r)
  | _ :: r => notices_first r
  end.

Definition received_all (ds : list StreamDelta) : Acc := foldl (on_delta t) acc_start ds.

Lemma flat_map_snoc {A B} (f : A -> list B) l x : flat_map f (l ++ [x]) = flat_map f l ++ f x.
Proof. rewrite flat_map_app. cbn [flat_map]. by rewrite app_nil_r. Qed.
Lemma nonempty_true (s : jstr) : nonempty s = true <-> s <> [].
Proof. unfold nonempty. destruct (streq_spec s []); naive_solver. Qed.

Lemma split_nothing : splitInlineThink [] = ([], []).
Proof. vm_compute. reflexivity. Qed.

Lemma notices_first_snoc ds d : notices_first (ds ++ [d]) = true ->
  notices_first ds = true /\ (is_notice d = true -> contents ds = []).
Proof.
  assert (E : forall r, existsb is_notice (r ++ [d]) = existsb is_notice r || is_notice d)
    by (intros r; rewrite existsb_app; cbn [existsb]; by rewrite orb_false_r).
  unfold contents. induction ds as [|x ds IH]; intros H; [done|]. destruct x; cbn [app notices_first flat_map] in *; auto.
  destruct c as [|c r]; cbn [app] in *; [auto|]. rewrite E in H. apply negb_true_iff, orb_false_iff in H as [-> Hd]. rewrite Hd. done.
Qed.

Definition accumulated (ds : list StreamDelta) (a : Acc) : Prop :=
  rawContent a = contents ds /\ reason a = reasonings ds /\
  received a = length (contents ds) + length (reasonings ds) /\
  inlineThought a = (splitInlineThink (contents ds)).1 /\
  (notices_first ds = true ->
     acc a = notices ds ++ (splitInlineThink (contents ds)).2 /\
     beforeContent a = if nonempty (contents ds) then Some (notices ds) else None).

Lemma accumulated_step ds a d : accumulated ds a -> accumulated (ds ++ [d]) (on_delta t a d).
Proof.
  intros (H1 & H2 & H3 & H4 & H5).
  assert (Keep : contents (ds ++ [d]) = contents ds -> reasonings (ds ++ [d]) = reasonings ds -> notices (ds ++ [d]) = notices ds ->
    forall b, rawContent b = rawContent a -> reason b = reason a -> received b = received a -> inlineThought b = inlineThought a ->
    acc b = acc a -> beforeContent b = beforeContent a -> accumulated (ds ++ [d]) b).
  { intros C1 C2 C3 b B1 B2 B3 B4 B5 B6. unfold accumulated. rewrite C1, C2, C3, B1, B2, B3, B4, B5, B6. refine (conj H1 (conj H2 (conj H3 (conj H4 _)))).
    intros Hf. apply notices_first_snoc in Hf as [Hf _]. by apply H5. }
  assert (Hn : forall x, notices (ds ++ [x]) = add_notice (notices ds) x) by (intros x; unfold notices; by rewrite foldl_app).
  destruct d as [v| |n|v|f|e|[|c r]|[|c r]]; cbn [on_delta];
    try (apply Keep; try done; unfold contents, reasonings; rewrite ?flat_map_snoc, ?app_nil_r; done).
  - unfold accumulated. cbn [notice_delta rawContent reason received inlineThought acc beforeContent].
    assert (C : contents (ds ++ [DNotice n]) = contents ds) by (unfold contents; by rewrite flat_map_snoc, app_nil_r).
    assert (C2 : reasonings (ds ++ [DNotice n]) = reasonings ds) by (unfold reasonings; by rewrite flat_map_snoc, app_nil_r).
    rewrite C, C2. refine (conj H1 (conj H2 (conj H3 (conj H4 _)))).
    intros Hf. apply notices_first_snoc in Hf as [Hf Hc]. destruct (H5 Hf) as [E1 E2]. split.
    + specialize (Hc eq_refl). rewrite Hc in *. rewrite split_nothing in *. cbn [snd] in *. rewrite Hn, app_nil_r in *. by rewrite E1.
    + specialize (Hc eq_refl). rewrite Hc in *. done.
  - unfold accumulated. cbn [reasoning_delta rawContent reason received inlineThought acc beforeContent].
    assert (C : contents (ds ++ [DReasoning (c :: r)]) = contents ds) by (unfold contents; by rewrite flat_map_snoc, app_nil_r).
    assert (C2 : reasonings (ds ++ [DReasoning (c :: r)]) = reasonings ds ++ c :: r) by (unfold reasonings; by rewrite flat_map_snoc).
    rewrite C, C2, Hn, length_app, H2, H3. refine (conj H1 (conj eq_refl (conj _ (conj H4 _)))); [lia|].
    intros Hf. apply notices_first_snoc in Hf as [Hf _]. by apply H5.
  - unfold accumulated, content_delta. destruct (splitInlineThink (rawContent a ++ c :: r)) as [th an] eqn:Es.
    cbn [rawContent reason received inlineThought acc beforeContent].
    assert (C : contents (ds ++ [DContent (c :: r)]) = contents ds ++ c :: r) by (unfold contents; by rewrite flat_map_snoc).
    assert (C2 : reasonings (ds ++ [DContent (c :: r)]) = reasonings ds) by (unfold reasonings; by rewrite flat_map_snoc, app_nil_r).
    rewrite C, C2, Hn, length_app, H1, H2, H3. rewrite H1 in Es. rewrite Es. cbn [fst snd add_notice].
    refine (conj eq_refl (conj eq_refl (conj _ (conj eq_refl _)))); [lia|].
    intros Hf. apply notices_first_snoc in Hf as [Hf _]. destruct (H5 Hf) as [E1 E2]. rewrite E1, E2. split.
    + destruct (nonempty (contents ds)) eqn:En; [done|]. cbn [from_option id]. destruct (contents ds); [|done].
      rewrite split_nothing. cbn [snd]. by rewrite app_nil_r.
    + assert (Ne : nonempty (contents ds ++ c :: r) = true) by (apply nonempty_true; by destruct (contents ds)).
      rewrite Ne. destruct (nonempty (contents ds)) eqn:En; [done|]. cbn [from_option id]. destruct (contents ds); [|done].
      rewrite split_nothing. cbn [snd]. by rewrite app_nil_r.
Qed.

Lemma accumulated_all ds : accumulated ds (received_all ds).
Proof.
  unfold received_all. induction ds as [|d ds IH] using rev_ind.
  - unfold accumulated. change (contents []) with (@nil N). rewrite split_nothing. done.
  - rewrite foldl_app. by apply accumulated_step.
Qed.

(** However the stream is cut into deltas, a turn accumulates the whole of
    it: the text received is the concatenation of the pieces, the reasoning
    likewise, the thought written into the answer is the one
    [splitInlineThink] finds in the whole text, and what is shown is the
    notices that came first followed by the rest of the answer. *)
Theorem turn_accumulates ds :
  let a := received_all ds in
  rawContent a = contents ds /\ reason a = reasonings ds /\ received a = length (contents ds ++ reasonings ds) /\
  inlineThought a = (splitInlineThink (contents ds)).1 /\
  (notices_first ds = true -> acc a = notices ds ++ (splitInlineThink (contents ds)).2).
Proof.
  destruct (accumulated_all ds) as (H1 & H2 & H3 & H4 & H5). rewrite length_app. repeat split; try done.
  intros H. by destruct (H5 H).
Qed.

(** A notice that arrives once the answer has begun is shown, then lost with
    the next piece of the answer: the text is rebuilt from what preceded the
    answer. *)
Lemma late_notice_lost n c1 c2 : c1 <> [] -> c2 <> [] ->
  acc (received_all [DContent c1; DNotice n; DContent c2]) = (splitInlineThink (c1 ++ c2)).2.
Proof.
  intros H1 H2. destruct c1 as [|x c1]; [done|]. destruct c2 as [|y c2]; [done|].
  unfold received_all. cbn [foldl on_delta]. unfold content_delta at 2. cbn [rawContent acc_start beforeContent acc default].
  destruct (splitInlineThink ([] ++ x :: c1)) as [th an]. unfold notice_delta, content_delta.
  cbn [rawContent beforeContent acc app]. by destruct (splitInlineThink (x :: c1 ++ y :: c2)) as [th2 an2].
Qed.

(** ** Files edited by the tools *)

Definition edit_of (n : jstr) (l : list EditedFile) : option EditedFile := find (fun f => streq (ef_name f) n) l.

Lemma put_edit_get f l n : edit_of n (put_edit f l) = if streq (ef_name f) n then Some f else edit_of n l.
Proof.
  unfold edit_of. induction l as [|g l IH]; cbn [put_edit find]; [by case_match|].
  destruct (streq_spec (ef_name g) (ef_name f)) as [E|E]; cbn [find].
  - rewrite E. by destruct (streq (ef_name f) n).
  - rewrite IH. destruct (streq_spec (ef_name g) n) as [<-|]; [|done]. by destruct (streq_spec (ef_name f) (ef_name g)).
Qed.
Lemma put_edit_names f l :
  map ef_name (put_edit f l) = if existsb (streq (ef_name f)) (map ef_name l) then map ef_name l else map ef_name l ++ [ef_name f].
Proof.
  induction l as [|g l IH]; [done|]. cbn [put_edit map existsb].
  destruct (streq_spec (ef_name g) (ef_name f)) as [E|E].
  - cbn [map]. rewrite <- E. by destruct (streq_spec (ef_name g) (ef_name g)).
  - cbn [map]. rewrite IH. destruct (streq_spec (ef_name f) (ef_name g)); [by rewrite e in E|]. cbn [orb]. by case_match.
Qed.
Lemma put_edit_nodup f l : NoDup (map ef_name l) -> NoDup (map ef_name (put_edit f l)).
Proof.
  intros H. rewrite put_edit_names. destruct (existsb _ _) eqn:E; [done|].
  apply NoDup_app. split; [done|]. split; [|apply NoDup_singleton].
  intros x Hx ->%list_elem_of_singleton. apply existsb_false_iff in E. rewrite Forall_forall in E.
  specialize (E _ Hx). by destruct (streq_spec (ef_name f) (ef_name f)).
Qed.

Lemma edits_step a d : edits (on_delta t a d) = match d with DFile f => put_edit f (edits a) | _ => edits a end.
Proof. destruct d as [| | | | | |[]|[]]; try done. cbn [on_delta]. unfold content_delta. by destruct (splitInlineThink _). Qed.

(** The files the server's tools changed in a turn are listed once each, in
    the order they were first changed, with the last version received. *)
Theorem edits_last_version ds n :
  let l := edits (received_all ds) in
  NoDup (map ef_name l) /\
  edit_of n l = last (List.filter (fun f => streq (ef_name f) n) (files ds)).
Proof.
  cbv zeta. unfold received_all. induction ds as [|d ds [IH1 IH2]] using rev_ind; [by split; [constructor|]|].
  rewrite foldl_app. cbn [foldl]. rewrite edits_step. unfold files in *. rewrite omap_app, List.filter_app.
  destruct d; try (split; [exact IH1|cbn [omap list_omap]; by rewrite IH2, app_nil_r]).
  split; [by apply put_edit_nodup|]. rewrite put_edit_get, IH2. cbn [omap list_omap List.filter].
  destruct (streq (ef_name f) n); [by rewrite last_snoc|by rewrite app_nil_r].
Qed.

(** At most six steps of the web search are shown. *)
Lemma add_step_bounded steps e : length (add_step steps e) <= 6.
Proof. unfold add_step. rewrite length_drop. lia. Qed.

(** ** The answer left at the end *)

Lemma allReasoning_empty a : allReasoning a = [] <-> reason a = [] /\ inlineThought a = [].
Proof.
  unfold allReasoning. split.
  - intros H. by destruct (reason a), (inlineThought a).
  - by intros [-> ->].
Qed.

Lemma nonempty_false (s : jstr) : nonempty s = false <-> s = [].
Proof. unfold nonempty. destruct (streq_spec s []); naive_solver. Qed.

(** The text before the note on loops, and the error flag. *)
Lemma settle_text a out : (forall s, s <> [] -> t s <> []) -> out <> Aborted ->
  (inlineThought a = [] \/ acc a <> [] \/ out = Broken) ->
  exists text0, settle t a out = (if loopHit a then text0 ++ BLANK_LINE ++ t LOOP_NOTE else text0,
                                  bool_decide (out = Broken \/ (acc a = [] /\ reason a = []))) /\
    (text0 <> [] \/ reason a <> []).
Proof.
  intros Ht Ho Hi. unfold settle. rewrite (bool_decide_eq_false_2 (out = Aborted)) by done. destruct out; [|done|]; cbn [negb andb].
  - destruct (nonempty (acc a)) eqn:Ea; cbn [negb andb].
    + apply nonempty_true in Ea. exists (acc a). rewrite bool_decide_eq_false_2; [by split; [|left]|naive_solver].
    + apply nonempty_false in Ea. destruct Hi as [Hi|[?|?]]; [|done|done].
      destruct (nonempty (allReasoning a)) eqn:Er; cbn [negb].
      * assert (reason a <> []) by (intros E; apply nonempty_true in Er; apply Er, allReasoning_empty; done).
        exists (acc a). rewrite bool_decide_eq_false_2; [by split; [|right]|naive_solver].
      * apply nonempty_false, allReasoning_empty in Er as [Er _]. eexists. rewrite bool_decide_eq_true_2 by (by right).
        split; [reflexivity|]. left. by apply Ht.
  - eexists. rewrite bool_decide_eq_true_2 by (by left). split; [reflexivity|]. left.
    destruct (nonempty (acc a)) eqn:Ea; [by apply nonempty_true|by apply Ht].
Qed.

Lemma trimAfterAsk_nonempty s : s <> [] -> trimAfterAsk s <> [].
Proof.
  intros H. unfold trimAfterAsk. destruct (index_of _ s 0) as [i|]; [|done]. destruct (index_of _ s _) as [j|]; [|done].
  rewrite Nat.add_comm. by destruct s.
Qed.


(** ** The request *)

Definition num_le (a b : json) : Prop :=
  match a, b with
  | JNum m e, JNum m' e' => (m * 10 ^ Z.max 0 (e - e') <= m' * 10 ^ Z.max 0 (e' - e))%Z
  | _, _ => False
  end.
Lemma js_min_le m e m' e' : num_le (js_min (JNum m e) (JNum m' e')) (JNum m' e') /\ num_le (js_min (JNum m e) (JNum m' e')) (JNum m e).
Proof.
  unfold js_min, num_le. destruct (Z.leb_spec (m * 10 ^ Z.max 0 (e - e')) (m' * 10 ^ Z.max 0 (e' - e))); split; lia.
Qed.

Lemma sent_messages_images b l : flat_map images (sent_messages b l) = flat_map images l.
Proof. induction l as [|m l IH]; cbn [sent_messages flat_map]; [done|]. cbn [images]. by rewrite IH. Qed.

(** What the model reads of a message. *)
Definition said (m : ChatMsg) : Role * jstr := (role m, content m).

Lemma sent_messages_said b l m :
  map said (sent_messages b (l ++ [m])) =
  map said l ++ [(role m, if b && bool_decide (role m = User) then content m ++ VOICE_NUDGE else content m)].
Proof.
  induction l as [|x l IH]; cbn [sent_messages map app].
  - by rewrite bool_decide_eq_true_2, andb_true_r by done.
  - rewrite IH, (bool_decide_eq_false_2 (l ++ [m] = [])) by (by destruct l). by rewrite andb_false_r.
Qed.

Lemma recent_said l m max budget : exists l' m',
  recentImages (l ++ [m]) max budget = l' ++ [m'] /\ map said l' = map said l /\ said m' = said m.
Proof.
  assert (E : map said (recentImages (l ++ [m]) max budget) = map said l ++ [said m]).
  { assert (W : forall l, map said l = map said (map (fun m => with_images m []) l)) by (intros x; rewrite map_map; by apply map_ext).
    rewrite W. unfold recentImages. rewrite !map_rev, recent_loop_rest, !map_rev, rev_involutive, <- W. by rewrite map_app. }
  destruct (recentImages (l ++ [m]) max budget) as [|x r _] using rev_ind; [by destruct (map said l)|].
  rewrite map_app in E. cbn [map] in E. apply app_inj_tail in E as [E1 E2]. by exists r, x.
Qed.

Lemma recent_eight l : flat_map images (recentImages l (Some MAX_IMAGES_PER_REQUEST) None) =
  drop (length (flat_map images l) - 8) (flat_map images l).
Proof.
  unfold recentImages. rewrite flat_map_rev_rev, recent_loop_flat.
  assert (F : flat_map (fun m => rev (images m)) (rev l) = rev (flat_map images l))
    by (pose proof (flat_map_rev_rev (rev l)) as H; rewrite rev_involutive in H; by rewrite H, rev_involutive).
  rewrite F. destruct (keep_images_longest None (rev (flat_map images l)) (mkRoom (Some MAX_IMAGES_PER_REQUEST) 0))
    as (j & Hj & -> & [H _] & Hmax); [by split|]. rewrite rev_involutive, rev_take_rev. rewrite length_rev in *.
  f_equal. unfold fits, MAX_IMAGES_PER_REQUEST in *. cbn [remaining] in *. rewrite length_take, length_rev in *.
  destruct (decide (j < length (flat_map images l))); [|lia]. destruct (decide (j < 8)); [|lia].
  destruct Hmax; [done|]. split; [lia|done].
Qed.

(** C32: A request carries the whole thread: the role and the text of every
    message, in order, unchanged but for the nudge that the retry of a spoken
    turn adds to the last message of the user; of its images, the last eight
    and no other; and every file of the thread as one the model may edit, none
    when the turn is spoken.  When the model's window is known (a number other
    than zero), the tokens asked for are at most the window and at most the
    setting; otherwise they are the setting. *)
Theorem request_bounds model s ceiling skill l m o :
  let next := l ++ [m] in
  let q := request t model s ceiling skill next o in
  map said (q_messages q) = map said l ++
    [(role m, if o_retried o && bool_decide (role m = User) then content m ++ VOICE_NUDGE else content m)] /\
  flat_map images (q_messages q) = drop (length (flat_map images next) - 8) (flat_map images next) /\
  q_files q = (if o_voice o then [] else map (fun kf => mkEdited kf.1 (fs_content kf.2)) (thread_files t next)) /\
  match ceiling, maxTokens s with
  | Some (JNum w e), JNum x e' =>
      if bool_decide (w = 0%Z) then maxTokens (q_settings q) = maxTokens s
      else num_le (maxTokens (q_settings q)) (JNum w e) /\ num_le (maxTokens (q_settings q)) (JNum x e')
  | None, _ => maxTokens (q_settings q) = maxTokens s
  | _, _ => True
  end.
Proof.
  cbv zeta. unfold request. cbn [q_messages q_settings q_files]. split; [|split; [|split; [done|]]].
  - destruct (recent_said l m (Some MAX_IMAGES_PER_REQUEST) None) as (l' & m' & -> & E & Em).
    rewrite sent_messages_said, E. unfold said in Em. by injection Em as -> ->.
  - by rewrite sent_messages_images, recent_eight.
  - cbn [maxTokens ask_settings]. destruct ceiling as [[| |w e| | |]|]; try done. destruct (maxTokens s) as [| |x e'| | |]; try done.
    cbn [truthy]. case_bool_decide as E; [by subst|]. destruct (Z.eqb_spec w 0); [done|]. cbn [negb].
    destruct (js_min_le x e' w e) as [H1 H2]. by split.
Qed.
End turn.


(** Nine images in the thread, and a setting larger than the window. *)
Example request_on_a_thread :
  let next := [mkMsg User (u "a") false false false false None (repeat (u "img") 9) [] None; plain_msg Assistant (u "ok"); plain_msg User (u "b")] in
  let q := request id (u "m") (mkSettings [] (JNum 7 (-1)) (JNum 131072 0) (JNum 1 0) RAuto []) (Some (JNum 32768 0)) None next
             (mkOverride None true true) in
  length (flat_map images (q_messages q)) = 8 /\ maxTokens (q_settings q) = JNum 32768 0 /\
  map content (q_messages q) = [u "a"; u "ok"; u "b" ++ VOICE_NUDGE].
Proof. vm_compute. repeat split; reflexivity. Qed.
