(* ===== verification/Playground.v ===== *)
(** * The playground page (app/(app)/playground/PlaygroundPage.tsx)

    The page's state and its handlers: a message sent, queued, edited or
    answered, the turn that streams, its checkpoints and its end with the
    automatic restarts, the tabs, the conversations of the history.

    A handler sees the state of the last render; React commits one before the
    next event, so a handler reads the page's current state, and the refs that
    an effect keeps equal to a state are that state.  [runStream] is different:
    it goes on after its stream with the constants of the render it was called
    in, and so do the turns it starts itself; [Closure] holds them.  A handler
    reads the clock once.  The display counters (tokens, rates, context) and
    the toasts are left out; the stream of a page that only follows a turn is
    [PendingFollow]. *)

From S2P Require Import JsJson JsRegExp Parsers Thread Api Messages Export Skills Preferences Attachments Turn.

(** What the page loaded, constant from there on. *)
Record Loaded := mkLoaded {
  runningModels : list jstr; modelLimits : list (jstr * json); modelVision : list jstr;
  csrf : jstr; isNarrow : bool; charsRatio : Z
}.

Record QueuedMsg := mkQueued { qm_content : jstr; qm_text : jstr; qm_images : list jstr; qm_ts : Z }.
Record Tab := mkTab {
  tab_id : jstr; tab_title : jstr; tab_currentId : option jstr; tab_model : jstr; tab_settings : Settings;
  tab_attachments : list Attachment; tab_messages : list ChatMsg
}.

(** The state constants [runStream] reads. *)
Record Closure := mkClosure {
  k_currentId : option jstr; k_model : jstr; k_settings : Settings; k_invokedSkill : option jstr; k_activeTabId : jstr
}.
(** A turn under way: its closure, its arguments and its variables; [fl_stop] is
    the abort signal, [fl_turn] the identity of its [LiveTurn]. *)
Record Flight := mkFlight {
  fl_closure : Closure; fl_next : list ChatMsg; fl_override : Override; fl_started : Z; fl_turn : nat;
  fl_acc : Acc; fl_liveId : option jstr; fl_stop : bool
}.

Record Titling := mkTitling { ti_conv : jstr; ti_msgs : list ChatMsg; ti_tab : jstr; ti_model : jstr }.
Inductive Effect :=
| Asked (q : Request)          (* streamChat *)
| Saved (c : Conversation)     (* persistConversation *)
| Removed (id : jstr)          (* removeConversation *)
| TitleAsked (r : Titling).    (* POST /api/playground/title *)

Record Page := mkPage {
  messages : list ChatMsg;   (* what the thread shows; [messagesRef] mirrors it *)
  currentId : option jstr;   (* [currentIdRef] mirrors it *)
  model : jstr;
  settings : Settings;
  provenance : Provenance;
  attachments : list Attachment;
  input : jstr;
  editingIdx : option nat;
  invokedSkill : option jstr;
  streaming : bool;
  queued : list QueuedMsg;
  resumes : nat;   (* [resumesRef] *)
  answering : bool;   (* [answerNowRef] *)
  flight : option Flight;   (* the [runStream] that awaits its stream *)
  tabs : list Tab;   (* [tabsRef] mirrors it *)
  activeTabId : jstr;
  tabSeq : nat;   (* the module counter of [newTabId] *)
  conversations : list Conversation;
  titling : list Titling;   (* the [autoTitle] requests under way *)
  artifact : option Artifact;
  watching : bool;   (* [liveDocOpenRef] *)
  webSteps : list WebStep;
  live : LiveState;   (* the module state of lib/playground-messages.ts *)
  effects : list Effect   (* what left the page, in order *)
}.

Definition set_messages (v : list ChatMsg) (p : Page) : Page :=
  mkPage v (currentId p) (model p) (settings p) (provenance p) (attachments p) (input p) (editingIdx
    p) (invokedSkill p) (streaming p) (queued p) (resumes p) (answering p) (flight p) (tabs p)
    (activeTabId p) (tabSeq p) (conversations p) (titling p) (artifact p) (watching p) (webSteps p)
    (live p) (effects p).
Definition set_currentId (v : option jstr) (p : Page) : Page :=
  mkPage (messages p) v (model p) (settings p) (provenance p) (attachments p) (input p) (editingIdx
    p) (invokedSkill p) (streaming p) (queued p) (resumes p) (answering p) (flight p) (tabs p)
    (activeTabId p) (tabSeq p) (conversations p) (titling p) (artifact p) (watching p) (webSteps p)
    (live p) (effects p).
Definition set_model (v : jstr) (p : Page) : Page :=
  mkPage (messages p) (currentId p) v (settings p) (provenance p) (attachments p) (input p)
    (editingIdx p) (invokedSkill p) (streaming p) (queued p) (resumes p) (answering p) (flight p)
    (tabs p) (activeTabId p) (tabSeq p) (conversations p) (titling p) (artifact p) (watching p)
    (webSteps p) (live p) (effects p).
Definition set_settings (v : Settings) (p : Page) : Page :=
  mkPage (messages p) (currentId p) (model p) v (provenance p) (attachments p) (input p) (editingIdx
    p) (invokedSkill p) (streaming p) (queued p) (resumes p) (answering p) (flight p) (tabs p)
    (activeTabId p) (tabSeq p) (conversations p) (titling p) (artifact p) (watching p) (webSteps p)
    (live p) (effects p).
Definition set_provenance (v : Provenance) (p : Page) : Page :=
  mkPage (messages p) (currentId p) (model p) (settings p) v (attachments p) (input p) (editingIdx
    p) (invokedSkill p) (streaming p) (queued p) (resumes p) (answering p) (flight p) (tabs p)
    (activeTabId p) (tabSeq p) (conversations p) (titling p) (artifact p) (watching p) (webSteps p)
    (live p) (effects p).
Definition set_attachments (v : list Attachment) (p : Page) : Page :=
  mkPage (messages p) (currentId p) (model p) (settings p) (provenance p) v (input p) (editingIdx p)
    (invokedSkill p) (streaming p) (queued p) (resumes p) (answering p) (flight p) (tabs p)
    (activeTabId p) (tabSeq p) (conversations p) (titling p) (artifact p) (watching p) (webSteps p)
    (live p) (effects p).
Definition set_input (v : jstr) (p : Page) : Page :=
  mkPage (messages p) (currentId p) (model p) (settings p) (provenance p) (attachments p) v
    (editingIdx p) (invokedSkill p) (streaming p) (queued p) (resumes p) (answering p) (flight p)
    (tabs p) (activeTabId p) (tabSeq p) (conversations p) (titling p) (artifact p) (watching p)
    (webSteps p) (live p) (effects p).
Definition set_editingIdx (v : option nat) (p : Page) : Page :=
  mkPage (messages p) (currentId p) (model p) (settings p) (provenance p) (attachments p) (input p)
    v (invokedSkill p) (streaming p) (queued p) (resumes p) (answering p) (flight p) (tabs p)
    (activeTabId p) (tabSeq p) (conversations p) (titling p) (artifact p) (watching p) (webSteps p)
    (live p) (effects p).
Definition set_invokedSkill (v : option jstr) (p : Page) : Page :=
  mkPage (messages p) (currentId p) (model p) (settings p) (provenance p) (attachments p) (input p)
    (editingIdx p) v (streaming p) (queued p) (resumes p) (answering p) (flight p) (tabs p)
    (activeTabId p) (tabSeq p) (conversations p) (titling p) (artifact p) (watching p) (webSteps p)
    (live p) (effects p).
Definition set_streaming (v : bool) (p : Page) : Page :=
  mkPage (messages p) (currentId p) (model p) (settings p) (provenance p) (attachments p) (input p)
    (editingIdx p) (invokedSkill p) v (queued p) (resumes p) (answering p) (flight p) (tabs p)
    (activeTabId p) (tabSeq p) (conversations p) (titling p) (artifact p) (watching p) (webSteps p)
    (live p) (effects p).
Definition set_queued (v : list QueuedMsg) (p : Page) : Page :=
  mkPage (messages p) (currentId p) (model p) (settings p) (provenance p) (attachments p) (input p)
    (editingIdx p) (invokedSkill p) (streaming p) v (resumes p) (answering p) (flight p) (tabs p)
    (activeTabId p) (tabSeq p) (conversations p) (titling p) (artifact p) (watching p) (webSteps p)
    (live p) (effects p).
Definition set_resumes (v : nat) (p : Page) : Page :=
  mkPage (messages p) (currentId p) (model p) (settings p) (provenance p) (attachments p) (input p)
    (editingIdx p) (invokedSkill p) (streaming p) (queued p) v (answering p) (flight p) (tabs p)
    (activeTabId p) (tabSeq p) (conversations p) (titling p) (artifact p) (watching p) (webSteps p)
    (live p) (effects p).
Definition set_answering (v : bool) (p : Page) : Page :=
  mkPage (messages p) (currentId p) (model p) (settings p) (provenance p) (attachments p) (input p)
    (editingIdx p) (invokedSkill p) (streaming p) (queued p) (resumes p) v (flight p) (tabs p)
    (activeTabId p) (tabSeq p) (conversations p) (titling p) (artifact p) (watching p) (webSteps p)
    (live p) (effects p).
Definition set_flight (v : option Flight) (p : Page) : Page :=
  mkPage (messages p) (currentId p) (model p) (settings p) (provenance p) (attachments p) (input p)
    (editingIdx p) (invokedSkill p) (streaming p) (queued p) (resumes p) (answering p) v (tabs p)
    (activeTabId p) (tabSeq p) (conversations p) (titling p) (artifact p) (watching p) (webSteps p)
    (live p) (effects p).
Definition set_tabs (v : list Tab) (p : Page) : Page :=
  mkPage (messages p) (currentId p) (model p) (settings p) (provenance p) (attachments p) (input p)
    (editingIdx p) (invokedSkill p) (streaming p) (queued p) (resumes p) (answering p) (flight p) v
    (activeTabId p) (tabSeq p) (conversations p) (titling p) (artifact p) (watching p) (webSteps p)
    (live p) (effects p).
Definition set_activeTabId (v : jstr) (p : Page) : Page :=
  mkPage (messages p) (currentId p) (model p) (settings p) (provenance p) (attachments p) (input p)
    (editingIdx p) (invokedSkill p) (streaming p) (queued p) (resumes p) (answering p) (flight p)
    (tabs p) v (tabSeq p) (conversations p) (titling p) (artifact p) (watching p) (webSteps p) (live
    p) (effects p).
Definition set_tabSeq (v : nat) (p : Page) : Page :=
  mkPage (messages p) (currentId p) (model p) (settings p) (provenance p) (attachments p) (input p)
    (editingIdx p) (invokedSkill p) (streaming p) (queued p) (resumes p) (answering p) (flight p)
    (tabs p) (activeTabId p) v (conversations p) (titling p) (artifact p) (watching p) (webSteps p)
    (live p) (effects p).
Definition set_conversations (v : list Conversation) (p : Page) : Page :=
  mkPage (messages p) (currentId p) (model p) (settings p) (provenance p) (attachments p) (input p)
    (editingIdx p) (invokedSkill p) (streaming p) (queued p) (resumes p) (answering p) (flight p)
    (tabs p) (activeTabId p) (tabSeq p) v (titling p) (artifact p) (watching p) (webSteps p) (live
    p) (effects p).
Definition set_titling (v : list Titling) (p : Page) : Page :=
  mkPage (messages p) (currentId p) (model p) (settings p) (provenance p) (attachments p) (input p)
    (editingIdx p) (invokedSkill p) (streaming p) (queued p) (resumes p) (answering p) (flight p)
    (tabs p) (activeTabId p) (tabSeq p) (conversations p) v (artifact p) (watching p) (webSteps p)
    (live p) (effects p).
Definition set_artifact (v : option Artifact) (p : Page) : Page :=
  mkPage (messages p) (currentId p) (model p) (settings p) (provenance p) (attachments p) (input p)
    (editingIdx p) (invokedSkill p) (streaming p) (queued p) (resumes p) (answering p) (flight p)
    (tabs p) (activeTabId p) (tabSeq p) (conversations p) (titling p) v (watching p) (webSteps p)
    (live p) (effects p).
Definition set_watching (v : bool) (p : Page) : Page :=
  mkPage (messages p) (currentId p) (model p) (settings p) (provenance p) (attachments p) (input p)
    (editingIdx p) (invokedSkill p) (streaming p) (queued p) (resumes p) (answering p) (flight p)
    (tabs p) (activeTabId p) (tabSeq p) (conversations p) (titling p) (artifact p) v (webSteps p)
    (live p) (effects p).
Definition set_webSteps (v : list WebStep) (p : Page) : Page :=
  mkPage (messages p) (currentId p) (model p) (settings p) (provenance p) (attachments p) (input p)
    (editingIdx p) (invokedSkill p) (streaming p) (queued p) (resumes p) (answering p) (flight p)
    (tabs p) (activeTabId p) (tabSeq p) (conversations p) (titling p) (artifact p) (watching p) v
    (live p) (effects p).
Definition set_live (v : LiveState) (p : Page) : Page :=
  mkPage (messages p) (currentId p) (model p) (settings p) (provenance p) (attachments p) (input p)
    (editingIdx p) (invokedSkill p) (streaming p) (queued p) (resumes p) (answering p) (flight p)
    (tabs p) (activeTabId p) (tabSeq p) (conversations p) (titling p) (artifact p) (watching p)
    (webSteps p) v (effects p).
Definition set_effects (v : list Effect) (p : Page) : Page :=
  mkPage (messages p) (currentId p) (model p) (settings p) (provenance p) (attachments p) (input p)
    (editingIdx p) (invokedSkill p) (streaming p) (queued p) (resumes p) (answering p) (flight p)
    (tabs p) (activeTabId p) (tabSeq p) (conversations p) (titling p) (artifact p) (watching p)
    (webSteps p) (live p) v.

Definition closure_of (p : Page) : Closure :=
  mkClosure (currentId p) (model p) (settings p) (invokedSkill p) (activeTabId p).
Definition effect (e : Effect) (p : Page) : Page := set_effects (effects p ++ [e]) p.

Section page.
Context (t : jstr -> jstr) (env : Loaded).

(** ** Saving *)

Definition first_user (msgs : list ChatMsg) : jstr :=
  match find (fun m => bool_decide (role m = User)) msgs with Some m => content m | None => [] end.
Definition conv_title (msgs : list ChatMsg) : jstr :=
  take 80 (if nonempty (first_user msgs) then first_user msgs else t (u "Conversation")).

Definition persist (now : Z) (msgs : list ChatMsg) (id : option jstr) (activeModel : jstr) (p : Page)
  : option jstr * Page :=
  match msgs with
  | [] => (id, p)
  | _ =>
      let item := mkConv (default (string_of_Z now) id) (conv_title msgs) now activeModel (forSave msgs) None in
      let p := set_conversations (item :: List.filter (fun c => negb (streq (c_id c) (c_id item))) (conversations p)) p in
      (Some (c_id item), if nonempty (csrf env) then effect (Saved item) p else p)
  end.

(** ** A turn *)

Definition ceiling (model : jstr) : option json := assoc_get model (modelLimits env).

Definition runStream (k : Closure) (now : Z) (nextMessages : list ChatMsg) (o : Override) (p : Page) : Page :=
  if negb (nonempty (k_model k)) then
    set_messages (nextMessages ++ [plain_msg Assistant (t (u "Aucun modèle actif."))]) p
  else
    let docWriting :=
      isDocTask (match last nextMessages with Some m => content m | None => [] end) && negb (isNarrow env) in
    let '(turn, l) := beginLiveTurn (k_currentId k) (charsRatio env) (live p) in
    p |> set_streaming true |> set_webSteps [] |> set_watching docWriting |> set_live l
      |> set_messages (nextMessages ++ [mkMsg Assistant [] false false false false None [] [] (Some now)])
      |> set_invokedSkill None
      |> set_flight (Some (mkFlight k nextMessages o now (t_id turn) acc_start (k_currentId k) false))
      |> effect (Asked (request t (k_model k) (k_settings k) (ceiling (k_model k)) (k_invokedSkill k) nextMessages o)).

(** A mutation of the turn object, seen through the module state while it is
    the current turn. *)
Definition mutate_live (id : nat) (f : LiveTurn -> LiveTurn) (s : LiveState) : LiveState :=
  match liveTurn s with
  | Some l => if t_id l =? id then mkLive (Some (f l)) (next_id s) else s
  | None => s
  end.

(** [copy[copy.length - 1] = …]: nothing shows on an empty thread. *)
Definition repaint_last (m : option Z -> ChatMsg) (msgs : list ChatMsg) : list ChatMsg :=
  match last msgs with
  | Some old => removelast msgs ++ [m (ts old)]
  | None => msgs
  end.

Definition updateLast (id : nat) (a : Acc) (p : Page) : Page :=
  p |> set_live (mutate_live id (fun l => mkTurn (t_id l) (convId l) (start l) (chars l) (charsPerToken l) (acc a) (allReasoning a)) (live p))
    |> set_messages (repaint_last (live_msg a) (messages p)).

(** The clock and the units of the first chunks, for the page's counter. *)
Definition count_chunk (now : Z) (d : StreamDelta) (l : LiveTurn) : LiveTurn :=
  match d with
  | DReasoning ((_ :: _) as c) | DContent ((_ :: _) as c) =>
      mkTurn (t_id l) (convId l) (Some (default now (start l))) (chars l + length c) (charsPerToken l) (t_text l) (t_reasoning l)
  | _ => l
  end.

Definition onDelta (now : Z) (d : StreamDelta) (p : Page) : Page :=
  match flight p with
  | None => p
  | Some f =>
      let a := on_delta t (fl_acc f) d in
      let stop := fl_stop f || (negb (loopHit (fl_acc f)) && loopHit a) in
      let p := p |> set_flight (Some (mkFlight (fl_closure f) (fl_next f) (fl_override f) (fl_started f) (fl_turn f) a (fl_liveId f) stop))
                 |> set_live (mutate_live (fl_turn f) (count_chunk now d) (live p)) in
      let p := match d with DWebStep e => set_webSteps (add_step (webSteps p) e) p | _ => p end in
      if repaints d then updateLast (fl_turn f) a p else p
  end.

(** The interval's callback. *)
Definition checkpoint (now : Z) (p : Page) : Page :=
  match flight p with
  | None => p
  | Some f =>
      let a := fl_acc f in
      if negb (nonempty (csrf env)) || (negb (nonempty (acc a)) && negb (nonempty (allReasoning a))) then p
      else
        let id := default (string_of_Z (fl_started f)) (fl_liveId f) in
        p |> effect (Saved (mkConv id (conv_title (fl_next f)) now (k_model (fl_closure f))
                              (forSave (fl_next f ++ [pending_msg a (fl_started f)])) None))
          |> set_flight (Some (mkFlight (fl_closure f) (fl_next f) (fl_override f) (fl_started f) (fl_turn f) a (Some id) (fl_stop f)))
          |> set_live (mutate_live (fl_turn f) (fun l => mkTurn (t_id l) (Some id) (start l) (chars l) (charsPerToken l) (t_text l) (t_reasoning l)) (live p))
  end.

(** ** The end of a turn *)

Definition queued_msg (m : QueuedMsg) : ChatMsg :=
  mkMsg User (qm_content m) false false false false None (qm_images m) [] (Some (qm_ts m)).
Definition dispatchQueued (k : Closure) (now : Z) (base : list ChatMsg) (p : Page) : Page :=
  match queued p with
  | [] => p
  | q =>
      let nextMessages := base ++ map queued_msg q in
      p |> set_queued [] |> set_messages nextMessages |> runStream k now nextMessages no_override
  end.

Definition hidden_user (text : jstr) (now : Z) : ChatMsg :=
  mkMsg User text true false false false None [] [] (Some now).
Definition last_content (msgs : list ChatMsg) : jstr :=
  match last msgs with Some m => content m | None => [] end.

(** What follows the turn [f], whose page is at rest. *)
Definition what_next (now : Z) (f : Flight) (final : list ChatMsg) (isError wasAborted : bool) (p : Page) : Page :=
  let k := fl_closure f in
  let o := fl_override f in
  let a := fl_acc f in
  if answering p then
    p |> set_answering false |> runStream k now (fl_next f) (mkOverride (Some false) false false)
  else if o_voice o && negb (o_retried o) && isError && negb wasAborted
          && negb (nonempty (trim (rawContent a))) && negb (nonempty (reason a)) then
    runStream k now (fl_next f) (mkOverride (o_reasoning o) (o_voice o) true) p
  else if negb wasAborted && abortedTurn (last final) && (resumes p <? MAX_AUTO_RESUMES) then
    p |> set_resumes (S (resumes p)) |> runStream k now (fl_next f) no_override
  else
    let leftOpen := negb wasAborted && fileLeftOpen t final (Z.of_nat (length final) - 1) in
    if negb wasAborted && (leftOpen || abandonDeclare (last_content final)) && (resumes p <? MAX_AUTO_RESUMES) then
      p |> set_resumes (S (resumes p))
        |> runStream k now (final ++ [hidden_user (if leftOpen then FULL_RESUME_PROMPT else FULL_PROMPT) now]) no_override
    else p |> set_resumes 0 |> dispatchQueued k now final.

(** The turn is over and its answer known: the panel, the save, the tab, and
    the page at rest. *)
Definition land (now : Z) (f : Flight) (final : list ChatMsg) (sameThread : bool) (art : option Artifact) (p : Page)
  : Page :=
  let k := fl_closure f in
  let p := match art with Some x => if sameThread then set_artifact (Some x) p else p | None => p end in
  let p := set_watching false p in
  let '(savedId, p) := persist now final (fl_liveId f) (k_model k) p in
  let p := if sameThread then
             p |> set_currentId savedId
               |> set_tabs (map (fun b => if streq (tab_id b) (k_activeTabId k)
                    then mkTab (tab_id b) (tab_title b) savedId (tab_model b) (tab_settings b) (tab_attachments b) (tab_messages b)
                    else b) (tabs p))
           else p in
  p |> set_streaming false |> set_flight None
    |> set_live (match liveTurn (live p) with
                 | Some l => if t_id l =? fl_turn f then endLiveTurn l (live p) else live p
                 | None => live p
                 end).

(** After [await streamChat(...)]. *)
Definition finish (now : Z) (out : Outcome) (p : Page) : Page :=
  match flight p with
  | None => p
  | Some f =>
      let '(text, isError) := settle t (fl_acc f) out in
      let final := finalMessages (fl_next f) (fl_acc f) text isError (fl_started f) in
      let sameThread := bool_decide (currentId p = k_currentId (fl_closure f)) in
      let p := if sameThread then set_messages final p else p in
      match surfaced t (fl_next f) text (watching p) (fl_acc f) with
      | None => set_flight None p      (* the promise is rejected *)
      | Some art =>
          what_next now f final isError (bool_decide (out = Aborted)) (land now f final sameThread art p)
      end
  end.

(** ** Messages *)

Definition user_msg (text : jstr) (imgs : list jstr) (now : Z) : ChatMsg :=
  mkMsg User text false false false false None imgs [] (Some now).
(** [setMessages(nextMessages); void runStream(nextMessages, override)] *)
Definition start_turn (now : Z) (nextMessages : list ChatMsg) (o : Override) (p : Page) : Page :=
  p |> set_messages nextMessages |> runStream (closure_of p) now nextMessages o.

Definition sendVoice (now : Z) (text : jstr) (p : Page) : Page :=
  if streaming p || negb (nonempty (trim text)) then p
  else start_turn now (messages p ++ [user_msg (trim text) [] now]) (mkOverride (Some false) true false) p.

Definition file_block (a : Attachment) : jstr := FENCE ++ at_name a ++ [LF] ++ at_content a ++ [LF] ++ FENCE.
Definition full_text (text : jstr) (files : list Attachment) : jstr :=
  match files with
  | [] => text
  | _ => (if nonempty text then text ++ BLANK_LINE else []) ++ join BLANK_LINE (map file_block files)
  end.

Definition send (now : Z) (value : jstr) (p : Page) : Page :=
  let text := trim value in
  match nonempty text, attachments p with
  | false, [] => p
  | _, atts =>
      let files := List.filter (fun a => negb (nonempty (at_image a))) atts in
      let images := List.filter nonempty (map at_image atts) in
      let images := if existsb (streq (model p)) (modelVision env) then images else [] in
      match nonempty text, files, images with
      | false, [], [] => p
      | _, _, _ =>
          let full := full_text text files in
          if streaming p then
            p |> set_queued (queued p ++ [mkQueued full text images now]) |> set_input [] |> set_attachments []
          else
            let nextMessages := (match editingIdx p with Some i => take i (messages p) | None => messages p end)
                                ++ [user_msg full images now] in
            p |> set_messages nextMessages |> set_input [] |> set_attachments [] |> set_editingIdx None
              |> runStream (closure_of p) now nextMessages no_override
      end
  end.

(** [abortRef.current?.abort()] *)
Definition stop (p : Page) : Page :=
  match flight p with
  | Some f => set_flight (Some (mkFlight (fl_closure f) (fl_next f) (fl_override f) (fl_started f) (fl_turn f) (fl_acc f) (fl_liveId f) true)) p
  | None => p
  end.
Definition answerNow (p : Page) : Page :=
  if negb (streaming p) || answering p then p else p |> set_answering true |> stop.

(** [q.filter((_, i) => i !== idx)] *)
Definition without {A} (i : nat) (l : list A) : list A := take i l ++ drop (S i) l.
Definition sendQueuedNow (now : Z) (idx : nat) (p : Page) : Page :=
  match queued p !! idx with
  | None => p
  | Some m =>
      let p := set_queued (m :: without idx (queued p)) p in
      if streaming p then stop p else dispatchQueued (closure_of p) now (messages p) p
  end.
Definition editQueued (idx : nat) (p : Page) : Page :=
  match queued p !! idx with
  | None => p
  | Some m => p |> set_queued (without idx (queued p)) |> set_input (qm_content m)
  end.
Definition discardQueued (idx : nat) (p : Page) : Page := set_queued (without idx (queued p)) p.

Definition answer (now : Z) (text : jstr) (p : Page) : Page :=
  if streaming p then p
  else if negb (nonempty (trim text)) then p
  else start_turn now (messages p ++ [hidden_user (trim text) now]) no_override p.

Definition requestFullFile (now : Z) (name : jstr) (p : Page) : Page :=
  if streaming p then p
  else start_turn now (messages p ++ [hidden_user
    (u "Renvoie le fichier " ++ name ++ u " EN ENTIER, du début à la fin, "
     ++ u "avec la correction intégrée. Un seul bloc de code, aucun extrait, "
     ++ u "aucune ligne omise, pas de « ... » ni de commentaire du type "
     ++ u "« reste inchangé ».") now]) no_override p.

Definition busy_or_empty (p : Page) : bool := streaming p || bool_decide (messages p = []).
Definition continueTurn (now : Z) (p : Page) : Page :=
  if busy_or_empty p then p
  else start_turn now (messages p ++ [hidden_user FULL_RESUME_PROMPT now]) no_override p.

Definition redoFile (now : Z) (name : jstr) (p : Page) : Page :=
  if busy_or_empty p then p
  else start_turn now (messages p ++ [hidden_user
    (u "Le fichier `" ++ name ++ u "` ne fonctionne pas : son JavaScript ne compile pas "
     ++ u "(« Unexpected end of input » — un bloc n'est jamais refermé), donc la page reste "
     ++ u "vide. Renvoie le fichier COMPLET et corrigé, en entier, du début à la fin, "
     ++ u "sous le même nom. Vérifie que chaque accolade et chaque parenthèse est refermée.") now]) no_override p.

Definition fixError (now : Z) (name message : jstr) (p : Page) : Page :=
  if busy_or_empty p then p
  else start_turn now (messages p ++ [hidden_user
    (u "Le fichier `" ++ name ++ u "` s'ouvre mais ne fonctionne pas. Le navigateur "
     ++ u "signale : « " ++ message ++ u " ». Corrige la cause exacte de cette erreur "
     ++ u "(vérifie notamment que les fonctions appelées existent bien dans la version "
     ++ u "de bibliothèque que tu utilises) et renvoie le fichier COMPLET corrigé, "
     ++ u "en entier, sous le même nom.") now]) no_override p.

Definition regenerate (now : Z) (p : Page) : Page :=
  if streaming p then p
  else match last (messages p) with
       | None => p
       | Some m =>
           let base := if bool_decide (role m = Assistant) then removelast (messages p) else messages p in
           match last base with
           | Some b => if bool_decide (role b = User) then runStream (closure_of p) now base no_override p else p
           | None => p
           end
       end.

Definition image_names (imgs : list jstr) : list Attachment :=
  imap (fun k img => mkAttachment (u "image-" ++ string_of_N (N.of_nat (S k)) ++ u ".jpg") [] img) imgs.
Definition editMessage (i : nat) (p : Page) : Page :=
  if streaming p then p
  else match messages p !! i with
       | Some m => if bool_decide (role m = User)
                   then p |> set_editingIdx (Some i) |> set_input (content m) |> set_attachments (image_names (images m))
                   else p
       | None => p
       end.

(** ** The composer *)

Definition SLASH_CREATE_COMMANDS : list jstr :=
  [u "skill-creator"; u "create"; u "new"; u "creer"; u "competence"; u "compétence"].
(** A command that opens the skill creator clears the input. *)
Definition handleInput (v : jstr) (p : Page) : Page :=
  if starts_with v (u "/") && nonempty (trim (drop 1 v))
     && existsb (streq (to_lower (trim (drop 1 v)))) SLASH_CREATE_COMMANDS
  then set_input [] p else set_input v p.

Definition selectSkill (s : Skill) (p : Page) : Page :=
  if s_pkg s then p |> set_invokedSkill (Some (s_alias s)) |> set_input []
  else
    let p := set_input (t (s_prompt s)) p in
    match s_systemPrompt s with
    | None | Some [] => p
    | Some sp =>
        p |> set_settings (mkSettings sp (temperature (settings p)) (maxTokens (settings p)) (topP (settings p))
                             (reasoning_ (settings p)) (reasoningEffort (settings p)))
          |> set_provenance FromSkill
    end.
(** A file or an image is ready ([handleFiles]). *)
Definition attached (a : Attachment) (p : Page) : Page := set_attachments (attachments p ++ [a]) p.

(** ** Tabs *)

(** The tab's picture of the page. *)
Definition snapshot (p : Page) (b : Tab) : Tab :=
  mkTab (tab_id b) (tab_title b) (currentId p) (model p) (settings p) (attachments p) (messages p).
Definition freeze (p : Page) (bs : list Tab) : list Tab :=
  map (fun b => if streq (tab_id b) (activeTabId p) then snapshot p b else b) bs.
Definition find_tab (id : jstr) (bs : list Tab) : option Tab := find (fun b => streq (tab_id b) id) bs.
Definition set_running (m : jstr) (p : Page) : Page :=
  if nonempty m && existsb (streq m) (runningModels env) then set_model m p else p.
(** What every change of thread clears, [closeArtifact] included. *)
Definition clear_thread (p : Page) : Page :=
  p |> set_editingIdx None |> set_queued [] |> set_artifact None.
Definition restore (b : Tab) (p : Page) : Page :=
  p |> set_messages (tab_messages b) |> set_currentId (tab_currentId b) |> set_running (tab_model b)
    |> set_settings (tab_settings b) |> set_attachments (tab_attachments b) |> clear_thread |> set_activeTabId (tab_id b).

Definition newTabId (now : Z) (p : Page) : jstr * Page :=
  let n := S (tabSeq p) in
  (u "tab-" ++ string_of_Z now ++ u "-" ++ string_of_N (N.of_nat n), set_tabSeq n p).
Definition blank_tab (id : jstr) (p : Page) : Tab := mkTab id [] None (model p) (settings p) [] [].
Definition blank_thread (id : jstr) (p : Page) : Page :=
  p |> set_activeTabId id |> set_messages [] |> set_currentId None |> set_attachments [] |> clear_thread.

Definition switchTab (id : jstr) (p : Page) : Page :=
  if streaming p || streq id (activeTabId p) || negb (nonempty id) then p
  else
    let target := find_tab id (tabs p) in
    let p := set_tabs (freeze p (tabs p)) p in
    match target with Some b => restore b p | None => p end.

Definition newTab (now : Z) (p : Page) : Page :=
  if streaming p then p
  else
    let '(id, p) := newTabId now p in
    p |> set_tabs (freeze p (tabs p) ++ [blank_tab id p]) |> blank_thread id.

Definition autoTitle (r : Titling) (p : Page) : Page :=
  if nonempty (csrf env) then p |> set_titling (titling p ++ [r]) |> effect (TitleAsked r) else p.

Definition closeTab (now : Z) (id : jstr) (p : Page) : Page :=
  if streaming p then p
  else match find_index (fun b => streq (tab_id b) id) (tabs p) with
       | None => p
       | Some idx =>
           let p := match tabs p !! idx with
                    | Some b =>
                        match tab_messages b, tab_currentId b with
                        | _ :: _, Some ((_ :: _) as c) =>
                            autoTitle (mkTitling c (tab_messages b) id (if nonempty (tab_model b) then tab_model b else model p)) p
                        | _, _ => p
                        end
                    | None => p
                    end in
           let next := List.filter (fun b => negb (streq (tab_id b) id)) (tabs p) in
           let active := activeTabId p in
           let p := set_tabs next p in
           if negb (streq active id) then p
           else match next !! Nat.min idx (length next - 1) with
                | Some b => restore b p
                | None =>
                    let '(nest, p) := newTabId now p in
                    p |> set_tabs [blank_tab nest p] |> blank_thread nest
                end
       end.

(** The reply to an [autoTitle]; [None] for a failure or no title. *)
Definition titled (now : Z) (i : nat) (title : option jstr) (p : Page) : Page :=
  match titling p !! i with
  | None => p
  | Some r =>
      let p := set_titling (without i (titling p)) p in
      match title with
      | None | Some [] => p
      | Some title =>
          p |> set_conversations (map (fun c => if streq (c_id c) (ti_conv r)
                 then mkConv (c_id c) title (c_ts c) (c_model c) (c_messages c) (omittedMessages c) else c) (conversations p))
            |> set_tabs (map (fun b => if streq (tab_id b) (ti_tab r) || bool_decide (tab_currentId b = Some (ti_conv r))
                 then mkTab (tab_id b) title (Some (ti_conv r)) (tab_model b) (tab_settings b) (tab_attachments b) (tab_messages b)
                 else b) (tabs p))
            |> effect (Saved (mkConv (ti_conv r) title now (ti_model r) (forSave (ti_msgs r)) None))
      end
  end.

(** ** The history *)

(** [tab] is the active tab of the render the conversation was picked in. *)
Definition applyConversation (tab : jstr) (conv : Conversation) (p : Page) : Page :=
  p |> set_messages (map fromSaved (c_messages conv)) |> set_currentId (Some (c_id conv))
    |> set_tabs (map (fun b => if streq (tab_id b) tab
         then mkTab (tab_id b) (c_title conv) (Some (c_id conv)) (tab_model b) (tab_settings b) (tab_attachments b) (tab_messages b)
         else b) (tabs p))
    |> set_running (c_model conv) |> clear_thread.
(** A conversation the server only gave the title of is fetched first: that
    part is [conversationLoaded]. *)
Definition selectConversation (conv : Conversation) (p : Page) : Page :=
  match omittedMessages conv with
  | Some true => p
  | _ => applyConversation (activeTabId p) conv p
  end.
Definition conversationLoaded (tab : jstr) (complete : option Conversation) (p : Page) : Page :=
  match complete with
  | None => p
  | Some c =>
      p |> set_conversations (map (fun d => if streq (c_id d) (c_id c) then c else d) (conversations p))
        |> applyConversation tab c
  end.
Definition deleteConversation (id : jstr) (p : Page) : Page :=
  let p := set_conversations (List.filter (fun c => negb (streq (c_id c) id)) (conversations p)) p in
  let p := if nonempty (csrf env) then effect (Removed id) p else p in
  if bool_decide (currentId p = Some id) then set_currentId None p else p.

(** The page once its effects on mount have run: one blank tab. *)
Definition page_start (now : Z) (restored : Settings * Provenance) (seq : nat) : Page :=
  let id := u "tab-" ++ string_of_Z now ++ u "-" ++ string_of_N (N.of_nat (S seq)) in
  let m := default [] (head (runningModels env)) in
  mkPage [] None m restored.1 restored.2 [] [] None None false [] 0 false None
    [mkTab id [] None m restored.1 [] []] id (S seq) [] [] None false [] (mkLive None 0) [].

(** ** The page as a transition system *)

Inductive Event :=
| Delta_ (now : Z) (d : StreamDelta) | Checkpoint (now : Z) | End_ (now : Z) (out : Outcome)
| Send (now : Z) (value : jstr) | SendVoice (now : Z) (text : jstr) | Stop | AnswerNow
| SendQueuedNow (now : Z) (idx : nat) | EditQueued (idx : nat) | DiscardQueued (idx : nat)
| Answer (now : Z) (text : jstr) | RequestFullFile (now : Z) (name : jstr) | ContinueTurn (now : Z)
| RedoFile (now : Z) (name : jstr) | FixError (now : Z) (name message : jstr)
| Regenerate (now : Z) | EditMessage (i : nat)
| HandleInput (v : jstr) | SelectSkill (s : Skill) | Attached (a : Attachment)
| SetModel (m : jstr) | SetSettings (s : Settings) (from : Provenance)
| SwitchTab (id : jstr) | NewTab (now : Z) | CloseTab (now : Z) (id : jstr) | TitleReply (now : Z) (i : nat) (title : option jstr)
| Select (c : Conversation) | ConversationLoaded (tab : jstr) (c : option Conversation) | DeleteConversation (id : jstr).

Definition handle (e : Event) : Page -> Page :=
  match e with
  | Delta_ now d => onDelta now d
  | Checkpoint now => checkpoint now
  | End_ now out => finish now out
  | Send now v => send now v
  | SendVoice now s => sendVoice now s
  | Stop => stop
  | AnswerNow => answerNow
  | SendQueuedNow now i => sendQueuedNow now i
  | EditQueued i => editQueued i
  | DiscardQueued i => discardQueued i
  | Answer now s => answer now s
  | RequestFullFile now n => requestFullFile now n
  | ContinueTurn now => continueTurn now
  | RedoFile now n => redoFile now n
  | FixError now n m => fixError now n m
  | Regenerate now => regenerate now
  | EditMessage i => editMessage i
  | HandleInput v => handleInput v
  | SelectSkill s => selectSkill s
  | Attached a => attached a
  | SetModel m => set_model m
  | SetSettings s from => fun p => p |> set_settings s |> set_provenance from
  | SwitchTab id => switchTab id
  | NewTab now => newTab now
  | CloseTab now id => closeTab now id
  | TitleReply now i ti => titled now i ti
  | Select c => selectConversation c
  | ConversationLoaded tab c => conversationLoaded tab c
  | DeleteConversation id => deleteConversation id
  end.

(** The stream ends by an [AbortError] only when its signal was aborted. *)
Inductive page_step : Page -> Event -> Page -> Prop :=
| step_end p now out :
    (out = Aborted -> exists f, flight p = Some f /\ fl_stop f = true) ->
    page_step p (End_ now out) (finish now out p)
| step_other p e : (forall now out, e <> End_ now out) -> page_step p e (handle e p).
End page.

(** A run and the events it took. *)
Inductive page_run (t : jstr -> jstr) (env : Loaded) : Page -> list Event -> Page -> Prop :=
| run_nil p : page_run t env p [] p
| run_cons p e p1 es p2 : page_step t env p e p1 -> page_run t env p1 es p2 -> page_run t env p (e :: es) p2.

(** Reading a field through the updates. *)
Ltac page_fields :=
  cbn [messages currentId model settings provenance attachments input editingIdx invokedSkill streaming queued
       resumes answering flight tabs activeTabId tabSeq conversations titling artifact watching
       webSteps live effects
       set_messages set_currentId set_model set_settings set_provenance set_attachments set_input set_editingIdx
       set_invokedSkill set_streaming set_queued set_resumes set_answering set_flight set_tabs
       set_activeTabId set_tabSeq set_conversations set_titling set_artifact set_watching set_webSteps
       set_live set_effects
       effect] in *.
