(* ===== verification/PlaygroundSpec.v ===== *)
(** * What the playground page guarantees

    The turn in flight and what it accumulates, the queue, the automatic
    restarts, where an answer is saved and shown, the tabs. *)

From S2P Require Import JsJson JsRegExp Parsers Thread Api Messages Export Skills Preferences Attachments Turn Playground.

(** ** Kinds of events *)

(** The stream's own events; the others are the user's and the network's. *)
Definition machine (e : Event) : bool :=
  match e with Delta_ _ _ | Checkpoint _ | End_ _ _ => true | _ => false end.
Definition is_end (e : Event) : bool := match e with End_ _ _ => true | _ => false end.
Definition starter (e : Event) : bool :=
  match e with
  | Send _ _ | SendVoice _ _ | SendQueuedNow _ _ | Answer _ _ | RequestFullFile _ _ | ContinueTurn _
  | RedoFile _ _ | FixError _ _ _ | Regenerate _ => true
  | _ => false
  end.
(** The events that only touch the composer, the queue or the thread shown. *)
Definition calm (e : Event) : bool :=
  match e with
  | EditQueued _ | DiscardQueued _ | EditMessage _ | HandleInput _ | SelectSkill _ | Attached _ | SetModel _
  | SetSettings _ _ | SwitchTab _ | NewTab _ | CloseTab _ _ | TitleReply _ _ _ | Select _
  | ConversationLoaded _ _ | DeleteConversation _ => true
  | _ => false
  end.

Definition requests (p : Page) : list Request :=
  omap (fun e => match e with Asked q => Some q | _ => None end) (effects p).
Definition saves (p : Page) : list Conversation :=
  omap (fun e => match e with Saved c => Some c | _ => None end) (effects p).

Lemma requests_effect e p : requests (effect e p) = requests p ++ match e with Asked q => [q] | _ => [] end.
Proof. unfold requests, effect. page_fields. rewrite omap_app. by destruct e. Qed.
Lemma saves_effect e p : saves (effect e p) = saves p ++ match e with Saved c => [c] | _ => [] end.
Proof. unfold saves, effect. page_fields. rewrite omap_app. by destruct e. Qed.

Section spec.
Context (t : jstr -> jstr) (env : Loaded).
#[local] Abbreviation runStream := (Playground.runStream t env).
#[local] Abbreviation finish := (Playground.finish t env).
#[local] Abbreviation handle := (Playground.handle t env).
#[local] Abbreviation page_step := (Playground.page_step t env).
#[local] Abbreviation page_run := (Playground.page_run t env).
#[local] Abbreviation what_next := (Playground.what_next t env).
#[local] Abbreviation dispatchQueued := (Playground.dispatchQueued t env).

(** ** A turn begins *)

Definition new_flight (k : Closure) (now : Z) (next : list ChatMsg) (o : Override) (p : Page) : Flight :=
  mkFlight k next o now (next_id (live p)) acc_start (k_currentId k) false.

Lemma runStream_no_model k now next o p : nonempty (k_model k) = false ->
  runStream k now next o p = set_messages (next ++ [plain_msg Assistant (t (u "Aucun modèle actif."))]) p.
Proof. intros H. unfold Playground.runStream. by rewrite H. Qed.

Lemma runStream_starts k now next o p : nonempty (k_model k) = true ->
  let p' := runStream k now next o p in
  flight p' = Some (new_flight k now next o p) /\ streaming p' = true /\ queued p' = queued p /\
  resumes p' = resumes p /\ answering p' = answering p /\
  effects p' = effects p ++ [Asked (request t (k_model k) (k_settings k) (ceiling env (k_model k)) (k_invokedSkill k) next o)].
Proof. intros H p'. unfold p', Playground.runStream. rewrite H. done. Qed.

Lemma runStream_frame k now next o p :
  let p' := runStream k now next o p in
  queued p' = queued p /\ resumes p' = resumes p /\ answering p' = answering p /\ saves p' = saves p /\
  currentId p' = currentId p /\ tabs p' = tabs p /\ activeTabId p' = activeTabId p /\ tabSeq p' = tabSeq p /\
  conversations p' = conversations p /\ artifact p' = artifact p /\ titling p' = titling p.
Proof.
  unfold Playground.runStream. destruct (nonempty (k_model k)); cbn [negb]; [|done].
  cbn [beginLiveTurn]. rewrite saves_effect. page_fields. rewrite app_nil_r. done.
Qed.

(** ** The quiet events *)

Definition control (p : Page) := (flight p, streaming p, resumes p, answering p, live p, requests p).

Ltac split_page :=
  repeat first
    [ progress page_fields
    | match goal with |- context [match ?x with _ => _ end] => destruct x eqn:? end ].

Lemma autoTitle_control r p : control (autoTitle env r p) = control p /\ queued (autoTitle env r p) = queued p.
Proof.
  unfold autoTitle, control. destruct (nonempty (csrf env)); [|done]. rewrite requests_effect. page_fields.
  by rewrite app_nil_r.
Qed.
Lemma restore_control b p : control (restore env b p) = control p.
Proof. unfold restore, set_running, clear_thread, control, requests. by split_page. Qed.

Lemma switchTab_control id p : control (switchTab env id p) = control p.
Proof. unfold switchTab. destruct (_ || _); [done|]. destruct (find_tab _ _); [by rewrite restore_control|done]. Qed.

Lemma closeTab_control now id p : control (closeTab env now id p) = control p.
Proof.
  unfold closeTab. destruct (streaming p); [done|]. destruct (find_index _ _) as [i|]; [|done].
  set (p1 := match tabs p !! i with Some _ => _ | None => _ end).
  assert (E : control p1 = control p).
  { unfold p1. destruct (tabs p !! i) as [b|]; [|done].
    destruct (tab_messages b), (tab_currentId b) as [[]|]; try done. apply autoTitle_control. }
  clearbody p1. destruct (negb _); [done|]. destruct (_ !! _); [by rewrite restore_control|done].
Qed.

Lemma titled_control now i ti p : control (titled now i ti p) = control p.
Proof.
  unfold titled. destruct (_ !! _) as [r|]; [|done]. destruct ti as [[|c ti]|]; [done| |done].
  unfold control. rewrite requests_effect. page_fields. by rewrite app_nil_r.
Qed.

Lemma apply_control tab c p : control (applyConversation env tab c p) = control p.
Proof. unfold applyConversation, set_running, clear_thread, control, requests. by split_page. Qed.

Lemma delete_control id p : control (deleteConversation env id p) = control p.
Proof.
  unfold deleteConversation. set (p1 := set_conversations _ p).
  assert (E : control (if nonempty (csrf env) then effect (Removed id) p1 else p1) = control p).
  { destruct (nonempty _); [|done]. unfold control. rewrite requests_effect. page_fields. by rewrite app_nil_r. }
  by destruct (bool_decide _).
Qed.

Lemma calm_control e p : calm e = true -> control (handle e p) = control p.
Proof.
  intros H. destruct e; try done; cbn [Playground.handle];
    first [apply switchTab_control | apply closeTab_control | apply titled_control | apply delete_control | idtac].
  all: unfold editQueued, editMessage, handleInput, selectSkill, newTab, conversationLoaded, selectConversation.
  all: repeat match goal with |- context [match ?x with _ => _ end] => destruct x eqn:?; try done end.
  all: by rewrite apply_control.
Qed.

(** ** The turn in flight *)

(** The same call of [runStream], further on. *)
Definition same_turn (f g : Flight) : Prop :=
  fl_closure g = fl_closure f /\ fl_next g = fl_next f /\ fl_override g = fl_override f /\
  fl_started g = fl_started f /\ fl_turn g = fl_turn f.
Definition goes_on (o o' : option Flight) : Prop :=
  match o, o' with Some f, Some g => same_turn f g | None, None => True | _, _ => False end.
Lemma goes_on_refl o : goes_on o o.
Proof. by destruct o. Qed.
#[local] Hint Resolve goes_on_refl : core.

(** Nothing of the generation changed but the turn's own variables. *)
Definition undisturbed (p p' : Page) : Prop :=
  goes_on (flight p) (flight p') /\ streaming p' = streaming p /\ resumes p' = resumes p /\
  requests p' = requests p.

Lemma control_undisturbed p p' : control p' = control p -> undisturbed p p' /\ answering p' = answering p.
Proof. unfold control, undisturbed. intros [= -> -> -> -> _ ->]. done. Qed.

Lemma stop_undisturbed p : undisturbed p (stop p).
Proof. unfold undisturbed, stop. destruct (flight p) as [f|] eqn:E; page_fields; by rewrite ?E. Qed.

Lemma updateLast_frame id a p :
  flight (updateLast id a p) = flight p /\ streaming (updateLast id a p) = streaming p /\
  resumes (updateLast id a p) = resumes p /\ effects (updateLast id a p) = effects p /\
  queued (updateLast id a p) = queued p /\ answering (updateLast id a p) = answering p /\
  webSteps (updateLast id a p) = webSteps p.
Proof. done. Qed.

Lemma onDelta_flight now d p f : flight p = Some f ->
  flight (onDelta t now d p) = Some (mkFlight (fl_closure f) (fl_next f) (fl_override f) (fl_started f) (fl_turn f)
     (on_delta t (fl_acc f) d) (fl_liveId f) (fl_stop f || (negb (loopHit (fl_acc f)) && loopHit (on_delta t (fl_acc f) d)))).
Proof. intros E. unfold onDelta. rewrite E. by destruct d as [| | | | | |[]|[]]. Qed.
Lemma onDelta_frame now d p :
  streaming (onDelta t now d p) = streaming p /\ resumes (onDelta t now d p) = resumes p /\
  effects (onDelta t now d p) = effects p /\ queued (onDelta t now d p) = queued p /\
  answering (onDelta t now d p) = answering p /\ currentId (onDelta t now d p) = currentId p /\
  tabs (onDelta t now d p) = tabs p /\ activeTabId (onDelta t now d p) = activeTabId p /\
  tabSeq (onDelta t now d p) = tabSeq p /\ conversations (onDelta t now d p) = conversations p.
Proof. unfold onDelta. destruct (flight p); [|done]. by destruct d as [| | | | | |[]|[]]. Qed.

Lemma onDelta_undisturbed now d p : undisturbed p (onDelta t now d p).
Proof.
  unfold undisturbed, requests. destruct (onDelta_frame now d p) as (-> & -> & -> & _).
  destruct (flight p) as [f|] eqn:E; [by rewrite (onDelta_flight _ _ _ _ E)|]. unfold onDelta. by rewrite E, E.
Qed.

Lemma checkpoint_undisturbed now p : undisturbed p (checkpoint t env now p) /\ queued (checkpoint t env now p) = queued p
  /\ answering (checkpoint t env now p) = answering p.
Proof.
  unfold checkpoint, undisturbed. destruct (flight p) as [f|] eqn:E; [|by rewrite E].
  destruct (_ || _); [by rewrite E|]. unfold requests. page_fields. rewrite omap_app. cbn. by rewrite app_nil_r.
Qed.

(** A handler that starts turns, while one is in flight: the message waits, or
    the turn is asked to stop. *)
Lemma starter_busy e p : starter e = true -> streaming p = true ->
  undisturbed p (handle e p) /\ answering (handle e p) = answering p.
Proof.
  intros He Hs. destruct e; try done; cbn [Playground.handle];
    unfold sendVoice, answer, requestFullFile, continueTurn, redoFile, fixError, regenerate, busy_or_empty; rewrite ?Hs; try done.
  - unfold send. rewrite Hs. destruct (nonempty _), (attachments p); try done; by repeat case_match.
  - unfold sendQueuedNow. destruct (queued p !! idx); [|done]. page_fields. rewrite Hs. split; [|by unfold stop; case_match].
    apply (stop_undisturbed (set_queued _ p)).
Qed.

Lemma snoc_nonempty {A} (l : list A) x : l ++ [x] <> [].
Proof. by destruct l. Qed.

(** The same on a page at rest. *)
Definition starts (p p' : Page) : Prop :=
  exists k now next o q, p' = runStream k now next o q /\ control q = control p /\ queued q = queued p /\ k_model k = model p /\ next <> [].
Lemma start_turn_starts now msgs m o p : starts p (start_turn t env now (msgs ++ [m]) o p).
Proof. exists (closure_of p), now, (msgs ++ [m]), o, (set_messages (msgs ++ [m]) p). repeat split. by destruct msgs. Qed.
#[local] Hint Resolve start_turn_starts : core.

Lemma starter_idle e p : starter e = true -> streaming p = false -> queued p = [] ->
  (control (handle e p) = control p /\ queued (handle e p) = queued p) \/ starts p (handle e p).
Proof.
  intros He Hs Hq. destruct e; try done; cbn [Playground.handle].
  - unfold send. rewrite Hs. destruct (nonempty (trim value)), (attachments p) as [|a r]; [| |by left|];
      repeat case_match; try (by left); right; eexists _, _, _, _, _; (split; [reflexivity|]); repeat split; apply snoc_nonempty.
  - unfold sendVoice. rewrite Hs. cbn [orb]. destruct (negb _); eauto.
  - unfold sendQueuedNow. rewrite Hq. by left.
  - unfold answer. rewrite Hs. destruct (negb _); eauto.
  - unfold requestFullFile. rewrite Hs. eauto.
  - unfold continueTurn. destruct (busy_or_empty p); eauto.
  - unfold redoFile. destruct (busy_or_empty p); eauto.
  - unfold fixError. destruct (busy_or_empty p); eauto.
  - unfold regenerate. rewrite Hs. destruct (last (messages p)) as [m|]; [|by left]. cbv zeta.
    set (base := if bool_decide (role m = Assistant) then removelast (messages p) else messages p). destruct (last base) eqn:E; [|by left]. case_match; [|by left].
    right. eexists _, _, _, _, p. split; [reflexivity|]. repeat split. intros ->. done.
Qed.

(** ** The end of a turn *)

(** What [what_next] does, from the page [q] at rest. *)
Inductive follow_up (now : Z) (f : Flight) (final : list ChatMsg) (q : Page) : Page -> Prop :=
| again_without_thinking : answering q = true ->
    follow_up now f final q (runStream (fl_closure f) now (fl_next f) (mkOverride (Some false) false false) (set_answering false q))
| ask_again_aloud : answering q = false -> o_voice (fl_override f) = true -> o_retried (fl_override f) = false ->
    follow_up now f final q
      (runStream (fl_closure f) now (fl_next f) (mkOverride (o_reasoning (fl_override f)) (o_voice (fl_override f)) true) q)
| restart next : answering q = false -> resumes q < MAX_AUTO_RESUMES ->
    next = fl_next f \/ (exists m, next = final ++ [m] /\ role m = User /\ hidden m = true) ->
    follow_up now f final q (runStream (fl_closure f) now next no_override (set_resumes (S (resumes q)) q))
| send_the_queue : answering q = false -> queued q <> [] ->
    let next := final ++ map queued_msg (queued q) in
    follow_up now f final q
      (runStream (fl_closure f) now next no_override (set_messages next (set_queued [] (set_resumes 0 q))))
| rest : answering q = false -> queued q = [] -> follow_up now f final q (set_resumes 0 q).

Lemma what_next_follows now f final err ab q : follow_up now f final q (what_next now f final err ab q).
Proof.
  unfold Playground.what_next. destruct (answering q) eqn:Ea; [by apply again_without_thinking|].
  destruct (_ && negb (nonempty (reason _))) eqn:E1.
  { bool_norm. by apply ask_again_aloud. }
  destruct (negb ab && abortedTurn _ && _) eqn:E2.
  { bool_norm. apply restart; [done|done|by left]. }
  cbv zeta. destruct (negb ab && (_ || _) && _) eqn:E3.
  { bool_norm. apply restart; [done|done|]. right. by eexists. }
  unfold Playground.dispatchQueued. page_fields. destruct (queued q) as [|m r] eqn:Eq.
  - by apply rest.
  - rewrite <- Eq. apply send_the_queue; [done|]. by rewrite Eq.
Qed.

(** A turn stopped on purpose and not asked again starts nothing by itself. *)
Lemma what_next_stopped now f final err q : answering q = false -> queued q = [] ->
  what_next now f final err true q = set_resumes 0 q.
Proof.
  intros Ea Eq. unfold Playground.what_next. rewrite Ea. cbn [negb]. rewrite !andb_false_r. cbn [andb].
  unfold Playground.dispatchQueued. page_fields. by rewrite Eq.
Qed.

Definition final_of (f : Flight) (out : Outcome) : list ChatMsg :=
  let '(text, isError) := settle t (fl_acc f) out in
  finalMessages (fl_next f) (fl_acc f) text isError (fl_started f).

Definition text_of_end (f : Flight) (out : Outcome) : jstr := (settle t (fl_acc f) out).1.
Definition same_thread (p : Page) (f : Flight) : bool := bool_decide (currentId p = k_currentId (fl_closure f)).

Lemma persist_frame now msgs id m p :
  let '(id', p') := persist t env now msgs id m p in
  flight p' = flight p /\ queued p' = queued p /\ resumes p' = resumes p /\ answering p' = answering p /\
  requests p' = requests p /\ messages p' = messages p /\ currentId p' = currentId p /\ tabs p' = tabs p /\
  activeTabId p' = activeTabId p /\ tabSeq p' = tabSeq p /\ artifact p' = artifact p /\ titling p' = titling p /\
  streaming p' = streaming p /\ live p' = live p.
Proof.
  unfold persist. destruct msgs as [|m0 r]; [done|]. destruct (nonempty (csrf env)); page_fields; [|done].
  unfold requests. page_fields. rewrite omap_app. cbn. by rewrite app_nil_r.
Qed.

Lemma land_frame now f final same art p :
  let q := land t env now f final same art p in
  flight q = None /\ streaming q = false /\ queued q = queued p /\ resumes q = resumes p /\
  answering q = answering p /\ requests q = requests p /\ messages q = messages p /\
  activeTabId q = activeTabId p /\ tabSeq q = tabSeq p /\ titling q = titling p.
Proof.
  unfold land. set (p1 := match art with Some _ => _ | None => _ end).
  assert (E : queued p1 = queued p /\ resumes p1 = resumes p /\ answering p1 = answering p /\ requests p1 = requests p
    /\ messages p1 = messages p /\ activeTabId p1 = activeTabId p /\ tabSeq p1 = tabSeq p /\ titling p1 = titling p).
  { unfold p1. by destruct art, same. }
  clearbody p1. pose proof (persist_frame now final (fl_liveId f) (k_model (fl_closure f)) (set_watching false p1)) as F.
  destruct (persist _ _ _ _ _ _ _) as [id p2]. destruct F as (_ & F1 & F2 & F3 & F4 & F5 & _ & _ & F8 & F9 & _ & F10 & _).
  destruct same; unfold requests in *; page_fields; rewrite ?F1, ?F2, ?F3, ?F4, ?F5, ?F8, ?F9, ?F10;
    by destruct E as (-> & -> & -> & -> & -> & -> & -> & ->).
Qed.

(** A turn ends by an exception of [parseAsk], or by what follows it from a
    page at rest. *)
Lemma finish_cases now out p f : flight p = Some f ->
  let p1 := if same_thread p f then set_messages (final_of f out) p else p in
  (surfaced t (fl_next f) (text_of_end f out) (watching p) (fl_acc f) = None /\ finish now out p = set_flight None p1)
  \/ exists art, surfaced t (fl_next f) (text_of_end f out) (watching p) (fl_acc f) = Some art /\
     finish now out p = what_next now f (final_of f out) (settle t (fl_acc f) out).2 (bool_decide (out = Aborted))
                          (land t env now f (final_of f out) (same_thread p f) art p1).
Proof.
  intros E. unfold Playground.finish, final_of, text_of_end, same_thread. rewrite E.
  destruct (settle t (fl_acc f) out) as [text err]. cbn [fst snd].
  assert (W : forall b, watching (if b : bool then set_messages (finalMessages (fl_next f) (fl_acc f) text err (fl_started f)) p else p) = watching p)
    by (by intros []).
  rewrite W. destruct (surfaced _ _ _ _ _) as [art|]; [right; by exists art|by left].
Qed.

(** ** The invariant *)

Definition ok (p : Page) : Prop :=
  (forall f, flight p = Some f -> streaming p = true /\ nonempty (k_model (fl_closure f)) = true) /\
  (queued p <> [] -> streaming p = true) /\
  resumes p <= MAX_AUTO_RESUMES.

Lemma ok_start now restored seq : ok (page_start env now restored seq).
Proof. repeat split; try done. cbn. lia. Qed.

Lemma ok_runs k now next o p : ok p -> (queued p <> [] -> nonempty (k_model k) = true) -> ok (runStream k now next o p).
Proof.
  intros (H1 & H2 & H3) Hq. destruct (nonempty (k_model k)) eqn:E.
  - destruct (runStream_starts k now next o p E) as (Ef & Es & Eq & Er & _). rewrite <- Er in H3.
    split; [|split]; [|by rewrite Es|done]. intros f. rewrite Ef, Es. intros [= <-]. done.
  - rewrite runStream_no_model by done. done.
Qed.

Lemma ok_same p p' : ok p -> undisturbed p p' -> (queued p' <> [] -> queued p <> [] \/ streaming p = true) -> ok p'.
Proof.
  intros (H1 & H2 & H3) (Hf & Hs & Hr & _) Hq. split; [|split].
  - intros g Hg. rewrite Hg in Hf. destruct (flight p) as [f|]; [|done]. destruct Hf as (-> & _). rewrite Hs. by apply H1.
  - rewrite Hs. intros Hne. destruct (Hq Hne); auto.
  - by rewrite Hr.
Qed.

Lemma ok_follow_up now f final q p' : nonempty (k_model (fl_closure f)) = true -> flight q = None -> resumes q <= MAX_AUTO_RESUMES ->
  follow_up now f final q p' -> ok p'.
Proof.
  intros Hm Hq Hr H.
  assert (R : forall next o p, resumes p <= MAX_AUTO_RESUMES -> ok (runStream (fl_closure f) now next o p)).
  { intros next o p Hp. destruct (runStream_starts (fl_closure f) now next o p Hm) as (Ef & Es & _ & Er & _).
    split; [|split]; [intros g|by rewrite Es|by rewrite Er]. rewrite Ef, Es. intros [= <-]. done. }
  destruct H; try (apply R; page_fields; lia). split; [|split]; page_fields; [by rewrite Hq|by rewrite H0|lia].
Qed.

(** ** The queue *)

(** The contract of the queue: a message joins at the end, moves to the head,
    or leaves; delivery empties it; a change of thread drops it. *)
Inductive OutAct := Submit (m : QueuedMsg) | Promote (i : nat) | Withdraw (i : nat) | Deliver | Discard.
Definition outbox (q : list QueuedMsg) (a : option OutAct) : list QueuedMsg :=
  match a with
  | None => q
  | Some (Submit m) => q ++ [m]
  | Some (Promote i) => match q !! i with Some m => m :: without i q | None => q end
  | Some (Withdraw i) => without i q
  | Some (Deliver | Discard) => []
  end.

Definition changes_thread (e : Event) : bool :=
  match e with
  | SwitchTab _ | NewTab _ | CloseTab _ _ | Select _ | ConversationLoaded _ _ => true
  | _ => false
  end.
(** What the composer has to send: the text, the files in it, and the images
    when the model reads them. *)
Definition composed (p : Page) (now : Z) (value : jstr) : option QueuedMsg :=
  let files := List.filter (fun a => negb (nonempty (at_image a))) (attachments p) in
  let images := if existsb (streq (model p)) (modelVision env)
                then List.filter nonempty (map at_image (attachments p)) else [] in
  if nonempty (trim value) || negb (bool_decide (files = [])) || negb (bool_decide (images = []))
  then Some (mkQueued (full_text (trim value) files) (trim value) images now) else None.
(** The questionnaire of the answer cannot be read: [parseAsk] throws. *)
Definition unreadable (p : Page) (f : Flight) (out : Outcome) : bool :=
  match surfaced t (fl_next f) (text_of_end f out) (watching p) (fl_acc f) with None => true | Some _ => false end.

(** The queue at the end of the turn [f]: delivered by the one request that
    follows; or kept, for a turn that carries the same request on, or because
    the answer's questionnaire blocked the page. *)
Definition allowed_end (p : Page) (f : Flight) (out : Outcome) (p' : Page) (a : option OutAct) : Prop :=
  match a with
  | Some Deliver => queued p <> [] /\ exists g r,
      flight p' = Some g /\ fl_next g = final_of f out ++ map queued_msg (queued p) /\ requests p' = requests p ++ [r]
  | None =>
      unreadable p f out = true /\ flight p' = None
      \/ unreadable p f out = false /\ queued p = [] /\ flight p' = None
      \/ unreadable p f out = false /\ exists g, flight p' = Some g /\
         (fl_next g = fl_next f \/ exists m, fl_next g = final_of f out ++ [m] /\ hidden m = true)
  | _ => False
  end.
(** The action each event takes on the queue. *)
Definition allowed (p : Page) (e : Event) (p' : Page) (a : option OutAct) : Prop :=
  match e with
  | Send now v => a = if streaming p then Submit <$> composed p now v else None
  | SendQueuedNow _ i => a = match queued p !! i with Some _ => Some (Promote i) | None => None end
  | EditQueued i | DiscardQueued i => a = Some (Withdraw i)
  | End_ _ out => match flight p with Some f => allowed_end p f out p' a | None => a = None end
  | _ =>
      if changes_thread e
      then a = Some Discard \/ a = None /\ messages p' = messages p /\ currentId p' = currentId p
      else a = None
  end.

Lemma without_ge {A} i (l : list A) : l !! i = None -> without i l = l.
Proof. intros H%lookup_ge_None. unfold without. rewrite take_ge, drop_ge by lia. apply app_nil_r. Qed.

Lemma restore_queued b p : queued (restore env b p) = [].
Proof. done. Qed.

Lemma autoTitle_screen r p : messages (autoTitle env r p) = messages p /\ currentId (autoTitle env r p) = currentId p.
Proof. unfold autoTitle. by case_match. Qed.

Lemma thread_queue e p : changes_thread e = true ->
  queued (handle e p) = [] \/
  queued (handle e p) = queued p /\ messages (handle e p) = messages p /\ currentId (handle e p) = currentId p.
Proof.
  intros H. destruct e; try done; cbn [Playground.handle].
  - unfold switchTab. destruct (_ || _); [by right|]. destruct (find_tab _ _); [by left|by right].
  - unfold newTab. destruct (streaming p); [by right|by left].
  - unfold closeTab. destruct (streaming p); [by right|]. destruct (find_index _ _) as [i|]; [|by right].
    set (p1 := match tabs p !! i with Some _ => _ | None => _ end).
    assert (E : queued p1 = queued p /\ messages p1 = messages p /\ currentId p1 = currentId p).
    { unfold p1. destruct (tabs p !! i) as [b|]; [|done]. destruct (tab_messages b), (tab_currentId b) as [[]|]; try done.
      split; [apply autoTitle_control|apply autoTitle_screen]. }
    clearbody p1. destruct (negb _); [by right|]. destruct (_ !! _); by left.
  - unfold selectConversation. destruct (omittedMessages c) as [[]|]; [by right|by left..].
  - unfold conversationLoaded. destruct c; [by left|by right].
Qed.

Lemma calm_queue e p : calm e = true -> exists a, queued (handle e p) = outbox (queued p) a /\ allowed p e (handle e p) a.
Proof.
  assert (D : forall x, changes_thread x = true -> allowed p x (handle x p) = (fun a =>
      a = Some Discard \/ a = None /\ messages (handle x p) = messages p /\ currentId (handle x p) = currentId p) ->
    exists a, queued (handle x p) = outbox (queued p) a /\ allowed p x (handle x p) a).
  { intros x Hx ->. destruct (thread_queue x p Hx) as [E|E]; [exists (Some Discard)|exists None]; (split; [apply E|]).
    - by left.
    - right. split; [done|apply E]. }
  intros H. destruct e; try done; try (by apply D); cbn [Playground.handle]; try (by exists None).
  - exists (Some (Withdraw idx)). split; [|done]. unfold editQueued. destruct (queued p !! idx) eqn:E; [done|].
    cbn [outbox]. by rewrite without_ge.
  - by exists (Some (Withdraw idx)).
  - exists None. split; [|done]. unfold editMessage. by repeat case_match.
  - exists None. split; [|done]. unfold handleInput. by case_match.
  - exists None. split; [|done]. unfold selectSkill. repeat case_match; done.
  - exists None. split; [|done]. unfold titled. by repeat case_match.
  - exists None. split; [|done]. unfold deleteConversation. by repeat case_match.
Qed.

Lemma send_busy now v p : streaming p = true ->
  queued (send t env now v p) = outbox (queued p) (Submit <$> composed p now v).
Proof.
  intros Hs. unfold send, composed. rewrite Hs. destruct (attachments p) as [|a l] eqn:E; cbv zeta.
  { cbn [List.filter map]. assert (X : (if existsb (streq (model p)) (modelVision env) then @nil jstr else []) = []) by (by case_match).
    rewrite X. destruct (nonempty (trim v)) eqn:T; [done|]. by rewrite !bool_decide_eq_true_2. }
  rewrite <- E. set (files := List.filter _ _). set (imgs := if existsb _ _ then _ else _).
  destruct (nonempty (trim v)); [done|]. by destruct files, imgs.
Qed.

Lemma starter_queue e p : ok p -> starter e = true ->
  exists a, queued (handle e p) = outbox (queued p) a /\ allowed p e (handle e p) a.
Proof.
  intros (_ & H2 & _) He. destruct (streaming p) eqn:Hs.
  - destruct e; try done; cbn [Playground.handle allowed];
      unfold sendVoice, answer, requestFullFile, continueTurn, redoFile, fixError, regenerate, busy_or_empty; rewrite ?Hs;
      try (by exists None).
    + eexists. split; [by apply send_busy|done].
    + unfold sendQueuedNow. destruct (queued p !! idx) eqn:E; [|by exists None]. page_fields. rewrite Hs.
      exists (Some (Promote idx)). split; [|done]. cbn [outbox]. rewrite E. unfold stop. by case_match.
  - assert (Hq : queued p = []) by (destruct (queued p) as [|m q]; [done|]; discriminate (H2 ltac:(done))).
    exists None. split; [|].
    + cbn [outbox]. destruct (starter_idle e p He Hs Hq) as [[_ ?]|(k & now & next & o & q & -> & _ & ? & _)]; [done|].
      destruct (runStream_frame k now next o q) as (-> & _). done.
    + destruct e; try done; cbn [allowed]; [by rewrite Hs|by rewrite Hq].
Qed.

Lemma follow_up_queue now f final q p' : nonempty (k_model (fl_closure f)) = true -> flight q = None ->
  follow_up now f final q p' ->
  queued p' = queued q /\
    (queued q = [] /\ flight p' = None \/
     exists g, flight p' = Some g /\ (fl_next g = fl_next f \/ exists m, fl_next g = final ++ [m] /\ hidden m = true)) \/
  queued p' = [] /\ queued q <> [] /\ exists g r, flight p' = Some g /\ fl_next g = final ++ map queued_msg (queued q) /\
    requests p' = requests q ++ [r].
Proof.
  intros Hm Hq H. destruct H as [Ha|Ha Hv Hn|next Ha Hr Hn|Ha Hne next|Ha He].
  1-3: left; match goal with |- queued (runStream ?k ?n ?x ?o ?p) = _ /\ _ =>
         destruct (runStream_starts k n x o p Hm) as (E & _ & -> & _) end;
       split; [done|]; right; eexists; (split; [exact E|]); auto.
  - destruct Hn as [->|(m & -> & _ & Hh)]; [by left|right; by exists m].
  - right. destruct (runStream_starts (fl_closure f) now next no_override (set_messages next (set_queued [] (set_resumes 0 q))) Hm)
      as (E & _ & -> & _ & _ & R).
    split; [done|]. split; [done|]. eexists _, _. split; [exact E|]. split; [done|]. unfold requests at 1. rewrite R, omap_app. done.
  - left. split; [done|]. by left.
Qed.

Lemma finish_queue now out p : ok p -> exists a, queued (finish now out p) = outbox (queued p) a /\
  allowed p (End_ now out) (finish now out p) a.
Proof.
  intros (H1 & _ & _). unfold allowed. destruct (flight p) as [f|] eqn:E; [|exists None; unfold Playground.finish; by rewrite E].
  destruct (H1 f eq_refl) as [_ Hm]. set (p1 := if same_thread p f then set_messages (final_of f out) p else p).
  assert (Q : queued p1 = queued p /\ requests p1 = requests p) by (unfold p1; by case_match). destruct Q as [Q Q'].
  destruct (finish_cases now out p f E) as [[S F]|(art & S & F)]; cbv zeta in F; fold p1 in F; rewrite F.
  { exists None. split; [exact Q|]. left. unfold unreadable. by rewrite S. }
  assert (U : unreadable p f out = false) by (unfold unreadable; by rewrite S).
  destruct (land_frame now f (final_of f out) (same_thread p f) art p1) as (L0 & _ & L & _ & _ & L' & _).
  rewrite Q in L. rewrite Q' in L'.
  destruct (follow_up_queue _ _ _ _ _ Hm L0 (what_next_follows now f (final_of f out) (settle t (fl_acc f) out).2
     (bool_decide (out = Aborted)) (land t env now f (final_of f out) (same_thread p f) art p1))) as [[-> K]|(-> & Hne & g & r & D)].
  - exists None. rewrite L in *. split; [done|]. right. destruct K as [[? ?]|?]; [left|right]; done.
  - rewrite L, L' in *. exists (Some Deliver). split; [done|]. split; [done|]. by exists g, r.
Qed.

Lemma step_queue p e p' : ok p -> page_step p e p' -> exists a, queued p' = outbox (queued p) a /\ allowed p e p' a.
Proof.
  intros H Hs. destruct Hs as [p now out _|p e Hn]; [by apply finish_queue|].
  destruct (starter e) eqn:Es; [by apply starter_queue|]. destruct (calm e) eqn:Ec; [by apply calm_queue|].
  exists None. split; [|destruct e; try done; by destruct (Hn now out)]. destruct e; try done; cbn [Playground.handle outbox].
  - apply onDelta_frame.
  - apply checkpoint_undisturbed.
  - by destruct (Hn now out).
  - unfold stop. by case_match.
  - unfold answerNow. case_match; [done|]. unfold stop. page_fields. by case_match.
Qed.

(** ** One turn at a time *)

Lemma other_undisturbed p e : ok p -> is_end e = false -> streaming p = true -> undisturbed p (handle e p).
Proof.
  intros Ho He Hs. destruct (starter e) eqn:Es; [by apply starter_busy|].
  destruct (calm e) eqn:Ec; [by apply control_undisturbed, calm_control|].
  destruct e; try done; cbn [Playground.handle].
  - apply onDelta_undisturbed.
  - apply checkpoint_undisturbed.
  - apply stop_undisturbed.
  - unfold answerNow. case_match; [by repeat split|]. apply (stop_undisturbed (set_answering true p)).
Qed.

Lemma idle_undisturbed p e : starter e = false -> is_end e = false -> streaming p = false -> undisturbed p (handle e p).
Proof.
  intros Es He Hs. destruct (calm e) eqn:Ec; [by apply control_undisturbed, calm_control|].
  destruct e; try done; cbn [Playground.handle].
  - apply onDelta_undisturbed.
  - apply checkpoint_undisturbed.
  - apply stop_undisturbed.
  - unfold answerNow. rewrite Hs. by repeat split.
Qed.

Lemma ok_step p e p' : ok p -> page_step p e p' -> ok p'.
Proof.
  intros Ho Hstep. destruct (step_queue p e p' Ho Hstep) as (a & Hq & Ha). destruct Hstep as [p now out _|p e Hn].
  - destruct (flight p) as [f|] eqn:E; [|unfold Playground.finish; by rewrite E].
    pose proof Ho as (H1 & H2 & H3). destruct (H1 f E) as [Hs Hm].
    set (p1 := if same_thread p f then set_messages (final_of f out) p else p).
    assert (P : streaming p1 = streaming p /\ queued p1 = queued p /\ resumes p1 = resumes p) by (unfold p1; by case_match).
    destruct P as (P1 & P2 & P3).
    destruct (finish_cases now out p f E) as [[_ F]|(art & _ & F)]; cbv zeta in F; fold p1 in F; rewrite F.
    + split; [done|]. split; page_fields; [by rewrite P1|by rewrite P3].
    + destruct (land_frame now f (final_of f out) (same_thread p f) art p1) as (L1 & _ & _ & L3 & _).
      eapply ok_follow_up; [exact Hm|exact L1| |apply what_next_follows]. rewrite L3, P3. exact H3.
  - assert (He : is_end e = false) by (destruct e; try done; by destruct (Hn now out)).
    destruct (streaming p) eqn:Hs.
    + apply (ok_same p); [done|by apply other_undisturbed|]. by right.
    + pose proof Ho as (H1 & H2 & H3).
      assert (Hq0 : queued p = []) by (destruct (queued p) as [|m q]; [done|]; specialize (H2 ltac:(done)); congruence).
      assert (Hfl : flight p = None) by (destruct (flight p) as [f|]; [|done]; destruct (H1 f eq_refl); congruence).
      destruct (starter e) eqn:Es.
      * destruct (starter_idle e p Es Hs Hq0) as [[C Q]|(k & nw & next & o & q & E & C & Q & _)].
        -- apply (ok_same p); [done|by apply control_undisturbed|]. rewrite Q, Hq0. done.
        -- rewrite E in *. apply ok_runs; [|by rewrite Q, Hq0]. apply (ok_same p); [done|by apply control_undisturbed|]. by rewrite Q, Hq0.
      * assert (U : undisturbed p (handle e p)) by (by apply idle_undisturbed).
        apply (ok_same p); [done|exact U|]. rewrite Hq, Hq0. intros Hne. right.
        destruct a as [[]|]; cbn [outbox] in Hne; rewrite ?without_ge in Hne by apply lookup_nil; try done.
        destruct e; try done; cbn [allowed changes_thread] in Ha; try done; by destruct Ha as [?|[? _]].
Qed.

Lemma ok_run p es p' : ok p -> page_run p es p' -> ok p'.
Proof. intros H R. induction R; [done|]. eauto using ok_step. Qed.

Definition reachable (p : Page) : Prop :=
  exists now restored seq es, page_run (page_start env now restored seq) es p.

(** Every turn asks about a thread that is not empty. *)
Definition asked (p : Page) : Prop := forall f, flight p = Some f -> fl_next f <> [].
Lemma asked_same p p' : asked p -> goes_on (flight p) (flight p') -> asked p'.
Proof.
  intros H G g Hg. rewrite Hg in G. destruct (flight p) as [f|] eqn:E; [|done]. destruct G as (_ & -> & _). by apply H.
Qed.
Lemma asked_runs k now next o p : asked p -> next <> [] -> asked (runStream k now next o p).
Proof.
  intros H Hn. destruct (nonempty (k_model k)) eqn:E; [|by rewrite runStream_no_model].
  intros g. rewrite (proj1 (runStream_starts k now next o p E)). by intros [= <-].
Qed.
Lemma asked_step p e p' : ok p -> asked p -> page_step p e p' -> asked p'.
Proof.
  intros Ho Ha Hstep. destruct Hstep as [p now out _|p e Hn].
  - destruct (flight p) as [f|] eqn:E; [|unfold Playground.finish; by rewrite E]. pose proof (Ha f E) as Hf.
    destruct (finish_cases now out p f E) as [[_ F]|(art & _ & F)]; cbv zeta in F; rewrite F; [done|].
    set (q := land _ _ _ _ _ _ _ _). assert (Q : asked q) by (unfold asked; unfold q at 1; by rewrite (proj1 (land_frame _ _ _ _ _ _))).
    destruct (what_next_follows now f (final_of f out) (settle t (fl_acc f) out).2 (bool_decide (out = Aborted)) q) as [?|???|next ?? [->|(m & -> & _)]|??|??];
      first [exact Q|apply asked_runs; [exact Q|try done]]; [by destruct (final_of f out)|].
    intros [_ W%map_eq_nil]%app_eq_nil. done.
  - assert (He : is_end e = false) by (destruct e; try done; by destruct (Hn now out)). destruct (streaming p) eqn:Hs.
    + eapply asked_same; [done|by apply other_undisturbed].
    + destruct (starter e) eqn:Es; [|eapply asked_same; [done|by apply idle_undisturbed]].
      assert (Hq0 : queued p = []) by (destruct Ho as (_ & H2 & _); destruct (queued p); [done|]; specialize (H2 ltac:(done)); congruence).
      destruct (starter_idle e p Es Hs Hq0) as [[C Q]|(k & nw & next & o & q & E & C & Q & _ & Hne)].
      * eapply asked_same; [done|]. by apply control_undisturbed.
      * rewrite E. apply asked_runs; [|done]. eapply asked_same; [done|]. by apply control_undisturbed.
Qed.
Lemma reachable_asked p : reachable p -> asked p.
Proof.
  intros (now & restored & seq & es & R). pose proof (ok_start now restored seq) as Ho.
  assert (Ha : asked (page_start env now restored seq)) by done.
  revert Ho Ha. induction R; [done|]. eauto using ok_step, asked_step.
Qed.

Lemma reachable_ok p : reachable p -> ok p.
Proof. intros (now & restored & seq & es & H). eapply ok_run; [apply ok_start|exact H]. Qed.

(** C3: While an answer is being generated nothing else starts a turn: whatever
    the user does (send, answer a question, resume, switch tabs, open another
    conversation…), the turn in flight stays the same call, no request leaves
    the page, and the page still shows itself as streaming. *)
Theorem one_turn_at_a_time p e p' f : reachable p -> flight p = Some f -> page_step p e p' -> is_end e = false ->
  exists g, flight p' = Some g /\ same_turn f g /\ requests p' = requests p /\ streaming p' = true.
Proof.
  intros Hr Hf Hs He. pose proof (reachable_ok p Hr) as Ho. destruct (proj1 Ho f Hf) as [Hst _].
  destruct Hs as [q now out _|q e Hn]; [done|].
  destruct (other_undisturbed q e Ho He Hst) as (G & E & _ & R). rewrite Hf in G.
  destruct (flight (handle e q)) as [g|]; [|done]. exists g. rewrite E. done.
Qed.

(** C1: The queue keeps its contract, event by event.  Sending during an answer
    puts what the composer holds (text, files, images the model reads) at the
    end of the queue, and nothing when it holds nothing; « Envoyer » brings a
    waiting message to the head; « Modifier » and the trash take one out; no
    other event of the user or of the stream changes it, except that leaving
    the conversation drops it.  At the end of a turn it is delivered: the queue
    is then empty and one request has left, whose thread is the turn's final
    thread followed by every waiting message in order.  It is kept only when
    the page carries the same request on by itself (the turn asked again, or a
    hidden message asking for the rest of a file) or when the answer's
    questionnaire cannot be read. *)
Theorem queue_refines_outbox p e p' : reachable p -> page_step p e p' ->
  exists a, queued p' = outbox (queued p) a /\ allowed p e p' a.
Proof. intros Hr. by apply step_queue, reachable_ok. Qed.

(** ** The page comes to rest *)

(** How many ends of stream the turn in flight can still lead to. *)
Definition turns_left (p : Page) : nat :=
  match flight p with
  | None => 0
  | Some f => S (MAX_AUTO_RESUMES - resumes p) + (if answering p then 1 else 0)
              + (if o_voice (fl_override f) && negb (o_retried (fl_override f)) then 1 else 0)
              + (if bool_decide (queued p = []) then 0 else S MAX_AUTO_RESUMES)
  end.

Lemma turns_left_runs k now next o p : nonempty (k_model k) = true ->
  turns_left (runStream k now next o p) =
    S (MAX_AUTO_RESUMES - resumes p) + (if answering p then 1 else 0)
    + (if o_voice o && negb (o_retried o) then 1 else 0) + (if bool_decide (queued p = []) then 0 else S MAX_AUTO_RESUMES).
Proof.
  intros H. unfold turns_left. destruct (runStream_starts k now next o p H) as (-> & _ & -> & -> & -> & _). done.
Qed.

Lemma follow_up_turns now f final q p' : nonempty (k_model (fl_closure f)) = true -> flight q = None -> resumes q <= MAX_AUTO_RESUMES ->
  follow_up now f final q p' ->
  turns_left p' < S (MAX_AUTO_RESUMES - resumes q) + (if answering q then 1 else 0)
     + (if o_voice (fl_override f) && negb (o_retried (fl_override f)) then 1 else 0)
     + (if bool_decide (queued q = []) then 0 else S MAX_AUTO_RESUMES).
Proof.
  intros Hm Hq Hr H. destruct H as [Ha|Ha Hv Ht|next Ha Hlt _|Ha Hne next|Ha Hn].
  - rewrite turns_left_runs by done. page_fields. rewrite Ha. cbn [o_voice o_retried andb]. lia.
  - rewrite turns_left_runs by done. rewrite Ha, Hv, Ht. cbn [o_voice o_retried andb negb]. lia.
  - rewrite turns_left_runs by done. page_fields. rewrite Ha. cbn [o_voice no_override andb]. lia.
  - rewrite turns_left_runs by done. page_fields. rewrite Ha, (bool_decide_eq_false_2 (queued q = [])) by done.
    rewrite bool_decide_eq_true_2 by done. cbn [o_voice no_override andb]. lia.
  - unfold turns_left. page_fields. rewrite Hq. lia.
Qed.

Lemma end_turns now out p f : ok p -> flight p = Some f -> turns_left (finish now out p) < turns_left p.
Proof.
  intros (H1 & _ & H3) E. destruct (H1 f E) as [_ Hm].
  set (p1 := if same_thread p f then set_messages (final_of f out) p else p).
  assert (P : queued p1 = queued p /\ resumes p1 = resumes p /\ answering p1 = answering p) by (unfold p1; by case_match).
  destruct P as (P2 & P3 & P4). unfold turns_left at 2. rewrite E.
  destruct (finish_cases now out p f E) as [[_ F]|(art & _ & F)]; cbv zeta in F; fold p1 in F; rewrite F; [unfold turns_left; page_fields; lia|].
  destruct (land_frame now f (final_of f out) (same_thread p f) art p1) as (L1 & _ & L2 & L3 & L4 & _).
  rewrite <- P2, <- L2, <- P3, <- L3, <- P4, <- L4.
  eapply follow_up_turns; [done|done| |apply what_next_follows]. by rewrite L3, P3.
Qed.

Lemma stream_turns p e p' : page_step p e p' -> machine e = true -> is_end e = false -> turns_left p' = turns_left p.
Proof.
  intros Hs Hm He. destruct Hs as [p now out _|p e Hn]; [done|]. unfold turns_left.
  destruct e; try done; cbn [Playground.handle].
  - destruct (onDelta_undisturbed now d p) as (G & _ & R & _). destruct (onDelta_frame now d p) as (_ & _ & _ & -> & -> & _).
    rewrite R. destruct (flight p), (flight (onDelta _ _ _ _)); try done. by destruct G as (_ & _ & -> & _).
  - destruct (checkpoint_undisturbed now p) as ((G & _ & R & _) & -> & ->).
    rewrite R. destruct (flight p), (flight (checkpoint _ _ _ _)); try done. by destruct G as (_ & _ & -> & _).
Qed.

Definition ends (es : list Event) : nat := length (List.filter is_end es).

(** The ends of a run of the stream on which [parseAsk] throws. *)
Definition throws (p : Page) (e : Event) : bool :=
  match e, flight p with End_ _ out, Some f => unreadable p f out | _, _ => false end.
Fixpoint throws_run (p : Page) (es : list Event) : bool :=
  match es with [] => false | e :: r => throws p e || throws_run (handle e p) r end.

Lemma step_handle p e p' : page_step p e p' -> p' = handle e p.
Proof. by intros []. Qed.

(** Without a turn the stream has nothing to do. *)
Lemma idle_run p es p' : page_run p es p' -> flight p = None -> forallb machine es = true ->
  p' = p /\ throws_run p es = false.
Proof.
  intros R. induction R as [p|p e p1 es p2 Hs R IH]; intros E Hes; [done|]. cbn [forallb] in Hes. bool_norm.
  apply step_handle in Hs.
  assert (X : handle e p = p).
  { destruct e; try done; cbn [Playground.handle]; unfold onDelta, checkpoint, Playground.finish; by rewrite E. }
  rewrite X in Hs. subst p1. cbn [throws_run]. rewrite X. unfold throws at 1. rewrite E. destruct (IH E) as [-> ->]; [done|].
  split; [done|]. by destruct e.
Qed.

Lemma machine_goes_on p e p' f : ok p -> flight p = Some f -> page_step p e p' -> machine e = true -> is_end e = false ->
  exists g, flight p' = Some g /\ same_turn f g.
Proof.
  intros Ho Hf Hs Hm He. destruct Hs as [q now out _|q e Hn]; [done|].
  destruct (other_undisturbed q e Ho He (proj1 (proj1 Ho f Hf))) as (G & _). rewrite Hf in G.
  destruct (flight (handle e q)) as [g|]; [by exists g|done].
Qed.

(** After an end the page is streaming exactly when a turn is in flight,
    unless the end threw. *)
Lemma finish_streaming now out p f : ok p -> flight p = Some f ->
  let p' := finish now out p in
  if unreadable p f out then flight p' = None /\ streaming p' = true
  else match flight p' with Some _ => True | None => streaming p' = false end.
Proof.
  intros (H1 & _) E. destruct (H1 f E) as [Hst Hm]. cbv zeta.
  set (p1 := if same_thread p f then set_messages (final_of f out) p else p).
  assert (P : streaming p1 = streaming p) by (unfold p1; by case_match).
  destruct (finish_cases now out p f E) as [[S F]|(art & S & F)]; cbv zeta in F; fold p1 in F; rewrite F; unfold unreadable; rewrite S.
  { split; [done|]. page_fields. by rewrite P. }
  destruct (land_frame now f (final_of f out) (same_thread p f) art p1) as (L1 & L2 & _).
  destruct (what_next_follows now f (final_of f out) (settle t (fl_acc f) out).2 (bool_decide (out = Aborted))
    (land t env now f (final_of f out) (same_thread p f) art p1)) as [?|???|next ???|??|??];
    try (match goal with |- match flight (runStream ?k ?n ?x ?o ?q) with _ => _ end => by destruct (runStream_starts k n x o q Hm) as (-> & _) end).
  page_fields. by rewrite L1, L2.
Qed.

Lemma machine_streaming p es p' : page_run p es p' -> ok p -> forallb machine es = true -> flight p <> None ->
  flight p' = None -> streaming p' = throws_run p es.
Proof.
  intros R. induction R as [p|p e p1 es p2 Hs R IH]; intros Ho Hes Hf Hend; [done|]. cbn [forallb] in Hes. bool_norm.
  destruct (flight p) as [f|] eqn:E; [|done]. cbn [throws_run]. pose proof (step_handle _ _ _ Hs) as X. rewrite <- X.
  assert (Ho1 : ok p1) by (by eapply ok_step).
  destruct (is_end e) eqn:Ee.
  - assert (Ex : exists now out, e = End_ now out) by (destruct e; try done; by eexists _, _).
    destruct Ex as (now & out & ->).
    pose proof (finish_streaming now out p f Ho E) as K. cbv zeta in K. cbn [Playground.handle] in X. rewrite <- X in K.
    unfold throws. rewrite E. destruct (unreadable p f out) eqn:U.
    + destruct K as [K1 K2]. destruct (idle_run _ _ _ R K1) as [-> ->]; [done|]. by rewrite K2.
    + destruct (flight p1) eqn:E1; [by apply IH|]. destruct (idle_run _ _ _ R E1) as [-> ->]; [done|]. by rewrite K.
  - destruct (machine_goes_on p e p1 f Ho E Hs) as (g & Hg & _); [done|done|].
    assert (T : throws p e = false) by (by destruct e). rewrite T. apply IH; [done|done|by rewrite Hg|done].
Qed.

Lemma run_flight_ends p es p' : page_run p es p' -> ok p -> forallb machine es = true -> turns_left p <= ends es ->
  flight p' = None.
Proof.
  intros R. induction R as [p|p e p1 es p2 Hs R IH]; intros Ho Hes Hle.
  - unfold turns_left, ends in Hle. cbn in Hle. destruct (flight p); [lia|done].
  - cbn [forallb] in Hes. bool_norm. apply IH; [by eapply ok_step|done|]. unfold ends in *. cbn [List.filter] in Hle.
    destruct (is_end e) eqn:Ee; [|by rewrite (stream_turns _ _ _ Hs)]. cbn [length] in Hle.
    destruct Hs as [p now out _|p e Hn]; [|destruct e; try done; by destruct (Hn now out)].
    destruct (flight p) as [f|] eqn:E.
    + pose proof (end_turns now out p f Ho E). lia.
    + unfold Playground.finish. rewrite E. unfold turns_left. rewrite E. lia.
Qed.

(** C2: The page comes back to the user by itself: from any reachable page with
    a turn in flight, if the user does nothing more, the chain of automatic
    turns (resumes of an unfinished file, redone turns, the retry of an empty
    spoken turn, « Répondre maintenant », the delivery of the queue) is over
    after at most [turns_left] streams have ended, and that is never more than
    24.  Then no turn is in flight, nothing waits in the queue and the page no
    longer shows itself as streaming; the one exception is an answer whose
    questionnaire cannot be read, on which the page stays blocked. *)
Theorem page_comes_to_rest p f es p' : reachable p -> flight p = Some f -> page_run p es p' ->
  forallb machine es = true -> turns_left p <= ends es ->
  turns_left p <= 2 * MAX_AUTO_RESUMES + 4 /\ flight p' = None /\ streaming p' = throws_run p es /\
  (throws_run p es = false -> queued p' = []).
Proof.
  intros Hr Hf Hrun Hes Hle. pose proof (reachable_ok p Hr) as Ho.
  assert (E : flight p' = None) by (by eapply run_flight_ends).
  assert (S : streaming p' = throws_run p es) by (eapply machine_streaming; by rewrite ?Hf).
  split; [|split; [done|split; [done|]]].
  - unfold turns_left. rewrite Hf. repeat case_match; lia.
  - intros T. rewrite T in S. destruct (ok_run _ _ _ Ho Hrun) as (_ & Q & _).
    destruct (queued p') as [|m q]; [done|]. specialize (Q ltac:(done)). congruence.
Qed.

(** A run of the stream that ends nothing. *)
Lemma stream_run p es p' f : page_run p es p' -> ok p -> flight p = Some f -> fl_stop f = true ->
  forallb (fun e => machine e && negb (is_end e)) es = true ->
  exists g, flight p' = Some g /\ same_turn f g /\ fl_stop g = true /\ requests p' = requests p /\ queued p' = queued p /\
    answering p' = answering p.
Proof.
  intros R. revert f. induction R as [p|p e p1 es p2 Hs R IH]; intros f Ho Hf Hst Hes; [by exists f|].
  cbn [forallb] in Hes. bool_norm. assert (Ho1 : ok p1) by (by eapply ok_step).
  assert (K : exists g, flight p1 = Some g /\ same_turn f g /\ fl_stop g = true /\ requests p1 = requests p /\
    queued p1 = queued p /\ answering p1 = answering p).
  { rewrite (step_handle _ _ _ Hs). destruct e; try done; cbn [Playground.handle].
    - destruct (onDelta_frame now d p) as (_ & _ & R1 & R2 & R3 & _). eexists. split; [by apply onDelta_flight|].
      split; [done|]. split; [by cbn; rewrite Hst|]. unfold requests. by rewrite R1, R2, R3.
    - destruct (checkpoint_undisturbed now p) as ((_ & _ & _ & R1) & R2 & R3). rewrite R1, R2, R3.
      unfold checkpoint. rewrite Hf. destruct (_ || _); [by exists f|]. by eexists. }
  destruct K as (g & Hg & S1 & S2 & S3 & S4 & S5). destruct (IH g Ho1 Hg S2) as (h & Hh & T1 & T2 & T3 & T4 & T5); [done|].
  exists h. split; [done|]. split; [|by rewrite T3, T4, T5].
  destruct S1 as (A1 & A2 & A3 & A4 & A5), T1 as (B1 & B2 & B3 & B4 & B5). repeat split; congruence.
Qed.

(** C5: Stop is final.  The stop button marks the turn in flight as aborted, and
    whatever the stream still brings, it can then end on that abort; when it
    does, with nothing in the queue and no « Répondre maintenant », the page
    asks for nothing more, however unfinished the file the answer was writing:
    no request has left since the click and no turn is in flight.  Unless the
    questionnaire the answer ends with cannot be read, the page is then at rest
    and the count of resumes starts again. *)
Theorem stop_is_final p f es p1 now : reachable p -> flight p = Some f -> queued p = [] -> answering p = false ->
  page_run (handle Stop p) es p1 -> forallb (fun e => machine e && negb (is_end e)) es = true ->
  let p' := finish now Aborted p1 in
  page_step p1 (End_ now Aborted) p' /\
  flight p' = None /\ requests p' = requests p /\ queued p' = [] /\
  exists g, flight p1 = Some g /\ same_turn f g /\
    (unreadable p1 g Aborted = false -> streaming p' = false /\ resumes p' = 0).
Proof.
  intros Hr E Hq Ha R Hes. cbv zeta. pose proof (reachable_ok p Hr) as Ho.
  assert (Os : ok (handle Stop p)) by (eapply ok_step; [exact Ho|by apply step_other]).
  cbn [Playground.handle] in *.
  assert (K : exists h, flight (stop p) = Some h /\ same_turn f h /\ fl_stop h = true /\ requests (stop p) = requests p /\
    queued (stop p) = queued p /\ answering (stop p) = answering p) by (unfold stop; rewrite E; by eexists).
  destruct K as (h & Hh & K1 & K2 & K3 & K4 & K5).
  destruct (stream_run _ _ _ h R Os Hh K2 Hes) as (g & Hg & T1 & T2 & T3 & T4 & T5).
  assert (Sg : same_turn f g) by (destruct K1 as (A1 & A2 & A3 & A4 & A5), T1 as (B1 & B2 & B3 & B4 & B5); repeat split; congruence).
  split; [apply step_end; intros _; by exists g|].
  set (q := if same_thread p1 g then set_messages (final_of g Aborted) p1 else p1).
  assert (P : queued q = [] /\ answering q = false /\ requests q = requests p).
  { assert (P : queued q = queued p1 /\ answering q = answering p1 /\ requests q = requests p1) by (unfold q; by case_match).
    destruct P as (-> & -> & ->). by rewrite T3, T4, T5, K3, K4, K5. }
  destruct P as (P1 & P2 & P3).
  destruct (finish_cases now Aborted p1 g Hg) as [[S F]|(art & S & F)]; cbv zeta in F; fold q in F; rewrite F.
  - split; [done|]. split; [exact P3|]. split; [exact P1|]. exists g. split; [done|]. split; [done|].
    unfold unreadable. by rewrite S.
  - destruct (land_frame now g (final_of g Aborted) (same_thread p1 g) art q) as (L1 & L2 & L3 & _ & L5 & L6 & _).
    rewrite bool_decide_eq_true_2 by done. rewrite what_next_stopped by congruence.
    unfold requests in *. page_fields. rewrite L1, L2, L3, L6, P3, P1. repeat split. by exists g.
Qed.

(** ** Where an answer goes *)

(** The conversation a turn writes to, once it has one. *)
Definition home (f : Flight) : jstr := default (string_of_Z (fl_started f)) (fl_liveId f).

(** The conversations saved between two pages. *)
Definition new_saves (p p' : Page) (l : list Conversation) : Prop := saves p' = saves p ++ l.

Lemma saves_of_effects p p' : effects p' = effects p -> saves p' = saves p.
Proof. unfold saves. by intros ->. Qed.

Lemma restore_effects b p : effects (restore env b p) = effects p.
Proof. unfold restore, set_running, clear_thread. by split_page. Qed.
Lemma apply_effects tab c p : effects (applyConversation env tab c p) = effects p.
Proof. unfold applyConversation, set_running, clear_thread. by split_page. Qed.

Definition not_title (e : Event) : bool := match e with TitleReply _ _ _ => false | _ => true end.
Lemma calm_saves e p : calm e = true -> not_title e = true -> saves (handle e p) = saves p.
Proof.
  intros H Ht. destruct e; try done; cbn [Playground.handle]; try done.
  - unfold editQueued. by case_match.
  - unfold editMessage. by repeat case_match.
  - unfold handleInput. by case_match.
  - unfold selectSkill. by repeat case_match.
  - unfold switchTab. destruct (_ || _); [done|]. destruct (find_tab _ _); [|done]. apply saves_of_effects. by rewrite restore_effects.
  - unfold newTab. by case_match.
  - unfold closeTab. destruct (streaming p); [done|]. destruct (find_index _ _) as [i|]; [|done].
    set (p1 := match tabs p !! i with Some _ => _ | None => _ end).
    assert (E : saves p1 = saves p).
    { unfold p1. destruct (tabs p !! i) as [b|]; [|done]. destruct (tab_messages b), (tab_currentId b) as [[]|]; try done.
      unfold autoTitle. destruct (nonempty (csrf env)); [|done]. rewrite saves_effect. apply app_nil_r. }
    clearbody p1. rewrite <- E. destruct (negb _); [done|]. destruct (_ !! _); [|done]. apply saves_of_effects. by rewrite restore_effects.
  - unfold selectConversation. destruct (omittedMessages c) as [[]|]; [done|by apply saves_of_effects, apply_effects..].
  - unfold conversationLoaded. destruct c; [|done]. apply saves_of_effects. by rewrite apply_effects.
  - unfold deleteConversation. destruct (nonempty (csrf env)); case_match; page_fields; rewrite ?saves_effect; rewrite ?app_nil_r; try done;
      unfold saves; page_fields; by rewrite ?omap_app, ?app_nil_r.
Qed.

Lemma same_turn_refl f : same_turn f f.
Proof. done. Qed.

(** A step of a turn saves to its home, and only a save gives it one. *)
Lemma turn_step_saves p e p' f : ok p -> flight p = Some f -> page_step p e p' -> is_end e = false -> not_title e = true ->
  exists g l, flight p' = Some g /\ same_turn f g /\ new_saves p p' l /\
    Forall (fun c => c_id c = home f) l /\ (fl_liveId g = fl_liveId f /\ l = [] \/ fl_liveId g = Some (home f)).
Proof.
  intros Ho Hf Hs He Ht. destruct (proj1 Ho f Hf) as [Hst _]. destruct Hs as [q now out _|p e Hn]; [done|].
  assert (Q : forall g, flight (handle e p) = Some g -> same_turn f g -> fl_liveId g = fl_liveId f -> saves (handle e p) = saves p ->
     exists g l, flight (handle e p) = Some g /\ same_turn f g /\ new_saves p (handle e p) l /\
       Forall (fun c => c_id c = home f) l /\ (fl_liveId g = fl_liveId f /\ l = [] \/ fl_liveId g = Some (home f))).
  { intros g Hg Hsame Hid Hsv. exists g, []. split; [done|]. split; [done|]. split; [by unfold new_saves; rewrite app_nil_r|].
    split; [done|]. by left. }
  assert (Stop : forall q, flight q = Some f -> exists g, flight (stop q) = Some g /\ same_turn f g /\ fl_liveId g = fl_liveId f /\ saves (stop q) = saves q).
  { intros q Hq. unfold stop. rewrite Hq. by eexists. }
  destruct (calm e) eqn:Ec.
  { pose proof (calm_control e p Ec) as C. injection C as C _ _ _ _ _. apply (Q f); [by rewrite C|done|done|by apply calm_saves]. }
  destruct e; try done; cbn [Playground.handle] in *;
    try (apply (Q f); [|done|done|]; unfold sendVoice, answer, requestFullFile, continueTurn, redoFile, fixError, regenerate, busy_or_empty;
         rewrite Hst; done).
  - apply (Q _ (onDelta_flight now d p f Hf)); [done|done|]. by apply saves_of_effects, onDelta_frame.
  - unfold checkpoint in *. rewrite Hf in *. destruct (_ || _); [by apply (Q f)|].
    eexists _, [_]. split; [reflexivity|]. split; [done|]. split; [unfold new_saves, saves; page_fields; by rewrite omap_app|].
    split; [by repeat constructor|by right].
  - assert (A : flight (send t env now value p) = flight p /\ saves (send t env now value p) = saves p).
    { unfold send. rewrite Hst. destruct (nonempty _), (attachments p); try done; by repeat case_match. }
    destruct A as [A1 A2]. apply (Q f); [by rewrite A1|done|done|done].
  - destruct (Stop p Hf) as (g & H1 & H2 & H3 & H4). by apply (Q g).
  - unfold answerNow in *. rewrite Hst in *. cbn [negb orb] in *. destruct (answering p); [by apply (Q f)|].
    destruct (Stop (set_answering true p) Hf) as (g & H1 & H2 & H3 & H4). by apply (Q g).
  - unfold sendQueuedNow in *. destruct (queued p !! idx) as [m|]; [|by apply (Q f)]. page_fields. rewrite Hst in *.
    destruct (Stop (set_queued (m :: without idx (queued p)) p) Hf) as (g & H1 & H2 & H3 & H4). by apply (Q g).
Qed.

Lemma turn_run_saves p es p' f : ok p -> flight p = Some f -> page_run p es p' ->
  forallb (fun e => negb (is_end e) && not_title e) es = true ->
  exists g l, flight p' = Some g /\ same_turn f g /\ new_saves p p' l /\
    Forall (fun c => c_id c = home f) l /\ (fl_liveId g = fl_liveId f /\ l = [] \/ fl_liveId g = Some (home f)).
Proof.
  intros Ho Hf R. revert f Ho Hf. induction R as [p|p e p1 es p2 Hs R IH]; intros f Ho Hf Hes.
  - exists f, []. split; [done|]. split; [done|]. split; [by unfold new_saves; rewrite app_nil_r|]. split; [done|by left].
  - cbn [forallb] in Hes. bool_norm. destruct (turn_step_saves p e p1 f Ho Hf Hs) as (g & l & Hg & Sg & Ng & Fg & Dg); [done|done|].
    destruct (IH g) as (g2 & l2 & Hg2 & Sg2 & Ng2 & Fg2 & Dg2); [by eapply ok_step|done|done|].
    assert (Hh : home g = home f).
    { unfold home at 1. destruct Dg as [[-> _]| ->]; [|done]. by destruct Sg as (_ & _ & _ & -> & _). }
    rewrite Hh in *. exists g2, (l ++ l2). split; [done|]. split; [|split; [|split]].
    + destruct Sg as (A1 & A2 & A3 & A4 & A5), Sg2 as (B1 & B2 & B3 & B4 & B5). repeat split; congruence.
    + unfold new_saves in *. by rewrite Ng2, Ng, app_assoc.
    + by apply Forall_app.
    + destruct Dg2 as [[E2 ->]|E2]; [|by right]. rewrite app_nil_r, E2. destruct Dg as [[-> ->]| ->]; [by left|by right].
Qed.

Lemma persist_saves now msgs id m p : let '(id', p') := persist t env now msgs id m p in
  new_saves p p' (if nonempty (csrf env) && negb (bool_decide (msgs = []))
                  then [mkConv (default (string_of_Z now) id) (conv_title t msgs) now m (forSave msgs) None] else []).
Proof.
  unfold persist, new_saves. destruct msgs as [|m0 r]; [by rewrite andb_false_r, app_nil_r|].
  rewrite bool_decide_eq_false_2 by done. cbn [negb]. rewrite andb_true_r.
  destruct (nonempty (csrf env)); [by rewrite saves_effect|by rewrite app_nil_r].
Qed.

Lemma follow_up_saves now f final q p' : follow_up now f final q p' -> saves p' = saves q.
Proof.
  intros H. destruct H; try (match goal with |- saves (runStream ?k ?n ?x ?o ?p) = _ => by destruct (runStream_frame k n x o p) as (_ & _ & _ & -> & _) end).
  done.
Qed.

Lemma land_saves now f final same art p : let q := land t env now f final same art p in
  new_saves p q (if nonempty (csrf env) && negb (bool_decide (final = []))
                 then [mkConv (default (string_of_Z now) (fl_liveId f)) (conv_title t final) now (k_model (fl_closure f)) (forSave final) None]
                 else []).
Proof.
  unfold land. set (p1 := match art with Some _ => _ | None => _ end).
  assert (E : saves (set_watching false p1) = saves p) by (unfold p1; by destruct art, same).
  pose proof (persist_saves now final (fl_liveId f) (k_model (fl_closure f)) (set_watching false p1)) as S.
  destruct (persist _ _ _ _ _ _ _) as [id p2]. unfold new_saves in *. rewrite E in S. by destruct same.
Qed.

Lemma final_nonempty f out : fl_next f <> [] -> final_of f out <> [].
Proof. unfold final_of, finalMessages. destruct (settle _ _ _). by destruct (fl_next f). Qed.

(** C4: Every save of a turn goes to one conversation: its checkpoints, whatever
    the user does meanwhile in this conversation or another, and the final
    answer carry the same identifier, the one of the conversation the turn
    belongs to when it had one (the title a model gives to a closed tab is
    another save, and is left out of the run).  When the page has the session's
    token and the questionnaire the answer may end with can be read, the last
    save holds the whole thread with the final answer. *)
Theorem turn_saved_in_one_place p es p1 f now out : reachable p -> flight p = Some f ->
  page_run p es p1 -> forallb (fun e => negb (is_end e) && not_title e) es = true ->
  exists g l id, flight p1 = Some g /\ same_turn f g /\ new_saves p (finish now out p1) l /\
    Forall (fun c => c_id c = id) l /\
    (forall i, fl_liveId f = Some i -> id = i) /\
    (nonempty (csrf env) = true -> unreadable p1 g out = false ->
      c_messages <$> last l = Some (forSave (final_of g out))).
Proof.
  intros Hr Hf R Hes. pose proof (reachable_asked p Hr f Hf) as Hne. destruct (turn_run_saves p es p1 f (reachable_ok p Hr) Hf R Hes) as (g & l & Hg & Sg & Ng & Fg & Dg).
  pose proof Sg as (_ & Sn & _). assert (Hne' : final_of g out <> []) by (apply final_nonempty; by rewrite Sn).
  set (q := if same_thread p1 g then set_messages (final_of g out) p1 else p1).
  assert (Eq : saves q = saves p1) by (unfold q; by case_match).
  destruct (finish_cases now out p1 g Hg) as [[S F]|(art & S & F)]; cbv zeta in F; fold q in F; rewrite F.
  - exists g, l, (home f). split; [done|]. split; [done|]. split; [unfold new_saves in *; by rewrite <- Ng, <- Eq|].
    split; [done|]. split; [by unfold home; intros i ->|]. unfold unreadable. by rewrite S.
  - pose proof (land_saves now g (final_of g out) (same_thread p1 g) art q) as L. cbv zeta in L.
    pose proof (follow_up_saves _ _ _ _ _ (what_next_follows now g (final_of g out) (settle t (fl_acc g) out).2
      (bool_decide (out = Aborted)) (land t env now g (final_of g out) (same_thread p1 g) art q))) as W.
    set (extra := if nonempty (csrf env) && _ then _ else _) in L.
    exists g, (l ++ extra), (default (string_of_Z now) (fl_liveId g)). split; [done|]. split; [done|].
    split; [unfold new_saves in *; by rewrite W, L, Eq, Ng, app_assoc|]. split; [|split].
    + apply Forall_app. split.
      * destruct Dg as [[_ ->]|E]; [constructor|]. by rewrite E.
      * unfold extra. case_match; by repeat constructor.
    + intros i Hi. destruct Dg as [[-> _]| ->]; [by rewrite Hi|]. unfold home. by rewrite Hi.
    + intros Hc _. unfold extra. rewrite Hc, bool_decide_eq_false_2 by done. cbn [andb negb]. by rewrite last_snoc.
Qed.

(** C6: The end of an answer belongs to the conversation it was asked in.  When
    the user has moved to another conversation, a turn that comes to rest
    leaves the thread on screen, the conversation it shows, the tabs and the
    panel as they are; its text is only saved. *)
Theorem other_thread_untouched now out p f : reachable p -> flight p = Some f ->
  k_currentId (fl_closure f) <> currentId p -> flight (finish now out p) = None ->
  let p' := finish now out p in
  messages p' = messages p /\ currentId p' = currentId p /\ tabs p' = tabs p /\ artifact p' = artifact p.
Proof.
  intros Hr E Hk. cbv zeta. destruct (proj1 (reachable_ok p Hr) f E) as [_ Hm].
  assert (Hs : same_thread p f = false) by (unfold same_thread; apply bool_decide_eq_false; congruence).
  destruct (finish_cases now out p f E) as [[_ F]|(art & _ & F)]; cbv zeta in F; rewrite Hs in F; rewrite F; [done|].
  pose proof (what_next_follows now f (final_of f out) (settle t (fl_acc f) out).2 (bool_decide (out = Aborted))
    (land t env now f (final_of f out) false art p)) as W.
  destruct W as [?|???|next ???|??|??]; intros Hfl;
    try (match type of Hfl with flight (runStream ?k ?n ?x ?o ?q) = None => by rewrite (proj1 (runStream_starts k n x o q Hm)) in Hfl end).
  page_fields. unfold land.
  assert (A : (match art with Some x => if false then set_artifact (Some x) p else p | None => p end) = p) by (by destruct art).
  rewrite A. pose proof (persist_frame now (final_of f out) (fl_liveId f) (k_model (fl_closure f)) (set_watching false p)) as P.
  destruct (persist _ _ _ _ _ _ _) as [id p2]. destruct P as (_ & _ & _ & _ & _ & P1 & P2 & P3 & _ & _ & P4 & _). done.
Qed.

(** ** Runs that compute *)

Definition drive (es : list Event) (p : Page) : Page := foldl (fun p e => handle e p) p es.
Definition valid (p : Page) (e : Event) : bool :=
  match e with
  | End_ _ Aborted => match flight p with Some f => fl_stop f | None => false end
  | _ => true
  end.
Fixpoint valid_run (p : Page) (es : list Event) : bool :=
  match es with [] => true | e :: r => valid p e && valid_run (handle e p) r end.

Lemma valid_step p e : valid p e = true -> page_step p e (handle e p).
Proof.
  intros H. destruct (is_end e) eqn:E.
  - destruct e; try discriminate. apply step_end. intros ->. cbn in H.
    destruct (flight p) as [f|]; [|done]. by exists f.
  - apply step_other. intros now out ->. done.
Qed.
Lemma drive_run p es : valid_run p es = true -> page_run p es (drive es p).
Proof.
  revert p. induction es as [|e es IH]; intros p H; [constructor|]. cbn [valid_run] in H. bool_norm.
  econstructor; [by apply valid_step|]. by apply IH.
Qed.
Lemma drive_reachable now restored seq es : valid_run (page_start env now restored seq) es = true ->
  reachable (drive es (page_start env now restored seq)).
Proof. intros H. exists now, restored, seq, es. by apply drive_run. Qed.
End spec.

(** ** A page on concrete events *)

Definition env0 : Loaded := mkLoaded [u "qwen"] [] [] (u "csrf") false 4.
Definition page0 : Page := page_start env0 1 (DEFAULT_SETTINGS, Manual) 0.
Definition play (es : list Event) : Page := drive id env0 es page0.
Lemma play_reachable es : valid_run id env0 page0 es = true -> reachable id env0 (play es).
Proof. apply drive_reachable. Qed.

Definition half_file : jstr := u "Voici la page :
```html
<div>
<p>un".
Definition other_conv : Conversation :=
  mkConv (u "c7") (u "Autre") 5 (u "qwen") [plain_msg User (u "Combien ?"); plain_msg Assistant (u "Douze.")] None.

Example one_turn_at_a_time_witness :
  let p := play [Send 10 (u "a")] in
  exists f g, flight p = Some f /\ flight (handle id env0 (Send 11 (u "b")) p) = Some g /\ same_turn f g /\
    requests (handle id env0 (Send 11 (u "b")) p) = requests p /\ streaming (handle id env0 (Send 11 (u "b")) p) = true.
Proof.
  intros p. eexists. destruct (one_turn_at_a_time id env0 p (Send 11 (u "b")) (handle id env0 (Send 11 (u "b")) p)
    (new_flight (closure_of page0) 10 [user_msg (u "a") [] 10] no_override page0)) as (g & H).
  - apply play_reachable. vm_compute. reflexivity.
  - vm_compute. reflexivity.
  - apply valid_step. reflexivity.
  - reflexivity.
  - exists g. split; [vm_compute; reflexivity|exact H].
Defined.

Example queue_refines_outbox_witness :
  let p := play [Send 10 (u "a"); Send 11 (u "b"); Send 12 (u "c"); SendQueuedNow 13 1; Delta_ 14 (DContent (u "x"))] in
  exists a, queued (handle id env0 (End_ 20 Aborted) p) = outbox (queued p) a /\
    allowed id env0 p (End_ 20 Aborted) (handle id env0 (End_ 20 Aborted) p) a /\
    map qm_content (queued p) = [u "c"; u "b"] /\ queued (handle id env0 (End_ 20 Aborted) p) = [].
Proof.
  intros p. destruct (queue_refines_outbox id env0 p (End_ 20 Aborted) (handle id env0 (End_ 20 Aborted) p)) as (a & H1 & H2).
  - apply play_reachable. vm_compute. reflexivity.
  - apply valid_step. vm_compute. reflexivity.
  - exists a. split; [exact H1|]. split; [exact H2|]. vm_compute. split; reflexivity.
Defined.

(** The answer stops in the middle of a file: one automatic resume, then rest. *)
Definition resumed : list Event :=
  [Delta_ 11 (DContent half_file); End_ 20 Finished; Delta_ 21 (DContent (u " paragraphe</p></div>
```")); End_ 30 Finished].
Example page_comes_to_rest_witness :
  let p := play [Send 10 (u "fais un site")] in
  let p' := drive id env0 (resumed ++ repeat (End_ 40 Finished) 9) p in
  turns_left p = 11 /\ flight p' = None /\ streaming p' = false /\ queued p' = [].
Proof.
  intros p p'. assert (E : turns_left p = 11) by (vm_compute; reflexivity). split; [exact E|].
  assert (T : throws_run id env0 p (resumed ++ repeat (End_ 40 Finished) 9) = false) by (vm_compute; reflexivity).
  destruct (page_comes_to_rest id env0 p (new_flight (closure_of page0) 10 [user_msg (u "fais un site") [] 10] no_override page0)
    (resumed ++ repeat (End_ 40 Finished) 9) p') as (_ & H1 & H2 & H3).
  - apply play_reachable. vm_compute. reflexivity.
  - vm_compute. reflexivity.
  - apply drive_run. vm_compute. reflexivity.
  - reflexivity.
  - rewrite E. vm_compute. lia.
  - split; [exact H1|]. split; [by rewrite H2|by apply H3].
Defined.

(** Stopped in the middle of a file, with a last chunk on its way. *)
Example stop_is_final_witness :
  let p := play [Send 10 (u "fais un site"); Delta_ 11 (DContent half_file)] in
  let p1 := drive id env0 [Delta_ 12 (DContent (u " de plus"))] (handle id env0 Stop p) in
  let p' := Playground.finish id env0 20 Aborted p1 in
  page_step id env0 p1 (End_ 20 Aborted) p' /\
  flight p' = None /\ requests p' = requests p /\ queued p' = [] /\ streaming p' = false /\ resumes p' = 0.
Proof.
  intros p p1 p'. pose (f := default (new_flight (closure_of p) 0 [] no_override p) (flight p)).
  destruct (stop_is_final id env0 p f [Delta_ 12 (DContent (u " de plus"))] p1 20)
    as (H1 & H2 & H3 & H4 & g & _ & _ & H5); try (vm_compute; reflexivity).
  - apply play_reachable. vm_compute. reflexivity.
  - apply drive_run. vm_compute. reflexivity.
  - split; [exact H1|]. split; [exact H2|]. split; [exact H3|]. split; [exact H4|]. vm_compute. split; reflexivity.
Defined.

(** A checkpoint, the history opened meanwhile, and the end: one conversation. *)
Example turn_saved_in_one_place_witness :
  let p := play [Send 10 (u "a")] in
  let es := [Delta_ 11 (DContent (u "x")); Checkpoint 12; Select other_conv; Checkpoint 13] in
  map c_id (saves (Playground.finish id env0 30 Finished (drive id env0 es p))) = [u "10"; u "10"; u "10"] /\
  exists id', Forall (fun c => c_id c = id') (saves (Playground.finish id env0 30 Finished (drive id env0 es p))).
Proof.
  intros p es. split; [vm_compute; reflexivity|].
  destruct (turn_saved_in_one_place id env0 p es (drive id env0 es p)
    (new_flight (closure_of page0) 10 [user_msg (u "a") [] 10] no_override page0) 30 Finished) as (g & l & i & _ & _ & N & F & _).
  - apply play_reachable. vm_compute. reflexivity.
  - vm_compute. reflexivity.
  - apply drive_run. vm_compute. reflexivity.
  - reflexivity.
  - exists i. unfold new_saves in N. rewrite N. exact F.
Defined.

Example other_thread_untouched_witness :
  let p := play [Send 10 (u "a"); Delta_ 11 (DContent (u "Bonjour.")); Select other_conv] in
  let p' := Playground.finish id env0 30 Finished p in
  messages p' = messages p /\ currentId p' = currentId p /\ tabs p' = tabs p /\ artifact p' = artifact p.
Proof.
  intros p p'. apply (other_thread_untouched id env0 30 Finished p (default (new_flight (closure_of p) 0 [] no_override p) (flight p))).
  - apply play_reachable. vm_compute. reflexivity.
  - vm_compute. reflexivity.
  - vm_compute. discriminate.
  - vm_compute. reflexivity.
Defined.

(** ** What the runs show *)

(** The turns a turn starts itself keep the constants of the first render: in a
    conversation that had no identifier yet, the automatic resume does not know
    the one the first save gave, and saves a second conversation. *)
Lemma resume_forks_conversation :
  let p := play (Send 10 (u "fais un site") :: resumed) in
  map c_id (saves p) = [u "20"; u "30"] /\ length (conversations p) = 2 /\ currentId p = Some (u "20").
Proof. vm_compute. repeat split; reflexivity. Qed.

(** [updateLast] does not look at the conversation shown: the answer being
    written replaces the last message of the one opened meanwhile, and the next
    message sent there saves it. *)
Lemma stream_paints_other_thread :
  let p := play [Send 10 (u "a"); Delta_ 11 (DContent (u "x")); Select other_conv; Delta_ 12 (DContent (u "y"));
                 End_ 20 Finished; Send 30 (u "Merci"); Delta_ 31 (DContent (u "De rien.")); End_ 40 Finished] in
  (fun c => (c_id c, map content (c_messages c))) <$> last (saves p)
  = Some (u "c7", [u "Combien ?"; u "xy"; u "Merci"; u "De rien."]).
Proof. vm_compute. reflexivity. Qed.

(** Nor does an automatic resume: it puts the first conversation back on screen
    under the identifier of the second. *)
Lemma resume_takes_screen_back :
  let p := play [Send 10 (u "fais un site"); Delta_ 11 (DContent half_file); Select other_conv; End_ 20 Finished] in
  currentId p = Some (u "c7") /\ map content (messages p) = [u "fais un site"; half_file; FULL_RESUME_PROMPT; []].
Proof. vm_compute. split; reflexivity. Qed.

(** The skill attached to one message is sent again with the queued messages. *)
Lemma skill_sent_again :
  let p := play [SelectSkill (mkSkill (u "pkg:1") (u "docx") (u "docx") [] [] None false true);
                 Send 10 (u "a"); Send 11 (u "b"); Delta_ 12 (DContent (u "Voilà.")); End_ 20 Finished] in
  map q_skill (requests p) = [Some (u "docx"); Some (u "docx")].
Proof. vm_compute. reflexivity. Qed.

(** A questionnaire that [parseAsk] cannot read is an exception at the end of
    the turn: the page stays on « streaming », and nothing is saved. *)
Lemma bad_ask_blocks_page :
  let p := play [Send 10 (u "a"); Delta_ 11 (DContent (uq "```ask
{'questions': [null]}
```")); End_ 20 Finished] in
  flight p = None /\ streaming p = true /\ saves p = [] /\ play [Send 10 (u "a")] <> p.
Proof. repeat split; try (vm_compute; reflexivity). intros H. assert (F := f_equal flight H). vm_compute in F. discriminate F. Qed.

(** A thought the model wrote in its text and nothing else: no message is left. *)
Lemma inline_thought_lost :
  let p := play [Send 10 (u "a"); Delta_ 11 (DContent (u "<think>Je réfléchis")); End_ 20 Finished] in
  map content (messages p) = [u "a"] /\ streaming p = false.
Proof. vm_compute. split; reflexivity. Qed.
