(* ===== verification/PlaygroundTabs.v ===== *)
(** * The tabs of the playground

    Each tab has its own identifier, the active one is among them, and leaving
    a tab then coming back finds it as it was. *)

From Stdlib Require Import DecimalN.
From S2P Require Import JsJson JsRegExp Parsers Thread Api Messages Export Skills Preferences Attachments Turn Playground PlaygroundSpec.

(** ** Identifiers *)

Lemma uint_units_inj a b : uint_units a = uint_units b -> a = b.
Proof. revert b. induction a as [|a IH|a IH|a IH|a IH|a IH|a IH|a IH|a IH|a IH|a IH]; intros []; cbn [uint_units]; intros [=]; f_equal; auto. Qed.
Lemma string_of_N_inj a b : string_of_N a = string_of_N b -> a = b.
Proof. intros H%uint_units_inj. by apply DecimalN.Unsigned.to_uint_inj. Qed.
Lemma string_of_N_digits n : Forall (fun c => is_digit c = true) (string_of_N n).
Proof. unfold string_of_N. induction (N.to_uint n); cbn [uint_units]; by constructor. Qed.

Definition tab_name (now : Z) (n : nat) : jstr := u "tab-" ++ string_of_Z now ++ u "-" ++ string_of_N (N.of_nat n).

(** What follows the last dash. *)
Definition after_dash (s : jstr) : jstr := rev (take_while is_digit (rev s)).
Lemma take_while_stops {A} (f : A -> bool) l r x : Forall (fun c => f c = true) l -> f x = false ->
  take_while f (l ++ x :: r) = l.
Proof. intros H Hx. induction H as [|c l Hc _ IH]; cbn [app take_while]; [by rewrite Hx|]. by rewrite Hc, IH. Qed.
Lemma tab_name_seq now n : after_dash (tab_name now n) = string_of_N (N.of_nat n).
Proof.
  unfold after_dash, tab_name. rewrite !rev_app_distr, <- !app_assoc. change (rev (u "-")) with [45%N]. cbn [app].
  rewrite take_while_stops, rev_involutive; [done| |done]. apply Forall_rev, string_of_N_digits.
Qed.
Lemma tab_name_inj now n now' n' : tab_name now n = tab_name now' n' -> n = n'.
Proof.
  intros H. assert (E : after_dash (tab_name now n) = after_dash (tab_name now' n')) by (by rewrite H).
  rewrite !tab_name_seq in E. apply string_of_N_inj in E. lia.
Qed.

(** ** Consistent tabs *)

Definition ids (bs : list Tab) : list jstr := map tab_id bs.
Definition named (seq : nat) (id : jstr) : Prop := exists now n, id = tab_name now n /\ n <= seq.
Definition tabs_ok (p : Page) : Prop :=
  NoDup (ids (tabs p)) /\ activeTabId p ∈ ids (tabs p) /\ Forall (named (tabSeq p)) (ids (tabs p)).

Definition tab_view (p : Page) := (ids (tabs p), activeTabId p, tabSeq p).
Lemma tabs_ok_view p p' : tab_view p' = tab_view p -> tabs_ok p -> tabs_ok p'.
Proof. unfold tab_view, tabs_ok. by intros [= -> -> ->]. Qed.

Lemma tabs_ok_of p i a n : tab_view p = (i, a, n) -> NoDup i -> a ∈ i -> Forall (named n) i -> tabs_ok p.
Proof. unfold tab_view, tabs_ok. by intros [= -> -> ->]. Qed.

Lemma ids_map f bs : (forall b, tab_id (f b) = tab_id b) -> ids (map f bs) = ids bs.
Proof. intros H. unfold ids. rewrite map_map. by apply map_ext. Qed.
Lemma ids_freeze p bs : ids (freeze p bs) = ids bs.
Proof. apply ids_map. intros b. by case_match. Qed.

Section tabs.
Context (t : jstr -> jstr) (env : Loaded).
#[local] Abbreviation handle := (Playground.handle t env).
#[local] Abbreviation runStream := (Playground.runStream t env).

Lemma runStream_view k now next o p : tab_view (runStream k now next o p) = tab_view p.
Proof.
  unfold tab_view. destruct (runStream_frame t env k now next o p) as (_ & _ & _ & _ & _ & -> & -> & -> & _). done.
Qed.
Lemma start_turn_view now next o p : tab_view (start_turn t env now next o p) = tab_view p.
Proof. unfold start_turn. by rewrite runStream_view. Qed.

Lemma follow_up_view now f final q p' : follow_up t env now f final q p' -> tab_view p' = tab_view q.
Proof. intros H. destruct H; rewrite ?runStream_view; done. Qed.

Lemma land_view now f final same art p : tab_view (land t env now f final same art p) = tab_view p.
Proof.
  unfold land. set (p1 := match art with Some _ => _ | None => _ end).
  assert (E : tab_view p1 = tab_view p) by (unfold p1; by destruct art, same).
  pose proof (persist_frame t env now final (fl_liveId f) (k_model (fl_closure f)) (set_watching false p1)) as P.
  destruct (persist _ _ _ _ _ _ _) as [id p2]. destruct P as (_ & _ & _ & _ & _ & _ & _ & P1 & P2 & P3 & _).
  rewrite <- E. unfold tab_view in *. destruct same; page_fields; rewrite ?P1, ?P2, ?P3; page_fields; [|done].
  rewrite ids_map; [done|]. intros b. by case_match.
Qed.

Lemma finish_view now out p : tab_view (finish t env now out p) = tab_view p.
Proof.
  destruct (flight p) as [f|] eqn:E; [|unfold finish; by rewrite E].
  assert (P : tab_view (if same_thread p f then set_messages (final_of t f out) p else p) = tab_view p) by (by case_match).
  destruct (finish_cases t env now out p f E) as [[_ F]|(art & _ & F)]; cbv zeta in F; rewrite F; [exact P|].
  rewrite (follow_up_view _ _ _ _ _ (what_next_follows t env now f (final_of t f out) _ _ _)), land_view. exact P.
Qed.

Definition moves_tabs (e : Event) : bool :=
  match e with SwitchTab _ | NewTab _ | CloseTab _ _ => true | _ => false end.

Lemma apply_view tab c p : tab_view (applyConversation env tab c p) = tab_view p.
Proof.
  unfold applyConversation, set_running, clear_thread, tab_view. case_match; page_fields; rewrite ids_map; try done; intros b; by case_match.
Qed.

Lemma other_view e p : moves_tabs e = false -> tab_view (handle e p) = tab_view p.
Proof.
  intros H. destruct e; try done; cbn [Playground.handle].
  - unfold tab_view. destruct (onDelta_frame t now d p) as (_ & _ & _ & _ & _ & _ & -> & -> & -> & _). done.
  - unfold checkpoint. by repeat case_match.
  - apply finish_view.
  - unfold send. destruct (nonempty (trim value)), (attachments p); try done; repeat case_match; by rewrite ?runStream_view.
  - unfold sendVoice. case_match; [done|apply start_turn_view].
  - unfold stop. by case_match.
  - unfold answerNow. case_match; [done|]. unfold stop. page_fields. by case_match.
  - unfold sendQueuedNow. destruct (_ !! _); [|done]. page_fields. case_match; [unfold stop; page_fields; by case_match|].
    unfold dispatchQueued. page_fields. by rewrite runStream_view.
  - unfold editQueued. by case_match.
  - unfold answer. repeat case_match; [done|done|apply start_turn_view].
  - unfold requestFullFile. case_match; [done|apply start_turn_view].
  - unfold continueTurn. case_match; [done|apply start_turn_view].
  - unfold redoFile. case_match; [done|apply start_turn_view].
  - unfold fixError. case_match; [done|apply start_turn_view].
  - unfold regenerate. repeat case_match; by rewrite ?runStream_view.
  - unfold editMessage. by repeat case_match.
  - unfold handleInput. by case_match.
  - unfold selectSkill. by repeat case_match.
  - unfold titled, tab_view. repeat case_match; try done. page_fields. rewrite ids_map; [done|]. intros b. by case_match.
  - unfold selectConversation. destruct (omittedMessages c) as [[]|]; [done|apply apply_view..].
  - unfold conversationLoaded. destruct c; [|done]. by rewrite apply_view.
  - unfold deleteConversation. by repeat case_match.
Qed.

Lemma find_tab_in id bs b : find_tab id bs = Some b -> b ∈ bs /\ tab_id b = id.
Proof.
  unfold find_tab. intros H%List.find_some. destruct H as [Hi E]. split; [by apply list_elem_of_In|].
  by destruct (streq_spec (tab_id b) id).
Qed.
Lemma find_tab_is id bs : id ∈ ids bs -> exists b, find_tab id bs = Some b.
Proof.
  unfold find_tab, ids. intros H. destruct (find _ bs) as [b|] eqn:E; [by exists b|].
  apply list_elem_of_In, in_map_iff in H as (b & Hb & Hi).
  pose proof (List.find_none _ _ E b Hi) as F. cbn in F. destruct (streq_spec (tab_id b) id); done.
Qed.

Lemma restore_view b p : tab_view (restore env b p) = (ids (tabs p), tab_id b, tabSeq p).
Proof. unfold restore, set_running, clear_thread, tab_view. by case_match. Qed.

Lemma named_le m n id : m <= n -> named m id -> named n id.
Proof. intros H (z & k & -> & Hk). exists z, k. split; [done|lia]. Qed.

Lemma fresh_name now p : Forall (named (tabSeq p)) (ids (tabs p)) -> tab_name now (S (tabSeq p)) ∉ ids (tabs p).
Proof.
  intros H Hi. rewrite Forall_forall in H. destruct (H _ Hi) as (z & n & E & Hn). apply tab_name_inj in E. lia.
Qed.

Lemma tabs_ok_new now p : tabs_ok p -> tabs_ok (newTab now p).
Proof.
  intros (Hn & Ha & Hm). unfold newTab. destruct (streaming p); [done|]. cbn [newTabId].
  unfold tabs_ok, blank_thread, clear_thread. page_fields. unfold ids. rewrite map_app. fold (ids (freeze (set_tabSeq (S (tabSeq p)) p) (tabs p))).
  rewrite ids_freeze. cbn [map blank_tab tab_id]. change (u "tab-" ++ _) with (tab_name now (S (tabSeq p))). split; [|split].
  - apply NoDup_app. split; [done|]. split; [|apply NoDup_singleton]. intros x Hx ->%list_elem_of_singleton.
    by apply (fresh_name now p Hm).
  - apply elem_of_app. right. by apply list_elem_of_singleton.
  - apply Forall_app. split; [eapply Forall_impl; [exact Hm|intros x; apply named_le; lia]|].
    constructor; [|constructor]. by exists now, (S (tabSeq p)).
Qed.

Lemma tabs_ok_switch id p : tabs_ok p -> tabs_ok (switchTab env id p).
Proof.
  intros (Hn & Ha & Hm). unfold switchTab. destruct (_ || _); [done|]. destruct (find_tab id (tabs p)) as [b|] eqn:E.
  - destruct (find_tab_in _ _ _ E) as [Hi He].
    assert (V : tab_view (restore env b (set_tabs (freeze p (tabs p)) p)) = (ids (tabs p), id, tabSeq p)).
    { rewrite restore_view. page_fields. by rewrite ids_freeze, He. }
    apply (tabs_ok_of _ _ _ _ V); [done| |done].
    rewrite <- He. apply list_elem_of_In, in_map, list_elem_of_In, Hi.
  - unfold tabs_ok. page_fields. by rewrite ids_freeze.
Qed.

Lemma ids_filter id bs : ids (List.filter (fun b => negb (streq (tab_id b) id)) bs) = List.filter (fun x => negb (streq x id)) (ids bs).
Proof. induction bs as [|b bs IH]; [done|]. cbn [List.filter ids map]. case_match; cbn [ids map]; [by f_equal|done]. Qed.

Lemma tabs_ok_close now id p : tabs_ok p -> tabs_ok (closeTab env now id p).
Proof.
  intros (Hn & Ha & Hm). unfold closeTab. destruct (streaming p); [done|]. destruct (find_index _ _) as [i|]; [|done].
  set (p1 := match tabs p !! i with Some _ => _ | None => _ end).
  assert (E : tabs p1 = tabs p /\ activeTabId p1 = activeTabId p /\ tabSeq p1 = tabSeq p).
  { unfold p1. destruct (tabs p !! i) as [b|]; [|done]. destruct (tab_messages b), (tab_currentId b) as [[]|]; try done.
    unfold autoTitle. by destruct (nonempty (csrf env)). }
  clearbody p1. destruct E as (E1 & E2 & E3). rewrite E1, E2. set (next := List.filter _ (tabs p)).
  assert (Fi : forall x, x ∈ ids next <-> x ∈ ids (tabs p) /\ x <> id).
  { intros x. unfold next. rewrite ids_filter, !list_elem_of_In, filter_In. destruct (streq_spec x id); naive_solver. }
  assert (Nn : NoDup (ids next)).
  { unfold next. rewrite ids_filter. by apply NoDup_ListNoDup, List.NoDup_filter, NoDup_ListNoDup. }
  assert (Mn : Forall (named (tabSeq p)) (ids next)).
  { apply Forall_forall. intros x Hx. rewrite Forall_forall in Hm. apply Hm, Fi, Hx. }
  destruct (streq_spec (activeTabId p) id) as [Hact|Hact]; cbn [negb].
  - destruct (next !! Nat.min i (length next - 1)) as [b|] eqn:El.
    + assert (V : tab_view (restore env b (set_tabs next p1)) = (ids next, tab_id b, tabSeq p)) by (rewrite restore_view; page_fields; by rewrite E3).
      apply (tabs_ok_of _ _ _ _ V); [done| |done].
      apply list_elem_of_In, in_map, list_elem_of_In. by apply list_elem_of_lookup_2 in El.
    + cbn [newTabId]. unfold tabs_ok, blank_thread, clear_thread. page_fields. cbn [ids map blank_tab tab_id]. rewrite E3.
      change (u "tab-" ++ _) with (tab_name now (S (tabSeq p))). split; [apply NoDup_singleton|]. split; [by apply list_elem_of_singleton|].
      constructor; [|constructor]. by exists now, (S (tabSeq p)).
  - unfold tabs_ok. page_fields. rewrite E2, E3. split; [done|]. split; [|done]. by apply Fi.
Qed.

Lemma tabs_ok_step p e p' : tabs_ok p -> page_step t env p e p' -> tabs_ok p'.
Proof.
  intros H Hs. assert (E : p' = handle e p) by (by destruct Hs). rewrite E. destruct (moves_tabs e) eqn:Em.
  - destruct e; try done; cbn [Playground.handle]; [by apply tabs_ok_switch|by apply tabs_ok_new|by apply tabs_ok_close].
  - by apply (tabs_ok_view p); [apply other_view|].
Qed.

Lemma reachable_tabs_ok p : reachable t env p -> tabs_ok p.
Proof.
  intros (now & restored & seq & es & R).
  assert (H0 : tabs_ok (page_start env now restored seq)).
  { unfold tabs_ok, page_start. cbn [tabs activeTabId tabSeq ids map tab_id]. split; [apply NoDup_singleton|].
    split; [by apply list_elem_of_singleton|]. constructor; [|constructor]. by exists now, (S seq). }
  revert H0. induction R as [|q e q1 es q2 Hs R IH]; [done|]. intros H. apply IH. by eapply tabs_ok_step.
Qed.

(** ** No identifier comes back *)

(** The counter only grows, and an identifier that appears was never given. *)
Definition grows (p p' : Page) : Prop :=
  tabSeq p <= tabSeq p' /\ forall id, id ∈ ids (tabs p') -> id ∈ ids (tabs p) \/ ~ named (tabSeq p) id.

Lemma grows_view p p' : tab_view p' = tab_view p -> grows p p'.
Proof. unfold tab_view, grows. intros [= -> _ ->]. split; [done|]. by left. Qed.

Lemma fresh_unnamed now p : ~ named (tabSeq p) (tab_name now (S (tabSeq p))).
Proof. intros (z & n & E & Hn). apply tab_name_inj in E. lia. Qed.

Lemma new_grows now p : grows p (newTab now p).
Proof.
  unfold newTab. destruct (streaming p); [by apply grows_view|]. cbn [newTabId].
  unfold grows, blank_thread, clear_thread. page_fields. split; [lia|]. intros id. unfold ids at 1. rewrite map_app.
  fold (ids (freeze (set_tabSeq (S (tabSeq p)) p) (tabs p))). rewrite ids_freeze. cbn [map blank_tab tab_id].
  intros [H| ->%list_elem_of_singleton]%elem_of_app; [by left|right]. apply fresh_unnamed.
Qed.

Lemma switch_grows id p : grows p (switchTab env id p).
Proof.
  unfold switchTab. destruct (_ || _); [by apply grows_view|]. destruct (find_tab id (tabs p)) as [b|].
  - pose proof (restore_view b (set_tabs (freeze p (tabs p)) p)) as V.
    pose proof (f_equal (fun v => v.1.1) V) as V1. pose proof (f_equal snd V) as V2. cbn [tab_view fst snd] in V1, V2.
    unfold grows. rewrite V1, V2. page_fields. rewrite ids_freeze. split; [done|]. by left.
  - unfold grows. page_fields. rewrite ids_freeze. split; [done|]. by left.
Qed.

Lemma close_grows now id p : grows p (closeTab env now id p).
Proof.
  unfold closeTab. destruct (streaming p); [by apply grows_view|]. destruct (find_index _ _) as [i|]; [|by apply grows_view].
  set (p1 := match tabs p !! i with Some _ => _ | None => _ end).
  assert (E : tabs p1 = tabs p /\ activeTabId p1 = activeTabId p /\ tabSeq p1 = tabSeq p).
  { unfold p1. destruct (tabs p !! i) as [b|]; [|done]. destruct (tab_messages b), (tab_currentId b) as [[]|]; try done.
    unfold autoTitle. by destruct (nonempty (csrf env)). }
  clearbody p1. destruct E as (E1 & E2 & E3). rewrite E1, E2. set (next := List.filter _ (tabs p)).
  assert (Fi : forall x, x ∈ ids next -> x ∈ ids (tabs p)).
  { intros x. unfold next. rewrite ids_filter, !list_elem_of_In, filter_In. naive_solver. }
  destruct (negb _); [unfold grows; page_fields; rewrite E3; split; [done|]; left; by apply Fi|].
  destruct (next !! _) as [b|].
  - pose proof (restore_view b (set_tabs next p1)) as V.
    pose proof (f_equal (fun v => v.1.1) V) as V1. pose proof (f_equal snd V) as V2. cbn [tab_view fst snd] in V1, V2.
    unfold grows. rewrite V1, V2. page_fields. rewrite E3. split; [done|]. left. by apply Fi.
  - cbn [newTabId]. unfold grows, blank_thread, clear_thread. page_fields. rewrite E3. split; [lia|].
    intros x. cbn [ids map blank_tab tab_id]. intros ->%list_elem_of_singleton. right. apply fresh_unnamed.
Qed.

Lemma step_grows p e p' : page_step t env p e p' -> grows p p'.
Proof.
  intros Hs. assert (E : p' = handle e p) by (by destruct Hs). rewrite E. destruct (moves_tabs e) eqn:Em.
  - destruct e; try done; cbn [Playground.handle]; [apply switch_grows|apply new_grows|apply close_grows].
  - by apply grows_view, other_view.
Qed.

(** An identifier that was given and is not open stays so. *)
Lemma closed_for_good p es p' id : page_run t env p es p' -> named (tabSeq p) id -> id ∉ ids (tabs p) -> id ∉ ids (tabs p').
Proof.
  intros R. induction R as [|p e p1 es p2 Hs R IH]; [done|]. intros Hn Hi. destruct (step_grows p e p1 Hs) as [Hle Hg].
  apply IH; [by eapply named_le|]. intros Hx. by destruct (Hg id Hx).
Qed.
Lemma run_seq p es p' : page_run t env p es p' -> tabSeq p <= tabSeq p'.
Proof. intros R. induction R as [|p e p1 es p2 Hs R IH]; [done|]. destruct (step_grows p e p1 Hs). lia. Qed.

Lemma tabs_ok_run p es p' : page_run t env p es p' -> tabs_ok p -> tabs_ok p'.
Proof. intros R. induction R as [|q e q1 es q2 Hs R IH]; [done|]. intros H. apply IH. by eapply tabs_ok_step. Qed.

(** C33: Whatever happens on the page, its tabs stay consistent: at least one is
    open, no two have the same identifier, and the active one is among them;
    and a tab once closed does not come back, since its identifier is never
    given to another. *)
Theorem tabs_consistent p es p1 es' p2 : reachable t env p -> page_run t env p es p1 -> page_run t env p1 es' p2 ->
  NoDup (ids (tabs p2)) /\ activeTabId p2 ∈ ids (tabs p2) /\
  (forall id, id ∈ ids (tabs p) -> id ∉ ids (tabs p1) -> id ∉ ids (tabs p2)).
Proof.
  intros Hr R1 R2. pose proof (reachable_tabs_ok p Hr) as H.
  destruct (tabs_ok_run _ _ _ R2 (tabs_ok_run _ _ _ R1 H)) as (Hn & Ha & _). split; [done|]. split; [done|].
  intros id Hi Hc. eapply closed_for_good; [exact R2| |exact Hc]. destruct H as (_ & _ & Hm). rewrite Forall_forall in Hm.
  eapply named_le; [by eapply run_seq|by apply Hm].
Qed.

Lemma find_frozen p : activeTabId p ∈ ids (tabs p) ->
  exists b, find_tab (activeTabId p) (freeze p (tabs p)) = Some (snapshot p b) /\ tab_id b = activeTabId p.
Proof.
  intros H. rewrite <- (ids_freeze p) in H. destruct (find_tab_is _ _ H) as [c Hc]. rewrite Hc.
  destruct (find_tab_in _ _ _ Hc) as [Hi Ec]. unfold freeze in Hi. apply list_elem_of_In, in_map_iff in Hi as (b & <- & Hb).
  destruct (streq_spec (tab_id b) (activeTabId p)) as [E|E]; [by exists b|done].
Qed.

Definition running (m : jstr) : bool := nonempty m && existsb (streq m) (runningModels env).
Lemma restore_fields b p : let q := restore env b p in
  messages q = tab_messages b /\ currentId q = tab_currentId b /\ settings q = tab_settings b /\
  attachments q = tab_attachments b /\ activeTabId q = tab_id b /\ tabs q = tabs p /\ streaming q = streaming p /\
  model q = (if running (tab_model b) then tab_model b else model p).
Proof. unfold restore, set_running, clear_thread, running. by case_match. Qed.

(** Leaving a tab for another and coming back finds the conversation as it
    was left: its messages, its identifier, its settings, its joined files,
    and its model if it still runs. *)
Theorem switch_back_restores p id : reachable t env p -> streaming p = false -> id ∈ ids (tabs p) -> id <> activeTabId p ->
  let q := switchTab env (activeTabId p) (switchTab env id p) in
  messages q = messages p /\ currentId q = currentId p /\ settings q = settings p /\ attachments q = attachments p /\
  activeTabId q = activeTabId p /\ (running (model p) = true -> model q = model p) /\ ids (tabs q) = ids (tabs p).
Proof.
  intros Hr Hs Hid Hne. cbv zeta.
  destruct (reachable_tabs_ok p Hr) as (Hn & Ha & Hm).
  assert (NE : forall x, x ∈ ids (tabs p) -> nonempty x = true).
  { intros x Hx. rewrite Forall_forall in Hm. by destruct (Hm x Hx) as (z & n & -> & _). }
  destruct (find_tab_is _ _ Hid) as [b Hb]. destruct (find_tab_in _ _ _ Hb) as [_ Eb].
  assert (S1 : switchTab env id p = restore env b (set_tabs (freeze p (tabs p)) p)).
  { unfold switchTab. rewrite Hs, Hb, (NE id Hid). by destruct (streq_spec id (activeTabId p)). }
  rewrite S1. destruct (restore_fields b (set_tabs (freeze p (tabs p)) p)) as (_ & _ & _ & _ & R5 & R6 & R7 & _).
  set (q := restore env b _) in *. clearbody q. page_fields. destruct (find_frozen p Ha) as (b0 & F0 & Eb0).
  assert (S2 : switchTab env (activeTabId p) q = restore env (snapshot p b0) (set_tabs (freeze q (freeze p (tabs p))) q)).
  { unfold switchTab. rewrite R7, Hs, R5, Eb, R6, (NE _ Ha), F0. destruct (streq_spec (activeTabId p) id); [congruence|done]. }
  rewrite S2.
  destruct (restore_fields (snapshot p b0) (set_tabs (freeze q (freeze p (tabs p))) q)) as (-> & -> & -> & -> & -> & -> & _ & ->).
  cbn [snapshot tab_messages tab_currentId tab_settings tab_attachments tab_id tab_model]. page_fields.
  rewrite !ids_freeze. repeat split; try done. by intros ->.
Qed.
End tabs.

Definition two_tabs : Page := play [Send 10 (u "a"); Delta_ 11 (DContent (u "Bonjour.")); End_ 20 Finished; NewTab 30].

(** The second tab is closed and two more are opened, at the same instant. *)
Example tabs_consistent_witness :
  let p1 := drive id env0 [CloseTab 31 (tab_name 30 2)] two_tabs in
  let p2 := drive id env0 [NewTab 30; NewTab 30] p1 in
  ids (tabs two_tabs) = [tab_name 1 1; tab_name 30 2] /\ ids (tabs p2) = [tab_name 1 1; tab_name 30 3; tab_name 30 4] /\
  NoDup (ids (tabs p2)) /\ tab_name 30 2 ∉ ids (tabs p2).
Proof.
  intros p1 p2. destruct (tabs_consistent id env0 two_tabs [CloseTab 31 (tab_name 30 2)] p1 [NewTab 30; NewTab 30] p2) as (H & _ & Hc).
  - apply play_reachable. vm_compute. reflexivity.
  - apply drive_run. vm_compute. reflexivity.
  - apply drive_run. vm_compute. reflexivity.
  - split; [vm_compute; reflexivity|]. split; [vm_compute; reflexivity|]. split; [exact H|]. apply Hc.
    + apply (bool_decide_unpack _). vm_compute. exact I.
    + apply (bool_decide_unpack _). vm_compute. exact I.
Defined.

Example switch_back_restores_witness :
  let p := play [Send 10 (u "a"); Delta_ 11 (DContent (u "Bonjour.")); End_ 20 Finished; NewTab 30; SwitchTab (tab_name 1 1)] in
  let q := switchTab env0 (activeTabId p) (switchTab env0 (tab_name 30 2) p) in
  messages q = messages p /\ map content (messages p) = [u "a"; u "Bonjour."] /\ model q = model p.
Proof.
  intros p q. destruct (switch_back_restores id env0 p (tab_name 30 2)) as (H1 & _ & _ & _ & _ & H2 & _).
  - apply play_reachable. vm_compute. reflexivity.
  - vm_compute. reflexivity.
  - apply (bool_decide_unpack _). vm_compute. exact I.
  - vm_compute. discriminate.
  - split; [exact H1|]. split; [vm_compute; reflexivity|]. apply H2. vm_compute. reflexivity.
Defined.
