(* ===== verification/AskQuestion.v ===== *)
(** * The questionnaire card (app/(app)/playground/_components/AskQuestion.tsx)

    The clarifying questions of the model, one at a time, with several answers
    per question and a free one.  [AskState] is the state of the card; its
    handlers are the clicks the card allows in that state, and the answers it
    sends are those of the last button. *)

From S2P Require Import Prelude JsString Parsers.
Local Open Scope flow_scope.

Record AskState := mkAskState { step : nat; chosen : list (list jstr); otherOpen : list bool; otherText : list jstr }.

(** [arr.map((x, j) => (j === i ? v : x))] *)
Definition set_at {A} (arr : list A) (i : nat) (v : A) : list A := imap (fun j x => if j =? i then v else x) arr.

Section ask.
Context (questions : list AskQ).

Definition ask_start : AskState :=
  mkAskState 0 (map (fun _ => []) questions) (map (fun _ => false) questions) (map (fun _ => []) questions).

Definition is_empty (s : jstr) : bool := match s with [] => true | _ => false end.
Definition effective (i : nat) (s : AskState) : jstr :=
  join (u " + ") (List.filter (fun x => negb (is_empty x))
    (default [] (chosen s !! i) ++ [if default false (otherOpen s !! i) then trim (default [] (otherText s !! i)) else []])).
Definition isLast (s : AskState) : bool := S (step s) =? length questions.
Definition currentAnswered (s : AskState) : bool := negb (is_empty (effective (step s) s)).
Definition allAnswered (s : AskState) : bool :=
  isLast s && forallb (fun i => negb (is_empty (effective i s))) (seq 0 (length questions)).

Definition toggleOption (opt : jstr) (s : AskState) : AskState :=
  let now := default [] (chosen s !! step s) in
  mkAskState (step s)
    (set_at (chosen s) (step s)
       (if existsb (streq opt) now then List.filter (fun x => negb (streq x opt)) now else now ++ [opt]))
    (otherOpen s) (otherText s).
Definition pickOther (s : AskState) : AskState :=
  mkAskState (step s) (chosen s) (set_at (otherOpen s) (step s) (negb (default false (otherOpen s !! step s)))) (otherText s).
Definition typeOther (v : jstr) (s : AskState) : AskState :=
  mkAskState (step s) (chosen s) (otherOpen s) (set_at (otherText s) (step s) v).

(** The buttons, with the conditions under which they are shown and enabled. *)
Definition previous (s : AskState) : AskState :=
  if 0 <? step s then mkAskState (step s - 1) (chosen s) (otherOpen s) (otherText s) else s.
Definition next (s : AskState) : AskState :=
  if isLast s || negb (currentAnswered s) then s else mkAskState (S (step s)) (chosen s) (otherOpen s) (otherText s).
Definition submit (s : AskState) : option (list jstr) :=
  if isLast s && allAnswered s then Some (imap (fun i _ => effective i s) questions) else None.

(** What is shown: the progress of several questions, the options with those
    that are chosen, the field of the free answer or the card that opens it. *)
Definition progress (s : AskState) : option (nat * nat) :=
  if 1 <? length questions then Some (S (step s), length questions) else None.
Definition choices (s : AskState) : list (jstr * bool) :=
  match questions !! step s with
  | Some q => map (fun opt => (opt, existsb (streq opt) (default [] (chosen s !! step s)))) (options q)
  | None => []
  end.
Definition other_field (s : AskState) : option jstr :=
  if default false (otherOpen s !! step s) then Some (default [] (otherText s !! step s)) else None.

Inductive AskEvent := Toggle (opt : jstr) | Other | Typed (v : jstr) | Previous | Next.
Definition ask_handle (e : AskEvent) (s : AskState) : AskState :=
  match e with
  | Toggle opt => toggleOption opt s
  | Other => pickOther s
  | Typed v => typeOther v s
  | Previous => previous s
  | Next => next s
  end.
Definition ask_run (es : list AskEvent) (s : AskState) : AskState := foldl (fun s e => ask_handle e s) s es.

(** The message the thread makes of the answers ([onSubmit] of ThreadMessage.tsx). *)
Definition answer_text (answers : list jstr) : jstr :=
  match questions with
  | [_] => default [] (answers !! 0)
  | _ => join [LF; LF] (imap (fun k q => question q ++ [LF] ++ u "→ " ++ default [] (answers !! k)) questions)
  end.

(** ** Properties *)

Lemma set_at_length {A} (arr : list A) i v : length (set_at arr i v) = length arr.
Proof. apply length_imap. Qed.
Lemma set_at_lookup {A} (arr : list A) i v j : set_at arr i v !! j = if j =? i then (fun _ => v) <$> (arr !! j) else arr !! j.
Proof. unfold set_at. rewrite list_lookup_imap. destruct (j =? i), (arr !! j); done. Qed.

(** One entry per question, a step that exists, and an answer to every question
    before it. *)
Record ask_ok (s : AskState) : Prop := {
  ok_chosen : length (chosen s) = length questions;
  ok_open : length (otherOpen s) = length questions;
  ok_text : length (otherText s) = length questions;
  ok_step : questions <> [] -> step s < length questions;
  ok_before : forall j, j < step s -> effective j s <> []
}.

Lemma effective_view i s s' : chosen s' !! i = chosen s !! i -> otherOpen s' !! i = otherOpen s !! i -> otherText s' !! i = otherText s !! i ->
  effective i s' = effective i s.
Proof. unfold effective. by intros -> -> ->. Qed.
Lemma is_empty_false x : is_empty x = false <-> x <> [].
Proof. by destruct x. Qed.

(** A change to the current question leaves the others. *)
Lemma current_only j s : j < step s -> forall e, match e with Previous | Next => True | _ => effective j (ask_handle e s) = effective j s end.
Proof.
  intros H e. assert (E : j =? step s = false) by (apply Nat.eqb_neq; lia).
  destruct e; cbn [ask_handle]; try done; apply effective_view; cbn; rewrite ?set_at_lookup, ?E; done.
Qed.

Lemma ask_start_ok : ask_ok ask_start.
Proof. split; cbn; rewrite ?length_map; try done; try lia. intros H. by destruct questions; [|cbn; lia]. Qed.

Lemma ask_step_ok e s : ask_ok s -> ask_ok (ask_handle e s).
Proof.
  intros [H1 H2 H3 H4 H5]. destruct e; cbn [ask_handle].
  - split; cbn; rewrite ?set_at_length; try done. intros j Hj E. apply (H5 j Hj). etransitivity; [symmetry; exact (current_only j s Hj (Toggle opt))|exact E].
  - split; cbn; rewrite ?set_at_length; try done. intros j Hj E. apply (H5 j Hj). etransitivity; [symmetry; exact (current_only j s Hj Other)|exact E].
  - split; cbn; rewrite ?set_at_length; try done. intros j Hj E. apply (H5 j Hj). etransitivity; [symmetry; exact (current_only j s Hj (Typed v))|exact E].
  - unfold previous. destruct (0 <? step s); [|by split]. split; cbn; try done; [intros Q; specialize (H4 Q); lia|].
    intros j Hj. apply (H5 j). lia.
  - unfold next. destruct (isLast s) eqn:L; [by split|]. destruct (currentAnswered s) eqn:C; [|by split]. cbn [orb negb].
    apply Nat.eqb_neq in L. apply negb_true_iff, is_empty_false in C. split; cbn; try done; [intros Q; specialize (H4 Q); lia|].
    intros j Hj. destruct (decide (j = step s)) as [->|]; [exact C|]. apply (H5 j). lia.
Qed.
Lemma ask_run_ok es s : ask_ok s -> ask_ok (ask_run es s).
Proof. revert s. induction es as [|e es IH]; intros s H; [done|]. apply IH. by apply ask_step_ok. Qed.

Lemma all_answered_last s : ask_ok s -> isLast s = true -> allAnswered s = currentAnswered s.
Proof.
  intros [H1 H2 H3 H4 H5] L. unfold allAnswered, currentAnswered. rewrite L. cbn [andb]. apply Nat.eqb_eq in L.
  rewrite <- L, seq_S, forallb_app. cbn [forallb]. rewrite andb_true_r. cbn [Nat.add].
  replace (forallb _ (seq 0 (step s))) with true; [done|]. symmetry. apply forallb_forall. intros j Hj. apply in_seq in Hj.
  apply negb_true_iff, is_empty_false. apply H5. lia.
Qed.

(** ** Theorems *)

(** Whatever is clicked, the answers are sent from the last question only, all
    at once: one per question, none empty, each the chosen options followed by
    the free text, as they are at that moment. *)
Theorem answers_complete es answers : submit (ask_run es ask_start) = Some answers ->
  let s := ask_run es ask_start in
  S (step s) = length questions /\ length answers = length questions /\
  forall i, i < length questions -> answers !! i = Some (effective i s) /\ effective i s <> [].
Proof.
  cbv zeta. set (s := ask_run es ask_start). unfold submit. destruct (isLast s) eqn:L; [|done]. cbn [andb].
  destruct (allAnswered s) eqn:A; [|done]. intros [= <-]. unfold allAnswered in A. rewrite L in A. cbn [andb] in A.
  apply Nat.eqb_eq in L. split; [exact L|]. split; [apply length_imap|]. intros i Hi. rewrite forallb_forall in A.
  rewrite list_lookup_imap. destruct (lookup_lt_is_Some_2 questions i Hi) as [q ->]. split; [done|].
  apply is_empty_false, negb_true_iff, A. apply in_seq. lia.
Qed.

(** The steps go through the questions in order: every question before the
    current one has an answer, so that the last button is enabled as soon as
    the last question has one. *)
Theorem steps_in_order es :
  let s := ask_run es ask_start in
  (forall j, j < step s -> effective j s <> []) /\
  (isLast s = true -> (exists answers, submit s = Some answers) <-> currentAnswered s = true).
Proof.
  cbv zeta. set (s := ask_run es ask_start). assert (H : ask_ok s) by (apply ask_run_ok, ask_start_ok).
  split; [apply (ok_before s H)|]. intros L. unfold submit. rewrite (all_answered_last s H L), L. cbn [andb].
  destruct (currentAnswered s); split; intros X; [done|by eexists|by destruct X|done].
Qed.
End ask.

(** Clicking an option twice leaves the question as it was. *)
Lemma filter_not_in (opt : jstr) l : opt ∉ l -> List.filter (fun x => negb (streq x opt)) l = l.
Proof.
  induction l as [|x l IH]; intros H; [done|]. cbn [List.filter]. apply not_elem_of_cons in H as [H1 H2].
  destruct (streq_spec x opt) as [->|]; [done|]. cbn [negb]. by rewrite IH.
Qed.
Theorem toggle_twice opt s : step s < length (chosen s) -> opt ∉ default [] (chosen s !! step s) -> toggleOption opt (toggleOption opt s) = s.
Proof.
  intros HL HN. destruct (lookup_lt_is_Some_2 (chosen s) (step s) HL) as [l Hl]. rewrite Hl in HN. cbn [from_option id] in HN.
  unfold toggleOption. cbn [step chosen otherOpen otherText]. rewrite Hl. cbn [from_option id].
  assert (E1 : existsb (streq opt) l = false).
  { destruct (existsb (streq opt) l) eqn:E; [|done]. apply existsb_exists in E as (x & Hx & E). apply list_elem_of_In in Hx.
    destruct (streq_spec opt x); [by subst|done]. }
  rewrite E1, set_at_lookup, Nat.eqb_refl, Hl. cbn [fmap option_fmap option_map from_option id].
  rewrite existsb_app. cbn [existsb]. destruct (streq_spec opt opt) as [_|]; [|done]. rewrite orb_true_r.
  rewrite List.filter_app, filter_not_in by done. cbn [List.filter]. destruct (streq_spec opt opt) as [_|]; [|done]. cbn [negb]. rewrite app_nil_r.
  destruct s as [k c o x]. cbn [step chosen otherOpen otherText] in *. f_equal. apply list_eq. intros j.
  rewrite !set_at_lookup. destruct (Nat.eqb_spec j k) as [->|]; [by rewrite Hl|done].
Qed.

Definition two_questions : list AskQ := [mkAskQ (u "Which?") [u "A"; u "B"]; mkAskQ (u "When?") [u "now"]].
Theorem answers_complete_witness :
  let es := [Toggle (u "A"); Toggle (u "B"); Next; Other; Typed (u " later ")] in
  submit two_questions (ask_run two_questions es (ask_start two_questions)) = Some [u "A + B"; u "later"] /\
  S (step (ask_run two_questions es (ask_start two_questions))) = 2.
Proof.
  cbv zeta. assert (H : submit two_questions (ask_run two_questions [Toggle (u "A"); Toggle (u "B"); Next; Other; Typed (u " later ")] (ask_start two_questions))
     = Some [u "A + B"; u "later"]) by (vm_compute; reflexivity).
  split; [exact H|]. exact (proj1 (answers_complete two_questions _ _ H)).
Defined.
Theorem toggle_twice_witness : toggleOption (u "A") (toggleOption (u "A") (ask_start two_questions)) = ask_start two_questions.
Proof. apply toggle_twice; [cbn; lia|apply not_elem_of_nil]. Defined.
