(* ===== verification/ThreadMessage.v ===== *)
(** * A message of the thread (app/(app)/playground/_components/ThreadMessage.tsx)

    What the playground shows of one message, derived from the whole
    conversation: the reasoning, the text around the files, the cards, the
    questionnaire, the warnings.  [thread_message] is the component: nothing for
    a hidden message, else the metadata, the pictures, the tools at work and
    the body, as data.  The counters of a message and the number of attachments
    of the question before it, which [ChatMsg] leaves out, are arguments. *)

From S2P Require Import Prelude JsJson JsRegExp Repair Parsers Thread ThreadSpec.

(** The texts of the counters; [None] for a counter that is absent or zero. *)
Record Counters := mkCounters { k_tokens : option jstr; k_rate : option jstr; k_ttft : option jstr }.

Inductive Footer :=
| Stats (text : jstr) (quiet regenerate : bool)
| UserButtons (editing : bool)
| NoFooter.
Record Metadata := mkMetadata { md_error : bool; md_footer : Footer }.

(** A tool at work: its text, whether it is finished, the tiles that wait for
    its pictures or videos. *)
Inductive Media := MImage | MVideo.
Record ToolLine := mkLine { l_text : jstr; l_finished : bool; l_tiles : option (Media * nat) }.

Record Card := mkCard { c_artifact : Artifact; c_title : jstr; c_version : option nat }.
Inductive Piece := Markdown (s : jstr) | FileCard (c : Card).

Inductive Cut := TokenLimit | NetworkCut | FileCut.
(** The warnings; the option is the action of their button, shown on the last
    message only. *)
Inductive Banner :=
| OnlyExcerpt (full_file : option jstr)
| NotApplied (unreadable : bool)
| BrokenFile (redo : option jstr)
| Incomplete (why : Cut) (continue_ : bool).

Record Answer := mkAnswer {
  w_reasoning : jstr; w_thinking : bool; w_answer_now : bool;
  w_pieces : list Piece; w_banners : list Banner; w_edits : list EditedFile; w_cards : list Card
}.
Inductive Body :=
| Thinking (label : option jstr)
| LiveDocument (title : jstr)
| Questions (reasoning : jstr) (intro : option jstr) (qs : list AskQ) (answered : bool)
| Shown (a : Answer).
Record View := mkView { v_meta : option Metadata; v_images : list jstr; v_tools : list ToolLine; v_body : Body }.

Section message.
Context (t : jstr -> jstr) (renamedTitle : Artifact -> jstr).
Context (m : ChatMsg) (i : nat) (messages : list ChatMsg).
Context (streaming : bool) (liveCode : option nat) (isNarrow : bool) (webSteps : list WebStep).
Context (editingIdx : option nat) (liveStats : option (jstr * jstr)) (resume : nat) (waitLabel : option jstr).
Context (versions : list (jstr * list FileVersion)) (counters : Counters) (prevAttachments : bool).

Definition is_assistant : bool := bool_decide (role m = Assistant).
Definition isLast : bool := S i =? length messages.
Definition streamingThis : bool := streaming && isLast.
Definition isThinking : bool :=
  streamingThis && is_assistant && streq (content m) [] && match reasoning m with Some (_ :: _) => false | _ => true end.
Definition canRegenerateThis : bool := is_assistant && isLast && negb streaming.
Definition before : jstr := text_at messages (Z.of_nat i - 1).

(** [None] when the parser throws. *)
Definition ask_of : option (option AskBlock) := if is_assistant && negb streamingThis then parseAsk (content m) else Some None.
Definition shownContent : jstr :=
  match liveCode with Some start => if streamingThis && isLast then take start (content m) else content m | None => content m end.
Definition known (name : jstr) : option jstr := fs_content <$> assoc_get name (filesUntil t messages (Z.of_nat i - 1)).
Definition arts_of (ask : option AskBlock) : option Parsed :=
  match ask with
  | None =>
      if is_assistant then
        Some (parseArtifacts t (if streamingThis then shownContent else closedContent shownContent)
                (negb streamingThis && isDocTask before) before known)
      else None
  | Some _ => None
  end.
Definition finished_answer : bool := is_assistant && negb streamingThis.
Definition continuation : list Artifact := if finished_answer then messageMerge t messages (Z.of_nat i) else [].
(** [None] when the replay of the edits throws. *)
Definition changes_of : option (list Artifact * list jstr) :=
  if finished_answer then applyEdits t messages (Z.of_nat i) else Some ([], []).
Definition fragments : list jstr := if finished_answer then messageFragments t messages (Z.of_nat i) else [].
Definition networkCut : bool := isError m && is_assistant && (200 <? length (content m)) && negb streamingThis.
Definition isContinuation : bool := finished_answer && isResume (msg_at messages (Z.of_nat i - 1)).

Definition r_arts (arts : option Parsed) : list Artifact := match arts with Some r => r_artifacts r | None => [] end.
Definition items_of (arts : option Parsed) (files : list Artifact) : list Artifact :=
  if isContinuation then continuation ++ files else r_arts arts ++ files.

Definition is_doc (a : Artifact) : bool := match a with Doc _ _ => true | Code _ _ _ => false end.
(** [brokenScript]; its cache does not change its answer. *)
Definition brokenFile (items : list Artifact) : option Artifact :=
  if streamingThis then None else find (fun a => negb (is_doc a) && broken (a_content a)) items.
Definition emptyMsg (items : list Artifact) : jstr :=
  if existsb is_doc items then t (u "Voici le document — ouvre-le pour le lire ou le copier.")
  else t (u "Voici le fichier — ouvre-le pour le copier.").

Definition ASK_FENCE : jstr := u "```ask".
Definition EDIT_FENCE : jstr := u "```edit".
Definition until (sep s : jstr) : jstr := hd [] (split_on sep s).
Definition streamingBody : jstr :=
  if streamingThis && includes (content m) ASK_FENCE then until ASK_FENCE (content m)
  else if streamingThis && includes (content m) EDIT_FENCE then until EDIT_FENCE (content m)
  else shownContent.
Definition askIntro (ask : AskBlock) : jstr :=
  take 280 (default [] (find (fun s => negb (streq s [])) (map trim (split_lf (prose ask))))).
Definition containsEdit : bool := includes (content m) EDIT_FENCE.
Definition re_edit_block : RegExp := rx "```edit[\s\S]*?(?:```|$)" "g".
Definition proseOutsideEdit (arts : option Parsed) : jstr :=
  match isContinuation, continuation with
  | true, _ :: _ => []
  | _, _ => trim (replace_all re_edit_block [] (match arts with Some r => r_prose r | None => content m end))
  end.
Definition or_else (s d : jstr) : jstr := match s with [] => d | _ => s end.
Definition bodyText (ask : option AskBlock) (arts : option Parsed) (items : list Artifact) : jstr :=
  match ask with
  | Some a => askIntro a
  | None =>
      match items with
      | _ :: _ => or_else (proseOutsideEdit arts) (emptyMsg items)
      | [] => if containsEdit && negb streamingThis then or_else (proseOutsideEdit arts) (t (u "Modification proposée."))
              else streamingBody
      end
  end.

Definition place (seg : Segment) : Segment :=
  match seg with
  | SText s => SText (trim (if streamingThis then until ASK_FENCE s else s))
  | SFile n => SFile n
  end.
Definition kept_segment (seg : Segment) : bool := match seg with SText s => negb (streq s []) | SFile _ => true end.
Definition inPlace (ask : option AskBlock) (arts : option Parsed) : option (list Segment) :=
  match ask, arts with
  | None, Some r =>
      if negb isContinuation && (0 <? length (r_artifacts r)) && negb containsEdit
      then Some (List.filter kept_segment (map place (r_segments r)))
      else None
  | _, _ => None
  end.

Definition versionAt (name : jstr) : option nat :=
  match assoc_get name versions with
  | Some vs => match length (List.filter (fun v => v_index v <=? i) vs) with O => None | n => Some n end
  | None => None
  end.
Definition unreadableEdit (changes : list Artifact * list jstr) : bool :=
  containsEdit && negb streamingThis && (length changes.1 =? 0) && (length changes.2 =? 0).
Definition streamingDoc : bool :=
  streamingThis && is_assistant && (0 <? length (content m)) && negb isNarrow && isDocTask before.

(** ** What is rendered *)

Definition stats_text : jstr :=
  match liveStats with
  | Some (tokens, tps) =>
      if streamingThis then
        (if 0 <? resume then t (u "Reprise automatique") ++ u " " ++ string_of_nat resume ++ u "/" ++ string_of_nat MAX_AUTO_RESUMES ++ u " · " else [])
        ++ u "~" ++ tokens ++ u " tokens · " ++ tps ++ u " tok/s"
      else join (u " · ") (omap (fun x => x) [(fun n => n ++ u " tokens") <$> k_tokens counters; (fun n => n ++ u " tok/s") <$> k_rate counters;
                                              (fun n => u "TTFT " ++ n ++ u "s") <$> k_ttft counters])
  | None => join (u " · ") (omap (fun x => x) [(fun n => n ++ u " tokens") <$> k_tokens counters; (fun n => n ++ u " tok/s") <$> k_rate counters;
                                               (fun n => u "TTFT " ++ n ++ u "s") <$> k_ttft counters])
  end.
Definition is_some {A} (o : option A) : bool := match o with Some _ => true | None => false end.
Definition footer : Footer :=
  if is_assistant && (is_some (k_tokens counters) || is_some (k_rate counters) || canRegenerateThis || (streamingThis && is_some liveStats))
  then Stats stats_text (negb isLast) canRegenerateThis
  else if is_assistant then NoFooter else UserButtons (bool_decide (editingIdx = Some i)).
Definition metadata : option Metadata :=
  if isThinking then None
  else match ts m with
       | Some n => if (n =? 0)%Z then None else Some (mkMetadata (isError m) footer)
       | None => None
       end.

Definition tiles (e : WebStep) : nat :=
  Nat.max 1 (Nat.min 4 (match w_count e with 0%N => 1 | n => N.to_nat n end)).
Definition tool_line (e : WebStep) : ToolLine :=
  let l := webStepLabel t e in
  let media := match step e with Some generation => Some MImage | Some generation_video => Some MVideo | _ => None end in
  mkLine l.1 l.2 (if l.2 then None else (fun k => (k, tiles e)) <$> media).

Definition card (a : Artifact) : Card := mkCard a (renamedTitle a) (versionAt (a_title a)).
(** A file of a segment that is no artifact would throw; see [pieces_files]. *)
Definition piece (arts : list Artifact) (seg : Segment) : option Piece :=
  match seg with SText s => Some (Markdown s) | SFile n => (fun a => FileCard (card a)) <$> arts !! n end.

Definition banners (changes : list Artifact * list jstr) (items : list Artifact) : list Banner :=
  match fragments with f :: _ => [OnlyExcerpt (if isLast then Some f else None)] | [] => [] end
  ++ (if (0 <? length changes.2) || unreadableEdit changes then [NotApplied (unreadableEdit changes)] else [])
  ++ match brokenFile items with Some a => [BrokenFile (if isLast then Some (a_title a) else None)] | None => [] end
  ++ (if (truncated m || networkCut || (negb streamingThis && incompleteMessage t messages (Z.of_nat i))) && negb streamingThis
      then [Incomplete (if truncated m then TokenLimit else if networkCut then NetworkCut else FileCut) isLast]
      else []).

Definition answer_view (arts : option Parsed) (changes : list Artifact * list jstr) : Answer :=
  let items := items_of arts changes.1 in
  let text := bodyText None arts items in
  let empty := streq (trim text) [] in
  let place_ := inPlace None arts in
  mkAnswer (default [] (reasoning m)) (streamingThis && empty)
    (streamingThis && empty && match reasoning m with Some (_ :: _) => true | _ => false end)
    (match place_ with Some segs => omap (piece (r_arts arts)) segs | None => [Markdown (or_else text (u " "))] end)
    (banners changes items)
    (if is_assistant then fileEdits m else [])
    (map card (match place_ with Some _ => drop (length (r_arts arts)) items | None => items end)).

Definition body (ask : option AskBlock) (changes : list Artifact * list jstr) : Body :=
  if isThinking && (length webSteps =? 0) then Thinking (if prevAttachments then Some (t (u "Lecture du fichier…")) else waitLabel)
  else if streamingDoc then LiveDocument (docTitleFromContent (content m))
  else match ask with
       | Some a =>
           let text := bodyText ask None (items_of None changes.1) in
           Questions (default [] (reasoning m)) (if streq (trim text) [] then None else Some text) (questions a) (negb isLast)
       | None => Shown (answer_view (arts_of None) changes)
       end.

(** The component: [None] when rendering throws, [Some None] for a message that
    is not shown. *)
Definition thread_message : option (option View) :=
  if hidden m then Some None
  else
    ask ← ask_of;
    changes ← changes_of;
    Some (Some (mkView metadata (if is_assistant then [] else images m) (if streamingThis then map tool_line webSteps else []) (body ask changes))).
End message.

(** ** Properties *)

(** What [split(sep)[0]] leaves does not contain the separator. *)
Lemma until_cons sep c s : until sep (c :: s) = if is_prefix sep (c :: s) then [] else c :: until sep s.
Proof.
  unfold until, split_on. cbn [split_skip]. destruct (is_prefix sep (c :: s)); [done|].
  pose proof (split_skip_nonnil sep s 0). by destruct (split_skip sep s 0).
Qed.
Lemma until_prefix sep s : exists k, s = until sep s ++ k.
Proof.
  induction s as [|c s [k IH]]; [by exists []|]. rewrite until_cons. destruct (is_prefix _ _); [by exists (c :: s)|].
  exists k. cbn [app]. by rewrite <- IH.
Qed.
Lemma until_excludes sep s : sep <> [] -> includes (until sep s) sep = false.
Proof.
  intros H. unfold includes. apply bool_decide_eq_false. intros [i Hi]. revert i Hi.
  induction s as [|c s IH]; intros i Hi; [by destruct sep|]. rewrite until_cons in Hi. destruct (is_prefix sep (c :: s)) eqn:E; [by destruct sep|].
  cbn [index_from] in Hi. destruct (is_prefix sep (c :: until sep s)) eqn:F.
  - destruct (until_prefix sep s) as [k Hk]. pose proof (is_prefix_mono _ _ k F) as G. cbn [app] in G. rewrite <- Hk in G. congruence.
  - destruct (index_from sep (until sep s)) as [j|] eqn:G; [|done]. by apply (IH j).
Qed.
Lemma includes_infix s r sep : infix s r -> includes r sep = false -> includes s sep = false.
Proof.
  intros (a & b & ->) H. destruct (includes s sep) eqn:E; [|done]. apply includes_true in E as (x & y & ->).
  rewrite <- H. symmetry. apply includes_true. exists (a ++ x), (y ++ b). by rewrite <- !app_assoc.
Qed.

Definition piece_card (p : Piece) : option Card := match p with FileCard c => Some c | Markdown _ => None end.

Lemma until_markdown s : includes s ASK_FENCE = false -> includes (or_else s (u " ")) ASK_FENCE = false.
Proof. by destruct s. Qed.
Lemma streaming_body_clean m i messages streaming liveCode : streamingThis i messages streaming = true -> includes (content m) EDIT_FENCE = false ->
  includes (streamingBody m i messages streaming liveCode) ASK_FENCE = false.
Proof.
  intros HS HE. unfold streamingBody. rewrite HS, HE. cbn [andb]. destruct (includes (content m) ASK_FENCE) eqn:E; [by apply until_excludes|].
  unfold shownContent. destruct liveCode; [|done]. destruct (_ && _); [|done]. eapply includes_infix; [apply infix_take|done].
Qed.

Section spec.
Context (t : jstr -> jstr) (renamedTitle : Artifact -> jstr).
Context (m : ChatMsg) (i : nat) (messages : list ChatMsg).
Context (streaming : bool) (liveCode : option nat) (isNarrow : bool) (webSteps : list WebStep).
Context (editingIdx : option nat) (liveStats : option (jstr * jstr)) (resume : nat) (waitLabel : option jstr).
Context (versions : list (jstr * list FileVersion)) (counters : Counters) (prevAttachments : bool).
Notation view := (thread_message t renamedTitle m i messages streaming liveCode isNarrow webSteps editingIdx liveStats resume waitLabel versions counters prevAttachments).
Notation arts := (arts_of t m i messages streaming liveCode).
Notation card_ := (card renamedTitle i versions).
Notation items := (items_of t m i messages streaming).

Lemma segments_files (r : Parsed) : omap seg_file (r_segments r) = seq 0 (length (r_artifacts r)) ->
  omap piece_card (omap (piece renamedTitle i versions (r_artifacts r)) (List.filter kept_segment (map (place i messages streaming) (r_segments r))))
  = map card_ (r_artifacts r).
Proof.
  intros H. assert (E : forall l, omap piece_card (omap (piece renamedTitle i versions (r_artifacts r)) (List.filter kept_segment (map (place i messages streaming) l)))
    = omap (fun n => card_ <$> r_artifacts r !! n) (omap seg_file l)).
  { clear H. induction l as [|[s|n] l IH]; cbn [map List.filter place kept_segment]; [done|..].
    - cbn [omap list_omap seg_file]. destruct (negb _); cbn [omap list_omap piece piece_card]; done.
    - cbn [omap list_omap seg_file piece]. destruct (r_artifacts r !! n); cbn [fmap option_fmap option_map omap list_omap piece_card]; [by f_equal|done]. }
  rewrite E, H. clear. generalize (r_artifacts r) as l. intros l.
  assert (G : forall k l', (forall n, l' !! n = l !! (k + n)) -> omap (fun n => card_ <$> l !! n) (seq k (length l')) = map card_ l').
  { intros k l'. revert k. induction l' as [|a l' IH]; intros k HL; [done|]. cbn [length seq omap list_omap map].
    pose proof (HL 0) as H0. rewrite Nat.add_0_r in H0. rewrite <- H0. change ((a :: l') !! 0) with (Some a). cbn [fmap option_fmap option_map]. f_equal. apply IH.
    intros n. specialize (HL (S n)). change ((a :: l') !! S n) with (l' !! n) in HL. rewrite HL. f_equal. lia. }
  apply G. done.
Qed.

Lemma shown_inv v a : view = Some (Some v) -> v_body v = Shown a ->
  exists changes, changes_of t m i messages streaming = Some changes /\ ask_of m i messages streaming = Some None /\
    a = answer_view t renamedTitle m i messages streaming liveCode versions (arts None) changes.
Proof.
  unfold thread_message. destruct (hidden m); [done|]. destruct (ask_of _ _ _ _) as [ask|]; [|done]. cbn [mbind option_bind].
  destruct (changes_of _ _ _ _ _) as [changes|]; [|done]. cbn [mbind option_bind]. intros [= <-]. cbn [v_body]. unfold body.
  destruct (_ && _); [done|]. destruct (streamingDoc _ _ _ _ _); [done|]. destruct ask; [done|]. intros [= <-]. by exists changes.
Qed.

(** What stands in the thread for the layout of a text: its passages, trimmed, the
    blank ones left out, and the card of a file at the place of its block. *)
Fixpoint laid_out (files : list Artifact) (segs : list Segment) : list Piece :=
  match segs with
  | [] => []
  | SText s :: segs =>
      let passage := trim (if streamingThis i messages streaming then until ASK_FENCE s else s) in
      (if streq passage [] then [] else [Markdown passage]) ++ laid_out files segs
  | SFile n :: segs => match files !! n with Some f => [FileCard (card_ f)] | None => [] end ++ laid_out files segs
  end.
Lemma laid_out_pieces files segs :
  omap (piece renamedTitle i versions files) (List.filter kept_segment (map (place i messages streaming) segs)) = laid_out files segs.
Proof.
  induction segs as [|[s|n] segs IH]; [done| |]; cbn [map place List.filter kept_segment laid_out].
  - destruct (streq _ []) eqn:E; cbn [negb omap list_omap piece app]; by rewrite IH.
  - cbn [omap list_omap piece]. destruct (files !! n); cbn [fmap option_fmap option_map app]; by rewrite IH.
Qed.
Lemma arts_layout r : arts None = Some r -> omap seg_file (r_segments r) = seq 0 (length (r_artifacts r)).
Proof. unfold arts_of. destruct (is_assistant m); [|done]. intros [= <-]. apply (parseArtifacts_layout t). Qed.


(** While an answer that edits no file is written, the raw text of a
    questionnaire never shows. *)
Theorem streaming_hides_questionnaire v a s : streamingThis i messages streaming = true -> includes (content m) EDIT_FENCE = false ->
  view = Some (Some v) -> v_body v = Shown a -> Markdown s ∈ w_pieces a -> includes s ASK_FENCE = false.
Proof.
  intros HS HE Hv Ha Hs. destruct (shown_inv v a Hv Ha) as (changes & Hc & _ & ->).
  assert (changes = ([], [])) as ->.
  { unfold changes_of, finished_answer in Hc. rewrite HS, andb_false_r in Hc. by injection Hc as <-. }
  assert (IC : isContinuation m i messages streaming = false) by (unfold isContinuation, finished_answer; by rewrite HS, andb_false_r).
  unfold answer_view in Hs. cbn [w_pieces fst] in Hs. unfold inPlace, items_of, containsEdit in Hs. rewrite IC, HE in Hs. cbn [negb andb] in Hs.
  rewrite app_nil_r in Hs. destruct (arts None) as [r|]; cbn [r_arts] in Hs.
  - destruct (r_artifacts r) as [|x l] eqn:ER; cbn [length Nat.ltb Nat.leb andb] in Hs.
    + apply list_elem_of_singleton in Hs. injection Hs as ->. apply until_markdown.
      unfold bodyText, containsEdit. rewrite HE. cbn [andb]. apply streaming_body_clean; done.
    + apply list_elem_of_omap in Hs as (seg & Hs & Hp). apply list_elem_of_In, filter_In in Hs as [Hs _]. apply in_map_iff in Hs as (seg' & <- & _).
      destruct seg' as [s'|n]; cbn [place piece] in Hp; [|by destruct (_ !! n)]. injection Hp as <-. rewrite HS.
      eapply includes_infix; [apply trim_infix|]. by apply until_excludes.
  - apply list_elem_of_singleton in Hs. injection Hs as ->. apply until_markdown.
    unfold bodyText, containsEdit. rewrite HE. cbn [andb]. apply streaming_body_clean; done.
Qed.

(** A message of the user without an edit block is shown as it is written, and
    nothing else: no card, no warning but for a cut. *)
Theorem user_message_as_written v a : role m = User -> includes (content m) EDIT_FENCE = false -> truncated m = false -> isError m = false ->
  streamingThis i messages streaming = false -> messages !! i = Some m -> view = Some (Some v) -> v_body v = Shown a ->
  w_pieces a = [Markdown (or_else (content m) (u " "))] /\ w_cards a = [] /\ w_banners a = [] /\ w_edits a = [].
Proof.
  intros HR HE HT HX HS HM Hv Ha. destruct (shown_inv v a Hv Ha) as (changes & Hc & _ & ->).
  assert (A : is_assistant m = false) by (unfold is_assistant; by rewrite HR).
  assert (changes = ([], [])) as ->.
  { unfold changes_of, finished_answer in Hc. rewrite A in Hc. by injection Hc as <-. }
  unfold answer_view, arts_of, items_of, isContinuation, finished_answer. rewrite A. cbn [andb r_arts fst app inPlace w_pieces w_cards w_banners w_edits map].
  unfold bodyText, containsEdit. rewrite HE. cbn [andb]. unfold streamingBody. rewrite HS. cbn [andb]. unfold shownContent. rewrite HS. cbn [andb].
  split; [by destruct liveCode|]. split; [done|]. split; [|done].
  unfold banners, fragments, finished_answer, unreadableEdit, containsEdit, brokenFile, networkCut. rewrite A, HE, HT, HX, HS. cbn.
  unfold incompleteMessage, msg_at. destruct (Z.ltb_spec (Z.of_nat i) 0); [lia|]. rewrite Nat2Z.id, HM, HR. done.
Qed.
End spec.

(** ** Examples *)

#[local] Abbreviation fr := (fun x : jstr => x) (only parsing).
Definition said_ (r : Role) (c : jstr) : ChatMsg := mkMsg r c false false false false None [] [] (Some 1%Z).
(** The message [i] of a conversation, nothing else being known. *)
Definition show (messages : list ChatMsg) (i : nat) (streaming : bool) : option (option View) :=
  match messages !! i with
  | Some m => thread_message fr a_title m i messages streaming None false [] None None 0 None [] (mkCounters None None None) false
  | None => None
  end.
Definition shown_answer (o : option (option View)) : Answer :=
  match o with
  | Some (Some v) => match v_body v with Shown a => a | _ => mkAnswer [] false false [] [] [] [] end
  | _ => mkAnswer [] false false [] [] [] []
  end.
Definition one_file : list ChatMsg :=
  [said_ User (u "Un script ?"); said_ Assistant (u "Voici :
```a.py
print(1)
```
Fin.")].


Definition half_ask : list ChatMsg := [said_ User (u "Un plan ?"); said_ Assistant (u "Une question.
```ask
{")].
Theorem streaming_hides_questionnaire_witness :
  w_pieces (shown_answer (show half_ask 1 true)) = [Markdown (u "Une question.
")] /\ includes (u "Une question.
") ASK_FENCE = false.
Proof.
  assert (H : w_pieces (shown_answer (show half_ask 1 true)) = [Markdown (u "Une question.
")]) by (vm_compute; reflexivity).
  split; [exact H|].
  apply (streaming_hides_questionnaire fr a_title (said_ Assistant (content (default (said_ User []) (half_ask !! 1)))) 1 half_ask true None true [] None None 0 None [] (mkCounters None None None) false
    (default (mkView None [] [] (Thinking None)) (default None (show half_ask 1 true))) (shown_answer (show half_ask 1 true)));
    [vm_compute; reflexivity|vm_compute; reflexivity|vm_compute; reflexivity|vm_compute; reflexivity|].
  rewrite H. apply list_elem_of_singleton. reflexivity.
Defined.

Theorem user_message_as_written_witness :
  w_pieces (shown_answer (show one_file 0 false)) = [Markdown (u "Un script ?")] /\ w_banners (shown_answer (show one_file 0 false)) = [].
Proof.
  destruct (user_message_as_written fr a_title (said_ User (u "Un script ?")) 0 one_file false None false [] None None 0 None [] (mkCounters None None None) false
    (default (mkView None [] [] (Thinking None)) (default None (show one_file 0 false))) (shown_answer (show one_file 0 false))) as (H1 & _ & H2 & _);
    [reflexivity|vm_compute; reflexivity|reflexivity|reflexivity|reflexivity|reflexivity|vm_compute; reflexivity|vm_compute; reflexivity|].
  split; [exact H1|exact H2].
Defined.

(** A question that quotes an edit block is shown without it, with the warning
    of an edit that could not be read. *)
Lemma quoted_edit_mangled :
  let a := shown_answer (show [said_ User (u "Que fait ```edit a``` ?")] 0 false) in
  w_pieces a = [Markdown (u "Que fait  ?")] /\ w_banners a = [NotApplied true].
Proof. vm_compute. split; reflexivity. Qed.

(** While it is written, an edit block that comes before a questionnaire shows. *)
Lemma edit_block_shown_before_ask :
  w_pieces (shown_answer (show [said_ User (u "Salut"); said_ Assistant (u "```edit a``` ```ask")] 1 true)) = [Markdown (u "```edit a``` ")].
Proof. vm_compute. reflexivity. Qed.
