(* ===== verification/Memory.v ===== *)
(** * The memory tab (app/(app)/memory/_components/MemoryContent.tsx)

    What the assistant knows of the user: the facts grouped by subject, their
    addition, edition and removal, the switches, the import and the export.
    The requests that are awaited are in the state ([awaited]), with what
    follows them; a [Reply] is what the answer of the server gives to it, and
    no reply is a request that rejects. *)

From S2P Require Import Prelude JsJson JsRegExp I18n.
Local Open Scope flow_scope.

Record MemNode := mkNode { n_id : Z; n_name : jstr; n_kind : jstr; n_created_at : jstr }.
Record MemEdge := mkEdge {
  e_id : Z; e_relation : jstr; e_fact : jstr; e_source : jstr; e_created_at : jstr; e_src_id : Z; e_dst_id : option Z;
  e_subject : jstr; e_object : option jstr
}.
Record MemGraph := mkGraph {
  enabled : bool; max_facts : Z; nodes : list MemNode; edges : list MemEdge; search_chats : option bool; sensitive : option bool
}.
Definition EMPTY : MemGraph := mkGraph false 400 [] [] (Some true) (Some true).

(** ** The facts by subject *)

(** The map from a subject to its facts, in the order of insertion. *)
Definition add_edge (m : list (jstr * list MemEdge)) (e : MemEdge) : list (jstr * list MemEdge) :=
  assoc_set (e_subject e) (default [] (assoc_get (e_subject e) m) ++ [e]) m.
(** [sort((a, b) => b[1].length - a[1].length)], which is stable. *)
Fixpoint insert_group (x : jstr * list MemEdge) (l : list (jstr * list MemEdge)) : list (jstr * list MemEdge) :=
  match l with
  | [] => [x]
  | y :: r => if length y.2 <=? length x.2 then x :: l else y :: insert_group x r
  end.
Definition bySubject (es : list MemEdge) : list (jstr * list MemEdge) := foldr insert_group [] (foldl add_edge [] es).

Inductive Setting := SearchChats | Sensitive.
Inductive Format := Json | Md.
(** The requests, with the texts they carry. *)
Inductive MRequest :=
| Load | SetSetting (key : Setting) (value : bool) | SetEnabled (value : bool)
| AddFact (subject fact : jstr) | SaveEdit (id : Z) (fact : jstr) | Forget (id : Z) | Purge
| ImportPasted (text : jstr) | ImportJson (doc : json) | ImportMd (text : jstr) | Export (fmt : Format).
Inductive MEffect := Asked (r : MRequest) | Toast (body : jstr) (error : bool) | Saved (name : jstr).

(** What an answer gives: whether the status is a success, whether the body is
    JSON, its [ok], [error], [enabled] (absent ones are false or empty), the
    texts of its counts, the graph, and the Content-Disposition header. *)
Record Reply := mkReply {
  p_http_ok : bool; p_json : bool; p_ok : bool; p_error : jstr; p_enabled : bool;
  p_deleted : option jstr; p_imported : option jstr; p_graph : MemGraph; p_disposition : option jstr
}.

Record MPage := mkMPage {
  graph : MemGraph; loading : bool; subject : jstr; fact : jstr; editingId : option Z; editText : jstr;
  importOpen : bool; pasted : jstr; importing : bool; awaited : list MRequest; asked : list MEffect
}.

Definition set_graph v p := mkMPage v (loading p) (subject p) (fact p) (editingId p) (editText p) (importOpen p) (pasted p) (importing p) (awaited p) (asked p).
Definition set_loading v p := mkMPage (graph p) v (subject p) (fact p) (editingId p) (editText p) (importOpen p) (pasted p) (importing p) (awaited p) (asked p).
Definition set_subject v p := mkMPage (graph p) (loading p) v (fact p) (editingId p) (editText p) (importOpen p) (pasted p) (importing p) (awaited p) (asked p).
Definition set_fact v p := mkMPage (graph p) (loading p) (subject p) v (editingId p) (editText p) (importOpen p) (pasted p) (importing p) (awaited p) (asked p).
Definition set_editingId v p := mkMPage (graph p) (loading p) (subject p) (fact p) v (editText p) (importOpen p) (pasted p) (importing p) (awaited p) (asked p).
Definition set_editText v p := mkMPage (graph p) (loading p) (subject p) (fact p) (editingId p) v (importOpen p) (pasted p) (importing p) (awaited p) (asked p).
Definition set_importOpen v p := mkMPage (graph p) (loading p) (subject p) (fact p) (editingId p) (editText p) v (pasted p) (importing p) (awaited p) (asked p).
Definition set_pasted v p := mkMPage (graph p) (loading p) (subject p) (fact p) (editingId p) (editText p) (importOpen p) v (importing p) (awaited p) (asked p).
Definition set_importing v p := mkMPage (graph p) (loading p) (subject p) (fact p) (editingId p) (editText p) (importOpen p) (pasted p) v (awaited p) (asked p).
Definition set_awaited v p := mkMPage (graph p) (loading p) (subject p) (fact p) (editingId p) (editText p) (importOpen p) (pasted p) (importing p) v (asked p).
Definition emit (e : MEffect) p := mkMPage (graph p) (loading p) (subject p) (fact p) (editingId p) (editText p) (importOpen p) (pasted p) (importing p) (awaited p) (asked p ++ [e]).

(** Reading a field through the updates. *)
Ltac memory_fields :=
  cbn [graph loading subject fact editingId editText importOpen pasted importing awaited asked
       set_graph set_loading set_subject set_fact set_editingId set_editText set_importOpen set_pasted set_importing set_awaited emit] in *.

Section memory.
Context (t : jstr -> jstr).

Definition send (r : MRequest) (p : MPage) : MPage := p |> set_awaited (awaited p ++ [r]) |> emit (Asked r).
Definition toast (body : jstr) (error : bool) (p : MPage) : MPage := emit (Toast body error) p.

(** The page as its first effect leaves it. *)
Definition memory_start : MPage := mkMPage EMPTY true [] [] None [] false [] false [Load] [Asked Load].
Definition load (p : MPage) : MPage := send Load p.

Definition set_setting (key : Setting) (value : bool) (g : MemGraph) : MemGraph :=
  match key with
  | SearchChats => mkGraph (enabled g) (max_facts g) (nodes g) (edges g) (Some value) (sensitive g)
  | Sensitive => mkGraph (enabled g) (max_facts g) (nodes g) (edges g) (search_chats g) (Some value)
  end.
Definition set_enabled (value : bool) (g : MemGraph) : MemGraph :=
  mkGraph value (max_facts g) (nodes g) (edges g) (search_chats g) (sensitive g).

(** ** The clicks *)

Definition setSetting (key : Setting) (value : bool) (p : MPage) : MPage :=
  p |> set_graph (set_setting key value (graph p)) |> send (SetSetting key value).
Definition re_open_fence : RegExp := rx "^\s*```[a-z]*\s*\n" "i".
Definition re_close_fence : RegExp := rx "\n```\s*$" "".
Definition unfenced (s : jstr) : jstr := replace_first re_close_fence [] (replace_first re_open_fence [] s).
Definition importPasted (p : MPage) : MPage := p |> set_importing true |> send (ImportPasted (unfenced (pasted p))).
Definition toggle (value : bool) (p : MPage) : MPage := send (SetEnabled value) p.
Definition addFact (p : MPage) : MPage :=
  if streq (trim (subject p)) [] || streq (trim (fact p)) [] then p else send (AddFact (subject p) (fact p)) p.
Definition saveEdit (id : Z) (p : MPage) : MPage :=
  match trim (editText p) with [] => p | text => send (SaveEdit id text) p end.
Definition forget (id : Z) (p : MPage) : MPage := send (Forget id) p.
Definition purge (p : MPage) : MPage := send Purge p.
Definition download (fmt : Format) (p : MPage) : MPage := send (Export fmt) p.
Definition start_edit (e : MemEdge) (p : MPage) : MPage := p |> set_editingId (Some (e_id e)) |> set_editText (e_fact e).

Definition re_json_name : RegExp := rx "\.json$" "i".
(** The file is read ([None]: it cannot be), then sent. *)
Definition importFile (name : jstr) (text : option jstr) (p : MPage) : MPage :=
  match text with
  | None => toast (t (u "Fichier invalide.")) true p
  | Some s =>
      if test re_json_name name then
        match json_parse s with
        | Some doc => send (ImportJson doc) p
        | None => toast (t (u "Fichier invalide.")) true p
        end
      else send (ImportMd s) p
  end.

(** ** The answers *)

Definition server_error (r : Reply) (fallback : jstr) : jstr :=
  match p_error r with [] => t fallback | e => tServer e t end.
Definition imported_text (r : Reply) : jstr :=
  t (u "Import terminé") ++ u " — " ++ default (u "0") (p_imported r) ++ u " " ++ t (u "informations").
Definition no_answer (p : MPage) : MPage := toast (t (u "Le serveur n'a pas répondu — réessaie.")) true p.

Definition re_filename : RegExp := rx "filename=([^;]+)" "".
Definition re_quotes : RegExp := rx "[\x22']" "g".
Definition saved_name (fmt : Format) (disposition : option jstr) : jstr :=
  match exec re_filename (default [] disposition) with
  | Some m => replace_all re_quotes [] (cap0 m 1)
  | None => u "dgx-memory." ++ match fmt with Json => u "json" | Md => u "md" end
  end.

(** What follows each request, [r] being its answer. *)
Definition loaded (r : option Reply) (p : MPage) : MPage :=
  set_loading false
    (match r with
     | Some a => if p_http_ok a && p_json a then set_graph (p_graph a) p else toast (t (u "Chargement impossible.")) true p
     | None => toast (t (u "Chargement impossible.")) true p
     end).
Definition setting_answered (key : Setting) (value : bool) (r : option Reply) (p : MPage) : MPage :=
  if match r with Some a => p_ok a | None => false end then p
  else p |> set_graph (set_setting key (negb value) (graph p)) |> toast (t (u "Le réglage n'a pas été enregistré.")) true.
Definition pasted_answered (r : option Reply) (p : MPage) : MPage :=
  set_importing false
    (match r with
     | Some a => if p_http_ok a
                 then p |> toast (imported_text a) false |> set_importOpen false |> set_pasted [] |> load
                 else toast (server_error a (u "Import impossible.")) true p
     | None => p
     end).
Definition toggle_answered (r : option Reply) (p : MPage) : MPage :=
  match r with
  | Some a =>
      if p_ok a then
        p |> set_graph (set_enabled (p_enabled a) (graph p))
          |> toast (if p_enabled a then t (u "Mémoire activée.")
                    else t (u "Mémoire désactivée. Ce qui est déjà mémorisé est conservé.")) false
      else toast (server_error a (u "L'action a échoué.")) true p
  | None => no_answer p
  end.
(** These two do not catch a rejection. *)
Definition add_answered (r : option Reply) (p : MPage) : MPage :=
  match r with
  | Some a => if p_ok a then p |> set_subject [] |> set_fact [] |> load
              else toast (server_error a (u "Ajout impossible.")) true p
  | None => p
  end.
Definition edit_answered (r : option Reply) (p : MPage) : MPage :=
  match r with
  | Some a => if p_ok a then p |> set_editingId None |> load
              else toast (server_error a (u "Modification impossible.")) true p
  | None => p
  end.
Definition forget_answered (r : option Reply) (p : MPage) : MPage :=
  match r with
  | Some a => if p_ok a then load p else toast (server_error a (u "Suppression impossible.")) true p
  | None => no_answer p
  end.
Definition purge_answered (r : option Reply) (p : MPage) : MPage :=
  match r with
  | Some a =>
      if p_ok a
      then p |> toast (t (u "Mémoire effacée") ++ u " — " ++ default (u "undefined") (p_deleted a) ++ u " " ++ t (u "informations")) false |> load
      else toast (server_error a (u "L'action a échoué.")) true p
  | None => no_answer p
  end.
Definition download_answered (fmt : Format) (r : option Reply) (p : MPage) : MPage :=
  match r with
  | Some a => if p_http_ok a then emit (Saved (saved_name fmt (p_disposition a))) p else toast (t (u "Export impossible.")) true p
  | None => toast (t (u "Export impossible.")) true p
  end.
Definition json_answered (r : option Reply) (p : MPage) : MPage :=
  match r with
  | Some a => if p_ok a then p |> toast (imported_text a) false |> load
              else toast (server_error a (u "Import impossible.")) true p
  | None => toast (t (u "Fichier invalide.")) true p
  end.
Definition md_answered (r : option Reply) (p : MPage) : MPage :=
  match r with
  | Some a =>
      if p_http_ok a then
        if p_json a then p |> toast (imported_text a) false |> load
        else toast (t (u "Fichier invalide.")) true p
      else toast (server_error a (u "Import impossible.")) true p
  | None => toast (t (u "Fichier invalide.")) true p
  end.
Definition answered (q : MRequest) (r : option Reply) (p : MPage) : MPage :=
  match q with
  | Load => loaded r p
  | SetSetting key value => setting_answered key value r p
  | SetEnabled _ => toggle_answered r p
  | AddFact _ _ => add_answered r p
  | SaveEdit _ _ => edit_answered r p
  | Forget _ => forget_answered r p
  | Purge => purge_answered r p
  | ImportPasted _ => pasted_answered r p
  | ImportJson _ => json_answered r p
  | ImportMd _ => md_answered r p
  | Export fmt => download_answered fmt r p
  end.
Definition memory_answered (i : nat) (r : option Reply) (p : MPage) : MPage :=
  match awaited p !! i with
  | Some q => p |> set_awaited (delete i (awaited p)) |> answered q r
  | None => p
  end.

(** ** What is shown *)

Definition origin (e : MemEdge) : jstr :=
  match e_object e with
  | Some ((_ :: _) as o) => e_relation e ++ u " → " ++ o
  | _ => join (u " · ") (List.filter (fun x => negb (streq x []))
           [if streq (e_relation e) (u "à propos de") then [] else e_relation e;
            if streq (e_source e) (u "user") then t (u "ajouté par toi") else t (u "appris en conversation")])
  end.
(** A row is an editor with its text, or a fact with its origin. *)
Inductive Row := Editor (id : Z) (text : jstr) | Fact (id : Z) (label description : jstr).
Definition row (p : MPage) (e : MemEdge) : Row :=
  if bool_decide (editingId p = Some (e_id e)) then Editor (e_id e) (editText p) else Fact (e_id e) (e_fact e) (origin e).
Inductive Known := LoadingText | Nothing (hint : jstr) | Groups (l : list (jstr * list Row)).
Definition known_list (p : MPage) : Known :=
  if loading p then LoadingText
  else match edges (graph p) with
       | [] => Nothing (if enabled (graph p) then t (u "Les informations apparaîtront ici au fil des conversations.")
                        else t (u "Active la mémoire ci-dessus, ou ajoute une information à la main."))
       | es => Groups (map (fun g => (g.1 ++ u " (" ++ string_of_nat (length g.2) ++ u ")", map (row p) g.2)) (bySubject es))
       end.
Definition switch_value (key : option Setting) (g : MemGraph) : bool :=
  match key with
  | None => enabled g
  | Some SearchChats => negb (bool_decide (search_chats g = Some false))
  | Some Sensitive => negb (bool_decide (sensitive g = Some false))
  end.
Definition capacity_text (g : MemGraph) : jstr :=
  string_of_nat (length (edges g)) ++ u " / " ++ string_of_Z (max_facts g) ++ u " " ++ t (u "informations").

(** ** The tab as a transition system *)

Inductive MEvent :=
| MSubject (s : jstr) | MFact (s : jstr) | MEditText (s : jstr) | MPasted (s : jstr) | MOpenImport (b : bool)
| MStartEdit (e : MemEdge) | MCancelEdit | MRefresh | MSetting (key : Setting) (value : bool) | MToggle (value : bool)
| MAdd | MSaveEdit (id : Z) | MForget (id : Z) | MPurge | MImportPasted | MImportFile (name : jstr) (text : option jstr)
| MDownload (fmt : Format) | MAnswered (i : nat) (r : option Reply).

Definition memory_handle (e : MEvent) (p : MPage) : MPage :=
  match e with
  | MSubject s => set_subject s p
  | MFact s => set_fact s p
  | MEditText s => set_editText s p
  | MPasted s => set_pasted s p
  | MOpenImport b => set_importOpen b p
  | MStartEdit e => start_edit e p
  | MCancelEdit => set_editingId None p
  | MRefresh => load p
  | MSetting key value => setSetting key value p
  | MToggle value => toggle value p
  | MAdd => addFact p
  | MSaveEdit id => saveEdit id p
  | MForget id => forget id p
  | MPurge => purge p
  | MImportPasted => importPasted p
  | MImportFile name text => importFile name text p
  | MDownload fmt => download fmt p
  | MAnswered i r => memory_answered i r p
  end.
Definition memory_run (es : list MEvent) (p : MPage) : MPage := foldl (fun p e => memory_handle e p) p es.
End memory.

(** The answer to a request, unfolded. *)
Ltac open_answer :=
  cbn [answered]; unfold loaded, setting_answered, toggle_answered, add_answered, edit_answered, forget_answered,
    purge_answered, pasted_answered, json_answered, md_answered, download_answered.

(** * Properties *)

(** ** The groups *)

Definition of_subject (s : jstr) (es : list MemEdge) : list MemEdge := List.filter (fun e => streq s (e_subject e)) es.

(** The map holds, for each subject met, its facts in order. *)
Definition groups_ok (es : list MemEdge) (m : list (jstr * list MemEdge)) : Prop :=
  NoDup (map fst m) /\ forall s, assoc_get s m = match of_subject s es with [] => None | l => Some l end.

Lemma of_subject_app s a b : of_subject s (a ++ b) = of_subject s a ++ of_subject s b.
Proof. apply List.filter_app. Qed.
Lemma groups_add es m e : groups_ok es m -> groups_ok (es ++ [e]) (add_edge m e).
Proof.
  intros [H1 H2]. unfold add_edge. split; [by apply assoc_set_nodup|]. intros s. rewrite of_subject_app.
  assert (of_subject s [e] = if streq s (e_subject e) then [e] else []) as -> by done. destruct (streq_spec s (e_subject e)) as [->|N].
  - rewrite assoc_set_same, H2. by destruct (of_subject (e_subject e) es).
  - rewrite assoc_set_other by done. by rewrite H2, app_nil_r.
Qed.
Lemma groups_all es : groups_ok es (foldl add_edge [] es).
Proof.
  induction es as [|e es IH] using rev_ind; [split; [constructor|done]|]. rewrite foldl_app. cbn [foldl]. by apply groups_add.
Qed.

Lemma insert_group_perm x l : insert_group x l ≡ₚ x :: l.
Proof. induction l as [|y l IH]; cbn [insert_group]; [done|]. destruct (_ <=? _); [done|]. rewrite IH. apply perm_swap. Qed.
Lemma sort_perm l : foldr insert_group [] l ≡ₚ l.
Proof. induction l as [|x l IH]; cbn [foldr]; [done|]. by rewrite insert_group_perm, IH. Qed.

(** Sizes never grow along the list. *)
Fixpoint falling (l : list (jstr * list MemEdge)) : Prop :=
  match l with [] => True | x :: r => Forall (fun y => length y.2 <= length x.2) r /\ falling r end.
Lemma insert_falling x l : falling l -> falling (insert_group x l).
Proof.
  induction l as [|y l IH]; cbn [insert_group falling]; [done|]. intros [H1 H2]. destruct (Nat.leb_spec (length y.2) (length x.2)).
  - cbn [falling]. split; [|done]. constructor; [done|]. eapply Forall_impl; [exact H1|]. cbn. lia.
  - cbn [falling]. split; [|by apply IH]. rewrite insert_group_perm. constructor; [lia|done].
Qed.
Lemma sort_falling l : falling (foldr insert_group [] l).
Proof. induction l; [done|]. by apply insert_falling. Qed.

(** The facts are grouped faithfully: a group for each subject that has facts
    and no other, each with all the facts of its subject in their order, the
    larger groups first. *)
Theorem facts_by_subject es :
  NoDup (map fst (bySubject es)) /\
  (forall s l, (s, l) ∈ bySubject es <-> l = List.filter (fun e => streq s (e_subject e)) es /\ l <> []) /\
  falling (bySubject es).
Proof.
  destruct (groups_all es) as [N G]. unfold bySubject. set (m := foldl add_edge [] es) in *.
  split; [by rewrite sort_perm|]. split; [|apply sort_falling]. intros s l. rewrite sort_perm, <- (assoc_get_elem s l m N), G.
  fold (of_subject s es). destruct (of_subject s es) as [|e r]; split.
  - done.
  - by intros [-> ?].
  - by intros [= <-].
  - by intros [-> _].
Qed.

Section spec.
Context (t : jstr -> jstr).
Notation handle := (memory_handle t).
Notation run := (memory_run t).

(** ** What the server must have said *)

Lemma answered_enabled q r p : enabled (graph (answered t q r p)) = enabled (graph p) \/
  exists a, r = Some a /\
    ((exists v, q = SetEnabled v) /\ p_ok a = true /\ enabled (graph (answered t q r p)) = p_enabled a \/
     q = Load /\ p_http_ok a = true /\ graph (answered t q r p) = p_graph a).
Proof.
  destruct q as [|[] v|v| | | | | | | |fmt], r as [a|]; open_answer; unfold toast, load, send, no_answer; memory_fields; try (by left).
  - destruct (p_http_ok a) eqn:E; [|by left]. destruct (p_json a); [|by left]. right. exists a. split; [done|]. by right.
  - destruct (p_ok a); by left.
  - destruct (p_ok a); by left.
  - destruct (p_ok a) eqn:E; [|by left]. right. exists a. split; [done|]. left. by split; [eexists|].
  - destruct (p_ok a); by left.
  - destruct (p_ok a); by left.
  - destruct (p_ok a); by left.
  - destruct (p_ok a); by left.
  - destruct (p_http_ok a); by left.
  - destruct (p_ok a); by left.
  - destruct (p_http_ok a), (p_json a); by left.
  - destruct (p_http_ok a); by left.
Qed.

(** The switch of the memory only moves to what the server has confirmed: a
    step that changes it is the successful answer to the request that sets it,
    or a reading of the whole memory. *)
Theorem enabled_only_confirmed e p : enabled (graph (handle e p)) <> enabled (graph p) ->
  exists i q a, e = MAnswered i (Some a) /\ awaited p !! i = Some q /\
    ((exists v, q = SetEnabled v) /\ p_ok a = true /\ enabled (graph (handle e p)) = p_enabled a \/
     q = Load /\ p_http_ok a = true /\ graph (handle e p) = p_graph a).
Proof.
  destruct e as [| | | | | | | |key v| | | | | | |name text| |i r]; cbn [memory_handle]; try done.
  - by destruct key.
  - unfold addFact. by destruct (_ || _).
  - unfold saveEdit. by destruct (trim _).
  - unfold importFile. destruct text; [|done]. destruct (test _ _); [|done]. by destruct (json_parse _).
  - unfold memory_answered. destruct (awaited p !! i) as [q|] eqn:E; [|done]. set (p' := set_awaited _ p). intros H.
    destruct (answered_enabled q r p') as [X|(a & -> & X)]; [done|]. exists i, q, a. split; [done|]. by split.
Qed.

(** A success is announced, and a file saved, only by a successful answer. *)
Definition announces (x : MEffect) : bool := match x with Toast _ false | Saved _ => true | _ => false end.
Definition new_effects (p q : MPage) : list MEffect := drop (length (asked p)) (asked q).

Lemma new_effects_app p q l : asked q = asked p ++ l -> new_effects p q = l.
Proof. unfold new_effects. intros ->. by rewrite drop_app_length. Qed.

Theorem successes_confirmed e p : Exists (fun x => announces x = true) (new_effects p (handle e p)) ->
  exists i q a, e = MAnswered i (Some a) /\ awaited p !! i = Some q /\ (p_ok a = true \/ p_http_ok a = true).
Proof.
  assert (NO : forall q, asked q = asked p -> ~ Exists (fun x => announces x = true) (new_effects p q)).
  { intros q E. rewrite (new_effects_app p q []) by (by rewrite app_nil_r). intros X. by apply Exists_nil in X. }
  assert (ONE : forall q x, asked q = asked p ++ [x] -> announces x = false -> ~ Exists (fun x => announces x = true) (new_effects p q)).
  { intros q x E F. rewrite (new_effects_app p q [x]) by done. intros X. apply Exists_cons in X as [X|X]; [congruence|by apply Exists_nil in X]. }
  destruct e as [| | | | | | | |key v| | | | | | |name text| |i r]; cbn [memory_handle]; intros H;
    try (exfalso; revert H; first [by apply NO|by eapply ONE]).
  - exfalso. revert H. unfold addFact. destruct (_ || _); [by apply NO|by eapply ONE].
  - exfalso. revert H. unfold saveEdit. destruct (trim _); [by apply NO|by eapply ONE].
  - exfalso. revert H. unfold importFile. destruct text; [|by eapply ONE]. destruct (test _ _); [|by eapply ONE].
    destruct (json_parse _); by eapply ONE.
  - unfold memory_answered in H. destruct (awaited p !! i) as [q|] eqn:E; [|by destruct (NO p eq_refl)].
    destruct r as [a|]; [|exfalso; revert H; destruct q; open_answer; first [by apply NO|by eapply ONE]].
    destruct (p_ok a) eqn:K1; [exists i, q, a; repeat split; auto|]. destruct (p_http_ok a) eqn:K2; [exists i, q, a; repeat split; auto|].
    exfalso. revert H. destruct q; open_answer; rewrite ?K1, ?K2; cbn [andb]; first [by apply NO|by eapply ONE].
Qed.

(** ** The requests *)

(** A fact added has a subject and a text that are not blank, a fact edited a
    trimmed text that is not empty. *)
Definition sound_request (x : MEffect) : Prop :=
  match x with
  | Asked (AddFact s f) => trim s <> [] /\ trim f <> []
  | Asked (SaveEdit _ f) => f <> [] /\ f = trim f
  | _ => True
  end.
Lemma sound_emit x p : sound_request x -> Forall sound_request (asked p) -> Forall sound_request (asked (emit x p)).
Proof. intros. cbn [emit asked]. apply Forall_app. by repeat constructor. Qed.
Lemma sound_step e p : Forall sound_request (asked p) -> Forall sound_request (asked (handle e p)).
Proof.
  intros H. destruct e as [| | | | | | | |key v| | | | | | |name text| |i r]; cbn [memory_handle]; try exact H; try (by apply sound_emit).
  - unfold addFact. destruct (streq_spec (trim (subject p)) []), (streq_spec (trim (fact p)) []); try done. by apply sound_emit.
  - unfold saveEdit. destruct (trim (editText p)) as [|c s] eqn:E; [done|]. apply sound_emit; [|done]. split; [done|].
    by rewrite <- E, trim_idem.
  - unfold importFile. destruct text; [|by apply sound_emit]. destruct (test _ _); [|by apply sound_emit]. destruct (json_parse _); by apply sound_emit.
  - unfold memory_answered. destruct (awaited p !! i) as [q|]; [|done]. set (p' := set_awaited _ p).
    assert (H' : Forall sound_request (asked p')) by exact H. clearbody p'.
    destruct q, r; open_answer; repeat case_match; repeat (apply sound_emit; [done|]); exact H'.
Qed.
Theorem facts_sent_not_blank es : Forall sound_request (asked (run es memory_start)).
Proof.
  assert (G : forall es p, Forall sound_request (asked p) -> Forall sound_request (asked (run es p))).
  { clear. induction es as [|e es IH]; intros p H; [done|]. apply IH. by apply sound_step. }
  apply G. by repeat constructor.
Qed.

Lemma switch_set key b g : switch_value (Some key) (set_setting key b g) = b.
Proof. by destruct key, b. Qed.
(** A switch refused by the server comes back to what it showed. *)
Theorem refused_setting_restored key p r : awaited p = [] -> match r with Some a => p_ok a = false | None => True end ->
  let v := negb (switch_value (Some key) (graph p)) in
  let q := run [MSetting key v; MAnswered 0 r] p in
  switch_value (Some key) (graph q) = switch_value (Some key) (graph p) /\
  new_effects p q = [Asked (SetSetting key v); Toast (t (u "Le réglage n'a pas été enregistré.")) true].
Proof.
  intros HA HR. cbv zeta. unfold memory_run. cbn [foldl memory_handle]. unfold setSetting, send, memory_answered. memory_fields. rewrite HA.
  cbn [app lookup list_lookup delete list_delete]. open_answer.
  assert (match r with Some a => p_ok a | None => false end = false) as -> by (by destruct r).
  unfold toast. memory_fields. rewrite negb_involutive. split.
  - apply switch_set.
  - apply new_effects_app. memory_fields. by rewrite <- app_assoc.
Qed.
End spec.

#[local] Abbreviation fr := (fun x : jstr => x) (only parsing).
Definition refused (error : jstr) : Reply := mkReply false true false error false None None EMPTY None.
Definition accepted : Reply := mkReply true true true [] true None None EMPTY None.

Theorem enabled_only_confirmed_witness :
  let p := memory_run fr [MToggle true] memory_start in
  let e := MAnswered 1 (Some accepted) in
  enabled (graph (memory_handle fr e p)) <> enabled (graph p) /\
  exists i q a, e = MAnswered i (Some a) /\ awaited p !! i = Some q /\
    ((exists v, q = SetEnabled v) /\ p_ok a = true /\ enabled (graph (memory_handle fr e p)) = p_enabled a \/
     q = Load /\ p_http_ok a = true /\ graph (memory_handle fr e p) = p_graph a).
Proof.
  cbv zeta. assert (H : enabled (graph (memory_handle fr (MAnswered 1 (Some accepted)) (memory_run fr [MToggle true] memory_start)))
    <> enabled (graph (memory_run fr [MToggle true] memory_start))) by (vm_compute; discriminate).
  split; [exact H|]. exact (enabled_only_confirmed fr _ _ H).
Defined.
Theorem successes_confirmed_witness :
  exists i q a, MAnswered 1 (Some accepted) = MAnswered i (Some a) /\ awaited (memory_run fr [MToggle true] memory_start) !! i = Some q /\
    (p_ok a = true \/ p_http_ok a = true).
Proof. apply (successes_confirmed fr). vm_compute. apply Exists_cons_hd. reflexivity. Defined.
Theorem refused_setting_restored_witness :
  let p := set_awaited [] memory_start in
  let q := memory_run fr [MSetting Sensitive false; MAnswered 0 None] p in
  switch_value (Some Sensitive) (graph q) = true.
Proof.
  cbv zeta. destruct (refused_setting_restored fr Sensitive (set_awaited [] memory_start) None eq_refl I) as [H _]. exact H.
Defined.

(** ** What the tab does not handle *)

(** Two refused clicks in a row leave the switch on a value the server does not
    have: each answer puts the opposite of what its click asked. *)
Lemma two_refusals_flip_switch :
  let p := memory_run fr [MSetting Sensitive false; MSetting Sensitive true; MAnswered 1 None; MAnswered 1 None] memory_start in
  switch_value (Some Sensitive) (graph memory_start) = true /\ switch_value (Some Sensitive) (graph p) = false.
Proof. vm_compute. split; reflexivity. Qed.

(** A fact that could not be sent is not reported. *)
Lemma unsent_fact_silent :
  let p := memory_run fr [MSubject (u "a"); MFact (u "b"); MAdd] memory_start in
  asked (memory_run fr [MAnswered 1 None] p) = asked p.
Proof. vm_compute. reflexivity. Qed.

(** The fence another assistant puts around its answer is removed. *)
Example fence_removed : unfenced (u "```markdown
## A
- b
```
") = u "## A
- b".
Proof. vm_compute. reflexivity. Qed.
