(* ===== verification/Security.v ===== *)
(** * Account security (app/(app)/_components/SecurityContent.tsx, SessionsList.tsx)

    The security keys and the switch of the two-factor login, the active
    sessions, the change of password and the deletion of the account. An
    action on the keys is remembered ([pendingAction]) until the password is
    typed. The requests that are awaited, and the ceremony of the browser that
    creates a key, are in the state ([awaited]) with what follows them; no
    reply is a request that rejects. *)

From S2P Require Import Prelude JsInt JsJson JsRegExp I18n WebAuthn.
Local Open Scope flow_scope.

(** ** The sessions of an account *)

Record AccountSession := mkSession {
  s_id : jstr; s_created_at : Z; s_expires_at : option Z; s_ip : option jstr; s_user_agent : option jstr; s_current : bool
}.
Definition BROWSERS : list (RegExp * jstr) :=
  [(rx "Edg\/" "", u "Edge"); (rx "OPR\/" "", u "Opera"); (rx "SamsungBrowser\/" "", u "Samsung Internet");
   (rx "Chrome\/" "", u "Chrome"); (rx "Firefox\/" "", u "Firefox"); (rx "curl\/" "", u "curl"); (rx "Wget\/" "", u "Wget");
   (rx "python-requests" "", u "Python requests"); (rx "Safari\/" "", u "Safari")].
Definition OSES : list (RegExp * jstr) :=
  [(rx "Windows NT" "", u "Windows"); (rx "Android" "", u "Android"); (rx "iPhone|iPad" "", u "iOS"); (rx "CrOS" "", u "ChromeOS");
   (rx "Mac OS X|Macintosh" "", u "macOS"); (rx "Linux" "", u "Linux")].
(** [TABLE.find(([re]) => re.test(raw))?.[1]] *)
Definition hint_in (table : list (RegExp * jstr)) (raw : jstr) : option jstr :=
  snd <$> List.find (fun x => test x.1 raw) table.
Definition describeUserAgent (ua : option jstr) : jstr :=
  let raw := trim (default [] ua) in
  match raw with
  | [] => u "—"
  | _ =>
      match join (u " · ") (omap id [hint_in BROWSERS raw; hint_in OSES raw]) with
      | [] => if 48 <? length raw then take 48 raw ++ u "…" else raw
      | hint => hint
      end
  end.

(** A line of the list: its label, the full user agent, whether the note on the
    origin is shown, the address, the two dates, and the session the button of
    the line revokes (the current one has none). No line is the empty state. *)
Record SessionRow := mkSessionRow {
  row_label : jstr; row_agent : option jstr; row_unknown : bool; row_ip : option jstr; row_created : option Z; row_expires : option Z;
  row_revoke : option jstr
}.
Definition given (o : option jstr) : option jstr := match o with Some (_ :: _) => o | _ => None end.
Definition session_row (t : jstr -> jstr) (s : AccountSession) : SessionRow :=
  mkSessionRow
    (match given (s_user_agent s) with Some ua => describeUserAgent (Some ua) | None => t (u "Appareil inconnu") end)
    (given (s_user_agent s))
    (match given (s_user_agent s), given (s_ip s) with None, None => true | _, _ => false end)
    (given (s_ip s))
    (if (s_created_at s =? 0)%Z then None else Some (s_created_at s))
    (match s_expires_at s with Some 0%Z => None | o => o end)
    (if s_current s then None else Some (s_id s)).
Definition sessions_list (t : jstr -> jstr) (sessions : list AccountSession) : list SessionRow := map (session_row t) sessions.

(** ** The data of the tab *)

Record Cred := mkCred { c_id : Z; c_credential_id : jstr; c_label : jstr; c_created_at : Z }.
#[export] Instance Cred_eq_dec : EqDecision Cred.
Proof. solve_decision. Defined.
Record SecurityState := mkSecurityState { sec_enabled : bool; sec_credentials : list Cred }.
Record SessionsState := mkSessionsState {
  ss_sessions : list AccountSession; ss_password_managed_by : option jstr; ss_passkey_possible : option bool
}.
(** What the portal says of the user ([useWhoami]), when it is known. *)
Record Whoami := mkWhoami { who_password_managed_by : option jstr; who_passkey_possible : option bool }.

Record PasswordInfo := mkInfo { local : bool; passkey : bool; note : jstr }.
Definition passwordInfo (management : option jstr) : PasswordInfo :=
  match management with
  | Some m =>
      if streq m (u "portal") then mkInfo true true []
      else if streq m (u "ldap-directory") then
        mkInfo false true (u "Compte LDAP : ton mot de passe est celui de l'annuaire. Le portail ne le stocke pas, il le vérifie auprès de l'annuaire — change-le depuis ton administrateur.")
      else if streq m (u "sso-provider") then
        mkInfo false false (u "Compte SSO : ton mot de passe appartient au fournisseur d'identité, qui seul peut le changer. Le portail n'en connaît aucun.")
      else mkInfo false false (u "Le portail n'a pas de mot de passe pour ce compte : il se connecte par l'annuaire (LDAP ou SSO), où le mot de passe se change.")
  | None => mkInfo false false (u "Le portail n'a pas de mot de passe pour ce compte : il se connecte par l'annuaire (LDAP ou SSO), où le mot de passe se change.")
  end.

(** The action remembered until the password is given. *)
Inductive Pending := Toggle (enabled : bool) | Remove (credential_id : jstr) | Register.
Inductive SRequest :=
| LoadSecurity | LoadSessions
| RegisterBegin (password : jstr) | CreateKey (publicKey : json) (nonce : jstr) | RegisterFinish (nonce : jstr) (credential : json)
| RemoveKey (credential_id password : jstr) | ToggleKeys (enabled : bool) (password : jstr)
| RevokeSession (id : jstr) | RevokeOthers
| ChangePassword (current new : jstr) | DeleteAccount (confirm password : jstr).
(** What the user sees or the browser does: a request, a notice, the departure
    for the login page after a delay. *)
Inductive SEffect := Asked (r : SRequest) | Toast (body : jstr) (error : bool) | LeaveIn (ms : Z).

(** What an answer holds: [ok], [error], the options and the nonce of a
    registration, the two states, the outcome of a deletion; for the ceremony,
    what the browser makes of the options. *)
Record Reply := mkReply {
  a_ok : bool; a_error : jstr; a_publicKey : option json; a_nonce : jstr; a_security : SecurityState; a_sessions : SessionsState;
  a_deleted : bool; a_warning : jstr; a_browser : Dom -> option Credential
}.

Record SPage := mkSPage {
  sec : option SecurityState; busy : bool; sess : option SessionsState; sessBusy : option jstr;
  pwCurrent : jstr; pwNew : jstr; pwConfirm : jstr; pwBusy : bool; pwMsg : option (bool * jstr);
  pendingAction : option Pending; pw : jstr; deletion : bool; confirmDeletion : jstr;
  deletionPassword : jstr; suppressionBusy : bool; suppressionMsg : option jstr; awaited : list SRequest;
  asked : list SEffect
}.

Definition set_sec v p := mkSPage v (busy p) (sess p) (sessBusy p) (pwCurrent p) (pwNew p) (pwConfirm p) (pwBusy p) (pwMsg p) (pendingAction p) (pw p) (deletion p) (confirmDeletion p) (deletionPassword p) (suppressionBusy p) (suppressionMsg p) (awaited p) (asked p).
Definition set_busy v p := mkSPage (sec p) v (sess p) (sessBusy p) (pwCurrent p) (pwNew p) (pwConfirm p) (pwBusy p) (pwMsg p) (pendingAction p) (pw p) (deletion p) (confirmDeletion p) (deletionPassword p) (suppressionBusy p) (suppressionMsg p) (awaited p) (asked p).
Definition set_sess v p := mkSPage (sec p) (busy p) v (sessBusy p) (pwCurrent p) (pwNew p) (pwConfirm p) (pwBusy p) (pwMsg p) (pendingAction p) (pw p) (deletion p) (confirmDeletion p) (deletionPassword p) (suppressionBusy p) (suppressionMsg p) (awaited p) (asked p).
Definition set_sessBusy v p := mkSPage (sec p) (busy p) (sess p) v (pwCurrent p) (pwNew p) (pwConfirm p) (pwBusy p) (pwMsg p) (pendingAction p) (pw p) (deletion p) (confirmDeletion p) (deletionPassword p) (suppressionBusy p) (suppressionMsg p) (awaited p) (asked p).
Definition set_pwCurrent v p := mkSPage (sec p) (busy p) (sess p) (sessBusy p) v (pwNew p) (pwConfirm p) (pwBusy p) (pwMsg p) (pendingAction p) (pw p) (deletion p) (confirmDeletion p) (deletionPassword p) (suppressionBusy p) (suppressionMsg p) (awaited p) (asked p).
Definition set_pwNew v p := mkSPage (sec p) (busy p) (sess p) (sessBusy p) (pwCurrent p) v (pwConfirm p) (pwBusy p) (pwMsg p) (pendingAction p) (pw p) (deletion p) (confirmDeletion p) (deletionPassword p) (suppressionBusy p) (suppressionMsg p) (awaited p) (asked p).
Definition set_pwConfirm v p := mkSPage (sec p) (busy p) (sess p) (sessBusy p) (pwCurrent p) (pwNew p) v (pwBusy p) (pwMsg p) (pendingAction p) (pw p) (deletion p) (confirmDeletion p) (deletionPassword p) (suppressionBusy p) (suppressionMsg p) (awaited p) (asked p).
Definition set_pwBusy v p := mkSPage (sec p) (busy p) (sess p) (sessBusy p) (pwCurrent p) (pwNew p) (pwConfirm p) v (pwMsg p) (pendingAction p) (pw p) (deletion p) (confirmDeletion p) (deletionPassword p) (suppressionBusy p) (suppressionMsg p) (awaited p) (asked p).
Definition set_pwMsg v p := mkSPage (sec p) (busy p) (sess p) (sessBusy p) (pwCurrent p) (pwNew p) (pwConfirm p) (pwBusy p) v (pendingAction p) (pw p) (deletion p) (confirmDeletion p) (deletionPassword p) (suppressionBusy p) (suppressionMsg p) (awaited p) (asked p).
Definition set_pendingAction v p := mkSPage (sec p) (busy p) (sess p) (sessBusy p) (pwCurrent p) (pwNew p) (pwConfirm p) (pwBusy p) (pwMsg p) v (pw p) (deletion p) (confirmDeletion p) (deletionPassword p) (suppressionBusy p) (suppressionMsg p) (awaited p) (asked p).
Definition set_pw v p := mkSPage (sec p) (busy p) (sess p) (sessBusy p) (pwCurrent p) (pwNew p) (pwConfirm p) (pwBusy p) (pwMsg p) (pendingAction p) v (deletion p) (confirmDeletion p) (deletionPassword p) (suppressionBusy p) (suppressionMsg p) (awaited p) (asked p).
Definition set_deletion v p := mkSPage (sec p) (busy p) (sess p) (sessBusy p) (pwCurrent p) (pwNew p) (pwConfirm p) (pwBusy p) (pwMsg p) (pendingAction p) (pw p) v (confirmDeletion p) (deletionPassword p) (suppressionBusy p) (suppressionMsg p) (awaited p) (asked p).
Definition set_confirmDeletion v p := mkSPage (sec p) (busy p) (sess p) (sessBusy p) (pwCurrent p) (pwNew p) (pwConfirm p) (pwBusy p) (pwMsg p) (pendingAction p) (pw p) (deletion p) v (deletionPassword p) (suppressionBusy p) (suppressionMsg p) (awaited p) (asked p).
Definition set_deletionPassword v p := mkSPage (sec p) (busy p) (sess p) (sessBusy p) (pwCurrent p) (pwNew p) (pwConfirm p) (pwBusy p) (pwMsg p) (pendingAction p) (pw p) (deletion p) (confirmDeletion p) v (suppressionBusy p) (suppressionMsg p) (awaited p) (asked p).
Definition set_suppressionBusy v p := mkSPage (sec p) (busy p) (sess p) (sessBusy p) (pwCurrent p) (pwNew p) (pwConfirm p) (pwBusy p) (pwMsg p) (pendingAction p) (pw p) (deletion p) (confirmDeletion p) (deletionPassword p) v (suppressionMsg p) (awaited p) (asked p).
Definition set_suppressionMsg v p := mkSPage (sec p) (busy p) (sess p) (sessBusy p) (pwCurrent p) (pwNew p) (pwConfirm p) (pwBusy p) (pwMsg p) (pendingAction p) (pw p) (deletion p) (confirmDeletion p) (deletionPassword p) (suppressionBusy p) v (awaited p) (asked p).
Definition set_awaited v p := mkSPage (sec p) (busy p) (sess p) (sessBusy p) (pwCurrent p) (pwNew p) (pwConfirm p) (pwBusy p) (pwMsg p) (pendingAction p) (pw p) (deletion p) (confirmDeletion p) (deletionPassword p) (suppressionBusy p) (suppressionMsg p) v (asked p).
Definition emit (e : SEffect) p := mkSPage (sec p) (busy p) (sess p) (sessBusy p) (pwCurrent p) (pwNew p) (pwConfirm p) (pwBusy p) (pwMsg p) (pendingAction p) (pw p) (deletion p) (confirmDeletion p) (deletionPassword p) (suppressionBusy p) (suppressionMsg p) (awaited p) (asked p ++ [e]).

(** Reading a field through the updates. *)
Ltac security_fields :=
  cbn [sec busy sess sessBusy pwCurrent pwNew pwConfirm pwBusy pwMsg pendingAction pw deletion confirmDeletion deletionPassword suppressionBusy suppressionMsg awaited asked
       set_sec set_busy set_sess set_sessBusy set_pwCurrent set_pwNew set_pwConfirm set_pwBusy set_pwMsg set_pendingAction set_pw set_deletion set_confirmDeletion set_deletionPassword set_suppressionBusy set_suppressionMsg set_awaited emit] in *.

Section security.
Context (t : jstr -> jstr) (csrf : jstr) (who : option Whoami).

Definition send (r : SRequest) (p : SPage) : SPage := p |> set_awaited (awaited p ++ [r]) |> emit (Asked r).
Definition toast (body : jstr) (error : bool) (p : SPage) : SPage := emit (Toast body error) p.
(** [t(res.error || fallback)] *)
Definition said (r : Reply) (fallback : jstr) : jstr := t (match a_error r with [] => fallback | e => e end).

Definition load (p : SPage) : SPage := p |> send LoadSecurity |> send LoadSessions.
Definition security_start : SPage :=
  load (mkSPage None false None None [] [] [] false None None [] false [] [] false None [] []).

(** ** The keys *)

Definition addKey (supportsWebAuthn : bool) (p : SPage) : SPage :=
  if supportsWebAuthn then p |> set_pw [] |> set_pendingAction (Some Register)
  else toast (t (u "Ce navigateur ne supporte pas les clés de sécurité.")) true p.
Definition ask_toggle (v : bool) (p : SPage) : SPage := set_pendingAction (Some (Toggle v)) p.
Definition ask_remove (c : Cred) (p : SPage) : SPage := p |> set_pendingAction (Some (Remove (c_credential_id c))) |> set_pw [].
Definition cancel_action (p : SPage) : SPage := p |> set_pendingAction None |> set_pw [].

(** The creation of the key, with the password of the dialog. *)
Definition saveKey (p : SPage) : SPage := p |> set_busy true |> send (RegisterBegin (pw p)).
Definition confirmPassword (p : SPage) : SPage :=
  match pendingAction p, pw p with
  | None, _ | _, [] => p
  | Some a, password =>
      let p := set_busy true p in
      match a with
      | Register => p |> set_pendingAction None |> saveKey
      | Remove [] => set_busy false p
      | Remove id => send (RemoveKey id password) p
      | Toggle v => send (ToggleKeys v password) p
      end
  end.

Definition key_failed : jstr := u "Échec de l'enregistrement de la clé.".
(** The three steps of [saveKey] after its request; the [finally] blocks. *)
Definition begin_answered (r : option Reply) (p : SPage) : SPage :=
  match r with
  | None => p |> toast (t key_failed) true |> set_busy false
  | Some a =>
      match a_publicKey a, a_nonce a with
      | Some pk, ((_ :: _) as nonce) =>
          if truthy pk then p |> set_awaited (awaited p ++ [CreateKey pk nonce])
          else p |> toast (said a key_failed) true |> set_busy false
      | _, _ => p |> toast (said a key_failed) true |> set_busy false
      end
  end.
Definition created (publicKey : json) (nonce : jstr) (r : option Reply) (p : SPage) : SPage :=
  match r with
  | None => p |> toast (t key_failed) true |> set_busy false
  | Some a =>
      match createPasskey publicKey (a_browser a) with
      | Done credential => send (RegisterFinish nonce credential) p
      | Cancelled => p |> toast (t (u "Ajout de clé annulé.")) true |> set_busy false
      | BadOptions => p |> toast (t key_failed) true |> set_busy false
      end
  end.
Definition finish_answered (r : option Reply) (p : SPage) : SPage :=
  set_busy false
    (match r with
     | None => toast (t key_failed) true p
     | Some a => if a_ok a then p |> toast (t (u "Clé de sécurité ajoutée.")) false |> load
                 else toast (said a key_failed) true p
     end).
(** The end of [confirmPassword], for the two actions it sends itself. *)
Definition action_answered (success : jstr) (r : option Reply) (p : SPage) : SPage :=
  set_busy false
    (match r with
     | None => toast (t (u "Échec.")) true p
     | Some a => if a_ok a then p |> toast (t success) false |> set_pendingAction None |> set_pw [] |> load
                 else toast (said a (u "Échec.")) true p
     end).

(** ** The sessions *)

(** [!!sessBusy]: the name of the session, or [all]. *)
Definition sess_busy (p : SPage) : bool := match sessBusy p with Some (_ :: _) => true | _ => false end.
Definition revokeSession (id : jstr) (p : SPage) : SPage :=
  if streq csrf [] || sess_busy p then p else p |> set_sessBusy (Some id) |> send (RevokeSession id).
Definition revokeOtherSessions (p : SPage) : SPage :=
  if streq csrf [] || sess_busy p then p else p |> set_sessBusy (Some (u "all")) |> send RevokeOthers.
Definition revoked (success : jstr) (r : option Reply) (p : SPage) : SPage :=
  set_sessBusy None
    (match r with
     | None => toast (t (u "Échec.")) true p
     | Some a => if a_ok a then p |> toast (t success) false |> load else toast (said a (u "Échec.")) true p
     end).

(** ** The password *)

Definition changePassword (p : SPage) : SPage :=
  if streq csrf [] || pwBusy p then p
  else if (length (pwNew p) <? 8) || negb (streq (pwNew p) (pwConfirm p)) then p
  else p |> set_pwBusy true |> set_pwMsg None |> send (ChangePassword (pwCurrent p) (pwNew p)).
Definition password_answered (r : option Reply) (p : SPage) : SPage :=
  set_pwBusy false
    (match r with
     | None => set_pwMsg (Some (false, t (u "Échec."))) p
     | Some a =>
         if a_ok a
         then p |> set_pwCurrent [] |> set_pwNew [] |> set_pwConfirm [] |> set_pwMsg (Some (true, t (u "Mot de passe modifié.")))
         else set_pwMsg (Some (false, said a (u "Échec."))) p
     end).

(** ** The deletion *)

Definition deleteAccount (p : SPage) : SPage :=
  if streq csrf [] || suppressionBusy p then p
  else p |> set_suppressionBusy true |> set_suppressionMsg None
         |> send (DeleteAccount (trim (confirmDeletion p)) (deletionPassword p)).
(** The warning is added in the second branch of the conditional only. *)
Definition deletion_text (a : Reply) : jstr :=
  if a_deleted a then t (u "Ton compte est supprimé. Tu vas être déconnecté…")
  else t (u "Tes données du portail sont effacées. Ton compte, lui, existe toujours dans l'annuaire : demande à un administrateur de le bloquer si tu pars.")
       ++ match a_warning a with [] => [] | w => u " " ++ w end.
Definition deletion_answered (r : option Reply) (p : SPage) : SPage :=
  set_suppressionBusy false
    (match r with
     | None => set_suppressionMsg (Some (t (u "Le serveur n'a pas répondu — réessaie."))) p
     | Some a =>
         if a_ok a
         then p |> set_suppressionMsg (Some (deletion_text a)) |> emit (LeaveIn (if a_deleted a then 2500 else 6000)%Z)
         else set_suppressionMsg (Some (said a (u "La suppression a échoué."))) p
     end).
Definition cancel_deletion (p : SPage) : SPage :=
  p |> set_deletion false |> set_confirmDeletion [] |> set_deletionPassword [].

(** ** The answers *)

Definition answered (q : SRequest) (r : option Reply) (p : SPage) : SPage :=
  match q with
  | LoadSecurity => match r with Some a => set_sec (Some (a_security a)) p | None => p end
  | LoadSessions => match r with Some a => set_sess (Some (a_sessions a)) p | None => p end
  | RegisterBegin _ => begin_answered r p
  | CreateKey pk nonce => created pk nonce r p
  | RegisterFinish _ _ => finish_answered r p
  | RemoveKey _ _ => action_answered (u "Clé supprimée.") r p
  | ToggleKeys _ _ => action_answered (u "Double authentification mise à jour.") r p
  | RevokeSession _ => revoked (u "Session révoquée.") r p
  | RevokeOthers => revoked (u "Sessions révoquées.") r p
  | ChangePassword _ _ => password_answered r p
  | DeleteAccount _ _ => deletion_answered r p
  end.
Definition security_answered (i : nat) (r : option Reply) (p : SPage) : SPage :=
  match awaited p !! i with
  | Some q => p |> set_awaited (delete i (awaited p)) |> answered q r
  | None => p
  end.

(** ** What is shown *)

Definition enabled (p : SPage) : bool := match sec p with Some s => sec_enabled s | None => false end.
Definition credentials (p : SPage) : list Cred := match sec p with Some s => sec_credentials s | None => [] end.
Definition sessions (p : SPage) : list AccountSession := match sess p with Some s => ss_sessions s | None => [] end.
Definition otherSessions (p : SPage) : list AccountSession := List.filter (fun s => negb (s_current s)) (sessions p).
(** [a ?? b] *)
Definition nullish {A} (a b : option A) : option A := match a with Some _ => a | None => b end.
Definition management (p : SPage) : option jstr := nullish (who ≫= who_password_managed_by) (sess p ≫= ss_password_managed_by).
Definition info (p : SPage) : PasswordInfo := passwordInfo (management p).
Definition passkeyPossible (p : SPage) : bool :=
  default (passkey (info p)) (nullish (who ≫= who_passkey_possible) (sess p ≫= ss_passkey_possible)).

Definition switch_disabled (p : SPage) : bool := match credentials p with [] => negb (enabled p) | _ => false end.
Definition others_disabled (p : SPage) : bool :=
  match otherSessions p with [] => true | _ => sess_busy p && negb (bool_decide (sessBusy p = Some (u "all"))) end.
Definition session_disabled (id : jstr) (p : SPage) : bool := sess_busy p && negb (bool_decide (sessBusy p = Some id)).
Definition mismatch_shown (p : SPage) : bool := negb (streq (pwConfirm p) []) && negb (streq (pwNew p) (pwConfirm p)).
Definition change_disabled (p : SPage) : bool :=
  streq (pwCurrent p) [] || (length (pwNew p) <? 8) || negb (streq (pwNew p) (pwConfirm p)).
Definition delete_disabled (p : SPage) : bool :=
  negb (streq (trim (confirmDeletion p)) (u "DELETE")) || (passkey (info p) && streq (deletionPassword p) []).
Definition dialog_title (a : Pending) : jstr :=
  match a with
  | Remove _ => t (u "Confirme avec ton mot de passe pour supprimer la clé.")
  | Register => t (u "Confirme avec ton mot de passe pour ajouter une clé.")
  | Toggle _ => t (u "Confirme avec ton mot de passe pour changer la double authentification.")
  end.

(** ** The tab as a transition system *)

(** The clicks of the buttons shown and enabled, the Enter keys of the three
    password fields, the texts typed, and the answers. *)
Inductive SEvent :=
| SToggle (v : bool) | SAddKey (supported : bool) | SRemove (c : Cred) | SPw (s : jstr) | SEnterPw | SClickConfirm | SCancel
| SRevoke (id : jstr) | SRevokeOthers
| SCurrent (s : jstr) | SNew (s : jstr) | SConfirm (s : jstr) | SEnterConfirm | SClickChange
| SOpenDeletion | SConfirmDeletion (s : jstr) | SDeletionPassword (s : jstr) | SEnterDeletion | SClickDelete | SCancelDeletion
| SAnswered (i : nat) (r : option Reply).

Definition when (b : bool) (f : SPage -> SPage) (p : SPage) : SPage := if b then f p else p.
Definition security_handle (e : SEvent) (p : SPage) : SPage :=
  match e with
  | SToggle v => when (passkeyPossible p && negb (switch_disabled p)) (ask_toggle v) p
  | SAddKey supported => when (passkeyPossible p) (addKey supported) p
  | SRemove c => when (bool_decide (c ∈ credentials p)) (ask_remove c) p
  | SPw s => when (bool_decide (is_Some (pendingAction p))) (set_pw s) p
  | SEnterPw => confirmPassword p
  | SClickConfirm => when (negb (streq (pw p) [])) confirmPassword p
  | SCancel => cancel_action p
  | SRevoke id => when (existsb (fun s => streq (s_id s) id && negb (s_current s)) (sessions p) && negb (session_disabled id p)) (revokeSession id) p
  | SRevokeOthers => when (negb (others_disabled p)) revokeOtherSessions p
  | SCurrent s => p |> set_pwCurrent s |> set_pwMsg None
  | SNew s => p |> set_pwNew s |> set_pwMsg None
  | SConfirm s => p |> set_pwConfirm s |> set_pwMsg None
  | SEnterConfirm => when (local (info p)) changePassword p
  | SClickChange => when (local (info p) && negb (change_disabled p)) changePassword p
  | SOpenDeletion => set_deletion true p
  | SConfirmDeletion s => set_confirmDeletion s p
  | SDeletionPassword s => set_deletionPassword s p
  | SEnterDeletion => when (deletion p && passkey (info p)) deleteAccount p
  | SClickDelete => when (deletion p && negb (delete_disabled p)) deleteAccount p
  | SCancelDeletion => cancel_deletion p
  | SAnswered i r => security_answered i r p
  end.
Definition security_run (es : list SEvent) (p : SPage) : SPage := foldl (fun p e => security_handle e p) p es.
End security.

(** The handlers, unfolded. *)
Ltac open_handlers :=
  unfold addKey, ask_toggle, ask_remove, cancel_action, confirmPassword, revokeSession, revokeOtherSessions, changePassword,
    deleteAccount, cancel_deletion, saveKey.
Ltac open_answer :=
  cbn [answered]; unfold begin_answered, created, finish_answered, action_answered, revoked, password_answered, deletion_answered, load.
