(* ===== verification/SecuritySpec.v ===== *)
(** * Properties of the account security (see Security.v) *)

From S2P Require Import Prelude JsInt JsJson JsRegExp I18n WebAuthn Security.
Local Open Scope flow_scope.

(** ** One request of a kind at a time *)

Definition revocation (q : SRequest) : bool := match q with RevokeSession _ | RevokeOthers => true | _ => false end.
Definition password_change (q : SRequest) : bool := match q with ChangePassword _ _ => true | _ => false end.
Definition account_deletion (q : SRequest) : bool := match q with DeleteAccount _ _ => true | _ => false end.
Definition in_flight (f : SRequest -> bool) (p : SPage) : nat := length (List.filter f (awaited p)).

(** The flags of the page say which of these requests are awaited. *)
Record flags_ok (p : SPage) : Prop := mkFlags {
  fl_revocation : in_flight revocation p = Nat.b2n (sess_busy p);
  fl_change : in_flight password_change p = Nat.b2n (pwBusy p);
  fl_deletion : in_flight account_deletion p = Nat.b2n (suppressionBusy p)
}.

(** Computes the flags and the requests awaited after an update. *)
Ltac flags :=
  unfold toast, send, sess_busy in *; security_fields; unfold in_flight in *; security_fields; split; unfold in_flight, sess_busy; security_fields;
  rewrite ?count_app; cbn [List.filter revocation password_change account_deletion length Nat.b2n]; try lia.

Section spec.
Context (t : jstr -> jstr) (csrf : jstr) (who : option Whoami).
#[local] Abbreviation handle := (security_handle t csrf who) (only parsing).
#[local] Abbreviation run := (security_run t csrf who) (only parsing).

Lemma flags_answered i r p : flags_ok p -> flags_ok (security_answered t i r p).
Proof.
  intros [H1 H2 H3]. unfold security_answered. destruct (awaited p !! i) as [q|] eqn:E; [|done].
  assert (G : forall f, in_flight f p = Nat.b2n (f q) + in_flight f (set_awaited (delete i (awaited p)) p)) by (intros f; by apply count_delete).
  assert (E1 : sess_busy p = sess_busy (set_awaited (delete i (awaited p)) p)) by done.
  assert (E2 : pwBusy p = pwBusy (set_awaited (delete i (awaited p)) p)) by done.
  assert (E3 : suppressionBusy p = suppressionBusy (set_awaited (delete i (awaited p)) p)) by done.
  rewrite G, E1 in H1. rewrite G, E2 in H2. rewrite G, E3 in H3. clear E G E1 E2 E3. revert H1 H2 H3. generalize (set_awaited (delete i (awaited p)) p) as p'. clear p i. intros p H1 H2 H3.
  destruct q; cbn [revocation password_change account_deletion Nat.b2n] in *; open_answer; repeat case_match; flags;
    destruct (sessBusy p) as [[|c s]|], (pwBusy p), (suppressionBusy p); cbn [Nat.b2n] in *; lia.
Qed.

(** A session has an identifier that is not empty. *)
Definition named_session (e : SEvent) : Prop := match e with SRevoke id => id <> [] | _ => True end.
Lemma flags_step e p : named_session e -> flags_ok p -> flags_ok (handle e p).
Proof.
  intros N H. destruct e; cbn [security_handle]; unfold when; try (by apply flags_answered);
    open_handlers; repeat case_match; try exact H; destruct H as [F1 F2 F3].
  all: bool_norm.
  all: try (unfold sess_busy in *; flags; by rewrite ?F1, ?F2, ?F3).
  all: flags; destruct (sessBusy p) as [[|c s]|]; try discriminate; cbn [Nat.b2n] in F1; rewrite F1; try done; cbn [named_session] in N; by destruct id.
Qed.

(** Whatever is clicked and however late the answers come, there is never more
    than one revocation, one change of password and one deletion that is
    awaited, and the page says it is busy exactly then. *)
Theorem one_request_of_a_kind es : Forall named_session es ->
  let p := run es (security_start) in
  in_flight revocation p = Nat.b2n (sess_busy p) /\ in_flight password_change p = Nat.b2n (pwBusy p) /\
  in_flight account_deletion p = Nat.b2n (suppressionBusy p).
Proof.
  intros H. cut (flags_ok (run es security_start)); [by intros [? ? ?]|]. unfold security_run.
  assert (G : flags_ok security_start) by done. revert G. generalize security_start.
  induction H as [|e es He _ IH]; intros p G; cbn [foldl]; [done|]. apply IH. by apply flags_step.
Qed.

(** ** The requests *)

(** What a request holds when it is sent. *)
Definition sound_request (x : SEffect) : Prop :=
  match x with
  | Asked (RegisterBegin password) | Asked (ToggleKeys _ password) => password <> []
  | Asked (RemoveKey id password) => id <> [] /\ password <> []
  | Asked (RegisterFinish nonce _) => nonce <> []
  | Asked (ChangePassword _ new) => 8 <= length new /\ csrf <> []
  | Asked (RevokeSession _) | Asked RevokeOthers => csrf <> []
  | Asked (DeleteAccount confirm _) => confirm = trim confirm /\ csrf <> []
  | _ => True
  end.
(** A ceremony of the browser has the nonce of its registration. *)
Definition named_ceremony (q : SRequest) : Prop := match q with CreateKey _ nonce => nonce <> [] | _ => True end.
Definition sound (p : SPage) : Prop := Forall sound_request (asked p) /\ Forall named_ceremony (awaited p).
Lemma sound_send q p : sound_request (Asked q) -> named_ceremony q -> sound p -> sound (send q p).
Proof. intros A B [H1 H2]. split; apply Forall_app; by repeat constructor. Qed.
Lemma sound_show x p : sound_request x -> sound p -> sound (emit x p).
Proof. intros A [H1 H2]. split; [|done]. apply Forall_app; by repeat constructor. Qed.
Lemma sound_update f p : (forall p, asked (f p) = asked p) -> (forall p, awaited (f p) = awaited p) -> sound p -> sound (f p).
Proof. unfold sound. by intros -> ->. Qed.

(** Peels the updates of a page one by one; the requests are left. *)
Ltac peel :=
  repeat lazymatch goal with
  | |- sound (send _ _) => apply sound_send; [|exact I|]
  | |- sound (emit _ _) => apply sound_show; [exact I|]
  | |- sound (set_awaited _ _) => fail
  | |- sound (?f ?v ?p) => apply (sound_update (f v) p); [reflexivity|reflexivity|]
  | |- sound ?p => assumption
  end.

Lemma sound_security_answered i r p : sound p -> sound (security_answered t i r p).
Proof.
  intros [H1 H2]. unfold security_answered. destruct (awaited p !! i) as [q|] eqn:E; [|done].
  assert (N : named_ceremony q) by (by eapply Forall_lookup_1 in H2).
  assert (S' : sound (set_awaited (delete i (awaited p)) p)) by (split; [done|]; by apply Forall_delete).
  revert S'. generalize (set_awaited (delete i (awaited p)) p). intros p' S'.
  destruct q; open_answer; repeat case_match; unfold toast.
  all: peel; try exact I; try done.
  destruct S' as [A B]. split; [done|]. apply Forall_app. by repeat constructor.
Qed.
Lemma sound_security_step e p : sound p -> sound (handle e p).
Proof.
  intros H. destruct e; cbn [security_handle]; unfold when; try (by apply sound_security_answered); open_handlers;
    destruct (streq_spec csrf []); cbn [orb]; repeat case_match; unfold toast.
  all: bool_norm; peel; cbn [sound_request]; security_fields; try done; rewrite ?trim_idem; try congruence; try (split; [lia|done]); by split.
Qed.
(** C18: No action on the keys leaves without the password: whatever the clicks, the
    Enter keys and the answers, each request sent holds what it needs - a
    password for the actions on the keys, the nonce of the server for the end
    of a registration, a new password of eight units for its change - and the
    guarded ones never leave without a CSRF token. *)
Theorem requests_need_password es : Forall sound_request (asked (run es security_start)).
Proof.
  cut (sound (run es security_start)); [by intros []|]. unfold security_run.
  assert (G : sound security_start) by (by repeat constructor). revert G. generalize security_start.
  induction es as [|e es IH]; intros p G; cbn [foldl]; [done|]. apply IH. by apply sound_security_step.
Qed.

(** ** The dialog of the password *)

(** A page keeps its dialog or has none. *)
Lemma answered_dialog q r p : pendingAction (answered t q r p) = pendingAction p \/
  pendingAction (answered t q r p) = None /\ exists a, r = Some a /\ a_ok a = true /\
    ((exists id w, q = RemoveKey id w) \/ exists v w, q = ToggleKeys v w).
Proof. destruct q; open_answer; unfold toast, send; repeat case_match; security_fields; eauto 12. Qed.

(** The dialog is closed by the user, by the registration it starts, or by an
    answer of the server that accepts an action on the keys; a refusal or a
    failure leaves it open. *)
Theorem dialog_closed_when_done e p a : pendingAction p = Some a -> pendingAction (handle e p) = None ->
  e = SCancel \/
  (e = SEnterPw \/ e = SClickConfirm) /\ a = Register /\ asked (handle e p) = asked p ++ [Asked (RegisterBegin (pw p))] \/
  exists i r q, e = SAnswered i (Some r) /\ awaited p !! i = Some q /\ a_ok r = true /\
    ((exists id w, q = RemoveKey id w) \/ exists v w, q = ToggleKeys v w).
Proof.
  intros HA HN. destruct e as [| | | | | | | | | | | | | | | | | | | |i r]; cbn [security_handle] in *; unfold when in *.
  21: { unfold security_answered in HN. destruct (awaited p !! i) as [q|] eqn:E; [|congruence].
    destruct (answered_dialog q r (set_awaited (delete i (awaited p)) p)) as [X|(_ & a' & -> & Hok & Hq)].
    - rewrite X in HN. security_fields. congruence.
    - right. right. eauto 10. }
  all: try (by left).
  all: revert HN; open_handlers; unfold toast, send; repeat case_match; security_fields; try congruence; intros _.
  all: right; left; split; [by eauto|]; split; [congruence|congruence].
Qed.

(** ** A key is added *)

(** From the button to the answer that ends it, when the server gives options
    and the browser a credential: the dialog asks for the password and closes;
    the registration starts with it and ends with the nonce of the server and
    the credential of the browser; the success is told and the tab reloaded. *)
Theorem key_added password b f pk c v p : awaited p = [] -> passkeyPossible who p = true -> password <> [] ->
  a_publicKey b = Some pk -> truthy pk = true -> a_nonce b <> [] ->
  createPasskey pk (a_browser c) = Done v -> a_ok f = true ->
  let q := run [SAddKey true; SPw password; SEnterPw; SAnswered 0 (Some b); SAnswered 0 (Some c); SAnswered 0 (Some f)] p in
  asked q = asked p ++ [Asked (RegisterBegin password); Asked (RegisterFinish (a_nonce b) v);
                        Toast (t (u "Clé de sécurité ajoutée.")) false; Asked LoadSecurity; Asked LoadSessions] /\
  awaited q = [LoadSecurity; LoadSessions] /\ pendingAction q = None /\ busy q = false.
Proof.
  intros HW HP HS HB HT HN HC HF. cbv zeta. unfold security_run. cbn [foldl security_handle]. unfold when, addKey. rewrite HP. security_fields.
  rewrite bool_decide_true by (eexists; reflexivity). unfold confirmPassword. security_fields. destruct password as [|x y]; [done|].
  unfold saveKey, send. security_fields. rewrite HW. unfold security_answered. security_fields. cbn [app lookup list_lookup delete list_delete].
  open_answer. rewrite HB. destruct (a_nonce b) as [|nx ny]; [done|]. rewrite HT. security_fields. cbn [app lookup list_lookup delete list_delete].
  open_answer. rewrite HC. unfold send. security_fields. cbn [app lookup list_lookup delete list_delete].
  open_answer. rewrite HF. unfold toast, send. security_fields. cbn [app]. by rewrite <- !app_assoc.
Qed.
End spec.

(** ** The name of a device *)

Lemma hint_in_spec table raw n x : Forall (fun x => x.2 <> [] /\ length x.2 <= n) table -> hint_in table raw = Some x -> x <> [] /\ length x <= n.
Proof.
  intros H. unfold hint_in. destruct (List.find _ table) as [y|] eqn:E; [|done]. intros [= <-].
  apply List.find_some in E as [E _]. rewrite Forall_forall in H. apply H. by apply list_elem_of_In.
Qed.
(** The name shown for a device is never empty and has at most 49 units,
    whatever the user agent. *)
Theorem device_name_short ua : describeUserAgent ua <> [] /\ length (describeUserAgent ua) <= 49.
Proof.
  unfold describeUserAgent. destruct (trim (default [] ua)) as [|c s] eqn:E; [by vm_compute; split; [|lia]|]. rewrite <- E. set (raw := trim _) in *.
  assert (B : forall x, hint_in BROWSERS raw = Some x -> x <> [] /\ length x <= 16).
  { intros x. apply hint_in_spec. repeat (apply Forall_cons_2; [split; [by vm_compute|vm_compute; lia]|]). constructor. }
  assert (O : forall x, hint_in OSES raw = Some x -> x <> [] /\ length x <= 16).
  { intros x. apply hint_in_spec. repeat (apply Forall_cons_2; [split; [by vm_compute|vm_compute; lia]|]). constructor. }
  assert (F : (if 48 <? length raw then take 48 raw ++ u "…" else raw) <> [] /\ length (if 48 <? length raw then take 48 raw ++ u "…" else raw) <= 49).
  { clear -E. clearbody raw. destruct (Nat.ltb_spec 48 (length raw)).
    - split; [by subst raw|]. rewrite length_app, length_take. change (length (u "…")) with 1. lia.
    - split; [by subst raw|lia]. }
  destruct (hint_in BROWSERS raw) as [x|]; destruct (hint_in OSES raw) as [y|]; cbn [omap list_omap id join]; [| | |exact F].
  - destruct (B x eq_refl) as [? ?], (O y eq_refl) as [? ?]. destruct x; [done|]. cbn [app]. split; [done|].
    cbn [length app] in *. rewrite !length_app. change (length (u " · ")) with 3. lia.
  - destruct (B x eq_refl) as [? ?]. destruct x; [done|]. split; [done|lia].
  - destruct (O y eq_refl) as [? ?]. destruct y; [done|]. split; [done|lia].
Qed.

(** ** What the tab does not do *)

(** The warning on the keys that may still work is lost when the account is
    deleted, the only case where the server sends one. *)
Lemma deletion_warning_lost t a w : a_deleted a = true ->
  deletion_text t (mkReply (a_ok a) (a_error a) (a_publicKey a) (a_nonce a) (a_security a) (a_sessions a) true w (a_browser a)) = deletion_text t a.
Proof. unfold deletion_text. cbn [a_deleted]. by intros ->. Qed.

#[local] Abbreviation fr := (fun x : jstr => x) (only parsing).
Definition portal_user : Whoami := mkWhoami (Some (u "portal")) (Some true).
(** An answer to a request of a local account. *)
Definition reply (ok : bool) : Reply :=
  mkReply ok [] None [] (mkSecurityState true [mkCred 1 (u "key") (u "YubiKey") 0]) (mkSessionsState [] None None) false [] (fun _ => None).
Definition loaded_page : SPage := security_run fr (u "csrf") (Some portal_user) [SAnswered 0 (Some (reply true)); SAnswered 0 (Some (reply true))] security_start.

(** The Enter key of the password sends the deletion without DELETE typed,
    which its button requires. *)
Lemma enter_skips_confirmation :
  let p := security_run fr (u "csrf") (Some portal_user) [SOpenDeletion; SDeletionPassword (u "secret")] loaded_page in
  delete_disabled (Some portal_user) p = true /\
  awaited (security_handle fr (u "csrf") (Some portal_user) SEnterDeletion p) = [DeleteAccount [] (u "secret")].
Proof. split; vm_compute; reflexivity. Qed.
(** The answer to an action closes the dialog of another one opened meanwhile. *)
Lemma answer_closes_other_dialog :
  let p := security_run fr (u "csrf") (Some portal_user)
    [SRemove (mkCred 1 (u "key") (u "YubiKey") 0); SPw (u "secret"); SEnterPw; SCancel; SAddKey true; SPw (u "other")] loaded_page in
  pendingAction p = Some Register /\
  pendingAction (security_handle fr (u "csrf") (Some portal_user) (SAnswered 0 (Some (reply true))) p) = None.
Proof. split; vm_compute; reflexivity. Qed.

(** A key was added: the password stays in the page, and the dialog of the
    switch opens with it, ready to be confirmed. *)
Lemma password_kept_for_switch :
  let begun := mkReply true [] None [] (mkSecurityState false []) (mkSessionsState [] None None) false [] (fun _ => None) in
  let p := security_run fr (u "csrf") (Some portal_user)
    [SAddKey true; SPw (u "secret"); SEnterPw; SAnswered 0 (Some begun); SToggle false; SClickConfirm] loaded_page in
  awaited p = [ToggleKeys false (u "secret")].
Proof. vm_compute. reflexivity. Qed.

Theorem one_request_of_a_kind_witness :
  let p := security_run fr (u "csrf") (Some portal_user) [SRevoke (u "a"); SRevokeOthers] security_start in
  in_flight revocation p = Nat.b2n (sess_busy p) /\ in_flight password_change p = Nat.b2n (pwBusy p) /\
  in_flight account_deletion p = Nat.b2n (suppressionBusy p).
Proof.
  apply (one_request_of_a_kind fr (u "csrf") (Some portal_user) [SRevoke (u "a"); SRevokeOthers]).
  apply Forall_cons_2; [intros H; discriminate H|]. apply Forall_cons_2; [exact I|constructor].
Defined.
Theorem dialog_closed_when_done_witness :
  let p := security_run fr (u "csrf") (Some portal_user) [SToggle false; SPw (u "secret")] loaded_page in
  let e := SCancel in
  e = SCancel \/
  (e = SEnterPw \/ e = SClickConfirm) /\ Toggle false = Register /\
    asked (security_handle fr (u "csrf") (Some portal_user) e p) = asked p ++ [Asked (RegisterBegin (pw p))] \/
  exists i r q, e = SAnswered i (Some r) /\ awaited p !! i = Some q /\ a_ok r = true /\
    ((exists id w, q = RemoveKey id w) \/ exists v w, q = ToggleKeys v w).
Proof. apply (dialog_closed_when_done fr (u "csrf") (Some portal_user)); vm_compute; reflexivity. Defined.
(** Options with a challenge and a user, and the credential of a browser. *)
Definition some_options : json :=
  JObj [(u "challenge", JStr (u "AAAA")); (u "user", JObj [(u "id", JStr (u "AAAA"))])].
Definition some_credential : Credential := mkCredential (u "id") [1%N] (u "public-key") None [2%N] None None.
Theorem key_added_witness :
  let begun := mkReply true [] (Some some_options) (u "nonce") (mkSecurityState false []) (mkSessionsState [] None None) false [] (fun _ => Some some_credential) in
  let p := security_run fr (u "csrf") (Some portal_user)
    [SAddKey true; SPw (u "secret"); SEnterPw; SAnswered 0 (Some begun); SAnswered 0 (Some begun); SAnswered 0 (Some begun)] loaded_page in
  asked p = asked loaded_page ++ [Asked (RegisterBegin (u "secret")); Asked (RegisterFinish (u "nonce") (credentialToJSON some_credential));
                        Toast (u "Clé de sécurité ajoutée.") false; Asked LoadSecurity; Asked LoadSessions] /\
  awaited p = [LoadSecurity; LoadSessions] /\ pendingAction p = None /\ busy p = false.
Proof.
  intros begun p. apply (key_added fr (u "csrf") (Some portal_user) (u "secret") begun begun some_options begun); try (vm_compute; reflexivity).
  - intros H. vm_compute in H. discriminate H.
  - intros H. vm_compute in H. discriminate H.
Defined.
