(* ===== verification/PageSeed.v ===== *)
(** * The data a page is rendered with (lib/seed.ts, lib/server-api.ts, app/(app)/page.tsx)

    A server component reads the page's data and hands it down as a seed; the
    page shows it at once, and the first mount that claims the seed skips its
    own requests.  [crypto.randomUUID] is the identifier of the seed. *)

From S2P Require Import Prelude JsJson Api Messages.
Local Open Scope flow_scope.

(** ** The reads of the server *)

(** The headers forwarded, [get] being those of the visitor's request. *)
Definition FORWARDED : list jstr := [u "cookie"; u "cf-connecting-ip"; u "x-forwarded-for"; u "user-agent"; u "accept-language"].
Definition forwarded (get : jstr -> option jstr) : list (jstr * jstr) :=
  (u "accept", u "application/json")
  :: omap (fun name => match get name with Some ((_ :: _) as v) => Some (name, v) | _ => None end) FORWARDED.

Inductive ServerRead := ReadOk (data : json) | Unauthenticated | ForbiddenRead | FailedRead.
Definition serverRead (f : Fetched) : ServerRead :=
  match f with
  | Rejected => FailedRead
  | Got r =>
      if (status r =? 401)%Z then Unauthenticated
      else if (status r =? 403)%Z then ForbiddenRead
      else if negb (res_ok r) then FailedRead
      else match r_json r with Some data => ReadOk data | None => FailedRead end
  end.
#[export] Instance ServerRead_eq_unauth r : Decision (r = Unauthenticated).
Proof. destruct r; (by left) || (by right). Defined.

Record Seed := mkSeed { seed_id : jstr; seed_data : list (jstr * option json); seed_forbidden : bool }.
Inductive Rendered := ToLogin | WithSeed (s : Seed).
Definition unauthenticated (r : ServerRead) : bool := match r with Unauthenticated => true | _ => false end.
Definition refused_read (r : ServerRead) : bool := match r with ForbiddenRead => true | _ => false end.
Definition read_data (r : ServerRead) : option json := match r with ReadOk v => Some v | _ => None end.
(** [paths] have distinct keys; [fetch] is what each path answers. *)
Definition pageSeed (uuid : jstr) (fetch : jstr -> Fetched) (paths : list (jstr * jstr)) : Rendered :=
  let reads := map (fun p => serverRead (fetch p.2)) paths in
  if existsb unauthenticated reads then ToLogin
  else WithSeed (mkSeed uuid (zip_with (fun p r => (p.1, read_data r)) paths reads) (existsb refused_read reads)).

(** ** The home page's seed *)

Section home_seed.
Context (date_parse : jstr -> option Z) (now : Z) (conversations_of : json -> list ApiConversation) (as_json : list Conversation -> json).
(** The three first conversations, without their messages. *)
Definition recent_of (r : ServerRead) : option (list Conversation) :=
  match r with
  | ReadOk d => Some (map (fun c => mkConv (c_id c) (c_title c) (c_ts c) (c_model c) [] (Some true))
                        (take 3 (conversationsFromApi date_parse now (conversations_of d))))
  | _ => None
  end.
Definition home_page (uuid : jstr) (fetch : jstr -> Fetched) : Rendered :=
  match pageSeed uuid fetch [(u "home", u "/api/home"); (u "latency", u "/api/latency")] with
  | ToLogin => ToLogin
  | WithSeed s => WithSeed (mkSeed (seed_id s)
      (assoc_set (u "recent") (as_json <$> recent_of (serverRead (fetch (u "/api/conversations")))) (seed_data s)) false)
  end.
End home_seed.

(** ** The mount of a page *)

(** [claimed]: the identifiers already claimed by a mount of this browser. *)
Definition claim (browser : bool) (claimed : list jstr) (seed : option Seed) : bool * list jstr :=
  match seed with
  | None => (false, claimed)
  | Some s =>
      if negb browser then (true, claimed)
      else if existsb (streq (seed_id s)) claimed then (false, claimed)
      else (true, claimed ++ [seed_id s])
  end.
Definition not_null (v : option json) : bool := match v with None | Some JNull => false | Some _ => true end.
Record Mounted := mkMounted { m_data : list (jstr * option json); m_fresh : list (jstr * bool) }.
Definition useSeed (browser : bool) (claimed : list jstr) (seed : option Seed) : Mounted * list jstr :=
  let '(isFresh, claimed') := claim browser claimed seed in
  let data := match seed with Some s => seed_data s | None => [] end in
  (mkMounted data (map (fun p => (p.1, isFresh && not_null p.2)) data), claimed').
(** The mounts of a browser, one after the other. *)
Fixpoint mounts (claimed : list jstr) (seeds : list (option Seed)) : list Mounted :=
  match seeds with
  | [] => []
  | s :: r => let '(m, claimed') := useSeed true claimed s in m :: mounts claimed' r
  end.

(** ** Properties *)

Lemma existsb_claimed id claimed : existsb (streq id) claimed = true <-> id ∈ claimed.
Proof.
  rewrite existsb_exists. split.
  - intros (x & H & E). apply streq_true in E as <-. by apply list_elem_of_In.
  - intros H. exists id. split; [by apply list_elem_of_In|by apply streq_true].
Qed.
(** A claimed seed stays so, and a mount claims its seed. *)
Lemma useSeed_claimed claimed seed : claimed ⊆ (useSeed true claimed seed).2 /\
  (forall s, seed = Some s -> seed_id s ∈ (useSeed true claimed seed).2).
Proof.
  unfold useSeed, claim. destruct seed as [s|]; cbn [negb snd]; [|done]. destruct (existsb _ claimed) eqn:E; cbn [snd].
  - split; [done|]. intros s' [= <-]. by apply existsb_claimed.
  - split; [set_solver|]. intros s' [= <-]. set_solver.
Qed.
Lemma fresh_unclaimed claimed s k : (k, true) ∈ m_fresh (useSeed true claimed (Some s)).1 -> seed_id s ∉ claimed.
Proof.
  unfold useSeed, claim. cbn [negb]. destruct (existsb _ claimed) eqn:E; cbn [fst m_fresh].
  - intros (p & Hp & _)%list_elem_of_fmap. discriminate Hp.
  - intros _ H. apply existsb_claimed in H. congruence.
Qed.
Lemma mounts_lookup claimed seeds i m : mounts claimed seeds !! i = Some m -> exists c s, seeds !! i = Some s /\ m = (useSeed true c s).1 /\
  claimed ⊆ c /\ forall j s', j < i -> seeds !! j = Some (Some s') -> seed_id s' ∈ c.
Proof.
  revert claimed i. induction seeds as [|s0 seeds IH]; intros claimed i; cbn [mounts]; [done|].
  destruct (useSeed true claimed s0) as [m0 c0] eqn:E. destruct (useSeed_claimed claimed s0) as [H1 H2]. rewrite E in H1, H2. cbn [snd] in H1, H2.
  destruct i as [|i]; cbn [lookup list_lookup].
  - intros [= <-]. exists claimed, s0. rewrite E. split; [done|]. split; [done|]. split; [done|]. intros j s' Hj. lia.
  - intros H. apply IH in H as (c & s & Hs & -> & Hc & Hj). exists c, s. split; [done|]. split; [done|]. split; [set_solver|].
    intros [|j] s' Hlt Hl; [|by apply (Hj j); [lia|]]. cbn [lookup list_lookup] in Hl. injection Hl as ->. by apply Hc, H2.
Qed.

(** Data rendered for a visit is taken as fresh by one mount at most: when the
    router hands the same seed again, the later mounts show it and none of
    their keys is fresh, so they ask again. *)
Theorem seed_fresh_once seeds i j s s' m k : seeds !! i = Some (Some s) -> seeds !! j = Some (Some s') -> seed_id s = seed_id s' -> i < j ->
  mounts [] seeds !! j = Some m -> m_data m = seed_data s' /\ (k, true) ∉ m_fresh m.
Proof.
  intros Hi Hj Hid Hlt Hm. apply mounts_lookup in Hm as (c & s0 & Hs & -> & _ & Hc). rewrite Hj in Hs. injection Hs as <-.
  split.
  - unfold useSeed. by destruct (claim true c (Some s')).
  - intros H. apply fresh_unclaimed in H. apply H. rewrite <- Hid. by apply (Hc i).
Qed.
Definition a_seed : Seed := mkSeed (u "1") [(u "home", Some (JBool true)); (u "latency", None)] false.
Theorem seed_fresh_once_witness :
  m_data (mkMounted (seed_data a_seed) [(u "home", false); (u "latency", false)]) = seed_data a_seed /\
  (u "home", true) ∉ m_fresh (mkMounted (seed_data a_seed) [(u "home", false); (u "latency", false)]).
Proof. apply (seed_fresh_once [Some a_seed; None; Some a_seed] 0 2 a_seed a_seed); try reflexivity. lia. Defined.
(** The first mount takes it as fresh, where it has data. *)
Example first_mount_fresh : m_fresh (useSeed true [] (Some a_seed)).1 = [(u "home", true); (u "latency", false)].
Proof. vm_compute. reflexivity. Qed.

(** A page is rendered for an identified user only: one refused identity on any
    read sends to the login page; otherwise every key holds what its endpoint
    answered, or nothing, and the seed says whether one of them was forbidden. *)
Theorem page_seed_reads uuid fetch paths :
  (pageSeed uuid fetch paths = ToLogin <-> exists k p r, (k, p) ∈ paths /\ fetch p = Got r /\ status r = 401%Z) /\
  (forall s, pageSeed uuid fetch paths = WithSeed s -> seed_id s = uuid /\
    seed_data s = map (fun x => (x.1, read_data (serverRead (fetch x.2)))) paths /\
    (seed_forbidden s = true <-> exists k p r, (k, p) ∈ paths /\ fetch p = Got r /\ status r = 403%Z)).
Proof.
  assert (X : forall f st, (forall p, f (serverRead (fetch p)) = true <-> exists r, fetch p = Got r /\ status r = st) ->
    existsb f (map (fun p : jstr * jstr => serverRead (fetch p.2)) paths) = true <-> exists k p r, (k, p) ∈ paths /\ fetch p = Got r /\ status r = st).
  { intros f st Hf. rewrite existsb_exists. split.
    - intros (x & Hx & Hfx). apply in_map_iff in Hx as ([k p] & <- & Hin). apply Hf in Hfx as (r & ? & ?). exists k, p, r. by rewrite list_elem_of_In.
    - intros (k & p & r & Hin & Hr). exists (serverRead (fetch p)). split; [|by apply Hf; eauto].
      apply in_map_iff. exists (k, p). by rewrite <- list_elem_of_In. }
  assert (U : forall p, unauthenticated (serverRead (fetch p)) = true <-> exists r, fetch p = Got r /\ status r = 401%Z).
  { intros p. unfold serverRead. destruct (fetch p) as [|r]; [by split; [|intros (? & ? & ?)]|].
    destruct (Z.eqb_spec (status r) 401); [by split; [eauto|]|]. split; [|by intros (r' & [= <-] & ?)]. by repeat case_match. }
  assert (F : forall p, refused_read (serverRead (fetch p)) = true <-> exists r, fetch p = Got r /\ status r = 403%Z).
  { intros p. unfold serverRead. destruct (fetch p) as [|r]; [by split; [|intros (? & ? & ?)]|].
    destruct (Z.eqb_spec (status r) 401) as [E|]; [by split; [|intros (r' & [= <-] & ?); congruence]|].
    destruct (Z.eqb_spec (status r) 403); [by split; [eauto|]|]. split; [|by intros (r' & [= <-] & ?)]. by repeat case_match. }
  unfold pageSeed. rewrite <- (X unauthenticated 401%Z U). split; [by destruct (existsb unauthenticated _)|].
  destruct (existsb unauthenticated _); [done|]. intros s [= <-]. cbn [seed_id seed_data seed_forbidden]. split; [done|]. split; [|by apply X].
  clear. induction paths as [|x l IH]; cbn [map zip_with]; [done|]. by f_equal.
Qed.
