(* ===== verification/Home.v ===== *)
(** * The home page (app/(app)/HomePage.tsx)

    The dashboard: its first load, its polls (5 s for the whole of it, 1 s for
    the engine, 30 s for the latency), the request for more budget, and what it
    shows.  Measured values are JavaScript numbers ([num]); [num_text] is
    [String(n)] and [locale] is [n.toLocaleString(…)].  The requests awaited
    are in the state. *)

From S2P Require Import Prelude JsInt JsJson JsNumber Api Messages.
Local Open Scope flow_scope.

(** ** The data *)

Record Gpu := mkGpu { util : num; power : num; temp : num }.
Record SysMetrics := mkSys { cpu_pct : num; used_gb : num; total_gb : num; ram_pct : num; gpu : option Gpu }.
Record Slots := mkSlots { sl_busy : Z; sl_total : Z; oldest_s : option num; prompt_total : num; prompt_processed : num }.
Record ModelHealth := mkHealth {
  h_model : jstr; up : bool; tps : option num; running : num; ttft : option num; h_requests : option num; max_seqs : option num;
  ctx_in : option num; ctx_out : option num; tps_avg : option num; tokens_prompt : option num; tps_prefill : option num;
  slots : option Slots
}.
Inductive Kind := Chat | Image | Video | Ocr | Voice | DecisionsKind.
#[export] Instance Kind_eq_dec : EqDecision Kind.
Proof. solve_decision. Defined.
Record RunningModel := mkRunning { rm_name : jstr; rm_kind : Kind }.
Record SidecarMetric := mkSidecar {
  count_today : num; avg_ms : option num; last_ms : option num; chars_per_s : option num; chars_avg : option num; rtf : option num;
  success_rate : option num; video_secs_today : option num; gen_per_vsec : option num
}.
Record ActiveUser := mkActive {
  au_username : jstr; au_requests : num; au_tokens : num; live : bool; last_s : option num; inflight : bool; since_s : option num
}.
Record ModelRequest := mkRequest { mr_model_id : jstr; mr_reason : jstr; mr_status : jstr; mr_created_at : jstr }.
Record HomeData := mkHome {
  running_models : list RunningModel; sysmetrics : option SysMetrics;
  sidecar_ocr : option SidecarMetric; sidecar_video : option SidecarMetric; sidecar_voice : option SidecarMetric;
  modelhealth : option ModelHealth; active_users : option (list ActiveUser); usage_by_model : list (jstr * num);
  my_requests : list ModelRequest; budget_used : num; budget_remaining : num; budget_request_pending : bool
}.
Record Latency := mkLatency { p50_ms : option num; p95_ms : option num; lat_n : num }.

(** ** Constants of the page *)

Definition KIND_OPEN (k : Kind) : jstr * jstr :=
  match k with
  | Chat => (u "Ouvrir le chat", u "/playground")
  | Image => (u "Ouvrir la génération d'image", u "/image")
  | Video => (u "Ouvrir la génération vidéo", u "/video")
  | Ocr => (u "Ouvrir l'OCR", u "/ocr")
  | Voice => (u "Ouvrir le clonage de voix", u "/voice")
  | DecisionsKind => (u "Ouvrir les décisions", u "/decisions")
  end.
Definition CAPS : list (Kind * jstr) :=
  [(Chat, u "Chat"); (Image, u "Image"); (Video, u "Vidéo"); (Ocr, u "OCR"); (Voice, u "Voix"); (DecisionsKind, u "Décisions")].
Inductive Variant := Warning | Success | Error | Neutral.
Definition STATUS_VARIANT (s : jstr) : Variant :=
  if streq s (u "pending") then Warning else if streq s (u "done") then Success else if streq s (u "rejected") then Error else Neutral.
Definition STATUS_LABEL (s : jstr) : jstr :=
  if streq s (u "pending") then u "En attente" else if streq s (u "done") then u "Lancé" else if streq s (u "rejected") then u "Refusé" else s.

Section home.
Context (t : jstr -> jstr) (num_text locale : num -> jstr).

(** ** The texts of the measures *)

Definition n_ (z : Z) : num := num_of_Z z.
Definition rounded (x : num) : jstr := int_text (math_round x) x.

Definition fmtCtx (n : option num) : jstr :=
  match n with
  | None => u "—"
  | Some n => if nle (n_ 1024) n then rounded (ndiv n (n_ 1024)) ++ u "k" else num_text n
  end.
Definition ageSince (seconds : option num) : jstr :=
  match seconds with
  | None => t (u "activité inconnue")
  | Some s =>
      if nlt s (n_ 5) then t (u "à l'instant")
      else if nlt s (n_ 60) then replace_str (t (u "il y a {n} s")) (u "{n}") (rounded s)
      else if nlt s (n_ 3600) then replace_str (t (u "il y a {n} min")) (u "{n}") (rounded (ndiv s (n_ 60)))
      else replace_str (t (u "il y a {n} h")) (u "{n}") (rounded (ndiv s (n_ 3600)))
  end.
(** [x % 60], exact, for a number that is not negative. *)
Definition mod60 (x : num) : num :=
  match x with
  | S754_finite false m e =>
      if (0 <=? e)%Z then n_ (Zpos m * 2 ^ e mod 60)
      else binary_normalize prec emax (Zpos m mod (60 * 2 ^ (- e))) e false
  | S754_zero s => S754_zero s
  | _ => S754_nan
  end.
Definition padStart2 (s : jstr) : jstr := repeat 48%N (2 - length s) ++ s.
Definition fmtDuration (ms : num) : jstr :=
  if nlt ms (n_ 1000) then rounded ms ++ u " ms"
  else
    let s := ndiv ms (n_ 1000) in
    if nlt s (n_ 60) then to_fixed1 s ++ u " s"
    else int_text (math_floor (ndiv s (n_ 60))) s ++ u " min " ++ padStart2 (rounded (mod60 s)) ++ u " s".

(** A line, when its value is there. *)
Definition line {A} (label : jstr) (v : option A) (f : A -> jstr) : list (jstr * jstr) :=
  match v with Some x => [(t label, f x)] | None => [] end.
Inductive Media := MOcr | MVideo | MVoice.
Definition KIND_NAME (k : Media) : jstr := match k with MOcr => u "OCR" | MVideo => u "Vidéo" | MVoice => u "Voix" end.
Definition sidecarLines (kind : Media) (sm : SidecarMetric) : list (jstr * jstr) :=
  (t (u "Aujourd'hui"), locale (count_today sm))
  :: match kind with
     | MOcr =>
         line (u "Débit") (chars_per_s sm) (fun x => u "≈ " ++ locale x ++ u " c/s")
         ++ line (u "Caractères/doc") (chars_avg sm) locale
         ++ line (u "Extraction moy.") (avg_ms sm) fmtDuration
     | MVoice =>
         line (u "Facteur temps réel") (rtf sm) (fun x => u "×" ++ num_text x)
         ++ line (u "Vitesse de synthèse") (chars_per_s sm) (fun x => u "≈ " ++ locale x ++ u " c/s")
         ++ line (u "Génération moy.") (avg_ms sm) fmtDuration
     | MVideo =>
         line (u "Taux de réussite") (success_rate sm) (fun x => num_text x ++ u " %")
         ++ line (u "Vidéo générée auj.") (video_secs_today sm) (fun x => locale x ++ u " s")
         ++ line (u "Calcul / s de vidéo") (gen_per_vsec sm) (fun x => num_text x ++ u "×")
         ++ line (u "Génération moy.") (avg_ms sm) fmtDuration
     end
  ++ line (u "Dernière") (last_ms sm) fmtDuration.
(** The services that have metrics, in the order of the block. *)
Definition media_block (d : HomeData) : list (jstr * list (jstr * jstr)) :=
  omap (fun '(k, o) => (fun sm => (t (KIND_NAME k), sidecarLines k sm)) <$> o)
    [(MOcr, sidecar_ocr d); (MVideo, sidecar_video d); (MVoice, sidecar_voice d)].

(** ** What is shown *)

Record Cap := mkCap { cap_label : jstr; cap_href : jstr; cap_name : jstr; cap_model : option jstr; cap_badge : jstr }.
Definition has_kind (k : Kind) (m : RunningModel) : bool := bool_decide (rm_kind m = k).
Definition cap_card (d : HomeData) (c : Kind * jstr) : Cap :=
  let on := existsb (has_kind c.1) (running_models d) in
  mkCap (t (KIND_OPEN c.1).1) (KIND_OPEN c.1).2 (t c.2)
    (if on then rm_name <$> List.find (has_kind c.1) (running_models d) else None)
    (if on then t (u "En ligne") else t (u "à la demande")).
Definition cap_cards (d : HomeData) : list Cap := map (cap_card d) CAPS.
Definition latency_text (l : option Latency) : option jstr :=
  match l with
  | Some l =>
      match p50_ms l with
      | Some a =>
          Some (replace_str (replace_str (replace_str (t (u "Réponse API : médiane {a} ms · p95 {b} ms sur {n} appels"))
            (u "{a}") (num_text a)) (u "{b}") (match p95_ms l with Some b => num_text b | None => u "—" end)) (u "{n}") (num_text (lat_n l)))
      | None => None
      end
  | None => None
  end.
(** [a || b] *)
Definition or_text (a b : jstr) : jstr := match a with [] => b | _ => a end.
(** The cards of the conversations to resume: title, line under it, identifier
    of the conversation opened. *)
Definition recent_card (now : Z) (hydrated : bool) (c : Conversation) : jstr * jstr * jstr :=
  (or_text (c_title c) (t (u "Conversation")),
   c_model c ++ (match c_model c with [] => [] | _ => if hydrated then u " · " else [] end)
     ++ (if hydrated then relativeTime now t (c_ts c) else []),
   c_id c).
Definition recent_cards (now : Z) (hydrated : bool) (l : list Conversation) : list (jstr * jstr * jstr) :=
  map (recent_card now hydrated) (take 3 l).
Definition gpu_text (g : Gpu) : jstr :=
  rounded (util g) ++ u " % · " ++ rounded (power g) ++ u " W · " ++ rounded (temp g) ++ u " °C".
Definition or_dash (o : option num) : jstr := match o with Some x => num_text x | None => u "—" end.
(** The values of the engine, in the order of the row. *)
Definition engine_row (h : ModelHealth) : list (jstr * jstr) :=
  [(t (u "Modèle actif"), or_text (h_model h) (t (u "aucun")));
   (t (u "Tokens générés"), or_dash (tps h) ++ u " tok/s");
   (t (u "Prefill"), match tps_prefill h with Some x => num_text x ++ u " tok/s" | None => u "—" end);
   (t (u "Sessions"), num_text (running h) ++ u " / " ++ or_dash (max_seqs h));
   (t (u "TTFT"), or_dash (ttft h) ++ u " s");
   (t (u "Requêtes servies"), or_dash (h_requests h));
   (t (u "Contexte entrée"), fmtCtx (ctx_in h)); (t (u "Contexte sortie"), fmtCtx (ctx_out h))].
Definition slots_text (s : Slots) : option jstr :=
  if (0 <? sl_busy s)%Z || negb (sl_total s =? 0)%Z then
    Some (replace_str (t (u "{n} session(s) en cours sur le moteur")) (u "{n}") (string_of_Z (sl_busy s))
      ++ (if (sl_total s =? 0)%Z then [] else u " / " ++ string_of_Z (sl_total s))
      ++ match oldest_s s with
         | Some o => u " · " ++ replace_str (t (u "la plus ancienne depuis {d}")) (u "{d}") (ageSince (Some o))
         | None => []
         end
      ++ (if nlt (prompt_processed s) (prompt_total s)
          then u " · " ++ replace_str (replace_str (t (u "ingestion du prompt {a} / {b} tokens")) (u "{a}") (locale (prompt_processed s)))
                            (u "{b}") (locale (prompt_total s))
          else []))
  else None.
Definition user_label (x : ActiveUser) : jstr :=
  join (u " · ") (List.filter (fun s => negb (streq s []))
    ([au_username x;
      if inflight x
      then replace_str (t (u "en cours depuis {d}")) (u "{d}") (ageSince (Some (default (n_ 0) (since_s x))))
      else ageSince (last_s x);
      if live x then t (u "en direct") else []]
     ++ if inflight x then []
        else [num_text (au_requests x) ++ u " " ++ t (u "req");
              match math_round (au_tokens x) with Some z => locale (n_ z) | None => locale (au_tokens x) end ++ u " " ++ t (u "tok")])).
(** What the panel of an administrator says of the users: their labels, or a
    sentence, and the note on the sessions that are not attributed. *)
Definition busy (s : option Slots) : bool := match s with Some s => (0 <? sl_busy s)%Z | None => false end.
Definition users_panel (s : option Slots) (l : list ActiveUser) : list jstr + jstr :=
  match l with
  | [] => inr (if busy s then t (u "Ces requêtes sont anonymes jusqu'à leur fin : LiteLLM n'écrit la ligne qu'une fois la requête terminée.")
               else t (u "Personne n'utilise le modèle en ce moment."))
  | _ => inl (map user_label l)
  end.
Definition unattributed (s : option Slots) (l : list ActiveUser) : bool :=
  busy s && negb (length l =? 0) && negb (existsb live l).

(** The quota of a user who is not an administrator. *)
Definition positive (x : num) : bool := nlt (n_ 0) x.
Definition exceeded (d : HomeData) : bool := nle (budget_remaining d) (n_ 0).
Definition nearly_exhausted (d : HomeData) : bool :=
  positive (budget_remaining d) && positive (budget_used d)
  && nle (num_of_decimal 85 (-2)) (ndiv (budget_used d) (nadd (budget_used d) (budget_remaining d))).
Definition falsy_num (x : num) : bool := match x with S754_zero _ | S754_nan => true | _ => false end.
Definition bar_max (d : HomeData) : num :=
  let m := nadd (budget_used d) (budget_remaining d) in if falsy_num m then n_ 1 else m.
Definition bar_label (v m : num) : jstr := rounded (nmul (ndiv v m) (n_ 100)) ++ u " %".
Definition model_usage (d : HomeData) : list (jstr * jstr) :=
  map (fun m => (m.1, locale m.2 ++ u " " ++ t (u "tokens"))) (take 6 (usage_by_model d)).
Definition request_row (r : ModelRequest) : jstr * jstr * (jstr * Variant) * jstr :=
  (mr_model_id r, or_text (mr_reason r) (u "—"), (t (STATUS_LABEL (mr_status r)), STATUS_VARIANT (mr_status r)),
   replace_str (take 16 (mr_created_at r)) (u "T") (u " ")).
Definition greeting (fullname : option jstr) : jstr :=
  t (u "Bonjour") ++ match take_while (fun c => negb (c =? 32)%N) (default [] fullname) with [] => [] | f => u ", " ++ f end.
End home.

(** ** The state of the page *)

(** The first load asks for the conversations and the dashboard together. *)
Inductive HRequest := First | Poll | Health | LatencyRead | BudgetRequest (reason : jstr).
Inductive HEffect := Asked (url : jstr) | Toast (body : jstr) (error : bool) | OpenSettings (tab : jstr) | CleanUrl.
(** What an answer holds; a missing one is a request that rejects, a latency
    that is missing is also a status that is not a success. *)
Record HReply := mkReply {
  a_recent : list Conversation; a_home : option HomeData; a_health : option (option ModelHealth); a_latency : option Latency; a_budget : Fetched
}.
Record HPage := mkHPage {
  data : option HomeData; loadError : bool; latency : option Latency; recentConvs : list Conversation;
  visible : bool; awaited : list HRequest; asked : list HEffect
}.

Definition set_data v p := mkHPage v (loadError p) (latency p) (recentConvs p) (visible p) (awaited p) (asked p).
Definition set_loadError v p := mkHPage (data p) v (latency p) (recentConvs p) (visible p) (awaited p) (asked p).
Definition set_latency v p := mkHPage (data p) (loadError p) v (recentConvs p) (visible p) (awaited p) (asked p).
Definition set_recentConvs v p := mkHPage (data p) (loadError p) (latency p) v (visible p) (awaited p) (asked p).
Definition set_visible v p := mkHPage (data p) (loadError p) (latency p) (recentConvs p) v (awaited p) (asked p).
Definition set_awaited v p := mkHPage (data p) (loadError p) (latency p) (recentConvs p) (visible p) v (asked p).
Definition emit (e : HEffect) p := mkHPage (data p) (loadError p) (latency p) (recentConvs p) (visible p) (awaited p) (asked p ++ [e]).

(** Reading a field through the updates. *)
Ltac home_fields :=
  cbn [data loadError latency recentConvs visible awaited asked
       set_data set_loadError set_latency set_recentConvs set_visible set_awaited emit] in *.

Section page.
Context (t : jstr -> jstr).

Definition ask (q : HRequest) (url : jstr) (p : HPage) : HPage := p |> set_awaited (awaited p ++ [q]) |> emit (Asked url).
Definition toast (body : jstr) (error : bool) (p : HPage) : HPage := emit (Toast body error) p.

(** ** The effects of the mount *)

(** The seed: its data, and what of it is fresh. *)
Record HomeSeed := mkHomeSeed {
  s_home : option HomeData; s_latency : option Latency; s_recent : option (list Conversation);
  fresh_home : bool; fresh_latency : bool; fresh_recent : bool
}.
Definition readValue (p : HPage) : HPage := ask LatencyRead (u "/api/latency") p.
Definition latency_effect (s : HomeSeed) (p : HPage) : HPage := if fresh_latency s then p else readValue p.
Definition first_load (s : HomeSeed) (p : HPage) : HPage :=
  if fresh_home s && fresh_recent s then p
  else p |> set_awaited (awaited p ++ [First]) |> emit (Asked (u "/api/conversations")) |> emit (Asked (u "/api/home")).
(** The value of [?discord=] ([None] when it is absent). *)
Definition discord_return (d : option jstr) (p : HPage) : HPage :=
  match d with
  | None | Some [] => p
  | Some d =>
      emit CleanUrl
        (if streq d (u "linked") then
           p |> toast (t (u "Compte Discord lié — tu recevras les annonces en message privé.")) false |> emit (OpenSettings (u "keys"))
         else if streq d (u "unlinked") then toast (t (u "Compte Discord délié.")) false p
         else if streq d (u "error") then
           p |> toast (t (u "Discord : échec de la liaison. Réessaie.")) true |> emit (OpenSettings (u "keys"))
         else if streq d (u "unavailable") then toast (t (u "La liaison Discord n'est pas configurée.")) true p
         else p)
  end.
Definition home_start (s : HomeSeed) (discord : option jstr) (shown : bool) : HPage :=
  mkHPage (s_home s) false (s_latency s) (default [] (s_recent s)) shown [] []
  |> latency_effect s |> first_load s |> discord_return discord.

(** ** The polls and the click *)

Definition load (p : HPage) : HPage := if visible p then ask Poll (u "/api/home") p else p.
Definition tick (p : HPage) : HPage := if visible p then ask Health (u "/api/modelhealth") p else p.
Definition pending (p : HPage) : bool := match data p with Some d => budget_request_pending d | None => false end.
Definition request_budget (p : HPage) : HPage :=
  let reason := t (u "Demande depuis la page d'accueil (quota bientôt épuisé)") in
  ask (BudgetRequest reason) (u "/keys") p.

(** ** The answers *)

Definition set_health (h : option ModelHealth) (d : HomeData) : HomeData :=
  mkHome (running_models d) (sysmetrics d) (sidecar_ocr d) (sidecar_video d) (sidecar_voice d) h (active_users d) (usage_by_model d)
    (my_requests d) (budget_used d) (budget_remaining d) (budget_request_pending d).
Definition set_pending (b : bool) (d : HomeData) : HomeData :=
  mkHome (running_models d) (sysmetrics d) (sidecar_ocr d) (sidecar_video d) (sidecar_voice d) (modelhealth d) (active_users d)
    (usage_by_model d) (my_requests d) (budget_used d) (budget_remaining d) b.
Definition home_answered (o : option HomeData) (p : HPage) : HPage :=
  match o with Some d => p |> set_data (Some d) |> set_loadError false | None => set_loadError true p end.
Definition latency_answered (o : option Latency) (p : HPage) : HPage :=
  match o with Some l => set_latency (Some l) p | None => p end.
Definition health_answered (o : option (option ModelHealth)) (p : HPage) : HPage :=
  match o with Some h => set_data (set_health h <$> data p) p | None => p end.
Definition budget_answered (f : Fetched) (p : HPage) : HPage :=
  let no_answer := toast (t (u "Le serveur n'a pas répondu — réessaie.")) true p in
  match authFetch f with
  | inl _ => no_answer
  | inr res =>
      match default (JObj []) (r_json res) with
      | JNull => no_answer   (* reading a property of null throws *)
      | r =>
          if negb (res_ok res) || match prop (u "ok") r with Some (JBool false) => true | _ => false end then
            toast (match text_of (u "code") r, text_of (u "error") r with
                   | Some c, _ => t c
                   | None, Some e => t e
                   | None, None => t (u "L'action a échoué.")
                   end) true p
          else p |> set_data (set_pending true <$> data p) |> toast (t (u "Demande envoyée à l'admin.")) false
      end
  end.
Definition answered (q : HRequest) (r : HReply) (p : HPage) : HPage :=
  match q with
  | First => p |> set_recentConvs (a_recent r) |> home_answered (a_home r)
  | Poll => home_answered (a_home r) p
  | Health => health_answered (a_health r) p
  | LatencyRead => latency_answered (a_latency r) p
  | BudgetRequest _ => budget_answered (a_budget r) p
  end.

(** ** The page as a transition system *)

(** The answer of a request, or the rejection of one ([a_…] is missing). *)
Inductive HEvent :=
| HVisibility (shown : bool) | HPollTick | HHealthTick | HLatencyTick | HRetry | HRequestBudget | HAnswered (i : nat) (r : HReply).
Definition error_card (p : HPage) : bool := match data p with None => loadError p | Some _ => false end.
Definition home_handle (e : HEvent) (p : HPage) : HPage :=
  match e with
  | HVisibility shown => p |> set_visible shown |> load
  | HPollTick => load p
  | HHealthTick => tick p
  | HLatencyTick => readValue p
  | HRetry => if error_card p then load p else p
  | HRequestBudget => match data p with Some _ => if pending p then p else request_budget p | None => p end
  | HAnswered i r =>
      match awaited p !! i with
      | Some q => p |> set_awaited (delete i (awaited p)) |> answered q r
      | None => p
      end
  end.
Definition home_run (es : list HEvent) (p : HPage) : HPage := foldl (fun p e => home_handle e p) p es.
End page.

(** * Properties *)

(** ** The cards of the capabilities *)

Section shown.
Context (t : jstr -> jstr).

(** Each capability has one card, on a page of its own; it is online exactly
    when a model of its kind runs, and names the first of them only then. *)
Theorem capability_cards d :
  NoDup (map cap_href (cap_cards t d)) /\ length (cap_cards t d) = 6 /\
  forall c, c ∈ CAPS ->
    let card := cap_card t d c in
    (cap_badge card = t (u "En ligne") /\ (exists m, m ∈ running_models d /\ rm_kind m = c.1 /\ cap_model card = Some (rm_name m)) \/
     cap_badge card = t (u "à la demande") /\ (forall m, m ∈ running_models d -> rm_kind m <> c.1) /\ cap_model card = None).
Proof.
  split; [|split; [reflexivity|]].
  - change (map cap_href (cap_cards t d)) with (map (fun c => (KIND_OPEN c.1).2) CAPS). apply (bool_decide_eq_true_1 _). vm_compute. reflexivity.
  - intros c _. cbv zeta. unfold cap_card. cbn [cap_badge cap_model]. destruct (existsb _ _) eqn:E.
    + left. split; [done|]. destruct (List.find _ _) as [m|] eqn:F.
      * apply List.find_some in F as [F1 F2]. unfold has_kind in F2. apply bool_decide_eq_true in F2. exists m. split; [by apply list_elem_of_In|done].
      * apply existsb_exists in E as (m & Hm & E). by rewrite (List.find_none _ _ F m Hm) in E.
    + right. split; [done|]. split; [|done]. intros m Hm HK. apply (proj1 (existsb_false_iff _ _)) in E. rewrite Forall_forall in E.
      apply E in Hm. unfold has_kind in Hm. by apply bool_decide_eq_false in Hm.
Qed.

(** A quota is not said to be both exceeded and nearly exhausted. *)
Lemma quota_badges_exclusive d : exceeded d = true -> nearly_exhausted d = false.
Proof.
  unfold exceeded, nearly_exhausted, positive. intros H. destruct (nlt (n_ 0) (budget_remaining d)) eqn:E; [|done]. exfalso. revert H E.
  unfold nle, nlt, SFleb, SFltb. change (n_ 0) with (S754_zero false). by destruct (budget_remaining d) as [s|[]| |[] m e].
Qed.
Lemma bar_max_nonzero d : falsy_num (bar_max d) = false.
Proof. unfold bar_max. by destruct (falsy_num (nadd (budget_used d) (budget_remaining d))) eqn:E. Qed.
End shown.

(** ** The dashboard *)

Section page.
Context (t : jstr -> jstr).
#[local] Abbreviation handle := (home_handle t) (only parsing).
#[local] Abbreviation run := (home_run t) (only parsing).

Lemma budget_keeps f p : is_Some (data (budget_answered t f p)) <-> is_Some (data p).
Proof.
  unfold budget_answered, toast. destruct (authFetch f) as [|r]; home_fields; [done|]. destruct (default (JObj []) (r_json r)); home_fields; [done|..];
    repeat case_match; home_fields; try done; by rewrite fmap_is_Some.
Qed.
Lemma dashboard_step e p : is_Some (data p) -> is_Some (data (handle e p)).
Proof.
  intros H. destruct e as [b| | | | | |i r]; cbn [home_handle]; unfold load, tick, readValue, request_budget, ask; repeat case_match; home_fields; try done; try congruence.
  destruct h; cbn [answered].
  - unfold home_answered. destruct (a_home r); home_fields; [by eexists|done].
  - unfold home_answered. destruct (a_home r); home_fields; [by eexists|done].
  - unfold health_answered. destruct (a_health r); home_fields; [by rewrite fmap_is_Some|done].
  - unfold latency_answered. by destruct (a_latency r).
  - by apply budget_keeps.
Qed.
(** Once the dashboard is shown it stays: no failed poll, no late answer and no
    hidden tab takes it away or puts the error card in its place. *)
Theorem dashboard_stays es p : is_Some (data p) -> is_Some (data (run es p)) /\ error_card (run es p) = false.
Proof.
  intros H. assert (G : is_Some (data (run es p))).
  { revert p H. induction es as [|e es IH]; intros p H; [done|]. apply IH. by apply dashboard_step. }
  split; [exact G|]. unfold error_card. by destruct (data (run es p)), G.
Qed.

(** What is asked while the tab is hidden. *)
Definition quiet (x : HEffect) : Prop := x <> Asked (u "/api/home") /\ x <> Asked (u "/api/modelhealth").
Definition stays_hidden (e : HEvent) : Prop := match e with HVisibility b => b = false | _ => True end.
Definition new_effects (p q : HPage) : list HEffect := drop (length (asked p)) (asked q).
(** The answers ask nothing. *)
Lemma answered_asked q r p : visible (answered t q r p) = visible p /\ exists l, asked (answered t q r p) = asked p ++ l /\ Forall quiet l.
Proof.
  assert (N : exists l, asked p = asked p ++ l /\ Forall quiet l) by (exists []; by rewrite app_nil_r).
  destruct q; cbn [answered]; unfold home_answered, health_answered, latency_answered; repeat case_match; home_fields; try done.
  unfold budget_answered, toast. repeat case_match; home_fields; split; try done; try (exists []; by rewrite app_nil_r);
    eexists; (split; [reflexivity|]); (apply Forall_singleton; split; intros X; discriminate X).
Qed.
Lemma hidden_step e p : stays_hidden e -> visible p = false ->
  visible (handle e p) = false /\ exists l, asked (handle e p) = asked p ++ l /\ Forall quiet l.
Proof.
  intros HE HV. assert (N : exists l, asked p = asked p ++ l /\ Forall quiet l) by (exists []; by rewrite app_nil_r).
  destruct e as [b| | | | | |i r]; cbn [home_handle stays_hidden] in *; subst; unfold load, tick, request_budget, readValue, ask; home_fields; rewrite ?HV; try done.
  - split; [done|]. eexists. split; [reflexivity|]. apply Forall_singleton. split; intros X; vm_compute in X; discriminate X.
  - by destruct (error_card p).
  - destruct (data p); [|done]. destruct (pending p); [done|]. home_fields. split; [done|]. eexists. split; [reflexivity|]. apply Forall_singleton.
    split; intros X; vm_compute in X; discriminate X.
  - destruct (awaited p !! i) as [q|]; [|done]. destruct (answered_asked q r (set_awaited (delete i (awaited p)) p)) as [A B]. home_fields. by rewrite A.
Qed.
(** A hidden tab costs nothing: as long as it stays hidden, whatever the ticks
    and the answers, neither the dashboard nor the engine is asked. *)
Theorem hidden_tab_quiet es p : Forall stays_hidden es -> visible p = false -> Forall quiet (new_effects p (run es p)).
Proof.
  intros HE HV. cut (exists l, asked (run es p) = asked p ++ l /\ Forall quiet l).
  { intros (l & E & H). unfold new_effects. rewrite E. by rewrite drop_app_length. }
  revert p HV. induction HE as [|e es He _ IH]; intros p HV; [exists []; by rewrite app_nil_r|].
  destruct (hidden_step e p He HV) as (V & l & E & H). destruct (IH _ V) as (l' & E' & H'). exists (l ++ l').
  cbn [home_run foldl]. unfold home_run in E'. rewrite E', E, app_assoc. split; [done|]. by apply Forall_app.
Qed.

(** The arrival on the page asks for the dashboard at most once, and for
    nothing at all when the server rendered the whole of it for this visit. *)
Definition home_asked (p : HPage) : nat := length (List.filter (fun x => match x with Asked s => streq s (u "/api/home") | _ => false end) (asked p)).
Lemma discord_asks d p : asked (discord_return t d p) = asked p ++ drop (length (asked p)) (asked (discord_return t d p)) /\
  home_asked (discord_return t d p) = home_asked p.
Proof.
  unfold home_asked, discord_return, toast. destruct d as [[|c s]|]; try (by rewrite drop_all, app_nil_r).
  repeat case_match; home_fields; rewrite <- ?app_assoc, drop_app_length, ?List.filter_app; cbn [List.filter app]; by rewrite ?app_nil_r.
Qed.
Theorem arrival_asks_once s d b : home_asked (home_start t s d b) = (if fresh_home s && fresh_recent s then 0 else 1) /\
  (fresh_home s = true -> fresh_latency s = true -> fresh_recent s = true -> d = None -> asked (home_start t s d b) = []).
Proof.
  unfold home_start. cbv beta. split.
  - rewrite (proj2 (discord_asks _ _)). unfold first_load, latency_effect, readValue, ask.
    destruct (fresh_home s && fresh_recent s), (fresh_latency s); vm_compute; reflexivity.
  - intros A B C ->. unfold first_load, latency_effect. by rewrite A, B, C.
Qed.
End page.

(** ** What the page does not do *)

#[local] Abbreviation fr := (fun x : jstr => x) (only parsing).
(** The parts of a duration are rounded after they are split: sixty seconds are
    shown, and sixty minutes. *)
Example sixty_seconds :
  fmtDuration (num_of_Z 119600) = u "1 min 60 s" /\ fmtDuration (num_of_Z 59960) = u "60.0 s" /\
  ageSince fr (Some (num_of_decimal 596 (-1))) = u "il y a 60 s" /\ ageSince fr (Some (num_of_Z 3599)) = u "il y a 60 min".
Proof. vm_compute. repeat split; reflexivity. Qed.
Example durations : fmtDuration (num_of_Z 850) = u "850 ms" /\ fmtDuration (num_of_Z 4200) = u "4.2 s" /\ fmtDuration (num_of_Z 192000) = u "3 min 12 s".
Proof. vm_compute. repeat split; reflexivity. Qed.
Example contexts : fmtCtx (fun _ => []) (Some (num_of_Z 196608)) = u "192k" /\ fmtCtx (fun _ => []) None = u "—".
Proof. vm_compute. split; reflexivity. Qed.

Definition some_home (health : option ModelHealth) (pending : bool) : HomeData :=
  mkHome [] None None None None health None [] [] (num_of_Z 0) (num_of_Z 1000) pending.
Definition some_health (name : jstr) : ModelHealth :=
  mkHealth name true None (num_of_Z 0) None None None None None None None None None.
Definition shown_page (h : option ModelHealth) : HPage := mkHPage (Some (some_home h false)) false None [] true [] [].
Definition reply (home : option HomeData) (health : option (option ModelHealth)) (budget : Fetched) : HReply := mkReply [] home health None budget.
(** A dashboard asked before the request for budget and answered after it makes
    the request possible again. *)
Lemma late_poll_reopens_request :
  let p := home_run fr [HPollTick; HRequestBudget; HAnswered 1 (reply None None (Got (mkResponse 200 None (Some (JObj [(u "ok", JBool true)])))))]
    (shown_page None) in
  pending p = true /\ pending (home_handle fr (HAnswered 0 (reply (Some (some_home None false)) None Rejected)) p) = false.
Proof. vm_compute. split; reflexivity. Qed.
(** A dashboard asked before a read of the engine and answered after it puts the
    older values back. *)
Lemma late_poll_older_engine :
  let old := some_health (u "old") in
  let new := some_health (u "new") in
  let p := home_run fr [HPollTick; HHealthTick; HAnswered 1 (reply None (Some (Some new)) Rejected)] (shown_page (Some old)) in
  (modelhealth <$> data p) = Some (Some new) /\
  (modelhealth <$> data (home_handle fr (HAnswered 0 (reply (Some (some_home (Some old) false)) None Rejected)) p)) = Some (Some old).
Proof. vm_compute. split; reflexivity. Qed.

Theorem dashboard_stays_witness :
  let q := home_run fr [HPollTick; HAnswered 0 (reply None None Rejected)] (shown_page None) in
  is_Some (data q) /\ error_card q = false.
Proof. apply (dashboard_stays fr). vm_compute. eexists. reflexivity. Defined.
Theorem hidden_tab_quiet_witness :
  let p := home_handle fr (HVisibility false) (shown_page None) in
  Forall quiet (new_effects p (home_run fr [HPollTick; HLatencyTick; HHealthTick] p)).
Proof. apply (hidden_tab_quiet fr); [repeat constructor|vm_compute; reflexivity]. Defined.
