(* ===== verification/Shared.v ===== *)
(** * Shared hooks and providers (lib/csrf.tsx, branding.tsx, branding-shape.ts, clipboard.ts, useStickToBottom.ts, use-system-dark.ts) *)

From S2P Require Import Prelude JsInt JsString.
Local Open Scope flow_scope.

(** ** The CSRF token (csrf.tsx) *)

(** [answers] are what [fetchCsrfToken] settles to ([None]: it throws), the
    provider being mounted ([alive]) or not when each comes; the token after
    the load, and the number of requests. *)
Fixpoint csrf_load (attempts : nat) (answers : list (option jstr * bool)) (csrf : jstr) : jstr * nat :=
  match attempts, answers with
  | S n, (Some token, alive) :: _ => (if alive : bool then token else csrf, 1)
  | S n, (None, _) :: r => let '(c, k) := csrf_load n r csrf in (c, S k)
  | _, _ => (csrf, 0)
  end.
Definition CsrfProvider_load (answers : list (option jstr * bool)) : jstr * nat := csrf_load 2 answers [].

(** The token is the first one obtained by two requests at most; it stays empty
    only if both fail. *)
Theorem csrf_two_attempts a b r : let '(csrf, requests) := CsrfProvider_load ((a, true) :: (b, true) :: r) in
  csrf = default (default [] b) a /\ requests = match a with Some _ => 1 | None => 2 end.
Proof. unfold CsrfProvider_load. cbn [csrf_load]. by destruct a, b. Qed.

(** ** The identity of the deployment (branding-shape.ts, branding.tsx) *)

Record Branding := mkBranding { b_name : jstr; b_logo : option jstr }.
Definition DEFAULT_BRANDING : Branding := mkBranding (u "DGX") None.
(** [d?.branding?.name] and [d?.branding?.logo]; both are dropped when empty. *)
Definition filled (o : option jstr) : option jstr := match o with Some (_ :: _) => o | _ => None end.
Definition brandingFromConfig (name logo : option jstr) : Branding :=
  mkBranding (default (b_name DEFAULT_BRANDING) (filled name)) (filled logo).

(** The module's state and the components that use it, by number: what each
    shows. [pending_components] are those the answer will update. *)
Record BrandingModule := mkModule {
  cache : option Branding; pending_components : list nat; requestInFlight : bool; shown : list Branding; requests : nat
}.
Definition branding_start : BrandingModule := mkModule None [] false [] 0.
Section branding.
Context (seeded : option Branding).
Definition load (m : BrandingModule) : BrandingModule :=
  if requestInFlight m then m else mkModule (cache m) (pending_components m) true (shown m) (S (requests m)).
(** [useBranding]: the first render of a component, its effect, the answer. *)
Inductive BrandingEvent := BRender | BEffect (c : nat) | BAnswer (config : option (option jstr * option jstr)).
Definition first_state (m : BrandingModule) : Branding :=
  match seeded, cache m with Some b, _ => b | None, Some b => b | None, None => DEFAULT_BRANDING end.
Definition branding_handle (e : BrandingEvent) (m : BrandingModule) : BrandingModule :=
  match e with
  | BRender => mkModule (cache m) (pending_components m) (requestInFlight m) (shown m ++ [first_state m]) (requests m)
  | BEffect c =>
      match seeded, cache m with
      | Some _, _ | _, Some _ => m
      | None, None => load (mkModule None (pending_components m ++ [c]) (requestInFlight m) (shown m) (requests m))
      end
  | BAnswer config =>
      if requestInFlight m then
        let b := match config with Some (n, l) => brandingFromConfig n l | None => DEFAULT_BRANDING end in
        mkModule (Some b) [] false (foldl (fun l c => <[c := b]> l) (shown m) (pending_components m)) (requests m)
      else m
  end.
Definition branding_run (es : list BrandingEvent) (m : BrandingModule) : BrandingModule := foldl (fun m e => branding_handle e m) m es.

(** One request at most for the whole session, and none once the identity is
    known. *)
Definition branding_ok (m : BrandingModule) : Prop :=
  requests m <= 1 /\ (requests m = 0 -> cache m = None /\ requestInFlight m = false) /\
  (requestInFlight m = true -> cache m = None) /\ (requests m = 1 -> cache m = None -> requestInFlight m = true).
Lemma branding_ok_step e m : branding_ok m -> branding_ok (branding_handle e m).
Proof.
  intros (H1 & H2 & H3 & H4). destruct e as [|c|o]; cbn [branding_handle]; [done| |].
  - destruct seeded; [done|]. destruct (cache m) eqn:E; [by unfold branding_ok; rewrite E|]. unfold load. cbn [requestInFlight].
    destruct (requestInFlight m) eqn:R; unfold branding_ok; cbn [requests cache requestInFlight].
    + by split; [|split; [intros X; destruct (H2 X)|]].
    + destruct (requests m) as [|[|n]]; [|by specialize (H4 eq_refl eq_refl)|lia]. by split; [lia|].
  - destruct (requestInFlight m) eqn:R; [|by unfold branding_ok; rewrite R]. unfold branding_ok. cbn [requests cache requestInFlight].
    split; [done|]. split; [intros X; destruct (H2 X); congruence|done].
Qed.
Theorem branding_one_request es : requests (branding_run es branding_start) <= 1.
Proof.
  cut (branding_ok (branding_run es branding_start)); [by intros []|]. unfold branding_run.
  assert (G : branding_ok branding_start) by (split; cbn; [lia|]; repeat split; done). revert G. generalize branding_start.
  induction es as [|e es IH]; intros m G; cbn [foldl]; [done|]. apply IH. by apply branding_ok_step.
Qed.
End branding.

(** A component whose effect comes after the answer, its first render before,
    keeps the default name. *)
Lemma branding_late_effect :
  shown (branding_run None [BRender; BEffect 0; BRender; BAnswer (Some (Some (u "Lab"), None)); BEffect 1] branding_start)
  = [mkBranding (u "Lab") None; DEFAULT_BRANDING].
Proof. vm_compute. reflexivity. Qed.

(** ** Copying a text (clipboard.ts) *)

(** The clipboard of the browser: absent, or its write that succeeds or not;
    [exec] is the old command ([None]: it throws).  The result, whether
    [onFailure] was called, and whether the text area is left in the page. *)
Definition copyText (clipboard : option bool) (exec : option bool) : bool * bool * bool :=
  match clipboard with
  | Some true => (true, false, false)
  | _ =>
      match exec with
      | Some true => (true, false, false)
      | Some false => (false, true, false)
      | None => (false, true, true)
      end
  end.
(** A copy that fails is said. *)
Lemma copy_said clipboard exec : (copyText clipboard exec).1.2 = negb (copyText clipboard exec).1.1.
Proof. by destruct clipboard as [[]|], exec as [[]|]. Qed.

(** ** Following the end of a scroll container (useStickToBottom.ts) *)

(** The container, when it is attached, with the browser's clamp of its scroll
    position; what the hook remembers. *)
Record Node := mkNode { scrollHeight : Z; scrollTop : Z; clientHeight : Z }.
Definition scroll_to (y : Z) (n : Node) : Node :=
  mkNode (scrollHeight n) (Z.max 0 (Z.min y (scrollHeight n - clientHeight n))) (clientHeight n).
Record Stick := mkStick { el : option Node; stuck : bool; showButton : bool }.
Definition THRESHOLD : Z := 48.
Definition dist (n : Node) : Z := (scrollHeight n - scrollTop n - clientHeight n)%Z.

Definition measure (s : Stick) : Stick :=
  match el s with
  | None => s
  | Some n => mkStick (Some n) (dist n <=? THRESHOLD)%Z (THRESHOLD <? dist n)%Z
  end.
Definition scrollToBottom (s : Stick) : Stick :=
  match el s with
  | None => s
  | Some n => mkStick (Some (scroll_to (scrollHeight n) n)) true false
  end.
(** The effect of new content, before the frame that measures again. *)
Definition follow (active : bool) (s : Stick) : Stick :=
  match el s with
  | Some n => if active && stuck s then mkStick (Some (scroll_to (scrollHeight n) n)) (stuck s) (showButton s) else s
  | None => s
  end.
Inductive StickEvent :=
| TAttach (n : option Node) | TScroll (y : Z) | TGrow (h : Z) (active : bool) | TFrame | TJump.
Definition stick_handle (e : StickEvent) (s : Stick) : Stick :=
  match e with
  | TAttach n => mkStick n (stuck s) (showButton s)
  | TScroll y => measure (mkStick (scroll_to y <$> el s) (stuck s) (showButton s))
  | TGrow h active => follow active (mkStick ((fun n => mkNode (scrollHeight n + h) (scrollTop n) (clientHeight n)) <$> el s) (stuck s) (showButton s))
  | TFrame => measure s
  | TJump => scrollToBottom s
  end.
Definition stick_run (es : list StickEvent) (s : Stick) : Stick := foldl (fun s e => stick_handle e s) s es.
Definition stick_start : Stick := mkStick None true false.

Lemma stick_step e s : showButton s = negb (stuck s) -> showButton (stick_handle e s) = negb (stuck (stick_handle e s)).
Proof.
  intros H. destruct e; cbn [stick_handle]; unfold measure, follow, scrollToBottom; cbn [el stuck showButton]; repeat case_match; cbn [stuck showButton]; try done;
    by rewrite Z.leb_antisym, negb_involutive.
Qed.
(** The button shows exactly when the view has left the end. *)
Theorem button_when_away es : showButton (stick_run es stick_start) = negb (stuck (stick_run es stick_start)).
Proof.
  assert (G : showButton stick_start = negb (stuck stick_start)) by done. revert G. unfold stick_run. generalize stick_start.
  induction es as [|e es IH]; intros s G; cbn [foldl]; [done|]. apply IH. by apply stick_step.
Qed.
(** While the answer streams, a reader at the end stays at the end: any number
    of growths, each followed by its frame, leaves the end in view. *)
Definition at_end (s : Stick) : Prop := stuck s = true /\ exists n, el s = Some n /\ (0 <= clientHeight n)%Z /\ (dist n <= THRESHOLD)%Z.
Theorem reader_follows hs s : at_end s -> Forall (fun h => 0 <= h)%Z hs -> at_end (stick_run (concat (map (fun h => [TGrow h true; TFrame]) hs)) s).
Proof.
  intros H HS. revert s H. induction HS as [|h hs Hh _ IH]; intros s H; cbn [map concat stick_run foldl app]; [done|].
  fold (stick_run (concat (map (fun h => [TGrow h true; TFrame]) hs))). apply IH. clear IH. destruct H as (Hs & n & Hn & Hc & Hd).
  cbn [stick_handle]. unfold follow. cbn [el]. rewrite Hn. cbn [fmap option_fmap option_map stuck]. rewrite Hs. cbn [andb]. unfold measure. cbn [el].
  set (m := scroll_to _ _). assert (D : (dist m <= THRESHOLD)%Z) by (unfold m, dist, scroll_to, THRESHOLD in *; cbn [scrollHeight scrollTop clientHeight] in *; lia).
  unfold at_end. cbn [stuck el]. split; [by apply Z.leb_le|]. exists m. split; [done|]. split; [exact Hc|exact D].
Qed.
Theorem reader_follows_witness :
  at_end (stick_run (concat (map (fun h => [TGrow h true; TFrame]) [300; 20]%Z)) (mkStick (Some (mkNode 1000 600 400)) true false)).
Proof.
  apply reader_follows.
  - split; [reflexivity|]. eexists. split; [reflexivity|]. split; vm_compute; discriminate.
  - apply Forall_cons_2; [vm_compute; discriminate|]. apply Forall_cons_2; [vm_compute; discriminate|constructor].
Defined.

(** ** The colour mode (use-system-dark.ts) *)

Inductive Mode := Light | Dark | System.
Definition useResolvedMode (mode : Mode) (systemDark : bool) : Mode :=
  match mode with System => if systemDark then Dark else Light | m => m end.
