(* ===== verification/DecisionsPage.v ===== *)
(** * The decisions page (app/(app)/decisions/DecisionsPage.tsx, lib/decision-examples.ts)

    The two editors, the images attached, the request and what is shown of its
    answer; the request itself is built by Decisions.v.  A run awaits its
    answer, then the state of the service, and only then is no longer busy; the
    files picked are read in the background ([reading]: the names of each
    choice). The text of a number inside a JSON value is an argument. *)

From S2P Require Import Prelude JsInt JsJson JsNumber I18n Decisions.
Local Open Scope flow_scope.

(** ** The examples *)

(** A literal whose double quotes are written as backquotes. *)
Definition ub (s : String.string) : jstr := map (fun c => if (c =? 96)%N then 34%N else c) (u s).
Arguments ub s%_string_scope.

Inductive ExampleKind := TextKind | ImageKind.
Record DecisionExample := mkExample {
  ex_id : jstr; ex_title : jstr; ex_description : jstr; ex_kind : ExampleKind; ex_state : jstr; ex_questions : jstr
}.
Definition RECLAMATION : DecisionExample :=
  mkExample (u "reclamation") (u "Réclamation client")
    (u "Facturé deux fois : remboursement, équipe, urgence.") TextKind
    (ub "{
  `commande`: { `id`: 4411, `montant`: 89.9, `debite_deux_fois`: true },
  `message`: `Ma commande 4411 a été débitée deux fois, personne ne répond depuis une semaine et je veux un remboursement immédiat.`
}")
    (ub "{
  `remboursement`: {
    `type`: `noul`,
    `instructions`: `Le client demande-t-il un remboursement ?`
  },
  `equipe`: {
    `type`: `choice`,
    `instructions`: `Quelle équipe doit traiter ce message ?`,
    `criteria`: { `facturation`: null, `livraison`: null, `technique`: null }
  },
  `urgence`: {
    `type`: `score`,
    `instructions`: `À quel point ce message est-il urgent ?`,
    `criteria`: [`peut attendre`, `cette semaine`, `dans la journée`, `tout de suite`]
  }
}").
Definition TICKET : DecisionExample :=
  mkExample (u "ticket") (u "Ticket de support")
    (u "Trier un incident : gravité, catégorie, blocage.") TextKind
    (ub "{
  `ticket`: { `id`: `SUP-2044`, `ouvert_depuis_h`: 30, `client`: `abonnement pro` },
  `message`: `Depuis la mise à jour d'hier, notre export automatique échoue toutes les nuits sur le fichier de 400 Mo. L'équipe compta ne peut plus clôturer le mois. Personne n'a répondu au dernier ticket.`
}")
    (ub "{
  `gravite`: {
    `type`: `score`,
    `instructions`: `Quelle est la gravité de l'incident ?`,
    `criteria`: [`confort`, `gênant`, `bloquant`, `arrêt total`]
  },
  `categorie`: {
    `type`: `choice`,
    `instructions`: `Dans quel domaine classer l'incident ?`,
    `criteria`: { `export`: null, `authentification`: null, `facturation`: null, `interface`: null }
  },
  `blocage`: {
    `type`: `noul`,
    `instructions`: `Le client est-il empêché de travailler ?`
  }
}").
Definition PHOTO : DecisionExample :=
  mkExample (u "photo-produit") (u "Photo de produit")
    (u "Contrôle qualité sur une photo — image, non lue par ce modèle.") ImageKind
    (ub "{
  `image`: {
    `url`: `https://exemple.invalid/photos/casque-4411.jpg`,
    `alt`: `casque audio noir posé sur une table, coque fissurée sur le côté droit`,
    `poids_ko`: 240
  },
  `note`: `Photo envoyée par le client après réception.`
}")
    (ub "{
  `conforme`: {
    `type`: `noul`,
    `instructions`: `Le produit semble-t-il conforme à la commande ?`
  },
  `defaut`: {
    `type`: `choice`,
    `instructions`: `Quel défaut est visible ?`,
    `criteria`: { `aucun`: null, `fissure`: null, `rayure`: null, `manquant`: null }
  },
  `gravite`: {
    `type`: `score`,
    `instructions`: `Quelle est la gravité du défaut ?`,
    `criteria`: [`esthétique`, `gênant`, `inutilisable`]
  }
}").
Definition EXAMPLES : list DecisionExample := [RECLAMATION; TICKET; PHOTO].
Definition DEFAULT_EXAMPLE : DecisionExample := RECLAMATION.

(** ** The state of the page *)

Record DecisionsStatus := mkStatus { st_model : jstr; st_enabled : bool; st_status : jstr }.
(** An answer with its confidence, by question. *)
Record RunResult := mkResult { r_model : jstr; r_answers : list (jstr * (DecisionAnswer * option num)); r_input_tokens : option jstr }.
Inductive DRequest := Run (body : Body) | Status.
Record DReply := mkReply { d_ok : bool; d_error : jstr; d_result : RunResult; d_status : DecisionsStatus }.

Record DPage := mkDPage {
  status : option DecisionsStatus; stateText : jstr; questionsText : jstr; result : option RunResult;
  error : option jstr; busy : bool; examplesOpen : bool; assets : list (jstr * jstr);
  reading : list (list jstr); awaited : list DRequest; asked : list DRequest
}.

Definition set_status v p := mkDPage v (stateText p) (questionsText p) (result p) (error p) (busy p) (examplesOpen p) (assets p) (reading p) (awaited p) (asked p).
Definition set_stateText v p := mkDPage (status p) v (questionsText p) (result p) (error p) (busy p) (examplesOpen p) (assets p) (reading p) (awaited p) (asked p).
Definition set_questionsText v p := mkDPage (status p) (stateText p) v (result p) (error p) (busy p) (examplesOpen p) (assets p) (reading p) (awaited p) (asked p).
Definition set_result v p := mkDPage (status p) (stateText p) (questionsText p) v (error p) (busy p) (examplesOpen p) (assets p) (reading p) (awaited p) (asked p).
Definition set_error v p := mkDPage (status p) (stateText p) (questionsText p) (result p) v (busy p) (examplesOpen p) (assets p) (reading p) (awaited p) (asked p).
Definition set_busy v p := mkDPage (status p) (stateText p) (questionsText p) (result p) (error p) v (examplesOpen p) (assets p) (reading p) (awaited p) (asked p).
Definition set_examplesOpen v p := mkDPage (status p) (stateText p) (questionsText p) (result p) (error p) (busy p) v (assets p) (reading p) (awaited p) (asked p).
Definition set_assets v p := mkDPage (status p) (stateText p) (questionsText p) (result p) (error p) (busy p) (examplesOpen p) v (reading p) (awaited p) (asked p).
Definition set_reading v p := mkDPage (status p) (stateText p) (questionsText p) (result p) (error p) (busy p) (examplesOpen p) (assets p) v (awaited p) (asked p).
Definition set_awaited v p := mkDPage (status p) (stateText p) (questionsText p) (result p) (error p) (busy p) (examplesOpen p) (assets p) (reading p) v (asked p).
Definition send (q : DRequest) p := mkDPage (status p) (stateText p) (questionsText p) (result p) (error p) (busy p) (examplesOpen p) (assets p) (reading p) (awaited p ++ [q]) (asked p ++ [q]).

(** Reading a field through the updates. *)
Ltac decision_fields :=
  cbn [status stateText questionsText result error busy examplesOpen assets reading awaited asked
       set_status set_stateText set_questionsText set_result set_error set_busy set_examplesOpen set_assets set_reading set_awaited send] in *.

Section decisions.
Context (t : jstr -> jstr) (num_text : Z -> Z -> jstr).

(** The page with its seed: the state of the service, when the server read it. *)
Definition decisions_start (seed : option DecisionsStatus) : DPage := mkDPage seed [] [] None None false false [] [] [] [].

(** ** The handlers *)

Definition run (p : DPage) : DPage :=
  let p := set_error None p in
  match validatePayload num_text (stateText p) (questionsText p) (map snd (assets p)) with
  | inl e => p |> set_error (Some (tServer e t)) |> set_examplesOpen false
  | inr body => p |> set_busy true |> set_examplesOpen false |> set_result None |> send (Run body)
  end.
(** The answer of the run, then the state of the service is asked. *)
Definition run_answered (r : option DReply) (p : DPage) : DPage :=
  send Status
    (match r with
     | None => set_error (Some (t (u "La décision a échoué."))) p
     | Some a =>
         if d_ok a then set_result (Some (d_result a)) p
         else set_error (Some (match d_error a with [] => t (u "La décision a échoué.") | e => tServer e t end)) p
     end).
Definition status_answered (r : option DReply) (p : DPage) : DPage :=
  p |> set_status (d_status <$> r) |> set_busy false.
Definition answered (q : DRequest) (r : option DReply) (p : DPage) : DPage :=
  match q with Run _ => run_answered r p | Status => status_answered r p end.

Inductive Editor := StateEditor | QuestionsEditor.
Definition format (which : Editor) (p : DPage) : DPage :=
  match prettyJson num_text (match which with StateEditor => stateText p | QuestionsEditor => questionsText p end) with
  | None => set_error (Some (t (u "Ce JSON ne se lit pas : rien à formater."))) p
  | Some pretty => match which with StateEditor => set_stateText pretty p | QuestionsEditor => set_questionsText pretty p end
  end.
(** The files picked start to be read; [urls] is what the reader gives of each. *)
Definition onPickFiles (names : list jstr) (p : DPage) : DPage := set_reading (reading p ++ [names]) p.
Definition files_read (i : nat) (urls : list (option jstr)) (p : DPage) : DPage :=
  match reading p !! i with
  | Some names => p |> set_reading (delete i (reading p))
                    |> set_assets (omap (fun x => (fun url => (x.1, url)) <$> x.2) (zip names urls))
  | None => p
  end.
Definition remove_asset (name : jstr) (p : DPage) : DPage :=
  set_assets (List.filter (fun a => negb (streq a.1 name)) (assets p)) p.
Definition pickExample (e : DecisionExample) (p : DPage) : DPage :=
  p |> set_stateText (ex_state e) |> set_questionsText (ex_questions e) |> set_examplesOpen false |> set_result None |> set_error None.

(** ** What is shown *)

Definition instruction_of (q : json) : jstr := match prop (u "instructions") q with Some (JStr s) => s | _ => [] end.
(** [Object.entries] of what the editor holds; nothing when it does not parse. *)
Definition instructions (p : DPage) : list (jstr * jstr) :=
  match json_parse (questionsText p) with
  | Some (JObj kv) => map (fun q => (q.1, instruction_of q.2)) (entries kv)
  | Some (JArr l) => imap (fun i q => (string_of_nat i, instruction_of q)) l
  | Some (JStr s) => imap (fun i _ => (string_of_nat i, [])) s
  | _ => []
  end.
Definition answers (p : DPage) : list (jstr * (DecisionAnswer * option num)) :=
  match result p with Some r => entries (r_answers r) | None => [] end.
Definition serviceUp (p : DPage) : bool := match status p with Some s => streq (st_status s) (u "running") | None => false end.
Definition questionsEmpty (p : DPage) : bool := streq (trim (questionsText p)) [].
Definition can_run (p : DPage) : bool := negb (streq (trim (stateText p)) []).
Definition images_text (p : DPage) : option jstr :=
  match assets p with
  | [] => None
  | l => Some (replace_str (t (u "{n} image(s) lue(s) par le modèle")) (u "{n}") (string_of_nat (length l)))
  end.

(** One answer: the question, its instruction, its type and scale, the number of
    options, the headline, the bar of a yes or no, the options, the confidence. *)
Record Row := mkRow {
  row_id : jstr; row_instruction : option jstr; row_type : jstr; row_scale : option jstr; row_count : option jstr;
  row_noul : option (jstr * num * bool); row_score : option jstr; row_options : list (jstr * jstr); row_confidence : option jstr
}.
Definition answer_row (p : DPage) (x : jstr * (DecisionAnswer * option num)) : Row :=
  let '(id, (a, confidence)) := x in
  let options := answerOptions num_text a in
  mkRow id
    (match assoc_get id (instructions p) with Some ((_ :: _) as s) => Some s | _ => None end)
    (answerTypeLabel a) (answerScale num_text a)
    (match a_type a, options with
     | Some ty, _ :: _ => if streq ty (u "choice") then Some (replace_str (t (u "{n} options")) (u "{n}") (string_of_nat (length options))) else None
     | _, _ => None
     end)
    ((fun n => (answerHeadline num_text a, nmul n (num_of_Z 100), nle (num_of_decimal 5 (-1)) n)) <$> a_noul a)
    (match a_score a with Some _ => Some (answerHeadline num_text a) | None => None end)
    (map (fun o => (o.1, formatProbability (Some o.2))) options)
    ((fun c => replace_str (t (u "Confiance : {p}")) (u "{p}") (formatProbability (Some c))) <$> confidence).

(** The right column: the examples, or the answers with the tokens read, the
    banner of a stopped service, the error, whether the first steps are shown. *)
Inductive Right := Examples | Answers (tokens : option jstr) (stopped : bool) (failure : option jstr) (first_steps : bool) (rows : list Row).
Definition right_column (p : DPage) : Right :=
  if examplesOpen p then Examples
  else Answers
    ((fun n => replace_str (t (u "{n} tokens d'entrée")) (u "{n}") n) <$> (result p ≫= r_input_tokens))
    (negb (serviceUp p)) (error p)
    (match answers p, error p with [], None => true | _, _ => false end)
    (map (answer_row p) (answers p)).

(** ** The page as a transition system *)

Inductive DEvent :=
| DState (s : jstr) | DQuestions (s : jstr) | DRun | DKey | DFormat (which : Editor) | DPick (names : list jstr)
| DRead (i : nat) (urls : list (option jstr)) | DRemove (name : jstr) | DExample (e : DecisionExample) | DOpenExamples | DCloseExamples
| DAnswered (i : nat) (r : option DReply).
Definition decisions_handle (e : DEvent) (p : DPage) : DPage :=
  match e with
  | DState s => set_stateText s p
  | DQuestions s => set_questionsText s p
  | DRun => if can_run p then run p else p
  | DKey => run p
  | DFormat which => format which p
  | DPick names => onPickFiles names p
  | DRead i urls => files_read i urls p
  | DRemove name => remove_asset name p
  | DExample e => pickExample e p
  | DOpenExamples => p |> set_examplesOpen true |> set_error None
  | DCloseExamples => set_examplesOpen false p
  | DAnswered i r =>
      match awaited p !! i with
      | Some q => p |> set_awaited (delete i (awaited p)) |> answered q r
      | None => p
      end
  end.
Definition decisions_run (es : list DEvent) (p : DPage) : DPage := foldl (fun p e => decisions_handle e p) p es.

(** ** Properties *)

(** From the button to the end: a request that passes the checks is sent, the
    answers of the server are shown and then the state of its engine, and the
    page is ready again. *)
Theorem run_shows_answers p body a s : awaited p = [] -> can_run p = true ->
  validatePayload num_text (stateText p) (questionsText p) (map snd (assets p)) = inr body ->
  let q := decisions_run [DRun; DAnswered 0 (Some a); DAnswered 0 s] p in
  asked q = asked p ++ [Run body; Status] /\ awaited q = [] /\ busy q = false /\ status q = d_status <$> s /\
  (if d_ok a then answers q = entries (r_answers (d_result a)) /\ error q = None
   else answers q = [] /\ error q = Some (match d_error a with [] => t (u "La décision a échoué.") | e => tServer e t end)).
Proof.
  intros HA HC HV. cbv zeta. unfold decisions_run. cbn [foldl decisions_handle]. rewrite HC. unfold run. decision_fields. rewrite HV.
  decision_fields. rewrite HA. cbn [app lookup list_lookup delete list_delete answered]. unfold run_answered, status_answered, answers.
  destruct (d_ok a); decision_fields; cbn [app lookup list_lookup delete list_delete answered]; unfold status_answered; decision_fields;
    rewrite <- app_assoc; repeat split; try done.
Qed.

(** Whatever is typed, picked and answered, the requests that leave are those
    that [validatePayload] built from two texts and images. *)
Definition built (q : DRequest) : Prop :=
  match q with Run b => exists st qs files, validatePayload num_text st qs files = inr b | Status => True end.
Lemma built_send q p : built q -> Forall built (asked p) -> Forall built (asked (send q p)).
Proof. intros. cbn [send asked]. apply Forall_app. by repeat constructor. Qed.
Lemma built_run p : Forall built (asked p) -> Forall built (asked (run p)).
Proof.
  intros H. unfold run. decision_fields. destruct (validatePayload _ _ _ _) as [e|b] eqn:E; [exact H|].
  apply built_send; [by do 3 eexists|exact H].
Qed.
Lemma built_step e p : Forall built (asked p) -> Forall built (asked (decisions_handle e p)).
Proof.
  intros H. destruct e as [| | | |which| |i urls| | | | |i r]; cbn [decisions_handle]; try done.
  - destruct (can_run p); [by apply built_run|done].
  - by apply built_run.
  - unfold format. by destruct (prettyJson _ _), which.
  - unfold files_read. by destruct (reading p !! i).
  - destruct (awaited p !! i) as [[b|]|]; [|done|done]. cbn [answered]. unfold run_answered. apply built_send; [done|].
    destruct r as [a|]; [|done]. by destruct (d_ok a).
Qed.
Theorem only_built_requests_leave es seed : Forall built (asked (decisions_run es (decisions_start seed))).
Proof.
  assert (G : Forall built (asked (decisions_start seed))) by constructor. revert G. unfold decisions_run. generalize (decisions_start seed).
  induction es as [|e es IH]; intros p G; cbn [foldl]; [done|]. apply IH. by apply built_step.
Qed.
End decisions.

#[local] Abbreviation fr := (fun x : jstr => x) (only parsing).
(** Every example is a request that passes the checks, with its questions. The
    numbers of the examples as the engine writes them. *)
Definition example_number (m e : Z) : jstr := if (e =? 0)%Z then string_of_Z m else u "89.9".
Example examples_valid :
  map (fun e => match validatePayload example_number (ex_state e) (ex_questions e) [] with inr b => Some (map fst (b_questions b)) | inl _ => None end) EXAMPLES
  = [Some [u "remboursement"; u "equipe"; u "urgence"]; Some [u "gravite"; u "categorie"; u "blocage"]; Some [u "conforme"; u "defaut"; u "gravite"]].
Proof. vm_compute. reflexivity. Qed.

(** ** What the page does not do *)

Definition yes_no (id : jstr) (text : jstr) : jstr := ub "{`" ++ id ++ ub "`:{`type`:`noul`,`instructions`:`" ++ text ++ ub "`}}".
Definition said (id : jstr) : DReply :=
  mkReply true [] (mkResult (u "m") [(id, (mkAnswer (Some (u "noul")) None None None None None, None))] None) (mkStatus (u "m") true (u "running")).
Definition asked_page (id : jstr) (p : DPage) : DPage :=
  decisions_run fr example_number [DState (u "state"); DQuestions (yes_no id (u "?")); DKey] p.
(** The keys launch a request while another one is awaited: the answers to the
    older one, arrived last, replace those of the newer, and the page is ready
    while one is still awaited. *)
Lemma older_run_shown :
  let p := asked_page (u "b") (asked_page (u "a") (decisions_start None)) in
  let q := decisions_run fr example_number [DAnswered 1 (Some (said (u "b"))); DAnswered 0 (Some (said (u "a")))] p in
  map fst (answers q) = [u "a"] /\ questionsText q = yes_no (u "b") (u "?") /\
  busy (decisions_run fr example_number [DAnswered 1 (Some (said (u "b"))); DAnswered 1 (Some (said (u "b")))] p) = false.
Proof. vm_compute. repeat split; reflexivity. Qed.
(** The instruction shown with an answer is the one of the editor now, not the
    one that was asked. *)
Lemma edited_instruction_shown :
  let p := decisions_run fr example_number [DAnswered 0 (Some (said (u "a"))); DQuestions (yes_no (u "a") (u "other"))]
             (asked_page (u "a") (decisions_start None)) in
  map (fun x => row_instruction (answer_row fr example_number p x)) (answers p) = [Some (u "other")].
Proof. vm_compute. reflexivity. Qed.
(** The images of a choice whose reading ends last replace those of a later one. *)
Lemma older_pick_kept :
  assets (decisions_run fr example_number [DPick [u "a.png"]; DPick [u "b.png"]; DRead 1 [Some (u "B")]; DRead 0 [Some (u "A")]] (decisions_start None))
  = [(u "a.png", u "A")].
Proof. vm_compute. reflexivity. Qed.
(** Removing an image removes every image of its name. *)
Lemma homonyms_removed :
  assets (decisions_run fr example_number [DPick [u "a.png"; u "a.png"]; DRead 0 [Some (u "A"); Some (u "B")]; DRemove (u "a.png")] (decisions_start None)) = [].
Proof. vm_compute. reflexivity. Qed.
(** A page whose seed has no state says that the service is stopped, and asks
    for nothing. *)
Lemma unknown_service_stopped : right_column fr example_number (decisions_start None) = Answers None true None true [] /\ asked (decisions_start None) = [].
Proof. vm_compute. split; reflexivity. Qed.

Theorem run_shows_answers_witness :
  let p := decisions_run fr example_number [DExample RECLAMATION] (decisions_start None) in
  let q := decisions_run fr example_number [DRun; DAnswered 0 (Some (said (u "a"))); DAnswered 0 None] p in
  length (asked q) = 2 /\ map fst (answers q) = [u "a"].
Proof.
  cbv zeta. destruct (validatePayload example_number (ex_state RECLAMATION) (ex_questions RECLAMATION) []) as [e|b] eqn:E;
    [exfalso; vm_compute in E; discriminate E|].
  destruct (run_shows_answers fr example_number (decisions_run fr example_number [DExample RECLAMATION] (decisions_start None)) b (said (u "a")) None)
    as (H1 & _ & _ & _ & H2); [vm_compute; reflexivity|vm_compute; reflexivity|exact E|].
  rewrite H1. cbn [d_ok said] in H2. destruct H2 as [H2 _]. rewrite H2. split; vm_compute; reflexivity.
Defined.
