(* ===== verification/Users.v ===== *)
(** * The administration of the users (app/(app)/admin/_components/UsersSection.tsx and users/)

    The table of the accounts, the groups, and the dialogs that create, block,
    delete and purge them.  The requests awaited are in the state with what
    follows their answer, [Fetched] being what the network gives; [users_of]
    and [detail] of an answer are read from its JSON by the caller's cast. *)

From S2P Require Import Prelude JsInt JsJson JsNumber JsRegExp Api.
Local Open Scope flow_scope.

(** ** The data (users/shared.ts) *)

Inductive DirectoryStatus := Active | Disabled | Absent.
Inductive Variant := Good | Bad | Warn.
Definition DIRECTORY_STATUS_META (s : DirectoryStatus) : jstr * Variant :=
  match s with
  | Active => (u "Actif", Good)
  | Disabled => (u "Désactivé dans l'annuaire", Bad)
  | Absent => (u "Absent de l'annuaire", Warn)
  end.
Record LocalUser := mkUser {
  username : jstr; fullname : option jstr; sources : list jstr; managed : bool; user_id : option Z; group_name : option jstr;
  user_enabled : bool; is_admin : bool; effective_admin : bool; role_source : option jstr; effective_budget : option num; unlimited : bool;
  blocked : bool; block_reason : option jstr; locked_minutes : Z; directory_status : option DirectoryStatus; directory_groups : list jstr
}.
Record Group := mkGroup { g_name : jstr; g_max_budget : option num; g_is_admin : bool; g_sources : list jstr; g_members : Z }.
Record UsersData := mkUsers { users : list LocalUser; groups : list Group; budget_duration : option jstr }.
Record NewUserForm := mkNewUser {
  nu_username : jstr; nu_password : jstr; nu_fullname : jstr; nu_group : jstr; nu_max_budget : jstr; nu_is_admin : jstr
}.
Record NewGroupForm := mkNewGroup { ng_name : jstr; ng_max_budget : jstr; ng_is_admin : jstr }.
Definition no_user : NewUserForm := mkNewUser [] [] [] [] [] (u "0").
Definition no_group : NewGroupForm := mkNewGroup [] [] (u "0").
(** The label of a source, itself when it is not known. *)
Definition source_label (s : jstr) : jstr :=
  if streq s (u "local") then u "Local" else if streq s (u "ldap") then u "LDAP"
  else if streq s (u "sso") then u "SSO" else if streq s (u "external") then u "Externe" else s.

Definition re_days : RegExp := rx "^(\d+)\s*d$" "".
Definition digits_num (s : jstr) : num := num_of_decimal (fold_left (fun z c => (10 * z + (Z.of_N c - 48))%Z) s 0%Z) 0.
Definition is_finite (x : num) : bool := match x with S754_zero _ | S754_finite _ _ _ => true | _ => false end.
Definition num_eq (a b : num) : bool := nle a b && nle b a.
(** The period of the quotas: a text and its value. *)
Definition quotaPeriod (duration : option jstr) : jstr * option num :=
  match exec re_days (trim (default (u "7d") duration)) with
  | Some m =>
      let days := digits_num (cap0 m 1) in
      if num_eq days (num_of_Z 1) then (u "/ jour", None)
      else if num_eq days (num_of_Z 7) then (u "/ semaine", None)
      else if is_finite days then (u "/ {n} jours", Some days)
      else (u "/ période", None)
  | None => (u "/ période", None)
  end.

(** ** What is computed of the accounts *)

Definition PAGE_SIZE : nat := 10.
Record Stats := mkStats { s_total : nat; s_local : nat; s_ldap : nat; s_sso : nat; s_admins : nat }.
Definition has_source (s : jstr) (x : LocalUser) : bool := existsb (streq s) (sources x).
(** One pass, as the source: a counter each. *)
Definition count_user (c : Stats) (x : LocalUser) : Stats :=
  mkStats (s_total c)
    (if managed x then S (s_local c) else s_local c)
    (if has_source (u "ldap") x then S (s_ldap c) else s_ldap c)
    (if has_source (u "sso") x then S (s_sso c) else s_sso c)
    (if effective_admin x then S (s_admins c) else s_admins c).
Definition stats (us : list LocalUser) : Stats := fold_left count_user us (mkStats (length us) 0 0 0 0).

Definition shown_sources (x : LocalUser) : list jstr := match sources x with [] => [u "external"] | l => l end.
Definition matches (query sourceFilter : jstr) (x : LocalUser) : bool :=
  let q := to_lower (trim query) in
  (streq q [] || includes (to_lower (username x)) q
   || match fullname x with Some f => includes (to_lower f) q | None => false end)
  && (streq sourceFilter (u "all") || existsb (streq sourceFilter) (shown_sources x)).
Definition filtered (query sourceFilter : jstr) (us : list LocalUser) : list LocalUser := List.filter (matches query sourceFilter) us.
(** [Math.max(1, Math.ceil(n / PAGE_SIZE))] *)
Definition totalPages (n : nat) : nat := Nat.max 1 ((n + (PAGE_SIZE - 1)) / PAGE_SIZE).
Definition safePage (page n : nat) : nat := Nat.min page (totalPages n).
(** [slice((safePage - 1) * PAGE_SIZE, safePage * PAGE_SIZE)] of a page that is
    at least 1. *)
Definition pageUsers {A} (page : nat) (l : list A) : list A :=
  let p := safePage page (length l) in take (p * PAGE_SIZE - (p - 1) * PAGE_SIZE) (drop ((p - 1) * PAGE_SIZE) l).

(** ** Requests and effects *)

Inductive URequest :=
| Refresh | CreateUser (f : NewUserForm) | CreateGroup (f : NewGroupForm) | SetPassword (x : LocalUser) (password : jstr)
| SetEnabled (x : LocalUser) (enabled : bool) | SetAdmin (x : LocalUser) (admin : bool) | DeleteGroup (name : jstr)
| Block (x : LocalUser) (reason : option jstr) | Unblock (x : LocalUser) | RevokeSessions (x : LocalUser)
| DeleteUser (x : LocalUser) | PurgeUser (x : LocalUser) | Detail (username : jstr).
Inductive UEffect := Asked (q : URequest) | Toast (body : jstr) (error : bool).

Record UPage := mkUPage {
  data : option UsersData; query : jstr; sourceFilter : jstr; page : nat; userDialog : bool;
  groupDialog : bool; pwUser : option LocalUser; pw : jstr; nu : NewUserForm; ng : NewGroupForm;
  editedGroup : bool; blockUser : option LocalUser; blockReason : jstr; blockBusy : bool;
  delUser : option LocalUser; delConfirm : jstr; delBusy : bool; delError : option jstr;
  delWarning : option jstr; purgeUser : option LocalUser; purgeConfirm : jstr; purgeBusy : bool;
  purgeError : option jstr; detailUser : option LocalUser; detail : option json; detailLoading : bool;
  detailError : option jstr; sessRevoking : bool; formWarning : option jstr; awaited : list URequest;
  asked : list UEffect
}.

Definition set_data v p := mkUPage v (query p) (sourceFilter p) (page p) (userDialog p) (groupDialog p) (pwUser p) (pw p) (nu p) (ng p) (editedGroup p) (blockUser p) (blockReason p) (blockBusy p) (delUser p) (delConfirm p) (delBusy p) (delError p) (delWarning p) (purgeUser p) (purgeConfirm p) (purgeBusy p) (purgeError p) (detailUser p) (detail p) (detailLoading p) (detailError p) (sessRevoking p) (formWarning p) (awaited p) (asked p).
Definition set_query v p := mkUPage (data p) v (sourceFilter p) (page p) (userDialog p) (groupDialog p) (pwUser p) (pw p) (nu p) (ng p) (editedGroup p) (blockUser p) (blockReason p) (blockBusy p) (delUser p) (delConfirm p) (delBusy p) (delError p) (delWarning p) (purgeUser p) (purgeConfirm p) (purgeBusy p) (purgeError p) (detailUser p) (detail p) (detailLoading p) (detailError p) (sessRevoking p) (formWarning p) (awaited p) (asked p).
Definition set_sourceFilter v p := mkUPage (data p) (query p) v (page p) (userDialog p) (groupDialog p) (pwUser p) (pw p) (nu p) (ng p) (editedGroup p) (blockUser p) (blockReason p) (blockBusy p) (delUser p) (delConfirm p) (delBusy p) (delError p) (delWarning p) (purgeUser p) (purgeConfirm p) (purgeBusy p) (purgeError p) (detailUser p) (detail p) (detailLoading p) (detailError p) (sessRevoking p) (formWarning p) (awaited p) (asked p).
Definition set_page v p := mkUPage (data p) (query p) (sourceFilter p) v (userDialog p) (groupDialog p) (pwUser p) (pw p) (nu p) (ng p) (editedGroup p) (blockUser p) (blockReason p) (blockBusy p) (delUser p) (delConfirm p) (delBusy p) (delError p) (delWarning p) (purgeUser p) (purgeConfirm p) (purgeBusy p) (purgeError p) (detailUser p) (detail p) (detailLoading p) (detailError p) (sessRevoking p) (formWarning p) (awaited p) (asked p).
Definition set_userDialog v p := mkUPage (data p) (query p) (sourceFilter p) (page p) v (groupDialog p) (pwUser p) (pw p) (nu p) (ng p) (editedGroup p) (blockUser p) (blockReason p) (blockBusy p) (delUser p) (delConfirm p) (delBusy p) (delError p) (delWarning p) (purgeUser p) (purgeConfirm p) (purgeBusy p) (purgeError p) (detailUser p) (detail p) (detailLoading p) (detailError p) (sessRevoking p) (formWarning p) (awaited p) (asked p).
Definition set_groupDialog v p := mkUPage (data p) (query p) (sourceFilter p) (page p) (userDialog p) v (pwUser p) (pw p) (nu p) (ng p) (editedGroup p) (blockUser p) (blockReason p) (blockBusy p) (delUser p) (delConfirm p) (delBusy p) (delError p) (delWarning p) (purgeUser p) (purgeConfirm p) (purgeBusy p) (purgeError p) (detailUser p) (detail p) (detailLoading p) (detailError p) (sessRevoking p) (formWarning p) (awaited p) (asked p).
Definition set_pwUser v p := mkUPage (data p) (query p) (sourceFilter p) (page p) (userDialog p) (groupDialog p) v (pw p) (nu p) (ng p) (editedGroup p) (blockUser p) (blockReason p) (blockBusy p) (delUser p) (delConfirm p) (delBusy p) (delError p) (delWarning p) (purgeUser p) (purgeConfirm p) (purgeBusy p) (purgeError p) (detailUser p) (detail p) (detailLoading p) (detailError p) (sessRevoking p) (formWarning p) (awaited p) (asked p).
Definition set_pw v p := mkUPage (data p) (query p) (sourceFilter p) (page p) (userDialog p) (groupDialog p) (pwUser p) v (nu p) (ng p) (editedGroup p) (blockUser p) (blockReason p) (blockBusy p) (delUser p) (delConfirm p) (delBusy p) (delError p) (delWarning p) (purgeUser p) (purgeConfirm p) (purgeBusy p) (purgeError p) (detailUser p) (detail p) (detailLoading p) (detailError p) (sessRevoking p) (formWarning p) (awaited p) (asked p).
Definition set_nu v p := mkUPage (data p) (query p) (sourceFilter p) (page p) (userDialog p) (groupDialog p) (pwUser p) (pw p) v (ng p) (editedGroup p) (blockUser p) (blockReason p) (blockBusy p) (delUser p) (delConfirm p) (delBusy p) (delError p) (delWarning p) (purgeUser p) (purgeConfirm p) (purgeBusy p) (purgeError p) (detailUser p) (detail p) (detailLoading p) (detailError p) (sessRevoking p) (formWarning p) (awaited p) (asked p).
Definition set_ng v p := mkUPage (data p) (query p) (sourceFilter p) (page p) (userDialog p) (groupDialog p) (pwUser p) (pw p) (nu p) v (editedGroup p) (blockUser p) (blockReason p) (blockBusy p) (delUser p) (delConfirm p) (delBusy p) (delError p) (delWarning p) (purgeUser p) (purgeConfirm p) (purgeBusy p) (purgeError p) (detailUser p) (detail p) (detailLoading p) (detailError p) (sessRevoking p) (formWarning p) (awaited p) (asked p).
Definition set_editedGroup v p := mkUPage (data p) (query p) (sourceFilter p) (page p) (userDialog p) (groupDialog p) (pwUser p) (pw p) (nu p) (ng p) v (blockUser p) (blockReason p) (blockBusy p) (delUser p) (delConfirm p) (delBusy p) (delError p) (delWarning p) (purgeUser p) (purgeConfirm p) (purgeBusy p) (purgeError p) (detailUser p) (detail p) (detailLoading p) (detailError p) (sessRevoking p) (formWarning p) (awaited p) (asked p).
Definition set_blockUser v p := mkUPage (data p) (query p) (sourceFilter p) (page p) (userDialog p) (groupDialog p) (pwUser p) (pw p) (nu p) (ng p) (editedGroup p) v (blockReason p) (blockBusy p) (delUser p) (delConfirm p) (delBusy p) (delError p) (delWarning p) (purgeUser p) (purgeConfirm p) (purgeBusy p) (purgeError p) (detailUser p) (detail p) (detailLoading p) (detailError p) (sessRevoking p) (formWarning p) (awaited p) (asked p).
Definition set_blockReason v p := mkUPage (data p) (query p) (sourceFilter p) (page p) (userDialog p) (groupDialog p) (pwUser p) (pw p) (nu p) (ng p) (editedGroup p) (blockUser p) v (blockBusy p) (delUser p) (delConfirm p) (delBusy p) (delError p) (delWarning p) (purgeUser p) (purgeConfirm p) (purgeBusy p) (purgeError p) (detailUser p) (detail p) (detailLoading p) (detailError p) (sessRevoking p) (formWarning p) (awaited p) (asked p).
Definition set_blockBusy v p := mkUPage (data p) (query p) (sourceFilter p) (page p) (userDialog p) (groupDialog p) (pwUser p) (pw p) (nu p) (ng p) (editedGroup p) (blockUser p) (blockReason p) v (delUser p) (delConfirm p) (delBusy p) (delError p) (delWarning p) (purgeUser p) (purgeConfirm p) (purgeBusy p) (purgeError p) (detailUser p) (detail p) (detailLoading p) (detailError p) (sessRevoking p) (formWarning p) (awaited p) (asked p).
Definition set_delUser v p := mkUPage (data p) (query p) (sourceFilter p) (page p) (userDialog p) (groupDialog p) (pwUser p) (pw p) (nu p) (ng p) (editedGroup p) (blockUser p) (blockReason p) (blockBusy p) v (delConfirm p) (delBusy p) (delError p) (delWarning p) (purgeUser p) (purgeConfirm p) (purgeBusy p) (purgeError p) (detailUser p) (detail p) (detailLoading p) (detailError p) (sessRevoking p) (formWarning p) (awaited p) (asked p).
Definition set_delConfirm v p := mkUPage (data p) (query p) (sourceFilter p) (page p) (userDialog p) (groupDialog p) (pwUser p) (pw p) (nu p) (ng p) (editedGroup p) (blockUser p) (blockReason p) (blockBusy p) (delUser p) v (delBusy p) (delError p) (delWarning p) (purgeUser p) (purgeConfirm p) (purgeBusy p) (purgeError p) (detailUser p) (detail p) (detailLoading p) (detailError p) (sessRevoking p) (formWarning p) (awaited p) (asked p).
Definition set_delBusy v p := mkUPage (data p) (query p) (sourceFilter p) (page p) (userDialog p) (groupDialog p) (pwUser p) (pw p) (nu p) (ng p) (editedGroup p) (blockUser p) (blockReason p) (blockBusy p) (delUser p) (delConfirm p) v (delError p) (delWarning p) (purgeUser p) (purgeConfirm p) (purgeBusy p) (purgeError p) (detailUser p) (detail p) (detailLoading p) (detailError p) (sessRevoking p) (formWarning p) (awaited p) (asked p).
Definition set_delError v p := mkUPage (data p) (query p) (sourceFilter p) (page p) (userDialog p) (groupDialog p) (pwUser p) (pw p) (nu p) (ng p) (editedGroup p) (blockUser p) (blockReason p) (blockBusy p) (delUser p) (delConfirm p) (delBusy p) v (delWarning p) (purgeUser p) (purgeConfirm p) (purgeBusy p) (purgeError p) (detailUser p) (detail p) (detailLoading p) (detailError p) (sessRevoking p) (formWarning p) (awaited p) (asked p).
Definition set_delWarning v p := mkUPage (data p) (query p) (sourceFilter p) (page p) (userDialog p) (groupDialog p) (pwUser p) (pw p) (nu p) (ng p) (editedGroup p) (blockUser p) (blockReason p) (blockBusy p) (delUser p) (delConfirm p) (delBusy p) (delError p) v (purgeUser p) (purgeConfirm p) (purgeBusy p) (purgeError p) (detailUser p) (detail p) (detailLoading p) (detailError p) (sessRevoking p) (formWarning p) (awaited p) (asked p).
Definition set_purgeUser v p := mkUPage (data p) (query p) (sourceFilter p) (page p) (userDialog p) (groupDialog p) (pwUser p) (pw p) (nu p) (ng p) (editedGroup p) (blockUser p) (blockReason p) (blockBusy p) (delUser p) (delConfirm p) (delBusy p) (delError p) (delWarning p) v (purgeConfirm p) (purgeBusy p) (purgeError p) (detailUser p) (detail p) (detailLoading p) (detailError p) (sessRevoking p) (formWarning p) (awaited p) (asked p).
Definition set_purgeConfirm v p := mkUPage (data p) (query p) (sourceFilter p) (page p) (userDialog p) (groupDialog p) (pwUser p) (pw p) (nu p) (ng p) (editedGroup p) (blockUser p) (blockReason p) (blockBusy p) (delUser p) (delConfirm p) (delBusy p) (delError p) (delWarning p) (purgeUser p) v (purgeBusy p) (purgeError p) (detailUser p) (detail p) (detailLoading p) (detailError p) (sessRevoking p) (formWarning p) (awaited p) (asked p).
Definition set_purgeBusy v p := mkUPage (data p) (query p) (sourceFilter p) (page p) (userDialog p) (groupDialog p) (pwUser p) (pw p) (nu p) (ng p) (editedGroup p) (blockUser p) (blockReason p) (blockBusy p) (delUser p) (delConfirm p) (delBusy p) (delError p) (delWarning p) (purgeUser p) (purgeConfirm p) v (purgeError p) (detailUser p) (detail p) (detailLoading p) (detailError p) (sessRevoking p) (formWarning p) (awaited p) (asked p).
Definition set_purgeError v p := mkUPage (data p) (query p) (sourceFilter p) (page p) (userDialog p) (groupDialog p) (pwUser p) (pw p) (nu p) (ng p) (editedGroup p) (blockUser p) (blockReason p) (blockBusy p) (delUser p) (delConfirm p) (delBusy p) (delError p) (delWarning p) (purgeUser p) (purgeConfirm p) (purgeBusy p) v (detailUser p) (detail p) (detailLoading p) (detailError p) (sessRevoking p) (formWarning p) (awaited p) (asked p).
Definition set_detailUser v p := mkUPage (data p) (query p) (sourceFilter p) (page p) (userDialog p) (groupDialog p) (pwUser p) (pw p) (nu p) (ng p) (editedGroup p) (blockUser p) (blockReason p) (blockBusy p) (delUser p) (delConfirm p) (delBusy p) (delError p) (delWarning p) (purgeUser p) (purgeConfirm p) (purgeBusy p) (purgeError p) v (detail p) (detailLoading p) (detailError p) (sessRevoking p) (formWarning p) (awaited p) (asked p).
Definition set_detail v p := mkUPage (data p) (query p) (sourceFilter p) (page p) (userDialog p) (groupDialog p) (pwUser p) (pw p) (nu p) (ng p) (editedGroup p) (blockUser p) (blockReason p) (blockBusy p) (delUser p) (delConfirm p) (delBusy p) (delError p) (delWarning p) (purgeUser p) (purgeConfirm p) (purgeBusy p) (purgeError p) (detailUser p) v (detailLoading p) (detailError p) (sessRevoking p) (formWarning p) (awaited p) (asked p).
Definition set_detailLoading v p := mkUPage (data p) (query p) (sourceFilter p) (page p) (userDialog p) (groupDialog p) (pwUser p) (pw p) (nu p) (ng p) (editedGroup p) (blockUser p) (blockReason p) (blockBusy p) (delUser p) (delConfirm p) (delBusy p) (delError p) (delWarning p) (purgeUser p) (purgeConfirm p) (purgeBusy p) (purgeError p) (detailUser p) (detail p) v (detailError p) (sessRevoking p) (formWarning p) (awaited p) (asked p).
Definition set_detailError v p := mkUPage (data p) (query p) (sourceFilter p) (page p) (userDialog p) (groupDialog p) (pwUser p) (pw p) (nu p) (ng p) (editedGroup p) (blockUser p) (blockReason p) (blockBusy p) (delUser p) (delConfirm p) (delBusy p) (delError p) (delWarning p) (purgeUser p) (purgeConfirm p) (purgeBusy p) (purgeError p) (detailUser p) (detail p) (detailLoading p) v (sessRevoking p) (formWarning p) (awaited p) (asked p).
Definition set_sessRevoking v p := mkUPage (data p) (query p) (sourceFilter p) (page p) (userDialog p) (groupDialog p) (pwUser p) (pw p) (nu p) (ng p) (editedGroup p) (blockUser p) (blockReason p) (blockBusy p) (delUser p) (delConfirm p) (delBusy p) (delError p) (delWarning p) (purgeUser p) (purgeConfirm p) (purgeBusy p) (purgeError p) (detailUser p) (detail p) (detailLoading p) (detailError p) v (formWarning p) (awaited p) (asked p).
Definition set_formWarning v p := mkUPage (data p) (query p) (sourceFilter p) (page p) (userDialog p) (groupDialog p) (pwUser p) (pw p) (nu p) (ng p) (editedGroup p) (blockUser p) (blockReason p) (blockBusy p) (delUser p) (delConfirm p) (delBusy p) (delError p) (delWarning p) (purgeUser p) (purgeConfirm p) (purgeBusy p) (purgeError p) (detailUser p) (detail p) (detailLoading p) (detailError p) (sessRevoking p) v (awaited p) (asked p).
Definition set_awaited v p := mkUPage (data p) (query p) (sourceFilter p) (page p) (userDialog p) (groupDialog p) (pwUser p) (pw p) (nu p) (ng p) (editedGroup p) (blockUser p) (blockReason p) (blockBusy p) (delUser p) (delConfirm p) (delBusy p) (delError p) (delWarning p) (purgeUser p) (purgeConfirm p) (purgeBusy p) (purgeError p) (detailUser p) (detail p) (detailLoading p) (detailError p) (sessRevoking p) (formWarning p) v (asked p).
Definition emit (e : UEffect) p := mkUPage (data p) (query p) (sourceFilter p) (page p) (userDialog p) (groupDialog p) (pwUser p) (pw p) (nu p) (ng p) (editedGroup p) (blockUser p) (blockReason p) (blockBusy p) (delUser p) (delConfirm p) (delBusy p) (delError p) (delWarning p) (purgeUser p) (purgeConfirm p) (purgeBusy p) (purgeError p) (detailUser p) (detail p) (detailLoading p) (detailError p) (sessRevoking p) (formWarning p) (awaited p) (asked p ++ [e]).

(** Reading a field through the updates. *)
Ltac users_fields :=
  cbn [data query sourceFilter page userDialog groupDialog pwUser pw nu ng editedGroup blockUser blockReason blockBusy delUser delConfirm delBusy delError delWarning purgeUser purgeConfirm purgeBusy purgeError detailUser detail detailLoading detailError sessRevoking formWarning awaited asked
       set_data set_query set_sourceFilter set_page set_userDialog set_groupDialog set_pwUser set_pw set_nu set_ng set_editedGroup set_blockUser set_blockReason set_blockBusy set_delUser set_delConfirm set_delBusy set_delError set_delWarning set_purgeUser set_purgeConfirm set_purgeBusy set_purgeError set_detailUser set_detail set_detailLoading set_detailError set_sessRevoking set_formWarning set_awaited emit] in *.

Section users.
Context (t : jstr -> jstr) (num_text locale : num -> jstr) (csrf : jstr) (users_of : json -> UsersData).

Definition send (q : URequest) (p : UPage) : UPage := p |> set_awaited (awaited p ++ [q]) |> emit (Asked q).
Definition toast (body : jstr) (error : bool) (p : UPage) : UPage := emit (Toast body error) p.

(** ** Sending *)

Definition refresh (p : UPage) : UPage := send Refresh p.
(** [initial]: the data of the server, fresh or not. *)
Definition users_start (initial : option UsersData) (initialFresh : bool) : UPage :=
  let p := mkUPage initial [] (u "all") 1 false false None [] no_user no_group false None [] false None [] false None None
             None [] false None None None false None false None [] [] in
  match initial with Some _ => if initialFresh then p else refresh p | None => refresh p end.

(** [act] and [actJSON], up to their request. *)
Definition guarded (q : URequest) (p : UPage) : UPage := if streq csrf [] then p else send q p.
Definition createUser (p : UPage) : UPage := guarded (CreateUser (nu p)) p.
Definition createGroup (p : UPage) : UPage := guarded (CreateGroup (ng p)) p.
Definition submitPassword (p : UPage) : UPage :=
  match pwUser p with
  | Some x => if length (pw p) <? 8 then p else guarded (SetPassword x (pw p)) p
  | None => p
  end.
Definition submitPurge (p : UPage) : UPage :=
  match purgeUser p with
  | Some x => if purgeBusy p || negb (streq (purgeConfirm p) (u "DELETE")) then p else p |> set_purgeBusy true |> send (PurgeUser x)
  | None => p
  end.
Definition submitDelete (p : UPage) : UPage :=
  match delUser p with
  | Some x => if delBusy p || negb (streq (delConfirm p) (u "DELETE")) then p else p |> set_delBusy true |> send (DeleteUser x)
  | None => p
  end.
(** Without a token [actJSON] gives nothing: the flag is put back at once. *)
Definition submitBlock (p : UPage) : UPage :=
  match blockUser p with
  | Some x =>
      if blockBusy p || streq csrf [] then p
      else p |> set_blockBusy true |> send (Block x (match trim (blockReason p) with [] => None | r => Some r end))
  | None => p
  end.
Definition unblockUser (x : LocalUser) (p : UPage) : UPage := guarded (Unblock x) p.
Definition revokeDetailSessions (p : UPage) : UPage :=
  match detailUser p with
  | Some x => if sessRevoking p || streq csrf [] then p else p |> set_sessRevoking true |> send (RevokeSessions x)
  | None => p
  end.
Definition loadDetail (name : jstr) (p : UPage) : UPage :=
  p |> set_detailLoading true |> set_detailError None |> send (Detail name).
Definition openDetail (x : LocalUser) (p : UPage) : UPage :=
  p |> set_detail None |> set_detailUser (Some x) |> loadDetail (username x).
Definition openDelete (x : LocalUser) (p : UPage) : UPage :=
  p |> set_delUser (Some x) |> set_delConfirm [] |> set_delError None |> set_delWarning None.
Definition openPurge (x : LocalUser) (p : UPage) : UPage :=
  p |> set_purgeUser (Some x) |> set_purgeConfirm [] |> set_purgeError None.

(** ** Answers *)

Definition refused (v : json) : bool := match prop (u "ok") v with Some (JBool false) => true | _ => false end.
Definition failed_text (v : json) : jstr := match text_of (u "error") v with Some e => t e | None => t (u "Échec de l'action.") end.
Definition action_failed (p : UPage) : UPage := toast (t (u "Échec de l'action.")) true p.
(** [act] after its request: the warning of a success goes to [success]. *)
Definition act (f : Fetched) (success : option jstr -> UPage -> UPage) (p : UPage) : UPage :=
  match postFormJSON f with
  | inl _ => action_failed p
  | inr v =>
      if refused v then toast (failed_text v) true p
      else p |> toast (t (u "Action effectuée.")) false |> refresh |> success (text_of (u "warning") v)
  end.
(** [actJSON] after its request; a falsy body is no answer. *)
Definition actJSON (f : Fetched) (success : json -> UPage -> UPage) (p : UPage) : UPage :=
  match sendJSON [] f with
  | inl _ => action_failed p
  | inr v => if refused v then toast (failed_text v) true p else if truthy v then success v p else p
  end.

Definition user_created (w : option jstr) (p : UPage) : UPage :=
  let p := set_nu no_user p in
  match w with Some _ => set_formWarning w p | None => p |> set_formWarning None |> set_userDialog false end.
Definition group_created (w : option jstr) (p : UPage) : UPage :=
  let p := set_ng no_group p in
  match w with Some _ => set_formWarning w p | None => p |> set_formWarning None |> set_groupDialog false end.
Definition password_set (w : option jstr) (p : UPage) : UPage :=
  let p := set_pw [] p in
  match w with Some _ => set_formWarning w p | None => p |> set_formWarning None |> set_pwUser None end.

(** These two do not catch: a request that rejects leaves the page as it is. *)
Definition purge_answered (f : Fetched) (p : UPage) : UPage :=
  match sendJSON [] f with
  | inl _ => p
  | inr v =>
      let p := set_purgeBusy false p in
      if refused v then set_purgeError (Some (match text_of (u "error") v with Some e => e | None => t (u "Échec de l'action.") end)) p
      else p |> set_purgeUser None |> set_purgeConfirm [] |> set_purgeError None
             |> toast (t (u "Données du compte purgées.")) false |> refresh
  end.
Definition delete_answered (f : Fetched) (p : UPage) : UPage :=
  match sendJSON [] f with
  | inl _ => p
  | inr v =>
      let p := set_delBusy false p in
      if refused v then set_delError (Some (match text_of (u "error") v with Some e => e | None => t (u "Échec de l'action.") end)) p
      else
        let p := p |> toast (t (u "Compte supprimé.")) false |> refresh in
        match text_of (u "warning") v with
        | Some w => p |> set_delConfirm [] |> set_delWarning (Some w)
        | None => p |> set_delUser None |> set_delConfirm [] |> set_delError None |> set_delWarning None
        end
  end.
(** The number of the sessions revoked, when it is not zero. *)
Definition revoked_count (v : json) : option jstr :=
  match prop (u "revoked_sessions") v with
  | Some (JNum m e) => if (m =? 0)%Z then None else Some (num_text (num_of_decimal m e))
  | _ => None
  end.
Definition blocked_ok (v : json) (p : UPage) : UPage :=
  p |> set_blockUser None |> set_blockReason []
    |> toast (match revoked_count v with
              | Some n => replace_str (t (u "Compte bloqué — {n} session(s) révoquée(s).")) (u "{n}") n
              | None => t (u "Compte bloqué.")
              end) false
    |> refresh.
Definition detail_answered (f : Fetched) (p : UPage) : UPage :=
  set_detailLoading false
    (match getJSON [] f with
     | inl _ => set_detailError (Some (t (u "Chargement impossible."))) p
     | inr v => set_detail (match v with JNull => None | _ => Some v end) p
     end).
Definition answered (q : URequest) (f : Fetched) (p : UPage) : UPage :=
  match q with
  | Refresh => match getJSON [] f with inl _ => p | inr v => set_data (Some (users_of v)) p end
  | CreateUser _ => act f user_created p
  | CreateGroup _ => act f group_created p
  | SetPassword _ _ => act f password_set p
  | SetEnabled _ _ | SetAdmin _ _ | DeleteGroup _ => act f (fun _ p => p) p
  | Block _ _ => actJSON f blocked_ok (set_blockBusy false p)
  | Unblock _ => actJSON f (fun _ p => p |> toast (t (u "Compte débloqué.")) false |> refresh) p
  | RevokeSessions x =>
      actJSON f (fun _ p => p |> toast (t (u "Sessions révoquées.")) false |> loadDetail (username x)) (set_sessRevoking false p)
  | DeleteUser _ => delete_answered f p
  | PurgeUser _ => purge_answered f p
  | Detail _ => detail_answered f p
  end.

(** ** What is shown *)

Definition fmtBudget (n : num) : jstr := match math_round n with Some z => locale (num_of_Z z) | None => locale n end.
Definition period (p : UPage) : jstr :=
  let '(msgid, n) := quotaPeriod (data p ≫= budget_duration) in
  replace_str (t msgid) (u "{n}") (match n with Some x => num_text x | None => [] end).
Definition all_users (p : UPage) : list LocalUser := match data p with Some d => users d | None => [] end.
(** The table: being loaded, nobody, or the users of the page and its number. *)
Inductive TableView := LoadingUsers | Nobody | UsersPage (l : list LocalUser) (page total : nat).
Definition users_table (p : UPage) : TableView :=
  match data p with
  | None => LoadingUsers
  | Some _ =>
      let l := filtered (query p) (sourceFilter p) (all_users p) in
      match l with [] => Nobody | _ => UsersPage (pageUsers (page p) l) (safePage (page p) (length l)) (length l) end
  end.
Definition source_badges (x : LocalUser) : list jstr := map (fun s => t (source_label s)) (shown_sources x).
Definition group_cell (x : LocalUser) : jstr :=
  match group_name x with
  | Some ((_ :: _) as g) => g
  | _ => match directory_groups x with [] => u "—" | l => join (u ", ") l end
  end.
Definition quota_cell (x : LocalUser) : jstr :=
  if unlimited x then t (u "Illimité") else match effective_budget x with Some b => fmtBudget b | None => u "—" end.
Definition role_cell (x : LocalUser) : jstr * option jstr :=
  (if effective_admin x then t (u "Admin") else t (u "Utilisateur"),
   match role_source x with
   | Some s => if managed x && streq s (u "sso") then Some (t (u "via") ++ u " SSO")
               else if managed x && streq s (u "ldap") then Some (t (u "via") ++ u " LDAP") else None
   | None => None
   end).
(** The state, the reason of a block and the lock; [None] is a dash. *)
Definition status_cell (x : LocalUser) : option (option (jstr * Variant) * option jstr * option jstr) :=
  let lockedHint := if (0 <? locked_minutes x)%Z
                    then Some (replace_str (t (u "verrouillé après trop d'échecs, {n} min")) (u "{n}") (string_of_Z (locked_minutes x))) else None in
  let directory := if managed x then None else DIRECTORY_STATUS_META <$> directory_status x in
  if negb (blocked x) && negb (managed x) && bool_decide (lockedHint = None) && match directory with None => true | _ => false end then None
  else
    let state := if blocked x then Some (u "Bloqué", Bad)
                 else if managed x then Some (if user_enabled x then (u "Actif", Good) else (u "Désactivé", Bad)) else directory in
    Some ((fun s => (t s.1, s.2)) <$> state,
          (if blocked x then match block_reason x with Some ((_ :: _) as r) => Some r | _ => None end else None), lockedHint).
Definition group_text (p : UPage) (g : Group) : jstr :=
  match g_max_budget g with Some b => fmtBudget b ++ u " " ++ period p | None => t (u "quota par défaut") end
  ++ (if g_is_admin g then u " · " ++ t (u "admin") else [])
  ++ u " · " ++ replace_str (t (u "{n} membre(s)")) (u "{n}") (string_of_Z (g_members g)).
Definition delete_group_question (g : Group) : jstr :=
  if existsb (fun s => streq s (u "ldap") || streq s (u "sso")) (g_sources g)
  then t (u "Supprimer ce groupe ? Il vient de l'annuaire : il reviendra à la prochaine connexion d'un membre, sans quota ni droit.")
  else t (u "Supprimer ce groupe ?").

(** The menu of a line. *)
Inductive MenuItem := MDetails | MEnable (on : bool) | MAdmin (on : bool) | MPassword | MUnblock | MBlock | MDelete | MPurge.
#[export] Instance MenuItem_eq_dec : EqDecision MenuItem.
Proof. solve_decision. Defined.
Definition menu (x : LocalUser) : list MenuItem :=
  MDetails
  :: (if managed x then [MEnable (negb (user_enabled x)); MAdmin (negb (is_admin x)); MPassword] else [])
  ++ [if blocked x then MUnblock else MBlock]
  ++ (if managed x then match user_id x with Some _ => [MDelete] | None => [] end else [MPurge]).
Definition menu_click (x : LocalUser) (i : MenuItem) (p : UPage) : UPage :=
  match i with
  | MDetails => openDetail x p
  | MEnable b => guarded (SetEnabled x b) p
  | MAdmin b => guarded (SetAdmin x b) p
  | MPassword => p |> set_formWarning None |> set_pwUser (Some x) |> set_pw []
  | MUnblock => unblockUser x p
  | MBlock => p |> set_blockUser (Some x) |> set_blockReason []
  | MDelete => openDelete x p
  | MPurge => openPurge x p
  end.

Definition open_group (p : UPage) : UPage :=
  p |> set_formWarning None |> set_ng no_group |> set_editedGroup false |> set_groupDialog true.
Definition edit_group (g : Group) (p : UPage) : UPage :=
  p |> set_ng (mkNewGroup (g_name g) (match g_max_budget g with Some b => num_text b | None => [] end) (if g_is_admin g then u "1" else u "0"))
    |> set_editedGroup true |> set_groupDialog true.
Definition create_disabled (p : UPage) : bool := streq (nu_username (nu p)) [] || (length (nu_password (nu p)) <? 8).
Definition group_disabled (p : UPage) : bool := streq (ng_name (ng p)) [].

(** ** The section as a transition system *)

Inductive UEvent :=
| UQuery (s : jstr) | USource (s : jstr) | UPageChange (n : nat) | UMenu (x : LocalUser) (i : MenuItem)
| UNewUser | UNewGroup | UEditGroup (g : Group) | UDeleteGroup (g : Group) (confirmed : bool)
| UUserForm (f : NewUserForm) | UGroupForm (f : NewGroupForm) | UCreateUser | UCreateGroup | UCloseUser | UCloseGroup
| UPassword (s : jstr) | USubmitPassword | UClosePassword
| UReason (s : jstr) | USubmitBlock | UCloseBlock
| UDelConfirm (s : jstr) | USubmitDelete | UCloseDelete
| UPurgeConfirm (s : jstr) | USubmitPurge | UClosePurge
| URevokeSessions | UCloseDetail | UAnswered (i : nat) (f : Fetched).
Definition users_handle (e : UEvent) (p : UPage) : UPage :=
  match e with
  | UQuery s => p |> set_query s |> set_page 1
  | USource s => p |> set_sourceFilter s |> set_page 1
  | UPageChange n => set_page n p
  | UMenu x i => if bool_decide (i ∈ menu x) then menu_click x i p else p
  | UNewUser => p |> set_formWarning None |> set_userDialog true
  | UNewGroup => open_group p
  | UEditGroup g => edit_group g p
  | UDeleteGroup g confirmed => if confirmed then guarded (DeleteGroup (g_name g)) p else p
  | UUserForm f => set_nu f p
  | UGroupForm f => set_ng f p
  | UCreateUser => if create_disabled p then p else createUser p
  | UCreateGroup => if group_disabled p then p else createGroup p
  | UCloseUser => p |> set_userDialog false |> set_formWarning None
  | UCloseGroup => p |> set_groupDialog false |> set_formWarning None
  | UPassword s => set_pw s p
  | USubmitPassword => submitPassword p
  | UClosePassword => p |> set_pwUser None |> set_formWarning None
  | UReason s => set_blockReason s p
  | USubmitBlock => submitBlock p
  | UCloseBlock => set_blockUser None p
  | UDelConfirm s => set_delConfirm s p
  | USubmitDelete => submitDelete p
  | UCloseDelete => p |> set_delUser None |> set_delWarning None
  | UPurgeConfirm s => set_purgeConfirm s p
  | USubmitPurge => submitPurge p
  | UClosePurge => set_purgeUser None p
  | URevokeSessions => revokeDetailSessions p
  | UCloseDetail => set_detailUser None p
  | UAnswered i f =>
      match awaited p !! i with
      | Some q => p |> set_awaited (delete i (awaited p)) |> answered q f
      | None => p
      end
  end.
Definition users_run (es : list UEvent) (p : UPage) : UPage := foldl (fun p e => users_handle e p) p es.
End users.

(** * Properties *)

(** ** Counters and pages *)

Lemma fold_count us c : fold_left count_user us c =
  mkStats (s_total c) (s_local c + length (List.filter managed us)) (s_ldap c + length (List.filter (has_source (u "ldap")) us))
    (s_sso c + length (List.filter (has_source (u "sso")) us)) (s_admins c + length (List.filter effective_admin us)).
Proof.
  revert c. induction us as [|x us IH]; intros c; cbn [fold_left List.filter length].
  - rewrite !Nat.add_0_r. by destruct c.
  - rewrite IH. unfold count_user. cbn [s_total s_local s_ldap s_sso s_admins].
    destruct (managed x), (has_source (u "ldap") x), (has_source (u "sso") x), (effective_admin x); cbn [length]; f_equal; lia.
Qed.
(** The single pass over the accounts gives the counters of the four readings
    it replaces. *)
Theorem stats_single_pass us : stats us =
  mkStats (length us) (length (List.filter managed us)) (length (List.filter (fun x => existsb (streq (u "ldap")) (sources x)) us))
    (length (List.filter (fun x => existsb (streq (u "sso")) (sources x)) us)) (length (List.filter effective_admin us)).
Proof. unfold stats. by rewrite fold_count. Qed.

Lemma total_pages_enough n : n <= totalPages n * PAGE_SIZE.
Proof. unfold totalPages, PAGE_SIZE. assert (H := Nat.div_mod_eq (n + (10 - 1)) 10). assert (H' := Nat.mod_upper_bound (n + (10 - 1)) 10 ltac:(lia)). lia. Qed.
Lemma page_slice {A} (l : list A) p : 1 <= p <= totalPages (length l) -> pageUsers p l = take PAGE_SIZE (drop ((p - 1) * PAGE_SIZE) l).
Proof. intros H. unfold pageUsers, safePage. rewrite Nat.min_l by lia. f_equal. unfold PAGE_SIZE. lia. Qed.
Lemma pages_prefix {A} (l : list A) k : k <= totalPages (length l) ->
  concat (map (fun p => pageUsers p l) (seq 1 k)) = take (k * PAGE_SIZE) l.
Proof.
  induction k as [|k IH]; intros H; [done|]. rewrite seq_S, map_app, concat_app. cbn [map concat Nat.add]. rewrite app_nil_r, IH by lia.
  rewrite page_slice by lia. replace (S k - 1) with k by lia. replace (S k * PAGE_SIZE) with (k * PAGE_SIZE + PAGE_SIZE) by lia.
  by rewrite take_take_drop.
Qed.
(** The pages of the table, put one after the other, are the accounts found:
    none is missing or shown twice; a page has ten lines at most, and one asked
    beyond the last is the last. *)
Theorem pages_cover {A} (l : list A) :
  concat (map (fun p => pageUsers p l) (seq 1 (totalPages (length l)))) = l /\
  (forall p, length (pageUsers p l) <= PAGE_SIZE) /\
  (forall p, totalPages (length l) <= p -> pageUsers p l = pageUsers (totalPages (length l)) l).
Proof.
  split; [|split].
  - rewrite pages_prefix by done. apply take_ge, total_pages_enough.
  - intros p. unfold pageUsers. rewrite length_take. unfold PAGE_SIZE. lia.
  - intros p H. unfold pageUsers, safePage. by rewrite (Nat.min_r p), Nat.min_id by done.
Qed.

(** ** What cannot be undone *)

Section spec.
Context (t : jstr -> jstr) (num_text : num -> jstr) (csrf : jstr) (users_of : json -> UsersData).
#[local] Abbreviation handle := (users_handle t num_text csrf users_of) (only parsing).
#[local] Abbreviation run := (users_run t num_text csrf users_of) (only parsing).

(** The accounts of the two dialogs: local ones for the deletion, the others for
    the purge. *)
Definition dialogs_ok (p : UPage) : Prop :=
  (forall x, delUser p = Some x -> managed x = true /\ user_id x <> None) /\ (forall x, purgeUser p = Some x -> managed x = false).
Lemma dialogs_same p q : delUser q = delUser p \/ delUser q = None -> purgeUser q = purgeUser p \/ purgeUser q = None -> dialogs_ok p -> dialogs_ok q.
Proof. intros [A|A] [B|B] [H1 H2]; split; intros x; rewrite ?A, ?B; auto; discriminate. Qed.
Lemma menu_delete x : MDelete ∈ menu x -> managed x = true /\ user_id x <> None.
Proof. rewrite list_elem_of_In. unfold menu. destruct (managed x), (blocked x), (user_id x); cbn [app In]; intuition discriminate. Qed.
Lemma menu_purge x : MPurge ∈ menu x -> managed x = false.
Proof. rewrite list_elem_of_In. unfold menu. destruct (managed x), (blocked x), (user_id x); cbn [app In]; intuition discriminate. Qed.
Lemma act_dialogs f k p : (forall w p, delUser (k w p) = delUser p /\ purgeUser (k w p) = purgeUser p) ->
  delUser (act t f k p) = delUser p /\ purgeUser (act t f k p) = purgeUser p.
Proof.
  intros K. unfold act, action_failed, toast, refresh, send. destruct (postFormJSON f) as [|v]; [done|]. destruct (refused v); [done|]. by rewrite !(proj1 (K _ _)), !(proj2 (K _ _)).
Qed.
Lemma actJSON_dialogs f k p : (forall v p, delUser (k v p) = delUser p /\ purgeUser (k v p) = purgeUser p) ->
  delUser (actJSON t f k p) = delUser p /\ purgeUser (actJSON t f k p) = purgeUser p.
Proof.
  intros K. unfold actJSON, action_failed, toast. destruct (sendJSON [] f) as [|v]; [done|]. destruct (refused v); [done|]. destruct (truthy v); [|done]. apply K.
Qed.
Lemma answered_dialogs q f p : (delUser (answered t num_text users_of q f p) = delUser p \/ delUser (answered t num_text users_of q f p) = None) /\
  (purgeUser (answered t num_text users_of q f p) = purgeUser p \/ purgeUser (answered t num_text users_of q f p) = None).
Proof.
  assert (X : forall a b, delUser a = delUser b /\ purgeUser a = purgeUser b ->
    (delUser a = delUser b \/ delUser a = None) /\ (purgeUser a = purgeUser b \/ purgeUser a = None)) by naive_solver.
  destruct q; cbn [answered].
  1: by destruct (getJSON [] f); apply X.
  1-3: apply X, act_dialogs; intros w q; unfold user_created, group_created, password_set; by destruct w.
  1-3: apply X, act_dialogs; done.
  1-3: apply X; match goal with |- delUser (actJSON _ _ ?k ?q) = _ /\ _ => refine (actJSON_dialogs f k q _) end; done.
  - unfold delete_answered. destruct (sendJSON [] f); [by auto|]. cbv zeta. destruct (refused _); [by auto|]. destruct (text_of _ _); cbn; auto.
  - unfold purge_answered. destruct (sendJSON [] f); [by auto|]. cbv zeta. destruct (refused _); cbn; auto.
  - unfold detail_answered. apply X. by destruct (getJSON [] f).
Qed.
Lemma dialogs_step e p : dialogs_ok p -> dialogs_ok (handle e p).
Proof.
  intros H. destruct e as [| | |x i| | | |g b| | | | | | | | | | | | | | | | | | | | |i f]; cbn [users_handle];
    try (apply (dialogs_same p); [by auto|by auto|exact H]).
  - case_bool_decide as I; [|exact H]. destruct i; cbn [menu_click]; unfold openDetail, loadDetail, guarded, unblockUser, guarded, send;
      try (by repeat case_match; apply (dialogs_same p); auto).
    + destruct H as [H1 H2]. split; [intros y [= <-]; by apply menu_delete|exact H2].
    + destruct H as [H1 H2]. split; [exact H1|intros y [= <-]; by apply menu_purge].
  - unfold guarded. repeat case_match; exact H.
  - unfold createUser, guarded. repeat case_match; exact H.
  - unfold createGroup, guarded. repeat case_match; exact H.
  - unfold submitPassword, guarded. repeat case_match; exact H.
  - unfold submitBlock. repeat case_match; exact H.
  - unfold submitDelete. repeat case_match; exact H.
  - unfold submitPurge. repeat case_match; exact H.
  - unfold revokeDetailSessions. repeat case_match; exact H.
  - destruct (awaited p !! i) as [q|]; [|exact H]. destruct (answered_dialogs q f (set_awaited (delete i (awaited p)) p)) as [A B].
    apply (dialogs_same p); [exact A|exact B|exact H].
Qed.
Lemma dialogs_run es p : dialogs_ok p -> dialogs_ok (run es p).
Proof. revert p. induction es as [|e es IH]; intros p H; [done|]. apply IH. by apply dialogs_step. Qed.
Lemma dialogs_start initial fresh : dialogs_ok (users_start initial fresh).
Proof. unfold users_start. by destruct initial; [destruct fresh|]. Qed.

(** The requests an event sends. *)
Definition sent (p q : UPage) : list UEffect := drop (length (asked p)) (asked q).
Definition irreversible (x : UEffect) : bool := match x with Asked (DeleteUser _) | Asked (PurgeUser _) => true | _ => false end.
Lemma sent_app p q l : asked q = asked p ++ l -> sent p q = l.
Proof. unfold sent. intros ->. apply drop_app_length. Qed.
(** Effects that are none of the two. *)
Definition harmless (p q : UPage) : Prop := exists l, asked q = asked p ++ l /\ existsb irreversible l = false.
Lemma harmless_refl p : harmless p p.
Proof. exists []. by rewrite app_nil_r. Qed.
Lemma harmless_emit x p q : irreversible x = false -> harmless p q -> harmless p (emit x q).
Proof. intros H (l & E & F). exists (l ++ [x]). cbn [emit asked]. rewrite E, app_assoc. split; [done|]. rewrite existsb_app, F. cbn [existsb]. by rewrite H. Qed.
Lemma harmless_update f p q : (forall p, asked (f p) = asked p) -> harmless p q -> harmless p (f q).
Proof. intros E (l & F & H). exists l. by rewrite E. Qed.
(** Peels the updates of a page one by one. *)
Ltac peel :=
  repeat lazymatch goal with
  | |- harmless ?p ?p => apply harmless_refl
  | |- harmless _ (send _ _) => unfold send
  | |- harmless _ (emit _ _) => apply harmless_emit; [reflexivity|]
  | |- harmless _ (?f ?v ?q) => apply (harmless_update (f v)); [reflexivity|]
  end.
Lemma harmless_answered q f p : harmless p (answered t num_text users_of q f p).
Proof.
  destruct q; cbn [answered]; unfold act, actJSON, purge_answered, delete_answered, detail_answered, blocked_ok, action_failed, toast, loadDetail,
    refresh, user_created, group_created, password_set; cbv zeta; repeat case_match; peel.
Qed.
Lemma irreversible_step e p x : x ∈ sent p (handle e p) -> irreversible x = true ->
  (exists a, e = USubmitDelete /\ x = Asked (DeleteUser a) /\ delUser p = Some a /\ delConfirm p = u "DELETE" /\ delBusy p = false) \/
  (exists a, e = USubmitPurge /\ x = Asked (PurgeUser a) /\ purgeUser p = Some a /\ purgeConfirm p = u "DELETE" /\ purgeBusy p = false).
Proof.
  intros Hx Hi. assert (K : harmless p (handle e p) -> False).
  { intros (l & E & F). rewrite (sent_app p _ l E) in Hx. apply (proj1 (existsb_false_iff _ _)) in F. rewrite Forall_forall in F. apply F in Hx. congruence. }
  destruct e as [| | |a i| | | |g b| | | | | | | | | | | | | | | | | | | | |i f]; cbn [users_handle] in *; unfold open_group, edit_group in *; try (exfalso; apply K; by peel).
  - exfalso. apply K. case_bool_decide; [|apply harmless_refl]. destruct i; cbn [menu_click]; unfold openDetail, loadDetail, guarded, unblockUser, guarded, openDelete, openPurge;
      repeat case_match; peel.
  - exfalso. apply K. unfold guarded. repeat case_match; peel.
  - exfalso. apply K. unfold createUser, guarded. repeat case_match; peel.
  - exfalso. apply K. unfold createGroup, guarded. repeat case_match; peel.
  - exfalso. apply K. unfold submitPassword, guarded. repeat case_match; peel.
  - exfalso. apply K. unfold submitBlock. repeat case_match; peel.
  - unfold submitDelete, send in *. destruct (delUser p) as [a|] eqn:E; [|exfalso; apply K, harmless_refl]. destruct (delBusy p) eqn:EB; [exfalso; apply K, harmless_refl|].
    cbn [orb] in *. destruct (streq_spec (delConfirm p) (u "DELETE")) as [EC|]; [|exfalso; apply K, harmless_refl]. cbn [negb] in Hx.
    rewrite (sent_app p _ [Asked (DeleteUser a)]) in Hx by done. apply list_elem_of_singleton in Hx as ->. left. by exists a.
  - unfold submitPurge, send in *. destruct (purgeUser p) as [a|] eqn:E; [|exfalso; apply K, harmless_refl]. destruct (purgeBusy p) eqn:EB; [exfalso; apply K, harmless_refl|].
    cbn [orb] in *. destruct (streq_spec (purgeConfirm p) (u "DELETE")) as [EC|]; [|exfalso; apply K, harmless_refl]. cbn [negb] in Hx.
    rewrite (sent_app p _ [Asked (PurgeUser a)]) in Hx by done. apply list_elem_of_singleton in Hx as ->. right. by exists a.
  - exfalso. apply K. unfold revokeDetailSessions. repeat case_match; peel.
  - exfalso. apply K. destruct (awaited p !! i) as [q|]; [|apply harmless_refl]. exact (harmless_answered q f (set_awaited (delete i (awaited p)) p)).
Qed.

(** ** One at a time *)

Definition is_deletion (q : URequest) : bool := match q with DeleteUser _ => true | _ => false end.
Definition is_purge (q : URequest) : bool := match q with PurgeUser _ => true | _ => false end.
Definition pending (k : URequest -> bool) (p : UPage) : nat := length (List.filter k (awaited p)).
(** The flag of a dialog is up while its request is awaited. *)
Definition busy_ok (p : UPage) : Prop :=
  pending is_deletion p <= (if delBusy p then 1 else 0) /\ pending is_purge p <= (if purgeBusy p then 1 else 0).
(** What the invariant looks at. *)
Definition flags (p : UPage) := (pending is_deletion p, pending is_purge p, delBusy p, purgeBusy p).
Lemma busy_same p q : flags q = flags p -> busy_ok p -> busy_ok q.
Proof. unfold flags, busy_ok. by intros [= -> -> -> ->]. Qed.

Lemma pending_delete k p i q : awaited p !! i = Some q ->
  pending k p = pending k (set_awaited (delete i (awaited p)) p) + (if k q then 1 else 0).
Proof.
  unfold pending. intros H. cbn [awaited set_awaited]. rewrite <- (take_drop_middle _ _ _ H) at 1.
  rewrite delete_take_drop, !List.filter_app, !length_app. cbn [List.filter]. destruct (k q); cbn [length]; lia.
Qed.
Lemma flags_send q r p : is_deletion q = false -> is_purge q = false -> flags r = flags p -> flags (send q r) = flags p.
Proof.
  intros H1 H2 <-. unfold flags, send, pending. users_fields. rewrite !List.filter_app, !length_app. cbn [List.filter].
  rewrite H1, H2. cbn [length]. by rewrite !Nat.add_0_r.
Qed.
Lemma flags_update f p q : (forall p, flags (f p) = flags p) -> flags q = flags p -> flags (f q) = flags p.
Proof. intros E F. by rewrite E. Qed.
Ltac peel_flags :=
  repeat lazymatch goal with
  | |- flags ?p = flags ?p => reflexivity
  | |- flags (send _ _) = _ => apply flags_send; [reflexivity|reflexivity|]
  | |- flags (?f ?v ?q) = _ => apply (flags_update (f v)); [reflexivity|]
  end.

Lemma busy_answered_same q f p : is_deletion q = false -> is_purge q = false ->
  flags (answered t num_text users_of q f p) = flags p.
Proof.
  intros H1 H2. destruct q; try done; cbn [answered]; unfold act, actJSON, detail_answered, blocked_ok, action_failed, toast, loadDetail,
    refresh, user_created, group_created, password_set; cbv zeta; repeat case_match; peel_flags.
Qed.
Lemma busy_answered q f p i : awaited p !! i = Some q -> busy_ok p ->
  busy_ok (answered t num_text users_of q f (set_awaited (delete i (awaited p)) p)).
Proof.
  intros Hq [H1 H2]. rewrite (pending_delete is_deletion _ _ _ Hq) in H1. rewrite (pending_delete is_purge _ _ _ Hq) in H2. set (r := set_awaited (delete i (awaited p)) p) in *.
  assert (B : delBusy r = delBusy p /\ purgeBusy r = purgeBusy p) by done. clearbody r. destruct B as [B1 B2]. rewrite <- B1 in H1. rewrite <- B2 in H2.
  destruct (is_deletion q || is_purge q) eqn:K.
  - destruct q; try done; cbn [is_deletion is_purge answered] in *; rewrite ?Nat.add_0_r in *.
    + unfold delete_answered. destruct (sendJSON [] f) as [|v]; [split; [destruct (delBusy r); lia|done]|]. cbv zeta.
      assert (B : busy_ok (set_delBusy false r)) by (split; [cbn [delBusy set_delBusy]; change (pending is_deletion r <= 0); destruct (delBusy r); lia|done]).
      revert B. generalize (set_delBusy false r). intros q B. destruct (refused v); [by apply (busy_same q)|].
      destruct (text_of (u "warning") v); (apply (busy_same q); [|exact B]); unfold toast, refresh; peel_flags.
    + unfold purge_answered. destruct (sendJSON [] f) as [|v]; [split; [done|destruct (purgeBusy r); lia]|]. cbv zeta.
      assert (B : busy_ok (set_purgeBusy false r)) by (split; [done|cbn [purgeBusy set_purgeBusy]; change (pending is_purge r <= 0); destruct (purgeBusy r); lia]).
      revert B. generalize (set_purgeBusy false r). intros q B. destruct (refused v); (apply (busy_same q); [|exact B]); unfold toast, refresh; peel_flags.
  - apply orb_false_iff in K as [K1 K2]. rewrite K1, K2, Nat.add_0_r in *. apply (busy_same r); [by apply busy_answered_same|by split].
Qed.
Lemma busy_step e p : busy_ok p -> busy_ok (handle e p).
Proof.
  intros H. destruct e as [| | |a i| | | |g b| | | | | | | | | | | | | | | | | | | | |i f]; cbn [users_handle]; unfold open_group, edit_group;
    try (apply (busy_same p); [by peel_flags|exact H]).
  - apply (busy_same p); [|exact H]. case_bool_decide; [|done]. destruct i; cbn [menu_click];
      unfold openDetail, loadDetail, guarded, unblockUser, guarded, openDelete, openPurge; repeat case_match; peel_flags.
  - apply (busy_same p); [|exact H]. unfold guarded. repeat case_match; peel_flags.
  - apply (busy_same p); [|exact H]. unfold createUser, guarded. repeat case_match; peel_flags.
  - apply (busy_same p); [|exact H]. unfold createGroup, guarded. repeat case_match; peel_flags.
  - apply (busy_same p); [|exact H]. unfold submitPassword, guarded. repeat case_match; peel_flags.
  - apply (busy_same p); [|exact H]. unfold submitBlock. repeat case_match; peel_flags.
  - unfold submitDelete. destruct (delUser p) as [a|]; [|exact H]. destruct (delBusy p) eqn:EB; [exact H|]. cbn [orb].
    destruct (negb _); [exact H|]. destruct H as [H1 H2]. rewrite EB in H1. unfold busy_ok, send, pending in *. users_fields.
    rewrite !List.filter_app, !length_app. cbn [List.filter is_deletion is_purge length]. rewrite Nat.add_0_r. split; [lia|done].
  - unfold submitPurge. destruct (purgeUser p) as [a|]; [|exact H]. destruct (purgeBusy p) eqn:EB; [exact H|]. cbn [orb].
    destruct (negb _); [exact H|]. destruct H as [H1 H2]. rewrite EB in H2. unfold busy_ok, send, pending in *. users_fields.
    rewrite !List.filter_app, !length_app. cbn [List.filter is_deletion is_purge length]. rewrite Nat.add_0_r. split; [done|lia].
  - apply (busy_same p); [|exact H]. unfold revokeDetailSessions. repeat case_match; peel_flags.
  - destruct (awaited p !! i) as [q|] eqn:E; [|exact H]. by apply busy_answered.
Qed.
Lemma busy_run es p : busy_ok p -> busy_ok (run es p).
Proof. revert p. induction es as [|e es IH]; intros p H; [done|]. apply IH. by apply busy_step. Qed.
Lemma busy_start initial fresh : busy_ok (users_start initial fresh).
Proof. unfold users_start. destruct initial; [destruct fresh|]; split; cbn; lia. Qed.
Lemma none_pending k p : pending k p <= 0 -> forall q, q ∈ awaited p -> k q = false.
Proof.
  unfold pending. intros H q Hq. destruct (k q) eqn:E; [|done].
  assert (I : In q (List.filter k (awaited p))) by (apply filter_In; split; [by apply list_elem_of_In|done]).
  destruct (List.filter k (awaited p)); [done|]. cbn [length] in H. lia.
Qed.

(** C19: Nothing is deleted or purged by accident.  Whatever happened before, the
    request to delete or purge an account leaves only from the button of its
    dialog, open on that account, with DELETE typed in it, while no other
    request of its kind is awaited; and it is for a local account that has a row
    in the table of accounts, or, for a purge, one that comes from elsewhere. *)
Theorem irreversible_typed initial fresh es e x : let p := run es (users_start initial fresh) in
  x ∈ sent p (handle e p) -> irreversible x = true ->
  (exists a, e = USubmitDelete /\ x = Asked (DeleteUser a) /\ delUser p = Some a /\ delConfirm p = u "DELETE" /\
     (forall q, q ∈ awaited p -> is_deletion q = false) /\ managed a = true /\ user_id a <> None) \/
  (exists a, e = USubmitPurge /\ x = Asked (PurgeUser a) /\ purgeUser p = Some a /\ purgeConfirm p = u "DELETE" /\
     (forall q, q ∈ awaited p -> is_purge q = false) /\ managed a = false).
Proof.
  intros p Hx Hi. destruct (dialogs_run es _ (dialogs_start initial fresh)) as [H1 H2].
  destruct (busy_run es _ (busy_start initial fresh)) as [B1 B2]. fold p in H1, H2, B1, B2.
  destruct (irreversible_step e p x Hx Hi) as [(a & He & Ha & Hd & Hc & Hb)|(a & He & Ha & Hd & Hc & Hb)].
  - left. exists a. destruct (H1 a Hd). rewrite Hb in B1. repeat split; try done. by apply none_pending.
  - right. exists a. specialize (H2 a Hd). rewrite Hb in B2. repeat split; try done. by apply none_pending.
Qed.
End spec.

(** ** What the section does not do *)

#[local] Abbreviation fr := (fun x : jstr => x) (only parsing).
#[local] Abbreviation nt := (fun _ : num => []) (only parsing).
Definition no_data : json -> UsersData := fun _ => mkUsers [] [] None.
#[local] Abbreviation play := (users_run fr nt (u "csrf") no_data) (only parsing).
Definition account (name : jstr) (is_local : bool) : LocalUser :=
  mkUser name None [] is_local (if is_local then Some 7%Z else None) None true false false None None false false None 0 None [].
Definition opened : UPage := users_start (Some (mkUsers [] [] None)) true.
Definition typed (name : jstr) : UPage := play [UMenu (account name true) MDelete; UDelConfirm (u "DELETE"); USubmitDelete] opened.

(** An error whose body is not JSON (a proxy's page, say) is read as an empty
    object, which is not a refusal: the deletion is announced. *)
Lemma error_page_taken_for_success :
  let p := play [UAnswered 0 (Got (mkResponse 502 None None))] (typed (u "bob")) in
  In (Toast (u "Compte supprimé.") false) (asked p) /\ delUser p = None.
Proof. vm_compute. split; [tauto|reflexivity]. Qed.
Lemma error_page_taken_for_block :
  In (Toast (u "Compte bloqué.") false)
    (asked (play [UMenu (account (u "bob") true) MBlock; USubmitBlock; UAnswered 0 (Got (mkResponse 502 None None))] opened)).
Proof. vm_compute. tauto. Qed.
(** A deletion whose request rejects leaves the section busy: no other one can
    be sent. *)
Lemma lost_deletion_blocks :
  let p := play [UAnswered 0 Rejected; UCloseDelete; UMenu (account (u "eve") true) MDelete; UDelConfirm (u "DELETE")] (typed (u "bob")) in
  delBusy p = true /\ asked (users_handle fr nt (u "csrf") no_data USubmitDelete p) = asked p.
Proof. vm_compute. split; reflexivity. Qed.
(** The answer to a deletion closes the dialog opened for another account. *)
Lemma deletion_closes_other_dialog :
  let p := play [UCloseDelete; UMenu (account (u "eve") true) MDelete] (typed (u "bob")) in
  (username <$> delUser p) = Some (u "eve") /\
  delUser (users_handle fr nt (u "csrf") no_data (UAnswered 0 (Got (mkResponse 200 None (Some (JObj [(u "ok", JBool true)]))))) p) = None.
Proof. vm_compute. split; reflexivity. Qed.
(** The detail of an account, answered late, is shown in the drawer of another. *)
Lemma late_detail_under_other_name :
  let bob := JObj [(u "username", JStr (u "bob"))] in
  let eve := JObj [(u "username", JStr (u "eve"))] in
  let p := play [UMenu (account (u "bob") true) MDetails; UCloseDetail; UMenu (account (u "eve") true) MDetails;
                 UAnswered 1 (Got (mkResponse 200 None (Some eve))); UAnswered 0 (Got (mkResponse 200 None (Some bob)))] opened in
  (username <$> detailUser p) = Some (u "eve") /\ detail p = Some bob.
Proof. vm_compute. split; reflexivity. Qed.

Example periods : quotaPeriod None = (u "/ semaine", None) /\ quotaPeriod (Some (u " 1d")) = (u "/ jour", None) /\
  fst (quotaPeriod (Some (u "30 d"))) = u "/ {n} jours" /\ quotaPeriod (Some (u "1mo")) = (u "/ période", None).
Proof. vm_compute. repeat split; reflexivity. Qed.

(** A deletion answered, then another. *)
Theorem irreversible_typed_witness :
  let es := [UMenu (account (u "bob") true) MDelete; UDelConfirm (u "DELETE"); USubmitDelete;
             UAnswered 0 (Got (mkResponse 200 None (Some (JObj [(u "ok", JBool true)]))));
             UMenu (account (u "eve") true) MDelete; UDelConfirm (u "DELETE")] in
  let p := play es opened in
  (exists a, USubmitDelete = USubmitDelete /\ Asked (DeleteUser (account (u "eve") true)) = Asked (DeleteUser a) /\ delUser p = Some a /\
     delConfirm p = u "DELETE" /\ (forall q, q ∈ awaited p -> is_deletion q = false) /\ managed a = true /\ user_id a <> None) \/
  (exists a, USubmitDelete = USubmitPurge /\ Asked (DeleteUser (account (u "eve") true)) = Asked (PurgeUser a) /\ purgeUser p = Some a /\
     purgeConfirm p = u "DELETE" /\ (forall q, q ∈ awaited p -> is_purge q = false) /\ managed a = false).
Proof.
  intros es p. apply (irreversible_typed fr nt (u "csrf") no_data (Some (mkUsers [] [] None)) true es USubmitDelete
    (Asked (DeleteUser (account (u "eve") true)))).
  - vm_compute. apply list_elem_of_here.
  - reflexivity.
Defined.
