(* ===== verification/Admin.v ===== *)
(** * The administration page (app/(app)/admin/AdminPage.tsx, tabs.ts, _components/ModelsTab.tsx, ConfirmActionDialog.tsx)

    The data layer of the page: one poll, the log stream, the logs of the
    sidecars, and the single entry point of the actions, [act], with its lock;
    and the models tab, the main client of [act].  The requests awaited are in
    the state with what follows them ([Cont]: what the handler that called [act]
    does after it).  The busy flag and its ref are one. *)

From S2P Require Import Prelude JsInt JsJson JsNumber JsRegExp Api I18n.
Local Open Scope flow_scope.

(** ** The data *)

Inductive TabId := Overview | Models | UsersTab | Requests | Config | System.
#[export] Instance TabId_eq_dec : EqDecision TabId.
Proof. solve_decision. Defined.
Definition TABS : list (jstr * TabId) :=
  [(u "overview", Overview); (u "models", Models); (u "users", UsersTab); (u "requests", Requests); (u "config", Config); (u "system", System)].
Definition DEFAULT_TAB : TabId := Overview.
Definition tabFrom (raw : option jstr) : TabId :=
  match raw with Some ((_ :: _) as s) => default DEFAULT_TAB (assoc_get s TABS) | _ => DEFAULT_TAB end.

Record ModelCfg := mkCfg { cfg_id : Z; cfg_name : jstr; cfg_hf : jstr; cfg_engine : jstr; cfg_args : jstr }.
(** An entry of the OCR or voice catalog: its second text is the identifier. *)
Record SideCfg := mkSide { side_id : Z; side_name : jstr; side_ref : jstr }.
Inductive Service := Ocr | Video | Voice | Asr | Image | DecisionsEngine.
Record Decisions := mkDecisions { dec_status : jstr; dec_model : jstr; dec_enabled : option bool }.
Record AdminData := mkAdmin {
  v_status : jstr; v_model : jstr; init_logs : list jstr; maintenance_mode : bool; side_status : Service -> jstr; side_model : Service -> jstr;
  asr_load_error : jstr; decisions : option Decisions; model_cfgs : list ModelCfg; ocr_cfgs : list SideCfg; voice_cfgs : list SideCfg;
  image_model_ids : list jstr
}.
Record Download := mkDownload { dl_running : bool; dl_repo : jstr; dl_bytes : num; dl_total : option num; dl_error : jstr }.
Inductive LogKind := LLM | SideLog (s : Service).
#[export] Instance Service_eq_dec : EqDecision Service.
Proof. solve_decision. Defined.
#[export] Instance LogKind_eq_dec : EqDecision LogKind.
Proof. solve_decision. Defined.
Definition MAX_LOG_LINES : nat := 600.

Inductive ConfirmAction := StopModel | Launch (name : jstr) | DeleteModel (id : Z) (name : jstr) | Maintenance.
Record OcrForm := mkOcr { oc_name : jstr; oc_hf : jstr; oc_args : jstr }.
Record VoiceForm := mkVoice { vo_name : jstr; vo_repo : jstr }.
Record ModelForm := mkForm { mf_name : jstr; mf_hf : jstr; mf_engine : jstr; mf_args : jstr }.
Definition no_ocr : OcrForm := mkOcr [] [] [].
Definition no_voice : VoiceForm := mkVoice [] (u "Qwen3-TTS-12Hz-1.7B-Base").
Definition no_model : ModelForm := mkForm [] [] (u "vllm") [].
Inductive CatalogKind := KLlm | KOcr | KVoice | KVideo | KImage | KDecisions.

(** The actions: the four that are confirmed, the others by their route. *)
Inductive Action :=
| Confirmed (a : ConfirmAction) | Start (s : Service) | Stop (s : Service) | DownloadWeights (name repo : jstr) | EditArgs (c : ModelCfg) (args : jstr)
| AddModel (f : ModelForm) | OcrLaunch (name : jstr) | OcrDelete (id : Z) | OcrAdd (f : OcrForm)
| VoiceLaunch (name : jstr) | VoiceDelete (id : Z) | VoiceAdd (f : VoiceForm) | ImageLaunch (id : jstr) | OtherAction (url : jstr) (params : list (jstr * jstr)).
(** The route of an action and its parameters. *)
Definition service_url (s : Service) (verb : jstr) : jstr :=
  match s with
  | Ocr => u "/admin/ocr/" | Video => u "/admin/video/" | Voice => u "/admin/voice/" | Asr => u "/admin/asr/" | Image => u "/admin/image/"
  | DecisionsEngine => u "/api/decisions/"
  end ++ verb.
Definition action_request (a : Action) : jstr * list (jstr * jstr) :=
  match a with
  | Confirmed StopModel => (u "/admin/model/stop", [])
  | Confirmed (Launch name) => (u "/admin/model/launch", [(u "model_name", name)])
  | Confirmed (DeleteModel id _) => (u "/admin/model/delete/" ++ string_of_Z id, [(u "confirm", u "1")])
  | Confirmed Maintenance => (u "/admin/maintenance/toggle", [])
  | Start s => (service_url s (u "start"), [])
  | Stop s => (service_url s (u "stop"), [])
  | DownloadWeights name repo => (u "/admin/model/download", [(u "model_name", name); (u "repo", repo)])
  | EditArgs c args =>
      (u "/admin/model/edit/" ++ string_of_Z (cfg_id c),
       [(u "name", cfg_name c); (u "hf_model_id", cfg_hf c); (u "vllm_args", args); (u "engine", cfg_engine c)])
  | AddModel f =>
      (u "/admin/model/add", [(u "name", mf_name f); (u "hf_model_id", mf_hf f); (u "engine", mf_engine f); (u "vllm_args", mf_args f)])
  | OcrLaunch name => (u "/admin/ocr/catalog/launch", [(u "ocr_name", name)])
  | OcrDelete id => (u "/admin/ocr/catalog/delete/" ++ string_of_Z id, [])
  | OcrAdd f => (u "/admin/ocr/catalog/add", [(u "name", oc_name f); (u "hf_model_id", oc_hf f); (u "vllm_args", oc_args f)])
  | VoiceLaunch name => (u "/admin/voice/catalog/launch", [(u "voice_name", name)])
  | VoiceDelete id => (u "/admin/voice/catalog/delete/" ++ string_of_Z id, [])
  | VoiceAdd f => (u "/admin/voice/catalog/add", [(u "name", vo_name f); (u "repo_id", vo_repo f)])
  | ImageLaunch id => (u "/admin/image/launch", [(u "model_id", id)])
  | OtherAction url params => (url, params)
  end.
(** What follows an action, in the mount of the tab that asked for it. *)
Inductive Cont := Nothing | ReadDownload | ClearOcr | ClearVoice | CloseEdit | CloseAdd.
Inductive ARequest :=
| GetAdmin (primer : bool) | GetAudit | GetPlatform | GetSidecar (k : LogKind) (epoch : nat) | GetDownload (mount : nat)
| Act (a : Action) (k : Cont) (mount : nat).
Inductive AEffect := Asked (q : ARequest) | Toast (body : jstr) (error : bool).
(** What an answer holds; a missing part is a request that rejects
    ([r_forbidden]: with a 403). *)
Record AReply := mkReply {
  r_fetched : Fetched; r_admin : option AdminData; r_forbidden : bool; r_audit : option (list jstr); r_platform : option json;
  r_logs : option (list jstr); r_download : option Download
}.

(** The state of the models tab, lost when the tab is left. *)
Record ModelsState := mkModels {
  newOcr : OcrForm; newVoice : VoiceForm; catalogKind : CatalogKind; catalogFilter : jstr;
  dl : option Download; dlRepo : list (jstr * jstr); editing : option (ModelCfg * jstr);
  adding : option ModelForm
}.

Definition set_newOcr v m := mkModels v (newVoice m) (catalogKind m) (catalogFilter m) (dl m) (dlRepo m) (editing m) (adding m).
Definition set_newVoice v m := mkModels (newOcr m) v (catalogKind m) (catalogFilter m) (dl m) (dlRepo m) (editing m) (adding m).
Definition set_catalogKind v m := mkModels (newOcr m) (newVoice m) v (catalogFilter m) (dl m) (dlRepo m) (editing m) (adding m).
Definition set_catalogFilter v m := mkModels (newOcr m) (newVoice m) (catalogKind m) v (dl m) (dlRepo m) (editing m) (adding m).
Definition set_dl v m := mkModels (newOcr m) (newVoice m) (catalogKind m) (catalogFilter m) v (dlRepo m) (editing m) (adding m).
Definition set_dlRepo v m := mkModels (newOcr m) (newVoice m) (catalogKind m) (catalogFilter m) (dl m) v (editing m) (adding m).
Definition set_editing v m := mkModels (newOcr m) (newVoice m) (catalogKind m) (catalogFilter m) (dl m) (dlRepo m) v (adding m).
Definition set_adding v m := mkModels (newOcr m) (newVoice m) (catalogKind m) (catalogFilter m) (dl m) (dlRepo m) (editing m) v.

Record APage := mkAPage {
  data : option AdminData; forbidden : bool; logs : list jstr; audit : list jstr; logKind : LogKind;
  sidecarLogs : list jstr; epoch : nat; platform : option json; busy : bool;
  confirmAction : option ConfirmAction; tab : TabId; mount : nat; models : ModelsState;
  awaited : list ARequest; asked : list AEffect
}.

Definition set_data v p := mkAPage v (forbidden p) (logs p) (audit p) (logKind p) (sidecarLogs p) (epoch p) (platform p) (busy p) (confirmAction p) (tab p) (mount p) (models p) (awaited p) (asked p).
Definition set_forbidden v p := mkAPage (data p) v (logs p) (audit p) (logKind p) (sidecarLogs p) (epoch p) (platform p) (busy p) (confirmAction p) (tab p) (mount p) (models p) (awaited p) (asked p).
Definition set_logs v p := mkAPage (data p) (forbidden p) v (audit p) (logKind p) (sidecarLogs p) (epoch p) (platform p) (busy p) (confirmAction p) (tab p) (mount p) (models p) (awaited p) (asked p).
Definition set_audit v p := mkAPage (data p) (forbidden p) (logs p) v (logKind p) (sidecarLogs p) (epoch p) (platform p) (busy p) (confirmAction p) (tab p) (mount p) (models p) (awaited p) (asked p).
Definition set_logKind v p := mkAPage (data p) (forbidden p) (logs p) (audit p) v (sidecarLogs p) (epoch p) (platform p) (busy p) (confirmAction p) (tab p) (mount p) (models p) (awaited p) (asked p).
Definition set_sidecarLogs v p := mkAPage (data p) (forbidden p) (logs p) (audit p) (logKind p) v (epoch p) (platform p) (busy p) (confirmAction p) (tab p) (mount p) (models p) (awaited p) (asked p).
Definition set_epoch v p := mkAPage (data p) (forbidden p) (logs p) (audit p) (logKind p) (sidecarLogs p) v (platform p) (busy p) (confirmAction p) (tab p) (mount p) (models p) (awaited p) (asked p).
Definition set_platform v p := mkAPage (data p) (forbidden p) (logs p) (audit p) (logKind p) (sidecarLogs p) (epoch p) v (busy p) (confirmAction p) (tab p) (mount p) (models p) (awaited p) (asked p).
Definition set_busy v p := mkAPage (data p) (forbidden p) (logs p) (audit p) (logKind p) (sidecarLogs p) (epoch p) (platform p) v (confirmAction p) (tab p) (mount p) (models p) (awaited p) (asked p).
Definition set_confirmAction v p := mkAPage (data p) (forbidden p) (logs p) (audit p) (logKind p) (sidecarLogs p) (epoch p) (platform p) (busy p) v (tab p) (mount p) (models p) (awaited p) (asked p).
Definition set_tab v p := mkAPage (data p) (forbidden p) (logs p) (audit p) (logKind p) (sidecarLogs p) (epoch p) (platform p) (busy p) (confirmAction p) v (mount p) (models p) (awaited p) (asked p).
Definition set_mount v p := mkAPage (data p) (forbidden p) (logs p) (audit p) (logKind p) (sidecarLogs p) (epoch p) (platform p) (busy p) (confirmAction p) (tab p) v (models p) (awaited p) (asked p).
Definition set_models v p := mkAPage (data p) (forbidden p) (logs p) (audit p) (logKind p) (sidecarLogs p) (epoch p) (platform p) (busy p) (confirmAction p) (tab p) (mount p) v (awaited p) (asked p).
Definition set_awaited v p := mkAPage (data p) (forbidden p) (logs p) (audit p) (logKind p) (sidecarLogs p) (epoch p) (platform p) (busy p) (confirmAction p) (tab p) (mount p) (models p) v (asked p).
Definition emit (e : AEffect) p := mkAPage (data p) (forbidden p) (logs p) (audit p) (logKind p) (sidecarLogs p) (epoch p) (platform p) (busy p) (confirmAction p) (tab p) (mount p) (models p) (awaited p) (asked p ++ [e]).

(** Reading a field through the updates. *)
Ltac admin_fields :=
  cbn [data forbidden logs audit logKind sidecarLogs epoch platform busy confirmAction tab mount models awaited asked
       set_data set_forbidden set_logs set_audit set_logKind set_sidecarLogs set_epoch set_platform set_busy set_confirmAction set_tab set_mount set_models set_awaited emit] in *.

Definition models_start : ModelsState := mkModels no_ocr no_voice KLlm [] None [] None None.

Section admin.
Context (t : jstr -> jstr) (csrf : jstr).

Definition send (q : ARequest) (p : APage) : APage := p |> set_awaited (awaited p ++ [q]) |> emit (Asked q).
Definition toast (body : jstr) (error : bool) (p : APage) : APage := emit (Toast body error) p.

(** ** The polls and the logs *)

Definition refresh (primer : bool) (p : APage) : APage := p |> send (GetAdmin primer) |> send GetAudit |> send GetPlatform.
(** What the seed gives, and what of it is fresh. *)
Record AdminSeed := mkSeed {
  s_admin : option AdminData; s_audit : option (list jstr); s_platform : option json; s_forbidden : bool;
  fresh_admin : bool; fresh_audit : bool; fresh_platform : bool
}.
Definition allServed (s : AdminSeed) : bool := (fresh_admin s && fresh_audit s && fresh_platform s) || s_forbidden s.
Definition admin_start (s : AdminSeed) (initialTab : TabId) : APage :=
  let p := mkAPage (s_admin s) (s_forbidden s) (match s_admin s with Some d => init_logs d | None => [] end) (default [] (s_audit s))
             LLM [] 0 (s_platform s) false None initialTab 0 models_start [] [] in
  if allServed s then p else refresh true p.

Definition poll (p : APage) : APage := if forbidden p then p else refresh false p.
(** The access is known forbidden: the effects that depend on it are cleaned. *)
Definition forbid (p : APage) : APage := if forbidden p then p else p |> set_forbidden true |> set_epoch (S (epoch p)).
(** The log stream; [slice(-MAX_LOG_LINES)]. *)
Definition last_lines (l : list jstr) : list jstr := drop (length l - MAX_LOG_LINES) l.
Inductive StreamEvent := Opened | Line (s : jstr) | Cleared.
Definition stream (e : StreamEvent) (p : APage) : APage :=
  if forbidden p then p
  else match e with
       | Opened | Cleared => set_logs [] p
       | Line s => set_logs (last_lines (logs p ++ [s])) p
       end.
(** The logs of the sidecar chosen: read at once, then by an interval. *)
Definition load_sidecar (p : APage) : APage :=
  if forbidden p || bool_decide (logKind p = LLM) then p else send (GetSidecar (logKind p) (epoch p)) p.
Definition onLogKindChange (k : LogKind) (p : APage) : APage :=
  let q := p |> set_sidecarLogs [] |> set_logKind k in
  if bool_decide (k = logKind p) then q else q |> set_epoch (S (epoch p)) |> load_sidecar.

(** ** The actions *)

Definition actionDisabled (p : APage) : bool := busy p || streq csrf [].
Definition in_tab (n : nat) (f : ModelsState -> ModelsState) (p : APage) : APage :=
  if (n =? mount p) && bool_decide (tab p = Models) then set_models (f (models p)) p else p.
(** [refreshDl] *)
Definition refreshDl (n : nat) (p : APage) : APage := send (GetDownload n) p.
(** What the caller does with the result ([warning] of a success). *)
Definition continue (k : Cont) (n : nat) (ok : bool) (warning : option jstr) (p : APage) : APage :=
  match k with
  | Nothing => p
  | ReadDownload => refreshDl n p
  | ClearOcr => in_tab n (set_newOcr no_ocr) p
  | ClearVoice => in_tab n (set_newVoice no_voice) p
  | CloseEdit =>
      if ok then
        let p := in_tab n (set_editing None) p in
        match warning with Some ((_ :: _) as w) => toast w true p | _ => p end
      else p
  | CloseAdd => if ok then in_tab n (set_adding None) p else p
  end.
Definition act (a : Action) (k : Cont) (p : APage) : APage :=
  if streq csrf [] || busy p then continue k (mount p) false None p
  else p |> set_busy true |> send (Act a k (mount p)).
(** The verdict on an answer: what is said, whether it is a success, its
    warning. *)
Record ActVerdict := mkActVerdict { said : list (jstr * bool); act_ok : bool; act_warning : option jstr }.
Definition verdict (f : Fetched) : ActVerdict :=
  match authFetch f with
  | inl _ => mkActVerdict [(t (u "Échec de l'action."), true)] false None
  | inr res =>
      let body := default JNull (r_json res) in
      let warning := match prop (u "warning") body with Some (JStr s) => Some s | _ => None end in
      if (status res =? 403)%Z then mkActVerdict [(t (u "Accès refusé."), true)] false None
      else if (400 <=? status res)%Z || negb (truthy body) || match prop (u "ok") body with Some (JBool false) => true | _ => false end then
        mkActVerdict [(match text_of (u "error") body with Some e => tServer e t | None => t (u "Échec de l'action.") end, true)] false warning
      else
        mkActVerdict ((match text_of (u "message") body with Some m => tServer m t | None => t (u "Action effectuée.") end, false)
                   :: match warning with Some ((_ :: _) as w) => [(tServer w t, true)] | _ => [] end) true warning
  end.
Definition act_answered (k : Cont) (n : nat) (f : Fetched) (p : APage) : APage :=
  let v := verdict f in
  foldl (fun p x => toast x.1 x.2 p) p (said v) |> set_busy false |> refresh false |> continue k n (act_ok v) (act_warning v).

(** The action of the dialog, once confirmed. *)
Definition runConfirmedAction (a : ConfirmAction) (p : APage) : APage := act (Confirmed a) Nothing p.
Definition confirm (p : APage) : APage :=
  match confirmAction p with
  | Some a => if actionDisabled p then p else p |> runConfirmedAction a |> set_confirmAction None
  | None => p
  end.
(** What the dialog shows: its title, its sentence, the label and the look of its
    button. *)
Inductive ButtonLook := Primary | Secondary | Destructive.
Definition dialog_text (a : ConfirmAction) (maintenanceActive : bool) : jstr * jstr * jstr * ButtonLook :=
  match a with
  | StopModel =>
      (t (u "Arrêter le modèle servi ?"),
       t (u "Le modèle va être coupé : toutes les générations en cours, pour tous les utilisateurs, seront interrompues."), t (u "Arrêter"), Destructive)
  | Launch name =>
      (replace_str (t (u "Lancer {name} ?")) (u "{name}") name,
       t (u "Le modèle sera chargé en mémoire unifiée — le lancement peut prendre plusieurs minutes."), t (u "Lancer"), Primary)
  | DeleteModel _ name =>
      (replace_str (t (u "Supprimer {name} ?")) (u "{name}") name,
       t (u "Le modèle sera retiré du catalogue et du routage LiteLLM, et ses fichiers seront effacés du disque (sauf s'ils servent à un autre modèle). Pour le retélécharger, il faudra le réinstaller. Un modèle en cours doit d'abord être arrêté."),
       t (u "Supprimer"), Destructive)
  | Maintenance =>
      if maintenanceActive then
        (t (u "Désactiver le mode maintenance ?"), t (u "Le trafic non-admin vers les routes de génération sera de nouveau accepté."), t (u "Désactiver"), Secondary)
      else
        (t (u "Activer le mode maintenance ?"), t (u "Le trafic non-admin vers les routes de génération sera refusé ; les admins gardent l'accès."), t (u "Activer"), Secondary)
  end.

(** ** The answers *)

Definition admin_answered (primer : bool) (r : AReply) (p : APage) : APage :=
  match r_admin r with
  | Some d => let p := set_data (Some d) p in if primer then set_logs (init_logs d) p else p
  | None => if r_forbidden r then forbid p else p
  end.
Definition answered (q : ARequest) (r : AReply) (p : APage) : APage :=
  match q with
  | GetAdmin primer => admin_answered primer r p
  | GetAudit => match r_audit r with Some l => set_audit l p | None => p end
  | GetPlatform => set_platform (r_platform r) p
  | GetSidecar _ e => if e =? epoch p then set_sidecarLogs (default [] (r_logs r)) p else p
  | GetDownload n => match r_download r with Some d => in_tab n (set_dl (Some d)) p | None => p end
  | Act _ k n => act_answered k n (r_fetched r) p
  end.

(** ** The models tab *)

Definition is_local (c : ModelCfg) : bool := starts_with (cfg_hf c) (u "local:").
Definition download_weights (c : ModelCfg) (p : APage) : APage :=
  act (DownloadWeights (cfg_name c) (if is_local c then trim (default [] (assoc_get (cfg_name c) (dlRepo (models p)))) else [])) ReadDownload p.
Definition download_disabled (p : APage) : bool := actionDisabled p || match dl (models p) with Some d => dl_running d | None => false end.
Definition open_args (c : ModelCfg) (p : APage) : APage := in_tab (mount p) (set_editing (Some (c, cfg_args c))) p.
Definition save_args (p : APage) : APage :=
  match editing (models p) with Some (c, args) => act (EditArgs c args) CloseEdit p | None => p end.
Definition add_disabled (p : APage) (f : ModelForm) : bool := actionDisabled p || streq (trim (mf_name f)) [] || streq (trim (mf_hf f)) [].
Definition add_model (p : APage) : APage :=
  match adding (models p) with
  | Some f => if add_disabled p f then p else act (AddModel (mkForm (trim (mf_name f)) (trim (mf_hf f)) (mf_engine f) (mf_args f))) CloseAdd p
  | None => p
  end.

(** What each engine expects: its name, the kind of identifier, an example of one
    and of arguments. *)
Record EngineInfo := mkEngine { en_label : jstr; en_id : jstr; en_exampleId : jstr; en_args : jstr }.
Definition vllm_engine : EngineInfo :=
  mkEngine (u "vLLM (safetensors)") (u "Dépôt Hugging Face (organisation/modèle).") (u "Qwen/Qwen3-8B")
    (u "--max-model-len 32768 --gpu-memory-utilization 0.85").
Definition ENGINES : list (jstr * EngineInfo) :=
  let gguf := u "Dépôt Hugging Face, ou local:<dossier> pour un GGUF déjà téléchargé." in
  [(u "vllm", vllm_engine);
   (u "vllm-docker", mkEngine (u "vLLM (conteneur Docker)") (en_id vllm_engine) (u "nvidia/NVIDIA-Nemotron-3.5-Super-VL-120B-A12B-NVFP4")
      (u "--max-model-len 1048576 --max-num-seqs 4 --gpu-memory-utilization 0.75"));
   (u "llamacpp", mkEngine (u "llama.cpp (GGUF)") gguf (u "local:qwen38-27b-gguf")
      (u "--ctx-size 262144 --parallel 4 --n-gpu-layers 999 --flash-attn on"));
   (u "ds4", mkEngine (u "ds4 (GGUF NVFP4)") gguf (u "local:deepseek-v4-flash") (u "--ctx-size 131072"))].
(** The hints under the fields of the form: the kind of identifier, the examples
    of a name, of an identifier and of arguments. *)
Definition engine_hint (f : ModelForm) : jstr * list jstr :=
  let e := default vllm_engine (assoc_get (mf_engine f) ENGINES) in
  (t (en_id e), map (replace_str (t (u "ex. {v}")) (u "{v}")) [u "qwen3-8b"; en_exampleId e; en_args e]).

(** The catalog, filtered by name and identifier. *)
Definition catalog_match (filter : jstr) (fields : list jstr) : bool :=
  let q := to_lower (trim filter) in streq q [] || existsb (fun f => includes (to_lower f) q) fields.
Definition llmCfgs (p : APage) : list ModelCfg :=
  List.filter (fun c => catalog_match (catalogFilter (models p)) [cfg_name c; cfg_hf c]) (match data p with Some d => model_cfgs d | None => [] end).
Definition sideCfgs (p : APage) (l : AdminData -> list SideCfg) : list SideCfg :=
  List.filter (fun c => catalog_match (catalogFilter (models p)) [side_name c; side_ref c]) (match data p with Some d => l d | None => [] end).
Definition imageIds (p : APage) : list jstr :=
  List.filter (fun m => catalog_match (catalogFilter (models p)) [m]) (match data p with Some d => image_model_ids d | None => [] end).

(** [x.toFixed(0)] of a number that is not negative. *)
Definition to_fixed0 (x : num) : jstr := int_text (math_round x) x.
Definition UNITS : list jstr := [u "o"; u "Ko"; u "Mo"; u "Go"; u "To"].
(** The loop of [go]: at most four divisions. *)
Fixpoint scale (n i : nat) (x : num) : nat * num :=
  match n with
  | 0 => (i, x)
  | S n => if nle (num_of_Z 1024) x then scale n (S i) (ndiv x (num_of_Z 1024)) else (i, x)
  end.
Definition go (n : option num) : jstr :=
  let '(i, x) := scale (length UNITS - 1) 0 (default (num_of_Z 0) n) in
  (if nle (num_of_Z 10) x || (i =? 0) then to_fixed0 x else to_fixed1 x) ++ u " " ++ default [] (UNITS !! i).
Definition percent (d : Download) (total : num) : jstr :=
  let r := nmul (ndiv (dl_bytes d) total) (num_of_Z 100) in
  match math_round r with Some z => string_of_Z (Z.min 99 z) | None => int_text None (nmin (num_of_Z 99) r) end ++ u " %".
Definition truthy_num (o : option num) : option num := match o with Some (S754_zero _) | Some S754_nan => None | o => o end.
(** The card of the download: title, badge, sizes. *)
Definition download_card (d : Download) : option (jstr * jstr * jstr) :=
  if dl_running d || negb (streq (dl_repo d) []) then
    Some (if dl_running d then t (u "Téléchargement de {r}") else t (u "Téléchargement terminé : {r}"),
          if dl_running d then match truthy_num (dl_total d) with Some n => percent d n | None => t (u "en cours") end
          else match dl_error d with [] => t (u "Terminé") | _ => t (u "Échec") end,
          go (Some (dl_bytes d)) ++ match truthy_num (dl_total d) with Some n => u " / " ++ go (Some n) | None => [] end
          ++ match dl_error d with [] => [] | e => u " — " ++ e end)
  else None.

Inductive Dot := DotSuccess | DotWarning | DotError | DotNeutral.
Definition st_is (s : jstr) (l : list jstr) : bool := existsb (streq s) l.
Definition llm_dot (s : jstr) : Dot * jstr :=
  if streq s (u "running") then (DotSuccess, t (u "En ligne")) else if streq s (u "starting") then (DotWarning, t (u "Démarrage…"))
  else if streq s (u "error") then (DotError, t (u "Erreur"))
  else (DotNeutral, if streq s (u "unreachable") then t (u "Runner inaccessible") else t (u "Arrêté")).
Definition side_dot (s : jstr) : Dot * jstr :=
  if streq s (u "running") then (DotSuccess, t (u "En ligne")) else if streq s (u "starting") then (DotWarning, t (u "Démarrage…"))
  else if streq s (u "failed") then (DotError, t (u "Échec du chargement")) else if streq s (u "stopped") then (DotNeutral, t (u "Arrêté"))
  else (DotError, t (u "Injoignable")).
(** Whether the button of a service stops it; the dictation that failed to load
    holds its container. *)
Definition stops (s : Service) (st : jstr) : bool :=
  st_is st [u "running"; u "starting"] || match s with Asr => streq st (u "failed") | _ => false end.
Definition service_status (d : AdminData) (s : Service) : jstr :=
  match s with DecisionsEngine => match decisions d with Some x => dec_status x | None => [] end | _ => side_status d s end.
Definition service_button (d : AdminData) (s : Service) : Action := if stops s (service_status d s) then Stop s else Start s.
(** The decisions without their model cannot be started. *)
Definition service_disabled (d : AdminData) (s : Service) : bool :=
  match s, service_button d s, decisions d with
  | DecisionsEngine, Start _, Some x => bool_decide (dec_enabled x = Some false)
  | _, _, _ => false
  end.
(** The model served has a button only to stop it, through the dialog. *)
Definition llm_button (d : AdminData) : option ConfirmAction :=
  if st_is (v_status d) [u "running"; u "starting"] then Some StopModel else None.
(** The name on the card; the video names its pipeline only while it is up. *)
Definition service_name (d : AdminData) (s : Service) : jstr :=
  let m := match s with
           | Video => if st_is (side_status d Video) [u "running"; u "starting"] then side_model d Video else []
           | s => side_model d s
           end in
  match m with [] => t (u "aucun modèle") | m => m end.
Definition DECISIONS_LABEL : list (jstr * jstr) :=
  [(u "running", u "En ligne"); (u "starting", u "Démarrage…"); (u "stopped", u "Arrêté"); (u "error", u "Erreur");
   (u "unsupported", u "Service non déployé"); (u "unreachable", u "Runner inaccessible")].
Definition decisions_dot (o : option Decisions) : Dot * jstr :=
  let s := match o with Some d => dec_status d | None => [] end in
  (if streq s (u "running") then DotSuccess else if st_is s [u "starting"; u "unsupported"] then DotWarning
   else if streq s (u "error") then DotError else DotNeutral,
   t (default (u "Arrêté") (assoc_get s DECISIONS_LABEL))).
Definition decisions_text (o : option Decisions) : jstr :=
  match o with
  | Some d =>
      if streq (dec_status d) (u "unsupported") then t (u "Mettre à jour le runner pour l'activer")
      else if bool_decide (dec_enabled d = Some false) then t (u "Modèle de décision non installé")
      else if st_is (dec_status d) [u "running"; u "starting"] then match dec_model d with [] => t (u "aucun modèle") | m => m end
      else t (u "aucun modèle")
  | None => t (u "aucun modèle")
  end.

(** ** The page as a transition system *)

(** [APress]: a button that calls [act] directly, in any tab. *)
Inductive AEvent :=
| ATab (id : jstr) | APoll | AStream (e : StreamEvent) | ALogKind (k : LogKind) | ASidecarTick | ADownloadTick
| AAsk (a : ConfirmAction) | AConfirm | ACloseDialog
| APress (a : Action) | ADownload (c : ModelCfg) | AOpenArgs (c : ModelCfg) | AArgs (s : jstr) | ASaveArgs | ACloseArgs
| AOpenAdd | AAddForm (f : ModelForm) | AAddModel | ACloseAdd
| AOcrForm (f : OcrForm) | AAddOcr | AVoiceForm (f : VoiceForm) | AAddVoice | ACatalog (k : CatalogKind) | AFilter (s : jstr) | ARepo (name v : jstr)
| AAnswered (i : nat) (r : AReply).
(** The actions a button sends without a dialog. *)
Definition direct (a : Action) : bool := match a with Confirmed _ => false | _ => true end.
Definition selectTab (id : jstr) (p : APage) : APage :=
  let next := tabFrom (Some id) in
  if bool_decide (next = tab p) then p else p |> set_tab next |> set_mount (S (mount p)) |> set_models models_start.
Definition on_models (f : ModelsState -> ModelsState) (p : APage) : APage := in_tab (mount p) f p.
Definition pressed (b : bool) (f : APage -> APage) (p : APage) : APage := if b then f p else p.
(** A button of the models tab. *)
Definition model_button (b : bool) (f : APage -> APage) (p : APage) : APage := pressed (bool_decide (tab p = Models) && b) f p.
Definition page_event (e : AEvent) (p : APage) : APage :=
  match e with
  | ATab id => selectTab id p
  | APoll => poll p
  | AStream e => stream e p
  | ALogKind k => onLogKindChange k p
  | ASidecarTick => load_sidecar p
  | ADownloadTick => pressed (bool_decide (tab p = Models)) (refreshDl (mount p)) p
  | AAsk a => pressed (negb (actionDisabled p)) (set_confirmAction (Some a)) p
  | AConfirm => confirm p
  | ACloseDialog => set_confirmAction None p
  | APress a => pressed (direct a && negb (actionDisabled p)) (act a Nothing) p
  | ADownload c => model_button (negb (download_disabled p)) (download_weights c) p
  | AOpenArgs c => model_button (negb (actionDisabled p)) (open_args c) p
  | AArgs s => on_models (fun m => set_editing ((fun x => (x.1, s)) <$> editing m) m) p
  | ASaveArgs => model_button (negb (actionDisabled p)) save_args p
  | ACloseArgs => on_models (set_editing None) p
  | AOpenAdd => model_button (negb (actionDisabled p)) (on_models (set_adding (Some no_model))) p
  | AAddForm f => on_models (fun m => set_adding ((fun _ => f) <$> adding m) m) p
  | AAddModel => model_button true add_model p
  | ACloseAdd => on_models (set_adding None) p
  | AOcrForm f => on_models (set_newOcr f) p
  | AAddOcr => model_button (negb (actionDisabled p)) (act (OcrAdd (newOcr (models p))) ClearOcr) p
  | AVoiceForm f => on_models (set_newVoice f) p
  | AAddVoice => model_button (negb (actionDisabled p)) (act (VoiceAdd (newVoice (models p))) ClearVoice) p
  | ACatalog k => on_models (set_catalogKind k) p
  | AFilter s => on_models (set_catalogFilter s) p
  | ARepo name v => on_models (fun m => set_dlRepo (assoc_set name v (dlRepo m)) m) p
  | AAnswered i r =>
      match awaited p !! i with
      | Some q => p |> set_awaited (delete i (awaited p)) |> answered q r
      | None => p
      end
  end.
(** The page without the access shows nothing to press. *)
Definition background (e : AEvent) : bool :=
  match e with APoll | AStream _ | ASidecarTick | AAnswered _ _ => true | _ => false end.
Definition admin_handle (e : AEvent) (p : APage) : APage :=
  if forbidden p && negb (background e) then p else page_event e p.
Definition admin_run (es : list AEvent) (p : APage) : APage := foldl (fun p e => admin_handle e p) p es.
End admin.

(** * Properties *)

Section spec.
Context (t : jstr -> jstr) (csrf : jstr).
#[local] Abbreviation handle := (admin_handle t csrf) (only parsing).
#[local] Abbreviation run := (admin_run t csrf) (only parsing).

(** ** The lock of the actions *)

Definition is_act (q : ARequest) : bool := match q with Act _ _ _ => true | _ => false end.
Definition acts (p : APage) : nat := length (List.filter is_act (awaited p)).
Definition lock_ok (p : APage) : Prop := acts p = Nat.b2n (busy p).
(** A step that keeps the lock. *)
Definition keeps_lock (p q : APage) : Prop := acts q = acts p /\ busy q = busy p.
Lemma keeps_refl p : keeps_lock p p.
Proof. done. Qed.
Lemma keeps_update f p q : (forall p, awaited (f p) = awaited p) -> (forall p, busy (f p) = busy p) -> keeps_lock p q -> keeps_lock p (f q).
Proof. intros A B [H1 H2]. unfold keeps_lock, acts. by rewrite A, B. Qed.
Lemma keeps_send x p q : is_act x = false -> keeps_lock p q -> keeps_lock p (send x q).
Proof.
  intros H [H1 H2]. unfold keeps_lock, acts in *. unfold send. cbn [awaited busy set_awaited emit]. rewrite count_app. cbn [List.filter].
  rewrite H, Nat.add_0_r. by split.
Qed.
Lemma keeps_ok p q : keeps_lock p q -> lock_ok p -> lock_ok q.
Proof. intros [H1 H2] H. unfold lock_ok. by rewrite H1, H2. Qed.

(** Peels the updates of the page one by one. *)
Ltac peel :=
  repeat lazymatch goal with
  | |- keeps_lock ?p ?p => apply keeps_refl
  | |- keeps_lock _ (send _ _) => apply keeps_send; [reflexivity|]
  | |- keeps_lock _ (emit ?x _) => apply (keeps_update (emit x)); [reflexivity|reflexivity|]
  | |- keeps_lock _ (?f ?v ?q) => apply (keeps_update (f v)); [reflexivity|reflexivity|]
  end.
Lemma keeps_tab n f p q : keeps_lock p q -> keeps_lock p (in_tab n f q).
Proof. intros K. unfold in_tab. case_match; [|done]. by peel. Qed.
Lemma keeps_refresh b p q : keeps_lock p q -> keeps_lock p (refresh b q).
Proof. intros H. unfold refresh. by peel. Qed.
Lemma keeps_continue k n ok w p : keeps_lock p (continue k n ok w p).
Proof. destruct k; cbn [continue]; unfold refreshDl, toast; repeat case_match; repeat first [apply keeps_tab | progress peel]. Qed.
Lemma keeps_toasts l p q : keeps_lock p q -> keeps_lock p (foldl (fun p x => toast x.1 x.2 p) q l).
Proof. revert q. induction l as [|x l IH]; intros q H; [done|]. apply IH. unfold toast. by peel. Qed.
Lemma keeps_answer primer r p : keeps_lock p (admin_answered primer r p).
Proof. unfold admin_answered, forbid. repeat case_match; by peel. Qed.

Lemma act_lock a k p : lock_ok p -> lock_ok (act csrf a k p).
Proof.
  intros H. unfold act. destruct (streq csrf [] || busy p) eqn:E; [by apply (keeps_ok p), H; apply keeps_continue|].
  apply orb_false_elim in E as [_ E]. unfold lock_ok, acts in *. unfold send. cbn [awaited busy set_awaited set_busy emit]. by rewrite count_app, H, E.
Qed.
Lemma answered_lock k n f p : acts p = 0 -> lock_ok (act_answered t k n f p).
Proof.
  intros H. unfold act_answered. cbv zeta. eapply keeps_ok; [apply keeps_continue|]. eapply keeps_ok; [apply keeps_refresh, keeps_refl|].
  unfold lock_ok, acts. cbn [awaited busy set_busy Nat.b2n]. rewrite <- H. apply (keeps_toasts (said (verdict t f)) p p (keeps_refl p)).
Qed.
Lemma request_answered_lock i r p q : awaited p !! i = Some q -> lock_ok p -> lock_ok (answered t q r (set_awaited (delete i (awaited p)) p)).
Proof.
  intros E H. unfold lock_ok, acts in H. rewrite (count_delete is_act _ _ _ E) in H.
  assert (L : is_act q = false -> lock_ok (set_awaited (delete i (awaited p)) p)) by (intros N; rewrite N in H; exact H).
  destruct q; cbn [answered].
  1: by eapply keeps_ok; [apply keeps_answer|apply L].
  1-4: eapply keeps_ok; [|by apply L]; repeat case_match; first [apply keeps_tab | idtac]; by peel.
  apply answered_lock. cbn [is_act Nat.b2n] in H. unfold acts. cbn [awaited set_awaited]. destruct (busy p); cbn [Nat.b2n] in H; lia.
Qed.
Lemma keeps_poll p q : keeps_lock p q -> keeps_lock p (poll q).
Proof. intros K. unfold poll. case_match; [done|]. by apply keeps_refresh. Qed.
Lemma keeps_stream e p q : keeps_lock p q -> keeps_lock p (stream e q).
Proof. intros K. unfold stream. repeat case_match; by peel. Qed.
Lemma keeps_sidecar p q : keeps_lock p q -> keeps_lock p (load_sidecar q).
Proof. intros K. unfold load_sidecar. case_match; [done|]. by peel. Qed.
Lemma keeps_kind k p q : keeps_lock p q -> keeps_lock p (onLogKindChange k q).
Proof. intros K. unfold onLogKindChange. cbv zeta. case_match; [by peel|]. apply keeps_sidecar. by peel. Qed.
Lemma keeps_select id p q : keeps_lock p q -> keeps_lock p (selectTab id q).
Proof. intros K. unfold selectTab. cbv zeta. case_match; [done|by peel]. Qed.
(** The events that ask for no action. *)
Definition passive (e : AEvent) : bool :=
  match e with AConfirm | APress _ | ADownload _ | ASaveArgs | AAddModel | AAddOcr | AAddVoice | AAnswered _ _ => false | _ => true end.
Lemma passive_keeps e p : passive e = true -> keeps_lock p (page_event t csrf e p).
Proof.
  destruct e; intros E; try discriminate E; cbn [page_event]; unfold model_button, pressed, on_models, open_args, refreshDl;
    repeat case_match; repeat first [apply keeps_tab | apply keeps_poll | apply keeps_stream | apply keeps_sidecar | apply keeps_kind | apply keeps_select | progress peel].
Qed.
Lemma event_lock e p : lock_ok p -> lock_ok (page_event t csrf e p).
Proof.
  intros L. destruct (passive e) eqn:E; [by apply (keeps_ok p); [apply passive_keeps|]|].
  destruct e; try discriminate E; cbn [page_event]; unfold model_button, pressed, confirm, runConfirmedAction, download_weights, save_args, add_model.
  1: repeat case_match; try assumption; eapply keeps_ok; [apply (keeps_update (set_confirmAction None)); [reflexivity|reflexivity|apply keeps_refl]|by apply act_lock].
  1-6: repeat case_match; try assumption; by apply act_lock.
  destruct (awaited p !! i) as [q|] eqn:W; [by apply request_answered_lock|done].
Qed.
Lemma handle_lock e p : lock_ok p -> lock_ok (handle e p).
Proof. intros H. unfold admin_handle. case_match; [done|by apply event_lock]. Qed.
Lemma run_lock es p : lock_ok p -> lock_ok (run es p).
Proof. revert p. induction es as [|e es IH]; intros p H; [done|]. apply IH. by apply handle_lock. Qed.
Lemma start_lock s tab : lock_ok (admin_start s tab).
Proof. unfold admin_start. cbv zeta. by destruct (allServed s). Qed.
(** A click never sends a second action: the page awaits the answer to one
    action when its buttons are disabled for it, and to none otherwise. *)
Theorem one_action_at_a_time s tab es : let p := run es (admin_start s tab) in
  length (List.filter is_act (awaited p)) = Nat.b2n (busy p).
Proof. apply run_lock, start_lock. Qed.

(** ** What is confirmed *)

Definition confirmed (x : AEffect) : bool := match x with Asked (Act (Confirmed _) _ _) => true | _ => false end.
(** Steps whose effects are no confirmed action. *)
Definition harmless (p q : APage) : Prop := exists l, asked q = asked p ++ l /\ existsb confirmed l = false.
Lemma adm_harmless_refl p : harmless p p.
Proof. exists []. by rewrite app_nil_r. Qed.
Lemma adm_harmless_emit x p q : confirmed x = false -> harmless p q -> harmless p (emit x q).
Proof. intros H (l & E & F). exists (l ++ [x]). cbn [emit asked]. rewrite E, app_assoc. split; [done|]. rewrite existsb_app, F. cbn [existsb]. by rewrite H. Qed.
Lemma adm_harmless_update f p q : (forall p, asked (f p) = asked p) -> harmless p q -> harmless p (f q).
Proof. intros E (l & F & H). exists l. by rewrite E. Qed.
Ltac quiet :=
  repeat lazymatch goal with
  | |- harmless ?p ?p => apply adm_harmless_refl
  | |- harmless _ (send _ _) => unfold send
  | |- harmless _ (emit _ _) => apply adm_harmless_emit; [reflexivity|]
  | |- harmless _ (?f ?v ?q) => apply (adm_harmless_update (f v)); [reflexivity|]
  end.
Lemma harmless_tab n f p q : harmless p q -> harmless p (in_tab n f q).
Proof. intros K. unfold in_tab. case_match; [by quiet|done]. Qed.
Lemma harmless_continue k n ok w p q : harmless p q -> harmless p (continue k n ok w q).
Proof. intros K. destruct k; cbn [continue]; unfold refreshDl, toast; repeat case_match; repeat first [assumption | apply harmless_tab | progress quiet]. Qed.
Lemma harmless_toasts l p q : harmless p q -> harmless p (foldl (fun p x => toast x.1 x.2 p) q l).
Proof. revert q. induction l as [|x l IH]; intros q K; [done|]. apply IH. unfold toast. by quiet. Qed.
Lemma harmless_act a k p q : (forall c, a <> Confirmed c) -> harmless p q -> harmless p (act csrf a k q).
Proof.
  intros N K. unfold act. case_match; [by apply harmless_continue|]. unfold send. apply adm_harmless_emit; [destruct a; try reflexivity; by destruct (N a)|]. by quiet.
Qed.
Lemma adm_harmless_answered q r p p' : harmless p p' -> harmless p (answered t q r p').
Proof.
  intros K. destruct q; cbn [answered]; unfold admin_answered, forbid, act_answered, refresh; cbv zeta;
    try (apply harmless_continue; quiet; by apply harmless_toasts); repeat case_match; repeat first [assumption | apply harmless_tab | progress quiet].
Qed.
Lemma other_harmless e p : e <> AConfirm -> harmless p (page_event t csrf e p).
Proof.
  intros N. destruct e; try (by destruct N); cbn [page_event]; unfold model_button, pressed, on_models, open_args, refreshDl, poll, refresh, stream,
    onLogKindChange, load_sidecar, selectTab, download_weights, save_args, add_model; cbv zeta.
  all: repeat case_match; try (by apply adm_harmless_refl); try (apply harmless_act; [by intros ? [=]|apply adm_harmless_refl]);
    try (apply adm_harmless_answered); repeat first [apply harmless_tab | progress quiet].
  apply harmless_act; [|apply adm_harmless_refl]. intros c ->. cbn [direct andb] in *. discriminate.
Qed.
Lemma confirm_harmless p : (exists a, confirmAction p = Some a /\ busy p = false /\ asked (page_event t csrf AConfirm p) = asked p ++ [Asked (Act (Confirmed a) Nothing (mount p))]) \/
  harmless p (page_event t csrf AConfirm p).
Proof.
  cbn [page_event]. unfold confirm, runConfirmedAction. destruct (confirmAction p) as [a|] eqn:E; [|right; apply adm_harmless_refl].
  destruct (actionDisabled csrf p) eqn:D; [right; apply adm_harmless_refl|]. left. exists a. unfold actionDisabled in D. apply orb_false_elim in D as [D1 D2].
  unfold act. by rewrite D1, D2.
Qed.
Lemma confirmed_step e p a k n : In (Asked (Act (Confirmed a) k n)) (asked (handle e p)) ->
  In (Asked (Act (Confirmed a) k n)) (asked p) \/ (e = AConfirm /\ confirmAction p = Some a /\ busy p = false).
Proof.
  assert (K : harmless p (page_event t csrf e p) -> In (Asked (Act (Confirmed a) k n)) (asked (page_event t csrf e p)) -> In (Asked (Act (Confirmed a) k n)) (asked p)).
  { intros (l & E & F). rewrite E, in_app_iff. intros [|I]; [done|]. exfalso. apply (proj1 (existsb_false_iff _ _)) in F.
    rewrite Forall_forall in F. apply list_elem_of_In, F in I. discriminate. }
  unfold admin_handle. case_match; [by left|]. intros I. destruct e; try (left; apply K, I; by apply other_harmless).
  destruct (confirm_harmless p) as [(b & E & B & S)|N]; [|by left; apply K].
  rewrite S, in_app_iff in I. destruct I as [I|[[= <- _ _]|[]]]; [by left|]. by right.
Qed.
Lemma dialog_step e p a : confirmAction (handle e p) = Some a -> confirmAction p = Some a \/ e = AAsk a.
Proof.
  assert (T : forall n f q, confirmAction (in_tab n f q) = confirmAction q) by (intros; unfold in_tab; by case_match).
  assert (C : forall k n ok w q, confirmAction (continue k n ok w q) = confirmAction q).
  { intros. destruct k; cbn [continue]; unfold refreshDl, toast, send; repeat case_match; cbn [confirmAction emit]; by rewrite ?T. }
  assert (A : forall x k q, confirmAction (act csrf x k q) = confirmAction q) by (intros; unfold act; case_match; [apply C|done]).
  assert (S : forall l q, confirmAction (foldl (fun p x => toast x.1 x.2 p) q l) = confirmAction q).
  { induction l as [|x l IH]; intros q; [done|]. cbn [foldl]. by rewrite IH. }
  assert (W : forall q r p, confirmAction (answered t q r p) = confirmAction p).
  { intros q r p0. destruct q; cbn [answered]; unfold admin_answered, forbid, act_answered, refresh, send; cbv zeta; repeat case_match; rewrite ?C, ?T; try done.
    cbn [confirmAction set_awaited emit set_busy]. apply S. }
  unfold admin_handle. case_match; [by left|]. destruct e; cbn [page_event]; unfold model_button, pressed, on_models, open_args, refreshDl, poll, refresh, stream,
    onLogKindChange, load_sidecar, selectTab, download_weights, save_args, add_model, confirm, runConfirmedAction, send; cbv zeta;
    repeat case_match; rewrite ?A, ?T, ?W; try (by left); cbn [confirmAction set_confirmAction]; intros [= <-]; auto.
Qed.
Lemma asked_for es p a : confirmAction (run es p) = Some a -> confirmAction p = Some a \/ In (AAsk a) es.
Proof.
  revert p. induction es as [|e es IH]; intros p H; [by left|]. apply IH in H as [H|H]; [|by right; right].
  apply dialog_step in H as [H|H]; [by left|]. right. by left.
Qed.
Lemma confirmed_run es p a k n : In (Asked (Act (Confirmed a) k n)) (asked (run es p)) ->
  In (Asked (Act (Confirmed a) k n)) (asked p) \/
  exists es1 es2, es = es1 ++ AConfirm :: es2 /\ confirmAction (run es1 p) = Some a /\ busy (run es1 p) = false.
Proof.
  revert p. induction es as [|e es IH]; intros p H; [by left|]. apply IH in H as [H|(es1 & es2 & -> & H)].
  - apply confirmed_step in H as [H|(-> & H)]; [by left|]. right. by exists [], es.
  - right. by exists (e :: es1), es2.
Qed.
(** Stopping the model, launching one, deleting one and the maintenance are
    requested only from their dialog: each such request was confirmed in the
    dialog opened for that very action, while no action was awaited. *)
Theorem confirmed_in_dialog s tab es a k n : let p := admin_start s tab in
  In (Asked (Act (Confirmed a) k n)) (asked (run es p)) ->
  exists es1 es2, es = es1 ++ AConfirm :: es2 /\ confirmAction (run es1 p) = Some a /\ In (AAsk a) es1 /\
    List.filter is_act (awaited (run es1 p)) = [].
Proof.
  intros p H. apply confirmed_run in H as [H|(es1 & es2 & -> & H & B)].
  - exfalso. subst p. unfold admin_start in H. cbv zeta in H. destruct (allServed s); cbn in H; intuition discriminate.
  - exists es1, es2. split; [done|]. split; [done|]. split.
    + destruct (asked_for es1 p a H) as [N|I]; [|done]. subst p. unfold admin_start in N. cbv zeta in N. by destruct (allServed s).
    + assert (L := run_lock es1 p (start_lock s tab)). unfold lock_ok, acts in L. rewrite B in L. by apply length_zero_iff_nil in L.
Qed.

(** ** The verdict on an answer *)

(** Success is declared only for an answer below 400 whose JSON body is there
    and does not say no; the first thing said is an error exactly when it is
    not a success. *)
Theorem success_means_accepted f :
  (act_ok (verdict t f) = true <->
     exists res body, authFetch f = inr res /\ r_json res = Some body /\ (status res < 400)%Z /\ truthy body = true /\ prop (u "ok") body <> Some (JBool false)) /\
  option_map snd (head (said (verdict t f))) = Some (negb (act_ok (verdict t f))).
Proof.
  unfold verdict. destruct (authFetch f) as [|res]; [split; [|done]; split; [done|intros (? & ? & ? & _); discriminate]|]. cbv zeta.
  destruct (Z.eqb_spec (status res) 403) as [E|]; [split; [|done]; split; [done|]; intros (r & ? & [= <-] & _ & ? & _); lia|].
  destruct ((400 <=? status res)%Z || negb (truthy (default JNull (r_json res))) || _) eqn:B; cbn [act_ok said head option_map snd negb]; (split; [|done]); split.
  - done.
  - intros (r & body & [= <-] & J & L & T & O). rewrite J in B. cbn [default from_option id] in B. apply orb_true_iff in B as [B|B]; [apply orb_true_iff in B as [B|B]|].
    + apply Z.leb_le in B. lia.
    + by rewrite T in B.
    + by destruct (prop (u "ok") body) as [[| [] | | | |]|].
  - intros _. apply orb_false_elim in B as [B1 B3]. apply orb_false_elim in B1 as [B1 B2]. exists res.
    destruct (r_json res) as [body|]; [|discriminate B2]. exists body. cbn [default from_option id] in *.
    split; [done|]. split; [done|]. split; [by apply Z.leb_gt in B1|]. split; [by destruct (truthy body)|]. intros O. by rewrite O in B3.
  - done.
Qed.

(** ** The logs *)

Lemma last_lines_snoc l x : last_lines (last_lines l ++ [x]) = last_lines (l ++ [x]).
Proof.
  unfold last_lines, MAX_LOG_LINES. rewrite !length_app, length_drop. cbn [length].
  destruct (le_lt_dec (length l) 600) as [L|L].
  - replace (length l - 600) with 0 by lia. by rewrite drop_0, Nat.sub_0_r.
  - rewrite !drop_app_le by (rewrite ?length_drop; lia). rewrite drop_drop. f_equal. f_equal. lia.
Qed.
Lemma last_lines_bound l : length (last_lines l) <= MAX_LOG_LINES.
Proof. unfold last_lines. rewrite length_drop. lia. Qed.
Lemma last_lines_short l : length l <= MAX_LOG_LINES -> last_lines l = l.
Proof. unfold last_lines. intros H. by replace (length l - MAX_LOG_LINES) with 0 by lia. Qed.

(** All the lines of the stream since it was last opened or cleared, after those
    of [acc]. *)
Definition stream_line (acc : list jstr) (e : AEvent) : list jstr :=
  match e with AStream (Line s) => acc ++ [s] | AStream _ => [] | _ => acc end.

(** The requests awaited: the logs asked for now are those of the service
    chosen, an older answer is known as such; with [b] false none of them is the
    first load of the page. *)
Definition request_ok (b : bool) (p : APage) (q : ARequest) : Prop :=
  match q with
  | GetAdmin true => b = true
  | GetSidecar k e => e <= epoch p /\ (e = epoch p -> k = logKind p)
  | _ => True
  end.
Definition all_ok (b : bool) (p : APage) : Prop := Forall (request_ok b p) (awaited p).
Lemma ok_update b f p : (forall p, awaited (f p) = awaited p) -> (forall p, epoch (f p) = epoch p) -> (forall p, logKind (f p) = logKind p) ->
  all_ok b p -> all_ok b (f p).
Proof. unfold all_ok. intros A E K H. rewrite A. eapply Forall_impl; [exact H|]. intros q. destruct q; cbn [request_ok]; by rewrite ?E, ?K. Qed.
Lemma ok_send b q p : request_ok b p q -> all_ok b p -> all_ok b (send q p).
Proof. unfold all_ok, send. intros Q H. cbn [awaited emit set_awaited]. apply Forall_app. split; [exact H|]. by constructor. Qed.
Lemma ok_delete b i p : all_ok b p -> all_ok b (set_awaited (delete i (awaited p)) p).
Proof. unfold all_ok. cbn [awaited set_awaited]. intros H. eapply Forall_impl; [exact (Forall_delete _ _ _ H)|done]. Qed.
Lemma ok_epoch b k p : all_ok b p -> all_ok b (p |> set_sidecarLogs [] |> set_logKind k |> set_epoch (S (epoch p))).
Proof. unfold all_ok. cbn [awaited set_epoch set_logKind set_sidecarLogs]. intros H. eapply Forall_impl; [exact H|]. intros q. destruct q; cbn; try done. intros [L _]. split; lia. Qed.
Ltac calm :=
  repeat lazymatch goal with
  | |- all_ok _ (send _ _) => apply ok_send; [exact I|]
  | |- all_ok _ (emit ?x _) => apply (ok_update _ (emit x)); [reflexivity|reflexivity|reflexivity|]
  | |- all_ok _ (?f ?v ?q) => apply (ok_update _ (f v)); [reflexivity|reflexivity|reflexivity|]
  end.
Lemma ok_tab b n f p : all_ok b p -> all_ok b (in_tab n f p).
Proof. intros K. unfold in_tab. case_match; [by calm|done]. Qed.
Lemma ok_refresh b p : all_ok b p -> all_ok b (refresh false p).
Proof. intros K. unfold refresh. by calm. Qed.
Lemma ok_continue b k n ok w p : all_ok b p -> all_ok b (continue k n ok w p).
Proof. intros K. destruct k; cbn [continue]; unfold refreshDl, toast; repeat case_match; repeat first [assumption | apply ok_tab | progress calm]. Qed.
Lemma ok_toasts b l p : all_ok b p -> all_ok b (foldl (fun p x => toast x.1 x.2 p) p l).
Proof. revert p. induction l as [|x l IH]; intros q K; [done|]. apply IH. unfold toast. by calm. Qed.
Lemma ok_act b a k p : all_ok b p -> all_ok b (act csrf a k p).
Proof. intros K. unfold act. case_match; [by apply ok_continue|]. by calm. Qed.
Lemma ok_sidecar b p : all_ok b p -> all_ok b (load_sidecar p).
Proof. intros K. unfold load_sidecar. case_match; [done|]. apply ok_send; [|done]. by split. Qed.
Lemma ok_kind b k p : all_ok b p -> all_ok b (onLogKindChange k p).
Proof.
  intros K. unfold onLogKindChange. cbv zeta. case_bool_decide as E.
  - subst k. unfold all_ok. cbn [awaited set_logKind set_sidecarLogs]. eapply Forall_impl; [exact K|]. intros q. by destruct q.
  - by apply ok_sidecar, ok_epoch.
Qed.
Lemma ok_bump b p : all_ok b p -> all_ok b (set_epoch (S (epoch p)) p).
Proof. unfold all_ok. cbn [awaited set_epoch]. intros H. eapply Forall_impl; [exact H|]. intros q. destruct q; cbn; try done. intros [L _]. split; lia. Qed.
Lemma ok_forbid b p : all_ok b p -> all_ok b (forbid p).
Proof. intros K. unfold forbid. case_match; [done|]. apply (ok_bump b (set_forbidden true p)). by calm. Qed.
Lemma ok_answered b q r p : all_ok b p -> all_ok b (answered t q r p).
Proof.
  intros K. destruct q; cbn [answered]; unfold admin_answered, act_answered; cbv zeta;
    try (apply ok_continue, ok_refresh; calm; by apply ok_toasts); repeat case_match; repeat first [assumption | apply ok_forbid | apply ok_tab | progress calm].
Qed.
Lemma ok_stream b e p : all_ok b p -> all_ok b (stream e p).
Proof. intros K. unfold stream. repeat case_match; by calm. Qed.
Lemma ok_select b id p : all_ok b p -> all_ok b (selectTab id p).
Proof. intros K. unfold selectTab. cbv zeta. case_match; by calm. Qed.
Lemma ok_confirm b p : all_ok b p -> all_ok b (confirm csrf p).
Proof. intros K. unfold confirm, runConfirmedAction. repeat case_match; [done| |done]. apply (ok_update _ (set_confirmAction None)); [reflexivity..|]. by apply ok_act. Qed.
Lemma ok_pressed b c f p : (all_ok b p -> all_ok b (f p)) -> all_ok b p -> all_ok b (pressed c f p).
Proof. unfold pressed. destruct c; auto. Qed.
Lemma ok_passive b e p : passive e = true -> all_ok b p -> all_ok b (page_event t csrf e p).
Proof.
  destruct e; intros E K; try discriminate E; cbn [page_event]; unfold on_models, open_args, refreshDl, poll, model_button; try (apply ok_pressed; [intros _|exact K]);
    repeat first [assumption | apply ok_tab | apply ok_refresh | apply ok_kind | apply ok_sidecar | apply ok_stream | apply ok_select | progress calm | case_match].
Qed.
Lemma ok_event b e p : all_ok b p -> all_ok b (page_event t csrf e p).
Proof.
  intros K. destruct (passive e) eqn:E; [by apply ok_passive|].
  destruct e; try discriminate E; cbn [page_event]; unfold model_button, download_weights, save_args, add_model; try (apply ok_pressed; [intros _|exact K]).
  1: by apply ok_confirm.
  1-6: repeat case_match; try exact K; by apply ok_act.
  case_match; [|exact K]. by apply ok_answered, ok_delete.
Qed.
Lemma adm_ok_step b e p : all_ok b p -> all_ok b (handle e p).
Proof. intros K. unfold admin_handle. case_match; [done|]. by apply ok_event. Qed.
Lemma adm_ok_run b es p : all_ok b p -> all_ok b (run es p).
Proof. revert p. induction es as [|e es IH]; intros p H; [done|]. apply IH. by apply adm_ok_step. Qed.
Lemma adm_ok_start s tab : all_ok true (admin_start s tab).
Proof.
  unfold admin_start. cbv zeta. match goal with |- context [refresh _ ?p] => assert (K : all_ok true p) by constructor end.
  destruct (allServed s); [exact K|]. unfold refresh. calm. by apply ok_send.
Qed.

(** What changes the lines of the stream, and what cannot. *)
Lemma logs_answered q r p : q <> GetAdmin true -> logs (answered t q r p) = logs p /\ (forbidden p = true -> forbidden (answered t q r p) = true).
Proof.
  assert (T : forall n f p, logs (in_tab n f p) = logs p /\ forbidden (in_tab n f p) = forbidden p) by (intros; unfold in_tab; by case_match).
  assert (C : forall k n ok w p, logs (continue k n ok w p) = logs p /\ forbidden (continue k n ok w p) = forbidden p).
  { intros. destruct k; cbn [continue]; unfold refreshDl, toast, send; repeat case_match; cbn [logs forbidden emit set_awaited]; rewrite ?(proj1 (T _ _ _)), ?(proj2 (T _ _ _)); done. }
  assert (S : forall l p, logs (foldl (fun p x => toast x.1 x.2 p) p l) = logs p /\ forbidden (foldl (fun p x => toast x.1 x.2 p) p l) = forbidden p).
  { induction l as [|x l IH]; intros q'; [done|]. cbn [foldl]. by rewrite !(proj1 (IH _)), !(proj2 (IH _)). }
  intros N. destruct q as [[]| | | | |]; try (by destruct N); cbn [answered]; unfold admin_answered, forbid, act_answered, refresh, send; cbv zeta; repeat case_match;
    rewrite ?(proj1 (C _ _ _ _ _)), ?(proj2 (C _ _ _ _ _)), ?(proj1 (T _ _ _)), ?(proj2 (T _ _ _)); cbn [logs forbidden emit set_awaited set_busy];
    rewrite ?(proj1 (S _ _)), ?(proj2 (S _ _)); done.
Qed.
Lemma logs_step e p : all_ok false p -> forbidden (handle e p) = false ->
  forbidden p = false /\ (logs (handle e p) = match e with AStream (Line x) => last_lines (logs p ++ [x]) | AStream _ => [] | _ => logs p end).
Proof.
  assert (T : forall n f p, logs (in_tab n f p) = logs p /\ forbidden (in_tab n f p) = forbidden p) by (intros; unfold in_tab; by case_match).
  assert (A : forall x k p, logs (act csrf x k p) = logs p /\ forbidden (act csrf x k p) = forbidden p).
  { intros. unfold act. case_match; [|done]. destruct k; cbn [continue]; unfold refreshDl, toast, send; repeat case_match; cbn [logs forbidden emit set_awaited]; rewrite ?(proj1 (T _ _ _)), ?(proj2 (T _ _ _)); done. }
  intros K F. unfold admin_handle in *. destruct (forbidden p) eqn:Fp; cbn [andb] in *.
  - exfalso. destruct (background e) eqn:B; cbn [negb] in F; [|congruence]. destruct e; try discriminate B; cbn [page_event] in F; unfold poll, stream, load_sidecar in F; rewrite ?Fp in F; try (cbn [orb] in F; congruence).
    destruct (awaited p !! i) as [q|] eqn:E; [|congruence]. rewrite (proj2 (logs_answered q r (set_awaited (delete i (awaited p)) p) ltac:(intros ->; by eapply Forall_lookup_1 in E; [|exact K]))) in F; done.
  - split; [done|]. destruct e; cbn [page_event]; unfold model_button, pressed, on_models, open_args, refreshDl, poll, refresh, stream,
      onLogKindChange, load_sidecar, selectTab, download_weights, save_args, add_model, confirm, runConfirmedAction, send; cbv zeta; rewrite ?Fp.
    all: repeat case_match; rewrite ?(proj1 (T _ _ _)), ?(proj1 (A _ _ _)); try done; try (cbn [logs set_confirmAction]; by rewrite (proj1 (A _ _ _))).
    match goal with H : awaited p !! _ = Some ?q |- _ => apply (proj1 (logs_answered q r (set_awaited (delete i (awaited p)) p) ltac:(intros ->; by eapply Forall_lookup_1 in H; [|exact K]))) end.
Qed.
Lemma allowed_run es p : all_ok false p -> forbidden (run es p) = false -> forbidden p = false.
Proof. revert p. induction es as [|e es IH]; intros p K F; [done|]. apply (IH _ (adm_ok_step _ _ _ K)) in F. by apply logs_step in F as [F _]. Qed.
Lemma logs_run es p acc : all_ok false p -> forbidden (run es p) = false -> logs p = last_lines acc -> logs (run es p) = last_lines (foldl stream_line acc es).
Proof.
  revert p acc. induction es as [|e es IH]; intros p acc K F L; [done|]. apply IH; [by apply adm_ok_step|exact F|].
  destruct (logs_step e p K (allowed_run es _ (adm_ok_step _ _ _ K) F)) as [_ E]. rewrite E. clear E.
  destruct e as [| |[| x |]| | | | | | | | | | | | | | | | | | | | | | | |]; cbn [stream_line]; try exact L; try reflexivity. by rewrite L, last_lines_snoc.
Qed.
(** The panel follows the stream: from a page that does not await its first
    load, as long as the access is not refused, it shows the last six hundred
    lines streamed since the stream was opened or cleared, whatever polls,
    actions and answers come in between; it never holds more. *)
Theorem logs_follow_stream es p : all_ok false p -> length (logs p) <= MAX_LOG_LINES -> forbidden (run es p) = false ->
  logs (run es p) = last_lines (foldl stream_line (logs p) es) /\ length (logs (run es p)) <= MAX_LOG_LINES.
Proof.
  intros K L F. assert (E := logs_run es p (logs p) K F (eq_sym (last_lines_short _ L))). split; [exact E|]. rewrite E. apply last_lines_bound.
Qed.

(** The lines shown for a service are those of an answer to a request for that
    very service, made since it was chosen. *)
Theorem sidecar_logs_of_choice s tab es i r : let p := run es (admin_start s tab) in
  sidecarLogs (handle (AAnswered i r) p) <> sidecarLogs p ->
  awaited p !! i = Some (GetSidecar (logKind p) (epoch p)) /\ sidecarLogs (handle (AAnswered i r) p) = default [] (r_logs r).
Proof.
  intros p. assert (K := adm_ok_run true es _ (adm_ok_start s tab)). fold p in K. clearbody p.
  unfold admin_handle. cbn [background negb]. rewrite andb_false_r. cbn [page_event]. destruct (awaited p !! i) as [q|] eqn:E; [|by intros []].
  assert (T : forall n f p, sidecarLogs (in_tab n f p) = sidecarLogs p) by (intros; unfold in_tab; by case_match).
  assert (C : forall k n ok w p, sidecarLogs (continue k n ok w p) = sidecarLogs p).
  { intros. destruct k; cbn [continue]; unfold refreshDl, toast, send; repeat case_match; cbn [sidecarLogs emit set_awaited]; by rewrite ?T. }
  assert (S : forall l p, sidecarLogs (foldl (fun p x => toast x.1 x.2 p) p l) = sidecarLogs p) by (induction l as [|x l IH]; intros q'; [done|]; cbn [foldl]; by rewrite IH).
  intros N. destruct q; cbn [answered] in *; try (exfalso; apply N; unfold admin_answered, forbid, act_answered, refresh, send; cbv zeta; repeat case_match;
    rewrite ?C, ?T; cbn [sidecarLogs emit set_awaited set_busy]; rewrite ?S; done).
  cbn [Admin.epoch set_awaited] in *. match goal with |- context [?e =? Admin.epoch p] => destruct (Nat.eqb_spec e (Admin.epoch p)) as [->|]; [|by destruct N] end.
  split; [|done]. eapply Forall_lookup_1 in K; [|exact E]. destruct K as [_ K]. by rewrite K.
Qed.
End spec.

(** ** Witnesses *)

#[local] Abbreviation fr := (fun x : jstr => x) (only parsing).
#[local] Abbreviation play := (admin_run fr (u "csrf")) (only parsing).
Definition no_seed : AdminSeed := mkSeed None None None false false false false.
Definition gemma : ModelCfg := mkCfg 3%Z (u "gemma") (u "google/gemma") (u "vllm") [].
Definition some_data : AdminData :=
  mkAdmin (u "running") (u "gemma") [u "an old line"] false (fun _ => u "stopped") (fun _ => []) [] None [gemma] [] [] [].
Definition reply (f : Fetched) (d : option AdminData) (l : option (list jstr)) (w : option Download) : AReply := mkReply f d false None None l w.
Definition json_reply (st : Z) (v : json) : AReply := reply (Got (mkResponse st None (Some v))) None None None.
Definition all_served (d : AdminData) : APage := admin_start (mkSeed (Some d) (Some []) None false true true true) Models.

Theorem confirmed_in_dialog_witness : let p := admin_start no_seed Models in
  exists es1 es2, [APoll; AAsk StopModel; AConfirm; AConfirm] = es1 ++ AConfirm :: es2 /\ confirmAction (play es1 p) = Some StopModel /\
    In (AAsk StopModel) es1 /\ List.filter is_act (awaited (play es1 p)) = [].
Proof.
  apply (confirmed_in_dialog fr (u "csrf") no_seed Models [APoll; AAsk StopModel; AConfirm; AConfirm] StopModel Nothing 0).
  vm_compute. tauto.
Defined.
Theorem logs_follow_stream_witness :
  let es := [AStream Opened; AStream (Line (u "a")); APoll; AAnswered 0 (reply Rejected (Some some_data) None None); AStream (Line (u "b"))] in
  let p := all_served some_data in
  logs (play es p) = last_lines (foldl stream_line (logs p) es) /\ length (logs (play es p)) <= MAX_LOG_LINES.
Proof.
  apply (logs_follow_stream fr (u "csrf") [AStream Opened; AStream (Line (u "a")); APoll; AAnswered 0 (reply Rejected (Some some_data) None None); AStream (Line (u "b"))]
    (all_served some_data)).
  - constructor.
  - vm_compute. lia.
  - reflexivity.
Defined.
Example stream_lines : logs (play [AStream Opened; AStream (Line (u "a")); APoll; AAnswered 0 (reply Rejected (Some some_data) None None); AStream (Line (u "b"))]
  (all_served some_data)) = [u "a"; u "b"].
Proof. reflexivity. Qed.
(** A second click, and a second confirmation, send nothing. *)
Example second_click : length (asked (play [APress (Start Ocr); APress (Start Ocr); AAsk StopModel; AConfirm] (all_served some_data))) = 1.
Proof. reflexivity. Qed.
(** A refusal leaves the dialog of the arguments open, a success closes it. *)
Example args_dialog :
  let p := play [AOpenArgs gemma; AArgs (u "--x"); ASaveArgs] (all_served some_data) in
  is_Some (editing (models (play [AAnswered 0 (json_reply 400 (JObj [(u "ok", JBool false)]))] p))) /\
  editing (models (play [AAnswered 0 (json_reply 200 (JObj [(u "ok", JBool true)]))] p)) = None.
Proof. vm_compute. split; [by eexists|reflexivity]. Qed.
Example requests_sent :
  action_request (Confirmed (DeleteModel 3 (u "gemma"))) = (u "/admin/model/delete/3", [(u "confirm", u "1")]) /\
  action_request (Stop Asr) = (u "/admin/asr/stop", []) /\ action_request (Start DecisionsEngine) = (u "/api/decisions/start", []).
Proof. vm_compute. repeat split; reflexivity. Qed.
Example sizes :
  go None = u "0 o" /\ go (Some (num_of_Z 1024)) = u "1.0 Ko" /\ go (Some (num_of_Z 90194313216)) = u "84 Go" /\ go (Some (num_of_Z 13207024435)) = u "12 Go".
Proof. vm_compute. repeat split; reflexivity. Qed.

(** ** What the page does not do *)

(** The answer to the first load, when it comes after the first lines of the
    stream, replaces them with its own snapshot. *)
Lemma late_first_load_overwrites :
  logs (play [AStream Opened; AStream (Line (u "a new line")); AAnswered 0 (reply Rejected (Some some_data) None None)] (admin_start no_seed Overview)) = [u "an old line"].
Proof. reflexivity. Qed.
(** The form of an OCR model is emptied even when the server refused it. *)
Lemma refused_form_emptied :
  let p := play [AOcrForm (mkOcr (u "ocr") (u "org/ocr") []); AAddOcr] (all_served some_data) in
  newOcr (models p) = mkOcr (u "ocr") (u "org/ocr") [] /\
  newOcr (models (play [AAnswered 0 (json_reply 400 (JObj [(u "ok", JBool false)]))] p)) = no_ocr.
Proof. vm_compute. split; reflexivity. Qed.
(** The title of a download keeps its placeholder, and a failed one is titled as
    finished. *)
Lemma download_title_unfilled :
  download_card fr (mkDownload false (u "Qwen/Qwen3-8B") (num_of_Z 0) None (u "disk full")) =
    Some (u "Téléchargement terminé : {r}", u "Échec", u "0 o — disk full").
Proof. vm_compute. reflexivity. Qed.
(** A warning about new arguments is said twice, once as the server wrote it. *)
Lemma warning_said_twice :
  let w := JObj [(u "ok", JBool true); (u "warning", JStr (u "LiteLLM"))] in
  let p := play [AOpenArgs gemma; ASaveArgs; AAnswered 0 (json_reply 200 w)] (all_served some_data) in
  List.filter (fun x => match x with Toast _ true => true | _ => false end) (asked p) = [Toast (u "LiteLLM") true; Toast (u "LiteLLM") true].
Proof. vm_compute. reflexivity. Qed.
(** A size just below the next unit is rounded up to 1024. *)
Lemma size_of_1024 : go (Some (num_of_Z 1048575)) = u "1024 Ko".
Proof. vm_compute. reflexivity. Qed.
