(* ===== verification/OcrText.v ===== *)
(** * The text of an OCR (app/(app)/ocr/OcrPage.tsx, the functions before the page)

    The detected zones of a document and its Markdown, read from what a model
    writes: lines with coordinates, or HTML.  The parser of the browser is an
    argument: it gives the children of the body. *)

From S2P Require Import Prelude JsString JsRegExp JsNumber.

(** ** The document *)

(** A node: a text, an element with its [tagName] as the DOM gives it, or a node
    that holds no text (a comment). *)
Inductive node := Text (s : jstr) | Elem (tagName : jstr) (attributes : list (jstr * jstr)) (childNodes : list node) | OtherNode.
Fixpoint textContent (n : node) : jstr :=
  match n with Text s => s | Elem _ _ l => flat_map textContent l | OtherNode => [] end.
Definition getAttribute (name : jstr) (n : node) : option jstr :=
  match n with Elem _ l _ => snd <$> List.find (fun x => streq x.1 name) l | _ => None end.
Definition tag_is (tag : jstr) (n : node) : bool := match n with Elem name _ _ => streq (to_lower name) tag | _ => false end.
Definition childNodes (n : node) : list node := match n with Elem _ _ l => l | _ => [] end.
(** [tagName === name], among the children. *)
Definition named (names : list jstr) (n : node) : bool := match n with Elem name _ _ => existsb (streq name) names | _ => false end.
(** [querySelectorAll] of a tag: the descendants, in the order of the document. *)
Fixpoint with_tag (tag : jstr) (n : node) : list node :=
  (if tag_is tag n then [n] else []) ++ match n with Elem _ _ l => flat_map (with_tag tag) l | _ => [] end.
Definition querySelectorAll (tag : jstr) (n : node) : list node := flat_map (with_tag tag) (childNodes n).

(** [a || b] on an attribute. *)
Definition or_empty (o : option jstr) (s : jstr) : jstr := match o with Some ((_ :: _) as x) => x | _ => s end.

(** ** Numbers *)

Definition digits (s : jstr) : Z := foldl (fun a c => a * 10 + (Z.of_N c - 48))%Z 0%Z s.
Definition hex_digits (base : Z) (s : jstr) : Z :=
  foldl (fun a c => a * base + default 0 (Z.of_N <$> hex_val (if (65 <=? c)%N && (c <=? 70)%N then (c + 32)%N else c)))%Z 0%Z s.
Definition neg_if (sign : jstr) (z : Z) : Z := if streq sign (u "-") then (- z)%Z else z.
Definition DECIMAL_RE : RegExp := rx "^([+-]?)(?:(\d+)\.?(\d*)|\.(\d+))(?:[eE]([+-]?)(\d+))?$" "".
(** [Number(s)] of a text without spaces; the sign of a zero aside. *)
Definition Number (s : jstr) : num :=
  match s with
  | [] => num_of_Z 0
  | _ =>
      match exec DECIMAL_RE s with
      | Some m =>
          let frac := cap0 m 3 ++ cap0 m 4 in
          num_of_decimal (neg_if (cap0 m 1) (digits (cap0 m 2 ++ frac))) (neg_if (cap0 m 5) (digits (cap0 m 6)) - Z.of_nat (length frac))
      | None =>
          if test (rx "^0[xX][0-9a-fA-F]+$" "") s then num_of_Z (hex_digits 16 (drop 2 s))
          else if test (rx "^0[oO][0-7]+$" "") s then num_of_Z (hex_digits 8 (drop 2 s))
          else if test (rx "^0[bB][01]+$" "") s then num_of_Z (hex_digits 2 (drop 2 s))
          else if streq s (u "-Infinity") then S754_infinity true
          else if streq s (u "Infinity") || streq s (u "+Infinity") then S754_infinity false
          else S754_nan
      end
  end.
Definition isFinite (x : num) : bool := match x with S754_nan | S754_infinity _ => false | _ => true end.

(** ** The zones *)

Record OcrBlock := mkBlock { label : jstr; coords : option (num * num * num * num); text : jstr }.
Definition UNLIMITED_OCR_LINE_RE : RegExp := rx "^(\S+)\s*\[\s*(\d+)\s*,\s*(\d+)\s*,\s*(\d+)\s*,\s*(\d+)\s*\](.*)$" "".
Definition unlimited_line (line : jstr) : OcrBlock :=
  match exec UNLIMITED_OCR_LINE_RE line with
  | None => mkBlock [] None line
  | Some m => mkBlock (cap0 m 1) (Some (Number (cap0 m 2), Number (cap0 m 3), Number (cap0 m 4), Number (cap0 m 5))) (trim (cap0 m 6))
  end.
Definition parseUnlimitedOcrBlocks (raw : jstr) : list OcrBlock :=
  map unlimited_line (List.filter (fun line => 0 <? length line) (split_lf raw)).

Section parser.
Context (parseHtml : jstr -> list node).

Definition chandra_block (el : node) : OcrBlock :=
  let bbox := map Number (split_re (rx "\s+" "") (trim (default [] (getAttribute (u "data-bbox") el)))) in
  mkBlock (to_lower (default [] (getAttribute (u "data-label") el)))
    (match bbox with [a; b; c; d] => if forallb isFinite bbox then Some (a, b, c, d) else None | _ => None end)
    (trim (textContent el)).
(** [:scope > div[data-bbox]] *)
Definition is_zone (n : node) : bool := tag_is (u "div") n && bool_decide (is_Some (getAttribute (u "data-bbox") n)).
Definition parseChandraBlocks (html : jstr) : list OcrBlock := map chandra_block (List.filter is_zone (parseHtml html)).
Definition is_html (raw : jstr) : bool := includes raw (u "data-bbox=").
Definition parseOcrBlocks (raw : jstr) : list OcrBlock :=
  match raw with [] => [] | _ => if is_html raw then parseChandraBlocks raw else parseUnlimitedOcrBlocks raw end.

(** ** Markdown *)

Definition cell_text (s : jstr) : jstr := replace_all (rx "\s*\n\s*" "g") (u " ") (replace_all (rx "\|" "g") (u "\|") (trim s)).
Definition cellsOf (tr : node) : list jstr := map (fun c => cell_text (textContent c)) (List.filter (named [u "TD"; u "TH"]) (childNodes tr)).
Definition pad (n : nat) (l : list jstr) : list jstr := l ++ repeat [] (n - length l).
Definition table_line (n : nat) (l : list jstr) : jstr := u "| " ++ join (u " | ") (pad n l) ++ u " |".
Definition columns (rows : list node) : nat := foldr Nat.max 1 (map (fun r => length (cellsOf r)) rows).
Definition tableToMarkdown (table : node) : jstr :=
  match querySelectorAll (u "tr") table with
  | [] => []
  | (head :: rest) as rows =>
      let nCols := columns rows in
      join [LF] (table_line nCols (cellsOf head) :: (u "| " ++ join (u " | ") (repeat (u "---") nCols) ++ u " |")
                 :: map (fun r => table_line nCols (cellsOf r)) rest)
  end.

Definition NL2 : jstr := [LF; LF].
Definition own_line (s : jstr) : jstr := NL2 ++ s ++ NL2.
Definition or_tag (tag : jstr) (l : list jstr) : bool := existsb (streq tag) l.
Fixpoint nodeToMarkdown (n : node) : jstr :=
  match n with
  | Text s => s
  | OtherNode => []
  | Elem name attributes l =>
      let el := Elem name attributes l in
      let inner := flat_map nodeToMarkdown l in
      let items := flat_map (fun c => if named [u "LI"] c then [trim (nodeToMarkdown c)] else []) l in
      let tag := to_lower name in
      if or_tag tag [u "h1"] then own_line (u "# " ++ trim inner)
      else if or_tag tag [u "h2"] then own_line (u "## " ++ trim inner)
      else if or_tag tag [u "h3"] then own_line (u "### " ++ trim inner)
      else if or_tag tag [u "h4"] then own_line (u "#### " ++ trim inner)
      else if or_tag tag [u "h5"; u "h6"] then own_line (u "##### " ++ trim inner)
      else if or_tag tag [u "p"; u "div"] then own_line (trim inner)
      else if or_tag tag [u "br"] then u "  " ++ [LF]
      else if or_tag tag [u "hr"] then own_line (u "---")
      else if or_tag tag [u "b"; u "strong"] then u "**" ++ trim inner ++ u "**"
      else if or_tag tag [u "i"; u "em"] then u "*" ++ trim inner ++ u "*"
      else if or_tag tag [u "del"] then u "~~" ++ trim inner ++ u "~~"
      else if or_tag tag [u "sup"] then u "^" ++ trim inner
      else if or_tag tag [u "sub"] then u "~" ++ trim inner
      else if or_tag tag [u "code"] then [BACKTICK] ++ textContent el ++ [BACKTICK]
      else if or_tag tag [u "pre"] then own_line (repeat BACKTICK 3 ++ [LF] ++ textContent el ++ [LF] ++ repeat BACKTICK 3)
      else if or_tag tag [u "math"] then u "$" ++ trim (textContent el) ++ u "$"
      else if or_tag tag [u "chem"] then [BACKTICK] ++ trim (textContent el) ++ [BACKTICK]
      else if or_tag tag [u "a"] then
        match getAttribute (u "href") el with Some ((_ :: _) as href) => u "[" ++ trim inner ++ u "](" ++ href ++ u ")" | _ => inner end
      else if or_tag tag [u "img"] then
        match trim (or_empty (getAttribute (u "alt") el) (textContent el)) with [] => [] | alt => own_line (u "*[Image : " ++ alt ++ u "]*") end
      else if or_tag tag [u "ul"] then own_line (join [LF] (map (fun s => u "- " ++ s) items))
      else if or_tag tag [u "ol"] then own_line (join [LF] (imap (fun i s => string_of_nat (i + 1) ++ u ". " ++ s) items))
      else if or_tag tag [u "table"] then own_line (tableToMarkdown el)
      else inner
  end.

Definition ocrToMarkdown (raw : jstr) (blocks : list OcrBlock) : jstr :=
  match raw with
  | [] => []
  | _ =>
      if is_html raw then trim (replace_all (rx "\n{3,}" "g") NL2 (flat_map nodeToMarkdown (parseHtml raw)))
      else join NL2 (List.filter (fun s => negb (streq s [])) (map text blocks))
  end.
Definition ocrPreviewText (raw : jstr) : jstr :=
  slice (join (u " ") (List.filter (fun s => negb (streq s [])) (map text (parseOcrBlocks raw)))) 0 80.
End parser.

(** ** The frames over the image *)

Definition LABEL_COLOR : list (jstr * jstr) :=
  [(u "title", u "#a855f7"); (u "section-header", u "#a855f7"); (u "header", u "#3b82f6"); (u "page-header", u "#3b82f6");
   (u "table", u "#14b8a6"); (u "table-of-contents", u "#14b8a6"); (u "image", u "#f97316"); (u "figure", u "#f97316");
   (u "diagram", u "#f97316"); (u "text", u "#22c55e")].
Definition label_color (l : jstr) : jstr :=
  match List.find (fun x => streq x.1 l) LABEL_COLOR with Some x => x.2 | None => u "#64748b" end.
(** The title of a frame, its left, top, width and height in percents, its
    color. *)
Definition frame (b : OcrBlock) : option (jstr * (num * num * num * num) * jstr) :=
  match coords b with
  | None => None
  | Some (x1, y1, x2, y2) =>
      let pct x := nmul (ndiv x (num_of_Z 1000)) (num_of_Z 100) in
      Some (label b ++ match text b with [] => [] | s => u ": " ++ s end, (pct x1, pct y1, pct (nsub x2 x1), pct (nsub y2 y1)), label_color (label b))
  end.

(** ** A table is a table *)

(** The bars of a line that separate cells: those no backslash precedes. *)
Fixpoint bars (prev : N) (s : jstr) : nat :=
  match s with [] => 0 | c :: r => (if (c =? 124)%N && negb (prev =? BACKSLASH)%N then 1 else 0) + bars c r end.
Lemma bars_app p a b : bars p (a ++ b) = bars p a + bars (default p (last a)) b.
Proof.
  revert p. induction a as [|c a IH]; intros p; [done|]. cbn [app bars]. rewrite IH, Nat.add_assoc. f_equal. f_equal.
  by destruct a as [|d a]; [|cbn [last]; destruct (last (d :: a)) eqn:E; [|apply last_None in E]].
Qed.
Lemma bars_space p c r : bars p c = 0 -> bars p (c ++ 32%N :: r) = bars 32 r.
Proof. intros H. by rewrite bars_app, H. Qed.
(** Where a text without separating bar goes on, only its first unit depends on
    what precedes. *)
Lemma bars_restart p q s : p <> BACKSLASH -> bars p s = 0 -> bars q s = 0.
Proof. intros H. destruct s as [|c r]; [done|]. cbn [bars]. apply N.eqb_neq in H as ->. destruct (c =? 124)%N; [discriminate|]. done. Qed.
Lemma bars_drop p s i : bars p s = 0 -> bars (match i with O => p | S j => default p (s !! j) end) (drop i s) = 0.
Proof.
  revert p s. induction i as [|i IH]; intros p s H; [by rewrite drop_0|]. destruct s as [|c s]; [done|]. cbn [bars drop] in *.
  assert (H' : bars c s = 0) by lia. specialize (IH c s H'). destruct i as [|i]; [exact IH|]. change ((c :: s) !! S i) with (s !! i).
  destruct (s !! i) eqn:E; [exact IH|]. rewrite (drop_ge s (S i)); [done|]. apply lookup_ge_None in E. lia.
Qed.

Definition BAR_RE : RegExp := rx "\|" "g".
Definition BREAK_RE : RegExp := rx "\s*\n\s*" "g".
Lemma bars_escaped p s : bars p (replace_all BAR_RE (u "\|") s) = 0.
Proof.
  rewrite (replace_class _ false [(124, 124)%N]) by (reflexivity || (vm_compute; set_solver)).
  revert p. induction s as [|c s IH]; intros p; [done|]. cbn [flat_map]. change (re_flags BAR_RE) with (mkFlags false false).
  destruct (char_in _ c false _) eqn:E.
  - change (u "\|" ++ ?r) with (92%N :: 124%N :: r). cbn [bars]. change ((92 =? 124)%N) with false. by cbn.
  - cbn [app bars]. rewrite IH. rewrite char_in_single in E by done. rewrite N.eqb_sym, E. done.
Qed.

(** A matched break is white space. *)
Lemma break_match s m : In m (match_all BREAK_RE s) -> m_index m < m_end m /\ m_end m <= length s /\
  Forall (fun c => is_ws c = true) (slice s (m_index m) (m_end m)).
Proof.
  intros H. apply match_all_sound in H as (H1 & H2 & H3 & z & Hz & _ & Hc). rewrite H3 in Hc.
  assert (L := rm_min_len _ _ _ _ Hz). assert (C := Hc). destruct C as [_ C]. unfold slice in C. rewrite length_take, length_drop in C.
  cbn [at_pos ms_pos] in *. change (min_len (re_body BREAK_RE)) with 1 in L. split; [lia|]. split; [lia|].
  assert (W : forall fl mn mx g x y, rm fl (Rep (Chars false ws_ranges) mn mx g) x y -> ignoreCase fl = false -> exists t, consumes x t y /\ Forall (fun c => is_ws c = true) t).
  { intros fl mn mx g x y Hr Hi. apply rm_rep_inside in Hr as (t & Ht & Hf). exists t. split; [done|]. eapply Forall_impl; [exact Hf|]. intros c; cbv beta. by rewrite ws_class. }
  change (re_body BREAK_RE) with (Cat (Rep (Chars false ws_ranges) 0 None true) (Cat (Chars false [(10, 10)%N]) (Rep (Chars false ws_ranges) 0 None true))) in Hz.
  apply rm_cat_inv in Hz as (y1 & Hz1 & Hz). apply rm_cat_inv in Hz as (y2 & Hz2 & Hz3).
  apply W in Hz1 as (t1 & C1 & F1); [|done]. apply W in Hz3 as (t3 & C3 & F3); [|done]. apply rm_unit_inv in Hz2 as [C2 _]; [|done].
  assert (E := consumes_det _ _ _ _ Hc (consumes_app _ _ _ _ _ C1 (consumes_app _ _ _ _ _ C2 C3))). rewrite E.
  apply Forall_app. split; [done|]. apply Forall_app. split; [by repeat constructor|done].
Qed.
Lemma breaks_gone s : LF ∉ replace_all BREAK_RE (u " ") s.
Proof.
  apply replace_all_avoids; [vm_compute; lia|vm_compute; set_solver|vm_compute; set_solver|]. intros j Hj.
  assert (D : exists r, drop j s = LF :: r) by (exists (drop (S j) s); by apply drop_S). destruct D as [r D]. unfold match_here. rewrite D.
  set (x := mkM _ _ _ _). destruct (mt (re_flags BREAK_RE) (re_body BREAK_RE) x Some) eqn:E; [by eexists|]. exfalso.
  assert (G : is_Some (mt (re_flags BREAK_RE) (re_body BREAK_RE) x Some)); [|rewrite E in G; by destruct G].
  change (re_body BREAK_RE) with (Cat (Rep (Chars false ws_ranges) 0 None true) (Cat (Chars false [(10, 10)%N]) (Rep (Chars false ws_ranges) 0 None true))).
  cbn [mt]. apply (mt_rep_stop _ (Chars false ws_ranges) None x). cbn [advance ms_rest x]. change (char_in (re_flags BREAK_RE) LF false [(10, 10)%N]) with true. cbn iota.
  apply (mt_rep_stop _ (Chars false ws_ranges) None). by eexists.
Qed.
Lemma breaks_keep_bars s : bars 32 s = 0 -> bars 32 (replace_all BREAK_RE (u " ") s) = 0.
Proof.
  intros H. unfold replace_all, replace_all_fn.
  apply (splice_ind s (fun m => expand_match m (u " ")) (fun i t => bars (match i with O => 32 | S j => default 32 (s !! j) end)%N t = 0) (match_all BREAK_RE s) 0); [apply match_all_ordered|lia| |].
  - intros i _. by apply bars_drop.
  - intros i m t Hm Hi _ _ Ht. apply break_match in Hm as (L1 & L2 & W).
    assert (B := bars_drop _ _ i H). rewrite <- (take_drop (m_index m - i) (drop i s)) in B. rewrite bars_app in B.
    change (expand_match m (u " ") ++ t) with (32%N :: t). fold (slice s i (m_index m)) in B. rewrite bars_space by lia.
    destruct (m_end m) as [|e] eqn:E; [lia|]. refine (bars_restart _ _ _ _ Ht). destruct (lookup_lt_is_Some_2 s e ltac:(lia)) as [c Hc]. rewrite Hc. cbn.
    rewrite Forall_lookup in W. intros ->. specialize (W (e - m_index m) BACKSLASH). unfold slice in W. rewrite lookup_take_lt, lookup_drop in W by lia.
    replace (m_index m + (e - m_index m)) with e in W by lia. by specialize (W Hc).
Qed.

(** A cell holds on one line and brings no separating bar. *)
Lemma cell_one_line s : LF ∉ cell_text s /\ bars 32 (cell_text s) = 0.
Proof. split; [apply breaks_gone|apply breaks_keep_bars, bars_escaped]. Qed.
Definition cell_ok (s : jstr) : Prop := LF ∉ s /\ bars 32 s = 0.
Lemma cells_ok tr : Forall cell_ok (cellsOf tr).
Proof. apply Forall_forall. intros x H. unfold cellsOf in H. apply list_elem_of_fmap in H as (c & -> & _). apply cell_one_line. Qed.
Lemma line_ok l : l <> [] -> Forall cell_ok l -> LF ∉ u "| " ++ join (u " | ") l ++ u " |" /\ bars 0 (u "| " ++ join (u " | ") l ++ u " |") = S (length l).
Proof.
  intros N H. change (bars 0 (u "| " ++ ?x)) with (S (bars 32 x)).
  cut (LF ∉ join (u " | ") l ++ u " |" /\ bars 32 (join (u " | ") l ++ u " |") = length l).
  { intros [A B]. rewrite B. split; [|done]. rewrite elem_of_app. intros [X|X]; [by vm_compute in X; set_solver|done]. }
  induction H as [|c l [C1 C2] H IH]; [done|]. destruct l as [|d l].
  - cbn [join]. change (u " |") with [32%N; 124%N]. rewrite bars_space by done. split; [|done]. rewrite elem_of_app. intros [X|X]; [done|set_solver].
  - rewrite join_cons2, <- !app_assoc. change (u " | " ++ ?x) with (32%N :: 124%N :: 32%N :: x). rewrite bars_space by done. change (bars 32 (124%N :: 32%N :: ?x)) with (S (bars 32 x)).
    destruct IH as [I1 I2]; [done|]. rewrite I2. split; [|done]. rewrite elem_of_app, !elem_of_cons. intros [X|[X|[X|[X|X]]]]; try done.
Qed.
Lemma columns_enough rows r : In r rows -> 1 <= columns rows /\ length (cellsOf r) <= columns rows.
Proof.
  unfold columns. induction rows as [|x rows IH]; [done|]. cbn [map foldr]. intros [->|H]; [|specialize (IH H); lia].
  split; [|lia]. clear. induction rows as [|y rows IH]; cbn [map foldr]; lia.
Qed.
Lemma table_line_ok rows r : In r rows -> LF ∉ table_line (columns rows) (cellsOf r) /\ bars 0 (table_line (columns rows) (cellsOf r)) = S (columns rows).
Proof.
  intros H. apply columns_enough in H as [H1 H2]. unfold table_line. assert (L : length (pad (columns rows) (cellsOf r)) = columns rows).
  { unfold pad. rewrite length_app, repeat_length. lia. }
  rewrite <- L at 3. apply line_ok; [intros E; rewrite E in L; cbn in L; lia|]. unfold pad. apply Forall_app. split; [apply cells_ok|].
  apply Forall_forall. intros x Hx. apply list_elem_of_In, repeat_spec in Hx as ->. split; [apply not_elem_of_nil|done].
Qed.

(** A table of the document is a table of the Markdown: a line for each of its
    rows and the separator, and in every line the same number of bars that
    separate cells, whatever the cells hold. *)
Theorem table_lines table : let rows := querySelectorAll (u "tr") table in rows <> [] ->
  let lines := split_lf (tableToMarkdown table) in
  length lines = S (length rows) /\ Forall (fun l => bars 0 l = S (columns rows)) lines.
Proof.
  cbv zeta. unfold tableToMarkdown. destruct (querySelectorAll (u "tr") table) as [|h rest] eqn:E; [done|]. intros _.
  set (n := columns (h :: rest)). set (sep := u "| " ++ join (u " | ") (repeat (u "---") n) ++ u " |").
  assert (S1 : LF ∉ sep /\ bars 0 sep = S n).
  { destruct (columns_enough (h :: rest) h (or_introl eq_refl)) as [H1 _]. fold n in H1. destruct (line_ok (repeat (u "---") n)) as [A B].
    - destruct n; [lia|done].
    - apply Forall_forall. intros x Hx. apply list_elem_of_In, repeat_spec in Hx as ->. split; [vm_compute; set_solver|done].
    - by rewrite repeat_length in B. }
  assert (S2 : forall r, In r (h :: rest) -> LF ∉ table_line n (cellsOf r) /\ bars 0 (table_line n (cellsOf r)) = S n) by (intros; by apply table_line_ok).
  assert (F : Forall (fun l => LF ∉ l /\ bars 0 l = S n) (table_line n (cellsOf h) :: sep :: map (fun r => table_line n (cellsOf r)) rest)).
  { constructor; [by apply S2; left|]. constructor; [exact S1|]. apply Forall_forall. intros x Hx.
    apply list_elem_of_fmap in Hx as (r & -> & Hr). apply S2. right. by apply list_elem_of_In. }
  unfold split_lf. rewrite split_join_single; [|done|by eapply Forall_impl; [exact F|intros l []]].
  split; [cbn [length]; by rewrite length_map|]. eapply Forall_impl; [exact F|]. by intros l [].
Qed.

(** ** The words of a document are kept *)

(** What is written in a text: its units that are not white space. *)
Definition ink (s : jstr) : jstr := List.filter (fun c => negb (is_ws c)) s.
Lemma ink_app a b : ink (a ++ b) = ink a ++ ink b.
Proof. apply List.filter_app. Qed.
Lemma ink_drop_while s : ink (drop_while is_ws s) = ink s.
Proof. induction s as [|c s IH]; [done|]. cbn [drop_while]. destruct (is_ws c) eqn:E; [|done]. unfold ink in *. cbn [List.filter]. by rewrite E. Qed.
Lemma ink_rev s : ink (rev s) = rev (ink s).
Proof. induction s as [|c s IH]; [done|]. cbn [rev]. rewrite ink_app, IH. unfold ink. cbn [List.filter]. destruct (is_ws c); cbn [negb rev]; [by rewrite app_nil_r|done]. Qed.
Lemma ink_trim s : ink (trim s) = ink s.
Proof. unfold trim, trim_end, trim_start, drop_while_end. by rewrite ink_rev, ink_drop_while, ink_rev, ink_drop_while, rev_involutive. Qed.
Definition blank (s : jstr) : bool := streq (ink s) [].
Lemma blank_ink s : blank s = true -> ink s = [].
Proof. unfold blank. by intros H%streq_true. Qed.

(** A document whose lists hold items only, without image or table: what is
    written elsewhere in a list is dropped, an image may have another text,
    tables are the affair of [table_lines]. *)
Fixpoint plain (n : node) : bool :=
  match n with
  | Elem name _ l =>
      forallb plain l &&
      (if or_tag (to_lower name) [u "br"; u "hr"; u "img"; u "table"] then blank (flat_map textContent l) else true) &&
      (if or_tag (to_lower name) [u "ul"; u "ol"] then forallb (fun c => named [u "LI"] c || blank (textContent c)) l else true)
  | _ => true
  end.

(** Induction on the document. *)
Lemma node_rect_list (P : node -> Prop) : (forall s, P (Text s)) -> P OtherNode -> (forall name a l, Forall P l -> P (Elem name a l)) -> forall n, P n.
Proof.
  intros HT HO HE. fix IH 1. intros [s|name a l|]; [apply HT| |apply HO]. apply HE. induction l as [|x l IHl]; constructor; [apply IH|exact IHl].
Qed.

(** [a] is written in [b]. *)
Definition within (a b : jstr) : Prop := ink a `sublist_of` ink b.
Lemma within_refl a : within a a.
Proof. unfold within. reflexivity. Qed.
Lemma within_trans a b c : within a b -> within b c -> within a c.
Proof. unfold within. apply transitivity. Qed.
Lemma within_blank a b : ink a = [] -> within a b.
Proof. unfold within. intros ->. apply sublist_nil_l. Qed.
Lemma within_trim a b : within a b -> within a (trim b).
Proof. unfold within. by rewrite ink_trim. Qed.
Lemma within_trim_l a b : within a b -> within (trim a) b.
Proof. unfold within. by rewrite ink_trim. Qed.
Lemma within_before a p b : within a b -> within a (p ++ b).
Proof. unfold within. rewrite ink_app. apply sublist_inserts_l. Qed.
Lemma within_after a b q : within a b -> within a (b ++ q).
Proof. unfold within. rewrite ink_app. apply sublist_inserts_r. Qed.
Lemma within_app a b c d : within a b -> within c d -> within (a ++ c) (b ++ d).
Proof. unfold within. rewrite !ink_app. apply sublist_app. Qed.
Lemma within_flat l : Forall (fun n => within (textContent n) (nodeToMarkdown n)) l -> within (flat_map textContent l) (flat_map nodeToMarkdown l).
Proof. induction 1 as [|n l H _ IH]; [apply within_refl|]. cbn [flat_map]. by apply within_app. Qed.
Lemma within_join f (items : list jstr) : (forall i s, within s (f i s)) -> within (concat items) (join [LF] (imap f items)).
Proof.
  revert f. induction items as [|s items IH]; intros f H; [apply within_refl|]. cbn [concat imap]. destruct items as [|s' items].
  - cbn [concat imap join]. rewrite app_nil_r. apply H.
  - cbn [imap]. rewrite join_cons2. apply within_app; [apply H|]. apply within_before. apply (IH (f ∘ S)). intros; apply H.
Qed.
Lemma map_imap {A B} (f : A -> B) l : map f l = imap (fun _ => f) l.
Proof. symmetry. apply imap_const. Qed.
Lemma within_items l : Forall (fun n => within (textContent n) (nodeToMarkdown n)) l ->
  forallb (fun c => named [u "LI"] c || blank (textContent c)) l = true ->
  within (flat_map textContent l) (concat (flat_map (fun c => if named [u "LI"] c then [trim (nodeToMarkdown c)] else []) l)).
Proof.
  induction 1 as [|n l H _ IH]; [intros _; apply within_refl|]. cbn [forallb flat_map]. intros B. apply andb_prop in B as [B1 B2]. rewrite concat_app.
  apply within_app; [|by apply IH]. destruct (named [u "LI"] n); [cbn [concat]; rewrite app_nil_r; by apply within_trim|].
  apply within_blank, blank_ink. exact B1.
Qed.

Lemma or_tag_one tag x : or_tag tag [x] = true -> tag = x.
Proof. unfold or_tag. cbn [existsb]. rewrite orb_false_r. apply streq_true. Qed.
Create HintDb within.
#[local] Hint Resolve within_refl within_trim within_before within_after : within.
Lemma node_words n : plain n = true -> within (textContent n) (nodeToMarkdown n).
Proof.
  induction n as [s| |name a l IH] using node_rect_list; [intros _; apply within_refl|intros _; apply within_refl|]. cbn [plain]. intros P. apply andb_prop in P as [P Pl]. apply andb_prop in P as [P Pe].
  assert (F : Forall (fun n => within (textContent n) (nodeToMarkdown n)) l).
  { rewrite forallb_forall in P. rewrite Forall_forall in *. intros x Hx. apply IH; [done|]. by apply P, list_elem_of_In. }
  assert (W := within_flat l F). cbn [nodeToMarkdown textContent]. clear IH P. revert Pe Pl. generalize (to_lower name). intros tag Pe Pl.
  assert (B : forall x, or_tag x [u "br"; u "hr"; u "img"; u "table"] = true -> tag = x -> ink (flat_map textContent l) = []).
  { intros x Hx ->. rewrite Hx in Pe. by apply blank_ink. }
  assert (L : forall x, or_tag x [u "ul"; u "ol"] = true -> tag = x -> forallb (fun c => named [u "LI"] c || blank (textContent c)) l = true).
  { intros x Hx ->. by rewrite Hx in Pl. }
  clear Pe Pl. unfold own_line, NL2.
  repeat match goal with |- within _ (if or_tag tag ?x then _ else _) => destruct (or_tag tag x) eqn:? end;
    try (by eauto 12 with within);
    repeat match goal with H : or_tag tag [_] = true |- _ => apply or_tag_one in H end.
  - apply within_blank. match goal with H : tag = ?x |- _ => exact (B x eq_refl H) end.
  - apply within_blank. match goal with H : tag = ?x |- _ => exact (B x eq_refl H) end.
  - case_match; [case_match|]; eauto 12 with within.
  - apply within_blank. match goal with H : tag = ?x |- _ => exact (B x eq_refl H) end.
  - apply within_before, within_after. eapply within_trans; [apply within_items; [exact F|match goal with H : tag = ?x |- _ => exact (L x eq_refl H) end]|].
    rewrite map_imap. apply within_join. intros. eauto with within.
  - apply within_before, within_after. eapply within_trans; [apply within_items; [exact F|match goal with H : tag = ?x |- _ => exact (L x eq_refl H) end]|].
    apply within_join. intros. eauto with within.
  - apply within_blank. match goal with H : tag = ?x |- _ => exact (B x eq_refl H) end.
Qed.

(** Runs of breaks are shortened, nothing written is touched. *)
Definition LONG_BREAK_RE : RegExp := rx "\n{3,}" "g".
Lemma breaks_keep_ink s : ink (replace_all LONG_BREAK_RE NL2 s) = ink s.
Proof.
  unfold replace_all, replace_all_fn.
  apply (splice_ind s (fun m => expand_match m NL2) (fun i t => ink t = ink (drop i s)) (match_all LONG_BREAK_RE s) 0); [apply match_all_ordered|lia|done|].
  intros i m t Hm Hi Hl He Ht. rewrite expand_match_plain by (vm_compute; set_solver). apply match_all_sound in Hm as (_ & _ & H3 & z & Hz & _ & Hc). rewrite H3 in Hc.
  change (re_body LONG_BREAK_RE) with (Rep (Chars false [(10, 10)%N]) 3 None true) in Hz. apply rm_rep_inside in Hz as (x & Hx & Hin).
  rewrite (consumes_det _ _ _ _ Hx Hc) in Hin. rewrite !ink_app, Ht. change (ink NL2) with (@nil N). rewrite app_nil_l.
  assert (E : drop i s = slice s i (m_index m) ++ slice s (m_index m) (m_end m) ++ drop (m_end m) s).
  { unfold slice. rewrite <- (take_drop (m_index m - i) (drop i s)) at 1. f_equal. rewrite drop_drop. replace (i + (m_index m - i)) with (m_index m) by lia.
    rewrite <- (take_drop (m_end m - m_index m) (drop (m_index m) s)) at 1. f_equal. rewrite drop_drop. f_equal. lia. }
  rewrite E, !ink_app. f_equal. assert (K : ink (slice s (m_index m) (m_end m)) = []); [|by rewrite K].
  clear -Hin. induction Hin as [|c l H _ IH]; [done|]. rewrite char_in_single in H by done. apply N.eqb_eq in H as <-. exact IH.
Qed.

(** C20: In a document given as HTML whose lists hold text only in their items, and
    whose tables and images hold none, every character written (blanks apart) is
    in its Markdown, in the same order: none is lost by the tags, the lists, the
    links or the cleaning of the breaks. (What a list holds outside its items is
    dropped, [loose_text_dropped]; for the tables see [table_lines].) *)
Theorem words_kept parseHtml raw blocks : raw <> [] -> is_html raw = true -> forallb plain (parseHtml raw) = true ->
  ink (flat_map textContent (parseHtml raw)) `sublist_of` ink (ocrToMarkdown parseHtml raw blocks).
Proof.
  intros N H P. unfold ocrToMarkdown. destruct raw as [|c r]; [done|]. rewrite H. change (rx "\n{3,}" "g") with LONG_BREAK_RE. rewrite ink_trim, breaks_keep_ink.
  apply within_flat. rewrite forallb_forall in P. apply Forall_forall. intros n Hn. apply node_words, P. by apply list_elem_of_In.
Qed.

(** ** The blocks and the preview *)

(** A line that names no zone is kept as it stands; empty lines are dropped, every
    other one gives a block. *)
Lemma unlimited_blocks raw : length (parseUnlimitedOcrBlocks raw) = length (List.filter (fun l => 0 <? length l) (split_lf raw)) /\
  Forall (fun b => coords b = None -> label b = [] /\ In (text b) (split_lf raw)) (parseUnlimitedOcrBlocks raw).
Proof.
  unfold parseUnlimitedOcrBlocks. split; [apply length_map|]. apply Forall_forall. intros b Hb. apply list_elem_of_fmap in Hb as (l & -> & Hl).
  apply list_elem_of_In, filter_In in Hl as [Hl _]. unfold unlimited_line. by destruct (exec _ l).
Qed.
Lemma preview_short parseHtml raw : length (ocrPreviewText parseHtml raw) <= 80.
Proof. unfold ocrPreviewText, slice. rewrite length_take. lia. Qed.

Definition td (s : jstr) : node := Elem (u "TD") [] [Text s].
Definition tr (l : list jstr) : node := Elem (u "TR") [] (map td l).
Definition a_table : node := Elem (u "TABLE") [] [Elem (u "TBODY") [] [tr [u "a|b"; u "c"]; tr [u " x " ++ [LF] ++ u " y"]]].
Example a_table_text : tableToMarkdown a_table = join [LF] [u "| a\|b | c |"; u "| --- | --- |"; u "| x y |  |"].
Proof. vm_compute. reflexivity. Qed.
Definition a_page : list node :=
  [Elem (u "DIV") [(u "data-bbox", u "0 0 1000 500"); (u "data-label", u "Title")] [Elem (u "H1") [] [Text (u " Invoice ")]];
   Elem (u "DIV") [(u "data-bbox", u "1 2 3")] [Elem (u "UL") [] [Text [LF]; Elem (u "LI") [] [Text (u "one "); Elem (u "B") [] [Text (u "two")]]]]].
Example a_page_text : ocrToMarkdown (fun _ => a_page) (u "data-bbox=") [] = u "# Invoice" ++ NL2 ++ u "- one **two**".
Proof. vm_compute. reflexivity. Qed.
Example a_page_blocks : parseOcrBlocks (fun _ => a_page) (u "data-bbox=") =
  [mkBlock (u "title") (Some (num_of_Z 0, num_of_Z 0, num_of_Z 1000, num_of_Z 500)) (u "Invoice"); mkBlock [] None (u "one two")].
Proof. vm_compute. reflexivity. Qed.
Example zone_lines : parseUnlimitedOcrBlocks (u "title [12, 34, 56, 78] Hello " ++ [LF; LF] ++ u "no zone ") =
  [mkBlock (u "title") (Some (num_of_Z 12, num_of_Z 34, num_of_Z 56, num_of_Z 78)) (u "Hello"); mkBlock [] None (u "no zone ")].
Proof. vm_compute. reflexivity. Qed.
(** A zone written without space is cut at its last bracket, not at its first. *)
Example last_zone_wins : parseUnlimitedOcrBlocks (u "title[1,2,3,4]see[5,6,7,8]") =
  [mkBlock (u "title[1,2,3,4]see") (Some (num_of_Z 5, num_of_Z 6, num_of_Z 7, num_of_Z 8)) []].
Proof. vm_compute. reflexivity. Qed.
(** What a list holds outside its items is dropped. *)
Example loose_text_dropped : nodeToMarkdown (Elem (u "UL") [] [Text (u "Total:"); Elem (u "LI") [] [Text (u "12")]]) = own_line (u "- 12").
Proof. vm_compute. reflexivity. Qed.

Theorem table_lines_witness : let lines := split_lf (tableToMarkdown a_table) in
  length lines = S (length (querySelectorAll (u "tr") a_table)) /\ Forall (fun l => bars 0 l = S (columns (querySelectorAll (u "tr") a_table))) lines.
Proof. apply (table_lines a_table). discriminate. Defined.
Theorem words_kept_witness :
  ink (flat_map textContent a_page) `sublist_of` ink (ocrToMarkdown (fun _ => a_page) (u "data-bbox=") []).
Proof. apply (words_kept (fun _ => a_page) (u "data-bbox=") []); [discriminate|reflexivity|reflexivity]. Defined.
