(* ===== verification/OcrPage.v ===== *)
(** * The OCR page (app/(app)/ocr/OcrPage.tsx, the component)

    The image chosen, its extraction streamed by [Api.streamOcr], the result and
    its image, the history.  An object URL is known by its number; [revoked]
    holds those given back to the browser, in order. *)

From S2P Require Import Prelude JsInt JsRegExp JsNumber OcrText.
Local Open Scope flow_scope.

Record File := mkFile { f_name : jstr; f_size : Z }.
Record HistoryItem := mkItem { h_id : Z; h_text : jstr; h_created_at : jstr; h_has_image : bool }.
Record RunningModel := mkModel { m_name : jstr; m_kind : jstr }.
(** An image shown: an object URL or one of the server. *)
Inductive Url := Blob (n : nat) | Path (s : jstr).
Definition MAX_SIZE_BYTES : Z := 15 * 1024 * 1024.
Inductive OEffect := AskedHistory | AskedRunning | Extracted (image : File) (instruction : jstr) | Copied (s : jstr) | Toast (body : jstr) (error : bool).

Record OPage := mkOPage {
  image : option File; instruction : jstr; isLoading : bool; result : jstr; history : list HistoryItem;
  available : option bool; ocrModel : option jstr; zones : bool; resultImageUrl : option Url;
  resultImageBlobRef : option nat; previewUrl : option nat; next_url : nat; revoked : list nat;
  mounted : bool; histories : nat; asking : bool; asked : list OEffect
}.

Definition set_image v p := mkOPage v (instruction p) (isLoading p) (result p) (history p) (available p) (ocrModel p) (zones p) (resultImageUrl p) (resultImageBlobRef p) (previewUrl p) (next_url p) (revoked p) (mounted p) (histories p) (asking p) (asked p).
Definition set_instruction v p := mkOPage (image p) v (isLoading p) (result p) (history p) (available p) (ocrModel p) (zones p) (resultImageUrl p) (resultImageBlobRef p) (previewUrl p) (next_url p) (revoked p) (mounted p) (histories p) (asking p) (asked p).
Definition set_isLoading v p := mkOPage (image p) (instruction p) v (result p) (history p) (available p) (ocrModel p) (zones p) (resultImageUrl p) (resultImageBlobRef p) (previewUrl p) (next_url p) (revoked p) (mounted p) (histories p) (asking p) (asked p).
Definition set_result v p := mkOPage (image p) (instruction p) (isLoading p) v (history p) (available p) (ocrModel p) (zones p) (resultImageUrl p) (resultImageBlobRef p) (previewUrl p) (next_url p) (revoked p) (mounted p) (histories p) (asking p) (asked p).
Definition set_history v p := mkOPage (image p) (instruction p) (isLoading p) (result p) v (available p) (ocrModel p) (zones p) (resultImageUrl p) (resultImageBlobRef p) (previewUrl p) (next_url p) (revoked p) (mounted p) (histories p) (asking p) (asked p).
Definition set_available v p := mkOPage (image p) (instruction p) (isLoading p) (result p) (history p) v (ocrModel p) (zones p) (resultImageUrl p) (resultImageBlobRef p) (previewUrl p) (next_url p) (revoked p) (mounted p) (histories p) (asking p) (asked p).
Definition set_ocrModel v p := mkOPage (image p) (instruction p) (isLoading p) (result p) (history p) (available p) v (zones p) (resultImageUrl p) (resultImageBlobRef p) (previewUrl p) (next_url p) (revoked p) (mounted p) (histories p) (asking p) (asked p).
Definition set_zones v p := mkOPage (image p) (instruction p) (isLoading p) (result p) (history p) (available p) (ocrModel p) v (resultImageUrl p) (resultImageBlobRef p) (previewUrl p) (next_url p) (revoked p) (mounted p) (histories p) (asking p) (asked p).
Definition set_resultImageUrl v p := mkOPage (image p) (instruction p) (isLoading p) (result p) (history p) (available p) (ocrModel p) (zones p) v (resultImageBlobRef p) (previewUrl p) (next_url p) (revoked p) (mounted p) (histories p) (asking p) (asked p).
Definition set_resultImageBlobRef v p := mkOPage (image p) (instruction p) (isLoading p) (result p) (history p) (available p) (ocrModel p) (zones p) (resultImageUrl p) v (previewUrl p) (next_url p) (revoked p) (mounted p) (histories p) (asking p) (asked p).
Definition set_previewUrl v p := mkOPage (image p) (instruction p) (isLoading p) (result p) (history p) (available p) (ocrModel p) (zones p) (resultImageUrl p) (resultImageBlobRef p) v (next_url p) (revoked p) (mounted p) (histories p) (asking p) (asked p).
Definition set_revoked v p := mkOPage (image p) (instruction p) (isLoading p) (result p) (history p) (available p) (ocrModel p) (zones p) (resultImageUrl p) (resultImageBlobRef p) (previewUrl p) (next_url p) v (mounted p) (histories p) (asking p) (asked p).
Definition set_mounted v p := mkOPage (image p) (instruction p) (isLoading p) (result p) (history p) (available p) (ocrModel p) (zones p) (resultImageUrl p) (resultImageBlobRef p) (previewUrl p) (next_url p) (revoked p) v (histories p) (asking p) (asked p).
Definition set_histories v p := mkOPage (image p) (instruction p) (isLoading p) (result p) (history p) (available p) (ocrModel p) (zones p) (resultImageUrl p) (resultImageBlobRef p) (previewUrl p) (next_url p) (revoked p) (mounted p) v (asking p) (asked p).
Definition set_asking v p := mkOPage (image p) (instruction p) (isLoading p) (result p) (history p) (available p) (ocrModel p) (zones p) (resultImageUrl p) (resultImageBlobRef p) (previewUrl p) (next_url p) (revoked p) (mounted p) (histories p) v (asked p).
Definition emit (e : OEffect) p := mkOPage (image p) (instruction p) (isLoading p) (result p) (history p) (available p) (ocrModel p) (zones p) (resultImageUrl p) (resultImageBlobRef p) (previewUrl p) (next_url p) (revoked p) (mounted p) (histories p) (asking p) (asked p ++ [e]).
Definition fresh_url p := mkOPage (image p) (instruction p) (isLoading p) (result p) (history p) (available p) (ocrModel p) (zones p) (resultImageUrl p) (resultImageBlobRef p) (previewUrl p) (S (next_url p)) (revoked p) (mounted p) (histories p) (asking p) (asked p).

(** Reading a field through the updates. *)
Ltac ocr_fields :=
  cbn [image instruction isLoading result history available ocrModel zones resultImageUrl resultImageBlobRef previewUrl next_url revoked mounted histories asking asked
       set_image set_instruction set_isLoading set_result set_history set_available set_ocrModel set_zones set_resultImageUrl set_resultImageBlobRef set_previewUrl set_revoked set_mounted set_histories set_asking emit fresh_url] in *.

Section page.
Context (t : jstr -> jstr) (parseHtml : jstr -> list node).

Definition ocr_model (models : list RunningModel) : option RunningModel := List.find (fun m => streq (m_kind m) (u "ocr")) models.
Definition loadHistory (p : OPage) : OPage := p |> set_histories (S (histories p)) |> emit AskedHistory.
(** What the seed gives, and what of it is fresh. *)
Definition ocr_start (items : option (list HistoryItem)) (running : option (list RunningModel)) (fresh_history fresh_running : bool) : OPage :=
  let ocrInitial := running ≫= ocr_model in
  let p := mkOPage None (u "document parsing.") false [] (default [] items)
             (match running with Some _ => Some (bool_decide (is_Some ocrInitial)) | None => None end) (m_name <$> ocrInitial)
             false None None None 0 [] true 0 false [] in
  let p := if fresh_history then p else loadHistory p in
  if fresh_running then p else p |> set_asking true |> emit AskedRunning.
(** An answer: [None] when it rejects; a refused one ([Some None]) is read as no
    extraction. *)
Definition history_answered (r : option (option (list HistoryItem))) (p : OPage) : OPage :=
  match histories p with
  | O => p
  | S n => let p := set_histories n p in match r with None => p | Some l => if mounted p then set_history (default [] l) p else p end
  end.
Definition running_answered (r : option (option (list RunningModel))) (p : OPage) : OPage :=
  if asking p then
    let p := set_asking false p in
    if negb (mounted p) then p
    else match r with
         | None => set_available None p
         | Some l => let ocr := l ≫= ocr_model in p |> set_available (Some (bool_decide (is_Some ocr))) |> set_ocrModel (m_name <$> ocr)
         end
  else p.
Definition isChandra (p : OPage) : bool := match ocrModel p with Some m => includes (to_lower m) (u "chandra") | None => false end.

(** ** The image URLs *)

Definition revoke (o : option nat) (p : OPage) : OPage := match o with Some n => set_revoked (revoked p ++ [n]) p | None => p end.
(** The preview follows the image: made with it, given back when it changes. *)
Definition setImage (f : option File) (p : OPage) : OPage :=
  match f, image p with
  | None, None => p
  | None, _ => p |> revoke (previewUrl p) |> set_previewUrl None |> set_image None
  | Some _, _ => p |> revoke (previewUrl p) |> set_previewUrl (Some (next_url p)) |> fresh_url |> set_image f
  end.
Definition setResultImage (url : option Url) (p : OPage) : OPage :=
  p |> revoke (resultImageBlobRef p) |> set_resultImageBlobRef (match url with Some (Blob n) => Some n | _ => None end) |> set_resultImageUrl url.

(** ** The extraction *)

Definition extract (csrf : jstr) (p : OPage) : OPage :=
  match image p with
  | None => p
  | Some f =>
      if streq csrf [] then p
      else if (MAX_SIZE_BYTES <? f_size f)%Z then emit (Toast (t (u "Image trop lourde : 15 Mo maximum.")) true) p
      else p |> set_isLoading true |> set_result [] |> set_zones false |> setResultImage (Some (Blob (next_url p))) |> fresh_url
             |> emit (Extracted f (instruction p))
  end.
Definition chunk (s : jstr) (p : OPage) : OPage := if isLoading p && mounted p then set_result (result p ++ s) p else p.
(** The stream ends, or fails. *)
Definition extracted (ok : bool) (p : OPage) : OPage :=
  if isLoading p then
    (if ok then loadHistory p else emit (Toast (t (u "OCR injoignable.")) true) p) |> set_isLoading false
  else p.

(** ** The result *)

Definition blocks (p : OPage) : list OcrBlock := parseOcrBlocks parseHtml (result p).
Definition boxedBlocks (p : OPage) : list OcrBlock := List.filter (fun b => bool_decide (is_Some (coords b))) (blocks p).
Definition markdown (p : OPage) : jstr := ocrToMarkdown parseHtml (result p) (blocks p).
Definition copyResult (p : OPage) : OPage := emit (Copied (match markdown p with [] => result p | m => m end)) p.
(** The right panel; the choice of the view is offered with zones to show. *)
Inductive Panel := NoResult | Boxes (url : Url) (frames : list (jstr * (num * num * num * num) * jstr)) | Markdown (s : jstr) | Detected.
Definition panel (p : OPage) : Panel :=
  match result p with
  | [] => NoResult
  | _ =>
      match resultImageUrl p, boxedBlocks p with
      | Some url, _ :: _ => if zones p then Boxes url (omap frame (boxedBlocks p)) else match markdown p with [] => Detected | m => Markdown m end
      | _, _ => match markdown p with [] => Detected | m => Markdown m end
      end
  end.
Definition view_choice (p : OPage) : bool :=
  match resultImageUrl p, boxedBlocks p with Some _, _ :: _ => negb (streq (result p) []) | _, _ => false end.

(** What the page is: waiting for the models, nothing to show, or both columns
    with or without the form. *)
Inductive Screen := Waiting | Unavailable | Columns (form : bool).
Definition screen (p : OPage) : Screen :=
  match available p, history p with
  | None, _ => Waiting
  | Some false, [] => Unavailable
  | Some b, _ => Columns b
  end.
Definition shows_form (p : OPage) : bool := match screen p with Columns b => b | _ => false end.
Definition item_label (h : HistoryItem) : jstr := match ocrPreviewText parseHtml (h_text h) with [] => t (u "(vide)") | s => s end.
Definition item_image (h : HistoryItem) : option Url := if h_has_image h then Some (Path (u "/ocr/image/" ++ string_of_Z (h_id h))) else None.
Definition history_title (p : OPage) : jstr :=
  t (u "Historique") ++ u " (" ++ string_of_nat (length (history p)) ++ u " " ++ (if 1 <? length (history p) then t (u "derniers") else t (u "dernier")) ++ u ")".
Definition open_item (h : HistoryItem) (p : OPage) : OPage := p |> set_result (h_text h) |> set_zones false |> setResultImage (item_image h).

(** ** The page as a transition system *)

Inductive OEvent :=
| OPick (f : File) | OChange | OInstruction (s : jstr) | OExtract | OChunk (s : jstr) | OEnd (ok : bool) | OItem (h : HistoryItem) | OZones (b : bool)
| OCopy | OHistory (r : option (option (list HistoryItem))) | ORunning (r : option (option (list RunningModel))) | OLeave.
Definition clicked (b : bool) (f : OPage -> OPage) (p : OPage) : OPage := if mounted p && b then f p else p.
Definition ocr_handle (csrf : jstr) (e : OEvent) (p : OPage) : OPage :=
  match e with
  | OPick f => clicked (shows_form p && negb (isLoading p)) (setImage (Some f)) p
  | OChange => clicked (shows_form p && negb (isLoading p)) (setImage None) p
  | OInstruction s => clicked (shows_form p && negb (isLoading p) && negb (isChandra p)) (set_instruction s) p
  | OExtract => clicked (shows_form p && negb (isLoading p)) (extract csrf) p
  | OChunk s => chunk s p
  | OEnd ok => extracted ok p
  | OItem h => clicked (match screen p with Waiting => false | _ => true end) (open_item h) p
  | OZones b => clicked (view_choice p) (set_zones b) p
  | OCopy => clicked (negb (streq (result p) [])) copyResult p
  | OHistory r => history_answered r p
  | ORunning r => running_answered r p
  | OLeave =>
      clicked true (fun p => p |> revoke (previewUrl p) |> set_previewUrl None |> revoke (resultImageBlobRef p) |> set_resultImageBlobRef None
                               |> set_mounted false) p
  end.
Definition ocr_run (csrf : jstr) (es : list OEvent) (p : OPage) : OPage := foldl (fun p e => ocr_handle csrf e p) p es.
End page.

(** ** The image URLs are given back once, and not while they are shown *)

Section spec.
Context (t : jstr -> jstr) (parseHtml : jstr -> list node) (csrf : jstr).
#[local] Abbreviation handle := (ocr_handle t parseHtml csrf) (only parsing).
#[local] Abbreviation run := (ocr_run t parseHtml csrf) (only parsing).

Definition kept_urls (p : OPage) : list nat := option_list (previewUrl p) ++ option_list (resultImageBlobRef p).
Record urls_ok (p : OPage) : Prop := mkUrls {
  uo_all : Permutation (revoked p ++ kept_urls p) (seq 0 (next_url p));
  uo_shown : forall n, mounted p = true -> resultImageUrl p = Some (Blob n) -> resultImageBlobRef p = Some n;
  uo_left : mounted p = false -> kept_urls p = []
}.
(** What the URLs depend on. *)
Definition same_urls (p q : OPage) : Prop :=
  revoked q = revoked p /\ previewUrl q = previewUrl p /\ resultImageBlobRef q = resultImageBlobRef p /\ resultImageUrl q = resultImageUrl p /\
  next_url q = next_url p /\ mounted q = mounted p.
Lemma same_ok p q : same_urls p q -> urls_ok p -> urls_ok q.
Proof. intros (E1 & E2 & E3 & E4 & E5 & E6) [A B C]. unfold kept_urls in *. split; unfold kept_urls; by rewrite ?E1, ?E2, ?E3, ?E4, ?E5, ?E6. Qed.

Lemma pick_ok f p : mounted p = true -> urls_ok p -> urls_ok (setImage f p).
Proof.
  intros M [A B C]. unfold setImage. destruct f as [f|], (image p) as [i|]; try by split.
  all: unfold kept_urls in *; split; [|by destruct (previewUrl p)|intros X; unfold revoke in X; destruct (previewUrl p); ocr_fields; congruence]; unfold revoke, kept_urls; destruct (previewUrl p) as [n|]; ocr_fields;
    cbn [option_list app] in *; rewrite ?seq_S, <- ?A, <- ?app_assoc; cbn [app]; try done.
  all: try (by rewrite Permutation_app_comm; cbn [app]; solve_Permutation).
  all: apply Permutation_app_head; try done; cbn [app Nat.add]; solve_Permutation.
Qed.
Lemma item_ok h p : mounted p = true -> urls_ok p -> urls_ok (open_item h p).
Proof.
  intros M [A B C]. unfold open_item, item_image, setResultImage, revoke. ocr_fields. unfold kept_urls in *.
  split; unfold kept_urls; destruct (resultImageBlobRef p) as [n|], (h_has_image h); ocr_fields; try congruence; cbn [option_list app] in *;
    rewrite ?app_nil_r in *; try done; rewrite <- A, <- app_assoc; apply Permutation_app_head; solve_Permutation.
Qed.
Lemma extract_ok p : mounted p = true -> urls_ok p -> urls_ok (extract t csrf p).
Proof.
  intros M H. unfold extract. destruct (image p) as [f|]; [|exact H]. destruct (streq csrf []); [exact H|].
  destruct (MAX_SIZE_BYTES <? f_size f)%Z; [by apply (same_ok p)|]. destruct H as [A B C]. unfold setResultImage, revoke. ocr_fields. unfold kept_urls in *.
  split; unfold kept_urls; destruct (resultImageBlobRef p) as [n|]; ocr_fields; try congruence; cbn [option_list app] in *; rewrite ?seq_S, <- ?A, <- ?app_assoc; cbn [Nat.add].
  - apply Permutation_app_head. solve_Permutation.
  - apply Permutation_app_head. solve_Permutation.
Qed.
Lemma leave_ok p : urls_ok p -> urls_ok (p |> revoke (previewUrl p) |> set_previewUrl None |> revoke (resultImageBlobRef p) |> set_resultImageBlobRef None |> set_mounted false).
Proof.
  intros [A B C]. unfold revoke. unfold kept_urls in *. split; unfold kept_urls; destruct (previewUrl p), (resultImageBlobRef p); ocr_fields; try done;
    cbn [option_list app] in *; rewrite <- A, <- ?app_assoc; cbn [app]; rewrite ?app_nil_r; try done; apply Permutation_app_head; solve_Permutation.
Qed.
Lemma clicked_ok b f p : (mounted p = true -> urls_ok p -> urls_ok (f p)) -> urls_ok p -> urls_ok (clicked b f p).
Proof. intros F H. unfold clicked. destruct (mounted p) eqn:M; [|done]. destruct b; [by apply F|done]. Qed.
Lemma urls_step e p : urls_ok p -> urls_ok (handle e p).
Proof.
  intros H. destruct e; cbn [ocr_handle]; try (apply clicked_ok; [|exact H]; intros M K); try (by apply (same_ok p)).
  - by apply pick_ok.
  - by apply pick_ok.
  - by apply extract_ok.
  - unfold chunk. case_match; by apply (same_ok p).
  - unfold extracted, loadHistory. repeat case_match; by apply (same_ok p).
  - by apply item_ok.
  - unfold history_answered. repeat case_match; by apply (same_ok p).
  - unfold running_answered. repeat case_match; by apply (same_ok p).
  - by apply leave_ok.
Qed.
Lemma urls_run es p : urls_ok p -> urls_ok (run es p).
Proof. revert p. induction es as [|e es IH]; intros p H; [done|]. apply IH. by apply urls_step. Qed.
Lemma urls_start items running fh fr : urls_ok (ocr_start items running fh fr).
Proof. unfold ocr_start, loadHistory. cbv zeta. by destruct fh, fr. Qed.
(** An object URL is given back to the browser once at most, never while the page
    shows its image, and all of them are when the page is left. *)
Theorem urls_freed items running fh fr es : let p := run es (ocr_start items running fh fr) in
  NoDup (revoked p) /\
  (mounted p = true -> (forall n, previewUrl p = Some n -> n ∉ revoked p) /\ (forall n, resultImageUrl p = Some (Blob n) -> n ∉ revoked p)) /\
  (mounted p = false -> Permutation (revoked p) (seq 0 (next_url p))).
Proof.
  intros p. destruct (urls_run es _ (urls_start items running fh fr)) as [A B C]. fold p in A, B, C.
  assert (N : NoDup (revoked p ++ kept_urls p)) by (rewrite A; apply NoDup_seq). apply NoDup_app in N as (N1 & N2 & _).
  split; [done|]. split.
  - intros M. split; intros n E X; apply (N2 n X); unfold kept_urls; rewrite ?E; [set_solver|]. rewrite (B n M E). set_solver.
  - intros M. by rewrite (C M), app_nil_r in A.
Qed.

(** ** The extraction *)

Definition chunks_of (es : list OEvent) : jstr := flat_map (fun e => match e with OChunk s => s | _ => [] end) es.
(** Events that neither open an item of the history, nor end the stream, nor leave
    the page. *)
Definition undisturbed (e : OEvent) : bool := match e with OItem _ | OEnd _ | OLeave => false | _ => true end.
Lemma undisturbed_step e p : undisturbed e = true -> isLoading p = true -> mounted p = true ->
  isLoading (handle e p) = true /\ mounted (handle e p) = true /\ result (handle e p) = result p ++ chunks_of [e] /\ resultImageUrl (handle e p) = resultImageUrl p.
Proof.
  intros U L M. destruct e; try discriminate U; cbn [ocr_handle chunks_of flat_map]; unfold clicked; rewrite ?L, ?M, ?app_nil_r; cbn [negb andb]; rewrite ?andb_false_r; cbn [andb]; try done.
  - unfold chunk. by rewrite L, M.
  - by destruct (view_choice parseHtml p).
  - unfold copyResult. by destruct (negb _).
  - unfold history_answered. destruct (histories p); [done|]. destruct r; [|done]. ocr_fields. by rewrite M.
  - unfold running_answered. destruct (asking p); [|done]. ocr_fields. rewrite M. by destruct r.
Qed.
Lemma undisturbed_run es p : forallb undisturbed es = true -> isLoading p = true -> mounted p = true ->
  isLoading (run es p) = true /\ mounted (run es p) = true /\ result (run es p) = result p ++ chunks_of es /\ resultImageUrl (run es p) = resultImageUrl p.
Proof.
  revert p. induction es as [|e es IH]; intros p U L M; [by rewrite app_nil_r|]. cbn [forallb] in U. apply andb_prop in U as [U1 U2].
  destruct (undisturbed_step e p U1 L M) as (H1 & H2 & H3 & H4). destruct (IH (handle e p) U2 H1 H2) as (I1 & I2 & I3 & I4).
  split; [done|]. split; [done|]. cbn [ocr_run foldl]. split; [|by rewrite <- H4].
  change (chunks_of (e :: es)) with (chunks_of ([e] ++ es)). unfold chunks_of in *. rewrite flat_map_app, app_assoc, <- H3. exact I3.
Qed.
(** An extraction that nothing disturbs shows exactly what was streamed, beside the
    image that was sent, and reads the history again. *)
Theorem extraction_streamed p f es : mounted p = true -> isLoading p = false -> shows_form p = true -> image p = Some f -> csrf <> [] ->
  (f_size f <= MAX_SIZE_BYTES)%Z -> forallb undisturbed es = true -> let q := run (OExtract :: es ++ [OEnd true]) p in
  result q = chunks_of es /\ isLoading q = false /\ resultImageUrl q = Some (Blob (next_url p)) /\ last (asked q) = Some AskedHistory.
Proof.
  intros M L S I C Z U q. subst q. cbn [ocr_run foldl]. unfold ocr_run. rewrite foldl_app. cbn [foldl]. fold (run es (handle OExtract p)).
  assert (X : handle OExtract p = extract t csrf p) by (cbn [ocr_handle]; unfold clicked; by rewrite M, S, L).
  assert (E : isLoading (extract t csrf p) = true /\ mounted (extract t csrf p) = true /\ result (extract t csrf p) = [] /\ resultImageUrl (extract t csrf p) = Some (Blob (next_url p))).
  { unfold extract. rewrite I. replace (streq csrf []) with false by (symmetry; by destruct csrf). apply Z.ltb_ge in Z as ->.
    unfold setResultImage, revoke. ocr_fields. by destruct (resultImageBlobRef p). }
  rewrite X. destruct E as (E1 & E2 & E3 & E4). destruct (undisturbed_run es _ U E1 E2) as (R1 & R2 & R3 & R4).
  cbn [ocr_handle]. unfold extracted. rewrite R1. unfold loadHistory. ocr_fields. rewrite R3, R4, E3, E4. by rewrite last_snoc.
Qed.
End spec.

Definition run_page := ocr_run (fun x => x) (fun _ => []) (u "csrf").
Definition scan : File := mkFile (u "scan.png") 1000.
Definition ready : OPage := run_page [OPick scan] (ocr_start (Some []) (Some [mkModel (u "chandra") (u "ocr")]) true true).
Definition past : HistoryItem := mkItem 4 (u "past text") [] true.

(** An item of the history opened while a document is read: the rest of the
    document is written after it. *)
Lemma extraction_after_item :
  result (run_page [OExtract; OChunk (u "new "); OItem past; OChunk (u "document")] ready) = u "past textdocument".
Proof. vm_compute. reflexivity. Qed.
(** A failure to read the models leaves the page waiting, its history out of
    reach. *)
Lemma lost_models_wait :
  let p := run_page [ORunning None] (ocr_start (Some [past]) None true false) in screen p = Waiting /\ asking p = false.
Proof. vm_compute. split; reflexivity. Qed.
(** A history that is refused replaces the one shown by nothing. *)
Lemma refused_history_empties : history (run_page [OHistory (Some None)] (ocr_start (Some [past]) None false true)) = [].
Proof. vm_compute. reflexivity. Qed.
(** Leaving the page does not stop the extraction: its end still asks for the
    history. *)
Lemma extraction_survives : last (asked (run_page [OExtract; OLeave; OChunk (u "x"); OEnd true] ready)) = Some AskedHistory.
Proof. vm_compute. reflexivity. Qed.
Example heavy_image_refused : asked (run_page [OChange; OPick (mkFile (u "big.png") (15 * 1024 * 1024 + 1)); OExtract] ready) = [Toast (u "Image trop lourde : 15 Mo maximum.") true].
Proof. vm_compute. reflexivity. Qed.

Theorem extraction_streamed_witness : let q := run_page (OExtract :: [OChunk (u "a"); OCopy; OChunk (u "b")] ++ [OEnd true]) ready in
  result q = u "ab" /\ isLoading q = false /\ resultImageUrl q = Some (Blob (next_url ready)) /\ last (asked q) = Some AskedHistory.
Proof.
  apply (extraction_streamed (fun x => x) (fun _ => []) (u "csrf") ready scan [OChunk (u "a"); OCopy; OChunk (u "b")]); try reflexivity; [discriminate|].
  vm_compute. discriminate.
Defined.
