(* ===== verification/Snippets.v ===== *)
(** * The configuration snippets (lib/integrationSnippets.ts) *)

From S2P Require Import Prelude JsString JsRegExp JsJson.

Record ModelLimit := mkLimit { context : Z; output : Z }.
Inductive IntegrationTool := Claudecode | Opencode | Hermes | Codex | Aider | Continue_ | Cursor | Langchain | Python | Curl | Env.
Definition INTEGRATION_TOOLS : list (IntegrationTool * jstr) :=
  [(Claudecode, u "Claude Code"); (Opencode, u "OpenCode"); (Hermes, u "Hermes Agent"); (Codex, u "Codex CLI"); (Aider, u "Aider");
   (Continue_, u "Continue.dev"); (Cursor, u "Cursor"); (Langchain, u "LangChain Agent"); (Python, u "Python SDK"); (Curl, u "cURL");
   (Env, u "Variables d'env.")].
Definition maskKey (k : jstr) : jstr := slice k 0 6 ++ u "••••••••••••••••" ++ slice_end k 4.

Section builders.
Context (base k m : jstr) (limits : list (jstr * ModelLimit)) (t : jstr -> jstr).

Definition limit_of : option ModelLimit := snd <$> List.find (fun x => streq x.1 m) limits.
(** [base.replace(...)]: the root of the proxy. *)
Definition root_of : jstr := replace_first (rx "\/v1\/?$" "") [] base.
Definition claudecode : jstr :=
  let root := root_of in
  let ctx := match limit_of with
             | Some lim =>
                 [LF] ++ u "# "
                 ++ replace_str (replace_str (t (u "Contexte du modèle : {context} tokens (sortie max {output}).")) (u "{context}") (string_of_Z (context lim)))
                      (u "{output}") (string_of_Z (output lim))
             | None => []
             end in
  u "# Claude Code — https://claude.com/claude-code" ++ [LF] ++ u "# Install : npm install -g @anthropic-ai/claude-code" ++ [LF] ++ [LF] ++
  u "# " ++
  t (u "Le proxy expose l'API Anthropic sur /v1/messages : Claude Code s'y branche" ++ [LF] ++ u "# directement, sans passerelle ni adaptateur.") ++
  [LF] ++ uq "export ANTHROPIC_BASE_URL='" ++ root ++ uq "'" ++ [LF] ++ uq "export ANTHROPIC_AUTH_TOKEN='" ++ k ++ uq "'" ++ [LF] ++
  [LF] ++ u "# " ++
  t (u "Indispensable : sans ces deux lignes Claude Code réclame ses modèles" ++ [LF] ++ u "# « claude-… », que le proxy ne connaît pas — il répond 400 « Invalid model name ».") ++
  [LF] ++ uq "export ANTHROPIC_MODEL='" ++ m ++ uq "'" ++ [LF] ++ uq "export ANTHROPIC_SMALL_FAST_MODEL='" ++ m ++ uq "'" ++ [LF] ++
  [LF] ++ u "claude" ++ ctx ++ [LF] ++ [LF] ++ u "# " ++
  t (u "À savoir : le modèle est un modèle ouvert auto-hébergé, pas un modèle Anthropic." ++ [LF] ++ u "# Le fonctionnement est le même (outils, édition de fichiers, commandes), mais la" ++ [LF] ++ u "# qualité sur les tâches longues et l'enchaînement d'outils reste en deçà.").
Definition opencode : jstr :=
  let modelDef := match limit_of with
    | Some lim =>
        uq "'" ++ m ++ uq "': {" ++ [LF] ++ uq "          'name': '" ++ m ++ uq "'," ++ [LF] ++ uq "          'limit': { 'context': " ++
        string_of_Z (context lim) ++ uq ", 'output': " ++ string_of_Z (output lim) ++ u " }" ++ [LF] ++ u "        }"
    | None => uq "'" ++ m ++ uq "': { 'name': '" ++ m ++ uq "' }"
    end in
  u "// ~/.config/opencode/opencode.json" ++ [LF] ++ u "{" ++ [LF] ++ uq "  '$schema': 'https://opencode.ai/config.json'," ++ [LF] ++
  uq "  'provider': {" ++ [LF] ++ uq "    'dgx': {" ++ [LF] ++ uq "      'npm': '@ai-sdk/openai-compatible'," ++ [LF] ++
  uq "      'name': 'DGX'," ++ [LF] ++ uq "      'options': {" ++ [LF] ++ uq "        'baseURL': '" ++ base ++ uq "'," ++ [LF] ++
  uq "        'apiKey': '" ++ k ++ uq "'" ++ [LF] ++ u "      }," ++ [LF] ++ uq "      'models': {" ++ [LF] ++ u "        " ++ modelDef ++
  [LF] ++ u "      }" ++ [LF] ++ u "    }" ++ [LF] ++ u "  }" ++ [LF] ++ u "}".
Definition hermes : jstr :=
  let limits_ := match limit_of with Some lim => [LF] ++ u "  context_length: " ++ string_of_Z (context lim) ++ [LF] ++ u "  max_tokens: " ++ string_of_Z (output lim) | None => [] end in
  u "# Hermes Agent (Nous Research) — https://hermes-agent.nousresearch.com" ++ [LF] ++
  u "# Install : npm install -g @nousresearch/hermes-agent" ++ [LF] ++ [LF] ++ u "# ── " ++ t (u "Option A — assistant interactif") ++
  u " ───────────────────────────────" ++ [LF] ++ u "hermes model" ++ [LF] ++ u "#   → " ++
  t (u "choisir « Custom endpoint (self-hosted / vLLM / etc.) »") ++ [LF] ++ u "#   → API base URL : " ++ base ++ [LF] ++
  u "#   → API key      : " ++ k ++ [LF] ++ u "#   → Model name   : " ++ m ++ [LF] ++ [LF] ++ u "# ── " ++
  t (u "Option B — éditer ~/.hermes/config.yaml") ++ u " ───────────────────────" ++ [LF] ++ u "model:" ++ [LF] ++ uq "  default: '" ++
  m ++ uq "'" ++ [LF] ++ uq "  provider: 'custom'" ++ [LF] ++ uq "  base_url: '" ++ base ++ uq "'" ++ [LF] ++ uq "  api_key: '" ++ k ++
  uq "'" ++ limits_.
Definition codex : jstr :=
  u "# Install : npm install -g @openai/codex" ++ [LF] ++ uq "export OPENAI_API_KEY='" ++ k ++ uq "'" ++ [LF] ++
  uq "export OPENAI_BASE_URL='" ++ base ++ uq "'" ++ [LF] ++ u "codex --model " ++ m.
Definition aider : jstr :=
  u "# Install : pip install aider-chat" ++ [LF] ++ u "aider \" ++ [LF] ++ uq "  --openai-api-key '" ++ k ++ uq "' \" ++ [LF] ++
  uq "  --openai-api-base '" ++ base ++ uq "' \" ++ [LF] ++ u "  --model openai/" ++ m.
Definition continue_ : jstr :=
  u "// ~/.continue/config.json  →  " ++ t (u "ajouter dans « models »") ++ [LF] ++ u "{" ++ [LF] ++ uq "  'models': [" ++ [LF] ++
  u "    {" ++ [LF] ++ uq "      'title': '" ++ m ++ uq " — DGX Spark'," ++ [LF] ++ uq "      'provider': 'openai'," ++ [LF] ++
  uq "      'model': '" ++ m ++ uq "'," ++ [LF] ++ uq "      'apiKey': '" ++ k ++ uq "'," ++ [LF] ++ uq "      'apiBase': '" ++ base ++
  uq "'" ++ [LF] ++ u "    }" ++ [LF] ++ u "  ]" ++ [LF] ++ u "}".
Definition cursor : jstr :=
  u "# Cursor → Settings → Models → Add Model" ++ [LF] ++ u "#" ++ [LF] ++ u "# Provider URL : " ++ base ++ [LF] ++
  u "# API Key      : " ++ k ++ [LF] ++ u "# Model name   : " ++ m.
Definition langchain : jstr :=
  u "# Install : pip install langchain-openai" ++ [LF] ++ u "from langchain_openai import ChatOpenAI" ++ [LF] ++ [LF] ++
  u "llm = ChatOpenAI(" ++ [LF] ++ uq "    base_url='" ++ base ++ uq "'," ++ [LF] ++ uq "    api_key='" ++ k ++ uq "'," ++ [LF] ++
  uq "    model='" ++ m ++ uq "'," ++ [LF] ++ u "    temperature=0," ++ [LF] ++ u ")" ++ [LF] ++ uq "print(llm.invoke('" ++
  t (u "Bonjour !") ++ uq "').content)".
Definition python : jstr :=
  u "from openai import OpenAI" ++ [LF] ++ [LF] ++ u "client = OpenAI(" ++ [LF] ++ uq "    base_url='" ++ base ++ uq "'," ++ [LF] ++
  uq "    api_key='" ++ k ++ uq "'" ++ [LF] ++ u ")" ++ [LF] ++ u "response = client.chat.completions.create(" ++ [LF] ++
  uq "    model='" ++ m ++ uq "'," ++ [LF] ++ uq "    messages=[{'role': 'user', 'content': '" ++ t (u "Bonjour !") ++ uq "'}]" ++ [LF] ++
  u ")" ++ [LF] ++ u "print(response.choices[0].message.content)".
Definition curl : jstr :=
  u "curl " ++ base ++ u "/chat/completions \" ++ [LF] ++ uq "  -H 'Authorization: Bearer " ++ k ++ uq "' \" ++ [LF] ++
  uq "  -H 'Content-Type: application/json' \" ++ [LF] ++ u "  -d '{" ++ [DQ] ++ u "model" ++ [DQ] ++ u ":" ++ [DQ] ++ m ++
  uq "','messages':[{'role':'user','content':'" ++ t (u "Bonjour !") ++ [DQ] ++ u "}]}'".
Definition env : jstr :=
  uq "export OPENAI_API_KEY='" ++ k ++ uq "'" ++ [LF] ++ uq "export OPENAI_BASE_URL='" ++ base ++ uq "'" ++ [LF] ++
  uq "export OPENAI_DEFAULT_MODEL='" ++ m ++ uq "'".
Definition BUILDERS (tool : IntegrationTool) : jstr :=
  match tool with
  | Claudecode => claudecode | Opencode => opencode | Hermes => hermes | Codex => codex | Aider => aider | Continue_ => continue_ | Cursor => cursor
  | Langchain => langchain | Python => python | Curl => curl | Env => env
  end.
End builders.

Definition snippetLanguage (tool : IntegrationTool) : jstr :=
  match tool with
  | Claudecode | Codex | Aider | Curl | Env => u "bash"
  | Opencode | Continue_ => u "json"
  | Hermes => u "yaml"
  | Cursor => u "plaintext"
  | Langchain | Python => u "python"
  end.
Definition buildSnippet (tool : IntegrationTool) (base key model : jstr) (limits : list (jstr * ModelLimit)) (reveal : bool) (t : jstr -> jstr) : jstr :=
  BUILDERS base (if reveal then key else maskKey key) model limits t tool.

(** ** What a snippet says of the key *)

Lemma infix_before t a s : infix t s -> infix t (a ++ s).
Proof. intros (x & y & ->). exists (a ++ x), y. by rewrite <- app_assoc. Qed.
Lemma infix_here t s : infix t (t ++ s).
Proof. by exists [], s. Qed.
(** Skips the pieces of a text up to the one looked for. *)
Ltac find_piece := repeat lazymatch goal with
  | |- infix ?k (?k ++ _) => apply infix_here
  | |- infix ?k ?k => apply infix_refl
  | |- infix _ (_ ++ _) => apply infix_before
  end.
(** Every snippet holds the key it is given, the model, and the address of the
    API, of which Claude Code wants the root. *)
Theorem snippet_complete tool base key model limits reveal t : let s := buildSnippet tool base key model limits reveal t in
  infix (if reveal then key else maskKey key) s /\ infix model s /\ infix (match tool with Claudecode => root_of base | _ => base end) s.
Proof.
  unfold buildSnippet. cbv zeta. generalize (if reveal then key else maskKey key). intros k.
  destruct tool; cbn [BUILDERS]; cbv beta delta [claudecode opencode hermes codex aider continue_ cursor langchain python curl env]; cbv zeta;
    destruct (limit_of model limits); rewrite <- ?app_assoc; (split; [|split]); find_piece.
Qed.
(** The snippet on the screen tells nothing more of the key than its first six and
    last four units: two keys that share them give the same. *)
Theorem shown_snippet_masks tool base k1 k2 model limits t : slice k1 0 6 = slice k2 0 6 -> slice_end k1 4 = slice_end k2 4 ->
  buildSnippet tool base k1 model limits false t = buildSnippet tool base k2 model limits false t.
Proof. intros A B. unfold buildSnippet, maskKey. by rewrite A, B. Qed.

Definition sample : jstr := u "sk-abcdefghijklmnop".
Example masked : maskKey sample = u "sk-abc••••••••••••••••mnop".
Proof. vm_compute. reflexivity. Qed.
(** A key of ten units or fewer is shown whole, around the dots. *)
Example short_key_shown : maskKey (u "sk-1234567") = u "sk-123••••••••••••••••4567".
Proof. vm_compute. reflexivity. Qed.
Example roots : root_of (u "https://dgx/v1") = u "https://dgx" /\ root_of (u "https://dgx/v1/") = u "https://dgx" /\ root_of (u "https://dgx/v1/x") = u "https://dgx/v1/x".
Proof. vm_compute. repeat split; reflexivity. Qed.
(** The configuration of OpenCode, its first line aside, is JSON and holds the key
    where it is expected. *)
Example opencode_json :
  let s := buildSnippet Opencode (u "https://dgx/v1") sample (u "gemma") [(u "gemma", mkLimit 32768 4096)] true (fun x => x) in
  foldl (fun o k => match o with Some v => prop k v | None => None end) (json_parse (join [LF] (tail (split_lf s))))
    [u "provider"; u "dgx"; u "options"; u "apiKey"] = Some (JStr sample).
Proof. vm_compute. reflexivity. Qed.
Theorem shown_snippet_masks_witness :
  buildSnippet Curl (u "https://dgx/v1") sample (u "gemma") [] false (fun x => x) =
  buildSnippet Curl (u "https://dgx/v1") (u "sk-abcXXXXXmnop") (u "gemma") [] false (fun x => x).
Proof. apply (shown_snippet_masks Curl (u "https://dgx/v1") sample (u "sk-abcXXXXXmnop") (u "gemma") [] (fun x => x)); reflexivity. Defined.
