(* ===== verification/Keys.v ===== *)
(** * The API keys of an account (app/(app)/keys/_components/KeysContent.tsx)

    The keys, their actions, the budget, the Discord link and the configuration
    snippets.  A request awaited holds what its handler closed over: an action
    keeps the selection of the click, because its [refresh] is the one of that
    render.  The dialogs of the browser (confirm, prompt) are synchronous: their
    answer is in the event. *)

From S2P Require Import Prelude JsInt JsJson JsNumber JsRegExp Api I18n Shared Snippets.
Local Open Scope flow_scope.

Record DiscordStatus := mkDiscord { linkable : bool; dm_enabled : bool; linked : bool; discord_name : jstr }.
Record ApiKey := mkKey { key_alias : jstr; key : jstr; created_at : jstr; last_active : option jstr; k_spend : num }.
Record Account := mkAccount { spend : num; max_budget : num; unlimited : bool; has_pending : bool }.
Record KeysData := mkKeys {
  user_keys : list ApiKey; budget_duration : jstr; account : Account; model_limits : list (jstr * ModelLimit);
  running_models : list jstr; auto_model : jstr; public_api_url : jstr
}.

(** The four actions, with the fields of their forms. *)
Inductive KAction := Create (name : jstr) | Revoke (k : jstr) | Rename (k name : jstr) | RequestBudget (reason : jstr).
Definition action_body (a : KAction) : list (jstr * jstr) :=
  match a with
  | Create name => [(u "action", u "create"); (u "key_name", name)]
  | Revoke k => [(u "action", u "revoke"); (u "key", k)]
  | Rename k name => [(u "action", u "rename"); (u "key", k); (u "key_name", name)]
  | RequestBudget reason => [(u "action", u "request_budget"); (u "reason", reason)]
  end.
(** The selection of the render whose handler runs. *)
Record Selection := mkSel { sel_key : jstr; sel_model : jstr }.
Inductive KRequest := GetKeys (s : Selection) | GetDiscord | PostKeys (a : KAction) (s : Selection) | PostUnlink (s : Selection).
Inductive KEffect := Asked (q : KRequest) | Copied (s : jstr) | Toast (body : jstr) (error : bool) | GoTo (url : jstr).

Record KPage := mkKPage {
  data : option KeysData; keyName : jstr; budgetReason : jstr; showBudgetForm : bool; revealed : list jstr;
  revealKeyInSnippet : bool; selectedKey : jstr; selectedModel : jstr; tool : IntegrationTool;
  discord : option DiscordStatus; loadError : jstr; running : bool; awaited : list KRequest;
  asked : list KEffect
}.

Definition set_data v p := mkKPage v (keyName p) (budgetReason p) (showBudgetForm p) (revealed p) (revealKeyInSnippet p) (selectedKey p) (selectedModel p) (tool p) (discord p) (loadError p) (running p) (awaited p) (asked p).
Definition set_keyName v p := mkKPage (data p) v (budgetReason p) (showBudgetForm p) (revealed p) (revealKeyInSnippet p) (selectedKey p) (selectedModel p) (tool p) (discord p) (loadError p) (running p) (awaited p) (asked p).
Definition set_budgetReason v p := mkKPage (data p) (keyName p) v (showBudgetForm p) (revealed p) (revealKeyInSnippet p) (selectedKey p) (selectedModel p) (tool p) (discord p) (loadError p) (running p) (awaited p) (asked p).
Definition set_showBudgetForm v p := mkKPage (data p) (keyName p) (budgetReason p) v (revealed p) (revealKeyInSnippet p) (selectedKey p) (selectedModel p) (tool p) (discord p) (loadError p) (running p) (awaited p) (asked p).
Definition set_revealed v p := mkKPage (data p) (keyName p) (budgetReason p) (showBudgetForm p) v (revealKeyInSnippet p) (selectedKey p) (selectedModel p) (tool p) (discord p) (loadError p) (running p) (awaited p) (asked p).
Definition set_revealKeyInSnippet v p := mkKPage (data p) (keyName p) (budgetReason p) (showBudgetForm p) (revealed p) v (selectedKey p) (selectedModel p) (tool p) (discord p) (loadError p) (running p) (awaited p) (asked p).
Definition set_selectedKey v p := mkKPage (data p) (keyName p) (budgetReason p) (showBudgetForm p) (revealed p) (revealKeyInSnippet p) v (selectedModel p) (tool p) (discord p) (loadError p) (running p) (awaited p) (asked p).
Definition set_selectedModel v p := mkKPage (data p) (keyName p) (budgetReason p) (showBudgetForm p) (revealed p) (revealKeyInSnippet p) (selectedKey p) v (tool p) (discord p) (loadError p) (running p) (awaited p) (asked p).
Definition set_tool v p := mkKPage (data p) (keyName p) (budgetReason p) (showBudgetForm p) (revealed p) (revealKeyInSnippet p) (selectedKey p) (selectedModel p) v (discord p) (loadError p) (running p) (awaited p) (asked p).
Definition set_discord v p := mkKPage (data p) (keyName p) (budgetReason p) (showBudgetForm p) (revealed p) (revealKeyInSnippet p) (selectedKey p) (selectedModel p) (tool p) v (loadError p) (running p) (awaited p) (asked p).
Definition set_loadError v p := mkKPage (data p) (keyName p) (budgetReason p) (showBudgetForm p) (revealed p) (revealKeyInSnippet p) (selectedKey p) (selectedModel p) (tool p) (discord p) v (running p) (awaited p) (asked p).
Definition set_running v p := mkKPage (data p) (keyName p) (budgetReason p) (showBudgetForm p) (revealed p) (revealKeyInSnippet p) (selectedKey p) (selectedModel p) (tool p) (discord p) (loadError p) v (awaited p) (asked p).
Definition set_awaited v p := mkKPage (data p) (keyName p) (budgetReason p) (showBudgetForm p) (revealed p) (revealKeyInSnippet p) (selectedKey p) (selectedModel p) (tool p) (discord p) (loadError p) (running p) v (asked p).
Definition emit (e : KEffect) p := mkKPage (data p) (keyName p) (budgetReason p) (showBudgetForm p) (revealed p) (revealKeyInSnippet p) (selectedKey p) (selectedModel p) (tool p) (discord p) (loadError p) (running p) (awaited p) (asked p ++ [e]).

(** Reading a field through the updates. *)
Ltac keys_fields :=
  cbn [data keyName budgetReason showBudgetForm revealed revealKeyInSnippet selectedKey selectedModel tool discord loadError running awaited asked
       set_data set_keyName set_budgetReason set_showBudgetForm set_revealed set_revealKeyInSnippet set_selectedKey set_selectedModel set_tool set_discord set_loadError set_running set_awaited emit] in *.

Section page.
Context (t : jstr -> jstr) (csrf : jstr) (keys_of : json -> KeysData) (discord_of : json -> DiscordStatus) (browser_error : Err -> jstr).

Definition send (q : KRequest) (p : KPage) : KPage := p |> set_awaited (awaited p ++ [q]) |> emit (Asked q).
Definition toast (body : jstr) (error : bool) (p : KPage) : KPage := emit (Toast body error) p.
Definition selection (p : KPage) : Selection := mkSel (selectedKey p) (selectedModel p).

(** [e.message]; that of an exception of the browser is an argument. *)
Definition error_message (e : Err) : jstr :=
  match e with
  | NotAuthenticated => u "Non authentifié"
  | ForbiddenError url => u "Accès refusé (" ++ url ++ u ")."
  | Failure (JStr s) _ => s
  | _ => browser_error e
  end.
(** [refresh], of the render whose selection is [s]. *)
Definition refresh (s : Selection) (p : KPage) : KPage := p |> send (GetKeys s) |> send GetDiscord.
Definition keys_start : KPage :=
  refresh (mkSel [] []) (mkKPage None [] [] false [] false [] [] Opencode None [] false [] []).
(** The model proposed at first: the virtual one, else the first one running. *)
Definition default_model (d : KeysData) : jstr := match auto_model d with [] => default [] (head (running_models d)) | m => m end.
Definition keys_answered (s : Selection) (r : Err + json) (p : KPage) : KPage :=
  match r with
  | inr v =>
      let d := keys_of v in
      let p := p |> set_loadError [] |> set_data (Some d) in
      let p := match sel_key s, user_keys d with [], k :: _ => set_selectedKey (key k) p | _, _ => p end in
      match sel_model s with [] => set_selectedModel (default_model d) p | _ => p end
  | inl e => set_loadError (error_message e) p
  end.

(** ** The actions *)

Definition actionKeys (a : KAction) (p : KPage) : KPage :=
  match csrf with
  | [] => toast (t (u "Session incomplète — recharge la page.")) true p
  | _ => p |> set_running true |> send (PostKeys a (selection p))
  end.
Definition success_text (a : KAction) : jstr :=
  match a with
  | Create _ => t (u "Clé créée !")
  | Revoke _ => t (u "Clé révoquée.")
  | Rename _ _ => t (u "Clé renommée.")
  | RequestBudget _ => t (u "Demande de tokens envoyée !")
  end.
(** The answer to an action: lost, refused with a sentence, or accepted with its
    body; a body that is [null] throws like a lost answer. *)
Inductive Outcome := Lost | Refused (why : option jstr) | Accepted (body : json).
Definition outcome (f : Fetched) : Outcome :=
  match authFetch f with
  | inl _ => Lost
  | inr res =>
      match default (JObj []) (r_json res) with
      | JNull => Lost
      | r =>
          if negb (res_ok res) || match prop (u "ok") r with Some (JBool false) => true | _ => false end then
            Refused (match prop (u "code") r with
                     | Some (JStr c) => if streq c (u "alias_in_use") then Some (t (u "Tu as déjà une clé nommée ainsi.")) else text_of (u "error") r
                     | _ => text_of (u "error") r
                     end)
          else Accepted r
      end
  end.
Definition add_revealed (k : jstr) (p : KPage) : KPage := if existsb (streq k) (revealed p) then p else set_revealed (revealed p ++ [k]) p.
(** What follows a success before it is said. *)
Definition after (a : KAction) (r : json) (p : KPage) : KPage :=
  match a with
  | Create _ => let p := set_keyName [] p in match text_of (u "key") r with Some k => add_revealed k p | None => p end
  | _ => p
  end.
Definition action_answered (a : KAction) (s : Selection) (f : Fetched) (p : KPage) : KPage :=
  match outcome f with
  | Lost => p |> toast (t (u "Le serveur n'a pas répondu — réessaie.")) true |> set_running false
  | Refused why => p |> toast (match why with Some m => tServer m t | None => t (u "L'action a échoué.") end) true |> set_running false
  | Accepted r =>
      let p := p |> after a r |> toast (success_text a) false |> refresh s |> set_running false in
      match a with RequestBudget _ => p |> set_budgetReason [] |> set_showBudgetForm false | _ => p end
  end.

Definition createKey (p : KPage) : KPage := actionKeys (Create (keyName p)) p.
Definition revokeKey (k : jstr) (confirmed : bool) (p : KPage) : KPage := if confirmed then actionKeys (Revoke k) p else p.
Definition confirm_text (alias : jstr) : jstr :=
  replace_str (t (u "Révoquer la clé « {alias} » ? Les programmes qui l'utilisent cesseront de fonctionner.")) (u "{alias}") alias.
(** [answer]: what the prompt gives; [None] when it is dismissed. *)
Definition renameKey (k alias : jstr) (answer : option jstr) (p : KPage) : KPage :=
  match answer with
  | None => p
  | Some current =>
      let clean := trim current in
      if streq clean [] || streq clean alias then p else actionKeys (Rename k clean) p
  end.
Definition requestBudget (p : KPage) : KPage := actionKeys (RequestBudget (budgetReason p)) p.
(** [clipboard], [exec]: what the browser can do (see [Shared.copyText]). *)
Definition copied (s : jstr) (said : option jstr) (clipboard exec : option bool) (p : KPage) : KPage :=
  if (copyText clipboard exec).1.1 then let p := emit (Copied s) p in match said with Some m => toast m false p | None => p end
  else toast (t (u "Copie impossible depuis ce navigateur.")) true p.
Definition copyKey (k alias : jstr) (clipboard exec : option bool) (p : KPage) : KPage :=
  copied k (Some (replace_str (t (u "Clé « {alias} » copiée.")) (u "{alias}") alias)) clipboard exec p.

Definition unlinkDiscord (p : KPage) : KPage := match csrf with [] => p | _ => send (PostUnlink (selection p)) p end.
Definition unlinked (s : Selection) (f : Fetched) (p : KPage) : KPage :=
  refresh s (match authFetch f with
             | inl _ => toast (t (u "Le serveur n'a pas répondu — réessaie.")) true p
             | inr res => if res_ok res then toast (t (u "Compte Discord délié.")) false p else toast (t (u "Le déliage a échoué.")) true p
             end).

(** ** What is shown *)

(** The text of a key in the table. *)
Definition shown_key (p : KPage) (k : jstr) : jstr :=
  if existsb (streq k) (revealed p) then k else slice k 0 10 ++ u "…" ++ slice_end k 4.
Definition toggle_revealed (k : jstr) (p : KPage) : KPage :=
  if existsb (streq k) (revealed p) then set_revealed (List.filter (fun x => negb (streq k x)) (revealed p)) p else set_revealed (revealed p ++ [k]) p.
Definition snippet (reveal : bool) (p : KPage) : jstr :=
  match data p, selectedKey p, selectedModel p with
  | Some d, _ :: _, _ :: _ => buildSnippet (tool p) (public_api_url d) (selectedKey p) (selectedModel p) (model_limits d) reveal t
  | _, _, _ => []
  end.
Definition shownSnippet (p : KPage) : jstr := snippet (revealKeyInSnippet p) p.
Definition actualSnippet (p : KPage) : jstr := snippet true p.
Definition onCopy (clipboard exec : option bool) (p : KPage) : KPage :=
  match actualSnippet p with [] => p | s => copied s None clipboard exec p end.
(** The models that can be chosen, and the snippets: shown with a key at least. *)
Definition model_options (d : KeysData) : list jstr :=
  match auto_model d with [] => [] | m => [m] end ++ List.filter (fun m => negb (streq m (auto_model d))) (running_models d).
Definition shows_integrations (p : KPage) : bool := match data p with Some d => 0 <? length (user_keys d) | None => false end.

Definition is_zero_num (x : num) : bool := match x with S754_zero _ | S754_nan => true | _ => false end.
Definition pct (d : KeysData) : num :=
  if negb (unlimited (account d)) && negb (is_zero_num (max_budget (account d)))
  then nmul (ndiv (spend (account d)) (max_budget (account d))) (num_of_Z 100) else num_of_Z 0.
Inductive BarLook := BarSuccess | BarWarning | BarError.
Definition budget_bar (d : KeysData) : num * BarLook :=
  (nmin (pct d) (num_of_Z 100), if nle (num_of_Z 90) (pct d) then BarError else if nle (num_of_Z 70) (pct d) then BarWarning else BarSuccess).
(** The tokens that remain, as a rounded number that is not negative. *)
Definition tokens_left (d : KeysData) : option Z := Z.max 0 <$> math_round (nsub (max_budget (account d)) (spend (account d))).
Definition discord_card (p : KPage) : option (jstr * bool) :=
  match discord p with
  | Some d =>
      if linkable d || linked d then
        Some (if linked d then t (u "Compte Discord lié :") ++ u " " ++ match discord_name d with [] => u "—" | s => s end
              else t (u "Lie ton compte Discord pour recevoir les annonces (changement de modèle, maintenance…) en message privé."), linked d)
      else None
  | None => None
  end.

(** ** The page as a transition system *)

Inductive KEvent :=
| KName (s : jstr) | KCreate | KRevoke (k : ApiKey) (confirmed : bool) | KRename (k : ApiKey) (answer : option jstr) | KCopyKey (k : ApiKey) (clipboard exec : option bool)
| KToggle (k : ApiKey) | KBudgetForm | KReason (s : jstr) | KRequestBudget | KRetry | KUnlink | KLink
| KSelectKey (s : jstr) | KSelectModel (s : jstr) | KTool (x : IntegrationTool) | KRevealSnippet | KCopySnippet (clipboard exec : option bool)
| KAnswered (i : nat) (f : Fetched).
Definition answered (q : KRequest) (f : Fetched) (p : KPage) : KPage :=
  match q with
  | GetKeys s => keys_answered s (getJSON (u "/api/keys") f) p
  | GetDiscord => match getJSON (u "/api/discord/status") f with inr v => set_discord (Some (discord_of v)) p | inl _ => p end
  | PostKeys a s => action_answered a s f p
  | PostUnlink s => unlinked s f p
  end.
Definition keys_handle (e : KEvent) (p : KPage) : KPage :=
  match e with
  | KName s => set_keyName s p
  | KCreate => createKey p
  | KRevoke k b => revokeKey (key k) b p
  | KRename k a => renameKey (key k) (key_alias k) a p
  | KCopyKey k c x => copyKey (key k) (key_alias k) c x p
  | KToggle k => toggle_revealed (key k) p
  | KBudgetForm => set_showBudgetForm (negb (showBudgetForm p)) p
  | KReason s => set_budgetReason s p
  | KRequestBudget => requestBudget p
  | KRetry => refresh (selection p) p
  | KUnlink => unlinkDiscord p
  | KLink => emit (GoTo (u "/discord/link")) p
  | KSelectKey s => set_selectedKey s p
  | KSelectModel s => set_selectedModel s p
  | KTool x => set_tool x p
  | KRevealSnippet => set_revealKeyInSnippet (negb (revealKeyInSnippet p)) p
  | KCopySnippet c x => onCopy c x p
  | KAnswered i f =>
      match awaited p !! i with
      | Some q => p |> set_awaited (delete i (awaited p)) |> answered q f
      | None => p
      end
  end.
Definition keys_run (es : list KEvent) (p : KPage) : KPage := foldl (fun p e => keys_handle e p) p es.
End page.

(** ** Properties *)

Section spec.
Context (t : jstr -> jstr) (csrf : jstr) (keys_of : json -> KeysData) (discord_of : json -> DiscordStatus) (browser_error : Err -> jstr).
#[local] Abbreviation handle := (keys_handle t csrf keys_of discord_of browser_error) (only parsing).
#[local] Abbreviation run := (keys_run t csrf keys_of discord_of browser_error) (only parsing).

(** ** An action is said done when it is *)

(** Success is announced only for an answer of the 200 range whose body does not
    say no; any other answer gives an error, and a lost one too. *)
Lemma accepted_means_done f r : outcome t f = Accepted r ->
  exists res, authFetch f = inr res /\ res_ok res = true /\ r = default (JObj []) (r_json res) /\ prop (u "ok") r <> Some (JBool false).
Proof.
  unfold outcome. destruct (authFetch f) as [|res]; [done|]. destruct (default (JObj []) (r_json res)) as [| | | | |] eqn:E; try done.
  all: destruct (negb (res_ok res) || _) eqn:B; [done|]; intros [= <-]; apply orb_false_elim in B as [B1 B2]; exists res; rewrite E;
    (split; [done|]); (split; [by apply negb_false_iff in B1|]); (split; [done|]); intros O; by rewrite O in B2.
Qed.

(** ** What an action keeps *)

Definition sent (p q : KPage) : list KEffect := drop (length (asked p)) (asked q).
(** A step whose requests are none of the actions. *)
Definition action_of (x : KEffect) : option KAction := match x with Asked (PostKeys a _) => Some a | _ => None end.
Definition no_action (p q : KPage) : Prop := exists l, asked q = asked p ++ l /\ Forall (fun x => action_of x = None) l.
Lemma no_refl p : no_action p p.
Proof. exists []. by rewrite app_nil_r. Qed.
Lemma no_emit x p q : action_of x = None -> no_action p q -> no_action p (emit x q).
Proof. intros H (l & E & F). exists (l ++ [x]). cbn [emit asked]. rewrite E, app_assoc. split; [done|]. apply Forall_app. by split; [|constructor]. Qed.
Lemma no_update f p q : (forall p, asked (f p) = asked p) -> no_action p q -> no_action p (f q).
Proof. intros E (l & F & H). exists l. by rewrite E. Qed.
Ltac peel :=
  repeat lazymatch goal with
  | |- no_action ?p ?p => apply no_refl
  | |- no_action _ (send _ _) => unfold send
  | |- no_action _ (emit _ _) => apply no_emit; [reflexivity|]
  | |- no_action _ (?f ?v ?q) => apply (no_update (f v)); [reflexivity|]
  end.
Lemma no_answered q f p : no_action p (answered t keys_of discord_of browser_error q f p).
Proof.
  destruct q; cbn [answered]; unfold keys_answered, action_answered, unlinked, after, add_revealed, refresh, toast; cbv zeta; repeat case_match; peel.
Qed.
Lemma no_copied s m c x p : no_action p (copied t s m c x p).
Proof. unfold copied, toast. cbv zeta. repeat case_match; peel. Qed.
(** The action an event asks for. *)
Definition asks (e : KEvent) (p : KPage) : option KAction :=
  match e with
  | KCreate => Some (Create (keyName p))
  | KRevoke k true => Some (Revoke (key k))
  | KRename k (Some s) => let clean := trim s in if streq clean [] || streq clean (key_alias k) then None else Some (Rename (key k) clean)
  | KRequestBudget => Some (RequestBudget (budgetReason p))
  | _ => None
  end.
Lemma action_sent a p : asked (actionKeys t csrf a p) = asked p ++ [match csrf with [] => Toast (t (u "Session incomplète — recharge la page.")) true | _ => Asked (PostKeys a (selection p)) end].
Proof. unfold actionKeys. by destruct csrf. Qed.
Lemma step_actions e p : no_action p (handle e p) \/ exists a, asks e p = Some a /\ csrf <> [] /\ asked (handle e p) = asked p ++ [Asked (PostKeys a (selection p))].
Proof.
  assert (A : forall a, asks e p = Some a -> handle e p = actionKeys t csrf a p -> no_action p (handle e p) \/ exists a, asks e p = Some a /\ csrf <> [] /\ asked (handle e p) = asked p ++ [Asked (PostKeys a (selection p))]).
  { intros a E H. rewrite H. destruct csrf eqn:C; [left; unfold actionKeys, toast; peel|]. right. exists a. split; [done|]. split; [done|]. by rewrite <- C, action_sent, C. }
  destruct e as [s| |k b|k o|k c x|k| |s| | | | |s|s|x| |c x|i f]; try (left; cbn [keys_handle]; unfold refresh; peel; fail).
  - by eapply A.
  - destruct b; [by eapply A|left; apply no_refl].
  - destruct o as [s|]; [|left; apply no_refl]. destruct (streq (trim s) [] || streq (trim s) (key_alias k)) eqn:E.
    + left. cbn [keys_handle]. unfold renameKey. cbv zeta. rewrite E. apply no_refl.
    + eapply A; [cbn [asks]; cbv zeta; by rewrite E|]. cbn [keys_handle]. unfold renameKey. cbv zeta. by rewrite E.
  - left. apply no_copied.
  - left. cbn [keys_handle]. unfold toggle_revealed. case_match; peel.
  - by eapply A.
  - left. cbn [keys_handle]. unfold unlinkDiscord. case_match; peel.
  - left. cbn [keys_handle]. unfold onCopy. case_match; [apply no_refl|apply no_copied].
  - left. cbn [keys_handle]. destruct (awaited p !! i) as [q|]; [|apply no_refl]. exact (no_answered q f (set_awaited (delete i (awaited p)) p)).
Qed.
(** A key is revoked only when it was confirmed for that very key: no other event
    of the page, in any order, sends its revocation. *)
Theorem revoked_only_confirmed es k s : In (Asked (PostKeys (Revoke k) s)) (asked (run es (keys_start))) ->
  exists x, key x = k /\ In (KRevoke x true) es.
Proof.
  assert (G : forall es p, In (Asked (PostKeys (Revoke k) s)) (asked (run es p)) -> In (Asked (PostKeys (Revoke k) s)) (asked p) \/ exists x, key x = k /\ In (KRevoke x true) es).
  { clear es. induction es as [|e es IH]; intros p H; [by left|]. apply IH in H as [H|(x & Hx & Hi)]; [|right; exists x; split; [done|by right]].
    destruct (step_actions e p) as [(l & E & F)|(a & Ha & _ & E)]; rewrite E, in_app_iff in H; destruct H as [H|H]; try (by left).
    - exfalso. apply list_elem_of_In in H. rewrite Forall_forall in F. by specialize (F _ H).
    - destruct H as [[= -> _]|[]]. right. destruct e as [| |x b|x o| | | | | | | | | | | | | |]; try discriminate Ha.
      + destruct b; [|discriminate Ha]. injection Ha as <-. exists x. split; [done|by left].
      + destruct o as [c|]; [|discriminate Ha]. cbn [asks] in Ha. cbv zeta in Ha. by case_match. }
  intros H. destruct (G es keys_start H) as [N|R]; [|done]. cbn in N. intuition discriminate.
Qed.

(** ** What is shown in clear *)

(** The key an answer brings: that of the creation it answers. *)
Definition created (f : Fetched) : option jstr := match outcome t f with Accepted r => text_of (u "key") r | _ => None end.
Lemma elem_toggle k l x : x ∈ List.filter (fun y => negb (streq k y)) l -> x ∈ l.
Proof. rewrite !list_elem_of_In, filter_In. by intros []. Qed.
Lemma revealed_step e p k : k ∈ revealed (handle e p) ->
  k ∈ revealed p \/ (exists x, e = KToggle x /\ key x = k) \/ (exists i f a s, e = KAnswered i f /\ awaited p !! i = Some (PostKeys (Create a) s) /\ created f = Some k).
Proof.
  assert (A : forall a q, revealed (actionKeys t csrf a q) = revealed q) by (intros; unfold actionKeys; by case_match).
  assert (C : forall s m c x q, revealed (copied t s m c x q) = revealed q) by (intros; unfold copied; cbv zeta; by repeat case_match).
  destruct e as [s| |x b|x o|x c y|x| |s| | | | |s|s|x| |c y|i f]; cbn [keys_handle]; unfold createKey, revokeKey, renameKey, copyKey, requestBudget, unlinkDiscord, onCopy; cbv zeta;
    try (by left); try (repeat case_match; rewrite ?A, ?C; by left).
  - unfold toggle_revealed. destruct (existsb _ _); cbn [revealed set_revealed].
    + intros H. left. by apply elem_toggle in H.
    + rewrite elem_of_app, list_elem_of_singleton. intros [H| ->]; [by left|]. right. left. by exists x.
  - destruct (awaited p !! i) as [q|] eqn:E; [|by left]. destruct q as [s| |a s|s]; cbn [answered].
    + unfold keys_answered. cbv zeta. repeat case_match; by left.
    + case_match; by left.
    + unfold action_answered, after, refresh, toast, send. cbv zeta. destruct (outcome t f) as [|w|r] eqn:O; try by left.
      destruct a as [a|a|a b|a]; try by left. cbn [revealed set_awaited emit set_running]. destruct (text_of (u "key") r) as [k'|] eqn:T; [|by left].
      unfold add_revealed. case_match; [by left|]. cbn [revealed set_revealed set_keyName set_awaited]. rewrite elem_of_app, list_elem_of_singleton. intros [X| ->]; [by left|].
      right. right. exists i, f, a, s. split; [done|]. split; [done|]. unfold created. by rewrite O.
    + unfold unlinked. cbv zeta. repeat case_match; by left.
Qed.
(** A key is in clear in the table only if it was clicked, or just created. *)
Theorem clear_only_asked es k : let p := run es keys_start in
  k ∈ revealed p -> (exists x, In (KToggle x) es /\ key x = k) \/ (exists i f, In (KAnswered i f) es /\ created f = Some k).
Proof.
  assert (G : forall es p, k ∈ revealed (run es p) -> k ∈ revealed p \/ (exists x, In (KToggle x) es /\ key x = k) \/ (exists i f, In (KAnswered i f) es /\ created f = Some k)).
  { clear es. induction es as [|e es IH]; intros p H; [by left|]. apply IH in H as [H|[(x & Hi & Hx)|(i & f & Hi & Hf)]].
    - apply revealed_step in H as [H|[(x & -> & Hx)|(i & f & a & s & -> & _ & Hf)]]; [by left| |].
      + right. left. exists x. split; [by left|done].
      + right. right. exists i, f. split; [by left|done].
    - right. left. exists x. split; [by right|done].
    - right. right. exists i, f. split; [by right|done]. }
  intros p H. destruct (G es keys_start H) as [N|R]; [|done]. by apply elem_of_nil in N.
Qed.
End spec.

(** ** Examples and what the page does not do *)

#[local] Abbreviation fr := (fun x : jstr => x) (only parsing).
Definition my_key (alias k : jstr) : ApiKey := mkKey alias k [] None (num_of_Z 0).
Definition keys_data (l : list ApiKey) : KeysData := mkKeys l (u "7d") (mkAccount (num_of_Z 50) (num_of_Z 200) false false) [] [u "gemma"] (u "auto") (u "https://dgx/v1").
(** A decoding of the answers: the array of the keys. *)
Definition decode (v : json) : KeysData :=
  keys_data (match v with JArr l => omap (fun x => match x with JStr s => Some (my_key s s) | _ => None end) l | _ => [] end).
Definition no_discord (v : json) : DiscordStatus := mkDiscord false false false [].
Definition play := keys_run fr (u "csrf") decode no_discord (fun _ => u "erreur").
Definition answer (st : Z) (v : json) : Fetched := Got (mkResponse st None (Some v)).
Definition alice : jstr := u "sk-alice-0123456789".
Definition bob : jstr := u "sk-bob-9876543210".
Definition both : KPage := play [KAnswered 0 (answer 200 (JArr [JStr alice; JStr bob]))] keys_start.

Example first_selection : selectedKey both = alice /\ selectedModel both = u "auto" /\ shown_key both alice = u "sk-alice-0…6789".
Proof. vm_compute. repeat split; reflexivity. Qed.
Example created_key_shown :
  let p := play [KName (u "laptop"); KCreate; KAnswered 1 (answer 200 (JObj [(u "ok", JBool true); (u "key", JStr bob)]))] both in
  shown_key p bob = bob /\ keyName p = [] /\ shown_key p alice = u "sk-alice-0…6789".
Proof. vm_compute. repeat split; reflexivity. Qed.
Example refused_alias :
  last (asked (play [KCreate; KAnswered 1 (answer 409 (JObj [(u "code", JStr (u "alias_in_use")); (u "error", JStr (u "x"))]))] both)) =
    Some (Toast (u "Tu as déjà une clé nommée ainsi.") true).
Proof. vm_compute. reflexivity. Qed.
Example a_quarter : tokens_left (keys_data []) = Some 150%Z /\ (budget_bar (keys_data [])).2 = BarSuccess.
Proof. vm_compute. split; reflexivity. Qed.
(** A key revoked while it is the one of the snippets stays there: the snippet goes
    on giving a dead key. *)
Lemma revoked_key_in_snippet :
  let p := play [KRevoke (my_key (u "alice") alice) true; KAnswered 1 (answer 200 (JObj [(u "ok", JBool true)])); KAnswered 1 (answer 200 (JArr [JStr bob]))] both in
  option_map (fun d => map key (user_keys d)) (data p) = Some [bob] /\ selectedKey p = alice /\ includes (actualSnippet fr p) alice = true.
Proof.
  vm_compute. repeat split; reflexivity.
Qed.
(** The end of one action clears the sign that another is awaited. *)
Lemma running_cleared_early :
  let p := play [KRevoke (my_key (u "alice") alice) true; KRevoke (my_key (u "bob") bob) true; KAnswered 1 (answer 200 (JObj [(u "ok", JBool true)]))] both in
  running p = false /\ List.existsb (fun q => match q with PostKeys _ _ => true | _ => false end) (awaited p) = true.
Proof. vm_compute. split; reflexivity. Qed.
(** Without its token the page does nothing, and says nothing, when the Discord
    account is unlinked; the other actions say it. *)
Lemma silent_unlink : let p := keys_start in
  asked (keys_handle fr [] decode no_discord (fun _ => []) KUnlink p) = asked p /\
  asked (keys_handle fr [] decode no_discord (fun _ => []) KCreate p) = asked p ++ [Toast (u "Session incomplète — recharge la page.") true].
Proof. vm_compute. split; reflexivity. Qed.

Theorem revoked_only_confirmed_witness :
  exists x, key x = alice /\ In (KRevoke x true) [KAnswered 0 (answer 200 (JArr [JStr alice])); KRevoke (my_key (u "alice") alice) false; KRevoke (my_key (u "alice") alice) true].
Proof.
  apply (revoked_only_confirmed fr (u "csrf") decode no_discord (fun _ => [])
    [KAnswered 0 (answer 200 (JArr [JStr alice])); KRevoke (my_key (u "alice") alice) false; KRevoke (my_key (u "alice") alice) true] alice (mkSel alice (u "auto"))).
  vm_compute. tauto.
Defined.
Theorem clear_only_asked_witness :
  (exists x, In (KToggle x) [KToggle (my_key (u "bob") bob)] /\ key x = bob) \/ (exists i f, In (KAnswered i f) [KToggle (my_key (u "bob") bob)] /\ created fr f = Some bob).
Proof.
  apply (clear_only_asked fr (u "csrf") decode no_discord (fun _ => []) [KToggle (my_key (u "bob") bob)] bob). vm_compute. apply list_elem_of_here.
Defined.
