(* ===== verification/VoicePage.v ===== *)
(** * The voice page (app/(app)/voice/VoicePage.tsx)

    The sample of a voice, recorded or imported, and the texts read with it.  A
    recorder is known by a number, in [open_mics] as long as its microphone is on:
    [Recorder.stop] turns it off only once its file is made (lib/audioRecorder.ts),
    [cancel] at once.  The starts and the stops awaited are in the state.  The
    dictation writes the text from outside ([VoDictated], see Dictation.v). *)

From S2P Require Import Prelude JsInt JsJson JsRegExp Api Shared.
Local Open Scope flow_scope.

Definition MIN_SECONDS : nat := 6.
Definition MAX_SECONDS : nat := 60.
Definition pad2 (n : nat) : jstr := let s := string_of_nat n in repeat 48%N (2 - length s) ++ s.
Definition formatSeconds (s : nat) : jstr := pad2 (s / 60) ++ u ":" ++ pad2 (s mod 60).

Record HistoryItem := mkItem { h_id : Z; h_text : jstr; h_created_at : jstr }.
Record VoiceInfo := mkInfo { i_engine : jstr; i_languages : list (jstr * jstr); i_supports_ref_text : bool }.
(** [info.languages?.[l]], truthy. *)
Definition knows (info : VoiceInfo) (l : jstr) : bool :=
  match List.find (fun x => streq x.1 l) (i_languages info) with Some (_, _ :: _) => true | _ => false end.
Definition initialLang (info : VoiceInfo) (cur uiLang : jstr) : jstr :=
  if knows info cur then cur else if knows info uiLang then uiLang else if knows info (u "auto") then u "auto" else u "en".

Inductive Mode := Upload | Record_.
#[export] Instance Mode_eq_dec : EqDecision Mode.
Proof. solve_decision. Defined.
(** A sample: a file imported, or what a recorder gave. *)
Inductive Sample := Imported (name : jstr) | Recorded (rec : nat).
Inductive VoEffect :=
| AskedHistory | AskedRunning | AskedInfo | Generated (reference : Sample) (text language ref_text : jstr) | Copied (s : jstr) | Toast (body : jstr) (error : bool).

Record VoPage := mkVoPage {
  mode : Mode; reference : option Sample; text : jstr; isLoading : bool; currentId : option Z;
  history : list HistoryItem; available : option bool; languages : list (jstr * jstr); language : jstr;
  supportsRefText : bool; refText : jstr; engine : jstr; uiLang : jstr; servedInfo : option jstr;
  isRecording : bool; elapsed : nat; recordedUrl : option nat; recorderRef : option nat; mounted : bool;
  starts : nat; stops : list nat; open_mics : list nat; next_rec : nat; next_url : nat;
  live_urls : list nat; histories : nat; asking : bool; infos : list jstr; posts : nat;
  asked : list VoEffect
}.

Definition set_mode v p := mkVoPage v (reference p) (text p) (isLoading p) (currentId p) (history p) (available p) (languages p) (language p) (supportsRefText p) (refText p) (engine p) (uiLang p) (servedInfo p) (isRecording p) (elapsed p) (recordedUrl p) (recorderRef p) (mounted p) (starts p) (stops p) (open_mics p) (next_rec p) (next_url p) (live_urls p) (histories p) (asking p) (infos p) (posts p) (asked p).
Definition set_reference v p := mkVoPage (mode p) v (text p) (isLoading p) (currentId p) (history p) (available p) (languages p) (language p) (supportsRefText p) (refText p) (engine p) (uiLang p) (servedInfo p) (isRecording p) (elapsed p) (recordedUrl p) (recorderRef p) (mounted p) (starts p) (stops p) (open_mics p) (next_rec p) (next_url p) (live_urls p) (histories p) (asking p) (infos p) (posts p) (asked p).
Definition set_text v p := mkVoPage (mode p) (reference p) v (isLoading p) (currentId p) (history p) (available p) (languages p) (language p) (supportsRefText p) (refText p) (engine p) (uiLang p) (servedInfo p) (isRecording p) (elapsed p) (recordedUrl p) (recorderRef p) (mounted p) (starts p) (stops p) (open_mics p) (next_rec p) (next_url p) (live_urls p) (histories p) (asking p) (infos p) (posts p) (asked p).
Definition set_isLoading v p := mkVoPage (mode p) (reference p) (text p) v (currentId p) (history p) (available p) (languages p) (language p) (supportsRefText p) (refText p) (engine p) (uiLang p) (servedInfo p) (isRecording p) (elapsed p) (recordedUrl p) (recorderRef p) (mounted p) (starts p) (stops p) (open_mics p) (next_rec p) (next_url p) (live_urls p) (histories p) (asking p) (infos p) (posts p) (asked p).
Definition set_currentId v p := mkVoPage (mode p) (reference p) (text p) (isLoading p) v (history p) (available p) (languages p) (language p) (supportsRefText p) (refText p) (engine p) (uiLang p) (servedInfo p) (isRecording p) (elapsed p) (recordedUrl p) (recorderRef p) (mounted p) (starts p) (stops p) (open_mics p) (next_rec p) (next_url p) (live_urls p) (histories p) (asking p) (infos p) (posts p) (asked p).
Definition set_history v p := mkVoPage (mode p) (reference p) (text p) (isLoading p) (currentId p) v (available p) (languages p) (language p) (supportsRefText p) (refText p) (engine p) (uiLang p) (servedInfo p) (isRecording p) (elapsed p) (recordedUrl p) (recorderRef p) (mounted p) (starts p) (stops p) (open_mics p) (next_rec p) (next_url p) (live_urls p) (histories p) (asking p) (infos p) (posts p) (asked p).
Definition set_available v p := mkVoPage (mode p) (reference p) (text p) (isLoading p) (currentId p) (history p) v (languages p) (language p) (supportsRefText p) (refText p) (engine p) (uiLang p) (servedInfo p) (isRecording p) (elapsed p) (recordedUrl p) (recorderRef p) (mounted p) (starts p) (stops p) (open_mics p) (next_rec p) (next_url p) (live_urls p) (histories p) (asking p) (infos p) (posts p) (asked p).
Definition set_languages v p := mkVoPage (mode p) (reference p) (text p) (isLoading p) (currentId p) (history p) (available p) v (language p) (supportsRefText p) (refText p) (engine p) (uiLang p) (servedInfo p) (isRecording p) (elapsed p) (recordedUrl p) (recorderRef p) (mounted p) (starts p) (stops p) (open_mics p) (next_rec p) (next_url p) (live_urls p) (histories p) (asking p) (infos p) (posts p) (asked p).
Definition set_language v p := mkVoPage (mode p) (reference p) (text p) (isLoading p) (currentId p) (history p) (available p) (languages p) v (supportsRefText p) (refText p) (engine p) (uiLang p) (servedInfo p) (isRecording p) (elapsed p) (recordedUrl p) (recorderRef p) (mounted p) (starts p) (stops p) (open_mics p) (next_rec p) (next_url p) (live_urls p) (histories p) (asking p) (infos p) (posts p) (asked p).
Definition set_supportsRefText v p := mkVoPage (mode p) (reference p) (text p) (isLoading p) (currentId p) (history p) (available p) (languages p) (language p) v (refText p) (engine p) (uiLang p) (servedInfo p) (isRecording p) (elapsed p) (recordedUrl p) (recorderRef p) (mounted p) (starts p) (stops p) (open_mics p) (next_rec p) (next_url p) (live_urls p) (histories p) (asking p) (infos p) (posts p) (asked p).
Definition set_refText v p := mkVoPage (mode p) (reference p) (text p) (isLoading p) (currentId p) (history p) (available p) (languages p) (language p) (supportsRefText p) v (engine p) (uiLang p) (servedInfo p) (isRecording p) (elapsed p) (recordedUrl p) (recorderRef p) (mounted p) (starts p) (stops p) (open_mics p) (next_rec p) (next_url p) (live_urls p) (histories p) (asking p) (infos p) (posts p) (asked p).
Definition set_engine v p := mkVoPage (mode p) (reference p) (text p) (isLoading p) (currentId p) (history p) (available p) (languages p) (language p) (supportsRefText p) (refText p) v (uiLang p) (servedInfo p) (isRecording p) (elapsed p) (recordedUrl p) (recorderRef p) (mounted p) (starts p) (stops p) (open_mics p) (next_rec p) (next_url p) (live_urls p) (histories p) (asking p) (infos p) (posts p) (asked p).
Definition set_uiLang v p := mkVoPage (mode p) (reference p) (text p) (isLoading p) (currentId p) (history p) (available p) (languages p) (language p) (supportsRefText p) (refText p) (engine p) v (servedInfo p) (isRecording p) (elapsed p) (recordedUrl p) (recorderRef p) (mounted p) (starts p) (stops p) (open_mics p) (next_rec p) (next_url p) (live_urls p) (histories p) (asking p) (infos p) (posts p) (asked p).
Definition set_servedInfo v p := mkVoPage (mode p) (reference p) (text p) (isLoading p) (currentId p) (history p) (available p) (languages p) (language p) (supportsRefText p) (refText p) (engine p) (uiLang p) v (isRecording p) (elapsed p) (recordedUrl p) (recorderRef p) (mounted p) (starts p) (stops p) (open_mics p) (next_rec p) (next_url p) (live_urls p) (histories p) (asking p) (infos p) (posts p) (asked p).
Definition set_isRecording v p := mkVoPage (mode p) (reference p) (text p) (isLoading p) (currentId p) (history p) (available p) (languages p) (language p) (supportsRefText p) (refText p) (engine p) (uiLang p) (servedInfo p) v (elapsed p) (recordedUrl p) (recorderRef p) (mounted p) (starts p) (stops p) (open_mics p) (next_rec p) (next_url p) (live_urls p) (histories p) (asking p) (infos p) (posts p) (asked p).
Definition set_elapsed v p := mkVoPage (mode p) (reference p) (text p) (isLoading p) (currentId p) (history p) (available p) (languages p) (language p) (supportsRefText p) (refText p) (engine p) (uiLang p) (servedInfo p) (isRecording p) v (recordedUrl p) (recorderRef p) (mounted p) (starts p) (stops p) (open_mics p) (next_rec p) (next_url p) (live_urls p) (histories p) (asking p) (infos p) (posts p) (asked p).
Definition set_recordedUrl v p := mkVoPage (mode p) (reference p) (text p) (isLoading p) (currentId p) (history p) (available p) (languages p) (language p) (supportsRefText p) (refText p) (engine p) (uiLang p) (servedInfo p) (isRecording p) (elapsed p) v (recorderRef p) (mounted p) (starts p) (stops p) (open_mics p) (next_rec p) (next_url p) (live_urls p) (histories p) (asking p) (infos p) (posts p) (asked p).
Definition set_recorderRef v p := mkVoPage (mode p) (reference p) (text p) (isLoading p) (currentId p) (history p) (available p) (languages p) (language p) (supportsRefText p) (refText p) (engine p) (uiLang p) (servedInfo p) (isRecording p) (elapsed p) (recordedUrl p) v (mounted p) (starts p) (stops p) (open_mics p) (next_rec p) (next_url p) (live_urls p) (histories p) (asking p) (infos p) (posts p) (asked p).
Definition set_mounted v p := mkVoPage (mode p) (reference p) (text p) (isLoading p) (currentId p) (history p) (available p) (languages p) (language p) (supportsRefText p) (refText p) (engine p) (uiLang p) (servedInfo p) (isRecording p) (elapsed p) (recordedUrl p) (recorderRef p) v (starts p) (stops p) (open_mics p) (next_rec p) (next_url p) (live_urls p) (histories p) (asking p) (infos p) (posts p) (asked p).
Definition set_starts v p := mkVoPage (mode p) (reference p) (text p) (isLoading p) (currentId p) (history p) (available p) (languages p) (language p) (supportsRefText p) (refText p) (engine p) (uiLang p) (servedInfo p) (isRecording p) (elapsed p) (recordedUrl p) (recorderRef p) (mounted p) v (stops p) (open_mics p) (next_rec p) (next_url p) (live_urls p) (histories p) (asking p) (infos p) (posts p) (asked p).
Definition set_stops v p := mkVoPage (mode p) (reference p) (text p) (isLoading p) (currentId p) (history p) (available p) (languages p) (language p) (supportsRefText p) (refText p) (engine p) (uiLang p) (servedInfo p) (isRecording p) (elapsed p) (recordedUrl p) (recorderRef p) (mounted p) (starts p) v (open_mics p) (next_rec p) (next_url p) (live_urls p) (histories p) (asking p) (infos p) (posts p) (asked p).
Definition set_open_mics v p := mkVoPage (mode p) (reference p) (text p) (isLoading p) (currentId p) (history p) (available p) (languages p) (language p) (supportsRefText p) (refText p) (engine p) (uiLang p) (servedInfo p) (isRecording p) (elapsed p) (recordedUrl p) (recorderRef p) (mounted p) (starts p) (stops p) v (next_rec p) (next_url p) (live_urls p) (histories p) (asking p) (infos p) (posts p) (asked p).
Definition set_next_rec v p := mkVoPage (mode p) (reference p) (text p) (isLoading p) (currentId p) (history p) (available p) (languages p) (language p) (supportsRefText p) (refText p) (engine p) (uiLang p) (servedInfo p) (isRecording p) (elapsed p) (recordedUrl p) (recorderRef p) (mounted p) (starts p) (stops p) (open_mics p) v (next_url p) (live_urls p) (histories p) (asking p) (infos p) (posts p) (asked p).
Definition set_next_url v p := mkVoPage (mode p) (reference p) (text p) (isLoading p) (currentId p) (history p) (available p) (languages p) (language p) (supportsRefText p) (refText p) (engine p) (uiLang p) (servedInfo p) (isRecording p) (elapsed p) (recordedUrl p) (recorderRef p) (mounted p) (starts p) (stops p) (open_mics p) (next_rec p) v (live_urls p) (histories p) (asking p) (infos p) (posts p) (asked p).
Definition set_live_urls v p := mkVoPage (mode p) (reference p) (text p) (isLoading p) (currentId p) (history p) (available p) (languages p) (language p) (supportsRefText p) (refText p) (engine p) (uiLang p) (servedInfo p) (isRecording p) (elapsed p) (recordedUrl p) (recorderRef p) (mounted p) (starts p) (stops p) (open_mics p) (next_rec p) (next_url p) v (histories p) (asking p) (infos p) (posts p) (asked p).
Definition set_histories v p := mkVoPage (mode p) (reference p) (text p) (isLoading p) (currentId p) (history p) (available p) (languages p) (language p) (supportsRefText p) (refText p) (engine p) (uiLang p) (servedInfo p) (isRecording p) (elapsed p) (recordedUrl p) (recorderRef p) (mounted p) (starts p) (stops p) (open_mics p) (next_rec p) (next_url p) (live_urls p) v (asking p) (infos p) (posts p) (asked p).
Definition set_asking v p := mkVoPage (mode p) (reference p) (text p) (isLoading p) (currentId p) (history p) (available p) (languages p) (language p) (supportsRefText p) (refText p) (engine p) (uiLang p) (servedInfo p) (isRecording p) (elapsed p) (recordedUrl p) (recorderRef p) (mounted p) (starts p) (stops p) (open_mics p) (next_rec p) (next_url p) (live_urls p) (histories p) v (infos p) (posts p) (asked p).
Definition set_infos v p := mkVoPage (mode p) (reference p) (text p) (isLoading p) (currentId p) (history p) (available p) (languages p) (language p) (supportsRefText p) (refText p) (engine p) (uiLang p) (servedInfo p) (isRecording p) (elapsed p) (recordedUrl p) (recorderRef p) (mounted p) (starts p) (stops p) (open_mics p) (next_rec p) (next_url p) (live_urls p) (histories p) (asking p) v (posts p) (asked p).
Definition set_posts v p := mkVoPage (mode p) (reference p) (text p) (isLoading p) (currentId p) (history p) (available p) (languages p) (language p) (supportsRefText p) (refText p) (engine p) (uiLang p) (servedInfo p) (isRecording p) (elapsed p) (recordedUrl p) (recorderRef p) (mounted p) (starts p) (stops p) (open_mics p) (next_rec p) (next_url p) (live_urls p) (histories p) (asking p) (infos p) v (asked p).
Definition emit (e : VoEffect) p := mkVoPage (mode p) (reference p) (text p) (isLoading p) (currentId p) (history p) (available p) (languages p) (language p) (supportsRefText p) (refText p) (engine p) (uiLang p) (servedInfo p) (isRecording p) (elapsed p) (recordedUrl p) (recorderRef p) (mounted p) (starts p) (stops p) (open_mics p) (next_rec p) (next_url p) (live_urls p) (histories p) (asking p) (infos p) (posts p) (asked p ++ [e]).

(** Reading a field through the updates. *)
Ltac voice_fields :=
  cbn [mode reference text isLoading currentId history available languages language supportsRefText refText engine uiLang servedInfo isRecording elapsed recordedUrl recorderRef mounted starts stops open_mics next_rec next_url live_urls histories asking infos posts asked
       set_mode set_reference set_text set_isLoading set_currentId set_history set_available set_languages set_language set_supportsRefText set_refText set_engine set_uiLang set_servedInfo set_isRecording set_elapsed set_recordedUrl set_recorderRef set_mounted set_starts set_stops set_open_mics set_next_rec set_next_url set_live_urls set_histories set_asking set_infos set_posts emit] in *.

Section page.
Context (t : jstr -> jstr) (csrf : jstr).

Definition toast (body : jstr) (p : VoPage) : VoPage := emit (Toast body true) p.
Definition loadHistory (p : VoPage) : VoPage := p |> set_histories (S (histories p)) |> emit AskedHistory.
Definition ask_info (p : VoPage) : VoPage := p |> set_infos (infos p ++ [uiLang p]) |> emit AskedInfo.
(** The effect of the language of the interface; what the server already read for
    it is not asked again. *)
Definition info_effect (p : VoPage) : VoPage :=
  if bool_decide (servedInfo p = Some (uiLang p)) then set_servedInfo None p else ask_info p.
(** What the seed gives ([running]: the kinds of the models), and what of it is
    fresh. *)
Definition has_voice (running : list jstr) : bool := existsb (streq (u "voice")) running.
Definition voice_start (items : option (list HistoryItem)) (running : option (list jstr)) (info : option VoiceInfo) (lang : jstr)
    (fresh_history fresh_running fresh_info : bool) : VoPage :=
  let p := mkVoPage Record_ None [] false None (default [] items) (has_voice <$> running)
             (match info with Some i => i_languages i | None => [] end) (match info with Some i => initialLang i lang lang | None => lang end)
             (match info with Some i => i_supports_ref_text i | None => false end) [] (match info with Some i => i_engine i | None => [] end)
             lang (if fresh_info then Some lang else None) false 0 None None true 0 [] [] 0 0 [] 0 false [] 0 [] in
  let p := if fresh_history then p else loadHistory p in
  let p := if fresh_running then p else p |> set_asking true |> emit AskedRunning in
  info_effect p.

(** ** The microphone *)

Definition revoke (o : option nat) (p : VoPage) : VoPage :=
  match o with Some n => set_live_urls (List.filter (fun x => negb (x =? n)) (live_urls p)) p | None => p end.
Definition setRecorded (file : option nat) (p : VoPage) : VoPage :=
  let p := revoke (recordedUrl p) p in
  match file with
  | None => p |> set_recordedUrl None |> set_reference None
  | Some r => p |> set_recordedUrl (Some (next_url p)) |> set_live_urls (live_urls p ++ [next_url p]) |> set_next_url (S (next_url p)) |> set_reference (Some (Recorded r))
  end.
(** The microphone of a recorder is turned off. *)
Definition turn_off (r : nat) (p : VoPage) : VoPage := set_open_mics (List.filter (fun x => negb (x =? r)) (open_mics p)) p.
Definition cancel (p : VoPage) : VoPage := match recorderRef p with Some r => turn_off r p | None => p end.

Definition stopRecording (p : VoPage) : VoPage :=
  match recorderRef p with
  | None => p
  | Some r => p |> set_recorderRef None |> set_isRecording false |> set_stops (stops p ++ [r])
  end.
(** The file of a recorder is made ([ok]), or could not be. *)
Definition stopped (i : nat) (ok : bool) (p : VoPage) : VoPage :=
  match stops p !! i with
  | None => p
  | Some r =>
      let p := set_stops (delete i (stops p)) p in
      if ok then p |> turn_off r |> setRecorded (Some r) else toast (t (u "Impossible de convertir l'enregistrement.")) p
  end.
(** A second of the counter. *)
Definition tick (p : VoPage) : VoPage :=
  if isRecording p && mounted p then
    let p := set_elapsed (S (elapsed p)) p in
    if MAX_SECONDS <=? elapsed p then stopRecording p else p
  else p.
Definition beginRecording (p : VoPage) : VoPage := p |> setRecorded None |> set_elapsed 0 |> set_starts (S (starts p)).
(** The browser answers: the microphone is on, or refused. *)
Definition started (ok : bool) (p : VoPage) : VoPage :=
  match starts p with
  | O => p
  | S n =>
      let p := set_starts n p in
      if ok then p |> set_recorderRef (Some (next_rec p)) |> set_open_mics (open_mics p ++ [next_rec p]) |> set_next_rec (S (next_rec p)) |> set_isRecording true
      else toast (t (u "Micro inaccessible — autorise l'accès au microphone dans ton navigateur.")) p
  end.
Definition switchMode (next : Mode) (p : VoPage) : VoPage :=
  p |> cancel |> set_recorderRef None |> set_isRecording false |> set_elapsed 0 |> setRecorded None |> set_mode next.
(** Leaving the page. *)
Definition leave (p : VoPage) : VoPage := p |> cancel |> revoke (recordedUrl p) |> set_mounted false.

(** ** The answers *)

Definition history_answered (r : option (option (list HistoryItem))) (p : VoPage) : VoPage :=
  match histories p with
  | O => p
  | S n => let p := set_histories n p in match r with None => p | Some l => set_history (default [] l) p end
  end.
Definition running_answered (r : option (option (list jstr))) (p : VoPage) : VoPage :=
  if asking p then
    let p := set_asking false p in
    match r with None => set_available None p | Some l => set_available (Some (match l with Some l => has_voice l | None => false end)) p end
  else p.
Definition info_answered (i : nat) (r : option VoiceInfo) (p : VoPage) : VoPage :=
  match infos p !! i with
  | None => p
  | Some lang =>
      let p := set_infos (delete i (infos p)) p in
      match r with
      | None => p
      | Some d =>
          p |> set_engine (i_engine d) |> set_languages (i_languages d) |> set_supportsRefText (i_supports_ref_text d)
            |> set_language (initialLang d (language p) lang)
      end
  end.
Definition generate_disabled (p : VoPage) : bool :=
  match reference p with None => true | Some _ => false end || streq (trim (text p)) [] || isLoading p || isRecording p
  || (bool_decide (mode p = Record_) && (elapsed p <? MIN_SECONDS)).
Definition generate (p : VoPage) : VoPage :=
  match reference p with
  | Some s =>
      if streq (trim (text p)) [] || streq csrf [] then p
      else p |> set_isLoading true |> set_currentId None |> set_posts (S (posts p)) |> emit (Generated s (text p) (language p) (refText p))
  | None => p
  end.
(** The answer of the generation: lost, or its identifier, or a refusal. *)
Definition generated (r : option (option Z * option jstr)) (p : VoPage) : VoPage :=
  match posts p with
  | O => p
  | S n =>
      set_isLoading false
        (let p := set_posts n p in
         match r with
         | None => toast (t (u "Service voix injoignable.")) p
         | Some (id, why) =>
             match id with
             | Some z => if (z =? 0)%Z then toast (match why with Some ((_ :: _) as e) => t e | _ => t (u "La génération a échoué.") end) p
                         else p |> set_currentId (Some z) |> loadHistory
             | None => toast (match why with Some ((_ :: _) as e) => t e | _ => t (u "La génération a échoué.") end) p
             end
         end)
  end.
Definition copyWithToast (s : jstr) (clipboard exec : option bool) (p : VoPage) : VoPage :=
  if (copyText clipboard exec).1.1 then emit (Copied s) p else toast (t (u "Copie impossible depuis ce navigateur.")) p.

(** ** What is shown *)

Inductive Screen := Waiting | Unavailable | Page (form : bool).
Definition screen (p : VoPage) : Screen :=
  match available p, history p with
  | None, _ => Waiting
  | Some false, [] => Unavailable
  | Some b, _ => Page b
  end.
Definition shows_form (p : VoPage) : bool := match screen p with Page b => b | _ => false end.
(** The recorder's part of the form. *)
Inductive MicView := MicRecording (counter : jstr) (short : bool) | MicRecorded (counter : jstr) (too_short : bool) | MicIdle.
Definition mic_view (p : VoPage) : MicView :=
  if isRecording p then MicRecording (formatSeconds (elapsed p)) (elapsed p <? MIN_SECONDS)
  else match recordedUrl p with Some _ => MicRecorded (formatSeconds (elapsed p)) (elapsed p <? MIN_SECONDS) | None => MicIdle end.
Definition title (p : VoPage) : jstr :=
  t (u "Clonage de voix") ++ match engine p with [] => [] | e => u " — " ++ (if streq e (u "qwen3-tts") then u "Qwen3-TTS" else u "Chatterbox") end.
Definition shows_result (p : VoPage) : option jstr :=
  match currentId p with Some z => if isLoading p then None else Some (u "/voice/audio/" ++ string_of_Z z) | None => None end.

(** ** The page as a transition system *)

Inductive VoEvent :=
| VoStart | VoStarted (ok : bool) | VoTick | VoStop | VoStopped (i : nat) (ok : bool) | VoSwitch (m : Mode) | VoImport (name : option jstr)
| VoText (s : jstr) | VoDictated (s : jstr) | VoRefText (s : jstr) | VoLanguage (l : jstr) | VoGenerate | VoGenerated (r : option (option Z * option jstr))
| VoItem (h : HistoryItem) | VoCopy (h : HistoryItem) (clipboard exec : option bool)
| VoHistory (r : option (option (list HistoryItem))) | VoRunning (r : option (option (list jstr))) | VoInfo (i : nat) (r : option VoiceInfo)
| VoUiLang (l : jstr) | VoLeave.
Definition clicked (b : bool) (f : VoPage -> VoPage) (p : VoPage) : VoPage := if mounted p && b then f p else p.
Definition voice_handle (e : VoEvent) (p : VoPage) : VoPage :=
  match e with
  | VoStart => clicked (shows_form p && bool_decide (mode p = Record_) && negb (isRecording p) && negb (isLoading p)) beginRecording p
  | VoStarted ok => started ok p
  | VoTick => tick p
  | VoStop => clicked (shows_form p && bool_decide (mode p = Record_) && isRecording p) stopRecording p
  | VoStopped i ok => stopped i ok p
  | VoSwitch m => clicked (shows_form p) (switchMode m) p
  | VoImport f => clicked (shows_form p && bool_decide (mode p = Upload) && negb (isLoading p)) (set_reference (Imported <$> f)) p
  | VoText s => clicked (shows_form p && negb (isLoading p)) (set_text s) p
  | VoDictated s => clicked true (set_text s) p
  | VoRefText s => clicked (shows_form p && supportsRefText p && negb (isLoading p)) (set_refText s) p
  | VoLanguage l => clicked (shows_form p && (1 <? length (languages p)) && negb (isLoading p)) (set_language l) p
  | VoGenerate => clicked (shows_form p && negb (generate_disabled p)) generate p
  | VoGenerated r => generated r p
  | VoItem h => clicked (match screen p with Page _ => true | _ => false end) (set_currentId (Some (h_id h))) p
  | VoCopy h c x => clicked (match screen p with Page _ => true | _ => false end) (copyWithToast (h_text h) c x) p
  | VoHistory r => history_answered r p
  | VoRunning r => running_answered r p
  | VoInfo i r => info_answered i r p
  | VoUiLang l => clicked (negb (streq l (uiLang p))) (fun p => p |> set_uiLang l |> info_effect) p
  | VoLeave => clicked true leave p
  end.
Definition voice_run (es : list VoEvent) (p : VoPage) : VoPage := foldl (fun p e => voice_handle e p) p es.
End page.

(** ** The microphone follows the recording *)

Section spec.
Context (t : jstr -> jstr) (csrf : jstr).
#[local] Abbreviation handle := (voice_handle t csrf) (only parsing).
#[local] Abbreviation run := (voice_run t csrf) (only parsing).

(** A microphone asked for is answered before another is, the mode is changed or
    the page is left. *)
Definition calm (e : VoEvent) (p : VoPage) : bool :=
  match e with
  | VoStart | VoSwitch _ | VoLeave => starts p =? 0
  | _ => true
  end.
Fixpoint calm_run (es : list VoEvent) (p : VoPage) : bool :=
  match es with [] => true | e :: es => calm e p && calm_run es (handle e p) end.

(** The files that could not be made, along a run. *)
Definition failed (e : VoEvent) (p : VoPage) : list nat :=
  match e with VoStopped i false => option_list (stops p !! i) | _ => [] end.
Fixpoint failures (es : list VoEvent) (p : VoPage) : list nat :=
  match es with [] => [] | e :: es => failed e p ++ failures es (handle e p) end.

(** The recorder whose microphone is meant to be on. *)
Definition current (p : VoPage) : list nat := if mounted p then option_list (recorderRef p) else [].
Section kept.
Context (lost : list nat).
(** The microphones on are the one of the recording, those of the files awaited
    and those of the files [lost]. *)
Record mic_ok (p : VoPage) : Prop := mkMic {
  mo_open : Permutation (open_mics p) (current p ++ stops p ++ lost);
  mo_new : forall r, r ∈ open_mics p -> r < next_rec p;
  mo_once : NoDup (open_mics p);
  mo_rec : mounted p = true -> isRecording p = bool_decide (is_Some (recorderRef p));
  mo_time : isRecording p = true -> mounted p = true -> elapsed p < MAX_SECONDS;
  mo_bound : elapsed p <= MAX_SECONDS;
  mo_start : starts p <> 0 -> starts p = 1 /\ elapsed p = 0 /\ recorderRef p = None /\ mounted p = true
}.
Definition same_mic (p q : VoPage) : Prop :=
  (open_mics q, stops q, recorderRef q, mounted q, next_rec q) = (open_mics p, stops p, recorderRef p, mounted p, next_rec p) /\
  (isRecording q, elapsed q, starts q) = (isRecording p, elapsed p, starts p).
Lemma same_mic_ok p q : same_mic p q -> mic_ok p -> mic_ok q.
Proof. intros [[= E1 E2 E3 E4 E5] [= E6 E7 E8]] [A B C D E F G]. unfold current in *. split; unfold current; by rewrite ?E1, ?E2, ?E3, ?E4, ?E5, ?E6, ?E7, ?E8. Qed.
Lemma same_trans p q r : same_mic p q -> same_mic q r -> same_mic p r.
Proof. intros [A1 A2] [B1 B2]. split; [by rewrite B1|by rewrite B2]. Qed.
Lemma recorded_same f p : same_mic p (setRecorded f p).
Proof. unfold setRecorded, revoke. cbv zeta. by destruct (recordedUrl p), f. Qed.

Lemma off_perm r (l rest : list nat) : Permutation l (r :: rest) -> NoDup l -> Permutation (List.filter (fun x => negb (x =? r)) l) rest.
Proof.
  intros H N. assert (F : forall l1 l2, Permutation l1 l2 -> Permutation (List.filter (fun x => negb (x =? r)) l1) (List.filter (fun x => negb (x =? r)) l2)).
  { induction 1 as [|x l1 l2 _ IH|x y l1|l1 l2 l3 _ IH1 _ IH2]; [reflexivity| | |by etransitivity]; cbn [List.filter].
    - destruct (negb (x =? r)); [by constructor|exact IH].
    - destruct (negb (x =? r)), (negb (y =? r)); try reflexivity; constructor. }
  rewrite (F _ _ H). cbn [List.filter]. rewrite Nat.eqb_refl. cbn [negb]. rewrite H in N. apply NoDup_cons in N as [N _].
  clear -N. induction rest as [|x l IH]; [done|]. cbn [List.filter]. rewrite not_elem_of_cons in N. destruct N as [N1 N2].
  apply Nat.neq_sym, Nat.eqb_neq in N1. rewrite N1. cbn [negb]. constructor. by apply IH.
Qed.
Lemma off_sub r (l : list nat) x : x ∈ List.filter (fun y => negb (y =? r)) l -> x ∈ l.
Proof. rewrite !list_elem_of_In, filter_In. by intros []. Qed.
Lemma off_once r (l : list nat) : NoDup l -> NoDup (List.filter (fun y => negb (y =? r)) l).
Proof.
  induction 1 as [|x l H _ IH]; [constructor|]. cbn [List.filter]. case_match; [|done]. constructor; [|done]. intros X. by apply off_sub in X.
Qed.

Lemma taken_out i (r : nat) (l rest : list nat) : l !! i = Some r -> Permutation (l ++ rest) (r :: delete i l ++ rest).
Proof. intros H. rewrite (delete_Permutation l i r H) at 1. reflexivity. Qed.
Lemma stop_ok p : elapsed p <= MAX_SECONDS -> (mounted p = true -> isRecording p = bool_decide (is_Some (recorderRef p))) ->
  Permutation (open_mics p) (current p ++ stops p ++ lost) -> (forall r, r ∈ open_mics p -> r < next_rec p) -> NoDup (open_mics p) ->
  (starts p <> 0 -> starts p = 1 /\ elapsed p = 0 /\ recorderRef p = None /\ mounted p = true) -> mounted p = true ->
  isRecording p = true -> mic_ok (stopRecording p).
Proof.
  intros F D A B C G M R. unfold stopRecording. rewrite D in R by done. destruct (recorderRef p) as [r|] eqn:E; [|done]. unfold current in *. rewrite M, E in A.
  split; unfold current; voice_fields; try done.
  - rewrite M. cbn [option_list app] in *. rewrite A, <- app_assoc. exact (Permutation_middle (stops p) lost r).
  - intros S. destruct (G S) as (G1 & G2 & G3 & _). done.
Qed.
Lemma tick_ok p : mic_ok p -> mic_ok (tick p).
Proof.
  intros H. unfold tick. destruct (isRecording p) eqn:R; [|exact H]. destruct (mounted p) eqn:M; [|exact H]. cbn [andb]. cbv zeta. voice_fields.
  destruct H as [A B C D E F G]. specialize (E R M). assert (S0 : starts p = 0).
  { destruct (Nat.eq_dec (starts p) 0) as [|N]; [done|]. destruct (G N) as (_ & _ & G3 & _). rewrite D, G3 in R by done. done. }
  destruct (Nat.leb_spec MAX_SECONDS (S (elapsed p))) as [L|L].
  - apply stop_ok; voice_fields; try done; try lia; intros X; by destruct (X S0).
  - split; voice_fields; try done; try lia; intros X; by destruct (X S0).
Qed.
Lemma cancel_open p : mic_ok p -> mounted p = true -> starts p = 0 ->
  let q := cancel p in Permutation (open_mics q) (stops q ++ lost) /\ NoDup (open_mics q) /\ (forall r, r ∈ open_mics q -> r < next_rec q).
Proof.
  intros [A B C D E F G] M S. cbv zeta. unfold cancel, current in *. rewrite M in A. destruct (recorderRef p) as [r|]; [|done]. unfold turn_off. voice_fields.
  split; [by apply off_perm|]. split; [by apply off_once|]. intros x Hx. by apply off_sub, B in Hx.
Qed.
Lemma begin_ok p : starts p = 0 -> isRecording p = false -> mounted p = true -> mic_ok p -> mic_ok (beginRecording p).
Proof.
  intros S R M H. unfold beginRecording. assert (K := recorded_same None p). assert (H' := same_mic_ok _ _ K H). destruct K as [K1 K2].
  rewrite S. revert H' K1 K2. generalize (setRecorded None p) as q. intros q [A B C D E F G] K1 K2. simplify_eq K1. simplify_eq K2.
  assert (N : recorderRef q = None) by (specialize (D ltac:(congruence)); destruct (recorderRef q); [|done]; rewrite bool_decide_eq_true_2 in D by done; congruence).
  unfold current in *. split; unfold current; voice_fields; try done; [by intros; unfold MAX_SECONDS; lia|unfold MAX_SECONDS; lia|]. intros _. by rewrite N; repeat split; congruence.
Qed.
Lemma started_ok ok p : mic_ok p -> mic_ok (started t ok p).
Proof.
  intros [A B C D E F G]. unfold started. destruct (starts p) as [|n] eqn:S; [by split; rewrite ?S|]. destruct (G ltac:(lia)) as (G1 & G2 & G3 & G4). injection G1 as ->.
  unfold current in *. rewrite G3, G4 in *. destruct ok; cbv zeta; unfold toast; split; unfold current; voice_fields; rewrite ?G2, ?G3, ?G4; try done; try (unfold MAX_SECONDS; lia).
  - cbn [option_list app] in *. rewrite A. symmetry. apply Permutation_cons_append.
  - intros r. rewrite elem_of_app, list_elem_of_singleton. intros [X| ->]; [apply B in X|]; lia.
  - apply NoDup_app. split; [done|]. split; [|apply NoDup_singleton]. intros r X Y. apply list_elem_of_singleton in Y as ->. apply B in X. lia.
Qed.
Lemma stopped_ok i p : mic_ok p -> mic_ok (stopped t i true p).
Proof.
  intros [A B C D E F G]. unfold stopped. destruct (stops p !! i) as [r|] eqn:Hi; [|by split]. cbv zeta.
  match goal with |- mic_ok (setRecorded ?f ?q) => apply (same_mic_ok q); [apply recorded_same|] end.
  unfold turn_off, current in *. assert (P := taken_out i r (stops p) lost Hi).
  split; unfold current; voice_fields; try done.
  - apply off_perm; [|done]. etransitivity; [exact A|]. etransitivity; [apply Permutation_app_head, P|]. symmetry. apply Permutation_middle.
  - intros x X. by apply off_sub, B in X.
  - by apply off_once.
Qed.
Lemma rest_ok q : starts q = 0 -> recorderRef q = None \/ mounted q = false -> isRecording q = false \/ mounted q = false -> elapsed q <= MAX_SECONDS ->
  Permutation (open_mics q) (stops q ++ lost) /\ NoDup (open_mics q) /\ (forall r, r ∈ open_mics q -> r < next_rec q) -> mic_ok q.
Proof.
  intros S R I L (A & C & B). assert (N : current q = []) by (unfold current; destruct R as [-> | ->]; [by destruct (mounted q)|done]).
  split; rewrite ?N; try done.
  - intros M. destruct R as [->|X]; [|congruence]. destruct I as [->|X]; [done|congruence].
  - intros X M. destruct I; congruence.
Qed.
Lemma cancel_keeps p : starts (cancel p) = starts p /\ mounted (cancel p) = mounted p /\ elapsed (cancel p) = elapsed p.
Proof. unfold cancel. by destruct (recorderRef p). Qed.
Lemma same_mode m p : same_mic p (set_mode m p).
Proof. done. Qed.
Lemma switch_ok m p : starts p = 0 -> mounted p = true -> mic_ok p -> mic_ok (switchMode m p).
Proof.
  intros S M H. assert (K := cancel_open p H M S). destruct (cancel_keeps p) as (X1 & X2 & X3). rewrite S in X1. unfold switchMode. revert K X1. generalize (cancel p) as q. intros q K X1.
  eapply same_mic_ok; [apply same_mode|]. eapply same_mic_ok; [apply recorded_same|].
  apply rest_ok; voice_fields; [exact X1|by left|by left|unfold MAX_SECONDS; lia|exact K].
Qed.
Lemma revoke_same o p : same_mic p (revoke o p).
Proof. by destruct o. Qed.
Lemma vp_leave_ok p : starts p = 0 -> mounted p = true -> mic_ok p -> mic_ok (leave p).
Proof.
  intros S M H. assert (K := cancel_open p H M S). assert (F := mo_bound p H). destruct (cancel_keeps p) as (X1 & X2 & X3). rewrite S in X1. rewrite <- X3 in F.
  unfold leave. revert K X1 F. generalize (cancel p) as q. intros q K X1 F. destruct (revoke_same (recordedUrl p) q) as [E1 E2].
  revert E1 E2. generalize (revoke (recordedUrl p) q) as q'. intros q' E1 E2. simplify_eq E1. simplify_eq E2. intros.
  apply rest_ok; voice_fields; [congruence|by right|by right|congruence|]. replace (open_mics q') with (open_mics q) by congruence. replace (stops q') with (stops q) by congruence.
  replace (next_rec q') with (next_rec q) by congruence. exact K.
Qed.
Lemma vp_clicked_ok b f p : (mounted p = true -> b = true -> mic_ok p -> mic_ok (f p)) -> mic_ok p -> mic_ok (clicked b f p).
Proof. intros F H. unfold clicked. destruct (mounted p) eqn:M; [|done]. destruct b; [by apply F|done]. Qed.
Lemma voice_step e p : calm e p = true -> failed e p = [] -> mic_ok p -> mic_ok (handle e p).
Proof.
  intros K L H. destruct e; cbn [voice_handle calm failed] in *; try (apply vp_clicked_ok; [|exact H]; intros M B H'); bool_norm; try (by apply (same_mic_ok p)).
  - by apply begin_ok.
  - by apply started_ok.
  - by apply tick_ok.
  - destruct H. by apply stop_ok.
  - destruct ok; [by apply stopped_ok|]. unfold stopped. by destruct (stops p !! i).
  - by apply switch_ok.
  - unfold generate. repeat case_match; by apply (same_mic_ok p).
  - unfold generated, loadHistory, toast. cbv zeta. repeat case_match; by apply (same_mic_ok p).
  - unfold copyWithToast, toast. destruct (_.1.1); by apply (same_mic_ok p).
  - unfold history_answered. repeat case_match; by apply (same_mic_ok p).
  - unfold running_answered. cbv zeta. repeat case_match; by apply (same_mic_ok p).
  - unfold info_answered. cbv zeta. repeat case_match; by apply (same_mic_ok p).
  - unfold info_effect, ask_info. case_match; by apply (same_mic_ok p).
  - by apply vp_leave_ok.
Qed.
End kept.
Lemma failed_step e p lost : calm e p = true -> mic_ok lost p -> mic_ok (failed e p ++ lost) (handle e p).
Proof.
  intros K H. destruct (failed e p) as [|r l] eqn:L; [by apply voice_step|]. destruct e; try done. destruct ok; [done|]. cbn [failed] in L.
  destruct (stops p !! i) as [r'|] eqn:Hi; [|done]. injection L as -> <-. cbn [voice_handle]. unfold stopped. rewrite Hi. cbv zeta.
  destruct H as [A B C D E F G]. unfold toast, current in *. assert (P := taken_out i r (stops p) lost Hi).
  split; unfold current; voice_fields; try done. rewrite A. apply Permutation_app_head. rewrite P. apply Permutation_middle.
Qed.
Lemma voice_run_ok es p lost : calm_run es p = true -> mic_ok lost p -> exists l, Permutation l (failures es p ++ lost) /\ mic_ok l (run es p).
Proof.
  revert p lost. induction es as [|e es IH]; intros p lost K H; [by exists lost|]. cbn [calm_run failures] in *. bool_norm.
  match goal with H1 : calm e p = true, H2 : calm_run es _ = true |- _ => destruct (IH _ _ H2 (failed_step e p lost H1 H)) as (l & L & M) end.
  exists l. split; [|exact M]. rewrite L, !app_assoc. apply Permutation_app_tail, Permutation_app_comm.
Qed.
Lemma voice_start_ok items running info lang fh fr fi : mic_ok [] (voice_start items running info lang fh fr fi).
Proof.
  unfold voice_start, loadHistory, info_effect, ask_info. cbv zeta.
  destruct fh, fr; repeat case_match; split; unfold current; cbn; try done; try (unfold MAX_SECONDS; lia); try constructor; intros ? X; by apply elem_of_nil in X.
Qed.
(** C17: While a microphone asked for is answered before another is asked, the mode
    is changed or the page is left, the microphones on are one for the recording
    in course, one for each file awaited and one for each recording whose file
    could not be made (that one is never turned off): when every file is made, all
    are off once nothing is recorded. A recording never goes past its limit. *)
Theorem mic_follows_recording items running info lang fh fr fi es :
  let p0 := voice_start items running info lang fh fr fi in calm_run es p0 = true -> let p := run es p0 in
  length (open_mics p) = (if mounted p && isRecording p then 1 else 0) + length (stops p) + length (failures es p0) /\
  (forall r, r ∈ failures es p0 -> r ∈ open_mics p) /\ NoDup (open_mics p) /\ elapsed p <= MAX_SECONDS.
Proof.
  intros p0 K p. destruct (voice_run_ok es p0 [] K (voice_start_ok items running info lang fh fr fi)) as (l & L & [A B C D E F G]). fold p in A, B, C, D, E, F, G.
  rewrite app_nil_r in L. rewrite L in A. split; [|split; [|done]].
  - rewrite A, !length_app. unfold current. destruct (mounted p) eqn:M; cbn [andb]; [|done]. rewrite D by done. by destruct (recorderRef p).
  - intros r H. rewrite A, !elem_of_app. by right; right.
Qed.

(** ** The generation *)

(** A text is read only with a sample, a text that is not blank, no recording in
    course and no other reading awaited; from the microphone, after six seconds
    at least. *)
Lemma generation_guarded p x : In x (drop (length (asked p)) (asked (handle VoGenerate p))) ->
  exists s, reference p = Some s /\ x = Generated s (text p) (language p) (refText p) /\ trim (text p) <> [] /\ isLoading p = false /\ isRecording p = false /\
    (mode p = Record_ -> MIN_SECONDS <= elapsed p).
Proof.
  cbn [voice_handle]. unfold clicked. destruct (mounted p && _) eqn:B; [|by rewrite drop_ge by lia]. bool_norm.
  match goal with H : generate_disabled p = false |- _ => unfold generate_disabled in H end. bool_norm. unfold generate.
  destruct (reference p) as [s|]; [|done]. destruct (streq_spec (trim (text p)) []) as [|N]; [done|]. destruct (streq csrf []); cbn [orb]; [by rewrite drop_ge by lia|].
  cbn [orb asked emit set_posts set_currentId set_isLoading]. rewrite drop_app_length. intros [<-|[]]. exists s. repeat (split; [done|]).
  intros M. match goal with H : bool_decide (mode p = Record_) && _ = false |- _ => rewrite bool_decide_eq_true_2 in H by done; cbn [andb] in H; by apply Nat.ltb_ge in H end.
Qed.
(** The language proposed is one the model knows, or English. *)
Lemma initial_known info cur lang : knows info (initialLang info cur lang) = true \/ initialLang info cur lang = u "en".
Proof. unfold initialLang. destruct (knows info cur) eqn:A; [by left|]. destruct (knows info lang) eqn:B; [by left|]. destruct (knows info (u "auto")) eqn:C; [by left|by right]. Qed.
End spec.

(** ** Examples and what the page does not do *)

#[local] Abbreviation play := (voice_run (fun x : jstr => x) (u "csrf")) (only parsing).
Definition ready : VoPage := voice_start (Some []) (Some [u "voice"]) None (u "fr") true true true.
(** Two clicks before the browser answers start two recordings: the first
    microphone is never turned off. *)
Lemma second_start_leaks :
  let p := play [VoStart; VoStart; VoStarted true; VoStarted true; VoStop; VoStopped 0 true; VoLeave] ready in open_mics p = [0] /\ mounted p = false.
Proof. vm_compute. split; reflexivity. Qed.
(** The microphone granted after the page is left, or after the mode is changed,
    is on with nothing to turn it off. *)
Lemma late_grant_leaks :
  open_mics (play [VoStart; VoLeave; VoStarted true] ready) = [0] /\
  let p := play [VoStart; VoSwitch Upload; VoStarted true] ready in isRecording p = true /\ mode p = Upload /\ open_mics p = [0].
Proof. vm_compute. repeat split; reflexivity. Qed.
(** A file that cannot be made leaves its microphone on. *)
Lemma failed_stop_leaks : open_mics (play [VoStart; VoStarted true; VoStop; VoStopped 0 false] ready) = [0].
Proof. vm_compute. reflexivity. Qed.
(** A recording whose file comes after the mode is changed becomes the sample of
    the other mode. *)
Lemma late_file_in_other_mode :
  let p := play [VoStart; VoStarted true; VoStop; VoSwitch Upload; VoImport (Some (u "a.wav")); VoStopped 0 true] ready in mode p = Upload /\ reference p = Some (Recorded 0).
Proof. vm_compute. split; reflexivity. Qed.
(** Its object URL is not given back when it comes after the page is left. *)
Lemma late_file_leaks : live_urls (play [VoStart; VoStarted true; VoStop; VoLeave; VoStopped 0 true] ready) = [0].
Proof. vm_compute. reflexivity. Qed.
Example stops_alone : let p := play (VoStart :: VoStarted true :: repeat VoTick 70) ready in isRecording p = false /\ elapsed p = 60 /\ stops p = [0].
Proof. vm_compute. repeat split; reflexivity. Qed.
Example times : formatSeconds 0 = u "00:00" /\ formatSeconds 60 = u "01:00" /\ formatSeconds 59 = u "00:59".
Proof. vm_compute. repeat split; reflexivity. Qed.

Theorem mic_follows_recording_witness :
  let es := [VoStart; VoStarted true; VoTick; VoStop; VoStart; VoStarted true; VoStopped 0 false; VoStop; VoStopped 0 true; VoLeave] in
  let p := play es ready in let lost := failures (fun x => x) (u "csrf") es ready in
  length (open_mics p) = (if mounted p && isRecording p then 1 else 0) + length (stops p) + length lost /\
  (forall r, r ∈ lost -> r ∈ open_mics p) /\ NoDup (open_mics p) /\ elapsed p <= MAX_SECONDS.
Proof.
  exact (mic_follows_recording (fun x => x) (u "csrf") (Some []) (Some [u "voice"]) None (u "fr") true true true
    [VoStart; VoStarted true; VoTick; VoStop; VoStart; VoStarted true; VoStopped 0 false; VoStop; VoStopped 0 true; VoLeave] eq_refl).
Defined.
