(* ===== verification/Search.v ===== *)
(** * The search of a model (app/(app)/search/page.tsx)

    A search has a number; its answer is used only while it is the last one.  The
    requests awaited are in the state, the debounce is a timer. *)

From S2P Require Import Prelude JsString JsJson Api Url.
Local Open Scope flow_scope.

Record HfModel := mkHf { modelId : option jstr; pipeline_tag : option jstr; downloads : option Z; tags : option (list jstr); m_engine : option jstr; gated : bool }.
(** The query, the task and the filter of a search. *)
Record Params := mkParams { q_query : jstr; q_task : jstr; q_gb10 : bool }.
#[export] Instance Params_eq_dec : EqDecision Params.
Proof. solve_decision. Defined.
Record Request := mkRequest { r_seq : nat; r_params : Params; r_skip : nat }.
Record SearchData := mkData { d_results : list HfModel; d_has_more : bool; d_outside : option bool; d_token : option bool }.

Record SPage := mkSPage {
  query : jstr; task : jstr; gb10Only : bool; results : option (list HfModel); isLoading : bool;
  isLoadingMore : bool; error : option jstr; outsideGb10 : option bool; hfToken : option bool;
  hasMore : bool; seq_ : nat; firstSearch : bool; mounted : bool; timer : option (nat * Params);
  awaited : list Request; asked : list Request; opened : list jstr
}.

Definition set_query v p := mkSPage v (task p) (gb10Only p) (results p) (isLoading p) (isLoadingMore p) (error p) (outsideGb10 p) (hfToken p) (hasMore p) (seq_ p) (firstSearch p) (mounted p) (timer p) (awaited p) (asked p) (opened p).
Definition set_task v p := mkSPage (query p) v (gb10Only p) (results p) (isLoading p) (isLoadingMore p) (error p) (outsideGb10 p) (hfToken p) (hasMore p) (seq_ p) (firstSearch p) (mounted p) (timer p) (awaited p) (asked p) (opened p).
Definition set_gb10Only v p := mkSPage (query p) (task p) v (results p) (isLoading p) (isLoadingMore p) (error p) (outsideGb10 p) (hfToken p) (hasMore p) (seq_ p) (firstSearch p) (mounted p) (timer p) (awaited p) (asked p) (opened p).
Definition set_results v p := mkSPage (query p) (task p) (gb10Only p) v (isLoading p) (isLoadingMore p) (error p) (outsideGb10 p) (hfToken p) (hasMore p) (seq_ p) (firstSearch p) (mounted p) (timer p) (awaited p) (asked p) (opened p).
Definition set_isLoading v p := mkSPage (query p) (task p) (gb10Only p) (results p) v (isLoadingMore p) (error p) (outsideGb10 p) (hfToken p) (hasMore p) (seq_ p) (firstSearch p) (mounted p) (timer p) (awaited p) (asked p) (opened p).
Definition set_isLoadingMore v p := mkSPage (query p) (task p) (gb10Only p) (results p) (isLoading p) v (error p) (outsideGb10 p) (hfToken p) (hasMore p) (seq_ p) (firstSearch p) (mounted p) (timer p) (awaited p) (asked p) (opened p).
Definition set_error v p := mkSPage (query p) (task p) (gb10Only p) (results p) (isLoading p) (isLoadingMore p) v (outsideGb10 p) (hfToken p) (hasMore p) (seq_ p) (firstSearch p) (mounted p) (timer p) (awaited p) (asked p) (opened p).
Definition set_outsideGb10 v p := mkSPage (query p) (task p) (gb10Only p) (results p) (isLoading p) (isLoadingMore p) (error p) v (hfToken p) (hasMore p) (seq_ p) (firstSearch p) (mounted p) (timer p) (awaited p) (asked p) (opened p).
Definition set_hfToken v p := mkSPage (query p) (task p) (gb10Only p) (results p) (isLoading p) (isLoadingMore p) (error p) (outsideGb10 p) v (hasMore p) (seq_ p) (firstSearch p) (mounted p) (timer p) (awaited p) (asked p) (opened p).
Definition set_hasMore v p := mkSPage (query p) (task p) (gb10Only p) (results p) (isLoading p) (isLoadingMore p) (error p) (outsideGb10 p) (hfToken p) v (seq_ p) (firstSearch p) (mounted p) (timer p) (awaited p) (asked p) (opened p).
Definition set_seq_ v p := mkSPage (query p) (task p) (gb10Only p) (results p) (isLoading p) (isLoadingMore p) (error p) (outsideGb10 p) (hfToken p) (hasMore p) v (firstSearch p) (mounted p) (timer p) (awaited p) (asked p) (opened p).
Definition set_firstSearch v p := mkSPage (query p) (task p) (gb10Only p) (results p) (isLoading p) (isLoadingMore p) (error p) (outsideGb10 p) (hfToken p) (hasMore p) (seq_ p) v (mounted p) (timer p) (awaited p) (asked p) (opened p).
Definition set_mounted v p := mkSPage (query p) (task p) (gb10Only p) (results p) (isLoading p) (isLoadingMore p) (error p) (outsideGb10 p) (hfToken p) (hasMore p) (seq_ p) (firstSearch p) v (timer p) (awaited p) (asked p) (opened p).
Definition set_timer v p := mkSPage (query p) (task p) (gb10Only p) (results p) (isLoading p) (isLoadingMore p) (error p) (outsideGb10 p) (hfToken p) (hasMore p) (seq_ p) (firstSearch p) (mounted p) v (awaited p) (asked p) (opened p).
Definition set_awaited v p := mkSPage (query p) (task p) (gb10Only p) (results p) (isLoading p) (isLoadingMore p) (error p) (outsideGb10 p) (hfToken p) (hasMore p) (seq_ p) (firstSearch p) (mounted p) (timer p) v (asked p) (opened p).
Ltac search_fields :=
  cbn [query task gb10Only results isLoading isLoadingMore error outsideGb10 hfToken hasMore seq_ firstSearch mounted timer awaited asked opened set_query set_task set_gb10Only set_results set_isLoading set_isLoadingMore set_error set_outsideGb10 set_hfToken set_hasMore set_seq_ set_firstSearch set_mounted set_timer set_awaited] in *.

Definition inputs (p : SPage) : Params := mkParams (query p) (task p) (gb10Only p).
Definition url_of (r : Request) : jstr :=
  u "/api/search?" ++ search_params [(u "q", q_query (r_params r)); (u "task", q_task (r_params r)); (u "gb10", if q_gb10 (r_params r) then u "1" else []);
    (u "skip", string_of_nat (r_skip r))].

Section page.
Context (t : jstr -> jstr) (data_of : json -> SearchData) (browser_error : Err -> jstr).

(** The flag a search raises and drops. *)
Definition setBusy (skip : nat) (v : bool) (p : SPage) : SPage := if 0 <? skip then set_isLoadingMore v p else set_isLoading v p.
Definition runSearch (prm : Params) (skip : nat) (p : SPage) : SPage :=
  let r := mkRequest (S (seq_ p)) prm skip in
  let p := p |> set_seq_ (S (seq_ p)) |> setBusy skip true in
  mkSPage (query p) (task p) (gb10Only p) (results p) (isLoading p) (isLoadingMore p) (error p) (outsideGb10 p) (hfToken p) (hasMore p) (seq_ p)
    (firstSearch p) (mounted p) (timer p) (awaited p ++ [r]) (asked p ++ [r]) (opened p).
(** The message of an error: its code, its own text, or a sentence. *)
Definition error_text (e : Err) : jstr :=
  match e with
  | Failure _ (Some (JStr c)) =>
      if streq c (u "hf_unavailable") then t (u "Hugging Face ne répond pas. Réessaie dans un instant.")
      else match browser_error e with [] => t (u "Recherche impossible.") | m => m end
  | _ => match browser_error e with [] => t (u "Recherche impossible.") | m => m end
  end.
Definition land (r : Request) (d : SearchData) (p : SPage) : SPage :=
  p |> set_results (Some (if 0 <? r_skip r then default [] (results p) ++ d_results d else d_results d))
    |> set_hasMore (d_has_more d) |> set_outsideGb10 (d_outside d) |> set_hfToken (d_token d) |> set_error None.
(** The answer of the request [i]. *)
Definition answered (i : nat) (f : Fetched) (p : SPage) : SPage :=
  match awaited p !! i with
  | None => p
  | Some r =>
      let p := set_awaited (delete i (awaited p)) p in
      if r_seq r =? seq_ p then
        setBusy (r_skip r) false
          (match getJSON (url_of r) f with
           | inr v => land r (data_of v) p
           | inl e => p |> set_error (Some (error_text e)) |> set_outsideGb10 None
           end)
      else p
  end.
(** The effect of the inputs: the timer is set again. *)
Definition input_effect (p : SPage) : SPage :=
  p |> set_timer (Some (if firstSearch p then 0 else 400, inputs p)) |> set_firstSearch false.
Definition timed (p : SPage) : SPage :=
  match timer p with Some (_, prm) => p |> set_timer None |> runSearch prm 0 | None => p end.
Definition search_start : SPage :=
  input_effect (mkSPage [] [] false None false false None None None false 0 true true None [] [] []).

(** ** What is shown *)

Definition TASKS : list (jstr * jstr) :=
  [(u "text-generation", u "Génération de texte"); (u "text2text-generation", u "Texte vers texte"); (u "conversational", u "Conversation");
   (u "feature-extraction", u "Plongements (embeddings)"); (u "text-to-image", u "Texte vers image"); (u "text-to-video", u "Texte vers vidéo");
   (u "image-to-text", u "Image vers texte")].
(** The page without a result: its title, its explanation, and whether it links to
    Hugging Face. *)
Record Empty := mkEmpty { e_title : jstr; e_description : option jstr; e_link : bool }.
Definition filled_error (p : SPage) : bool := match error p with Some (_ :: _) => true | _ => false end.
Definition empty_view (p : SPage) : Empty :=
  mkEmpty
    (if filled_error p then t (u "Résultats indisponibles.")
     else match query p with
          | [] => t (u "Tape un nom de modèle pour explorer Hugging Face.")
          | q => t (u "Aucun résultat pour") ++ u " « " ++ q ++ u " »."
          end)
    (match outsideGb10 p with
     | Some true => Some (t (u "Aucun modèle GB10 ne correspond, mais il y en a sur tout Hugging Face : décoche le filtre ci-dessus."))
     | Some false => Some (t (u "Hugging Face ne connaît aucun modèle pour cette recherche."))
     | None => match query p with [] => None | _ => Some (t (u "La recherche porte sur le nom du dépôt, pas sur sa description : vérifie l'orthographe.")) end
     end)
    (match query p with [] => false | _ => true end).
Inductive View := Nothing (e : Empty) | Models (l : list HfModel).
Definition view (p : SPage) : View :=
  match results p with
  | None => Nothing (empty_view p)
  | Some [] => if isLoading p then Models [] else Nothing (empty_view p)
  | Some l => Models l
  end.
(** The badges of a model and its tags. *)
Definition badges (m : HfModel) : list jstr :=
  [match pipeline_tag m with Some ((_ :: _) as s) => s | _ => u "—" end;
   match m_engine m with Some e => if streq e (u "llamacpp") then u "llama.cpp" else u "vLLM" | None => u "vLLM" end]
  ++ (if existsb (streq (u "gb10")) (default [] (tags m)) then [u "GB10"] else [])
  ++ (if gated m then [t (u "Accès restreint")] else []).
Definition shown_tags (m : HfModel) : list jstr := take 4 (default [] (tags m)).
(** The link to the page that asks for the model; an identifier the browser cannot
    encode throws. *)
Definition request_link (m : HfModel) : option jstr :=
  (fun e => u "/request?model=" ++ e) <$> encodeURIComponent (match modelId m with Some s => s | None => [] end).
Definition open_url (s : jstr) (p : SPage) : SPage :=
  mkSPage (query p) (task p) (gb10Only p) (results p) (isLoading p) (isLoadingMore p) (error p) (outsideGb10 p) (hfToken p) (hasMore p) (seq_ p)
    (firstSearch p) (mounted p) (timer p) (awaited p) (asked p) (opened p ++ [s]).
Definition openHuggingFace (p : SPage) : SPage :=
  match encodeURIComponent (query p) with
  | Some e => open_url (u "https://huggingface.co/models?search=" ++ e) p
  | None => p
  end.

(** ** The page as a transition system *)

Inductive SEvent :=
| SeQuery (s : jstr) | SeTask (v : option jstr) | SeGb10 (b : bool) | SeLang | SeTimer | SeClick | SeRetry | SeMore | SeHuggingFace | SeOpen (m : HfModel)
| SeAnswer (i : nat) (f : Fetched) | SeLeave.
Definition clicked (b : bool) (f : SPage -> SPage) (p : SPage) : SPage := if mounted p && b then f p else p.
(** An input is changed: the effect runs when its value is another. *)
Definition changed (f : SPage -> SPage) (p : SPage) : SPage :=
  let q := f p in if bool_decide (inputs q = inputs p) then q else input_effect q.
Definition search_handle (e : SEvent) (p : SPage) : SPage :=
  match e with
  | SeQuery s => clicked true (changed (set_query s)) p
  | SeTask v => clicked true (changed (set_task (default [] v))) p
  | SeGb10 b => clicked true (changed (set_gb10Only b)) p
  | SeLang => clicked true input_effect p
  | SeTimer => clicked true timed p
  | SeClick => clicked true (fun p => runSearch (inputs p) 0 p) p
  | SeRetry => clicked (filled_error p) (fun p => runSearch (inputs p) 0 p) p
  | SeMore => clicked (hasMore p) (fun p => runSearch (inputs p) (length (default [] (results p))) p) p
  | SeHuggingFace => clicked (match view p with Nothing e => e_link e | _ => false end) openHuggingFace p
  | SeOpen m => clicked true (open_url (u "https://huggingface.co/" ++ default (u "undefined") (modelId m))) p
  | SeAnswer i f => answered i f p
  | SeLeave => clicked true (fun p => p |> set_timer None |> set_mounted false) p
  end.
Definition search_run (es : list SEvent) (p : SPage) : SPage := foldl (fun p e => search_handle e p) p es.
End page.

(** ** What is shown is a part of what the server has *)

Section spec.
Context (t : jstr -> jstr) (data_of : json -> SearchData) (browser_error : Err -> jstr) (serve : Params -> list HfModel).
#[local] Abbreviation handle := (search_handle t data_of browser_error) (only parsing).
#[local] Abbreviation run := (search_run t data_of browser_error) (only parsing).

(** The first models of a search, and whether there are more. *)
Definition prefix_of (prm : Params) (l : list HfModel) : Prop := l = take (length l) (serve prm).
Definition more_of (prm : Params) (l : list HfModel) : bool := length l <? length (serve prm).
(** A page of the models the server has for a request. *)
Definition page_of (r : Request) (d : SearchData) : Prop :=
  d_results d = take (length (d_results d)) (drop (r_skip r) (serve (r_params r))) /\
  d_has_more d = (r_skip r + length (d_results d) <? length (serve (r_params r))).
(** The search whose results are on screen, after an event. *)
Definition now_shown (e : SEvent) (p : SPage) (shown : option Params) : option Params :=
  match e with
  | SeAnswer i f =>
      match awaited p !! i with
      | Some r => if r_seq r =? seq_ p then match getJSON (url_of r) f with inr _ => Some (r_params r) | inl _ => shown end else shown
      | None => shown
      end
  | _ => shown
  end.
(** The server answers with pages of what it has; more is asked only for the
    search that is on screen. *)
Definition fair (e : SEvent) (p : SPage) (shown : option Params) : Prop :=
  match e with
  | SeAnswer i f => forall r v, awaited p !! i = Some r -> getJSON (url_of r) f = inr v -> page_of r (data_of v)
  | SeMore => shown = Some (inputs p)
  | _ => True
  end.
Fixpoint fair_run (es : list SEvent) (p : SPage) (shown : option Params) : Prop :=
  match es with [] => True | e :: es => fair e p shown /\ fair_run es (handle e p) (now_shown e p shown) end.

Record search_ok (p : SPage) (shown : option Params) : Prop := mkOk {
  so_seq : seq_ p = length (asked p);
  so_old : forall r, r ∈ awaited p -> r_seq r <= seq_ p;
  so_last : forall r, r ∈ awaited p -> r_seq r = seq_ p -> last (asked p) = Some r;
  so_newest : forall r, last (asked p) = Some r -> r_seq r = seq_ p;
  so_once : NoDup (awaited p);
  so_shown : match shown with
             | None => results p = None
             | Some prm => exists l, results p = Some l /\ prefix_of prm l /\ hasMore p = more_of prm l
             end;
  so_more : forall r, r ∈ awaited p -> r_seq r = seq_ p -> 0 < r_skip r -> shown = Some (r_params r) /\ r_skip r = length (default [] (results p));
  so_timer : mounted p = true -> match timer p with Some (_, prm) => prm = inputs p | None => exists r, last (asked p) = Some r /\ r_params r = inputs p end;
  so_end : forall r, last (asked p) = Some r -> r ∈ awaited p \/ error p <> None \/ shown = Some (r_params r)
}.
(** What the invariant reads besides the inputs and the timer. *)
Definition same_search (p q : SPage) : Prop :=
  (seq_ q, asked q, awaited q, results q, hasMore q, error q) = (seq_ p, asked p, awaited p, results p, hasMore p, error p).
Lemma same_search_ok p q shown : same_search p q -> search_ok p shown ->
  (mounted q = true -> match timer q with Some (_, prm) => prm = inputs q | None => exists r, last (asked q) = Some r /\ r_params r = inputs q end) -> search_ok q shown.
Proof. intros [= E1 E2 E3 E4 E5 E6] [A B C N O D E F G] T. split; rewrite ?E1, ?E2, ?E3, ?E4, ?E5, ?E6; try done. by rewrite E2 in T. Qed.

Lemma input_effect_ok p shown : search_ok p shown -> search_ok (input_effect p) shown.
Proof. intros H. by apply (same_search_ok p). Qed.
Lemma changed_ok f p shown : same_search p (f p) -> timer (f p) = timer p -> mounted (f p) = mounted p -> search_ok p shown -> search_ok (changed f p) shown.
Proof.
  intros S T M H. unfold changed. cbv zeta. case_bool_decide as I.
  - apply (same_search_ok p); [done|done|]. rewrite M, T, I. simplify_eq S. intros. replace (asked (f p)) with (asked p) by congruence. by apply (so_timer p shown).
  - apply (same_search_ok p); [exact S|exact H|done].
Qed.
(** A search is asked. *)
Lemma runSearch_ok skip p shown : (0 < skip -> shown = Some (inputs p) /\ skip = length (default [] (results p))) ->
  (mounted p = true -> match timer p with Some (_, prm) => prm = inputs p | None => True end) ->
  search_ok p shown -> search_ok (runSearch (inputs p) skip p) shown.
Proof.
  intros K T [A B C N O D E F G].
  assert (X : forall r, r ∈ awaited p ++ [mkRequest (S (seq_ p)) (inputs p) skip] -> r_seq r = S (seq_ p) -> r = mkRequest (S (seq_ p)) (inputs p) skip).
  { intros r. rewrite elem_of_app, list_elem_of_singleton. intros [R| ->] Q; [|done]. apply B in R. lia. }
  unfold runSearch, setBusy. destruct (0 <? skip); search_fields; split; search_fields; rewrite ?last_snoc; try done.
  all: try (by rewrite length_app, A, Nat.add_1_r).
  all: try (by intros r; rewrite elem_of_app, list_elem_of_singleton; intros [R| ->]; [apply B in R; lia|]).
  all: try (by intros r R Q; rewrite (X r R Q)).
  all: try (by intros r [= <-]).
  all: try (by apply NoDup_app; split; [done|]; split; [|apply NoDup_singleton]; intros r R; rewrite list_elem_of_singleton; intros ->; apply B in R; cbn [r_seq] in R; lia).
  all: try (by intros r R Q L; rewrite (X r R Q) in *; by apply K).
  all: try (by intros M; specialize (T M); destruct (timer p) as [[d prm]|]; [done|eexists; split; [done|done]]).
  all: intros r [= <-]; left; rewrite elem_of_app, list_elem_of_singleton; by right.
Qed.

Lemma deleted_other {A} (l : list A) i x y : NoDup l -> l !! i = Some x -> y ∈ delete i l -> y ∈ l /\ y <> x.
Proof. intros N L%delete_Permutation Y. rewrite L in N. apply NoDup_cons in N as [N _]. split; [|by intros ->]. rewrite L. set_solver. Qed.
Lemma deleted_kept {A} (l : list A) i x y : l !! i = Some x -> y ∈ l -> y <> x -> y ∈ delete i l.
Proof. intros L%delete_Permutation Y N. rewrite L in Y. set_solver. Qed.
(** The answer of the last search, used or in error. *)
Lemma ended_ok i r p q shown shown' : search_ok p shown -> awaited p !! i = Some r -> r_seq r = seq_ p ->
  (seq_ q, asked q, awaited q, timer q, mounted q) = (seq_ p, asked p, delete i (awaited p), timer p, mounted p) -> inputs q = inputs p ->
  match shown' with None => results q = None | Some prm => exists l, results q = Some l /\ prefix_of prm l /\ hasMore q = more_of prm l end ->
  error q <> None \/ shown' = Some (r_params r) -> search_ok q shown'.
Proof.
  intros [A B C N O D E F G] L Q X E6 S' Z. injection X as E1 E2 E3 E4 E5. assert (R : r ∈ awaited p) by (by eapply list_elem_of_lookup_2).
  split; rewrite ?E1, ?E2, ?E3, ?E4, ?E5, ?E6; try done.
  - intros r' R'. by apply B, (deleted_other _ _ _ _ O L).
  - intros r' R'. by apply C, (deleted_other _ _ _ _ O L).
  - rewrite delete_Permutation in O by exact L. by apply NoDup_cons in O as [_ O].
  - intros r' R' Q'. apply (deleted_other _ _ _ _ O L) in R' as [R' K]. assert (Hl := C r' R' Q'). rewrite (C r R Q) in Hl. congruence.
  - intros r' Hl. rewrite (C r R Q) in Hl. injection Hl as <-. by right.
Qed.
Lemma landed_ok i r v p shown : search_ok p shown -> awaited p !! i = Some r -> r_seq r = seq_ p -> page_of r (data_of v) ->
  search_ok (setBusy (r_skip r) false (land r (data_of v) (set_awaited (delete i (awaited p)) p))) (Some (r_params r)).
Proof.
  intros H L Q [P1 P2]. assert (R : r ∈ awaited p) by (by eapply list_elem_of_lookup_2). apply (ended_ok i r p _ shown); try done; [by unfold setBusy; case_match|by unfold setBusy; case_match|  |by right].
  assert (M := so_more p shown H r R Q). assert (D := so_shown p shown H). unfold setBusy, land, prefix_of, more_of. destruct (Nat.ltb_spec 0 (r_skip r)) as [K|K]; search_fields; eexists; (split; [reflexivity|]); rewrite P2.
  - destruct (M K) as [M1 M2]. rewrite M1 in D. destruct D as (l & D1 & D2 & _). rewrite D1 in M2 |- *. cbn [default from_option id] in *. rewrite length_app, <- M2. split; [|done].
    rewrite <- take_take_drop, <- P1. f_equal. rewrite M2. exact D2.
  - assert (r_skip r = 0) as Z by lia. rewrite Z in P1 |- *. by split.
Qed.
Lemma answered_ok i f p shown : fair (SeAnswer i f) p shown -> search_ok p shown -> search_ok (answered t data_of browser_error i f p) (now_shown (SeAnswer i f) p shown).
Proof.
  intros K H. cbn [fair now_shown] in *. unfold answered. destruct (awaited p !! i) as [r|] eqn:L; [|done]. cbv zeta. search_fields.
  assert (R : r ∈ awaited p) by (by eapply list_elem_of_lookup_2). destruct (Nat.eqb_spec (r_seq r) (seq_ p)) as [Q|Q].
  - destruct (getJSON (url_of r) f) as [e|v] eqn:Ef; [|by apply (landed_ok i r v p shown); [| | |eapply K]].
    apply (ended_ok i r p _ shown); try done; [by unfold setBusy; case_match|by unfold setBusy; case_match| |by left; unfold setBusy; case_match].
    assert (D := so_shown p shown H). unfold setBusy. by destruct (0 <? r_skip r).
  - destruct H as [A B C N O D E F G]. split; search_fields; try done.
    + intros r' R'. by apply B, (deleted_other _ _ _ _ O L).
    + intros r' R'. by apply C, (deleted_other _ _ _ _ O L).
    + rewrite delete_Permutation in O by exact L. by apply NoDup_cons in O as [_ O].
    + intros r' R'. by apply E, (deleted_other _ _ _ _ O L).
    + intros r' Hl. destruct (G r' Hl) as [G'|G']; [|by right]. left. apply (deleted_kept _ _ r); [done|done|]. intros ->. by apply Q, N.
Qed.
Lemma search_clicked b f p shown : (mounted p = true -> b = true -> search_ok p shown -> search_ok (f p) shown) -> search_ok p shown -> search_ok (clicked b f p) shown.
Proof. intros F H. unfold clicked. destruct (mounted p) eqn:M; [|done]. destruct b; [by apply F|done]. Qed.
Lemma timer_inputs p shown : search_ok p shown -> mounted p = true -> match timer p with Some (_, prm) => prm = inputs p | None => True end.
Proof. intros H M. assert (T := so_timer p shown H M). by destruct (timer p). Qed.
Lemma search_step e p shown : fair e p shown -> search_ok p shown -> search_ok (handle e p) (now_shown e p shown).
Proof.
  intros K H. destruct e; try exact (answered_ok _ _ _ _ K H); cbn [search_handle now_shown fair] in *; apply search_clicked; try exact H; intros M B H'.
  - by apply changed_ok.
  - by apply changed_ok.
  - by apply changed_ok.
  - by apply input_effect_ok.
  - unfold timed. assert (T := timer_inputs p shown H M). destruct (timer p) as [[d prm]|] eqn:Et; [|done]. subst prm.
    change (search_ok (set_timer None (runSearch (inputs p) 0 p)) shown). apply (same_search_ok (runSearch (inputs p) 0 p)); [done| |].
    + apply runSearch_ok; [lia|intros _; by rewrite Et|done].
    + intros _. eexists. split; [by apply last_snoc|done].
  - apply runSearch_ok; [lia|by apply (timer_inputs p shown)|done].
  - apply runSearch_ok; [lia|by apply (timer_inputs p shown)|done].
  - apply runSearch_ok; [done|by apply (timer_inputs p shown)|done].
  - unfold openHuggingFace. destruct (encodeURIComponent _); [|done]. apply (same_search_ok p); [done|done|]. exact (so_timer p shown H).
  - apply (same_search_ok p); [done|done|]. exact (so_timer p shown H).
  - by apply (same_search_ok p).
Qed.
Lemma search_run_ok es p shown : fair_run es p shown -> search_ok p shown -> exists shown', search_ok (run es p) shown'.
Proof.
  revert p shown. induction es as [|e es IH]; intros p shown K H; [by exists shown|]. destruct K as [K1 K2]. apply (IH _ _ K2). by apply search_step.
Qed.
Lemma search_start_ok : search_ok search_start None.
Proof. split; cbn; try done; try (intros r H; by apply elem_of_nil in H); constructor. Qed.
(** C15: Let the server answer each search with a page, from where it was asked, of the
    models it has, and let more be asked only while the models on screen are those
    of the inputs as they stand. Then, whatever the order of the answers, once
    nothing is awaited, no timer runs and the last search did not fail, the page
    shows the first models of what its inputs ask for, none missing and none
    twice, and offers more exactly when there are. (Asked in between, more writes
    the models of one search after those of another: [more_mixes_names].) *)
Theorem search_settles es : fair_run es search_start None -> let p := run es search_start in
  mounted p = true -> timer p = None -> awaited p = [] -> error p = None ->
  exists l, results p = Some l /\ l = take (length l) (serve (inputs p)) /\ hasMore p = (length l <? length (serve (inputs p))).
Proof.
  intros K p M T W E. destruct (search_run_ok es _ _ K search_start_ok) as [shown H]. fold p in H.
  assert (X := so_timer p shown H M). rewrite T in X. destruct X as (r & L & <-).
  destruct (so_end p shown H r L) as [R|[N|S]]; [by rewrite W in R; apply elem_of_nil in R|done|].
  assert (D := so_shown p shown H). by rewrite S in D.
Qed.
(** The answer of a search that is not the last changes nothing on screen. *)
Lemma stale_dropped i f p r : awaited p !! i = Some r -> r_seq r <> seq_ p -> handle (SeAnswer i f) p = set_awaited (delete i (awaited p)) p.
Proof. intros L N. cbn [search_handle]. unfold answered. rewrite L. cbv zeta. search_fields. by apply Nat.eqb_neq in N as ->. Qed.
End spec.

(** ** Examples and what the page does not do *)

Definition hf (s : jstr) : HfModel := mkHf (Some s) None None None None false.
(** A server that has three models for every search, and gives two at a time. *)
Definition shelf (prm : Params) : list HfModel := map hf [q_query prm ++ u "1"; q_query prm ++ u "2"; q_query prm ++ u "3"].
Definition page_size : nat := 2.
Definition data_for (q : jstr) (skip : nat) : SearchData :=
  let l := take page_size (drop skip (shelf (mkParams q [] false))) in mkData l (skip + length l <? 3) None None.
(** Its answer is the query and the first model of the page. *)
Definition served (q : jstr) (skip : nat) : Fetched := Got (mkResponse 200 None (Some (JArr [JStr q; JNum (Z.of_nat skip) 0]))).
Definition shelf_data (v : json) : SearchData := match v with JArr [JStr q; JNum s _] => data_for q (Z.to_nat s) | _ => data_for [] 0 end.
Definition play (es : list SEvent) : SPage := search_run (fun s => s) shelf_data (fun _ => []) es search_start.
Definition names (p : SPage) : list jstr := map (fun m => default [] (modelId m)) (default [] (results p)).

(** More asked while a search of another name is awaited: the search is dropped,
    and the second page of the new name is written after the models of the old. *)
Lemma more_mixes_names :
  let p := play [SeTimer; SeAnswer 0 (served [] 0); SeQuery (u "Qwen"); SeTimer; SeMore; SeAnswer 0 (served (u "Qwen") 0); SeAnswer 0 (served (u "Qwen") 2)] in
  awaited p = [] /\ timer p = None /\ error p = None /\ names p = [u "1"; u "2"; u "Qwen3"].
Proof. vm_compute. repeat split; reflexivity. Qed.
(** More asked before the timer of a new name does so too, until the timer. *)
Lemma more_before_timer :
  names (play [SeTimer; SeAnswer 0 (served [] 0); SeQuery (u "Qwen"); SeMore; SeAnswer 0 (served (u "Qwen") 2)]) = [u "1"; u "2"; u "Qwen3"].
Proof. vm_compute. reflexivity. Qed.
(** After a failed search the models of the last name stay, and so does the button
    that asks for more: it writes the second page of the new name after them. *)
Lemma more_after_failure :
  let p := play [SeTimer; SeAnswer 0 (served [] 0); SeQuery (u "Qwen"); SeTimer; SeAnswer 0 Rejected; SeMore; SeAnswer 0 (served (u "Qwen") 2)] in
  error p = None /\ names p = [u "1"; u "2"; u "Qwen3"].
Proof. vm_compute. split; reflexivity. Qed.
(** A search made while more is awaited leaves the button turning: nothing is
    awaited any more. *)
Lemma more_turns_forever :
  let p := play [SeTimer; SeAnswer 0 (served [] 0); SeMore; SeQuery (u "Qwen"); SeTimer; SeAnswer 0 (served [] 2); SeAnswer 0 (served (u "Qwen") 0)] in
  awaited p = [] /\ names p = [u "Qwen1"; u "Qwen2"] /\ hasMore p = true /\ isLoadingMore p = true.
Proof. vm_compute. repeat split; reflexivity. Qed.
Example typing_asks_once :
  map (fun r => q_query (r_params r)) (asked (play [SeTimer; SeQuery (u "Q"); SeQuery (u "Qw"); SeQuery (u "Qwen"); SeTimer])) = [[]; u "Qwen"].
Proof. vm_compute. reflexivity. Qed.
Example late_page_dropped : names (play [SeTimer; SeQuery (u "Qwen"); SeTimer; SeAnswer 1 (served (u "Qwen") 0); SeAnswer 0 (served [] 0)]) = [u "Qwen1"; u "Qwen2"].
Proof. vm_compute. reflexivity. Qed.
Example search_url : url_of (mkRequest 1 (mkParams (u "a b") [] true) 0) = u "/api/search?q=a+b&task=&gb10=1&skip=0".
Proof. vm_compute. reflexivity. Qed.

Theorem search_settles_witness :
  let p := play [SeTimer; SeQuery (u "Qwen"); SeTimer; SeAnswer 1 (served (u "Qwen") 0); SeAnswer 0 (served [] 0); SeMore; SeAnswer 0 (served (u "Qwen") 2)] in
  exists l, results p = Some l /\ l = take (length l) (shelf (inputs p)) /\ hasMore p = (length l <? length (shelf (inputs p))).
Proof.
  refine (search_settles (fun s => s) shelf_data (fun _ => []) shelf
    [SeTimer; SeQuery (u "Qwen"); SeTimer; SeAnswer 1 (served (u "Qwen") 0); SeAnswer 0 (served [] 0); SeMore; SeAnswer 0 (served (u "Qwen") 2)] _ _ _ _ _); try reflexivity.
  cbn [fair_run fair]. repeat apply conj; try exact I; try reflexivity; intros r v H1 H2; vm_compute in H1, H2; injection H1 as <-; injection H2 as <-; vm_compute; split; reflexivity.
Defined.
