(* ===== verification/Request.v ===== *)
(** * Asking for a model (app/(app)/request/page.tsx, _components/ModelRequestButton.tsx)

    The form, that a link of the search page may fill (see Search.v), and the
    button of the pages whose model is not loaded, with its wait. *)

From S2P Require Import Prelude JsString JsJson Utf8 Url I18n Search.
Local Open Scope flow_scope.

Inductive REffect := Asked (model reason : jstr) | Toast (body : jstr) (error : bool) | Pushed (path : jstr) | Called (category : jstr).

(** ** The form *)

Record RForm := mkRForm {
  modelId : jstr; reason : jstr; isSubmitting : bool; posts : nat; asked : list REffect
}.

Definition set_modelId v p := mkRForm v (reason p) (isSubmitting p) (posts p) (asked p).
Definition set_reason v p := mkRForm (modelId p) v (isSubmitting p) (posts p) (asked p).
Definition set_isSubmitting v p := mkRForm (modelId p) (reason p) v (posts p) (asked p).
Definition set_posts v p := mkRForm (modelId p) (reason p) (isSubmitting p) v (asked p).
Definition emit (e : REffect) p := mkRForm (modelId p) (reason p) (isSubmitting p) (posts p) (asked p ++ [e]).
Ltac form_fields := cbn [modelId reason isSubmitting posts asked set_modelId set_reason set_isSubmitting set_posts emit] in *.

(** What the server answers. *)
Record RAnswer := mkAnswer { a_ok : bool; a_code : option jstr; a_error : option jstr; a_warning : option jstr }.

Section form.
Context (t : jstr -> jstr) (csrf : jstr).

(** [query]: the address of the page after its question mark. *)
Definition form_start (query : jstr) : RForm := mkRForm (default [] (search_get query (u "model"))) [] false 0 [].
Definition submit (p : RForm) : RForm :=
  if streq (trim (modelId p)) [] || streq csrf [] then p
  else p |> set_isSubmitting true |> set_posts (S (posts p)) |> emit (Asked (trim (modelId p)) (reason p)).
Definition refusalMessage (r : RAnswer) : jstr :=
  let other := match a_error r with Some ((_ :: _) as e) => tServer e t | _ => t (u "Erreur lors de l'envoi de la demande.") end in
  match a_code r with
  | Some c => if streq c (u "already_pending") then t (u "Tu as déjà une demande en attente pour ce modèle.")
              else if streq c (u "identifier_required") then t (u "L'identifiant du modèle est requis.") else other
  | None => other
  end.
Definition submitted (r : option RAnswer) (p : RForm) : RForm :=
  match posts p with
  | O => p
  | S n =>
      set_isSubmitting false
        (let p := set_posts n p in
         match r with
         | None => emit (Toast (t (u "Erreur lors de l'envoi de la demande.")) true) p
         | Some r =>
             if a_ok r then
               let p := emit (Toast (t (u "Demande envoyée !")) false) p in
               let p := match a_warning r with Some ((_ :: _) as w) => emit (Toast (tServer w t) true) p | _ => p end in
               emit (Pushed (u "/")) p
             else emit (Toast (refusalMessage r) true) p
         end)
  end.

Inductive FEvent := FModel (s : jstr) | FReason (s : jstr) | FSubmit | FAnswer (r : option RAnswer) | FCancel.
Definition form_handle (e : FEvent) (p : RForm) : RForm :=
  match e with
  | FModel s => set_modelId s p
  | FReason s => set_reason s p
  | FSubmit => if streq (trim (modelId p)) [] || isSubmitting p then p else submit p
  | FAnswer r => submitted r p
  | FCancel => emit (Pushed (u "/")) p
  end.
Definition form_run (es : list FEvent) (p : RForm) : RForm := foldl (fun p e => form_handle e p) p es.
End form.

(** ** The button *)

Record RButton := mkRButton {
  sent : bool; cooldownUntil : option Z; now : Z; waiting : nat; calls : list REffect
}.

Definition set_sent v b := mkRButton v (cooldownUntil b) (now b) (waiting b) (calls b).
Definition set_cooldownUntil v b := mkRButton (sent b) v (now b) (waiting b) (calls b).
Definition set_now v b := mkRButton (sent b) (cooldownUntil b) v (waiting b) (calls b).
Definition set_waiting v b := mkRButton (sent b) (cooldownUntil b) (now b) v (calls b).
Definition call (e : REffect) b := mkRButton (sent b) (cooldownUntil b) (now b) (waiting b) (calls b ++ [e]).
Ltac button_fields := cbn [sent cooldownUntil now waiting calls set_sent set_cooldownUntil set_now set_waiting call] in *.

Record BAnswer := mkBAnswer { b_ok : bool; b_email : bool; b_retry : option Z; b_message : option jstr }.

Section button.
Context (t : jstr -> jstr) (category : jstr).

Definition button_start (time : Z) : RButton := mkRButton false None time 0 [].
Definition locked (b : RButton) : bool := sent b || match cooldownUntil b with Some c => (now b <? c)%Z | None => false end.
(** The minutes of [ms], rounded up, one at least. *)
Definition minutes (ms : Z) : Z := Z.max 1 (- (- ms / 60000)).
Definition button_label (b : RButton) : jstr :=
  if sent b then t (u "Demande envoyée")
  else if locked b then t (u "Réessaie dans") ++ u " " ++ string_of_Z (match cooldownUntil b with Some c => minutes (c - now b) | None => 0 end) ++ u " " ++ t (u "min")
  else t (u "Demander ce modèle").
(** A second has passed, at the time [n]. *)
Definition button_tick (n : Z) (b : RButton) : RButton :=
  match cooldownUntil b with
  | None => b
  | Some c => let b := set_now n b in if (c <=? n)%Z then set_cooldownUntil None b else b
  end.
Definition request (b : RButton) : RButton := b |> set_waiting (S (waiting b)) |> call (Called category).
(** The answer comes at the time [n]. *)
Definition requested (r : option BAnswer) (n : Z) (b : RButton) : RButton :=
  match waiting b with
  | O => b
  | S k =>
      let b := set_waiting k b in
      match r with
      | None => call (Toast (t (u "La demande a échoué.")) true) b
      | Some r =>
          if b_ok r then
            b |> set_sent true
              |> call (Toast (if b_email r then t (u "Demande envoyée au responsable.") else t (u "Demande enregistrée mais l'email à l'admin n'a pas pu partir.")) false)
          else match b_retry r with
               | Some s => b |> set_cooldownUntil (Some (n + s * 1000)%Z) |> call (Toast (t (u "Déjà signalé — la demande se débloquera automatiquement.")) false)
               | None => call (Toast (t (match b_message r with Some ((_ :: _) as m) => m | _ => u "La demande a échoué." end)) true) b
               end
      end
  end.

Inductive BEvent := BClick | BAnswered (r : option BAnswer) (n : Z) | BTick (n : Z).
Definition button_handle (e : BEvent) (b : RButton) : RButton :=
  match e with
  | BClick => if locked b then b else request b
  | BAnswered r n => requested r n b
  | BTick n => button_tick n b
  end.
Definition button_run (es : list BEvent) (b : RButton) : RButton := foldl (fun b e => button_handle e b) b es.
End button.

(** ** Properties *)

Section spec.
Context (t : jstr -> jstr) (csrf category : jstr).

(** The form opened by the link of a model of the search asks for that model. *)
Theorem link_asks_model m e s : Search.modelId m = Some s -> units s -> trim s = s -> s <> [] -> csrf <> [] ->
  request_link m = Some (u "/request?" ++ e) -> asked (form_run t csrf [FSubmit] (form_start e)) = [Asked s []].
Proof.
  intros I U T N C L. unfold request_link in L. rewrite I in L. destruct (encodeURIComponent s) as [x|] eqn:E; [|done].
  assert (e = u "model=" ++ x) as -> by (apply (app_inv_head (u "/request?")); by injection L as <-).
  unfold form_start. rewrite (query_read_back s x U E). cbn [form_run foldl form_handle]. unfold submit. form_fields. change (default [] (Some s)) with s. rewrite T.
  destruct (streq_spec s []) as [|_]; [done|]. cbn [orb]. destruct (streq_spec csrf []) as [|_]; [done|]. done.
Qed.

(** A request at a time, and the page is left only by the user or on success. *)
Definition form_ok (p : RForm) : Prop := posts p = if isSubmitting p then 1 else 0.
Lemma form_step e p : form_ok p -> form_ok (form_handle t csrf e p).
Proof.
  unfold form_ok. intros H. destruct e; cbn [form_handle]; try exact H.
  - destruct (isSubmitting p) eqn:S; [by rewrite orb_true_r, S|]. destruct (streq (trim (modelId p)) []) eqn:E; cbn [orb]; [by rewrite S|].
    unfold submit. rewrite E. cbn [orb]. destruct (streq csrf []); [by rewrite S|]. form_fields. by rewrite H.
  - unfold submitted. destruct (posts p) as [|n] eqn:P; [by rewrite P|]. cbv zeta. assert (n = 0) as -> by (destruct (isSubmitting p); lia). form_fields. repeat case_match; reflexivity.
Qed.
Theorem form_one_request query es : posts (form_run t csrf es (form_start query)) <= 1.
Proof.
  assert (H : form_ok (form_run t csrf es (form_start query))).
  { assert (H : form_ok (form_start query)) by done. revert H. generalize (form_start query). induction es as [|e es IH]; intros p H; [done|]. by apply IH, form_step. }
  rewrite H. destruct (isSubmitting _); lia.
Qed.
(** A refused or a lost request says so and stays on the page with its text. *)
Lemma refused_stays r p n : posts p = S n -> match r with Some a => a_ok a = false | None => True end ->
  exists m, form_handle t csrf (FAnswer r) p = mkRForm (modelId p) (reason p) false n (asked p ++ [Toast m true]).
Proof. intros P H. cbn [form_handle]. unfold submitted. rewrite P. destruct r as [a|]; [rewrite H|]; by eexists. Qed.

(** After a refusal that gives a wait, the button stays locked exactly until the
    first second past it, and asks nothing meanwhile. *)
Definition is_tick (e : BEvent) : bool := match e with BAnswered _ _ => false | _ => true end.
Definition past (c : Z) (e : BEvent) : bool := match e with BTick n => (c <=? n)%Z | _ => false end.
Lemma cooling_run c es : forall b, cooldownUntil b = Some c -> (now b <? c)%Z = true -> forallb is_tick es = true -> existsb (past c) es = false ->
  let q := button_run t category es b in cooldownUntil q = Some c /\ (now q <? c)%Z = true /\ calls q = calls b /\ sent q = sent b /\ waiting q = waiting b.
Proof.
  induction es as [|e es IH]; intros b C N T P; [done|]. cbn [forallb existsb] in T, P. bool_norm. cbn [button_run foldl].
  destruct e; cbn [is_tick past] in *; try done.
  - cbn [button_handle]. unfold locked. rewrite C, (proj2 (Z.ltb_lt _ _) N), orb_true_r. apply IH; try done. by apply Z.ltb_lt.
  - cbn [button_handle]. unfold button_tick. rewrite C. cbv zeta. match goal with K : (c <=? n)%Z = false |- _ => rename K into H1; rewrite H1; apply Z.leb_gt in H1 end.
    apply Z.ltb_lt in H1. destruct (IH (set_now n b)) as (A1 & A2 & A3 & A4 & A5); done.
Qed.
Theorem cooldown_exact b k r s n es : waiting b = S k -> sent b = false -> b_ok r = false -> b_retry r = Some s -> (0 < s)%Z -> (now b <= n)%Z -> forallb is_tick es = true ->
  let q := button_run t category es (button_handle t category (BAnswered (Some r) n) b) in
  existsb (past (n + s * 1000)) es = false -> locked q = true /\ calls q = calls b ++ [Toast (t (u "Déjà signalé — la demande se débloquera automatiquement.")) false] /\
    forall m, (n + s * 1000 <= m)%Z -> locked (button_handle t category (BTick m) q) = false.
Proof.
  intros W S O R L N T q P. subst q. cbn [button_handle]. unfold requested. rewrite W, O, R. cbv zeta.
  match goal with |- context [button_run _ _ _ ?b'] => destruct (cooling_run (n + s * 1000) es b') as (A1 & A2 & A3 & A4 & _) end; try done; button_fields; [apply Z.ltb_lt; lia|].
  split; [unfold locked; by rewrite A1, A2, orb_true_r|]. split; [done|]. intros m M. unfold button_tick. rewrite A1. cbv zeta. apply Z.leb_le in M. rewrite M. unfold locked. button_fields. by rewrite A4, S.
Qed.
(** A request taken locks the button for good. *)
Theorem sent_for_good b es : sent b = true -> let q := button_run t category es b in sent q = true /\ (waiting b = 0 -> calls q = calls b).
Proof.
  intros S. cbv zeta. assert (G : forall es b, sent b = true -> sent (button_run t category es b) = true /\ (waiting b = 0 -> calls (button_run t category es b) = calls b)); [|by apply G].
  clear. induction es as [|e es IH]; intros b S; [done|]. cbn [button_run foldl].
  assert (H : sent (button_handle t category e b) = true /\ (waiting b = 0 -> waiting (button_handle t category e b) = 0 /\ calls (button_handle t category e b) = calls b)).
  { destruct e; cbn [button_handle].
    - unfold locked. rewrite S. cbn [orb]. by split.
    - unfold requested. destruct (waiting b) as [|k] eqn:W; [by rewrite W|]. cbv zeta. split; [|done]. repeat case_match; button_fields; done.
    - unfold button_tick. cbv zeta. repeat case_match; button_fields; done. }
  destruct H as [H1 H2]. destruct (IH _ H1) as [I1 I2]. split; [exact I1|]. intros W. destruct (H2 W) as [H3 H4]. rewrite <- H4. by apply I2.
Qed.
End spec.

(** ** Examples and what the button does not do *)

(** The wait is counted from the last time known, the one of the opening of the
    page until the first second: five minutes are shown as sixty five. *)
Lemma wait_counted_from_opening :
  let b := button_run (fun s => s) (u "image") [BClick; BAnswered (Some (mkBAnswer false false (Some 300%Z) None)) 3600000] (button_start 0) in
  button_label (fun s => s) b = u "Réessaie dans 65 min" /\ button_label (fun s => s) (button_tick 3601000 b) = u "Réessaie dans 5 min".
Proof. vm_compute. split; reflexivity. Qed.
(** The form is filled by a link; a refusal says why. *)
Example link_filled : modelId (form_start (u "model=Qwen%2FQwen3-30B")) = u "Qwen/Qwen3-30B".
Proof. vm_compute. reflexivity. Qed.
Example pending_said : asked (form_run (fun s => s) (u "c") [FModel (u " a "); FSubmit; FSubmit; FAnswer (Some (mkAnswer false (Some (u "already_pending")) None None))] (form_start [])) =
  [Asked (u "a") []; Toast (u "Tu as déjà une demande en attente pour ce modèle.") true].
Proof. vm_compute. reflexivity. Qed.

Definition waiting_button : RButton := request (u "image") (button_start 0).
Theorem cooldown_exact_witness :
  let q := button_run (fun s => s) (u "image") [BTick 1000; BClick; BTick 2000] (button_handle (fun s => s) (u "image") (BAnswered (Some (mkBAnswer false false (Some 5%Z) None)) 0) waiting_button) in
  locked q = true /\ calls q = calls waiting_button ++ [Toast (u "Déjà signalé — la demande se débloquera automatiquement.") false] /\
  forall m, (0 + 5 * 1000 <= m)%Z -> locked (button_handle (fun s => s) (u "image") (BTick m) q) = false.
Proof.
  refine (cooldown_exact (fun s => s) (u "image") waiting_button 0 (mkBAnswer false false (Some 5%Z) None) 5 0 [BTick 1000; BClick; BTick 2000] _ _ _ _ _ _ _ _); try reflexivity; vm_compute; congruence.
Defined.
Theorem link_asks_model_witness : asked (form_run (fun s => s) (u "c") [FSubmit] (form_start (u "model=Qwen%2FQwen3%20%C3%A9"))) = [Asked (u "Qwen/Qwen3 é") []].
Proof.
  apply (link_asks_model (fun s => s) (u "c") (hf (u "Qwen/Qwen3 é")) (u "model=Qwen%2FQwen3%20%C3%A9") (u "Qwen/Qwen3 é")); try reflexivity; try discriminate. by apply units_test.
Defined.
