(* ===== verification/Login.v ===== *)
(** * The sign-in page (app/login/page.tsx, app/login/OwnerSetup.tsx)

    A submission is a chain of requests: the password, once more with a fresh
    token when the first is refused as out of date, then either the second factor
    or the check of the session.  Each submission awaited is the step it is at. *)

From S2P Require Import Prelude JsString JsJson Utf8 Url I18n WebAuthn.
Local Open Scope flow_scope.

(** A response: its status, its content type (empty when absent) and what its
    [json()] gives. *)
Record LResponse := mkLResponse { l_status : Z; l_type : jstr; l_json : option json }.
Definition l_ok (r : LResponse) : bool := ((200 <=? l_status r) && (l_status r <=? 299))%Z.
(** Where a submission is: the credentials are those it was made with. *)
Inductive Step :=
| Posting (token user pass : jstr) | Refreshing (token user pass : jstr) (res : LResponse) | Retrying (token user pass : jstr)
| Asking (token : jstr) (publicKey nonce : option json) | Verifying | Checking (res : LResponse).
Inductive LEffect :=
| Posted (token user pass : jstr) | AskedToken | AskedKey (publicKey : option json) | Verified (token : jstr) (nonce : option json) (credential : json)
| AskedWho | Assigned (path : jstr).

Record LPage := mkLPage {
  csrf : jstr; oidcEnabled : bool; setupRequired : bool; username : jstr; password : jstr; error : jstr;
  isSubmitting : bool; flights : list Step; asked : list LEffect
}.

Definition set_csrf v p := mkLPage v (oidcEnabled p) (setupRequired p) (username p) (password p) (error p) (isSubmitting p) (flights p) (asked p).
Definition set_oidcEnabled v p := mkLPage (csrf p) v (setupRequired p) (username p) (password p) (error p) (isSubmitting p) (flights p) (asked p).
Definition set_setupRequired v p := mkLPage (csrf p) (oidcEnabled p) v (username p) (password p) (error p) (isSubmitting p) (flights p) (asked p).
Definition set_username v p := mkLPage (csrf p) (oidcEnabled p) (setupRequired p) v (password p) (error p) (isSubmitting p) (flights p) (asked p).
Definition set_password v p := mkLPage (csrf p) (oidcEnabled p) (setupRequired p) (username p) v (error p) (isSubmitting p) (flights p) (asked p).
Definition set_error v p := mkLPage (csrf p) (oidcEnabled p) (setupRequired p) (username p) (password p) v (isSubmitting p) (flights p) (asked p).
Definition set_isSubmitting v p := mkLPage (csrf p) (oidcEnabled p) (setupRequired p) (username p) (password p) (error p) v (flights p) (asked p).
Definition set_flights v p := mkLPage (csrf p) (oidcEnabled p) (setupRequired p) (username p) (password p) (error p) (isSubmitting p) v (asked p).
Definition emit (e : LEffect) p := mkLPage (csrf p) (oidcEnabled p) (setupRequired p) (username p) (password p) (error p) (isSubmitting p) (flights p) (asked p ++ [e]).
Ltac login_fields := cbn [csrf oidcEnabled setupRequired username password error isSubmitting flights asked set_csrf set_oidcEnabled set_setupRequired set_username set_password set_error set_isSubmitting set_flights emit] in *.

Section page.
Context (t : jstr -> jstr) (options_error : jstr).

(** The address may say that the account is blocked. *)
Definition refused (search : jstr) : jstr :=
  match search_get search (u "refused") with
  | Some v => if streq v (u "blocked") then t (u "Accès révoqué pour ce compte. Contacte un administrateur.") else []
  | None => []
  end.
Definition login_start (search : jstr) : LPage := mkLPage [] false false [] [] (refused search) false [] [].

(** The submission goes on with a step, or ends. *)
Definition goes (s : Step) (p : LPage) : LPage := set_flights (flights p ++ [s]) p.
Definition ends (p : LPage) : LPage := set_isSubmitting false p.
Definition post (token user pass : jstr) (p : LPage) : LPage := emit (Posted token user pass) p.
Definition submit (p : LPage) : LPage :=
  match username p, password p, csrf p with
  | [], _, _ | _, [], _ | _, _, [] => p
  | _, _, _ => p |> set_isSubmitting true |> set_error [] |> post (csrf p) (username p) (password p) |> goes (Posting (csrf p) (username p) (password p))
  end.
(** The response to the password, once the token is settled. *)
Definition after_post (token : jstr) (r : LResponse) (p : LPage) : LPage :=
  let who := p |> emit AskedWho |> goes (Checking r) in
  if l_ok r && includes (l_type r) (u "application/json") then
    match l_json r with
    | Some ((JObj _) as body) =>
        if truthy_opt (prop (u "webauthn_required") body)
        then p |> emit (AskedKey (prop (u "publicKey") body)) |> goes (Asking token (prop (u "publicKey") body) (prop (u "nonce") body))
        else who
    | _ => who
    end
  else who.
(** The text of an exception. *)
Definition exception_text (msg : jstr) : jstr :=
  if streq msg (u "create-cancelled") then t (u "Double authentification annulée.")
  else match msg with [] => t (u "Erreur réseau — réessaie.") | _ => tServer msg t end.
Definition thrown (msg : jstr) (p : LPage) : LPage := p |> set_error (exception_text msg) |> ends.
(** The message of the server in a response, or a sentence. *)
Definition said (r : LResponse) (other : jstr) : jstr :=
  match l_json r with
  | Some v => match prop (u "error") v with Some (JStr ((_ :: _) as e)) => tServer e t | _ => t other end
  | None => t other
  end.
Definition checked (r who : LResponse) (p : LPage) : LPage :=
  ends (if l_ok who then emit (Assigned (u "/")) p
        else if (l_status r =? 400)%Z then set_error (t (u "Session expirée — recharge la page et réessaie.")) p
        else if (l_status r =? 403)%Z then set_error (said r (u "Accès révoqué pour ce compte. Contacte un administrateur.")) p
        else set_error (t (u "Identifiants incorrects.")) p).
Definition verified (r : LResponse) (p : LPage) : LPage :=
  ends (if l_ok r then emit (Assigned (u "/")) p else set_error (said r (u "Vérification de la clé échouée.")) p).

(** What a step receives: an exception with its message, a response, a token
    (empty when it could not be read), or what the browser does for the key. *)
Inductive LAnswer := Thrown (msg : jstr) | Response_ (r : LResponse) | Token (fresh : jstr) | Key (browser : Dom -> option Credential).
Definition key_asked (token : jstr) (publicKey nonce : option json) (browser : Dom -> option Credential) (p : LPage) : LPage :=
  match getPasskeyAssertion (default JNull publicKey) browser with
  | Done c => p |> emit (Verified token nonce c) |> goes Verifying
  | Cancelled => thrown (u "create-cancelled") p
  | BadOptions => thrown options_error p
  end.
Definition step (s : Step) (a : LAnswer) (p : LPage) : option LPage :=
  match s, a with
  | Refreshing token user pass res, Token fresh =>
      Some (match fresh with
            | [] => after_post token res p
            | _ => if streq fresh token then after_post token res p
                   else p |> set_csrf fresh |> post fresh user pass |> goes (Retrying fresh user pass)
            end)
  | Refreshing _ _ _ _, _ | _, Token _ => None
  | Asking token pk nonce, Key b => Some (key_asked token pk nonce b p)
  | Asking _ _ _, Thrown msg => Some (thrown msg p)
  | _, Thrown msg => Some (thrown msg p)
  | Posting token user pass, Response_ r =>
      Some (if (l_status r =? 400)%Z then p |> emit AskedToken |> goes (Refreshing token user pass r) else after_post token r p)
  | Retrying token _ _, Response_ r => Some (after_post token r p)
  | Verifying, Response_ r => Some (verified r p)
  | Checking r, Response_ who => Some (checked r who p)
  | _, _ => None
  end.
Definition answered (i : nat) (a : LAnswer) (p : LPage) : LPage :=
  match flights p !! i with
  | Some s => default p (step s a (set_flights (delete i (flights p)) p))
  | None => p
  end.

Inductive LEvent :=
| LgConfig (oidc setup : bool) | LgToken (token : jstr) | LgUsername (s : jstr) | LgPassword (s : jstr) | LgEnter | LgClick | LgSso | LgAnswer (i : nat) (a : LAnswer).
Definition login_handle (e : LEvent) (p : LPage) : LPage :=
  match e with
  | LgConfig o s => p |> set_oidcEnabled o |> set_setupRequired s
  | LgToken s => set_csrf s p
  | LgUsername s => if setupRequired p then p else set_username s p
  | LgPassword s => if setupRequired p then p else set_password s p
  | LgEnter => if setupRequired p then p else submit p
  | LgClick => if setupRequired p || streq (username p) [] || streq (password p) [] || isSubmitting p then p else submit p
  | LgSso => if setupRequired p || negb (oidcEnabled p) then p else emit (Assigned (u "/login/sso")) p
  | LgAnswer i a => answered i a p
  end.
Definition login_run (es : list LEvent) (p : LPage) : LPage := foldl (fun p e => login_handle e p) p es.
End page.

(** ** The account of the owner *)

Inductive OEffect := Created (token user full pass : jstr) | Opened (path : jstr).
Record Owner := mkOwner {
  o_token : jstr; o_username : jstr; o_fullname : jstr; o_password : jstr; o_confirm : jstr;
  o_error : jstr; o_busy : bool; o_posts : nat; o_asked : list OEffect
}.

Definition set_o_token v o := mkOwner v (o_username o) (o_fullname o) (o_password o) (o_confirm o) (o_error o) (o_busy o) (o_posts o) (o_asked o).
Definition set_o_username v o := mkOwner (o_token o) v (o_fullname o) (o_password o) (o_confirm o) (o_error o) (o_busy o) (o_posts o) (o_asked o).
Definition set_o_fullname v o := mkOwner (o_token o) (o_username o) v (o_password o) (o_confirm o) (o_error o) (o_busy o) (o_posts o) (o_asked o).
Definition set_o_password v o := mkOwner (o_token o) (o_username o) (o_fullname o) v (o_confirm o) (o_error o) (o_busy o) (o_posts o) (o_asked o).
Definition set_o_confirm v o := mkOwner (o_token o) (o_username o) (o_fullname o) (o_password o) v (o_error o) (o_busy o) (o_posts o) (o_asked o).
Definition set_o_error v o := mkOwner (o_token o) (o_username o) (o_fullname o) (o_password o) (o_confirm o) v (o_busy o) (o_posts o) (o_asked o).
Definition set_o_busy v o := mkOwner (o_token o) (o_username o) (o_fullname o) (o_password o) (o_confirm o) (o_error o) v (o_posts o) (o_asked o).
Definition set_o_posts v o := mkOwner (o_token o) (o_username o) (o_fullname o) (o_password o) (o_confirm o) (o_error o) (o_busy o) v (o_asked o).
Definition created (e : OEffect) o := mkOwner (o_token o) (o_username o) (o_fullname o) (o_password o) (o_confirm o) (o_error o) (o_busy o) (o_posts o) (o_asked o ++ [e]).
Ltac owner_fields := cbn [o_token o_username o_fullname o_password o_confirm o_error o_busy o_posts o_asked set_o_token set_o_username set_o_fullname set_o_password set_o_confirm set_o_error set_o_busy set_o_posts created] in *.

Section owner.
Context (t : jstr -> jstr) (token : jstr).

Definition owner_start : Owner := mkOwner [] [] [] [] [] [] false 0 [].
Definition mismatch (o : Owner) : bool := (0 <? length (o_confirm o)) && negb (streq (o_confirm o) (o_password o)).
Definition ready (o : Owner) : bool :=
  negb (streq (o_token o) []) && negb (streq (o_username o) []) && negb (streq (o_password o) []) && streq (o_confirm o) (o_password o)
  && negb (streq token []) && negb (o_busy o).
Definition create (o : Owner) : Owner :=
  if ready o then
    o |> set_o_busy true |> set_o_error [] |> set_o_posts (S (o_posts o))
      |> created (Created (trim (o_token o)) (trim (o_username o)) (trim (o_fullname o)) (o_password o))
  else o.
(** The answer: lost, or whether it is a success ([r.ok && d.ok]) and its error. *)
Definition create_answered (r : option (bool * option jstr)) (o : Owner) : Owner :=
  match o_posts o with
  | O => o
  | S n =>
      let o := o |> set_o_posts n |> set_o_busy false in
      match r with
      | None => o
      | Some (true, _) => created (Opened (u "/admin?tab=config")) o
      | Some (false, e) => set_o_error (match e with Some ((_ :: _) as e) => tServer e t | _ => t (u "Création impossible.") end) o
      end
  end.
Inductive OwEvent := OwToken (s : jstr) | OwUser (s : jstr) | OwFull (s : jstr) | OwPass (s : jstr) | OwConfirm (s : jstr) | OwSubmit | OwAnswer (r : option (bool * option jstr)).
Definition owner_handle (e : OwEvent) (o : Owner) : Owner :=
  match e with
  | OwToken s => set_o_token s o
  | OwUser s => set_o_username s o
  | OwFull s => set_o_fullname s o
  | OwPass s => set_o_password s o
  | OwConfirm s => set_o_confirm s o
  | OwSubmit => create o
  | OwAnswer r => create_answered r o
  end.
Definition owner_run (es : list OwEvent) (o : Owner) : Owner := foldl (fun o e => owner_handle e o) o es.
End owner.

(** ** Properties *)

Section spec.
Context (t : jstr -> jstr) (options_error : jstr).
#[local] Abbreviation handle := (login_handle t options_error) (only parsing).
#[local] Abbreviation run := (login_run t options_error) (only parsing).

Lemma login_run_app a b p : run (a ++ b) p = run b (run a p).
Proof. apply foldl_app. Qed.

(** An answer that opens a session: a key accepted, or a session already there. *)
Definition opens (e : LEvent) (p : LPage) : Prop :=
  exists i r, e = LgAnswer i (Response_ r) /\ l_ok r = true /\ (flights p !! i = Some Verifying \/ exists r0, flights p !! i = Some (Checking r0)).
Definition goes_home (x : LEffect) : bool := match x with Assigned s => streq s (u "/") | _ => false end.
Lemma after_post_stays token r p : existsb goes_home (asked (after_post token r p)) = existsb goes_home (asked p).
Proof. unfold after_post, goes. cbv zeta. repeat case_match; login_fields; by rewrite existsb_app, orb_false_r. Qed.
Lemma home_step e p : existsb goes_home (asked p) = false -> existsb goes_home (asked (handle e p)) = true -> opens e p.
Proof.
  intros N Y. assert (E : forall q, asked q = asked p -> existsb goes_home (asked q) = true -> opens e p) by (intros q -> X; congruence).
  destruct e; cbn [login_handle] in Y; try (by apply (E _ eq_refl Y)); try (destruct (setupRequired p); [by apply (E _ eq_refl Y)|]).
  1-2: by apply (E _ eq_refl Y).
  1: unfold submit, goes, post in Y; destruct (username p), (password p), (csrf p); login_fields; try congruence; rewrite existsb_app, N in Y; done.
  1: cbn [orb] in Y; case_match; [congruence|]; unfold submit, goes, post in Y; destruct (username p), (password p), (csrf p); login_fields; try congruence; rewrite existsb_app, N in Y; done.
  1: cbn [orb] in Y; case_match; [congruence|]; login_fields; rewrite existsb_app, N in Y; done.
  unfold answered in Y. destruct (flights p !! i) as [s|] eqn:F; [|congruence].
  destruct s, a; cbn [step default from_option id] in Y; try (by apply (E _ eq_refl Y)).
  - unfold goes in Y. destruct (l_status r =? 400)%Z; [login_fields; rewrite existsb_app, N in Y; done|]. rewrite after_post_stays in Y. login_fields. congruence.
  - unfold goes, post in Y. repeat case_match; try (rewrite after_post_stays in Y); login_fields; rewrite ?existsb_app, ?N in Y; done.
  - rewrite after_post_stays in Y. login_fields. congruence.
  - unfold key_asked, thrown, ends, goes in Y. repeat case_match; login_fields; rewrite ?existsb_app, ?N in Y; done.
  - exists i, r. split; [done|]. unfold verified, ends in Y. destruct (l_ok r); [|login_fields; congruence]. split; [done|by left].
  - exists i, r. split; [done|]. unfold checked, ends in Y. destruct (l_ok r); [|repeat case_match; login_fields; congruence]. split; [done|right; by eexists].
Qed.
(** C13: The page goes home only on the answer that says that a session is open: the
    check made after the password, or the verification of the key when one is
    required. *)
Theorem home_needs_session search es : existsb goes_home (asked (run es (login_start t search))) = true ->
  exists es1 e es2, es = es1 ++ e :: es2 /\ opens e (run es1 (login_start t search)).
Proof.
  induction es as [|e es IH] using rev_ind; [done|]. rewrite login_run_app. intros Y. destruct (existsb goes_home (asked (run es (login_start t search)))) eqn:N.
  - destruct (IH eq_refl) as (a & x & b & -> & O). exists a, x, (b ++ [e]). split; [by rewrite <- app_assoc|exact O].
  - exists es, e, []. split; [done|]. by apply (home_step e _ N Y).
Qed.

(** How far a submission is from its end, and the times it may still send the
    password. *)
Definition rank (s : Step) : nat :=
  match s with Posting _ _ _ => 5 | Refreshing _ _ _ _ => 4 | Retrying _ _ _ => 3 | Asking _ _ _ => 2 | Verifying | Checking _ => 1 end.
Definition tries (s : Step) : nat := match s with Posting _ _ _ | Refreshing _ _ _ _ => 1 | _ => 0 end.
Fixpoint total (f : Step -> nat) (l : list Step) : nat := match l with [] => 0 | s :: l => f s + total f l end.
Definition is_posted (x : LEffect) : bool := match x with Posted _ _ _ => true | _ => false end.
Definition sent (p : LPage) : nat := length (List.filter is_posted (asked p)).
Lemma steps_app f a b : total f (a ++ b) = total f a + total f b.
Proof. induction a as [|s a IH]; cbn; [done|]. rewrite IH. lia. Qed.
Lemma steps_delete f l i s : l !! i = Some s -> total f l = f s + total f (delete i l).
Proof. revert i. induction l as [|x l IH]; intros [|i] H; try done; [by injection H as ->|].
  change (delete (S i) (x :: l)) with (x :: delete i l). cbn [total]. rewrite (IH i H). lia. Qed.
Definition submits (e : LEvent) : bool := match e with LgEnter | LgClick => true | _ => false end.
(** An answer that a step awaited. *)
Definition effective (e : LEvent) (p : LPage) : bool :=
  match e with
  | LgAnswer i a => match flights p !! i with Some s => match step t options_error s a p with Some _ => true | None => false end | None => false end
  | _ => false
  end.
Fixpoint effective_in (es : list LEvent) (p : LPage) : nat :=
  match es with [] => 0 | e :: es => (if effective e p then 1 else 0) + effective_in es (handle e p) end.
Lemma sent_emit x p : sent (emit x p) = sent p + (if is_posted x then 1 else 0).
Proof. unfold sent. login_fields. rewrite List.filter_app, length_app. cbn. by destruct (is_posted x). Qed.
(** What a step leaves: submissions as many as before at most, nearer to the end,
    and no more passwords to send. *)
Definition nearer (s : Step) (p q : LPage) : Prop :=
  total rank (flights q) < rank s + total rank (flights p) /\ sent q + total tries (flights q) <= sent p + tries s + total tries (flights p).
Lemma after_post_nearer s token r p : 3 <= rank s -> nearer s p (after_post token r p).
Proof.
  intros R. unfold nearer, after_post, goes. cbv zeta. repeat case_match; login_fields; rewrite ?steps_app; cbn [total rank tries];
    match goal with |- context [sent ?q] => assert (E : sent q = sent p) by (unfold sent; login_fields; rewrite List.filter_app; cbn; by rewrite app_nil_r) end; lia.
Qed.
Lemma thrown_nearer s m p : 1 <= rank s -> nearer s p (thrown t m p).
Proof. intros R. unfold nearer, thrown, ends. login_fields. unfold sent. login_fields. lia. Qed.
Lemma step_nearer s a p q : step t options_error s a p = Some q -> nearer s p q.
Proof.
  destruct s, a; cbn [step]; try done; intros [= <-]; try (apply thrown_nearer; cbn; lia).
  - case_match; [|apply after_post_nearer; cbn; lia]. unfold nearer, goes. login_fields. rewrite !steps_app. cbn. unfold sent. login_fields. rewrite List.filter_app. cbn. rewrite app_nil_r. lia.
  - destruct fresh as [|c fresh]; [apply after_post_nearer; cbn; lia|]. case_match; [apply after_post_nearer; cbn; lia|].
    unfold nearer, goes, post. login_fields. rewrite !steps_app. cbn. unfold sent. login_fields. rewrite List.filter_app, length_app. cbn. lia.
  - apply after_post_nearer. cbn; lia.
  - unfold key_asked, nearer, thrown, ends, goes. case_match; login_fields; rewrite ?steps_app; cbn; unfold sent; login_fields; rewrite ?List.filter_app; cbn; rewrite ?app_nil_r; lia.
  - unfold nearer, verified, ends. case_match; login_fields; unfold sent; login_fields; rewrite ?List.filter_app; cbn; rewrite ?app_nil_r; lia.
  - unfold nearer, checked, ends. repeat case_match; login_fields; unfold sent; login_fields; rewrite ?List.filter_app; cbn; rewrite ?app_nil_r; lia.
Qed.
Lemma submit_far p : total rank (flights (submit p)) <= 5 + total rank (flights p) /\ sent (submit p) + total tries (flights (submit p)) <= 2 + sent p + total tries (flights p).
Proof.
  unfold submit, goes, post. destruct (username p), (password p), (csrf p); try lia. login_fields. rewrite !steps_app. cbn. unfold sent. login_fields. rewrite List.filter_app, length_app. cbn. lia.
Qed.
Lemma ends_step e p : let q := handle e p in let n := if submits e then 1 else 0 in
  total rank (flights q) + (if effective e p then 1 else 0) <= total rank (flights p) + 5 * n /\
  sent q + total tries (flights q) <= sent p + total tries (flights p) + 2 * n.
Proof.
  cbv zeta. destruct e; cbn [login_handle submits effective].
  1-2: unfold sent; login_fields; lia.
  1-2: case_match; unfold sent; login_fields; lia.
  1: case_match; [lia|destruct (submit_far p); lia].
  1: case_match; [lia|destruct (submit_far p); lia].
  1: case_match; [lia|unfold sent; login_fields; rewrite List.filter_app; cbn; rewrite app_nil_r; lia].
  unfold answered. destruct (flights p !! i) as [s|] eqn:F; [|lia]. rewrite !(steps_delete _ _ _ _ F).
  destruct (step t options_error s a (set_flights (delete i (flights p)) p)) as [q|] eqn:S.
  - destruct (step_nearer _ _ _ _ S) as [N1 N2]. login_fields. change (sent (set_flights _ p)) with (sent p) in N2. cbn [default from_option id]. case_match; lia.
  - cbn [default from_option]. rewrite <- !(steps_delete _ _ _ _ F). destruct (step t options_error s a p) eqn:S'; [|lia].
    exfalso. clear -S S'. by destruct s, a.
Qed.
(** C14: Each submission sends the password twice at most, and is over after five
    answers at most, whatever they are. *)
Theorem login_ends search es : let p := run es (login_start t search) in let n := length (List.filter submits es) in
  sent p <= 2 * n /\ effective_in es (login_start t search) <= 5 * n.
Proof.
  assert (G : forall es p, let q := run es p in let n := length (List.filter submits es) in
    total rank (flights q) + effective_in es p <= total rank (flights p) + 5 * n /\ sent q + total tries (flights q) <= sent p + total tries (flights p) + 2 * n).
  { clear. induction es as [|e es IH]; intros p; cbv zeta; [cbn; lia|]. cbn [login_run foldl effective_in List.filter]. destruct (ends_step e p) as [A B], (IH (handle e p)) as [C D].
    cbv zeta in *. unfold login_run in *. destruct (submits e); cbn [length]; lia. }
  cbv zeta. destruct (G es (login_start t search)) as [A B]. cbv zeta in *. cbn [login_start flights total] in A, B. change (sent (login_start t search)) with 0 in B. lia.
Qed.

(** Unless the Enter key is used while a submission is awaited, there is one at a
    time and the button says so. *)
Definition single (p : LPage) : Prop := length (flights p) = if isSubmitting p then 1 else 0.
Fixpoint patient (es : list LEvent) (p : LPage) : bool :=
  match es with [] => true | e :: es => match e with LgEnter => negb (isSubmitting p) | _ => true end && patient es (handle e p) end.
Lemma submit_single p : isSubmitting p = false -> single p -> single (submit p).
Proof. unfold single, submit, goes, post. intros I H. rewrite I in H. destruct (flights p) eqn:F; [|done]. destruct (username p), (password p), (csrf p); cbn; by rewrite F, ?I. Qed.
Lemma goes_single s p : flights p = [] -> isSubmitting p = true -> single (goes s p).
Proof. unfold single, goes. intros F S. login_fields. by rewrite F, S. Qed.
Lemma after_single token r p : flights p = [] -> isSubmitting p = true -> single (after_post token r p).
Proof. intros F S. unfold after_post. cbv zeta. repeat case_match; by apply goes_single. Qed.
Lemma step_single s a p q : flights p = [] -> isSubmitting p = true -> step t options_error s a p = Some q -> single q.
Proof.
  intros F S. assert (E : forall q, flights q = flights p -> isSubmitting q = false -> single q) by (intros ? X Y; unfold single; by rewrite X, F, Y).
  destruct s, a; cbn [step]; try done; intros [= <-]; try (by apply E).
  - case_match; [by apply goes_single|by apply after_single].
  - repeat case_match; try (by apply after_single); by apply goes_single.
  - by apply after_single.
  - unfold key_asked. case_match; [by apply goes_single|by apply E|by apply E].
  - unfold verified. case_match; by apply E.
  - unfold checked. repeat case_match; by apply E.
Qed.
Theorem one_submission search es : patient es (login_start t search) = true -> let p := run es (login_start t search) in
  length (flights p) = if isSubmitting p then 1 else 0.
Proof.
  intros P. assert (G : forall es p, patient es p = true -> single p -> single (run es p)); [|by apply G]. clear.
  induction es as [|e es IH]; intros p P H; [done|]. cbn [patient] in P. bool_norm. apply IH; [done|]. destruct e; cbn [login_handle]; try exact H; try (case_match; exact H).
  - cbn in *. bool_norm. destruct (setupRequired p); [done|]. by apply submit_single.
  - case_match; [done|]. bool_norm. by apply submit_single.
  - unfold answered. destruct (flights p !! i) as [s|] eqn:F; [|done]. unfold single in H. destruct (isSubmitting p) eqn:S; [|by destruct (flights p)].
    destruct (flights p) as [|x [|y l]] eqn:L; try done. destruct i as [|i]; [|done]. injection F as ->. cbn [delete list_delete].
    destruct (step t options_error s a (set_flights [] p)) as [q|] eqn:E; [|cbn; unfold single; by rewrite L, S]. by apply (step_single s a (set_flights [] p)).
Qed.
End spec.

Section owner_spec.
Context (t : jstr -> jstr) (token : jstr).
(** The account of the owner is asked for once at a time, and only when the
    password is there and was typed twice. *)
Lemma created_checked o e x : In x (drop (length (o_asked o)) (o_asked (owner_handle t token e o))) ->
  match x with Created _ _ _ pass => pass = o_password o /\ o_confirm o = pass /\ pass <> [] /\ o_busy o = false | Opened _ => exists m, e = OwAnswer (Some (true, m)) end.
Proof.
  destruct e; cbn [owner_handle]; try (owner_fields; rewrite drop_ge by lia; done).
  - unfold create. destruct (ready token o) eqn:R; [|by rewrite drop_ge by lia]. owner_fields. rewrite drop_app_length. intros [<-|[]]. unfold ready in R. bool_norm.
    destruct (streq_spec (o_confirm o) (o_password o)) as [->|]; [|done]. destruct (streq_spec (o_password o) []); done.
  - unfold create_answered. destruct (o_posts o); [by rewrite drop_ge by lia|]. destruct r as [[[] m]|]; owner_fields; rewrite ?drop_app_length, ?drop_ge by lia; [|done|done].
    intros [<-|[]]. by exists m.
Qed.
Lemma owner_once es : o_posts (owner_run t token es owner_start) = if o_busy (owner_run t token es owner_start) then 1 else 0.
Proof.
  assert (G : forall es o, (o_posts o = if o_busy o then 1 else 0) -> o_posts (owner_run t token es o) = if o_busy (owner_run t token es o) then 1 else 0); [|by apply G].
  clear. induction es as [|e es IH]; intros o H; [done|]. apply IH. destruct e; cbn [owner_handle]; try exact H.
  - unfold create. destruct (ready token o) eqn:R; [|done]. unfold ready in R. bool_norm. owner_fields. rewrite H. by match goal with X : o_busy o = false |- _ => rewrite X end.
  - unfold create_answered. destruct (o_posts o) as [|n] eqn:P; [by rewrite P|]. assert (n = 0) as -> by (destruct (o_busy o); lia). by destruct r as [[[] m]|].
Qed.
End owner_spec.

(** ** Examples and what the page does not do *)

#[local] Abbreviation play := (login_run (fun s => s) []) (only parsing).
Definition typed : LPage := play [LgToken (u "c"); LgUsername (u "ada"); LgPassword (u "pw")] (login_start (fun s => s) []).
Definition status (z : Z) : LResponse := mkLResponse z [] None.
(** The Enter key sends the password again while it is awaited; the end of one
    submission makes the button ready though the other is awaited. *)
Lemma enter_submits_twice :
  let p := play [LgEnter; LgEnter; LgAnswer 0 (Response_ (status 401)); LgAnswer 1 (Response_ (status 401))] typed in
  sent p = 2 /\ length (flights p) = 1 /\ isSubmitting p = false.
Proof. vm_compute. repeat split; reflexivity. Qed.
(** A wrong password typed while a session is open goes home, under the account of
    that session. *)
Lemma wrong_password_goes_home : In (Assigned (u "/")) (asked (play [LgClick; LgAnswer 0 (Response_ (status 401)); LgAnswer 0 (Response_ (status 200))] typed)).
Proof. vm_compute. tauto. Qed.
(** The answer of the creation lost, nothing is said. *)
Lemma lost_creation_silent :
  let o := owner_run (fun s => s) (u "c") [OwToken (u "t"); OwUser (u "ada"); OwPass (u "pw"); OwConfirm (u "pw"); OwSubmit; OwAnswer None] owner_start in o_error o = [] /\ o_busy o = false /\ length (o_asked o) = 1.
Proof. vm_compute. repeat split; reflexivity. Qed.
Example token_renewed : asked (play [LgClick; LgAnswer 0 (Response_ (status 400)); LgAnswer 0 (Token (u "d")); LgAnswer 0 (Response_ (status 200)); LgAnswer 0 (Response_ (status 200))] typed) =
  [Posted (u "c") (u "ada") (u "pw"); AskedToken; Posted (u "d") (u "ada") (u "pw"); AskedWho; Assigned (u "/")].
Proof. vm_compute. reflexivity. Qed.
Example blocked_said : error (login_start (fun s => s) (u "refused=blocked")) = u "Accès révoqué pour ce compte. Contacte un administrateur.".
Proof. vm_compute. reflexivity. Qed.
Definition needs_key : LResponse := mkLResponse 200 (u "application/json; charset=utf-8")
  (Some (JObj [(u "webauthn_required", JBool true); (u "publicKey", JObj [(u "challenge", JStr (u "AQID"))]); (u "nonce", JStr (u "n"))])).
Definition a_key : Credential := mkCredential (u "k") [1%N] (u "public-key") None [2%N] None None.
Example key_asked_once : map (fun x => match x with Posted _ _ _ => 0 | AskedKey _ => 1 | Verified _ _ _ => 2 | Assigned _ => 3 | _ => 4 end)
    (asked (play [LgClick; LgAnswer 0 (Response_ needs_key); LgAnswer 0 (Key (fun _ => Some a_key)); LgAnswer 0 (Response_ (status 200))] typed)) = [0; 1; 2; 3].
Proof. vm_compute. reflexivity. Qed.

Theorem home_needs_session_witness :
  exists es1 e es2, [LgToken (u "c"); LgUsername (u "ada"); LgPassword (u "pw"); LgClick; LgAnswer 0 (Response_ (status 200)); LgAnswer 0 (Response_ (status 200))] = es1 ++ e :: es2 /\
    opens e (play es1 (login_start (fun s => s) [])).
Proof. apply (home_needs_session (fun s => s) [] []). reflexivity. Defined.
Theorem one_submission_witness :
  let p := play [LgToken (u "c"); LgUsername (u "ada"); LgPassword (u "pw"); LgEnter; LgClick; LgAnswer 0 (Response_ (status 400))] (login_start (fun s => s) []) in
  length (flights p) = if isSubmitting p then 1 else 0.
Proof. apply (one_submission (fun s => s) [] [] [LgToken (u "c"); LgUsername (u "ada"); LgPassword (u "pw"); LgEnter; LgClick; LgAnswer 0 (Response_ (status 400))]). reflexivity. Defined.
