(* ===== verification/Ranking.v ===== *)
(** * The ranking (app/(app)/ranking/)

    The page asks for the view of its selectors, the map of the activity for its
    own, the detail for one account: three reads with the same flag, that drops
    the answer of a view left.  Then the map: its grid, its days, its months. *)

From S2P Require Import Prelude JsString JsInt JsJson Url.
Local Open Scope flow_scope.

(** ** A view and its answers *)

(** [seen]: the view whose effect ran last; the calls awaited have their view and
    the [alive] flag of their closure. *)
Record Live (K D : Type) := mkLive { seen : K; data : option D; failed : bool; calls : list (K * bool) }.
Arguments mkLive {K D}. Arguments seen {K D}. Arguments data {K D}. Arguments failed {K D}. Arguments calls {K D}.

Section live.
Context {K D : Type} `{EqDecision K}.
(** The cleanup of the last effect. *)
Definition left_alone (l : list (K * bool)) : list (K * bool) := map (fun c => (c.1, false)) l.
(** The effect of a view: it asks, unless the view was served with the page or has
    nothing to ask. *)
Definition view_effect (asks : bool) (k : K) (v : Live K D) : Live K D :=
  mkLive k (data v) (failed v) (left_alone (calls v) ++ (if asks then [(k, true)] else [])).
Definition view_change (asks : K -> bool) (k : K) (v : Live K D) : Live K D :=
  if bool_decide (k = seen v) then v else view_effect (asks k) k v.
(** The answer of a call: its data, or an error. *)
Definition view_answered (i : nat) (r : option D) (v : Live K D) : Live K D :=
  match (calls v !! i : option (K * bool)) with
  | None => v
  | Some (_, alive) =>
      if alive then mkLive (seen v) r (match r with Some _ => false | None => true end) (delete i (calls v))
      else mkLive (seen v) (data v) (failed v) (delete i (calls v))
  end.
Inductive ViewEvent := ViewChange (k : K) | ViewAnswer (i : nat) (r : option D).
Definition view_handle (asks : K -> bool) (clears : bool) (e : ViewEvent) (v : Live K D) : Live K D :=
  match e with
  | ViewChange k =>
      let w := view_change asks k v in
      if clears && negb (bool_decide (k = seen v)) then mkLive (seen w) None (failed w) (calls w) else w
  | ViewAnswer i r => view_answered i r v
  end.
Definition view_run (asks : K -> bool) (clears : bool) (es : list ViewEvent) (v : Live K D) : Live K D := foldl (fun v e => view_handle asks clears e v) v es.

(** [tag]: the view a data says it is of. *)
Context (asks : K -> bool) (clears : bool) (tag : D -> K) (asks_or_clears : clears = false -> forall k, asks k = true).
(** The answers are those of the views asked. *)
Fixpoint honest (es : list ViewEvent) (v : Live K D) : Prop :=
  match es with
  | [] => True
  | e :: es => match e with ViewAnswer i (Some d) => forall k b, calls v !! i = Some (k, b) -> tag d = k | _ => True end /\ honest es (view_handle asks clears e v)
  end.
Record live_ok (v : Live K D) : Prop := mkLiveOk {
  lo_alive : forall k, (k, true) ∈ calls v -> k = seen v;
  lo_one : length (List.filter snd (calls v)) <= 1;
  lo_data : forall d, data v = Some d -> tag d = seen v \/ clears = false /\ (seen v, true) ∈ calls v
}.
Lemma left_dead l k : (k, true) ∉ left_alone l.
Proof. unfold left_alone. rewrite list_elem_of_In, in_map_iff. by intros ([] & [=] & _). Qed.
Lemma left_none l : List.filter snd (left_alone l) = [].
Proof. induction l as [|[k b] l IH]; [done|exact IH]. Qed.
Lemma live_change k v : live_ok v -> k <> seen v -> live_ok (view_handle asks clears (ViewChange k) v).
Proof.
  intros [A B C] N. cbn [view_handle]. unfold view_change. rewrite bool_decide_eq_false_2 by done. unfold view_effect. cbn [negb]. rewrite andb_true_r.
  set (l := left_alone (calls v) ++ _).
  assert (L : forall k', (k', true) ∈ l -> k' = k).
  { intros k'. unfold l. rewrite elem_of_app. intros [H|H]; [by apply left_dead in H|]. destruct (asks k); [|by apply elem_of_nil in H]. apply list_elem_of_singleton in H. by injection H. }
  assert (O : length (List.filter snd l) <= 1) by (unfold l; rewrite List.filter_app, left_none; destruct (asks k); cbn; lia).
  destruct clears eqn:Ec; split; cbn [seen data calls]; try done. intros d D'. right. split; [done|]. unfold l. rewrite asks_or_clears by done.
  rewrite elem_of_app, list_elem_of_singleton. by right.
Qed.
Lemma live_answer i r v : live_ok v -> (forall d k b, r = Some d -> calls v !! i = Some (k, b) -> tag d = k) -> live_ok (view_answered i r v).
Proof.
  intros [A B C] T. unfold view_answered. destruct (calls v !! i) as [[k b]|] eqn:L; [|done]. assert (X := count_delete snd (calls v) i (k, b) L). cbn [snd Nat.b2n] in X.
  assert (S : forall k', (k', true) ∈ delete i (calls v) -> (k', true) ∈ calls v) by (intros k' H; rewrite (delete_Permutation _ _ _ L); set_solver).
  destruct b; split; cbn [seen data calls]; try (by intros k' H; apply A, S); try lia.
  - intros d ->. left. rewrite (T d k true eq_refl eq_refl). apply A. by eapply list_elem_of_lookup_2.
  - intros d D'. destruct (C d D') as [C'|[C1 C2]]; [by left|]. right. split; [done|]. rewrite (delete_Permutation _ _ _ L) in C2. set_solver.
Qed.
Lemma live_run es v : honest es v -> live_ok v -> live_ok (view_run asks clears es v).
Proof.
  revert v. induction es as [|e es IH]; intros v H O; [done|]. destruct H as [T H]. apply IH; [exact H|]. destruct e as [k|i r].
  - destruct (decide (k = seen v)) as [->|N]; [|by apply live_change]. cbn [view_handle]. unfold view_change. rewrite bool_decide_eq_true_2 by done. cbn [negb]. by rewrite andb_false_r.
  - apply live_answer; [done|]. intros d k b -> L. by apply (T k b).
Qed.
(** Once the view has its answer, what is shown is of the view selected; when the
    cleanup empties it, at every moment. *)
Lemma live_shown es v d : honest es v -> live_ok v -> let w := view_run asks clears es v in data w = Some d ->
  clears = true \/ (seen w, true) ∉ calls w -> tag d = seen w.
Proof. intros H O w E N. destruct (lo_data w (live_run es v H O) d E) as [T|[C I]]; [done|]. destruct N; [congruence|done]. Qed.
End live.

(** ** The page of the ranking *)

Record RankRow := mkRow { r_rank : option Z; r_username : option jstr; r_anon_id : option jstr; r_is_me : bool; r_is_group : bool; r_is_unattributed : bool }.
(** The selectors; [model] is [None] for all the models. *)
Record RankKey := mkKey { k_period : jstr; k_metric : jstr; k_by : jstr; k_model : option jstr }.
#[export] Instance RankKey_eq_dec : EqDecision RankKey.
Proof. solve_decision. Defined.
(** [d_key]: the view the server computed. *)
Record RankingData := mkData { d_key : RankKey; d_rows : list RankRow; d_is_admin : bool; d_me_anonymous : bool }.
Definition RANKING_DEFAULT : RankKey := mkKey (u "day") (u "total") (u "account") None.
Definition PERIODS : list (jstr * jstr) := [(u "day", u "Jour"); (u "week", u "Semaine"); (u "month", u "Mois"); (u "year", u "Année"); (u "all", u "Tout")].
Definition METRICS : list jstr := [u "total"; u "completion"; u "prompt"; u "requests"; u "per_request"].
Definition metricLabel (metric : jstr) : jstr :=
  default (u "Total") (snd <$> List.find (fun x => streq x.1 metric)
    [(u "completion", u "Généré"); (u "prompt", u "Entrée"); (u "requests", u "Requêtes"); (u "per_request", u "Tokens / requête")]).
Definition rank_query (k : RankKey) : jstr :=
  search_params ([(u "period", k_period k); (u "metric", k_metric k); (u "by", k_by k)] ++ match k_model k with Some m => [(u "model", m)] | None => [] end).

Record RankPage := mkRank { rp_view : Live RankKey RankingData; rp_detail : option jstr; rp_posts : list bool; rp_said : list (jstr * bool) }.
Definition rank_start (initial : option RankingData) (fresh : bool) : RankPage :=
  let v := mkLive RANKING_DEFAULT initial false [] in
  mkRank (if fresh then v else view_effect true RANKING_DEFAULT v) None [] [].
Definition ranked (d : RankingData) : list RankRow := List.filter (fun r => negb (r_is_unattributed r)) (d_rows d).
Definition unattributed (d : RankingData) : list RankRow := List.filter r_is_unattributed (d_rows d).
Definition shown_rows (d : RankingData) : list RankRow := ranked d ++ unattributed d.
Definition me (d : RankingData) : option RankRow := List.find (fun r => r_is_me r && negb (r_is_group r)) (d_rows d).

Section page.
Context (t : jstr -> jstr).
Definition setAnonymous (v : bool) (p : RankPage) : RankPage := mkRank (rp_view p) (rp_detail p) (rp_posts p ++ [v]) (rp_said p).
Definition anonymous_answered (i : nat) (ok : bool) (p : RankPage) : RankPage :=
  match rp_posts p !! i with
  | None => p
  | Some v =>
      let posts := delete i (rp_posts p) in
      if ok then
        let w := rp_view p in
        mkRank (mkLive (seen w) ((fun d => mkData (d_key d) (d_rows d) (d_is_admin d) v) <$> data w) (failed w) (calls w)) (rp_detail p) posts
          (rp_said p ++ [(if v then t (u "Tu apparais désormais anonymement aux autres.") else t (u "Ton nom est de nouveau visible."), false)])
      else mkRank (rp_view p) (rp_detail p) posts (rp_said p ++ [(t (u "Échec de l'enregistrement"), true)])
  end.
(** The name of a row, and whether it opens the detail of its account. *)
Definition row_name (d : RankingData) (r : RankRow) : jstr :=
  let isGroup := streq (k_by (d_key d)) (u "group") in
  match r_username r with
  | None => t (if isGroup then u "Groupe masqué" else u "Compte anonyme")
  | Some n => if streq n (u "unknown") then t (u "Clés non attribuées") else if isGroup && streq n (u "Sans groupe") then t (u "Sans groupe") else n
  end.
Definition canOpen (d : RankingData) (r : RankRow) : bool :=
  negb (streq (k_by (d_key d)) (u "group")) && negb (r_is_unattributed r) && bool_decide (is_Some (r_username r)) && (r_is_me r || d_is_admin d).
(** The title of the column of one's own figure, and the figure's view. *)
Definition position (p : RankPage) : option (jstr * RankKey) :=
  match data (rp_view p) with Some d => (fun _ => (t (metricLabel (k_metric (seen (rp_view p)))), d_key d)) <$> me d | None => None end.
Definition shows_export (p : RankPage) : bool :=
  match data (rp_view p) with Some d => d_is_admin d && negb (bool_decide (ranked d = [])) | None => false end.

Inductive RkEvent := RkSelect (k : RankKey) | RkAnswer (i : nat) (r : option RankingData) | RkAnonymous (v : bool) | RkAnonymousAnswer (i : nat) (ok : bool) | RkOpen (r : RankRow) | RkClose.
Definition rank_handle (e : RkEvent) (p : RankPage) : RankPage :=
  let upd w := mkRank w (rp_detail p) (rp_posts p) (rp_said p) in
  match e with
  | RkSelect k => upd (view_change (fun _ => true) k (rp_view p))
  | RkAnswer i r => upd (view_answered i r (rp_view p))
  | RkAnonymous v => if bool_decide (is_Some (data (rp_view p))) then setAnonymous v p else p
  | RkAnonymousAnswer i ok => anonymous_answered i ok p
  | RkOpen r => match data (rp_view p) with
                | Some d => if canOpen d r then mkRank (rp_view p) (r_username r) (rp_posts p) (rp_said p) else p
                | None => p
                end
  | RkClose => mkRank (rp_view p) None (rp_posts p) (rp_said p)
  end.
Definition rank_run (es : list RkEvent) (p : RankPage) : RankPage := foldl (fun p e => rank_handle e p) p es.
(** The answers are those of the views asked. *)
Fixpoint rank_honest (es : list RkEvent) (p : RankPage) : Prop :=
  match es with
  | [] => True
  | e :: es => match e with RkAnswer i (Some d) => forall k b, calls (rp_view p) !! i = Some (k, b) -> d_key d = k | _ => True end /\ rank_honest es (rank_handle e p)
  end.

Definition rank_ok (p : RankPage) : Prop := live_ok false d_key (rp_view p).
Lemma rank_step e p : match e with RkAnswer i (Some d) => forall k b, calls (rp_view p) !! i = Some (k, b) -> d_key d = k | _ => True end -> rank_ok p -> rank_ok (rank_handle e p).
Proof.
  intros T H. unfold rank_ok in *. assert (A : false = false -> forall k : RankKey, (fun _ => true) k = true) by done.
  destruct e; cbn [rank_handle rp_view]; try exact H.
  - destruct (decide (k = seen (rp_view p))) as [->|N]; [unfold view_change; by rewrite bool_decide_eq_true_2|]. exact (live_change (fun _ => true) false d_key A k _ H N).
  - apply (live_answer (fun _ => true) false d_key A); [done|]. intros d k b -> L. by apply (T k b).
  - case_bool_decide; exact H.
  - unfold anonymous_answered. destruct (rp_posts p !! i); [|exact H]. destruct ok; [|exact H]. destruct H as [X Y Z]. split; cbn [rp_view seen data calls]; try done.
    intros d D. destruct (data (rp_view p)) as [d0|] eqn:E; [|done]. injection D as <-. exact (Z d0 eq_refl).
  - destruct (data (rp_view p)) as [d|]; [|exact H]. by destruct (canOpen d r).
Qed.
(** Whatever the order of the answers, a ranking shown once the view selected has
    its answer is the one of the period, the metric, the grouping and the model
    selected. *)
Theorem ranking_of_view initial fresh es : (forall d, initial = Some d -> d_key d = RANKING_DEFAULT) -> rank_honest es (rank_start initial fresh) ->
  let w := rp_view (rank_run es (rank_start initial fresh)) in forall d, data w = Some d -> (seen w, true) ∉ calls w -> d_key d = seen w.
Proof.
  intros I H w d D N. assert (O : rank_ok (rank_run es (rank_start initial fresh))).
  { assert (S : rank_ok (rank_start initial fresh)).
    { unfold rank_start, view_effect, rank_ok. destruct fresh; split; cbn [rp_view seen data calls]; try done.
      - intros k X. by apply elem_of_nil in X.
      - cbn. lia.
      - intros d' E. left. by apply I.
      - intros k X. apply list_elem_of_singleton in X. by injection X.
      - intros d' E. left. by apply I. }
    revert H S. clear. generalize (rank_start initial fresh). induction es as [|e es IH]; intros p H S; [done|]. destruct H as [T H]. by apply IH, rank_step. }
  destruct (lo_data _ _ _ O d D) as [T|[_ X]]; [exact T|done].
Qed.
(** Every row is shown once, those of no account last, in the order of the server. *)
Lemma rows_shown d : Permutation (shown_rows d) (d_rows d) /\ Forall (fun r => r_is_unattributed r = false) (ranked d) /\ Forall (fun r => r_is_unattributed r = true) (unattributed d) /\
  ranked d `sublist_of` d_rows d /\ unattributed d `sublist_of` d_rows d.
Proof.
  unfold shown_rows, ranked, unattributed. generalize (d_rows d). intros l. induction l as [|r l (A & B & C & D & E)]; [by repeat split; constructor|].
  cbn [List.filter]. destruct (r_is_unattributed r) eqn:X; cbn [negb]; (split; [|split; [|split; [|split]]]); try done; try (by constructor).
  rewrite <- Permutation_middle. by constructor.
Qed.
(** The detail of an account is opened by itself or by an administrator. *)
Lemma detail_allowed r p n : rp_detail (rank_handle (RkOpen r) p) = Some n -> rp_detail p <> Some n ->
  r_username r = Some n /\ exists d, data (rp_view p) = Some d /\ (r_is_me r = true \/ d_is_admin d = true).
Proof.
  cbn [rank_handle]. destruct (data (rp_view p)) as [d|]; [|done]. destruct (canOpen d r) eqn:C; [|done]. cbn [rp_detail]. intros E _. split; [done|]. exists d. split; [done|].
  unfold canOpen in C. bool_norm. by apply orb_true_iff.
Qed.
End page.

(** ** The detail of an account *)

(** The dialog asks for the account it is opened on, and is emptied by the cleanup. *)
Definition detail_asks (username : option jstr) : bool := match username with Some (_ :: _) => true | _ => false end.
Definition detail_run {D} : list (ViewEvent (K := option jstr) (D := D)) -> Live (option jstr) D -> Live (option jstr) D := view_run detail_asks true.
Definition detail_start {D} : Live (option jstr) D := mkLive None None false [].
(** It never shows the account of another. *)
Theorem detail_of_account {D} (tag : D -> option jstr) es : honest detail_asks true tag es detail_start ->
  forall d, data (detail_run es detail_start) = Some d -> tag d = seen (detail_run es detail_start).
Proof.
  intros H d E. apply (live_shown detail_asks true tag (fun X => ltac:(done)) es detail_start d H); [|done|by left].
  split; cbn [seen data calls detail_start]; try done; [|cbn; lia]. intros k X. by apply elem_of_nil in X.
Qed.

(** ** Examples and what the page does not do *)

Definition row_of (s : jstr) (mine : bool) : RankRow := mkRow (Some 1%Z) (Some s) None mine false false.
Definition ranking (k : RankKey) : RankingData := mkData k [row_of (u "ada") true; row_of (u "bob") false] false false.
Definition by_requests : RankKey := mkKey (u "day") (u "requests") (u "account") None.
#[local] Abbreviation play := (rank_run (fun s => s)) (only parsing).
(** Until its answer, a metric just selected names the figure of the one before. *)
Lemma figure_of_other_metric :
  position (fun s => s) (play [RkSelect by_requests] (rank_start (Some (ranking RANKING_DEFAULT)) true)) = Some (u "Requêtes", RANKING_DEFAULT).
Proof. vm_compute. reflexivity. Qed.
(** A view asked before the choice to be anonymous was saved shows the old one when
    it comes after. *)
Lemma stale_privacy :
  let p := play [RkAnonymous true; RkSelect by_requests; RkAnonymousAnswer 0 true; RkAnswer 0 (Some (ranking by_requests))] (rank_start (Some (ranking RANKING_DEFAULT)) true) in
  d_me_anonymous <$> data (rp_view p) = Some false /\ rp_said p = [(u "Tu apparais désormais anonymement aux autres.", false)].
Proof. vm_compute. split; reflexivity. Qed.
(** A detail that could not be read says that it loads. *)
Lemma lost_detail_loads_forever : let v := detail_run [ViewChange (Some (u "ada")); ViewAnswer 0 None] (detail_start (D := nat)) in calls v = [] /\ data v = None /\ seen v = Some (u "ada").
Proof. vm_compute. repeat split; reflexivity. Qed.
Example late_view_dropped :
  d_key <$> data (rp_view (play [RkSelect by_requests; RkSelect RANKING_DEFAULT; RkAnswer 2 (Some (ranking RANKING_DEFAULT)); RkAnswer 1 (Some (ranking by_requests))] (rank_start None false))) = Some RANKING_DEFAULT.
Proof. vm_compute. reflexivity. Qed.
Example query_of_model : rank_query (mkKey (u "day") (u "total") (u "account") (Some (u "a b"))) = u "period=day&metric=total&by=account&model=a+b".
Proof. vm_compute. reflexivity. Qed.

Theorem ranking_of_view_witness :
  let w := rp_view (play [RkSelect by_requests; RkAnswer 1 (Some (ranking by_requests)); RkAnswer 0 (Some (ranking RANKING_DEFAULT))] (rank_start None false)) in d_key (ranking by_requests) = seen w.
Proof.
  apply (ranking_of_view (fun s => s) None false [RkSelect by_requests; RkAnswer 1 (Some (ranking by_requests)); RkAnswer 0 (Some (ranking RANKING_DEFAULT))]); [done| |reflexivity|].
  - cbn [rank_honest]. repeat apply conj; try exact I; intros k b H; vm_compute in H; injection H as <- _; reflexivity.
  - vm_compute. intros H. by apply elem_of_nil in H.
Defined.
Theorem detail_of_account_witness :
  let run := detail_run [ViewChange (Some (u "ada")); ViewChange (Some (u "bob")); ViewAnswer 1 (Some (Some (u "bob"))); ViewAnswer 0 (Some (Some (u "ada")))] detail_start in Some (u "bob") = seen run.
Proof.
  apply (detail_of_account (fun x => x) [ViewChange (Some (u "ada")); ViewChange (Some (u "bob")); ViewAnswer 1 (Some (Some (u "bob"))); ViewAnswer 0 (Some (Some (u "ada")))]); [|reflexivity].
  cbn [honest]. repeat apply conj; try exact I; intros k b H; vm_compute in H; injection H as <- _; reflexivity.
Defined.
