(* ===== verification/Heatmap.v ===== *)
(** * The map of the activity (app/(app)/ranking/_components/ActivityHeatmap.tsx)

    Seven days by hours, or a calendar of real days: weeks in columns, weekdays in
    rows, the months above.  Lengths are in the units of the drawing; a day is the
    date of its ISO text, read at noon. *)

From Stdlib Require Import Sorted.
From S2P Require Import Prelude JsString JsInt JsJson Ranking.
Local Open Scope Z_scope.

(** ** Dates *)

(** The days from 1970-01-01 of a date of the Gregorian calendar. *)
Definition days_from_civil (y m d : Z) : Z :=
  let y := if m <=? 2 then y - 1 else y in
  let era := y / 400 in
  let yoe := y - era * 400 in
  let doy := (153 * (m + (if 2 <? m then -3 else 9)) + 2) / 5 + d - 1 in
  let doe := yoe * 365 + yoe / 4 - yoe / 100 + doy in
  era * 146097 + doe - 719468.
(** 0 for Sunday: 1970-01-01 was a Thursday. *)
Definition weekday (days : Z) : Z := (days + 4) mod 7.
(** The year, month and day of a text YYYY-MM-DD. *)
Definition iso_date (s : jstr) : option (Z * Z * Z) :=
  if (length s =? 10)%nat && forallb is_digit (take 4 s ++ take 2 (drop 5 s) ++ drop 8 s)
     && streq (take 1 (drop 4 s)) (u "-") && streq (take 1 (drop 7 s)) (u "-")
  then Some (digits_value (take 4 s), digits_value (take 2 (drop 5 s)), digits_value (drop 8 s)) else None.
(** [at(iso).getDay()] and [at(iso).getDate()], when the text is a date. *)
Definition day_number (s : jstr) : option Z := (fun '(y, m, d) => days_from_civil y m d) <$> iso_date s.
Definition getDay (s : jstr) : option Z := weekday <$> day_number s.
Definition getDate (s : jstr) : option Z := snd <$> iso_date s.

(** ** The data *)

Record Slot := mkSlot { s_requests : Z; s_tokens : Z }.
Inductive Chart := Hours (rows : list (jstr * list Slot)) | Days (days : list (jstr * Slot)) | NoChart.
Record Activity := mkActivity { a_chart : Chart; a_max : Z; a_total : Z }.
Definition WEEKDAYS : list jstr := [u "Lun"; u "Mar"; u "Mer"; u "Jeu"; u "Ven"; u "Sam"; u "Dim"].
Definition GAP : Z := 2.
Definition LABEL_W : Z := 62.
Definition TOP : Z := 16.

(** The busiest of the slots, the first of them; none when all are empty. *)
Definition busiest {A} (slots : list (A * Z)) : option (A * Z) :=
  foldl (fun peak x => match peak with
                       | Some p => if snd p <? snd x then Some x else peak
                       | None => if 0 <? snd x then Some x else None
                       end) None slots.

(** ** Seven days by hours *)

Definition CELL_HOURS : Z := 22.
Definition hours_width : Z := LABEL_W + 24 * (CELL_HOURS + GAP).
Definition hours_height (rows : nat) : Z := TOP + Z.of_nat rows * (CELL_HOURS + GAP).
Definition hour_x (h : nat) : Z := LABEL_W + Z.of_nat h * (CELL_HOURS + GAP).
Definition hour_y (d : nat) : Z := TOP + Z.of_nat d * (CELL_HOURS + GAP).
Definition hour_slots (rows : list (jstr * list Slot)) : list ((jstr * nat) * Z) :=
  flat_map (fun r => imap (fun h c => ((r.1, h), s_requests c)) r.2) rows.

(** ** The calendar *)

Section calendar.
Context (days : list (jstr * Slot)).
Definition big : bool := (length days <=? 31)%nat.
Definition cell : Z := if big then 30 else 12.
(** The weekday of the first day, Monday being 0; [None]: not a date. *)
Definition first : option Z := match days with (d, _) :: _ => (fun w => (w + 6) mod 7) <$> getDay d | [] => None end.
Definition cols (f : Z) : Z := (f + Z.of_nat (length days) + 6) / 7.
Definition width (f : Z) : Z := 30 + cols f * (cell + GAP).
Definition height : Z := TOP + 7 * (cell + GAP).
Definition col (f : Z) (i : nat) : Z := (f + Z.of_nat i) / 7.
Definition row (f : Z) (i : nat) : Z := (f + Z.of_nat i) mod 7.
Definition cell_x (f : Z) (i : nat) : Z := 30 + col f i * (cell + GAP).
Definition cell_y (f : Z) (i : nat) : Z := TOP + row f i * (cell + GAP).
(** The columns where a month begins; the first day has its month too. *)
Definition months (f : Z) : list (Z * jstr) :=
  omap (fun '(i, x) => if (i =? 0)%nat || bool_decide (getDate (fst x) = Some 1) then Some (col f i, fst x) else None) (imap pair days).
(** A month whose next one is too close has no label. *)
Fixpoint month_labels (ms : list (Z * jstr)) : list (Z * jstr) :=
  match ms with
  | m :: ((n :: _) as r) => if (n.1 - m.1) * (cell + GAP) <? 26 then month_labels r else m :: month_labels r
  | _ => ms
  end.
(** The weekdays named on the left. *)
Definition weekday_labels : list jstr := omap (fun '(r, w) => if Nat.even r || big then Some w else None) (imap pair WEEKDAYS).
Definition day_slots : list (jstr * Z) := map (fun x => (x.1, s_requests x.2)) days.
End calendar.

(** ** What is said *)

Section page.
Context (t : jstr -> jstr).
Inductive Body := Map_ (c : Chart) | Sentence (s : jstr).
(** [data] is nothing while the map is read, and when it could not be. *)
Definition body (o : option Activity) : Body :=
  match o with
  | None => Sentence (t (u "Chargement…"))
  | Some a => match a_chart a with
              | NoChart => Sentence (t (u "Aucune requête sur cette période."))
              | c => if 0 <? a_total a then Map_ c else Sentence (t (u "Aucune requête sur cette période."))
              end
  end.
Definition heading (period : jstr) : jstr :=
  if streq period (u "week") then t (u "Requêtes réussies, heure par heure sur chacun des 7 derniers jours (heure locale).") else t (u "Requêtes réussies, jour par jour.").
End page.
(** The view of the map is its period and its scope. *)
Definition heat_url (k : jstr * jstr) : jstr := u "/api/ranking/activity?period=" ++ k.1 ++ u "&scope=" ++ k.2.
Definition heat_start : Live (jstr * jstr) Activity := view_effect true (u "week", u "all") (mkLive (u "week", u "all") None false []).
Definition heat_run (es : list (ViewEvent (K := jstr * jstr) (D := Activity))) (v : Live (jstr * jstr) Activity) := view_run (fun _ => true) false es v.

(** ** Every day has its own cell, on the row of its weekday *)

(** The days follow one another. *)
Definition consecutive (days : list (jstr * Slot)) : Prop :=
  exists z, forall i x, days !! i = Some x -> day_number x.1 = Some (z + Z.of_nat i).
Lemma first_range days f : first days = Some f -> 0 <= f < 7.
Proof. unfold first. destruct days as [|[d s] l]; [done|]. destruct (getDay d); [|done]. intros [= <-]. apply Z.mod_pos_bound. lia. Qed.
Lemma cell_once f i j : col f i = col f j -> row f i = row f j -> i = j.
Proof.
  unfold col, row. intros C R. assert (A := Z.div_mod (f + Z.of_nat i) 7). assert (B := Z.div_mod (f + Z.of_nat j) 7). rewrite C, R in A. lia.
Qed.
Lemma row_weekday days f i x : consecutive days -> first days = Some f -> days !! i = Some x -> exists w, getDay x.1 = Some w /\ row f i = (w + 6) mod 7.
Proof.
  intros [z C] F L. unfold getDay. rewrite (C i x L). eexists. split; [reflexivity|]. unfold row, weekday. revert F. unfold first, getDay. destruct days as [|[d s] l] eqn:E; [done|].
  assert (D := C O (d, s) eq_refl). cbn [fst] in D. rewrite D. cbn. unfold weekday. intros [= <-].
  clear. Z.to_euclidean_division_equations. lia.
Qed.
Lemma col_bound days f i : 0 <= f -> (i < length days)%nat -> 0 <= col f i < cols days f.
Proof.
  intros F L. unfold col, cols. split; [apply Z.div_pos; lia|]. apply Z.div_lt_upper_bound; [lia|].
  assert (A := Z.div_mod (f + Z.of_nat (length days) + 6) 7). assert (B := Z.mod_pos_bound (f + Z.of_nat (length days) + 6) 7). lia.
Qed.
(** In the calendar each day has a cell of its own, inside the drawing, on the row
    of its real weekday. *)
Theorem one_cell_per_day days f : consecutive days -> first days = Some f ->
  (forall i j, cell_x days f i = cell_x days f j -> cell_y days f i = cell_y days f j -> i = j) /\
  forall i x, days !! i = Some x -> (exists w, getDay x.1 = Some w /\ row f i = (w + 6) mod 7) /\
    30 <= cell_x days f i /\ cell_x days f i + cell days <= width days f /\ TOP <= cell_y days f i /\ cell_y days f i + cell days <= height days.
Proof.
  intros C F. assert (R := first_range days f F). assert (P : 0 < cell days) by (unfold cell; destruct (big days); lia). split.
  - intros i j X Y. unfold cell_x, cell_y, GAP in *. assert (col f i = col f j) by nia. assert (row f i = row f j) by nia. by apply (cell_once f i j).
  - intros i x L. split; [by apply (row_weekday days)|]. assert (B := col_bound days f i ltac:(lia) (lookup_lt_Some _ _ _ L)).
    assert (W : 0 <= row f i < 7) by (apply Z.mod_pos_bound; lia). unfold cell_x, cell_y, width, height, GAP, TOP in *. nia.
Qed.

(** ** The months do not overlap *)

Definition apart (days : list (jstr * Slot)) (a b : Z * jstr) : Prop := 26 <= (b.1 - a.1) * (cell days + GAP).
Lemma month_labels_cons days m n r : month_labels days (m :: n :: r) =
  if (n.1 - m.1) * (cell days + GAP) <? 26 then month_labels days (n :: r) else m :: month_labels days (n :: r).
Proof. reflexivity. Qed.
Lemma labels_incl days ms : month_labels days ms `sublist_of` ms.
Proof.
  induction ms as [|m [|n r] IH]; [done|done|]. rewrite month_labels_cons. destruct (_ <? 26); [by apply sublist_cons|by apply sublist_skip].
Qed.
Lemma labels_apart days ms : StronglySorted (fun a b => a.1 <= b.1) ms -> StronglySorted (apart days) (month_labels days ms).
Proof.
  assert (P : 0 < cell days) by (unfold cell; destruct (big days); lia).
  induction 1 as [|m ms S IH H]; [constructor|]. destruct ms as [|n r]; [by repeat constructor|]. rewrite month_labels_cons.
  destruct (Z.ltb_spec ((n.1 - m.1) * (cell days + GAP)) 26) as [L|L]; [exact IH|]. constructor; [exact IH|].
  apply Forall_forall. intros x X. eapply elem_of_sublist in X; [|apply labels_incl]. unfold apart, GAP in *. rewrite elem_of_cons in X. destruct X as [->|X]; [lia|].
  apply StronglySorted_inv in S as [_ S]. rewrite Forall_forall in S. assert (K := S x X). nia.
Qed.
Lemma months_sorted f days : StronglySorted (fun a b => a.1 <= b.1) (months days f).
Proof.
  unfold months. assert (G : forall l k (g : nat -> (jstr * Slot) -> nat * (jstr * Slot)), (forall i x, (g i x).1 = (k + i)%nat) ->
    StronglySorted (fun a b : Z * jstr => a.1 <= b.1) (omap (fun '(i, x) => if (i =? 0)%nat || bool_decide (getDate (fst x) = Some 1) then Some (col f i, fst x) else None) (imap g l)) /\
    Forall (fun a : Z * jstr => col f k <= a.1) (omap (fun '(i, x) => if (i =? 0)%nat || bool_decide (getDate (fst x) = Some 1) then Some (col f i, fst x) else None) (imap g l))).
  { induction l as [|y l IH]; intros k g E; [split; constructor|]. cbn [imap omap list_omap]. destruct (IH (S k) (fun i x => g (S i) x)) as [A B]; [intros i x; rewrite E; lia|].
    assert (M : col f k <= col f (S k)) by (apply Z.div_le_mono; lia). assert (B' : Forall (fun a : Z * jstr => col f k <= a.1)
      (omap (fun '(i, x) => if (i =? 0)%nat || bool_decide (getDate (fst x) = Some 1) then Some (col f i, fst x) else None) (imap (fun i x => g (S i) x) l)))
      by (eapply Forall_impl; [exact B|]; intros a; cbn; lia).
    assert (E0 := E O y). destruct (g O y) as [i x]. cbn [fst] in E0. rewrite Nat.add_0_r in E0. subst i. change (imap (g ∘ S) l) with (imap (fun i x => g (S i) x) l).
    destruct (_ || _); split; try done; constructor; cbn [fst]; try done; lia. }
  apply (G days O pair). done.
Qed.
(** The names of the months keep their distance: two of them never overlap. *)
Theorem months_apart days f : StronglySorted (apart days) (month_labels days (months days f)).
Proof. apply labels_apart, months_sorted. Qed.

(** ** The busiest moment *)

Lemma busiest_spec {A} (l : list (A * Z)) :
  match busiest l with
  | None => Forall (fun x => snd x <= 0) l
  | Some p => p ∈ l /\ 0 < snd p /\ Forall (fun x => snd x <= snd p) l
  end.
Proof.
  unfold busiest. induction l as [|x l IH] using rev_ind; [constructor|]. rewrite foldl_app. cbn [foldl]. destruct (foldl _ None l) as [p|].
  - destruct IH as (I & P & F). destruct (Z.ltb_spec (snd p) (snd x)); (split; [apply elem_of_app; rewrite ?list_elem_of_singleton; tauto|]; split; [lia|]); apply Forall_app; (split; [|by repeat constructor; lia]);
      [|exact F]. eapply Forall_impl; [exact F|]. cbn. lia.
  - destruct (Z.ltb_spec 0 (snd x)).
    + split; [apply elem_of_app; rewrite list_elem_of_singleton; tauto|]. split; [done|]. apply Forall_app. split; [|by repeat constructor]. eapply Forall_impl; [exact IH|]. cbn. lia.
    + apply Forall_app. split; [done|]. by repeat constructor.
Qed.

(** ** Examples and what the map does not do *)

(** A map that could not be read says that it loads, and nothing is awaited. *)
Lemma lost_map_loads_forever : let v := heat_run [ViewAnswer 0 None] heat_start in calls v = [] /\ body (fun s => s) (data v) = Sentence (u "Chargement…").
Proof. vm_compute. split; reflexivity. Qed.
Example dates : day_number (u "1970-01-01") = Some 0 /\ day_number (u "2024-02-29") = Some 19782 /\ getDay (u "2026-10-14") = Some 3 /\ getDay (u "nonsense") = None.
Proof. vm_compute. repeat split; reflexivity. Qed.
Definition day (s : jstr) : jstr * Slot := (s, mkSlot 1 10).
Definition turn_of_year : list (jstr * Slot) := map day [u "2025-12-30"; u "2025-12-31"; u "2026-01-01"; u "2026-01-02"].
Example short_month_gives_way : first turn_of_year = Some 1 /\ month_labels turn_of_year (months turn_of_year 1) = [(0, u "2026-01-01")].
Proof. vm_compute. split; reflexivity. Qed.
Example peak_is_first : busiest [(u "a", 2); (u "b", 3); (u "c", 3)] = Some (u "b", 3).
Proof. vm_compute. reflexivity. Qed.

Theorem one_cell_per_day_witness :
  (forall i j, cell_x turn_of_year 1 i = cell_x turn_of_year 1 j -> cell_y turn_of_year 1 i = cell_y turn_of_year 1 j -> i = j) /\
  forall i x, turn_of_year !! i = Some x -> (exists w, getDay x.1 = Some w /\ row 1 i = (w + 6) mod 7) /\
    30 <= cell_x turn_of_year 1 i /\ cell_x turn_of_year 1 i + cell turn_of_year <= width turn_of_year 1 /\ TOP <= cell_y turn_of_year 1 i /\
    cell_y turn_of_year 1 i + cell turn_of_year <= height turn_of_year.
Proof.
  apply (one_cell_per_day turn_of_year 1); [|reflexivity]. exists 20452. intros i x H.
  do 4 (destruct i as [|i]; [injection H as <-; reflexivity|]). discriminate H.
Defined.
