(* ===== verification/Config.v ===== *)
(** * The configuration of the instance (admin/_components/ConfigTab.tsx, BrandingConfig.tsx)

    One card per service: its fields, its state, its test.  A card sends only the
    fields it changed; a secret is never filled and an empty one is left as it is. *)

From S2P Require Import Prelude JsString JsJson I18n Shared.
Local Open Scope flow_scope.

Record Row := mkRow { name : jstr; label : jstr; secret : bool; value : jstr; configure : bool; source : jstr; default_ : option jstr }.
Record Suggestions := mkSuggestions { oidc_redirect_uri : option jstr; oidc_post_logout : option jstr; discord_redirect_uri : option jstr }.
Definition CLEAR : jstr := u "__effacer__".
Record Field := mkField { f_label : jstr; f_help : option jstr; f_example : option jstr }.
Definition FIELDS : list (jstr * Field) :=
  [(u "ldap_uri", mkField (u "Serveur") (Some (u "ldaps:// pour une connexion chiffrée.")) (Some (u "ldap://annuaire.example.org:389")));
   (u "ldap_base", mkField (u "Base DN") None (Some (u "dc=example,dc=org")));
   (u "ldap_users_dn", mkField (u "Branche des comptes") (Some (u "Relative à la base DN.")) None);
   (u "ldap_login_attr", mkField (u "Attribut d'identifiant") (Some (u "cn (Authentik), uid (OpenLDAP, lldap), sAMAccountName (Active Directory).")) None);
   (u "ldap_bind_dn", mkField (u "Compte de service (DN)") (Some (u "Lit les comptes, leur état et leurs groupes.")) (Some (u "cn=service,ou=users,dc=example,dc=org")));
   (u "ldap_bind_pw", mkField (u "Mot de passe du compte de service") None None);
   (u "oidc_metadata_url", mkField (u "URL de métadonnées") None (Some (u "https://sso.example.org/application/o/dgx/.well-known/openid-configuration")));
   (u "oidc_client_id", mkField (u "Client ID") None None);
   (u "oidc_client_secret", mkField (u "Client secret") None None);
   (u "oidc_admin_group", mkField (u "Groupe administrateur") (Some (u "Ses membres (LDAP ou SSO) sont administrateurs du portail.")) None);
   (u "oidc_redirect_uri", mkField (u "URI de retour") (Some (u "Vide : l'adresse suggérée ci-dessous.")) None);
   (u "oidc_logout_url", mkField (u "Déconnexion du fournisseur") (Some (u "Optionnelle : ferme aussi la session SSO à la déconnexion.")) (Some (u "https://sso.example.org/application/o/dgx/end-session/")));
   (u "smtp_host", mkField (u "Serveur") None (Some (u "smtp.example.org")));
   (u "smtp_port", mkField (u "Port") (Some (u "587 avec STARTTLS.")) None);
   (u "smtp_user", mkField (u "Utilisateur") None (Some (u "no-reply@example.org")));
   (u "smtp_pass", mkField (u "Mot de passe") None None);
   (u "smtp_from", mkField (u "Expéditeur") (Some (u "Vide : l'utilisateur SMTP.")) (Some (u "Plateforme IA <no-reply@example.org>")));
   (u "admin_email", mkField (u "Destinataire des alertes") (Some (u "Demandes, maintenance, pannes — et le test d'envoi.")) (Some (u "admin@example.org")));
   (u "discord_webhook_url", mkField (u "Webhook des alertes admin") (Some (u "Demandes de modèle et de budget, publiées sur un salon.")) None);
   (u "discord_bot_token", mkField (u "Jeton du bot") (Some (u "Envoie les annonces en message privé aux comptes liés.")) None);
   (u "discord_client_id", mkField (u "Client ID") (Some (u "Application OAuth2 qui lie un compte Discord.")) None);
   (u "discord_client_secret", mkField (u "Client secret") None None);
   (u "discord_redirect_uri", mkField (u "URI de retour") (Some (u "Vide : l'adresse suggérée ci-dessous.")) None);
   (u "s3_endpoint", mkField (u "Endpoint") (Some (u "Adresse du service S3 (Garage, MinIO, AWS…).")) (Some (u "https://s3.example.org")));
   (u "s3_region", mkField (u "Région") (Some (u "Garage : « garage » ; MinIO : souvent « us-east-1 ».")) None);
   (u "s3_bucket", mkField (u "Bucket") (Some (u "Doit exister et rester privé : il reçoit les sauvegardes (avec .env).")) (Some (u "dgx")));
   (u "s3_prefix", mkField (u "Préfixe") (Some (u "Optionnel : dossier du bucket où tout est rangé.")) (Some (u "dgx")));
   (u "s3_access_key", mkField (u "Clé d'accès") None None);
   (u "s3_secret_key", mkField (u "Clé secrète") None None);
   (u "ranking_price_input", mkField (u "Prix en entrée") (Some (u "Par million de tokens, au tarif d'une API commerciale de référence.")) None);
   (u "ranking_price_output", mkField (u "Prix en sortie") (Some (u "Par million de tokens générés.")) None);
   (u "ranking_price_currency", mkField (u "Devise") (Some (u "Code ISO : USD, EUR…")) None);
   (u "security_contact", mkField (u "Contact sécurité") (Some (u "Publié dans /.well-known/security.txt. Vide : le destinataire des alertes.")) (Some (u "mailto:security@example.org")))].

(** ** The cards *)

Inductive State := ACTIVE | INCOMPLETE | DISABLED.
#[export] Instance State_eq_dec : EqDecision State.
Proof. solve_decision. Defined.
Definition state_label (s : State) : jstr := match s with ACTIVE => u "Actif" | INCOMPLETE => u "Incomplet" | DISABLED => u "Désactivé" end.
Definition accordingTo (v : jstr -> bool) (required : list jstr) : State :=
  let n := length (List.filter v required) in if n =? length required then ACTIVE else if n =? 0 then DISABLED else INCOMPLETE.
Record Card := mkCard { c_id : jstr; c_title : jstr; c_prefixes : list jstr; c_test : option jstr; c_state : (jstr -> bool) -> State }.
Definition SECTIONS : list Card :=
  [mkCard (u "ldap") (u "Annuaire LDAP") [u "ldap_"] (Some (u "ldap")) (fun v => accordingTo v [u "ldap_uri"; u "ldap_bind_dn"; u "ldap_bind_pw"]);
   mkCard (u "sso") (u "SSO (OpenID Connect)") [u "oidc_"] (Some (u "sso")) (fun v => accordingTo v [u "oidc_metadata_url"; u "oidc_client_id"; u "oidc_client_secret"]);
   mkCard (u "smtp") (u "E-mail") [u "smtp_"; u "admin_email"] (Some (u "smtp"))
     (fun v => let e := accordingTo v [u "smtp_host"; u "smtp_user"; u "smtp_pass"] in
               if bool_decide (e = ACTIVE) && negb (v (u "admin_email")) then INCOMPLETE else e);
   mkCard (u "discord") (u "Discord") [u "discord_"] (Some (u "discord"))
     (fun v => if v (u "discord_webhook_url") || v (u "discord_bot_token") || (v (u "discord_client_id") && v (u "discord_client_secret")) then ACTIVE else DISABLED);
   mkCard (u "s3") (u "Stockage S3") [u "s3_"] (Some (u "s3")) (fun v => accordingTo v [u "s3_endpoint"; u "s3_bucket"; u "s3_access_key"; u "s3_secret_key"]);
   mkCard (u "classement") (u "Classement") [u "ranking_"] None (fun _ => ACTIVE);
   mkCard (u "securite") (u "Sécurité") [u "security_"] None (fun v => if v (u "security_contact") then ACTIVE else DISABLED)].
Definition sectionDe (n : jstr) : option Card := List.find (fun s => existsb (fun p => starts_with n p) (c_prefixes s)) SECTIONS.
(** The card of a line, that of the security when no prefix is its own. *)
Definition card_of (l : Row) : jstr := match sectionDe (name l) with Some s => c_id s | None => u "securite" end.
Definition initial (l : Row) : jstr := if secret l then [] else value l.

(** ** The tab *)

Record TestState := mkTest { t_running : bool; t_ok : option bool; t_message : option jstr }.
(** What is awaited: a reading (of the page, or after a card was saved), the saving
    of a card, a test. *)
Inductive Call := Reading (after : option jstr) | Saving (card : Card) | Testing (card : Card).
Inductive CEffect := AskedConfig | Saved (card : jstr) (fields : list (jstr * jstr)) | Tested (t : jstr) | Copied (s : jstr) | Toast (body : jstr) (error : bool).

Record CPage := mkCPage {
  lines : list Row; suggestions : Suggestions; draft : list (jstr * jstr); sending : option jstr;
  test : list (jstr * TestState); version : nat; calls : list Call; asked : list CEffect
}.

Definition set_lines v p := mkCPage v (suggestions p) (draft p) (sending p) (test p) (version p) (calls p) (asked p).
Definition set_suggestions v p := mkCPage (lines p) v (draft p) (sending p) (test p) (version p) (calls p) (asked p).
Definition set_draft v p := mkCPage (lines p) (suggestions p) v (sending p) (test p) (version p) (calls p) (asked p).
Definition set_sending v p := mkCPage (lines p) (suggestions p) (draft p) v (test p) (version p) (calls p) (asked p).
Definition set_test v p := mkCPage (lines p) (suggestions p) (draft p) (sending p) v (version p) (calls p) (asked p).
Definition set_version v p := mkCPage (lines p) (suggestions p) (draft p) (sending p) (test p) v (calls p) (asked p).
Definition set_calls v p := mkCPage (lines p) (suggestions p) (draft p) (sending p) (test p) (version p) v (asked p).
Definition emit (e : CEffect) p := mkCPage (lines p) (suggestions p) (draft p) (sending p) (test p) (version p) (calls p) (asked p ++ [e]).
Ltac config_fields := cbn [lines suggestions draft sending test version calls asked set_lines set_suggestions set_draft set_sending set_test set_version set_calls emit] in *.

Definition await (c : Call) (p : CPage) : CPage := set_calls (calls p ++ [c]) p.
Definition load (after : option jstr) (p : CPage) : CPage := p |> await (Reading after) |> emit AskedConfig.
Definition config_start : CPage := load None (mkCPage [] (mkSuggestions None None None) [] None [] 0 [] []).
Definition bySection (id : jstr) (p : CPage) : list Row := List.filter (fun l => streq (card_of l) id) (lines p).
Definition drafted (p : CPage) (l : Row) : jstr := match assoc_get (name l) (draft p) with Some v => v | None => [] end.
Definition modified (p : CPage) (l : Row) : bool := negb (streq (drafted p l) (initial l)).
Definition configured (p : CPage) (n : jstr) : bool := match List.find (fun l => streq (name l) n) (lines p) with Some l => configure l | None => false end.
Definition dirty (s : Card) (p : CPage) : bool := existsb (modified p) (bySection (c_id s) p).
Definition fresh_draft (l : list Row) : list (jstr * jstr) := foldl (fun d r => assoc_set (name r) (initial r) d) [] l.
(** The configuration is read: nothing changes when it could not be. *)
Definition loaded (r : option (list Row * Suggestions)) (p : CPage) : CPage :=
  match r with
  | None => p
  | Some (l, s) => p |> set_lines l |> set_suggestions s |> set_draft (fresh_draft l) |> set_version (S (version p))
  end.
Definition set_test_of (id : jstr) (s : TestState) (p : CPage) : CPage := set_test (assoc_set id s (test p)) p.

Section tab.
Context (t : jstr -> jstr).
Definition failed_toast : jstr := t (u "Échec de l'enregistrement").
Definition save (s : Card) (p : CPage) : CPage :=
  match List.filter (modified p) (bySection (c_id s) p) with
  | [] => p
  | fields => p |> set_sending (Some (c_id s)) |> await (Saving s) |> emit (Saved (c_id s) (map (fun l => (name l, drafted p l)) fields))
  end.
(** The answer of the saving: lost, or whether the server says ok. *)
Definition saved (s : Card) (r : option bool) (p : CPage) : CPage :=
  match r with
  | None => p |> emit (Toast failed_toast true) |> set_sending None
  | Some true => p |> emit (Toast (replace_str (t (u "{s} : enregistré.")) (u "{s}") (t (c_title s))) false)
                   |> set_test_of (c_id s) (mkTest false None None) |> load (Some (c_id s))
  | Some false => p |> emit (Toast failed_toast true) |> set_sending None
  end.
Definition cancel (s : Card) (p : CPage) : CPage := set_draft (foldl (fun d l => assoc_set (name l) (initial l) d) (draft p) (bySection (c_id s) p)) p.
Definition tester (s : Card) (p : CPage) : CPage :=
  match c_test s with
  | None => p
  | Some n => p |> set_test_of (c_id s) (mkTest true None None) |> await (Testing s) |> emit (Tested n)
  end.
(** The answer of a test: lost, or its verdict and its message. *)
Definition tested (s : Card) (r : option (bool * jstr)) (p : CPage) : CPage :=
  set_test_of (c_id s)
    (match r with
     | None => mkTest false (Some false) (Some (t (u "Le test n'a pas pu être lancé.")))
     | Some (ok, raw) => mkTest false (Some ok) (Some (match raw with [] => [] | _ => tServer raw t end))
     end) p.
Definition clipboardCopy (s : jstr) (clipboard exec : option bool) (p : CPage) : CPage :=
  if (copyText clipboard exec).1.1 then emit (Copied s) p else emit (Toast (t (u "Copie impossible depuis ce navigateur.")) true) p.

(** What a field shows: its text and, when it is empty, what is behind it. *)
Definition field_text (p : CPage) (l : Row) : jstr := if secret l && streq (drafted p l) CLEAR then [] else drafted p l.
Definition placeholder (p : CPage) (l : Row) : option jstr :=
  if secret l then Some (if streq (drafted p l) CLEAR then t (u "(sera effacé à l'enregistrement)")
                         else if configure l then t (u "•••••• (laisse vide pour garder)") else t (u "(non défini)"))
  else let meta := assoc_get (name l) FIELDS in
       let example := match meta with Some m => f_example m | None => None end in
       let shown := match example with Some e => Some e | None => match default_ l with Some ((_ :: _) as d) => Some d | _ => None end end in
       match shown with Some e => Some (replace_str (t (u "ex. {v}")) (u "{v}") e) | None => None end.
Definition can_clear (p : CPage) (l : Row) : bool := secret l && configure l && negb (streq (drafted p l) CLEAR).
(** What to declare at the provider of a card. *)
Definition toDeclare (s : Card) (p : CPage) : list (jstr * jstr) :=
  omap (fun x => match x.2 with Some ((_ :: _) as uri) => Some (x.1, uri) | _ => None end)
    (if streq (c_id s) (u "sso") then [(u "URI de retour", oidc_redirect_uri (suggestions p)); (u "URI après déconnexion", oidc_post_logout (suggestions p))]
     else if streq (c_id s) (u "discord") then [(u "URI de retour", discord_redirect_uri (suggestions p))] else []).
Definition running (s : Card) (p : CPage) : bool := match assoc_get (c_id s) (test p) with Some x => t_running x | None => false end.
Definition shown_card (s : Card) (p : CPage) : bool := match bySection (c_id s) p with [] => false | _ => true end.

Inductive CEvent :=
| CfType (l : Row) (v : jstr) | CfClear (l : Row) | CfSave (s : Card) | CfCancel (s : Card) | CfTest (s : Card) | CfCopy (s : jstr) (clipboard exec : option bool)
| CfConfig (i : nat) (r : option (list Row * Suggestions)) | CfSaved (i : nat) (r : option bool) | CfTested (i : nat) (r : option (bool * jstr)).
(** The answer of the call [i], when it is of that kind. *)
Definition answer (i : nat) (f : Call -> option (CPage -> CPage)) (p : CPage) : CPage :=
  match calls p !! i with
  | Some c => match f c with Some g => g (set_calls (delete i (calls p)) p) | None => p end
  | None => p
  end.
Definition config_handle (e : CEvent) (p : CPage) : CPage :=
  match e with
  | CfType l v => set_draft (assoc_set (name l) v (draft p)) p
  | CfClear l => if can_clear p l then set_draft (assoc_set (name l) CLEAR (draft p)) p else p
  | CfSave s => if dirty s p && bool_decide (sending p = None) then save s p else p
  | CfCancel s => if dirty s p && negb (bool_decide (sending p = Some (c_id s))) then cancel s p else p
  | CfTest s => if running s p || dirty s p || bool_decide (c_state s (configured p) = DISABLED) then p else tester s p
  | CfCopy s c x => clipboardCopy s c x p
  | CfConfig i r => answer i (fun c => match c with
                                       | Reading None => Some (loaded r)
                                       | Reading (Some _) => Some (fun p => p |> loaded r |> set_sending None)
                                       | _ => None
                                       end) p
  | CfSaved i r => answer i (fun c => match c with Saving s => Some (saved s r) | _ => None end) p
  | CfTested i r => answer i (fun c => match c with Testing s => Some (tested s r) | _ => None end) p
  end.
Definition config_run (es : list CEvent) (p : CPage) : CPage := foldl (fun p e => config_handle e p) p es.
End tab.

(** ** The identity of the instance *)

Definition LOGO_MAX_BYTES : Z := 2 * 1024 * 1024.
Inductive BEffect := Branded (name logo : jstr) | BToast (body : jstr) (error : bool).
Record BPage := mkBPage {
  bp_name : jstr; bp_logo : option jstr; bp_preview : option jstr; bp_sending : bool; bp_posts : nat;
  bp_asked : list BEffect
}.

Definition set_bp_name v b := mkBPage v (bp_logo b) (bp_preview b) (bp_sending b) (bp_posts b) (bp_asked b).
Definition set_bp_logo v b := mkBPage (bp_name b) v (bp_preview b) (bp_sending b) (bp_posts b) (bp_asked b).
Definition set_bp_preview v b := mkBPage (bp_name b) (bp_logo b) v (bp_sending b) (bp_posts b) (bp_asked b).
Definition set_bp_sending v b := mkBPage (bp_name b) (bp_logo b) (bp_preview b) v (bp_posts b) (bp_asked b).
Definition set_bp_posts v b := mkBPage (bp_name b) (bp_logo b) (bp_preview b) (bp_sending b) v (bp_asked b).
Definition b_emit (e : BEffect) b := mkBPage (bp_name b) (bp_logo b) (bp_preview b) (bp_sending b) (bp_posts b) (bp_asked b ++ [e]).
Ltac branding_fields := cbn [bp_name bp_logo bp_preview bp_sending bp_posts bp_asked set_bp_name set_bp_logo set_bp_preview set_bp_sending set_bp_posts b_emit] in *.

Section branding.
Context (t : jstr -> jstr).
(** The name the card starts from: the one known when it appears. *)
Definition branding_card (initialName : option jstr) (brand : Branding) : BPage :=
  mkBPage (match initialName with Some ((_ :: _) as n) => n | _ => Shared.b_name brand end) None None false 0 [].
Definition choose (file : option (Z * jstr)) (b : BPage) : BPage :=
  match file with
  | None => b
  | Some (size, url) => if (LOGO_MAX_BYTES <? size)%Z then b_emit (BToast (t (u "Logo trop lourd (2 Mo maximum).")) true) b
                        else b |> set_bp_logo (Some url) |> set_bp_preview (Some url)
  end.
Definition remove_logo (b : BPage) : BPage := match bp_preview b with Some (_ :: _) => b |> set_bp_logo (Some (u "-")) |> set_bp_preview None | _ => b end.
Definition save_brand (b : BPage) : BPage :=
  b |> set_bp_sending true |> set_bp_posts (S (bp_posts b)) |> b_emit (Branded (trim (bp_name b)) (match bp_logo b with Some l => l | None => [] end)).
Definition branded (r : option bool) (b : BPage) : BPage :=
  match bp_posts b with
  | O => b
  | S n => b |> set_bp_posts n
             |> b_emit (match r with Some true => BToast (t (u "Identité enregistrée.")) false | _ => BToast (t (u "Échec de l'enregistrement")) true end)
             |> set_bp_sending false
  end.
End branding.

(** ** Every line has its card *)

Lemma sectionDe_id n s : sectionDe n = Some s -> s ∈ SECTIONS.
Proof. unfold sectionDe. intros H%find_some. rewrite list_elem_of_In. by destruct H. Qed.
Lemma card_of_known l : card_of l ∈ map c_id SECTIONS.
Proof.
  unfold card_of. destruct (sectionDe (name l)) as [s|] eqn:E.
  - apply list_elem_of_In, in_map, list_elem_of_In. by apply (sectionDe_id (name l)).
  - apply list_elem_of_In. vm_compute. tauto.
Qed.
Lemma ids_once : NoDup (map c_id SECTIONS).
Proof. apply (bool_decide_unpack _). vm_compute. exact I. Qed.
Lemma split_lines ids ls : NoDup ids -> Forall (fun l => card_of l ∈ ids) ls -> Permutation (flat_map (fun id => List.filter (fun l => streq (card_of l) id) ls) ids) ls.
Proof.
  intros N H. induction H as [|l ls Hl _ IH].
  { replace (flat_map _ ids) with (@nil Row) by (clear; induction ids as [|i ids IH]; [done|exact IH]). done. }
  assert (G : Permutation (flat_map (fun id => List.filter (fun x => streq (card_of x) id) (l :: ls)) ids) (l :: flat_map (fun id => List.filter (fun x => streq (card_of x) id) ls) ids)); [|by rewrite G, IH].
  clear IH. induction ids as [|i ids IH]; [by apply elem_of_nil in Hl|]. apply NoDup_cons in N as [N1 N2]. cbn [flat_map List.filter]. destruct (streq_spec (card_of l) i) as [<-|N].
  - cbn [app]. constructor. apply Permutation_app_head. clear IH Hl N2. induction ids as [|j ids IH]; [done|]. cbn [flat_map List.filter]. rewrite not_elem_of_cons in N1. destruct N1 as [N1 N3].
    destruct (streq_spec (card_of l) j); [done|]. apply Permutation_app_head. by apply IH.
  - rewrite elem_of_cons in Hl. destruct Hl as [Hl|Hl]; [congruence|]. rewrite (IH N2 Hl). symmetry. apply Permutation_middle.
Qed.
(** Each line of the configuration is in one card and one only, whatever its name. *)
Theorem lines_in_one_card p : Permutation (flat_map (fun s => bySection (c_id s) p) SECTIONS) (lines p).
Proof.
  assert (H := split_lines (map c_id SECTIONS) (lines p) ids_once). rewrite flat_map_concat_map, map_map, <- flat_map_concat_map in H. apply H.
  apply List.Forall_forall. intros l _. apply card_of_known.
Qed.

(** ** What leaves the page *)

Section spec.
Context (t : jstr -> jstr).
#[local] Abbreviation handle := (config_handle t) (only parsing).
#[local] Abbreviation run := (config_run t) (only parsing).

(** What an event asks for. *)
Definition news (e : CEvent) (p : CPage) : list CEffect := drop (length (asked p)) (asked (handle e p)).
(** A saving sends the fields of one card that differ from what was read, and a
    test runs on a card with nothing to save. *)
Definition sent_ok (x : CEffect) (p : CPage) : Prop :=
  match x with
  | Saved id fields => fields <> [] /\ sending p = None /\
      forall n v, In (n, v) fields -> exists l, l ∈ lines p /\ card_of l = id /\ n = name l /\ v = drafted p l /\ v <> initial l
  | Tested n => exists s, c_test s = Some n /\ dirty s p = false /\ c_state s (configured p) <> DISABLED
  | _ => True
  end.
Lemma saved_fields s p : forall n v, In (n, v) (map (fun l => (name l, drafted p l)) (List.filter (modified p) (bySection (c_id s) p))) ->
  exists l, l ∈ lines p /\ card_of l = c_id s /\ n = name l /\ v = drafted p l /\ v <> initial l.
Proof.
  intros n v H. apply in_map_iff in H as (l & [= <- <-] & H). apply filter_In in H as [H M]. unfold bySection in H. apply filter_In in H as [H C]. exists l.
  split; [by apply list_elem_of_In|]. split; [by destruct (streq_spec (card_of l) (c_id s))|]. repeat split. unfold modified in M. apply negb_true_iff in M. by destruct (streq_spec (drafted p l) (initial l)).
Qed.
(** Nothing but modified fields leaves the page: a secret neither typed nor cleared
    is never sent, another card is never saved, and a test is about what is saved. *)
Theorem only_modified_sent e p : Forall (fun x => sent_ok x p) (news e p).
Proof.
  assert (Q : forall q, asked q = asked p -> Forall (fun x => sent_ok x p) (drop (length (asked p)) (asked q))) by (intros q E; by rewrite E, drop_ge).
  assert (O : forall q l, asked q = asked p ++ l -> Forall (fun x => sent_ok x p) l -> Forall (fun x => sent_ok x p) (drop (length (asked p)) (asked q))) by (intros q l E F; by rewrite E, drop_app_length).
  unfold news. destruct e; cbn [config_handle]; try (by apply Q).
  - destruct (can_clear p l); by apply Q.
  - destruct (dirty s p && bool_decide (sending p = None)) eqn:D; [|by apply Q]. bool_norm. unfold save. assert (F := saved_fields s p).
    destruct (List.filter _ _) as [|x l] eqn:E; [by apply Q|]. eapply O; [reflexivity|]. constructor; [|done]. split; [done|]. split; [done|exact F].
  - destruct (_ && _); by apply Q.
  - destruct (running s p || dirty s p || _) eqn:D; [by apply Q|]. bool_norm. unfold tester. destruct (c_test s) as [n|] eqn:E; [|by apply Q]. eapply O; [reflexivity|]. constructor; [|done]. by exists s.
  - unfold clipboardCopy. destruct (_.1.1); (eapply O; [reflexivity|by repeat constructor]).
  - unfold answer. destruct (calls p !! i) as [[[a|]|s|s]|]; try (by apply Q); unfold loaded; destruct r as [[l g]|]; by apply Q.
  - unfold answer. destruct (calls p !! i) as [[a|s|s]|]; try (by apply Q). unfold saved, load. destruct r as [[]|]; (eapply O; [unfold await, set_test_of; config_fields; rewrite <- ?app_assoc; reflexivity|by repeat constructor]).
  - unfold answer. destruct (calls p !! i) as [[a|s|s]|]; by apply Q.
Qed.

(** ** One card is saved at a time *)

Definition of_save (c : Call) : option jstr := match c with Reading (Some id) => Some id | Saving s => Some (c_id s) | _ => None end.
Definition saving_ok (p : CPage) : Prop := omap of_save (calls p) = option_list (sending p).
Lemma omap_snoc {A B} (f : A -> option B) l x : omap f (l ++ [x]) = omap f l ++ option_list (f x).
Proof. rewrite omap_app. by cbn; destruct (f x). Qed.
Lemma omap_one {A B} (f : A -> option B) x l : omap f (x :: l) = option_list (f x) ++ omap f l.
Proof. cbn. by destruct (f x). Qed.
Lemma omap_delete {A B} (f : A -> option B) (l : list A) i x : l !! i = Some x -> f x = None -> omap f (delete i l) = omap f l.
Proof. intros H F. rewrite <- (take_drop_middle l i x H) at 2. rewrite delete_take_drop, !omap_app, omap_one, F. done. Qed.
Lemma omap_delete_only {A B} (f : A -> option B) (l : list A) i x b o : l !! i = Some x -> f x = Some b -> omap f l = option_list o -> o = Some b /\ omap f (delete i l) = [].
Proof.
  intros H F E. rewrite <- (take_drop_middle l i x H) in E. rewrite delete_take_drop, !omap_app in *. rewrite omap_one, F in E. revert E. generalize (omap f (take i l)), (omap f (drop (S i) l)). intros [|c r] m E; destruct o as [d|]; try done; cbn in E.
  - by injection E as <- ->.
  - injection E as _ E. by destruct r.
Qed.
Lemma saving_step e p : saving_ok p -> saving_ok (handle e p).
Proof.
  unfold saving_ok. intros H. destruct e; cbn [config_handle]; try exact H.
  - by destruct (can_clear p l).
  - destruct (dirty s p && _) eqn:D; [|exact H]. bool_norm. unfold save, await. destruct (List.filter _ _); [exact H|]. config_fields. rewrite omap_snoc, H. match goal with X : sending p = None |- _ => by rewrite X end.
  - by destruct (_ && _).
  - destruct (_ || _); [exact H|]. unfold tester, await, set_test_of. destruct (c_test s); [|exact H]. config_fields. rewrite omap_snoc, H. apply app_nil_r.
  - unfold clipboardCopy. by destruct (_.1.1).
  - unfold answer. destruct (calls p !! i) as [c|] eqn:L; [|exact H]. destruct c as [[id|]|s|s]; [| |exact H|exact H].
    + destruct (omap_delete_only of_save (calls p) i _ id (sending p) L eq_refl H) as [_ E]. unfold loaded. destruct r as [[]|]; config_fields; exact E.
    + assert (E := omap_delete of_save (calls p) i _ L eq_refl). unfold loaded. destruct r as [[]|]; config_fields; by rewrite E.
  - unfold answer. destruct (calls p !! i) as [c|] eqn:L; [|exact H]. destruct c as [o|s|s]; [exact H| |exact H].
    destruct (omap_delete_only of_save (calls p) i _ (c_id s) (sending p) L eq_refl H) as [S E]. unfold saved, load, await, set_test_of. destruct r as [[]|]; config_fields; [|exact E|exact E].
    rewrite omap_snoc, E, S. done.
  - unfold answer. destruct (calls p !! i) as [c|] eqn:L; [|exact H]. destruct c as [o|s|s]; [exact H|exact H|]. assert (E := omap_delete of_save (calls p) i _ L eq_refl). unfold tested, set_test_of. config_fields. by rewrite E.
Qed.
(** One card at most is being saved or read again after, and it is the one whose
    button says so. *)
Theorem one_card_saved es : let p := run es config_start in omap of_save (calls p) = option_list (sending p).
Proof.
  assert (G : forall es p, saving_ok p -> saving_ok (run es p)); [|by apply G]. clear. induction es as [|e es IH]; intros p H; [done|]. by apply IH, saving_step.
Qed.

(** ** A reading fills the form *)

Lemma fresh_get ls : forall d n, assoc_get n (foldl (fun d r => assoc_set (name r) (initial r) d) d ls) =
  match last (List.filter (fun r => streq (name r) n) ls) with Some r => Some (initial r) | None => assoc_get n d end.
Proof.
  induction ls as [|r ls IH]; intros d n; [done|]. cbn [foldl List.filter]. rewrite IH. destruct (streq_spec (name r) n) as [<-|N].
  - destruct (List.filter _ ls) as [|x l] eqn:E; [by rewrite assoc_set_same|]. rewrite last_cons_cons. destruct (last (x :: l)) eqn:Z; [done|]. by apply last_None in Z.
  - destruct (last _); [done|]. apply assoc_set_other. congruence.
Qed.
(** After a reading no field differs from what was read, and a secret is empty. *)
Lemma read_clean ls g p : NoDup (map name ls) -> let q := loaded (Some (ls, g)) p in
  forall l, l ∈ ls -> modified q l = false /\ (secret l = true -> field_text q l = []).
Proof.
  intros N q l H. assert (D : drafted q l = initial l).
  { unfold drafted, q, loaded, fresh_draft. config_fields. rewrite fresh_get.
    assert (F : List.filter (fun r => streq (name r) (name l)) ls = [l]).
    { clear -N H. induction ls as [|r ls IH]; [by apply elem_of_nil in H|]. cbn [map] in N. apply NoDup_cons in N as [N1 N2]. cbn [List.filter]. rewrite elem_of_cons in H. destruct H as [->|H].
      - destruct (streq_spec (name r) (name r)); [|done]. f_equal. clear IH N2. induction ls as [|x ls IH]; [done|]. cbn [map] in N1. rewrite not_elem_of_cons in N1. destruct N1 as [N1 N3]. cbn [List.filter].
        destruct (streq_spec (name x) (name r)); [congruence|]. by apply IH.
      - destruct (streq_spec (name r) (name l)) as [E|_]; [|by apply IH]. exfalso. apply N1. rewrite E. by apply list_elem_of_In, in_map, list_elem_of_In. }
    by rewrite F. }
  unfold modified, field_text. rewrite D. split; [by destruct (streq_spec (initial l) (initial l))|]. intros S. unfold initial. by rewrite S.
Qed.
End spec.

(** ** Examples and what the tab does not do *)

#[local] Abbreviation play := (config_run (fun s => s)) (only parsing).
Definition line (n v : jstr) (s : bool) : Row := mkRow n n s v true (u "db") None.
Definition smtp_host : Row := line (u "smtp_host") (u "mail") false.
Definition smtp_pass : Row := line (u "smtp_pass") [] true.
Definition ldap_uri : Row := line (u "ldap_uri") (u "ldap://a") false.
Definition three : list Row := [smtp_host; smtp_pass; ldap_uri].
Definition no_uri : Suggestions := mkSuggestions None None None.
Definition card (n : nat) : Card := nth n SECTIONS (mkCard [] [] [] None (fun _ => ACTIVE)).
Definition filled : CPage := play [CfConfig 0 (Some (three, no_uri))] config_start.
(** The reading that follows the saving of a card takes back what was typed in the
    others. *)
Lemma save_loses_other_cards :
  let p := play [CfType ldap_uri (u "ldap://b"); CfType smtp_host (u "post"); CfSave (card 2); CfSaved 0 (Some true); CfConfig 0 (Some ([line (u "smtp_host") (u "post") false; smtp_pass; ldap_uri], no_uri))] filled in
  drafted p ldap_uri = u "ldap://a" /\ In (Saved (u "smtp") [(u "smtp_host", u "post")]) (asked p).
Proof. vm_compute. tauto. Qed.
(** And what was typed in the card itself meanwhile. *)
Lemma typed_while_saving_lost :
  drafted (play [CfType smtp_host (u "post"); CfSave (card 2); CfType smtp_pass (u "secret"); CfSaved 0 (Some true); CfConfig 0 (Some (three, no_uri))] filled) smtp_pass = [].
Proof. vm_compute. reflexivity. Qed.
(** The card of the identity that appears before the name is known saves the
    default one with a logo. *)
Lemma logo_renames_instance :
  bp_asked (save_brand (choose (fun s => s) (Some (1000, u "data:")%Z) (branding_card None DEFAULT_BRANDING))) = [Branded (u "DGX") (u "data:")].
Proof. vm_compute. reflexivity. Qed.
Example secret_kept : asked (play [CfType smtp_host (u "post"); CfSave (card 2)] filled) = [AskedConfig; Saved (u "smtp") [(u "smtp_host", u "post")]].
Proof. vm_compute. reflexivity. Qed.
Example secret_cleared : asked (play [CfClear smtp_pass; CfSave (card 2)] filled) = [AskedConfig; Saved (u "smtp") [(u "smtp_pass", CLEAR)]].
Proof. vm_compute. reflexivity. Qed.
Example states : map (fun s => c_state s (configured filled)) SECTIONS = [INCOMPLETE; DISABLED; INCOMPLETE; DISABLED; DISABLED; ACTIVE; DISABLED].
Proof. vm_compute. reflexivity. Qed.
