(* ===== verification/Storage.v ===== *)
(** * Where the files and the backups go (admin/_components/StorageConfig.tsx)

    The form of the card, its readings (at first, when the configuration of S3
    changes, every two seconds while files are moved, after a saving) and what it
    sends. *)

From S2P Require Import Prelude JsString JsInt I18n.
Local Open Scope flow_scope.

Inductive Place := Local_ | S3.
Inductive Backup := BLocal | BS3 | BBoth.
#[export] Instance Place_eq_dec : EqDecision Place.
Proof. solve_decision. Defined.
#[export] Instance Backup_eq_dec : EqDecision Backup.
Proof. solve_decision. Defined.
Record Used := mkUsed { files : Z; size : Z }.
Definition Usage := list (jstr * Used).
Record Migration := mkMigration { m_running : bool; m_target : option Place; m_done : Z; m_failed : Z }.
Record StorageState := mkStorage {
  s3_ready : bool; media_storage : Place; usage_local : Usage; usage_s3 : option Usage; migration : option Migration;
  destination : Backup; keep_local : Z; keep_s3 : Z }.
(** A reading, alone or after the saving; a saving; a move. *)
Inductive Call := Reading (after_save : bool) | Saving | Moving.
Inductive StEffect := AskedState | Saved (m : Place) (d : Backup) (local_ s3 : Z) | Moved (target : Place) | Toast (body : jstr) (error : bool).

Record StPage := mkStPage {
  state : option StorageState; media : Place; dest : Backup; keepLocal : Z; keepS3 : Z; saving : bool;
  calls : list Call; asked : list StEffect
}.

Definition set_state v p := mkStPage v (media p) (dest p) (keepLocal p) (keepS3 p) (saving p) (calls p) (asked p).
Definition set_media v p := mkStPage (state p) v (dest p) (keepLocal p) (keepS3 p) (saving p) (calls p) (asked p).
Definition set_dest v p := mkStPage (state p) (media p) v (keepLocal p) (keepS3 p) (saving p) (calls p) (asked p).
Definition set_keepLocal v p := mkStPage (state p) (media p) (dest p) v (keepS3 p) (saving p) (calls p) (asked p).
Definition set_keepS3 v p := mkStPage (state p) (media p) (dest p) (keepLocal p) v (saving p) (calls p) (asked p).
Definition set_saving v p := mkStPage (state p) (media p) (dest p) (keepLocal p) (keepS3 p) v (calls p) (asked p).
Definition set_calls v p := mkStPage (state p) (media p) (dest p) (keepLocal p) (keepS3 p) (saving p) v (asked p).
Definition emit (e : StEffect) p := mkStPage (state p) (media p) (dest p) (keepLocal p) (keepS3 p) (saving p) (calls p) (asked p ++ [e]).
Ltac storage_fields := cbn [state media dest keepLocal keepS3 saving calls asked set_state set_media set_dest set_keepLocal set_keepS3 set_saving set_calls emit] in *.

Definition load (after : bool) (p : StPage) : StPage := p |> set_calls (calls p ++ [Reading after]) |> emit AskedState.
Definition storage_start : StPage := load false (mkStPage None Local_ BLocal 7 7 false [] []).
(** What is read fills the form. *)
Definition loaded (r : option StorageState) (p : StPage) : StPage :=
  match r with
  | None => p
  | Some d => p |> set_state (Some d) |> set_media (media_storage d) |> set_dest (destination d) |> set_keepLocal (keep_local d) |> set_keepS3 (keep_s3 d)
  end.
Definition dirty (p : StPage) : bool :=
  match state p with
  | None => false
  | Some s => negb (bool_decide (media p = media_storage s)) || negb (bool_decide (dest p = destination s))
              || negb (keepLocal p =? keep_local s)%Z || negb (keepS3 p =? keep_s3 s)%Z
  end.
Definition running (p : StPage) : bool := match state p with Some s => match migration s with Some m => m_running m | None => false end | None => false end.

(** ** Sizes *)

Definition units : list jstr := [u "o"; u "Ko"; u "Mo"; u "Go"; u "To"].
(** The unit of a size: how many times it is divided by 1024. *)
Fixpoint scale (n : Z) (fuel : nat) : nat :=
  match fuel with O => O | S f => if (1024 <=? n)%Z then S (scale (n / 1024) f) else O end.
(** [show]: the number [n / 1024 ^ k] in the language of the page. *)
Definition bytes (show : Z -> nat -> jstr) (n : Z) : jstr := show n (scale n 4) ++ u " " ++ nth (scale n 4) units [].

Definition KIND_LABELS : list (jstr * jstr) := [(u "image_files", u "Images"); (u "video_files", u "Vidéos"); (u "ocr_images", u "Scans OCR"); (u "voice_audio", u "Audio (voix)")].
Definition used (k : jstr) (g : Usage) : option Used := snd <$> List.find (fun x => streq x.1 k) g.
Definition total (g : Usage) : Z := foldl (fun a x => a + files x.2)%Z 0%Z g.
(** The files that are not where new ones go. *)
Definition toMove (s : StorageState) : Z :=
  match media_storage s with S3 => total (usage_local s) | Local_ => match usage_s3 s with Some g => total g | None => 0 end end.

Section card.
Context (t : jstr -> jstr) (show : Z -> nat -> jstr).
Definition usage_row (s : StorageState) (k : jstr * jstr) : jstr * jstr * jstr :=
  let cell x := string_of_Z (files x) ++ u " · " ++ bytes show (size x) in
  (t k.2, cell (default (mkUsed 0 0) (used k.1 (usage_local s))), match usage_s3 s with Some g => match used k.1 g with Some x => cell x | None => u "—" end | None => u "—" end).
Definition usage_rows (s : StorageState) : list (jstr * jstr * jstr) := map (usage_row s) KIND_LABELS.

Definition save (p : StPage) : StPage := p |> set_saving true |> set_calls (calls p ++ [Saving]) |> emit (Saved (media p) (dest p) (keepLocal p) (keepS3 p)).
Definition error_of (e : option jstr) (other : jstr) : jstr := tServer (match e with Some ((_ :: _) as m) => m | _ => t other end) t.
(** The answer of the saving: lost, which nothing catches, or its verdict. *)
Definition saved (r : option (bool * option jstr)) (p : StPage) : StPage :=
  match r with
  | None => set_saving false p
  | Some (true, _) => p |> emit (Toast (t (u "Stockage : enregistré.")) false) |> load true
  | Some (false, e) => p |> emit (Toast (error_of e (u "Échec de l'enregistrement")) true) |> set_saving false
  end.
Definition migrate (target : Place) (p : StPage) : StPage := p |> set_calls (calls p ++ [Moving]) |> emit (Moved target).
Definition moved (r : option (bool * option jstr)) (p : StPage) : StPage :=
  match r with
  | None => p
  | Some (ok, e) => load false (if ok then p else emit (Toast (error_of e (u "La migration n'a pas pu démarrer.")) true) p)
  end.
Definition shows_move (p : StPage) : bool :=
  match state p with Some s => negb (running p) && s3_ready s && (0 <? toMove s)%Z && bool_decide (media p = media_storage s) | None => false end.

Inductive StEvent :=
| StMedia (m : Place) | StDest (d : Backup) | StKeepLocal (n : Z) | StKeepS3 (n : Z) | StSave | StCancel | StMove | StVersion | StTick
| StRead (i : nat) (r : option StorageState) | StSaved (i : nat) (r : option (bool * option jstr)) | StMoved (i : nat) (r : option (bool * option jstr)).
Definition answer (i : nat) (f : Call -> option (StPage -> StPage)) (p : StPage) : StPage :=
  match calls p !! i with
  | Some c => match f c with Some g => g (set_calls (delete i (calls p)) p) | None => p end
  | None => p
  end.
(** A control of the card, shown once it was read. *)
Definition on (f : StorageState -> bool) (g : StPage -> StPage) (p : StPage) : StPage := match state p with Some s => if f s then g p else p | None => p end.
Definition storage_handle (e : StEvent) (p : StPage) : StPage :=
  match e with
  | StMedia m => on s3_ready (set_media m) p
  | StDest d => on (fun s => s3_ready s || negb (bool_decide (dest p = BLocal))) (set_dest d) p
  | StKeepLocal n => on (fun _ => negb (bool_decide (dest p = BS3))) (set_keepLocal n) p
  | StKeepS3 n => on (fun _ => negb (bool_decide (dest p = BLocal))) (set_keepS3 n) p
  | StSave => on (fun _ => dirty p && negb (saving p)) save p
  | StCancel => on (fun _ => dirty p && negb (saving p)) (load false) p
  | StMove => if shows_move p then on (fun _ => true) (fun p => match state p with Some s => migrate (media_storage s) p | None => p end) p else p
  | StVersion => load false p
  | StTick => if running p then load false p else p
  | StRead i r => answer i (fun c => match c with Reading false => Some (loaded r) | Reading true => Some (fun p => p |> loaded r |> set_saving false) | _ => None end) p
  | StSaved i r => answer i (fun c => match c with Saving => Some (saved r) | _ => None end) p
  | StMoved i r => answer i (fun c => match c with Moving => Some (moved r) | _ => None end) p
  end.
Definition storage_run (es : list StEvent) (p : StPage) : StPage := foldl (fun p e => storage_handle e p) p es.
End card.

(** ** Properties *)

(** A size is shown below 1024 of its unit, the largest unit apart, and above one
    of it. *)
Lemma scale_spec f : forall n, (0 <= n)%Z -> let k := scale n f in (k <= f)%nat /\ (1024 ^ Z.of_nat k <= Z.max 1 n)%Z /\ (k < f -> (n < 1024 ^ Z.of_nat (S k))%Z).
Proof.
  induction f as [|f IH]; intros n H; cbn [scale]; cbv zeta; [cbn; lia|]. destruct (Z.leb_spec 1024 n) as [L|L]; [|cbn; lia].
  destruct (IH (n / 1024)%Z) as (A & B & C); [by apply Z.div_pos|]. set (k := scale (n / 1024) f) in *.
  assert (D := Z.div_mod n 1024 ltac:(lia)). assert (M := Z.mod_pos_bound n 1024 ltac:(lia)).
  assert (Q : (1 <= n / 1024)%Z) by (apply Z.div_le_lower_bound; lia).
  split; [lia|]. rewrite !Nat2Z.inj_succ, Z.pow_succ_r by lia. rewrite Nat2Z.inj_succ in C. split; [lia|]. intros K. rewrite !Z.pow_succ_r in * by lia. specialize (C ltac:(lia)). lia.
Qed.
Theorem bytes_scaled n : (0 <= n < 1024 ^ 5)%Z -> let k := scale n 4 in (k < length units)%nat /\ (n < 1024 ^ Z.of_nat (S k))%Z /\ (k <> 0 -> (1024 ^ Z.of_nat k <= n)%Z).
Proof.
  intros H k. destruct (scale_spec 4 n ltac:(lia)) as (A & B & C). fold k in A, B, C. clearbody k. split; [cbn; lia|]. split.
  - destruct (Nat.eq_dec k 4) as [->|N]; [cbn; lia|]. apply C. lia.
  - intros K. assert (P : (1024 ^ 1 <= 1024 ^ Z.of_nat k)%Z) by (apply Z.pow_le_mono_r; lia). change (1024 ^ 1)%Z with 1024%Z in P. lia.
Qed.

Section spec.
Context (t : jstr -> jstr).
#[local] Abbreviation handle := (storage_handle t) (only parsing).
#[local] Abbreviation run := (storage_run t) (only parsing).
(** One saving at a time, from the click to the reading that follows it. *)
Definition of_save (c : Call) : bool := match c with Reading true | Saving => true | _ => false end.
Definition saving_ok (p : StPage) : Prop := length (List.filter of_save (calls p)) = if saving p then 1 else 0.
Lemma answered_save p i c q : calls p !! i = Some c -> saving_ok p -> calls q = delete i (calls p) ->
  saving q = (if of_save c then false else saving p) -> saving_ok q.
Proof.
  unfold saving_ok. intros L H E S. rewrite E, S. assert (C := count_delete of_save (calls p) i c L). rewrite H in C. destruct (of_save c), (saving p); cbn [Nat.b2n] in C; lia.
Qed.
Lemma load_ok after p : saving_ok p -> after = false -> saving_ok (load after p).
Proof. unfold saving_ok, load. intros H ->. storage_fields. by rewrite count_app, H, Nat.add_0_r. Qed.
Lemma storage_on f g p : (forall s, state p = Some s -> f s = true -> saving_ok (g p)) -> saving_ok p -> saving_ok (on f g p).
Proof. intros G H. unfold on. destruct (state p) as [s|] eqn:E; [|done]. destruct (f s) eqn:F; [by apply (G s)|done]. Qed.
Lemma storage_step e p : saving_ok p -> saving_ok (handle e p).
Proof.
  intros H. destruct e; cbn [storage_handle]; try (apply storage_on; [intros s E F|exact H]); try exact H.
  - bool_norm. unfold saving_ok, save in *. storage_fields. rewrite count_app, H. match goal with X : saving p = false |- _ => by rewrite X end.
  - by apply load_ok.
  - destruct (shows_move p); [|exact H]. apply storage_on; [|exact H]. intros s E _. rewrite E. unfold saving_ok, migrate in *. storage_fields. by rewrite count_app, H, Nat.add_0_r.
  - by apply load_ok.
  - destruct (running p); [by apply load_ok|exact H].
  - unfold answer. destruct (calls p !! i) as [c|] eqn:L; [|exact H]. destruct c as [[]| |]; try exact H; unfold loaded; apply (answered_save p i _ _ L H); by destruct r.
  - unfold answer. destruct (calls p !! i) as [c|] eqn:L; [|exact H]. destruct c as [b| |]; try exact H. unfold saved. destruct r as [[[] e]|]; [|by apply (answered_save p i _ _ L H)..].
    unfold saving_ok, load in *. storage_fields. rewrite count_app. assert (C := count_delete of_save (calls p) i _ L). rewrite H in C. cbn in *. destruct (saving p); lia.
  - unfold answer. destruct (calls p !! i) as [c|] eqn:L; [|exact H]. destruct c as [b| |]; try exact H. unfold moved. assert (A : saving_ok (set_calls (delete i (calls p)) p)) by (by apply (answered_save p i _ _ L H)).
    destruct r as [[[] e]|]; [by apply load_ok| |exact A]. by apply load_ok.
Qed.
Theorem one_storage_saving es : let p := run es storage_start in length (List.filter of_save (calls p)) = if saving p then 1 else 0.
Proof.
  assert (G : forall es p, saving_ok p -> saving_ok (run es p)); [|by apply G]. clear. induction es as [|e es IH]; intros p H; [done|]. by apply IH, storage_step.
Qed.
(** A saving sends what the card shows, and only when it differs from what is in
    place. *)
Lemma saved_shown p : asked (handle StSave p) = asked p \/
  dirty p = true /\ asked (handle StSave p) = asked p ++ [Saved (media p) (dest p) (keepLocal p) (keepS3 p)].
Proof. cbn [storage_handle]. unfold on. destruct (state p); [|by left]. destruct (dirty p && _) eqn:D; [|by left]. bool_norm. by right. Qed.
(** Files are moved towards the place in use, when some are elsewhere and none is
    on its way. *)
Lemma move_allowed p x : In x (drop (length (asked p)) (asked (handle StMove p))) -> exists s, state p = Some s /\ x = Moved (media_storage s) /\ (0 < toMove s)%Z /\ running p = false /\ s3_ready s = true.
Proof.
  cbn [storage_handle]. unfold on, shows_move. destruct (state p) as [s|] eqn:E; [|by rewrite drop_ge]. destruct (_ && _) eqn:B; [|by rewrite drop_ge]. bool_norm.
  unfold migrate. storage_fields. rewrite drop_app_length. intros [<-|[]]. by exists s.
Qed.
End spec.

(** ** Examples and what the card does not do *)

#[local] Abbreviation play := (storage_run (fun s => s)) (only parsing).
Definition moving : StorageState := mkStorage true S3 [(u "image_files", mkUsed 3 2048)] None (Some (mkMigration true (Some S3) 1 0)) BLocal 7 7.
Definition shown : StPage := play [StRead 0 (Some moving)] storage_start.
(** While files are moved, the reading of every two seconds takes back what is
    being changed. *)
Lemma poll_undoes_changes : dest (play [StDest BBoth; StTick; StRead 0 (Some moving)] shown) = BLocal /\ dest (play [StDest BBoth] shown) = BBoth.
Proof. vm_compute. split; reflexivity. Qed.
(** A saving or a move that is lost says nothing. *)
Lemma lost_saving_silent : let p := play [StDest BBoth; StSave; StSaved 0 None] shown in saving p = false /\ asked p = [AskedState; Saved S3 BBoth 7 7] /\ dirty p = true.
Proof. vm_compute. repeat split; reflexivity. Qed.
Example units_of_sizes : map (fun n => (scale n 4, nth (scale n 4) units [])) [0; 1023; 1024; 1048575; 1048576; 1024 ^ 5]%Z = [(0, u "o"); (0, u "o"); (1, u "Ko"); (1, u "Ko"); (2, u "Mo"); (4, u "To")].
Proof. vm_compute. reflexivity. Qed.
Example left_to_move : toMove moving = 3%Z /\ shows_move shown = false.
Proof. vm_compute. split; reflexivity. Qed.

Theorem bytes_scaled_witness : let k := scale 3000000 4 in (k < length units)%nat /\ (3000000 < 1024 ^ Z.of_nat (S k))%Z /\ (k <> 0 -> (1024 ^ Z.of_nat k <= 3000000)%Z).
Proof. apply (bytes_scaled 3000000). lia. Defined.
