(* ===== verification/Layout.v ===== *)
(** * The shell of the pages (app/(app)/AppLayout.tsx, _components/OnboardingDialog.tsx)

    The navigation and its badges, the palette, the bell, the tour of a new
    account, the way out. *)

From S2P Require Import Prelude JsString JsInt JsJson Shared.
Local Open Scope flow_scope.

Record Who := mkWho { fullname : jstr; avatar_id : option jstr; is_admin : bool; onboarded : bool; maintenance_mode : bool }.
Record Notif := mkNotif { n_id : Z; n_kind : jstr; n_title : jstr; n_seen : bool }.
Inductive LyEffect :=
| AskedPending | AskedNotifs | Seen (token : jstr) | Deleted (id : Z) (token : jstr) | Onboarded (token : jstr) | AskedToken | LoggedOut (token : jstr) | Pushed (href : jstr) | Went (href : jstr) | SetMode (dark : bool).

Record Shell := mkShell {
  who : option Who; csrf : jstr; isSettingsOpen : bool; settingsSection : option jstr; pending : Z * Z;
  showOnboarding : bool; step : nat; paletteOpen : bool; paletteValue : jstr; notifOpen : bool;
  notifs : list Notif; notifUnread : Z; ticks : nat; reads : list bool; deletes : list Z;
  logouts : list jstr; mounted : bool; asked : list LyEffect
}.

Definition set_who v p := mkShell v (csrf p) (isSettingsOpen p) (settingsSection p) (pending p) (showOnboarding p) (step p) (paletteOpen p) (paletteValue p) (notifOpen p) (notifs p) (notifUnread p) (ticks p) (reads p) (deletes p) (logouts p) (mounted p) (asked p).
Definition set_csrf v p := mkShell (who p) v (isSettingsOpen p) (settingsSection p) (pending p) (showOnboarding p) (step p) (paletteOpen p) (paletteValue p) (notifOpen p) (notifs p) (notifUnread p) (ticks p) (reads p) (deletes p) (logouts p) (mounted p) (asked p).
Definition set_isSettingsOpen v p := mkShell (who p) (csrf p) v (settingsSection p) (pending p) (showOnboarding p) (step p) (paletteOpen p) (paletteValue p) (notifOpen p) (notifs p) (notifUnread p) (ticks p) (reads p) (deletes p) (logouts p) (mounted p) (asked p).
Definition set_settingsSection v p := mkShell (who p) (csrf p) (isSettingsOpen p) v (pending p) (showOnboarding p) (step p) (paletteOpen p) (paletteValue p) (notifOpen p) (notifs p) (notifUnread p) (ticks p) (reads p) (deletes p) (logouts p) (mounted p) (asked p).
Definition set_pending v p := mkShell (who p) (csrf p) (isSettingsOpen p) (settingsSection p) v (showOnboarding p) (step p) (paletteOpen p) (paletteValue p) (notifOpen p) (notifs p) (notifUnread p) (ticks p) (reads p) (deletes p) (logouts p) (mounted p) (asked p).
Definition set_showOnboarding v p := mkShell (who p) (csrf p) (isSettingsOpen p) (settingsSection p) (pending p) v (step p) (paletteOpen p) (paletteValue p) (notifOpen p) (notifs p) (notifUnread p) (ticks p) (reads p) (deletes p) (logouts p) (mounted p) (asked p).
Definition set_step v p := mkShell (who p) (csrf p) (isSettingsOpen p) (settingsSection p) (pending p) (showOnboarding p) v (paletteOpen p) (paletteValue p) (notifOpen p) (notifs p) (notifUnread p) (ticks p) (reads p) (deletes p) (logouts p) (mounted p) (asked p).
Definition set_paletteOpen v p := mkShell (who p) (csrf p) (isSettingsOpen p) (settingsSection p) (pending p) (showOnboarding p) (step p) v (paletteValue p) (notifOpen p) (notifs p) (notifUnread p) (ticks p) (reads p) (deletes p) (logouts p) (mounted p) (asked p).
Definition set_paletteValue v p := mkShell (who p) (csrf p) (isSettingsOpen p) (settingsSection p) (pending p) (showOnboarding p) (step p) (paletteOpen p) v (notifOpen p) (notifs p) (notifUnread p) (ticks p) (reads p) (deletes p) (logouts p) (mounted p) (asked p).
Definition set_notifOpen v p := mkShell (who p) (csrf p) (isSettingsOpen p) (settingsSection p) (pending p) (showOnboarding p) (step p) (paletteOpen p) (paletteValue p) v (notifs p) (notifUnread p) (ticks p) (reads p) (deletes p) (logouts p) (mounted p) (asked p).
Definition set_notifs v p := mkShell (who p) (csrf p) (isSettingsOpen p) (settingsSection p) (pending p) (showOnboarding p) (step p) (paletteOpen p) (paletteValue p) (notifOpen p) v (notifUnread p) (ticks p) (reads p) (deletes p) (logouts p) (mounted p) (asked p).
Definition set_notifUnread v p := mkShell (who p) (csrf p) (isSettingsOpen p) (settingsSection p) (pending p) (showOnboarding p) (step p) (paletteOpen p) (paletteValue p) (notifOpen p) (notifs p) v (ticks p) (reads p) (deletes p) (logouts p) (mounted p) (asked p).
Definition set_ticks v p := mkShell (who p) (csrf p) (isSettingsOpen p) (settingsSection p) (pending p) (showOnboarding p) (step p) (paletteOpen p) (paletteValue p) (notifOpen p) (notifs p) (notifUnread p) v (reads p) (deletes p) (logouts p) (mounted p) (asked p).
Definition set_reads v p := mkShell (who p) (csrf p) (isSettingsOpen p) (settingsSection p) (pending p) (showOnboarding p) (step p) (paletteOpen p) (paletteValue p) (notifOpen p) (notifs p) (notifUnread p) (ticks p) v (deletes p) (logouts p) (mounted p) (asked p).
Definition set_deletes v p := mkShell (who p) (csrf p) (isSettingsOpen p) (settingsSection p) (pending p) (showOnboarding p) (step p) (paletteOpen p) (paletteValue p) (notifOpen p) (notifs p) (notifUnread p) (ticks p) (reads p) v (logouts p) (mounted p) (asked p).
Definition set_logouts v p := mkShell (who p) (csrf p) (isSettingsOpen p) (settingsSection p) (pending p) (showOnboarding p) (step p) (paletteOpen p) (paletteValue p) (notifOpen p) (notifs p) (notifUnread p) (ticks p) (reads p) (deletes p) v (mounted p) (asked p).
Definition set_mounted v p := mkShell (who p) (csrf p) (isSettingsOpen p) (settingsSection p) (pending p) (showOnboarding p) (step p) (paletteOpen p) (paletteValue p) (notifOpen p) (notifs p) (notifUnread p) (ticks p) (reads p) (deletes p) (logouts p) v (asked p).
Definition emit (e : LyEffect) p := mkShell (who p) (csrf p) (isSettingsOpen p) (settingsSection p) (pending p) (showOnboarding p) (step p) (paletteOpen p) (paletteValue p) (notifOpen p) (notifs p) (notifUnread p) (ticks p) (reads p) (deletes p) (logouts p) (mounted p) (asked p ++ [e]).
Ltac shell_fields := cbn [who csrf isSettingsOpen settingsSection pending showOnboarding step paletteOpen paletteValue notifOpen notifs notifUnread ticks reads deletes logouts mounted asked set_who set_csrf set_isSettingsOpen set_settingsSection set_pending set_showOnboarding set_step set_paletteOpen set_paletteValue set_notifOpen set_notifs set_notifUnread set_ticks set_reads set_deletes set_logouts set_mounted emit] in *.

(** ** The navigation *)

Definition NAV_ITEMS : list (jstr * jstr) :=
  [(u "/", u "Accueil"); (u "/playground", u "Playground"); (u "/decisions", u "Décisions"); (u "/video", u "Vidéo"); (u "/image", u "Image"); (u "/ocr", u "OCR");
   (u "/voice", u "Voix"); (u "/search", u "Chercher un modèle"); (u "/request", u "Demander un modèle"); (u "/ranking", u "Classement"); (u "/support", u "Support")].
Definition navItems (w : option Who) : list (jstr * jstr) :=
  if match w with Some w => is_admin w | None => false end then NAV_ITEMS ++ [(u "/users", u "Utilisateurs"); (u "/admin", u "Admin")] else NAV_ITEMS.
Definition isSelected (pathname href : jstr) : bool := if streq href (u "/") then streq pathname (u "/") else starts_with pathname href.
(** The requests of models beside their page, all of them beside the administration. *)
Definition nav_badge (pending : Z * Z) (href : jstr) : option Z :=
  if streq href (u "/request") && (0 <? pending.1)%Z then Some pending.1
  else if streq href (u "/admin") && (0 <? pending.1 + pending.2)%Z then Some (pending.1 + pending.2)%Z else None.

Section shell.
Context (t : jstr -> jstr) (isDark : bool).

Definition paletteItems (w : option Who) : list (jstr * jstr * jstr) :=
  map (fun it => (it.1, t it.2, t (u "Navigation"))) (navItems w)
  ++ [(u "theme", t (u "Basculer le thème"), t (u "Actions")); (u "logout", t (u "Déconnexion"), t (u "Actions"))].
Definition openSettings (section : option jstr) (p : Shell) : Shell := p |> set_settingsSection section |> set_isSettingsOpen true.
(** The way out asks for a fresh token first; the one known is kept if that fails. *)
Definition logout (p : Shell) : Shell := p |> set_logouts (logouts p ++ [csrf p]) |> emit AskedToken.
Definition logout_answered (i : nat) (fresh : option jstr) (p : Shell) : Shell :=
  match logouts p !! i with
  | None => p
  | Some known => p |> set_logouts (delete i (logouts p)) |> emit (LoggedOut (match fresh with Some s => s | None => known end))
  end.
Definition onPaletteSelect (id : jstr) (p : Shell) : Shell :=
  let p := p |> set_paletteValue [] |> set_paletteOpen false in
  if streq id (u "theme") then emit (SetMode (negb isDark)) p else if streq id (u "logout") then logout p else emit (Pushed id) p.

(** ** The tour *)

Definition onboarding_effect (p : Shell) : Shell := match who p with Some w => if onboarded w then p else set_showOnboarding true p | None => p end.
Definition setWho (w : option Who) (p : Shell) : Shell := p |> set_who w |> onboarding_effect.
Definition STEPS : list (jstr * jstr * jstr) :=
  [(u "1. Crée ta clé API", u "Ouvrir mes clés API", u "keys"); (u "2. Discute dans le Playground", u "Aller au Playground", u "playground");
   (u "3. Branche tes propres outils", u "Voir les intégrations", u "keys"); (u "4. Besoin d'autre chose ?", u "Demander un modèle", u "request")].
Definition close_onboarding (p : Shell) : Shell := p |> set_showOnboarding false |> emit (Onboarded (csrf p)).
Definition last_step (p : Shell) : bool := step p =? length STEPS - 1.
Definition next_step (p : Shell) : Shell := if last_step p then close_onboarding p else set_step (S (step p)) p.
Definition act (p : Shell) : Shell :=
  match STEPS !! step p with
  | None => p
  | Some (_, _, kind) =>
      let p := close_onboarding p in
      if streq kind (u "keys") then openSettings (Some (u "keys")) p
      else emit (Went (if streq kind (u "playground") then u "/playground" else u "/request")) p
  end.

(** ** The counters *)

Definition tick (p : Shell) : Shell := p |> set_ticks (S (ticks p)) |> emit AskedPending.
(** The answer of a count: lost, or its two numbers. *)
Definition ticked (r : option (Z * Z)) (p : Shell) : Shell :=
  match ticks p with
  | O => p
  | S n => let p := set_ticks n p in match r with Some c => if mounted p then set_pending c p else p | None => p end
  end.
(** [markSeen]: the bell was opened. *)
Definition loadNotifs (markSeen : bool) (p : Shell) : Shell := p |> set_reads (reads p ++ [markSeen]) |> emit AskedNotifs.
Definition notifs_read (i : nat) (r : option (list Notif * Z)) (p : Shell) : Shell :=
  match reads p !! i with
  | None => p
  | Some markSeen =>
      let p := set_reads (delete i (reads p)) p in
      match r with
      | None => p
      | Some (items, unread) =>
          let p := p |> set_notifs items |> set_notifUnread unread in
          if markSeen && (0 <? unread)%Z then p |> set_notifUnread 0%Z |> emit (Seen (csrf p)) else p
      end
  end.
Definition deleteNotif (id : Z) (p : Shell) : Shell := p |> set_deletes (deletes p ++ [id]) |> emit (Deleted id (csrf p)).
Definition notif_deleted (i : nat) (ok : bool) (p : Shell) : Shell :=
  match deletes p !! i with
  | None => p
  | Some id => let p := set_deletes (delete i (deletes p)) p in
               if ok then set_notifs (List.filter (fun n => negb (n_id n =? id)%Z) (notifs p)) p else p
  end.
Definition openBell (p : Shell) : Shell := p |> set_notifOpen true |> loadNotifs true.
Definition NOTIF_KIND_LABEL : list (jstr * jstr) := [(u "request", u "Demande"); (u "image", u "Image")].
Definition kind_label (k : jstr) : jstr := t (match assoc_get k NOTIF_KIND_LABEL with Some l => l | None => k end).
Definition shows_maintenance (p : Shell) : bool := match who p with Some w => maintenance_mode w && negb (is_admin w) | None => false end.

Definition shell_start (w : option Who) (token : jstr) (counts : option (Z * Z)) (items : option (list Notif * Z)) (fresh_pending fresh_notifs : bool) : Shell :=
  let p := mkShell w token false None (default (0, 0)%Z counts) false 0 false [] false (default [] (fst <$> items)) (default 0%Z (snd <$> items)) 0 [] [] [] true [] in
  let p := onboarding_effect p in
  let p := if fresh_pending then p else tick p in
  if fresh_notifs then p else loadNotifs false p.

Inductive LyEvent :=
| LyWho (w : option Who) | LyToken (s : jstr) | LySettings (section : option jstr) | LyCloseSettings | LyAvatar (a : option jstr) | LyKey | LyPalette (o : bool) | LyChoose (id : jstr) | LyLogout | LyLogoutAnswer (i : nat) (fresh : option jstr)
| LyNext | LyPrevious | LyAct | LySkip | LyTimer | LyTicked (r : option (Z * Z)) | LyBell | LyCloseBell | LyRead (i : nat) (r : option (list Notif * Z)) | LyDelete (id : Z) | LyDeleted (i : nat) (ok : bool) | LyLeave.
Definition shell_handle (e : LyEvent) (p : Shell) : Shell :=
  match e with
  | LyWho w => setWho w p
  | LyToken s => set_csrf s p
  | LySettings s => openSettings s p
  | LyCloseSettings => set_isSettingsOpen false p
  | LyAvatar a => match who p with Some w => setWho (Some (mkWho (fullname w) a (is_admin w) (onboarded w) (maintenance_mode w))) p | None => p end
  | LyKey => set_paletteOpen true p
  | LyPalette o => set_paletteOpen o p
  | LyChoose id => onPaletteSelect id p
  | LyLogout => logout p
  | LyLogoutAnswer i f => logout_answered i f p
  | LyNext => if showOnboarding p then next_step p else p
  | LyPrevious => if showOnboarding p && (0 <? step p) then set_step (step p - 1) p else p
  | LyAct => if showOnboarding p then act p else p
  | LySkip => if showOnboarding p then close_onboarding p else p
  | LyTimer => if mounted p then tick p else p
  | LyTicked r => ticked r p
  | LyBell => openBell p
  | LyCloseBell => set_notifOpen false p
  | LyRead i r => notifs_read i r p
  | LyDelete id => if notifOpen p && existsb (fun n => n_id n =? id)%Z (notifs p) then deleteNotif id p else p
  | LyDeleted i ok => notif_deleted i ok p
  | LyLeave => set_mounted false p
  end.
Definition shell_run (es : list LyEvent) (p : Shell) : Shell := foldl (fun p e => shell_handle e p) p es.
End shell.

(** ** One entry of the navigation at most is the page shown *)

Lemma prefix_of_both a b s : starts_with s a = true -> starts_with s b = true -> is_prefix a b = true \/ is_prefix b a = true.
Proof.
  unfold starts_with. revert b s. induction a as [|x a IH]; intros b s A B; [by left|]. destruct b as [|y b]; [by right|]. destruct s as [|c s]; [done|].
  cbn [is_prefix] in *. bool_norm. subst. rewrite N.eqb_refl. by apply (IH b s).
Qed.
Definition clash (a b : jstr) : bool := if streq a (u "/") || streq b (u "/") then false else is_prefix a b || is_prefix b a.
Lemma not_selected_twice pathname a b : isSelected pathname a = true -> isSelected pathname b = true -> a <> b -> (streq a (u "/") = true -> is_prefix b (u "/") = false) ->
  (streq b (u "/") = true -> is_prefix a (u "/") = false) -> clash a b = true.
Proof.
  unfold isSelected, clash, starts_with. intros A B N P Q. destruct (streq_spec a (u "/")) as [->|], (streq_spec b (u "/")) as [->|]; cbn [orb] in *; try done.
  - destruct (streq_spec pathname (u "/")) as [->|]; [|done]. rewrite P in B by done. done.
  - destruct (streq_spec pathname (u "/")) as [->|]; [|done]. rewrite Q in A by done. done.
  - apply orb_true_iff. by apply (prefix_of_both a b pathname).
Qed.
Theorem one_entry_selected w pathname a b : In a (navItems w) -> In b (navItems w) -> isSelected pathname a.1 = true -> isSelected pathname b.1 = true -> a = b.
Proof.
  intros A B SA SB. assert (T : forallb (fun x => forallb (fun y => (streq x.1 y.1 && streq x.2 y.2) ||
      (negb (streq x.1 y.1) && negb (clash x.1 y.1) && (negb (streq x.1 (u "/")) || negb (is_prefix y.1 (u "/"))))) (navItems w)) (navItems w) = true).
  { unfold navItems. destruct w as [w|]; [destruct (is_admin w)|]; vm_compute; reflexivity. }
  rewrite forallb_forall in T. assert (TA := T a A). assert (TB := T b B). rewrite forallb_forall in TA, TB. specialize (TA b B). specialize (TB a A).
  destruct (streq_spec a.1 b.1) as [E|N].
  - cbn in TA. rewrite orb_false_r in TA. destruct (streq_spec a.2 b.2); [|done]. destruct a, b. cbn in *. by subst.
  - cbn [andb orb negb] in TA. destruct (streq_spec b.1 a.1); [congruence|]. cbn [andb orb negb] in TB. bool_norm.
    assert (C : clash a.1 b.1 = true); [|congruence]. apply (not_selected_twice pathname); try done.
    + intros X. rewrite X in *. by match goal with H : negb true || negb _ = true |- _ => apply negb_true_iff in H end.
    + intros X. rewrite X in *. by match goal with H : negb true || negb _ = true |- _ => apply negb_true_iff in H end.
Qed.

(** ** What is said to the server *)

Section spec.
Context (isDark : bool).
#[local] Abbreviation handle := (shell_handle isDark) (only parsing).
#[local] Ltac one H := exfalso; revert H; shell_fields; rewrite drop_app_length; intros [H|[]]; discriminate H.
(** The notifications are marked seen only by the answer to an opening of the bell
    that has some unread, and the badge is empty then. *)
Lemma seen_by_bell e p x : In (Seen x) (drop (length (asked p)) (asked (handle e p))) ->
  exists i items n, e = LyRead i (Some (items, n)) /\ reads p !! i = Some true /\ (0 < n)%Z /\ notifUnread (handle e p) = 0%Z /\ x = csrf p.
Proof.
  assert (Q : forall q, asked q = asked p -> In (Seen x) (drop (length (asked p)) (asked q)) -> False) by (intros q ->; by rewrite drop_ge).
  assert (O : forall q y, asked q = asked p ++ [y] -> In (Seen x) (drop (length (asked p)) (asked q)) -> y = Seen x) by (intros q y -> H; rewrite drop_app_length in H; by destruct H as [H|[]]).
  destruct e; cbn [shell_handle]; try (intros H; by destruct (Q _ eq_refl H)); try (intros H; by pose proof (O _ _ eq_refl H)).
  - unfold setWho, onboarding_effect. intros H. exfalso. revert H. apply Q. shell_fields. destruct w as [w|]; [by destruct (onboarded w)|done].
  - intros H. exfalso. revert H. apply Q. destruct (who p) as [w|]; [|done]. unfold setWho, onboarding_effect. shell_fields. cbn [onboarded]. by destruct (onboarded w).
  - unfold onPaletteSelect, logout. intros H. exfalso. destruct (streq id _); [|destruct (streq id _)]; revert H; shell_fields; rewrite drop_app_length; by intros [H|[]].
  - unfold logout. intros H. by one H.
  - unfold logout_answered. intros H. exfalso. destruct (logouts p !! i); [by one H|by apply (Q _ eq_refl H)].
  - unfold next_step, close_onboarding. intros H. exfalso. destruct (showOnboarding p); [|by apply (Q _ eq_refl H)]. destruct (last_step p); [by one H|by apply (Q _ eq_refl H)].
  - intros H. exfalso. destruct (_ && _); by apply (Q _ eq_refl H).
  - unfold act, close_onboarding, openSettings. intros H. exfalso. destruct (showOnboarding p); [|by apply (Q _ eq_refl H)]. destruct (STEPS !! step p) as [[[a b] k]|]; [|by apply (Q _ eq_refl H)].
    destruct (streq k _); [by one H|]. revert H. shell_fields. rewrite <- app_assoc, drop_app_length. by intros [H|[H|[]]].
  - unfold close_onboarding. intros H. exfalso. destruct (showOnboarding p); [by one H|by apply (Q _ eq_refl H)].
  - unfold tick. intros H. exfalso. destruct (mounted p); [by one H|by apply (Q _ eq_refl H)].
  - unfold ticked. intros H. exfalso. revert H. apply Q. destruct (ticks p); [done|]. cbv zeta. destruct r; [|done]. shell_fields. by destruct (mounted p).
  - unfold openBell, loadNotifs. intros H. by one H.
  - unfold notifs_read. destruct (reads p !! i) as [m|] eqn:E; [|intros H; by destruct (Q _ eq_refl H)]. cbv zeta. destruct r as [[items n]|]; [|intros H; by destruct (Q _ eq_refl H)].
    destruct (m && (0 <? n)%Z) eqn:B; [|intros H; by destruct (Q _ eq_refl H)]. bool_norm. intros Z0. exists i, items, n. subst m.
    revert Z0. shell_fields. rewrite drop_app_length. intros [X|[]]. injection X as <-. repeat split; done.
  - unfold deleteNotif. intros H. exfalso. destruct (_ && _); [by one H|by apply (Q _ eq_refl H)].
  - unfold notif_deleted. intros H. exfalso. revert H. apply Q. destruct (deletes p !! i); [|done]. cbv zeta. by destruct ok.
Qed.
(** The way out posts the fresh token when there is one, else the one known at the
    click. *)
Lemma logout_token i f p known : logouts p !! i = Some known -> asked (handle (LyLogoutAnswer i f) p) = asked p ++ [LoggedOut (match f with Some s => s | None => known end)].
Proof. intros L. cbn [shell_handle]. unfold logout_answered. by rewrite L. Qed.
End spec.

(** ** Examples and what the shell does not do *)

#[local] Abbreviation play := (shell_run false) (only parsing).
Definition newcomer : Who := mkWho (u "Ada") None false false false.
Definition n1 : Notif := mkNotif 1 (u "image") (u "done") false.
Definition start_ : Shell := shell_start (Some newcomer) (u "c") None (Some ([n1], 1%Z)) true true.
(** The tour closed comes back with a new avatar: the identity in memory still says
    that it was not seen. *)
Lemma tour_returns :
  let p := play [LySkip] start_ in showOnboarding p = false /\ showOnboarding (play [LyAvatar (Some (u "cat"))] p) = true.
Proof. vm_compute. split; reflexivity. Qed.
(** A notification deleted is still counted by the badge, when the bell was not
    marked seen. *)
Lemma deleted_still_counted :
  let p := play [LyBell; LyDelete 1; LyDeleted 0 true; LyRead 0 None] start_ in notifs p = [] /\ notifUnread p = 1%Z.
Proof. vm_compute. split; reflexivity. Qed.
(** A list asked before a deletion and read after it shows the notification again. *)
Lemma deleted_returns : notifs (play [LyBell; LyDelete 1; LyDeleted 0 true; LyRead 0 (Some ([n1], 1%Z))] start_) = [n1].
Proof. vm_compute. reflexivity. Qed.
Example badges : nav_badge (1, 2)%Z (u "/request") = Some 1%Z /\ nav_badge (1, 2)%Z (u "/admin") = Some 3%Z /\ nav_badge (0, 2)%Z (u "/request") = None.
Proof. vm_compute. repeat split; reflexivity. Qed.
Example tour_ends : let p := play [LyNext; LyNext; LyNext; LyNext] start_ in showOnboarding p = false /\ asked p = [Onboarded (u "c")].
Proof. vm_compute. split; reflexivity. Qed.

Theorem one_entry_selected_witness : (u "/image", u "Image") = (u "/image", u "Image").
Proof. apply (one_entry_selected None (u "/image/12")); [vm_compute; tauto|vm_compute; tauto|reflexivity|reflexivity]. Defined.
