(* ===== verification/Appearance.v ===== *)
(** * The appearance of the portal (theme-provider.tsx, lib/themes.ts, lib/whoami.tsx, layout.tsx)

    The mode, the palette and the language: what the server paints first, what the
    browser kept, what the account says, and who wins. *)

From S2P Require Import Prelude JsString JsJson.
Local Open Scope flow_scope.

(** ** The palettes *)

Definition ACCENTS : list (jstr * jstr * jstr) :=
  [(u "neutral", u "Neutre", u "#1F1F1F"); (u "indigo", u "Indigo", u "#4F46E5"); (u "violet", u "Violet", u "#7C3AED"); (u "rose", u "Rose", u "#E11D48");
   (u "ambre", u "Ambre", u "#D97706"); (u "emeraude", u "Émeraude", u "#059669"); (u "cyan", u "Cyan", u "#0891B2"); (u "ardoise", u "Ardoise", u "#475569");
   (u "brique", u "Brique", u "#C2410C"); (u "prune", u "Prune", u "#9D174D")].
(** What a palette changes of the neutral theme: nothing for the neutral one, the
    name and the accent of the others. *)
Record Palette := mkPalette { p_id : jstr; p_label : jstr; p_swatch : jstr; p_derived : option (jstr * jstr) }.
Definition THEMES : list Palette :=
  map (fun a => mkPalette a.1.1 a.1.2 a.2 (if streq a.1.1 (u "neutral") then None else Some (u "dgx-" ++ a.1.1, a.2))) ACCENTS.
Definition neutral : Palette := mkPalette (u "neutral") (u "Neutre") (u "#1F1F1F") None.
Definition themeById (k : option jstr) : Palette :=
  match List.find (fun p => match k with Some s => streq (p_id p) s | None => false end) THEMES with
  | Some p => p
  | None => match THEMES with p :: _ => p | [] => neutral end
  end.

(** ** What the provider keeps *)

(** The part of the identity ([Whoami]) the appearance reads. *)
Record Identity := mkIdentity { avatar_id : option jstr; theme_id : jstr; w_lang : jstr }.

Record Look := mkLook {
  mode : jstr; themeId : jstr; lang : jstr; local : list (jstr * jstr); cookie : option jstr;
  who : option Identity
}.

Definition set_mode v p := mkLook v (themeId p) (lang p) (local p) (cookie p) (who p).
Definition set_themeId v p := mkLook (mode p) v (lang p) (local p) (cookie p) (who p).
Definition set_lang v p := mkLook (mode p) (themeId p) v (local p) (cookie p) (who p).
Definition set_local v p := mkLook (mode p) (themeId p) (lang p) v (cookie p) (who p).
Definition set_cookie v p := mkLook (mode p) (themeId p) (lang p) (local p) v (who p).
Definition set_who v p := mkLook (mode p) (themeId p) (lang p) (local p) (cookie p) v.
Ltac look_fields := cbn [mode themeId lang local cookie who set_mode set_themeId set_lang set_local set_cookie set_who] in *.

Definition MODE_KEY : jstr := u "dgx_theme_mode".
Definition THEME_KEY : jstr := u "dgx_theme_id".
Definition LANG_KEY : jstr := u "dgx_lang".
(** The browser's storage: nothing kept, or an empty text, gives the default. *)
Definition readLocal (key fallback : jstr) (local : list (jstr * jstr)) : jstr :=
  match assoc_get key local with Some ((_ :: _) as v) => v | _ => fallback end.
Definition keep (key v : jstr) (p : Look) : Look := set_local (assoc_set key v (local p)) p.

(** The layout read the identity on the server: it failed ([None]), there is no
    session ([Some None]), or there is one. *)
Definition first_paint (read : option (option Identity)) (kept : list (jstr * jstr)) (cookieMode : option jstr) : Look :=
  let w := match read with Some w => w | None => None end in
  let l := match w with Some w => if streq (w_lang w) (u "en") then u "en" else u "fr" | None => u "fr" end in
  let m := match cookieMode with Some c => if streq c (u "light") || streq c (u "dark") then c else u "system" | None => u "system" end in
  let th := match w with Some w => match theme_id w with [] => u "neutral" | s => s end | None => u "neutral" end in
  mkLook m th l kept cookieMode w.
(** After the first render: what this browser kept. *)
Definition hydrate (p : Look) : Look :=
  let localMode := readLocal MODE_KEY (u "system") (local p) in
  p |> set_mode localMode |> set_cookie (Some localMode)
    |> set_themeId (readLocal THEME_KEY (u "neutral") (local p)) |> set_lang (readLocal LANG_KEY (u "fr") (local p)).
Definition setModeState (m : jstr) (p : Look) : Look := p |> set_mode m |> keep MODE_KEY m |> set_cookie (Some m).
Definition setThemeId (s : jstr) (p : Look) : Look := p |> set_themeId s |> keep THEME_KEY s.
Definition setLang (s : jstr) (p : Look) : Look := p |> set_lang s |> keep LANG_KEY s.
(** The identity changed: its palette and its language are applied. *)
Definition who_effect (p : Look) : Look :=
  match who p with
  | None => p
  | Some w =>
      let p := match theme_id w with [] => p | s => setThemeId s p end in
      match w_lang w with [] => p | s => setLang s p end
  end.
Definition setWho (w : option Identity) (p : Look) : Look := p |> set_who w |> who_effect.
Definition mount (p : Look) : Look := p |> hydrate |> who_effect.

(** The identity asked by the browser, when the layout could not read it. *)
Definition asks_identity (read : option (option Identity)) : bool := match read with None => true | Some _ => false end.
(** The avatar chosen in the settings is written in the identity. *)
Definition with_avatar (a : option jstr) (w : Identity) : Identity := mkIdentity a (theme_id w) (w_lang w).
Inductive LkEvent := LkMode (m : jstr) | LkTheme (s : jstr) | LkLang (s : jstr) | LkWho (w : option Identity) | LkAvatar (a : option jstr).
Definition look_handle (e : LkEvent) (p : Look) : Look :=
  match e with
  | LkMode m => setModeState m p
  | LkTheme s => setThemeId s p
  | LkLang s => setLang s p
  | LkWho w => setWho w p
  | LkAvatar a => match who p with Some w => setWho (Some (with_avatar a w)) p | None => p end
  end.
Definition look_run (es : list LkEvent) (p : Look) : Look := foldl (fun p e => look_handle e p) p es.

(** ** Properties *)

(** Every palette is found by its name, and any other name gives the neutral one. *)
Lemma themeById_known p : p ∈ THEMES -> themeById (Some (p_id p)) = p.
Proof.
  intros H. apply list_elem_of_In in H. assert (T : forallb (fun p => streq (p_id (themeById (Some (p_id p)))) (p_id p) && streq (p_label (themeById (Some (p_id p)))) (p_label p)
      && streq (p_swatch (themeById (Some (p_id p)))) (p_swatch p) && bool_decide (p_derived (themeById (Some (p_id p))) = p_derived p)) THEMES = true) by (vm_compute; reflexivity).
  rewrite forallb_forall in T. specialize (T p H). destruct p, (themeById _). cbn in T. bool_norm. repeat match goal with X : _ = true |- _ => apply bool_decide_eq_true in X end. by subst.
Qed.
Lemma themeById_in k : themeById k ∈ THEMES.
Proof. unfold themeById. destruct (List.find _ THEMES) as [p|] eqn:E; [|by left]. apply find_some in E as [E _]. by apply list_elem_of_In. Qed.

Lemma readLocal_set key d v l : v <> [] -> readLocal key d (assoc_set key v l) = v.
Proof. intros N. unfold readLocal. rewrite assoc_set_same. by destruct v. Qed.
Lemma readLocal_other key k' d v l : key <> k' -> readLocal key d (assoc_set k' v l) = readLocal key d l.
Proof. intros N. unfold readLocal. by rewrite assoc_set_other. Qed.
(** What is shown is what this browser kept, and the server knows the mode. *)
Definition kept_ok (p : Look) : Prop :=
  readLocal MODE_KEY (u "system") (local p) = mode p /\ readLocal THEME_KEY (u "neutral") (local p) = themeId p /\
  readLocal LANG_KEY (u "fr") (local p) = lang p /\ cookie p = Some (mode p).
Lemma kept_mode m p : m <> [] -> kept_ok p -> kept_ok (setModeState m p).
Proof. unfold kept_ok, setModeState, keep. intros N (A & B & C & D). look_fields. rewrite readLocal_set, !readLocal_other by done. done. Qed.
Lemma kept_theme s p : s <> [] -> kept_ok p -> kept_ok (setThemeId s p).
Proof. unfold kept_ok, setThemeId, keep. intros N (A & B & C & D). look_fields. rewrite readLocal_set, !readLocal_other by done. done. Qed.
Lemma kept_lang s p : s <> [] -> kept_ok p -> kept_ok (setLang s p).
Proof. unfold kept_ok, setLang, keep. intros N (A & B & C & D). look_fields. rewrite readLocal_set, !readLocal_other by done. done. Qed.
Lemma kept_who p : kept_ok p -> kept_ok (who_effect p).
Proof.
  intros H. unfold who_effect. destruct (who p) as [w|]; [|done]. cbv zeta.
  destruct (theme_id w) as [|c s], (w_lang w) as [|d r]; [done|by apply kept_lang|by apply kept_theme|by apply kept_lang, kept_theme].
Qed.
Lemma kept_hydrate p : kept_ok (hydrate p).
Proof. unfold kept_ok, hydrate. cbv zeta. look_fields. done. Qed.
(** The choices of the page are names. *)
Definition named (e : LkEvent) : Prop := match e with LkMode s | LkTheme s | LkLang s => s <> [] | _ => True end.
Lemma kept_look e p : named e -> kept_ok p -> kept_ok (look_handle e p).
Proof.
  intros N H. destruct e; cbn [look_handle named] in *; [by apply kept_mode|by apply kept_theme|by apply kept_lang|by apply kept_who|]. destruct (who p); [by apply kept_who|done].
Qed.
(** Whatever is chosen, the page shows what the browser kept: reloaded with nothing
    from the account, it shows the same, and the server paints the same mode. *)
Theorem look_survives_reload read kept c es : Forall named es ->
  let p := look_run es (mount (first_paint read kept c)) in let q := mount (first_paint (Some None) (local p) (cookie p)) in
  mode q = mode p /\ themeId q = themeId p /\ lang q = lang p /\ (mode p = u "light" \/ mode p = u "dark" -> mode (first_paint None (local p) (cookie p)) = mode p).
Proof.
  intros N p q. assert (H : kept_ok p).
  { assert (G : forall es x, Forall named es -> kept_ok x -> kept_ok (look_run es x)); [|apply G; [done|]; apply kept_who, kept_hydrate]. clear. induction es as [|e es IH]; intros x F K; [done|]. inversion F; subst. apply IH; [done|]. by apply kept_look. }
  clearbody p. destruct H as (A & B & C & D). unfold q, mount, who_effect, hydrate, first_paint. cbv zeta. look_fields. rewrite A, B, C. repeat split. rewrite D. intros [->| ->]; reflexivity.
Qed.
(** An account that has a palette and a language shows them, whatever this browser
    kept. *)
Lemma account_wins w kept c : theme_id w <> [] -> w_lang w <> [] ->
  let p := mount (first_paint (Some (Some w)) kept c) in themeId p = theme_id w /\ lang p = w_lang w /\ readLocal THEME_KEY (u "neutral") (local p) = theme_id w.
Proof.
  intros T L p. unfold p, mount, who_effect, hydrate, first_paint. cbv zeta. look_fields. destruct (theme_id w) as [|a s] eqn:E; [done|]. destruct (w_lang w) as [|b r] eqn:F; [done|].
  unfold setLang, setThemeId, keep. look_fields. rewrite (readLocal_other THEME_KEY LANG_KEY) by done. split; [done|]. split; [done|]. by apply readLocal_set.
Qed.
(** A change of the avatar applies again the palette and the language the account
    had when the page was loaded. *)
Lemma avatar_restores_loaded w kept c s a : theme_id w <> [] -> let p := look_run [LkTheme s; LkAvatar a] (mount (first_paint (Some (Some w)) kept c)) in
  themeId p = theme_id w /\ readLocal THEME_KEY (u "neutral") (local p) = theme_id w.
Proof.
  intros T. assert (W : who (mount (first_paint (Some (Some w)) kept c)) = Some w).
  { unfold mount, who_effect, hydrate, first_paint. cbv zeta. look_fields. destruct (theme_id w), (w_lang w); reflexivity. }
  destruct (mount _) as [m th l lo ck wh]. cbn in W. subst wh. destruct w as [wa [|x y] wl]; [done|]. cbn [look_run foldl look_handle].
  unfold setWho, who_effect, with_avatar, setLang, setThemeId, keep. look_fields. cbn [theme_id w_lang]. destruct wl; look_fields; rewrite ?(readLocal_other THEME_KEY LANG_KEY) by done; (split; [done|by apply readLocal_set]).
Qed.

(** ** Examples *)

Definition ada : Identity := mkIdentity None (u "rose") (u "en").
Example loaded_look : let p := mount (first_paint (Some (Some ada)) [(THEME_KEY, u "cyan"); (MODE_KEY, u "dark")] None) in
  (mode p, themeId p, lang p, cookie p) = (u "dark", u "rose", u "en", Some (u "dark")).
Proof. vm_compute. reflexivity. Qed.
Example avatar_undoes_theme : themeId (look_run [LkTheme (u "cyan"); LkAvatar (Some (u "cat"))] (mount (first_paint (Some (Some ada)) [] None))) = u "rose".
Proof. vm_compute. reflexivity. Qed.
Example unknown_theme : themeById (Some (u "red")) = neutral /\ themeById None = neutral.
Proof. vm_compute. split; reflexivity. Qed.

Theorem look_survives_reload_witness : let p := look_run [LkMode (u "dark"); LkTheme (u "cyan")] (mount (first_paint (Some (Some ada)) [] None)) in
  let q := mount (first_paint (Some None) (local p) (cookie p)) in
  mode q = mode p /\ themeId q = themeId p /\ lang q = lang p /\ (mode p = u "light" \/ mode p = u "dark" -> mode (first_paint None (local p) (cookie p)) = mode p).
Proof. apply (look_survives_reload (Some (Some ada)) [] None [LkMode (u "dark"); LkTheme (u "cyan")]). constructor; [discriminate|]. constructor; [discriminate|]. constructor. Defined.
