(* ===== verification/Settings.v ===== *)
(** * The settings (app/(app)/_components/SettingsDialog.tsx and its sections)

    The section shown, the data read when the dialog opens, the forms of a MCP server
    and of a skill, and the choices that are applied at once and undone when the
    server refuses them: a server switched, the palette, the language, the avatar. *)

From S2P Require Import Prelude JsString JsInt JsJson Appearance.
Local Open Scope flow_scope.

Inductive Section_ := Account | Usage | Keys_ | Memory_ | Avatar | Appearance_ | Mcp | Skills_.
#[local] Abbreviation Section := Section_ (only parsing).
#[export] Instance Section_eq_dec : EqDecision Section_.
Proof. solve_decision. Defined.
Definition SECTIONS : list (jstr * list (Section_ * jstr)) :=
  [(u "Réglages du compte", [(Account, u "Mon compte"); (Usage, u "Usage"); (Keys_, u "Clés API"); (Memory_, u "Mémoire")]);
   (u "Réglages de l'app", [(Avatar, u "Personnalisation"); (Appearance_, u "Apparence"); (Mcp, u "MCP"); (Skills_, u "Compétences")])].
Definition SECTION_TITLES (s : Section_) : jstr :=
  match s with Account => u "Mon compte" | Usage => u "Usage" | Keys_ => u "Clés API" | Memory_ => u "Mémoire"
             | Avatar => u "Personnalisation" | Appearance_ => u "Apparence" | Mcp => u "MCP" | Skills_ => u "Compétences" end.

Record McpServer := mkMcp { m_id : Z; m_name : jstr; m_url : jstr; m_description : jstr; m_allowed_tools : jstr; m_enabled : Z; m_has_auth : Z }.
Record Data := mkData { mcp_servers : list McpServer; d_avatar : option jstr; avatars : list (jstr * jstr) }.
Record McpForm := mkMcpForm { f_name : jstr; f_url : jstr; f_description : jstr; f_allowedTools : jstr; f_auth : jstr }.
Record SkillForm := mkSkillForm { k_name : jstr; k_description : jstr; k_instructions : jstr }.
Definition empty_mcp : McpForm := mkMcpForm [] [] [] [] [].
Definition empty_skill : SkillForm := mkSkillForm [] [] [].
(** What is awaited: the data; the saving of a form, with the entry it edits; a
    switch; a deletion; a choice, with what it replaces. *)
Inductive Call :=
| Fetching | SavingMcp (edited : option Z) | SavingSkill (edited : option Z) | Toggling (id : Z) (enabled : bool)
| DeletingMcp | DeletingSkill | Theming (previous : jstr) | Speaking (previous : jstr) | Facing (chosen previous : option jstr).
Inductive SdEffect := AskedData | Posted (url : jstr) (body : list (jstr * jstr)) | Toast (body : jstr) (error : bool).

Record Dlg := mkDlg {
  isOpen : bool; initialSection : option Section_; section : Section_; data : option Data;
  isAddingMcp : bool; isAddingSkill : bool; editingMcpId : option Z; editingSkillId : option Z;
  mcpForm : McpForm; skillForm : SkillForm; isSaving : bool; csrf : jstr; look : Look; calls : list Call;
  asked : list SdEffect
}.

Definition set_isOpen v p := mkDlg v (initialSection p) (section p) (data p) (isAddingMcp p) (isAddingSkill p) (editingMcpId p) (editingSkillId p) (mcpForm p) (skillForm p) (isSaving p) (csrf p) (look p) (calls p) (asked p).
Definition set_initialSection v p := mkDlg (isOpen p) v (section p) (data p) (isAddingMcp p) (isAddingSkill p) (editingMcpId p) (editingSkillId p) (mcpForm p) (skillForm p) (isSaving p) (csrf p) (look p) (calls p) (asked p).
Definition set_section v p := mkDlg (isOpen p) (initialSection p) v (data p) (isAddingMcp p) (isAddingSkill p) (editingMcpId p) (editingSkillId p) (mcpForm p) (skillForm p) (isSaving p) (csrf p) (look p) (calls p) (asked p).
Definition set_data v p := mkDlg (isOpen p) (initialSection p) (section p) v (isAddingMcp p) (isAddingSkill p) (editingMcpId p) (editingSkillId p) (mcpForm p) (skillForm p) (isSaving p) (csrf p) (look p) (calls p) (asked p).
Definition set_isAddingMcp v p := mkDlg (isOpen p) (initialSection p) (section p) (data p) v (isAddingSkill p) (editingMcpId p) (editingSkillId p) (mcpForm p) (skillForm p) (isSaving p) (csrf p) (look p) (calls p) (asked p).
Definition set_isAddingSkill v p := mkDlg (isOpen p) (initialSection p) (section p) (data p) (isAddingMcp p) v (editingMcpId p) (editingSkillId p) (mcpForm p) (skillForm p) (isSaving p) (csrf p) (look p) (calls p) (asked p).
Definition set_editingMcpId v p := mkDlg (isOpen p) (initialSection p) (section p) (data p) (isAddingMcp p) (isAddingSkill p) v (editingSkillId p) (mcpForm p) (skillForm p) (isSaving p) (csrf p) (look p) (calls p) (asked p).
Definition set_editingSkillId v p := mkDlg (isOpen p) (initialSection p) (section p) (data p) (isAddingMcp p) (isAddingSkill p) (editingMcpId p) v (mcpForm p) (skillForm p) (isSaving p) (csrf p) (look p) (calls p) (asked p).
Definition set_mcpForm v p := mkDlg (isOpen p) (initialSection p) (section p) (data p) (isAddingMcp p) (isAddingSkill p) (editingMcpId p) (editingSkillId p) v (skillForm p) (isSaving p) (csrf p) (look p) (calls p) (asked p).
Definition set_skillForm v p := mkDlg (isOpen p) (initialSection p) (section p) (data p) (isAddingMcp p) (isAddingSkill p) (editingMcpId p) (editingSkillId p) (mcpForm p) v (isSaving p) (csrf p) (look p) (calls p) (asked p).
Definition set_isSaving v p := mkDlg (isOpen p) (initialSection p) (section p) (data p) (isAddingMcp p) (isAddingSkill p) (editingMcpId p) (editingSkillId p) (mcpForm p) (skillForm p) v (csrf p) (look p) (calls p) (asked p).
Definition set_csrf v p := mkDlg (isOpen p) (initialSection p) (section p) (data p) (isAddingMcp p) (isAddingSkill p) (editingMcpId p) (editingSkillId p) (mcpForm p) (skillForm p) (isSaving p) v (look p) (calls p) (asked p).
Definition set_look v p := mkDlg (isOpen p) (initialSection p) (section p) (data p) (isAddingMcp p) (isAddingSkill p) (editingMcpId p) (editingSkillId p) (mcpForm p) (skillForm p) (isSaving p) (csrf p) v (calls p) (asked p).
Definition set_calls v p := mkDlg (isOpen p) (initialSection p) (section p) (data p) (isAddingMcp p) (isAddingSkill p) (editingMcpId p) (editingSkillId p) (mcpForm p) (skillForm p) (isSaving p) (csrf p) (look p) v (asked p).
Definition emit (e : SdEffect) p := mkDlg (isOpen p) (initialSection p) (section p) (data p) (isAddingMcp p) (isAddingSkill p) (editingMcpId p) (editingSkillId p) (mcpForm p) (skillForm p) (isSaving p) (csrf p) (look p) (calls p) (asked p ++ [e]).
Ltac dlg_fields := cbn [isOpen initialSection section data isAddingMcp isAddingSkill editingMcpId editingSkillId mcpForm skillForm isSaving csrf look calls asked set_isOpen set_initialSection set_section set_data set_isAddingMcp set_isAddingSkill set_editingMcpId set_editingSkillId set_mcpForm set_skillForm set_isSaving set_csrf set_look set_calls emit] in *.

Definition await (c : Call) (p : Dlg) : Dlg := set_calls (calls p ++ [c]) p.
Definition refresh (p : Dlg) : Dlg := p |> await Fetching |> emit AskedData.
(** The data that could not be read leaves what is shown. *)
Definition fetched (r : option Data) (p : Dlg) : Dlg := match r with Some d => set_data (Some d) p | None => p end.
Definition leaveForm (p : Dlg) : Dlg := p |> set_isAddingMcp false |> set_isAddingSkill false |> set_editingMcpId None |> set_editingSkillId None.
Definition closeAll (p : Dlg) : Dlg := p |> leaveForm |> set_isOpen false.
(** The dialog is opened by the page, on a section or on the last one seen. *)
Definition opened (s : option Section_) (p : Dlg) : Dlg :=
  let was := isOpen p in let before := initialSection p in
  let p := p |> set_initialSection s |> set_isOpen true in
  let p := if was && bool_decide (before = s) then p else match s with Some s => set_section s p | None => p end in
  if was then p else refresh p.
Definition paneTitle (p : Dlg) : jstr := if isAddingMcp p then u "MCP" else if isAddingSkill p then u "Compétences" else SECTION_TITLES (section p).
(** The account as the forms see an entry being edited: no name is 0. *)
Definition edits (k : option Z) : bool := match k with Some n => negb (n =? 0)%Z | None => false end.
Definition id_field (k : option Z) : list (jstr * jstr) := match k with Some n => if (n =? 0)%Z then [] else [(u "id", string_of_Z n)] | None => [] end.
Definition action (k : option Z) : jstr := if edits k then u "update" else u "create".
Definition set_enabled (id : Z) (v : bool) (p : Dlg) : Dlg :=
  match data p with
  | None => p
  | Some d => set_data (Some (mkData (map (fun s => if (m_id s =? id)%Z then mkMcp (m_id s) (m_name s) (m_url s) (m_description s) (m_allowed_tools s) (if v then 1 else 0)%Z (m_has_auth s) else s) (mcp_servers d))
                                     (d_avatar d) (avatars d))) p
  end.
Definition set_d_avatar (a : option jstr) (p : Dlg) : Dlg :=
  match data p with None => p | Some d => set_data (Some (mkData (mcp_servers d) a (avatars d))) p end.

Section dialog.
Context (t : jstr -> jstr).
(** The answer of a form: lost, or accepted by its status, or refused with a code
    or a text. *)
Inductive FAnswer := FLost | FAccepted | FRefused (code error : option jstr).
Definition no_answer : jstr := t (u "Le serveur n'a pas répondu — réessaie.").
(** What follows the verdict of a form ([true] : accepted). *)
Definition form_done (c : Call) (ok : bool) (p : Dlg) : Dlg :=
  match c with
  | Toggling id enabled => if ok then p else set_enabled id (negb enabled) p
  | DeletingMcp => refresh (if ok then emit (Toast (t (u "Serveur MCP supprimé.")) false) p else p)
  | DeletingSkill => refresh (if ok then emit (Toast (t (u "Compétence supprimée.")) false) p else p)
  | Theming previous => if ok then p else set_look (setThemeId previous (look p)) p
  | Speaking previous => if ok then p else set_look (setLang previous (look p)) p
  | Facing chosen previous => if ok then set_look (look_handle (LkAvatar chosen) (look p)) p else set_d_avatar previous p
  | _ => p
  end.
(** Without a token nothing leaves and the form is refused at once. *)
Definition sendForm (url : jstr) (body : list (jstr * jstr)) (c : Call) (p : Dlg) : Dlg :=
  match csrf p with [] => form_done c false p | _ => p |> await c |> emit (Posted url body) end.
Definition text_or (a b : option jstr) (other : jstr) : jstr :=
  match a with Some ((_ :: _) as s) => t s | _ => match b with Some ((_ :: _) as s) => t s | _ => t other end end.
Definition form_answered (c : Call) (r : FAnswer) (p : Dlg) : Dlg :=
  match r with
  | FAccepted => form_done c true p
  | FRefused code error => p |> emit (Toast (text_or code error (u "L'action a échoué.")) true) |> form_done c false
  | FLost => p |> emit (Toast no_answer true) |> form_done c false
  end.

Definition missing_toast (missing : list jstr) : jstr := t (u "Champs requis manquants :") ++ u " " ++ join (u ", ") missing ++ u ".".
(** No translation is empty. *)
Definition required (fields : list (jstr * jstr)) : list jstr := omap (fun x => match trim x.1 with [] => Some (t x.2) | _ => None end) fields.
Definition saveMcp (p : Dlg) : Dlg :=
  match csrf p with
  | [] => p
  | _ =>
      let f := mcpForm p in
      match required [(f_name f, u "le nom"); (f_url f, u "l'URL")] with
      | (_ :: _) as missing => emit (Toast (missing_toast missing) true) p
      | [] => p |> set_isSaving true |> await (SavingMcp (editingMcpId p))
                |> emit (Posted (u "/mcp") ((u "action", action (editingMcpId p)) :: id_field (editingMcpId p) ++
                     [(u "name", f_name f); (u "url", f_url f); (u "description", f_description f); (u "allowed_tools", f_allowedTools f); (u "auth_header", f_auth f)]))
      end
  end.
(** The answer of a saving: lost, or its verdict, its text and the tools found. *)
Definition mcp_saved (edited : option Z) (r : option (bool * option jstr * option Z)) (p : Dlg) : Dlg :=
  match r with
  | None => p |> emit (Toast no_answer true) |> set_isSaving false
  | Some (true, _, tools) =>
      let said := t (if match edited with Some _ => true | None => false end then u "Serveur MCP mis à jour" else u "Serveur MCP connecté") in
      p |> set_mcpForm empty_mcp |> set_isAddingMcp false |> set_editingMcpId None
        |> emit (Toast (said ++ u " (" ++ string_of_Z (default 0%Z tools) ++ u " " ++ t (u "outil(s) trouvé(s)") ++ u ").") false)
        |> refresh |> set_isSaving false
  | Some (false, e, _) => p |> emit (Toast (match e with Some ((_ :: _) as s) => t s | _ => t (u "Échec de la connexion au serveur MCP.") end) true) |> set_isSaving false
  end.
Definition toggleMcp (id : Z) (enabled : bool) (p : Dlg) : Dlg :=
  p |> set_enabled id enabled |> sendForm (u "/mcp") [(u "action", u "toggle"); (u "id", string_of_Z id); (u "enabled", if enabled then u "1" else u "0")] (Toggling id enabled).
Definition deleteMcp (id : Z) (confirmed : bool) (p : Dlg) : Dlg :=
  if confirmed then sendForm (u "/mcp") [(u "action", u "delete"); (u "id", string_of_Z id)] DeletingMcp p else p.
Definition saveSkill (p : Dlg) : Dlg :=
  match csrf p with
  | [] => p
  | _ =>
      let f := skillForm p in
      match required [(k_name f, u "le nom"); (k_description f, u "la description"); (k_instructions f, u "les instructions")] with
      | (_ :: _) as missing => emit (Toast (missing_toast missing) true) p
      | [] => p |> set_isSaving true |> await (SavingSkill (editingSkillId p))
                |> emit (Posted (u "/skills") ((u "action", action (editingSkillId p)) :: id_field (editingSkillId p) ++
                     [(u "name", k_name f); (u "description", k_description f); (u "instructions", k_instructions f)]))
      end
  end.
Definition skill_saved (edited : option Z) (r : option (bool * option jstr)) (p : Dlg) : Dlg :=
  match r with
  | None => p |> emit (Toast no_answer true) |> set_isSaving false
  | Some (true, _) =>
      p |> set_skillForm empty_skill |> set_isAddingSkill false |> set_editingSkillId None
        |> emit (Toast (t (match edited with Some _ => u "Compétence mise à jour." | None => u "Compétence enregistrée." end)) false)
        |> refresh |> set_isSaving false
  | Some (false, e) => p |> emit (Toast (match e with Some ((_ :: _) as s) => t s | _ => t (u "Échec de l'enregistrement.") end) true) |> set_isSaving false
  end.
Definition deleteSkill (id : Z) (confirmed : bool) (p : Dlg) : Dlg :=
  if confirmed then sendForm (u "/skills") [(u "action", u "delete"); (u "id", string_of_Z id)] DeletingSkill p else p.
(** Applied at once, undone by a refusal. *)
Definition selectTheme (s : jstr) (p : Dlg) : Dlg :=
  let previous := themeId (look p) in p |> set_look (setThemeId s (look p)) |> sendForm (u "/settings/appearance") [(u "theme_id", s)] (Theming previous).
Definition selectLang (l : jstr) (p : Dlg) : Dlg :=
  let previous := lang (look p) in p |> set_look (setLang l (look p)) |> sendForm (u "/settings/appearance") [(u "lang", l)] (Speaking previous).
Definition selectAvatar (a : jstr) (p : Dlg) : Dlg :=
  let previous := match data p with Some d => d_avatar d | None => None end in
  let normalized := match a with [] => None | _ => Some a end in
  p |> set_d_avatar normalized |> sendForm (u "/settings/avatar") [(u "avatar_id", a)] (Facing normalized previous).
(** The card of an avatar that is the one in use. *)
Definition avatar_selected (a : jstr) (p : Dlg) : bool :=
  match data p with Some d => match a with [] => match d_avatar d with None | Some [] => true | _ => false end | _ => bool_decide (d_avatar d = Some a) end | None => false end.

Definition new_mcp (p : Dlg) : Dlg := p |> set_editingMcpId None |> set_mcpForm empty_mcp |> set_isAddingMcp true.
Definition edit_mcp (s : McpServer) (p : Dlg) : Dlg :=
  p |> set_editingMcpId (Some (m_id s)) |> set_mcpForm (mkMcpForm (m_name s) (m_url s) (m_description s) (m_allowed_tools s) []) |> set_isAddingMcp true.
Definition new_skill (p : Dlg) : Dlg := p |> set_editingSkillId None |> set_skillForm empty_skill |> set_isAddingSkill true.
Definition edit_skill (id : Z) (f : SkillForm) (p : Dlg) : Dlg := p |> set_editingSkillId (Some id) |> set_skillForm f |> set_isAddingSkill true.

Inductive SdEvent :=
| SdOpen (s : option Section_) | SdDismiss | SdClose | SdRail (s : Section_) | SdSelector (s : Section_) | SdBack | SdSave
| SdNewMcp | SdEditMcp (k : nat) | SdTypeMcp (f : McpForm) | SdToggle (k : nat) (enabled : bool) | SdDeleteMcp (k : nat) (confirmed : bool)
| SdNewSkill | SdEditSkill (id : Z) (f : SkillForm) | SdTypeSkill (f : SkillForm) | SdDeleteSkill (id : Z) (confirmed : bool)
| SdTheme (s : jstr) | SdLang (l : jstr) | SdMode (m : jstr) | SdAvatar (a : jstr) | SdRefresh | SdToken (s : jstr)
| SdFetched (i : nat) (r : option Data) | SdAnswer (i : nat) (r : FAnswer) | SdMcpSaved (i : nat) (r : option (bool * option jstr * option Z)) | SdSkillSaved (i : nat) (r : option (bool * option jstr)).
Definition answer (i : nat) (f : Call -> option (Dlg -> Dlg)) (p : Dlg) : Dlg :=
  match calls p !! i with
  | Some c => match f c with Some g => g (set_calls (delete i (calls p)) p) | None => p end
  | None => p
  end.
Definition at_ (s : Section_) (p : Dlg) : bool := isOpen p && bool_decide (section p = s).
Definition server (k : nat) (p : Dlg) : option McpServer := match data p with Some d => mcp_servers d !! k | None => None end.
Definition on_server (k : nat) (f : McpServer -> Dlg -> Dlg) (p : Dlg) : Dlg :=
  if at_ Mcp p && negb (isAddingMcp p) then match server k p with Some s => f s p | None => p end else p.
Definition settings_handle (e : SdEvent) (p : Dlg) : Dlg :=
  match e with
  | SdOpen s => opened s p
  | SdDismiss => set_isOpen false p
  | SdClose => closeAll p
  | SdRail s => p |> set_section s |> set_isAddingMcp false |> set_isAddingSkill false
  | SdSelector s => p |> set_section s |> leaveForm
  | SdBack => if isAddingMcp p || isAddingSkill p then leaveForm p else p
  | SdSave => if isOpen p then if isAddingMcp p then saveMcp p else if isAddingSkill p then saveSkill p else p else p
  | SdNewMcp => if at_ Mcp p && negb (isAddingMcp p) then new_mcp p else p
  | SdEditMcp k => on_server k edit_mcp p
  | SdTypeMcp f => if at_ Mcp p && isAddingMcp p then set_mcpForm f p else p
  | SdToggle k v => on_server k (fun s => toggleMcp (m_id s) v) p
  | SdDeleteMcp k c => on_server k (fun s => deleteMcp (m_id s) c) p
  | SdNewSkill => if at_ Skills_ p && negb (isAddingSkill p) then new_skill p else p
  | SdEditSkill n f => if at_ Skills_ p && negb (isAddingSkill p) then edit_skill n f p else p
  | SdTypeSkill f => if at_ Skills_ p && isAddingSkill p then set_skillForm f p else p
  | SdDeleteSkill n c => if at_ Skills_ p && negb (isAddingSkill p) then deleteSkill n c p else p
  | SdTheme s => if at_ Appearance_ p then selectTheme s p else p
  | SdLang l => if at_ Appearance_ p then selectLang l p else p
  | SdMode m => if at_ Appearance_ p then set_look (setModeState m (look p)) p else p
  | SdAvatar a => if at_ Avatar p && match data p with Some _ => true | None => false end then selectAvatar a p else p
  | SdRefresh => if at_ Usage p then refresh p else p
  | SdToken s => set_csrf s p
  | SdFetched i r => answer i (fun c => match c with Fetching => Some (fetched r) | _ => None end) p
  | SdAnswer i r => answer i (fun c => match c with Fetching | SavingMcp _ | SavingSkill _ => None | _ => Some (form_answered c r) end) p
  | SdMcpSaved i r => answer i (fun c => match c with SavingMcp k => Some (mcp_saved k r) | _ => None end) p
  | SdSkillSaved i r => answer i (fun c => match c with SavingSkill k => Some (skill_saved k r) | _ => None end) p
  end.
Definition settings_run (es : list SdEvent) (p : Dlg) : Dlg := foldl (fun p e => settings_handle e p) p es.
End dialog.
Definition settings_start (token : jstr) (l : Look) : Dlg := mkDlg false None Account None false false None None empty_mcp empty_skill false token l [] [].

(** ** What leaves the dialog *)

Section spec.
Context (t : jstr -> jstr).
#[local] Abbreviation handle := (settings_handle t) (only parsing).
#[local] Abbreviation run := (settings_run t) (only parsing).

Definition field_ok (k : jstr) (body : list (jstr * jstr)) : Prop := exists v, assoc_get k body = Some v /\ trim v <> [].
(** A form leaves with the token; one that creates or updates has its fields, one
    that deletes was confirmed. *)
Definition post_ok (e : SdEvent) (p : Dlg) (x : SdEffect) : Prop :=
  match x with
  | Posted url body =>
      csrf p <> [] /\
      match assoc_get (u "action") body with
      | Some a => if streq a (u "delete") then match e with SdDeleteMcp _ c | SdDeleteSkill _ c => c = true | _ => False end
                  else if streq a (u "toggle") then url = u "/mcp"
                  else (streq a (u "create") || streq a (u "update")) = true /\ field_ok (u "name") body /\
                       (url = u "/mcp" /\ field_ok (u "url") body \/ url = u "/skills" /\ field_ok (u "description") body /\ field_ok (u "instructions") body)
      | None => url = u "/settings/appearance" \/ url = u "/settings/avatar"
      end
  | _ => True
  end.
(** What an event asks for. *)
Definition news (e : SdEvent) (p : Dlg) : list SdEffect := drop (length (asked p)) (asked (handle e p)).
(** [q] asks for more than [p], all of it as [post_ok] wants. *)
Definition adds (e : SdEvent) (p q r : Dlg) : Prop := exists l, asked r = asked q ++ l /\ Forall (post_ok e p) l.
Lemma adds_none e p q r : asked r = asked q -> adds e p q r.
Proof. intros E. exists []. by rewrite E, app_nil_r. Qed.
Lemma adds_one e p q r x : asked r = asked q ++ [x] -> post_ok e p x -> adds e p q r.
Proof. intros E H. exists [x]. by split; [|repeat constructor]. Qed.
Lemma adds_trans e p q r s : adds e p q r -> adds e p r s -> adds e p q s.
Proof. intros (l & E & F) (m & G & H). exists (l ++ m). rewrite G, E, app_assoc. split; [done|]. by apply Forall_app. Qed.
Lemma set_enabled_asked id v p : asked (set_enabled id v p) = asked p.
Proof. unfold set_enabled. by destruct (data p). Qed.
Lemma set_d_avatar_asked a p : asked (set_d_avatar a p) = asked p.
Proof. unfold set_d_avatar. by destruct (data p). Qed.
Lemma adds_done e p q c ok : adds e p q (form_done t c ok q).
Proof.
  destruct c, ok; cbn [form_done]; try (by apply adds_none); try (apply adds_none; by rewrite ?set_enabled_asked, ?set_d_avatar_asked); unfold refresh, await;
    try (by apply (adds_one _ _ _ _ AskedData)).
  - exists [Toast (t (u "Serveur MCP supprimé.")) false; AskedData]. dlg_fields. rewrite <- app_assoc. by split; [|repeat constructor].
  - exists [Toast (t (u "Compétence supprimée.")) false; AskedData]. dlg_fields. rewrite <- app_assoc. by split; [|repeat constructor].
Qed.
Lemma adds_send e p q url body c : csrf q = csrf p -> (csrf p <> [] -> post_ok e p (Posted url body)) -> adds e p q (sendForm t url body c q).
Proof.
  intros C H. unfold sendForm. destruct (csrf q) eqn:E; [apply adds_done|]. apply (adds_one _ _ _ _ (Posted url body)); [done|]. apply H. by rewrite <- C.
Qed.
Lemma required_none l : required t l = [] -> Forall (fun x => trim x.1 <> []) l.
Proof. induction l as [|[v n] l IH]; intros H; [done|]. change (match match trim v with [] => Some (t n) | _ => None end with Some y => y :: required t l | None => required t l end = []) in H.
  destruct (trim v) eqn:E; [discriminate H|]. constructor; [cbn [fst]; rewrite E; discriminate|by apply IH]. Qed.
Lemma required_some l : Forall (fun x : jstr * jstr => trim x.1 <> []) l -> required t l = [].
Proof. induction 1 as [|[v n] l H _ IH]; [done|]. change (match match trim v with [] => Some (t n) | _ => None end with Some y => y :: required t l | None => required t l end = []). cbn [fst] in H. destruct (trim v); [done|exact IH]. Qed.
Lemma body_get key k rest : streq key (u "action") = false -> streq key (u "id") = false ->
  assoc_get key ((u "action", action k) :: id_field k ++ rest) = assoc_get key rest.
Proof. intros A B. unfold id_field. cbn [assoc_get]. rewrite A. destruct k as [k|]; [|done]. destruct (k =? 0)%Z; [done|]. cbn [app assoc_get]. by rewrite B. Qed.
Lemma body_field key k rest v : streq key (u "action") = false -> streq key (u "id") = false -> assoc_get key rest = Some v -> trim v <> [] ->
  field_ok key ((u "action", action k) :: id_field k ++ rest).
Proof. intros A B G N. exists v. by rewrite body_get. Qed.
Lemma save_post e p k url rest : csrf p <> [] ->
  (let body := (u "action", action k) :: id_field k ++ rest in
   field_ok (u "name") body /\ (url = u "/mcp" /\ field_ok (u "url") body \/ url = u "/skills" /\ field_ok (u "description") body /\ field_ok (u "instructions") body)) ->
  post_ok e p (Posted url ((u "action", action k) :: id_field k ++ rest)).
Proof. intros C H. split; [done|]. cbn [assoc_get]. unfold action in *. destruct (edits k); exact (conj eq_refl H). Qed.
Lemma save_mcp_adds e p : adds e p p (saveMcp t p).
Proof.
  unfold saveMcp. destruct (csrf p) eqn:C; [by apply adds_none|]. cbv zeta. destruct (required t _) eqn:R; [|by eapply adds_one; [reflexivity|]].
  apply required_none in R. inversion R as [|? ? A R']; subst. inversion R' as [|? ? B _]; subst. eapply adds_one; [reflexivity|].
  apply save_post; [by rewrite C|]. cbv zeta. split; [|left; split; [done|]]; (eapply body_field; [reflexivity|reflexivity|reflexivity|assumption]).
Qed.
Lemma save_skill_adds e p : adds e p p (saveSkill t p).
Proof.
  unfold saveSkill. destruct (csrf p) eqn:C; [by apply adds_none|]. cbv zeta. destruct (required t _) eqn:R; [|by eapply adds_one; [reflexivity|]].
  apply required_none in R. inversion R as [|? ? A R']; subst. inversion R' as [|? ? B R'']; subst. inversion R'' as [|? ? D _]; subst. eapply adds_one; [reflexivity|].
  apply save_post; [by rewrite C|]. cbv zeta. split; [|right; split; [done|split]]; (eapply body_field; [reflexivity|reflexivity|reflexivity|assumption]).
Qed.
Lemma adds_answered e p q c r : adds e p q (form_answered t c r q).
Proof.
  destruct r; cbn [form_answered]; [|apply adds_done|]; (eapply adds_trans; [|apply adds_done]; eapply adds_one; [reflexivity|exact I]).
Qed.
Lemma adds_saved e p q k r : adds e p q (mcp_saved t k r q).
Proof.
  unfold mcp_saved, refresh, await. destruct r as [[[[] x] n]|]; (eexists; dlg_fields; rewrite <- ?app_assoc; split; [reflexivity|by repeat constructor]).
Qed.
Lemma adds_skill e p q k r : adds e p q (skill_saved t k r q).
Proof.
  unfold skill_saved, refresh, await. destruct r as [[[] x]|]; (eexists; dlg_fields; rewrite <- ?app_assoc; split; [reflexivity|by repeat constructor]).
Qed.
Lemma adds_answer e p i f : (forall c g q, f c = Some g -> asked q = asked p -> csrf q = csrf p -> adds e p q (g q)) -> adds e p p (answer i f p).
Proof.
  intros H. unfold answer. destruct (calls p !! i) as [c|]; [|by apply adds_none]. destruct (f c) as [g|] eqn:E; [|by apply adds_none].
  destruct (H c g (set_calls (delete i (calls p)) p) E eq_refl eq_refl) as (l & G & F). by exists l.
Qed.
(** Nothing leaves without the token; a form that creates or updates an entry has
    every field it needs; a deletion was confirmed. *)
Theorem settings_posts_ok e p : Forall (post_ok e p) (news e p).
Proof.
  assert (G : adds e p p (handle e p)); [|destruct G as (l & E & F); unfold news; by rewrite E, drop_app_length].
  destruct e; cbn [settings_handle]; try (by apply adds_none).
  - unfold opened. cbv zeta. destruct (isOpen p); [|refine (adds_one _ _ _ _ AskedData _ I)]; destruct s; cbn [andb]; try case_bool_decide; try reflexivity; by apply adds_none.
  - destruct (_ || _); by apply adds_none.
  - destruct (isOpen p); [|by apply adds_none]. destruct (isAddingMcp p); [apply save_mcp_adds|]. destruct (isAddingSkill p); [apply save_skill_adds|by apply adds_none].
  - destruct (_ && _); by apply adds_none.
  - unfold on_server. destruct (_ && _); [|by apply adds_none]. destruct (server k p); by apply adds_none.
  - destruct (_ && _); by apply adds_none.
  - unfold on_server. destruct (_ && _); [|by apply adds_none]. destruct (server k p) as [s|]; [|by apply adds_none]. unfold toggleMcp.
    eapply adds_trans; [apply adds_none, set_enabled_asked|]. apply adds_send; [unfold set_enabled; by destruct (data p)|]. intros C. by split.
  - unfold on_server. destruct (_ && _); [|by apply adds_none]. destruct (server k p) as [s|]; [|by apply adds_none]. unfold deleteMcp. destruct confirmed; [|by apply adds_none]. apply adds_send; [done|]. intros C. by split.
  - destruct (_ && _); by apply adds_none.
  - destruct (_ && _); by apply adds_none.
  - destruct (_ && _); by apply adds_none.
  - destruct (_ && _); [|by apply adds_none]. unfold deleteSkill. destruct confirmed; [|by apply adds_none]. apply adds_send; [done|]. intros C. by split.
  - destruct (at_ _ p); [|by apply adds_none]. unfold selectTheme. cbv zeta. eapply adds_trans; [by apply (adds_none _ _ _ (set_look (setThemeId s (look p)) p))|]. apply adds_send; [done|]. intros C. split; [done|by left].
  - destruct (at_ _ p); [|by apply adds_none]. unfold selectLang. cbv zeta. eapply adds_trans; [by apply (adds_none _ _ _ (set_look (setLang l (look p)) p))|]. apply adds_send; [done|]. intros C. split; [done|by left].
  - destruct (at_ _ p); by apply adds_none.
  - destruct (_ && _); [|by apply adds_none]. unfold selectAvatar. cbv zeta. eapply adds_trans; [apply adds_none, set_d_avatar_asked|]. apply adds_send; [unfold set_d_avatar; by destruct (data p)|]. intros C. split; [done|by right].
  - destruct (at_ _ p); [|by apply adds_none]. by eapply adds_one; [reflexivity|].
  - apply adds_answer. intros c g q E A C. destruct c; try discriminate E. injection E as <-. apply adds_none. by destruct r.
  - apply adds_answer. intros c g q E A C. destruct c; try discriminate E; injection E as <-; apply adds_answered.
  - apply adds_answer. intros c g q E A C. destruct c; try discriminate E. injection E as <-. apply adds_saved.
  - apply adds_answer. intros c g q E A C. destruct c; try discriminate E. injection E as <-. apply adds_skill.
Qed.

(** ** A choice that is refused is undone *)

(** What the choices of the dialog change on the page. *)
Definition applied (p : Dlg) : jstr * jstr * option (option jstr) * option (list McpServer) :=
  (themeId (look p), lang (look p), d_avatar <$> data p, mcp_servers <$> data p).
(** A choice; a switch turns what it shows. *)
Definition choice (e : SdEvent) (p : Dlg) : Prop :=
  match e with
  | SdTheme _ | SdLang _ | SdAvatar _ => True
  | SdToggle k v => forall d s (x : McpServer), data p = Some d -> mcp_servers d !! k = Some s -> x ∈ mcp_servers d -> m_id x = m_id s -> m_enabled x = (if v then 0 else 1)%Z
  | _ => False
  end.
Lemma set_enabled_back id (v : bool) p : (forall d (x : McpServer), data p = Some d -> x ∈ mcp_servers d -> m_id x = id -> m_enabled x = (if v then 0 else 1)%Z) ->
  forall q, data q = data (set_enabled id v p) -> data (set_enabled id (negb v) q) = data p.
Proof.
  unfold set_enabled. intros H q. destruct (data p) as [d|] eqn:D; intros E; [|rewrite E, D; by rewrite E, D]. dlg_fields. rewrite E. dlg_fields. cbn [mcp_servers d_avatar avatars]. rewrite map_map.
  assert (X : map (fun s => let s := if (m_id s =? id)%Z then mkMcp (m_id s) (m_name s) (m_url s) (m_description s) (m_allowed_tools s) (if v then 1 else 0)%Z (m_has_auth s) else s in
      if (m_id s =? id)%Z then mkMcp (m_id s) (m_name s) (m_url s) (m_description s) (m_allowed_tools s) (if negb v then 1 else 0)%Z (m_has_auth s) else s) (mcp_servers d) = mcp_servers d).
  { rewrite <- (map_id (mcp_servers d)) at 2. apply map_ext_in. intros s I. specialize (H d s eq_refl). rewrite list_elem_of_In in H. specialize (H I). cbv zeta. destruct s as [n a b c e en au]. cbn [m_id m_name m_url m_description m_allowed_tools m_enabled m_has_auth] in *. destruct (Z.eqb_spec n id) as [->|N].
    - cbn [m_id m_name m_url m_description m_allowed_tools m_enabled m_has_auth]. rewrite Z.eqb_refl. rewrite (H eq_refl). by destruct v.
    - cbn [m_id]. destruct (Z.eqb_spec n id); done. }
  cbv zeta in X. cbn [m_id m_name m_url m_description m_allowed_tools m_enabled m_has_auth] in *. rewrite X. by destruct d.
Qed.
Definition is_choice (c : Call) : bool := match c with Toggling _ _ | Theming _ | Speaking _ | Facing _ _ => true | _ => false end.
Lemma set_enabled_eq id v p q : data p = data q -> look p = look q -> applied (set_enabled id v p) = applied (set_enabled id v q).
Proof. unfold set_enabled, applied. intros D L. rewrite <- D. destruct (data p) eqn:E; dlg_fields; by rewrite ?L, <- ?D, ?E. Qed.
Lemma done_same c p q : is_choice c = true -> data p = data q -> look p = look q -> applied (form_done t c false p) = applied (form_done t c false q).
Proof.
  intros H D L. destruct c; try done; cbn [form_done]; [by apply set_enabled_eq| | |].
  - unfold applied. dlg_fields. by rewrite D, L.
  - unfold applied. dlg_fields. by rewrite D, L.
  - unfold set_d_avatar, applied. rewrite <- D. destruct (data p) eqn:E; dlg_fields; by rewrite ?L, <- ?D, ?E.
Qed.
Lemma done_calls c ok p : is_choice c = true -> calls (form_done t c ok p) = calls p.
Proof. intros H. destruct c, ok; try done; cbn [form_done]; unfold set_enabled, set_d_avatar; by destruct (data p). Qed.
(** What the user does in the dialog that is no choice of this kind: opening it,
    leaving it, going from a section to another, typing in a form, saving it,
    deleting an entry, reading the usage again. *)
Definition quiet (e : SdEvent) : bool :=
  match e with
  | SdToggle _ _ | SdTheme _ | SdLang _ | SdMode _ | SdAvatar _ | SdFetched _ _ | SdAnswer _ _ | SdMcpSaved _ _ | SdSkillSaved _ _ => false
  | _ => true
  end.
(** Nothing chosen has changed, and what is awaited since comes after. *)
Definition kept (p q : Dlg) : Prop :=
  data q = data p /\ look q = look p /\ exists l, calls q = calls p ++ l /\ existsb is_choice l = false.
Lemma settings_same p q : data q = data p -> look q = look p -> calls q = calls p -> kept p q.
Proof. intros D L C. split; [done|]. split; [done|]. exists []. by rewrite C, app_nil_r. Qed.
Lemma kept_call c p q : is_choice c = false -> data q = data p -> look q = look p -> calls q = calls p ++ [c] -> kept p q.
Proof. intros K D L C. split; [done|]. split; [done|]. exists [c]. split; [done|]. cbn [existsb]. by rewrite K. Qed.
Lemma kept_trans p q r : kept p q -> kept q r -> kept p r.
Proof.
  intros (D1 & L1 & l1 & C1 & H1) (D2 & L2 & l2 & C2 & H2). split; [congruence|]. split; [congruence|].
  exists (l1 ++ l2). rewrite C2, C1, app_assoc. split; [done|]. by rewrite existsb_app, H1, H2.
Qed.
Lemma refresh_kept p : kept p (refresh p).
Proof. by apply (kept_call Fetching). Qed.
Lemma deletion_kept url body c p : c = DeletingMcp \/ c = DeletingSkill -> kept p (sendForm t url body c p).
Proof.
  intros H. unfold sendForm. destruct (csrf p); [destruct H as [-> | ->]; apply refresh_kept|].
  by apply (kept_call c); [destruct H as [-> | ->]|..].
Qed.
Lemma quiet_kept e p : quiet e = true -> kept p (handle e p).
Proof.
  intros H. destruct e; try done; cbn [settings_handle]; try (by apply settings_same).
  - unfold opened. cbv zeta. set (q := if _ && _ then _ else _).
    assert (K : kept p q) by (unfold q; destruct (_ && _); [by apply settings_same|]; by destruct s; apply settings_same).
    destruct (isOpen p); [done|]. by eapply kept_trans, refresh_kept.
  - destruct (_ || _); by apply settings_same.
  - destruct (isOpen p); [|by apply settings_same]. destruct (isAddingMcp p); [|destruct (isAddingSkill p); [|by apply settings_same]].
    + unfold saveMcp. destruct (csrf p); [by apply settings_same|]. cbv zeta. destruct (required _ _); [|by apply settings_same].
      by apply (kept_call (SavingMcp (editingMcpId p))).
    + unfold saveSkill. destruct (csrf p); [by apply settings_same|]. cbv zeta. destruct (required _ _); [|by apply settings_same].
      by apply (kept_call (SavingSkill (editingSkillId p))).
  - destruct (_ && _); by apply settings_same.
  - unfold on_server. destruct (_ && _); [|by apply settings_same]. destruct (server _ _); by apply settings_same.
  - destruct (_ && _); by apply settings_same.
  - unfold on_server. destruct (_ && _); [|by apply settings_same]. destruct (server _ _); [|by apply settings_same].
    unfold deleteMcp. destruct confirmed; [by apply deletion_kept; left|by apply settings_same].
  - destruct (_ && _); by apply settings_same.
  - destruct (_ && _); by apply settings_same.
  - destruct (_ && _); by apply settings_same.
  - destruct (_ && _); [|by apply settings_same]. unfold deleteSkill. destruct confirmed; [by apply deletion_kept; right|by apply settings_same].
  - destruct (at_ Usage p); [apply refresh_kept|by apply settings_same].
Qed.
Lemma quiet_run_kept es p : forallb quiet es = true -> kept p (run es p).
Proof.
  revert p. induction es as [|e es IH]; intros p H; [by apply settings_same|]. cbn [forallb] in H. apply andb_true_iff in H as [H1 H2].
  eapply kept_trans; [by apply quiet_kept|]. by apply IH.
Qed.

Lemma same_applied p q : look q = look p -> data q = data p -> applied q = applied p.
Proof. unfold applied. by intros -> ->. Qed.
(** The answer to something else than a choice leaves the choices alone. *)
Lemma other_answer i r p : (forall c, calls p !! i = Some c -> is_choice c = false) -> applied (handle (SdAnswer i r) p) = applied p.
Proof.
  intros H. cbn [settings_handle]. unfold answer. destruct (calls p !! i) as [c|] eqn:E; [|done]. specialize (H c eq_refl).
  destruct c; try done; destruct r; by apply same_applied.
Qed.
Lemma lookup_after {A} (l m : list A) c : (l ++ m) !! length l = Some c -> m !! 0 = Some c.
Proof. rewrite lookup_app_r by done. by rewrite Nat.sub_diag. Qed.
Lemma unanswered es p q r : data q = data p -> look q = look p -> calls q = calls p -> forallb quiet es = true ->
  applied (handle (SdAnswer (length (calls p)) r) (run es q)) = applied p.
Proof.
  intros D L C H. destruct (quiet_run_kept es q H) as (D' & L' & l & C' & N).
  assert (A : applied (run es q) = applied p) by (apply same_applied; congruence). rewrite <- A. apply other_answer.
  intros c. rewrite C', C. intros K%lookup_after. destruct l as [|x l]; [done|]. injection K as ->. cbn [existsb] in N.
  by apply orb_false_iff in N as [N _].
Qed.
Lemma refused_after url body c p q r es : r <> FAccepted -> is_choice c = true -> calls q = calls p -> forallb quiet es = true ->
  applied (handle (SdAnswer (length (calls p)) r) (run es (sendForm t url body c q))) = applied (form_done t c false q).
Proof.
  intros R H C Q. unfold sendForm. destruct (csrf q) as [|x l].
  - assert (K := unanswered es (form_done t c false q) (form_done t c false q) r eq_refl eq_refl eq_refl Q).
    by rewrite done_calls, C in K by done.
  - set (q1 := emit (Posted url body) (await c q)). destruct (quiet_run_kept es q1 Q) as (D' & L' & m & C' & _).
    assert (E : calls (run es q1) = calls p ++ c :: m) by (rewrite C'; unfold q1, await; dlg_fields; by rewrite C, <- app_assoc).
    cbn [settings_handle]. unfold answer. rewrite E, lookup_app_r, Nat.sub_diag by done. cbn [lookup list_lookup].
    destruct c; try done; (destruct r; cbn [form_answered]; [|done|]; by apply done_same).
Qed.
Lemma nothing_awaited e es p r : handle e p = p -> forallb quiet es = true ->
  applied (run (e :: es ++ [SdAnswer (length (calls p)) r]) p) = applied p.
Proof. intros E Q. cbn [settings_run foldl]. rewrite foldl_snoc, E. by apply (unanswered es p p). Qed.
Lemma undone e es p q url body c r : handle e p = sendForm t url body c q -> r <> FAccepted -> is_choice c = true -> calls q = calls p ->
  applied (form_done t c false q) = applied p -> forallb quiet es = true ->
  applied (run (e :: es ++ [SdAnswer (length (calls p)) r]) p) = applied p.
Proof. intros E R H C A Q. cbn [settings_run foldl]. rewrite foldl_snoc, E.
  etransitivity; [exact (refused_after url body c p q r es R H C Q)|exact A]. Qed.
(** The form of an entry being edited is sent for it, and keeps its secret unless
    one is typed. *)
Lemma edit_sent p s : csrf p <> [] -> isOpen p = true -> m_id s <> 0%Z -> trim (m_name s) <> [] -> trim (m_url s) <> [] ->
  In (Posted (u "/mcp") [(u "action", u "update"); (u "id", string_of_Z (m_id s)); (u "name", m_name s); (u "url", m_url s); (u "description", m_description s); (u "allowed_tools", m_allowed_tools s); (u "auth_header", [])])
    (asked (handle SdSave (edit_mcp s p))).
Proof.
  intros C O N A B. cbn [settings_handle]. unfold edit_mcp. dlg_fields. rewrite O. unfold saveMcp. dlg_fields. destruct (csrf p) as [|c l]; [done|]. cbn [f_name f_url f_description f_allowedTools f_auth].
  rewrite required_some by (by repeat constructor). cbv iota. unfold await, action, edits, id_field. dlg_fields. destruct (Z.eqb_spec (m_id s) 0); [done|]. apply in_app_iff. right. by left.
Qed.
End spec.

(** ** Examples and what the dialog does not do *)

#[local] Abbreviation play := (settings_run (fun s => s)) (only parsing).
Definition srv (n : Z) (on : Z) : McpServer := mkMcp n (u "docs") (u "https://a") [] [] on 1%Z.
Definition page : Dlg := play [SdOpen (Some Mcp); SdFetched 0 (Some (mkData [srv 1 0; srv 2 1] None [(u "cat", u "Cat")]))] (settings_start (u "c") (mount (first_paint (Some (Some ada)) [] None))).
Definition switched (p : Dlg) : list Z := match data p with Some d => map m_enabled (mcp_servers d) | None => [] end.
Example page_ready : section page = Mcp /\ switched page = [0; 1]%Z /\ calls page = [] /\ themeId (look page) = u "rose".
Proof. vm_compute. repeat split; reflexivity. Qed.
(** Two switches of one server, both refused: it shows the state the server does
    not have. *)
Lemma double_refusal_flips : switched (play [SdToggle 0 true; SdToggle 0 false; SdAnswer 0 FLost; SdAnswer 0 FLost] page) = [1; 1]%Z.
Proof. vm_compute. reflexivity. Qed.
(** A palette refused after another was accepted takes the other back. *)
Lemma late_refusal_undoes_next :
  themeId (look (play [SdRail Appearance_; SdTheme (u "cyan"); SdTheme (u "prune"); SdAnswer 1 FAccepted; SdAnswer 0 (FRefused None None)] page)) = u "rose".
Proof. vm_compute. reflexivity. Qed.
(** The palette chosen and accepted is lost when the avatar is changed: the identity
    still has the one of the load. *)
Lemma avatar_undoes_palette :
  let p := play [SdRail Appearance_; SdTheme (u "cyan"); SdAnswer 0 FAccepted] page in
  themeId (look p) = u "cyan" /\ themeId (look (play [SdRail Avatar; SdAvatar (u "cat"); SdAnswer 0 FAccepted] p)) = u "rose".
Proof. vm_compute. split; reflexivity. Qed.
(** The answer of a saving closes and empties the form opened since. *)
Lemma late_saving_closes_other_form :
  let p := play [SdNewMcp; SdTypeMcp (mkMcpForm (u "a") (u "https://b") [] [] []); SdSave; SdBack; SdEditMcp 1; SdTypeMcp (mkMcpForm (u "docs") (u "https://c") [] [] [])] page in
  isAddingMcp p = true /\ let q := play [SdMcpSaved 0 (Some (true, None, Some 3%Z))] p in isAddingMcp q = false /\ f_url (mcpForm q) = [].
Proof. vm_compute. repeat split; reflexivity. Qed.
(** Dismissed with a form and opened again on another section, the dialog shows that
    section under the title and the buttons of the form. *)
Lemma form_of_other_section :
  let p := play [SdNewMcp; SdTypeMcp (mkMcpForm (u "a") (u "https://b") [] [] []); SdDismiss; SdOpen (Some Keys_)] page in
  section p = Keys_ /\ paneTitle p = u "MCP" /\ existsb (fun x => match x with Posted _ _ => true | _ => false end) (asked (play [SdSave] p)) = true.
Proof. vm_compute. repeat split; reflexivity. Qed.
(** Without a token a choice is undone and a deletion asks for the list again, and
    nothing is said. *)
Lemma no_token_silent :
  let p := play [SdToken []] page in
  switched (play [SdToggle 0 true] p) = [0; 1]%Z /\ asked (play [SdToggle 0 true] p) = asked p /\ asked (play [SdDeleteMcp 0 true] p) = asked p ++ [AskedData].
Proof. vm_compute. repeat split; reflexivity. Qed.
Example missing_said : asked (play [SdNewMcp; SdSave] page) = [AskedData; Toast (u "Champs requis manquants : le nom, l'URL.") true].
Proof. vm_compute. reflexivity. Qed.

