(* ===== verification/Packages.v ===== *)
(** * The skill packages (app/(app)/_components/settings/SkillPackages.tsx)

    The list of the account's skills and its switches, the browser of a package
    with the tree of its files, the imports. *)

From S2P Require Import Prelude JsString JsInt JsJson I18n Thread.
Local Open Scope flow_scope.

(** ** The tree of the files *)

Inductive Node := mkNode (dirs : list (jstr * Node)) (here : list jstr).
Definition node_dirs (n : Node) := match n with mkNode ds _ => ds end.
Definition node_here (n : Node) := match n with mkNode _ fs => fs end.
Definition root : Node := mkNode [] [].
(** The folder [d] of a map, made at its end when it is not there. *)
Fixpoint at_dir (d : jstr) (f : Node -> Node) (ds : list (jstr * Node)) : list (jstr * Node) :=
  match ds with
  | [] => [(d, f root)]
  | (e, n) :: r => if streq d e then (e, f n) :: r else (e, n) :: at_dir d f r
  end.
Fixpoint add (parts : list jstr) (path : jstr) (n : Node) : Node :=
  match parts with
  | [] => mkNode (node_dirs n) (node_here n ++ [path])
  | d :: r => mkNode (at_dir d (add r path) (node_dirs n)) (node_here n)
  end.
Definition SLASH : N := 47.
Definition parts_of (path : jstr) : list jstr := split_on [SLASH] path.
Definition dirs_of (path : jstr) : list jstr := removelast (parts_of path).
Definition label_of (path : jstr) : jstr := List.last (parts_of path) path.
Definition tree_of (paths : list jstr) : Node := foldl (fun n p => add (dirs_of p) p n) root paths.

(** The order of texts without a comparison: by code units. *)
Fixpoint le_units (a b : jstr) : bool :=
  match a, b with [], _ => true | _ :: _, [] => false | x :: a, y :: b => if (x =? y)%N then le_units a b else (x <? y)%N end.

Inductive Item := Folder (id label : jstr) (children : list Item) | File (id label : jstr) (isSelected : bool).
Definition item_label (i : Item) : jstr := match i with Folder _ l _ | File _ l _ => l end.
Section tree.
Context (le_locale : jstr -> jstr -> bool) (sel : jstr).
(** The folders first, then the files; the order of the folders, [localeCompare],
    reads their names only. *)
Fixpoint toItems (n : Node) (prefix : jstr) : list Item :=
  match n with
  | mkNode ds fs =>
      sort_by (fun a b => le_locale (item_label a) (item_label b))
        ((fix go ds := match ds with [] => [] | (name, child) :: r => Folder (prefix ++ name ++ [SLASH]) name (toItems child (prefix ++ name ++ [SLASH])) :: go r end) ds)
      ++ map (fun path => File path (label_of path) (streq path sel)) (sort_by le_units fs)
  end.
Definition buildTree (paths : list jstr) : list Item := toItems (tree_of paths) [].
End tree.

(** ** A file of the browser *)

(** [/\.(md|markdown)$/i] *)
Definition ascii_lower (c : N) : N := if (65 <=? c)%N && (c <=? 90)%N then (c + 32)%N else c.
Definition isMarkdown (path : jstr) : bool := let s := map ascii_lower path in ends_with s (u ".md") || ends_with s (u ".markdown").
Definition FRONT : jstr := u "---" ++ [LF].
Definition BACK : jstr := [LF] ++ u "---" ++ [LF].
(** [replace(/^---\n[\s\S]*?\n---\n/, '')] : the head of a Markdown file, up to the
    first line of dashes after it. *)
Definition strip_front (s : jstr) : jstr :=
  if starts_with s FRONT then match index_of BACK s (length FRONT) with Some i => drop (i + length BACK) s | None => s end else s.

(** ** The page *)

Inductive Source := Manual | FromZip | FromGit.
Record SkillSummary := mkSummary { s_id : Z; s_name : jstr; s_description : jstr; s_source : Source; s_version : jstr; s_enabled : bool; s_file_count : Z }.
Record SkillFile := mkFile { f_path : jstr; f_size : Z; f_content : jstr }.
Record SkillDetail := mkDetail { summary : SkillSummary; instructions : jstr; files : list SkillFile }.
Record ImportResult := mkImport { r_ok : bool; r_error : option jstr; imported : list jstr; skipped : list (jstr * jstr) }.
Definition ZIP_MAX_BYTES : Z := 20 * 1024 * 1024.
Definition SOURCE_LABEL (s : Source) : jstr := match s with Manual => u "Écrite ici" | FromZip => u "Importée (.zip)" | FromGit => u "Dépôt Git" end.

Record Browser := mkBrowser {
  b_inst : nat; tab_content : bool; selected : jstr; view_code : bool; syncing : bool
}.

Definition set_b_inst v b := mkBrowser v (tab_content b) (selected b) (view_code b) (syncing b).
Definition set_tab_content v b := mkBrowser (b_inst b) v (selected b) (view_code b) (syncing b).
Definition set_selected v b := mkBrowser (b_inst b) (tab_content b) v (view_code b) (syncing b).
Definition set_view_code v b := mkBrowser (b_inst b) (tab_content b) (selected b) v (syncing b).
Definition set_syncing v b := mkBrowser (b_inst b) (tab_content b) (selected b) (view_code b) v.
Ltac browser_fields := cbn [b_inst tab_content selected view_code syncing set_b_inst set_tab_content set_selected set_view_code set_syncing] in *.

(** What is awaited: the list, of the reload that is its number; a package; a
    switch; the synchronisation of a package, asked from a browser; an import. *)
Inductive Call := Listing (gen : nat) | Opening (id : Z) | Toggling (id : Z) | Syncing (id : Z) (inst : nat) | Importing (inst : nat).
Inductive PkEffect :=
| AskedList | AskedSkill (id : Z) | Enabled (id : Z) (v : bool) | AskedSync (id : Z) | SentZip (file : jstr) (replace : bool) | SentGit (url ref path : jstr) (replace : bool)
| Downloaded (id : Z) (name : jstr) | Toast (body : jstr) (error : bool) | OnCreate | OnEdit (d : SkillDetail) | OnDelete (id : Z) (name : jstr).
Record Importer := mkImporter {
  i_inst : nat; i_file : option jstr; i_url : jstr; i_ref : jstr; i_path : jstr; i_replace : bool;
  i_busy : bool; i_result : option ImportResult
}.

Definition set_i_inst v b := mkImporter v (i_file b) (i_url b) (i_ref b) (i_path b) (i_replace b) (i_busy b) (i_result b).
Definition set_i_file v b := mkImporter (i_inst b) v (i_url b) (i_ref b) (i_path b) (i_replace b) (i_busy b) (i_result b).
Definition set_i_url v b := mkImporter (i_inst b) (i_file b) v (i_ref b) (i_path b) (i_replace b) (i_busy b) (i_result b).
Definition set_i_ref v b := mkImporter (i_inst b) (i_file b) (i_url b) v (i_path b) (i_replace b) (i_busy b) (i_result b).
Definition set_i_path v b := mkImporter (i_inst b) (i_file b) (i_url b) (i_ref b) v (i_replace b) (i_busy b) (i_result b).
Definition set_i_replace v b := mkImporter (i_inst b) (i_file b) (i_url b) (i_ref b) (i_path b) v (i_busy b) (i_result b).
Definition set_i_busy v b := mkImporter (i_inst b) (i_file b) (i_url b) (i_ref b) (i_path b) (i_replace b) v (i_result b).
Definition set_i_result v b := mkImporter (i_inst b) (i_file b) (i_url b) (i_ref b) (i_path b) (i_replace b) (i_busy b) v.

Record PkPage := mkPk {
  skills : option (list SkillSummary); error : option jstr; open : option SkillDetail; browser : Browser;
  importing : option bool; importer : Importer; tick : nat; instances : nat; csrf : jstr;
  calls : list Call; asked : list PkEffect
}.

Definition set_skills v p := mkPk v (error p) (open p) (browser p) (importing p) (importer p) (tick p) (instances p) (csrf p) (calls p) (asked p).
Definition set_error v p := mkPk (skills p) v (open p) (browser p) (importing p) (importer p) (tick p) (instances p) (csrf p) (calls p) (asked p).
Definition set_open v p := mkPk (skills p) (error p) v (browser p) (importing p) (importer p) (tick p) (instances p) (csrf p) (calls p) (asked p).
Definition set_browser v p := mkPk (skills p) (error p) (open p) v (importing p) (importer p) (tick p) (instances p) (csrf p) (calls p) (asked p).
Definition set_importing v p := mkPk (skills p) (error p) (open p) (browser p) v (importer p) (tick p) (instances p) (csrf p) (calls p) (asked p).
Definition set_importer v p := mkPk (skills p) (error p) (open p) (browser p) (importing p) v (tick p) (instances p) (csrf p) (calls p) (asked p).
Definition set_tick v p := mkPk (skills p) (error p) (open p) (browser p) (importing p) (importer p) v (instances p) (csrf p) (calls p) (asked p).
Definition set_instances v p := mkPk (skills p) (error p) (open p) (browser p) (importing p) (importer p) (tick p) v (csrf p) (calls p) (asked p).
Definition set_csrf v p := mkPk (skills p) (error p) (open p) (browser p) (importing p) (importer p) (tick p) (instances p) v (calls p) (asked p).
Definition set_calls v p := mkPk (skills p) (error p) (open p) (browser p) (importing p) (importer p) (tick p) (instances p) (csrf p) v (asked p).
Definition emit (e : PkEffect) p := mkPk (skills p) (error p) (open p) (browser p) (importing p) (importer p) (tick p) (instances p) (csrf p) (calls p) (asked p ++ [e]).
Ltac pk_fields := cbn [i_inst i_file i_url i_ref i_path i_replace i_busy i_result skills error open browser importing importer tick instances csrf calls asked set_i_inst set_i_file set_i_url set_i_ref set_i_path set_i_replace set_i_busy set_i_result set_skills set_error set_open set_browser set_importing set_importer set_tick set_instances set_csrf set_calls emit] in *.

Definition await (c : Call) (p : PkPage) : PkPage := set_calls (calls p ++ [c]) p.
Definition no_browser : Browser := mkBrowser 0 false [] false false.
Definition no_importer : Importer := mkImporter 0 None [] [] [] false false None.
(** The list is asked at first and at every reload; only the last one is kept. *)
Definition ask (p : PkPage) : PkPage := p |> await (Listing (tick p)) |> emit AskedList.
Definition load (p : PkPage) : PkPage := p |> set_tick (S (tick p)) |> ask.
Definition packages_start (token : jstr) : PkPage := ask (mkPk None None None no_browser None no_importer 0 1 token [] []).
Definition listed (gen : nat) (r : jstr + list SkillSummary) (p : PkPage) : PkPage :=
  if gen =? tick p then match r with inr l => p |> set_skills (Some l) |> set_error None | inl e => set_error (Some e) p end else p.
Definition openSkill (id : Z) (p : PkPage) : PkPage := p |> await (Opening id) |> emit (AskedSkill id).
(** The file a browser starts with. *)
Definition first_file (d : SkillDetail) : jstr :=
  match List.find (fun f => streq (to_lower (f_path f)) (u "skill.md")) (files d) with
  | Some f => f_path f
  | None => match files d with f :: _ => f_path f | [] => [] end
  end.
(** A package is read: its browser appears, or the one on screen goes on with it. *)
Definition skill_read (r : jstr + SkillDetail) (p : PkPage) : PkPage :=
  match r with
  | inl e => set_error (Some e) p
  | inr d => match open p with
             | Some _ => set_open (Some d) p
             | None => p |> set_browser (mkBrowser (instances p) false (first_file d) false false) |> set_instances (S (instances p)) |> set_open (Some d)
             end
  end.
Definition set_enabled (id : Z) (v : bool) (l : list SkillSummary) : list SkillSummary :=
  map (fun s => if (s_id s =? id)%Z then mkSummary (s_id s) (s_name s) (s_description s) (s_source s) (s_version s) v (s_file_count s) else s) l.
Definition toggle (id : Z) (v : bool) (p : PkPage) : PkPage :=
  p |> set_skills (set_enabled id v <$> skills p) |> await (Toggling id) |> emit (Enabled id v).
(** The switch is already shown: a refusal, or no answer, reads the list again. *)
Definition toggled (ok : bool) (p : PkPage) : PkPage := if ok then p else load p.

Section page.
Context (t : jstr -> jstr).
Definition sync (id : Z) (p : PkPage) : PkPage :=
  p |> set_browser (set_syncing true (browser p)) |> await (Syncing id (b_inst (browser p))) |> emit (AskedSync id).
(** The answer of a synchronisation, lost or with its verdict: it is told to the
    browser that asked, and the package is opened again. *)
Definition synced (id : Z) (inst : nat) (r : option (bool * option jstr)) (p : PkPage) : PkPage :=
  let ok := match r with Some (true, _) => true | _ => false end in
  let e := match r with Some (_, Some e) => e | _ => t (u "La synchronisation a échoué.") end in
  let p := if b_inst (browser p) =? inst then set_browser (set_syncing false (browser p)) p else p in
  let p := emit (if ok then Toast (t (u "Compétence synchronisée.")) false else Toast e true) p in
  if ok then p |> load |> openSkill id else p.
Definition meta (d : SkillDetail) : jstr :=
  let s := summary d in let n := if (s_file_count s =? 0)%Z then Z.of_nat (length (files d)) else s_file_count s in
  join (u " · ") (List.filter (fun x => match x with [] => false | _ => true end)
    [t (SOURCE_LABEL (s_source s)); match s_version s with [] => [] | v => u "v" ++ v end; string_of_Z n ++ u " " ++ t (u "fichier(s)")]).
(** What the content tab shows of the file selected. *)
Inductive Shown := NoFile | Preview (markdown : jstr) | Code (content language : jstr).
Definition shown_file (b : Browser) (d : SkillDetail) : Shown :=
  match List.find (fun f => streq (f_path f) (selected b)) (files d) with
  | None => NoFile
  | Some f => if isMarkdown (selected b) && negb (view_code b) then Preview (strip_front (f_content f))
              else Code (f_content f) (if isMarkdown (selected b) then u "markdown" else langFromName (selected b))
  end.

(** ** The imports *)

Definition open_import (git : bool) (p : PkPage) : PkPage :=
  p |> set_importing (Some git) |> set_importer (mkImporter (instances p) None [] [] [] false false None) |> set_instances (S (instances p)).
Definition canSubmit (git : bool) (i : Importer) : bool := if git then starts_with (trim (i_url i)) (u "https://") else match i_file i with Some _ => true | None => false end.
Definition submit (git : bool) (p : PkPage) : PkPage :=
  let i := importer p in
  p |> set_importer (i |> set_i_busy true |> set_i_result None) |> await (Importing (i_inst i))
    |> emit (if git then SentGit (i_url i) (i_ref i) (i_path i) (i_replace i) else SentZip (default [] (i_file i)) (i_replace i)).
Definition submitted (inst : nat) (r : option ImportResult) (p : PkPage) : PkPage :=
  let r := match r with Some r => r | None => mkImport false (Some (t (u "Le serveur n'a pas répondu — réessaie."))) [] [] end in
  let p := if i_inst (importer p) =? inst then set_importer (importer p |> set_i_busy false |> set_i_result (Some r)) p else p in
  if r_ok r then load p else p.
(** The banners under the form: [true] for a success, [false] for what was left. *)
Definition failure_banner (i : Importer) : option jstr :=
  match i_result i with Some r => if r_ok r then None else Some (match r_error r with Some e => e | None => t (u "L'import a échoué.") end) | None => None end.
Definition import_banner (i : Importer) : option jstr :=
  match i_result i with
  | Some r => match imported r with
              | [] => None
              | l => Some (replace_str (replace_str (t (u "{n} compétence(s) importée(s) : {names}")) (u "{n}") (string_of_nat (length l))) (u "{names}") (join (u ", ") l))
              end
  | None => None
  end.
Definition skipped_banner (i : Importer) : option jstr :=
  match i_result i with
  | Some r => match skipped r with [] => None | l => Some (t (u "Ignorées :") ++ u " " ++ join (u " ; ") (map (fun s => s.1 ++ u " (" ++ s.2 ++ u ")") l)) end
  | None => None
  end.
Definition shows_submit (i : Importer) : bool := match i_result i with Some r => negb (r_ok r) | None => true end.

Inductive PkEvent :=
| PkReload | PkOpen (k : nat) | PkToggle (k : nat) (v : bool) | PkClose | PkTab (content : bool) | PkSelect (path : jstr) | PkView (code : bool) | PkSync | PkDownload | PkEdit | PkDelete | PkCreate
| PkImport (git : bool) | PkCloseImport | PkFile (f : option jstr) | PkUrl (s : jstr) | PkRef (s : jstr) | PkPath (s : jstr) | PkReplace (b : bool) | PkSubmit
| PkListed (i : nat) (r : jstr + list SkillSummary) | PkRead (i : nat) (r : jstr + SkillDetail) | PkToggled (i : nat) (ok : bool) | PkSynced (i : nat) (r : option (bool * option jstr)) | PkSubmitted (i : nat) (r : option ImportResult).
Definition answer (i : nat) (f : Call -> option (PkPage -> PkPage)) (p : PkPage) : PkPage :=
  match calls p !! i with
  | Some c => match f c with Some g => g (set_calls (delete i (calls p)) p) | None => p end
  | None => p
  end.
Definition on_row (k : nat) (f : SkillSummary -> PkPage -> PkPage) (p : PkPage) : PkPage :=
  match skills p with Some l => match l !! k with Some s => f s p | None => p end | None => p end.
Definition on_open (f : SkillDetail -> PkPage -> PkPage) (p : PkPage) : PkPage := match open p with Some d => f d p | None => p end.
Definition on_import (f : bool -> PkPage -> PkPage) (p : PkPage) : PkPage := match importing p with Some g => f g p | None => p end.
Definition change_importer (f : Importer -> Importer) (p : PkPage) : PkPage := on_import (fun _ p => set_importer (f (importer p)) p) p.
Definition packages_handle (e : PkEvent) (p : PkPage) : PkPage :=
  match e with
  | PkReload => load p
  | PkOpen k => on_row k (fun s => openSkill (s_id s)) p
  | PkToggle k v => on_row k (fun s => toggle (s_id s) v) p
  | PkClose => set_open None p
  | PkTab c => on_open (fun _ p => set_browser (set_tab_content c (browser p)) p) p
  | PkSelect s => on_open (fun _ p => set_browser (set_selected s (browser p)) p) p
  | PkView c => on_open (fun _ p => set_browser (set_view_code c (browser p)) p) p
  | PkSync => on_open (fun d p => match s_source (summary d) with FromGit => sync (s_id (summary d)) p | _ => p end) p
  | PkDownload => on_open (fun d => emit (Downloaded (s_id (summary d)) (s_name (summary d)))) p
  | PkEdit => on_open (fun d p => match s_source (summary d) with Manual => p |> set_open None |> emit (OnEdit d) | _ => p end) p
  | PkDelete => on_open (fun d p => p |> set_open None |> emit (OnDelete (s_id (summary d)) (s_name (summary d)))) p
  | PkCreate => emit OnCreate p
  | PkImport g => open_import g p
  | PkCloseImport => set_importing None p
  | PkFile f => change_importer (set_i_file f) p
  | PkUrl s => change_importer (set_i_url s) p
  | PkRef s => change_importer (set_i_ref s) p
  | PkPath s => change_importer (set_i_path s) p
  | PkReplace b => change_importer (set_i_replace b) p
  | PkSubmit => on_import (fun g p => if shows_submit (importer p) && canSubmit g (importer p) then submit g p else p) p
  | PkListed i r => answer i (fun c => match c with Listing g => Some (listed g r) | _ => None end) p
  | PkRead i r => answer i (fun c => match c with Opening _ => Some (skill_read r) | _ => None end) p
  | PkToggled i ok => answer i (fun c => match c with Toggling _ => Some (toggled ok) | _ => None end) p
  | PkSynced i r => answer i (fun c => match c with Syncing n b => Some (synced n b r) | _ => None end) p
  | PkSubmitted i r => answer i (fun c => match c with Importing b => Some (submitted b r) | _ => None end) p
  end.
Definition packages_run (es : list PkEvent) (p : PkPage) : PkPage := foldl (fun p e => packages_handle e p) p es.
End page.

(** ** The tree has every file, in its folder, once *)

Lemma Node_nested (P : Node -> Prop) : (forall ds fs, Forall (fun e => P e.2) ds -> P (mkNode ds fs)) -> forall n, P n.
Proof.
  intros H. fix IH 1. intros [ds fs]. apply H. induction ds as [|[d c] ds G]; constructor; [apply IH|exact G].
Qed.

(** The files of a node, with the folders they are in. *)
Fixpoint node_files (chain : list jstr) (n : Node) : list (list jstr * jstr) :=
  match n with
  | mkNode ds fs => (fix go ds := match ds with [] => [] | (d, c) :: r => node_files (chain ++ [d]) c ++ go r end) ds ++ map (pair chain) fs
  end.
Definition dirs_files (chain : list jstr) (ds : list (jstr * Node)) := flat_map (fun e => node_files (chain ++ [e.1]) e.2) ds.
Lemma node_files_eq chain n : node_files chain n = dirs_files chain (node_dirs n) ++ map (pair chain) (node_here n).
Proof. destruct n as [ds fs]. cbn [node_files node_dirs node_here]. f_equal. unfold dirs_files. induction ds as [|[d c] ds IH]; [done|]. cbn [flat_map fst snd]. by rewrite <- IH. Qed.
Lemma add_files parts : forall path chain n, Permutation (node_files chain (add parts path n)) ((chain ++ parts, path) :: node_files chain n).
Proof.
  induction parts as [|d parts IH]; intros path chain n; rewrite !node_files_eq; cbn [add node_dirs node_here].
  - rewrite map_app, app_nil_r. cbn [map]. rewrite app_assoc. symmetry. apply Permutation_cons_append.
  - assert (G : forall ds, Permutation (dirs_files chain (at_dir d (add parts path) ds)) ((chain ++ d :: parts, path) :: dirs_files chain ds)); [|by rewrite G].
    assert (C : forall c, Permutation (node_files (chain ++ [d]) (add parts path c)) ((chain ++ d :: parts, path) :: node_files (chain ++ [d]) c)).
    { intros c. rewrite IH. by rewrite <- app_assoc. }
    unfold dirs_files. induction ds as [|[e c] ds G]; cbn [at_dir flat_map fst snd].
    + rewrite C. done.
    + destruct (streq_spec d e) as [<-|N]; cbn [flat_map fst snd]; [by rewrite C|]. rewrite G. symmetry. apply Permutation_middle.
Qed.
Lemma tree_files paths : Permutation (node_files [] (tree_of paths)) (map (fun p => (dirs_of p, p)) paths).
Proof.
  unfold tree_of. assert (G : forall n, Permutation (node_files [] (foldl (fun n p => add (dirs_of p) p n) n paths)) (node_files [] n ++ map (fun p => (dirs_of p, p)) paths)); [|apply (G root)].
  induction paths as [|p paths IH]; intros n; cbn [foldl map]; [by rewrite app_nil_r|]. rewrite IH, add_files. apply Permutation_middle.
Qed.

(** What an item of the tree shows: its folders, its path, its label, whether it is
    the one selected. *)
Fixpoint item_files (chain : list jstr) (i : Item) : list (list jstr * jstr * jstr * bool) :=
  match i with
  | File id l s => [(chain, id, l, s)]
  | Folder _ l cs => flat_map (item_files (chain ++ [l])) cs
  end.
Definition folders_of (le : jstr -> jstr -> bool) (sel prefix : jstr) (ds : list (jstr * Node)) : list Item :=
  map (fun e => Folder (prefix ++ e.1 ++ [SLASH]) e.1 (toItems le sel e.2 (prefix ++ e.1 ++ [SLASH]))) ds.
Lemma toItems_eq le sel prefix n : toItems le sel n prefix =
  sort_by (fun a b => le (item_label a) (item_label b)) (folders_of le sel prefix (node_dirs n)) ++ map (fun p => File p (label_of p) (streq p sel)) (sort_by le_units (node_here n)).
Proof.
  destruct n as [ds fs]. cbn [toItems node_dirs node_here]. f_equal. f_equal. unfold folders_of. induction ds as [|[d c] ds IH]; [done|]. cbn [map fst snd]. by rewrite <- IH.
Qed.
Lemma items_files le sel n : forall prefix chain, Permutation (flat_map (item_files chain) (toItems le sel n prefix)) (map (fun x => (x.1, x.2, label_of x.2, streq x.2 sel)) (node_files chain n)).
Proof.
  induction n as [ds fs IH] using Node_nested. intros prefix chain. rewrite toItems_eq, node_files_eq, flat_map_app, map_app. cbn [node_dirs node_here]. apply Permutation_app.
  - rewrite (Permutation_flat_map (item_files chain) (sort_by_perm _ (folders_of le sel prefix ds))). unfold folders_of, dirs_files.
    induction IH as [|[d c] ds H _ IH]; [done|]. cbn [map flat_map fst snd item_files] in *. rewrite map_app. apply Permutation_app; [apply H|exact IH].
  - rewrite map_map, flat_map_concat_map, map_map. cbn [item_files fst snd]. rewrite <- flat_map_concat_map. rewrite (Permutation_flat_map (fun x => [(chain, x, label_of x, streq x sel)]) (sort_by_perm le_units fs)).
    clear. induction fs as [|x fs IH]; [done|]. cbn [flat_map map app]. by constructor.
Qed.
(** Each file of a package is in the tree once, in the folders of its path, under its
    name, and it is shown selected when it is the one read. *)
Theorem tree_has_every_file le sel paths :
  Permutation (flat_map (item_files []) (buildTree le sel paths)) (map (fun p => (dirs_of p, p, label_of p, streq p sel)) paths).
Proof. unfold buildTree. rewrite items_files, tree_files, map_map. done. Qed.
(** The folders and the label of a file make its path. *)
Lemma path_of_parts p : join [SLASH] (dirs_of p ++ [label_of p]) = p.
Proof. unfold dirs_of, label_of, parts_of. rewrite <- app_removelast_last by apply split_on_nonnil. apply join_split_single. Qed.

(** No folder is shown twice beside itself, and none is empty. *)
Inductive neat : list Item -> Prop :=
| Neat items : NoDup (omap (fun i => match i with Folder _ l _ => Some l | File _ _ _ => None end) items) ->
    (forall id l cs, In (Folder id l cs) items -> neat cs /\ flat_map (item_files []) cs <> []) -> neat items.
Inductive wf : Node -> Prop :=
| Wf ds fs : NoDup (map fst ds) -> (forall d c, In (d, c) ds -> wf c /\ node_files [] c <> []) -> wf (mkNode ds fs).
Lemma files_nonempty chain n : node_files [] n <> [] -> node_files chain n <> [].
Proof.
  assert (G : forall c1 c2, length (node_files c1 n) = length (node_files c2 n)).
  { induction n as [ds fs IH] using Node_nested. intros c1 c2. rewrite !node_files_eq, !length_app, !length_map. cbn [node_dirs node_here]. f_equal. unfold dirs_files.
    induction IH as [|[d c] ds H _ IH]; [done|]. cbn [flat_map fst snd]. rewrite !length_app. cbn in H. by rewrite (H (c1 ++ [d]) (c2 ++ [d])), IH. }
  intros H E. apply H. apply length_zero_iff_nil. rewrite (G [] chain). by rewrite E.
Qed.
Lemma at_dir_names d f ds : map fst (at_dir d f ds) = map fst ds \/ (map fst (at_dir d f ds) = map fst ds ++ [d] /\ ~ In d (map fst ds)).
Proof.
  induction ds as [|[e c] ds IH]; cbn [at_dir map fst]; [right; split; [done|tauto]|]. destruct (streq_spec d e) as [->|N]; [by left|]. cbn [map fst].
  destruct IH as [->|[-> M]]; [by left|]. right. split; [done|]. intros [E|E]; [congruence|done].
Qed.
Lemma at_dir_in d f ds e c : In (e, c) (at_dir d f ds) -> In (e, c) ds \/ exists b, c = f b /\ (b = root \/ In (e, b) ds).
Proof.
  induction ds as [|[e' c'] ds IH]; cbn [at_dir].
  - intros [[= <- <-]|[]]. right. exists root. split; [done|by left].
  - destruct (streq_spec d e') as [->|N]; intros [[= <- <-]|H]; [right; exists c'; split; [done|right; by left]|left; by right|by left; left|].
    destruct (IH H) as [X|(b & -> & X)]; [left; by right|right; exists b; split; [done|]; destruct X; [by left|right; by right]].
Qed.
Lemma wf_add parts path : forall n, wf n -> wf (add parts path n).
Proof.
  induction parts as [|d parts IH]; intros n H; destruct H as [ds fs N H]; cbn [add node_dirs node_here]; constructor; [done|done| |].
  - destruct (at_dir_names d (add parts path) ds) as [->|[-> M]]; [done|]. apply NoDup_app. split; [done|]. split; [|apply NoDup_singleton]. intros x X Y. apply list_elem_of_singleton in Y as ->. apply M. by apply list_elem_of_In.
  - intros e c I. destruct (at_dir_in _ _ _ _ _ I) as [X|(b & -> & [->|X])]; [by apply (H e)| |].
    + split; [apply IH; constructor; [constructor|done]|]. intros E. assert (P := add_files parts path [] root). rewrite E in P. by apply Permutation_nil_cons in P.
    + split; [apply IH; by apply (H e)|]. intros E. assert (P := add_files parts path [] b). rewrite E in P. by apply Permutation_nil_cons in P.
Qed.
Lemma wf_tree paths : wf (tree_of paths).
Proof.
  unfold tree_of. assert (G : forall n, wf n -> wf (foldl (fun n p => add (dirs_of p) p n) n paths)); [|apply G; constructor; [constructor|done]].
  induction paths as [|p paths IH]; intros n H; [done|]. by apply IH, wf_add.
Qed.
Lemma labels_files (l : list jstr) sel : omap (fun i => match i with Folder _ l _ => Some l | File _ _ _ => None end) (map (fun p => File p (label_of p) (streq p sel)) l) = [].
Proof. by induction l. Qed.
Lemma labels_folders le sel prefix ds : omap (fun i => match i with Folder _ l _ => Some l | File _ _ _ => None end) (folders_of le sel prefix ds) = map fst ds.
Proof. unfold folders_of. induction ds as [|[d c] ds IH]; [done|]. cbn. f_equal. exact IH. Qed.
Lemma neat_items le sel n : wf n -> forall prefix, neat (toItems le sel n prefix).
Proof.
  induction n as [ds fs IH] using Node_nested. intros W prefix. inversion W as [ds' fs' N H E1]; subst. rewrite toItems_eq. cbn [node_dirs node_here]. constructor.
  - rewrite omap_app, labels_files, app_nil_r. rewrite (sort_by_perm _ (folders_of le sel prefix ds)). by rewrite labels_folders.
  - intros id l cs I. apply in_app_iff in I as [I|I]; [|by apply in_map_iff in I as (x & X & _)].
    apply (Permutation_in _ (sort_by_perm _ _)) in I. unfold folders_of in I. apply in_map_iff in I as ([d c] & [= <- <- <-] & I). cbn [fst snd]. destruct (H d c I) as [X Y].
    rewrite List.Forall_forall in IH. split; [by apply (IH (d, c) I)|]. intros E. assert (P := items_files le sel c (prefix ++ d ++ [SLASH]) []). rewrite E in P. apply Permutation_nil in P. apply Y. by destruct (node_files [] c).
Qed.
Lemma tree_neat le sel paths : neat (buildTree le sel paths).
Proof. apply neat_items, wf_tree. Qed.

(** ** A file is shown without its head *)

Lemma drop_front {A} (a b : list A) n : n = length a -> drop n (a ++ b) = b.
Proof. intros ->. apply drop_app_length. Qed.
(** A head that ends with a line of dashes is taken off, and what follows is shown as
    it is. *)
Lemma front_stripped m c : index_of BACK (FRONT ++ m ++ BACK ++ c) (length FRONT) = Some (length FRONT + length m) -> strip_front (FRONT ++ m ++ BACK ++ c) = c.
Proof.
  intros H. unfold strip_front. assert (S : starts_with (FRONT ++ m ++ BACK ++ c) FRONT = true) by reflexivity. rewrite S, H.
  rewrite (app_assoc FRONT m), (app_assoc (FRONT ++ m) BACK). apply drop_front. by rewrite !length_app.
Qed.

(** ** What leaves the page *)

Section spec.
Context (t : jstr -> jstr).
#[local] Abbreviation handle := (packages_handle t) (only parsing).
(** An import leaves with what it needs, a synchronisation is of a package that comes
    from a repository, and only a package written here is edited. *)
Definition sent_ok (p : PkPage) (x : PkEffect) : Prop :=
  match x with
  | SentGit url _ _ _ => importing p = Some true /\ starts_with (trim url) (u "https://") = true
  | SentZip f _ => importing p = Some false /\ i_file (importer p) = Some f
  | AskedSync id => exists d, open p = Some d /\ s_source (summary d) = FromGit /\ s_id (summary d) = id
  | OnEdit d => open p = Some d /\ s_source (summary d) = Manual
  | _ => True
  end.
Theorem packages_sent_ok e p : Forall (sent_ok p) (drop (length (asked p)) (asked (handle e p))).
Proof.
  assert (Q : forall q l, asked q = asked p ++ l -> Forall (sent_ok p) l -> Forall (sent_ok p) (drop (length (asked p)) (asked q))) by (intros q l E F; by rewrite E, drop_app_length).
  assert (N : forall q, asked q = asked p -> Forall (sent_ok p) (drop (length (asked p)) (asked q))) by (intros q E; by rewrite E, drop_ge).
  assert (D : forall i f, (forall c g q, f c = Some g -> asked q = asked p -> exists l, asked (g q) = asked p ++ l /\ Forall (sent_ok p) l) -> Forall (sent_ok p) (drop (length (asked p)) (asked (answer i f p)))).
  { intros i f H. unfold answer. destruct (calls p !! i) as [c|]; [|by apply N]. destruct (f c) as [g|] eqn:E; [|by apply N].
    destruct (H c g (set_calls (delete i (calls p)) p) E eq_refl) as (l & A & F). by apply (Q _ l). }
  destruct e; cbn [packages_handle]; try (by apply N); unfold on_row, on_open, change_importer, on_import.
  - by apply (Q _ [AskedList]); [|repeat constructor].
  - destruct (skills p) as [l|]; [|by apply N]. destruct (l !! k) as [s|]; [|by apply N]. by apply (Q _ [AskedSkill (s_id s)]); [|repeat constructor].
  - destruct (skills p) as [l|] eqn:E; [|by apply N]. destruct (l !! k) as [s|]; [|by apply N]. by apply (Q _ [Enabled (s_id s) v]); [|repeat constructor].
  - destruct (open p); by apply N.
  - destruct (open p); by apply N.
  - destruct (open p); by apply N.
  - destruct (open p) as [d|] eqn:O; [|by apply N]. destruct (s_source (summary d)) eqn:S; [by apply N|by apply N|]. apply (Q _ [AskedSync (s_id (summary d))]); [done|]. constructor; [by exists d|done].
  - destruct (open p) as [d|] eqn:O; [|by apply N]. by apply (Q _ [Downloaded (s_id (summary d)) (s_name (summary d))]); [|repeat constructor].
  - destruct (open p) as [d|] eqn:O; [|by apply N]. destruct (s_source (summary d)) eqn:S; [|by apply N|by apply N]. by apply (Q _ [OnEdit d]); [|repeat constructor].
  - destruct (open p) as [d|] eqn:O; [|by apply N]. by apply (Q _ [OnDelete (s_id (summary d)) (s_name (summary d))]); [|repeat constructor].
  - by apply (Q _ [OnCreate]); [|repeat constructor].
  - destruct (importing p); by apply N.
  - destruct (importing p); by apply N.
  - destruct (importing p); by apply N.
  - destruct (importing p); by apply N.
  - destruct (importing p); by apply N.
  - destruct (importing p) as [g|] eqn:I; [|by apply N]. destruct (_ && _) eqn:B; [|by apply N]. bool_norm. unfold submit, canSubmit in *.
    destruct g; (eapply Q; [reflexivity|]); (constructor; [|done]); [done|]. destruct (i_file (importer p)) eqn:F; [|done]. by split.
  - apply D. intros c g q E A. destruct c; try discriminate E. injection E as <-. exists []. unfold listed. split; [|done]. rewrite app_nil_r. destruct (_ =? _); [|done]. by destruct r.
  - apply D. intros c g q E A. destruct c; try discriminate E. injection E as <-. exists []. unfold skill_read. split; [|done]. rewrite app_nil_r. destruct r as [x|d]; [done|]. by destruct (open q).
  - apply D. intros c g q E A. destruct c; try discriminate E. injection E as <-. unfold toggled. destruct ok; [exists []; by rewrite app_nil_r|]. exists [AskedList]. unfold load, ask, await. pk_fields. rewrite A. by split; [|repeat constructor].
  - apply D. intros c g q E A. destruct c; try discriminate E. injection E as <-. unfold synced. cbv zeta.
    set (q' := if b_inst (browser q) =? inst then _ else q). assert (B : asked q' = asked p) by (unfold q'; by destruct (_ =? _)). clearbody q'.
    destruct r as [[[] x]|]; unfold openSkill, load, ask, await; (eexists; pk_fields; rewrite B, <- ?app_assoc; split; [reflexivity|by repeat constructor]).
  - apply D. intros c g q E A. destruct c; try discriminate E. injection E as <-. unfold submitted. cbv zeta. set (r' := match r with Some _ => _ | None => _ end). clearbody r'.
    set (q' := if i_inst (importer q) =? inst then _ else q). assert (B : asked q' = asked p) by (unfold q'; by destruct (_ =? _)). clearbody q'.
    destruct (r_ok r'); [exists [AskedList]|exists []; by rewrite app_nil_r]. unfold load, ask, await. pk_fields. rewrite B. by split; [|repeat constructor].
Qed.
End spec.

(** ** Examples and what the page does not do *)

#[local] Abbreviation play := (packages_run (fun s => s)) (only parsing).
Definition skill_ (n : Z) (s : Source) (on : bool) : SkillSummary := mkSummary n (u "pdf") (u "d") s (u "1") on 2%Z.
Definition detail (n : Z) (paths : list jstr) : SkillDetail := mkDetail (skill_ n FromGit true) [] (map (fun p => mkFile p 1%Z (u "x")) paths).
Definition listed_page : PkPage := play [PkListed 0 (inr [skill_ 1 FromGit true; skill_ 2 Manual false])] (packages_start (u "c")).
Definition switches (p : PkPage) : list bool := match skills p with Some l => map s_enabled l | None => [] end.
(** A package closed while it is synchronised opens again by itself. *)
Lemma sync_reopens :
  let p := play [PkOpen 0; PkRead 0 (inr (detail 1 [u "SKILL.md"])); PkSync; PkClose] listed_page in
  open p = None /\ open (play [PkSynced 0 (Some (true, None)); PkRead 1 (inr (detail 1 [u "SKILL.md"]))] p) = Some (detail 1 [u "SKILL.md"]).
Proof. vm_compute. split; reflexivity. Qed.
(** A list asked before a switch and read after it shows the switch as it was. *)
Lemma late_list_undoes_switch :
  switches (play [PkReload; PkToggle 1 true; PkToggled 1 true; PkListed 0 (inr [skill_ 1 FromGit true; skill_ 2 Manual false])] listed_page) = [true; false].
Proof. vm_compute. reflexivity. Qed.
(** Two packages clicked one after the other: the one that comes last takes the place
    of the other, with the file selected in it, that it may not have. *)
Lemma late_package_replaces :
  let p := play [PkOpen 0; PkOpen 1; PkRead 1 (inr (detail 2 [u "a.md"])); PkRead 0 (inr (detail 1 [u "b.md"]))] listed_page in
  open p = Some (detail 1 [u "b.md"]) /\ selected (browser p) = u "a.md" /\ shown_file (browser p) (detail 1 [u "b.md"]) = NoFile.
Proof. vm_compute. repeat split; reflexivity. Qed.
Example tree_of_package : buildTree le_units (u "ref/x.md") [u "z.py"; u "ref/x.md"; u "SKILL.md"; u "ref/a/b.md"] =
  [Folder (u "ref/") (u "ref") [Folder (u "ref/a/") (u "a") [File (u "ref/a/b.md") (u "b.md") false]; File (u "ref/x.md") (u "x.md") true];
   File (u "SKILL.md") (u "SKILL.md") false; File (u "z.py") (u "z.py") false].
Proof. vm_compute. reflexivity. Qed.
Example heads : strip_front (u "---" ++ [LF] ++ u "name: a" ++ [LF] ++ u "---" ++ [LF] ++ u "text") = u "text" /\
  strip_front (u "---" ++ [LF] ++ u "---" ++ [LF] ++ u "text") = u "---" ++ [LF] ++ u "---" ++ [LF] ++ u "text" /\ isMarkdown (u "README.MD") = true.
Proof. vm_compute. repeat split; reflexivity. Qed.
Example only_https : let p := play [PkImport true; PkUrl (u "http://a"); PkSubmit] listed_page in asked p = [AskedList].
Proof. vm_compute. reflexivity. Qed.
Example refused_switch : let p := play [PkToggle 1 true; PkToggled 0 false; PkListed 0 (inr [skill_ 1 FromGit true; skill_ 2 Manual false])] listed_page in switches p = [true; false].
Proof. vm_compute. reflexivity. Qed.
