(* ===== verification/AdminTabs.v ===== *)
(** * The tabs of the administration (admin/_components/PlatformStatus.tsx, ValidationPanel.tsx,
    RequestsTab.tsx, UsersTab.tsx, SystemTab.tsx, OverviewTab.tsx, LogsPanel.tsx; users/UsersPage.tsx)

    What the overview says of the machine, the run of the checks, the requests and
    their verdicts, the quotas, the announcements.  They act through [Admin.act]. *)

From S2P Require Import Prelude JsString JsInt JsJson JsNumber Url I18n Shared.
Local Open Scope flow_scope.

(** ** The state of the platform *)

Record Disk := mkDisk { free_gb : option num; total_gb : option num; used_pct : option num }.
Record Backup := mkBackup { latest : option jstr; age_hours : option num; fresh : option bool; count : option num; bk_readable : bool }.
Record Monitor := mkMonitor { mon_readable : bool; active_incidents : list jstr }.
Record Served := mkServed { served_name : option jstr; served_status : option jstr; uptime_s : option Z }.
Record PortalCounts := mkCounts { db_mb : option num; connected_users : option num; active_sessions : option num; local_users : option num; active_keys : option num }.
Record MemoryState := mkMemState { available_gib : option num; low_gib : num }.
Record Directory := mkDirectory { dir_readable : bool; dir_active : option Z; dir_disabled : option Z; dir_absent : option Z }.
Record PlatformStatusData := mkPlatform {
  disk : Disk; backup : option Backup; monitor : option Monitor; served : option Served; portal : option PortalCounts;
  memory : option MemoryState; directory : option Directory; maintenance : bool }.
Inductive Dot := Success | Warning | Neutral.
#[export] Instance Dot_eq_dec : EqDecision Dot.
Proof. solve_decision. Defined.
Record StatusRow := mkRow { row_label : jstr; dotVariant : option Dot; dotLabel : jstr; row_value : jstr }.

(** Whole seconds. *)
Definition fmtUptime (show : Z -> jstr) (s : Z) : jstr :=
  let h := (s / 3600)%Z in let m := (s mod 3600 / 60)%Z in
  if (0 <? h)%Z then string_of_Z h ++ u " h " ++ two_digits m else if (0 <? m)%Z then string_of_Z m ++ u " min" else show s ++ u " s".

Section status.
Context (t : jstr -> jstr) (fmt : num -> nat -> jstr).
Definition DASH : jstr := u "—".
Definition parts (l : list jstr) : jstr := match l with [] => DASH | _ => join (u " · ") l end.
Definition showZ (z : Z) : jstr := fmt (num_of_Z z) 0.
Definition given {A} (o : option A) (f : A -> jstr) : list jstr := match o with Some v => [f v] | None => [] end.
Definition unknown : jstr := t (u "état inconnu").
Definition disk_row (d : Disk) : StatusRow :=
  let known := match free_gb d, used_pct d with None, None => false | _, _ => true end in
  let warn := match free_gb d with Some f => nlt f (num_of_Z 20) | None => false end || match used_pct d with Some p => nle (num_of_Z 90) p | None => false end in
  mkRow (t (u "Disque")) (Some (if known then if warn then Warning else Success else Neutral))
    (if known then if warn then t (u "Espace disque faible") else t (u "Espace disque suffisant") else unknown)
    (parts (given (used_pct d) (fun p => fmt p 1 ++ u " %") ++
            given (free_gb d) (fun f => match total_gb d with
                                        | Some w => replace_str (replace_str (t (u "{v} Go sur {w} Go libres")) (u "{v}") (fmt f 1)) (u "{w}") (fmt w 1)
                                        | None => replace_str (t (u "{v} Go libre")) (u "{v}") (fmt f 1)
                                        end))).
Definition backup_row (o : option Backup) : StatusRow :=
  let unreadable := match o with Some b => negb (bk_readable b) | None => false end in
  let stale := match o with
               | Some b => bk_readable b && (match fresh b with Some false => true | _ => false end || match age_hours b with None => true | Some a => nlt (num_of_Z 26) a end)
               | None => false end in
  let said := match o with
              | Some b => match latest b with Some ((_ :: _) as l) => [l] | _ => [] end
                          ++ match age_hours b with Some a => [replace_str (t (u "il y a {h} h")) (u "{h}") (fmt a 1)] | None => if unreadable then [] else [t (u "âge inconnu")] end
                          ++ given (count b) (fun n => fmt n 0 ++ u " " ++ t (u "archives"))
              | None => [] end in
  mkRow (t (u "Sauvegarde")) (Some (if unreadable then Neutral else if stale then Warning else match o with Some _ => Success | None => Neutral end))
    (if unreadable then t (u "sauvegarde illisible") else if stale then t (u "Sauvegarde en retard") else match o with Some _ => t (u "Sauvegarde récente") | None => unknown end)
    (if unreadable then t (u "sauvegarde illisible") else parts said).
Definition monitor_row (o : option Monitor) : StatusRow :=
  let incidents := match o with Some m => active_incidents m | None => [] end in
  let unreadable := match o with Some m => negb (mon_readable m) | None => false end in
  let some := match incidents with [] => false | _ => true end in
  mkRow (t (u "Moniteur")) (Some (match o with None => Neutral | Some _ => if unreadable || some then Warning else Success end))
    (if unreadable then t (u "état non lisible") else if some then t (u "incident(s) actif(s)") else t (u "aucun incident"))
    (match o with
     | None => DASH
     | Some _ => if unreadable then t (u "état non lisible")
                 else if some then showZ (Z.of_nat (length incidents)) ++ u " " ++ t (u "incident(s) actif(s)") ++ u " — " ++ join (u ", ") incidents
                 else t (u "aucun incident")
     end).
Definition served_row (o : option Served) : StatusRow :=
  let st := match o with Some m => served_status m | None => None end in
  let at_ s := match st with Some x => streq x s | None => false end in
  let name := match o with Some m => match served_name m with Some ((_ :: _) as n) => Some n | _ => None end | None => None end in
  mkRow (t (u "Modèle servi")) (Some (match o with None => Neutral | Some _ => if at_ (u "running") then Success else if at_ (u "starting") then Warning else Neutral end))
    (match o with None => unknown
                | Some _ => if at_ (u "running") then t (u "En ligne") else if at_ (u "starting") then t (u "Démarrage…") else if at_ (u "stopped") then t (u "Arrêté") else unknown end)
    (parts (match o with
            | Some m => match name with
                        | Some n => n :: match uptime_s m, st with Some s, Some _ => [replace_str (t (u "en service depuis {u}")) (u "{u}") (fmtUptime showZ s)] | _, _ => [] end
                        | None => match st with Some _ => [t (u "aucun modèle")] | None => [] end
                        end
            | None => [] end)).
Definition memory_row (m : MemoryState) : StatusRow :=
  let low := match available_gib m with Some a => nlt a (low_gib m) | None => false end in
  mkRow (t (u "Mémoire")) (Some (match available_gib m with Some _ => if low then Warning else Success | None => Neutral end))
    (match available_gib m with Some _ => if low then t (u "Mémoire faible") else t (u "Mémoire suffisante") | None => unknown end)
    (match available_gib m with
     | Some a => replace_str (t (u "{v} Gio disponibles")) (u "{v}") (fmt a 1)
                 ++ (if low then u " — " ++ replace_str (t (u "sous {s} Gio : les services à la demande et les vérifications lourdes ne démarrent pas")) (u "{s}") (fmt (low_gib m) 0) else [])
     | None => DASH end).
Definition directory_row (d : Directory) : StatusRow :=
  let alert := dir_readable d && (0 <? default 0 (dir_disabled d) + default 0 (dir_absent d))%Z in
  let some (o : option Z) k := match o with Some n => if (n =? 0)%Z then [] else [showZ n ++ u " " ++ t k] | None => [] end in
  mkRow (t (u "Annuaire")) (Some (if dir_readable d then if alert then Warning else Success else Neutral))
    (if dir_readable d then if alert then t (u "Comptes à vérifier") else t (u "Tous les comptes actifs") else t (u "annuaire non lu"))
    (if dir_readable d then join (u " · ") ((showZ (default 0%Z (dir_active d)) ++ u " " ++ t (u "actifs")) :: some (dir_disabled d) (u "désactivés") ++ some (dir_absent d) (u "absents de l'annuaire"))
     else t (u "annuaire non lu (pas encore, ou injoignable)")).
Definition portal_row (o : option PortalCounts) : StatusRow :=
  let n f k := match o with Some c => given (f c) (fun x => fmt x 0 ++ u " " ++ t k) | None => [] end in
  mkRow (t (u "Portail")) None (t (u "Portail"))
    (parts (match o with Some c => given (db_mb c) (fun x => replace_str (t (u "base {v} Mo")) (u "{v}") (fmt x 1)) | None => [] end
            ++ n connected_users (u "personnes connectées") ++ n active_sessions (u "sessions actives") ++ n local_users (u "comptes locaux") ++ n active_keys (u "clés actives"))).
Definition status_rows (s : PlatformStatusData) : list StatusRow :=
  [disk_row (disk s); backup_row (backup s); monitor_row (monitor s); served_row (served s)] ++ map memory_row (option_list (memory s)) ++ map directory_row (option_list (directory s)) ++ [portal_row (portal s)].
End status.

(** ** The run of the checks *)

Record VState := mkVState { running : bool; duration_s : Z; output : list jstr; passed : option bool }.
Inductive VEffect := Launched | AskedState.
Record Validation := mkValidation {
  v_state : option VState; rendered : list jstr; v_error : option jstr; timer : bool; launches : nat;
  reads : nat; v_asked : list VEffect
}.

Definition set_v_state v w := mkValidation v (rendered w) (v_error w) (timer w) (launches w) (reads w) (v_asked w).
Definition set_rendered v w := mkValidation (v_state w) v (v_error w) (timer w) (launches w) (reads w) (v_asked w).
Definition set_v_error v w := mkValidation (v_state w) (rendered w) v (timer w) (launches w) (reads w) (v_asked w).
Definition set_timer v w := mkValidation (v_state w) (rendered w) (v_error w) v (launches w) (reads w) (v_asked w).
Definition set_launches v w := mkValidation (v_state w) (rendered w) (v_error w) (timer w) v (reads w) (v_asked w).
Definition set_reads v w := mkValidation (v_state w) (rendered w) (v_error w) (timer w) (launches w) v (v_asked w).
Definition v_emit (e : VEffect) w := mkValidation (v_state w) (rendered w) (v_error w) (timer w) (launches w) (reads w) (v_asked w ++ [e]).
Ltac validation_fields := cbn [v_state rendered v_error timer launches reads v_asked set_v_state set_rendered set_v_error set_timer set_launches set_reads v_emit] in *.

Definition validation_start : Validation := mkValidation None [] None false 0 0 [].
Definition inProgress (v : Validation) : bool := match v_state v with Some s => running s | None => false end.
Definition readValue (v : Validation) : Validation := v |> set_reads (S (reads v)) |> v_emit AskedState.
(** The state is read: its lines replace the ones shown when there are more. *)
Definition value_read (r : option VState) (v : Validation) : Validation :=
  match reads v with
  | O => v
  | S n => let v := set_reads n v in
           match r with
           | None => v
           | Some d => v |> set_v_state (Some d) |> set_rendered (if length (rendered v) <? length (output d) then output d else rendered v)
           end
  end.
Definition launch (v : Validation) : Validation := v |> set_v_error None |> set_launches (S (launches v)) |> v_emit Launched.
(** The answer to a launch: lost, which nothing catches, or its verdict. *)
Definition launched (t : jstr -> jstr) (r : option (bool * option jstr)) (v : Validation) : Validation :=
  match launches v with
  | O => v
  | S n => let v := set_launches n v in
           match r with
           | None => v
           | Some (false, e) => set_v_error (Some (match e with Some ((_ :: _) as m) => m | _ => t (u "Échec du lancement") end)) v
           | Some (true, _) => v |> set_timer true |> readValue
           end
  end.
Definition verdict_badge (t : jstr -> jstr) (v : Validation) : option (jstr * bool) :=
  match v_state v with Some s => match passed s with Some ok => Some (t (if ok then u "Tout est vert" else u "Un contrôle échoue"), ok) | None => None end | None => None end.
Inductive VpEvent := VpLaunch | VpLaunched (r : option (bool * option jstr)) | VpTick | VpRead (r : option VState) | VpLeave.
Definition validation_handle (t : jstr -> jstr) (disabled : bool) (e : VpEvent) (v : Validation) : Validation :=
  match e with
  | VpLaunch => if disabled || inProgress v then v else launch v
  | VpLaunched r => launched t r v
  | VpTick => if timer v then readValue v else v
  | VpRead r => value_read r v
  | VpLeave => set_timer false v
  end.
Definition validation_run (t : jstr -> jstr) (disabled : bool) (es : list VpEvent) (v : Validation) : Validation := foldl (fun v e => validation_handle t disabled e v) v es.

(** ** The requests *)

Record BudgetRequest := mkBudgetReq { br_id : Z; br_status : jstr; br_granted : option num; br_current : option num }.
Record ModelRequest := mkModelReq { mr_id : Z; mr_status : jstr }.
Definition BUDGET_PRESETS : list Z := [10000000; 50000000; 100000000]%Z.
(** What can be asked of the server about a request: its route and parameters. *)
Definition Ask := (jstr * list (jstr * jstr))%type.
Definition budget_asks (r : BudgetRequest) (amount days : jstr) : list Ask :=
  if streq (br_status r) (u "pending")
  then [(u "/admin/budget/approve/" ++ string_of_Z (br_id r), [(u "amount", amount); (u "grant_days", days)]); (u "/admin/budget/reject/" ++ string_of_Z (br_id r), [])]
  else [(u "/admin/budget/delete/" ++ string_of_Z (br_id r), [])].
Definition model_asks (r : ModelRequest) : list Ask :=
  (if streq (mr_status r) (u "done") then [] else [(u "/admin/update/" ++ string_of_Z (mr_id r), [(u "status", u "done")])])
  ++ (if streq (mr_status r) (u "rejected") then [] else [(u "/admin/update/" ++ string_of_Z (mr_id r), [(u "status", u "rejected")])])
  ++ [(u "/admin/request/delete/" ++ string_of_Z (mr_id r), [])].
Definition REQ_STATUS_LABEL : list (jstr * jstr) := [(u "pending", u "En attente"); (u "done", u "Lancé ✓"); (u "rejected", u "Refusé")].
Definition req_label (t : jstr -> jstr) (s : jstr) : jstr := t (match assoc_get s REQ_STATUS_LABEL with Some l => l | None => s end).
(** [show]: a number rounded, in the language of the page. *)
Definition amount_or_0 (o : option num) : num := match o with Some x => if is_nan x then num_of_Z 0 else x | None => num_of_Z 0 end.
Definition budget_badge (t : jstr -> jstr) (show : num -> jstr) (r : BudgetRequest) : jstr :=
  if streq (br_status r) (u "pending") then t (u "En attente") else if streq (br_status r) (u "approved") then u "+" ++ show (amount_or_0 (br_granted r)) ++ u " ✓" else t (u "Refusé").
Definition current_cell (show : num -> jstr) (r : BudgetRequest) : jstr :=
  match br_current r with Some x => if is_nan x || (nle x (num_of_Z 0) && nle (num_of_Z 0) x) then u "—" else show x | None => u "—" end.
(** A date of the server, to the minute. *)
Definition minute_of (s : jstr) : jstr := replace_str (take 16 s) (u "T") (u " ").

(** The dialog that grants tokens. *)
Record Grant := mkGrant { g_open : bool; g_amount : jstr; g_days : jstr }.
Definition grant_start : Grant := mkGrant false [] (u "permanent").
Definition DAYS : list jstr := [u "permanent"; u "1"; u "3"; u "7"; u "30"].
Inductive GrEvent := GrOpen | GrClose | GrAmount (s : jstr) | GrPreset (k : nat) | GrDays (k : nat) | GrConfirm.
(** The dialog after an event, and the amount and the days it grants. *)
Definition grant_handle (disabled : bool) (e : GrEvent) (g : Grant) : Grant * option (jstr * jstr) :=
  match e with
  | GrOpen => (if disabled then g else mkGrant true (g_amount g) (g_days g), None)
  | GrClose => (mkGrant false (g_amount g) (g_days g), None)
  | GrAmount s => (if g_open g then mkGrant true s (g_days g) else g, None)
  | GrPreset k => (match BUDGET_PRESETS !! k with Some v => if g_open g then mkGrant true (string_of_Z v) (g_days g) else g | None => g end, None)
  | GrDays k => (match DAYS !! k with Some d => if g_open g then mkGrant true (g_amount g) d else g | None => g end, None)
  | GrConfirm => if g_open g && negb (streq (g_amount g) []) && negb disabled
                 then (mkGrant false [] (g_days g), Some (g_amount g, if streq (g_days g) (u "permanent") then [] else g_days g)) else (g, None)
  end.
(** The total the grant would make: [parse] reads the number a text begins with. *)
Definition grant_total (parse : jstr -> option num) (current : option num) (amount : jstr) : num :=
  nadd (amount_or_0 current) (amount_or_0 (parse amount)).

(** ** The quotas *)

Record Quota := mkQuota { q_budget : jstr; q_duration : jstr; q_filled : bool }.
Definition quota_start : Quota := mkQuota [] [] false.
(** The data of a poll: only the first fills the form. *)
Definition quota_data (budget : num) (show : num -> jstr) (duration : jstr) (q : Quota) : Quota := if q_filled q then q else mkQuota (show budget) duration true.
Definition quota_apply (q : Quota) : Ask := (u "/admin/settings", [(u "default_key_budget", q_budget q); (u "default_key_duration", q_duration q)]).
Inductive QuEvent := QuData (budget : num) (duration : jstr) | QuBudget (s : jstr) | QuDuration (s : jstr).
Definition quota_handle (show : num -> jstr) (e : QuEvent) (q : Quota) : Quota :=
  match e with
  | QuData b d => quota_data b show d q
  | QuBudget s => mkQuota s (q_duration q) (q_filled q)
  | QuDuration s => mkQuota (q_budget q) s (q_filled q)
  end.
Definition quota_run (show : num -> jstr) (es : list QuEvent) (q : Quota) : Quota := foldl (fun q e => quota_handle show e q) q es.

(** The cap of one account. *)
Inductive CapEffect := CapPosted (url : jstr) (budget : jstr) | CapToast (body : jstr) (error : bool).
Record Cap := mkCap { cap_user : jstr; cap_budget : jstr; cap_busy : bool; cap_posts : nat; cap_asked : list CapEffect }.
Definition cap_start : Cap := mkCap [] [] false 0 [].
Definition CAPS : list Z := [50000000; 100000000; 200000000]%Z.
Definition cap_url (user : jstr) : option jstr := match encodeURIComponent (trim user) with Some e => Some (u "/admin/users/" ++ e ++ u "/budget/set") | None => None end.
Inductive CapEvent := CapUser (s : jstr) | CapBudget (s : jstr) | CapPreset (k : nat) | CapSend | CapAnswer (ok : bool) (error : option jstr).
Definition cap_handle (t : jstr -> jstr) (disabled : bool) (e : CapEvent) (c : Cap) : Cap :=
  match e with
  | CapUser s => mkCap s (cap_budget c) (cap_busy c) (cap_posts c) (cap_asked c)
  | CapBudget s => mkCap (cap_user c) s (cap_busy c) (cap_posts c) (cap_asked c)
  | CapPreset k => match CAPS !! k with Some v => mkCap (cap_user c) (string_of_Z v) (cap_busy c) (cap_posts c) (cap_asked c) | None => c end
  | CapSend => if streq (cap_user c) [] || streq (cap_budget c) [] || cap_busy c || disabled then c
               else match cap_url (cap_user c) with
                    | Some url => mkCap (cap_user c) (cap_budget c) true (S (cap_posts c)) (cap_asked c ++ [CapPosted url (trim (cap_budget c))])
                    | None => c   (* the exception, after which the button is free again *)
                    end
  | CapAnswer ok error =>
      match cap_posts c with
      | O => c
      | S n => if ok then mkCap (cap_user c) [] false n (cap_asked c ++ [CapToast (t (u "Budget redéfini.")) false])
               else mkCap (cap_user c) (cap_budget c) false n
                      (cap_asked c ++ [CapToast (match error with Some ((_ :: _) as e) => tServer e t | _ => t (u "L'action a échoué.") end) true])
      end
  end.
Definition cap_run (t : jstr -> jstr) (disabled : bool) (es : list CapEvent) (c : Cap) : Cap := foldl (fun c e => cap_handle t disabled e c) c es.

(** ** The announcements, the logs, the page of the users *)

Record Announce := mkAnnounce { a_title : jstr; a_body : jstr }.
Definition publish (a : Announce) : Ask := (u "/admin/announce", [(u "title", a_title a); (u "body", a_body a)]).
(** The action is over, whatever its verdict. *)
Definition published (ok : bool) (a : Announce) : Announce := mkAnnounce [] [].
Definition logText (llm : bool) (logs sidecarLogs : list jstr) : jstr := join [LF] (if llm then logs else sidecarLogs).
(** What a copy of the logs says: [None] when there is nothing to copy. *)
Definition copyLogs (t : jstr -> jstr) (text : jstr) (clipboard exec : option bool) : option (jstr * bool) :=
  match text with
  | [] => None
  | _ => Some (if (copyText clipboard exec).1.1 then (t (u "Copié."), false) else (t (u "Copie impossible depuis ce navigateur."), true))
  end.
(** The requests the overview points at. *)
Definition waiting (pending budget_pending : Z) : option Z := if (0 <? pending)%Z || (0 <? budget_pending)%Z then Some (pending + budget_pending)%Z else None.
Inductive UsersStatus := UsLoading | UsOk | UsForbidden.
Definition users_start (seed_forbidden seed_users : bool) : UsersStatus := if seed_forbidden then UsForbidden else if seed_users then UsOk else UsLoading.
Definition users_asks (seed_forbidden seed_users : bool) : bool := negb (seed_forbidden || seed_users).
(** Any error but a refusal shows the section, which says its own. *)
Definition users_answered (forbidden : bool) (s : UsersStatus) : UsersStatus := if forbidden then UsForbidden else UsOk.

(** ** A green light is about something known *)

Section properties.
Context (t : jstr -> jstr) (fmt : num -> nat -> jstr).
Definition disk_known (d : Disk) : Prop :=
  (free_gb d <> None \/ used_pct d <> None) /\ (forall f, free_gb d = Some f -> nlt f (num_of_Z 20) = false) /\ (forall p, used_pct d = Some p -> nle (num_of_Z 90) p = false).
Definition backup_known (o : option Backup) : Prop :=
  exists b a, o = Some b /\ bk_readable b = true /\ fresh b <> Some false /\ age_hours b = Some a /\ nlt (num_of_Z 26) a = false.
Definition monitor_known (o : option Monitor) : Prop := exists m, o = Some m /\ mon_readable m = true /\ active_incidents m = [].
Definition served_known (o : option Served) : Prop := exists m, o = Some m /\ served_status m = Some (u "running").
Definition memory_known (m : MemoryState) : Prop := exists a, available_gib m = Some a /\ nlt a (low_gib m) = false.
Definition directory_known (d : Directory) : Prop := dir_readable d = true /\ (default 0 (dir_disabled d) + default 0 (dir_absent d) <= 0)%Z.
Lemma disk_green d : dotVariant (disk_row t fmt d) = Some Success -> disk_known d.
Proof.
  unfold disk_known. cbn [disk_row dotVariant]. destruct (free_gb d) as [f|], (used_pct d) as [p|]; cbn [orb]; rewrite ?orb_false_r; intros H; try discriminate H;
    (repeat match type of H with context [if ?b then Warning else _] => destruct b eqn:?; [discriminate H|] end); bool_norm; (split; [by (left + right)|]); split; intros x [= <-]; assumption.
Qed.
Lemma backup_green o : dotVariant (backup_row t fmt o) = Some Success -> backup_known o.
Proof.
  unfold backup_known. cbn [backup_row dotVariant]. destruct o as [b|]; [|done]. destruct (bk_readable b) eqn:R; [|done]. cbn [negb andb]. destruct (fresh b) as [[]|] eqn:F; cbn [orb]; try done;
    (destruct (age_hours b) as [a|] eqn:A; [|done]); (destruct (nlt _ a) eqn:L; [done|]); intros _; exists b, a; repeat split; congruence.
Qed.
Lemma monitor_green o : dotVariant (monitor_row t fmt o) = Some Success -> monitor_known o.
Proof. unfold monitor_known. cbn [monitor_row dotVariant]. destruct o as [m|]; [|done]. destruct (mon_readable m) eqn:R; [|done]. destruct (active_incidents m) eqn:I; [|done]. intros _. by exists m. Qed.
Lemma served_green o : dotVariant (served_row t fmt o) = Some Success -> served_known o.
Proof.
  unfold served_known. cbn [served_row dotVariant]. destruct o as [m|]; [|done]. destruct (served_status m) as [s|] eqn:S; [|done]. destruct (streq_spec s (u "running")) as [->|]; [by exists m|]. by destruct (streq s _).
Qed.
Lemma memory_green m : dotVariant (memory_row t fmt m) = Some Success -> memory_known m.
Proof. unfold memory_known. cbn [memory_row dotVariant]. destruct (available_gib m) as [a|] eqn:A; [|done]. destruct (nlt a _) eqn:L; [done|]. intros _. by exists a. Qed.
Lemma directory_green d : dotVariant (directory_row t fmt d) = Some Success -> directory_known d.
Proof. unfold directory_known. cbn [directory_row dotVariant]. destruct (dir_readable d); [|done]. cbn [andb]. destruct (Z.ltb_spec 0 (default 0 (dir_disabled d) + default 0 (dir_absent d))%Z) as [L|L]; [done|]. done. Qed.
(** No line of the overview is green for something that was not read: the room on the
    disk, a backup of less than a day and two hours, no incident, a model that runs,
    enough memory, a directory with nothing to check.  The counters have no light. *)
Theorem green_is_known s : 
  (dotVariant (disk_row t fmt (disk s)) = Some Success -> disk_known (disk s)) /\
  (dotVariant (backup_row t fmt (backup s)) = Some Success -> backup_known (backup s)) /\
  (dotVariant (monitor_row t fmt (monitor s)) = Some Success -> monitor_known (monitor s)) /\
  (dotVariant (served_row t fmt (served s)) = Some Success -> served_known (served s)) /\
  Forall (fun m => dotVariant (memory_row t fmt m) = Some Success -> memory_known m) (option_list (memory s)) /\
  Forall (fun d => dotVariant (directory_row t fmt d) = Some Success -> directory_known d) (option_list (directory s)) /\
  dotVariant (portal_row t fmt (portal s)) = None.
Proof.
  split; [apply disk_green|]. split; [apply backup_green|]. split; [apply monitor_green|]. split; [apply served_green|].
  split; [apply List.Forall_forall; intros m _; apply memory_green|]. split; [apply List.Forall_forall; intros d _; apply directory_green|done].
Qed.
End properties.

(** The uptime shown is that of the seconds, to the minute. *)
Lemma uptime_shown show s : (0 <= s)%Z -> exists h m, (0 <= m < 60 /\ h * 3600 + m * 60 <= s < h * 3600 + m * 60 + 60)%Z /\
  fmtUptime show s = if (0 <? h)%Z then string_of_Z h ++ u " h " ++ two_digits m else if (0 <? m)%Z then string_of_Z m ++ u " min" else show s ++ u " s".
Proof.
  intros H. exists (s / 3600)%Z, (s mod 3600 / 60)%Z. split; [|done]. assert (A := Z.div_mod s 3600 ltac:(lia)). assert (B := Z.mod_pos_bound s 3600 ltac:(lia)). set (r := (s mod 3600)%Z) in *.
  assert (C := Z.div_mod r 60 ltac:(lia)). assert (D := Z.mod_pos_bound r 60 ltac:(lia)). set (m := (r / 60)%Z) in *. set (h := (s / 3600)%Z) in *. clearbody h m r. lia.
Qed.

(** ** The journal of the checks only grows *)

Section validation.
Context (t : jstr -> jstr) (disabled : bool).
(** The lines shown are those of a state that was read, and they are never fewer. *)
Lemma journal_step e v : length (rendered v) <= length (rendered (validation_handle t disabled e v)) /\
  (rendered (validation_handle t disabled e v) = rendered v \/ exists d, e = VpRead (Some d) /\ rendered (validation_handle t disabled e v) = output d).
Proof.
  destruct e as [|r| |r|]; cbn [validation_handle].
  - destruct (_ || _); (split; [|by left]); done.
  - unfold launched. destruct (launches v); [split; [done|by left]|]. cbv zeta. destruct r as [[[] x]|]; (split; [|by left]); done.
  - destruct (timer v); (split; [|by left]); done.
  - unfold value_read. destruct (reads v); [split; [done|by left]|]. cbv zeta. destruct r as [d|]; [|split; [done|by left]]. validation_fields.
    destruct (Nat.ltb_spec (length (rendered v)) (length (output d))); [split; [lia|right; by exists d]|split; [done|by left]].
  - split; [done|by left].
Qed.
Theorem journal_grows es v : length (rendered v) <= length (rendered (validation_run t disabled es v)) /\
  (rendered (validation_run t disabled es v) = rendered v \/ exists d, VpRead (Some d) ∈ es /\ rendered (validation_run t disabled es v) = output d).
Proof.
  revert v. induction es as [|e es IH]; intros v; [split; [done|by left]|]. unfold validation_run. cbn [foldl]. fold (validation_run t disabled es (validation_handle t disabled e v)).
  destruct (journal_step e v) as [A B]. destruct (IH (validation_handle t disabled e v)) as [C D]. split; [lia|].
  destruct D as [->|(d & I & ->)]; [|right; exists d; split; [by right|done]]. destruct B as [->|(d & -> & ->)]; [by left|]. right. exists d. split; [by left|done].
Qed.
End validation.

(** ** What the forms send *)

(** A grant leaves the open dialog with an amount, for a duration of the list, and
    only when no action is running. *)
Lemma granted_ok disabled e g a d : g_days g ∈ DAYS -> (grant_handle disabled e g).2 = Some (a, d) ->
  e = GrConfirm /\ disabled = false /\ g_open g = true /\ a = g_amount g /\ a <> [] /\ (d = [] \/ d ∈ DAYS) /\ g_open (grant_handle disabled e g).1 = false.
Proof.
  intros D. destruct e; cbn [grant_handle snd]; try done. destruct (g_open g) eqn:O; [|done]. destruct (streq_spec (g_amount g) []) as [|N]; [done|]. destruct disabled; [done|]. cbn [negb andb snd fst]. intros [= <- <-].
  repeat split; try done. destruct (streq _ _); [by left|by right].
Qed.
Lemma grant_days_step disabled e g : g_days g ∈ DAYS -> g_days (grant_handle disabled e g).1 ∈ DAYS.
Proof.
  intros D. destruct e; cbn [grant_handle fst]; try done; [by destruct disabled|by destruct (g_open g)| | |].
  - destruct (BUDGET_PRESETS !! k); [|done]. by destruct (g_open g).
  - destruct (DAYS !! k) eqn:E; [|done]. destruct (g_open g); [|done]. by apply list_elem_of_lookup_2 in E.
  - by destruct (_ && _).
Qed.
(** The polls never change what is typed in the quotas, once the first has filled it. *)
Lemma quota_kept show es q : q_filled q = true -> quota_run show es q = quota_run show (List.filter (fun e => match e with QuData _ _ => false | _ => true end) es) q.
Proof.
  revert q. induction es as [|e es IH]; intros q H; [done|]. unfold quota_run in *. cbn [foldl List.filter]. destruct e as [b d|s|s]; cbn [foldl quota_handle].
  - unfold quota_data. rewrite H. by apply IH.
  - by apply IH.
  - by apply IH.
Qed.
(** One cap is being set at most, for the account chosen and an amount. *)
Lemma one_cap t disabled es : let c := cap_run t disabled es cap_start in cap_posts c = if cap_busy c then 1 else 0.
Proof.
  assert (G : forall es c, (cap_posts c = if cap_busy c then 1 else 0) -> cap_posts (cap_run t disabled es c) = if cap_busy (cap_run t disabled es c) then 1 else 0); [|by apply G].
  clear. induction es as [|e es IH]; intros c H; [done|]. apply IH. destruct e; cbn [cap_handle]; try exact H.
  - by destruct (CAPS !! k).
  - destruct (_ || _) eqn:B; [exact H|]. bool_norm. destruct (cap_url _); [|exact H]. cbn [cap_posts cap_busy]. rewrite H. match goal with X : cap_busy c = false |- _ => by rewrite X end.
  - destruct (cap_posts c) as [|n] eqn:P; [by rewrite P|]. assert (n = 0) as -> by (destruct (cap_busy c); lia). by destruct ok.
Qed.
(** What can be asked about a request that was decided is only to remove it, or for a
    model the other verdict. *)
Lemma decided_budget r a d : br_status r <> u "pending" -> budget_asks r a d = [(u "/admin/budget/delete/" ++ string_of_Z (br_id r), [])].
Proof. intros N. unfold budget_asks. by destruct (streq_spec (br_status r) (u "pending")). Qed.
Lemma model_verdicts r s : In (u "/admin/update/" ++ string_of_Z (mr_id r), [(u "status", s)]) (model_asks r) -> s <> mr_status r.
Proof.
  unfold model_asks. intros H. apply in_app_iff in H as [H|H]; [|apply in_app_iff in H as [H|H]].
  - destruct (streq_spec (mr_status r) (u "done")) as [|N]; [done|]. destruct H as [[= <-]|[]]. congruence.
  - destruct (streq_spec (mr_status r) (u "rejected")) as [|N]; [done|]. destruct H as [[= <-]|[]]. congruence.
  - by destruct H as [[= ]|[]].
Qed.

(** ** Examples and what the tabs do not do *)

#[local] Abbreviation play := (validation_run (fun s => s) false) (only parsing).
Definition run_of (r : bool) (out : list jstr) (p : option bool) : VState := mkVState r 1%Z out p.
(** The journal of a run that is shorter than the one before it is never shown: the
    verdict is of the new run, the lines are of the old one. *)
Lemma shorter_run_hidden :
  let v := play [VpLaunch; VpLaunched (Some (true, None)); VpRead (Some (run_of false [u "a"; u "b"; u "all green"] (Some true)));
                 VpLaunch; VpLaunched (Some (true, None)); VpRead (Some (run_of false [u "a"; u "error"] (Some false)))] validation_start in
  rendered v = [u "a"; u "b"; u "all green"] /\ verdict_badge (fun s => s) v = Some (u "Un contrôle échoue", false).
Proof. vm_compute. split; reflexivity. Qed.
(** The state goes on being read after the run is over. *)
Lemma reads_forever :
  let v := play [VpLaunch; VpLaunched (Some (true, None)); VpRead (Some (run_of false [u "a"] (Some true)))] validation_start in
  inProgress v = false /\ v_asked (play [VpTick] v) = v_asked v ++ [AskedState].
Proof. vm_compute. split; reflexivity. Qed.
(** A launch that is lost says nothing. *)
Lemma lost_launch_silent : let v := play [VpLaunch; VpLaunched None] validation_start in v_error v = None /\ timer v = false.
Proof. vm_compute. split; reflexivity. Qed.
(** Half of what the light of the disk looks at, or the counts of a directory, may be
    missing under a green light. *)
Lemma missing_under_green : dotVariant (disk_row (fun s => s) (fun _ _ => []) (mkDisk (Some (num_of_Z 25)) None None)) = Some Success /\
  dotVariant (directory_row (fun s => s) (fun _ _ => []) (mkDirectory true None None None)) = Some Success.
Proof. vm_compute. split; reflexivity. Qed.
(** An announcement that was refused is emptied all the same. *)
Lemma refused_announce_lost : published false (mkAnnounce (u "title") (u "text")) = mkAnnounce [] [].
Proof. reflexivity. Qed.
(** What is typed while a cap is set is emptied by its acceptance. *)
Lemma cap_typed_lost : cap_budget (cap_run (fun s => s) false [CapUser (u "ada"); CapBudget (u "1"); CapSend; CapBudget (u "2"); CapAnswer true None] cap_start) = [].
Proof. vm_compute. reflexivity. Qed.
Example uptimes : map (fmtUptime string_of_Z) [38160; 300; 59]%Z = [u "10 h 36"; u "5 min"; u "59 s"].
Proof. vm_compute. reflexivity. Qed.
Example cap_sent : cap_asked (cap_run (fun s => s) false [CapUser (u "ada@x"); CapPreset 0; CapSend] cap_start) = [CapPosted (u "/admin/users/ada%40x/budget/set") (u "50000000")].
Proof. vm_compute. reflexivity. Qed.
Example minute : minute_of (u "2026-10-14T09:08:07") = u "2026-10-14 09:08".
Proof. vm_compute. reflexivity. Qed.
