(* ===== verification/SlashMenu.v ===== *)
(** * The menu of the skills (playground/PlaygroundPage.tsx, _components/SkillsMenu.tsx, SkillCreator.tsx)

    A text that begins with « / » shows the skills it filters; the keyboard moves in
    them and takes one; the creator makes, changes and removes the user's own. *)

From S2P Require Import Prelude JsString JsInt Skills.
Local Open Scope flow_scope.

Definition SLASH_CREATE_COMMANDS : list jstr := [u "skill-creator"; u "create"; u "new"; u "creer"; u "competence"; u "compétence"].
(** The form of the creator. *)
Record SkForm := mkSkForm { fm_name : jstr; fm_alias : jstr; fm_description : jstr; fm_prompt : jstr; fm_system : jstr }.
Definition empty_form : SkForm := mkSkForm [] [] [] [] [].
Inductive SmEffect := SystemPrompt (s : jstr) | Stored (custom : list Skill).

Record Menu := mkMenu {
  input : jstr; skills : list Skill; pkgSkills : list Skill; invokedSkill : option jstr; skillSel : nat;
  skillCreatorOpen : bool; editingSkill : option Skill; form : SkForm; asked : list SmEffect
}.

Definition set_input v p := mkMenu v (skills p) (pkgSkills p) (invokedSkill p) (skillSel p) (skillCreatorOpen p) (editingSkill p) (form p) (asked p).
Definition set_skills v p := mkMenu (input p) v (pkgSkills p) (invokedSkill p) (skillSel p) (skillCreatorOpen p) (editingSkill p) (form p) (asked p).
Definition set_pkgSkills v p := mkMenu (input p) (skills p) v (invokedSkill p) (skillSel p) (skillCreatorOpen p) (editingSkill p) (form p) (asked p).
Definition set_invokedSkill v p := mkMenu (input p) (skills p) (pkgSkills p) v (skillSel p) (skillCreatorOpen p) (editingSkill p) (form p) (asked p).
Definition set_skillSel v p := mkMenu (input p) (skills p) (pkgSkills p) (invokedSkill p) v (skillCreatorOpen p) (editingSkill p) (form p) (asked p).
Definition set_skillCreatorOpen v p := mkMenu (input p) (skills p) (pkgSkills p) (invokedSkill p) (skillSel p) v (editingSkill p) (form p) (asked p).
Definition set_editingSkill v p := mkMenu (input p) (skills p) (pkgSkills p) (invokedSkill p) (skillSel p) (skillCreatorOpen p) v (form p) (asked p).
Definition set_form v p := mkMenu (input p) (skills p) (pkgSkills p) (invokedSkill p) (skillSel p) (skillCreatorOpen p) (editingSkill p) v (asked p).
Definition emit (e : SmEffect) p := mkMenu (input p) (skills p) (pkgSkills p) (invokedSkill p) (skillSel p) (skillCreatorOpen p) (editingSkill p) (form p) (asked p ++ [e]).
Ltac menu_fields := cbn [input skills pkgSkills invokedSkill skillSel skillCreatorOpen editingSkill form asked set_input set_skills set_pkgSkills set_invokedSkill set_skillSel set_skillCreatorOpen set_editingSkill set_form emit] in *.

(** ** The filter and the rows *)

Definition query_of (s : jstr) : option jstr := match s with c :: r => if (c =? 47)%N then Some (to_lower (trim r)) else None | [] => None end.
Definition slashQuery (p : Menu) : option jstr := query_of (input p).
Definition hits (f : Skill -> bool) (l : list Skill) (p : Menu) : list Skill :=
  match slashQuery p with Some q => List.filter (fun s => f s && skillMatches s q) l | None => [] end.
Definition baseHits (p : Menu) : list Skill := hits s_builtin (skills p) p.
Definition customHits (p : Menu) : list Skill := hits (fun s => negb (s_builtin s)) (skills p) p ++ hits (fun _ => true) (pkgSkills p) p.
Definition skillHits (p : Menu) : list Skill := baseHits p ++ customHits p.
Definition menuRows (p : Menu) : nat := 1 + length (skillHits p).
Definition effectiveSel (p : Menu) : nat := Nat.min (skillSel p) (menuRows p - 1).
(** The rows of the menu, as it numbers them: the creation, the built-in skills, the
    user's own and the packages. *)
Inductive MenuRow := CreateRow | SkillLine (s : Skill).
Definition rows (p : Menu) : list (nat * MenuRow) :=
  (0, CreateRow) :: imap (fun i s => (1 + i, SkillLine s)) (baseHits p) ++ imap (fun i s => (1 + length (baseHits p) + i, SkillLine s)) (customHits p).
Definition highlighted (p : Menu) : list MenuRow := map snd (List.filter (fun r => r.1 =? effectiveSel p) (rows p)).
(** Only the user's own skills can be changed from the menu. *)
Definition editable (s : Skill) : bool := negb (s_builtin s) && negb (s_pkg s).
Definition customSkills (p : Menu) : list Skill := List.filter (fun s => negb (s_builtin s)) (skills p).

Section menu.
Context (t : jstr -> jstr).
(** The text changed: another filter goes back to the first skill. *)
Definition setInput (v : jstr) (p : Menu) : Menu :=
  let before := slashQuery p in let p := set_input v p in
  match slashQuery p with Some q => if bool_decide (before = Some q) then p else set_skillSel 1 p | None => p end.
Definition form_of (o : option Skill) : SkForm :=
  match o with Some s => mkSkForm (s_name s) (s_alias s) (s_description s) (s_prompt s) (match s_systemPrompt s with Some x => x | None => [] end) | None => empty_form end.
(** Opened, the creator shows the skill it edits, or nothing. *)
Definition openSkillCreator (s : option Skill) (p : Menu) : Menu :=
  p |> set_editingSkill s |> set_skillCreatorOpen true |> set_form (form_of s) |> setInput [].
Definition handleInput (v : jstr) (p : Menu) : Menu :=
  match query_of v with
  | Some ((_ :: _) as cmd) => if existsb (streq cmd) SLASH_CREATE_COMMANDS then openSkillCreator None p else setInput v p
  | _ => setInput v p
  end.
Definition selectSkill (s : Skill) (p : Menu) : Menu :=
  if s_pkg s then p |> set_invokedSkill (Some (s_alias s)) |> setInput []
  else let p := setInput (t (s_prompt s)) p in match s_systemPrompt s with Some ((_ :: _) as sp) => emit (SystemPrompt sp) p | _ => p end.
Inductive Key := ArrowDown | ArrowUp | Escape | Enter | OtherKey.
(** A key while the menu is shown: the page after it, and whether the composer does
    not see it. *)
Definition onMenuKey (k : Key) (p : Menu) : Menu * bool :=
  match skillHits p with
  | [] => (p, false)
  | _ => match k with
         | ArrowDown => (set_skillSel (Nat.min (skillSel p + 1) (menuRows p - 1)) p, true)
         | ArrowUp => (set_skillSel (skillSel p - 1) p, true)
         | Escape => (p, true)
         | Enter => let sel := Nat.min (skillSel p) (menuRows p - 1) in
                    if sel =? 0 then (openSkillCreator None p, true)
                    else match skillHits p !! (sel - 1) with Some s => (selectSkill s p, true) | None => (p, false) end
         | OtherKey => (p, false)
         end
  end.

(** ** The creator *)

Definition store (custom : list Skill) (p : Menu) : Menu := p |> emit (Stored custom) |> set_skills (BASE_SKILLS ++ custom).
Definition addCustomSkill (s : Skill) (p : Menu) : Menu := store (customSkills p ++ [s]) p.
Definition updateCustomSkill (s : Skill) (p : Menu) : Menu := store (map (fun c => if streq (s_id c) (s_id s) then s else c) (customSkills p)) p.
Definition deleteCustomSkill (k : jstr) (p : Menu) : Menu := store (List.filter (fun s => negb (streq (s_id s) k)) (customSkills p)) p.
Definition alnum (c : N) : bool := ((97 <=? c) && (c <=? 122) || (48 <=? c) && (c <=? 57))%N.
Definition HYPHEN : N := 45.
(** [replace(/[^a-z0-9]+/g, '-')] *)
Fixpoint dashes (s : jstr) (inside : bool) : jstr :=
  match s with
  | [] => []
  | c :: r => if alnum c then c :: dashes r false else if inside then dashes r true else HYPHEN :: dashes r true
  end.
(** [replace(/^-|-$/g, '')] *)
Definition strip_head (s : jstr) : jstr := match s with c :: r => if (c =? HYPHEN)%N then r else s | [] => [] end.
Definition strip_hyphens (s : jstr) : jstr := rev (strip_head (rev (strip_head s))).
Definition derived_alias (name : jstr) : jstr := match strip_hyphens (dashes (to_lower (trim name)) false) with [] => u "comp" | a => a end.
Definition canSave (f : SkForm) : bool := match trim (fm_name f), trim (fm_prompt f) with _ :: _, _ :: _ => true | _, _ => false end.
(** The skill of the form: [now] makes the identifier of a new one. *)
Definition skill_of (now : Z) (initial : option Skill) (f : SkForm) : Skill :=
  mkSkill (match initial with Some s => s_id s | None => u "s" ++ string_of_Z now end) (trim (fm_name f))
    (match trim (fm_alias f) with [] => derived_alias (fm_name f) | a => a end) (trim (fm_description f)) (trim (fm_prompt f))
    (match trim (fm_system f) with [] => None | s => Some s end) false false.
Definition save (now : Z) (p : Menu) : Menu :=
  if canSave (form p) then
    let s := skill_of now (editingSkill p) (form p) in
    (match editingSkill p with Some _ => updateCustomSkill s p | None => addCustomSkill s p end) |> set_form empty_form
  else p.

Inductive SmEvent :=
| SmType (v : jstr) | SmKey (k : Key) | SmPick (k : nat) | SmCreate | SmEdit (k : nat) | SmDelete (k : nat) | SmOpen | SmClose | SmForm (f : SkForm) | SmSave (now : Z) | SmRemove (k : nat)
| SmPackages (l : list (Z * jstr * jstr * bool)) | SmDetach.
Definition package_skills (l : list (Z * jstr * jstr * bool)) : list Skill :=
  map (fun x => mkSkill (u "pkg:" ++ string_of_Z x.1.1.1) x.1.1.2 x.1.1.2 x.1.2 [] None false true) (List.filter (fun x => x.2) l).
Definition shown_menu (p : Menu) : bool := match slashQuery p with Some _ => true | None => false end.
Definition on_hit (k : nat) (f : Skill -> Menu -> Menu) (p : Menu) : Menu := match skillHits p !! k with Some s => f s p | None => p end.
(** The dialog of the creator is modal: the composer and its menu are under it. *)
Definition under (f : Menu -> Menu) (p : Menu) : Menu := if skillCreatorOpen p then p else f p.
Definition menu_handle (e : SmEvent) (p : Menu) : Menu :=
  match e with
  | SmType v => under (handleInput v) p
  | SmKey k => under (fun p => if shown_menu p then (onMenuKey k p).1 else p) p
  | SmPick k => under (on_hit k selectSkill) p
  | SmCreate => under (fun p => if shown_menu p then openSkillCreator None p else p) p
  | SmEdit k => under (on_hit k (fun s p => if editable s then openSkillCreator (Some s) p else p)) p
  | SmDelete k => under (on_hit k (fun s p => if editable s then deleteCustomSkill (s_id s) p else p)) p
  | SmOpen => if skillCreatorOpen p then p else p |> set_skillCreatorOpen true |> set_form (form_of (editingSkill p))
  | SmClose => p |> set_skillCreatorOpen false |> set_editingSkill None
  | SmForm f => if skillCreatorOpen p then set_form f p else p
  | SmSave now => if skillCreatorOpen p then save now p else p
  | SmRemove k => if skillCreatorOpen p then match customSkills p !! k with Some s => deleteCustomSkill (s_id s) p | None => p end else p
  | SmPackages l => set_pkgSkills (package_skills l) p
  | SmDetach => set_invokedSkill None p
  end.
Definition menu_run (es : list SmEvent) (p : Menu) : Menu := foldl (fun p e => menu_handle e p) p es.
End menu.
Definition menu_start (custom : list Skill) : Menu := mkMenu [] (BASE_SKILLS ++ custom) [] None 1 false None empty_form [].

(** ** The row shown is the row taken *)

Lemma imap_from {A} n (l : list A) : imap (fun i s => (n + i, s)) l = zip (seq n (length l)) l.
Proof. revert n. induction l as [|x l IH]; intros n; [done|]. cbn [imap length seq zip zip_with]. rewrite Nat.add_0_r. f_equal. rewrite <- IH. apply imap_ext. intros i y _. cbn. f_equal. lia. Qed.
Lemma rows_numbered p : rows p = zip (seq 0 (menuRows p)) (CreateRow :: map SkillLine (skillHits p)).
Proof.
  unfold rows, menuRows, skillHits. change (seq 0 (1 + length (baseHits p ++ customHits p))) with (0 :: seq 1 (length (baseHits p ++ customHits p))). cbn [zip_with]. f_equal. rewrite length_app, seq_app, map_app.
  assert (G : forall n (l : list Skill), imap (fun i s => (n + i, SkillLine s)) l = zip (seq n (length l)) (map SkillLine l)).
  { intros n l. rewrite <- (length_map SkillLine l), <- imap_from. rewrite imap_fmap. done. }
  rewrite zip_with_app by (by rewrite length_seq, length_map). rewrite <- !G. reflexivity.
Qed.
Lemma pick_row {A} (l : list A) : forall n k, map snd (List.filter (fun r => r.1 =? n + k) (zip (seq n (length l)) l)) = option_list (l !! k).
Proof.
  induction l as [|x l IH]; intros n k; [done|]. cbn [length seq zip zip_with List.filter fst]. destruct k as [|k].
  - rewrite Nat.add_0_r, Nat.eqb_refl. cbn. f_equal. clear. assert (G : forall m, n < m -> List.filter (fun r : nat * A => r.1 =? n) (zip (seq m (length l)) l) = []).
    { induction l as [|x l IH]; intros m H; [done|]. cbn [length seq zip zip_with List.filter fst]. destruct (Nat.eqb_spec m n); [lia|]. apply IH. lia. }
    by rewrite G by lia.
  - destruct (Nat.eqb_spec n (n + S k)); [lia|]. replace (n + S k) with (S n + k) by lia. apply IH.
Qed.
Lemma highlighted_row p : highlighted p = option_list ((CreateRow :: map SkillLine (skillHits p)) !! effectiveSel p).
Proof. unfold highlighted. rewrite rows_numbered. assert (L : menuRows p = length (CreateRow :: map SkillLine (skillHits p))) by (unfold menuRows; cbn; by rewrite length_map). rewrite L. apply (pick_row _ 0). Qed.
Section spec.
Context (t : jstr -> jstr).
(** One row is highlighted, and Enter takes it: the creator for the first, its skill
    for another; when no skill matches, no key is taken and the message stays. *)
Theorem enter_takes_highlighted p : exists r, highlighted p = [r] /\
  onMenuKey t Enter p = match skillHits p with
                        | [] => (p, false)
                        | _ => (match r with CreateRow => openSkillCreator None p | SkillLine s => selectSkill t s p end, true)
                        end.
Proof.
  rewrite highlighted_row. unfold onMenuKey, effectiveSel, menuRows. set (l := skillHits p). destruct (Nat.min (skillSel p) (1 + length l - 1)) as [|n] eqn:E.
  - exists CreateRow. split; [done|]. by destruct l.
  - assert (H : n < length l) by lia. destruct (lookup_lt_is_Some_2 l n H) as [s S]. exists (SkillLine s). assert (X : (CreateRow :: map SkillLine l) !! Datatypes.S n = Some (SkillLine s)) by (change ((SkillLine <$> l) !! n = Some (SkillLine s)); by rewrite list_lookup_fmap, S). rewrite X. split; [done|].
    destruct l as [|x l']; [done|]. cbn [Nat.eqb]. cbv zeta. rewrite Nat.sub_succ, Nat.sub_0_r. by rewrite S.
Qed.
(** The arrows stay in the rows. *)
Lemma arrows_bounded k p : skillSel p < menuRows p -> match k with ArrowDown | ArrowUp | Escape => skillSel (onMenuKey t k p).1 < menuRows p | _ => True end.
Proof.
  intros H. unfold onMenuKey. destruct (skillHits p) eqn:E; [by destruct k|]. destruct k; menu_fields; try done; cbn [fst]; menu_fields; [|lia]. unfold menuRows. rewrite E. cbn. lia.
Qed.
End spec.

(** ** The command of a skill without one *)

Definition no_double (s : jstr) : Prop := forall a b, s <> a ++ [HYPHEN; HYPHEN] ++ b.
Lemma no_double_tail x s : no_double (x :: s) -> no_double s.
Proof. intros H a b E. apply (H (x :: a) b). by rewrite E. Qed.
Lemma no_double_cons c s : (c = HYPHEN -> head s <> Some HYPHEN) -> no_double s -> no_double (c :: s).
Proof.
  intros H N [|x a] b E; [|injection E as -> E; by apply (N a b)]. injection E as -> E. apply (H eq_refl). by rewrite E.
Qed.
Lemma dashes_ok s : forall inside, no_double (dashes s inside) /\ (inside = true -> head (dashes s inside) <> Some HYPHEN) /\ Forall (fun c => alnum c = true \/ c = HYPHEN) (dashes s inside).
Proof.
  induction s as [|c s IH]; intros inside; cbn [dashes].
  - repeat split; [by intros [|] b|done|constructor].
  - destruct (alnum c) eqn:A.
    + destruct (IH false) as (X & Y & Z). assert (C : c <> HYPHEN) by (intros ->; done). split; [by apply no_double_cons|]. split; [cbn; congruence|]. constructor; [by left|done].
    + destruct (IH true) as (X & Y & Z). destruct inside; [by repeat split|]. split; [apply no_double_cons; [intros _; by apply Y|done]|]. split; [done|]. constructor; [by right|done].
Qed.
Lemma strip_head_ok s : no_double s -> no_double (strip_head s) /\ head (strip_head s) <> Some HYPHEN.
Proof.
  intros N. destruct s as [|c s]; cbn [strip_head]; [by split|]. destruct (N.eqb_spec c HYPHEN) as [->|C]; [|split; [done|cbn; congruence]].
  split; [by apply no_double_tail in N|]. destruct s as [|d s]; [done|]. cbn. intros [= ->]. by apply (N [] s).
Qed.
Lemma no_double_rev s : no_double s -> no_double (rev s).
Proof. intros N a b E. apply (N (rev b) (rev a)). rewrite <- (rev_involutive s), E, !rev_app_distr. cbn. by rewrite <- app_assoc. Qed.
Lemma strip_head_in s c : c ∈ strip_head s -> c ∈ s.
Proof. destruct s as [|x s]; [done|]. cbn [strip_head]. destruct (x =? HYPHEN)%N; [|done]. intros H. by right. Qed.
Lemma in_of_rev (c : N) l : c ∈ rev l -> c ∈ l.
Proof. by rewrite !list_elem_of_In, <- in_rev. Qed.
Lemma last_of_rev {A} (l : list A) : last (rev l) = head l.
Proof. destruct l as [|x l]; [done|]. cbn [rev head]. apply last_snoc. Qed.
(** The command made of a name: small letters, digits and single hyphens between
    them, and never empty. *)
Theorem derived_alias_ok name : let a := derived_alias name in
  a <> [] /\ Forall (fun c => alnum c = true \/ c = HYPHEN) a /\ head a <> Some HYPHEN /\ last a <> Some HYPHEN /\ no_double a.
Proof.
  intros a. unfold a, derived_alias. set (d := dashes (to_lower (trim name)) false). destruct (dashes_ok (to_lower (trim name)) false) as (N & _ & F). fold d in N, F. clearbody d.
  assert (G : Forall (fun c => alnum c = true \/ c = HYPHEN) (strip_hyphens d) /\ head (strip_hyphens d) <> Some HYPHEN /\ last (strip_hyphens d) <> Some HYPHEN /\ no_double (strip_hyphens d)).
  { destruct (strip_head_ok d N) as [N1 H1]. destruct (strip_head_ok (rev (strip_head d)) (no_double_rev _ N1)) as [N2 H2]. unfold strip_hyphens. split; [|split; [|split]].
    - rewrite Forall_forall in *. intros c I. apply F. by apply strip_head_in, in_of_rev, strip_head_in, in_of_rev.
    - intros E. apply H1. revert E. generalize (strip_head d). clear. intros l. destruct (rev l) as [|x r] eqn:R; cbn [strip_head]; [done|]. assert (L : l = rev r ++ [x]) by (rewrite <- (rev_involutive l), R; done).
      destruct (x =? HYPHEN)%N; [|by rewrite <- R, rev_involutive]. rewrite L. by destruct (rev r).
    - by rewrite last_of_rev.
    - by apply no_double_rev. }
  destruct (strip_hyphens d) eqn:E; [|done]. assert (C : dashes (u "comp") false = u "comp") by reflexivity. split; [done|]. rewrite <- C. destruct (dashes_ok (u "comp") false) as (X & _ & Y). split; [done|]. split; [done|]. split; [done|exact X].
Qed.

(** ** The built-in skills are never changed *)

(** The skills are the built-in ones and then the user's own, whatever is done. *)
Definition skills_ok (p : Menu) : Prop := exists custom, skills p = BASE_SKILLS ++ custom /\ Forall (fun s => s_builtin s = false) custom.
Lemma custom_of custom p : skills p = BASE_SKILLS ++ custom -> Forall (fun s => s_builtin s = false) custom -> customSkills p = custom.
Proof.
  intros E F. unfold customSkills. rewrite E, List.filter_app. assert (B : List.filter (fun s => negb (s_builtin s)) BASE_SKILLS = []).
  { assert (G : Forall (fun s => s_builtin s = true) BASE_SKILLS) by (clear; destruct base_skills_distinct as (_ & _ & F0); rewrite Forall_forall in F0; apply Forall_forall; intros s I; exact (proj1 (F0 s I))). clear -G. induction G as [|s l H _ IH]; [done|]. cbn [List.filter]. rewrite H. exact IH. }
  rewrite B. clear -F. induction F as [|s l H _ IH]; [done|]. cbn [app List.filter] in *. rewrite H. cbn [negb]. by rewrite IH.
Qed.
Lemma skills_same p q : skills q = skills p -> skills_ok p -> skills_ok q.
Proof. unfold skills_ok. by intros ->. Qed.
Lemma setInput_skills v p : skills (setInput v p) = skills p.
Proof. unfold setInput. cbv zeta. destruct (slashQuery (set_input v p)); [|done]. by case_bool_decide. Qed.
Lemma opened_skills s p : skills (openSkillCreator s p) = skills p.
Proof. unfold openSkillCreator. by rewrite setInput_skills. Qed.
Lemma handled_skills v p : skills (handleInput v p) = skills p.
Proof. unfold handleInput. destruct (query_of v) as [[|c cmd]|]; [apply setInput_skills| |apply setInput_skills]. destruct (existsb _ _); [apply opened_skills|apply setInput_skills]. Qed.
Lemma selected_skills t s p : skills (selectSkill t s p) = skills p.
Proof. unfold selectSkill. destruct (s_pkg s); [by rewrite setInput_skills|]. cbv zeta. destruct (s_systemPrompt s) as [[|c l]|]; menu_fields; by rewrite ?setInput_skills. Qed.
Lemma stored_ok custom p : Forall (fun s => s_builtin s = false) custom -> skills_ok (store custom p).
Proof. intros F. by exists custom. Qed.
Lemma deleted_ok k p : skills_ok p -> skills_ok (deleteCustomSkill k p).
Proof. intros (c & E & F). apply stored_ok. rewrite (custom_of c p E F). apply List.Forall_forall. intros s I. apply filter_In in I as [I _]. rewrite List.Forall_forall in F. by apply F. Qed.
Lemma saved_ok now p : skills_ok p -> skills_ok (save now p).
Proof.
  intros H. unfold save. destruct (canSave _); [|done]. cbv zeta. destruct H as (c & E & F). assert (G : forall q, skills_ok q -> skills_ok (set_form empty_form q)) by (intros q; by apply skills_same).
  destruct (editingSkill p) as [s|]; apply G, stored_ok; rewrite (custom_of c p E F); clear -F.
  - induction F as [|x l H _ IH]; [constructor|]. cbn [map]. constructor; [by destruct (streq _ _)|exact IH].
  - apply Forall_app. split; [exact F|]. by repeat constructor.
Qed.
Lemma menu_step t e p : skills_ok p -> skills_ok (menu_handle t e p).
Proof.
  intros H. assert (S := fun q => skills_same p q). destruct e; cbn [menu_handle]; unfold under, on_hit; try (destruct (skillCreatorOpen p); [exact H|]).
  - apply S; [apply handled_skills|exact H].
  - destruct (shown_menu p); [|exact H]. unfold onMenuKey. destruct (skillHits p) as [|x l]; [exact H|]. destruct k; try exact H. cbv zeta. destruct (_ =? 0); [apply S; [apply opened_skills|exact H]|].
    destruct (_ !! _); [|exact H]. apply S; [apply selected_skills|exact H].
  - destruct (skillHits p !! k); [|exact H]. apply S; [apply selected_skills|exact H].
  - destruct (shown_menu p); [|exact H]. apply S; [apply opened_skills|exact H].
  - destruct (skillHits p !! k) as [s|]; [|exact H]. destruct (editable s); [|exact H]. apply S; [apply opened_skills|exact H].
  - destruct (skillHits p !! k) as [s|]; [|exact H]. destruct (editable s); [by apply deleted_ok|exact H].
  - exact H.
  - exact H.
  - destruct (skillCreatorOpen p); exact H.
  - destruct (skillCreatorOpen p); [by apply saved_ok|exact H].
  - destruct (skillCreatorOpen p); [|exact H]. destruct (customSkills p !! k); [by apply deleted_ok|exact H].
  - exact H.
  - exact H.
Qed.
Theorem builtin_kept t es custom : Forall (fun s => s_builtin s = false) custom -> exists own, skills (menu_run t es (menu_start custom)) = BASE_SKILLS ++ own /\ Forall (fun s => s_builtin s = false) own.
Proof.
  intros F. assert (G : forall es p, skills_ok p -> skills_ok (menu_run t es p)); [|apply G; by exists custom]. clear. induction es as [|e es IH]; intros p H; [done|]. by apply IH, menu_step.
Qed.

(** ** What the menu does not do *)

#[local] Abbreviation play := (menu_run (fun s => s)) (only parsing).
Definition own (k n a : jstr) : Skill := mkSkill k n a [] (u "do it") None false false.
Definition mine : Menu := menu_start [own (u "s1") (u "Newsletter") (u "newsletter")].
(** The command of the creator is taken as soon as it is typed: a skill, or a message,
    that begins like it cannot be typed, and the text is lost. *)
Lemma command_prefix_taken : let p := play [SmType (u "/ne"); SmType (u "/new"); SmType (u "/news")] mine in input p = [] /\ skillCreatorOpen p = true /\ editingSkill p = None.
Proof. vm_compute. repeat split; reflexivity. Qed.
(** Saved, the form of an edited skill is emptied and goes on editing it: the next
    skill written in it takes its place. *)
Lemma second_save_overwrites :
  let p := play [SmType (u "/newsletter"); SmEdit 0; SmSave 1; SmForm (mkSkForm (u "Other") [] [] (u "other prompt") []); SmSave 2] mine in map s_name (customSkills p) = [u "Other"].
Proof. vm_compute. reflexivity. Qed.
(** A skill removed while it is edited is saved nowhere. *)
Lemma removed_while_edited_lost :
  let p := play [SmType (u "/newsletter"); SmEdit 0; SmRemove 0; SmForm (mkSkForm (u "Other") [] [] (u "other prompt") []); SmSave 2] mine in customSkills p = [] /\ form p = empty_form.
Proof. vm_compute. split; reflexivity. Qed.
Example aliases : map derived_alias [u "Analyse de logs !"; u "  --  "; u "Résumé"] = [u "analyse-de-logs"; u "comp"; u "r-sum"].
Proof. vm_compute. reflexivity. Qed.
Example first_row_down : let p := play [SmType (u "/newsletter")] mine in map (fun r => match r with CreateRow => [] | SkillLine s => s_alias s end) (highlighted p) = [u "newsletter"].
Proof. vm_compute. reflexivity. Qed.

Theorem builtin_kept_witness : exists o, skills (play [SmType (u "/newsletter"); SmDelete 0] mine) = BASE_SKILLS ++ o /\ Forall (fun s => s_builtin s = false) o.
Proof. apply (builtin_kept (fun s => s) [SmType (u "/newsletter"); SmDelete 0] [own (u "s1") (u "Newsletter") (u "newsletter")]). repeat constructor. Defined.
