(* ===== verification/History.v ===== *)
(** * The history of the playground (playground/_components/HistoryDialog.tsx, PlaygroundActions.tsx, SummaryDialog.tsx and their handlers in PlaygroundPage.tsx)

    The list of the conversations, searched, pinned and sorted; what a row does
    (open, rename, export, share, remove); the title and the summary asked of the
    model; the conversation a link opens.  The page under it is [Playground.Page]. *)

From Stdlib Require Import Sorted.
From S2P Require Import Prelude JsString JsInt I18n JsJson Thread Messages Export Preferences Turn Playground.
Local Open Scope flow_scope.

Inductive Toast := NoSession | ShareRefused (why : jstr) | ShareLost | ShareCopied | LoadFailed | NotRemoved.
(** A link shown for want of a clipboard. *)
Inductive HAsk :=
| AskTitle (model : jstr) (msgs : list ChatMsg) | AskSummary (model : jstr) (msgs : list ChatMsg) | AskShare (id : jstr) | AskConversation (id : jstr)
| Download (name : jstr) (title model : jstr) (msgs : list ChatMsg) | PromptLink (url : jstr).
(** The constants a title's request keeps from its render. *)
Record GenTitle := mkGen { g_id : jstr; g_convs : list Conversation; g_tab : jstr }.

Record History := mkHistory {
  page : Page; listLoaded : bool; historyOpen : bool; histQuery : jstr; pinnedIds : list jstr; renamingId : option jstr; renameValue : jstr;
  gen : option GenTitle;   (* the title awaited: [busyTitle] *)
  summaryOpen : bool; summary : jstr; summaries : nat; shared : bool; shares : nat; timers : nat;
  fetching : list (jstr * jstr);   (* the conversations awaited, each with the tab of its render *)
  fromUrl : bool;   (* [initFromUrlRef] *)
  toasts : list Toast; asks : list HAsk
}.

Definition set_page v p := mkHistory v (listLoaded p) (historyOpen p) (histQuery p) (pinnedIds p) (renamingId p) (renameValue p) (gen p) (summaryOpen p) (summary p) (summaries p) (shared p) (shares p) (timers p) (fetching p) (fromUrl p) (toasts p) (asks p).
Definition set_listLoaded v p := mkHistory (page p) v (historyOpen p) (histQuery p) (pinnedIds p) (renamingId p) (renameValue p) (gen p) (summaryOpen p) (summary p) (summaries p) (shared p) (shares p) (timers p) (fetching p) (fromUrl p) (toasts p) (asks p).
Definition set_historyOpen v p := mkHistory (page p) (listLoaded p) v (histQuery p) (pinnedIds p) (renamingId p) (renameValue p) (gen p) (summaryOpen p) (summary p) (summaries p) (shared p) (shares p) (timers p) (fetching p) (fromUrl p) (toasts p) (asks p).
Definition set_histQuery v p := mkHistory (page p) (listLoaded p) (historyOpen p) v (pinnedIds p) (renamingId p) (renameValue p) (gen p) (summaryOpen p) (summary p) (summaries p) (shared p) (shares p) (timers p) (fetching p) (fromUrl p) (toasts p) (asks p).
Definition set_pinnedIds v p := mkHistory (page p) (listLoaded p) (historyOpen p) (histQuery p) v (renamingId p) (renameValue p) (gen p) (summaryOpen p) (summary p) (summaries p) (shared p) (shares p) (timers p) (fetching p) (fromUrl p) (toasts p) (asks p).
Definition set_renaming v w p := mkHistory (page p) (listLoaded p) (historyOpen p) (histQuery p) (pinnedIds p) v w (gen p) (summaryOpen p) (summary p) (summaries p) (shared p) (shares p) (timers p) (fetching p) (fromUrl p) (toasts p) (asks p).
Definition set_gen v p := mkHistory (page p) (listLoaded p) (historyOpen p) (histQuery p) (pinnedIds p) (renamingId p) (renameValue p) v (summaryOpen p) (summary p) (summaries p) (shared p) (shares p) (timers p) (fetching p) (fromUrl p) (toasts p) (asks p).
Definition set_summaryOpen v p := mkHistory (page p) (listLoaded p) (historyOpen p) (histQuery p) (pinnedIds p) (renamingId p) (renameValue p) (gen p) v (summary p) (summaries p) (shared p) (shares p) (timers p) (fetching p) (fromUrl p) (toasts p) (asks p).
Definition set_summary v n p := mkHistory (page p) (listLoaded p) (historyOpen p) (histQuery p) (pinnedIds p) (renamingId p) (renameValue p) (gen p) (summaryOpen p) v n (shared p) (shares p) (timers p) (fetching p) (fromUrl p) (toasts p) (asks p).
Definition set_shared v n p := mkHistory (page p) (listLoaded p) (historyOpen p) (histQuery p) (pinnedIds p) (renamingId p) (renameValue p) (gen p) (summaryOpen p) (summary p) (summaries p) v (shares p) n (fetching p) (fromUrl p) (toasts p) (asks p).
Definition set_shares v p := mkHistory (page p) (listLoaded p) (historyOpen p) (histQuery p) (pinnedIds p) (renamingId p) (renameValue p) (gen p) (summaryOpen p) (summary p) (summaries p) (shared p) v (timers p) (fetching p) (fromUrl p) (toasts p) (asks p).
Definition set_fetching v p := mkHistory (page p) (listLoaded p) (historyOpen p) (histQuery p) (pinnedIds p) (renamingId p) (renameValue p) (gen p) (summaryOpen p) (summary p) (summaries p) (shared p) (shares p) (timers p) v (fromUrl p) (toasts p) (asks p).
Definition set_fromUrl v p := mkHistory (page p) (listLoaded p) (historyOpen p) (histQuery p) (pinnedIds p) (renamingId p) (renameValue p) (gen p) (summaryOpen p) (summary p) (summaries p) (shared p) (shares p) (timers p) (fetching p) v (toasts p) (asks p).
Definition toast e p := mkHistory (page p) (listLoaded p) (historyOpen p) (histQuery p) (pinnedIds p) (renamingId p) (renameValue p) (gen p) (summaryOpen p) (summary p) (summaries p) (shared p) (shares p) (timers p) (fetching p) (fromUrl p) (toasts p ++ [e]) (asks p).
Definition ask e p := mkHistory (page p) (listLoaded p) (historyOpen p) (histQuery p) (pinnedIds p) (renamingId p) (renameValue p) (gen p) (summaryOpen p) (summary p) (summaries p) (shared p) (shares p) (timers p) (fetching p) (fromUrl p) (toasts p) (asks p ++ [e]).
Ltac hist_fields := cbn [page listLoaded historyOpen histQuery pinnedIds renamingId renameValue gen summaryOpen summary summaries shared shares timers fetching fromUrl toasts asks
  set_page set_listLoaded set_historyOpen set_histQuery set_pinnedIds set_renaming set_gen set_summaryOpen set_summary set_shared set_shares set_fetching set_fromUrl toast ask] in *.

(** ** The list *)

(** [q] *)
Definition query (p : History) : jstr := to_lower (trim (histQuery p)).
Definition matches (q : jstr) (c : Conversation) : bool := match q with [] => true | _ => includes (to_lower (c_title c)) q end.
Definition pinned (ids : list jstr) (c : Conversation) : bool := existsb (streq (c_id c)) ids.
(** The comparison, not greater than 0: the pinned first, then the most recent. *)
Definition not_after (ids : list jstr) (a b : Conversation) : bool :=
  match pinned ids a, pinned ids b with true, false => true | false, true => false | _, _ => (c_ts b <=? c_ts a)%Z end.
Definition visibleConvs (p : History) : list Conversation :=
  if historyOpen p then sort_by (not_after (pinnedIds p)) (List.filter (matches (query p)) (conversations (page p))) else [].

Definition conv_of (id : jstr) (l : list Conversation) : option Conversation := find (fun c => streq (c_id c) id) l.
Definition retitled (title : jstr) (c : Conversation) : Conversation := mkConv (c_id c) title (c_ts c) (c_model c) (c_messages c) (omittedMessages c).
Definition retitle (id title : jstr) (l : list Conversation) : list Conversation := map (fun c => if streq (c_id c) id then retitled title c else c) l.

Section history.
Context (t : jstr -> jstr) (env : Loaded) (origin : jstr).

Definition or_conversation (s : jstr) : jstr := match s with [] => t (u "Conversation") | _ => s end.
Definition startRename (id title : jstr) (p : History) : History := set_renaming (Some id) (or_conversation title) p.
Definition commitRename (id : jstr) (p : History) : History :=
  let title := or_conversation (take 120 (trim (renameValue p))) in
  let conv := conv_of id (conversations (page p)) in
  let g := set_conversations (retitle id title (conversations (page p))) (page p) in
  let g := match conv with Some c => if nonempty (csrf env) then effect (Saved (retitled title c)) g else g | None => g end in
  p |> set_page g |> set_renaming None (renameValue p).

(** The title of the messages; only their roles and texts count. *)
Definition title_of (msgs : list ChatMsg) : jstr :=
  convTitleFallback (map (fun m => mkExport (bool_decide (role m = User)) (content m) (hidden m) [] 0) msgs) (t (u "Conversation")).
Definition exportConversation (title model : jstr) (msgs : list ChatMsg) (json : bool) (p : History) : History :=
  ask (Download (slugify (title_of msgs) ++ u (if json then ".json" else ".md")) title model msgs) p.
(** A row is opened: what the server only gave the title of is fetched first. *)
Definition pick (c : Conversation) (p : History) : History :=
  (match omittedMessages c with
   | Some true => p |> set_fetching (fetching p ++ [(c_id c, activeTabId (page p))]) |> ask (AskConversation (c_id c))
   | _ => set_page (selectConversation env c (page p)) p
   end) |> set_historyOpen false.
Definition fetched (i : nat) (r : option Conversation) (p : History) : History :=
  match fetching p !! i with
  | Some (_, tab) =>
      let p := set_fetching (delete i (fetching p)) p in
      match r with Some c => set_page (conversationLoaded env tab (Some c) (page p)) p | None => toast LoadFailed p end
  | None => p
  end.
(** The verdict of a removal. *)
Definition removed (ok : bool) (p : History) : History := if ok then p else toast NotRemoved p.

(** ** The link of a conversation *)

Definition shareConversation (id : jstr) (p : History) : History :=
  if nonempty (csrf env) then p |> set_shares (S (shares p)) |> ask (AskShare id) else toast NoSession p.
(** The reply, if any: [ok], the token and the error; then what the clipboard and the
    copy command of the browser say. *)
Definition share_answered (r : option (bool * jstr * jstr)) (clipboard exec : bool) (p : History) : History :=
  match shares p with
  | 0 => p
  | S n =>
      let p := set_shares n p in
      match r with
      | None => toast ShareLost p
      | Some (ok, token, error) =>
          if negb (ok && nonempty token) then toast (ShareRefused (tServer (match error with [] => u "erreur" | _ => error end) t)) p
          else
            let done_ p := set_shared true (S (timers p)) p in
            if clipboard || exec then p |> done_ |> toast ShareCopied else p |> ask (PromptLink (origin ++ u "/c/" ++ token)) |> done_
      end
  end.
Definition share_over (p : History) : History := match timers p with 0 => p | S n => set_shared false n p end.

(** ** What is asked of the model *)

Definition genTitle (p : History) : History :=
  match gen p, messages (page p), currentId (page p) with
  | None, _ :: _, Some ((_ :: _) as id) =>
      p |> set_gen (Some (mkGen id (conversations (page p)) (activeTabId (page p)))) |> ask (AskTitle (model (page p)) (withoutImages (messages (page p))))
  | _, _, _ => p
  end.
Definition gen_answered (title : option jstr) (p : History) : History :=
  match gen p with
  | None => p
  | Some g =>
      let p := set_gen None p in
      match title, conv_of (g_id g) (g_convs g) with
      | Some ((_ :: _) as title), Some c =>
          set_page (page p |> set_conversations (retitle (g_id g) title (conversations (page p)))
            |> set_tabs (map (fun b => if bool_decide (tab_currentId b = Some (g_id g)) || streq (tab_id b) (g_tab g)
                 then mkTab (tab_id b) title (tab_currentId b) (tab_model b) (tab_settings b) (tab_attachments b) (tab_messages b) else b) (tabs (page p)))
            |> effect (Saved (retitled title c))) p
      | _, _ => p
      end
  end.
Definition genSummary (p : History) : History :=
  match messages (page p) with
  | [] => p
  | msgs => p |> set_summary (t (u "Génération en cours…")) (S (summaries p)) |> set_summaryOpen true |> ask (AskSummary (model (page p)) (withoutImages msgs))
  end.
Definition summary_text (r : option (jstr * jstr)) : jstr :=
  match r with
  | Some ((_ :: _) as s, _) => s
  | Some ([], (_ :: _) as e) => tServer e t
  | _ => t (u "Impossible de générer le résumé.")
  end.
Definition summary_answered (r : option (jstr * jstr)) (p : History) : History :=
  match summaries p with 0 => p | S n => set_summary (summary_text r) n p end.

(** ** The lists the server gives, and the conversation of a link *)

Definition list_loaded (l : list Conversation) (p : History) : History := p |> set_page (set_conversations l (page p)) |> set_listLoaded true.
(** [?conv=] and [?model=], once, when the models and the full list are there. *)
Definition initFromUrl (convId modelName : jstr) (p : History) : History :=
  if fromUrl p || negb (nonempty convId || nonempty modelName) || negb (0 <? length (runningModels env)) || nonempty convId && negb (listLoaded p) then p
  else
    let p := set_fromUrl true p in
    let p := set_page (set_running env modelName (page p)) p in
    match (if nonempty convId then conv_of convId (conversations (page p)) else None) with
    | Some c =>
        set_page (page p |> set_messages (map fromSaved (c_messages c)) |> set_currentId (Some (c_id c))
          |> set_tabs (map (fun b => if streq (tab_id b) (activeTabId (page p))
               then mkTab (tab_id b) (c_title c) (Some (c_id c)) (tab_model b) (tab_settings b) (tab_attachments b) (tab_messages b) else b) (tabs (page p)))
          |> set_running env (c_model c)) p
    | None => p
    end.

(** ** The events *)

Inductive HEvent :=
| HOpen | HClose | HQuery (v : jstr)
| HPick (k : nat) | HPin (k : nat) | HRename (k : nat) | HType (v : jstr) | HCommit (k : nat) | HCancel | HExport (k : nat) | HShare (k : nat) | HDelete (k : nat)
| HFetched (i : nat) (r : option Conversation) | HRemoved (ok : bool) | HList (l : list Conversation) | HUrl (conv model : jstr)
| HExportShown | HShareShown | HTitle | HTitled (r : option jstr) | HSummary | HSummarized (r : option (jstr * jstr)) | HCloseSummary
| HShared (r : option (bool * jstr * jstr)) (clipboard exec : bool) | HShareOver
| HPage (e : Event).

(** A button of a row, which the row being renamed does not have. *)
Definition on_row (k : nat) (f : Conversation -> History -> History) (p : History) : History :=
  match visibleConvs p !! k with
  | Some c => if bool_decide (renamingId p = Some (c_id c)) then p else f c p
  | None => p
  end.
Definition hist_handle (e : HEvent) (p : History) : History :=
  match e with
  | HOpen => set_historyOpen true p
  | HClose => set_historyOpen false p
  | HQuery v => if historyOpen p then set_histQuery v p else p
  | HPick k => on_row k pick p
  | HPin k => on_row k (fun c p => set_pinnedIds (togglePinned (c_id c) (pinnedIds p)) p) p
  | HRename k => on_row k (fun c => startRename (c_id c) (c_title c)) p
  | HType v => if historyOpen p then set_renaming (renamingId p) v p else p
  | HCommit k => match visibleConvs p !! k with Some c => if bool_decide (renamingId p = Some (c_id c)) then commitRename (c_id c) p else p | None => p end
  | HCancel => set_renaming None (renameValue p) p
  | HExport k => on_row k (fun c => exportConversation (or_conversation (c_title c)) (c_model c) (c_messages c) true) p
  | HShare k => on_row k (fun c => shareConversation (c_id c)) p
  | HDelete k => on_row k (fun c p => set_page (deleteConversation env (c_id c) (page p)) p) p
  | HFetched i r => fetched i r p
  | HRemoved ok => removed ok p
  | HList l => list_loaded l p
  | HUrl c m => initFromUrl c m p
  | HExportShown => match messages (page p) with [] => p | msgs => exportConversation (title_of msgs) (model (page p)) msgs false p end
  | HShareShown => match currentId (page p) with Some ((_ :: _) as id) => shareConversation id p | _ => p end
  | HTitle => genTitle p
  | HTitled r => gen_answered r p
  | HSummary => genSummary p
  | HSummarized r => summary_answered r p
  | HCloseSummary => set_summaryOpen false p
  | HShared r c e => share_answered r c e p
  | HShareOver => share_over p
  | HPage e => set_page (handle t env e (page p)) p
  end.
Definition hist_run (es : list HEvent) (p : History) : History := foldl (fun p e => hist_handle e p) p es.
End history.
Definition hist_start (g : Page) (ids : list jstr) (titles : list Conversation) : History :=
  mkHistory (set_conversations titles g) false false [] ids None [] None false [] 0 false 0 0 [] false [] [].

(** ** The rows *)

Lemma not_after_total ids a b : not_after ids a b = true \/ not_after ids b a = true.
Proof. unfold not_after. destruct (pinned ids a), (pinned ids b); rewrite ?Z.leb_le; lia. Qed.
Lemma not_after_trans ids a b c : not_after ids a b = true -> not_after ids b c = true -> not_after ids a c = true.
Proof. unfold not_after. destruct (pinned ids a), (pinned ids b), (pinned ids c); rewrite ?Z.leb_le; try done; lia. Qed.
(** The rows of the history are the conversations whose title has the words
    searched, each once: the pinned first, the most recent first among them, and in the
    order of the list where the two say nothing. *)
Theorem history_rows p : let l := List.filter (matches (query p)) (conversations (page p)) in let rows := visibleConvs (set_historyOpen true p) in
  Permutation rows l /\ StronglySorted (fun a b => not_after (pinnedIds p) a b = true) rows /\
  (forall b ts, let like c := Bool.eqb (pinned (pinnedIds p) c) b && (c_ts c =? ts)%Z in List.filter like rows = List.filter like l).
Proof.
  intros l rows. change rows with (sort_by (not_after (pinnedIds p)) l). clearbody l. clear rows. split; [apply sort_by_perm|]. split; [apply sort_by_sorted; [apply not_after_total|apply not_after_trans]|].
  intros b ts like. apply sort_by_stable; [apply not_after_total|apply not_after_trans|]. intros x y. unfold like, not_after. rewrite !andb_true_iff, !Bool.eqb_true_iff, !Z.eqb_eq. intros [-> X] [-> Y]. destruct b; apply Z.leb_le; lia.
Qed.

(** ** What the history changes *)

(** A conversation, its title aside. *)
Definition content_of (c : Conversation) := (c_id c, c_ts c, c_model c, c_messages c, omittedMessages c).
Definition same_content (l : list Conversation) (c : Conversation) : Prop := exists d, d ∈ l /\ content_of c = content_of d.
(** What the dialog and the menu do, the page under them and the lists the server
    gives aside. *)
Definition own_event (e : HEvent) : bool := match e with HPage _ | HList _ | HFetched _ _ => false | _ => true end.
Record kept (env : Loaded) (l : list Conversation) (old : list Effect) (p : History) : Prop := mkKept {
  k_list : forall c, c ∈ conversations (page p) -> same_content l c;
  k_gone : forall d, d ∈ l -> (exists c, c ∈ conversations (page p) /\ content_of c = content_of d) \/ Removed (c_id d) ∈ effects (page p) \/ csrf env = [];
  k_saved : forall c, Saved c ∈ effects (page p) -> Saved c ∈ old \/ same_content l c;
  k_gen : forall g, gen p = Some g -> forall c, c ∈ g_convs g -> same_content l c
}.
Lemma content_id c d : content_of c = content_of d -> c_id c = c_id d.
Proof. by intros [= ]. Qed.
Lemma retitled_content title c : content_of (retitled title c) = content_of c.
Proof. done. Qed.
Lemma conv_of_in id l c : conv_of id l = Some c -> c ∈ l.
Proof. unfold conv_of. intros F. apply find_some in F as [F _]. by apply list_elem_of_In. Qed.
Lemma retitle_in id title l c : c ∈ retitle id title l -> same_content l c.
Proof. unfold retitle. intros I. apply list_elem_of_fmap in I as (d & -> & I). exists d. split; [done|]. by destruct (streq (c_id d) id). Qed.
Lemma in_retitle id title l d : d ∈ l -> exists c, c ∈ retitle id title l /\ content_of c = content_of d.
Proof. intros I. unfold retitle. eexists. split; [apply list_elem_of_fmap; by exists d|]. by destruct (streq (c_id d) id). Qed.
Lemma same_content_trans l m c : (forall d, d ∈ m -> same_content l d) -> same_content m c -> same_content l c.
Proof. intros H (d & I & E). destruct (H d I) as (x & X & Y). exists x. by rewrite E. Qed.
Section kept.
Context (env : Loaded) (l : list Conversation) (old : list Effect).
(** A state whose conversations, effects and awaited title are those of another. *)
Lemma kept_same p q : conversations (page q) = conversations (page p) -> effects (page q) = effects (page p) -> gen q = gen p -> kept env l old p -> kept env l old q.
Proof. intros C E G [A B S D]. by constructor; rewrite ?C, ?E, ?G. Qed.
Lemma kept_retitle id title p (g : Page) (o : option Conversation) : kept env l old p -> conversations g = retitle id title (conversations (page p)) ->
  effects g = effects (page p) ++ match o with Some c => [Saved c] | None => [] end -> (forall c, o = Some c -> same_content l c) ->
  forall q, page q = g -> (gen q = gen p \/ gen q = None) -> kept env l old q.
Proof.
  intros [A B S D] C E O q Q G. subst g. constructor; rewrite ?C, ?E.
  - intros c I. apply retitle_in in I. by apply (same_content_trans l _ c A).
  - intros d I. destruct (B d I) as [(c & J & K)|[R|N]]; [left|right; left|by right; right].
    + destruct (in_retitle id title _ c J) as (x & X & Y). exists x. by rewrite Y.
    + apply elem_of_app. by left.
  - intros c I. apply elem_of_app in I as [I|I]; [by apply S|]. right. apply O. destruct o; [|by apply not_elem_of_nil in I]. apply list_elem_of_singleton in I. by injection I as ->.
  - intros g0 H. destruct G as [G|G]; rewrite G in H; [by apply D|done].
Qed.
Lemma kept_delete id p : kept env l old p -> kept env l old (set_page (deleteConversation env id (page p)) p).
Proof.
  intros [A B S D]. unfold deleteConversation. set (g := set_conversations _ (page p)).
  assert (X : forall g', conversations g' = conversations g -> effects g' = effects (page p) ++ (if nonempty (csrf env) then [Removed id] else []) -> kept env l old (set_page g' p)).
  { intros g' C E. constructor; hist_fields; rewrite ?C, ?E; unfold g; page_fields.
    - intros c I. apply list_elem_of_In, filter_In in I as [I _]. apply A. by apply list_elem_of_In.
    - intros d I. destruct (B d I) as [(c & J & K)|[R|N]]; [|right; left; apply elem_of_app; by left|by right; right]. destruct (streq (c_id c) id) eqn:Q.
      + right. apply streq_true in Q. rewrite <- (content_id c d K), Q. unfold nonempty. destruct (csrf env); [by right|]. left. apply elem_of_app. right. by left.
      + left. exists c. split; [|done]. apply list_elem_of_In, filter_In. split; [by apply list_elem_of_In|by rewrite Q].
    - intros c I. apply S. apply elem_of_app in I as [I|I]; [done|]. destruct (nonempty (csrf env)); [by apply list_elem_of_singleton in I|by apply not_elem_of_nil in I].
    - exact D. }
  destruct (nonempty (csrf env)); destruct (bool_decide _); apply X; unfold g; page_fields; by rewrite ?app_nil_r.
Qed.
End kept.
Ltac kept_same_solve H := eapply kept_same; [..|exact H]; reflexivity.
Lemma ran_running env m g : conversations (set_running env m g) = conversations g /\ effects (set_running env m g) = effects g.
Proof. unfold set_running. by destruct (_ && _). Qed.
Lemma kept_step t env origin l old e p : own_event e = true -> kept env l old p -> kept env l old (hist_handle t env origin e p).
Proof.
  intros O H. assert (R : forall k f, (forall c, c ∈ conversations (page p) -> kept env l old (f c p)) -> kept env l old (on_row k f p)).
  { intros k f F. unfold on_row. destruct (visibleConvs p !! k) as [c|] eqn:V; [|exact H]. case_bool_decide; [exact H|]. apply F. apply list_elem_of_lookup_2 in V. unfold visibleConvs in V. destruct (historyOpen p); [|by apply not_elem_of_nil in V].
    rewrite sort_by_perm in V. apply list_elem_of_In, filter_In in V as [V _]. by apply list_elem_of_In. }
  destruct e; try discriminate O; cbn [hist_handle]; try (kept_same_solve H).
  - destruct (historyOpen p); kept_same_solve H.
  - apply R. intros c _. unfold pick. destruct (omittedMessages c) as [[]|]; try (kept_same_solve H); unfold selectConversation; destruct (omittedMessages c) as [[]|]; try (kept_same_solve H);
      (eapply kept_same; [..|exact H]; [| |reflexivity]; hist_fields; unfold applyConversation, clear_thread; page_fields; [by rewrite (proj1 (ran_running env _ _))|by rewrite (proj2 (ran_running env _ _))]).
  - apply R. intros c _. kept_same_solve H.
  - apply R. intros c _. kept_same_solve H.
  - destruct (historyOpen p); kept_same_solve H.
  - destruct (visibleConvs p !! k) as [c|]; [|exact H]. case_bool_decide; [|exact H]. unfold commitRename. set (id := c_id c). set (title := or_conversation _ _). cbv zeta. destruct (conv_of id (conversations (page p))) as [d|] eqn:F; [destruct (nonempty (csrf env))|].
    + apply (kept_retitle env l old id title p (effect (Saved (retitled title d)) (set_conversations (retitle id title (conversations (page p))) (page p))) (Some (retitled title d)) H); [done|done| |done|by left].
      intros x [= <-]. destruct H as [A _ _ _]. apply (A d). by apply (conv_of_in id).
    + eapply (kept_retitle env l old id title p (set_conversations (retitle id title (conversations (page p))) (page p)) None H); [done|page_fields; by rewrite app_nil_r|done|done|by left].
    + eapply (kept_retitle env l old id title p (set_conversations (retitle id title (conversations (page p))) (page p)) None H); [done|page_fields; by rewrite app_nil_r|done|done|by left].
  - apply R. intros c _. kept_same_solve H.
  - apply R. intros c _. unfold shareConversation. destruct (nonempty (csrf env)); kept_same_solve H.
  - apply R. intros c _. by apply kept_delete.
  - destruct ok; kept_same_solve H.
  - unfold initFromUrl. destruct (_ || _); [exact H|]. cbv zeta. destruct (if nonempty conv then _ else None) as [c|]; (eapply kept_same; [..|exact H]; [| |reflexivity]); hist_fields; page_fields; rewrite ?(proj1 (ran_running env _ _)), ?(proj2 (ran_running env _ _)); page_fields; rewrite ?(proj1 (ran_running env _ _)), ?(proj2 (ran_running env _ _)); done.
  - destruct (messages (page p)); kept_same_solve H.
  - destruct (currentId (page p)) as [[|]|]; try (kept_same_solve H). unfold shareConversation. destruct (nonempty (csrf env)); kept_same_solve H.
  - unfold genTitle. destruct (gen p) eqn:G; [exact H|]. destruct (messages (page p)); [exact H|]. destruct (currentId (page p)) as [[|x id]|]; try exact H. destruct H as [A B S D]. constructor; hist_fields; [exact A|exact B|exact S|]. intros g [= <-]. exact A.
  - unfold gen_answered. destruct (gen p) as [g|] eqn:G; [|exact H]. assert (K : kept env l old (set_gen None p)) by (destruct H as [A B S D]; constructor; hist_fields; [exact A|exact B|exact S|done]).
    destruct r as [[|x title]|]; try exact K. destruct (conv_of (g_id g) (g_convs g)) as [c|] eqn:F; [|exact K]. cbv zeta.
    match goal with |- kept _ _ _ (set_page ?h _) => apply (kept_retitle env l old (g_id g) (x :: title) p h (Some (retitled (x :: title) c)) H) end; [reflexivity|reflexivity| |reflexivity|by right].
    intros y [= <-]. destruct H as [_ _ _ D]. apply (D g G c). by apply (conv_of_in (g_id g)).
  - unfold genSummary. destruct (messages (page p)); kept_same_solve H.
  - unfold summary_answered. destruct (summaries p); kept_same_solve H.
  - unfold share_answered. destruct (shares p); [exact H|]. destruct r as [[[ok token] error]|]; [|kept_same_solve H]. destruct (negb _); [kept_same_solve H|]. cbv zeta. destruct (clipboard || exec); kept_same_solve H.
  - unfold share_over. destruct (timers p); kept_same_solve H.
Qed.
(** C9: The dialog and the menu change the titles and nothing else: a conversation of the
    list is one that was there, with its messages; one that is gone was removed by its
    row; and what is saved is a conversation of the list, with the messages it had. *)
Theorem history_only_titles t env origin es p : Forall (fun e => own_event e = true) es -> gen p = None ->
  let q := hist_run t env origin es p in
  (forall c, c ∈ conversations (page q) -> same_content (conversations (page p)) c) /\
  (forall d, d ∈ conversations (page p) -> (exists c, c ∈ conversations (page q) /\ content_of c = content_of d) \/ Removed (c_id d) ∈ effects (page q) \/ csrf env = []) /\
  (forall c, Saved c ∈ effects (page q) -> Saved c ∈ effects (page p) \/ same_content (conversations (page p)) c).
Proof.
  intros F G q. assert (K : kept env (conversations (page p)) (effects (page p)) q); [|by destruct K].
  unfold q, hist_run. assert (I : kept env (conversations (page p)) (effects (page p)) p).
  { constructor; [|by intros d D; left; exists d|by left|by rewrite G]. intros c C. by exists c. }
  revert I. generalize (conversations (page p)) at 1 2, (effects (page p)). intros l old. clear -F. revert p. induction F as [|e es O _ IH]; intros p I; [exact I|]. apply IH. by apply kept_step.
Qed.

(** ** What a share says *)

(** Every end of a share is told, once: the link was copied, it is shown for want of a
    clipboard, or why there is none. *)
Theorem share_told t origin r clipboard exec p n : shares p = S n -> let q := share_answered t origin r clipboard exec p in
  shares q = n /\
  match r with
  | Some (true, (_ :: _) as token, _) =>
      shared q = true /\ if clipboard || exec then toasts q = toasts p ++ [ShareCopied] /\ asks q = asks p else toasts q = toasts p /\ asks q = asks p ++ [PromptLink (origin ++ u "/c/" ++ token)]
  | Some (_, _, error) => shared q = shared p /\ asks q = asks p /\ toasts q = toasts p ++ [ShareRefused (tServer (match error with [] => u "erreur" | _ => error end) t)]
  | None => shared q = shared p /\ asks q = asks p /\ toasts q = toasts p ++ [ShareLost]
  end.
Proof.
  intros S. unfold share_answered. rewrite S. destruct r as [[[ok token] error]|]; [|by repeat split]. destruct ok, token as [|x token]; cbn [negb andb nonempty]; try by repeat split. cbv zeta. by destruct (clipboard || exec).
Qed.

(** ** What is lost *)

#[local] Abbreviation tr := (fun s : jstr => s) (only parsing).
Definition hist_env : Loaded := mkLoaded [u "qwen"] [] [] (u "csrf") false 4.
Definition blank : Page := page_start hist_env 0 (DEFAULT_SETTINGS, Manual) 0.
#[local] Abbreviation go := (hist_run tr hist_env (u "https://h")) (only parsing).
Definition talk (id title : jstr) : Conversation := mkConv id title 5 (u "qwen") [plain_msg User (u "q"); plain_msg Assistant (u "a")] (Some false).
(** What the list has of a conversation beyond the budget of the server. *)
Definition title_only (c : Conversation) : Conversation := mkConv (c_id c) (c_title c) (c_ts c) (c_model c) [] (Some true).
#[local] Abbreviation listed := (hist_start blank [] [title_only (talk (u "c1") (u "Notes"))]) (only parsing).

(** A conversation whose messages the server set aside is renamed with the messages
    of the list, none: what the server keeps of it is replaced by nothing. *)
Lemma rename_of_omitted_empties : let p := go [HOpen; HRename 0; HType (u "Other"); HCommit 0] listed in
  exists c, Saved c ∈ effects (page p) /\ c_id c = u "c1" /\ c_messages c = [].
Proof. eexists. split; [vm_compute; left|]. split; reflexivity. Qed.
(** Its export has no message either, and nothing says it. *)
Lemma export_of_omitted_empty : asks (go [HOpen; HExport 0] listed) = [Download (u "conversation.json") (u "Notes") (u "qwen") []] /\ toasts (go [HOpen; HExport 0] listed) = [].
Proof. vm_compute. split; reflexivity. Qed.
(** Opened by its link, it shows no message, and the next turn is saved over it. *)
Lemma link_of_omitted_empties :
  let p := go [HList [title_only (talk (u "c1") (u "Notes"))]; HUrl (u "c1") []] listed in
  let q := go [HPage (Send 9 (u "hi")); HPage (End_ 9 Finished)] p in
  messages (page p) = [] /\ currentId (page p) = Some (u "c1") /\ toasts p = [] /\ exists c, Saved c ∈ effects (page q) /\ c_id c = u "c1" /\ length (c_messages c) = 2.
Proof.
  split; [vm_compute; reflexivity|]. split; [vm_compute; reflexivity|]. split; [vm_compute; reflexivity|]. eexists. split; [vm_compute; right; left|]. split; vm_compute; reflexivity.
Qed.
(** The title asked for is saved with the messages of its request: what was answered
    since is lost. *)
Lemma title_saves_old_messages :
  let p := go [HList [talk (u "c1") (u "Notes")]; HUrl (u "c1") []; HTitle; HPage (Send 9 (u "hi")); HPage (End_ 9 Finished); HTitled (Some (u "New"))] listed in
  length (messages (page p)) = 4 /\ exists c, last (effects (page p)) = Some (Saved c) /\ c_title c = u "New" /\ length (c_messages c) = 2.
Proof. split; [vm_compute; reflexivity|]. eexists. split; [vm_compute; reflexivity|]. split; vm_compute; reflexivity. Qed.
(** Renamed in the history, an open conversation keeps its old title in its tab. *)
Lemma tab_keeps_title :
  let p := go [HList [talk (u "c1") (u "Notes")]; HUrl (u "c1") []; HOpen; HRename 0; HType (u "Other"); HCommit 0] listed in
  map tab_title (tabs (page p)) = [u "Notes"] /\ map c_title (conversations (page p)) = [u "Other"].
Proof. vm_compute. split; reflexivity. Qed.
(** Two summaries asked for, of two conversations: the last to be answered is shown,
    whichever it is of. *)
Lemma summary_of_another :
  let p := go [HList [talk (u "c1") (u "Notes"); talk (u "c2") (u "Plans")]; HUrl (u "c1") []; HSummary; HCloseSummary; HOpen; HPick 1; HSummary; HSummarized (Some (u "plans", [])); HSummarized (Some (u "notes", []))] listed in
  currentId (page p) = Some (u "c2") /\ summaryOpen p = true /\ summary p = u "notes".
Proof. vm_compute. repeat split; reflexivity. Qed.
(** Without a clipboard the link is shown, and the notice ends. *)
Example notices : let p := go [HOpen; HShare 0; HShared (Some (true, u "k", [])) false false] listed in
  shared p = true /\ asks p = [AskShare (u "c1"); PromptLink (u "https://h/c/k")] /\ shared (go [HShareOver] p) = false.
Proof. vm_compute. repeat split; reflexivity. Qed.

Theorem history_only_titles_witness : let p := hist_start blank [] [talk (u "c1") (u "Notes")] in let q := go [HOpen; HRename 0; HType (u "Other"); HCommit 0] p in
  map c_title (conversations (page q)) = [u "Other"] /\ forall c, c ∈ conversations (page q) -> same_content (conversations (page p)) c.
Proof.
  split; [vm_compute; reflexivity|]. refine (proj1 (history_only_titles tr hist_env (u "https://h") [HOpen; HRename 0; HType (u "Other"); HCommit 0] (hist_start blank [] [talk (u "c1") (u "Notes")]) _ eq_refl)). repeat constructor.
Defined.
Theorem share_told_witness : shares (share_answered tr (u "https://h") None true true (set_shares 1 listed)) = 0.
Proof. exact (proj1 (share_told tr (u "https://h") None true true (set_shares 1 listed) 0 eq_refl)). Defined.
