(* ===== verification/Panel.v ===== *)
(** * The panel of the files (playground/PlaygroundPage.tsx, _components/DocumentPanel.tsx, DocumentPanelFullscreen.tsx)

    Beside the thread, a panel shows a file: the one being written, the last one the
    answer being written has finished, a document as it is drafted, or the file opened.
    What it shows is derived from the thread at each render; an opened file is an object
    and keeps its identity, one read again from the answer is new at each render.

    The list of the versions is computed again when the messages change, and while an
    answer is written when their number does; it leaves the last one out. *)

From S2P Require Import Prelude JsString JsInt JsRegExp JsJson Diff Parsers Thread Preferences.
Local Open Scope flow_scope.

Record Panel := mkPanel {
  messages : list ChatMsg; streaming : bool; currentId : option jstr; renames : list (jstr * jstr);
  artifact : option (nat * Artifact); objects : nat;   (* the file opened, and the objects made *)
  liveDocOpen : bool; watching : bool;   (* [liveDocOpenRef] *)
  full : bool; htmlPreview : bool; previewUrl : jstr; previewError : jstr;
  renamingArtifact : bool; renameArtifactValue : jstr;
  choice : option nat * nat * bool;   (* [panelChoice]: the object it was made on, the version, the changes *)
  run : nat; deps : option (bool * bool * jstr); publishing : list (nat * jstr);   (* the preview's effect *)
  windows : list nat;   (* [windowsPreview] *)
  settled : option nat * list ChatMsg   (* [settledKey] as a number, and the messages the versions were made from *)
}.

Definition set_messages v p := mkPanel v (streaming p) (currentId p) (renames p) (artifact p) (objects p) (liveDocOpen p) (watching p) (full p) (htmlPreview p) (previewUrl p) (previewError p) (renamingArtifact p) (renameArtifactValue p) (choice p) (run p) (deps p) (publishing p) (windows p) (settled p).
Definition set_streaming v p := mkPanel (messages p) v (currentId p) (renames p) (artifact p) (objects p) (liveDocOpen p) (watching p) (full p) (htmlPreview p) (previewUrl p) (previewError p) (renamingArtifact p) (renameArtifactValue p) (choice p) (run p) (deps p) (publishing p) (windows p) (settled p).
Definition set_currentId v p := mkPanel (messages p) (streaming p) v (renames p) (artifact p) (objects p) (liveDocOpen p) (watching p) (full p) (htmlPreview p) (previewUrl p) (previewError p) (renamingArtifact p) (renameArtifactValue p) (choice p) (run p) (deps p) (publishing p) (windows p) (settled p).
Definition set_renames v p := mkPanel (messages p) (streaming p) (currentId p) v (artifact p) (objects p) (liveDocOpen p) (watching p) (full p) (htmlPreview p) (previewUrl p) (previewError p) (renamingArtifact p) (renameArtifactValue p) (choice p) (run p) (deps p) (publishing p) (windows p) (settled p).
Definition set_artifact v p := mkPanel (messages p) (streaming p) (currentId p) (renames p) v (objects p) (liveDocOpen p) (watching p) (full p) (htmlPreview p) (previewUrl p) (previewError p) (renamingArtifact p) (renameArtifactValue p) (choice p) (run p) (deps p) (publishing p) (windows p) (settled p).
Definition set_objects v p := mkPanel (messages p) (streaming p) (currentId p) (renames p) (artifact p) v (liveDocOpen p) (watching p) (full p) (htmlPreview p) (previewUrl p) (previewError p) (renamingArtifact p) (renameArtifactValue p) (choice p) (run p) (deps p) (publishing p) (windows p) (settled p).
Definition set_liveDocOpen v p := mkPanel (messages p) (streaming p) (currentId p) (renames p) (artifact p) (objects p) v (watching p) (full p) (htmlPreview p) (previewUrl p) (previewError p) (renamingArtifact p) (renameArtifactValue p) (choice p) (run p) (deps p) (publishing p) (windows p) (settled p).
Definition set_watching v p := mkPanel (messages p) (streaming p) (currentId p) (renames p) (artifact p) (objects p) (liveDocOpen p) v (full p) (htmlPreview p) (previewUrl p) (previewError p) (renamingArtifact p) (renameArtifactValue p) (choice p) (run p) (deps p) (publishing p) (windows p) (settled p).
Definition set_full v p := mkPanel (messages p) (streaming p) (currentId p) (renames p) (artifact p) (objects p) (liveDocOpen p) (watching p) v (htmlPreview p) (previewUrl p) (previewError p) (renamingArtifact p) (renameArtifactValue p) (choice p) (run p) (deps p) (publishing p) (windows p) (settled p).
Definition set_htmlPreview v p := mkPanel (messages p) (streaming p) (currentId p) (renames p) (artifact p) (objects p) (liveDocOpen p) (watching p) (full p) v (previewUrl p) (previewError p) (renamingArtifact p) (renameArtifactValue p) (choice p) (run p) (deps p) (publishing p) (windows p) (settled p).
Definition set_previewUrl v p := mkPanel (messages p) (streaming p) (currentId p) (renames p) (artifact p) (objects p) (liveDocOpen p) (watching p) (full p) (htmlPreview p) v (previewError p) (renamingArtifact p) (renameArtifactValue p) (choice p) (run p) (deps p) (publishing p) (windows p) (settled p).
Definition set_previewError v p := mkPanel (messages p) (streaming p) (currentId p) (renames p) (artifact p) (objects p) (liveDocOpen p) (watching p) (full p) (htmlPreview p) (previewUrl p) v (renamingArtifact p) (renameArtifactValue p) (choice p) (run p) (deps p) (publishing p) (windows p) (settled p).
Definition set_renamingArtifact v p := mkPanel (messages p) (streaming p) (currentId p) (renames p) (artifact p) (objects p) (liveDocOpen p) (watching p) (full p) (htmlPreview p) (previewUrl p) (previewError p) v (renameArtifactValue p) (choice p) (run p) (deps p) (publishing p) (windows p) (settled p).
Definition set_renameArtifactValue v p := mkPanel (messages p) (streaming p) (currentId p) (renames p) (artifact p) (objects p) (liveDocOpen p) (watching p) (full p) (htmlPreview p) (previewUrl p) (previewError p) (renamingArtifact p) v (choice p) (run p) (deps p) (publishing p) (windows p) (settled p).
Definition set_choice v p := mkPanel (messages p) (streaming p) (currentId p) (renames p) (artifact p) (objects p) (liveDocOpen p) (watching p) (full p) (htmlPreview p) (previewUrl p) (previewError p) (renamingArtifact p) (renameArtifactValue p) v (run p) (deps p) (publishing p) (windows p) (settled p).
Definition set_run v p := mkPanel (messages p) (streaming p) (currentId p) (renames p) (artifact p) (objects p) (liveDocOpen p) (watching p) (full p) (htmlPreview p) (previewUrl p) (previewError p) (renamingArtifact p) (renameArtifactValue p) (choice p) v (deps p) (publishing p) (windows p) (settled p).
Definition set_deps v p := mkPanel (messages p) (streaming p) (currentId p) (renames p) (artifact p) (objects p) (liveDocOpen p) (watching p) (full p) (htmlPreview p) (previewUrl p) (previewError p) (renamingArtifact p) (renameArtifactValue p) (choice p) (run p) v (publishing p) (windows p) (settled p).
Definition set_publishing v p := mkPanel (messages p) (streaming p) (currentId p) (renames p) (artifact p) (objects p) (liveDocOpen p) (watching p) (full p) (htmlPreview p) (previewUrl p) (previewError p) (renamingArtifact p) (renameArtifactValue p) (choice p) (run p) (deps p) v (windows p) (settled p).
Definition set_windows v p := mkPanel (messages p) (streaming p) (currentId p) (renames p) (artifact p) (objects p) (liveDocOpen p) (watching p) (full p) (htmlPreview p) (previewUrl p) (previewError p) (renamingArtifact p) (renameArtifactValue p) (choice p) (run p) (deps p) (publishing p) v (settled p).
Definition set_settled v p := mkPanel (messages p) (streaming p) (currentId p) (renames p) (artifact p) (objects p) (liveDocOpen p) (watching p) (full p) (htmlPreview p) (previewUrl p) (previewError p) (renamingArtifact p) (renameArtifactValue p) (choice p) (run p) (deps p) (publishing p) (windows p) v.
Ltac panel_fields := cbn [settled set_settled messages streaming currentId renames artifact objects liveDocOpen watching full htmlPreview previewUrl previewError renamingArtifact renameArtifactValue choice run deps publishing windows set_messages set_streaming set_currentId set_renames set_artifact set_objects set_liveDocOpen set_watching set_full set_htmlPreview set_previewUrl set_previewError set_renamingArtifact set_renameArtifactValue set_choice set_run set_deps set_publishing set_windows] in *.

(** ** What the panel shows *)

(** The file that the panel is about: the object opened, or one that each render makes
    anew from the answer. *)
Inductive Pin := Kept (id : nat) (a : Artifact) | Fresh (a : Artifact).
Definition pin_file (x : Pin) : Artifact := match x with Kept _ a | Fresh a => a end.

Section panel.
Context (t : jstr -> jstr) (isNarrow : bool).

Definition lastMsg (p : Panel) : option ChatMsg := last (messages p).
Definition answering (p : Panel) : bool := match lastMsg p with Some m => bool_decide (role m = Assistant) | None => false end.
Definition lastText (p : Panel) : jstr := match lastMsg p with Some m => content m | None => [] end.
(** The request before the last message. *)
Definition requestText (p : Panel) : jstr := match last (removelast (messages p)) with Some m => content m | None => [] end.
Definition streamingDocActive (p : Panel) : bool := streaming p && answering p && isDocTask (requestText p).
Definition liveContent (p : Panel) : jstr := if streamingDocActive p then lastText p else [].
Definition writing (p : Panel) : bool := streaming p && negb isNarrow && answering p && negb (streamingDocActive p).
Definition liveCode (p : Panel) : option OpenFence := if writing p then openCodeFence (lastText p) else None.
Definition liveCodeTitle (p : Panel) : jstr :=
  match liveCode p with
  | Some f => match titleFromContext (take (of_start f) (lastText p)) with [] => of_lang f | s => s end
  | None => []
  end.
(** [useMemo] keyed on [settledKey]: while an answer is written, the number of the
    messages; otherwise the messages themselves, which give the same result. *)
Definition settle (p : Panel) : Panel :=
  if streaming p && bool_decide ((settled p).1 = Some (length (messages p))) then p
  else set_settled (if streaming p then (Some (length (messages p)), removelast (messages p)) else (None, messages p)) p.
Definition versions (p : Panel) : list (jstr * list FileVersion) := fileVersions t (settled p).2.
Definition showLiveDoc (p : Panel) : bool := liveDocOpen p && streamingDocActive p.
Definition lastFinished (p : Panel) : option Artifact :=
  if writing p then last (r_artifacts (parseArtifacts t (lastText p) false (requestText p) (fun _ => None))) else None.
Definition opened (p : Panel) : option Pin := match artifact p with Some (id, a) => Some (Kept id a) | None => None end.
Definition pinned (p : Panel) : option Pin :=
  match liveCode p with
  | Some _ => None
  | None => match lastFinished p with Some a => Some (Fresh a) | None => opened p end
  end.
Definition pinned_code (p : Panel) : option (jstr * jstr * jstr) := match pinned p with Some x => match pin_file x with Code n l c => Some (n, l, c) | Doc _ _ => None end | None => None end.
Definition showLive (p : Panel) : bool := showLiveDoc p || match liveCode p with Some _ => true | None => false end.
Definition panelIsCode (p : Panel) : bool := match liveCode p, pinned_code p with None, None => false | _, _ => true end.
Definition shown_name (p : Panel) (a : Artifact) : jstr := renamedTitle (renames p) (currentId p) a.
Definition panelTitle (p : Panel) : jstr :=
  match liveCode p with
  | Some _ => liveCodeTitle p
  | None => if showLiveDoc p then docTitleFromContent (liveContent p) else match pinned p with Some x => shown_name p (pin_file x) | None => u "Document" end
  end.
Definition canRenamePanel (p : Panel) : bool := match pinned p, liveCode p with Some _, None => negb (showLiveDoc p) | _, _ => false end.

(** ** The versions of the file shown *)

Definition pinnedVersions (p : Panel) : option (list FileVersion) :=
  match pinned_code p with Some (n, _, _) => if showLive p then None else assoc_get n (versions p) | None => None end.
(** The choice made on the object shown: one read again from the answer is never it. *)
Definition chosen (p : Panel) : option (nat * bool) :=
  match pinned p, pinnedVersions p with
  | Some (Kept id _), Some _ => if bool_decide ((choice p).1.1 = Some id) then Some ((choice p).1.2, (choice p).2) else None
  | _, _ => None
  end.
(** [versionIdx], [None] for -1. *)
Definition versionIdx (p : Panel) : option nat :=
  match pinnedVersions p, pinned p with
  | Some vs, Some x => match chosen p with
                       | Some (k, _) => Some (Nat.min k (length vs - 1))
                       | None => find_index (fun v => streq (v_content v) (a_content (pin_file x))) vs
                       end
  | _, _ => None
  end.
Definition shownVersion (p : Panel) : option FileVersion := match pinnedVersions p, versionIdx p with Some vs, Some k => vs !! k | _, _ => None end.
Definition showChanges (p : Panel) : bool :=
  match chosen p, versionIdx p with Some (_, true), Some k => 0 <? k | _, _ => false end.
(** The outer option is the exception of a version that is not there. *)
Definition changeLines (p : Panel) : option (option (list (option DiffLine))) :=
  if showChanges p then
    match pinnedVersions p, versionIdx p with
    | Some vs, Some k => match vs !! (k - 1), vs !! k with Some a, Some b => Some (Some (hunks (diffLines (v_content a) (v_content b)) 3)) | _, _ => None end
    | _, _ => Some None
    end
  else Some None.
Definition panelContent (p : Panel) : jstr :=
  match liveCode p with
  | Some f => of_body f
  | None => if showLiveDoc p then liveContent p
            else match shownVersion p, pinned p with Some v, _ => v_content v | None, Some x => a_content (pin_file x) | None, None => [] end
  end.
Definition panelSubtitle (p : Panel) : jstr :=
  match liveCode p with
  | Some _ => t (u "Écriture en cours…")
  | None => if showLiveDoc p then t (u "Rédaction en cours…") else match pinned_code p with Some (_, l, _) => l | None => [] end
  end.
Definition panelLang (p : Panel) : jstr := match liveCode p, pinned_code p with Some f, _ => of_lang f | None, Some (_, l, _) => l | None, None => u "text" end.
Definition panelIsHtml (p : Panel) : bool :=
  match liveCode p with None => panelIsCode p && test (rx "^html?$" "i") (panelLang p) | Some _ => false end.
Definition panelDownloadName (p : Panel) : jstr := if panelIsCode p then downloadName (panelTitle p) (panelLang p) else slugify (panelTitle p) ++ u ".md".
Definition panelDownloadMime (p : Panel) : jstr := if panelIsCode p then mimeForLanguage (panelLang p) else u "text/markdown".
(** Beside the thread, and over it. *)
Definition some {A} (o : option A) : bool := match o with Some _ => true | None => false end.
Definition side_shown (p : Panel) : bool := (some (artifact p) || showLive p || some (lastFinished p)) && negb isNarrow.
Definition full_shown (p : Panel) : bool := (some (artifact p) || showLive p) && (isNarrow || full p).
Definition fileTabs (p : Panel) : list (jstr * jstr) :=
  if negb (showLive p) && some (pinned_code p) && (1 <? length (versions p)) then map (fun e => (e.1, shown_name p (Code e.1 [] []))) (versions p) else [].
Definition activeFile (p : Panel) : option jstr := match pinned_code p with Some (n, _, _) => Some n | None => None end.
(** The versions that can be chosen, with their label, and whether the changes can. *)
Definition picker (p : Panel) : option (list jstr * bool) :=
  match pinnedVersions p, versionIdx p with
  | Some vs, Some k =>
      if 1 <? length vs then
        Some (map (fun k => if k =? length vs - 1 then replace_str (t (u "v{n} (dernière)")) (u "{n}") (string_of_nat (k + 1)) else u "v" ++ string_of_nat (k + 1)) (seq 0 (length vs)), 0 <? k)
      else None
  | _, _ => None
  end.

(** ** The preview of a page *)

Definition preview_deps (p : Panel) : bool * bool * jstr := (panelIsHtml p, htmlPreview p, panelContent p).
(** The effect of a render: when what it reads has changed, it gives up the answers
    awaited and publishes the page, or empties the preview. *)
Definition sync (p : Panel) : Panel :=
  if bool_decide (deps p = Some (preview_deps p)) then p
  else
    let d := preview_deps p in
    let p := p |> set_deps (Some d) |> set_run (S (run p)) in
    if d.1.1 && d.1.2 && (0 <? length d.2) then set_publishing (publishing p ++ [(run p, d.2)]) p else set_previewUrl [] p.
(** The answer to a publication; [None] for a refusal or a failure. *)
Definition published (i : nat) (r : option jstr) (p : Panel) : Panel :=
  match publishing p !! i with
  | None => p
  | Some (k, _) =>
      let p := set_publishing (delete i (publishing p)) p in
      match r with
      | Some ((_ :: _) as id) => if k =? run p then p |> set_previewError [] |> set_previewUrl (u "/playground/preview/" ++ id) else p
      | _ => p
      end
  end.
(** A message to the window: the window it is from, if any, and its text. *)
Definition onMessageEvent (source : option nat) (msg : option jstr) (p : Panel) : Panel :=
  match source, msg with
  | Some w, Some ((_ :: _) as m) => if existsb (Nat.eqb w) (windows p) then match previewError p with [] => set_previewError (take 300 m) p | _ => p end else p
  | _, _ => p
  end.

(** ** The events *)

Definition open_ (a : Artifact) (p : Panel) : Panel := p |> set_artifact (Some (objects p, a)) |> set_objects (S (objects p)).
Definition onClose (p : Panel) : Panel := p |> set_artifact None |> set_liveDocOpen false |> set_watching false.
Definition closePanel (p : Panel) : Panel := if full p then set_full false p else onClose p.
Definition closeArtifact (p : Panel) : Panel := p |> set_artifact None |> set_liveDocOpen false.
Definition onSelectFile (name : jstr) (p : Panel) : Panel :=
  match assoc_get name (versions p) with
  | Some l => match last l with Some v => open_ (Code name (v_lang v) (v_content v)) p | None => p end
  | None => p
  end.
Definition chosen_object (p : Panel) : option nat := match pinned p with Some (Kept id _) => Some id | _ => None end.
Definition onSelectVersion (k : nat) (p : Panel) : Panel := set_choice (chosen_object p, k, match chosen p with Some (_, c) => c | None => false end) p.
Definition setShowChanges (v : bool) (p : Panel) : Panel := set_choice (chosen_object p, match versionIdx p with Some k => k | None => 0 end, v) p.
(** [setArtifactRenames] and the end of the edit. *)
Definition commitRename (p : Panel) : Panel :=
  match pinned p with
  | Some x => p |> set_renames (commitArtifactRename (currentId p) (pin_file x) (renameArtifactValue p) (renames p)) |> set_renamingArtifact false
  | None => p
  end.
(** A turn starts, its answer grows, it ends with a file to show. *)
Definition turn_start (msgs : list ChatMsg) (p : Panel) : Panel :=
  let doc := isDocTask (match last msgs with Some m => content m | None => [] end) && negb isNarrow in
  p |> set_streaming true |> set_messages (msgs ++ [plain_msg Assistant []]) |> set_liveDocOpen doc |> set_watching doc.
Definition turn_end (msgs : list ChatMsg) (a : option Artifact) (p : Panel) : Panel :=
  let p := p |> set_streaming false |> set_messages msgs in
  (match a with
   | Some (Code n l c) => open_ (Code n l c) p
   | Some (Doc n c) => if watching p then open_ (Doc n c) p else p
   | None => p
   end) |> set_watching false.

Inductive PaEvent :=
| PaStart (msgs : list ChatMsg) | PaText (msgs : list ChatMsg) | PaEnd (msgs : list ChatMsg) (a : option Artifact) | PaThread (msgs : list ChatMsg) (id : option jstr)
| PaOpen (a : Artifact) | PaOpenLive | PaTab (name : jstr) | PaVersion (k : nat) | PaChanges (v : bool) | PaHtml (v : bool) | PaFull | PaClose | PaCloseFull
| PaRename | PaRenameType (v : jstr) | PaRenameCancel | PaRenameCommit
| PaPublished (i : nat) (r : option jstr) | PaFrame (w : nat) | PaMessage (source : option nat) (msg : option jstr).
Definition visible (p : Panel) : bool := side_shown p || full_shown p.
Definition panel_event (e : PaEvent) (p : Panel) : Panel :=
  match e with
  | PaStart msgs => if streaming p then p else turn_start msgs p
  | PaText msgs => if streaming p then set_messages msgs p else p
  | PaEnd msgs a => if streaming p then turn_end msgs a p else p
  | PaThread msgs id => p |> set_messages msgs |> set_currentId id |> closeArtifact
  | PaOpen a => p |> open_ a |> set_renamingArtifact false
  | PaOpenLive => if streamingDocActive p then p |> set_liveDocOpen true |> set_watching true else p
  | PaTab name => if side_shown p && existsb (fun e => streq e.1 name) (fileTabs p) then onSelectFile name p else p
  | PaVersion k => match picker p with Some (l, _) => if side_shown p && (k <? length l) then onSelectVersion k p else p | None => p end
  | PaChanges v => match picker p with Some (_, true) => if side_shown p then setShowChanges v p else p | _ => p end
  | PaHtml v => if visible p && panelIsHtml p then set_htmlPreview v p else p
  | PaFull => if side_shown p then set_full true p else p
  | PaClose => if side_shown p then onClose p else p
  | PaCloseFull => if full_shown p then closePanel p else p
  | PaRename => if visible p && canRenamePanel p then p |> set_renameArtifactValue (panelTitle p) |> set_renamingArtifact true else p
  | PaRenameType v => if renamingArtifact p && canRenamePanel p then set_renameArtifactValue v p else p
  | PaRenameCancel => if renamingArtifact p && canRenamePanel p then set_renamingArtifact false p else p
  | PaRenameCommit => if renamingArtifact p && canRenamePanel p then commitRename p else p
  | PaPublished i r => published i r p
  | PaFrame w => if visible p && panelIsHtml p && htmlPreview p then set_windows (w :: windows p) p else p
  | PaMessage s m => onMessageEvent s m p
  end.
(** The event, then the render that follows and its effects. *)
Definition panel_handle (e : PaEvent) (p : Panel) : Panel := sync (settle (panel_event e p)).
Definition panel_run (es : list PaEvent) (p : Panel) : Panel := foldl (fun p e => panel_handle e p) p es.
Definition panel_start (msgs : list ChatMsg) (id : option jstr) (names : list (jstr * jstr)) : Panel :=
  sync (settle (mkPanel msgs false id names None 0 false false false true [] [] false [] (None, 0, false) 0 None [] [] (None, []))).
End panel.

(** ** The version shown is one of the file's *)

Definition never_empty (out : list (jstr * list FileVersion)) : Prop := forall n l, assoc_get n out = Some l -> l <> [].
Lemma add_version_some i out kf : never_empty out -> never_empty (add_version i out kf).
Proof.
  intros H n l. unfold add_version. case_bool_decide; [apply H|]. destruct (streq_spec n kf.1) as [->|N].
  - rewrite assoc_set_same. intros [= <-] E. by apply app_eq_nil in E as [_ E].
  - rewrite assoc_set_other by done. apply H.
Qed.
Lemma fileVersions_some t msgs : never_empty (fileVersions t msgs).
Proof.
  unfold fileVersions. generalize (states_until t msgs (Z.of_nat (length msgs) - 1)). intros sts. generalize (zip (seq 0 (length sts)) sts). clear sts. intros l.
  assert (G : forall out, never_empty out -> never_empty (foldl observe out l)); [|by apply G]. induction l as [|s l IH]; intros out H; [exact H|]. cbn [foldl]. apply IH. unfold observe.
  generalize dependent out. induction (t_files s.2) as [|kf fs IHf]; intros out H; [exact H|]. cbn [foldl]. by apply IHf, add_version_some.
Qed.

Section spec.
Context (t : jstr -> jstr) (isNarrow : bool).
#[local] Abbreviation pinnedVersions := (pinnedVersions t isNarrow) (only parsing).
#[local] Abbreviation versionIdx := (versionIdx t isNarrow) (only parsing).
#[local] Abbreviation panelContent := (panelContent t isNarrow) (only parsing).
#[local] Abbreviation showChanges := (showChanges t isNarrow) (only parsing).
#[local] Abbreviation handle := (panel_handle t isNarrow) (only parsing).
#[local] Abbreviation panel_at := (fun es msgs id names => panel_run t isNarrow es (panel_start t isNarrow msgs id names)) (only parsing).

Lemma pinnedVersions_some p vs : pinnedVersions p = Some vs -> vs <> [] /\ liveCode isNarrow p = None /\ showLiveDoc p = false.
Proof.
  unfold Panel.pinnedVersions, pinned_code, pinned, showLive. destruct (liveCode isNarrow p); [done|]. rewrite orb_false_r.
  destruct (match lastFinished t isNarrow p with Some a => _ | None => _ end) as [x|]; [|done]. destruct (pin_file x) as [n l c|]; [|done]. destruct (showLiveDoc p); [done|]. intros E. split; [|done]. by apply (fileVersions_some t (settled p).2 n vs).
Qed.
Lemma versionIdx_in p k : versionIdx p = Some k -> exists vs v, pinnedVersions p = Some vs /\ vs !! k = Some v /\ panelContent p = v_content v.
Proof.
  intros E. assert (K := E). unfold Panel.versionIdx in E. destruct (pinnedVersions p) as [vs|] eqn:V; [|done]. destruct (pinnedVersions_some p vs V) as (N & L & D). exists vs.
  assert (B : exists v, vs !! k = Some v).
  { apply lookup_lt_is_Some_2. assert (0 < length vs) by (destruct vs; [done|cbn; lia]). destruct (pinned t isNarrow p) as [x|]; [|done]. destruct (chosen t isNarrow p) as [[i c]|]; [injection E as <-; lia|]. apply find_index_Some in E as [(w & W & _) _]. by apply lookup_lt_Some in W. }
  destruct B as [v B]. exists v. split; [done|]. split; [done|]. unfold Panel.panelContent, shownVersion. by rewrite L, D, V, K, B.
Qed.
(** C10: The version the panel says it shows is one of the file's versions and its text is
    the text shown; the changes are those between the version before it, which is there,
    and it. *)
Theorem version_shown p :
  match versionIdx p with
  | Some k => exists vs v, pinnedVersions p = Some vs /\ vs !! k = Some v /\ panelContent p = v_content v
  | None => showChanges p = false
  end /\
  match changeLines t isNarrow p with
  | None => False
  | Some None => showChanges p = false
  | Some (Some lines) => exists vs k a b, pinnedVersions p = Some vs /\ versionIdx p = Some (S k) /\ vs !! k = Some a /\ vs !! S k = Some b /\ panelContent p = v_content b /\ lines = hunks (diffLines (v_content a) (v_content b)) 3
  end.
Proof.
  split.
  - destruct (versionIdx p) as [k|] eqn:K; [by apply versionIdx_in|]. unfold Panel.showChanges. rewrite K. by destruct (chosen t isNarrow p) as [[? []]|].
  - unfold changeLines. destruct (showChanges p) eqn:C; [|done]. unfold Panel.showChanges in C. destruct (chosen t isNarrow p) as [[i []]|]; try done. destruct (versionIdx p) as [k|] eqn:K; [|done]. apply Nat.ltb_lt in C. destruct k as [|k]; [lia|].
    destruct (versionIdx_in p (S k) K) as (vs & b & V & B & E). rewrite V. rewrite Nat.sub_succ, Nat.sub_0_r. destruct (lookup_lt_is_Some_2 vs k) as [a A]; [apply lookup_lt_Some in B; lia|]. rewrite A, B. by exists vs, k, a, b.
Qed.

(** ** The preview *)

(** The answers awaited, and the last one is for the page shown. *)
Definition awaits_shown (p : Panel) : Prop := Forall (fun x => x.1 <= run p /\ (x.1 = run p -> deps p = Some (true, true, x.2))) (publishing p).
Lemma awaits_same p q : run q = run p -> deps q = deps p -> publishing q = publishing p -> awaits_shown p -> awaits_shown q.
Proof. unfold awaits_shown. by intros -> -> ->. Qed.
Lemma event_awaits e p : awaits_shown p -> awaits_shown (panel_event t isNarrow e p).
Proof.
  intros H. assert (S := fun q => awaits_same p q). destruct e; cbn [panel_event]; try (apply S; [reflexivity..|exact H]);
    try (lazymatch goal with |- context [if ?b then _ else _] => destruct b; [|exact H]; apply S; [reflexivity..|exact H] end).
  - destruct (streaming p); [|exact H]. unfold turn_end. cbv zeta. destruct a as [[n l c|n c]|]; try (apply S; [reflexivity..|exact H]). panel_fields. destruct (watching p); apply S; (reflexivity || exact H).
  - destruct (_ && _); [|exact H]. unfold onSelectFile. destruct (assoc_get name _) as [l|]; [|exact H]. destruct (last l); [|exact H]. apply S; [reflexivity..|exact H].
  - destruct (picker t isNarrow p) as [[l c]|]; [|exact H]. destruct (_ && _); [|exact H]. apply S; [reflexivity..|exact H].
  - destruct (picker t isNarrow p) as [[l []]|]; try exact H. destruct (side_shown t isNarrow p); [|exact H]. apply S; [reflexivity..|exact H].
  - destruct (full_shown isNarrow p); [|exact H]. unfold closePanel. destruct (full p); (apply S; [reflexivity..|exact H]).
  - destruct (_ && _); [|exact H]. unfold commitRename. destruct (pinned t isNarrow p); [|exact H]. apply S; [reflexivity..|exact H].
  - unfold published. destruct (publishing p !! i) as [[k h]|]; [|exact H]. cbv zeta.
    assert (D : awaits_shown (set_publishing (delete i (publishing p)) p)) by (unfold awaits_shown in *; panel_fields; by apply Forall_delete).
    destruct r as [[|x r]|]; try exact D. destruct (k =? _); exact D.
  - unfold onMessageEvent. destruct source as [w|]; [|exact H]. destruct msg as [[|x m]|]; try exact H. destruct (existsb _ _); [|exact H]. destruct (previewError p); [|exact H]. apply S; [reflexivity..|exact H].
Qed.
Lemma sync_awaits p : awaits_shown p -> awaits_shown (sync t isNarrow p).
Proof.
  intros H. unfold sync. case_bool_decide; [exact H|]. cbv zeta. assert (O : forall d, awaits_shown (p |> set_deps d |> set_run (S (run p)))).
  { intros d. unfold awaits_shown in *. panel_fields. eapply Forall_impl; [exact H|]. intros x [L _]. lia. }
  destruct (preview_deps t isNarrow p) as [[h v] s] eqn:E. cbn [fst snd]. destruct (h && v && _) eqn:B; [|apply O]. bool_norm. subst. unfold awaits_shown in *. panel_fields. apply Forall_app. split; [apply O|]. by repeat constructor.
Qed.
Lemma settle_awaits p : awaits_shown p -> awaits_shown (settle p).
Proof. intros H. unfold settle. by destruct (_ && _). Qed.
Lemma sync_deps p : deps (sync t isNarrow p) = Some (preview_deps t isNarrow (sync t isNarrow p)).
Proof. unfold sync. case_bool_decide as E; [exact E|]. cbv zeta. destruct (_ && _); reflexivity. Qed.
Lemma start_awaits msgs id names : awaits_shown (panel_start t isNarrow msgs id names).
Proof. apply sync_awaits, settle_awaits. constructor. Qed.
Lemma run_awaits es : forall p, awaits_shown p -> awaits_shown (panel_run t isNarrow es p).
Proof. induction es as [|e es IH]; intros p H; [exact H|]. apply IH. by apply sync_awaits, settle_awaits, event_awaits. Qed.
Lemma run_deps es msgs id names : let p := panel_at es msgs id names in deps p = Some (preview_deps t isNarrow p).
Proof. destruct es as [|e es] using rev_ind; [apply sync_deps|]. unfold panel_run. rewrite foldl_snoc. apply sync_deps. Qed.
Lemma event_url e p : (forall i r, e <> PaPublished i r) -> previewUrl (panel_event t isNarrow e p) = previewUrl p.
Proof.
  intros H. destruct e; cbn [panel_event]; try reflexivity;
    try (lazymatch goal with |- context [if ?b then _ else _] => destruct b; reflexivity end).
  - destruct (streaming p); [|done]. unfold turn_end. cbv zeta. destruct a as [[n l c|n c]|]; try reflexivity. panel_fields. by destruct (watching p).
  - destruct (_ && _); [|done]. unfold onSelectFile. destruct (assoc_get name _) as [l|]; [|done]. by destruct (last l).
  - destruct (picker t isNarrow p) as [[l c]|]; [|done]. by destruct (_ && _).
  - destruct (picker t isNarrow p) as [[l []]|]; try done. by destruct (side_shown t isNarrow p).
  - destruct (full_shown isNarrow p); [|done]. unfold closePanel. by destruct (full p).
  - destruct (_ && _); [|done]. unfold commitRename. by destruct (pinned t isNarrow p).
  - by destruct (H i r).
  - unfold onMessageEvent. destruct source as [w|]; [|done]. destruct msg as [[|x m]|]; try done. destruct (existsb _ _); [|done]. by destruct (previewError p).
Qed.
(** The page that the panel previews, if it previews one. *)
Definition previewed (p : Panel) : option jstr :=
  if panelIsHtml t isNarrow p && htmlPreview p && (0 <? length (panelContent p)) then Some (panelContent p) else None.
Lemma settle_url p : previewUrl (settle p) = previewUrl p.
Proof. unfold settle. by destruct (_ && _). Qed.
Lemma sync_url p : let q := sync t isNarrow p in previewed q = previewed p /\
  (previewUrl q = previewUrl p \/ previewUrl q = [] /\ previewed q = None).
Proof.
  cbv zeta. unfold sync. case_bool_decide; [by split; [|left]|]. cbv zeta. destruct (_ && _ && _) eqn:E; [by split; [|left]|].
  split; [done|]. right. split; [done|]. unfold preview_deps in E. cbn [fst snd] in E. unfold previewed.
  change (panelIsHtml t isNarrow (set_previewUrl _ _)) with (panelIsHtml t isNarrow p). unfold panelIsHtml in *. panel_fields.
  match goal with |- (if ?b then _ else _) = _ => change b with (panelIsHtml t isNarrow p && htmlPreview p && (0 <? length (panelContent p))) end.
  unfold panelIsHtml. by rewrite E.
Qed.
(** After a render the versions are those of the messages the render read. *)
Definition fixed (p : Panel) : Prop :=
  if streaming p then (settled p).1 = Some (length (messages p)) else settled p = (None, messages p).
Lemma settle_fixed p : fixed (settle p).
Proof.
  unfold settle. destruct (streaming p) eqn:S; cbn [andb]; [case_bool_decide as E|]; unfold fixed; panel_fields; by rewrite S.
Qed.
Lemma sync_fixed p : fixed p -> fixed (sync t isNarrow p).
Proof. intros H. unfold sync. case_bool_decide; [exact H|]. cbv zeta. destruct (_ && _); exact H. Qed.
Lemma fixed_settle p : fixed p -> settle p = p.
Proof.
  unfold fixed, settle. destruct (streaming p) eqn:S; cbn [andb].
  - intros E. by rewrite bool_decide_eq_true_2.
  - intros E. rewrite <- E. by destruct p.
Qed.
Lemma run_fixed es msgs id names : fixed (panel_at es msgs id names).
Proof.
  destruct es as [|e es] using rev_ind; [apply sync_fixed, settle_fixed|]. unfold panel_run. rewrite foldl_snoc. apply sync_fixed, settle_fixed.
Qed.
(** An answer to a publication changes nothing the preview is made from. *)
Lemma published_render es msgs id names i r : let p := panel_at es msgs id names in handle (PaPublished i r) p = published i r p.
Proof.
  intros p. assert (F := run_fixed es msgs id names). assert (D := run_deps es msgs id names). cbv zeta in D. fold p in F, D.
  unfold panel_handle. cbn [panel_event]. clearbody p.
  assert (K : fixed (published i r p) /\ deps (published i r p) = deps p /\ preview_deps t isNarrow (published i r p) = preview_deps t isNarrow p).
  { unfold published. destruct (publishing p !! i) as [[k h]|]; [|done]. cbv zeta. destruct r as [[|x r]|]; try by split.
    panel_fields. destruct (k =? run p); by split. }
  destruct K as (K1 & K2 & K3). rewrite fixed_settle by exact K1. unfold sync. rewrite bool_decide_eq_true_2; [done|]. by rewrite K2, K3.
Qed.


(** ** The error of a page *)

(** A message of a window that a preview was shown in, since the beginning. *)
Definition error_said (es : list PaEvent) (p : Panel) : Prop :=
  (forall w, w ∈ windows p -> PaFrame w ∈ es) /\
  (previewError p = [] \/ exists w m, PaMessage (Some w) (Some m) ∈ es /\ PaFrame w ∈ es /\ previewError p = take 300 m).
Lemma error_same p q es e : windows q = windows p -> previewError q = previewError p -> error_said es p -> error_said (es ++ [e]) q.
Proof.
  intros W E [A B]. split.
  - intros w. rewrite W. intros I. apply elem_of_app. left. by apply A.
  - rewrite E. destruct B as [B|(w & m & X & Y & Z)]; [by left|right]. exists w, m. rewrite !elem_of_app. tauto.
Qed.
Lemma error_sync es p : error_said es p -> error_said es (sync t isNarrow p).
Proof. intros H. unfold sync. case_bool_decide; [exact H|]. cbv zeta. destruct (_ && _); exact H. Qed.
Lemma error_settle es p : error_said es p -> error_said es (settle p).
Proof. intros H. unfold settle. by destruct (_ && _). Qed.
Lemma error_event es e p : error_said es p -> error_said (es ++ [e]) (panel_event t isNarrow e p).
Proof.
  intros H. assert (S := fun q => error_same p q es e). assert (K := S p eq_refl eq_refl H). destruct e; cbn [panel_event]; try (apply S; [reflexivity..|exact H]);
    try (lazymatch goal with |- context [if ?b then _ else _] => destruct b; [|exact K]; apply S; [reflexivity..|exact H] end).
  - destruct (streaming p); [|exact K]. unfold turn_end. cbv zeta. destruct a as [[n l c|n c]|]; try (apply S; [reflexivity..|exact H]). panel_fields. destruct (watching p); apply S; (reflexivity || exact H).
  - destruct (_ && _); [|exact K]. unfold onSelectFile. destruct (assoc_get name _) as [l|]; [|exact K]. destruct (last l); [|exact K]. apply S; [reflexivity..|exact H].
  - destruct (picker t isNarrow p) as [[l c]|]; [|exact K]. destruct (_ && _); [|exact K]. apply S; [reflexivity..|exact H].
  - destruct (picker t isNarrow p) as [[l []]|]; try exact K. destruct (side_shown t isNarrow p); [|exact K]. apply S; [reflexivity..|exact H].
  - destruct (full_shown isNarrow p); [|exact K]. unfold closePanel. destruct (full p); (apply S; [reflexivity..|exact H]).
  - destruct (_ && _); [|exact K]. unfold commitRename. destruct (pinned t isNarrow p); [|exact K]. apply S; [reflexivity..|exact H].
  - unfold published. destruct (publishing p !! i) as [[k h]|]; [|exact K]. cbv zeta. assert (D : error_said (es ++ [PaPublished i r]) (set_publishing (delete i (publishing p)) p)) by (apply S; [reflexivity..|exact H]).
    destruct r as [[|x r]|]; try exact D. destruct (k =? _); [|exact D]. destruct D as [D _]. split; [exact D|by left].
  - destruct (_ && _); [|exact K]. destruct K as [A B]. split; [|exact B]. panel_fields. intros x. rewrite elem_of_cons, elem_of_app. intros [->|I]; [right; by left|]. apply A in I. by rewrite elem_of_app in I.
  - unfold onMessageEvent. destruct source as [w|]; [|exact K]. destruct msg as [[|x m]|]; try exact K. destruct (existsb _ _) eqn:I; [|exact K]. destruct (previewError p); [|exact K]. destruct K as [A _]. split; [exact A|]. right. exists w, (x :: m). split; [apply elem_of_app; right; by left|]. split; [|done].
    apply A. apply existsb_exists in I as (y & Y & E). apply Nat.eqb_eq in E as ->. by apply list_elem_of_In.
Qed.
(** An error shown is what a window said that a preview was shown in, and no other, cut
    at three hundred units. *)
Theorem error_from_preview es msgs id names : let p := panel_at es msgs id names in
  length (previewError p) <= 300 /\ (previewError p = [] \/ exists w m, PaMessage (Some w) (Some m) ∈ es /\ PaFrame w ∈ es /\ previewError p = take 300 m).
Proof.
  intros p. assert (G : error_said es p).
  { unfold p. clear. induction es as [|e es IH] using rev_ind.
    - unfold panel_run, panel_start. cbn [foldl]. apply error_sync, error_settle. split; [|by left]. intros w I. by apply elem_of_nil in I.
    - unfold panel_run. rewrite foldl_snoc. by apply error_sync, error_settle, error_event. }
  destruct G as [_ G]. split; [|exact G]. destruct G as [->|(w & m & _ & _ & ->)]; [cbn; lia|]. apply firstn_le_length.
Qed.

(** ** A file chosen is shown *)

Lemma at_rest p : streaming p = false -> liveCode isNarrow p = None /\ lastFinished t isNarrow p = None /\ streamingDocActive p = false.
Proof. intros S. unfold lastFinished, liveCode, writing, streamingDocActive. by rewrite S. Qed.
Lemma closed_at_rest p : streaming p = false -> visible t isNarrow (onClose p) = false.
Proof. intros S. unfold visible, side_shown, full_shown, showLive, showLiveDoc. destruct (at_rest (onClose p) S) as (-> & -> & ->). done. Qed.
(** The choice of a version was made on an object that exists. *)
Definition choice_known (p : Panel) : Prop :=
  match (choice p).1.1 with Some id => id < objects p | None => True end /\ match artifact p with Some (id, _) => id < objects p | None => True end.
Lemma known_same p q : choice q = choice p -> objects q = objects p -> (artifact q = artifact p \/ artifact q = None) -> choice_known p -> choice_known q.
Proof. unfold choice_known. intros -> -> [->| ->] [A B]; by split. Qed.
Lemma known_open a p : choice_known p -> choice_known (open_ a p).
Proof. unfold choice_known, open_. panel_fields. intros [A _]. split; [|lia]. destruct (choice p).1.1; lia. Qed.
Lemma known_choose k c p : choice_known p -> choice_known (set_choice (chosen_object t isNarrow p, k, c) p).
Proof.
  unfold choice_known. panel_fields. cbn [fst]. intros [_ B]. split; [|exact B]. unfold chosen_object, pinned, opened. destruct (liveCode isNarrow p); [done|]. destruct (lastFinished t isNarrow p); [done|]. by destruct (artifact p) as [[id a]|].
Qed.
Lemma known_sync p : choice_known p -> choice_known (sync t isNarrow p).
Proof. intros H. unfold sync. case_bool_decide; [exact H|]. cbv zeta. destruct (_ && _); exact H. Qed.
Lemma known_settle p : choice_known p -> choice_known (settle p).
Proof. intros H. unfold settle. by destruct (_ && _). Qed.
Lemma known_event e p : choice_known p -> choice_known (panel_event t isNarrow e p).
Proof.
  intros H. assert (S := fun q => known_same p q). destruct e; cbn [panel_event]; try exact H;
    try (lazymatch goal with |- context [if ?b then _ else _] => destruct b; [|exact H]; exact H end).
  - destruct (streaming p); [|exact H]. unfold turn_end. cbv zeta. destruct a as [[n l c|n c]|]; try exact H; [exact (known_open (Code n l c) _ H)|]. panel_fields. destruct (watching p); [exact (known_open (Doc n c) _ H)|exact H].
  - apply S; [reflexivity|reflexivity|by right|exact H].
  - exact (known_open a _ H).
  - destruct (_ && _); [|exact H]. unfold onSelectFile. destruct (assoc_get name _) as [l|]; [|exact H]. destruct (last l); [|exact H]. by apply known_open.
  - destruct (picker t isNarrow p) as [[l c]|]; [|exact H]. destruct (_ && _); [|exact H]. by apply known_choose.
  - destruct (picker t isNarrow p) as [[l []]|]; try exact H. destruct (side_shown t isNarrow p); [|exact H]. by apply known_choose.
  - destruct (side_shown t isNarrow p); [|exact H]. apply S; [reflexivity|reflexivity|by right|exact H].
  - destruct (full_shown isNarrow p); [|exact H]. unfold closePanel. destruct (full p); [exact H|]. apply S; [reflexivity|reflexivity|by right|exact H].
  - destruct (_ && _); [|exact H]. unfold commitRename. by destruct (pinned t isNarrow p).
  - unfold published. destruct (publishing p !! i) as [[k h]|]; [|exact H]. cbv zeta. destruct r as [[|x r]|]; try exact H. by destruct (k =? _).
  - unfold onMessageEvent. destruct source as [w|]; [|exact H]. destruct msg as [[|x m]|]; try exact H. destruct (existsb _ _); [|exact H]. by destruct (previewError p).
Qed.
(** At rest, the tab of a file shows the last version of the file, whatever version of
    another file was being read. *)
Theorem tab_shows_last es msgs id names name : let p := panel_at es msgs id names in streaming p = false ->
  match assoc_get name (versions t p) with
  | Some vs => exists v, last vs = Some v /\ let q := onSelectFile t name p in activeFile t isNarrow q = Some name /\ panelContent q = v_content v /\ showChanges q = false
  | None => onSelectFile t name p = p
  end.
Proof.
  intros p S. assert (K : choice_known p).
  { unfold p. clear. induction es as [|e es IH] using rev_ind; [by apply known_sync, known_settle|]. unfold panel_run. rewrite foldl_snoc. by apply known_sync, known_settle, known_event. }
  clearbody p. destruct (assoc_get name (versions t p)) as [vs|] eqn:V; [|unfold onSelectFile; by rewrite V]. assert (N : vs <> []) by (by apply (fileVersions_some t (settled p).2 name vs)).
  destruct (last vs) as [v|] eqn:L; [|by apply last_None in L]. exists v. split; [done|]. unfold onSelectFile. rewrite V, L. set (q := open_ (Code name (v_lang v) (v_content v)) p). destruct (at_rest q S) as (C & F & D).
  assert (P : pinned t isNarrow q = Some (Kept (objects p) (Code name (v_lang v) (v_content v)))) by (unfold pinned; by rewrite C, F).
  assert (PV : pinnedVersions q = Some vs) by (unfold Panel.pinnedVersions, pinned_code, showLive, showLiveDoc; rewrite P, C, D, andb_false_r; exact V).
  assert (H : chosen t isNarrow q = None). { unfold chosen. rewrite P, PV. case_bool_decide as E; [|done]. destruct K as [K _]. change (choice q) with (choice p) in E. rewrite E in K. lia. }
  assert (B : exists k, versionIdx q = Some k). { unfold Panel.versionIdx. rewrite P, PV, H. cbn [pin_file a_content]. destruct (find_index _ vs) as [k|] eqn:X; [by exists k|]. apply find_index_None with (x := v) in X; [|by apply last_Some_elem_of]. by destruct (streq_spec (v_content v) (v_content v)). }
  destruct B as [k B]. split; [unfold activeFile, pinned_code; by rewrite P|]. split.
  - destruct (versionIdx_in q k B) as (ws & w & W & X & Y). rewrite PV in W. injection W as <-. rewrite Y. unfold Panel.versionIdx in B. rewrite P, PV, H in B. apply find_index_Some in B as [(z & Z & T) _]. rewrite X in Z. injection Z as <-. by apply streq_true in T.
  - unfold Panel.showChanges. by rewrite H.
Qed.
End spec.

(** ** What the panel does not do *)

#[local] Abbreviation tr := (fun s : jstr => s) (only parsing).
#[local] Abbreviation wide := (panel_run tr false) (only parsing).
Definition block (name lang body : jstr) : jstr := u "```" ++ lang ++ u " title=" ++ name ++ [LF] ++ body ++ [LF] ++ u "```" ++ [LF].
Definition wrote (s : jstr) : list ChatMsg := [plain_msg User (u "Two pages, please"); plain_msg Assistant s].
Definition page_a : Artifact := Code (u "a.html") (u "html") (u "<p>a</p>").
Definition page_b : Artifact := Code (u "b.html") (u "html") (u "<p>b</p>").
Definition two_pages : list ChatMsg := wrote (block (u "a.html") (u "html") (u "<p>a</p>") ++ block (u "b.html") (u "html") (u "<p>b</p>")).
Definition with_pages : Panel := panel_start tr false two_pages (Some (u "c")) [].
Example versions_of_both : map fst (versions tr with_pages) = [u "a.html"; u "b.html"].
Proof. vm_compute. reflexivity. Qed.
(** A page whose publication is refused is shown as the page before, under its own name. *)
Lemma preview_of_another :
  let p := wide [PaOpen page_a; PaPublished 0 (Some (u "1")); PaOpen page_b; PaPublished 0 None] with_pages in
  panelTitle tr false p = u "b.html" /\ panelIsHtml tr false p = true /\ previewUrl p = u "/playground/preview/1".
Proof. vm_compute. repeat split; reflexivity. Qed.
(** And the error of the page before is still said of it. *)
Lemma error_of_another :
  let p := wide [PaOpen page_a; PaFrame 7; PaPublished 0 (Some (u "1")); PaMessage (Some 7) (Some (u "x is not defined")); PaOpen page_b] with_pages in
  panelTitle tr false p = u "b.html" /\ previewError p = u "x is not defined".
Proof. vm_compute. split; reflexivity. Qed.
(** A name being typed for a file is given to the file whose tab is clicked meanwhile. *)
Lemma rename_follows_tab :
  let p := wide [PaOpen page_a; PaRename; PaRenameType (u "home.html"); PaTab (u "b.html"); PaRenameCommit] with_pages in
  shown_name p page_a = u "a.html" /\ shown_name p page_b = u "home.html".
Proof. vm_compute. split; reflexivity. Qed.
(** While the answer goes on after a file, the panel cannot be closed, and another file
    opened is not shown. *)
Definition one_more : Panel := wide [PaStart [plain_msg User (u "Another page")]; PaText (wrote (block (u "c.html") (u "html") (u "<p>c</p>") ++ u "And now"))] with_pages.
Lemma closed_panel_stays : side_shown tr false one_more = true /\ side_shown tr false (panel_handle tr false PaClose one_more) = true.
Proof. vm_compute. split; reflexivity. Qed.
Lemma opened_file_hidden : panelTitle tr false (panel_handle tr false (PaOpen page_a) one_more) = u "c.html".
Proof. vm_compute. reflexivity. Qed.
(** The whole screen asked for meanwhile comes at the end of the answer. *)
Lemma full_screen_late :
  let p := panel_handle tr false PaFull one_more in full_shown false p = false /\ full_shown false (panel_handle tr false (PaEnd two_pages (Some page_a)) p) = true.
Proof. vm_compute. split; reflexivity. Qed.
(** A document drafted while a page is open is taken for that page: its text is
    published and shown as one. *)
Lemma draft_shown_as_page :
  let p := wide [PaOpen page_a; PaStart [plain_msg User (u "Write a report")]; PaText [plain_msg User (u "Write a report"); plain_msg Assistant (u "# Report")]] with_pages in
  showLiveDoc p = true /\ panelIsHtml tr false p = true /\ option_map snd (last (publishing p)) = Some (u "# Report").
Proof. vm_compute. repeat split; reflexivity. Qed.
(** A file that comes back to its first text is shown as its first version. *)
Lemma last_shown_as_first :
  let once s := [plain_msg User (u "again"); plain_msg Assistant (block (u "a.html") (u "html") s)] in
  let p := wide [PaThread (once (u "<p>a</p>") ++ once (u "<p>z</p>") ++ once (u "<p>a</p>")) (Some (u "c")); PaOpen page_a] with_pages in
  match picker tr false p with Some (l, c) => l = [u "v1"; u "v2"; u "v3 (dernière)"] /\ c = false | None => False end /\ versionIdx tr false p = Some 0.
Proof. vm_compute. repeat split; reflexivity. Qed.

(** While an answer is written the versions depend on the number of the messages alone:
    another conversation opened meanwhile, with as many, keeps those of the first. *)
Lemma versions_of_other_thread :
  let p := wide [PaOpen page_a; PaStart (two_pages ++ [plain_msg User (u "More")]);
                 PaThread (repeat (plain_msg User (u "Hello")) 4) (Some (u "d"))] with_pages in
  streaming p = true /\ map fst (versions tr p) = [u "a.html"; u "b.html"] /\
  fileVersions tr (removelast (messages p)) = [].
Proof. vm_compute. repeat split; reflexivity. Qed.

Theorem tab_shows_last_witness : let p := wide [PaOpen page_a] with_pages in streaming p = false /\
  match assoc_get (u "b.html") (versions tr p) with
  | Some vs => exists v, last vs = Some v /\ let q := onSelectFile tr (u "b.html") p in activeFile tr false q = Some (u "b.html") /\ panelContent tr false q = v_content v /\ showChanges tr false q = false
  | None => onSelectFile tr (u "b.html") p = p
  end.
Proof. split; [reflexivity|]. apply (tab_shows_last tr false [PaOpen page_a] two_pages (Some (u "c")) [] (u "b.html")). reflexivity. Defined.
