(* ===== verification/FileViews.v ===== *)
(** * The files of a conversation on screen (playground/_components/FileCard.tsx, FileEdits.tsx, FilesDialog.tsx, ContextDialog.tsx)

    The card of a file, with its first lines; what the platform's tools changed in a
    turn; the list of every file with its last version, and their archive; the gauge
    of the context. *)

From S2P Require Import Prelude JsString JsInt JsRegExp JsJson JsNumber Diff Zip Parsers Thread ThreadSpec.

(** ** The card *)

Definition PREVIEW_LINES : nat := 4.
Definition nonblank (l : jstr) : bool := match trim l with [] => false | _ => true end.
(** [filter((l, k, all) => l.trim() || (k > 0 && all[k - 1].trim()))] *)
Fixpoint shown_lines (before : bool) (ls : list jstr) : list jstr :=
  match ls with [] => [] | l :: r => if nonblank l || before then l :: shown_lines (nonblank l) r else shown_lines (nonblank l) r end.
Definition preview (text : jstr) : list jstr := take PREVIEW_LINES (shown_lines false (split_lf text)).
(** What a tool changed: the lines to show, [None] where some are left out. *)
Record FileChange := mkChange { created : bool; added : nat; removed : nat; change_lines : list (option DiffLine) }.
Inductive Badge := Created | Modified | Version (n : nat).
Record CardView := mkCardView {
  cv_title : jstr; cv_badges : list Badge; cv_meta : jstr; cv_counts : option (nat * nat);
  cv_diff : option (list (option DiffLine)); cv_preview : jstr; cv_name : jstr; cv_mime : jstr
}.
Inductive FileIcon := DocumentText | GlobeAlt | CodeBracket.
Definition fileIcon (a : Artifact) : FileIcon :=
  match a with
  | Doc _ _ => DocumentText
  | Code title lang _ => if streq lang (u "html") || test (rx "\.html?$" "i") title then GlobeAlt else CodeBracket
  end.

Section views.
Context (t : jstr -> jstr).

Definition lines_said (n : nat) : jstr := replace_str (t (if 1 <? n then u "{n} lignes" else u "{n} ligne")) (u "{n}") (string_of_nat n).
Definition kind_said (a : Artifact) : jstr := match a with Code _ lang _ => lang | Doc _ _ => t (u "Document") end.
Definition file_name (a : Artifact) (title : jstr) : jstr := match a with Code _ lang _ => downloadName title lang | Doc _ _ => slugify title ++ u ".md" end.
Definition file_mime (a : Artifact) : jstr := match a with Code _ lang _ => mimeForLanguage lang | Doc _ _ => u "text/markdown" end.
Definition FileCard (a : Artifact) (title : jstr) (version : option nat) (change : option FileChange) : CardView :=
  let modified := match change with Some c => negb (created c) | None => false end in
  mkCardView title
    (match change with Some c => [if created c then Created else Modified] | None => [] end ++ match version with Some n => if 1 <? n then [Version n] else [] | None => [] end)
    (join (u " · ") [kind_said a; lines_said (length (split_lf (a_content a)))])
    (match change with Some c => if created c then None else Some (added c, removed c) | None => None end)
    (match change with Some c => if created c then None else Some (change_lines c) | None => None end)
    (let text := join [LF] (preview (a_content a)) in if modified || negb (nonblank text) then [] else text)
    (file_name a title) (file_mime a).

(** A line of the view of a change: its number ([None] for one that is not there), its
    sign and its text; [None] where some are left out. *)
Definition DiffView (lines : list (option DiffLine)) : list (option (option nat * jstr * jstr)) :=
  map (option_map (fun l =>
    (match kind l with Add => newNo l | _ => oldNo l end, match kind l with Add => u "+" | Del => u "−" | Same => u " " end, match text l with [] => u " " | s => s end))) lines.

(** ** What the tools changed *)

Definition created_lines (content : jstr) : list DiffLine := imap (fun k l => mkLine Add l None (Some (k + 1))) (split_lf content).
Definition edit_row (old : option jstr) (content : jstr) : FileChange :=
  let lines := match old with None => created_lines content | Some o => diffLines o content end in
  let stats := diffStats lines in
  mkChange (match old with None => true | Some _ => false end) stats.1 stats.2 (match old with None => map Some (take 400 lines) | Some _ => hunks lines 3 end).
Definition FileEdits (edits : list EditedFile) (before : jstr -> option jstr) (lang title : jstr -> jstr) (version : jstr -> option nat) : list CardView :=
  map (fun f => FileCard (Code (ef_name f) (lang (ef_name f)) (ef_content f)) (title (ef_name f)) (version (ef_name f)) (Some (edit_row (before (ef_name f)) (ef_content f)))) edits.

(** ** Every file of the conversation *)

Record Listed := mkListed { l_name : jstr; l_file : Artifact; l_count : nat; l_shown : jstr }.
(** [None] is the exception of a file without a version. *)
Fixpoint listed (versions : list (jstr * list FileVersion)) (title : jstr -> jstr) : option (list Listed) :=
  match versions with
  | [] => Some []
  | (name, vs) :: r => match last vs, listed r title with
                       | Some v, Some l => Some (mkListed name (Code name (v_lang v) (v_content v)) (length vs) (title name) :: l)
                       | _, _ => None
                       end
  end.
Definition listed_meta (x : Listed) : jstr :=
  join (u " · ") ([kind_said (l_file x); lines_said (length (split_lf (a_content (l_file x))))] ++ (if 1 <? l_count x then [replace_str (t (u "{n} versions")) (u "{n}") (string_of_nat (l_count x))] else [])).
Definition archive_files (l : list Listed) : list File := map (fun x => mkFile (file_name (l_file x) (l_shown x)) (a_content (l_file x))) l.
Definition downloadAll (l : list Listed) (archiveName : jstr) (now : Date) : jstr * list Z :=
  (match slugify archiveName with [] => u "fichiers" | s => s end ++ u ".zip", zipFiles (archive_files l) now).
Definition dialog_subtitle (l : list Listed) : jstr :=
  replace_str (t (if 1 <? length l then u "{n} fichiers dans cette conversation" else u "{n} fichier dans cette conversation")) (u "{n}") (string_of_nat (length l)).
End views.

(** ** The gauge of the context *)

Definition IMAGE_WEIGHT_CHARS : nat := 1500 * 4.
(** [Math.round(n / 4)] *)
Definition quarter (n : nat) : nat := (n + 2) / 4.
Definition contentChars (input : jstr) (messages : list ChatMsg) (attachments : list (bool * jstr)) : nat :=
  length input + sum_list (map (fun m => length (content m)) messages)
  + sum_list (map (fun a : bool * jstr => if a.1 then IMAGE_WEIGHT_CHARS else length a.2) attachments)
  + sum_list (map (fun m => length (images m) * IMAGE_WEIGHT_CHARS) messages).
Inductive CtxLevel := Accent | Warning | Error.
Record Gauge := mkGauge { g_used : num; g_max : num; g_in : num; g_out : num; g_sysPct : option Z; g_msgPct : option Z; g_level : CtxLevel }.
(** [limit] is the model's window when it is known, [ctxUsed] and [io] what the last
    answer measured. *)
Definition context_gauge (limit : option num) (ctxUsed : num) (io : option (num * num)) (system : nat) (chars : nat) : Gauge :=
  let whole n := num_of_Z (Z.of_nat n) in
  let max := match limit with Some (S754_zero _ | S754_nan) | None => num_of_Z 32768 | Some x => x end in
  let used := nmax ctxUsed (whole (quarter (system + chars))) in
  let total := Nat.max 1 (quarter system + quarter chars) in
  let sys := math_round (nmul (ndiv (whole (quarter system)) (whole total)) (num_of_Z 100)) in
  mkGauge used max (match io with Some (i, _) => i | None => whole (quarter (system + chars)) end) (match io with Some (_, o) => o | None => num_of_Z 0 end)
    sys (Z.sub 100 <$> sys)
    (let part := ndiv used max in if nle (num_of_decimal 95 (-2)) part then Error else if nle (num_of_decimal 8 (-1)) part then Warning else Accent).

(** ** The preview of a card *)

Lemma shown_sublist before ls : shown_lines before ls `sublist_of` ls.
Proof. revert before. induction ls as [|l ls IH]; intros before; [done|]. cbn [shown_lines]. destruct (_ || _); [by apply sublist_skip|by apply sublist_cons]. Qed.
Lemma shown_head ls l r : shown_lines false ls = l :: r -> nonblank l = true.
Proof.
  induction ls as [|x ls IH]; [done|]. cbn [shown_lines]. rewrite orb_false_r. destruct (nonblank x) eqn:B; [by intros [= -> _]|done].
Qed.
Lemma shown_apart ls : forall before k a b, shown_lines before ls !! k = Some a -> shown_lines before ls !! S k = Some b -> nonblank a = true \/ nonblank b = true.
Proof.
  induction ls as [|x ls IH]; intros before k a b; [done|]. cbn [shown_lines]. destruct (nonblank x || before); [|apply IH]. destruct k as [|k]; [|apply IH]. cbn. intros [= ->] B.
  destruct (nonblank a) eqn:N; [by left|right]. destruct (shown_lines false ls) as [|y r] eqn:Y; [done|]. injection B as ->. by apply (shown_head ls b r).
Qed.
Lemma shown_some ls : forall before, existsb nonblank ls = true -> shown_lines before ls <> [].
Proof. induction ls as [|x ls IH]; intros before; [done|]. cbn [existsb shown_lines]. destruct (nonblank x); [done|]. cbn [orb]. intros H. destruct before; [done|by apply IH]. Qed.
(** The preview is four lines at most, of the file and in its order; it begins with a
    line that has text and never shows two blank ones in a row; it is empty only for a
    file that is. *)
Theorem preview_readable s : length (preview s) <= 4 /\ preview s `sublist_of` split_lf s /\
  (forall l r, preview s = l :: r -> nonblank l = true) /\ (forall k a b, preview s !! k = Some a -> preview s !! S k = Some b -> nonblank a = true \/ nonblank b = true) /\
  (preview s = [] <-> existsb nonblank (split_lf s) = false).
Proof.
  unfold preview, PREVIEW_LINES. set (ls := shown_lines false (split_lf s)). assert (T : take 4 ls `sublist_of` ls) by (rewrite <- (take_drop 4 ls) at 2; by apply sublist_inserts_r).
  split; [rewrite length_take; lia|]. split; [by etrans; [exact T|apply shown_sublist]|]. split; [|split].
  - intros l r E. destruct ls as [|x l'] eqn:L; [done|]. injection E as -> _. by apply (shown_head (split_lf s) l l').
  - intros k a b A B. apply lookup_take_Some in A as [A _], B as [B _]. by apply (shown_apart (split_lf s) false k).
  - split.
    + intros E. destruct (existsb nonblank (split_lf s)) eqn:X; [|done]. exfalso. apply (shown_some (split_lf s) false X). fold ls. by destruct ls.
    + intros X. unfold ls. assert (G : forall l, existsb nonblank l = false -> shown_lines false l = []); [|by rewrite G]. clear. induction l as [|x l IH]; [done|]. cbn [existsb shown_lines]. rewrite orb_false_iff. intros [-> H]. by apply IH.
Qed.

(** ** The counts of a change *)

Lemma created_counts s : diffStats (created_lines s) = (length (split_lf s), 0).
Proof.
  unfold diffStats, created_lines. rewrite diffStats_spec. generalize (split_lf s). intros ls. assert (G : forall (g : nat -> jstr -> DiffLine), (forall k l, kind (g k l) = Add) -> length (filter (fun x => kind x = Add) (imap g ls)) = length ls /\ length (filter (fun x => kind x = Del) (imap g ls)) = 0).
  { induction ls as [|l ls IH]; intros g K; [done|]. cbn [imap]. rewrite filter_cons_True by apply K. rewrite filter_cons_False by (rewrite K; done). cbn [length]. destruct (IH (g ∘ S)) as [-> ->]; [intros; apply K|done]. }
  destruct (G (fun k l => mkLine Add l None (Some (k + 1)))) as [-> ->]; done.
Qed.
(** What a card says was added and removed: all of a new file and nothing else, and
    for a file that was there what makes its lines before those after. *)
Theorem edit_counts old content : let c := edit_row old content in
  match old with
  | None => created c = true /\ added c = length (split_lf content) /\ removed c = 0
  | Some o => created c = false /\ length (split_lf o) + added c = length (split_lf content) + removed c /\ added c + removed c <= length (diffLines o content)
  end.
Proof.
  destruct old as [o|]; cbn [edit_row created added removed].
  - split; [done|]. assert (B := diffStats_balance o content). destruct (diffStats (diffLines o content)) as [a r]. cbn [fst snd]. lia.
  - rewrite created_counts. done.
Qed.
(** Every line shown of a change has its number. *)
Lemma numbers_shown lines : Forall line_ok lines -> Forall (fun x => match x with Some (n, _, _) => is_Some n | None => True end) (DiffView (map Some lines)).
Proof.
  unfold DiffView. induction 1 as [|l ls O _ IH]; [constructor|]. cbn [map]. constructor; [|exact IH]. cbn [option_map]. unfold line_ok in O. destruct (kind l); destruct O as [? ?]; try done.
Qed.

(** ** The list and the archive *)

Lemma fold_nodup {B} (f : list (jstr * list FileVersion) -> B -> list (jstr * list FileVersion)) l : (forall out x, NoDup (map fst out) -> NoDup (map fst (f out x))) ->
  forall out, NoDup (map fst out) -> NoDup (map fst (foldl f out l)).
Proof. intros H. induction l as [|x l IH]; intros out N; [exact N|]. cbn [foldl]. by apply IH, H. Qed.
Lemma fileVersions_nodup t msgs : NoDup (map fst (fileVersions t msgs)).
Proof.
  unfold fileVersions. apply fold_nodup; [|constructor]. intros out s. unfold observe. apply fold_nodup. intros o kf N. unfold add_version. destruct (bool_decide _); [exact N|]. by apply assoc_set_nodup.
Qed.
Lemma listed_spec vs title : (forall n l, (n, l) ∈ vs -> l <> []) -> exists l, listed vs title = Some l /\ map l_name l = map fst vs /\
  forall x, x ∈ l <-> exists n h v, (n, h) ∈ vs /\ last h = Some v /\ x = mkListed n (Code n (v_lang v) (v_content v)) (length h) (title n).
Proof.
  induction vs as [|[n h] vs IH]; intros H; cbn [listed].
  - exists []. split; [done|]. split; [done|]. intros x. split; [by intros I%elem_of_nil|]. by intros (? & ? & ? & I%elem_of_nil & _).
  - destruct (IH ltac:(intros m k I; apply (H m k); by right)) as (l & -> & N & S). destruct (last h) as [v|] eqn:L; [|apply last_None in L; exfalso; apply (H n h); [by left|done]].
    eexists. split; [done|]. split; [cbn; by rewrite N|]. intros x. rewrite elem_of_cons, S. split.
    + intros [->|(m & k & w & I & W & ->)]; [exists n, h, v; split; [by left|done]|]. exists m, k, w. split; [by right|done].
    + intros (m & k & w & I & W & ->). rewrite elem_of_cons in I. destruct I as [[= -> ->]|I]; [left; rewrite L in W; by injection W as ->|right]. by exists m, k, w.
Qed.
(** C12: Every file the conversation has is in the list, once, and no other; its text there
    and in the archive is the one it has after the last message. *)
Theorem archive_is_current t msgs title : let present := filesUntil t msgs (Z.of_nat (length msgs) - 1) in
  exists l, listed (fileVersions t msgs) title = Some l /\ NoDup (map l_name l) /\
    (forall x, x ∈ l -> exists f, assoc_get (l_name x) present = Some f /\ a_content (l_file x) = fs_content f) /\
    (forall name f, assoc_get name present = Some f -> exists x, x ∈ l /\ l_name x = name /\ In (mkFile (file_name (l_file x) (title name)) (fs_content f)) (archive_files l)).
Proof.
  intros present. assert (N := fileVersions_nodup t msgs). assert (H := fun n => fileVersions_history t msgs n). cbv zeta in H. fold present in H.
  assert (E : forall n h, (n, h) ∈ fileVersions t msgs -> exists f v, assoc_get n present = Some f /\ last h = Some v /\ v_content v = fs_content f).
  { intros n h I. apply (assoc_get_elem n h _ N) in I. specialize (H n). destruct (assoc_get n present) as [f|]; [|congruence]. destruct H as (vs & V & (L & _)). rewrite I in V. injection V as <-. destruct (last h) as [v|]; [|done]. injection L as L. by exists f, v. }
  destruct (listed_spec (fileVersions t msgs) title) as (l & L & M & S); [intros n h I ->; by destruct (E n [] I) as (f & v & _ & X & _)|].
  exists l. split; [exact L|]. split; [by rewrite M|]. split.
  - intros x I. apply S in I as (n & h & v & I & V & ->). destruct (E n h I) as (f & w & F & W & X). rewrite V in W. injection W as <-. by exists f.
  - intros name f F. specialize (H name). rewrite F in H. destruct H as (vs & V & (K & _)). apply (assoc_get_elem _ _ _ N) in V. destruct (last vs) as [v|] eqn:Z; [|done]. injection K as K.
    assert (X : mkListed name (Code name (v_lang v) (v_content v)) (length vs) (title name) ∈ l) by (apply S; by exists name, vs, v). eexists. split; [exact X|]. split; [done|].
    unfold archive_files. apply in_map_iff. eexists. split; [|apply list_elem_of_In; exact X]. cbn. by rewrite K.
Qed.

(** ** Examples, and what the archive does not do *)

(** Two files renamed alike are two entries of one name in the archive. *)
Lemma same_name_in_archive :
  match listed [(u "a.py", [mkVersion 1 (u "1") (u "python")]); (u "b.py", [mkVersion 1 (u "2") (u "python")])] (fun _ => u "main.py") with
  | Some l => archive_files l = [mkFile (u "main.py") (u "1"); mkFile (u "main.py") (u "2")]
  | None => False
  end.
Proof. vm_compute. reflexivity. Qed.
Example card_of_a_file : let c := FileCard (fun s => s) (Code (u "a.py") (u "python") (u "

x = 1


y = 2")) (u "a.py") (Some 2) None in
  cv_preview c = u "x = 1

y = 2" /\ cv_meta c = u "python · 6 lignes" /\ cv_badges c = [Version 2].
Proof. vm_compute. repeat split; reflexivity. Qed.
Example gauge_levels : map (fun z => g_level (context_gauge (Some (num_of_Z 100)) (num_of_Z z) None 0 0)) [79; 80; 94; 95]%Z = [Accent; Warning; Warning; Error].
Proof. vm_compute. reflexivity. Qed.
Example gauge_parts : let g := context_gauge None (num_of_Z 0) None 400 1200 in (g_sysPct g, g_msgPct g) = (Some 25, Some 75)%Z.
Proof. vm_compute. reflexivity. Qed.
