(* ===== verification/PlaygroundSettings.v ===== *)
(** * The settings panel of the playground (playground/_components/SettingsPanel.tsx, SettingsOverlay.tsx)

    The panel under the gear: where it is put, what opens and closes it, the personas
    and the other settings.  A click is a press and then, on the gear, its handler. *)

From S2P Require Import Prelude JsString JsInt JsJson JsNumber Api Preferences.
Local Open Scope flow_scope.

Record Persona := mkPersona { pe_id : jstr; pe_label : jstr; pe_prompt : jstr }.
Definition PERSONAS : list Persona := [
  mkPersona (u "code") (u "Code") (u "You are a senior software engineer. Produce complete, runnable, idiomatic code. Prefer whole files over snippets and never elide parts of a file.");
  mkPersona (u "redacteur") (u "Rédacteur") (u "You are a careful writer. Be clear, structured, and concise. Favour short paragraphs and useful headings.");
  mkPersona (u "traducteur") (u "Traducteur") (u "You are a professional translator. Preserve meaning, tone, and formatting; output only the target language.");
  mkPersona (u "analyste") (u "Analyste") (u "You reason step by step and back your claims. Point out assumptions and edge cases.");
  mkPersona (u "socratic") (u "Socratique") (u "Instead of answering directly, ask guiding questions one at a time so the user reaches the answer themselves.")].
Definition CUSTOM : jstr := u "__custom__".

(** ** The settings *)

Definition personaActive (s : Settings) : option Persona := find (fun p => streq (pe_prompt p) (system s)) PERSONAS.
Definition personaValue (s : Settings) : jstr := match personaActive s with Some p => pe_id p | None => match system s with [] => [] | _ => CUSTOM end end.
(** The options of the personas: value, label, and whether it cannot be picked. *)
Definition options (t : jstr -> jstr) (s : Settings) : list (jstr * jstr * bool) :=
  ([], t (u "Aucun — conversation à nu"), false) :: map (fun p => (pe_id p, t (pe_label p), false)) PERSONAS
  ++ (if streq (personaValue s) CUSTOM then [(CUSTOM, t (u "Personnalisé"), true)] else []).
Definition with_system (v : jstr) (s : Settings) : Settings := mkSettings v (temperature s) (maxTokens s) (topP s) (reasoning_ s) (reasoningEffort s).
Definition choosePersona (v : jstr) (x : Settings * Provenance) : Settings * Provenance :=
  match find (fun p => streq (pe_id p) v) PERSONAS with
  | Some p => (with_system (pe_prompt p) x.1, FromPersona)
  | None => (with_system [] x.1, Manual)
  end.
Definition typeSystem (v : jstr) (x : Settings * Provenance) : Settings * Provenance := (with_system v x.1, Manual).
Definition from_skill_said (x : Settings * Provenance) : bool := match x.2, system x.1 with FromSkill, _ :: _ => true | _, _ => false end.
Definition ceiling (context : option num) : num := match context with Some c => if nlt (num_of_Z 0) c then c else num_of_Z 131072 | None => num_of_Z 131072 end.
(** The value of the slider of the tokens. *)
Definition shown_tokens (context : option num) (s : Settings) : num :=
  nmin (match maxTokens s with JNum m e => num_of_decimal m e | _ => S754_nan end) (ceiling context).
Definition reasoningValue (s : Settings) : jstr := match reasoning_ s with RTrue => u "on" | RFalse => u "off" | RAuto => u "auto" end.
Definition chooseReasoning (v : jstr) (s : Settings) : Settings :=
  mkSettings (system s) (temperature s) (maxTokens s) (topP s) (if streq v (u "on") then RTrue else if streq v (u "off") then RFalse else RAuto) (reasoningEffort s).
Definition effortValue (s : Settings) : jstr := match reasoningEffort s with [] => u "default" | e => e end.
Definition chooseEffort (v : jstr) (s : Settings) : Settings :=
  mkSettings (system s) (temperature s) (maxTokens s) (topP s) (reasoning_ s) (if streq v (u "default") then [] else v).
Inductive Slider := Temperature | MaxTokens | TopP.
Definition slide (k : Slider) (v : json) (s : Settings) : Settings :=
  match k with
  | Temperature => mkSettings (system s) v (maxTokens s) (topP s) (reasoning_ s) (reasoningEffort s)
  | MaxTokens => mkSettings (system s) (temperature s) v (topP s) (reasoning_ s) (reasoningEffort s)
  | TopP => mkSettings (system s) (temperature s) (maxTokens s) v (reasoning_ s) (reasoningEffort s)
  end.

(** ** Where the panel is *)

Definition SETTINGS_PANEL_WIDTH : Z := 480.
Definition SETTINGS_PANEL_MARGIN : Z := 8.
(** Lengths are in pixels, from the window's edges; the arithmetic does not depend on
    the unit. *)
Record Place := mkPlace { pl_top : Z; pl_right : Z; pl_maxH : Z; pl_width : Z }.
Definition place (rightEdge bottom innerWidth innerHeight : Z) : Place :=
  let width := Z.min SETTINGS_PANEL_WIDTH (innerWidth - 2 * SETTINGS_PANEL_MARGIN) in
  mkPlace (bottom + 8) (Z.max SETTINGS_PANEL_MARGIN (Z.min (innerWidth - rightEdge) (innerWidth - width - SETTINGS_PANEL_MARGIN))) (innerHeight - bottom - 48) width.

Record Overlay := mkOverlay { isOpen : bool; pos : option Place; chosen : Settings * Provenance }.
Inductive Target := InPanel | OnGear | Elsewhere.
Inductive OvEvent :=
| OvPress (x : Target) | OvGear (rightEdge bottom innerWidth innerHeight : Z) | OvEscape | OvClose
| OvPersona (v : jstr) | OvSystem (v : jstr) | OvSlide (k : Slider) (v : json) | OvReasoning (v : jstr) | OvEffort (v : jstr).
Definition toggleSettings (r b w h : Z) (o : Overlay) : Overlay :=
  mkOverlay (negb (isOpen o)) (if isOpen o then pos o else Some (place r b w h)) (chosen o).
Definition close (o : Overlay) : Overlay := mkOverlay false (pos o) (chosen o).
Definition shown (o : Overlay) : bool := isOpen o && match pos o with Some _ => true | None => false end.
Definition in_panel (f : Settings * Provenance -> Settings * Provenance) (o : Overlay) : Overlay := if shown o then mkOverlay (isOpen o) (pos o) (f (chosen o)) else o.
Definition overlay_handle (e : OvEvent) (o : Overlay) : Overlay :=
  match e with
  | OvPress x => if isOpen o then match x with InPanel => o | _ => close o end else o
  | OvGear r b w h => toggleSettings r b w h o
  | OvEscape => if isOpen o then close o else o
  | OvClose => if shown o then close o else o
  | OvPersona v => in_panel (choosePersona v) o
  | OvSystem v => in_panel (typeSystem v) o
  | OvSlide k v => in_panel (fun x => (slide k v x.1, x.2)) o
  | OvReasoning v => in_panel (fun x => (chooseReasoning v x.1, x.2)) o
  | OvEffort v => in_panel (fun x => (chooseEffort v x.1, x.2)) o
  end.
Definition overlay_run (es : list OvEvent) (o : Overlay) : Overlay := foldl (fun o e => overlay_handle e o) o es.
Definition overlay_start (x : Settings * Provenance) : Overlay := mkOverlay false None x.

(** ** The panel is in the window *)

(** However narrow the window and wherever the gear, both sides of the panel are in the
    window, eight pixels from its edges at least, and it is never wider than asked. *)
Theorem settings_on_screen r b w h : (2 * SETTINGS_PANEL_MARGIN <= w)%Z -> let p := place r b w h in
  (0 <= pl_width p <= SETTINGS_PANEL_WIDTH /\ SETTINGS_PANEL_MARGIN <= pl_right p /\ SETTINGS_PANEL_MARGIN <= w - pl_right p - pl_width p)%Z /\
  ((pl_width p <= r - SETTINGS_PANEL_MARGIN)%Z -> (r <= w - SETTINGS_PANEL_MARGIN)%Z -> pl_right p = (w - r)%Z).
Proof. unfold place, SETTINGS_PANEL_MARGIN, SETTINGS_PANEL_WIDTH. cbn [pl_width pl_right]. lia. Qed.

(** ** What the panel says is what will be sent *)

Lemma persona_spec v p : find (fun p => streq (pe_id p) v) PERSONAS = Some p -> pe_id p = v /\ find (fun q => streq (pe_prompt q) (pe_prompt p)) PERSONAS = Some p /\ pe_prompt p <> [].
Proof.
  intros F. apply find_some in F as [I E]. apply streq_true in E. split; [exact E|]. clear E. assert (G : Forall (fun p => find (fun q => streq (pe_prompt q) (pe_prompt p)) PERSONAS = Some p /\ pe_prompt p <> []) PERSONAS).
  { apply List.Forall_forall. intros q Q. repeat (destruct Q as [<-|Q]; [split; [vm_compute; reflexivity|done]|]). destruct Q. }
  rewrite List.Forall_forall in G. by apply G.
Qed.
(** The persona chosen is the one shown, with its prompt; none is shown for an option
    that is not a persona, and the prompt is empty. *)
Theorem persona_shown v x : let y := choosePersona v x in
  match find (fun p => streq (pe_id p) v) PERSONAS with
  | Some p => personaValue y.1 = v /\ system y.1 = pe_prompt p /\ y.2 = FromPersona
  | None => personaValue y.1 = [] /\ system y.1 = [] /\ y.2 = Manual
  end.
Proof.
  unfold choosePersona. destruct (find _ PERSONAS) as [p|] eqn:F; [|vm_compute; repeat split; reflexivity]. destruct (persona_spec v p F) as (E & G & N). cbn [fst snd with_system system]. split; [|done]. unfold personaValue, personaActive. cbn [system with_system]. by rewrite G.
Qed.
(** A prompt said to come from a persona is a persona's. *)
Definition provenance_true (x : Settings * Provenance) : Prop := x.2 = FromPersona -> exists p, In p PERSONAS /\ system x.1 = pe_prompt p.
Lemma provenance_step e o : provenance_true (chosen o) -> provenance_true (chosen (overlay_handle e o)).
Proof.
  intros H. assert (P : forall f, provenance_true (f (chosen o)) -> provenance_true (chosen (in_panel f o))) by (intros f F; unfold in_panel; destruct (shown o); [exact F|exact H]).
  destruct e as [[]| | | | | |[]| |]; cbn [overlay_handle]; try exact H; try (destruct (isOpen o); exact H); try (apply P; exact H).
  - destruct (shown o); exact H.
  - apply P. unfold choosePersona. destruct (find _ PERSONAS) as [p|] eqn:F; [|done]. intros _. exists p. apply find_some in F as [I _]. by split.
  - apply P. done.
Qed.
Theorem provenance_kept es x : provenance_true x -> provenance_true (chosen (overlay_run es (overlay_start x))).
Proof.
  intros H. assert (G : forall es o, provenance_true (chosen o) -> provenance_true (chosen (overlay_run es o))); [|by apply G]. clear. induction es as [|e es IH]; intros o H; [exact H|]. by apply IH, provenance_step.
Qed.
(** The choices of the reasoning are shown as they were made. *)
Lemma choices_shown s : Forall (fun v => reasoningValue (chooseReasoning v s) = v) [u "auto"; u "on"; u "off"] /\
  Forall (fun v => effortValue (chooseEffort v s) = v) [u "default"; u "low"; u "medium"; u "xhigh"].
Proof. split; repeat (constructor; [reflexivity|]); constructor. Qed.

(** ** What the gear does not do *)

(** The press on the gear closes the panel, and its click opens it again: the gear
    never closes it. *)
Lemma gear_never_closes r b w h o : isOpen o = true -> isOpen (overlay_run [OvPress OnGear; OvGear r b w h] o) = true.
Proof. intros H. unfold overlay_run. cbn [foldl overlay_handle]. by rewrite H. Qed.
Example gear_on_a_phone : place 250 60 390 800 = mkPlace 68 8 692 374.
Proof. reflexivity. Qed.
Example custom_prompt_said : map (fun o => o.2) (options (fun s => s) (typeSystem (u "Be brief") (DEFAULT_SETTINGS, Manual)).1) = [false; false; false; false; false; false; true].
Proof. vm_compute. reflexivity. Qed.

Theorem settings_on_screen_witness : let p := place 250 60 390 800 in
  (0 <= pl_width p <= SETTINGS_PANEL_WIDTH /\ SETTINGS_PANEL_MARGIN <= pl_right p /\ SETTINGS_PANEL_MARGIN <= 390 - pl_right p - pl_width p)%Z.
Proof. apply (settings_on_screen 250 60 390 800). unfold SETTINGS_PANEL_MARGIN. lia. Defined.
Theorem provenance_kept_witness : provenance_true (chosen (overlay_run [OvGear 250 60 390 800; OvPersona (u "code")] (overlay_start (DEFAULT_SETTINGS, Manual)))).
Proof. apply provenance_kept. done. Defined.
