(* ===== verification/Dictation.v ===== *)
(** * Voice dictation (lib/useDictation.ts)

    The hook's state and its handlers as steps: the microphone, the polling
    interval and the requests in flight answer as events, in any order. *)

From S2P Require Import JsString.

(** A transcription in flight: the [run] it was sent in, and whether it is the
    final pass. *)
Record Flight := mkFlight { fl_run : nat; fl_final : bool }.
Record Dict := mkDict {
  value : jstr;                      (* the field; [valueRef] mirrors it *)
  isRecording : bool; transcribing : nat; (* final passes under way *)
  error : option jstr; mic : bool;        (* [stream] and the recorder *)
  base : jstr; busy : bool; run_ : nat;
  interval : option nat;                  (* the polling interval and its [run] *)
  flights : list Flight
}.
Definition dict_start (v : jstr) : Dict := mkDict v false 0 None false [] false 0 None [].
(** [isTranscribing]: the last [finally] clears it. *)
Definition isTranscribing (d : Dict) : bool := 0 <? transcribing d.

Inductive Answer := Failed | Answered (ok : bool) (text : option jstr) (err : option jstr).
Inductive DictEvent :=
| Type_ (v : jstr)              (* the user edits the field *)
| Started | MicRefused          (* [toggle] while not recording: how [startRecording] ended *)
| Stopped                       (* [toggle] while recording *)
| Poll (snapshot : bool)        (* the interval; whether there is something to send *)
| Reply (k : nat) (a : Answer)  (* the [k]-th request in flight *)
| Cancel.

(** The dictated part of the field, rewritten. *)
Definition written (base spoken : jstr) : jstr :=
  match spoken with
  | [] => base
  | _ => match base with [] => spoken | _ => trim_end base ++ u " " ++ spoken end
  end.
(** [transcribe], once the reply is there. *)
Definition transcribed (r : nat) (a : Answer) (d : Dict) : Dict :=
  match a with
  | Failed => d
  | Answered ok text err =>
      if negb (r =? run_ d) then d
      else match ok, text with
           | true, Some s => mkDict (written (base d) (trim s)) (isRecording d) (transcribing d) (error d) (mic d) (base d) (busy d) (run_ d) (interval d) (flights d)
           | _, _ => mkDict (value d) (isRecording d) (transcribing d) (match err with Some (c :: e) => Some (c :: e) | _ => None end) (mic d) (base d) (busy d) (run_ d) (interval d) (flights d)
           end
  end.

Definition landed (k : nat) (d : Dict) : Dict :=
  mkDict (value d) (isRecording d) (transcribing d) (error d) (mic d) (base d) (busy d) (run_ d) (interval d)
    (take k (flights d) ++ drop (S k) (flights d)).
(** The [finally] of a pass; a failed final pass is an empty error. *)
Definition finished (f : Flight) (a : Answer) (d : Dict) : Dict :=
  if fl_final f
  then mkDict (value d) (isRecording d) (transcribing d - 1) (match a with Failed => Some [] | _ => error d end) (mic d) (base d) (busy d) (run_ d) (interval d) (flights d)
  else mkDict (value d) (isRecording d) (transcribing d) (error d) (mic d) (base d) false (run_ d) (interval d) (flights d).

Definition dict_step (d : Dict) (e : DictEvent) : Dict :=
  match e with
  | Type_ v => mkDict v (isRecording d) (transcribing d) (error d) (mic d) (base d) (busy d) (run_ d) (interval d) (flights d)
  | Started =>
      if isRecording d then d
      else mkDict (value d) true (transcribing d) None true (value d) (busy d) (run_ d) (Some (run_ d)) (flights d)
  | MicRefused =>
      if isRecording d then d
      else mkDict (value d) false (transcribing d) (Some (u "mic")) (mic d) (base d) (busy d) (run_ d) (interval d) (flights d)
  | Stopped =>
      if negb (isRecording d) then d
      else if negb (mic d) then mkDict (value d) false (transcribing d) None false (base d) (busy d) (run_ d) None (flights d)
      else mkDict (value d) false (S (transcribing d)) None false (base d) (busy d) (run_ d) None (flights d ++ [mkFlight (run_ d) true])
  | Poll snapshot =>
      match interval d with
      | None => d
      | Some r =>
          if busy d || negb (r =? run_ d) || negb (mic d) || negb snapshot then d
          else mkDict (value d) (isRecording d) (transcribing d) (error d) (mic d) (base d) true (run_ d) (interval d) (flights d ++ [mkFlight r false])
      end
  | Reply k a =>
      match flights d !! k with
      | None => d
      | Some f => finished f a (transcribed (fl_run f) a (landed k d))
      end
  | Cancel => mkDict (value d) false 0 (error d) false (base d) (busy d) (S (run_ d)) None (flights d)
  end.
Definition dict_run (d : Dict) (es : list DictEvent) : Dict := foldl dict_step d es.

(** ** What is written *)

Definition partials (d : Dict) : nat := length (filter (fun f => fl_final f = false) (flights d)).
Record dict_ok (d : Dict) : Prop := mkOk {
  ok_runs : Forall (fun f => fl_run f <= run_ d) (flights d);
  ok_busy : partials d = if busy d then 1 else 0;
  ok_interval : match interval d with Some r => isRecording d = true /\ r = run_ d | None => isRecording d = false end
}.

Lemma finished_fields f a d : value (finished f a d) = value d /\ run_ (finished f a d) = run_ d /\ flights (finished f a d) = flights d /\
  interval (finished f a d) = interval d /\ isRecording (finished f a d) = isRecording d /\
  busy (finished f a d) = fl_final f && busy d.
Proof. unfold finished. by destruct (fl_final f). Qed.
Lemma transcribed_fields r a d : run_ (transcribed r a d) = run_ d /\ flights (transcribed r a d) = flights d /\
  interval (transcribed r a d) = interval d /\ isRecording (transcribed r a d) = isRecording d /\ busy (transcribed r a d) = busy d /\
  base (transcribed r a d) = base d.
Proof. unfold transcribed. repeat case_match; done. Qed.
Lemma filter_take_drop {A} (P : A -> Prop) `{!forall x, Decision (P x)} (l : list A) k x : l !! k = Some x ->
  length (filter P l) = (if decide (P x) then 1 else 0) + length (filter P (take k l ++ drop (S k) l)).
Proof.
  intros Hk. rewrite <- (take_drop_middle l k x Hk) at 1. rewrite !filter_app, filter_cons, !length_app.
  case_decide; cbn [length]; lia.
Qed.

Lemma partials_send r b l : length (filter (fun f => fl_final f = false) (l ++ [mkFlight r b]))
  = length (filter (fun f => fl_final f = false) l) + if b then 0 else 1.
Proof. rewrite filter_app, length_app. by destruct b. Qed.

Lemma dict_step_ok d e : dict_ok d -> dict_ok (dict_step d e).
Proof.
  intros [H1 H2 H3]. destruct e as [v| | | |s|k a|]; cbn [dict_step].
  - by split.
  - destruct (isRecording d) eqn:E; [by split; rewrite ?E|]. split; [exact H1|exact H2|done].
  - destruct (isRecording d) eqn:E; [by split; rewrite ?E|]. split; [exact H1|exact H2|]. cbn. destruct (interval d); [destruct H3; congruence|done].
  - destruct (isRecording d) eqn:E; cbn [negb]; [|by split; rewrite ?E]. destruct (mic d); cbn [negb]; [|by split].
    split; cbn [flights run_ interval isRecording busy]; [|unfold partials in *; cbn [flights]; rewrite partials_send; lia|done].
    apply Forall_app. split; [done|]. by repeat constructor.
  - destruct (interval d) as [r|] eqn:E; [|split; rewrite ?E; done].
    destruct (busy d) eqn:Eb; cbn [orb]; [split; rewrite ?E, ?Eb; done|].
    destruct (Nat.eqb_spec r (run_ d)) as [->|]; cbn [negb orb]; [|split; rewrite ?E, ?Eb; done].
    destruct (_ || _); [split; rewrite ?E, ?Eb; done|].
    split; cbn [flights run_ interval isRecording busy]; [|unfold partials in *; cbn [flights]; rewrite partials_send; lia|rewrite ?E; exact H3].
    apply Forall_app. split; [done|]. by repeat constructor.
  - destruct (flights d !! k) as [f|] eqn:E; [|by split].
    destruct (finished_fields f a (transcribed (fl_run f) a (landed k d))) as (_ & F2 & F3 & F4 & F5 & F6).
    destruct (transcribed_fields (fl_run f) a (landed k d)) as (T1 & T2 & T3 & T4 & T5 & _).
    split.
    + rewrite F2, F3, T1, T2. cbn. apply Forall_app. split; [by apply Forall_take|by apply Forall_drop].
    + unfold partials in *. rewrite F3, T2, F6, T5. cbn [flights landed busy]. rewrite (filter_take_drop _ _ _ _ E) in H2.
      destruct (fl_final f); cbn [andb]; case_decide; try done; destruct (busy d); lia.
    + rewrite F2, F4, F5, T1, T3, T4. exact H3.
  - split; cbn [flights run_ interval isRecording busy]; [|exact H2|done]. eapply Forall_impl; [exact H1|]. intros f Hf. cbn beta in *. lia.
Qed.
Lemma dict_run_ok d es : dict_ok d -> dict_ok (dict_run d es).
Proof. revert d. induction es as [|e es IH]; intros d H; [done|]. cbn [dict_run foldl]. apply IH. by apply dict_step_ok. Qed.
Lemma dict_start_ok v : dict_ok (dict_start v).
Proof. split; [constructor|done|done]. Qed.

(** At most one partial transcription is in flight at any time, whatever
    the order in which the requests are answered, the dictation toggled and
    cancelled. *)
Theorem one_poll_in_flight v es : partials (dict_run (dict_start v) es) <= 1.
Proof.
  destruct (dict_run_ok (dict_start v) es (dict_start_ok v)) as [_ H _]. rewrite H. destruct (busy _); lia.
Qed.

(** What happens without the user: polls and replies. *)
Definition background (e : DictEvent) : bool := match e with Poll _ | Reply _ _ => true | _ => false end.

(** Once a dictation is cancelled nothing more is written into the field:
    whatever requests were in flight, and in whatever order they answer. *)
Theorem cancel_writes_nothing v es es' : forallb background es' = true ->
  value (dict_run (dict_step (dict_run (dict_start v) es) Cancel) es') = value (dict_run (dict_start v) es).
Proof.
  intros H. pose proof (dict_run_ok (dict_start v) es (dict_start_ok v)) as [H1 _ _].
  set (d := dict_run (dict_start v) es) in *.
  assert (G : Forall (fun f => fl_run f < run_ (dict_step d Cancel)) (flights (dict_step d Cancel)) /\ interval (dict_step d Cancel) = None).
  { split; [|done]. cbn. eapply Forall_impl; [exact H1|]. intros f Hf. cbn beta in *. lia. }
  change (value d) with (value (dict_step d Cancel)). revert G. generalize (dict_step d Cancel). clear H1. clearbody d.
  induction es' as [|e es' IH]; intros c [G1 G2]; [done|]. cbn [forallb] in H. apply andb_true_iff in H as [He H].
  specialize (IH H). cbn [dict_run foldl]. fold (dict_run (dict_step c e) es').
  destruct e as [| | | |s|k a|]; try done; cbn [dict_step].
  - rewrite G2. by apply IH.
  - destruct (flights c !! k) as [f|] eqn:E; [|by apply IH].
    set (c' := finished f a _). assert (V : value c' = value c /\ run_ c' = run_ c /\ flights c' = take k (flights c) ++ drop (S k) (flights c) /\ interval c' = interval c).
    { unfold c'. destruct (finished_fields f a (transcribed (fl_run f) a (landed k c))) as (-> & -> & -> & -> & _).
      destruct (transcribed_fields (fl_run f) a (landed k c)) as (-> & -> & -> & _). split; [|done].
      unfold transcribed. destruct a; [done|]. assert (fl_run f < run_ c) by (rewrite Forall_lookup in G1; by eapply G1).
      cbn [landed run_]. by replace (fl_run f =? run_ c) with false by (symmetry; apply Nat.eqb_neq; lia). }
    destruct V as (V1 & V2 & V3 & V4). rewrite IH; [done|]. rewrite V2, V3, V4. split; [|done].
    apply Forall_app. split; [by apply Forall_take|by apply Forall_drop].
Qed.
Theorem cancel_writes_nothing_witness :
  let d := dict_step (dict_run (dict_start (u "a")) [Started; Poll true]) Cancel in
  value (dict_run d [Reply 0 (Answered true (Some (u "b")) None)]) = u "a".
Proof.
  apply (cancel_writes_nothing (u "a") [Started; Poll true] [Reply 0 (Answered true (Some (u "b")) None)]). reflexivity.
Defined.

(** A transcription never erases what was in the field when the dictation
    started: what is written is that text, its trailing white space aside,
    followed by what was said. *)
Theorem reply_keeps_base d k a : 
  let d' := dict_step d (Reply k a) in
  value d' = value d \/ value d' = base d \/
  exists spoken, spoken <> [] /\ trim spoken = spoken /\
    (value d' = trim_end (base d) ++ u " " ++ spoken \/ base d = [] /\ value d' = spoken).
Proof.
  cbv zeta. cbn [dict_step]. destruct (flights d !! k) as [f|]; [|by left].
  destruct (finished_fields f a (transcribed (fl_run f) a (landed k d))) as (-> & _).
  unfold transcribed. destruct a as [|ok text err]; [by left|]. destruct (negb _); [by left|].
  destruct ok; [|by left]. destruct text as [s|]; [|by left]. cbn [value base landed]. unfold written.
  destruct (trim s) as [|c r] eqn:E; [right; by left|]. right. right. exists (c :: r). split; [done|].
  split; [by rewrite <- E, trim_idem|]. destruct (base d); [by right|by left].
Qed.

(** Stopping does not start a new run: a partial transcription still in flight
    may answer after the final one and replace its text. *)
Lemma late_partial_wins :
  value (dict_run (dict_start []) [Started; Poll true; Stopped; Reply 1 (Answered true (Some (u "tout le texte")) None);
    Reply 0 (Answered true (Some (u "tout")) None)]) = u "tout".
Proof. vm_compute. reflexivity. Qed.
(** And the final pass of one dictation writes into the next one. *)
Lemma late_final_wins :
  value (dict_run (dict_start []) [Started; Stopped; Type_ (u "corrigé"); Reply 0 (Answered true (Some (u "dit")) None)]) = u "dit".
Proof. vm_compute. reflexivity. Qed.
