(* ===== verification/Composer.v ===== *)
(** * The composer of the playground (playground/_components/PlaygroundComposer.tsx, ContextRing.tsx, SnippetsDialog.tsx, ThreadTabs.tsx)

    What the composer shows of the page and what each of its buttons does, with
    the files being read, the snippets and the dialogs it opens.  The handlers of
    the page are those of [Playground]; the menu of the skills is [SlashMenu], and
    takes the keys while it is shown; the dictation is [Dictation], which the
    sending of a message cuts. *)

From S2P Require Import Prelude JsString JsInt JsJson JsNumber Thread Messages Skills Preferences Attachments Turn Playground PlaygroundSpec.

(** ** The state *)

(** What leaves the composer: the account read again for its key, the dictation
    cut, a toast, the settings opened on a section. *)
Inductive COut := KeyRead | DictationCut | Toast (body : jstr) | SettingsOpened (tab : jstr).
(** How the reading of a file ends; [NoCanvas] is the error "canevas". *)
Inductive FileRead := Content_ (s : jstr) | Unreadable | NoCanvas.

Record Comp := mkComp {
  page : Page; hasKey : option bool;
  reading : list (jstr * bool);   (* the files being read: name, and whether it is an image *)
  viewedImage : option (list jstr * nat);
  snippetsOpen : bool; skillCreatorOpen : bool; ctxOpen : bool; voiceOpen : bool;
  snippets : list Snippet; placeholderIdx : nat; out : list COut
}.
Definition set_page v c := mkComp v (hasKey c) (reading c) (viewedImage c) (snippetsOpen c) (skillCreatorOpen c) (ctxOpen c) (voiceOpen c) (snippets c) (placeholderIdx c) (out c).
Definition set_hasKey v c := mkComp (page c) v (reading c) (viewedImage c) (snippetsOpen c) (skillCreatorOpen c) (ctxOpen c) (voiceOpen c) (snippets c) (placeholderIdx c) (out c).
Definition set_reading v c := mkComp (page c) (hasKey c) v (viewedImage c) (snippetsOpen c) (skillCreatorOpen c) (ctxOpen c) (voiceOpen c) (snippets c) (placeholderIdx c) (out c).
Definition set_viewedImage v c := mkComp (page c) (hasKey c) (reading c) v (snippetsOpen c) (skillCreatorOpen c) (ctxOpen c) (voiceOpen c) (snippets c) (placeholderIdx c) (out c).
Definition set_snippetsOpen v c := mkComp (page c) (hasKey c) (reading c) (viewedImage c) v (skillCreatorOpen c) (ctxOpen c) (voiceOpen c) (snippets c) (placeholderIdx c) (out c).
Definition set_skillCreatorOpen v c := mkComp (page c) (hasKey c) (reading c) (viewedImage c) (snippetsOpen c) v (ctxOpen c) (voiceOpen c) (snippets c) (placeholderIdx c) (out c).
Definition set_ctxOpen v c := mkComp (page c) (hasKey c) (reading c) (viewedImage c) (snippetsOpen c) (skillCreatorOpen c) v (voiceOpen c) (snippets c) (placeholderIdx c) (out c).
Definition set_voiceOpen v c := mkComp (page c) (hasKey c) (reading c) (viewedImage c) (snippetsOpen c) (skillCreatorOpen c) (ctxOpen c) v (snippets c) (placeholderIdx c) (out c).
Definition set_snippets v c := mkComp (page c) (hasKey c) (reading c) (viewedImage c) (snippetsOpen c) (skillCreatorOpen c) (ctxOpen c) (voiceOpen c) v (placeholderIdx c) (out c).
Definition set_placeholderIdx v c := mkComp (page c) (hasKey c) (reading c) (viewedImage c) (snippetsOpen c) (skillCreatorOpen c) (ctxOpen c) (voiceOpen c) (snippets c) v (out c).
Definition say (o : COut) c := mkComp (page c) (hasKey c) (reading c) (viewedImage c) (snippetsOpen c) (skillCreatorOpen c) (ctxOpen c) (voiceOpen c) (snippets c) (placeholderIdx c) (out c ++ [o]).
Definition on_page (f : Page -> Page) (c : Comp) : Comp := set_page (f (page c)) c.

Definition IMAGE_ACCEPT : jstr := u ".png,.jpg,.jpeg,.webp,.gif".
Definition PLACEHOLDER_TEXTS : list jstr :=
  [u "Comment puis-je vous aider aujourd'hui ?"; u "Tapez / pour appeler une compétence";
   u "Résumez un document, générez une image, écrivez du code…"].

(** ** The gauge of the context *)

Inductive RingColor := AccentRing | WarningRing | ErrorRing.
Definition share (used max : num) : num := ndiv used (match max with S754_zero _ | S754_nan => num_of_Z 1 | _ => max end).
Definition percent (ratio : num) : jstr := let x := nmul ratio (num_of_Z 100) in int_text (math_round x) x.
(** The percentage, the color and the fraction of the circle left empty. *)
Definition ContextRing (used max : num) : jstr * RingColor * num :=
  let ratio := nmin (num_of_Z 1) (nmax (num_of_Z 0) (share used max)) in
  (percent ratio,
   (if nle (num_of_decimal 95 (-2)) ratio then ErrorRing else if nle (num_of_decimal 8 (-1)) ratio then WarningRing else AccentRing),
   nsub (num_of_Z 1) ratio).

Section composer.
Context (t : jstr -> jstr) (env : Loaded).

(** ** What is shown *)

Definition vision (p : Page) : bool := existsb (streq (model p)) (modelVision env).
Definition is_picture (a : Attachment) : bool := nonempty (at_image a).
Definition placeholderText (c : Comp) : jstr := t (default (default [] (PLACEHOLDER_TEXTS !! 0)) (PLACEHOLDER_TEXTS !! placeholderIdx c)).

Inductive SendSide := StopButton | SendButton | VoiceButtons.
Definition send_side (p : Page) : SendSide :=
  if streaming p then StopButton
  else if nonempty (trim (input p)) || (0 <? length (attachments p)) then SendButton else VoiceButtons.

(** The rows of the queue and the sentence under them. *)
Definition queue_row (m : QueuedMsg) : jstr := match qm_text m with [] => qm_content m | s => s end.
Definition queue_card (p : Page) : option (list jstr * jstr) :=
  match queued p with
  | [] => None
  | q => Some (map queue_row q,
      t (if streaming p then u "Envoi automatique dès la fin de la réponse. « Envoyer » interrompt et passe à ce message." else u "Envoi imminent…"))
  end.

(** The drawer: the images with their place among the files, then the others with
    their size. *)
Definition numbered (p : Page) : list (nat * Attachment) := imap pair (attachments p).
Definition thumbnails (p : Page) : list (nat * Attachment) := List.filter (fun x => is_picture x.2) (numbered p).
Definition tokens (p : Page) : list (nat * Attachment) := List.filter (fun x => negb (is_picture x.2)) (numbered p).
Definition token_label (a : Attachment) : jstr :=
  at_name a ++ u " (" ++ string_of_nat ((length (at_content a) + 1023) / 1024) ++ u " Ko)".

Record ComposerView := mkView {
  v_editing : bool; v_skill : option jstr; v_noKey : bool; v_queue : option (list jstr * jstr);
  v_drawer : option (nat * list jstr * list jstr); v_join : jstr; v_accept : jstr;
  v_models : list jstr * jstr; v_send : SendSide; v_menu : bool; v_lightbox : option (list jstr * nat);
  v_hint : bool; v_context : option jstr; v_centered : bool
}.
(** [used] and [max] are those of [FileViews.context_gauge]. *)
Definition view (isSettingsOpen : bool) (used max : num) (c : Comp) : ComposerView :=
  let p := page c in
  let hasMessages := match messages p with [] => false | _ => true end in
  mkView
    (match editingIdx p with Some _ => true | None => false end)
    (match invokedSkill p with Some ((_ :: _) as s) => Some (replace_str (t (u "Compétence « {name} » jointe au prochain message")) (u "{name}") s) | _ => None end)
    (match hasKey c with Some false => true | _ => false end)
    (queue_card p)
    (match attachments p with
     | [] => None
     | l => Some (length l, map (fun x => at_name x.2) (thumbnails p), map (fun x => token_label x.2) (tokens p))
     end)
    (t (if vision p then u "Joindre un fichier ou une image" else u "Joindre un fichier"))
    (if vision p then ATTACH_ACCEPT ++ u "," ++ IMAGE_ACCEPT else ATTACH_ACCEPT)
    (runningModels env, model p)
    (send_side p)
    (starts_with (input p) (u "/"))
    (viewedImage c)
    (negb (isNarrow env) && negb hasMessages)
    (if hasMessages then Some (t (u "Contexte") ++ u " " ++ percent (nmin (num_of_Z 1) (share used max)) ++ u " %") else None)
    (negb hasMessages && negb isSettingsOpen && negb (streaming p)).

(** ** Its handlers *)

(** [send]: what it does besides [Playground.send]. *)
Definition c_send (now : Z) (value : jstr) (c : Comp) : Comp :=
  let p := page c in
  if negb (nonempty (trim value)) && (length (attachments p) =? 0) then c
  else
    let c := match hasKey c with Some false => say KeyRead c | _ => c end in
    let c := say DictationCut c in
    let c := if existsb is_picture (attachments p) && negb (vision p)
             then say (Toast (t (u "Ce modèle ne lit pas les images : elles n'ont pas été envoyées."))) c else c in
    on_page (send t env now value) c.

Definition cancelEdit (p : Page) : Page := p |> set_editingIdx None |> set_input [].
Definition removeAttachment (i : nat) (p : Page) : Page := set_attachments (without i (attachments p)) p.

(** [handleFiles]: the toasts of what is refused, the reading of the rest. *)
Definition take_file (c : Comp) (x : File * Plan) : Comp :=
  match x.2 with
  | Refused body => say (Toast body) c
  | ReadText => set_reading (reading c ++ [(f_name x.1, false)]) c
  | ReadImage => set_reading (reading c ++ [(f_name x.1, true)]) c
  end.
Definition c_handleFiles (files : list File) (c : Comp) : Comp :=
  foldl take_file c (zip files (handleFiles t (vision (page c)) (attachments (page c)) files)).
(** The [i]-th file being read is there, or cannot be. *)
Definition unread (name : jstr) : COut := Toast (replace_str (t (u "« {name} » n'a pas pu être lu.")) (u "{name}") name).
Definition landed (name : jstr) (picture : bool) (r : FileRead) (c : Comp) : Comp :=
  match r with
  | Content_ s => on_page (attached (if picture then mkAttachment name [] s else mkAttachment name s [])) c
  | NoCanvas => say (Toast (replace_str (t (u "« {name} » est trop grande (plus de 2 Mo) et ce navigateur bloque sa réduction : réduis-la avant de la joindre.")) (u "{name}") name)) c
  | Unreadable => say (unread name) c
  end.
Definition file_read (i : nat) (r : FileRead) (c : Comp) : Comp :=
  match reading c !! i with Some (name, picture) => c |> set_reading (without i (reading c)) |> landed name picture r | None => c end.

Definition insertSnippet (s : Snippet) (c : Comp) : Comp := c |> on_page (set_input (sn_content s)) |> set_snippetsOpen false.
Definition snippet_saving (c : Comp) : bool := nonempty (trim (input (page c))).

(** The tabs: label, shown as the current one, and whether they can be closed. *)
Definition ThreadTabs (p : Page) : list (jstr * bool * bool) :=
  map (fun b => (match tab_title b with [] => t (u "Nouvelle conversation") | s => s end, streq (tab_id b) (activeTabId p), negb (streaming p))) (tabs p).

Inductive CEvent :=
| CPage (e : Event)                       (* what happens outside the composer *)
| CSubmit (now : Z)                       (* Enter in the field *)
| CSendButton (now : Z) | CStopButton
| CCancelEdit | CRemoveSkill | CCreateKey
| CEditQueued (i : nat) | CSendQueued (now : Z) (i : nat) | CDiscardQueued (i : nat)
| CFiles (files : list File) | CRead (i : nat) (r : FileRead) | CRemoveFile (i : nat)
| CModel (v : option jstr) | CVoice | CSnippets (o : bool) | CSkills | CContext
| CSaveSnippet (now : Z) | CInsertSnippet (i : nat) | CDeleteSnippet (id : jstr)
| CCloseImage | CImageIndex (i : nat) | CRotate
| CKeyAnswer (r : option bool)            (* the account read again *)
| CTab (i : nat) | CCloseTab (now : Z) (i : nat) | CNewTab (now : Z).

Definition when (b : bool) (f : Comp -> Comp) (c : Comp) : Comp := if b then f c else c.
Definition with_tab (i : nat) (f : jstr -> Page -> Page) (c : Comp) : Comp :=
  match tabs (page c) !! i with Some b => on_page (f (tab_id b)) c | None => c end.
Definition comp_handle (e : CEvent) (c : Comp) : Comp :=
  let p := page c in
  match e with
  | CPage ev => on_page (handle t env ev) c
  | CSubmit now => c_send now (input p) c
  | CSendButton now => match send_side p with SendButton => c_send now (input p) c | _ => c end
  | CStopButton => when (streaming p) (on_page stop) c
  | CCancelEdit => match editingIdx p with Some _ => on_page cancelEdit c | None => c end
  | CRemoveSkill => on_page (set_invokedSkill None) c
  | CCreateKey => match hasKey c with Some false => say (SettingsOpened (u "keys")) c | _ => c end
  | CEditQueued i => on_page (editQueued i) c
  | CSendQueued now i => on_page (sendQueuedNow t env now i) c
  | CDiscardQueued i => on_page (discardQueued i) c
  | CFiles files => c_handleFiles files c
  | CRead i r => file_read i r c
  | CRemoveFile i => on_page (removeAttachment i) c
  | CModel v => on_page (set_model (default [] v)) c
  | CVoice => match send_side p with VoiceButtons => set_voiceOpen true c | _ => c end
  | CSnippets o => set_snippetsOpen o c
  | CSkills => set_skillCreatorOpen true c
  | CContext => match messages p with [] => c | _ => set_ctxOpen true c end
  | CSaveSnippet now => when (snippetsOpen c && snippet_saving c) (set_snippets (saveSnippet now (input p) (snippets c))) c
  | CInsertSnippet i => match snippets c !! i with Some s => when (snippetsOpen c) (insertSnippet s) c | None => c end
  | CDeleteSnippet id => when (snippetsOpen c) (set_snippets (deleteSnippet id (snippets c))) c
  | CCloseImage => set_viewedImage None c
  | CImageIndex i => match viewedImage c with Some (srcs, _) => set_viewedImage (Some (srcs, i)) c | None => c end
  | CRotate => set_placeholderIdx (S (placeholderIdx c) mod length PLACEHOLDER_TEXTS) c
  | CKeyAnswer r => match r with Some b => set_hasKey (Some b) c | None => c end
  | CTab i => with_tab i (switchTab env) c
  | CCloseTab now i => when (negb (streaming p)) (with_tab i (closeTab env now)) c
  | CNewTab now => when (negb (streaming p)) (on_page (newTab now)) c
  end.
Definition comp_run (es : list CEvent) (c : Comp) : Comp := foldl (fun c e => comp_handle e c) c es.

Definition comp_start (p : Page) (key : option bool) (kept : list Snippet) : Comp :=
  mkComp p key [] None false false false false kept 0 [].
End composer.

(** ** The files *)

Definition toasts (c : Comp) : nat := length (List.filter (fun o => match o with Toast _ => true | _ => false end) (out c)).
(** The files the user knows something of: joined, being read, or said lost. *)
Definition accounted (c : Comp) : nat := length (attachments (page c)) + length (reading c) + toasts c.
Definition file_event (e : CEvent) : bool := match e with CFiles _ | CRead _ _ => true | _ => false end.
Definition chosen (e : CEvent) : nat := match e with CFiles l => length l | _ => 0 end.

Lemma toasts_say o c : toasts (say o c) = toasts c + match o with Toast _ => 1 | _ => 0 end.
Proof. unfold toasts, say. cbn [out]. rewrite List.filter_app, length_app. by destruct o. Qed.
Lemma length_without {A} (l : list A) i x : l !! i = Some x -> length l = S (length (without i l)).
Proof. intros H. unfold without. rewrite length_app, length_take, length_drop. apply lookup_lt_Some in H. lia. Qed.
Lemma take_accounted c x : accounted (take_file c x) = S (accounted c).
Proof.
  unfold take_file, accounted. destruct x.2 as [| |b]; [| |rewrite toasts_say; cbn [say page reading]; lia];
    unfold toasts; cbn [set_reading page reading out]; rewrite length_app; cbn [length]; lia.
Qed.
Lemma taken_accounted l : forall c, accounted (foldl take_file c l) = accounted c + length l.
Proof. induction l as [|x l IH]; intros c; cbn [foldl length]; [lia|]. rewrite IH, take_accounted. lia. Qed.
Lemma plans_length t v fs : forall n, length (plan_files t v n fs) = length fs.
Proof. induction fs as [|f fs IH]; intros n; [done|]. cbn [plan_files]. destruct (plan_file t v n f) as [p m]. cbn [length]. by rewrite IH. Qed.
Lemma landed_accounted t name b r c : accounted (landed t name b r c) = S (accounted c).
Proof.
  unfold accounted. destruct r; cbn [landed]; [| |]; try (rewrite toasts_say; cbn [say page reading unread]; lia).
  unfold on_page, attached, toasts. cbn [page reading set_page out attachments set_attachments]. rewrite length_app. cbn [length]. lia.
Qed.
Lemma file_accounted t env e c : file_event e = true -> accounted (comp_handle t env e c) = accounted c + chosen e.
Proof.
  destruct e; try done; intros _; cbn [comp_handle chosen].
  - unfold c_handleFiles. rewrite taken_accounted, length_zip. unfold handleFiles. rewrite plans_length. lia.
  - unfold file_read. destruct (reading c !! i) as [[n b]|] eqn:R; [|lia]. rewrite landed_accounted. apply length_without in R.
    unfold accounted, toasts. cbn [set_reading page reading out]. lia.
Qed.
(** Files may be chosen several times and be read in any order: each one chosen is
    joined, still being read, or told of by a toast. *)
Theorem no_file_lost t env es c : forallb file_event es = true ->
  accounted (comp_run t env es c) = accounted c + sum_list (map chosen es).
Proof.
  revert c. induction es as [|e es IH]; intros c; [cbn; lia|]. cbn [forallb map sum_list sum_list_with]. intros H. bool_norm.
  change (comp_run t env (e :: es) c) with (comp_run t env es (comp_handle t env e c)). rewrite IH, file_accounted by done. unfold id. lia.
Qed.

(** The drawer shows each file once, and the cross of a file removes that file. *)
Theorem drawer_complete p : thumbnails p ++ tokens p ≡ₚ numbered p /\
  forall i a, (i, a) ∈ thumbnails p ++ tokens p -> attachments p = take i (attachments p) ++ a :: drop (S i) (attachments p) /\
    attachments (removeAttachment i p) = take i (attachments p) ++ drop (S i) (attachments p).
Proof.
  assert (S : thumbnails p ++ tokens p ≡ₚ numbered p).
  { unfold thumbnails, tokens. induction (numbered p) as [|x l IH]; [done|]. cbn [List.filter]. destruct (is_picture x.2); cbn [negb app]; [by rewrite IH|].
    by rewrite <- Permutation_middle, IH. }
  split; [exact S|]. intros i a I. rewrite S in I. unfold numbered in I. apply elem_of_lookup_imap in I as (j & y & [= -> ->] & L). split; [by rewrite take_drop_middle|done].
Qed.

(** ** The buttons and the turn *)

Definition comp_valid (e : CEvent) (c : Comp) : bool := match e with CPage ev => valid (page c) ev | _ => true end.
Fixpoint comp_valid_run (t : jstr -> jstr) (env : Loaded) (es : list CEvent) (c : Comp) : bool :=
  match es with [] => true | e :: r => comp_valid e c && comp_valid_run t env r (comp_handle t env e c) end.

Lemma ok_page_event t env ev p : (forall now o, ev <> End_ now o) -> ok p -> ok (handle t env ev p).
Proof. intros N K. apply (ok_step t env p ev); [done|]. by apply step_other. Qed.
Lemma ok_fields p q : control q = control p -> queued q = queued p -> ok p -> ok q.
Proof. intros C Q K. apply (ok_same p); [done|by apply control_undisturbed|rewrite Q; tauto]. Qed.
Lemma take_page l : forall c, page (foldl take_file c l) = page c.
Proof. induction l as [|x l IH]; intros c; [done|]. cbn [foldl]. rewrite IH. unfold take_file. by destruct x.2. Qed.
Lemma send_page t env now v c : page (c_send t env now v c) =
  if negb (nonempty (trim v)) && (length (attachments (page c)) =? 0) then page c else send t env now v (page c).
Proof. unfold c_send. destruct (_ && _); [done|]. unfold on_page. cbn [page set_page]. f_equal. destruct (_ && _), (hasKey c) as [[]|]; done. Qed.
Lemma ok_sent t env now v c : ok (page c) -> ok (page (c_send t env now v c)).
Proof. intros K. rewrite send_page. destruct (_ && _); [done|]. by apply (ok_page_event t env (Send now v)). Qed.
Lemma tab_page i f c : page (with_tab i f c) = page c \/ exists b, page (with_tab i f c) = f (tab_id b) (page c).
Proof. unfold with_tab. destruct (_ !! _) as [b|]; [right; by exists b|by left]. Qed.

Lemma comp_ok t env e c : comp_valid e c = true -> ok (page c) -> ok (page (comp_handle t env e c)).
Proof.
  intros V K. destruct e; cbn [comp_handle].
  - apply (ok_step t env (page c) e); [done|by apply valid_step].
  - by apply ok_sent.
  - destruct (send_side _); [done|by apply ok_sent|done].
  - unfold when. destruct (streaming _); [|done]. by apply (ok_page_event t env Stop).
  - destruct (editingIdx _); [|done]. by apply (ok_fields (page c)).
  - by apply (ok_fields (page c)).
  - by destruct (hasKey c) as [[]|].
  - by apply (ok_page_event t env (EditQueued i)).
  - by apply (ok_page_event t env (SendQueuedNow now i)).
  - by apply (ok_page_event t env (DiscardQueued i)).
  - unfold c_handleFiles. by rewrite take_page.
  - unfold file_read. destruct (_ !! _) as [[n b]|]; [|done]. destruct r; cbn [landed]; [|done..]. by apply (ok_fields (page c)).
  - by apply (ok_fields (page c)).
  - by apply (ok_fields (page c)).
  - by destruct (send_side _).
  - done.
  - done.
  - by destruct (messages _).
  - unfold when. by destruct (_ && _).
  - destruct (_ !! _); [|done]. unfold when. destruct (snippetsOpen c); [|done]. by apply (ok_fields (page c)).
  - unfold when. by destruct (snippetsOpen c).
  - done.
  - by destruct (viewedImage c) as [[]|].
  - done.
  - by destruct r.
  - destruct (tab_page i (switchTab env) c) as [->|[b ->]]; [done|]. by apply (ok_page_event t env (SwitchTab (tab_id b))).
  - unfold when. destruct (negb _); [|done]. destruct (tab_page i (closeTab env now) c) as [->|[b ->]]; [done|]. by apply (ok_page_event t env (CloseTab now (tab_id b))).
  - unfold when. destruct (negb _); [|done]. by apply (ok_page_event t env (NewTab now)).
Qed.
(** Whatever is clicked in the composer and whatever happens around it, the turn
    shown as running is the one in flight, only a running turn has messages waiting,
    and the automatic resumes stay within their limit. *)
Theorem composer_keeps_turn t env es c : comp_valid_run t env es c = true -> ok (page c) -> ok (page (comp_run t env es c)).
Proof.
  revert c. induction es as [|e es IH]; intros c; [done|]. cbn [comp_valid_run comp_run foldl]. intros V K. bool_norm. apply IH; [done|]. by apply comp_ok.
Qed.

(** ** A message goes once *)

Definition texts_of (p : Page) : list Attachment := List.filter (fun a => negb (is_picture a)) (attachments p).
Definition pictures_of (p : Page) : list jstr := List.filter nonempty (map at_image (attachments p)).
Definition sent_pictures (env : Loaded) (p : Page) : list jstr := if vision env p then pictures_of p else [].
Definition sendable (env : Loaded) (p : Page) : bool :=
  nonempty (trim (input p)) || (0 <? length (texts_of p)) || (0 <? length (sent_pictures env p)).
Definition kept_thread (p : Page) : list ChatMsg := match editingIdx p with Some i => take i (messages p) | None => messages p end.

Lemma runStream_thread t env k now next o p : exists a, messages (runStream t env k now next o p) = next ++ [a] /\
  input (runStream t env k now next o p) = input p /\ attachments (runStream t env k now next o p) = attachments p /\
  editingIdx (runStream t env k now next o p) = editingIdx p.
Proof. unfold Playground.runStream. destruct (nonempty (k_model k)); cbn [negb beginLiveTurn]; by eexists. Qed.
Lemma nothing_joined env p : attachments p = [] -> sent_pictures env p = [] /\ texts_of p = [].
Proof. intros E. unfold sent_pictures, pictures_of, texts_of. rewrite E. split; [by destruct (vision env p)|done]. Qed.

(** What [send] makes of a message [m] with the pictures [ims]. *)
Definition leave (t : jstr -> jstr) (env : Loaded) (now : Z) (m : jstr) (ims : list jstr) (p : Page) : Page :=
  if streaming p then p |> set_queued (queued p ++ [mkQueued m (trim (input p)) ims now]) |> set_input [] |> set_attachments []
  else
    let next := kept_thread p ++ [user_msg m ims now] in
    p |> set_messages next |> set_input [] |> set_attachments [] |> set_editingIdx None |> runStream t env (closure_of p) now next no_override.
Lemma leave_spec t env now m ims p : let q := leave t env now m ims p in
  input q = [] /\ attachments q = [] /\
  (if streaming p then queued q = queued p ++ [mkQueued m (trim (input p)) ims now] /\ messages q = messages p
   else queued q = queued p /\ editingIdx q = None /\ exists a, messages q = kept_thread p ++ [user_msg m ims now; a]).
Proof.
  unfold leave. destruct (streaming p) eqn:S; [done|]. cbv zeta.
  match goal with |- context [runStream t env ?k now ?n ?o ?x] =>
    destruct (runStream_thread t env k now n o x) as (a & M & I & A & Ed); destruct (runStream_frame t env k now n o x) as (Q & _) end.
  rewrite M, I, A, Ed, Q. repeat split. exists a. by rewrite <- app_assoc.
Qed.
Lemma send_leaves t env now p : negb (nonempty (trim (input p))) && (length (attachments p) =? 0) = false ->
  send t env now (input p) p = if sendable env p then leave t env now (full_text (trim (input p)) (texts_of p)) (sent_pictures env p) p else p.
Proof.
  intros E. unfold send, sendable, leave, kept_thread, sent_pictures, pictures_of, texts_of, is_picture, vision. cbv zeta.
  destruct (nonempty (trim (input p))), (attachments p) as [|a l]; try done.
  by destruct (List.filter (fun a => negb (nonempty (at_image a))) (a :: l)), (if existsb (streq (model p)) (modelVision env) then _ else _).
Qed.

(** C7: The send button, or Enter: the text and the files leave the composer for the
    queue when an answer is being written, for the thread otherwise, once and after
    what the editing keeps; with nothing the model can read, everything stays; and
    pictures the model does not read are told of. *)
Theorem message_goes_once t env now c : let p := page c in let c' := c_send t env now (input p) c in let q := page c' in
  (if sendable env p then
     let m := full_text (trim (input p)) (texts_of p) in
     input q = [] /\ attachments q = [] /\
     (if streaming p then queued q = queued p ++ [mkQueued m (trim (input p)) (sent_pictures env p) now] /\ messages q = messages p
      else queued q = queued p /\ editingIdx q = None /\ exists a, messages q = kept_thread p ++ [user_msg m (sent_pictures env p) now; a])
   else q = p) /\
  (existsb is_picture (attachments p) && negb (vision env p) = true ->
     Toast (t (u "Ce modèle ne lit pas les images : elles n'ont pas été envoyées.")) ∈ out c').
Proof.
  intros p c' q. split.
  - unfold q, c'. rewrite send_page. fold p. destruct (negb _ && _) eqn:E.
    { apply andb_true_iff in E as [E1 E2]. apply negb_true_iff in E1. apply Nat.eqb_eq, length_zero_iff_nil in E2.
      destruct (nothing_joined env p E2) as [S1 S2]. unfold sendable. by rewrite E1, S1, S2. }
    rewrite send_leaves by done. destruct (sendable env p); [apply leave_spec|done].
  - intros N. unfold c', c_send. fold p. rewrite N. destruct (negb _ && _) eqn:E; [bool_norm; by destruct (attachments p)|].
    unfold on_page, say. cbn [set_page out]. apply elem_of_app. right. by left.
Qed.

(** ** Snippets and tabs *)

(** The button of the snippets is clickable exactly when it adds one, its text is
    what was typed, and a click on that one brings the text back in the field. *)
Theorem snippet_comes_back t env now c : snippetsOpen c = true ->
  let c' := comp_handle t env (CSaveSnippet now) c in
  if snippet_saving c then exists s, snippets c' = snippets c ++ [s] /\ sn_content s = trim (input (page c)) /\
    input (page (comp_handle t env (CInsertSnippet (length (snippets c))) c')) = trim (input (page c))
  else c' = c /\ saveSnippet now (input (page c)) (snippets c) = snippets c.
Proof.
  intros O. cbn [comp_handle]. unfold when, snippet_saving. rewrite O. cbn [andb]. unfold saveSnippet.
  destruct (trim (input (page c))) as [|x s] eqn:T; cbn [nonempty negb]; [done|].
  eexists. split; [done|]. split; [done|]. change (nonempty (x :: s)) with true. cbv iota. cbn [set_snippets snippets]. rewrite list_lookup_middle by done. cbn [snippetsOpen set_snippets]. by rewrite O.
Qed.
(** The tabs that can be closed are those whose closing does something: none while
    an answer is being written. *)
Lemma tabs_closable t p : Forall (fun r => r.2 = negb (streaming p)) (ThreadTabs t p).
Proof. unfold ThreadTabs. induction (tabs p); constructor; done. Qed.

(** ** What the composer does not do *)

Definition sees : Loaded := mkLoaded [u "qwen"] [] [u "qwen"] (u "csrf") false 4.
Definition clicks (es : list CEvent) : Comp := comp_run id sees es (comp_start (page_start sees 1 (DEFAULT_SETTINGS, Manual) 0) (Some true) []).
Definition photo : File := mkFile (u "cat.png") (u "image/png") 1000.
Definition notes : File := mkFile (u "notes.txt") (u "text/plain") 1000.
Definition type (s : jstr) : CEvent := CPage (HandleInput s).
Definition stopped_turn : list CEvent := [CStopButton; CPage (End_ 3 Aborted)].

(** The cancellation of an editing empties the text but leaves the pictures of the
    message edited: they go with the next one. *)
Definition edited_photo : list CEvent :=
  [CFiles [photo]; CRead 0 (Content_ (u "data:cat")); type (u "what is it?"); CSendButton 2] ++ stopped_turn ++ [CPage (EditMessage 0); CCancelEdit].
Lemma cancel_keeps_pictures :
  let c := clicks edited_photo in (editingIdx (page c), input (page c), map at_image (attachments (page c))) = (None, [], [u "data:cat"]) /\
  (images <$> (messages (page (comp_run id sees [type (u "thanks"); CSendButton 4] c)) !! 1)) = Some [u "data:cat"].
Proof. vm_compute. split; reflexivity. Qed.

(** A picture sent alone while an answer is written is a row without a word in the
    queue; taken back by its button, it is lost, with what was typed. *)
Definition queued_photo : list CEvent :=
  [type (u "hello"); CSendButton 2; CFiles [photo]; CRead 0 (Content_ (u "data:cat")); CSubmit 3].
Lemma queued_picture_blank : option_map fst (queue_card id (page (clicks queued_photo))) = Some [[]].
Proof. vm_compute. reflexivity. Qed.
Lemma edit_queued_loses : let c := clicks (queued_photo ++ [type (u "a long text"); CEditQueued 0]) in
  queued (page c) = [] /\ attachments (page c) = [] /\ input (page c) = [].
Proof. vm_compute. repeat split. Qed.

(** The banner says that the next message will replace the one edited; sent while
    an answer is written (a turn spoken, resumed or answered meanwhile), it is
    queued and comes after it, and the editing goes on: the message after that one
    replaces the whole. *)
Definition edited_late : list CEvent :=
  [type (u "one"); CSendButton 2] ++ stopped_turn ++ [CPage (EditMessage 0); CPage (ContinueTurn 4); type (u "uno"); CSubmit 5].
Lemma edited_message_appended : let c := clicks (edited_late ++ [CPage (End_ 6 Finished)]) in
  map content (List.filter (fun m => bool_decide (role m = User) && negb (hidden m)) (messages (page c))) = [u "one"; u "uno"] /\ editingIdx (page c) = Some 0.
Proof. vm_compute. split; reflexivity. Qed.

(** A file not read yet when the message goes is joined to the next one. *)
Lemma late_file_joins_next :
  let c := clicks [CFiles [notes]; type (u "read my notes"); CSendButton 2; CRead 0 (Content_ (u "..."))] in
  (content <$> (messages (page c) !! 0)) = Some (u "read my notes") /\ map at_name (attachments (page c)) = [u "notes.txt"].
Proof. vm_compute. split; reflexivity. Qed.
(** Pictures chosen before the first ones are read are not counted: more than four
    go with the message. *)
Lemma more_than_four : length (attachments (page (clicks ([CFiles (repeat photo 4); CFiles (repeat photo 4)] ++ repeat (CRead 0 (Content_ (u "data:cat"))) 8)))) = 8.
Proof. vm_compute. reflexivity. Qed.

Example ring : map (fun z => fst (ContextRing (num_of_Z z) (num_of_Z 1000))) [0; 4; 5; 799; 800; 949; 950; 2000]%Z =
  [(u "0", AccentRing); (u "0", AccentRing); (u "1", AccentRing); (u "80", AccentRing); (u "80", WarningRing); (u "95", WarningRing); (u "95", ErrorRing); (u "100", ErrorRing)].
Proof. vm_compute. reflexivity. Qed.
Example drawer_shown : let c := clicks [CFiles [photo; notes]; CRead 1 (Content_ (repeat 97%N 1025)); CRead 0 (Content_ (u "data:cat"))] in
  v_drawer (view id sees false (num_of_Z 0) (num_of_Z 0) c) = Some (2, [u "cat.png"], [u "notes.txt (2 Ko)"]).
Proof. vm_compute. reflexivity. Qed.

Theorem no_file_lost_witness : accounted (clicks [CFiles [photo; notes; mkFile (u "a.exe") [] 3]; CRead 1 Unreadable]) = 3.
Proof. unfold clicks. rewrite (no_file_lost id sees [CFiles [photo; notes; mkFile (u "a.exe") [] 3]; CRead 1 Unreadable] _ eq_refl). reflexivity. Defined.
Theorem composer_keeps_turn_witness : ok (page (clicks edited_late)).
Proof. apply (composer_keeps_turn id sees edited_late); [vm_compute; reflexivity|apply ok_start]. Defined.
Theorem snippet_comes_back_witness : let c := clicks [type (u " hi "); CSnippets true] in
  input (page (comp_handle id sees (CInsertSnippet 0) (comp_handle id sees (CSaveSnippet 5) c))) = u "hi".
Proof. destruct (snippet_comes_back id sees 5 (clicks [type (u " hi "); CSnippets true]) eq_refl) as (s & _ & _ & E). exact E. Defined.
Theorem message_goes_once_witness : let c := clicks [CFiles [notes]; CRead 0 (Content_ (u "...")); type (u "read my notes")] in
  exists a, messages (page (c_send id sees 2 (input (page c)) c)) = [user_msg (u "read my notes" ++ BLANK_LINE ++ file_block (mkAttachment (u "notes.txt") (u "...") [])) [] 2; a].
Proof. destruct (message_goes_once id sees 2 (clicks [CFiles [notes]; CRead 0 (Content_ (u "...")); type (u "read my notes")])) as [(_ & _ & _ & _ & H) _]. exact H. Defined.
