(* ===== verification/Thinking.v ===== *)
(** * What a message says while it comes (app/(app)/_components/ReasoningBlock.tsx, ThinkingIndicator.tsx, DictateButton.tsx)

    The block of the reasoning, open while the model thinks and folded when it
    writes, with its clock; the word of the wait, which changes; the button of the
    dictation, on [Dictation], with the failures it tells.  Times are whole
    milliseconds. *)

From S2P Require Import Prelude JsString JsInt JsNumber I18n Dictation.
Local Open Scope flow_scope.

(** ** The reasoning *)

Definition ANSWER_NOW_AFTER_S : Z := 20.

(** What the message gives the block; [rp_now] is that of a clickable answer. *)
Record RProps := mkRProps { rp_text : jstr; rp_ms : option Z; rp_streaming : bool; rp_now : bool }.
Record RBlock := mkRBlock {
  rb_props : RProps; rb_open : bool; rb_phase : bool;     (* [phaseRef] *)
  rb_start : Z; rb_elapsed : Z; rb_timer : bool; rb_asked : nat   (* answers asked for now *)
}.
(** The effect of the clock: on the first render, then when [streaming] changes. *)
Definition clock_effect (now : Z) (b : RBlock) : RBlock :=
  if rp_streaming (rb_props b) then mkRBlock (rb_props b) (rb_open b) (rb_phase b) now (rb_elapsed b) true (rb_asked b)
  else mkRBlock (rb_props b) (rb_open b) (rb_phase b) (rb_start b) (rb_elapsed b) false (rb_asked b).
Definition phase_effect (b : RBlock) : RBlock :=
  if eqb (rb_phase b) (rp_streaming (rb_props b)) then b
  else mkRBlock (rb_props b) (rp_streaming (rb_props b)) (rp_streaming (rb_props b)) (rb_start b) (rb_elapsed b) (rb_timer b) (rb_asked b).
Definition block_start (now : Z) (p : RProps) : RBlock :=
  mkRBlock p (rp_streaming p) (rp_streaming p) 0 0 false 0 |> phase_effect |> clock_effect now.

Definition duration (b : RBlock) : Z := if rp_streaming (rb_props b) then rb_elapsed b else default 0%Z (rp_ms (rb_props b)).
(** [Math.round(duration / 1000)] from one second on. *)
Definition seconds (b : RBlock) : option Z := if (1000 <=? duration b)%Z then Some ((2 * duration b + 1000) / 2000)%Z else None.
Definition answer_now_shown (b : RBlock) : bool :=
  rp_streaming (rb_props b) && rp_now (rb_props b) && (ANSWER_NOW_AFTER_S <=? default 0 (seconds b))%Z.

Inductive REvent :=
| RRender (now : Z) (p : RProps) | RTick (now : Z) | RToggle (o : bool) | RAnswerNow.
Definition block_handle (e : REvent) (b : RBlock) : RBlock :=
  match e with
  | RRender now p =>
      let c := mkRBlock p (rb_open b) (rb_phase b) (rb_start b) (rb_elapsed b) (rb_timer b) (rb_asked b) in
      if eqb (rp_streaming p) (rp_streaming (rb_props b)) then c else c |> phase_effect |> clock_effect now
  | RTick now => if rb_timer b then mkRBlock (rb_props b) (rb_open b) (rb_phase b) (rb_start b) (now - rb_start b)%Z true (rb_asked b) else b
  | RToggle o => match rp_text (rb_props b) with [] => b | _ => mkRBlock (rb_props b) o (rb_phase b) (rb_start b) (rb_elapsed b) (rb_timer b) (rb_asked b) end
  | RAnswerNow => match rp_text (rb_props b) with
      | [] => b
      | _ => if answer_now_shown b then mkRBlock (rb_props b) (rb_open b) (rb_phase b) (rb_start b) (rb_elapsed b) (rb_timer b) (S (rb_asked b)) else b
      end
  end.
Definition block_run (es : list REvent) (b : RBlock) : RBlock := foldl (fun b e => block_handle e b) b es.

Section said.
Context (t : jstr -> jstr).
(** The line, the text under it when the block is open, and whether the answer can be
    asked for; nothing without a reasoning. *)
Definition header (b : RBlock) : jstr :=
  if rp_streaming (rb_props b) then t (u "Réflexion en cours…") ++ match seconds b with Some n => u " " ++ string_of_Z n ++ u " s" | None => [] end
  else match seconds b with
       | Some n => replace_str (t (u "A réfléchi {n} s")) (u "{n}") (string_of_Z n)
       | None => t (u "Réflexion")
       end.
Definition ReasoningBlock (b : RBlock) : option (jstr * option jstr * bool) :=
  match rp_text (rb_props b) with
  | [] => None
  | s => Some (header b, if rb_open b then Some s else None, answer_now_shown b)
  end.

(** ** The word of the wait *)

Definition VERBS : list jstr :=
  [u "Réflexion"; u "Cogitation"; u "Rumination"; u "Gamberge"; u "Mijotage"; u "Élucubration"; u "Ébullition"; u "Méditation"; u "Tergiversation"; u "Concoction"].
Definition STATES : list jstr :=
  [u "working"; u "searching"; u "solving"; u "listening"; u "connecting"; u "weaving"; u "composing"; u "breathing"; u "shaping"].
Definition MIN_WORD_MS : Z := 10000.
Definition MAX_WORD_MS : Z := 15000.
(** [l[Math.floor(Math.random() * l.length)]]; [random] is below 1. *)
Definition draw (random : num) (l : list jstr) : jstr :=
  default [] (l !! Z.to_nat (default 0%Z (math_floor (nmul random (num_of_Z (Z.of_nat (length l))))))).
Definition next_verb (random : num) (prev : jstr) : jstr := draw random (List.filter (fun v => negb (streq v prev)) VERBS).
Definition next_delay (random : num) : num := nadd (num_of_Z MIN_WORD_MS) (nmul random (num_of_Z (MAX_WORD_MS - MIN_WORD_MS))).

Record Wait := mkWait { w_fixed : option jstr; w_verb : jstr; w_state : jstr; w_timer : option num }.
Definition has_label (o : option jstr) : bool := match o with Some (_ :: _) => true | _ => false end.
Definition wait_effect (random : num) (w : Wait) : Wait :=
  mkWait (w_fixed w) (w_verb w) (w_state w) (if has_label (w_fixed w) then None else Some (next_delay random)).
Definition wait_start (fixed : option jstr) (r1 r2 r3 : num) : Wait := wait_effect r3 (mkWait fixed (draw r1 VERBS) (draw r2 STATES) None).
Inductive WEvent := WRender (fixed : option jstr) (random : num) | WTimer (r1 r2 : num).
Definition same_label (a b : option jstr) : bool := match a, b with Some a, Some b => streq a b | None, None => true | _, _ => false end.
Definition wait_handle (e : WEvent) (w : Wait) : Wait :=
  match e with
  | WRender fixed r => let v := mkWait fixed (w_verb w) (w_state w) (w_timer w) in if same_label fixed (w_fixed w) then v else wait_effect r v
  | WTimer r1 r2 => match w_timer w with Some _ => mkWait (w_fixed w) (next_verb r1 (w_verb w)) (w_state w) (Some (next_delay r2)) | None => w end
  end.
Definition wait_run (es : list WEvent) (w : Wait) : Wait := foldl (fun w e => wait_handle e w) w es.
(** [fixedLabel ?? t(verb)] *)
Definition label (w : Wait) : jstr := match w_fixed w with Some s => s | None => t (w_verb w) end.

(** ** The button of the dictation *)

Inductive DictateView := Dictating | Transcribing | Dictable.
Definition dictate_view (available : bool) (d : Dict) : option (DictateView * jstr) :=
  if negb available then None
  else Some (if isRecording d then (Dictating, t (u "Arrêter la dictée"))
             else if isTranscribing d then (Transcribing, t (u "Transcription…")) else (Dictable, t (u "Dicter"))).
Definition failure (e : jstr) : jstr :=
  if streq e (u "mic") then t (u "Micro inaccessible — autorise l'accès au microphone dans ton navigateur.")
  else match e with [] => t (u "Échec de la transcription.") | _ => tServer e t end.
(** The button: [seen] and the toasts shown. *)
Record Told := mkTold { seen : option jstr; told : list jstr }.
Definition told_start : Told := mkTold None [].
Definition error_effect (error : option jstr) (s : Told) : Told :=
  match error with
  | None => s
  | Some e => if same_label error (seen s) then s else mkTold error (told s ++ [failure e])
  end.
(** The effect runs after each step of the dictation. *)
Definition told_step (x : Dict * Told) (e : DictEvent) : Dict * Told := let d := dict_step x.1 e in (d, error_effect (error d) x.2).
Definition told_run (es : list DictEvent) (x : Dict * Told) : Dict * Told := foldl told_step x es.
End said.

(** ** The fold follows the phase *)

Definition same_phase (s : bool) (e : REvent) : bool := match e with RRender _ p => eqb (rp_streaming p) s | _ => true end.
Definition has_text (p : RProps) : bool := match rp_text p with [] => false | _ => true end.
Definition with_text (e : REvent) : bool := match e with RRender _ p => has_text p | _ => true end.
(** The last toggle, if any. *)
Definition last_toggle (es : list REvent) (o : bool) : bool := foldl (fun o e => match e with RToggle v => v | _ => o end) o es.

Record block_ok (b : RBlock) : Prop := mkBlockOk {
  bo_phase : rb_phase b = rp_streaming (rb_props b); bo_timer : rb_timer b = rp_streaming (rb_props b) }.
Lemma block_ok_start now p : block_ok (block_start now p).
Proof. unfold block_start, phase_effect, clock_effect. cbn. rewrite eqb_reflx. by destruct (rp_streaming p) eqn:S; constructor; cbn; rewrite ?S. Qed.
Lemma block_ok_step e b : block_ok b -> block_ok (block_handle e b).
Proof.
  intros [P T]. destruct e as [now p|now|o|]; cbn [block_handle].
  - destruct (eqb_spec (rp_streaming p) (rp_streaming (rb_props b))) as [E|N]; [constructor; cbn; by rewrite E|].
    unfold phase_effect, clock_effect. cbn. destruct (rp_streaming p) eqn:S, (rb_phase b) eqn:H; cbn; rewrite ?S; cbn; constructor; cbn; congruence.
  - destruct (rb_timer b) eqn:E; constructor; cbn; congruence.
  - destruct (rp_text _); by constructor.
  - destruct (rp_text _); [by constructor|]. destruct (answer_now_shown b); by constructor.
Qed.
Lemma block_run_ok es : forall b, block_ok b -> block_ok (block_run es b).
Proof. induction es as [|e es IH]; intros b K; [done|]. by apply IH, block_ok_step. Qed.

Lemma toggled es : forall b, has_text (rb_props b) = true -> forallb (fun e => same_phase (rp_streaming (rb_props b)) e && with_text e) es = true ->
  rb_open (block_run es b) = last_toggle es (rb_open b).
Proof.
  induction es as [|e es IH]; intros b H F; [done|]. cbn [forallb] in F. apply andb_true_iff in F as [F F2]. apply andb_true_iff in F as [F0 F1].
  change (block_run (e :: es) b) with (block_run es (block_handle e b)). unfold last_toggle. cbn [foldl]. fold (last_toggle es).
  assert (G : has_text (rb_props (block_handle e b)) = true /\ rp_streaming (rb_props (block_handle e b)) = rp_streaming (rb_props b) /\
    rb_open (block_handle e b) = match e with RToggle v => v | _ => rb_open b end).
  { destruct e as [now p|now|o|]; cbn [block_handle same_phase with_text] in F0, F1 |- *.
    - rewrite F0. by apply eqb_prop in F0.
    - by destruct (rb_timer b).
    - unfold has_text in *. destruct (rp_text (rb_props b)) eqn:E; [done|]. cbn. by rewrite E.
    - unfold has_text in *. destruct (rp_text (rb_props b)) eqn:E; [done|]. by destruct (answer_now_shown b); cbn; rewrite E. }
  destruct G as (G1 & G2 & G3). rewrite IH, G3; [done|done|]. by rewrite G2.
Qed.
(** The block opens when the thinking begins and folds when the answer comes; in
    between it is as the reader left it, however often the text grows; its clock
    runs exactly while the model thinks. *)
Theorem reasoning_folds now p es b : block_ok b -> has_text p = true -> rp_streaming p <> rp_streaming (rb_props b) ->
  forallb (fun e => same_phase (rp_streaming p) e && with_text e) es = true ->
  let c := block_run es (block_handle (RRender now p) b) in rb_open c = last_toggle es (rp_streaming p) /\ rb_timer c = rp_streaming (rb_props c).
Proof.
  intros K H N F c. split; [|by apply block_run_ok, block_ok_step].
  assert (E : rb_props (block_handle (RRender now p) b) = p /\ rb_open (block_handle (RRender now p) b) = rp_streaming p).
  { destruct K as [P _]. cbn [block_handle]. destruct (eqb_spec (rp_streaming p) (rp_streaming (rb_props b))) as [E|_]; [by destruct N|].
    unfold phase_effect, clock_effect. cbn. destruct (rp_streaming p) eqn:S, (rb_phase b) eqn:B; cbn; rewrite ?S; cbn; try done; congruence. }
  destruct E as [E1 E2]. unfold c. rewrite toggled, E2; [done|by rewrite E1|by rewrite E1].
Qed.
(** The answer is offered for now only while the model thinks, after twenty seconds
    on the clock as it is shown. *)
Lemma answer_now_late b : answer_now_shown b = true -> rp_streaming (rb_props b) = true /\ (19500 <= rb_elapsed b)%Z.
Proof.
  unfold answer_now_shown, seconds, duration, ANSWER_NOW_AFTER_S. intros H. apply andb_true_iff in H as [H H2]. apply andb_true_iff in H as [H1 _].
  rewrite H1 in H2. split; [done|]. destruct (Z.leb_spec 1000 (rb_elapsed b)); cbn [from_option] in H2; [|done]. apply Z.leb_le in H2. unfold id in H2.
  pose proof (Z.mul_div_le (2 * rb_elapsed b + 1000) 2000 ltac:(lia)). lia.
Qed.

(** ** The word is never said twice in a row *)

(** [Math.random()] is below 1, so that the index drawn is below the length. *)
Definition below (r : num) (n : nat) : Prop := (0 <= default 0 (math_floor (nmul r (num_of_Z (Z.of_nat n)))) < Z.of_nat n)%Z.
Lemma draw_in r l : below r (length l) -> draw r l ∈ l.
Proof.
  unfold below, draw. set (z := default 0%Z _). intros B. destruct (l !! Z.to_nat z) as [x|] eqn:E; [by eapply list_elem_of_lookup_2|].
  apply lookup_ge_None in E. lia.
Qed.
Lemma other_verbs v : v ∈ VERBS -> length (List.filter (fun x => negb (streq x v)) VERBS) = 9.
Proof.
  intros I. apply list_elem_of_In in I. assert (T : forallb (fun v => length (List.filter (fun x => negb (streq x v)) VERBS) =? 9) VERBS = true) by (vm_compute; reflexivity).
  rewrite forallb_forall in T. by apply Nat.eqb_eq, T.
Qed.
Definition drawn (e : WEvent) : Prop := match e with WTimer r _ => below r 9 | WRender _ _ => True end.
Record wait_ok (w : Wait) : Prop := mkWaitOk { wo_verb : w_verb w ∈ VERBS; wo_timer : w_timer w = None <-> has_label (w_fixed w) = true }.
Lemma wait_effect_ok r w : w_verb w ∈ VERBS -> wait_ok (wait_effect r w).
Proof. intros I. constructor; [done|]. unfold wait_effect. cbn. by destruct (has_label (w_fixed w)). Qed.
Lemma next_verb_other r v : v ∈ VERBS -> below r 9 -> next_verb r v ∈ VERBS /\ next_verb r v <> v.
Proof.
  intros I B. assert (D : next_verb r v ∈ List.filter (fun x => negb (streq x v)) VERBS) by (apply draw_in; by rewrite other_verbs).
  apply list_elem_of_In, filter_In in D as [D1 D2]. split; [by apply list_elem_of_In|]. intros E. rewrite E in D2. by destruct (streq_spec v v).
Qed.
Lemma same_label_eq a b : same_label a b = true -> a = b.
Proof. destruct a as [a|], b as [b|]; cbn; try done. by destruct (streq_spec a b) as [->|]. Qed.
Lemma wait_ok_step e w : drawn e -> wait_ok w -> wait_ok (wait_handle e w).
Proof.
  intros D [I T]. destruct e as [fixed r|r1 r2]; cbn [wait_handle drawn] in *.
  - destruct (same_label fixed (w_fixed w)) eqn:E; [|by apply wait_effect_ok]. apply same_label_eq in E. constructor; cbn; [done|by rewrite E].
  - destruct (w_timer w) eqn:E; [|constructor; [exact I|by rewrite E]]. destruct (next_verb_other r1 (w_verb w) I D) as [V _]. constructor; cbn; [done|].
    destruct (has_label (w_fixed w)) eqn:L; [|done]. destruct T as [_ T]. by specialize (T eq_refl).
Qed.
(** The word of the wait is one of the list, the next one is another; nothing is
    drawn for a label of its own. *)
Theorem word_changes es w : wait_ok w -> Forall drawn es -> let w' := wait_run es w in w_verb w' ∈ VERBS /\
  (has_label (w_fixed w') = false -> w_timer w' <> None) /\ forall r1 r2, below r1 9 -> has_label (w_fixed w') = false -> w_verb (wait_handle (WTimer r1 r2) w') <> w_verb w'.
Proof.
  intros K F. assert (K' : wait_ok (wait_run es w)).
  { revert w K. induction F as [|e es D _ IH]; intros w K; [done|]. by apply IH, wait_ok_step. }
  destruct K' as [I T]. cbv zeta. split; [done|]. assert (N : has_label (w_fixed (wait_run es w)) = false -> w_timer (wait_run es w) <> None).
  { intros H E. apply T in E. by rewrite E in H. }
  split; [done|]. intros r1 r2 B H. cbn [wait_handle]. destruct (w_timer _) eqn:E; [|by destruct (N H)]. by apply next_verb_other.
Qed.

(** ** A failure is told once *)

(** The errors one after the other, those equal to the one before left out. *)
Fixpoint changes (last : option jstr) (es : list (option jstr)) : list jstr :=
  match es with
  | [] => []
  | None :: r => changes last r
  | Some e :: r => if same_label (Some e) last then changes last r else e :: changes (Some e) r
  end.
Fixpoint errors_of (d : Dict) (es : list DictEvent) : list (option jstr) :=
  match es with [] => [] | e :: r => error (dict_step d e) :: errors_of (dict_step d e) r end.
Theorem failures_told t es d s : told (told_run t es (d, s)).2 = told s ++ map (failure t) (changes (seen s) (errors_of d es)).
Proof.
  revert d s. induction es as [|e es IH]; intros d s; [by rewrite app_nil_r|].
  change (told_run t (e :: es) (d, s)) with (told_run t es (dict_step d e, error_effect t (error (dict_step d e)) s)). rewrite IH. cbn [errors_of changes].
  unfold error_effect. destruct (error (dict_step d e)) as [x|]; [|done]. destruct (same_label (Some x) (seen s)) eqn:E; cbn; [done|]. by rewrite <- app_assoc.
Qed.
(** So the same failure twice in a row is told once only: a second refusal of the
    microphone says nothing. *)
Lemma second_refusal_silent t v : let x := told_run t [MicRefused] (dict_start v, told_start) in
  length (told x.2) = 1 /\ told (told_run t [MicRefused] x).2 = told x.2.
Proof. split; reflexivity. Qed.

(** ** Examples *)

Definition thinking (s : jstr) : RProps := mkRProps s None true true.
Definition answered (ms : Z) : RProps := mkRProps (u "hmm") (Some ms) false false.
Definition thought (es : list REvent) : RBlock := block_run es (block_start 0 (thinking (u "h"))).
Example block_shown : map (fun es => ReasoningBlock id (thought es))
  [[]; [RTick 900]; [RTick 12400]; [RTick 19500]; [RToggle false; RTick 1500; RRender 1600 (thinking (u "hm"))]; [RTick 7000; RRender 7100 (answered 7040)]] =
  [Some (u "Réflexion en cours…", Some (u "h"), false); Some (u "Réflexion en cours…", Some (u "h"), false); Some (u "Réflexion en cours… 12 s", Some (u "h"), false);
   Some (u "Réflexion en cours… 20 s", Some (u "h"), true); Some (u "Réflexion en cours… 2 s", None, false); Some (u "A réfléchi 7 s", None, false)].
Proof. vm_compute. reflexivity. Qed.
Theorem reasoning_folds_witness :
  let c := block_run [RRender 10 (answered 9); RToggle true; RTick 12] (block_handle (RRender 5 (answered 9)) (thought [RTick 4])) in rb_open c = true /\ rb_timer c = rp_streaming (rb_props c).
Proof. apply (reasoning_folds 5 (answered 9) [RRender 10 (answered 9); RToggle true; RTick 12]); [apply block_run_ok, block_ok_start|reflexivity|discriminate|reflexivity]. Defined.
Definition half : num := num_of_decimal 5 (-1).
Theorem word_changes_witness : w_verb (wait_run [WTimer half half] (wait_start None half half half)) ∈ VERBS.
Proof.
  apply (word_changes [WTimer half half] (wait_start None half half half)); [apply wait_effect_ok, draw_in|constructor; [|constructor]]; split; vm_compute; congruence.
Defined.
