(* ===== verification/Account.v ===== *)
(** * An account in figures (_components/settings/AccountSection.tsx, UsageSection.tsx, format.ts, _components/ActivityHeatmap.tsx, admin/_components/users/UserDetailDialog.tsx, ranking/_components/RecordsCard.tsx)

    What the settings say of the user's own account, what an administrator sees of
    one, the records of the ranking.  [localeZ] writes a whole number in the language
    of the page, [date_text] a day and [stamp] a moment; [log10] is [Math.log10]. *)

From S2P Require Import Prelude JsString JsInt JsJson JsNumber Gate Ranking Heatmap Users.
Local Open Scope flow_scope.

(** ** Numbers *)

Definition ge (x : num) (z : Z) : bool := nle (num_of_Z z) x.
(** [replace(/\.0$/, "")] on a text with one decimal. *)
Definition drop_zero (s : jstr) : jstr := match rev s with 48%N :: 46%N :: r => rev r | _ => s end.
Definition compact (n : num) : jstr :=
  if ge n 1000000000 then drop_zero (to_fixed1 (ndiv n (num_of_Z 1000000000))) ++ u " G"
  else if ge n 1000000 then drop_zero (to_fixed1 (ndiv n (num_of_Z 1000000))) ++ u " M"
  else if ge n 1000 then let k := ndiv n (num_of_Z 1000) in int_text (math_round k) k ++ u " k"
  else int_text (math_round n) n.

(** ** The account's own page *)

Record Totals := mkTotals {
  to_days : list (jstr * Slot); to_total : num; to_prompt : num; to_completion : num;
  to_peak : num; to_peak_day : option jstr; to_active_days : num; to_avg : num
}.
Record Limit := mkLimit {
  l_label : jstr; l_desc : jstr; l_used : option num; l_max : option num; l_unit : jstr; l_unlimited : bool
}.
Record Own := mkOwn {
  o_username : jstr; o_fullname : jstr; o_is_admin : bool; o_spend : num; o_max_budget : option num;
  o_budget_reset_at : option jstr; o_unlimited : bool; o_key_count : num
}.
Inductive BarColor := BarSuccess | BarWarning | BarError.
Definition bar_color (x : num) : BarColor := if ge x 90 then BarError else if ge x 70 then BarWarning else BarSuccess.
(** A falsy amount: missing, zero or NaN. *)
Definition amount (o : option num) : option num := match o with Some (S754_zero _ | S754_nan) => None | _ => o end.
Definition pct_of (a : Own) : num :=
  match o_unlimited a, amount (o_max_budget a) with false, Some m => nmul (ndiv (o_spend a) m) (num_of_Z 100) | _, _ => num_of_Z 0 end.
(** The percentage of a quota, that of no more than all of it; [None]: no bar. *)
Definition limit_percent (l : Limit) : option num :=
  match l_unlimited l, amount (l_max l), l_used l with
  | false, Some m, Some used =>
      let x := nmul (ndiv used m) (num_of_Z 100) in
      Some (nmin (num_of_Z 100) (match math_round x with Some z => num_of_Z z | None => x end))
  | _, _, _ => None
  end.

Section account.
Context (t : jstr -> jstr) (num_text : num -> jstr) (localeZ : Z -> jstr) (date_text stamp : jstr -> jstr) (log10 : num -> num).

Definition fmt (n : num) : jstr := match math_round n with Some z => localeZ z | None => int_text None n end.
Definition tiles (a : Totals) : list (jstr * jstr) :=
  [(compact (to_total a), t (u "Tokens totaux")); (compact (to_peak a), t (u "Pic journalier"));
   (num_text (to_active_days a), t (u "Jours actifs")); (compact (to_avg a), t (u "Moyenne / jour"))].
Definition insights (a : Totals) : list (jstr * jstr) :=
  [(t (u "Total période"), fmt (to_total a));
   (t (u "Pic journalier"), match to_peak_day a with Some ((_ :: _) as d) => date_text (d ++ u "T00:00:00") ++ u " — " ++ fmt (to_peak a) | _ => u "—" end);
   (t (u "Jours actifs"), num_text (to_active_days a))].
Definition split (a : Totals) (o : Own) : list (jstr * jstr) :=
  [(t (u "Entrée (prompt)"), fmt (to_prompt a)); (t (u "Sortie (généré)"), fmt (to_completion a)); (t (u "Clés API actives"), num_text (o_key_count o))].
(** The budget: a badge, or what is spent, the bar with its color, the day it starts
    again. *)
Inductive BudgetCard := NoLimit (s : jstr) | Spent (s : jstr) (value : num) (color : BarColor) (reset : option jstr).
Definition budget_card (o : Own) : BudgetCard :=
  if o_unlimited o then NoLimit (t (u "Budget illimité (admin)"))
  else Spent (fmt (o_spend o) ++ u " / " ++ fmt (default (num_of_Z 0) (amount (o_max_budget o))) ++ u " tokens")
         (nmin (pct_of o) (num_of_Z 100)) (bar_color (pct_of o))
         (match o_budget_reset_at o with
          | Some ((_ :: _) as d) => Some (replace_str (t (u "Remis à zéro le {date}.")) (u "{date}") (date_text d))
          | _ => None
          end).
Inductive UsageLine := BadgeLine (s : jstr) (warning : bool) | BarLine (value : num) (color : BarColor) (s : jstr).
Definition usage_line (l : Limit) : UsageLine :=
  match limit_percent l with
  | None => if l_unlimited l then BadgeLine (t (u "Illimité")) true else BadgeLine (fmt (default (num_of_Z 0) (l_max l)) ++ u " " ++ l_unit l) false
  | Some x => BarLine x (bar_color x) (num_text x ++ u " " ++ t (u "% utilisé"))
  end.
Definition UsageSection (ls : list Limit) : list (jstr * jstr * UsageLine) := map (fun l => (t (l_label l), t (l_desc l), usage_line l)) ls.

(** ** The days of the account *)

Definition CELL : Z := 11.
Definition STEP : Z := CELL + 3.
Definition weeks (f : Z) (days : list (jstr * Slot)) : Z := (f + Z.of_nat (length days) + 6) / 7.
Definition day_x (f : Z) (i : nat) : Z := (f + Z.of_nat i) / 7 * STEP.
Definition day_y (f : Z) (i : nat) : Z := (f + Z.of_nat i) mod 7 * STEP.
Definition busiest_day (days : list (jstr * Slot)) : Z := foldl (fun m d => Z.max m (s_tokens d.2)) 1%Z days.
(** The shade of a day; [None] is NaN, of which there is no color. *)
Definition level (max tokens : Z) : option Z :=
  if (tokens <=? 0)%Z then Some 0%Z
  else (fun z => Z.min 4 (1 + z)) <$> math_floor (nmul (ndiv (log10 (num_of_Z tokens)) (log10 (num_of_Z max))) (num_of_decimal 399 (-2))).
Definition ActivityHeatmap (days : list (jstr * Slot)) : list (Z * Z * option Z * jstr) :=
  match first days with
  | Some f => imap (fun i d => (day_x f i, day_y f i, level (busiest_day days) (s_tokens d.2),
      date_text (d.1 ++ u "T00:00:00") ++ u " — " ++ localeZ (s_tokens d.2) ++ u " tokens")) days
  | None => []
  end.

(** ** What an administrator sees *)

Record Media := mkMedia { me_count : Z; me_last : option jstr }.
Record AdminUserDetail := mkDetail {
  d_username : option jstr; d_fullname : option jstr; d_sources : option jstr; d_last_source : option jstr; d_last_seen : option jstr;
  d_role : option jstr; d_enabled : option bool; d_group : option jstr; d_max_budget : option num; d_effective_budget : option num;
  d_blocked : option (option jstr * option jstr * option jstr);      (* reason, author, date, when blocked *)
  d_litellm : option (option num * option jstr);                     (* spend and period, when the profile exists *)
  d_keys : list (option jstr * option jstr * option num); d_memory_facts : num; d_conversations : num; d_sessions : nat;
  d_audit : list (option jstr * option jstr * option jstr * option jstr); d_activity : option Totals; d_status : option DirectoryStatus;
  d_media : option (Media * Media * Media * Media); d_requests : list (jstr * jstr * jstr)
}.
Definition text_or (o : option jstr) (d : jstr) : jstr := match o with Some ((_ :: _) as s) => s | _ => d end.
Definition nonempty_o (o : option jstr) : list jstr := match o with Some ((_ :: _) as s) => [s] | _ => [] end.
(** [detailSources] *)
Definition detail_sources (d : AdminUserDetail) : list jstr :=
  match d_sources d with Some ((_ :: _) as s) => List.filter (fun x => match x with [] => false | _ => true end) (map trim (split_on (u ",") s)) | _ => [] end.
Definition tokens_word (z : Z) : jstr := t (if (1 <? z)%Z then u "tokens" else u "token").
Definition more_than_one (x : num) : bool := nlt (num_of_Z 1) x.
Definition with_tokens (x : num) : jstr := fmt x ++ u " " ++ t (if more_than_one x then u "tokens" else u "token").
Definition drawer_badges (d : AdminUserDetail) : list jstr :=
  (match d_role d with Some r => if streq r (u "admin") then [t (u "Admin")] else [] | None => [] end)
  ++ (match d_blocked d with Some _ => [t (u "Bloqué")] | None => [] end)
  ++ (match d_enabled d with Some false => [t (u "Désactivé")] | _ => [] end)
  ++ (match d_status d with Some s => [t (fst (DIRECTORY_STATUS_META s))] | None => [] end).
Definition drawer_block (d : AdminUserDetail) : list jstr :=
  match d_blocked d with
  | None => []
  | Some (reason, by_, at_) => [t (u "Bloqué")] ++ nonempty_o reason ++ map (fun s => t (u "par") ++ u " " ++ s) (nonempty_o by_) ++ map stamp (nonempty_o at_)
  end.
Definition drawer_budget (d : AdminUserDetail) : list (jstr * jstr) :=
  [(t (u "Surcharge utilisateur"), match d_max_budget d with Some x => fmt x | None => u "—" end);
   (t (u "Quota effectif"), match d_effective_budget d with Some x => with_tokens x | None => u "—" end);
   (t (u "Dépensé (LiteLLM)"), match d_litellm d with Some (spend, _) => with_tokens (default (num_of_Z 0) spend) | None => t (u "Aucun profil LiteLLM") end)]
  ++ map (pair (t (u "Fenêtre de budget"))) (match d_litellm d with Some (_, p) => nonempty_o p | None => [] end)
  ++ map (pair (t (u "Groupe"))) (nonempty_o (d_group d)).
Definition drawer_media (d : AdminUserDetail) : list (jstr * jstr * list jstr) :=
  match d_media d with
  | None => []
  | Some (i, v, s, o) => omap (fun x : jstr * Media => if (0 <? me_count x.2)%Z then Some (t x.1, localeZ (me_count x.2), map stamp (nonempty_o (me_last x.2))) else None)
      [(u "Images", i); (u "Vidéo", v); (u "Voix", s); (u "OCR", o)]
  end.
Definition request_status (s : jstr) : jstr :=
  t (if streq s (u "done") then u "Acceptée" else if streq s (u "rejected") then u "Refusée" else u "En attente").
Definition drawer_keys (d : AdminUserDetail) : list (jstr * list jstr * jstr) :=
  map (fun '(alias, created, spend) =>
    let z := default 0%Z (math_round (default (num_of_Z 0) spend)) in
    (text_or alias (t (u "Sans nom")), map stamp (nonempty_o created), localeZ z ++ u " " ++ tokens_word z)) (d_keys d).
Definition drawer_audit (d : AdminUserDetail) : list (jstr * list jstr) :=
  map (fun '(action, detail_, by_, at_) => (text_or action (u "—"), nonempty_o detail_ ++ nonempty_o by_ ++ map stamp (nonempty_o at_))) (d_audit d).
Definition drawer_lines (d : AdminUserDetail) : list jstr :=
  nonempty_o (d_fullname d) ++ map (fun s => t (u "Dernière source") ++ u " : " ++ to_upper s) (nonempty_o (d_last_source d))
  ++ map (fun s => t (u "Dernière activité") ++ u " : " ++ stamp s) (nonempty_o (d_last_seen d)).
Definition drawer_requests (d : AdminUserDetail) : list (jstr * jstr * jstr) :=
  map (fun '(model, status, created) => (model, request_status status, stamp created)) (d_requests d).
Definition drawer_counts (d : AdminUserDetail) : list jstr :=
  [t (u "Mémoire") ++ u " : " ++ num_text (d_memory_facts d); t (u "Conversations") ++ u " : " ++ num_text (d_conversations d)].
Definition drawer_activity (d : AdminUserDetail) : option (list (jstr * jstr) * list (Z * Z * option Z * jstr)) :=
  (fun a => (tiles a, ActivityHeatmap (to_days a))) <$> d_activity d.
(** The drawer: the error, the wait, or the account with whether its sessions can be
    revoked. *)
Inductive DrawerBody := Loading | Nothing | Sheet (name : jstr) (badges sources : list jstr) (revocable : bool).
Definition drawer (opened : option LocalUser) (d : option AdminUserDetail) (loading : bool) (error : option jstr) : list jstr * DrawerBody :=
  (nonempty_o error,
   match d with
   | None => if loading then Loading else Nothing
   | Some d => Sheet (match d_username d with Some n => n | None => default [] (username <$> opened) end) (drawer_badges d)
                 (map (fun s => t (source_label s)) (detail_sources d)) (0 <? d_sessions d)
   end).

(** ** The records *)

Record Records := mkRecords {
  r_best : list ((option jstr * bool) * jstr * num); r_longest : list ((option jstr * bool) * Z); r_current : list ((option jstr * bool) * Z);
  r_firsts : list ((option jstr * bool) * jstr * jstr); r_me : option (jstr * num * Z * Z * num * list jstr)
}.
Definition who (x : option jstr * bool) : jstr := if x.2 then t (u "toi") else default (t (u "Compte anonyme")) x.1.
Definition days_said (n : Z) : jstr := replace_str (t (if (1 <? n)%Z then u "{n} jours" else u "{n} jour")) (u "{n}") (string_of_Z n).
Definition record_day (iso : jstr) : jstr := date_text (iso ++ u "T12:00:00").
Definition records_shown (r : option Records) : bool := match r with Some r => (0 <? length (r_best r)) || (0 <? length (r_firsts r)) | None => false end.
Definition records_mine (r : Records) : list jstr :=
  match r_me r with
  | None => []
  | Some (bd, bn, cs, ls, ad, fo) =>
      [replace_str (replace_str (t (u "Ton plus gros jour : {d} ({n} tokens)")) (u "{d}") (record_day bd)) (u "{n}") (fmt bn);
       replace_str (replace_str (t (u "Série en cours : {s} · record : {r}")) (u "{s}") (days_said cs)) (u "{r}") (days_said ls);
       replace_str (t (u "{n} jours actifs")) (u "{n}") (fmt ad)]
      ++ (match fo with [] => [] | l => [replace_str (t (u "Premier sur : {m}")) (u "{m}") (join (u ", ") l)] end)
  end.
Definition records_sections (r : Records) : list (jstr * list jstr) :=
  [(t (u "Plus gros jours"), map (fun '(w, d, n) => who w ++ u " — " ++ fmt n ++ u " tokens, " ++ record_day d) (r_best r));
   (t (u "Plus longues séries"), map (fun '(w, n) => who w ++ u " — " ++ days_said n) (r_longest r));
   (t (u "Séries en cours"), map (fun '(w, n) => who w ++ u " — " ++ days_said n) (r_current r));
   (t (u "Premiers sur un modèle"), map (fun '(w, m, d) => m ++ u " — " ++ who w ++ u ", " ++ record_day d) (take 5 (r_firsts r)))].
End account.

(** ** The texts of the amounts *)

Lemma drop_zero_spec s : (exists r, s = r ++ u ".0" /\ drop_zero s = r) \/ (drop_zero s = s /\ forall r, s <> r ++ u ".0").
Proof.
  unfold drop_zero. destruct (rev s) as [|a [|b r]] eqn:E.
  - right. split; [done|]. intros r ->. rewrite rev_app_distr in E. discriminate.
  - right. assert (X : s = [a]) by (rewrite <- (rev_involutive s), E; done). split; [by destruct a as [|[]]; repeat case_match|]. intros r R. rewrite X in R. destruct r as [|? []]; discriminate.
  - assert (X : s = rev r ++ [b; a]) by (rewrite <- (rev_involutive s), E; cbn; by rewrite <- app_assoc).
    destruct (decide (a = 48%N)) as [->|A]; [destruct (decide (b = 46%N)) as [->|B]|].
    + left. exists (rev r). split; [exact X|done].
    + right. split; [by repeat case_match|]. intros q Q. rewrite X in Q. apply app_inj_2 in Q as [_ [= Y]]; [by apply B|done].
    + right. split; [by repeat case_match|]. intros q Q. rewrite X in Q. apply app_inj_2 in Q as [_ [= Y Z]]; [by apply A|done].
Qed.

(** ** A day in its place *)

Lemma day_in_box f days i : (0 <= f < 7)%Z -> i < length days -> (0 <= day_x f i /\ day_x f i + CELL <= weeks f days * STEP /\ 0 <= day_y f i /\ day_y f i + CELL <= 7 * STEP)%Z.
Proof.
  intros F L. unfold day_x, day_y, weeks, STEP, CELL. assert (B := Z.mod_pos_bound (f + Z.of_nat i) 7 ltac:(lia)).
  assert (D : (0 <= (f + Z.of_nat i) / 7)%Z) by (apply Z.div_pos; lia).
  assert (E : ((f + Z.of_nat i) / 7 + 1 <= (f + Z.of_nat (length days) + 6) / 7)%Z); [|lia].
  replace ((f + Z.of_nat i) / 7 + 1)%Z with ((f + Z.of_nat i + 1 * 7) / 7)%Z by (rewrite Z.div_add; lia). apply Z.div_le_mono; lia.
Qed.
(** In the calendar of an account each day has a square of its own, inside the
    drawing, on the row of its real weekday. *)
Theorem day_in_its_place days f : consecutive days -> first days = Some f ->
  (forall i j, day_x f i = day_x f j -> day_y f i = day_y f j -> i = j) /\
  forall i x, days !! i = Some x -> (exists w, getDay x.1 = Some w /\ day_y f i = (w + 6) mod 7 * STEP)%Z /\
    (0 <= day_x f i /\ day_x f i + CELL <= weeks f days * STEP /\ 0 <= day_y f i /\ day_y f i + CELL <= 7 * STEP)%Z.
Proof.
  intros C F. assert (R := first_range days f F). split.
  - intros i j X Y. apply (cell_once f i j); unfold col, row, day_x, day_y, STEP, CELL in *; lia.
  - intros i x L. split; [|apply day_in_box; [done|by eapply lookup_lt_Some]]. destruct (row_weekday days f i x C F L) as (w & W & E).
    exists w. split; [done|]. unfold day_y. fold (row f i). by rewrite E.
Qed.

(** ** The drawer *)

(** No source of an account is shown empty or with its spaces. *)
Lemma sources_clean d : Forall (fun s => s <> [] /\ exists x, s = trim x) (detail_sources d).
Proof.
  unfold detail_sources. destruct (d_sources d) as [[|c s]|]; [constructor| |constructor]. apply Forall_forall. intros x I. apply list_elem_of_In, filter_In in I as [I N].
  apply in_map_iff in I as (y & <- & _). split; [|by exists y]. intros E. by rewrite E in N.
Qed.
(** The sheet of an account is shown as soon as there is one, and never while only an
    error is known. *)
Lemma sheet_needs_detail t o d l e : match (drawer t o d l e).2 with Sheet _ _ _ _ => is_Some d | Loading => d = None /\ l = true | Nothing => d = None /\ l = false end.
Proof. unfold drawer. destruct d as [d|]; [by eexists|]. by destruct l. Qed.

(** ** What the figures do not do *)

(** The unit is chosen before rounding. *)
Lemma thousand_thousands : (compact (num_of_Z 999600), compact (num_of_Z 999960000)) = (u "1000 k", u "1000 M").
Proof. vm_compute. reflexivity. Qed.
Example compacts : map (fun z => compact (num_of_Z z)) [999; 1000; 12400; 1000000; 2500000; 3000000000]%Z = [u "999"; u "1 k"; u "12 k"; u "1 M"; u "2.5 M"; u "3 G"].
Proof. vm_compute. reflexivity. Qed.
(** A budget of nothing is falsy: whatever was spent, its bar is empty and green. *)
Definition broke : Own := mkOwn (u "bob") (u "Bob") false (num_of_Z 500) (Some (num_of_Z 0)) None false (num_of_Z 1).
Lemma empty_budget_green t lz dt : match budget_card t lz dt broke with Spent _ v c _ => (v, c) = (num_of_Z 0, BarSuccess) | NoLimit _ => False end.
Proof. reflexivity. Qed.
(** Days of one token at most: the logarithms are both zero, and the shade is NaN. *)
Lemma one_token_no_shade log10 : log10 (num_of_Z 1) = num_of_Z 0 -> level log10 (busiest_day [(u "2026-01-01", mkSlot 0 1)]) 1 = None.
Proof. intros E. change (busiest_day _) with 1%Z. unfold level. cbn [Z.leb Z.compare]. by rewrite E. Qed.
Example usage_lines : map (fun x => limit_percent (mkLimit [] [] (Some (num_of_Z x)) (Some (num_of_Z 200)) [] false)) [0; 139; 500]%Z = [Some (num_of_Z 0); Some (num_of_Z 70); Some (num_of_Z 100)].
Proof. vm_compute. reflexivity. Qed.

Definition january : list (jstr * Slot) := map (fun s => (s, mkSlot 0 5)) [u "2026-01-03"; u "2026-01-04"; u "2026-01-05"].
Theorem day_in_its_place_witness : forall i x, january !! i = Some x -> exists w, getDay x.1 = Some w /\ day_y 5 i = ((w + 6) mod 7 * STEP)%Z.
Proof.
  assert (C : consecutive january).
  { exists 20456%Z. intros [|[|[|i]]] x; cbn; intros H; [injection H as <-; vm_compute; reflexivity..|done]. }
  intros i x L. destruct (day_in_its_place january 5 C eq_refl) as [_ H]. exact (proj1 (H i x L)).
Defined.
